(* ===== verification/_CoqProject ===== *)
-Q . S2P
Prelude.v
SoftPrim.v
SoftRound.v
SoftF16.v
SoftF32.v
SoftF64.v
SoftF128.v
SoftConv.v
SoftBF16.v
SoftMisc.v
IntArith.v
Decode.v
Encoding.v
Opcodes.v
Assembler.v
DebugDefines.v
JtagDtm.v
IsaExt.v
Trap.v
Hart.v
IsaParser.v
CacheSim.v
DebugModule.v
Pmp.v
Triggers.v
Csr.v
CsrFile.v
CsrInit.v
Mmu.v
Memif.v
ElfLoader.v
Devices.v
Clint.v
Plic.v
Uart.v
Macros.v
InsnsInt.v
InsnsMem.v
InsnsPriv.v
InsnsC.v
InsnsCrypto.v
InsnsFp.v
Vector.v
VMacros.v
InsnsVMem.v
InsnsV.v
InsnsVFp.v
InsnsVK.v
InsnList.v
InsnTable.v
Processor.v
Sim.v
SimHost.v
SoftFacts.v
FloatFacts.v
HartFacts.v
TriggerFacts.v
DeviceFacts.v
PlicFacts.v
UartFacts.v
SimFacts.v
Machine.v
DecoderFacts.v
CsrFacts.v
TrapFacts.v
PmpFacts.v
MmuFacts.v
MemifFacts.v
SimHostFacts.v
ElfFacts.v
WalkFacts.v
FpFacts.v
VectorFacts.v
VLoopFacts.v
IsaParserFacts.v
CacheFacts.v
DebugFacts.v
JtagFacts.v
