(* ===== verification/Prelude.v ===== *)
(** * The RISC-V ISA simulator: a hart and its platform

    A shallow embedding of the simulator under [src/riscv]: decoding, the
    integer, memory, floating-point, vector, privileged, compressed and
    cryptography instructions with the SoftFloat library, the CSRs, physical
    memory protection, the MMU, traps and interrupts, triggers, the step loop, the bus with
    its devices, the debug module, the parser of ISA strings, the cache
    simulator, and the loader of ELF files with the memory interface it writes
    through, with theorems about them.

    ** The program and this model of it

    A [processor_t] fetches through its [mmu_t], looks the word up in its
    opcode table, calls the function of the instruction, and handles what the
    function throws.  The functions are the files [insns/*.h] compiled through
    [insn_template.cc]; they use the macros of [decode_macros.h] to read and
    write [state_t], the CSR objects and memory.

    State is explicit.  [Hart.hart] is the record of all that an operation can
    change: [state_t] with its registers, the values of the CSR objects, the
    mutable members of [processor_t] and [mmu_t] (TLBs, instruction and opcode
    caches, reservation), physical memory, and the states of the devices and
    of the trigger module.  An operation is a value of the monad
    [Hart.M A = hart -> outcome A * hart]; a C++ exception is the outcome
    [Exc], and the writes before it stay.  A failed [assert], a call of
    [abort] and a null dereference are [Exc Abort].  Unsigned C integers are
    [Z]s in range, with every wrap-around and conversion written
    ([Prelude.wrap], [Prelude.swrap]).

    Code outside the model is a parameter: [Hart.config] is what the parsed
    ISA string ([IsaParser.configure]) and [cfg_t] fix, [Hart.simif] the bus ([simif_t]),
    [Hart.trigger_module] the triggers, of which [Triggers.triggers_module] is
    the instance, [InsnTable.other_insns] the body of [fsqrt.q].  [Machine] has concrete instances, on which the
    witnesses of the theorems run.

    A device ([Devices.abstract_device]) is a state with a load and a store;
    what it does to others, it returns: acts on a hart ([Hart.hart_effect]),
    levels of interrupt lines, characters for the terminal, or [Devices.Aborts], an
    assertion that failed in it: the platform remembers it, and the turn of the hart has
    no result ([Sim.run_proc]).

    ** The files

    - [Prelude]: fixed-width integers, bit-level automation.
    - [IntArith] ([arith.h]), [Decode] ([decode.h]), [Encoding]
      ([encoding.h]: its constants by name, and its [DEFINE_*] and
      [DECLARE_*] lines as tables), [Opcodes] (its table of opcodes), [Assembler]
      ([opcodes.h]), [IsaExt] ([isa_parser.h]), [Trap] ([trap.h]).
    - [IsaParser] ([isa_parser.cc]): from an ISA string to the extensions and sizes
      of a machine.  A refusal is [Bad_isa] with its message, a read behind the end of
      the string [Overread].
    - [CacheSim] ([cachesim.cc], [memtracer.h]): the caches that count accesses beside
      the execution, a list of levels each of which is the miss handler of the one
      before; the two first levels and the second one they share.
    - [Hart]: the state and its monad ([processor.h], [mmu.h]).
    - [Pmp], [Csr], [CsrFile], [CsrInit]: the CSR classes ([csrs.h],
      [csrs.cc]) and the map from numbers to objects ([csr_init.cc]).  A CSR
      object is a value of [CsrFile.csr_t], one constructor per class; the
      virtual methods [read], [verify_permissions] and [unlogged_write] are
      functions by cases on it.
    - [Triggers]: [triggers.cc] and [triggers.h].
    - [DebugModule] ([debug_module.cc]), [JtagDtm] ([jtag_dtm.cc], and the
      commands of [remote_bitbang.cc]), [DebugDefines] ([debug_defines.h]: the
      registers and fields, as tables).  The transport sees the debug module
      through the class [JtagDtm.dmi_target], whose laws are [JtagDtm.dmi_safe];
      the module sees the harts as acts it returns, and the system bus as a state
      with a load and a store.
    - [Mmu]: [mmu.cc] and [mmu.h].
    - [Memif] ([fesvr/memif.cc], [byteorder.h], [htif_hexwriter.cc]): what the host
      does to the memory of the target, in the monad [Memif.host] of operations that
      may fail; the class [Memif.chunked_memif] has the methods of a memory in chunks,
      and [MemifFacts.flat_memif] what such a memory promises.  [ElfLoader]
      ([fesvr/elfloader.cc], [elf.h]): the loader, over the bytes of a file, in which a
      read that leaves the file is [Memif.Wild].
    - [Devices] ([devices.cc], [rom.cc]: the bus, the boot ROM, memory), [Clint]
      ([clint.cc]), [Plic] ([plic.cc]), [Uart] ([ns16550.cc]).
    - [Macros]: [decode_macros.h], [insn_macros.h], [zicfiss.h],
      [insn_template.cc] and the methods of [processor_t] that instructions
      call.
    - [InsnsInt], [InsnsMem], [InsnsPriv], [InsnsC], [InsnsCrypto]: one
      definition [insn_<name>] per file [insns/<name>.h].
    - [SoftPrim], [SoftRound], [SoftF16], [SoftF32], [SoftF64], [SoftF128],
      [SoftConv], [SoftBF16], [SoftMisc]: the routines of [src/softfloat], each
      with its name there.  A float is the number of its bits, one of 128 bits
      the pair of its words; the rounding mode is the first argument, the
      exception flags the last one, returned beside the result.
    - [InsnsFp]: the floating-point instructions.
    - [Vector] ([vector_unit.cc], [vector_unit.h]): the state of the vector unit,
      [set_vl], and the reference [elt] as an offset in the register file, a map
      from offsets to bytes.  [vflmul], a [float] in the source, is its multiple
      of 1/1024, exact for the powers of two it takes.  [VMacros]
      ([v_ext_macros.h]): checks of register groups, loops, one definition per
      macro, the body of a loop being its argument.  [InsnsVMem], [InsnsV],
      [InsnsVFp], [InsnsVK] ([zvk_ext_macros.h] and its companions): the loads
      and stores, the integer, mask and permutation instructions, the
      floating-point ones, the cryptography ones.
    - [InsnList], [InsnTable]: the opcode table built by [riscv.mk.in], and
      the bodies by name.
    - [Processor]: [processor.cc] and [execute.cc]; [Sim]: [sim.cc];
      [SimHost]: the memory of the simulator as the host sees it.
    - [HartFacts] (shared lemmas), [DecoderFacts], [CsrFacts], [TrapFacts],
      [PmpFacts], [MmuFacts], [WalkFacts], [TriggerFacts], [DeviceFacts],
      [PlicFacts], [UartFacts], [SimFacts], [SoftFacts] (rounding, shared by
      the next), [FloatFacts], [FpFacts], [VectorFacts], [VLoopFacts],
      [DebugFacts], [JtagFacts], [IsaParserFacts], [CacheFacts],
      [MemifFacts], [SimHostFacts], [ElfFacts]: the theorems, with their witnesses.

    ** What the theorems show

    - Decoding ([DecoderFacts]): the opcodes outside [overlap_list.h] are
      pairwise disjoint; the linear search finds the opcode a word encodes;
      the opcode cache with its replacement is invisible.
    - Protection ([PmpFacts]): locked entries survive every sequence of
      writes; the addresses each kind of entry matches; the permission
      formula is the Smepmp table; checking a page once is sound.
    - CSRs ([CsrFacts]): [mstatus] keeps legal values; what it is to make [FS] or
      [VS] dirty; the interrupt priority chain is the default order.
    - Traps ([TrapFacts]): the interrupt taken is the specified one; what a
      trap to M-mode records; [mret] returns from it.
    - Memory ([MmuFacts], [WalkFacts]): a store is read back, the TLB answers
      what the walk found, AMOs and the pair of load-reserved and
      store-conditional are atomic; a walk translates only through entries that
      allow the access, and can only fault.
    - Triggers ([TriggerFacts]): those of the debugger are out of reach of the
      program; what a trigger compares; chains fire as a whole; counters count.
    - Debugging ([DebugFacts], [JtagFacts]): the debug module stays within its
      arrays and its harts; authentication; abstract commands; the waits of
      the system bus; one scan of the TAP is one access, or is refused.
    - Devices ([DeviceFacts], [PlicFacts], [UartFacts]): sparse memory is a flat
      array and survives a checkpoint; the bus keeps devices apart and finds the
      one an access belongs to; timer interrupts follow the comparison; claim
      and completion of interrupts, and how long a claim holds; the queue of the serial port.
    - Floating point ([FloatFacts], [FpFacts]): multiplication, conversions and
      comparisons are those of IEEE 754; the instructions box their result and
      accrue the flags.
    - Vectors ([VectorFacts], [VLoopFacts]): [vsetvl] keeps the invariant of the
      unit and takes the legal configurations; an element-wise instruction
      computes each active element from the values before it, also in place.
    - Configuration ([IsaParserFacts]): what the parser accepts is a consistent
      machine, whose vector unit meets the hypotheses of the theorems on it; the order
      of the extensions is irrelevant; where the parser reads too far.
    - Caches ([CacheFacts]): a cache is a map from lines to dirty bits; its counters
      add up, and so do those of two levels.
    - Loading ([MemifFacts], [SimHostFacts], [ElfFacts]): over a flat memory, which
      that of the simulator is, any array of bytes is read and written; memory ends
      with the image that the program headers describe; the loader stays inside of a
      file whose offsets and sizes do not wrap around.
    - Arithmetic ([IntArith], [Assembler]): wide products, saturation, bit
      counts and rotations are exact; the encoders invert the field accessors.

    ** Bounds and fuel

    Loops of the source with a bound known in advance are folds over
    [IntArith.zseq]; page walks recurse on the number of levels.  The [while]
    loop of [processor_t::step] has the number of turns as fuel, and
    [Processor.step_loop] returns [None] when it runs out.

    ** What is not modelled

    [fsqrt.q] is behind the parameter above, as is the branch of the parser for hosts
    that are big endian.  Logging, commit logs (but for their effect on the TLBs,
    [Hart.cfg_log]), checkpoints of the
    hart, trace files, the disassembler, the printing of the cache counters, the socket of the debug
    transport and the front end do not change the hart and are left out. *)

From Stdlib Require Export ZArith Lia Bool List String Ascii Btauto.
From stdpp Require Export base tactics list gmap.

#[export] Set Default Goal Selector "!".
Export ListNotations.
Global Open Scope Z_scope.

(** * Fixed-width integers

    A C integer of width [w] is a [Z]; [wrap w] is the conversion to the
    unsigned type and [swrap w] the conversion to the signed (two's
    complement) type of that width. *)

Definition wrap (w z : Z) : Z := z mod 2 ^ w.
Definition swrap (w z : Z) : Z := (z + 2 ^ (w - 1)) mod 2 ^ w - 2 ^ (w - 1).

Abbreviation u8 := (wrap 8).
Abbreviation u16 := (wrap 16).
Abbreviation u32 := (wrap 32).
Abbreviation u64 := (wrap 64).
Abbreviation i8 := (swrap 8).
Abbreviation i16 := (swrap 16).
Abbreviation i32 := (swrap 32).
Abbreviation i64 := (swrap 64).

(** C's implicit conversions between [bool] and integers. *)
Definition b2z (b : bool) : Z := if b then 1 else 0.
Definition z2b (z : Z) : bool := negb (z =? 0).

(** C's bitwise operators; [a &~ b] is [a & ~b]. *)
Notation "a &~ b" := (Z.ldiff a b) (at level 40, left associativity) : Z_scope.
Notation "a .& b" := (Z.land a b) (at level 40, left associativity) : Z_scope.
Notation "a .| b" := (Z.lor a b) (at level 50, left associativity) : Z_scope.
Notation "a .^ b" := (Z.lxor a b) (at level 45, left associativity) : Z_scope.

(** Integer promotion of a bitwise complement: [~x] at width [w]. *)
Definition unot (w z : Z) : Z := wrap w (Z.lnot z).
Abbreviation unot64 := (unot 64).

Definition UINT64_MAX : Z := 2 ^ 64 - 1.
Definition INT64_MIN : Z := - 2 ^ 63.

(** * Bit-level rewriting

    [zbits] is the database of unconditional-looking [Z.testbit] equations;
    their arithmetic side conditions are left to [lia].  [bitwise] proves an
    equation between integers by comparing them bit by bit. *)

Create HintDb zbits.

Lemma tb_shiftl a n i :
  0 <= i -> Z.testbit (Z.shiftl a n) i = Z.testbit a (i - n).
Proof. apply Z.shiftl_spec. Qed.

Lemma tb_mod a n i :
  0 <= n -> 0 <= i -> Z.testbit (a mod 2 ^ n) i = (i <? n) && Z.testbit a i.
Proof. intros. by rewrite Z.testbit_mod_pow2. Qed.

Lemma tb_wrap w a i :
  0 <= w -> 0 <= i -> Z.testbit (wrap w a) i = (i <? w) && Z.testbit a i.
Proof. apply tb_mod. Qed.

Lemma tb_ones n i :
  0 <= n -> 0 <= i -> Z.testbit (Z.ones n) i = (i <? n).
Proof.
  intros. rewrite Z.testbit_ones_nonneg; done.
Qed.

Lemma tb_neg a i : i < 0 -> Z.testbit a i = false.
Proof. intros. by apply Z.testbit_neg_r. Qed.

Lemma tb_if (b : bool) x y i :
  Z.testbit (if b then x else y) i = if b then Z.testbit x i else Z.testbit y i.
Proof. by destruct b. Qed.

Lemma swrap_wrap w a : 0 < w -> swrap w (wrap w a) = swrap w a.
Proof.
  intros. unfold swrap, wrap. by rewrite Zplus_mod_idemp_l.
Qed.

Lemma wrap_swrap w a : 0 < w -> wrap w (swrap w a) = wrap w a.
Proof.
  intros. unfold swrap, wrap. rewrite Zminus_mod_idemp_l. f_equal. lia.
Qed.

Lemma wrap_wrap w v a : 0 <= w <= v -> wrap w (wrap v a) = wrap w a.
Proof.
  intros. unfold wrap. apply Z.mod_mod_divide.
  exists (2 ^ (v - w)). rewrite <- Z.pow_add_r by lia. f_equal. lia.
Qed.

Lemma wrap_range w a : 0 <= w -> 0 <= wrap w a < 2 ^ w.
Proof. intros. apply Z.mod_pos_bound. lia. Qed.

Lemma swrap_range w a : 0 < w -> - 2 ^ (w - 1) <= swrap w a < 2 ^ (w - 1).
Proof.
  intros. unfold swrap.
  pose proof (Z.mod_pos_bound (a + 2 ^ (w - 1)) (2 ^ w)).
  assert (2 ^ w = 2 * 2 ^ (w - 1)).
  { rewrite <- Z.pow_succ_r by lia. f_equal. lia. }
  lia.
Qed.

Lemma wrap_small w a : 0 <= a < 2 ^ w -> wrap w a = a.
Proof. apply Z.mod_small. Qed.

Lemma pow2_split w : 0 < w -> 2 ^ w = 2 * 2 ^ (w - 1).
Proof. intros. rewrite <- Z.pow_succ_r by lia. f_equal. lia. Qed.

Lemma swrap_small w a : 0 < w -> - 2 ^ (w - 1) <= a < 2 ^ (w - 1) -> swrap w a = a.
Proof.
  intros. unfold swrap. pose proof (pow2_split w).
  rewrite Z.mod_small by lia. lia.
Qed.

(** The signed value of an unsigned word, by the sign bit. *)
Lemma swrap_unsigned w a :
  0 < w -> 0 <= a < 2 ^ w ->
  swrap w a = if a <? 2 ^ (w - 1) then a else a - 2 ^ w.
Proof.
  intros. unfold swrap. pose proof (pow2_split w).
  destruct (Z.ltb_spec a (2 ^ (w - 1))).
  - rewrite Z.mod_small by lia. lia.
  - rewrite <- (Z.mod_unique_pos _ _ 1 (a - 2 ^ (w - 1))); lia.
Qed.

(** Bits of a two's-complement conversion: the sign bit is repeated. *)
Lemma tb_swrap w a i :
  0 < w -> 0 <= i ->
  Z.testbit (swrap w a) i = Z.testbit a (if i <? w then i else w - 1).
Proof.
  intros.
  rewrite <- (swrap_wrap w a) by lia.
  pose proof (wrap_range w a ltac:(lia)) as Hr.
  rewrite swrap_unsigned by lia.
  assert (Hs : Z.testbit a (w - 1) = negb (wrap w a <? 2 ^ (w - 1))).
  { transitivity (Z.testbit (wrap w a) (w - 1)).
    - rewrite tb_wrap by lia. by replace (w - 1 <? w) with true by lia.
    - rewrite Z.testbit_eqb by lia. pose proof (pow2_split w).
      destruct (Z.ltb_spec (wrap w a) (2 ^ (w - 1))); simpl.
      + by rewrite Z.div_small by lia.
      + rewrite <- (Z.div_unique_pos _ _ 1 (wrap w a - 2 ^ (w - 1))); [done|lia|lia]. }
  destruct (Z.ltb_spec (wrap w a) (2 ^ (w - 1))) as [Hlt|Hge]; simpl in Hs.
  - rewrite tb_wrap by lia. destruct (Z.ltb_spec i w); [done|]. by rewrite Hs.
  - replace (wrap w a - 2 ^ w) with (wrap w a + (-1) * 2 ^ w) by lia.
    destruct (Z.ltb_spec i w).
    + rewrite <- (Z.mod_pow2_bits_low _ w i) by lia.
      rewrite Z_mod_plus_full. rewrite Z.mod_pow2_bits_low by lia.
      rewrite tb_wrap by lia. by replace (i <? w) with true by lia.
    + rewrite Hs. replace i with (i - w + w) by lia.
      rewrite <- Z.div_pow2_bits by lia.
      rewrite Z.div_add by lia. rewrite Z.div_small by lia.
      rewrite Z.bits_m1; [done|lia].
Qed.

#[export] Hint Rewrite Z.land_spec Z.lor_spec Z.lxor_spec Z.ldiff_spec Z.bits_0 tb_if
  : zbits.
#[export] Hint Rewrite tb_shiftl Z.shiftr_spec tb_mod tb_wrap tb_swrap tb_ones
  Z.lnot_spec Z.pow2_bits_eqb tb_neg using lia : zbits.

(** Case analysis on the first comparison of the goal whose value is not
    forced by the context, discarding the impossible branches. *)
Ltac cmp_cases :=
  repeat match goal with
  | |- context [ ?a <? ?b ] => destruct (Z.ltb_spec a b); try lia
  | |- context [ ?a <=? ?b ] => destruct (Z.leb_spec a b); try lia
  | |- context [ ?a =? ?b ] => destruct (Z.eqb_spec a b); try lia
  end.

(** Bits at indices known to be negative. *)
Ltac neg_bits :=
  repeat match goal with |- context [Z.testbit ?a ?i] => rewrite (tb_neg a i) by lia end.

(** Make syntactically different but equal bit indices identical. *)
Ltac same_index :=
  repeat match goal with
  | |- context [Z.testbit ?a ?i] =>
      match goal with
      | |- context [Z.testbit a ?j] =>
          lazymatch i with j => fail | _ => idtac end;
          replace j with i by lia
      end
  end.

Ltac bit_step :=
  autorewrite with zbits; cmp_cases; neg_bits; autorewrite with zbits; same_index; cbn [andb orb negb xorb]; try btauto.

(** [bitwise]: two integers are equal when all their bits are. *)
Ltac bitwise :=
  apply Z.bits_inj'; let i := fresh "i" in let Hi := fresh "Hi" in intros i Hi; bit_step.

(** A finite range of indices, enumerated: [each_below n i] replaces a goal
    about [0 <= i < n] by the [n] goals at the numerals. *)
Lemma forall_below (P : Z -> Prop) (n : nat) :
  Forall (fun k => P (Z.of_nat k)) (seq 0 n) -> forall i, 0 <= i < Z.of_nat n -> P i.
Proof.
  intros HF i Hi. rewrite Forall_forall in HF.
  specialize (HF (Z.to_nat i)). rewrite Z2Nat.id in HF by lia.
  apply HF. apply list_elem_of_In, in_seq. lia.
Qed.

(** A word of [n] bits is equal to another when the [n] low bits agree. *)
Lemma word_eq n a b :
  0 <= n -> 0 <= a < 2 ^ n -> 0 <= b < 2 ^ n ->
  (forall i, 0 <= i < n -> Z.testbit a i = Z.testbit b i) -> a = b.
Proof.
  intros Hn Ha Hb H. apply Z.bits_inj'. intros i Hi.
  destruct (Z.lt_ge_cases i n) as [Hlt|Hge]; [by apply H|].
  rewrite <- (Z.mod_small a (2 ^ n)), <- (Z.mod_small b (2 ^ n)) by done.
  by rewrite !Z.mod_pow2_bits_high by lia.
Qed.

Lemma tb_high n a i : 0 <= a < 2 ^ n -> 0 <= n <= i -> Z.testbit a i = false.
Proof.
  intros Ha Hi. rewrite <- (Z.mod_small a (2 ^ n)) by done.
  apply Z.mod_pow2_bits_high. lia.
Qed.

(** Disjoint bit sets: disjunction is addition. *)
Lemma lor_add a b : Z.land a b = 0 -> Z.lor a b = a + b.
Proof.
  intros H. rewrite <- Z.lxor_lor by done. symmetry. by apply Z.add_nocarry_lxor.
Qed.

Lemma land_range n a b : 0 <= n -> 0 <= a < 2 ^ n -> 0 <= Z.land a b < 2 ^ n.
Proof.
  intros Hn Ha.
  assert (Z.land a b = wrap n (Z.land a b)) as ->; [|by apply wrap_range].
  apply Z.bits_inj'. intros i Hi. autorewrite with zbits.
  destruct (Z.ltb_spec i n); [done|]. by rewrite (tb_high n a) by lia.
Qed.

Lemma ldiff_range n a b : 0 <= n -> 0 <= a < 2 ^ n -> 0 <= Z.ldiff a b < 2 ^ n.
Proof. intros Hn Ha. rewrite Z.ldiff_land. by apply land_range. Qed.

Lemma lor_range n a b :
  0 <= n -> 0 <= a < 2 ^ n -> 0 <= b < 2 ^ n -> 0 <= Z.lor a b < 2 ^ n.
Proof.
  intros Hn Ha Hb.
  assert (Z.lor a b = wrap n (Z.lor a b)) as ->; [|by apply wrap_range].
  apply Z.bits_inj'. intros i Hi. autorewrite with zbits.
  destruct (Z.ltb_spec i n); [done|]. by rewrite (tb_high n a), (tb_high n b) by lia.
Qed.

Lemma lxor_range n a b :
  0 <= n -> 0 <= a < 2 ^ n -> 0 <= b < 2 ^ n -> 0 <= Z.lxor a b < 2 ^ n.
Proof.
  intros Hn Ha Hb.
  assert (Z.lxor a b = wrap n (Z.lxor a b)) as ->; [|by apply wrap_range].
  apply Z.bits_inj'. intros i Hi. autorewrite with zbits.
  destruct (Z.ltb_spec i n); [done|]. by rewrite (tb_high n a), (tb_high n b) by lia.
Qed.

Lemma shiftr_range n a k :
  0 <= k -> 0 <= n -> 0 <= a < 2 ^ n -> 0 <= Z.shiftr a k < 2 ^ n.
Proof.
  intros. rewrite Z.shiftr_div_pow2 by lia.
  assert (0 < 2 ^ k) by lia. split.
  - apply Z.div_pos; lia.
  - apply Z.div_lt_upper_bound; nia.
Qed.

(** The sign of a word is its top bit. *)
Lemma sign_bit w a : 0 < w -> (swrap w a <? 0) = Z.testbit a (w - 1).
Proof.
  intros Hw. pose proof (swrap_range w a Hw) as Hr.
  assert (Hb : Z.testbit (swrap w a) w = Z.testbit a (w - 1)).
  { rewrite tb_swrap by lia. by rewrite Z.ltb_irrefl. }
  rewrite <- Hb, Z.testbit_eqb by lia. pose proof (pow2_split w Hw).
  destruct (Z.ltb_spec (swrap w a) 0).
  - by rewrite <- (Z.div_unique_pos _ _ (-1) (swrap w a + 2 ^ w)) by lia.
  - by rewrite Z.div_small by lia.
Qed.

Lemma sign_bit_range w a : 0 < w -> - 2 ^ (w - 1) <= a < 2 ^ (w - 1) -> Z.testbit a (w - 1) = (a <? 0).
Proof. intros. by rewrite <- sign_bit, swrap_small. Qed.

Lemma top_bit w a : 0 < w -> 0 <= a < 2 ^ w -> Z.testbit a (w - 1) = (2 ^ (w - 1) <=? a).
Proof.
  intros Hw Ha. rewrite <- sign_bit, swrap_unsigned by lia.
  pose proof (pow2_split w Hw).
  destruct (Z.ltb_spec a (2 ^ (w - 1))), (Z.leb_spec (2 ^ (w - 1)) a); lia.
Qed.

#[export] Hint Resolve wrap_range : zrange.

(** * Single-bit masks *)

Lemma land_pow2 x k : 0 <= k -> Z.land x (2 ^ k) = if Z.testbit x k then 2 ^ k else 0.
Proof.
  intros Hk. apply Z.bits_inj'. intros i Hi. rewrite Z.land_spec, tb_if, Z.bits_0, Z.pow2_bits_eqb by lia.
  destruct (Z.eqb_spec k i) as [->|]; [|by rewrite andb_false_r; destruct (Z.testbit x k)].
  by destruct (Z.testbit x i).
Qed.

Lemma z2b_pow2 x k : 0 <= k -> z2b (Z.land x (2 ^ k)) = Z.testbit x k.
Proof.
  intros Hk. rewrite land_pow2 by lia. unfold z2b. pose proof (Z.pow_pos_nonneg 2 k).
  destruct (Z.testbit x k); [|done]. by destruct (Z.eqb_spec (2 ^ k) 0); [lia|].
Qed.

Lemma eqb_land_pow2 x k : 0 <= k -> (Z.land x (2 ^ k) =? 0) = negb (Z.testbit x k).
Proof. intros Hk. rewrite <- (z2b_pow2 x k Hk). unfold z2b. by rewrite negb_involutive. Qed.

(** The test [(n & (n - 1)) == 0] of a word says that it has one bit. *)
Lemma pow2_of_land w n : 0 < w -> 0 < n < 2 ^ w -> Z.land n (wrap w (n - 1)) = 0 -> exists k, 0 <= k < w /\ n = 2 ^ k.
Proof.
  intros W [L U] H. rewrite wrap_small in H by lia.
  pose proof (Z.log2_spec n ltac:(lia)) as [S1 S2]. set (k := Z.log2 n) in *.
  assert (0 <= k < w) by (split; [apply Z.log2_nonneg|apply Z.log2_lt_pow2; lia]).
  exists k. split; [done|]. destruct (Z.eq_dec n (2 ^ k)) as [E|N]; [done|].
  assert (Z.log2 (n - 1) = k) as K.
  { apply Z.log2_unique; [lia|]. rewrite Z.pow_succ_r in * by lia. lia. }
  assert (Z.testbit (Z.land n (n - 1)) k = true) as B.
  { rewrite Z.land_spec. unfold k at 1. rewrite Z.bit_log2 by lia. cbn. rewrite <- K. apply Z.bit_log2. lia. }
  by rewrite H, Z.bits_0 in B.
Qed.

(** [const_fold t] evaluates the boolean [t] when no variable occurs in it;
    [const_bits] and [const_cmp] do so for the bits and comparisons of the goal. *)
Ltac const_fold t :=
  tryif (match t with context [?x] => is_var x end) then fail else
  (let r := eval vm_compute in t in
   lazymatch r with true => change t with true | false => change t with false end).
Ltac const_bits :=
  repeat match goal with |- context [Z.testbit ?m ?i] => const_fold (Z.testbit m i) end;
  rewrite ?andb_true_l, ?andb_true_r, ?andb_false_l, ?andb_false_r, ?orb_false_l, ?orb_false_r,
    ?orb_true_l, ?orb_true_r; cbn [negb].
Ltac const_cmp :=
  repeat match goal with
  | |- context [?a =? ?b] => const_fold (a =? b)
  | |- context [?a <=? ?b] => const_fold (a <=? b)
  | |- context [?a <? ?b] => const_fold (a <? b)
  end.
