(* ===== verification/SoftPrim.v ===== *)
(** * SoftFloat: words, constants and primitives

    The conventions of the SoftFloat files: a C function [f] is the function
    [f]; the rounding mode [softfloat_roundingMode] is a first argument [rm]
    of the functions that read it, and the accrued flags
    [softfloat_exceptionFlags] a last argument [fl], returned next to the
    result, of those that may raise one.  A [goto] is the code of its label,
    a block that several branches fall into is a local [join], an assignment
    a [let] of the same name.  [uint_fast8_t] has 8 bits and the other
    [fast] types 64, as on the hosts the simulator builds for; every wrap is
    written out ([u64], [i8], ...).  The unions that reinterpret a float as
    an integer are the identity on its bits.  Conditions on the size of a
    type that are false on those hosts are dropped.

    This file has the types, constants and packing macros of
    [internals.h], [specialize.h] and [softfloat.h], and the multi-word
    arithmetic of [primitives.h] and the [s_*.c] files that implement it.
    The 32-bit word arrays ([...M] routines) are not compiled in a build with
    [SOFTFLOAT_FAST_INT64] callers and are left out. *)

From S2P Require Import Prelude.

(** ** Constants *)

Definition softfloat_flag_inexact : Z := 1.
Definition softfloat_flag_underflow : Z := 2.
Definition softfloat_flag_overflow : Z := 4.
Definition softfloat_flag_infinite : Z := 8.
Definition softfloat_flag_invalid : Z := 16.
Definition softfloat_round_near_even : Z := 0.
Definition softfloat_round_minMag : Z := 1.
Definition softfloat_round_min : Z := 2.
Definition softfloat_round_max : Z := 3.
Definition softfloat_round_near_maxMag : Z := 4.
Definition softfloat_round_odd : Z := 5.
Definition softfloat_tininess_beforeRounding : Z := 0.
Definition softfloat_tininess_afterRounding : Z := 1.
Definition softfloat_detectTininess : Z := softfloat_tininess_afterRounding.
Definition softfloat_mulAdd_subC : Z := 1.
Definition softfloat_mulAdd_subProd : Z := 2.

(** The limits of the integer types. *)
Definition INT8_MIN : Z := - 128.
Definition INT8_MAX : Z := 127.
Definition INT16_MIN : Z := - 32768.
Definition INT16_MAX : Z := 32767.
Definition UINT8_MAX : Z := 255.
Definition UINT16_MAX : Z := 65535.

(** The results of conversions to integers that are out of range. *)
Definition ui8_fromPosOverflow : Z := 0xff.
Definition ui8_fromNegOverflow : Z := 0.
Definition ui8_fromNaN : Z := 0xff.
Definition i8_fromPosOverflow : Z := 0x7f.
Definition i8_fromNegOverflow : Z := - 0x7f - 1.
Definition i8_fromNaN : Z := 0x7f.
Definition ui16_fromPosOverflow : Z := 0xffff.
Definition ui16_fromNegOverflow : Z := 0.
Definition ui16_fromNaN : Z := 0xffff.
Definition i16_fromPosOverflow : Z := 0x7fff.
Definition i16_fromNegOverflow : Z := - 0x7fff - 1.
Definition i16_fromNaN : Z := 0x7fff.
Definition ui32_fromPosOverflow : Z := 0xffffffff.
Definition ui32_fromNegOverflow : Z := 0.
Definition ui32_fromNaN : Z := 0xffffffff.
Definition i32_fromPosOverflow : Z := 0x7fffffff.
Definition i32_fromNegOverflow : Z := - 0x7fffffff - 1.
Definition i32_fromNaN : Z := 0x7fffffff.
Definition ui64_fromPosOverflow : Z := 0xffffffffffffffff.
Definition ui64_fromNegOverflow : Z := 0.
Definition ui64_fromNaN : Z := 0xffffffffffffffff.
Definition i64_fromPosOverflow : Z := 0x7fffffffffffffff.
Definition i64_fromNegOverflow : Z := - 0x7fffffffffffffff - 1.
Definition i64_fromNaN : Z := 0x7fffffffffffffff.

(** ** Fields of the formats *)

Definition signBF16UI (a : Z) : bool := z2b (Z.shiftr (u16 a) 15).
Definition expBF16UI (a : Z) : Z := i64 (Z.shiftr a 7) .& 0xff.
Definition fracBF16UI (a : Z) : Z := a .& 0x07f.
Definition packToBF16UI (sign : bool) (exp sig : Z) : Z :=
  u64 (Z.shiftl (b2z sign) 15 + Z.shiftl (u16 exp) 7 + sig).
Definition isNaNBF16UI (a : Z) : bool := (Z.lnot a .& 0x7f80 =? 0) && z2b (a .& 0x007f).
Definition defaultNaNBF16UI : Z := 0x7fc0.
Definition softfloat_isSigNaNBF16UI (uiA : Z) : bool :=
  (uiA .& 0x7fc0 =? 0x7f80) && z2b (uiA .& 0x007f).

Definition signF16UI (a : Z) : bool := z2b (Z.shiftr (u16 a) 15).
Definition expF16UI (a : Z) : Z := i8 (Z.shiftr a 10) .& 0x1f.
Definition fracF16UI (a : Z) : Z := a .& 0x03ff.
Definition packToF16UI (sign : bool) (exp sig : Z) : Z :=
  u64 (Z.shiftl (b2z sign) 15 + Z.shiftl (u16 exp) 10 + sig).
Definition isNaNF16UI (a : Z) : bool := (Z.lnot a .& 0x7c00 =? 0) && z2b (a .& 0x03ff).
Definition defaultNaNF16UI : Z := 0x7e00.
Definition softfloat_isSigNaNF16UI (uiA : Z) : bool :=
  (uiA .& 0x7e00 =? 0x7c00) && z2b (uiA .& 0x01ff).

Definition signF32UI (a : Z) : bool := z2b (Z.shiftr (u32 a) 31).
Definition expF32UI (a : Z) : Z := i64 (Z.shiftr a 23) .& 0xff.
Definition fracF32UI (a : Z) : Z := a .& 0x007fffff.
Definition packToF32UI (sign : bool) (exp sig : Z) : Z :=
  u64 (u32 (u32 (Z.shiftl (b2z sign) 31) + u32 (Z.shiftl (u32 exp) 23)) + sig).
Definition isNaNF32UI (a : Z) : bool :=
  (Z.lnot a .& 0x7f800000 =? 0) && z2b (a .& 0x007fffff).
Definition defaultNaNF32UI : Z := 0x7fc00000.
Definition softfloat_isSigNaNF32UI (uiA : Z) : bool :=
  (uiA .& 0x7fc00000 =? 0x7f800000) && z2b (uiA .& 0x003fffff).

Definition signF64UI (a : Z) : bool := z2b (Z.shiftr (u64 a) 63).
Definition expF64UI (a : Z) : Z := i64 (Z.shiftr a 52) .& 0x7ff.
Definition fracF64UI (a : Z) : Z := a .& 0x000fffffffffffff.
Definition packToF64UI (sign : bool) (exp sig : Z) : Z :=
  u64 (u64 (u64 (Z.shiftl (b2z sign) 63) + u64 (Z.shiftl (u64 exp) 52)) + sig).
Definition isNaNF64UI (a : Z) : bool :=
  (Z.lnot a .& 0x7ff0000000000000 =? 0) && z2b (a .& 0x000fffffffffffff).
Definition defaultNaNF64UI : Z := 0x7ff8000000000000.
Definition softfloat_isSigNaNF64UI (uiA : Z) : bool :=
  (uiA .& 0x7ff8000000000000 =? 0x7ff0000000000000) && z2b (uiA .& 0x0007ffffffffffff).

Definition signF128UI64 (a64 : Z) : bool := z2b (Z.shiftr (u64 a64) 63).
Definition expF128UI64 (a64 : Z) : Z := i64 (Z.shiftr a64 48) .& 0x7fff.
Definition fracF128UI64 (a64 : Z) : Z := a64 .& 0x0000ffffffffffff.
Definition packToF128UI64 (sign : bool) (exp sig64 : Z) : Z :=
  u64 (u64 (u64 (Z.shiftl (b2z sign) 63) + u64 (Z.shiftl (u64 exp) 48)) + sig64).
Definition isNaNF128UI (a64 a0 : Z) : bool :=
  (Z.lnot a64 .& 0x7fff000000000000 =? 0) && (z2b a0 || z2b (a64 .& 0x0000ffffffffffff)).
Definition defaultNaNF128UI64 : Z := 0x7fff800000000000.
Definition defaultNaNF128UI0 : Z := 0.
Definition softfloat_isSigNaNF128UI (uiA64 uiA0 : Z) : bool :=
  (uiA64 .& 0x7fff800000000000 =? 0x7fff000000000000)
  && (z2b uiA0 || z2b (uiA64 .& 0x00007fffffffffff)).

(** The conversions to a common NaN raise the invalid flag on a signaling
    operand; every NaN becomes the default NaN of the target format. *)
Definition softfloat_bf16UIToCommonNaN (uiA fl : Z) : Z :=
  if (uiA .& 0x040) =? 0 then fl .| softfloat_flag_invalid else fl.
Definition softfloat_f16UIToCommonNaN (uiA fl : Z) : Z :=
  if (uiA .& 0x0200) =? 0 then fl .| softfloat_flag_invalid else fl.
Definition softfloat_f32UIToCommonNaN (uiA fl : Z) : Z :=
  if (uiA .& 0x00400000) =? 0 then fl .| softfloat_flag_invalid else fl.
Definition softfloat_f64UIToCommonNaN (uiA fl : Z) : Z :=
  if (uiA .& 0x0008000000000000) =? 0 then fl .| softfloat_flag_invalid else fl.
Definition softfloat_f128UIToCommonNaN (uiA64 uiA0 fl : Z) : Z :=
  if (uiA64 .& 0x0000800000000000) =? 0 then fl .| softfloat_flag_invalid else fl.
Definition softfloat_commonNaNToBF16UI : Z := defaultNaNBF16UI.
Definition softfloat_commonNaNToF16UI : Z := defaultNaNF16UI.
Definition softfloat_commonNaNToF32UI : Z := defaultNaNF32UI.
Definition softfloat_commonNaNToF64UI : Z := defaultNaNF64UI.
Definition softfloat_commonNaNToF128UI : Z * Z := (defaultNaNF128UI64, defaultNaNF128UI0).

(** ** Tables *)

(** [table[i]], for an index within the table. *)
Definition nthZ (table : list Z) (i : Z) : Z := nth (Z.to_nat i) table 0.

Definition softfloat_countLeadingZeros8 : list Z :=
  [8; 7; 6; 6; 5; 5; 5; 5; 4; 4; 4; 4; 4; 4; 4; 4;
   3; 3; 3; 3; 3; 3; 3; 3; 3; 3; 3; 3; 3; 3; 3; 3;
   2; 2; 2; 2; 2; 2; 2; 2; 2; 2; 2; 2; 2; 2; 2; 2;
   2; 2; 2; 2; 2; 2; 2; 2; 2; 2; 2; 2; 2; 2; 2; 2;
   1; 1; 1; 1; 1; 1; 1; 1; 1; 1; 1; 1; 1; 1; 1; 1;
   1; 1; 1; 1; 1; 1; 1; 1; 1; 1; 1; 1; 1; 1; 1; 1;
   1; 1; 1; 1; 1; 1; 1; 1; 1; 1; 1; 1; 1; 1; 1; 1;
   1; 1; 1; 1; 1; 1; 1; 1; 1; 1; 1; 1; 1; 1; 1; 1;
   0; 0; 0; 0; 0; 0; 0; 0; 0; 0; 0; 0; 0; 0; 0; 0;
   0; 0; 0; 0; 0; 0; 0; 0; 0; 0; 0; 0; 0; 0; 0; 0;
   0; 0; 0; 0; 0; 0; 0; 0; 0; 0; 0; 0; 0; 0; 0; 0;
   0; 0; 0; 0; 0; 0; 0; 0; 0; 0; 0; 0; 0; 0; 0; 0;
   0; 0; 0; 0; 0; 0; 0; 0; 0; 0; 0; 0; 0; 0; 0; 0;
   0; 0; 0; 0; 0; 0; 0; 0; 0; 0; 0; 0; 0; 0; 0; 0;
   0; 0; 0; 0; 0; 0; 0; 0; 0; 0; 0; 0; 0; 0; 0; 0;
   0; 0; 0; 0; 0; 0; 0; 0; 0; 0; 0; 0; 0; 0; 0; 0].
Definition softfloat_approxRecip_1k0s : list Z :=
  [0xffc4; 0xf0be; 0xe363; 0xd76f; 0xccad; 0xc2f0; 0xba16; 0xb201;
   0xaa97; 0xa3c6; 0x9d7a; 0x97a6; 0x923c; 0x8d32; 0x887e; 0x8417].
Definition softfloat_approxRecip_1k1s : list Z :=
  [0xf0f1; 0xd62c; 0xbfa1; 0xac77; 0x9c0a; 0x8ddb; 0x8185; 0x76ba;
   0x6d3b; 0x64d4; 0x5d5c; 0x56b1; 0x50b6; 0x4b55; 0x4679; 0x4211].
Definition softfloat_approxRecipSqrt_1k0s : list Z :=
  [0xb4c9; 0xffab; 0xaa7d; 0xf11c; 0xa1c5; 0xe4c7; 0x9a43; 0xda29;
   0x93b5; 0xd0e5; 0x8ded; 0xc8b7; 0x88c6; 0xc16d; 0x8424; 0xbae1].
Definition softfloat_approxRecipSqrt_1k1s : list Z :=
  [0xa5a5; 0xea42; 0x8c21; 0xc62d; 0x788f; 0xaa7f; 0x6928; 0x94b6;
   0x5cc7; 0x8335; 0x52a6; 0x74e2; 0x4a3e; 0x68fe; 0x432b; 0x5efd].

(** The definition used when the host divides 64 by 32 bits
    ([SOFTFLOAT_FAST_DIV64TO32]). *)
Definition softfloat_approxRecip32_1 (a : Z) : Z := u32 (0x7fffffffffffffff / u32 a).

(** ** Four-word integers

    A [uint64_t[4]] is the tuple of its words, the most significant first;
    the loops run over the words from the least significant. *)

Fixpoint add_words (carry : Z) (a b : list Z) : list Z :=
  match a, b with
  | wordA :: a, wordB :: b =>
      let wordZ := u64 (u64 (wordA + wordB) + carry) in
      let carry := if negb (wordZ =? wordA) then b2z (wordZ <? wordA) else carry in
      wordZ :: add_words carry a b
  | _, _ => []
  end.

Fixpoint sub_words (borrow : bool) (a b : list Z) : list Z :=
  match a, b with
  | wordA :: a, wordB :: b =>
      let wordZ := u64 (u64 (wordA - wordB) - b2z borrow) in
      let borrow := if borrow then wordA <=? wordB else wordA <? wordB in
      wordZ :: sub_words borrow a b
  | _, _ => []
  end.

Definition of_words (l : list Z) : Z * Z * Z * Z :=
  (nthZ l 3, nthZ l 2, nthZ l 1, nthZ l 0).
Definition to_words (x : Z * Z * Z * Z) : list Z :=
  let '(x3, x2, x1, x0) := x in [x0; x1; x2; x3].

Definition softfloat_add256M (aPtr bPtr : Z * Z * Z * Z) : Z * Z * Z * Z :=
  of_words (add_words 0 (to_words aPtr) (to_words bPtr)).
Definition softfloat_sub256M (aPtr bPtr : Z * Z * Z * Z) : Z * Z * Z * Z :=
  of_words (sub_words false (to_words aPtr) (to_words bPtr)).

(** The words above [partWordZ] shifted down by [dist]. *)
Fixpoint shift_words (dist partWordZ : Z) (a : list Z) : list Z :=
  match a with
  | [] => [partWordZ]
  | wordA :: a =>
      (u64 (Z.shiftl wordA (u8 (- dist) .& 63)) .| partWordZ)
      :: shift_words dist (Z.shiftr wordA dist) a
  end.

Definition softfloat_shortShiftRightJamM (dist : Z) (a : list Z) : list Z :=
  match a with
  | [] => []
  | wordA :: a =>
      let partWordZ := Z.shiftr wordA dist in
      let partWordZ :=
        if negb (u64 (Z.shiftl partWordZ dist) =? wordA) then partWordZ .| 1 else partWordZ
      in
      shift_words dist partWordZ a
  end.

(** For a positive distance, as in its only use. *)
Definition softfloat_shiftRightJam256M (aPtr : Z * Z * Z * Z) (dist : Z) : Z * Z * Z * Z :=
  let wordDist := Z.min 4 (Z.shiftr dist 6) in
  let a := to_words aPtr in
  let wordJam := existsb z2b (firstn (Z.to_nat wordDist) a) in
  let high := skipn (Z.to_nat wordDist) a in
  let innerDist := dist .& 63 in
  let z := if z2b innerDist then softfloat_shortShiftRightJamM innerDist high else high in
  let '(z3, z2, z1, z0) := of_words (z ++ repeat 0 (Z.to_nat wordDist)) in
  (z3, z2, z1, if wordJam then z0 .| 1 else z0).

(** ** Primitives *)

Definition softfloat_shortShiftRightJam64 (a dist : Z) : Z :=
  Z.shiftr a dist .| b2z (negb ((a .& u64 (u64 (Z.shiftl 1 dist) - 1)) =? 0)).

Definition softfloat_shiftRightJam32 (a dist : Z) : Z :=
  if dist <? 31 then Z.shiftr a dist .| b2z (negb (u32 (Z.shiftl a (u64 (- dist) .& 31)) =? 0)) else b2z
      (negb (a =? 0)).

Definition softfloat_shiftRightJam64 (a dist : Z) : Z :=
  if dist <? 63 then Z.shiftr a dist .| b2z (negb (u64 (Z.shiftl a (u64 (- dist) .& 63)) =? 0)) else b2z
      (negb (a =? 0)).

Definition softfloat_countLeadingZeros16 (a : Z) : Z :=
  let count := 8 in
  let '(count, a) :=
    if 0x100 <=? a then
      let count := 0 in
      let a := u16 (Z.shiftr a 8) in
      (count, a)
    else (count, a)
  in
  u8 (count + nthZ softfloat_countLeadingZeros8 a).

Definition softfloat_countLeadingZeros32 (a : Z) : Z :=
  let count := 0 in
  let '(count, a) :=
    if a <? 0x10000 then
      let count := 16 in
      let a := u32 (Z.shiftl a 16) in
      (count, a)
    else (count, a)
  in
  let '(count, a) :=
    if a <? 0x1000000 then
      let count := u8 (count + 8) in
      let a := u32 (Z.shiftl a 8) in
      (count, a)
    else (count, a)
  in
  u8 (count + nthZ softfloat_countLeadingZeros8 (Z.shiftr a 24)).

Definition softfloat_eq128 (a64 a0 b64 b0 : Z) : bool :=
  (a64 =? b64) && (a0 =? b0).

Definition softfloat_le128 (a64 a0 b64 b0 : Z) : bool :=
  (a64 <? b64) || ((a64 =? b64) && (a0 <=? b0)).

Definition softfloat_lt128 (a64 a0 b64 b0 : Z) : bool :=
  (a64 <? b64) || ((a64 =? b64) && (a0 <? b0)).

Definition softfloat_shortShiftLeft128 (a64 a0 dist : Z) : Z * Z :=
  let z_v64 := u64 (Z.shiftl a64 dist) .| Z.shiftr a0 ((- dist) .& 63) in
  let z_v0 := u64 (Z.shiftl a0 dist) in
  (z_v64, z_v0).

Definition softfloat_shortShiftRight128 (a64 a0 dist : Z) : Z * Z :=
  let z_v64 := Z.shiftr a64 dist in
  let z_v0 := u64 (Z.shiftl a64 ((- dist) .& 63)) .| Z.shiftr a0 dist in
  (z_v64, z_v0).

Definition softfloat_shortShiftRightJam64Extra (a extra dist : Z) : Z * Z :=
  let z_v := Z.shiftr a dist in
  let z_extra := u64 (Z.shiftl a ((- dist) .& 63)) .| b2z (negb (extra =? 0)) in
  (z_v, z_extra).

Definition softfloat_shortShiftRightJam128 (a64 a0 dist : Z) : Z * Z :=
  let negDist := u8 (- dist) in
  let z_v64 := Z.shiftr a64 dist in
  let z_v0 := (u64 (Z.shiftl a64 (negDist .& 63)) .| Z.shiftr a0 dist) .| b2z
      (negb (u64 (Z.shiftl a0 (negDist .& 63)) =? 0)) in
  (z_v64, z_v0).

Definition softfloat_shortShiftRightJam128Extra (a64 a0 extra dist : Z) : Z * Z * Z :=
  let negDist := u8 (- dist) in
  let z_v_v64 := Z.shiftr a64 dist in
  let z_v_v0 := u64 (Z.shiftl a64 (negDist .& 63)) .| Z.shiftr a0 dist in
  let z_extra := u64 (Z.shiftl a0 (negDist .& 63)) .| b2z (negb (extra =? 0)) in
  (z_v_v64, z_v_v0, z_extra).

Definition softfloat_shiftRightJam64Extra (a extra dist : Z) : Z * Z :=
  let '(z_v, z_extra) :=
    if dist <? 64 then
      let z_v := Z.shiftr a dist in
      let z_extra := u64 (Z.shiftl a (u64 (- dist) .& 63)) in
      (z_v, z_extra)
    else
      let z_v := 0 in
      let z_extra := if dist =? 64 then a else b2z (negb (a =? 0)) in
      (z_v, z_extra)
  in
  let z_extra := z_extra .| b2z (negb (extra =? 0)) in
  (z_v, z_extra).

Definition softfloat_add128 (a64 a0 b64 b0 : Z) : Z * Z :=
  let z_v0 := u64 (a0 + b0) in
  let z_v64 := u64 (u64 (a64 + b64) + b2z (z_v0 <? a0)) in
  (z_v64, z_v0).

Definition softfloat_sub128 (a64 a0 b64 b0 : Z) : Z * Z :=
  let z_v0 := u64 (a0 - b0) in
  let z_v64 := u64 (a64 - b64) in
  let z_v64 := u64 (z_v64 - b2z (a0 <? b0)) in
  (z_v64, z_v0).

Definition softfloat_mul64ByShifted32To128 (a b : Z) : Z * Z :=
  let mid := u64 (u32 a * b) in
  let z_v0 := u64 (Z.shiftl mid 32) in
  let z_v64 := u64 (u64 (u32 (Z.shiftr a 32) * b) + Z.shiftr mid 32) in
  (z_v64, z_v0).

Definition softfloat_mul128By32 (a64 a0 b : Z) : Z * Z :=
  let z_v0 := u64 (a0 * b) in
  let mid := u64 (u32 (Z.shiftr a0 32) * b) in
  let carry := u32 (Z.shiftr z_v0 32 - mid) in
  let z_v64 := u64 (u64 (a64 * b) + Z.shiftr (u64 (mid + carry)) 32) in
  (z_v64, z_v0).

Definition softfloat_countLeadingZeros64 (a : Z) : Z :=
  let count := 0 in
  let a32 := u32 (Z.shiftr a 32) in
  let '(count, a32) :=
    if a32 =? 0 then
      let count := 32 in
      let a32 := u32 a in
      (count, a32)
    else (count, a32)
  in
  let '(count, a32) :=
    if a32 <? 0x10000 then
      let count := u8 (count + 16) in
      let a32 := u32 (Z.shiftl a32 16) in
      (count, a32)
    else (count, a32)
  in
  let '(count, a32) :=
    if a32 <? 0x1000000 then
      let count := u8 (count + 8) in
      let a32 := u32 (Z.shiftl a32 8) in
      (count, a32)
    else (count, a32)
  in
  u8 (count + nthZ softfloat_countLeadingZeros8 (Z.shiftr a32 24)).

Definition softfloat_mul64To128 (a b : Z) : Z * Z :=
  let a32 := u32 (Z.shiftr a 32) in
  let a0 := u32 a in
  let b32 := u32 (Z.shiftr b 32) in
  let b0 := u32 b in
  let z_v0 := u64 (a0 * b0) in
  let mid1 := u64 (a32 * b0) in
  let mid := u64 (mid1 + u64 (a0 * b32)) in
  let z_v64 := u64 (a32 * b32) in
  let z_v64 := u64 (z_v64 + (u64 (Z.shiftl (b2z (mid <? mid1)) 32) .| Z.shiftr mid 32)) in
  let mid := u64 (Z.shiftl mid 32) in
  let z_v0 := u64 (z_v0 + mid) in
  let z_v64 := u64 (z_v64 + b2z (z_v0 <? mid)) in
  (z_v64, z_v0).

Definition softfloat_mul128To256M (a64 a0 b64 b0 : Z) : Z * Z * Z * Z :=
  let '(p0_v64, p0_v0) := softfloat_mul64To128 a0 b0 in
  let '(p64_v64, p64_v0) := softfloat_mul64To128 a64 b0 in
  let z64 := u64 (p64_v0 + p0_v64) in
  let z128 := u64 (p64_v64 + b2z (z64 <? p64_v0)) in
  let '(p128_v64, p128_v0) := softfloat_mul64To128 a64 b64 in
  let z128 := u64 (z128 + p128_v0) in
  let z192 := u64 (p128_v64 + b2z (z128 <? p128_v0)) in
  let '(p64_v64, p64_v0) := softfloat_mul64To128 a0 b64 in
  let z64 := u64 (z64 + p64_v0) in
  let p64_v64 := u64 (p64_v64 + b2z (z64 <? p64_v0)) in
  let z128 := u64 (z128 + p64_v64) in
  (u64 (z192 + b2z (z128 <? p64_v64)), z128, z64, p0_v0).

Definition softfloat_approxRecipSqrt32_1 (oddExpA a : Z) : Z :=
  let index := i32 (u32 ((Z.shiftr a 27 .& 0xe) + oddExpA)) in
  let eps := u16 (Z.shiftr a 12) in
  let r0 := u16 (nthZ softfloat_approxRecipSqrt_1k0s index - Z.shiftr
      (u64 (nthZ softfloat_approxRecipSqrt_1k1s index * eps)) 20) in
  let ESqrR0 := u64 (r0 * r0) in
  let ESqrR0 := if oddExpA =? 0 then u64 (Z.shiftl ESqrR0 1) else ESqrR0 in
  let sigma0 := u32 (Z.lnot (Z.shiftr (u64 (u32 ESqrR0 * a)) 23)) in
  let r := u64 (u64 (Z.shiftl r0 16) + Z.shiftr (u64 (r0 * sigma0)) 25) in
  let sqrSigma0 := u32 (Z.shiftr (u64 (sigma0 * sigma0)) 32) in
  let r := u64 (r + Z.shiftr (u64 (u32 (u64 (Z.shiftr r 1 + Z.shiftr r 3) - u64 (Z.shiftl r0 14)) *
      sqrSigma0)) 48) in
  let r := if (r .& 0x80000000) =? 0 then 0x80000000 else r in
  u32 r.

Definition softfloat_shiftRightJam128Extra (a64 a0 extra dist : Z) : Z * Z * Z :=
  let u8NegDist := u8 (- dist) in
  let '(z_v_v64, z_v_v0, z_extra, extra) :=
    if dist <? 64 then
      let z_v_v64 := Z.shiftr a64 dist in
      let z_v_v0 := u64 (Z.shiftl a64 (u8NegDist .& 63)) .| Z.shiftr a0 dist in
      let z_extra := u64 (Z.shiftl a0 (u8NegDist .& 63)) in
      (z_v_v64, z_v_v0, z_extra, extra)
    else
      let z_v_v64 := 0 in
      if dist =? 64 then
        let z_v_v0 := a64 in
        let z_extra := a0 in
        (z_v_v64, z_v_v0, z_extra, extra)
      else
        let extra := extra .| a0 in
        if dist <? 128 then
          let z_v_v0 := Z.shiftr a64 (dist .& 63) in
          let z_extra := u64 (Z.shiftl a64 (u8NegDist .& 63)) in
          (z_v_v64, z_v_v0, z_extra, extra)
        else
          let z_v_v0 := 0 in
          let z_extra := if dist =? 128 then a64 else b2z (negb (a64 =? 0)) in
          (z_v_v64, z_v_v0, z_extra, extra)
  in
  let z_extra := z_extra .| b2z (negb (extra =? 0)) in
  (z_v_v64, z_v_v0, z_extra).

Definition softfloat_shiftRightJam128 (a64 a0 dist : Z) : Z * Z :=
  let '(z_v64, z_v0) :=
    if dist <? 64 then
      let u8NegDist := u8 (- dist) in
      let z_v64 := Z.shiftr a64 dist in
      let z_v0 := (u64 (Z.shiftl a64 (u8NegDist .& 63)) .| Z.shiftr a0 dist) .| b2z
          (negb (u64 (Z.shiftl a0 (u8NegDist .& 63)) =? 0)) in
      (z_v64, z_v0)
    else
      let z_v64 := 0 in
      let z_v0 := if dist <? 127 then Z.shiftr a64 (dist .& 63) .| b2z
          (negb (((a64 .& u64 (u64 (Z.shiftl 1 (dist .& 63)) - 1)) .| a0) =? 0)) else b2z
              (negb ((a64 .| a0) =? 0)) in
      (z_v64, z_v0)
  in
  (z_v64, z_v0).
