(* ===== verification/SoftRound.v ===== *)
(** * SoftFloat: rounding and packing

    The [s_roundPack*], [s_normRoundPack*], [s_normSubnormal*], [s_propagateNaN*]
    and [s_roundTo*] routines of every format. *)

From S2P Require Import Prelude SoftPrim.

Definition softfloat_propagateNaNF32UI (uiA uiB fl : Z) : Z * Z :=
  let fl := if softfloat_isSigNaNF32UI uiA || softfloat_isSigNaNF32UI uiB then fl .|
      softfloat_flag_invalid else fl in
  (u64 defaultNaNF32UI, fl).

Definition softfloat_roundPackToF32 (rm : Z) (sign : bool) (exp sig fl : Z) : Z * Z :=
  let roundingMode := rm in
  let roundNearEven := roundingMode =? softfloat_round_near_even in
  let roundIncrement := 0x40 in
  let roundIncrement :=
    if negb roundNearEven && negb (roundingMode =? softfloat_round_near_maxMag) then
      u8 (if roundingMode =? (if sign then softfloat_round_min else softfloat_round_max) then 0x7f else 0)
    else roundIncrement
  in
  let roundBits := sig .& 0x7f in
  let join2 (sig exp roundBits fl : Z) :=
    let sig := Z.shiftr (u64 (sig + roundIncrement)) 7 in
    let join1 (fl sig : Z) :=
      let sig := sig &~ b2z (((roundBits .^ 0x40) =? 0) && roundNearEven) in
      let exp := if sig =? 0 then 0 else exp in
      let uiZ := packToF32UI sign exp sig in
      let uZ := u32 uiZ in
      (uZ, fl)
    in
    if z2b roundBits then
      let fl := fl .| softfloat_flag_inexact in
      if roundingMode =? softfloat_round_odd then
        let sig := sig .| 1 in
        let uiZ := packToF32UI sign exp sig in
        let uZ := u32 uiZ in
        (uZ, fl)
      else join1 fl sig
    else join1 fl sig
  in
  if 0xfd <=? u32 exp then
    if exp <? 0 then
      let isTiny := ((softfloat_detectTininess =? softfloat_tininess_beforeRounding) || (exp <? (-1))) ||
          (u64 (sig + roundIncrement) <? 0x80000000) in
      let sig := softfloat_shiftRightJam32 (u32 sig) (u64 (- exp)) in
      let exp := 0 in
      let roundBits := sig .& 0x7f in
      let fl := if isTiny && z2b roundBits then fl .| softfloat_flag_underflow else fl in
      join2 sig exp roundBits fl
    else if (0xfd <? exp) || (0x80000000 <=? u64 (sig + roundIncrement)) then
      let fl := fl .| (softfloat_flag_overflow .| softfloat_flag_inexact) in
      let uiZ := u64 (packToF32UI sign 0xff 0 - b2z (roundIncrement =? 0)) in
      let uZ := u32 uiZ in
      (uZ, fl)
    else join2 sig exp roundBits fl
  else join2 sig exp roundBits fl.

Definition softfloat_normRoundPackToF32 (rm : Z) (sign : bool) (exp sig fl : Z) : Z * Z :=
  let shiftDist := i8 (softfloat_countLeadingZeros32 (u32 sig) - 1) in
  let exp := exp - shiftDist in
  if (7 <=? shiftDist) && (u32 exp <? 0xfd) then
    let uZ := u32 (packToF32UI sign (if z2b sig then exp else 0) (u64 (Z.shiftl sig (shiftDist - 7)))) in
    (uZ, fl)
  else softfloat_roundPackToF32 rm sign exp (u64 (Z.shiftl sig shiftDist)) fl.

Definition softfloat_normSubnormalF32Sig (sig : Z) : Z * Z :=
  let shiftDist := i8 (softfloat_countLeadingZeros32 (u32 sig) - 8) in
  let z_exp := 1 - shiftDist in
  let z_sig := u64 (Z.shiftl sig shiftDist) in
  (z_exp, z_sig).

Definition softfloat_roundPackToBF16 (rm : Z) (sign : bool) (exp sig fl : Z) : Z * Z :=
  let roundingMode := rm in
  let roundNearEven := roundingMode =? softfloat_round_near_even in
  let roundIncrement := 0x40 in
  let roundIncrement :=
    if negb roundNearEven && negb (roundingMode =? softfloat_round_near_maxMag) then
      u8 (if roundingMode =? (if sign then softfloat_round_min else softfloat_round_max) then 0x7f else 0)
    else roundIncrement
  in
  let roundBits := sig .& 0x7f in
  let join2 (sig exp roundBits fl : Z) :=
    let sig := Z.shiftr (u64 (sig + roundIncrement)) 7 in
    let join1 (fl sig : Z) :=
      let sig := sig &~ b2z (((roundBits .^ 0x40) =? 0) && roundNearEven) in
      let exp := if sig =? 0 then 0 else exp in
      let uiZ := packToBF16UI sign exp sig in
      let uZ := u16 uiZ in
      (uZ, fl)
    in
    if z2b roundBits then
      let fl := fl .| softfloat_flag_inexact in
      if roundingMode =? softfloat_round_odd then
        let sig := sig .| 1 in
        let uiZ := packToBF16UI sign exp sig in
        let uZ := u16 uiZ in
        (uZ, fl)
      else join1 fl sig
    else join1 fl sig
  in
  if 0xfd <=? u32 exp then
    if exp <? 0 then
      let isTiny := ((softfloat_detectTininess =? softfloat_tininess_beforeRounding) || (exp <? (-1))) ||
          (u64 (sig + roundIncrement) <? 0x8000) in
      let sig := softfloat_shiftRightJam32 (u32 sig) (u64 (- exp)) in
      let exp := 0 in
      let roundBits := sig .& 0x7f in
      let fl := if isTiny && z2b roundBits then fl .| softfloat_flag_underflow else fl in
      join2 sig exp roundBits fl
    else if (0xfd <? exp) || (0x8000 <=? u64 (sig + roundIncrement)) then
      let fl := fl .| (softfloat_flag_overflow .| softfloat_flag_inexact) in
      let uiZ := u64 (packToBF16UI sign 0xff 0 - b2z (roundIncrement =? 0)) in
      let uZ := u16 uiZ in
      (uZ, fl)
    else join2 sig exp roundBits fl
  else join2 sig exp roundBits fl.

Definition softfloat_propagateNaNF64UI (uiA uiB fl : Z) : Z * Z :=
  let fl := if softfloat_isSigNaNF64UI uiA || softfloat_isSigNaNF64UI uiB then fl .|
      softfloat_flag_invalid else fl in
  (defaultNaNF64UI, fl).

Definition softfloat_roundPackToF64 (rm : Z) (sign : bool) (exp sig fl : Z) : Z * Z :=
  let roundingMode := rm in
  let roundNearEven := roundingMode =? softfloat_round_near_even in
  let roundIncrement := 0x200 in
  let roundIncrement :=
    if negb roundNearEven && negb (roundingMode =? softfloat_round_near_maxMag) then
      u64 (if roundingMode =? (if sign then softfloat_round_min else softfloat_round_max) then 0x3ff else 0)
    else roundIncrement
  in
  let roundBits := sig .& 0x3ff in
  let join2 (sig exp roundBits fl : Z) :=
    let sig := Z.shiftr (u64 (sig + roundIncrement)) 10 in
    let join1 (fl sig : Z) :=
      let sig := sig &~ b2z (((roundBits .^ 0x200) =? 0) && roundNearEven) in
      let exp := if sig =? 0 then 0 else exp in
      let uiZ := packToF64UI sign exp sig in
      let uZ := uiZ in
      (uZ, fl)
    in
    if z2b roundBits then
      let fl := fl .| softfloat_flag_inexact in
      if roundingMode =? softfloat_round_odd then
        let sig := sig .| 1 in
        let uiZ := packToF64UI sign exp sig in
        let uZ := uiZ in
        (uZ, fl)
      else join1 fl sig
    else join1 fl sig
  in
  if 0x7fd <=? u16 exp then
    if exp <? 0 then
      let isTiny := ((softfloat_detectTininess =? softfloat_tininess_beforeRounding) || (exp <? (-1))) ||
          (u64 (sig + roundIncrement) <? 0x8000000000000000) in
      let sig := softfloat_shiftRightJam64 sig (u64 (- exp)) in
      let exp := 0 in
      let roundBits := sig .& 0x3ff in
      let fl := if isTiny && z2b roundBits then fl .| softfloat_flag_underflow else fl in
      join2 sig exp roundBits fl
    else if (0x7fd <? exp) || (0x8000000000000000 <=? u64 (sig + roundIncrement)) then
      let fl := fl .| (softfloat_flag_overflow .| softfloat_flag_inexact) in
      let uiZ := u64 (packToF64UI sign 0x7ff 0 - b2z (roundIncrement =? 0)) in
      let uZ := uiZ in
      (uZ, fl)
    else join2 sig exp roundBits fl
  else join2 sig exp roundBits fl.

Definition softfloat_normRoundPackToF64 (rm : Z) (sign : bool) (exp sig fl : Z) : Z * Z :=
  let shiftDist := i8 (softfloat_countLeadingZeros64 sig - 1) in
  let exp := exp - shiftDist in
  if (10 <=? shiftDist) && (u32 exp <? 0x7fd) then
    let uZ := packToF64UI sign (if z2b sig then exp else 0) (u64 (Z.shiftl sig (shiftDist - 10))) in
    (uZ, fl)
  else softfloat_roundPackToF64 rm sign exp (u64 (Z.shiftl sig shiftDist)) fl.

Definition softfloat_normSubnormalF64Sig (sig : Z) : Z * Z :=
  let shiftDist := i8 (softfloat_countLeadingZeros64 sig - 11) in
  let z_exp := 1 - shiftDist in
  let z_sig := u64 (Z.shiftl sig shiftDist) in
  (z_exp, z_sig).

Definition softfloat_roundToI32 (sign : bool) (sig roundingMode : Z) (exact : bool) (fl : Z) : Z * Z :=
  let roundNearEven := roundingMode =? softfloat_round_near_even in
  let roundIncrement := 0x800 in
  let roundIncrement :=
    if negb roundNearEven && negb (roundingMode =? softfloat_round_near_maxMag) then
      u64 (if roundingMode =? (if sign then softfloat_round_min else softfloat_round_max) then 0xfff else 0)
    else roundIncrement
  in
  let roundBits := sig .& 0xfff in
  let sig := u64 (sig + roundIncrement) in
  if z2b (sig .& 0xfffff00000000000) then
    let fl := fl .| softfloat_flag_invalid in
    (if sign then i32_fromNegOverflow else i32_fromPosOverflow, fl)
  else
    let sig32 := Z.shiftr sig 12 in
    let sig32 := sig32 &~ b2z (((roundBits .^ 0x800) =? 0) && roundNearEven) in
    let uZ := u32 (if sign then u64 (- sig32) else sig32) in
    let z := i32 uZ in
    if z2b z && xorb (z <? 0) sign then
      let fl := fl .| softfloat_flag_invalid in
      (if sign then i32_fromNegOverflow else i32_fromPosOverflow, fl)
    else
      let fl := if exact && z2b roundBits then fl .| softfloat_flag_inexact else fl in
      (z, fl).

Definition softfloat_roundToUI32 (sign : bool) (sig roundingMode : Z) (exact : bool) (fl : Z) : Z * Z :=
  let roundNearEven := roundingMode =? softfloat_round_near_even in
  let roundIncrement := 0x800 in
  let roundIncrement :=
    if negb roundNearEven && negb (roundingMode =? softfloat_round_near_maxMag) then
      u64 (if roundingMode =? (if sign then softfloat_round_min else softfloat_round_max) then 0xfff else 0)
    else roundIncrement
  in
  let roundBits := sig .& 0xfff in
  let sig := u64 (sig + roundIncrement) in
  if z2b (sig .& 0xfffff00000000000) then
    let fl := fl .| softfloat_flag_invalid in
    (if sign then ui32_fromNegOverflow else ui32_fromPosOverflow, fl)
  else
    let z := Z.shiftr sig 12 in
    let z := z &~ b2z (((roundBits .^ 0x800) =? 0) && roundNearEven) in
    if sign && z2b z then
      let fl := fl .| softfloat_flag_invalid in
      (if sign then ui32_fromNegOverflow else ui32_fromPosOverflow, fl)
    else
      let fl := if exact && z2b roundBits then fl .| softfloat_flag_inexact else fl in
      (z, fl).

Definition softfloat_propagateNaNF128UI (uiA64 uiA0 uiB64 uiB0 fl : Z) : Z * Z * Z :=
  let fl :=
    if softfloat_isSigNaNF128UI uiA64 uiA0 || softfloat_isSigNaNF128UI uiB64 uiB0 then
      fl .| softfloat_flag_invalid
    else fl
  in
  let uiZ_v64 := defaultNaNF128UI64 in
  let uiZ_v0 := defaultNaNF128UI0 in
  ((uiZ_v64, uiZ_v0), fl).

Definition softfloat_roundPackToF128 (rm : Z) (sign : bool) (exp sig64 sig0 sigExtra fl : Z) : Z * Z * Z :=
  let roundingMode := rm in
  let roundNearEven := roundingMode =? softfloat_round_near_even in
  let doIncrement := 0x8000000000000000 <=? sigExtra in
  let doIncrement :=
    if negb roundNearEven && negb (roundingMode =? softfloat_round_near_maxMag) then
      (roundingMode =? (if sign then softfloat_round_min else softfloat_round_max)) && z2b sigExtra
    else doIncrement
  in
  let join2 (sig64 sig0 sigExtra exp fl : Z) (doIncrement : bool) :=
    let join1 (fl sig0 : Z) :=
      let '(sig64, sig0, exp) :=
        if doIncrement then
          let '(sig128_v64, sig128_v0) := softfloat_add128 sig64 sig0 0 1 in
          let sig64 := sig128_v64 in
          let sig0 := sig128_v0 &~ b2z (((sigExtra .& 0x7fffffffffffffff) =? 0) && roundNearEven) in
          (sig64, sig0, exp)
        else if (sig64 .| sig0) =? 0 then
          let exp := 0 in
          (sig64, sig0, exp)
        else (sig64, sig0, exp)
      in
      let uiZ64 := packToF128UI64 sign exp sig64 in
      let uiZ0 := sig0 in
      let uZ_v64 := uiZ64 in
      let uZ_v0 := uiZ0 in
      ((uZ_v64, uZ_v0), fl)
    in
    if z2b sigExtra then
      let fl := fl .| softfloat_flag_inexact in
      if roundingMode =? softfloat_round_odd then
        let sig0 := sig0 .| 1 in
        let uiZ64 := packToF128UI64 sign exp sig64 in
        let uiZ0 := sig0 in
        let uZ_v64 := uiZ64 in
        let uZ_v0 := uiZ0 in
        ((uZ_v64, uZ_v0), fl)
      else join1 fl sig0
    else join1 fl sig0
  in
  if 0x7ffd <=? u32 exp then
    if exp <? 0 then
      let isTiny := (((softfloat_detectTininess =? softfloat_tininess_beforeRounding) || (exp <? (-1))) ||
          negb doIncrement) || softfloat_lt128 sig64 sig0 0x0001ffffffffffff 0xffffffffffffffff in
      let '(sig128Extra_v_v64, sig128Extra_v_v0, sig128Extra_extra) := softfloat_shiftRightJam128Extra
          sig64 sig0 sigExtra (u64 (- exp)) in
      let sig64 := sig128Extra_v_v64 in
      let sig0 := sig128Extra_v_v0 in
      let sigExtra := sig128Extra_extra in
      let exp := 0 in
      let fl := if isTiny && z2b sigExtra then fl .| softfloat_flag_underflow else fl in
      let doIncrement := 0x8000000000000000 <=? sigExtra in
      let doIncrement :=
        if negb roundNearEven && negb (roundingMode =? softfloat_round_near_maxMag) then
          (roundingMode =? (if sign then softfloat_round_min else softfloat_round_max)) && z2b sigExtra
        else doIncrement
      in
      join2 sig64 sig0 sigExtra exp fl doIncrement
    else if (0x7ffd <? exp) || (((exp =? 0x7ffd) && softfloat_eq128 sig64 sig0 0x0001ffffffffffff
        0xffffffffffffffff) && doIncrement) then
      let fl := fl .| (softfloat_flag_overflow .| softfloat_flag_inexact) in
      let '(uiZ64, uiZ0) :=
        if (roundNearEven || (roundingMode =? softfloat_round_near_maxMag)) ||
            (roundingMode =? (if sign then softfloat_round_min else softfloat_round_max)) then
          let uiZ64 := packToF128UI64 sign 0x7fff 0 in
          let uiZ0 := 0 in
          (uiZ64, uiZ0)
        else
          let uiZ64 := packToF128UI64 sign 0x7ffe 0x0000ffffffffffff in
          let uiZ0 := 0xffffffffffffffff in
          (uiZ64, uiZ0)
      in
      let uZ_v64 := uiZ64 in
      let uZ_v0 := uiZ0 in
      ((uZ_v64, uZ_v0), fl)
    else join2 sig64 sig0 sigExtra exp fl doIncrement
  else join2 sig64 sig0 sigExtra exp fl doIncrement.

Definition softfloat_normRoundPackToF128 (rm : Z) (sign : bool) (exp sig64 sig0 fl : Z) : Z * Z * Z :=
  let '(exp, sig64, sig0) :=
    if sig64 =? 0 then
      let exp := exp - 64 in
      let sig64 := sig0 in
      let sig0 := 0 in
      (exp, sig64, sig0)
    else (exp, sig64, sig0)
  in
  let shiftDist := i8 (softfloat_countLeadingZeros64 sig64 - 15) in
  let exp := exp - shiftDist in
  if 0 <=? shiftDist then
    let '(sig64, sig0) :=
      if z2b shiftDist then
        let '(sig128_v64, sig128_v0) := softfloat_shortShiftLeft128 sig64 sig0 (u8 shiftDist) in
        let sig64 := sig128_v64 in
        let sig0 := sig128_v0 in
        (sig64, sig0)
      else (sig64, sig0)
    in
    if u32 exp <? 0x7ffd then
      let uZ_v64 := packToF128UI64 sign (if z2b (sig64 .| sig0) then exp else 0) sig64 in
      let uZ_v0 := sig0 in
      ((uZ_v64, uZ_v0), fl)
    else
      let sigExtra := 0 in
      softfloat_roundPackToF128 rm sign exp sig64 sig0 sigExtra fl
  else
    let '(sig128Extra_v_v64, sig128Extra_v_v0, sig128Extra_extra) := softfloat_shortShiftRightJam128Extra
        sig64 sig0 0 (u8 (- shiftDist)) in
    let sig64 := sig128Extra_v_v64 in
    let sig0 := sig128Extra_v_v0 in
    let sigExtra := sig128Extra_extra in
    softfloat_roundPackToF128 rm sign exp sig64 sig0 sigExtra fl.

Definition softfloat_normSubnormalF128Sig (sig64 sig0 : Z) : Z * Z * Z :=
  let '(z_exp, z_sig_v64, z_sig_v0) :=
    if sig64 =? 0 then
      let shiftDist := i8 (softfloat_countLeadingZeros64 sig0 - 15) in
      let z_exp := (-63) - shiftDist in
      if shiftDist <? 0 then
        let z_sig_v64 := Z.shiftr sig0 (- shiftDist) in
        let z_sig_v0 := u64 (Z.shiftl sig0 (shiftDist .& 63)) in
        (z_exp, z_sig_v64, z_sig_v0)
      else
        let z_sig_v64 := u64 (Z.shiftl sig0 shiftDist) in
        let z_sig_v0 := 0 in
        (z_exp, z_sig_v64, z_sig_v0)
    else
      let shiftDist := i8 (softfloat_countLeadingZeros64 sig64 - 15) in
      let z_exp := 1 - shiftDist in
      let '(z_sig_v64, z_sig_v0) := softfloat_shortShiftLeft128 sig64 sig0 (u8 shiftDist) in
      (z_exp, z_sig_v64, z_sig_v0)
  in
  (z_exp, z_sig_v64, z_sig_v0).

Definition softfloat_roundPackToF16 (rm : Z) (sign : bool) (exp sig fl : Z) : Z * Z :=
  let roundingMode := rm in
  let roundNearEven := roundingMode =? softfloat_round_near_even in
  let roundIncrement := 0x8 in
  let roundIncrement :=
    if negb roundNearEven && negb (roundingMode =? softfloat_round_near_maxMag) then
      u8 (if roundingMode =? (if sign then softfloat_round_min else softfloat_round_max) then 0xf else 0)
    else roundIncrement
  in
  let roundBits := sig .& 0xf in
  let join2 (sig exp roundBits fl : Z) :=
    let sig := Z.shiftr (u64 (sig + roundIncrement)) 4 in
    let join1 (fl sig : Z) :=
      let sig := sig &~ b2z (((roundBits .^ 8) =? 0) && roundNearEven) in
      let exp := if sig =? 0 then 0 else exp in
      let uiZ := packToF16UI sign exp sig in
      let uZ := u16 uiZ in
      (uZ, fl)
    in
    if z2b roundBits then
      let fl := fl .| softfloat_flag_inexact in
      if roundingMode =? softfloat_round_odd then
        let sig := sig .| 1 in
        let uiZ := packToF16UI sign exp sig in
        let uZ := u16 uiZ in
        (uZ, fl)
      else join1 fl sig
    else join1 fl sig
  in
  if 0x1d <=? u32 exp then
    if exp <? 0 then
      let isTiny := ((softfloat_detectTininess =? softfloat_tininess_beforeRounding) || (exp <? (-1))) ||
          (u64 (sig + roundIncrement) <? 0x8000) in
      let sig := softfloat_shiftRightJam32 (u32 sig) (u64 (- exp)) in
      let exp := 0 in
      let roundBits := sig .& 0xf in
      let fl := if isTiny && z2b roundBits then fl .| softfloat_flag_underflow else fl in
      join2 sig exp roundBits fl
    else if (0x1d <? exp) || (0x8000 <=? u64 (sig + roundIncrement)) then
      let fl := fl .| (softfloat_flag_overflow .| softfloat_flag_inexact) in
      let uiZ := u64 (packToF16UI sign 0x1f 0 - b2z (roundIncrement =? 0)) in
      let uZ := u16 uiZ in
      (uZ, fl)
    else join2 sig exp roundBits fl
  else join2 sig exp roundBits fl.

Definition softfloat_roundToI64 (sign : bool) (sig sigExtra roundingMode : Z) (exact : bool) (fl : Z) : Z
    * Z :=
  let roundNearEven := roundingMode =? softfloat_round_near_even in
  let doIncrement := 0x8000000000000000 <=? sigExtra in
  let doIncrement :=
    if negb roundNearEven && negb (roundingMode =? softfloat_round_near_maxMag) then
      (roundingMode =? (if sign then softfloat_round_min else softfloat_round_max)) && z2b sigExtra
    else doIncrement
  in
  let join1 (sig : Z) :=
    let uZ := if sign then u64 (- sig) else sig in
    let z := i64 uZ in
    if z2b z && xorb (z <? 0) sign then
      let fl := fl .| softfloat_flag_invalid in
      (if sign then i64_fromNegOverflow else i64_fromPosOverflow, fl)
    else
      let fl := if exact && z2b sigExtra then fl .| softfloat_flag_inexact else fl in
      (z, fl)
  in
  if doIncrement then
    let sig := u64 (sig + 1) in
    if sig =? 0 then
      let fl := fl .| softfloat_flag_invalid in
      (if sign then i64_fromNegOverflow else i64_fromPosOverflow, fl)
    else
      let sig := sig &~ b2z (((sigExtra .& 0x7fffffffffffffff) =? 0) && roundNearEven) in
      join1 sig
  else join1 sig.

Definition softfloat_roundToUI64 (sign : bool) (sig sigExtra roundingMode : Z) (exact : bool) (fl : Z) : Z
    * Z :=
  let roundNearEven := roundingMode =? softfloat_round_near_even in
  let doIncrement := 0x8000000000000000 <=? sigExtra in
  let doIncrement :=
    if negb roundNearEven && negb (roundingMode =? softfloat_round_near_maxMag) then
      (roundingMode =? (if sign then softfloat_round_min else softfloat_round_max)) && z2b sigExtra
    else doIncrement
  in
  let join1 (sig : Z) :=
    if sign && z2b sig then
      let fl := fl .| softfloat_flag_invalid in
      (if sign then ui64_fromNegOverflow else ui64_fromPosOverflow, fl)
    else
      let fl := if exact && z2b sigExtra then fl .| softfloat_flag_inexact else fl in
      (sig, fl)
  in
  if doIncrement then
    let sig := u64 (sig + 1) in
    if sig =? 0 then
      let fl := fl .| softfloat_flag_invalid in
      (if sign then ui64_fromNegOverflow else ui64_fromPosOverflow, fl)
    else
      let sig := sig &~ b2z (((sigExtra .& 0x7fffffffffffffff) =? 0) && roundNearEven) in
      join1 sig
  else join1 sig.

Definition softfloat_propagateNaNF16UI (uiA uiB fl : Z) : Z * Z :=
  let fl := if softfloat_isSigNaNF16UI uiA || softfloat_isSigNaNF16UI uiB then fl .|
      softfloat_flag_invalid else fl in
  (u64 defaultNaNF16UI, fl).

Definition softfloat_normSubnormalF16Sig (sig : Z) : Z * Z :=
  let shiftDist := i8 (softfloat_countLeadingZeros16 (u16 sig) - 5) in
  let z_exp := i8 (1 - shiftDist) in
  let z_sig := u64 (Z.shiftl sig shiftDist) in
  (z_exp, z_sig).

Definition softfloat_normRoundPackToF16 (rm : Z) (sign : bool) (exp sig fl : Z) : Z * Z :=
  let shiftDist := i8 (softfloat_countLeadingZeros16 (u16 sig) - 1) in
  let exp := exp - shiftDist in
  if (4 <=? shiftDist) && (u32 exp <? 0x1d) then
    let uZ := u16 (packToF16UI sign (if z2b sig then exp else 0) (u64 (Z.shiftl sig (shiftDist - 4)))) in
    (uZ, fl)
  else softfloat_roundPackToF16 rm sign exp (u64 (Z.shiftl sig shiftDist)) fl.

Definition softfloat_roundPackToI32 (sign : bool) (sig roundingMode : Z) (exact : bool) (fl : Z) : Z * Z :=
  let roundNearEven := roundingMode =? softfloat_round_near_even in
  let roundIncrement := 0x40 in
  let roundIncrement :=
    if negb roundNearEven && negb (roundingMode =? softfloat_round_near_maxMag) then
      u8 (if roundingMode =? (if sign then softfloat_round_min else softfloat_round_max) then 0x7f else 0)
    else roundIncrement
  in
  let roundBits := sig .& 0x7f in
  let sig := u64 (sig + roundIncrement) in
  if z2b (sig .& 0xffffff8000000000) then
    let fl := fl .| softfloat_flag_invalid in
    (if sign then i32_fromNegOverflow else i32_fromPosOverflow, fl)
  else
    let sig32 := Z.shiftr sig 7 in
    let sig32 := sig32 &~ b2z (((roundBits .^ 0x40) =? 0) && roundNearEven) in
    let uZ := u32 (if sign then u64 (- sig32) else sig32) in
    let z := i32 uZ in
    if z2b z && xorb (z <? 0) sign then
      let fl := fl .| softfloat_flag_invalid in
      (if sign then i32_fromNegOverflow else i32_fromPosOverflow, fl)
    else
      let fl := if exact && z2b roundBits then fl .| softfloat_flag_inexact else fl in
      (z, fl).

Definition softfloat_roundPackToI64 (sign : bool) (sig sigExtra roundingMode : Z) (exact : bool) (fl : Z)
    : Z * Z :=
  let roundNearEven := roundingMode =? softfloat_round_near_even in
  let doIncrement := 0x8000000000000000 <=? sigExtra in
  let doIncrement :=
    if negb roundNearEven && negb (roundingMode =? softfloat_round_near_maxMag) then
      (roundingMode =? (if sign then softfloat_round_min else softfloat_round_max)) && z2b sigExtra
    else doIncrement
  in
  let join1 (sig : Z) :=
    let uZ := if sign then u64 (- sig) else sig in
    let z := i64 uZ in
    if z2b z && xorb (z <? 0) sign then
      let fl := fl .| softfloat_flag_invalid in
      (if sign then i64_fromNegOverflow else i64_fromPosOverflow, fl)
    else
      let fl := if exact && z2b sigExtra then fl .| softfloat_flag_inexact else fl in
      (z, fl)
  in
  if doIncrement then
    let sig := u64 (sig + 1) in
    if sig =? 0 then
      let fl := fl .| softfloat_flag_invalid in
      (if sign then i64_fromNegOverflow else i64_fromPosOverflow, fl)
    else
      let sig := sig &~ b2z (((sigExtra .& 0x7fffffffffffffff) =? 0) && roundNearEven) in
      join1 sig
  else join1 sig.

Definition softfloat_roundPackToUI32 (sign : bool) (sig roundingMode : Z) (exact : bool) (fl : Z) : Z * Z :=
  let roundNearEven := roundingMode =? softfloat_round_near_even in
  let roundIncrement := 0x40 in
  let roundIncrement :=
    if negb roundNearEven && negb (roundingMode =? softfloat_round_near_maxMag) then
      u8 (if roundingMode =? (if sign then softfloat_round_min else softfloat_round_max) then 0x7f else 0)
    else roundIncrement
  in
  let roundBits := sig .& 0x7f in
  let sig := u64 (sig + roundIncrement) in
  if z2b (sig .& 0xffffff8000000000) then
    let fl := fl .| softfloat_flag_invalid in
    (if sign then ui32_fromNegOverflow else ui32_fromPosOverflow, fl)
  else
    let z := Z.shiftr sig 7 in
    let z := z &~ b2z (((roundBits .^ 0x40) =? 0) && roundNearEven) in
    if sign && z2b z then
      let fl := fl .| softfloat_flag_invalid in
      (if sign then ui32_fromNegOverflow else ui32_fromPosOverflow, fl)
    else
      let fl := if exact && z2b roundBits then fl .| softfloat_flag_inexact else fl in
      (z, fl).

Definition softfloat_roundPackToUI64 (sign : bool) (sig sigExtra roundingMode : Z) (exact : bool) (fl : Z)
    : Z * Z :=
  let roundNearEven := roundingMode =? softfloat_round_near_even in
  let doIncrement := 0x8000000000000000 <=? sigExtra in
  let doIncrement :=
    if negb roundNearEven && negb (roundingMode =? softfloat_round_near_maxMag) then
      (roundingMode =? (if sign then softfloat_round_min else softfloat_round_max)) && z2b sigExtra
    else doIncrement
  in
  let join1 (sig : Z) :=
    if sign && z2b sig then
      let fl := fl .| softfloat_flag_invalid in
      (if sign then ui64_fromNegOverflow else ui64_fromPosOverflow, fl)
    else
      let fl := if exact && z2b sigExtra then fl .| softfloat_flag_inexact else fl in
      (sig, fl)
  in
  if doIncrement then
    let sig := u64 (sig + 1) in
    if sig =? 0 then
      let fl := fl .| softfloat_flag_invalid in
      (if sign then ui64_fromNegOverflow else ui64_fromPosOverflow, fl)
    else
      let sig := sig &~ b2z (((sigExtra .& 0x7fffffffffffffff) =? 0) && roundNearEven) in
      join1 sig
  else join1 sig.
