(* ===== verification/SoftF16.v ===== *)
(** * SoftFloat: half precision *)

From S2P Require Import Prelude SoftPrim SoftRound.

Definition softfloat_addMagsF16 (rm uiA uiB fl : Z) : Z * Z :=
  let expA := i8 (expF16UI uiA) in
  let sigA := fracF16UI uiA in
  let expB := i8 (expF16UI uiB) in
  let sigB := fracF16UI uiB in
  let expDiff := i8 (expA - expB) in
  if expDiff =? 0 then
    if expA =? 0 then
      let uiZ := u64 (uiA + sigB) in
      let uZ := u16 uiZ in
      (uZ, fl)
    else if expA =? 0x1f then
      if z2b (sigA .| sigB) then
        let '(uiZ, fl) := softfloat_propagateNaNF16UI uiA uiB fl in
        let uZ := u16 uiZ in
        (uZ, fl)
      else
        let uiZ := uiA in
        let uZ := u16 uiZ in
        (uZ, fl)
    else
      let signZ := signF16UI uiA in
      let expZ := expA in
      let sigZ := u64 (u64 (0x0800 + sigA) + sigB) in
      if ((sigZ .& 1) =? 0) && (expZ <? 0x1e) then
        let sigZ := Z.shiftr sigZ 1 in
        let uiZ := packToF16UI signZ expZ sigZ in
        let uZ := u16 uiZ in
        (uZ, fl)
      else
        let sigZ := u64 (Z.shiftl sigZ 3) in
        softfloat_roundPackToF16 rm signZ expZ sigZ fl
  else
    let signZ := signF16UI uiA in
    let join1 (expZ sigX sigY shiftDist : Z) :=
      let sig32Z := u64 (u64 (Z.shiftl sigX 19) + u64 (Z.shiftl sigY shiftDist)) in
      let '(expZ, sig32Z) :=
        if sig32Z <? 0x40000000 then
          let expZ := i8 (expZ - 1) in
          let sig32Z := u64 (Z.shiftl sig32Z 1) in
          (expZ, sig32Z)
        else (expZ, sig32Z)
      in
      let sigZ := Z.shiftr sig32Z 16 in
      if z2b (sig32Z .& 0xffff) then
        let sigZ := sigZ .| 1 in
        softfloat_roundPackToF16 rm signZ expZ sigZ fl
      else if ((sigZ .& 0xf) =? 0) && (expZ <? 0x1e) then
        let sigZ := Z.shiftr sigZ 4 in
        let uiZ := packToF16UI signZ expZ sigZ in
        let uZ := u16 uiZ in
        (uZ, fl)
      else softfloat_roundPackToF16 rm signZ expZ sigZ fl
    in
    if expDiff <? 0 then
      if expB =? 0x1f then
        if z2b sigB then
          let '(uiZ, fl) := softfloat_propagateNaNF16UI uiA uiB fl in
          let uZ := u16 uiZ in
          (uZ, fl)
        else
          let uiZ := packToF16UI signZ 0x1f 0 in
          let uZ := u16 uiZ in
          (uZ, fl)
      else if expDiff <=? (-13) then
        let uiZ := packToF16UI signZ expB sigB in
        if z2b (u64 expA .| sigA) then
          let roundingMode := i8 rm in
          let '(uiZ, fl) :=
            if negb (roundingMode =? softfloat_round_near_even) then
              if roundingMode =? (if signF16UI uiZ then softfloat_round_min else softfloat_round_max) then
                let uiZ := u64 (uiZ + 1) in
                if u16 (Z.shiftl uiZ 1) =? 0xf800 then
                  let fl := fl .| (softfloat_flag_overflow .| softfloat_flag_inexact) in
                  (uiZ, fl)
                else (uiZ, fl)
              else if roundingMode =? softfloat_round_odd then
                let uiZ := uiZ .| 1 in
                (uiZ, fl)
              else (uiZ, fl)
            else (uiZ, fl)
          in
          let fl := fl .| softfloat_flag_inexact in
          let uZ := u16 uiZ in
          (uZ, fl)
        else
          let uZ := u16 uiZ in
          (uZ, fl)
      else
        let expZ := expB in
        let sigX := sigB .| 0x0400 in
        let sigY := u64 (sigA + (if z2b expA then 0x0400 else sigA)) in
        let shiftDist := i8 (19 + expDiff) in
        join1 expZ sigX sigY shiftDist
    else
      let uiZ := uiA in
      if expA =? 0x1f then
        if z2b sigA then
          let '(uiZ, fl) := softfloat_propagateNaNF16UI uiA uiB fl in
          let uZ := u16 uiZ in
          (uZ, fl)
        else
          let uZ := u16 uiZ in
          (uZ, fl)
      else if 13 <=? expDiff then
        if z2b (u64 expB .| sigB) then
          let roundingMode := i8 rm in
          let '(uiZ, fl) :=
            if negb (roundingMode =? softfloat_round_near_even) then
              if roundingMode =? (if signF16UI uiZ then softfloat_round_min else softfloat_round_max) then
                let uiZ := u64 (uiZ + 1) in
                if u16 (Z.shiftl uiZ 1) =? 0xf800 then
                  let fl := fl .| (softfloat_flag_overflow .| softfloat_flag_inexact) in
                  (uiZ, fl)
                else (uiZ, fl)
              else if roundingMode =? softfloat_round_odd then
                let uiZ := uiZ .| 1 in
                (uiZ, fl)
              else (uiZ, fl)
            else (uiZ, fl)
          in
          let fl := fl .| softfloat_flag_inexact in
          let uZ := u16 uiZ in
          (uZ, fl)
        else
          let uZ := u16 uiZ in
          (uZ, fl)
      else
        let expZ := expA in
        let sigX := sigA .| 0x0400 in
        let sigY := u64 (sigB + (if z2b expB then 0x0400 else sigB)) in
        let shiftDist := i8 (19 - expDiff) in
        join1 expZ sigX sigY shiftDist.

Definition softfloat_subMagsF16 (rm uiA uiB fl : Z) : Z * Z :=
  let expA := i8 (expF16UI uiA) in
  let sigA := fracF16UI uiA in
  let expB := i8 (expF16UI uiB) in
  let sigB := fracF16UI uiB in
  let expDiff := i8 (expA - expB) in
  if expDiff =? 0 then
    if expA =? 0x1f then
      if z2b (sigA .| sigB) then
        let '(uiZ, fl) := softfloat_propagateNaNF16UI uiA uiB fl in
        let uZ := u16 uiZ in
        (uZ, fl)
      else
        let fl := fl .| softfloat_flag_invalid in
        let uiZ := u64 defaultNaNF16UI in
        let uZ := u16 uiZ in
        (uZ, fl)
    else
      let sigDiff := i64 (u64 (sigA - sigB)) in
      if sigDiff =? 0 then
        let uiZ := packToF16UI (rm =? softfloat_round_min) 0 0 in
        let uZ := u16 uiZ in
        (uZ, fl)
      else
        let expA := if z2b expA then i8 (expA - 1) else expA in
        let signZ := signF16UI uiA in
        let '(signZ, sigDiff) :=
          if sigDiff <? 0 then
            let signZ := negb signZ in
            let sigDiff := - sigDiff in
            (signZ, sigDiff)
          else (signZ, sigDiff)
        in
        let shiftDist := i8 (softfloat_countLeadingZeros16 (u16 sigDiff) - 5) in
        let expZ := i8 (expA - shiftDist) in
        let '(shiftDist, expZ) :=
          if expZ <? 0 then
            let shiftDist := expA in
            let expZ := 0 in
            (shiftDist, expZ)
          else (shiftDist, expZ)
        in
        let sigZ := u64 (Z.shiftl sigDiff shiftDist) in
        let uiZ := packToF16UI signZ expZ sigZ in
        let uZ := u16 uiZ in
        (uZ, fl)
  else
    let signZ := signF16UI uiA in
    let join1 (signZ : bool) (expZ sigX sigY expDiff : Z) :=
      let sig32Z := u64 (u64 (Z.shiftl sigX expDiff) - sigY) in
      let shiftDist := i8 (softfloat_countLeadingZeros32 (u32 sig32Z) - 1) in
      let sig32Z := u64 (Z.shiftl sig32Z shiftDist) in
      let expZ := i8 (expZ - shiftDist) in
      let sigZ := Z.shiftr sig32Z 16 in
      if z2b (sig32Z .& 0xffff) then
        let sigZ := sigZ .| 1 in
        softfloat_roundPackToF16 rm signZ expZ sigZ fl
      else if ((sigZ .& 0xf) =? 0) && (u32 expZ <? 0x1e) then
        let sigZ := Z.shiftr sigZ 4 in
        let uiZ := packToF16UI signZ expZ sigZ in
        let uZ := u16 uiZ in
        (uZ, fl)
      else softfloat_roundPackToF16 rm signZ expZ sigZ fl
    in
    if expDiff <? 0 then
      let signZ := negb signZ in
      if expB =? 0x1f then
        if z2b sigB then
          let '(uiZ, fl) := softfloat_propagateNaNF16UI uiA uiB fl in
          let uZ := u16 uiZ in
          (uZ, fl)
        else
          let uiZ := packToF16UI signZ 0x1f 0 in
          let uZ := u16 uiZ in
          (uZ, fl)
      else if expDiff <=? (-13) then
        let uiZ := packToF16UI signZ expB sigB in
        if z2b (u64 expA .| sigA) then
          let roundingMode := i8 rm in
          let uiZ :=
            if negb (roundingMode =? softfloat_round_near_even) then
              if (roundingMode =? softfloat_round_minMag) ||
                  (roundingMode =? (if signF16UI uiZ then softfloat_round_max else softfloat_round_min)) then
                u64 (uiZ - 1)
              else if roundingMode =? softfloat_round_odd then u64 (uiZ - 1) .| 1 else uiZ
            else uiZ
          in
          let fl := fl .| softfloat_flag_inexact in
          let uZ := u16 uiZ in
          (uZ, fl)
        else
          let uZ := u16 uiZ in
          (uZ, fl)
      else
        let expZ := i8 (expA + 19) in
        let sigX := sigB .| 0x0400 in
        let sigY := u64 (sigA + (if z2b expA then 0x0400 else sigA)) in
        let expDiff := i8 (- expDiff) in
        join1 signZ expZ sigX sigY expDiff
    else
      let uiZ := uiA in
      if expA =? 0x1f then
        if z2b sigA then
          let '(uiZ, fl) := softfloat_propagateNaNF16UI uiA uiB fl in
          let uZ := u16 uiZ in
          (uZ, fl)
        else
          let uZ := u16 uiZ in
          (uZ, fl)
      else if 13 <=? expDiff then
        if z2b (u64 expB .| sigB) then
          let roundingMode := i8 rm in
          let uiZ :=
            if negb (roundingMode =? softfloat_round_near_even) then
              if (roundingMode =? softfloat_round_minMag) ||
                  (roundingMode =? (if signF16UI uiZ then softfloat_round_max else softfloat_round_min)) then
                u64 (uiZ - 1)
              else if roundingMode =? softfloat_round_odd then u64 (uiZ - 1) .| 1 else uiZ
            else uiZ
          in
          let fl := fl .| softfloat_flag_inexact in
          let uZ := u16 uiZ in
          (uZ, fl)
        else
          let uZ := u16 uiZ in
          (uZ, fl)
      else
        let expZ := i8 (expB + 19) in
        let sigX := sigA .| 0x0400 in
        let sigY := u64 (sigB + (if z2b expB then 0x0400 else sigB)) in
        join1 signZ expZ sigX sigY expDiff.

Definition f16_add (rm a b fl : Z) : Z * Z :=
  let uA := a in
  let uiA := uA in
  let uB := b in
  let uiB := uB in
  if signF16UI (uiA .^ uiB) then softfloat_subMagsF16 rm uiA uiB fl
  else softfloat_addMagsF16 rm uiA uiB fl.

Definition f16_classify (a : Z) : Z :=
  let uA := a in
  let uiA := uA in
  let infOrNaN := b2z (expF16UI uiA =? 0x1f) in
  let subnormalOrZero := b2z (expF16UI uiA =? 0) in
  let sign := signF16UI uiA in
  let fracZero := fracF16UI uiA =? 0 in
  let isNaN := isNaNF16UI uiA in
  let isSNaN := softfloat_isSigNaNF16UI uiA in
  u64 (((((((((Z.shiftl (b2z ((sign && z2b infOrNaN) && fracZero)) 0 .| Z.shiftl
      (b2z ((sign && (infOrNaN =? 0)) && (subnormalOrZero =? 0))) 1) .| Z.shiftl
          (b2z ((sign && z2b subnormalOrZero) && negb fracZero)) 2) .| Z.shiftl
              (b2z ((sign && z2b subnormalOrZero) && fracZero)) 3) .| Z.shiftl
                  (b2z ((negb sign && z2b infOrNaN) && fracZero)) 7) .| Z.shiftl
                      (b2z ((negb sign && (infOrNaN =? 0)) && (subnormalOrZero =? 0))) 6) .| Z.shiftl
                          (b2z ((negb sign && z2b subnormalOrZero) && negb fracZero)) 5) .| Z.shiftl
                              (b2z ((negb sign && z2b subnormalOrZero) && fracZero)) 4) .| Z.shiftl
                                  (b2z (isNaN && isSNaN)) 8) .| Z.shiftl (b2z (isNaN && negb isSNaN)) 9).

Definition f16_div (rm a b fl : Z) : Z * Z :=
  let uA := a in
  let uiA := uA in
  let signA := signF16UI uiA in
  let expA := i8 (expF16UI uiA) in
  let sigA := fracF16UI uiA in
  let uB := b in
  let uiB := uB in
  let signB := signF16UI uiB in
  let expB := i8 (expF16UI uiB) in
  let sigB := fracF16UI uiB in
  let signZ := xorb signA signB in
  if expA =? 0x1f then
    if z2b sigA then
      let '(uiZ, fl) := softfloat_propagateNaNF16UI uiA uiB fl in
      let uZ := u16 uiZ in
      (uZ, fl)
    else if expB =? 0x1f then
      if z2b sigB then
        let '(uiZ, fl) := softfloat_propagateNaNF16UI uiA uiB fl in
        let uZ := u16 uiZ in
        (uZ, fl)
      else
        let fl := fl .| softfloat_flag_invalid in
        let uiZ := u64 defaultNaNF16UI in
        let uZ := u16 uiZ in
        (uZ, fl)
    else
      let uiZ := packToF16UI signZ 0x1f 0 in
      let uZ := u16 uiZ in
      (uZ, fl)
  else if expB =? 0x1f then
    if z2b sigB then
      let '(uiZ, fl) := softfloat_propagateNaNF16UI uiA uiB fl in
      let uZ := u16 uiZ in
      (uZ, fl)
    else
      let uiZ := packToF16UI signZ 0 0 in
      let uZ := u16 uiZ in
      (uZ, fl)
  else
    let join2 (fl expB sigB : Z) :=
      let join1 (expA sigA : Z) :=
        let expZ := i8 ((expA - expB) + 0xe) in
        let sigA := sigA .| 0x0400 in
        let sigB := sigB .| 0x0400 in
        let '(expZ, sigA) :=
          if sigA <? sigB then
            let expZ := i8 (expZ - 1) in
            let sigA := u64 (Z.shiftl sigA 5) in
            (expZ, sigA)
          else
            let sigA := u64 (Z.shiftl sigA 4) in
            (expZ, sigA)
        in
        let index := Z.shiftr sigB 6 .& 0xf in
        let r0 := u16 (nthZ softfloat_approxRecip_1k0s index - Z.shiftr
            (u64 (nthZ softfloat_approxRecip_1k1s index * (sigB .& 0x3f))) 10) in
        let sigZ := Z.shiftr (u64 (sigA * r0)) 16 in
        let rem := u64 (u64 (Z.shiftl sigA 10) - u64 (sigZ * sigB)) in
        let sigZ := u64 (sigZ + Z.shiftr (u64 (rem * r0)) 26) in
        let sigZ := u64 (sigZ + 1) in
        let sigZ :=
          if (sigZ .& 7) =? 0 then
            let sigZ := sigZ &~ 1 in
            let rem := u64 (u64 (Z.shiftl sigA 10) - u64 (sigZ * sigB)) in
            if z2b (rem .& 0x8000) then u64 (sigZ - 2) else if z2b rem then sigZ .| 1 else sigZ
          else sigZ
        in
        softfloat_roundPackToF16 rm signZ expZ sigZ fl
      in
      if expA =? 0 then
        if sigA =? 0 then
          let uiZ := packToF16UI signZ 0 0 in
          let uZ := u16 uiZ in
          (uZ, fl)
        else
          let '(normExpSig_exp, normExpSig_sig) := softfloat_normSubnormalF16Sig sigA in
          let expA := normExpSig_exp in
          let sigA := normExpSig_sig in
          join1 expA sigA
      else join1 expA sigA
    in
    if expB =? 0 then
      if sigB =? 0 then
        if (u64 expA .| sigA) =? 0 then
          let fl := fl .| softfloat_flag_invalid in
          let uiZ := u64 defaultNaNF16UI in
          let uZ := u16 uiZ in
          (uZ, fl)
        else
          let fl := fl .| softfloat_flag_infinite in
          let uiZ := packToF16UI signZ 0x1f 0 in
          let uZ := u16 uiZ in
          (uZ, fl)
      else
        let '(normExpSig_exp, normExpSig_sig) := softfloat_normSubnormalF16Sig sigB in
        let expB := normExpSig_exp in
        let sigB := normExpSig_sig in
        join2 fl expB sigB
    else join2 fl expB sigB.

Definition f16_eq (a b fl : Z) : bool * Z :=
  let uA := a in
  let uiA := uA in
  let uB := b in
  let uiB := uB in
  if isNaNF16UI uiA || isNaNF16UI uiB then
    let fl := if softfloat_isSigNaNF16UI uiA || softfloat_isSigNaNF16UI uiB then fl .|
        softfloat_flag_invalid else fl in
    (false, fl)
  else ((uiA =? uiB) || ((u16 (Z.shiftl (uiA .| uiB) 1)) =? 0), fl).

Definition f16_eq_signaling (a b fl : Z) : bool * Z :=
  let uA := a in
  let uiA := uA in
  let uB := b in
  let uiB := uB in
  if isNaNF16UI uiA || isNaNF16UI uiB then
    let fl := fl .| softfloat_flag_invalid in
    (false, fl)
  else ((uiA =? uiB) || ((u16 (Z.shiftl (uiA .| uiB) 1)) =? 0), fl).

Definition f16_isSignalingNaN (a : Z) : bool :=
  let uA := a in
  softfloat_isSigNaNF16UI uA.

Definition f16_le (a b fl : Z) : bool * Z :=
  let uA := a in
  let uiA := uA in
  let uB := b in
  let uiB := uB in
  if isNaNF16UI uiA || isNaNF16UI uiB then
    let fl := fl .| softfloat_flag_invalid in
    (false, fl)
  else
    let signA := signF16UI uiA in
    let signB := signF16UI uiB in
    (if negb (Bool.eqb signA signB) then signA || ((u16 (Z.shiftl (uiA .| uiB) 1)) =? 0) else (uiA =? uiB)
        || xorb signA (uiA <? uiB), fl).

Definition f16_le_quiet (a b fl : Z) : bool * Z :=
  let uA := a in
  let uiA := uA in
  let uB := b in
  let uiB := uB in
  if isNaNF16UI uiA || isNaNF16UI uiB then
    let fl := if softfloat_isSigNaNF16UI uiA || softfloat_isSigNaNF16UI uiB then fl .|
        softfloat_flag_invalid else fl in
    (false, fl)
  else
    let signA := signF16UI uiA in
    let signB := signF16UI uiB in
    (if negb (Bool.eqb signA signB) then signA || ((u16 (Z.shiftl (uiA .| uiB) 1)) =? 0) else (uiA =? uiB)
        || xorb signA (uiA <? uiB), fl).

Definition f16_lt (a b fl : Z) : bool * Z :=
  let uA := a in
  let uiA := uA in
  let uB := b in
  let uiB := uB in
  if isNaNF16UI uiA || isNaNF16UI uiB then
    let fl := fl .| softfloat_flag_invalid in
    (false, fl)
  else
    let signA := signF16UI uiA in
    let signB := signF16UI uiB in
    (if negb (Bool.eqb signA signB) then signA && negb (u16 (Z.shiftl (uiA .| uiB) 1) =? 0) else negb
        (uiA =? uiB) && xorb signA (uiA <? uiB), fl).

Definition f16_lt_quiet (a b fl : Z) : bool * Z :=
  let uA := a in
  let uiA := uA in
  let uB := b in
  let uiB := uB in
  if isNaNF16UI uiA || isNaNF16UI uiB then
    let fl := if softfloat_isSigNaNF16UI uiA || softfloat_isSigNaNF16UI uiB then fl .|
        softfloat_flag_invalid else fl in
    (false, fl)
  else
    let signA := signF16UI uiA in
    let signB := signF16UI uiB in
    (if negb (Bool.eqb signA signB) then signA && negb (u16 (Z.shiftl (uiA .| uiB) 1) =? 0) else negb
        (uiA =? uiB) && xorb signA (uiA <? uiB), fl).

Definition softfloat_mulAddF16 (rm uiA uiB uiC op fl : Z) : Z * Z :=
  let signA := signF16UI uiA in
  let expA := i8 (expF16UI uiA) in
  let sigA := fracF16UI uiA in
  let signB := signF16UI uiB in
  let expB := i8 (expF16UI uiB) in
  let sigB := fracF16UI uiB in
  let signC := xorb (signF16UI uiC) (op =? softfloat_mulAdd_subC) in
  let expC := i8 (expF16UI uiC) in
  let sigC := fracF16UI uiC in
  let signProd := xorb (xorb signA signB) (op =? softfloat_mulAdd_subProd) in
  if expA =? 0x1f then
    if z2b sigA || ((expB =? 0x1f) && z2b sigB) then
      let '(uiZ, fl) := softfloat_propagateNaNF16UI uiA uiB fl in
      let '(uiZ, fl) := softfloat_propagateNaNF16UI uiZ uiC fl in
      let uZ := u16 uiZ in
      (uZ, fl)
    else
      let magBits := u64 expB .| sigB in
      let join1 (_ : unit) :=
        let fl := fl .| softfloat_flag_invalid in
        let uiZ := u64 defaultNaNF16UI in
        let '(uiZ, fl) := softfloat_propagateNaNF16UI uiZ uiC fl in
        let uZ := u16 uiZ in
        (uZ, fl)
      in
      if z2b magBits then
        let uiZ := packToF16UI signProd 0x1f 0 in
        if negb (expC =? 0x1f) then
          let uZ := u16 uiZ in
          (uZ, fl)
        else if z2b sigC then
          let '(uiZ, fl) := softfloat_propagateNaNF16UI uiZ uiC fl in
          let uZ := u16 uiZ in
          (uZ, fl)
        else if Bool.eqb signProd signC then
          let uZ := u16 uiZ in
          (uZ, fl)
        else join1 tt
      else join1 tt
  else if expB =? 0x1f then
    if z2b sigB then
      let '(uiZ, fl) := softfloat_propagateNaNF16UI uiA uiB fl in
      let '(uiZ, fl) := softfloat_propagateNaNF16UI uiZ uiC fl in
      let uZ := u16 uiZ in
      (uZ, fl)
    else
      let magBits := u64 expA .| sigA in
      let join2 (_ : unit) :=
        let fl := fl .| softfloat_flag_invalid in
        let uiZ := u64 defaultNaNF16UI in
        let '(uiZ, fl) := softfloat_propagateNaNF16UI uiZ uiC fl in
        let uZ := u16 uiZ in
        (uZ, fl)
      in
      if z2b magBits then
        let uiZ := packToF16UI signProd 0x1f 0 in
        if negb (expC =? 0x1f) then
          let uZ := u16 uiZ in
          (uZ, fl)
        else if z2b sigC then
          let '(uiZ, fl) := softfloat_propagateNaNF16UI uiZ uiC fl in
          let uZ := u16 uiZ in
          (uZ, fl)
        else if Bool.eqb signProd signC then
          let uZ := u16 uiZ in
          (uZ, fl)
        else join2 tt
      else join2 tt
  else if expC =? 0x1f then
    if z2b sigC then
      let uiZ := 0 in
      let '(uiZ, fl) := softfloat_propagateNaNF16UI uiZ uiC fl in
      let uZ := u16 uiZ in
      (uZ, fl)
    else
      let uiZ := uiC in
      let uZ := u16 uiZ in
      (uZ, fl)
  else
    let join6 (expA sigA : Z) :=
      let join5 (expB sigB : Z) :=
        let expProd := i8 ((expA + expB) - 0xe) in
        let sigA := u64 (Z.shiftl (sigA .| 0x0400) 4) in
        let sigB := u64 (Z.shiftl (sigB .| 0x0400) 4) in
        let sigProd := u64 (sigA * sigB) in
        let '(expProd, sigProd) :=
          if sigProd <? 0x20000000 then
            let expProd := i8 (expProd - 1) in
            let sigProd := u64 (Z.shiftl sigProd 1) in
            (expProd, sigProd)
          else (expProd, sigProd)
        in
        let signZ := signProd in
        let join4 (expC sigC : Z) :=
          let sigC := u64 (Z.shiftl (sigC .| 0x0400) 3) in
          let expDiff := i8 (expProd - expC) in
          if Bool.eqb signProd signC then
            let '(expZ, sigZ) :=
              if expDiff <=? 0 then
                let expZ := expC in
                let sigZ := u64 (sigC + softfloat_shiftRightJam32 (u32 sigProd) (u64 (16 - expDiff))) in
                (expZ, sigZ)
              else
                let expZ := expProd in
                let sig32Z := u64 (sigProd + softfloat_shiftRightJam32 (u32 (Z.shiftl sigC 16))
                    (u64 expDiff)) in
                let sigZ := Z.shiftr sig32Z 16 .| b2z (negb ((sig32Z .& 0xffff) =? 0)) in
                (expZ, sigZ)
            in
            let '(expZ, sigZ) :=
              if sigZ <? 0x4000 then
                let expZ := i8 (expZ - 1) in
                let sigZ := u64 (Z.shiftl sigZ 1) in
                (expZ, sigZ)
              else (expZ, sigZ)
            in
            softfloat_roundPackToF16 rm signZ expZ sigZ fl
          else
            let sig32C := u64 (Z.shiftl sigC 16) in
            let join3 (signZ : bool) (expZ sig32Z : Z) :=
              let shiftDist := i8 (softfloat_countLeadingZeros32 (u32 sig32Z) - 1) in
              let expZ := i8 (expZ - shiftDist) in
              let shiftDist := i8 (shiftDist - 16) in
              let sigZ :=
                if shiftDist <? 0 then
                  Z.shiftr sig32Z (- shiftDist) .| b2z (negb (u32 (Z.shiftl sig32Z (shiftDist .& 31)) =? 0))
                else u64 (Z.shiftl sig32Z shiftDist)
              in
              softfloat_roundPackToF16 rm signZ expZ sigZ fl
            in
            if expDiff <? 0 then
              let signZ := signC in
              let expZ := expC in
              let sig32Z := u64 (sig32C - softfloat_shiftRightJam32 (u32 sigProd) (u64 (- expDiff))) in
              join3 signZ expZ sig32Z
            else if expDiff =? 0 then
              let expZ := expProd in
              let sig32Z := u64 (sigProd - sig32C) in
              if sig32Z =? 0 then
                let uiZ := packToF16UI (rm =? softfloat_round_min) 0 0 in
                let uZ := u16 uiZ in
                (uZ, fl)
              else
                let '(signZ, sig32Z) :=
                  if z2b (sig32Z .& 0x80000000) then
                    let signZ := negb signZ in
                    let sig32Z := u64 (- sig32Z) in
                    (signZ, sig32Z)
                  else (signZ, sig32Z)
                in
                join3 signZ expZ sig32Z
            else
              let expZ := expProd in
              let sig32Z := u64 (sigProd - softfloat_shiftRightJam32 (u32 sig32C) (u64 expDiff)) in
              join3 signZ expZ sig32Z
        in
        if expC =? 0 then
          if sigC =? 0 then
            let expZ := i8 (expProd - 1) in
            let sigZ := Z.shiftr sigProd 15 .| b2z (negb ((sigProd .& 0x7fff) =? 0)) in
            softfloat_roundPackToF16 rm signZ expZ sigZ fl
          else
            let '(normExpSig_exp, normExpSig_sig) := softfloat_normSubnormalF16Sig sigC in
            let expC := normExpSig_exp in
            let sigC := normExpSig_sig in
            join4 expC sigC
        else join4 expC sigC
      in
      if expB =? 0 then
        if sigB =? 0 then
          let uiZ := uiC in
          let uiZ :=
            if ((u64 expC .| sigC) =? 0) && negb (Bool.eqb signProd signC) then
              packToF16UI (rm =? softfloat_round_min) 0 0
            else uiZ
          in
          let uZ := u16 uiZ in
          (uZ, fl)
        else
          let '(normExpSig_exp, normExpSig_sig) := softfloat_normSubnormalF16Sig sigB in
          let expB := normExpSig_exp in
          let sigB := normExpSig_sig in
          join5 expB sigB
      else join5 expB sigB
    in
    if expA =? 0 then
      if sigA =? 0 then
        let uiZ := uiC in
        let uiZ :=
          if ((u64 expC .| sigC) =? 0) && negb (Bool.eqb signProd signC) then
            packToF16UI (rm =? softfloat_round_min) 0 0
          else uiZ
        in
        let uZ := u16 uiZ in
        (uZ, fl)
      else
        let '(normExpSig_exp, normExpSig_sig) := softfloat_normSubnormalF16Sig sigA in
        let expA := normExpSig_exp in
        let sigA := normExpSig_sig in
        join6 expA sigA
    else join6 expA sigA.

Definition f16_mulAdd (rm a b c fl : Z) : Z * Z :=
  let uA := a in
  let uiA := uA in
  let uB := b in
  let uiB := uB in
  let uC := c in
  let uiC := uC in
  softfloat_mulAddF16 rm uiA uiB uiC 0 fl.

Definition f16_mul (rm a b fl : Z) : Z * Z :=
  let uA := a in
  let uiA := uA in
  let signA := signF16UI uiA in
  let expA := i8 (expF16UI uiA) in
  let sigA := fracF16UI uiA in
  let uB := b in
  let uiB := uB in
  let signB := signF16UI uiB in
  let expB := i8 (expF16UI uiB) in
  let sigB := fracF16UI uiB in
  let signZ := xorb signA signB in
  if expA =? 0x1f then
    if z2b sigA || ((expB =? 0x1f) && z2b sigB) then
      let '(uiZ, fl) := softfloat_propagateNaNF16UI uiA uiB fl in
      let uZ := u16 uiZ in
      (uZ, fl)
    else
      let magBits := u64 expB .| sigB in
      let '(fl, uiZ) :=
        if magBits =? 0 then
          let fl := fl .| softfloat_flag_invalid in
          let uiZ := u64 defaultNaNF16UI in
          (fl, uiZ)
        else
          let uiZ := packToF16UI signZ 0x1f 0 in
          (fl, uiZ)
      in
      let uZ := u16 uiZ in
      (uZ, fl)
  else if expB =? 0x1f then
    if z2b sigB then
      let '(uiZ, fl) := softfloat_propagateNaNF16UI uiA uiB fl in
      let uZ := u16 uiZ in
      (uZ, fl)
    else
      let magBits := u64 expA .| sigA in
      let '(fl, uiZ) :=
        if magBits =? 0 then
          let fl := fl .| softfloat_flag_invalid in
          let uiZ := u64 defaultNaNF16UI in
          (fl, uiZ)
        else
          let uiZ := packToF16UI signZ 0x1f 0 in
          (fl, uiZ)
      in
      let uZ := u16 uiZ in
      (uZ, fl)
  else
    let join2 (expA sigA : Z) :=
      let join1 (expB sigB : Z) :=
        let expZ := i8 ((expA + expB) - 0xf) in
        let sigA := u64 (Z.shiftl (sigA .| 0x0400) 4) in
        let sigB := u64 (Z.shiftl (sigB .| 0x0400) 5) in
        let sig32Z := u64 (sigA * sigB) in
        let sigZ := Z.shiftr sig32Z 16 in
        let sigZ := if z2b (sig32Z .& 0xffff) then sigZ .| 1 else sigZ in
        let '(expZ, sigZ) :=
          if sigZ <? 0x4000 then
            let expZ := i8 (expZ - 1) in
            let sigZ := u64 (Z.shiftl sigZ 1) in
            (expZ, sigZ)
          else (expZ, sigZ)
        in
        softfloat_roundPackToF16 rm signZ expZ sigZ fl
      in
      if expB =? 0 then
        if sigB =? 0 then
          let uiZ := packToF16UI signZ 0 0 in
          let uZ := u16 uiZ in
          (uZ, fl)
        else
          let '(normExpSig_exp, normExpSig_sig) := softfloat_normSubnormalF16Sig sigB in
          let expB := normExpSig_exp in
          let sigB := normExpSig_sig in
          join1 expB sigB
      else join1 expB sigB
    in
    if expA =? 0 then
      if sigA =? 0 then
        let uiZ := packToF16UI signZ 0 0 in
        let uZ := u16 uiZ in
        (uZ, fl)
      else
        let '(normExpSig_exp, normExpSig_sig) := softfloat_normSubnormalF16Sig sigA in
        let expA := normExpSig_exp in
        let sigA := normExpSig_sig in
        join2 expA sigA
    else join2 expA sigA.

Definition f16_roundToInt (a roundingMode : Z) (exact : bool) (fl : Z) : Z * Z :=
  let uA := a in
  let uiA := uA in
  let exp := i8 (expF16UI uiA) in
  if exp <=? 0xe then
    if (u16 (Z.shiftl uiA 1)) =? 0 then (a, fl)
    else
      let fl := if exact then fl .| softfloat_flag_inexact else fl in
      let uiZ := uiA .& packToF16UI true 0 0 in
      let uiZ :=
        if roundingMode =? softfloat_round_near_even then
          if negb ((fracF16UI uiA) =? 0) then if exp =? 0xe then uiZ .| packToF16UI false 0xf 0 else uiZ
              else uiZ
        else if roundingMode =? softfloat_round_near_maxMag then
          if exp =? 0xe then uiZ .| packToF16UI false 0xf 0 else uiZ
        else if roundingMode =? softfloat_round_min then
          if z2b uiZ then packToF16UI true 0xf 0 else uiZ
        else if roundingMode =? softfloat_round_max then if uiZ =? 0 then packToF16UI false 0xf 0 else uiZ
            else uiZ
      in
      let uZ := u16 uiZ in
      (uZ, fl)
  else if 0x19 <=? exp then
    if (exp =? 0x1f) && z2b (fracF16UI uiA) then
      let '(uiZ, fl) := softfloat_propagateNaNF16UI uiA 0 fl in
      let uZ := u16 uiZ in
      (uZ, fl)
    else (a, fl)
  else
    let uiZ := uiA in
    let lastBitMask := u64 (Z.shiftl 1 (0x19 - exp)) in
    let roundBitsMask := u64 (lastBitMask - 1) in
    let uiZ :=
      if roundingMode =? softfloat_round_near_maxMag then u64 (uiZ + Z.shiftr lastBitMask 1)
      else if roundingMode =? softfloat_round_near_even then
        let uiZ := u64 (uiZ + Z.shiftr lastBitMask 1) in
        if (uiZ .& roundBitsMask) =? 0 then uiZ &~ lastBitMask else uiZ
      else if roundingMode =? (if signF16UI uiZ then softfloat_round_min else softfloat_round_max) then
        u64 (uiZ + roundBitsMask)
      else uiZ
    in
    let uiZ := uiZ &~ roundBitsMask in
    let fl := if exact && negb (uiZ =? uiA) then fl .| softfloat_flag_inexact else fl in
    let uZ := u16 uiZ in
    (uZ, fl).

Definition f16_sqrt (rm a fl : Z) : Z * Z :=
  let uA := a in
  let uiA := uA in
  let signA := signF16UI uiA in
  let expA := i8 (expF16UI uiA) in
  let sigA := fracF16UI uiA in
  if expA =? 0x1f then
    if z2b sigA then
      let '(uiZ, fl) := softfloat_propagateNaNF16UI uiA 0 fl in
      let uZ := u16 uiZ in
      (uZ, fl)
    else if negb signA then (a, fl)
    else
      let fl := fl .| softfloat_flag_invalid in
      let uiZ := u64 defaultNaNF16UI in
      let uZ := u16 uiZ in
      (uZ, fl)
  else if signA then
    if (u64 expA .| sigA) =? 0 then (a, fl)
    else
      let fl := fl .| softfloat_flag_invalid in
      let uiZ := u64 defaultNaNF16UI in
      let uZ := u16 uiZ in
      (uZ, fl)
  else
    let join1 (expA sigA : Z) :=
      let expZ := i8 (Z.shiftr (expA - 0xf) 1 + 0xe) in
      let expA := expA .& 1 in
      let sigA := sigA .| 0x0400 in
      let index := i32 (u64 ((Z.shiftr sigA 6 .& 0xe) + u64 expA)) in
      let r0 := u64 (nthZ softfloat_approxRecipSqrt_1k0s index - Z.shiftr
          (u64 (nthZ softfloat_approxRecipSqrt_1k1s index * (sigA .& 0x7f))) 11) in
      let ESqrR0 := Z.shiftr (u64 (r0 * r0)) 1 in
      let ESqrR0 := if z2b expA then Z.shiftr ESqrR0 1 else ESqrR0 in
      let sigma0 := u16 (Z.lnot (Z.shiftr (u64 (ESqrR0 * sigA)) 16)) in
      let recipSqrt16 := u64 (r0 + Z.shiftr (u64 (r0 * sigma0)) 25) in
      let recipSqrt16 := if (recipSqrt16 .& 0x8000) =? 0 then 0x8000 else recipSqrt16 in
      let sigZ := Z.shiftr (u64 (u64 (Z.shiftl sigA 5) * recipSqrt16)) 16 in
      let sigZ := if z2b expA then Z.shiftr sigZ 1 else sigZ in
      let sigZ := u64 (sigZ + 1) in
      let sigZ :=
        if (sigZ .& 7) =? 0 then
          let shiftedSigZ := Z.shiftr sigZ 1 in
          let negRem := u16 (shiftedSigZ * shiftedSigZ) in
          let sigZ := sigZ &~ 1 in
          if z2b (negRem .& 0x8000) then sigZ .| 1 else if z2b negRem then u64 (sigZ - 1) else sigZ
        else sigZ
      in
      softfloat_roundPackToF16 rm false expZ sigZ fl
    in
    if expA =? 0 then
      if sigA =? 0 then (a, fl)
      else
        let '(normExpSig_exp, normExpSig_sig) := softfloat_normSubnormalF16Sig sigA in
        let expA := normExpSig_exp in
        let sigA := normExpSig_sig in
        join1 expA sigA
    else join1 expA sigA.

Definition f16_sub (rm a b fl : Z) : Z * Z :=
  let uA := a in
  let uiA := uA in
  let uB := b in
  let uiB := uB in
  if signF16UI (uiA .^ uiB) then softfloat_addMagsF16 rm uiA uiB fl
  else softfloat_subMagsF16 rm uiA uiB fl.
