(* ===== verification/SoftF32.v ===== *)
(** * SoftFloat: single precision *)

From S2P Require Import Prelude SoftPrim SoftRound.

Definition softfloat_addMagsF32 (rm uiA uiB fl : Z) : Z * Z :=
  let expA := expF32UI uiA in
  let sigA := fracF32UI uiA in
  let expB := expF32UI uiB in
  let sigB := fracF32UI uiB in
  let expDiff := expA - expB in
  if expDiff =? 0 then
    if expA =? 0 then
      let uiZ := u64 (uiA + sigB) in
      let uZ := u32 uiZ in
      (uZ, fl)
    else if expA =? 0xff then
      if z2b (sigA .| sigB) then
        let '(uiZ, fl) := softfloat_propagateNaNF32UI uiA uiB fl in
        let uZ := u32 uiZ in
        (uZ, fl)
      else
        let uiZ := uiA in
        let uZ := u32 uiZ in
        (uZ, fl)
    else
      let signZ := signF32UI uiA in
      let expZ := expA in
      let sigZ := u64 (u64 (0x01000000 + sigA) + sigB) in
      if ((sigZ .& 1) =? 0) && (expZ <? 0xfe) then
        let uiZ := packToF32UI signZ expZ (Z.shiftr sigZ 1) in
        let uZ := u32 uiZ in
        (uZ, fl)
      else
        let sigZ := u64 (Z.shiftl sigZ 6) in
        softfloat_roundPackToF32 rm signZ expZ sigZ fl
  else
    let signZ := signF32UI uiA in
    let sigA := u64 (Z.shiftl sigA 6) in
    let sigB := u64 (Z.shiftl sigB 6) in
    let join1 (expZ sigA sigB : Z) :=
      let sigZ := u64 (u64 (0x20000000 + sigA) + sigB) in
      let '(expZ, sigZ) :=
        if sigZ <? 0x40000000 then
          let expZ := expZ - 1 in
          let sigZ := u64 (Z.shiftl sigZ 1) in
          (expZ, sigZ)
        else (expZ, sigZ)
      in
      softfloat_roundPackToF32 rm signZ expZ sigZ fl
    in
    if expDiff <? 0 then
      if expB =? 0xff then
        if z2b sigB then
          let '(uiZ, fl) := softfloat_propagateNaNF32UI uiA uiB fl in
          let uZ := u32 uiZ in
          (uZ, fl)
        else
          let uiZ := packToF32UI signZ 0xff 0 in
          let uZ := u32 uiZ in
          (uZ, fl)
      else
        let expZ := expB in
        let sigA := u64 (sigA + (if z2b expA then 0x20000000 else sigA)) in
        let sigA := softfloat_shiftRightJam32 (u32 sigA) (u64 (- expDiff)) in
        join1 expZ sigA sigB
    else if expA =? 0xff then
      if z2b sigA then
        let '(uiZ, fl) := softfloat_propagateNaNF32UI uiA uiB fl in
        let uZ := u32 uiZ in
        (uZ, fl)
      else
        let uiZ := uiA in
        let uZ := u32 uiZ in
        (uZ, fl)
    else
      let expZ := expA in
      let sigB := u64 (sigB + (if z2b expB then 0x20000000 else sigB)) in
      let sigB := softfloat_shiftRightJam32 (u32 sigB) (u64 expDiff) in
      join1 expZ sigA sigB.

Definition softfloat_subMagsF32 (rm uiA uiB fl : Z) : Z * Z :=
  let expA := expF32UI uiA in
  let sigA := fracF32UI uiA in
  let expB := expF32UI uiB in
  let sigB := fracF32UI uiB in
  let expDiff := expA - expB in
  if expDiff =? 0 then
    if expA =? 0xff then
      if z2b (sigA .| sigB) then
        let '(uiZ, fl) := softfloat_propagateNaNF32UI uiA uiB fl in
        let uZ := u32 uiZ in
        (uZ, fl)
      else
        let fl := fl .| softfloat_flag_invalid in
        let uiZ := u64 defaultNaNF32UI in
        let uZ := u32 uiZ in
        (uZ, fl)
    else
      let sigDiff := i64 (u64 (sigA - sigB)) in
      if sigDiff =? 0 then
        let uiZ := packToF32UI (rm =? softfloat_round_min) 0 0 in
        let uZ := u32 uiZ in
        (uZ, fl)
      else
        let expA := if z2b expA then expA - 1 else expA in
        let signZ := signF32UI uiA in
        let '(signZ, sigDiff) :=
          if sigDiff <? 0 then
            let signZ := negb signZ in
            let sigDiff := - sigDiff in
            (signZ, sigDiff)
          else (signZ, sigDiff)
        in
        let shiftDist := i8 (softfloat_countLeadingZeros32 (u32 sigDiff) - 8) in
        let expZ := expA - shiftDist in
        let '(shiftDist, expZ) :=
          if expZ <? 0 then
            let shiftDist := i8 expA in
            let expZ := 0 in
            (shiftDist, expZ)
          else (shiftDist, expZ)
        in
        let uiZ := packToF32UI signZ expZ (u64 (Z.shiftl sigDiff shiftDist)) in
        let uZ := u32 uiZ in
        (uZ, fl)
  else
    let signZ := signF32UI uiA in
    let sigA := u64 (Z.shiftl sigA 7) in
    let sigB := u64 (Z.shiftl sigB 7) in
    if expDiff <? 0 then
      let signZ := negb signZ in
      if expB =? 0xff then
        if z2b sigB then
          let '(uiZ, fl) := softfloat_propagateNaNF32UI uiA uiB fl in
          let uZ := u32 uiZ in
          (uZ, fl)
        else
          let uiZ := packToF32UI signZ 0xff 0 in
          let uZ := u32 uiZ in
          (uZ, fl)
      else
        let expZ := expB - 1 in
        let sigX := sigB .| 0x40000000 in
        let sigY := u64 (sigA + (if z2b expA then 0x40000000 else sigA)) in
        let expDiff := - expDiff in
        softfloat_normRoundPackToF32 rm signZ expZ
            (u64 (sigX - softfloat_shiftRightJam32 (u32 sigY) (u64 expDiff))) fl
    else if expA =? 0xff then
      if z2b sigA then
        let '(uiZ, fl) := softfloat_propagateNaNF32UI uiA uiB fl in
        let uZ := u32 uiZ in
        (uZ, fl)
      else
        let uiZ := uiA in
        let uZ := u32 uiZ in
        (uZ, fl)
    else
      let expZ := expA - 1 in
      let sigX := sigA .| 0x40000000 in
      let sigY := u64 (sigB + (if z2b expB then 0x40000000 else sigB)) in
      softfloat_normRoundPackToF32 rm signZ expZ
          (u64 (sigX - softfloat_shiftRightJam32 (u32 sigY) (u64 expDiff))) fl.

Definition f32_add (rm a b fl : Z) : Z * Z :=
  let uA := a in
  let uiA := uA in
  let uB := b in
  let uiB := uB in
  if signF32UI (uiA .^ uiB) then softfloat_subMagsF32 rm uiA uiB fl
  else softfloat_addMagsF32 rm uiA uiB fl.

Definition f32_div (rm a b fl : Z) : Z * Z :=
  let uA := a in
  let uiA := uA in
  let signA := signF32UI uiA in
  let expA := expF32UI uiA in
  let sigA := fracF32UI uiA in
  let uB := b in
  let uiB := uB in
  let signB := signF32UI uiB in
  let expB := expF32UI uiB in
  let sigB := fracF32UI uiB in
  let signZ := xorb signA signB in
  if expA =? 0xff then
    if z2b sigA then
      let '(uiZ, fl) := softfloat_propagateNaNF32UI uiA uiB fl in
      let uZ := u32 uiZ in
      (uZ, fl)
    else if expB =? 0xff then
      if z2b sigB then
        let '(uiZ, fl) := softfloat_propagateNaNF32UI uiA uiB fl in
        let uZ := u32 uiZ in
        (uZ, fl)
      else
        let fl := fl .| softfloat_flag_invalid in
        let uiZ := u64 defaultNaNF32UI in
        let uZ := u32 uiZ in
        (uZ, fl)
    else
      let uiZ := packToF32UI signZ 0xff 0 in
      let uZ := u32 uiZ in
      (uZ, fl)
  else if expB =? 0xff then
    if z2b sigB then
      let '(uiZ, fl) := softfloat_propagateNaNF32UI uiA uiB fl in
      let uZ := u32 uiZ in
      (uZ, fl)
    else
      let uiZ := packToF32UI signZ 0 0 in
      let uZ := u32 uiZ in
      (uZ, fl)
  else
    let join2 (fl expB sigB : Z) :=
      let join1 (expA sigA : Z) :=
        let expZ := (expA - expB) + 0x7e in
        let sigA := sigA .| 0x00800000 in
        let sigB := sigB .| 0x00800000 in
        let '(expZ, sig64A) :=
          if sigA <? sigB then
            let expZ := expZ - 1 in
            let sig64A := u64 (Z.shiftl sigA 31) in
            (expZ, sig64A)
          else
            let sig64A := u64 (Z.shiftl sigA 30) in
            (expZ, sig64A)
        in
        let sigZ := sig64A / sigB in
        let sigZ := if (sigZ .& 0x3f) =? 0 then sigZ .| b2z (negb (u64 (sigB * sigZ) =? sig64A)) else sigZ in
        softfloat_roundPackToF32 rm signZ expZ sigZ fl
      in
      if expA =? 0 then
        if sigA =? 0 then
          let uiZ := packToF32UI signZ 0 0 in
          let uZ := u32 uiZ in
          (uZ, fl)
        else
          let '(normExpSig_exp, normExpSig_sig) := softfloat_normSubnormalF32Sig sigA in
          let expA := normExpSig_exp in
          let sigA := normExpSig_sig in
          join1 expA sigA
      else join1 expA sigA
    in
    if expB =? 0 then
      if sigB =? 0 then
        if (u64 expA .| sigA) =? 0 then
          let fl := fl .| softfloat_flag_invalid in
          let uiZ := u64 defaultNaNF32UI in
          let uZ := u32 uiZ in
          (uZ, fl)
        else
          let fl := fl .| softfloat_flag_infinite in
          let uiZ := packToF32UI signZ 0xff 0 in
          let uZ := u32 uiZ in
          (uZ, fl)
      else
        let '(normExpSig_exp, normExpSig_sig) := softfloat_normSubnormalF32Sig sigB in
        let expB := normExpSig_exp in
        let sigB := normExpSig_sig in
        join2 fl expB sigB
    else join2 fl expB sigB.

Definition f32_mul (rm a b fl : Z) : Z * Z :=
  let uA := a in
  let uiA := uA in
  let signA := signF32UI uiA in
  let expA := expF32UI uiA in
  let sigA := fracF32UI uiA in
  let uB := b in
  let uiB := uB in
  let signB := signF32UI uiB in
  let expB := expF32UI uiB in
  let sigB := fracF32UI uiB in
  let signZ := xorb signA signB in
  if expA =? 0xff then
    if z2b sigA || ((expB =? 0xff) && z2b sigB) then
      let '(uiZ, fl) := softfloat_propagateNaNF32UI uiA uiB fl in
      let uZ := u32 uiZ in
      (uZ, fl)
    else
      let magBits := u64 expB .| sigB in
      let '(fl, uiZ) :=
        if magBits =? 0 then
          let fl := fl .| softfloat_flag_invalid in
          let uiZ := u64 defaultNaNF32UI in
          (fl, uiZ)
        else
          let uiZ := packToF32UI signZ 0xff 0 in
          (fl, uiZ)
      in
      let uZ := u32 uiZ in
      (uZ, fl)
  else if expB =? 0xff then
    if z2b sigB then
      let '(uiZ, fl) := softfloat_propagateNaNF32UI uiA uiB fl in
      let uZ := u32 uiZ in
      (uZ, fl)
    else
      let magBits := u64 expA .| sigA in
      let '(fl, uiZ) :=
        if magBits =? 0 then
          let fl := fl .| softfloat_flag_invalid in
          let uiZ := u64 defaultNaNF32UI in
          (fl, uiZ)
        else
          let uiZ := packToF32UI signZ 0xff 0 in
          (fl, uiZ)
      in
      let uZ := u32 uiZ in
      (uZ, fl)
  else
    let join2 (expA sigA : Z) :=
      let join1 (expB sigB : Z) :=
        let expZ := (expA + expB) - 0x7f in
        let sigA := u64 (Z.shiftl (sigA .| 0x00800000) 7) in
        let sigB := u64 (Z.shiftl (sigB .| 0x00800000) 8) in
        let sigZ := softfloat_shortShiftRightJam64 (u64 (sigA * sigB)) 32 in
        let '(expZ, sigZ) :=
          if sigZ <? 0x40000000 then
            let expZ := expZ - 1 in
            let sigZ := u64 (Z.shiftl sigZ 1) in
            (expZ, sigZ)
          else (expZ, sigZ)
        in
        softfloat_roundPackToF32 rm signZ expZ sigZ fl
      in
      if expB =? 0 then
        if sigB =? 0 then
          let uiZ := packToF32UI signZ 0 0 in
          let uZ := u32 uiZ in
          (uZ, fl)
        else
          let '(normExpSig_exp, normExpSig_sig) := softfloat_normSubnormalF32Sig sigB in
          let expB := normExpSig_exp in
          let sigB := normExpSig_sig in
          join1 expB sigB
      else join1 expB sigB
    in
    if expA =? 0 then
      if sigA =? 0 then
        let uiZ := packToF32UI signZ 0 0 in
        let uZ := u32 uiZ in
        (uZ, fl)
      else
        let '(normExpSig_exp, normExpSig_sig) := softfloat_normSubnormalF32Sig sigA in
        let expA := normExpSig_exp in
        let sigA := normExpSig_sig in
        join2 expA sigA
    else join2 expA sigA.

Definition f32_sqrt (rm a fl : Z) : Z * Z :=
  let uA := a in
  let uiA := uA in
  let signA := signF32UI uiA in
  let expA := expF32UI uiA in
  let sigA := fracF32UI uiA in
  if expA =? 0xff then
    if z2b sigA then
      let '(uiZ, fl) := softfloat_propagateNaNF32UI uiA 0 fl in
      let uZ := u32 uiZ in
      (uZ, fl)
    else if negb signA then (a, fl)
    else
      let fl := fl .| softfloat_flag_invalid in
      let uiZ := u64 defaultNaNF32UI in
      let uZ := u32 uiZ in
      (uZ, fl)
  else if signA then
    if (u64 expA .| sigA) =? 0 then (a, fl)
    else
      let fl := fl .| softfloat_flag_invalid in
      let uiZ := u64 defaultNaNF32UI in
      let uZ := u32 uiZ in
      (uZ, fl)
  else
    let join1 (expA sigA : Z) :=
      let expZ := Z.shiftr (expA - 0x7f) 1 + 0x7e in
      let expA := expA .& 1 in
      let sigA := u64 (Z.shiftl (sigA .| 0x00800000) 8) in
      let sigZ := Z.shiftr (u64 (sigA * softfloat_approxRecipSqrt32_1 (u32 expA) (u32 sigA))) 32 in
      let sigZ := if z2b expA then Z.shiftr sigZ 1 else sigZ in
      let sigZ := u64 (sigZ + 2) in
      let sigZ :=
        if (sigZ .& 0x3f) <? 2 then
          let shiftedSigZ := Z.shiftr sigZ 2 in
          let negRem := u32 (shiftedSigZ * shiftedSigZ) in
          let sigZ := sigZ &~ 3 in
          if z2b (negRem .& 0x80000000) then sigZ .| 1 else if z2b negRem then u64 (sigZ - 1) else sigZ
        else sigZ
      in
      softfloat_roundPackToF32 rm false expZ sigZ fl
    in
    if expA =? 0 then
      if sigA =? 0 then (a, fl)
      else
        let '(normExpSig_exp, normExpSig_sig) := softfloat_normSubnormalF32Sig sigA in
        let expA := normExpSig_exp in
        let sigA := normExpSig_sig in
        join1 expA sigA
    else join1 expA sigA.

Definition f32_sub (rm a b fl : Z) : Z * Z :=
  let uA := a in
  let uiA := uA in
  let uB := b in
  let uiB := uB in
  if signF32UI (uiA .^ uiB) then softfloat_addMagsF32 rm uiA uiB fl
  else softfloat_subMagsF32 rm uiA uiB fl.

Definition f32_eq (a b fl : Z) : bool * Z :=
  let uA := a in
  let uiA := uA in
  let uB := b in
  let uiB := uB in
  if isNaNF32UI uiA || isNaNF32UI uiB then
    let fl := if softfloat_isSigNaNF32UI uiA || softfloat_isSigNaNF32UI uiB then fl .|
        softfloat_flag_invalid else fl in
    (false, fl)
  else ((uiA =? uiB) || ((u32 (Z.shiftl (uiA .| uiB) 1)) =? 0), fl).

Definition f32_le (a b fl : Z) : bool * Z :=
  let uA := a in
  let uiA := uA in
  let uB := b in
  let uiB := uB in
  if isNaNF32UI uiA || isNaNF32UI uiB then
    let fl := fl .| softfloat_flag_invalid in
    (false, fl)
  else
    let signA := signF32UI uiA in
    let signB := signF32UI uiB in
    (if negb (Bool.eqb signA signB) then signA || ((u32 (Z.shiftl (uiA .| uiB) 1)) =? 0) else (uiA =? uiB)
        || xorb signA (uiA <? uiB), fl).

Definition f32_lt (a b fl : Z) : bool * Z :=
  let uA := a in
  let uiA := uA in
  let uB := b in
  let uiB := uB in
  if isNaNF32UI uiA || isNaNF32UI uiB then
    let fl := fl .| softfloat_flag_invalid in
    (false, fl)
  else
    let signA := signF32UI uiA in
    let signB := signF32UI uiB in
    (if negb (Bool.eqb signA signB) then signA && negb (u32 (Z.shiftl (uiA .| uiB) 1) =? 0) else negb
        (uiA =? uiB) && xorb signA (uiA <? uiB), fl).

Definition f32_classify (a : Z) : Z :=
  let uA := a in
  let uiA := uA in
  let infOrNaN := b2z (expF32UI uiA =? 0xff) in
  let subnormalOrZero := b2z (expF32UI uiA =? 0) in
  let sign := signF32UI uiA in
  let fracZero := fracF32UI uiA =? 0 in
  let isNaN := isNaNF32UI uiA in
  let isSNaN := softfloat_isSigNaNF32UI uiA in
  u64 (((((((((Z.shiftl (b2z ((sign && z2b infOrNaN) && fracZero)) 0 .| Z.shiftl
      (b2z ((sign && (infOrNaN =? 0)) && (subnormalOrZero =? 0))) 1) .| Z.shiftl
          (b2z ((sign && z2b subnormalOrZero) && negb fracZero)) 2) .| Z.shiftl
              (b2z ((sign && z2b subnormalOrZero) && fracZero)) 3) .| Z.shiftl
                  (b2z ((negb sign && z2b infOrNaN) && fracZero)) 7) .| Z.shiftl
                      (b2z ((negb sign && (infOrNaN =? 0)) && (subnormalOrZero =? 0))) 6) .| Z.shiftl
                          (b2z ((negb sign && z2b subnormalOrZero) && negb fracZero)) 5) .| Z.shiftl
                              (b2z ((negb sign && z2b subnormalOrZero) && fracZero)) 4) .| Z.shiftl
                                  (b2z (isNaN && isSNaN)) 8) .| Z.shiftl (b2z (isNaN && negb isSNaN)) 9).

Definition f32_eq_signaling (a b fl : Z) : bool * Z :=
  let uA := a in
  let uiA := uA in
  let uB := b in
  let uiB := uB in
  if isNaNF32UI uiA || isNaNF32UI uiB then
    let fl := fl .| softfloat_flag_invalid in
    (false, fl)
  else ((uiA =? uiB) || ((u32 (Z.shiftl (uiA .| uiB) 1)) =? 0), fl).

Definition f32_isSignalingNaN (a : Z) : bool :=
  let uA := a in
  softfloat_isSigNaNF32UI uA.

Definition f32_le_quiet (a b fl : Z) : bool * Z :=
  let uA := a in
  let uiA := uA in
  let uB := b in
  let uiB := uB in
  if isNaNF32UI uiA || isNaNF32UI uiB then
    let fl := if softfloat_isSigNaNF32UI uiA || softfloat_isSigNaNF32UI uiB then fl .|
        softfloat_flag_invalid else fl in
    (false, fl)
  else
    let signA := signF32UI uiA in
    let signB := signF32UI uiB in
    (if negb (Bool.eqb signA signB) then signA || ((u32 (Z.shiftl (uiA .| uiB) 1)) =? 0) else (uiA =? uiB)
        || xorb signA (uiA <? uiB), fl).

Definition f32_lt_quiet (a b fl : Z) : bool * Z :=
  let uA := a in
  let uiA := uA in
  let uB := b in
  let uiB := uB in
  if isNaNF32UI uiA || isNaNF32UI uiB then
    let fl := if softfloat_isSigNaNF32UI uiA || softfloat_isSigNaNF32UI uiB then fl .|
        softfloat_flag_invalid else fl in
    (false, fl)
  else
    let signA := signF32UI uiA in
    let signB := signF32UI uiB in
    (if negb (Bool.eqb signA signB) then signA && negb (u32 (Z.shiftl (uiA .| uiB) 1) =? 0) else negb
        (uiA =? uiB) && xorb signA (uiA <? uiB), fl).

Definition softfloat_mulAddF32 (rm uiA uiB uiC op fl : Z) : Z * Z :=
  let signA := signF32UI uiA in
  let expA := expF32UI uiA in
  let sigA := fracF32UI uiA in
  let signB := signF32UI uiB in
  let expB := expF32UI uiB in
  let sigB := fracF32UI uiB in
  let signC := xorb (signF32UI uiC) (op =? softfloat_mulAdd_subC) in
  let expC := expF32UI uiC in
  let sigC := fracF32UI uiC in
  let signProd := xorb (xorb signA signB) (op =? softfloat_mulAdd_subProd) in
  if expA =? 0xff then
    if z2b sigA || ((expB =? 0xff) && z2b sigB) then
      let '(uiZ, fl) := softfloat_propagateNaNF32UI uiA uiB fl in
      let '(uiZ, fl) := softfloat_propagateNaNF32UI uiZ uiC fl in
      let uZ := u32 uiZ in
      (uZ, fl)
    else
      let magBits := u64 expB .| sigB in
      let join1 (_ : unit) :=
        let fl := fl .| softfloat_flag_invalid in
        let uiZ := u64 defaultNaNF32UI in
        let '(uiZ, fl) := softfloat_propagateNaNF32UI uiZ uiC fl in
        let uZ := u32 uiZ in
        (uZ, fl)
      in
      if z2b magBits then
        let uiZ := packToF32UI signProd 0xff 0 in
        if negb (expC =? 0xff) then
          let uZ := u32 uiZ in
          (uZ, fl)
        else if z2b sigC then
          let '(uiZ, fl) := softfloat_propagateNaNF32UI uiZ uiC fl in
          let uZ := u32 uiZ in
          (uZ, fl)
        else if Bool.eqb signProd signC then
          let uZ := u32 uiZ in
          (uZ, fl)
        else join1 tt
      else join1 tt
  else if expB =? 0xff then
    if z2b sigB then
      let '(uiZ, fl) := softfloat_propagateNaNF32UI uiA uiB fl in
      let '(uiZ, fl) := softfloat_propagateNaNF32UI uiZ uiC fl in
      let uZ := u32 uiZ in
      (uZ, fl)
    else
      let magBits := u64 expA .| sigA in
      let join2 (_ : unit) :=
        let fl := fl .| softfloat_flag_invalid in
        let uiZ := u64 defaultNaNF32UI in
        let '(uiZ, fl) := softfloat_propagateNaNF32UI uiZ uiC fl in
        let uZ := u32 uiZ in
        (uZ, fl)
      in
      if z2b magBits then
        let uiZ := packToF32UI signProd 0xff 0 in
        if negb (expC =? 0xff) then
          let uZ := u32 uiZ in
          (uZ, fl)
        else if z2b sigC then
          let '(uiZ, fl) := softfloat_propagateNaNF32UI uiZ uiC fl in
          let uZ := u32 uiZ in
          (uZ, fl)
        else if Bool.eqb signProd signC then
          let uZ := u32 uiZ in
          (uZ, fl)
        else join2 tt
      else join2 tt
  else if expC =? 0xff then
    if z2b sigC then
      let uiZ := 0 in
      let '(uiZ, fl) := softfloat_propagateNaNF32UI uiZ uiC fl in
      let uZ := u32 uiZ in
      (uZ, fl)
    else
      let uiZ := uiC in
      let uZ := u32 uiZ in
      (uZ, fl)
  else
    let join6 (expA sigA : Z) :=
      let join5 (expB sigB : Z) :=
        let expProd := (expA + expB) - 0x7e in
        let sigA := u64 (Z.shiftl (sigA .| 0x00800000) 7) in
        let sigB := u64 (Z.shiftl (sigB .| 0x00800000) 7) in
        let sigProd := u64 (sigA * sigB) in
        let '(expProd, sigProd) :=
          if sigProd <? 0x2000000000000000 then
            let expProd := expProd - 1 in
            let sigProd := u64 (Z.shiftl sigProd 1) in
            (expProd, sigProd)
          else (expProd, sigProd)
        in
        let signZ := signProd in
        let join4 (expC sigC : Z) :=
          let sigC := u64 (Z.shiftl (sigC .| 0x00800000) 6) in
          let expDiff := expProd - expC in
          if Bool.eqb signProd signC then
            let '(expZ, sigZ) :=
              if expDiff <=? 0 then
                let expZ := expC in
                let sigZ := u64 (sigC + softfloat_shiftRightJam64 sigProd (u64 (32 - expDiff))) in
                (expZ, sigZ)
              else
                let expZ := expProd in
                let sig64Z := u64 (sigProd + softfloat_shiftRightJam64 (u64 (Z.shiftl sigC 32))
                    (u64 expDiff)) in
                let sigZ := softfloat_shortShiftRightJam64 sig64Z 32 in
                (expZ, sigZ)
            in
            let '(expZ, sigZ) :=
              if sigZ <? 0x40000000 then
                let expZ := expZ - 1 in
                let sigZ := u64 (Z.shiftl sigZ 1) in
                (expZ, sigZ)
              else (expZ, sigZ)
            in
            softfloat_roundPackToF32 rm signZ expZ sigZ fl
          else
            let sig64C := u64 (Z.shiftl sigC 32) in
            let join3 (signZ : bool) (expZ sig64Z : Z) :=
              let shiftDist := i8 (softfloat_countLeadingZeros64 sig64Z - 1) in
              let expZ := expZ - shiftDist in
              let shiftDist := i8 (shiftDist - 32) in
              let sigZ :=
                if shiftDist <? 0 then softfloat_shortShiftRightJam64 sig64Z (u8 (- shiftDist))
                else u64 (Z.shiftl sig64Z shiftDist)
              in
              softfloat_roundPackToF32 rm signZ expZ sigZ fl
            in
            if expDiff <? 0 then
              let signZ := signC in
              let expZ := expC in
              let sig64Z := u64 (sig64C - softfloat_shiftRightJam64 sigProd (u64 (- expDiff))) in
              join3 signZ expZ sig64Z
            else if expDiff =? 0 then
              let expZ := expProd in
              let sig64Z := u64 (sigProd - sig64C) in
              if sig64Z =? 0 then
                let uiZ := packToF32UI (rm =? softfloat_round_min) 0 0 in
                let uZ := u32 uiZ in
                (uZ, fl)
              else
                let '(signZ, sig64Z) :=
                  if z2b (sig64Z .& 0x8000000000000000) then
                    let signZ := negb signZ in
                    let sig64Z := u64 (- sig64Z) in
                    (signZ, sig64Z)
                  else (signZ, sig64Z)
                in
                join3 signZ expZ sig64Z
            else
              let expZ := expProd in
              let sig64Z := u64 (sigProd - softfloat_shiftRightJam64 sig64C (u64 expDiff)) in
              join3 signZ expZ sig64Z
        in
        if expC =? 0 then
          if sigC =? 0 then
            let expZ := expProd - 1 in
            let sigZ := softfloat_shortShiftRightJam64 sigProd 31 in
            softfloat_roundPackToF32 rm signZ expZ sigZ fl
          else
            let '(normExpSig_exp, normExpSig_sig) := softfloat_normSubnormalF32Sig sigC in
            let expC := normExpSig_exp in
            let sigC := normExpSig_sig in
            join4 expC sigC
        else join4 expC sigC
      in
      if expB =? 0 then
        if sigB =? 0 then
          let uiZ := uiC in
          let uiZ :=
            if ((u64 expC .| sigC) =? 0) && negb (Bool.eqb signProd signC) then
              packToF32UI (rm =? softfloat_round_min) 0 0
            else uiZ
          in
          let uZ := u32 uiZ in
          (uZ, fl)
        else
          let '(normExpSig_exp, normExpSig_sig) := softfloat_normSubnormalF32Sig sigB in
          let expB := normExpSig_exp in
          let sigB := normExpSig_sig in
          join5 expB sigB
      else join5 expB sigB
    in
    if expA =? 0 then
      if sigA =? 0 then
        let uiZ := uiC in
        let uiZ :=
          if ((u64 expC .| sigC) =? 0) && negb (Bool.eqb signProd signC) then
            packToF32UI (rm =? softfloat_round_min) 0 0
          else uiZ
        in
        let uZ := u32 uiZ in
        (uZ, fl)
      else
        let '(normExpSig_exp, normExpSig_sig) := softfloat_normSubnormalF32Sig sigA in
        let expA := normExpSig_exp in
        let sigA := normExpSig_sig in
        join6 expA sigA
    else join6 expA sigA.

Definition f32_mulAdd (rm a b c fl : Z) : Z * Z :=
  let uA := a in
  let uiA := uA in
  let uB := b in
  let uiB := uB in
  let uC := c in
  let uiC := uC in
  softfloat_mulAddF32 rm uiA uiB uiC 0 fl.

Definition f32_roundToInt (a roundingMode : Z) (exact : bool) (fl : Z) : Z * Z :=
  let uA := a in
  let uiA := uA in
  let exp := expF32UI uiA in
  if exp <=? 0x7e then
    if (u32 (Z.shiftl uiA 1)) =? 0 then (a, fl)
    else
      let fl := if exact then fl .| softfloat_flag_inexact else fl in
      let uiZ := uiA .& packToF32UI true 0 0 in
      let uiZ :=
        if roundingMode =? softfloat_round_near_even then
          if negb ((fracF32UI uiA) =? 0) then
            if exp =? 0x7e then uiZ .| packToF32UI false 0x7f 0 else uiZ
          else uiZ
        else if roundingMode =? softfloat_round_near_maxMag then
          if exp =? 0x7e then uiZ .| packToF32UI false 0x7f 0 else uiZ
        else if roundingMode =? softfloat_round_min then
          if z2b uiZ then packToF32UI true 0x7f 0 else uiZ
        else if roundingMode =? softfloat_round_max then if uiZ =? 0 then packToF32UI false 0x7f 0 else
            uiZ else uiZ
      in
      let uZ := u32 uiZ in
      (uZ, fl)
  else if 0x96 <=? exp then
    if (exp =? 0xff) && z2b (fracF32UI uiA) then
      let '(uiZ, fl) := softfloat_propagateNaNF32UI uiA 0 fl in
      let uZ := u32 uiZ in
      (uZ, fl)
    else (a, fl)
  else
    let uiZ := uiA in
    let lastBitMask := u64 (Z.shiftl 1 (0x96 - exp)) in
    let roundBitsMask := u64 (lastBitMask - 1) in
    let uiZ :=
      if roundingMode =? softfloat_round_near_maxMag then u64 (uiZ + Z.shiftr lastBitMask 1)
      else if roundingMode =? softfloat_round_near_even then
        let uiZ := u64 (uiZ + Z.shiftr lastBitMask 1) in
        if (uiZ .& roundBitsMask) =? 0 then uiZ &~ lastBitMask else uiZ
      else if roundingMode =? (if signF32UI uiZ then softfloat_round_min else softfloat_round_max) then
        u64 (uiZ + roundBitsMask)
      else uiZ
    in
    let uiZ := uiZ &~ roundBitsMask in
    let fl := if exact && negb (uiZ =? uiA) then fl .| softfloat_flag_inexact else fl in
    let uZ := u32 uiZ in
    (uZ, fl).
