(* ===== verification/SoftF64.v ===== *)
(** * SoftFloat: double precision *)

From S2P Require Import Prelude SoftPrim SoftRound.

Definition softfloat_addMagsF64 (rm uiA uiB : Z) (signZ : bool) (fl : Z) : Z * Z :=
  let expA := expF64UI uiA in
  let sigA := fracF64UI uiA in
  let expB := expF64UI uiB in
  let sigB := fracF64UI uiB in
  let expDiff := expA - expB in
  if expDiff =? 0 then
    if expA =? 0 then
      let uiZ := u64 (uiA + sigB) in
      let uZ := uiZ in
      (uZ, fl)
    else if expA =? 0x7ff then
      if z2b (sigA .| sigB) then
        let '(uiZ, fl) := softfloat_propagateNaNF64UI uiA uiB fl in
        let uZ := uiZ in
        (uZ, fl)
      else
        let uiZ := uiA in
        let uZ := uiZ in
        (uZ, fl)
    else
      let expZ := expA in
      let sigZ := u64 (u64 (0x0020000000000000 + sigA) + sigB) in
      let sigZ := u64 (Z.shiftl sigZ 9) in
      softfloat_roundPackToF64 rm signZ expZ sigZ fl
  else
    let sigA := u64 (Z.shiftl sigA 9) in
    let sigB := u64 (Z.shiftl sigB 9) in
    let join1 (expZ sigA sigB : Z) :=
      let sigZ := u64 (u64 (0x2000000000000000 + sigA) + sigB) in
      let '(expZ, sigZ) :=
        if sigZ <? 0x4000000000000000 then
          let expZ := expZ - 1 in
          let sigZ := u64 (Z.shiftl sigZ 1) in
          (expZ, sigZ)
        else (expZ, sigZ)
      in
      softfloat_roundPackToF64 rm signZ expZ sigZ fl
    in
    if expDiff <? 0 then
      if expB =? 0x7ff then
        if z2b sigB then
          let '(uiZ, fl) := softfloat_propagateNaNF64UI uiA uiB fl in
          let uZ := uiZ in
          (uZ, fl)
        else
          let uiZ := packToF64UI signZ 0x7ff 0 in
          let uZ := uiZ in
          (uZ, fl)
      else
        let expZ := expB in
        let sigA := if z2b expA then u64 (sigA + 0x2000000000000000) else u64 (Z.shiftl sigA 1) in
        let sigA := softfloat_shiftRightJam64 sigA (u64 (- expDiff)) in
        join1 expZ sigA sigB
    else if expA =? 0x7ff then
      if z2b sigA then
        let '(uiZ, fl) := softfloat_propagateNaNF64UI uiA uiB fl in
        let uZ := uiZ in
        (uZ, fl)
      else
        let uiZ := uiA in
        let uZ := uiZ in
        (uZ, fl)
    else
      let expZ := expA in
      let sigB := if z2b expB then u64 (sigB + 0x2000000000000000) else u64 (Z.shiftl sigB 1) in
      let sigB := softfloat_shiftRightJam64 sigB (u64 expDiff) in
      join1 expZ sigA sigB.

Definition softfloat_subMagsF64 (rm uiA uiB : Z) (signZ : bool) (fl : Z) : Z * Z :=
  let expA := expF64UI uiA in
  let sigA := fracF64UI uiA in
  let expB := expF64UI uiB in
  let sigB := fracF64UI uiB in
  let expDiff := expA - expB in
  if expDiff =? 0 then
    if expA =? 0x7ff then
      if z2b (sigA .| sigB) then
        let '(uiZ, fl) := softfloat_propagateNaNF64UI uiA uiB fl in
        let uZ := uiZ in
        (uZ, fl)
      else
        let fl := fl .| softfloat_flag_invalid in
        let uiZ := defaultNaNF64UI in
        let uZ := uiZ in
        (uZ, fl)
    else
      let sigDiff := i64 (u64 (sigA - sigB)) in
      if sigDiff =? 0 then
        let uiZ := packToF64UI (rm =? softfloat_round_min) 0 0 in
        let uZ := uiZ in
        (uZ, fl)
      else
        let expA := if z2b expA then expA - 1 else expA in
        let '(signZ, sigDiff) :=
          if sigDiff <? 0 then
            let signZ := negb signZ in
            let sigDiff := - sigDiff in
            (signZ, sigDiff)
          else (signZ, sigDiff)
        in
        let shiftDist := i8 (softfloat_countLeadingZeros64 (u64 sigDiff) - 11) in
        let expZ := expA - shiftDist in
        let '(shiftDist, expZ) :=
          if expZ <? 0 then
            let shiftDist := i8 expA in
            let expZ := 0 in
            (shiftDist, expZ)
          else (shiftDist, expZ)
        in
        let uiZ := packToF64UI signZ expZ (u64 (Z.shiftl sigDiff shiftDist)) in
        let uZ := uiZ in
        (uZ, fl)
  else
    let sigA := u64 (Z.shiftl sigA 10) in
    let sigB := u64 (Z.shiftl sigB 10) in
    if expDiff <? 0 then
      let signZ := negb signZ in
      if expB =? 0x7ff then
        if z2b sigB then
          let '(uiZ, fl) := softfloat_propagateNaNF64UI uiA uiB fl in
          let uZ := uiZ in
          (uZ, fl)
        else
          let uiZ := packToF64UI signZ 0x7ff 0 in
          let uZ := uiZ in
          (uZ, fl)
      else
        let sigA := u64 (sigA + (if z2b expA then 0x4000000000000000 else sigA)) in
        let sigA := softfloat_shiftRightJam64 sigA (u64 (- expDiff)) in
        let sigB := sigB .| 0x4000000000000000 in
        let expZ := expB in
        let sigZ := u64 (sigB - sigA) in
        softfloat_normRoundPackToF64 rm signZ (expZ - 1) sigZ fl
    else if expA =? 0x7ff then
      if z2b sigA then
        let '(uiZ, fl) := softfloat_propagateNaNF64UI uiA uiB fl in
        let uZ := uiZ in
        (uZ, fl)
      else
        let uiZ := uiA in
        let uZ := uiZ in
        (uZ, fl)
    else
      let sigB := u64 (sigB + (if z2b expB then 0x4000000000000000 else sigB)) in
      let sigB := softfloat_shiftRightJam64 sigB (u64 expDiff) in
      let sigA := sigA .| 0x4000000000000000 in
      let expZ := expA in
      let sigZ := u64 (sigA - sigB) in
      softfloat_normRoundPackToF64 rm signZ (expZ - 1) sigZ fl.

Definition f64_add (rm a b fl : Z) : Z * Z :=
  let uA := a in
  let uiA := uA in
  let signA := signF64UI uiA in
  let uB := b in
  let uiB := uB in
  let signB := signF64UI uiB in
  if Bool.eqb signA signB then softfloat_addMagsF64 rm uiA uiB signA fl
  else softfloat_subMagsF64 rm uiA uiB signA fl.

Definition f64_mul (rm a b fl : Z) : Z * Z :=
  let uA := a in
  let uiA := uA in
  let signA := signF64UI uiA in
  let expA := expF64UI uiA in
  let sigA := fracF64UI uiA in
  let uB := b in
  let uiB := uB in
  let signB := signF64UI uiB in
  let expB := expF64UI uiB in
  let sigB := fracF64UI uiB in
  let signZ := xorb signA signB in
  if expA =? 0x7ff then
    if z2b sigA || ((expB =? 0x7ff) && z2b sigB) then
      let '(uiZ, fl) := softfloat_propagateNaNF64UI uiA uiB fl in
      let uZ := uiZ in
      (uZ, fl)
    else
      let magBits := u64 expB .| sigB in
      let '(fl, uiZ) :=
        if magBits =? 0 then
          let fl := fl .| softfloat_flag_invalid in
          let uiZ := defaultNaNF64UI in
          (fl, uiZ)
        else
          let uiZ := packToF64UI signZ 0x7ff 0 in
          (fl, uiZ)
      in
      let uZ := uiZ in
      (uZ, fl)
  else if expB =? 0x7ff then
    if z2b sigB then
      let '(uiZ, fl) := softfloat_propagateNaNF64UI uiA uiB fl in
      let uZ := uiZ in
      (uZ, fl)
    else
      let magBits := u64 expA .| sigA in
      let '(fl, uiZ) :=
        if magBits =? 0 then
          let fl := fl .| softfloat_flag_invalid in
          let uiZ := defaultNaNF64UI in
          (fl, uiZ)
        else
          let uiZ := packToF64UI signZ 0x7ff 0 in
          (fl, uiZ)
      in
      let uZ := uiZ in
      (uZ, fl)
  else
    let join2 (expA sigA : Z) :=
      let join1 (expB sigB : Z) :=
        let expZ := (expA + expB) - 0x3ff in
        let sigA := u64 (Z.shiftl (sigA .| 0x0010000000000000) 10) in
        let sigB := u64 (Z.shiftl (sigB .| 0x0010000000000000) 11) in
        let '(sig128Z_v64, sig128Z_v0) := softfloat_mul64To128 sigA sigB in
        let sigZ := sig128Z_v64 .| b2z (negb (sig128Z_v0 =? 0)) in
        let '(expZ, sigZ) :=
          if sigZ <? 0x4000000000000000 then
            let expZ := expZ - 1 in
            let sigZ := u64 (Z.shiftl sigZ 1) in
            (expZ, sigZ)
          else (expZ, sigZ)
        in
        softfloat_roundPackToF64 rm signZ expZ sigZ fl
      in
      if expB =? 0 then
        if sigB =? 0 then
          let uiZ := packToF64UI signZ 0 0 in
          let uZ := uiZ in
          (uZ, fl)
        else
          let '(normExpSig_exp, normExpSig_sig) := softfloat_normSubnormalF64Sig sigB in
          let expB := normExpSig_exp in
          let sigB := normExpSig_sig in
          join1 expB sigB
      else join1 expB sigB
    in
    if expA =? 0 then
      if sigA =? 0 then
        let uiZ := packToF64UI signZ 0 0 in
        let uZ := uiZ in
        (uZ, fl)
      else
        let '(normExpSig_exp, normExpSig_sig) := softfloat_normSubnormalF64Sig sigA in
        let expA := normExpSig_exp in
        let sigA := normExpSig_sig in
        join2 expA sigA
    else join2 expA sigA.

Definition f64_classify (a : Z) : Z :=
  let uA := a in
  let uiA := uA in
  let infOrNaN := b2z (expF64UI uiA =? 0x7ff) in
  let subnormalOrZero := b2z (expF64UI uiA =? 0) in
  let sign := signF64UI uiA in
  let fracZero := fracF64UI uiA =? 0 in
  let isNaN := isNaNF64UI uiA in
  let isSNaN := softfloat_isSigNaNF64UI uiA in
  u64 (((((((((Z.shiftl (b2z ((sign && z2b infOrNaN) && fracZero)) 0 .| Z.shiftl
      (b2z ((sign && (infOrNaN =? 0)) && (subnormalOrZero =? 0))) 1) .| Z.shiftl
          (b2z ((sign && z2b subnormalOrZero) && negb fracZero)) 2) .| Z.shiftl
              (b2z ((sign && z2b subnormalOrZero) && fracZero)) 3) .| Z.shiftl
                  (b2z ((negb sign && z2b infOrNaN) && fracZero)) 7) .| Z.shiftl
                      (b2z ((negb sign && (infOrNaN =? 0)) && (subnormalOrZero =? 0))) 6) .| Z.shiftl
                          (b2z ((negb sign && z2b subnormalOrZero) && negb fracZero)) 5) .| Z.shiftl
                              (b2z ((negb sign && z2b subnormalOrZero) && fracZero)) 4) .| Z.shiftl
                                  (b2z (isNaN && isSNaN)) 8) .| Z.shiftl (b2z (isNaN && negb isSNaN)) 9).

Definition f64_div (rm a b fl : Z) : Z * Z :=
  let uA := a in
  let uiA := uA in
  let signA := signF64UI uiA in
  let expA := expF64UI uiA in
  let sigA := fracF64UI uiA in
  let uB := b in
  let uiB := uB in
  let signB := signF64UI uiB in
  let expB := expF64UI uiB in
  let sigB := fracF64UI uiB in
  let signZ := xorb signA signB in
  if expA =? 0x7ff then
    if z2b sigA then
      let '(uiZ, fl) := softfloat_propagateNaNF64UI uiA uiB fl in
      let uZ := uiZ in
      (uZ, fl)
    else if expB =? 0x7ff then
      if z2b sigB then
        let '(uiZ, fl) := softfloat_propagateNaNF64UI uiA uiB fl in
        let uZ := uiZ in
        (uZ, fl)
      else
        let fl := fl .| softfloat_flag_invalid in
        let uiZ := defaultNaNF64UI in
        let uZ := uiZ in
        (uZ, fl)
    else
      let uiZ := packToF64UI signZ 0x7ff 0 in
      let uZ := uiZ in
      (uZ, fl)
  else if expB =? 0x7ff then
    if z2b sigB then
      let '(uiZ, fl) := softfloat_propagateNaNF64UI uiA uiB fl in
      let uZ := uiZ in
      (uZ, fl)
    else
      let uiZ := packToF64UI signZ 0 0 in
      let uZ := uiZ in
      (uZ, fl)
  else
    let join2 (fl expB sigB : Z) :=
      let join1 (expA sigA : Z) :=
        let expZ := (expA - expB) + 0x3fe in
        let sigA := sigA .| 0x0010000000000000 in
        let sigB := sigB .| 0x0010000000000000 in
        let '(expZ, sigA) :=
          if sigA <? sigB then
            let expZ := expZ - 1 in
            let sigA := u64 (Z.shiftl sigA 11) in
            (expZ, sigA)
          else
            let sigA := u64 (Z.shiftl sigA 10) in
            (expZ, sigA)
        in
        let sigB := u64 (Z.shiftl sigB 11) in
        let recip32 := u32 (softfloat_approxRecip32_1 (u32 (Z.shiftr sigB 32)) - 2) in
        let sig32Z := u32 (Z.shiftr (u64 (u32 (Z.shiftr sigA 32) * recip32)) 32) in
        let doubleTerm := u32 (Z.shiftl sig32Z 1) in
        let rem := u64 (u64 (Z.shiftl (u64 (sigA - u64 (doubleTerm * u32 (Z.shiftr sigB 32)))) 28) - u64
            (doubleTerm * Z.shiftr (u32 sigB) 4)) in
        let q := u32 (Z.shiftr (u64 (u32 (Z.shiftr rem 32) * recip32)) 32 + 4) in
        let sigZ := u64 (u64 (Z.shiftl sig32Z 32) + u64 (Z.shiftl q 4)) in
        let sigZ :=
          if (sigZ .& 0x1ff) <? u64 (Z.shiftl 4 4) then
            let q := q &~ 7 in
            let sigZ := sigZ &~ 0x7f in
            let doubleTerm := u32 (Z.shiftl q 1) in
            let rem := u64 (u64 (Z.shiftl (u64 (rem - u64 (doubleTerm * u32 (Z.shiftr sigB 32)))) 28) -
                u64 (doubleTerm * Z.shiftr (u32 sigB) 4)) in
            if z2b (rem .& 0x8000000000000000) then u64 (sigZ - u64 (Z.shiftl 1 7))
            else if z2b rem then sigZ .| 1 else sigZ
          else sigZ
        in
        softfloat_roundPackToF64 rm signZ expZ sigZ fl
      in
      if expA =? 0 then
        if sigA =? 0 then
          let uiZ := packToF64UI signZ 0 0 in
          let uZ := uiZ in
          (uZ, fl)
        else
          let '(normExpSig_exp, normExpSig_sig) := softfloat_normSubnormalF64Sig sigA in
          let expA := normExpSig_exp in
          let sigA := normExpSig_sig in
          join1 expA sigA
      else join1 expA sigA
    in
    if expB =? 0 then
      if sigB =? 0 then
        if (u64 expA .| sigA) =? 0 then
          let fl := fl .| softfloat_flag_invalid in
          let uiZ := defaultNaNF64UI in
          let uZ := uiZ in
          (uZ, fl)
        else
          let fl := fl .| softfloat_flag_infinite in
          let uiZ := packToF64UI signZ 0x7ff 0 in
          let uZ := uiZ in
          (uZ, fl)
      else
        let '(normExpSig_exp, normExpSig_sig) := softfloat_normSubnormalF64Sig sigB in
        let expB := normExpSig_exp in
        let sigB := normExpSig_sig in
        join2 fl expB sigB
    else join2 fl expB sigB.

Definition f64_eq (a b fl : Z) : bool * Z :=
  let uA := a in
  let uiA := uA in
  let uB := b in
  let uiB := uB in
  if isNaNF64UI uiA || isNaNF64UI uiB then
    let fl := if softfloat_isSigNaNF64UI uiA || softfloat_isSigNaNF64UI uiB then fl .|
        softfloat_flag_invalid else fl in
    (false, fl)
  else ((uiA =? uiB) || (((uiA .| uiB) .& 0x7fffffffffffffff) =? 0), fl).

Definition f64_eq_signaling (a b fl : Z) : bool * Z :=
  let uA := a in
  let uiA := uA in
  let uB := b in
  let uiB := uB in
  if isNaNF64UI uiA || isNaNF64UI uiB then
    let fl := fl .| softfloat_flag_invalid in
    (false, fl)
  else ((uiA =? uiB) || (((uiA .| uiB) .& 0x7fffffffffffffff) =? 0), fl).

Definition f64_isSignalingNaN (a : Z) : bool :=
  let uA := a in
  softfloat_isSigNaNF64UI uA.

Definition f64_le (a b fl : Z) : bool * Z :=
  let uA := a in
  let uiA := uA in
  let uB := b in
  let uiB := uB in
  if isNaNF64UI uiA || isNaNF64UI uiB then
    let fl := fl .| softfloat_flag_invalid in
    (false, fl)
  else
    let signA := signF64UI uiA in
    let signB := signF64UI uiB in
    (if negb (Bool.eqb signA signB) then signA || (((uiA .| uiB) .& 0x7fffffffffffffff) =? 0) else
        (uiA =? uiB) || xorb signA (uiA <? uiB), fl).

Definition f64_le_quiet (a b fl : Z) : bool * Z :=
  let uA := a in
  let uiA := uA in
  let uB := b in
  let uiB := uB in
  if isNaNF64UI uiA || isNaNF64UI uiB then
    let fl := if softfloat_isSigNaNF64UI uiA || softfloat_isSigNaNF64UI uiB then fl .|
        softfloat_flag_invalid else fl in
    (false, fl)
  else
    let signA := signF64UI uiA in
    let signB := signF64UI uiB in
    (if negb (Bool.eqb signA signB) then signA || (((uiA .| uiB) .& 0x7fffffffffffffff) =? 0) else
        (uiA =? uiB) || xorb signA (uiA <? uiB), fl).

Definition f64_lt (a b fl : Z) : bool * Z :=
  let uA := a in
  let uiA := uA in
  let uB := b in
  let uiB := uB in
  if isNaNF64UI uiA || isNaNF64UI uiB then
    let fl := fl .| softfloat_flag_invalid in
    (false, fl)
  else
    let signA := signF64UI uiA in
    let signB := signF64UI uiB in
    (if negb (Bool.eqb signA signB) then signA && z2b ((uiA .| uiB) .& 0x7fffffffffffffff) else negb
        (uiA =? uiB) && xorb signA (uiA <? uiB), fl).

Definition f64_lt_quiet (a b fl : Z) : bool * Z :=
  let uA := a in
  let uiA := uA in
  let uB := b in
  let uiB := uB in
  if isNaNF64UI uiA || isNaNF64UI uiB then
    let fl := if softfloat_isSigNaNF64UI uiA || softfloat_isSigNaNF64UI uiB then fl .|
        softfloat_flag_invalid else fl in
    (false, fl)
  else
    let signA := signF64UI uiA in
    let signB := signF64UI uiB in
    (if negb (Bool.eqb signA signB) then signA && z2b ((uiA .| uiB) .& 0x7fffffffffffffff) else negb
        (uiA =? uiB) && xorb signA (uiA <? uiB), fl).

Definition softfloat_mulAddF64 (rm uiA uiB uiC op fl : Z) : Z * Z :=
  let sig128C_v64 := 0 in
  let sig128C_v0 := 0 in
  let signA := signF64UI uiA in
  let expA := expF64UI uiA in
  let sigA := fracF64UI uiA in
  let signB := signF64UI uiB in
  let expB := expF64UI uiB in
  let sigB := fracF64UI uiB in
  let signC := xorb (signF64UI uiC) (op =? softfloat_mulAdd_subC) in
  let expC := expF64UI uiC in
  let sigC := fracF64UI uiC in
  let signZ := xorb (xorb signA signB) (op =? softfloat_mulAdd_subProd) in
  if expA =? 0x7ff then
    if z2b sigA || ((expB =? 0x7ff) && z2b sigB) then
      let '(uiZ, fl) := softfloat_propagateNaNF64UI uiA uiB fl in
      let '(uiZ, fl) := softfloat_propagateNaNF64UI uiZ uiC fl in
      let uZ := uiZ in
      (uZ, fl)
    else
      let magBits := u64 expB .| sigB in
      let join1 (_ : unit) :=
        let fl := fl .| softfloat_flag_invalid in
        let uiZ := defaultNaNF64UI in
        let '(uiZ, fl) := softfloat_propagateNaNF64UI uiZ uiC fl in
        let uZ := uiZ in
        (uZ, fl)
      in
      if z2b magBits then
        let uiZ := packToF64UI signZ 0x7ff 0 in
        if negb (expC =? 0x7ff) then
          let uZ := uiZ in
          (uZ, fl)
        else if z2b sigC then
          let '(uiZ, fl) := softfloat_propagateNaNF64UI uiZ uiC fl in
          let uZ := uiZ in
          (uZ, fl)
        else if Bool.eqb signZ signC then
          let uZ := uiZ in
          (uZ, fl)
        else join1 tt
      else join1 tt
  else if expB =? 0x7ff then
    if z2b sigB then
      let '(uiZ, fl) := softfloat_propagateNaNF64UI uiA uiB fl in
      let '(uiZ, fl) := softfloat_propagateNaNF64UI uiZ uiC fl in
      let uZ := uiZ in
      (uZ, fl)
    else
      let magBits := u64 expA .| sigA in
      let join2 (_ : unit) :=
        let fl := fl .| softfloat_flag_invalid in
        let uiZ := defaultNaNF64UI in
        let '(uiZ, fl) := softfloat_propagateNaNF64UI uiZ uiC fl in
        let uZ := uiZ in
        (uZ, fl)
      in
      if z2b magBits then
        let uiZ := packToF64UI signZ 0x7ff 0 in
        if negb (expC =? 0x7ff) then
          let uZ := uiZ in
          (uZ, fl)
        else if z2b sigC then
          let '(uiZ, fl) := softfloat_propagateNaNF64UI uiZ uiC fl in
          let uZ := uiZ in
          (uZ, fl)
        else if Bool.eqb signZ signC then
          let uZ := uiZ in
          (uZ, fl)
        else join2 tt
      else join2 tt
  else if expC =? 0x7ff then
    if z2b sigC then
      let uiZ := 0 in
      let '(uiZ, fl) := softfloat_propagateNaNF64UI uiZ uiC fl in
      let uZ := uiZ in
      (uZ, fl)
    else
      let uiZ := uiC in
      let uZ := uiZ in
      (uZ, fl)
  else
    let join6 (expA sigA : Z) :=
      let join5 (expB sigB : Z) :=
        let expZ := (expA + expB) - 0x3fe in
        let sigA := u64 (Z.shiftl (sigA .| 0x0010000000000000) 10) in
        let sigB := u64 (Z.shiftl (sigB .| 0x0010000000000000) 10) in
        let '(sig128Z_v64, sig128Z_v0) := softfloat_mul64To128 sigA sigB in
        let '(expZ, sig128Z_v64, sig128Z_v0) :=
          if sig128Z_v64 <? 0x2000000000000000 then
            let expZ := expZ - 1 in
            let '(sig128Z_v64, sig128Z_v0) := softfloat_add128 sig128Z_v64 sig128Z_v0 sig128Z_v64
                sig128Z_v0 in
            (expZ, sig128Z_v64, sig128Z_v0)
          else (expZ, sig128Z_v64, sig128Z_v0)
        in
        let join4 (expZ expC sigC : Z) :=
          let sigC := u64 (Z.shiftl (sigC .| 0x0010000000000000) 9) in
          let expDiff := expZ - expC in
          let '(expZ, sig128Z_v64, sig128Z_v0, sig128C_v64, sig128C_v0) :=
            if expDiff <? 0 then
              let expZ := expC in
              if Bool.eqb signZ signC || (expDiff <? (-1)) then
                let sig128Z_v64 := softfloat_shiftRightJam64 sig128Z_v64 (u64 (- expDiff)) in
                (expZ, sig128Z_v64, sig128Z_v0, sig128C_v64, sig128C_v0)
              else
                let '(sig128Z_v64, sig128Z_v0) := softfloat_shortShiftRightJam128 sig128Z_v64 sig128Z_v0 1 in
                (expZ, sig128Z_v64, sig128Z_v0, sig128C_v64, sig128C_v0)
            else if z2b expDiff then
              let '(sig128C_v64, sig128C_v0) := softfloat_shiftRightJam128 sigC 0 (u64 expDiff) in
              (expZ, sig128Z_v64, sig128Z_v0, sig128C_v64, sig128C_v0)
            else (expZ, sig128Z_v64, sig128Z_v0, sig128C_v64, sig128C_v0)
          in
          if Bool.eqb signZ signC then
            let sigZ :=
              if expDiff <=? 0 then u64 (sigC + sig128Z_v64) .| b2z (negb (sig128Z_v0 =? 0))
              else
                let '(sig128Z_v64, sig128Z_v0) := softfloat_add128 sig128Z_v64 sig128Z_v0 sig128C_v64
                    sig128C_v0 in
                sig128Z_v64 .| b2z (negb (sig128Z_v0 =? 0))
            in
            let '(expZ, sigZ) :=
              if sigZ <? 0x4000000000000000 then
                let expZ := expZ - 1 in
                let sigZ := u64 (Z.shiftl sigZ 1) in
                (expZ, sigZ)
              else (expZ, sigZ)
            in
            softfloat_roundPackToF64 rm signZ expZ sigZ fl
          else
            let join3 (signZ : bool) (sig128Z_v64 sig128Z_v0 : Z) :=
              let '(expZ, sig128Z_v64, sig128Z_v0) :=
                if sig128Z_v64 =? 0 then
                  let expZ := expZ - 64 in
                  let sig128Z_v64 := sig128Z_v0 in
                  let sig128Z_v0 := 0 in
                  (expZ, sig128Z_v64, sig128Z_v0)
                else (expZ, sig128Z_v64, sig128Z_v0)
              in
              let shiftDist := i8 (softfloat_countLeadingZeros64 sig128Z_v64 - 1) in
              let expZ := expZ - shiftDist in
              let '(sigZ, sig128Z_v0) :=
                if shiftDist <? 0 then
                  let sigZ := softfloat_shortShiftRightJam64 sig128Z_v64 (u8 (- shiftDist)) in
                  (sigZ, sig128Z_v0)
                else
                  let '(sig128Z_v64, sig128Z_v0) := softfloat_shortShiftLeft128 sig128Z_v64 sig128Z_v0
                      (u8 shiftDist) in
                  let sigZ := sig128Z_v64 in
                  (sigZ, sig128Z_v0)
              in
              let sigZ := sigZ .| b2z (negb (sig128Z_v0 =? 0)) in
              softfloat_roundPackToF64 rm signZ expZ sigZ fl
            in
            if expDiff <? 0 then
              let signZ := signC in
              let '(sig128Z_v64, sig128Z_v0) := softfloat_sub128 sigC 0 sig128Z_v64 sig128Z_v0 in
              join3 signZ sig128Z_v64 sig128Z_v0
            else if expDiff =? 0 then
              let sig128Z_v64 := u64 (sig128Z_v64 - sigC) in
              if (sig128Z_v64 .| sig128Z_v0) =? 0 then
                let uiZ := packToF64UI (rm =? softfloat_round_min) 0 0 in
                let uZ := uiZ in
                (uZ, fl)
              else
                let '(signZ, sig128Z_v64, sig128Z_v0) :=
                  if z2b (sig128Z_v64 .& 0x8000000000000000) then
                    let signZ := negb signZ in
                    let '(sig128Z_v64, sig128Z_v0) := softfloat_sub128 0 0 sig128Z_v64 sig128Z_v0 in
                    (signZ, sig128Z_v64, sig128Z_v0)
                  else (signZ, sig128Z_v64, sig128Z_v0)
                in
                join3 signZ sig128Z_v64 sig128Z_v0
            else
              let '(sig128Z_v64, sig128Z_v0) := softfloat_sub128 sig128Z_v64 sig128Z_v0 sig128C_v64
                  sig128C_v0 in
              join3 signZ sig128Z_v64 sig128Z_v0
        in
        if expC =? 0 then
          if sigC =? 0 then
            let expZ := expZ - 1 in
            let sigZ := u64 (Z.shiftl sig128Z_v64 1) .| b2z (negb (sig128Z_v0 =? 0)) in
            softfloat_roundPackToF64 rm signZ expZ sigZ fl
          else
            let '(normExpSig_exp, normExpSig_sig) := softfloat_normSubnormalF64Sig sigC in
            let expC := normExpSig_exp in
            let sigC := normExpSig_sig in
            join4 expZ expC sigC
        else join4 expZ expC sigC
      in
      if expB =? 0 then
        if sigB =? 0 then
          let uiZ := uiC in
          let uiZ :=
            if ((u64 expC .| sigC) =? 0) && negb (Bool.eqb signZ signC) then packToF64UI
                (rm =? softfloat_round_min) 0 0
            else uiZ
          in
          let uZ := uiZ in
          (uZ, fl)
        else
          let '(normExpSig_exp, normExpSig_sig) := softfloat_normSubnormalF64Sig sigB in
          let expB := normExpSig_exp in
          let sigB := normExpSig_sig in
          join5 expB sigB
      else join5 expB sigB
    in
    if expA =? 0 then
      if sigA =? 0 then
        let uiZ := uiC in
        let uiZ :=
          if ((u64 expC .| sigC) =? 0) && negb (Bool.eqb signZ signC) then packToF64UI
              (rm =? softfloat_round_min) 0 0
          else uiZ
        in
        let uZ := uiZ in
        (uZ, fl)
      else
        let '(normExpSig_exp, normExpSig_sig) := softfloat_normSubnormalF64Sig sigA in
        let expA := normExpSig_exp in
        let sigA := normExpSig_sig in
        join6 expA sigA
    else join6 expA sigA.

Definition f64_mulAdd (rm a b c fl : Z) : Z * Z :=
  let uA := a in
  let uiA := uA in
  let uB := b in
  let uiB := uB in
  let uC := c in
  let uiC := uC in
  softfloat_mulAddF64 rm uiA uiB uiC 0 fl.

Definition f64_roundToInt (a roundingMode : Z) (exact : bool) (fl : Z) : Z * Z :=
  let uA := a in
  let uiA := uA in
  let exp := expF64UI uiA in
  if exp <=? 0x3fe then
    if (uiA .& 0x7fffffffffffffff) =? 0 then (a, fl)
    else
      let fl := if exact then fl .| softfloat_flag_inexact else fl in
      let uiZ := uiA .& packToF64UI true 0 0 in
      let uiZ :=
        if roundingMode =? softfloat_round_near_even then
          if negb ((fracF64UI uiA) =? 0) then
            if exp =? 0x3fe then uiZ .| packToF64UI false 0x3ff 0 else uiZ
          else uiZ
        else if roundingMode =? softfloat_round_near_maxMag then
          if exp =? 0x3fe then uiZ .| packToF64UI false 0x3ff 0 else uiZ
        else if roundingMode =? softfloat_round_min then
          if z2b uiZ then packToF64UI true 0x3ff 0 else uiZ
        else if roundingMode =? softfloat_round_max then if uiZ =? 0 then packToF64UI false 0x3ff 0 else
            uiZ else uiZ
      in
      let uZ := uiZ in
      (uZ, fl)
  else if 0x433 <=? exp then
    if (exp =? 0x7ff) && z2b (fracF64UI uiA) then
      let '(uiZ, fl) := softfloat_propagateNaNF64UI uiA 0 fl in
      let uZ := uiZ in
      (uZ, fl)
    else (a, fl)
  else
    let uiZ := uiA in
    let lastBitMask := u64 (Z.shiftl 1 (0x433 - exp)) in
    let roundBitsMask := u64 (lastBitMask - 1) in
    let uiZ :=
      if roundingMode =? softfloat_round_near_maxMag then u64 (uiZ + Z.shiftr lastBitMask 1)
      else if roundingMode =? softfloat_round_near_even then
        let uiZ := u64 (uiZ + Z.shiftr lastBitMask 1) in
        if (uiZ .& roundBitsMask) =? 0 then uiZ &~ lastBitMask else uiZ
      else if roundingMode =? (if signF64UI uiZ then softfloat_round_min else softfloat_round_max) then
        u64 (uiZ + roundBitsMask)
      else uiZ
    in
    let uiZ := uiZ &~ roundBitsMask in
    let fl := if exact && negb (uiZ =? uiA) then fl .| softfloat_flag_inexact else fl in
    let uZ := uiZ in
    (uZ, fl).

Definition f64_sqrt (rm a fl : Z) : Z * Z :=
  let uA := a in
  let uiA := uA in
  let signA := signF64UI uiA in
  let expA := expF64UI uiA in
  let sigA := fracF64UI uiA in
  if expA =? 0x7ff then
    if z2b sigA then
      let '(uiZ, fl) := softfloat_propagateNaNF64UI uiA 0 fl in
      let uZ := uiZ in
      (uZ, fl)
    else if negb signA then (a, fl)
    else
      let fl := fl .| softfloat_flag_invalid in
      let uiZ := defaultNaNF64UI in
      let uZ := uiZ in
      (uZ, fl)
  else if signA then
    if (u64 expA .| sigA) =? 0 then (a, fl)
    else
      let fl := fl .| softfloat_flag_invalid in
      let uiZ := defaultNaNF64UI in
      let uZ := uiZ in
      (uZ, fl)
  else
    let join1 (expA sigA : Z) :=
      let expZ := Z.shiftr (expA - 0x3ff) 1 + 0x3fe in
      let expA := expA .& 1 in
      let sigA := sigA .| 0x0010000000000000 in
      let sig32A := u32 (Z.shiftr sigA 21) in
      let recipSqrt32 := softfloat_approxRecipSqrt32_1 (u32 expA) sig32A in
      let sig32Z := u32 (Z.shiftr (u64 (sig32A * recipSqrt32)) 32) in
      let '(sigA, sig32Z) :=
        if z2b expA then
          let sigA := u64 (Z.shiftl sigA 8) in
          let sig32Z := Z.shiftr sig32Z 1 in
          (sigA, sig32Z)
        else
          let sigA := u64 (Z.shiftl sigA 9) in
          (sigA, sig32Z)
      in
      let rem := u64 (sigA - u64 (sig32Z * sig32Z)) in
      let q := u32 (Z.shiftr (u64 (u32 (Z.shiftr rem 2) * recipSqrt32)) 32) in
      let sigZ := u64 ((u64 (Z.shiftl sig32Z 32) .| u64 (Z.shiftl 1 5)) + u64 (Z.shiftl q 3)) in
      let sigZ :=
        if (sigZ .& 0x1ff) <? 0x22 then
          let sigZ := sigZ &~ 0x3f in
          let shiftedSigZ := Z.shiftr sigZ 6 in
          let rem := u64 (u64 (Z.shiftl sigA 52) - u64 (shiftedSigZ * shiftedSigZ)) in
          if z2b (rem .& 0x8000000000000000) then u64 (sigZ - 1) else if z2b rem then sigZ .| 1 else sigZ
        else sigZ
      in
      softfloat_roundPackToF64 rm false expZ sigZ fl
    in
    if expA =? 0 then
      if sigA =? 0 then (a, fl)
      else
        let '(normExpSig_exp, normExpSig_sig) := softfloat_normSubnormalF64Sig sigA in
        let expA := normExpSig_exp in
        let sigA := normExpSig_sig in
        join1 expA sigA
    else join1 expA sigA.

Definition f64_sub (rm a b fl : Z) : Z * Z :=
  let uA := a in
  let uiA := uA in
  let signA := signF64UI uiA in
  let uB := b in
  let uiB := uB in
  let signB := signF64UI uiB in
  if Bool.eqb signA signB then softfloat_subMagsF64 rm uiA uiB signA fl
  else softfloat_addMagsF64 rm uiA uiB signA fl.
