(* ===== verification/SoftF128.v ===== *)
(** * SoftFloat: quadruple precision

    Without the square root and the remainder. *)

From S2P Require Import Prelude SoftPrim SoftRound.

Definition softfloat_addMagsF128 (rm uiA64 uiA0 uiB64 uiB0 : Z) (signZ : bool) (fl : Z) : Z * Z * Z :=
  let expA := expF128UI64 uiA64 in
  let sigA_v64 := fracF128UI64 uiA64 in
  let sigA_v0 := uiA0 in
  let expB := expF128UI64 uiB64 in
  let sigB_v64 := fracF128UI64 uiB64 in
  let sigB_v0 := uiB0 in
  let expDiff := expA - expB in
  if expDiff =? 0 then
    if expA =? 0x7fff then
      if z2b (((sigA_v64 .| sigA_v0) .| sigB_v64) .| sigB_v0) then
        let '((uiZ_v64, uiZ_v0), fl) := softfloat_propagateNaNF128UI uiA64 uiA0 uiB64 uiB0 fl in
        let uZ_v64 := uiZ_v64 in
        let uZ_v0 := uiZ_v0 in
        ((uZ_v64, uZ_v0), fl)
      else
        let uiZ_v64 := uiA64 in
        let uiZ_v0 := uiA0 in
        let uZ_v64 := uiZ_v64 in
        let uZ_v0 := uiZ_v0 in
        ((uZ_v64, uZ_v0), fl)
    else
      let '(sigZ_v64, sigZ_v0) := softfloat_add128 sigA_v64 sigA_v0 sigB_v64 sigB_v0 in
      if expA =? 0 then
        let uiZ_v64 := packToF128UI64 signZ 0 sigZ_v64 in
        let uiZ_v0 := sigZ_v0 in
        let uZ_v64 := uiZ_v64 in
        let uZ_v0 := uiZ_v0 in
        ((uZ_v64, uZ_v0), fl)
      else
        let expZ := expA in
        let sigZ_v64 := sigZ_v64 .| 0x0002000000000000 in
        let sigZExtra := 0 in
        let '(sig128Extra_v_v64, sig128Extra_v_v0, sig128Extra_extra) :=
            softfloat_shortShiftRightJam128Extra sigZ_v64 sigZ_v0 sigZExtra 1 in
        let sigZ_v64 := sig128Extra_v_v64 in
        let sigZ_v0 := sig128Extra_v_v0 in
        let sigZExtra := sig128Extra_extra in
        softfloat_roundPackToF128 rm signZ expZ sigZ_v64 sigZ_v0 sigZExtra fl
  else
    let join1 (expZ sigA_v64 sigZExtra sigA_v0 sigB_v64 sigB_v0 : Z) :=
      let '(sigZ_v64, sigZ_v0) := softfloat_add128 (sigA_v64 .| 0x0001000000000000) sigA_v0 sigB_v64
          sigB_v0 in
      let expZ := expZ - 1 in
      if sigZ_v64 <? 0x0002000000000000 then softfloat_roundPackToF128 rm signZ expZ sigZ_v64 sigZ_v0
          sigZExtra fl
      else
        let expZ := expZ + 1 in
        let '(sig128Extra_v_v64, sig128Extra_v_v0, sig128Extra_extra) :=
            softfloat_shortShiftRightJam128Extra sigZ_v64 sigZ_v0 sigZExtra 1 in
        let sigZ_v64 := sig128Extra_v_v64 in
        let sigZ_v0 := sig128Extra_v_v0 in
        let sigZExtra := sig128Extra_extra in
        softfloat_roundPackToF128 rm signZ expZ sigZ_v64 sigZ_v0 sigZExtra fl
    in
    if expDiff <? 0 then
      if expB =? 0x7fff then
        if z2b (sigB_v64 .| sigB_v0) then
          let '((uiZ_v64, uiZ_v0), fl) := softfloat_propagateNaNF128UI uiA64 uiA0 uiB64 uiB0 fl in
          let uZ_v64 := uiZ_v64 in
          let uZ_v0 := uiZ_v0 in
          ((uZ_v64, uZ_v0), fl)
        else
          let uiZ_v64 := packToF128UI64 signZ 0x7fff 0 in
          let uiZ_v0 := 0 in
          let uZ_v64 := uiZ_v64 in
          let uZ_v0 := uiZ_v0 in
          ((uZ_v64, uZ_v0), fl)
      else
        let expZ := expB in
        let join2 (sigA_v64 expDiff : Z) :=
          let '(sig128Extra_v_v64, sig128Extra_v_v0, sig128Extra_extra) := softfloat_shiftRightJam128Extra
              sigA_v64 sigA_v0 0 (u64 (- expDiff)) in
          let sigA_v64 := sig128Extra_v_v64 in
          let sigA_v0 := sig128Extra_v_v0 in
          let sigZExtra := sig128Extra_extra in
          join1 expZ sigA_v64 sigZExtra sigA_v0 sigB_v64 sigB_v0
        in
        if z2b expA then
          let sigA_v64 := sigA_v64 .| 0x0001000000000000 in
          join2 sigA_v64 expDiff
        else
          let expDiff := expDiff + 1 in
          let sigZExtra := 0 in
          if expDiff =? 0 then
            let '(sigZ_v64, sigZ_v0) := softfloat_add128 (sigA_v64 .| 0x0001000000000000) sigA_v0 sigB_v64
                sigB_v0 in
            let expZ := expZ - 1 in
            if sigZ_v64 <? 0x0002000000000000 then softfloat_roundPackToF128 rm signZ expZ sigZ_v64
                sigZ_v0 sigZExtra fl
            else
              let expZ := expZ + 1 in
              let '(sig128Extra_v_v64, sig128Extra_v_v0, sig128Extra_extra) :=
                  softfloat_shortShiftRightJam128Extra sigZ_v64 sigZ_v0 sigZExtra 1 in
              let sigZ_v64 := sig128Extra_v_v64 in
              let sigZ_v0 := sig128Extra_v_v0 in
              let sigZExtra := sig128Extra_extra in
              softfloat_roundPackToF128 rm signZ expZ sigZ_v64 sigZ_v0 sigZExtra fl
          else join2 sigA_v64 expDiff
    else if expA =? 0x7fff then
      if z2b (sigA_v64 .| sigA_v0) then
        let '((uiZ_v64, uiZ_v0), fl) := softfloat_propagateNaNF128UI uiA64 uiA0 uiB64 uiB0 fl in
        let uZ_v64 := uiZ_v64 in
        let uZ_v0 := uiZ_v0 in
        ((uZ_v64, uZ_v0), fl)
      else
        let uiZ_v64 := uiA64 in
        let uiZ_v0 := uiA0 in
        let uZ_v64 := uiZ_v64 in
        let uZ_v0 := uiZ_v0 in
        ((uZ_v64, uZ_v0), fl)
    else
      let expZ := expA in
      let join3 (sigB_v64 expDiff : Z) :=
        let '(sig128Extra_v_v64, sig128Extra_v_v0, sig128Extra_extra) := softfloat_shiftRightJam128Extra
            sigB_v64 sigB_v0 0 (u64 expDiff) in
        let sigB_v64 := sig128Extra_v_v64 in
        let sigB_v0 := sig128Extra_v_v0 in
        let sigZExtra := sig128Extra_extra in
        join1 expZ sigA_v64 sigZExtra sigA_v0 sigB_v64 sigB_v0
      in
      if z2b expB then
        let sigB_v64 := sigB_v64 .| 0x0001000000000000 in
        join3 sigB_v64 expDiff
      else
        let expDiff := expDiff - 1 in
        let sigZExtra := 0 in
        if expDiff =? 0 then
          let '(sigZ_v64, sigZ_v0) := softfloat_add128 (sigA_v64 .| 0x0001000000000000) sigA_v0 sigB_v64
              sigB_v0 in
          let expZ := expZ - 1 in
          if sigZ_v64 <? 0x0002000000000000 then softfloat_roundPackToF128 rm signZ expZ sigZ_v64 sigZ_v0
              sigZExtra fl
          else
            let expZ := expZ + 1 in
            let '(sig128Extra_v_v64, sig128Extra_v_v0, sig128Extra_extra) :=
                softfloat_shortShiftRightJam128Extra sigZ_v64 sigZ_v0 sigZExtra 1 in
            let sigZ_v64 := sig128Extra_v_v64 in
            let sigZ_v0 := sig128Extra_v_v0 in
            let sigZExtra := sig128Extra_extra in
            softfloat_roundPackToF128 rm signZ expZ sigZ_v64 sigZ_v0 sigZExtra fl
        else join3 sigB_v64 expDiff.

Definition softfloat_subMagsF128 (rm uiA64 uiA0 uiB64 uiB0 : Z) (signZ : bool) (fl : Z) : Z * Z * Z :=
  let expA := expF128UI64 uiA64 in
  let sigA_v64 := fracF128UI64 uiA64 in
  let sigA_v0 := uiA0 in
  let expB := expF128UI64 uiB64 in
  let sigB_v64 := fracF128UI64 uiB64 in
  let sigB_v0 := uiB0 in
  let '(sigA_v64, sigA_v0) := softfloat_shortShiftLeft128 sigA_v64 sigA_v0 4 in
  let '(sigB_v64, sigB_v0) := softfloat_shortShiftLeft128 sigB_v64 sigB_v0 4 in
  let expDiff := expA - expB in
  if 0 <? expDiff then
    if expA =? 0x7fff then
      if z2b (sigA_v64 .| sigA_v0) then
        let '((uiZ_v64, uiZ_v0), fl) := softfloat_propagateNaNF128UI uiA64 uiA0 uiB64 uiB0 fl in
        let uZ_v64 := uiZ_v64 in
        let uZ_v0 := uiZ_v0 in
        ((uZ_v64, uZ_v0), fl)
      else
        let uiZ_v64 := uiA64 in
        let uiZ_v0 := uiA0 in
        let uZ_v64 := uiZ_v64 in
        let uZ_v0 := uiZ_v0 in
        ((uZ_v64, uZ_v0), fl)
    else
      let join1 (sigB_v64 expDiff : Z) :=
        let '(sigB_v64, sigB_v0) := softfloat_shiftRightJam128 sigB_v64 sigB_v0 (u64 expDiff) in
        let expZ := expA in
        let sigA_v64 := sigA_v64 .| 0x0010000000000000 in
        let '(sigZ_v64, sigZ_v0) := softfloat_sub128 sigA_v64 sigA_v0 sigB_v64 sigB_v0 in
        softfloat_normRoundPackToF128 rm signZ (expZ - 5) sigZ_v64 sigZ_v0 fl
      in
      if z2b expB then
        let sigB_v64 := sigB_v64 .| 0x0010000000000000 in
        join1 sigB_v64 expDiff
      else
        let expDiff := expDiff - 1 in
        if expDiff =? 0 then
          let expZ := expA in
          let sigA_v64 := sigA_v64 .| 0x0010000000000000 in
          let '(sigZ_v64, sigZ_v0) := softfloat_sub128 sigA_v64 sigA_v0 sigB_v64 sigB_v0 in
          softfloat_normRoundPackToF128 rm signZ (expZ - 5) sigZ_v64 sigZ_v0 fl
        else join1 sigB_v64 expDiff
  else if expDiff <? 0 then
    if expB =? 0x7fff then
      if z2b (sigB_v64 .| sigB_v0) then
        let '((uiZ_v64, uiZ_v0), fl) := softfloat_propagateNaNF128UI uiA64 uiA0 uiB64 uiB0 fl in
        let uZ_v64 := uiZ_v64 in
        let uZ_v0 := uiZ_v0 in
        ((uZ_v64, uZ_v0), fl)
      else
        let uiZ_v64 := packToF128UI64 (z2b (b2z signZ .^ 1)) 0x7fff 0 in
        let uiZ_v0 := 0 in
        let uZ_v64 := uiZ_v64 in
        let uZ_v0 := uiZ_v0 in
        ((uZ_v64, uZ_v0), fl)
    else
      let join2 (sigA_v64 expDiff : Z) :=
        let '(sigA_v64, sigA_v0) := softfloat_shiftRightJam128 sigA_v64 sigA_v0 (u64 (- expDiff)) in
        let expZ := expB in
        let sigB_v64 := sigB_v64 .| 0x0010000000000000 in
        let signZ := negb signZ in
        let '(sigZ_v64, sigZ_v0) := softfloat_sub128 sigB_v64 sigB_v0 sigA_v64 sigA_v0 in
        softfloat_normRoundPackToF128 rm signZ (expZ - 5) sigZ_v64 sigZ_v0 fl
      in
      if z2b expA then
        let sigA_v64 := sigA_v64 .| 0x0010000000000000 in
        join2 sigA_v64 expDiff
      else
        let expDiff := expDiff + 1 in
        if expDiff =? 0 then
          let expZ := expB in
          let sigB_v64 := sigB_v64 .| 0x0010000000000000 in
          let signZ := negb signZ in
          let '(sigZ_v64, sigZ_v0) := softfloat_sub128 sigB_v64 sigB_v0 sigA_v64 sigA_v0 in
          softfloat_normRoundPackToF128 rm signZ (expZ - 5) sigZ_v64 sigZ_v0 fl
        else join2 sigA_v64 expDiff
  else if expA =? 0x7fff then
    if z2b (((sigA_v64 .| sigA_v0) .| sigB_v64) .| sigB_v0) then
      let '((uiZ_v64, uiZ_v0), fl) := softfloat_propagateNaNF128UI uiA64 uiA0 uiB64 uiB0 fl in
      let uZ_v64 := uiZ_v64 in
      let uZ_v0 := uiZ_v0 in
      ((uZ_v64, uZ_v0), fl)
    else
      let fl := fl .| softfloat_flag_invalid in
      let uiZ_v64 := defaultNaNF128UI64 in
      let uiZ_v0 := defaultNaNF128UI0 in
      let uZ_v64 := uiZ_v64 in
      let uZ_v0 := uiZ_v0 in
      ((uZ_v64, uZ_v0), fl)
  else
    let expZ := expA in
    let expZ := if expZ =? 0 then 1 else expZ in
    if sigB_v64 <? sigA_v64 then
      let '(sigZ_v64, sigZ_v0) := softfloat_sub128 sigA_v64 sigA_v0 sigB_v64 sigB_v0 in
      softfloat_normRoundPackToF128 rm signZ (expZ - 5) sigZ_v64 sigZ_v0 fl
    else if sigA_v64 <? sigB_v64 then
      let signZ := negb signZ in
      let '(sigZ_v64, sigZ_v0) := softfloat_sub128 sigB_v64 sigB_v0 sigA_v64 sigA_v0 in
      softfloat_normRoundPackToF128 rm signZ (expZ - 5) sigZ_v64 sigZ_v0 fl
    else if sigB_v0 <? sigA_v0 then
      let '(sigZ_v64, sigZ_v0) := softfloat_sub128 sigA_v64 sigA_v0 sigB_v64 sigB_v0 in
      softfloat_normRoundPackToF128 rm signZ (expZ - 5) sigZ_v64 sigZ_v0 fl
    else if sigA_v0 <? sigB_v0 then
      let signZ := negb signZ in
      let '(sigZ_v64, sigZ_v0) := softfloat_sub128 sigB_v64 sigB_v0 sigA_v64 sigA_v0 in
      softfloat_normRoundPackToF128 rm signZ (expZ - 5) sigZ_v64 sigZ_v0 fl
    else
      let uiZ_v64 := packToF128UI64 (rm =? softfloat_round_min) 0 0 in
      let uiZ_v0 := 0 in
      let uZ_v64 := uiZ_v64 in
      let uZ_v0 := uiZ_v0 in
      ((uZ_v64, uZ_v0), fl).

Definition f128_add (rm : Z) (a b : Z * Z) (fl : Z) : Z * Z * Z :=
  let '(a_v64, a_v0) := a in
  let '(b_v64, b_v0) := b in
  let uA_v64 := a_v64 in
  let uA_v0 := a_v0 in
  let uiA64 := uA_v64 in
  let uiA0 := uA_v0 in
  let signA := signF128UI64 uiA64 in
  let uB_v64 := b_v64 in
  let uB_v0 := b_v0 in
  let uiB64 := uB_v64 in
  let uiB0 := uB_v0 in
  let signB := signF128UI64 uiB64 in
  if Bool.eqb signA signB then softfloat_addMagsF128 rm uiA64 uiA0 uiB64 uiB0 signA fl
  else softfloat_subMagsF128 rm uiA64 uiA0 uiB64 uiB0 signA fl.

Definition f128_classify (a : Z * Z) : Z :=
  let '(a_v64, a_v0) := a in
  let uA_v64 := a_v64 in
  let uA_v0 := a_v0 in
  let uiA64 := uA_v64 in
  let uiA0 := uA_v0 in
  let infOrNaN := b2z (expF128UI64 uiA64 =? 0x7fff) in
  let subnormalOrZero := b2z (expF128UI64 uiA64 =? 0) in
  let sign := signF128UI64 uiA64 in
  let fracZero := (fracF128UI64 uiA64 =? 0) && (uiA0 =? 0) in
  let isNaN := isNaNF128UI uiA64 uiA0 in
  let isSNaN := softfloat_isSigNaNF128UI uiA64 uiA0 in
  u64 (((((((((Z.shiftl (b2z ((sign && z2b infOrNaN) && fracZero)) 0 .| Z.shiftl
      (b2z ((sign && (infOrNaN =? 0)) && (subnormalOrZero =? 0))) 1) .| Z.shiftl
          (b2z ((sign && z2b subnormalOrZero) && negb fracZero)) 2) .| Z.shiftl
              (b2z ((sign && z2b subnormalOrZero) && fracZero)) 3) .| Z.shiftl
                  (b2z ((negb sign && z2b infOrNaN) && fracZero)) 7) .| Z.shiftl
                      (b2z ((negb sign && (infOrNaN =? 0)) && (subnormalOrZero =? 0))) 6) .| Z.shiftl
                          (b2z ((negb sign && z2b subnormalOrZero) && negb fracZero)) 5) .| Z.shiftl
                              (b2z ((negb sign && z2b subnormalOrZero) && fracZero)) 4) .| Z.shiftl
                                  (b2z (isNaN && isSNaN)) 8) .| Z.shiftl (b2z (isNaN && negb isSNaN)) 9).

(** One digit of the quotient: its estimate, and the remainder it leaves. *)
Definition f128_div_digit (recip32 rem_v64 : Z) : Z :=
  let q64 := u64 (u32 (Z.shiftr rem_v64 19) * recip32) in
  Z.shiftr (u64 (q64 + 0x80000000)) 32.

Definition f128_div_step (sigB_v64 sigB_v0 recip32 rem_v64 rem_v0 : Z) : Z * Z * Z :=
  let q := f128_div_digit recip32 rem_v64 in
  let '(rem_v64, rem_v0) := softfloat_shortShiftLeft128 rem_v64 rem_v0 29 in
  let '(term_v64, term_v0) := softfloat_mul128By32 sigB_v64 sigB_v0 (u32 q) in
  let '(rem_v64, rem_v0) := softfloat_sub128 rem_v64 rem_v0 term_v64 term_v0 in
  if z2b (rem_v64 .& 0x8000000000000000) then
    let q := u64 (q - 1) in
    let '(rem_v64, rem_v0) := softfloat_add128 rem_v64 rem_v0 sigB_v64 sigB_v0 in
    (q, rem_v64, rem_v0)
  else (q, rem_v64, rem_v0).

(** The loop over [ix]: three digits, and the estimate of the fourth. *)
Definition f128_div_loop (sigB_v64 sigB_v0 recip32 rem_v64 rem_v0 : Z) : Z * Z * Z * Z * Z * Z :=
  let '(qs_2, rem_v64, rem_v0) := f128_div_step sigB_v64 sigB_v0 recip32 rem_v64 rem_v0 in
  let '(qs_1, rem_v64, rem_v0) := f128_div_step sigB_v64 sigB_v0 recip32 rem_v64 rem_v0 in
  let '(qs_0, rem_v64, rem_v0) := f128_div_step sigB_v64 sigB_v0 recip32 rem_v64 rem_v0 in
  (qs_2, qs_1, qs_0, rem_v64, rem_v0, f128_div_digit recip32 rem_v64).

Definition f128_div (rm : Z) (a b : Z * Z) (fl : Z) : Z * Z * Z :=
  let '(a_v64, a_v0) := a in
  let '(b_v64, b_v0) := b in
  let uA_v64 := a_v64 in
  let uA_v0 := a_v0 in
  let uiA64 := uA_v64 in
  let uiA0 := uA_v0 in
  let signA := signF128UI64 uiA64 in
  let expA := expF128UI64 uiA64 in
  let sigA_v64 := fracF128UI64 uiA64 in
  let sigA_v0 := uiA0 in
  let uB_v64 := b_v64 in
  let uB_v0 := b_v0 in
  let uiB64 := uB_v64 in
  let uiB0 := uB_v0 in
  let signB := signF128UI64 uiB64 in
  let expB := expF128UI64 uiB64 in
  let sigB_v64 := fracF128UI64 uiB64 in
  let sigB_v0 := uiB0 in
  let signZ := xorb signA signB in
  if expA =? 0x7fff then
    if z2b (sigA_v64 .| sigA_v0) then
      let '((uiZ_v64, uiZ_v0), fl) := softfloat_propagateNaNF128UI uiA64 uiA0 uiB64 uiB0 fl in
      let uZ_v64 := uiZ_v64 in
      let uZ_v0 := uiZ_v0 in
      ((uZ_v64, uZ_v0), fl)
    else if expB =? 0x7fff then
      if z2b (sigB_v64 .| sigB_v0) then
        let '((uiZ_v64, uiZ_v0), fl) := softfloat_propagateNaNF128UI uiA64 uiA0 uiB64 uiB0 fl in
        let uZ_v64 := uiZ_v64 in
        let uZ_v0 := uiZ_v0 in
        ((uZ_v64, uZ_v0), fl)
      else
        let fl := fl .| softfloat_flag_invalid in
        let uiZ_v64 := defaultNaNF128UI64 in
        let uiZ_v0 := defaultNaNF128UI0 in
        let uZ_v64 := uiZ_v64 in
        let uZ_v0 := uiZ_v0 in
        ((uZ_v64, uZ_v0), fl)
    else
      let uiZ_v64 := packToF128UI64 signZ 0x7fff 0 in
      let uiZ_v0 := 0 in
      let uZ_v64 := uiZ_v64 in
      let uZ_v0 := uiZ_v0 in
      ((uZ_v64, uZ_v0), fl)
  else if expB =? 0x7fff then
    if z2b (sigB_v64 .| sigB_v0) then
      let '((uiZ_v64, uiZ_v0), fl) := softfloat_propagateNaNF128UI uiA64 uiA0 uiB64 uiB0 fl in
      let uZ_v64 := uiZ_v64 in
      let uZ_v0 := uiZ_v0 in
      ((uZ_v64, uZ_v0), fl)
    else
      let uiZ_v64 := packToF128UI64 signZ 0 0 in
      let uiZ_v0 := 0 in
      let uZ_v64 := uiZ_v64 in
      let uZ_v0 := uiZ_v0 in
      ((uZ_v64, uZ_v0), fl)
  else
    let join2 (fl expB sigB_v64 sigB_v0 : Z) :=
      let join1 (expA sigA_v64 sigA_v0 : Z) :=
        let expZ := (expA - expB) + 0x3ffe in
        let sigA_v64 := sigA_v64 .| 0x0001000000000000 in
        let sigB_v64 := sigB_v64 .| 0x0001000000000000 in
        let rem_v64 := sigA_v64 in
        let rem_v0 := sigA_v0 in
        let '(expZ, rem_v64, rem_v0) :=
          if softfloat_lt128 sigA_v64 sigA_v0 sigB_v64 sigB_v0 then
            let expZ := expZ - 1 in
            let '(rem_v64, rem_v0) := softfloat_add128 sigA_v64 sigA_v0 sigA_v64 sigA_v0 in
            (expZ, rem_v64, rem_v0)
          else (expZ, rem_v64, rem_v0)
        in
        let recip32 := softfloat_approxRecip32_1 (u32 (Z.shiftr sigB_v64 17)) in
        let '(qs_2, qs_1, qs_0, rem_v64, rem_v0, q) := f128_div_loop sigB_v64 sigB_v0 recip32 rem_v64
            rem_v0 in
        let q :=
          if (u64 (q + 1) .& 7) <? 2 then
            let '(rem_v64, rem_v0) := softfloat_shortShiftLeft128 rem_v64 rem_v0 29 in
            let '(term_v64, term_v0) := softfloat_mul128By32 sigB_v64 sigB_v0 (u32 q) in
            let '(rem_v64, rem_v0) := softfloat_sub128 rem_v64 rem_v0 term_v64 term_v0 in
            let '(q, rem_v64, rem_v0) :=
              if z2b (rem_v64 .& 0x8000000000000000) then
                let q := u64 (q - 1) in
                let '(rem_v64, rem_v0) := softfloat_add128 rem_v64 rem_v0 sigB_v64 sigB_v0 in
                (q, rem_v64, rem_v0)
              else if softfloat_le128 sigB_v64 sigB_v0 rem_v64 rem_v0 then
                let q := u64 (q + 1) in
                let '(rem_v64, rem_v0) := softfloat_sub128 rem_v64 rem_v0 sigB_v64 sigB_v0 in
                (q, rem_v64, rem_v0)
              else (q, rem_v64, rem_v0)
            in
            if z2b (rem_v64 .| rem_v0) then q .| 1 else q
          else q
        in
        let sigZExtra := u64 (Z.shiftl q 60) in
        let '(term_v64, term_v0) := softfloat_shortShiftLeft128 0 qs_1 54 in
        let '(sigZ_v64, sigZ_v0) := softfloat_add128 (u64 (Z.shiftl qs_2 19))
            (u64 (u64 (Z.shiftl qs_0 25) + Z.shiftr q 4)) term_v64 term_v0 in
        softfloat_roundPackToF128 rm signZ expZ sigZ_v64 sigZ_v0 sigZExtra fl
      in
      if expA =? 0 then
        if (sigA_v64 .| sigA_v0) =? 0 then
          let uiZ_v64 := packToF128UI64 signZ 0 0 in
          let uiZ_v0 := 0 in
          let uZ_v64 := uiZ_v64 in
          let uZ_v0 := uiZ_v0 in
          ((uZ_v64, uZ_v0), fl)
        else
          let '(normExpSig_exp, normExpSig_sig_v64, normExpSig_sig_v0) := softfloat_normSubnormalF128Sig
              sigA_v64 sigA_v0 in
          let expA := normExpSig_exp in
          let sigA_v64 := normExpSig_sig_v64 in
          let sigA_v0 := normExpSig_sig_v0 in
          join1 expA sigA_v64 sigA_v0
      else join1 expA sigA_v64 sigA_v0
    in
    if expB =? 0 then
      if (sigB_v64 .| sigB_v0) =? 0 then
        if ((u64 expA .| sigA_v64) .| sigA_v0) =? 0 then
          let fl := fl .| softfloat_flag_invalid in
          let uiZ_v64 := defaultNaNF128UI64 in
          let uiZ_v0 := defaultNaNF128UI0 in
          let uZ_v64 := uiZ_v64 in
          let uZ_v0 := uiZ_v0 in
          ((uZ_v64, uZ_v0), fl)
        else
          let fl := fl .| softfloat_flag_infinite in
          let uiZ_v64 := packToF128UI64 signZ 0x7fff 0 in
          let uiZ_v0 := 0 in
          let uZ_v64 := uiZ_v64 in
          let uZ_v0 := uiZ_v0 in
          ((uZ_v64, uZ_v0), fl)
      else
        let '(normExpSig_exp, normExpSig_sig_v64, normExpSig_sig_v0) := softfloat_normSubnormalF128Sig
            sigB_v64 sigB_v0 in
        let expB := normExpSig_exp in
        let sigB_v64 := normExpSig_sig_v64 in
        let sigB_v0 := normExpSig_sig_v0 in
        join2 fl expB sigB_v64 sigB_v0
    else join2 fl expB sigB_v64 sigB_v0.

Definition f128_eq (a b : Z * Z) (fl : Z) : bool * Z :=
  let '(a_v64, a_v0) := a in
  let '(b_v64, b_v0) := b in
  let uA_v64 := a_v64 in
  let uA_v0 := a_v0 in
  let uiA64 := uA_v64 in
  let uiA0 := uA_v0 in
  let uB_v64 := b_v64 in
  let uB_v0 := b_v0 in
  let uiB64 := uB_v64 in
  let uiB0 := uB_v0 in
  if isNaNF128UI uiA64 uiA0 || isNaNF128UI uiB64 uiB0 then
    let fl :=
      if softfloat_isSigNaNF128UI uiA64 uiA0 || softfloat_isSigNaNF128UI uiB64 uiB0 then
        fl .| softfloat_flag_invalid
      else fl
    in
    (false, fl)
  else ((uiA0 =? uiB0) &&
      ((uiA64 =? uiB64) || ((uiA0 =? 0) && (((uiA64 .| uiB64) .& 0x7fffffffffffffff) =? 0))), fl).

Definition f128_eq_signaling (a b : Z * Z) (fl : Z) : bool * Z :=
  let '(a_v64, a_v0) := a in
  let '(b_v64, b_v0) := b in
  let uA_v64 := a_v64 in
  let uA_v0 := a_v0 in
  let uiA64 := uA_v64 in
  let uiA0 := uA_v0 in
  let uB_v64 := b_v64 in
  let uB_v0 := b_v0 in
  let uiB64 := uB_v64 in
  let uiB0 := uB_v0 in
  if isNaNF128UI uiA64 uiA0 || isNaNF128UI uiB64 uiB0 then
    let fl := fl .| softfloat_flag_invalid in
    (false, fl)
  else ((uiA0 =? uiB0) &&
      ((uiA64 =? uiB64) || ((uiA0 =? 0) && (((uiA64 .| uiB64) .& 0x7fffffffffffffff) =? 0))), fl).

Definition f128_isSignalingNaN (a : Z * Z) : bool :=
  let '(a_v64, a_v0) := a in
  let uA_v64 := a_v64 in
  let uA_v0 := a_v0 in
  softfloat_isSigNaNF128UI uA_v64 uA_v0.

Definition f128_le (a b : Z * Z) (fl : Z) : bool * Z :=
  let '(a_v64, a_v0) := a in
  let '(b_v64, b_v0) := b in
  let uA_v64 := a_v64 in
  let uA_v0 := a_v0 in
  let uiA64 := uA_v64 in
  let uiA0 := uA_v0 in
  let uB_v64 := b_v64 in
  let uB_v0 := b_v0 in
  let uiB64 := uB_v64 in
  let uiB0 := uB_v0 in
  if isNaNF128UI uiA64 uiA0 || isNaNF128UI uiB64 uiB0 then
    let fl := fl .| softfloat_flag_invalid in
    (false, fl)
  else
    let signA := signF128UI64 uiA64 in
    let signB := signF128UI64 uiB64 in
    (if negb (Bool.eqb signA signB) then signA ||
        (((((uiA64 .| uiB64) .& 0x7fffffffffffffff) .| uiA0) .| uiB0) =? 0) else
            ((uiA64 =? uiB64) && (uiA0 =? uiB0)) || xorb signA (softfloat_lt128 uiA64 uiA0 uiB64 uiB0), fl).

Definition f128_le_quiet (a b : Z * Z) (fl : Z) : bool * Z :=
  let '(a_v64, a_v0) := a in
  let '(b_v64, b_v0) := b in
  let uA_v64 := a_v64 in
  let uA_v0 := a_v0 in
  let uiA64 := uA_v64 in
  let uiA0 := uA_v0 in
  let uB_v64 := b_v64 in
  let uB_v0 := b_v0 in
  let uiB64 := uB_v64 in
  let uiB0 := uB_v0 in
  if isNaNF128UI uiA64 uiA0 || isNaNF128UI uiB64 uiB0 then
    let fl :=
      if softfloat_isSigNaNF128UI uiA64 uiA0 || softfloat_isSigNaNF128UI uiB64 uiB0 then
        fl .| softfloat_flag_invalid
      else fl
    in
    (false, fl)
  else
    let signA := signF128UI64 uiA64 in
    let signB := signF128UI64 uiB64 in
    (if negb (Bool.eqb signA signB) then signA ||
        (((((uiA64 .| uiB64) .& 0x7fffffffffffffff) .| uiA0) .| uiB0) =? 0) else
            ((uiA64 =? uiB64) && (uiA0 =? uiB0)) || xorb signA (softfloat_lt128 uiA64 uiA0 uiB64 uiB0), fl).

Definition f128_lt (a b : Z * Z) (fl : Z) : bool * Z :=
  let '(a_v64, a_v0) := a in
  let '(b_v64, b_v0) := b in
  let uA_v64 := a_v64 in
  let uA_v0 := a_v0 in
  let uiA64 := uA_v64 in
  let uiA0 := uA_v0 in
  let uB_v64 := b_v64 in
  let uB_v0 := b_v0 in
  let uiB64 := uB_v64 in
  let uiB0 := uB_v0 in
  if isNaNF128UI uiA64 uiA0 || isNaNF128UI uiB64 uiB0 then
    let fl := fl .| softfloat_flag_invalid in
    (false, fl)
  else
    let signA := signF128UI64 uiA64 in
    let signB := signF128UI64 uiB64 in
    (if negb (Bool.eqb signA signB) then signA && z2b ((((uiA64 .| uiB64) .& 0x7fffffffffffffff) .| uiA0)
        .| uiB0) else (negb (uiA64 =? uiB64) || negb (uiA0 =? uiB0)) && xorb signA
            (softfloat_lt128 uiA64 uiA0 uiB64 uiB0), fl).

Definition f128_lt_quiet (a b : Z * Z) (fl : Z) : bool * Z :=
  let '(a_v64, a_v0) := a in
  let '(b_v64, b_v0) := b in
  let uA_v64 := a_v64 in
  let uA_v0 := a_v0 in
  let uiA64 := uA_v64 in
  let uiA0 := uA_v0 in
  let uB_v64 := b_v64 in
  let uB_v0 := b_v0 in
  let uiB64 := uB_v64 in
  let uiB0 := uB_v0 in
  if isNaNF128UI uiA64 uiA0 || isNaNF128UI uiB64 uiB0 then
    let fl :=
      if softfloat_isSigNaNF128UI uiA64 uiA0 || softfloat_isSigNaNF128UI uiB64 uiB0 then
        fl .| softfloat_flag_invalid
      else fl
    in
    (false, fl)
  else
    let signA := signF128UI64 uiA64 in
    let signB := signF128UI64 uiB64 in
    (if negb (Bool.eqb signA signB) then signA && z2b ((((uiA64 .| uiB64) .& 0x7fffffffffffffff) .| uiA0)
        .| uiB0) else (negb (uiA64 =? uiB64) || negb (uiA0 =? uiB0)) && xorb signA
            (softfloat_lt128 uiA64 uiA0 uiB64 uiB0), fl).

Definition softfloat_mulAddF128 (rm uiA64 uiA0 uiB64 uiB0 uiC64 uiC0 op fl : Z) : Z * Z * Z :=
  let sig256C_3 := 0 in
  let sig256C_2 := 0 in
  let sig256C_1 := 0 in
  let sig256C_0 := 0 in
  let signA := signF128UI64 uiA64 in
  let expA := expF128UI64 uiA64 in
  let sigA_v64 := fracF128UI64 uiA64 in
  let sigA_v0 := uiA0 in
  let signB := signF128UI64 uiB64 in
  let expB := expF128UI64 uiB64 in
  let sigB_v64 := fracF128UI64 uiB64 in
  let sigB_v0 := uiB0 in
  let signC := xorb (signF128UI64 uiC64) (op =? softfloat_mulAdd_subC) in
  let expC := expF128UI64 uiC64 in
  let sigC_v64 := fracF128UI64 uiC64 in
  let sigC_v0 := uiC0 in
  let signZ := xorb (xorb signA signB) (op =? softfloat_mulAdd_subProd) in
  if expA =? 0x7fff then
    if z2b (sigA_v64 .| sigA_v0) || ((expB =? 0x7fff) && z2b (sigB_v64 .| sigB_v0)) then
      let '((uiZ_v64, uiZ_v0), fl) := softfloat_propagateNaNF128UI uiA64 uiA0 uiB64 uiB0 fl in
      let '((uiZ_v64, uiZ_v0), fl) := softfloat_propagateNaNF128UI uiZ_v64 uiZ_v0 uiC64 uiC0 fl in
      let uZ_v64 := uiZ_v64 in
      let uZ_v0 := uiZ_v0 in
      ((uZ_v64, uZ_v0), fl)
    else
      let magBits := (u64 expB .| sigB_v64) .| sigB_v0 in
      let join1 (_ : unit) :=
        let fl := fl .| softfloat_flag_invalid in
        let uiZ_v64 := defaultNaNF128UI64 in
        let uiZ_v0 := defaultNaNF128UI0 in
        let '((uiZ_v64, uiZ_v0), fl) := softfloat_propagateNaNF128UI uiZ_v64 uiZ_v0 uiC64 uiC0 fl in
        let uZ_v64 := uiZ_v64 in
        let uZ_v0 := uiZ_v0 in
        ((uZ_v64, uZ_v0), fl)
      in
      if z2b magBits then
        let uiZ_v64 := packToF128UI64 signZ 0x7fff 0 in
        let uiZ_v0 := 0 in
        if negb (expC =? 0x7fff) then
          let uZ_v64 := uiZ_v64 in
          let uZ_v0 := uiZ_v0 in
          ((uZ_v64, uZ_v0), fl)
        else if z2b (sigC_v64 .| sigC_v0) then
          let '((uiZ_v64, uiZ_v0), fl) := softfloat_propagateNaNF128UI uiZ_v64 uiZ_v0 uiC64 uiC0 fl in
          let uZ_v64 := uiZ_v64 in
          let uZ_v0 := uiZ_v0 in
          ((uZ_v64, uZ_v0), fl)
        else if Bool.eqb signZ signC then
          let uZ_v64 := uiZ_v64 in
          let uZ_v0 := uiZ_v0 in
          ((uZ_v64, uZ_v0), fl)
        else join1 tt
      else join1 tt
  else if expB =? 0x7fff then
    if z2b (sigB_v64 .| sigB_v0) then
      let '((uiZ_v64, uiZ_v0), fl) := softfloat_propagateNaNF128UI uiA64 uiA0 uiB64 uiB0 fl in
      let '((uiZ_v64, uiZ_v0), fl) := softfloat_propagateNaNF128UI uiZ_v64 uiZ_v0 uiC64 uiC0 fl in
      let uZ_v64 := uiZ_v64 in
      let uZ_v0 := uiZ_v0 in
      ((uZ_v64, uZ_v0), fl)
    else
      let magBits := (u64 expA .| sigA_v64) .| sigA_v0 in
      let join2 (_ : unit) :=
        let fl := fl .| softfloat_flag_invalid in
        let uiZ_v64 := defaultNaNF128UI64 in
        let uiZ_v0 := defaultNaNF128UI0 in
        let '((uiZ_v64, uiZ_v0), fl) := softfloat_propagateNaNF128UI uiZ_v64 uiZ_v0 uiC64 uiC0 fl in
        let uZ_v64 := uiZ_v64 in
        let uZ_v0 := uiZ_v0 in
        ((uZ_v64, uZ_v0), fl)
      in
      if z2b magBits then
        let uiZ_v64 := packToF128UI64 signZ 0x7fff 0 in
        let uiZ_v0 := 0 in
        if negb (expC =? 0x7fff) then
          let uZ_v64 := uiZ_v64 in
          let uZ_v0 := uiZ_v0 in
          ((uZ_v64, uZ_v0), fl)
        else if z2b (sigC_v64 .| sigC_v0) then
          let '((uiZ_v64, uiZ_v0), fl) := softfloat_propagateNaNF128UI uiZ_v64 uiZ_v0 uiC64 uiC0 fl in
          let uZ_v64 := uiZ_v64 in
          let uZ_v0 := uiZ_v0 in
          ((uZ_v64, uZ_v0), fl)
        else if Bool.eqb signZ signC then
          let uZ_v64 := uiZ_v64 in
          let uZ_v0 := uiZ_v0 in
          ((uZ_v64, uZ_v0), fl)
        else join2 tt
      else join2 tt
  else if expC =? 0x7fff then
    if z2b (sigC_v64 .| sigC_v0) then
      let uiZ_v64 := 0 in
      let uiZ_v0 := 0 in
      let '((uiZ_v64, uiZ_v0), fl) := softfloat_propagateNaNF128UI uiZ_v64 uiZ_v0 uiC64 uiC0 fl in
      let uZ_v64 := uiZ_v64 in
      let uZ_v0 := uiZ_v0 in
      ((uZ_v64, uZ_v0), fl)
    else
      let uiZ_v64 := uiC64 in
      let uiZ_v0 := uiC0 in
      let uZ_v64 := uiZ_v64 in
      let uZ_v0 := uiZ_v0 in
      ((uZ_v64, uZ_v0), fl)
  else
    let join6 (expA sigA_v64 sigA_v0 : Z) :=
      let join5 (expB sigB_v64 sigB_v0 : Z) :=
        let expZ := (expA + expB) - 0x3ffe in
        let sigA_v64 := sigA_v64 .| 0x0001000000000000 in
        let sigB_v64 := sigB_v64 .| 0x0001000000000000 in
        let '(sigA_v64, sigA_v0) := softfloat_shortShiftLeft128 sigA_v64 sigA_v0 8 in
        let '(sigB_v64, sigB_v0) := softfloat_shortShiftLeft128 sigB_v64 sigB_v0 15 in
        let '(sig256Z_3, sig256Z_2, sig256Z_1, sig256Z_0) := softfloat_mul128To256M sigA_v64 sigA_v0
            sigB_v64 sigB_v0 in
        let sigZ_v64 := sig256Z_3 in
        let sigZ_v0 := sig256Z_2 in
        let shiftDist := 0 in
        let '(expZ, shiftDist) :=
          if (sigZ_v64 .& 0x0100000000000000) =? 0 then
            let expZ := expZ - 1 in
            let shiftDist := (-1) in
            (expZ, shiftDist)
          else (expZ, shiftDist)
        in
        let join4 (shiftDist expC sigC_v64 sigC_v0 : Z) :=
          let sigC_v64 := sigC_v64 .| 0x0001000000000000 in
          let '(sigC_v64, sigC_v0) := softfloat_shortShiftLeft128 sigC_v64 sigC_v0 8 in
          let expDiff := expZ - expC in
          let '(expZ, sigZ_v64, sigZ_v0, sig256Z_1, sig256Z_0, sig256Z_3, sig256Z_2, sig256C_3, sig256C_2,
              sig256C_1, sig256C_0) :=
            if expDiff <? 0 then
              let expZ := expC in
              if Bool.eqb signZ signC || (expDiff <? (-1)) then
                let shiftDist := shiftDist - expDiff in
                if z2b shiftDist then
                  let '(sigZ_v64, sigZ_v0) := softfloat_shiftRightJam128 sigZ_v64 sigZ_v0 (u64 shiftDist) in
                  (expZ, sigZ_v64, sigZ_v0, sig256Z_1, sig256Z_0, sig256Z_3, sig256Z_2, sig256C_3,
                      sig256C_2, sig256C_1, sig256C_0)
                else (expZ, sigZ_v64, sigZ_v0, sig256Z_1, sig256Z_0, sig256Z_3, sig256Z_2, sig256C_3,
                    sig256C_2, sig256C_1, sig256C_0)
              else if shiftDist =? 0 then
                let '(x128_v64, x128_v0) := softfloat_shortShiftRight128 sig256Z_1 sig256Z_0 1 in
                let sig256Z_1 := u64 (Z.shiftl sigZ_v0 63) .| x128_v64 in
                let sig256Z_0 := x128_v0 in
                let '(sigZ_v64, sigZ_v0) := softfloat_shortShiftRight128 sigZ_v64 sigZ_v0 1 in
                let sig256Z_3 := sigZ_v64 in
                let sig256Z_2 := sigZ_v0 in
                (expZ, sigZ_v64, sigZ_v0, sig256Z_1, sig256Z_0, sig256Z_3, sig256Z_2, sig256C_3,
                    sig256C_2, sig256C_1, sig256C_0)
              else (expZ, sigZ_v64, sigZ_v0, sig256Z_1, sig256Z_0, sig256Z_3, sig256Z_2, sig256C_3,
                  sig256C_2, sig256C_1, sig256C_0)
            else
              let '(sig256Z_3, sig256Z_2, sig256Z_1, sig256Z_0) :=
                if z2b shiftDist then
                  let '(sig256Z_3, sig256Z_2, sig256Z_1, sig256Z_0) := softfloat_add256M
                      (sig256Z_3, sig256Z_2, sig256Z_1, sig256Z_0) (sig256Z_3, sig256Z_2, sig256Z_1,
                          sig256Z_0) in
                  (sig256Z_3, sig256Z_2, sig256Z_1, sig256Z_0)
                else (sig256Z_3, sig256Z_2, sig256Z_1, sig256Z_0)
              in
              if expDiff =? 0 then
                let sigZ_v64 := sig256Z_3 in
                let sigZ_v0 := sig256Z_2 in
                (expZ, sigZ_v64, sigZ_v0, sig256Z_1, sig256Z_0, sig256Z_3, sig256Z_2, sig256C_3,
                    sig256C_2, sig256C_1, sig256C_0)
              else
                let sig256C_3 := sigC_v64 in
                let sig256C_2 := sigC_v0 in
                let sig256C_1 := 0 in
                let sig256C_0 := 0 in
                let '(sig256C_3, sig256C_2, sig256C_1, sig256C_0) := softfloat_shiftRightJam256M
                    (sig256C_3, sig256C_2, sig256C_1, sig256C_0) expDiff in
                (expZ, sigZ_v64, sigZ_v0, sig256Z_1, sig256Z_0, sig256Z_3, sig256Z_2, sig256C_3,
                    sig256C_2, sig256C_1, sig256C_0)
          in
          let shiftDist := 8 in
          if Bool.eqb signZ signC then
            let '(sigZ_v64, sigZ_v0, sig256Z_1, sig256Z_0) :=
              if expDiff <=? 0 then
                let '(sigZ_v64, sigZ_v0) := softfloat_add128 sigC_v64 sigC_v0 sigZ_v64 sigZ_v0 in
                (sigZ_v64, sigZ_v0, sig256Z_1, sig256Z_0)
              else
                let '(sig256Z_3, sig256Z_2, sig256Z_1, sig256Z_0) := softfloat_add256M
                    (sig256Z_3, sig256Z_2, sig256Z_1, sig256Z_0) (sig256C_3, sig256C_2, sig256C_1,
                        sig256C_0) in
                let sigZ_v64 := sig256Z_3 in
                let sigZ_v0 := sig256Z_2 in
                (sigZ_v64, sigZ_v0, sig256Z_1, sig256Z_0)
            in
            let '(expZ, shiftDist) :=
              if z2b (sigZ_v64 .& 0x0200000000000000) then
                let expZ := expZ + 1 in
                let shiftDist := 9 in
                (expZ, shiftDist)
              else (expZ, shiftDist)
            in
            let sigZExtra := sig256Z_1 .| sig256Z_0 in
            let sigZExtra := u64 (Z.shiftl sigZ_v0 (64 - shiftDist)) .| b2z (negb (sigZExtra =? 0)) in
            let '(sigZ_v64, sigZ_v0) := softfloat_shortShiftRight128 sigZ_v64 sigZ_v0 (u8 shiftDist) in
            softfloat_roundPackToF128 rm signZ (expZ - 1) sigZ_v64 sigZ_v0 sigZExtra fl
          else
            let join3 (signZ : bool) (expZ sig256Z_3 sig256Z_2 sig256Z_1 sig256Z_0 : Z) :=
              let sigZ_v64 := sig256Z_3 in
              let sigZ_v0 := sig256Z_2 in
              let sigZExtra := sig256Z_1 in
              let sig256Z0 := sig256Z_0 in
              let '(sigZExtra, expZ, sigZ_v64, sigZ_v0) :=
                if z2b sigZ_v64 then
                  if z2b sig256Z0 then
                    let sigZExtra := sigZExtra .| 1 in
                    (sigZExtra, expZ, sigZ_v64, sigZ_v0)
                  else (sigZExtra, expZ, sigZ_v64, sigZ_v0)
                else
                  let expZ := expZ - 64 in
                  let sigZ_v64 := sigZ_v0 in
                  let sigZ_v0 := sigZExtra in
                  let sigZExtra := sig256Z0 in
                  if sigZ_v64 =? 0 then
                    let expZ := expZ - 64 in
                    let sigZ_v64 := sigZ_v0 in
                    let sigZ_v0 := sigZExtra in
                    let sigZExtra := 0 in
                    if sigZ_v64 =? 0 then
                      let expZ := expZ - 64 in
                      let sigZ_v64 := sigZ_v0 in
                      let sigZ_v0 := 0 in
                      (sigZExtra, expZ, sigZ_v64, sigZ_v0)
                    else (sigZExtra, expZ, sigZ_v64, sigZ_v0)
                  else (sigZExtra, expZ, sigZ_v64, sigZ_v0)
              in
              let shiftDist := softfloat_countLeadingZeros64 sigZ_v64 in
              let expZ := expZ + (7 - shiftDist) in
              let shiftDist := 15 - shiftDist in
              if 0 <? shiftDist then
                let sigZExtra := u64 (Z.shiftl sigZ_v0 (64 - shiftDist)) .| b2z (negb (sigZExtra =? 0)) in
                let '(sigZ_v64, sigZ_v0) := softfloat_shortShiftRight128 sigZ_v64 sigZ_v0 (u8 shiftDist) in
                softfloat_roundPackToF128 rm signZ (expZ - 1) sigZ_v64 sigZ_v0 sigZExtra fl
              else
                let '(sigZ_v64, sigZ_v0, sigZExtra) :=
                  if z2b shiftDist then
                    let shiftDist := - shiftDist in
                    let '(sigZ_v64, sigZ_v0) := softfloat_shortShiftLeft128 sigZ_v64 sigZ_v0 (u8 shiftDist) in
                    let '(x128_v64, x128_v0) := softfloat_shortShiftLeft128 0 sigZExtra (u8 shiftDist) in
                    let sigZ_v0 := sigZ_v0 .| x128_v64 in
                    let sigZExtra := x128_v0 in
                    (sigZ_v64, sigZ_v0, sigZExtra)
                  else (sigZ_v64, sigZ_v0, sigZExtra)
                in
                softfloat_roundPackToF128 rm signZ (expZ - 1) sigZ_v64 sigZ_v0 sigZExtra fl
            in
            if expDiff <? 0 then
              let signZ := signC in
              if expDiff <? (-1) then
                let '(sigZ_v64, sigZ_v0) := softfloat_sub128 sigC_v64 sigC_v0 sigZ_v64 sigZ_v0 in
                let sigZExtra := sig256Z_1 .| sig256Z_0 in
                let '(sigZ_v64, sigZ_v0) :=
                  if z2b sigZExtra then
                    let '(sigZ_v64, sigZ_v0) := softfloat_sub128 sigZ_v64 sigZ_v0 0 1 in
                    (sigZ_v64, sigZ_v0)
                  else (sigZ_v64, sigZ_v0)
                in
                let '(expZ, shiftDist) :=
                  if (sigZ_v64 .& 0x0100000000000000) =? 0 then
                    let expZ := expZ - 1 in
                    let shiftDist := 7 in
                    (expZ, shiftDist)
                  else (expZ, shiftDist)
                in
                let sigZExtra := u64 (Z.shiftl sigZ_v0 (64 - shiftDist)) .| b2z (negb (sigZExtra =? 0)) in
                let '(sigZ_v64, sigZ_v0) := softfloat_shortShiftRight128 sigZ_v64 sigZ_v0 (u8 shiftDist) in
                softfloat_roundPackToF128 rm signZ (expZ - 1) sigZ_v64 sigZ_v0 sigZExtra fl
              else
                let sig256C_3 := sigC_v64 in
                let sig256C_2 := sigC_v0 in
                let sig256C_1 := 0 in
                let sig256C_0 := 0 in
                let '(sig256Z_3, sig256Z_2, sig256Z_1, sig256Z_0) := softfloat_sub256M
                    (sig256C_3, sig256C_2, sig256C_1, sig256C_0) (sig256Z_3, sig256Z_2, sig256Z_1,
                        sig256Z_0) in
                join3 signZ expZ sig256Z_3 sig256Z_2 sig256Z_1 sig256Z_0
            else if expDiff =? 0 then
              let '(sigZ_v64, sigZ_v0) := softfloat_sub128 sigZ_v64 sigZ_v0 sigC_v64 sigC_v0 in
              if (((sigZ_v64 .| sigZ_v0) =? 0) && (sig256Z_1 =? 0)) && (sig256Z_0 =? 0) then
                let uiZ_v64 := packToF128UI64 (rm =? softfloat_round_min) 0 0 in
                let uiZ_v0 := 0 in
                let uZ_v64 := uiZ_v64 in
                let uZ_v0 := uiZ_v0 in
                ((uZ_v64, uZ_v0), fl)
              else
                let sig256Z_3 := sigZ_v64 in
                let sig256Z_2 := sigZ_v0 in
                let '(signZ, sig256Z_3, sig256Z_2, sig256Z_1, sig256Z_0) :=
                  if z2b (sigZ_v64 .& 0x8000000000000000) then
                    let signZ := negb signZ in
                    let zero256_0 := 0 in
                    let zero256_1 := 0 in
                    let zero256_2 := 0 in
                    let zero256_3 := 0 in
                    let '(sig256Z_3, sig256Z_2, sig256Z_1, sig256Z_0) := softfloat_sub256M
                        (zero256_3, zero256_2, zero256_1, zero256_0) (sig256Z_3, sig256Z_2, sig256Z_1,
                            sig256Z_0) in
                    (signZ, sig256Z_3, sig256Z_2, sig256Z_1, sig256Z_0)
                  else (signZ, sig256Z_3, sig256Z_2, sig256Z_1, sig256Z_0)
                in
                join3 signZ expZ sig256Z_3 sig256Z_2 sig256Z_1 sig256Z_0
            else
              let '(sig256Z_3, sig256Z_2, sig256Z_1, sig256Z_0) := softfloat_sub256M
                  (sig256Z_3, sig256Z_2, sig256Z_1, sig256Z_0) (sig256C_3, sig256C_2, sig256C_1, sig256C_0) in
              if 1 <? expDiff then
                let sigZ_v64 := sig256Z_3 in
                let sigZ_v0 := sig256Z_2 in
                let '(expZ, shiftDist) :=
                  if (sigZ_v64 .& 0x0100000000000000) =? 0 then
                    let expZ := expZ - 1 in
                    let shiftDist := 7 in
                    (expZ, shiftDist)
                  else (expZ, shiftDist)
                in
                let sigZExtra := sig256Z_1 .| sig256Z_0 in
                let sigZExtra := u64 (Z.shiftl sigZ_v0 (64 - shiftDist)) .| b2z (negb (sigZExtra =? 0)) in
                let '(sigZ_v64, sigZ_v0) := softfloat_shortShiftRight128 sigZ_v64 sigZ_v0 (u8 shiftDist) in
                softfloat_roundPackToF128 rm signZ (expZ - 1) sigZ_v64 sigZ_v0 sigZExtra fl
              else join3 signZ expZ sig256Z_3 sig256Z_2 sig256Z_1 sig256Z_0
        in
        if expC =? 0 then
          if (sigC_v64 .| sigC_v0) =? 0 then
            let shiftDist := shiftDist + 8 in
            let sigZExtra := sig256Z_1 .| sig256Z_0 in
            let sigZExtra := u64 (Z.shiftl sigZ_v0 (64 - shiftDist)) .| b2z (negb (sigZExtra =? 0)) in
            let '(sigZ_v64, sigZ_v0) := softfloat_shortShiftRight128 sigZ_v64 sigZ_v0 (u8 shiftDist) in
            softfloat_roundPackToF128 rm signZ (expZ - 1) sigZ_v64 sigZ_v0 sigZExtra fl
          else
            let '(normExpSig_exp, normExpSig_sig_v64, normExpSig_sig_v0) := softfloat_normSubnormalF128Sig
                sigC_v64 sigC_v0 in
            let expC := normExpSig_exp in
            let sigC_v64 := normExpSig_sig_v64 in
            let sigC_v0 := normExpSig_sig_v0 in
            join4 shiftDist expC sigC_v64 sigC_v0
        else join4 shiftDist expC sigC_v64 sigC_v0
      in
      if expB =? 0 then
        if (sigB_v64 .| sigB_v0) =? 0 then
          let uiZ_v64 := uiC64 in
          let uiZ_v0 := uiC0 in
          let '(uiZ_v64, uiZ_v0) :=
            if (((u64 expC .| sigC_v64) .| sigC_v0) =? 0) && negb (Bool.eqb signZ signC) then
              let uiZ_v64 := packToF128UI64 (rm =? softfloat_round_min) 0 0 in
              let uiZ_v0 := 0 in
              (uiZ_v64, uiZ_v0)
            else (uiZ_v64, uiZ_v0)
          in
          let uZ_v64 := uiZ_v64 in
          let uZ_v0 := uiZ_v0 in
          ((uZ_v64, uZ_v0), fl)
        else
          let '(normExpSig_exp, normExpSig_sig_v64, normExpSig_sig_v0) := softfloat_normSubnormalF128Sig
              sigB_v64 sigB_v0 in
          let expB := normExpSig_exp in
          let sigB_v64 := normExpSig_sig_v64 in
          let sigB_v0 := normExpSig_sig_v0 in
          join5 expB sigB_v64 sigB_v0
      else join5 expB sigB_v64 sigB_v0
    in
    if expA =? 0 then
      if (sigA_v64 .| sigA_v0) =? 0 then
        let uiZ_v64 := uiC64 in
        let uiZ_v0 := uiC0 in
        let '(uiZ_v64, uiZ_v0) :=
          if (((u64 expC .| sigC_v64) .| sigC_v0) =? 0) && negb (Bool.eqb signZ signC) then
            let uiZ_v64 := packToF128UI64 (rm =? softfloat_round_min) 0 0 in
            let uiZ_v0 := 0 in
            (uiZ_v64, uiZ_v0)
          else (uiZ_v64, uiZ_v0)
        in
        let uZ_v64 := uiZ_v64 in
        let uZ_v0 := uiZ_v0 in
        ((uZ_v64, uZ_v0), fl)
      else
        let '(normExpSig_exp, normExpSig_sig_v64, normExpSig_sig_v0) := softfloat_normSubnormalF128Sig
            sigA_v64 sigA_v0 in
        let expA := normExpSig_exp in
        let sigA_v64 := normExpSig_sig_v64 in
        let sigA_v0 := normExpSig_sig_v0 in
        join6 expA sigA_v64 sigA_v0
    else join6 expA sigA_v64 sigA_v0.

Definition f128_mulAdd (rm : Z) (a b c : Z * Z) (fl : Z) : Z * Z * Z :=
  let '(a_v64, a_v0) := a in
  let '(b_v64, b_v0) := b in
  let '(c_v64, c_v0) := c in
  let uA_v64 := a_v64 in
  let uA_v0 := a_v0 in
  let uiA64 := uA_v64 in
  let uiA0 := uA_v0 in
  let uB_v64 := b_v64 in
  let uB_v0 := b_v0 in
  let uiB64 := uB_v64 in
  let uiB0 := uB_v0 in
  let uC_v64 := c_v64 in
  let uC_v0 := c_v0 in
  let uiC64 := uC_v64 in
  let uiC0 := uC_v0 in
  softfloat_mulAddF128 rm uiA64 uiA0 uiB64 uiB0 uiC64 uiC0 0 fl.

Definition f128_mul (rm : Z) (a b : Z * Z) (fl : Z) : Z * Z * Z :=
  let '(a_v64, a_v0) := a in
  let '(b_v64, b_v0) := b in
  let uA_v64 := a_v64 in
  let uA_v0 := a_v0 in
  let uiA64 := uA_v64 in
  let uiA0 := uA_v0 in
  let signA := signF128UI64 uiA64 in
  let expA := expF128UI64 uiA64 in
  let sigA_v64 := fracF128UI64 uiA64 in
  let sigA_v0 := uiA0 in
  let uB_v64 := b_v64 in
  let uB_v0 := b_v0 in
  let uiB64 := uB_v64 in
  let uiB0 := uB_v0 in
  let signB := signF128UI64 uiB64 in
  let expB := expF128UI64 uiB64 in
  let sigB_v64 := fracF128UI64 uiB64 in
  let sigB_v0 := uiB0 in
  let signZ := xorb signA signB in
  if expA =? 0x7fff then
    if z2b (sigA_v64 .| sigA_v0) || ((expB =? 0x7fff) && z2b (sigB_v64 .| sigB_v0)) then
      let '((uiZ_v64, uiZ_v0), fl) := softfloat_propagateNaNF128UI uiA64 uiA0 uiB64 uiB0 fl in
      let uZ_v64 := uiZ_v64 in
      let uZ_v0 := uiZ_v0 in
      ((uZ_v64, uZ_v0), fl)
    else
      let magBits := (u64 expB .| sigB_v64) .| sigB_v0 in
      if magBits =? 0 then
        let fl := fl .| softfloat_flag_invalid in
        let uiZ_v64 := defaultNaNF128UI64 in
        let uiZ_v0 := defaultNaNF128UI0 in
        let uZ_v64 := uiZ_v64 in
        let uZ_v0 := uiZ_v0 in
        ((uZ_v64, uZ_v0), fl)
      else
        let uiZ_v64 := packToF128UI64 signZ 0x7fff 0 in
        let uiZ_v0 := 0 in
        let uZ_v64 := uiZ_v64 in
        let uZ_v0 := uiZ_v0 in
        ((uZ_v64, uZ_v0), fl)
  else if expB =? 0x7fff then
    if z2b (sigB_v64 .| sigB_v0) then
      let '((uiZ_v64, uiZ_v0), fl) := softfloat_propagateNaNF128UI uiA64 uiA0 uiB64 uiB0 fl in
      let uZ_v64 := uiZ_v64 in
      let uZ_v0 := uiZ_v0 in
      ((uZ_v64, uZ_v0), fl)
    else
      let magBits := (u64 expA .| sigA_v64) .| sigA_v0 in
      if magBits =? 0 then
        let fl := fl .| softfloat_flag_invalid in
        let uiZ_v64 := defaultNaNF128UI64 in
        let uiZ_v0 := defaultNaNF128UI0 in
        let uZ_v64 := uiZ_v64 in
        let uZ_v0 := uiZ_v0 in
        ((uZ_v64, uZ_v0), fl)
      else
        let uiZ_v64 := packToF128UI64 signZ 0x7fff 0 in
        let uiZ_v0 := 0 in
        let uZ_v64 := uiZ_v64 in
        let uZ_v0 := uiZ_v0 in
        ((uZ_v64, uZ_v0), fl)
  else
    let join2 (expA sigA_v64 sigA_v0 : Z) :=
      let join1 (expB sigB_v64 sigB_v0 : Z) :=
        let expZ := (expA + expB) - 0x4000 in
        let sigA_v64 := sigA_v64 .| 0x0001000000000000 in
        let '(sigB_v64, sigB_v0) := softfloat_shortShiftLeft128 sigB_v64 sigB_v0 16 in
        let '(sig256Z_3, sig256Z_2, sig256Z_1, sig256Z_0) := softfloat_mul128To256M sigA_v64 sigA_v0
            sigB_v64 sigB_v0 in
        let sigZExtra := sig256Z_1 .| b2z (negb (sig256Z_0 =? 0)) in
        let '(sigZ_v64, sigZ_v0) := softfloat_add128 sig256Z_3 sig256Z_2 sigA_v64 sigA_v0 in
        let '(expZ, sigZ_v64, sigZ_v0, sigZExtra) :=
          if 0x0002000000000000 <=? sigZ_v64 then
            let expZ := expZ + 1 in
            let '(sig128Extra_v_v64, sig128Extra_v_v0, sig128Extra_extra) :=
                softfloat_shortShiftRightJam128Extra sigZ_v64 sigZ_v0 sigZExtra 1 in
            let sigZ_v64 := sig128Extra_v_v64 in
            let sigZ_v0 := sig128Extra_v_v0 in
            let sigZExtra := sig128Extra_extra in
            (expZ, sigZ_v64, sigZ_v0, sigZExtra)
          else (expZ, sigZ_v64, sigZ_v0, sigZExtra)
        in
        softfloat_roundPackToF128 rm signZ expZ sigZ_v64 sigZ_v0 sigZExtra fl
      in
      if expB =? 0 then
        if (sigB_v64 .| sigB_v0) =? 0 then
          let uiZ_v64 := packToF128UI64 signZ 0 0 in
          let uiZ_v0 := 0 in
          let uZ_v64 := uiZ_v64 in
          let uZ_v0 := uiZ_v0 in
          ((uZ_v64, uZ_v0), fl)
        else
          let '(normExpSig_exp, normExpSig_sig_v64, normExpSig_sig_v0) := softfloat_normSubnormalF128Sig
              sigB_v64 sigB_v0 in
          let expB := normExpSig_exp in
          let sigB_v64 := normExpSig_sig_v64 in
          let sigB_v0 := normExpSig_sig_v0 in
          join1 expB sigB_v64 sigB_v0
      else join1 expB sigB_v64 sigB_v0
    in
    if expA =? 0 then
      if (sigA_v64 .| sigA_v0) =? 0 then
        let uiZ_v64 := packToF128UI64 signZ 0 0 in
        let uiZ_v0 := 0 in
        let uZ_v64 := uiZ_v64 in
        let uZ_v0 := uiZ_v0 in
        ((uZ_v64, uZ_v0), fl)
      else
        let '(normExpSig_exp, normExpSig_sig_v64, normExpSig_sig_v0) := softfloat_normSubnormalF128Sig
            sigA_v64 sigA_v0 in
        let expA := normExpSig_exp in
        let sigA_v64 := normExpSig_sig_v64 in
        let sigA_v0 := normExpSig_sig_v0 in
        join2 expA sigA_v64 sigA_v0
    else join2 expA sigA_v64 sigA_v0.

Definition f128_roundToInt (a : Z * Z) (roundingMode : Z) (exact : bool) (fl : Z) : Z * Z * Z :=
  let '(a_v64, a_v0) := a in
  let uA_v64 := a_v64 in
  let uA_v0 := a_v0 in
  let uiA64 := uA_v64 in
  let uiA0 := uA_v0 in
  let exp := expF128UI64 uiA64 in
  let join1 (uiZ_v64 uiZ_v0 fl : Z) :=
    let fl := if exact && (negb (uiZ_v64 =? uiA64) || negb (uiZ_v0 =? uiA0)) then fl .|
        softfloat_flag_inexact else fl in
    let uZ_v64 := uiZ_v64 in
    let uZ_v0 := uiZ_v0 in
    ((uZ_v64, uZ_v0), fl)
  in
  if 0x402f <=? exp then
    if 0x406f <=? exp then
      if (exp =? 0x7fff) && z2b (fracF128UI64 uiA64 .| uiA0) then
        let '((uiZ_v64, uiZ_v0), fl) := softfloat_propagateNaNF128UI uiA64 uiA0 0 0 fl in
        let uZ_v64 := uiZ_v64 in
        let uZ_v0 := uiZ_v0 in
        ((uZ_v64, uZ_v0), fl)
      else ((a_v64, a_v0), fl)
    else
      let lastBitMask := u64 (Z.shiftl 2 (0x406e - exp)) in
      let roundBitsMask := u64 (lastBitMask - 1) in
      let uiZ_v64 := uiA64 in
      let uiZ_v0 := uiA0 in
      let roundNearEven := roundingMode =? softfloat_round_near_even in
      let '(uiZ_v64, uiZ_v0) :=
        if roundNearEven || (roundingMode =? softfloat_round_near_maxMag) then
          if exp =? 0x402f then
            if 0x8000000000000000 <=? uiZ_v0 then
              let uiZ_v64 := u64 (uiZ_v64 + 1) in
              if roundNearEven && (uiZ_v0 =? 0x8000000000000000) then
                let uiZ_v64 := uiZ_v64 &~ 1 in
                (uiZ_v64, uiZ_v0)
              else (uiZ_v64, uiZ_v0)
            else (uiZ_v64, uiZ_v0)
          else
            let '(uiZ_v64, uiZ_v0) := softfloat_add128 uiZ_v64 uiZ_v0 0 (Z.shiftr lastBitMask 1) in
            if roundNearEven && ((uiZ_v0 .& roundBitsMask) =? 0) then
              let uiZ_v0 := uiZ_v0 &~ lastBitMask in
              (uiZ_v64, uiZ_v0)
            else (uiZ_v64, uiZ_v0)
        else if roundingMode =? (if signF128UI64 uiZ_v64 then softfloat_round_min else
            softfloat_round_max) then
          let '(uiZ_v64, uiZ_v0) := softfloat_add128 uiZ_v64 uiZ_v0 0 roundBitsMask in
          (uiZ_v64, uiZ_v0)
        else (uiZ_v64, uiZ_v0)
      in
      let uiZ_v0 := uiZ_v0 &~ roundBitsMask in
      join1 uiZ_v64 uiZ_v0 fl
  else if exp <? 0x3fff then
    if ((uiA64 .& 0x7fffffffffffffff) .| uiA0) =? 0 then ((a_v64, a_v0), fl)
    else
      let fl := if exact then fl .| softfloat_flag_inexact else fl in
      let uiZ_v64 := uiA64 .& packToF128UI64 true 0 0 in
      let uiZ_v0 := 0 in
      let uiZ_v64 :=
        if roundingMode =? softfloat_round_near_even then
          if negb ((fracF128UI64 uiA64 .| uiA0) =? 0) then
            if exp =? 0x3ffe then uiZ_v64 .| packToF128UI64 false 0x3fff 0 else uiZ_v64
          else uiZ_v64
        else if roundingMode =? softfloat_round_near_maxMag then
          if exp =? 0x3ffe then uiZ_v64 .| packToF128UI64 false 0x3fff 0 else uiZ_v64
        else if roundingMode =? softfloat_round_min then
          if z2b uiZ_v64 then packToF128UI64 true 0x3fff 0 else uiZ_v64
        else if roundingMode =? softfloat_round_max then
          if uiZ_v64 =? 0 then packToF128UI64 false 0x3fff 0 else uiZ_v64
        else uiZ_v64
      in
      let uZ_v64 := uiZ_v64 in
      let uZ_v0 := uiZ_v0 in
      ((uZ_v64, uZ_v0), fl)
  else
    let uiZ_v64 := uiA64 in
    let uiZ_v0 := 0 in
    let lastBitMask := u64 (Z.shiftl 1 (0x402f - exp)) in
    let roundBitsMask := u64 (lastBitMask - 1) in
    let uiZ_v64 :=
      if roundingMode =? softfloat_round_near_maxMag then u64 (uiZ_v64 + Z.shiftr lastBitMask 1)
      else if roundingMode =? softfloat_round_near_even then
        let uiZ_v64 := u64 (uiZ_v64 + Z.shiftr lastBitMask 1) in
        if ((uiZ_v64 .& roundBitsMask) .| uiA0) =? 0 then uiZ_v64 &~ lastBitMask else uiZ_v64
      else if roundingMode =? (if signF128UI64 uiZ_v64 then softfloat_round_min else softfloat_round_max) then
        u64 ((uiZ_v64 .| b2z (negb (uiA0 =? 0))) + roundBitsMask)
      else uiZ_v64
    in
    let uiZ_v64 := uiZ_v64 &~ roundBitsMask in
    join1 uiZ_v64 uiZ_v0 fl.

Definition f128_sub (rm : Z) (a b : Z * Z) (fl : Z) : Z * Z * Z :=
  let '(a_v64, a_v0) := a in
  let '(b_v64, b_v0) := b in
  let uA_v64 := a_v64 in
  let uA_v0 := a_v0 in
  let uiA64 := uA_v64 in
  let uiA0 := uA_v0 in
  let signA := signF128UI64 uiA64 in
  let uB_v64 := b_v64 in
  let uB_v0 := b_v0 in
  let uiB64 := uB_v64 in
  let uiB0 := uB_v0 in
  let signB := signF128UI64 uiB64 in
  if Bool.eqb signA signB then softfloat_subMagsF128 rm uiA64 uiA0 uiB64 uiB0 signA fl
  else softfloat_addMagsF128 rm uiA64 uiA0 uiB64 uiB0 signA fl.
