(* ===== verification/SoftConv.v ===== *)
(** * SoftFloat: conversions

    Between the formats, and to and from integers. *)

From S2P Require Import Prelude SoftPrim SoftRound.

Definition f32_to_f64 (a fl : Z) : Z * Z :=
  let uA := a in
  let uiA := uA in
  let sign := signF32UI uiA in
  let exp := expF32UI uiA in
  let frac := fracF32UI uiA in
  if exp =? 0xff then
    let '(fl, uiZ) :=
      if z2b frac then
        let fl := softfloat_f32UIToCommonNaN uiA fl in
        let uiZ := softfloat_commonNaNToF64UI in
        (fl, uiZ)
      else
        let uiZ := packToF64UI sign 0x7ff 0 in
        (fl, uiZ)
    in
    let uZ := uiZ in
    (uZ, fl)
  else
    let join1 (exp frac : Z) :=
      let uiZ := packToF64UI sign (exp + 0x380) (u64 (Z.shiftl frac 29)) in
      let uZ := uiZ in
      (uZ, fl)
    in
    if exp =? 0 then
      if frac =? 0 then
        let uiZ := packToF64UI sign 0 0 in
        let uZ := uiZ in
        (uZ, fl)
      else
        let '(normExpSig_exp, normExpSig_sig) := softfloat_normSubnormalF32Sig frac in
        let exp := normExpSig_exp - 1 in
        let frac := normExpSig_sig in
        join1 exp frac
    else join1 exp frac.

Definition f32_to_i32 (a roundingMode : Z) (exact : bool) (fl : Z) : Z * Z :=
  let uA := a in
  let uiA := uA in
  let sign := signF32UI uiA in
  let exp := expF32UI uiA in
  let sig := fracF32UI uiA in
  let sign := if (exp =? 0xff) && z2b sig then false else sign in
  let sig := if z2b exp then sig .| 0x00800000 else sig in
  let sig64 := u64 (Z.shiftl sig 32) in
  let shiftDist := 0xaa - exp in
  let sig64 := if 0 <? shiftDist then softfloat_shiftRightJam64 sig64 (u64 shiftDist) else sig64 in
  softfloat_roundToI32 sign sig64 roundingMode exact fl.

Definition f32_to_ui32 (a roundingMode : Z) (exact : bool) (fl : Z) : Z * Z :=
  let uA := a in
  let uiA := uA in
  let sign := signF32UI uiA in
  let exp := expF32UI uiA in
  let sig := fracF32UI uiA in
  let sign := if (exp =? 0xff) && z2b sig then false else sign in
  let sig := if z2b exp then sig .| 0x00800000 else sig in
  let sig64 := u64 (Z.shiftl sig 32) in
  let shiftDist := 0xaa - exp in
  let sig64 := if 0 <? shiftDist then softfloat_shiftRightJam64 sig64 (u64 shiftDist) else sig64 in
  softfloat_roundToUI32 sign sig64 roundingMode exact fl.

Definition f128_to_f16 (rm : Z) (a : Z * Z) (fl : Z) : Z * Z :=
  let '(a_v64, a_v0) := a in
  let uA_v64 := a_v64 in
  let uA_v0 := a_v0 in
  let uiA64 := uA_v64 in
  let uiA0 := uA_v0 in
  let sign := signF128UI64 uiA64 in
  let exp := expF128UI64 uiA64 in
  let frac64 := fracF128UI64 uiA64 .| b2z (negb (uiA0 =? 0)) in
  if exp =? 0x7fff then
    let '(fl, uiZ) :=
      if z2b frac64 then
        let fl := softfloat_f128UIToCommonNaN uiA64 uiA0 fl in
        let uiZ := softfloat_commonNaNToF16UI in
        (fl, uiZ)
      else
        let uiZ := packToF16UI sign 0x1f 0 in
        (fl, uiZ)
    in
    let uZ := u16 uiZ in
    (uZ, fl)
  else
    let frac16 := softfloat_shortShiftRightJam64 frac64 34 in
    if (u64 exp .| frac16) =? 0 then
      let uiZ := packToF16UI sign 0 0 in
      let uZ := u16 uiZ in
      (uZ, fl)
    else
      let exp := exp - 0x3ff1 in
      softfloat_roundPackToF16 rm sign exp (frac16 .| 0x4000) fl.

Definition f128_to_f32 (rm : Z) (a : Z * Z) (fl : Z) : Z * Z :=
  let '(a_v64, a_v0) := a in
  let uA_v64 := a_v64 in
  let uA_v0 := a_v0 in
  let uiA64 := uA_v64 in
  let uiA0 := uA_v0 in
  let sign := signF128UI64 uiA64 in
  let exp := expF128UI64 uiA64 in
  let frac64 := fracF128UI64 uiA64 .| b2z (negb (uiA0 =? 0)) in
  if exp =? 0x7fff then
    let '(fl, uiZ) :=
      if z2b frac64 then
        let fl := softfloat_f128UIToCommonNaN uiA64 uiA0 fl in
        let uiZ := softfloat_commonNaNToF32UI in
        (fl, uiZ)
      else
        let uiZ := packToF32UI sign 0xff 0 in
        (fl, uiZ)
    in
    let uZ := u32 uiZ in
    (uZ, fl)
  else
    let frac32 := softfloat_shortShiftRightJam64 frac64 18 in
    if (u64 exp .| frac32) =? 0 then
      let uiZ := packToF32UI sign 0 0 in
      let uZ := u32 uiZ in
      (uZ, fl)
    else
      let exp := exp - 0x3f81 in
      softfloat_roundPackToF32 rm sign exp (frac32 .| 0x40000000) fl.

Definition f128_to_f64 (rm : Z) (a : Z * Z) (fl : Z) : Z * Z :=
  let '(a_v64, a_v0) := a in
  let uA_v64 := a_v64 in
  let uA_v0 := a_v0 in
  let uiA64 := uA_v64 in
  let uiA0 := uA_v0 in
  let sign := signF128UI64 uiA64 in
  let exp := expF128UI64 uiA64 in
  let frac64 := fracF128UI64 uiA64 in
  let frac0 := uiA0 in
  if exp =? 0x7fff then
    let '(fl, uiZ) :=
      if z2b (frac64 .| frac0) then
        let fl := softfloat_f128UIToCommonNaN uiA64 uiA0 fl in
        let uiZ := softfloat_commonNaNToF64UI in
        (fl, uiZ)
      else
        let uiZ := packToF64UI sign 0x7ff 0 in
        (fl, uiZ)
    in
    let uZ := uiZ in
    (uZ, fl)
  else
    let '(frac128_v64, frac128_v0) := softfloat_shortShiftLeft128 frac64 frac0 14 in
    let frac64 := frac128_v64 .| b2z (negb (frac128_v0 =? 0)) in
    if (u64 exp .| frac64) =? 0 then
      let uiZ := packToF64UI sign 0 0 in
      let uZ := uiZ in
      (uZ, fl)
    else
      let exp := exp - 0x3c01 in
      softfloat_roundPackToF64 rm sign exp (frac64 .| 0x4000000000000000) fl.

Definition f128_to_i32 (a : Z * Z) (roundingMode : Z) (exact : bool) (fl : Z) : Z * Z :=
  let '(a_v64, a_v0) := a in
  let uA_v64 := a_v64 in
  let uA_v0 := a_v0 in
  let uiA64 := uA_v64 in
  let uiA0 := uA_v0 in
  let sign := signF128UI64 uiA64 in
  let exp := expF128UI64 uiA64 in
  let sig64 := fracF128UI64 uiA64 in
  let sig0 := uiA0 in
  let sign := if (exp =? 0x7fff) && z2b (sig64 .| sig0) then false else sign in
  let sig64 := if z2b exp then sig64 .| 0x0001000000000000 else sig64 in
  let sig64 := sig64 .| b2z (negb (sig0 =? 0)) in
  let shiftDist := 0x4023 - exp in
  let sig64 := if 0 <? shiftDist then softfloat_shiftRightJam64 sig64 (u64 shiftDist) else sig64 in
  softfloat_roundToI32 sign sig64 roundingMode exact fl.

Definition f128_to_i32_r_minMag (a : Z * Z) (exact : bool) (fl : Z) : Z * Z :=
  let '(a_v64, a_v0) := a in
  let uA_v64 := a_v64 in
  let uA_v0 := a_v0 in
  let uiA64 := uA_v64 in
  let uiA0 := uA_v0 in
  let exp := expF128UI64 uiA64 in
  let sig64 := fracF128UI64 uiA64 .| b2z (negb (uiA0 =? 0)) in
  let shiftDist := 0x402f - exp in
  if 49 <=? shiftDist then
    let fl := if exact && z2b (u64 exp .| sig64) then fl .| softfloat_flag_inexact else fl in
    (0, fl)
  else
    let sign := signF128UI64 uiA64 in
    if shiftDist <? 18 then
      if (sign && (shiftDist =? 17)) && (sig64 <? 0x0000000000020000) then
        let fl := if exact && z2b sig64 then fl .| softfloat_flag_inexact else fl in
        ((-0x7fffffff) - 1, fl)
      else
        let fl := fl .| softfloat_flag_invalid in
        (if (exp =? 0x7fff) && z2b sig64 then i32_fromNaN else if sign then i32_fromNegOverflow else
            i32_fromPosOverflow, fl)
    else
      let sig64 := sig64 .| 0x0001000000000000 in
      let absZ := i64 (Z.shiftr sig64 shiftDist) in
      let fl :=
        if exact && negb (u64 (Z.shiftl (u64 absZ) shiftDist) =? sig64) then fl .| softfloat_flag_inexact
        else fl
      in
      (if sign then - absZ else absZ, fl).

Definition f128_to_i64 (a : Z * Z) (roundingMode : Z) (exact : bool) (fl : Z) : Z * Z :=
  let '(a_v64, a_v0) := a in
  let uA_v64 := a_v64 in
  let uA_v0 := a_v0 in
  let uiA64 := uA_v64 in
  let uiA0 := uA_v0 in
  let sign := signF128UI64 uiA64 in
  let exp := expF128UI64 uiA64 in
  let sig64 := fracF128UI64 uiA64 in
  let sig0 := uiA0 in
  let shiftDist := 0x402f - exp in
  if shiftDist <=? 0 then
    if shiftDist <? (-15) then
      let fl := fl .| softfloat_flag_invalid in
      (if (exp =? 0x7fff) && z2b (sig64 .| sig0) then i64_fromNaN else if sign then i64_fromNegOverflow
          else i64_fromPosOverflow, fl)
    else
      let sig64 := sig64 .| 0x0001000000000000 in
      let '(sig64, sig0) :=
        if z2b shiftDist then
          let '(sig128_v64, sig128_v0) := softfloat_shortShiftLeft128 sig64 sig0 (u8 (- shiftDist)) in
          let sig64 := sig128_v64 in
          let sig0 := sig128_v0 in
          (sig64, sig0)
        else (sig64, sig0)
      in
      softfloat_roundToI64 sign sig64 sig0 roundingMode exact fl
  else
    let sig64 := if z2b exp then sig64 .| 0x0001000000000000 else sig64 in
    let '(sigExtra_v, sigExtra_extra) := softfloat_shiftRightJam64Extra sig64 sig0 (u64 shiftDist) in
    let sig64 := sigExtra_v in
    let sig0 := sigExtra_extra in
    softfloat_roundToI64 sign sig64 sig0 roundingMode exact fl.

Definition f128_to_i64_r_minMag (a : Z * Z) (exact : bool) (fl : Z) : Z * Z :=
  let '(a_v64, a_v0) := a in
  let uA_v64 := a_v64 in
  let uA_v0 := a_v0 in
  let uiA64 := uA_v64 in
  let uiA0 := uA_v0 in
  let sign := signF128UI64 uiA64 in
  let exp := expF128UI64 uiA64 in
  let sig64 := fracF128UI64 uiA64 in
  let sig0 := uiA0 in
  let shiftDist := 0x402f - exp in
  if shiftDist <? 0 then
    if shiftDist <? (-14) then
      if (uiA64 =? 0xc03e000000000000) && (sig0 <? 0x0002000000000000) then
        let fl := if exact && z2b sig0 then fl .| softfloat_flag_inexact else fl in
        ((-0x7fffffffffffffff) - 1, fl)
      else
        let fl := fl .| softfloat_flag_invalid in
        (if (exp =? 0x7fff) && z2b (sig64 .| sig0) then i64_fromNaN else if sign then i64_fromNegOverflow
            else i64_fromPosOverflow, fl)
    else
      let sig64 := sig64 .| 0x0001000000000000 in
      let negShiftDist := i8 (- shiftDist) in
      let absZ := i64 (u64 (Z.shiftl sig64 negShiftDist) .| Z.shiftr sig0 (shiftDist .& 63)) in
      let fl := if exact && z2b (u64 (Z.shiftl sig0 negShiftDist)) then fl .| softfloat_flag_inexact else
          fl in
      (if sign then - absZ else absZ, fl)
  else if 49 <=? shiftDist then
    let fl := if exact && z2b ((u64 exp .| sig64) .| sig0) then fl .| softfloat_flag_inexact else fl in
    (0, fl)
  else
    let sig64 := sig64 .| 0x0001000000000000 in
    let absZ := i64 (Z.shiftr sig64 shiftDist) in
    let fl :=
      if exact && (z2b sig0 || negb (u64 (Z.shiftl absZ shiftDist) =? sig64)) then fl .|
          softfloat_flag_inexact
      else fl
    in
    (if sign then - absZ else absZ, fl).

Definition f128_to_ui32 (a : Z * Z) (roundingMode : Z) (exact : bool) (fl : Z) : Z * Z :=
  let '(a_v64, a_v0) := a in
  let uA_v64 := a_v64 in
  let uA_v0 := a_v0 in
  let uiA64 := uA_v64 in
  let uiA0 := uA_v0 in
  let sign := signF128UI64 uiA64 in
  let exp := expF128UI64 uiA64 in
  let sig64 := fracF128UI64 uiA64 .| b2z (negb (uiA0 =? 0)) in
  let sign := if (exp =? 0x7fff) && z2b sig64 then false else sign in
  let sig64 := if z2b exp then sig64 .| 0x0001000000000000 else sig64 in
  let shiftDist := 0x4023 - exp in
  let sig64 := if 0 <? shiftDist then softfloat_shiftRightJam64 sig64 (u64 shiftDist) else sig64 in
  softfloat_roundToUI32 sign sig64 roundingMode exact fl.

Definition f128_to_ui32_r_minMag (a : Z * Z) (exact : bool) (fl : Z) : Z * Z :=
  let '(a_v64, a_v0) := a in
  let uA_v64 := a_v64 in
  let uA_v0 := a_v0 in
  let uiA64 := uA_v64 in
  let uiA0 := uA_v0 in
  let exp := expF128UI64 uiA64 in
  let sig64 := fracF128UI64 uiA64 .| b2z (negb (uiA0 =? 0)) in
  let shiftDist := 0x402f - exp in
  if 49 <=? shiftDist then
    let fl := if exact && z2b (u64 exp .| sig64) then fl .| softfloat_flag_inexact else fl in
    (0, fl)
  else
    let sign := signF128UI64 uiA64 in
    if sign || (shiftDist <? 17) then
      let fl := fl .| softfloat_flag_invalid in
      (if (exp =? 0x7fff) && z2b sig64 then ui32_fromNaN else if sign then ui32_fromNegOverflow else
          ui32_fromPosOverflow, fl)
    else
      let sig64 := sig64 .| 0x0001000000000000 in
      let z := Z.shiftr sig64 shiftDist in
      let fl := if exact && negb (u64 (Z.shiftl z shiftDist) =? sig64) then fl .| softfloat_flag_inexact
          else fl in
      (z, fl).

Definition f128_to_ui64 (a : Z * Z) (roundingMode : Z) (exact : bool) (fl : Z) : Z * Z :=
  let '(a_v64, a_v0) := a in
  let uA_v64 := a_v64 in
  let uA_v0 := a_v0 in
  let uiA64 := uA_v64 in
  let uiA0 := uA_v0 in
  let sign := signF128UI64 uiA64 in
  let exp := expF128UI64 uiA64 in
  let sig64 := fracF128UI64 uiA64 in
  let sig0 := uiA0 in
  let shiftDist := 0x402f - exp in
  if shiftDist <=? 0 then
    if shiftDist <? (-15) then
      let fl := fl .| softfloat_flag_invalid in
      (if (exp =? 0x7fff) && z2b (sig64 .| sig0) then ui64_fromNaN else if sign then ui64_fromNegOverflow
          else ui64_fromPosOverflow, fl)
    else
      let sig64 := sig64 .| 0x0001000000000000 in
      let '(sig64, sig0) :=
        if z2b shiftDist then
          let '(sig128_v64, sig128_v0) := softfloat_shortShiftLeft128 sig64 sig0 (u8 (- shiftDist)) in
          let sig64 := sig128_v64 in
          let sig0 := sig128_v0 in
          (sig64, sig0)
        else (sig64, sig0)
      in
      softfloat_roundToUI64 sign sig64 sig0 roundingMode exact fl
  else
    let sig64 := if z2b exp then sig64 .| 0x0001000000000000 else sig64 in
    let '(sigExtra_v, sigExtra_extra) := softfloat_shiftRightJam64Extra sig64 sig0 (u64 shiftDist) in
    let sig64 := sigExtra_v in
    let sig0 := sigExtra_extra in
    softfloat_roundToUI64 sign sig64 sig0 roundingMode exact fl.

Definition f128_to_ui64_r_minMag (a : Z * Z) (exact : bool) (fl : Z) : Z * Z :=
  let '(a_v64, a_v0) := a in
  let uA_v64 := a_v64 in
  let uA_v0 := a_v0 in
  let uiA64 := uA_v64 in
  let uiA0 := uA_v0 in
  let sign := signF128UI64 uiA64 in
  let exp := expF128UI64 uiA64 in
  let sig64 := fracF128UI64 uiA64 in
  let sig0 := uiA0 in
  let shiftDist := 0x402f - exp in
  if shiftDist <? 0 then
    if sign || (shiftDist <? (-15)) then
      let fl := fl .| softfloat_flag_invalid in
      (if (exp =? 0x7fff) && z2b (sig64 .| sig0) then ui64_fromNaN else if sign then ui64_fromNegOverflow
          else ui64_fromPosOverflow, fl)
    else
      let sig64 := sig64 .| 0x0001000000000000 in
      let negShiftDist := i8 (- shiftDist) in
      let z := u64 (Z.shiftl sig64 negShiftDist) .| Z.shiftr sig0 (shiftDist .& 63) in
      let fl := if exact && z2b (u64 (Z.shiftl sig0 negShiftDist)) then fl .| softfloat_flag_inexact else
          fl in
      (z, fl)
  else if 49 <=? shiftDist then
    let fl := if exact && z2b ((u64 exp .| sig64) .| sig0) then fl .| softfloat_flag_inexact else fl in
    (0, fl)
  else if sign then
    let fl := fl .| softfloat_flag_invalid in
    (if (exp =? 0x7fff) && z2b (sig64 .| sig0) then ui64_fromNaN else if sign then ui64_fromNegOverflow
        else ui64_fromPosOverflow, fl)
  else
    let sig64 := sig64 .| 0x0001000000000000 in
    let z := Z.shiftr sig64 shiftDist in
    let fl :=
      if exact && (z2b sig0 || negb (u64 (Z.shiftl z shiftDist) =? sig64)) then fl .| softfloat_flag_inexact
      else fl
    in
    (z, fl).

Definition f16_to_f128 (a fl : Z) : Z * Z * Z :=
  let uA := a in
  let uiA := uA in
  let sign := signF16UI uiA in
  let exp := i8 (expF16UI uiA) in
  let frac := fracF16UI uiA in
  if exp =? 0x1f then
    let '(fl, uiZ_v64, uiZ_v0) :=
      if z2b frac then
        let fl := softfloat_f16UIToCommonNaN uiA fl in
        let '(uiZ_v64, uiZ_v0) := softfloat_commonNaNToF128UI in
        (fl, uiZ_v64, uiZ_v0)
      else
        let uiZ_v64 := packToF128UI64 sign 0x7fff 0 in
        let uiZ_v0 := 0 in
        (fl, uiZ_v64, uiZ_v0)
    in
    let uZ_v64 := uiZ_v64 in
    let uZ_v0 := uiZ_v0 in
    ((uZ_v64, uZ_v0), fl)
  else
    let join1 (exp frac : Z) :=
      let uiZ_v64 := packToF128UI64 sign (exp + 0x3ff0) (u64 (Z.shiftl frac 38)) in
      let uiZ_v0 := 0 in
      let uZ_v64 := uiZ_v64 in
      let uZ_v0 := uiZ_v0 in
      ((uZ_v64, uZ_v0), fl)
    in
    if exp =? 0 then
      if frac =? 0 then
        let uiZ_v64 := packToF128UI64 sign 0 0 in
        let uiZ_v0 := 0 in
        let uZ_v64 := uiZ_v64 in
        let uZ_v0 := uiZ_v0 in
        ((uZ_v64, uZ_v0), fl)
      else
        let '(normExpSig_exp, normExpSig_sig) := softfloat_normSubnormalF16Sig frac in
        let exp := i8 (normExpSig_exp - 1) in
        let frac := normExpSig_sig in
        join1 exp frac
    else join1 exp frac.

Definition f16_to_f32 (a fl : Z) : Z * Z :=
  let uA := a in
  let uiA := uA in
  let sign := signF16UI uiA in
  let exp := i8 (expF16UI uiA) in
  let frac := fracF16UI uiA in
  if exp =? 0x1f then
    let '(fl, uiZ) :=
      if z2b frac then
        let fl := softfloat_f16UIToCommonNaN uiA fl in
        let uiZ := softfloat_commonNaNToF32UI in
        (fl, uiZ)
      else
        let uiZ := packToF32UI sign 0xff 0 in
        (fl, uiZ)
    in
    let uZ := u32 uiZ in
    (uZ, fl)
  else
    let join1 (exp frac : Z) :=
      let uiZ := packToF32UI sign (exp + 0x70) (u64 (Z.shiftl frac 13)) in
      let uZ := u32 uiZ in
      (uZ, fl)
    in
    if exp =? 0 then
      if frac =? 0 then
        let uiZ := packToF32UI sign 0 0 in
        let uZ := u32 uiZ in
        (uZ, fl)
      else
        let '(normExpSig_exp, normExpSig_sig) := softfloat_normSubnormalF16Sig frac in
        let exp := i8 (normExpSig_exp - 1) in
        let frac := normExpSig_sig in
        join1 exp frac
    else join1 exp frac.

Definition f16_to_f64 (a fl : Z) : Z * Z :=
  let uA := a in
  let uiA := uA in
  let sign := signF16UI uiA in
  let exp := i8 (expF16UI uiA) in
  let frac := fracF16UI uiA in
  if exp =? 0x1f then
    let '(fl, uiZ) :=
      if z2b frac then
        let fl := softfloat_f16UIToCommonNaN uiA fl in
        let uiZ := softfloat_commonNaNToF64UI in
        (fl, uiZ)
      else
        let uiZ := packToF64UI sign 0x7ff 0 in
        (fl, uiZ)
    in
    let uZ := uiZ in
    (uZ, fl)
  else
    let join1 (exp frac : Z) :=
      let uiZ := packToF64UI sign (exp + 0x3f0) (u64 (Z.shiftl frac 42)) in
      let uZ := uiZ in
      (uZ, fl)
    in
    if exp =? 0 then
      if frac =? 0 then
        let uiZ := packToF64UI sign 0 0 in
        let uZ := uiZ in
        (uZ, fl)
      else
        let '(normExpSig_exp, normExpSig_sig) := softfloat_normSubnormalF16Sig frac in
        let exp := i8 (normExpSig_exp - 1) in
        let frac := normExpSig_sig in
        join1 exp frac
    else join1 exp frac.

Definition f16_to_i32 (a roundingMode : Z) (exact : bool) (fl : Z) : Z * Z :=
  let uA := a in
  let uiA := uA in
  let sign := signF16UI uiA in
  let exp := i8 (expF16UI uiA) in
  let frac := fracF16UI uiA in
  if exp =? 0x1f then
    let fl := fl .| softfloat_flag_invalid in
    (if z2b frac then i32_fromNaN else if sign then i32_fromNegOverflow else i32_fromPosOverflow, fl)
  else
    let sig32 := i64 frac in
    if z2b exp then
      let sig32 := sig32 .| 0x0400 in
      let shiftDist := i8 (exp - 0x19) in
      if 0 <=? shiftDist then
        let sig32 := Z.shiftl sig32 shiftDist in
        (if sign then - sig32 else sig32, fl)
      else
        let shiftDist := i8 (exp - 0x0d) in
        let sig32 := if 0 <? shiftDist then Z.shiftl sig32 shiftDist else sig32 in
        softfloat_roundToI32 sign (u64 sig32) roundingMode exact fl
    else softfloat_roundToI32 sign (u64 sig32) roundingMode exact fl.

Definition f16_to_i8 (a roundingMode : Z) (exact : bool) (fl : Z) : Z * Z :=
  let old_flags := fl in
  let '(sig32, fl) := f16_to_i32 a roundingMode exact fl in
  if INT8_MAX <? sig32 then
    let fl := old_flags .| softfloat_flag_invalid in
    (i8 i8_fromPosOverflow, fl)
  else if sig32 <? INT8_MIN then
    let fl := old_flags .| softfloat_flag_invalid in
    (i8 i8_fromNegOverflow, fl)
  else (i8 sig32, fl).

Definition f16_to_i16 (a roundingMode : Z) (exact : bool) (fl : Z) : Z * Z :=
  let old_flags := fl in
  let '(sig32, fl) := f16_to_i32 a roundingMode exact fl in
  if INT16_MAX <? sig32 then
    let fl := old_flags .| softfloat_flag_invalid in
    (i16_fromPosOverflow, fl)
  else if sig32 <? INT16_MIN then
    let fl := old_flags .| softfloat_flag_invalid in
    (i16_fromNegOverflow, fl)
  else (sig32, fl).

Definition f16_to_i32_r_minMag (a : Z) (exact : bool) (fl : Z) : Z * Z :=
  let uA := a in
  let uiA := uA in
  let exp := i8 (expF16UI uiA) in
  let frac := fracF16UI uiA in
  let shiftDist := i8 (exp - 0x0f) in
  if shiftDist <? 0 then
    let fl := if exact && z2b (u64 exp .| frac) then fl .| softfloat_flag_inexact else fl in
    (0, fl)
  else
    let sign := signF16UI uiA in
    if exp =? 0x1f then
      let fl := fl .| softfloat_flag_invalid in
      (if (exp =? 0x1f) && z2b frac then i32_fromNaN else if sign then i32_fromNegOverflow else
          i32_fromPosOverflow, fl)
    else
      let alignedSig := Z.shiftl (i64 (frac .| 0x0400)) shiftDist in
      let fl := if exact && z2b (alignedSig .& 0x3ff) then fl .| softfloat_flag_inexact else fl in
      let alignedSig := Z.shiftr alignedSig 10 in
      (if sign then - alignedSig else alignedSig, fl).

Definition f16_to_i64 (a roundingMode : Z) (exact : bool) (fl : Z) : Z * Z :=
  let uA := a in
  let uiA := uA in
  let sign := signF16UI uiA in
  let exp := i8 (expF16UI uiA) in
  let frac := fracF16UI uiA in
  if exp =? 0x1f then
    let fl := fl .| softfloat_flag_invalid in
    (if z2b frac then i64_fromNaN else if sign then i64_fromNegOverflow else i64_fromPosOverflow, fl)
  else
    let sig32 := i64 frac in
    if z2b exp then
      let sig32 := sig32 .| 0x0400 in
      let shiftDist := i8 (exp - 0x19) in
      if 0 <=? shiftDist then
        let sig32 := Z.shiftl sig32 shiftDist in
        (if sign then - sig32 else sig32, fl)
      else
        let shiftDist := i8 (exp - 0x0d) in
        let sig32 := if 0 <? shiftDist then Z.shiftl sig32 shiftDist else sig32 in
        softfloat_roundToI32 sign (u64 sig32) roundingMode exact fl
    else softfloat_roundToI32 sign (u64 sig32) roundingMode exact fl.

Definition f16_to_i64_r_minMag (a : Z) (exact : bool) (fl : Z) : Z * Z :=
  let uA := a in
  let uiA := uA in
  let exp := i8 (expF16UI uiA) in
  let frac := fracF16UI uiA in
  let shiftDist := i8 (exp - 0x0f) in
  if shiftDist <? 0 then
    let fl := if exact && z2b (u64 exp .| frac) then fl .| softfloat_flag_inexact else fl in
    (0, fl)
  else
    let sign := signF16UI uiA in
    if exp =? 0x1f then
      let fl := fl .| softfloat_flag_invalid in
      (if (exp =? 0x1f) && z2b frac then i64_fromNaN else if sign then i64_fromNegOverflow else
          i64_fromPosOverflow, fl)
    else
      let alignedSig := Z.shiftl (i64 (frac .| 0x0400)) shiftDist in
      let fl := if exact && z2b (alignedSig .& 0x3ff) then fl .| softfloat_flag_inexact else fl in
      let alignedSig := Z.shiftr alignedSig 10 in
      (if sign then - alignedSig else alignedSig, fl).

Definition f16_to_ui32 (a roundingMode : Z) (exact : bool) (fl : Z) : Z * Z :=
  let uA := a in
  let uiA := uA in
  let sign := signF16UI uiA in
  let exp := i8 (expF16UI uiA) in
  let frac := fracF16UI uiA in
  if exp =? 0x1f then
    let fl := fl .| softfloat_flag_invalid in
    (if z2b frac then ui32_fromNaN else if sign then ui32_fromNegOverflow else ui32_fromPosOverflow, fl)
  else
    let sig32 := frac in
    if z2b exp then
      let sig32 := sig32 .| 0x0400 in
      let shiftDist := i8 (exp - 0x19) in
      if (0 <=? shiftDist) && negb sign then (u64 (Z.shiftl sig32 shiftDist), fl)
      else
        let shiftDist := i8 (exp - 0x0d) in
        let sig32 := if 0 <? shiftDist then u64 (Z.shiftl sig32 shiftDist) else sig32 in
        softfloat_roundToUI32 sign sig32 roundingMode exact fl
    else softfloat_roundToUI32 sign sig32 roundingMode exact fl.

Definition f16_to_ui8 (a roundingMode : Z) (exact : bool) (fl : Z) : Z * Z :=
  let old_flags := fl in
  let '(sig32, fl) := f16_to_ui32 a roundingMode exact fl in
  if u64 UINT8_MAX <? sig32 then
    let fl := old_flags .| softfloat_flag_invalid in
    (u8 ui8_fromPosOverflow, fl)
  else (u8 sig32, fl).

Definition f16_to_ui16 (a roundingMode : Z) (exact : bool) (fl : Z) : Z * Z :=
  let old_flags := fl in
  let '(sig32, fl) := f16_to_ui32 a roundingMode exact fl in
  if u64 UINT16_MAX <? sig32 then
    let fl := old_flags .| softfloat_flag_invalid in
    (ui16_fromPosOverflow, fl)
  else (sig32, fl).

Definition f16_to_ui32_r_minMag (a : Z) (exact : bool) (fl : Z) : Z * Z :=
  let uA := a in
  let uiA := uA in
  let exp := i8 (expF16UI uiA) in
  let frac := fracF16UI uiA in
  let shiftDist := i8 (exp - 0x0f) in
  if shiftDist <? 0 then
    let fl := if exact && z2b (u64 exp .| frac) then fl .| softfloat_flag_inexact else fl in
    (0, fl)
  else
    let sign := signF16UI uiA in
    if sign || (exp =? 0x1f) then
      let fl := fl .| softfloat_flag_invalid in
      (if (exp =? 0x1f) && z2b frac then ui32_fromNaN else if sign then ui32_fromNegOverflow else
          ui32_fromPosOverflow, fl)
    else
      let alignedSig := u64 (Z.shiftl (frac .| 0x0400) shiftDist) in
      let fl := if exact && z2b (alignedSig .& 0x3ff) then fl .| softfloat_flag_inexact else fl in
      (Z.shiftr alignedSig 10, fl).

Definition f16_to_ui64 (a roundingMode : Z) (exact : bool) (fl : Z) : Z * Z :=
  let uA := a in
  let uiA := uA in
  let sign := signF16UI uiA in
  let exp := i8 (expF16UI uiA) in
  let frac := fracF16UI uiA in
  if exp =? 0x1f then
    let fl := fl .| softfloat_flag_invalid in
    (if z2b frac then ui64_fromNaN else if sign then ui64_fromNegOverflow else ui64_fromPosOverflow, fl)
  else
    let sig32 := frac in
    if z2b exp then
      let sig32 := sig32 .| 0x0400 in
      let shiftDist := i8 (exp - 0x19) in
      if (0 <=? shiftDist) && negb sign then (u64 (Z.shiftl sig32 shiftDist), fl)
      else
        let shiftDist := i8 (exp - 0x0d) in
        let sig32 := if 0 <? shiftDist then u64 (Z.shiftl sig32 shiftDist) else sig32 in
        softfloat_roundToUI32 sign sig32 roundingMode exact fl
    else softfloat_roundToUI32 sign sig32 roundingMode exact fl.

Definition f16_to_ui64_r_minMag (a : Z) (exact : bool) (fl : Z) : Z * Z :=
  let uA := a in
  let uiA := uA in
  let exp := i8 (expF16UI uiA) in
  let frac := fracF16UI uiA in
  let shiftDist := i8 (exp - 0x0f) in
  if shiftDist <? 0 then
    let fl := if exact && z2b (u64 exp .| frac) then fl .| softfloat_flag_inexact else fl in
    (0, fl)
  else
    let sign := signF16UI uiA in
    if sign || (exp =? 0x1f) then
      let fl := fl .| softfloat_flag_invalid in
      (if (exp =? 0x1f) && z2b frac then ui64_fromNaN else if sign then ui64_fromNegOverflow else
          ui64_fromPosOverflow, fl)
    else
      let alignedSig := u64 (Z.shiftl (frac .| 0x0400) shiftDist) in
      let fl := if exact && z2b (alignedSig .& 0x3ff) then fl .| softfloat_flag_inexact else fl in
      (Z.shiftr alignedSig 10, fl).

Definition f32_to_f128 (a fl : Z) : Z * Z * Z :=
  let uA := a in
  let uiA := uA in
  let sign := signF32UI uiA in
  let exp := expF32UI uiA in
  let frac := fracF32UI uiA in
  if exp =? 0xff then
    let '(fl, uiZ_v64, uiZ_v0) :=
      if z2b frac then
        let fl := softfloat_f32UIToCommonNaN uiA fl in
        let '(uiZ_v64, uiZ_v0) := softfloat_commonNaNToF128UI in
        (fl, uiZ_v64, uiZ_v0)
      else
        let uiZ_v64 := packToF128UI64 sign 0x7fff 0 in
        let uiZ_v0 := 0 in
        (fl, uiZ_v64, uiZ_v0)
    in
    let uZ_v64 := uiZ_v64 in
    let uZ_v0 := uiZ_v0 in
    ((uZ_v64, uZ_v0), fl)
  else
    let join1 (exp frac : Z) :=
      let uiZ_v64 := packToF128UI64 sign (exp + 0x3f80) (u64 (Z.shiftl frac 25)) in
      let uiZ_v0 := 0 in
      let uZ_v64 := uiZ_v64 in
      let uZ_v0 := uiZ_v0 in
      ((uZ_v64, uZ_v0), fl)
    in
    if exp =? 0 then
      if frac =? 0 then
        let uiZ_v64 := packToF128UI64 sign 0 0 in
        let uiZ_v0 := 0 in
        let uZ_v64 := uiZ_v64 in
        let uZ_v0 := uiZ_v0 in
        ((uZ_v64, uZ_v0), fl)
      else
        let '(normExpSig_exp, normExpSig_sig) := softfloat_normSubnormalF32Sig frac in
        let exp := normExpSig_exp - 1 in
        let frac := normExpSig_sig in
        join1 exp frac
    else join1 exp frac.

Definition f32_to_f16 (rm a fl : Z) : Z * Z :=
  let uA := a in
  let uiA := uA in
  let sign := signF32UI uiA in
  let exp := expF32UI uiA in
  let frac := fracF32UI uiA in
  if exp =? 0xff then
    let '(fl, uiZ) :=
      if z2b frac then
        let fl := softfloat_f32UIToCommonNaN uiA fl in
        let uiZ := softfloat_commonNaNToF16UI in
        (fl, uiZ)
      else
        let uiZ := packToF16UI sign 0x1f 0 in
        (fl, uiZ)
    in
    let uZ := u16 uiZ in
    (uZ, fl)
  else
    let frac16 := Z.shiftr frac 9 .| b2z (negb ((frac .& 0x1ff) =? 0)) in
    if (u64 exp .| frac16) =? 0 then
      let uiZ := packToF16UI sign 0 0 in
      let uZ := u16 uiZ in
      (uZ, fl)
    else softfloat_roundPackToF16 rm sign (exp - 0x71) (frac16 .| 0x4000) fl.

Definition f32_to_i16 (a roundingMode : Z) (exact : bool) (fl : Z) : Z * Z :=
  let old_flags := fl in
  let '(sig32, fl) := f32_to_i32 a roundingMode exact fl in
  if INT16_MAX <? sig32 then
    let fl := old_flags .| softfloat_flag_invalid in
    (i16_fromPosOverflow, fl)
  else if sig32 <? INT16_MIN then
    let fl := old_flags .| softfloat_flag_invalid in
    (i16_fromNegOverflow, fl)
  else (sig32, fl).

Definition f32_to_i32_r_minMag (a : Z) (exact : bool) (fl : Z) : Z * Z :=
  let uA := a in
  let uiA := uA in
  let exp := expF32UI uiA in
  let sig := fracF32UI uiA in
  let shiftDist := 0x9e - exp in
  if 32 <=? shiftDist then
    let fl := if exact && z2b (u64 exp .| sig) then fl .| softfloat_flag_inexact else fl in
    (0, fl)
  else
    let sign := signF32UI uiA in
    if shiftDist <=? 0 then
      if uiA =? packToF32UI true 0x9e 0 then ((-0x7fffffff) - 1, fl)
      else
        let fl := fl .| softfloat_flag_invalid in
        (if (exp =? 0xff) && z2b sig then i32_fromNaN else if sign then i32_fromNegOverflow else
            i32_fromPosOverflow, fl)
    else
      let sig := u64 (Z.shiftl (sig .| 0x00800000) 8) in
      let absZ := i64 (Z.shiftr sig shiftDist) in
      let fl := if exact && negb (u64 (Z.shiftl (u64 absZ) shiftDist) =? sig) then fl .|
          softfloat_flag_inexact else fl in
      (if sign then - absZ else absZ, fl).

Definition f32_to_i64 (a roundingMode : Z) (exact : bool) (fl : Z) : Z * Z :=
  let uA := a in
  let uiA := uA in
  let sign := signF32UI uiA in
  let exp := expF32UI uiA in
  let sig := fracF32UI uiA in
  let shiftDist := 0xbe - exp in
  if shiftDist <? 0 then
    let fl := fl .| softfloat_flag_invalid in
    (if (exp =? 0xff) && z2b sig then i64_fromNaN else if sign then i64_fromNegOverflow else
        i64_fromPosOverflow, fl)
  else
    let sig := if z2b exp then sig .| 0x00800000 else sig in
    let sig64 := u64 (Z.shiftl sig 40) in
    let extra := 0 in
    let '(sig64, extra) :=
      if z2b shiftDist then
        let '(sig64Extra_v, sig64Extra_extra) := softfloat_shiftRightJam64Extra sig64 0 (u64 shiftDist) in
        let sig64 := sig64Extra_v in
        let extra := sig64Extra_extra in
        (sig64, extra)
      else (sig64, extra)
    in
    softfloat_roundToI64 sign sig64 extra roundingMode exact fl.

Definition f32_to_i64_r_minMag (a : Z) (exact : bool) (fl : Z) : Z * Z :=
  let uA := a in
  let uiA := uA in
  let exp := expF32UI uiA in
  let sig := fracF32UI uiA in
  let shiftDist := 0xbe - exp in
  if 64 <=? shiftDist then
    let fl := if exact && z2b (u64 exp .| sig) then fl .| softfloat_flag_inexact else fl in
    (0, fl)
  else
    let sign := signF32UI uiA in
    if shiftDist <=? 0 then
      if uiA =? packToF32UI true 0xbe 0 then ((-0x7fffffffffffffff) - 1, fl)
      else
        let fl := fl .| softfloat_flag_invalid in
        (if (exp =? 0xff) && z2b sig then i64_fromNaN else if sign then i64_fromNegOverflow else
            i64_fromPosOverflow, fl)
    else
      let sig := sig .| 0x00800000 in
      let sig64 := u64 (Z.shiftl sig 40) in
      let absZ := i64 (Z.shiftr sig64 shiftDist) in
      let shiftDist := 40 - shiftDist in
      let fl :=
        if (exact && (shiftDist <? 0)) && z2b (u32 (Z.shiftl sig (shiftDist .& 31))) then
          fl .| softfloat_flag_inexact
        else fl
      in
      (if sign then - absZ else absZ, fl).

Definition f32_to_ui16 (a roundingMode : Z) (exact : bool) (fl : Z) : Z * Z :=
  let old_flags := fl in
  let '(sig32, fl) := f32_to_ui32 a roundingMode exact fl in
  if u64 UINT16_MAX <? sig32 then
    let fl := old_flags .| softfloat_flag_invalid in
    (ui16_fromPosOverflow, fl)
  else (sig32, fl).

Definition f32_to_ui32_r_minMag (a : Z) (exact : bool) (fl : Z) : Z * Z :=
  let uA := a in
  let uiA := uA in
  let exp := expF32UI uiA in
  let sig := fracF32UI uiA in
  let shiftDist := 0x9e - exp in
  if 32 <=? shiftDist then
    let fl := if exact && z2b (u64 exp .| sig) then fl .| softfloat_flag_inexact else fl in
    (0, fl)
  else
    let sign := signF32UI uiA in
    if sign || (shiftDist <? 0) then
      let fl := fl .| softfloat_flag_invalid in
      (if (exp =? 0xff) && z2b sig then ui32_fromNaN else if sign then ui32_fromNegOverflow else
          ui32_fromPosOverflow, fl)
    else
      let sig := u64 (Z.shiftl (sig .| 0x00800000) 8) in
      let z := Z.shiftr sig shiftDist in
      let fl := if exact && negb (u64 (Z.shiftl z shiftDist) =? sig) then fl .| softfloat_flag_inexact
          else fl in
      (z, fl).

Definition f32_to_ui64 (a roundingMode : Z) (exact : bool) (fl : Z) : Z * Z :=
  let uA := a in
  let uiA := uA in
  let sign := signF32UI uiA in
  let exp := expF32UI uiA in
  let sig := fracF32UI uiA in
  let shiftDist := 0xbe - exp in
  if shiftDist <? 0 then
    let fl := fl .| softfloat_flag_invalid in
    (if (exp =? 0xff) && z2b sig then ui64_fromNaN else if sign then ui64_fromNegOverflow else
        ui64_fromPosOverflow, fl)
  else
    let sig := if z2b exp then sig .| 0x00800000 else sig in
    let sig64 := u64 (Z.shiftl sig 40) in
    let extra := 0 in
    let '(sig64, extra) :=
      if z2b shiftDist then
        let '(sig64Extra_v, sig64Extra_extra) := softfloat_shiftRightJam64Extra sig64 0 (u64 shiftDist) in
        let sig64 := sig64Extra_v in
        let extra := sig64Extra_extra in
        (sig64, extra)
      else (sig64, extra)
    in
    softfloat_roundToUI64 sign sig64 extra roundingMode exact fl.

Definition f32_to_ui64_r_minMag (a : Z) (exact : bool) (fl : Z) : Z * Z :=
  let uA := a in
  let uiA := uA in
  let exp := expF32UI uiA in
  let sig := fracF32UI uiA in
  let shiftDist := 0xbe - exp in
  if 64 <=? shiftDist then
    let fl := if exact && z2b (u64 exp .| sig) then fl .| softfloat_flag_inexact else fl in
    (0, fl)
  else
    let sign := signF32UI uiA in
    if sign || (shiftDist <? 0) then
      let fl := fl .| softfloat_flag_invalid in
      (if (exp =? 0xff) && z2b sig then ui64_fromNaN else if sign then ui64_fromNegOverflow else
          ui64_fromPosOverflow, fl)
    else
      let sig := sig .| 0x00800000 in
      let sig64 := u64 (Z.shiftl sig 40) in
      let z := Z.shiftr sig64 shiftDist in
      let shiftDist := 40 - shiftDist in
      let fl :=
        if (exact && (shiftDist <? 0)) && z2b (u32 (Z.shiftl sig (shiftDist .& 31))) then
          fl .| softfloat_flag_inexact
        else fl
      in
      (z, fl).

Definition f64_to_f128 (a fl : Z) : Z * Z * Z :=
  let uA := a in
  let uiA := uA in
  let sign := signF64UI uiA in
  let exp := expF64UI uiA in
  let frac := fracF64UI uiA in
  if exp =? 0x7ff then
    let '(fl, uiZ_v64, uiZ_v0) :=
      if z2b frac then
        let fl := softfloat_f64UIToCommonNaN uiA fl in
        let '(uiZ_v64, uiZ_v0) := softfloat_commonNaNToF128UI in
        (fl, uiZ_v64, uiZ_v0)
      else
        let uiZ_v64 := packToF128UI64 sign 0x7fff 0 in
        let uiZ_v0 := 0 in
        (fl, uiZ_v64, uiZ_v0)
    in
    let uZ_v64 := uiZ_v64 in
    let uZ_v0 := uiZ_v0 in
    ((uZ_v64, uZ_v0), fl)
  else
    let join1 (exp frac : Z) :=
      let '(frac128_v64, frac128_v0) := softfloat_shortShiftLeft128 0 frac 60 in
      let uiZ_v64 := packToF128UI64 sign (exp + 0x3c00) frac128_v64 in
      let uiZ_v0 := frac128_v0 in
      let uZ_v64 := uiZ_v64 in
      let uZ_v0 := uiZ_v0 in
      ((uZ_v64, uZ_v0), fl)
    in
    if exp =? 0 then
      if frac =? 0 then
        let uiZ_v64 := packToF128UI64 sign 0 0 in
        let uiZ_v0 := 0 in
        let uZ_v64 := uiZ_v64 in
        let uZ_v0 := uiZ_v0 in
        ((uZ_v64, uZ_v0), fl)
      else
        let '(normExpSig_exp, normExpSig_sig) := softfloat_normSubnormalF64Sig frac in
        let exp := normExpSig_exp - 1 in
        let frac := normExpSig_sig in
        join1 exp frac
    else join1 exp frac.

Definition f64_to_f16 (rm a fl : Z) : Z * Z :=
  let uA := a in
  let uiA := uA in
  let sign := signF64UI uiA in
  let exp := expF64UI uiA in
  let frac := fracF64UI uiA in
  if exp =? 0x7ff then
    let '(fl, uiZ) :=
      if z2b frac then
        let fl := softfloat_f64UIToCommonNaN uiA fl in
        let uiZ := softfloat_commonNaNToF16UI in
        (fl, uiZ)
      else
        let uiZ := packToF16UI sign 0x1f 0 in
        (fl, uiZ)
    in
    let uZ := u16 uiZ in
    (uZ, fl)
  else
    let frac16 := softfloat_shortShiftRightJam64 frac 38 in
    if (u64 exp .| frac16) =? 0 then
      let uiZ := packToF16UI sign 0 0 in
      let uZ := u16 uiZ in
      (uZ, fl)
    else softfloat_roundPackToF16 rm sign (exp - 0x3f1) (frac16 .| 0x4000) fl.

Definition f64_to_f32 (rm a fl : Z) : Z * Z :=
  let uA := a in
  let uiA := uA in
  let sign := signF64UI uiA in
  let exp := expF64UI uiA in
  let frac := fracF64UI uiA in
  if exp =? 0x7ff then
    let '(fl, uiZ) :=
      if z2b frac then
        let fl := softfloat_f64UIToCommonNaN uiA fl in
        let uiZ := softfloat_commonNaNToF32UI in
        (fl, uiZ)
      else
        let uiZ := packToF32UI sign 0xff 0 in
        (fl, uiZ)
    in
    let uZ := u32 uiZ in
    (uZ, fl)
  else
    let frac32 := softfloat_shortShiftRightJam64 frac 22 in
    if (u64 exp .| frac32) =? 0 then
      let uiZ := packToF32UI sign 0 0 in
      let uZ := u32 uiZ in
      (uZ, fl)
    else softfloat_roundPackToF32 rm sign (exp - 0x381) (frac32 .| 0x40000000) fl.

Definition f64_to_i32 (a roundingMode : Z) (exact : bool) (fl : Z) : Z * Z :=
  let uA := a in
  let uiA := uA in
  let sign := signF64UI uiA in
  let exp := expF64UI uiA in
  let sig := fracF64UI uiA in
  let sign := if (exp =? 0x7ff) && z2b sig then false else sign in
  let sig := if z2b exp then sig .| 0x0010000000000000 else sig in
  let shiftDist := 0x427 - exp in
  let sig := if 0 <? shiftDist then softfloat_shiftRightJam64 sig (u64 shiftDist) else sig in
  softfloat_roundToI32 sign sig roundingMode exact fl.

Definition f64_to_i32_r_minMag (a : Z) (exact : bool) (fl : Z) : Z * Z :=
  let uA := a in
  let uiA := uA in
  let exp := expF64UI uiA in
  let sig := fracF64UI uiA in
  let shiftDist := 0x433 - exp in
  if 53 <=? shiftDist then
    let fl := if exact && z2b (u64 exp .| sig) then fl .| softfloat_flag_inexact else fl in
    (0, fl)
  else
    let sign := signF64UI uiA in
    if shiftDist <? 22 then
      if (sign && (exp =? 0x41e)) && (sig <? 0x0000000000200000) then
        let fl := if exact && z2b sig then fl .| softfloat_flag_inexact else fl in
        ((-0x7fffffff) - 1, fl)
      else
        let fl := fl .| softfloat_flag_invalid in
        (if (exp =? 0x7ff) && z2b sig then i32_fromNaN else if sign then i32_fromNegOverflow else
            i32_fromPosOverflow, fl)
    else
      let sig := sig .| 0x0010000000000000 in
      let absZ := i64 (Z.shiftr sig shiftDist) in
      let fl := if exact && negb (u64 (Z.shiftl (u64 absZ) shiftDist) =? sig) then fl .|
          softfloat_flag_inexact else fl in
      (if sign then - absZ else absZ, fl).

Definition f64_to_i64 (a roundingMode : Z) (exact : bool) (fl : Z) : Z * Z :=
  let uA := a in
  let uiA := uA in
  let sign := signF64UI uiA in
  let exp := expF64UI uiA in
  let sig := fracF64UI uiA in
  let sig := if z2b exp then sig .| 0x0010000000000000 else sig in
  let shiftDist := 0x433 - exp in
  if shiftDist <=? 0 then
    if shiftDist <? (-11) then
      let fl := fl .| softfloat_flag_invalid in
      (if (exp =? 0x7ff) && z2b (fracF64UI uiA) then i64_fromNaN else if sign then i64_fromNegOverflow
          else i64_fromPosOverflow, fl)
    else
      let sigExtra_v := u64 (Z.shiftl sig (- shiftDist)) in
      let sigExtra_extra := 0 in
      softfloat_roundToI64 sign sigExtra_v sigExtra_extra roundingMode exact fl
  else
    let '(sigExtra_v, sigExtra_extra) := softfloat_shiftRightJam64Extra sig 0 (u64 shiftDist) in
    softfloat_roundToI64 sign sigExtra_v sigExtra_extra roundingMode exact fl.

Definition f64_to_i64_r_minMag (a : Z) (exact : bool) (fl : Z) : Z * Z :=
  let uA := a in
  let uiA := uA in
  let sign := signF64UI uiA in
  let exp := expF64UI uiA in
  let sig := fracF64UI uiA in
  let shiftDist := 0x433 - exp in
  if shiftDist <=? 0 then
    if shiftDist <? (-10) then
      if uiA =? packToF64UI true 0x43e 0 then ((-0x7fffffffffffffff) - 1, fl)
      else
        let fl := fl .| softfloat_flag_invalid in
        (if (exp =? 0x7ff) && z2b sig then i64_fromNaN else if sign then i64_fromNegOverflow else
            i64_fromPosOverflow, fl)
    else
      let sig := sig .| 0x0010000000000000 in
      let absZ := i64 (u64 (Z.shiftl sig (- shiftDist))) in
      (if sign then - absZ else absZ, fl)
  else if 53 <=? shiftDist then
    let fl := if exact && z2b (u64 exp .| sig) then fl .| softfloat_flag_inexact else fl in
    (0, fl)
  else
    let sig := sig .| 0x0010000000000000 in
    let absZ := i64 (Z.shiftr sig shiftDist) in
    let fl := if exact && negb (u64 (Z.shiftl absZ shiftDist) =? sig) then fl .| softfloat_flag_inexact
        else fl in
    (if sign then - absZ else absZ, fl).

Definition f64_to_ui32 (a roundingMode : Z) (exact : bool) (fl : Z) : Z * Z :=
  let uA := a in
  let uiA := uA in
  let sign := signF64UI uiA in
  let exp := expF64UI uiA in
  let sig := fracF64UI uiA in
  let sign := if (exp =? 0x7ff) && z2b sig then false else sign in
  let sig := if z2b exp then sig .| 0x0010000000000000 else sig in
  let shiftDist := 0x427 - exp in
  let sig := if 0 <? shiftDist then softfloat_shiftRightJam64 sig (u64 shiftDist) else sig in
  softfloat_roundToUI32 sign sig roundingMode exact fl.

Definition f64_to_ui32_r_minMag (a : Z) (exact : bool) (fl : Z) : Z * Z :=
  let uA := a in
  let uiA := uA in
  let exp := expF64UI uiA in
  let sig := fracF64UI uiA in
  let shiftDist := 0x433 - exp in
  if 53 <=? shiftDist then
    let fl := if exact && z2b (u64 exp .| sig) then fl .| softfloat_flag_inexact else fl in
    (0, fl)
  else
    let sign := signF64UI uiA in
    if sign || (shiftDist <? 21) then
      let fl := fl .| softfloat_flag_invalid in
      (if (exp =? 0x7ff) && z2b sig then ui32_fromNaN else if sign then ui32_fromNegOverflow else
          ui32_fromPosOverflow, fl)
    else
      let sig := sig .| 0x0010000000000000 in
      let z := Z.shiftr sig shiftDist in
      let fl := if exact && negb (u64 (Z.shiftl z shiftDist) =? sig) then fl .| softfloat_flag_inexact
          else fl in
      (z, fl).

Definition f64_to_ui64 (a roundingMode : Z) (exact : bool) (fl : Z) : Z * Z :=
  let uA := a in
  let uiA := uA in
  let sign := signF64UI uiA in
  let exp := expF64UI uiA in
  let sig := fracF64UI uiA in
  let sig := if z2b exp then sig .| 0x0010000000000000 else sig in
  let shiftDist := 0x433 - exp in
  if shiftDist <=? 0 then
    if shiftDist <? (-11) then
      let fl := fl .| softfloat_flag_invalid in
      (if (exp =? 0x7ff) && z2b (fracF64UI uiA) then ui64_fromNaN else if sign then ui64_fromNegOverflow
          else ui64_fromPosOverflow, fl)
    else
      let sigExtra_v := u64 (Z.shiftl sig (- shiftDist)) in
      let sigExtra_extra := 0 in
      softfloat_roundToUI64 sign sigExtra_v sigExtra_extra roundingMode exact fl
  else
    let '(sigExtra_v, sigExtra_extra) := softfloat_shiftRightJam64Extra sig 0 (u64 shiftDist) in
    softfloat_roundToUI64 sign sigExtra_v sigExtra_extra roundingMode exact fl.

Definition f64_to_ui64_r_minMag (a : Z) (exact : bool) (fl : Z) : Z * Z :=
  let uA := a in
  let uiA := uA in
  let exp := expF64UI uiA in
  let sig := fracF64UI uiA in
  let shiftDist := 0x433 - exp in
  if 53 <=? shiftDist then
    let fl := if exact && z2b (u64 exp .| sig) then fl .| softfloat_flag_inexact else fl in
    (0, fl)
  else
    let sign := signF64UI uiA in
    if sign then
      let fl := fl .| softfloat_flag_invalid in
      (if (exp =? 0x7ff) && z2b sig then ui64_fromNaN else if sign then ui64_fromNegOverflow else
          ui64_fromPosOverflow, fl)
    else if shiftDist <=? 0 then
      if shiftDist <? (-11) then
        let fl := fl .| softfloat_flag_invalid in
        (if (exp =? 0x7ff) && z2b sig then ui64_fromNaN else if sign then ui64_fromNegOverflow else
            ui64_fromPosOverflow, fl)
      else
        let z := u64 (Z.shiftl (sig .| 0x0010000000000000) (- shiftDist)) in
        (z, fl)
    else
      let sig := sig .| 0x0010000000000000 in
      let z := Z.shiftr sig shiftDist in
      let fl := if exact && z2b (u64 (Z.shiftl sig ((- shiftDist) .& 63))) then fl .|
          softfloat_flag_inexact else fl in
      (z, fl).

Definition i32_to_f128 (a : Z) : Z * Z :=
  let uiZ64 := 0 in
  let uiZ64 :=
    if z2b a then
      let sign := a <? 0 in
      let absA := if sign then u64 (- (u64 a)) else u64 a in
      let shiftDist := i8 (softfloat_countLeadingZeros32 (u32 absA) + 17) in
      packToF128UI64 sign (0x402e - shiftDist) (u64 (Z.shiftl absA shiftDist))
    else uiZ64
  in
  let uZ_v64 := uiZ64 in
  let uZ_v0 := 0 in
  (uZ_v64, uZ_v0).

Definition i32_to_f32 (rm a fl : Z) : Z * Z :=
  let sign := a <? 0 in
  if (a .& 0x7fffffff) =? 0 then
    let uZ := u32 (if sign then packToF32UI true 0x9e 0 else 0) in
    (uZ, fl)
  else
    let absA := if sign then u64 (- (u64 a)) else u64 a in
    softfloat_normRoundPackToF32 rm sign 0x9c absA fl.

Definition i32_to_f16 (rm a fl : Z) : Z * Z :=
  let sign := a <? 0 in
  let absA := if sign then u64 (- (u64 a)) else u64 a in
  let shiftDist := i8 (softfloat_countLeadingZeros32 (u32 absA) - 21) in
  if 0 <=? shiftDist then
    let u := u16 (if z2b a then packToF16UI sign (0x18 - shiftDist) (u64 (Z.shiftl absA shiftDist)) else 0) in
    (u, fl)
  else
    let shiftDist := i8 (shiftDist + 4) in
    let sig := if shiftDist <? 0 then Z.shiftr absA (- shiftDist) .| b2z
        (negb (u32 (Z.shiftl absA (shiftDist .& 31)) =? 0)) else u64 (Z.shiftl absA shiftDist) in
    softfloat_roundPackToF16 rm sign (0x1c - shiftDist) sig fl.

Definition i32_to_f64 (a : Z) : Z :=
  let uiZ :=
    if a =? 0 then 0
    else
      let sign := a <? 0 in
      let absA := if sign then u64 (- (u64 a)) else u64 a in
      let shiftDist := i8 (softfloat_countLeadingZeros32 (u32 absA) + 21) in
      packToF64UI sign (0x432 - shiftDist) (u64 (Z.shiftl absA shiftDist))
  in
  uiZ.

Definition i64_to_f128 (a : Z) : Z * Z :=
  let '(uiZ64, uiZ0) :=
    if a =? 0 then
      let uiZ64 := 0 in
      let uiZ0 := 0 in
      (uiZ64, uiZ0)
    else
      let sign := a <? 0 in
      let absA := if sign then u64 (- (u64 a)) else u64 a in
      let shiftDist := i8 (softfloat_countLeadingZeros64 absA + 49) in
      let '(zSig_v64, zSig_v0) :=
        if 64 <=? shiftDist then
          let zSig_v64 := u64 (Z.shiftl absA (shiftDist - 64)) in
          let zSig_v0 := 0 in
          (zSig_v64, zSig_v0)
        else
          let '(zSig_v64, zSig_v0) := softfloat_shortShiftLeft128 0 absA (u8 shiftDist) in
          (zSig_v64, zSig_v0)
      in
      let uiZ64 := packToF128UI64 sign (0x406e - shiftDist) zSig_v64 in
      let uiZ0 := zSig_v0 in
      (uiZ64, uiZ0)
  in
  let uZ_v64 := uiZ64 in
  let uZ_v0 := uiZ0 in
  (uZ_v64, uZ_v0).

Definition i64_to_f16 (rm a fl : Z) : Z * Z :=
  let sign := a <? 0 in
  let absA := if sign then u64 (- (u64 a)) else u64 a in
  let shiftDist := i8 (softfloat_countLeadingZeros64 absA - 53) in
  if 0 <=? shiftDist then
    let u := u16 (if z2b a then packToF16UI sign (0x18 - shiftDist) (u64 (Z.shiftl absA shiftDist)) else 0) in
    (u, fl)
  else
    let shiftDist := i8 (shiftDist + 4) in
    let sig := if shiftDist <? 0 then softfloat_shortShiftRightJam64 absA (u8 (- shiftDist)) else u64
        (Z.shiftl absA shiftDist) in
    softfloat_roundPackToF16 rm sign (0x1c - shiftDist) sig fl.

Definition i64_to_f32 (rm a fl : Z) : Z * Z :=
  let sign := a <? 0 in
  let absA := if sign then u64 (- (u64 a)) else u64 a in
  let shiftDist := i8 (softfloat_countLeadingZeros64 absA - 40) in
  if 0 <=? shiftDist then
    let u := u32 (if z2b a then packToF32UI sign (0x95 - shiftDist) (u64 (Z.shiftl absA shiftDist)) else 0) in
    (u, fl)
  else
    let shiftDist := i8 (shiftDist + 7) in
    let sig := if shiftDist <? 0 then softfloat_shortShiftRightJam64 absA (u8 (- shiftDist)) else u64
        (Z.shiftl absA shiftDist) in
    softfloat_roundPackToF32 rm sign (0x9c - shiftDist) sig fl.

Definition i64_to_f64 (rm a fl : Z) : Z * Z :=
  let sign := a <? 0 in
  if (u64 a .& 0x7fffffffffffffff) =? 0 then
    let uZ := if sign then packToF64UI true 0x43e 0 else 0 in
    (uZ, fl)
  else
    let absA := if sign then u64 (- (u64 a)) else u64 a in
    softfloat_normRoundPackToF64 rm sign 0x43c absA fl.

Definition ui32_to_f128 (a : Z) : Z * Z :=
  let uiZ64 := 0 in
  let uiZ64 :=
    if z2b a then
      let shiftDist := i8 (softfloat_countLeadingZeros32 a + 17) in
      packToF128UI64 false (0x402e - shiftDist) (u64 (Z.shiftl a shiftDist))
    else uiZ64
  in
  let uZ_v64 := uiZ64 in
  let uZ_v0 := 0 in
  (uZ_v64, uZ_v0).

Definition ui32_to_f32 (rm a fl : Z) : Z * Z :=
  if a =? 0 then
    let uZ := 0 in
    (uZ, fl)
  else if z2b (a .& 0x80000000) then softfloat_roundPackToF32 rm false 0x9d (Z.shiftr a 1 .| (a .& 1)) fl
  else softfloat_normRoundPackToF32 rm false 0x9c a fl.

Definition ui32_to_f16 (rm a fl : Z) : Z * Z :=
  let shiftDist := i8 (softfloat_countLeadingZeros32 a - 21) in
  if 0 <=? shiftDist then
    let u := u16 (if z2b a then packToF16UI false (0x18 - shiftDist) (u64 (Z.shiftl a shiftDist)) else 0) in
    (u, fl)
  else
    let shiftDist := i8 (shiftDist + 4) in
    let sig := if shiftDist <? 0 then Z.shiftr a (- shiftDist) .| b2z
        (negb (u32 (Z.shiftl a (shiftDist .& 31)) =? 0)) else u64 (Z.shiftl a shiftDist) in
    softfloat_roundPackToF16 rm false (0x1c - shiftDist) sig fl.

Definition ui32_to_f64 (a : Z) : Z :=
  let uiZ :=
    if a =? 0 then 0
    else
      let shiftDist := i8 (softfloat_countLeadingZeros32 a + 21) in
      packToF64UI false (0x432 - shiftDist) (u64 (Z.shiftl a shiftDist))
  in
  uiZ.

Definition ui64_to_f128 (a : Z) : Z * Z :=
  let '(uiZ64, uiZ0) :=
    if a =? 0 then
      let uiZ64 := 0 in
      let uiZ0 := 0 in
      (uiZ64, uiZ0)
    else
      let shiftDist := i8 (softfloat_countLeadingZeros64 a + 49) in
      let '(zSig_v64, zSig_v0) :=
        if 64 <=? shiftDist then
          let zSig_v64 := u64 (Z.shiftl a (shiftDist - 64)) in
          let zSig_v0 := 0 in
          (zSig_v64, zSig_v0)
        else
          let '(zSig_v64, zSig_v0) := softfloat_shortShiftLeft128 0 a (u8 shiftDist) in
          (zSig_v64, zSig_v0)
      in
      let uiZ64 := packToF128UI64 false (0x406e - shiftDist) zSig_v64 in
      let uiZ0 := zSig_v0 in
      (uiZ64, uiZ0)
  in
  let uZ_v64 := uiZ64 in
  let uZ_v0 := uiZ0 in
  (uZ_v64, uZ_v0).

Definition ui64_to_f16 (rm a fl : Z) : Z * Z :=
  let shiftDist := i8 (softfloat_countLeadingZeros64 a - 53) in
  if 0 <=? shiftDist then
    let u := u16 (if z2b a then packToF16UI false (0x18 - shiftDist) (u64 (Z.shiftl a shiftDist)) else 0) in
    (u, fl)
  else
    let shiftDist := i8 (shiftDist + 4) in
    let sig := if shiftDist <? 0 then softfloat_shortShiftRightJam64 a (u8 (- shiftDist)) else u64
        (Z.shiftl a shiftDist) in
    softfloat_roundPackToF16 rm false (0x1c - shiftDist) sig fl.

Definition ui64_to_f32 (rm a fl : Z) : Z * Z :=
  let shiftDist := i8 (softfloat_countLeadingZeros64 a - 40) in
  if 0 <=? shiftDist then
    let u := u32 (if z2b a then packToF32UI false (0x95 - shiftDist) (u64 (Z.shiftl a shiftDist)) else 0) in
    (u, fl)
  else
    let shiftDist := i8 (shiftDist + 7) in
    let sig := if shiftDist <? 0 then softfloat_shortShiftRightJam64 a (u8 (- shiftDist)) else u64
        (Z.shiftl a shiftDist) in
    softfloat_roundPackToF32 rm false (0x9c - shiftDist) sig fl.

Definition ui64_to_f64 (rm a fl : Z) : Z * Z :=
  if a =? 0 then
    let uZ := 0 in
    (uZ, fl)
  else if z2b (a .& 0x8000000000000000) then
    softfloat_roundPackToF64 rm false 0x43d (softfloat_shortShiftRightJam64 a 1) fl
  else softfloat_normRoundPackToF64 rm false 0x43c a fl.
