(* ===== verification/SoftBF16.v ===== *)
(** * SoftFloat: bfloat16

    Its operations go through single precision, the fused multiply-add and the
    conversions of integers with rounding to odd. *)

From S2P Require Import Prelude SoftPrim SoftRound SoftF32 SoftF64 SoftConv.

Definition f32_to_bf16 (rm a fl : Z) : Z * Z :=
  let uA := a in
  let uiA := uA in
  let sign := signF32UI uiA in
  let exp := expF32UI uiA in
  let frac := fracF32UI uiA in
  if exp =? 0xff then
    let '(fl, uiZ) :=
      if z2b frac then
        let fl := softfloat_f32UIToCommonNaN uiA fl in
        let uiZ := softfloat_commonNaNToBF16UI in
        (fl, uiZ)
      else
        let uiZ := packToBF16UI sign 0xff 0 in
        (fl, uiZ)
    in
    let uZ := u16 uiZ in
    (uZ, fl)
  else if (u64 exp .| frac) =? 0 then
    let uiZ := packToBF16UI sign 0 0 in
    let uZ := u16 uiZ in
    (uZ, fl)
  else
    let '(exp, frac) :=
      if exp =? 0 then
        let '(normExpSig_exp, normExpSig_sig) := softfloat_normSubnormalF32Sig frac in
        let exp := normExpSig_exp in
        let frac := normExpSig_sig in
        (exp, frac)
      else (exp, frac)
    in
    let frac16 := Z.shiftr frac 9 .| b2z (negb ((frac .& 0x1ff) =? 0)) in
    softfloat_roundPackToBF16 rm sign (exp - 1) (frac16 .| 0x4000) fl.

Definition bf16_add (rm a b fl : Z) : Z * Z :=
  let f32A := u32 (Z.shiftl a 16) in
  let f32B := u32 (Z.shiftl b 16) in
  let '(t1, fl) := f32_add rm f32A f32B fl in
  f32_to_bf16 rm t1 fl.

Definition bf16_div (rm a b fl : Z) : Z * Z :=
  let f32A := u32 (Z.shiftl a 16) in
  let f32B := u32 (Z.shiftl b 16) in
  let '(t1, fl) := f32_div rm f32A f32B fl in
  f32_to_bf16 rm t1 fl.

Definition bf16_mul (rm a b fl : Z) : Z * Z :=
  let f32A := u32 (Z.shiftl a 16) in
  let f32B := u32 (Z.shiftl b 16) in
  let '(t1, fl) := f32_mul rm f32A f32B fl in
  f32_to_bf16 rm t1 fl.

Definition bf16_to_f64 (a fl : Z) : Z * Z :=
  let f32A := u32 (Z.shiftl a 16) in
  f32_to_f64 f32A fl.

Definition f64_to_bf16 (rm a fl : Z) : Z * Z :=
  let uA := a in
  let uiA := uA in
  let sign := signF64UI uiA in
  let exp := expF64UI uiA in
  let frac := fracF64UI uiA in
  if exp =? 0x7ff then
    let '(fl, uiZ) :=
      if z2b frac then
        let fl := softfloat_f64UIToCommonNaN uiA fl in
        let uiZ := softfloat_commonNaNToBF16UI in
        (fl, uiZ)
      else
        let uiZ := packToBF16UI sign 0xff 0 in
        (fl, uiZ)
    in
    let uZ := u16 uiZ in
    (uZ, fl)
  else
    let frac16 := softfloat_shortShiftRightJam64 frac 38 in
    if (u64 exp .| frac16) =? 0 then
      let uiZ := packToBF16UI sign 0 0 in
      let uZ := u16 uiZ in
      (uZ, fl)
    else softfloat_roundPackToBF16 rm sign (exp - 0x381) (frac16 .| 0x4000) fl.

Definition bf16_mulAdd (rm a b c fl : Z) : Z * Z :=
  let roundingMode := rm in
  let '(f64A, fl) := bf16_to_f64 a fl in
  let '(f64B, fl) := bf16_to_f64 b fl in
  let '(f64C, fl) := bf16_to_f64 c fl in
  let '(prod, fl) := f64_mul rm f64A f64B fl in
  let rm := softfloat_round_odd in
  let '(sum, fl) := f64_add rm prod f64C fl in
  let rm := roundingMode in
  if ((rm =? softfloat_round_min) && (sum =? 0)) && negb (((prod .^ f64C) .& 0x8000000000000000) =? 0) then
    (0x8000, fl)
  else f64_to_bf16 rm sum fl.

Definition bf16_sqrt (rm a fl : Z) : Z * Z :=
  let f32A := u32 (Z.shiftl a 16) in
  let '(t1, fl) := f32_sqrt rm f32A fl in
  f32_to_bf16 rm t1 fl.

Definition bf16_sub (rm a b fl : Z) : Z * Z :=
  let f32A := u32 (Z.shiftl a 16) in
  let f32B := u32 (Z.shiftl b 16) in
  let '(t1, fl) := f32_sub rm f32A f32B fl in
  f32_to_bf16 rm t1 fl.

Definition bf16_eq (a b fl : Z) : bool * Z :=
  let f32A := u32 (Z.shiftl a 16) in
  let f32B := u32 (Z.shiftl b 16) in
  f32_eq f32A f32B fl.

Definition bf16_le (a b fl : Z) : bool * Z :=
  let f32A := u32 (Z.shiftl a 16) in
  let f32B := u32 (Z.shiftl b 16) in
  f32_le f32A f32B fl.

Definition bf16_lt (a b fl : Z) : bool * Z :=
  let f32A := u32 (Z.shiftl a 16) in
  let f32B := u32 (Z.shiftl b 16) in
  f32_lt f32A f32B fl.

Definition bf16_classify (a : Z) : Z :=
  let uA := a in
  let uiA := uA in
  let infOrNaN := b2z (expBF16UI uiA =? 0xff) in
  let subnormalOrZero := b2z (expBF16UI uiA =? 0) in
  let sign := signBF16UI uiA in
  let fracZero := fracBF16UI uiA =? 0 in
  let isNaN := isNaNBF16UI uiA in
  let isSNaN := softfloat_isSigNaNBF16UI uiA in
  u64 (((((((((Z.shiftl (b2z ((sign && z2b infOrNaN) && fracZero)) 0 .| Z.shiftl
      (b2z ((sign && (infOrNaN =? 0)) && (subnormalOrZero =? 0))) 1) .| Z.shiftl
          (b2z ((sign && z2b subnormalOrZero) && negb fracZero)) 2) .| Z.shiftl
              (b2z ((sign && z2b subnormalOrZero) && fracZero)) 3) .| Z.shiftl
                  (b2z ((negb sign && z2b infOrNaN) && fracZero)) 7) .| Z.shiftl
                      (b2z ((negb sign && (infOrNaN =? 0)) && (subnormalOrZero =? 0))) 6) .| Z.shiftl
                          (b2z ((negb sign && z2b subnormalOrZero) && negb fracZero)) 5) .| Z.shiftl
                              (b2z ((negb sign && z2b subnormalOrZero) && fracZero)) 4) .| Z.shiftl
                                  (b2z (isNaN && isSNaN)) 8) .| Z.shiftl (b2z (isNaN && negb isSNaN)) 9).

Definition bf16_to_f32 (a fl : Z) : Z * Z :=
  let uA := a in
  let uiA := uA in
  let sign := signBF16UI uiA in
  let exp := expBF16UI uiA in
  let frac := fracBF16UI uiA in
  if exp =? 0xff then
    let '(fl, uiZ) :=
      if z2b frac then
        let fl := softfloat_bf16UIToCommonNaN uiA fl in
        let uiZ := softfloat_commonNaNToF32UI in
        (fl, uiZ)
      else
        let uiZ := packToF32UI sign 0xff 0 in
        (fl, uiZ)
    in
    let uZ := u32 uiZ in
    (uZ, fl)
  else
    let uiZ := packToF32UI sign exp (u64 (Z.shiftl frac 16)) in
    let uZ := u32 uiZ in
    (uZ, fl).

Definition bf16_to_i32 (a roundingMode : Z) (exact : bool) (fl : Z) : Z * Z :=
  let '(t1, fl) := bf16_to_f32 a fl in
  f32_to_i32 t1 roundingMode exact fl.

Definition bf16_to_i8 (a roundingMode : Z) (exact : bool) (fl : Z) : Z * Z :=
  let old_flags := fl in
  let '(sig32, fl) := bf16_to_i32 a roundingMode exact fl in
  if INT8_MAX <? sig32 then
    let fl := old_flags .| softfloat_flag_invalid in
    (i8 i8_fromPosOverflow, fl)
  else if sig32 <? INT8_MIN then
    let fl := old_flags .| softfloat_flag_invalid in
    (i8 i8_fromNegOverflow, fl)
  else (i8 sig32, fl).

Definition bf16_to_ui32 (a roundingMode : Z) (exact : bool) (fl : Z) : Z * Z :=
  let '(t1, fl) := bf16_to_f32 a fl in
  f32_to_ui32 t1 roundingMode exact fl.

Definition bf16_to_ui8 (a roundingMode : Z) (exact : bool) (fl : Z) : Z * Z :=
  let old_flags := fl in
  let '(sig32, fl) := bf16_to_ui32 a roundingMode exact fl in
  if u64 UINT8_MAX <? sig32 then
    let fl := old_flags .| softfloat_flag_invalid in
    (u8 ui8_fromPosOverflow, fl)
  else (u8 sig32, fl).

Definition i32_to_bf16 (rm a fl : Z) : Z * Z :=
  let origin_rounding_mode := rm in
  let rm := softfloat_round_odd in
  let '(tmp_val, fl) := i32_to_f32 rm a fl in
  let rm := origin_rounding_mode in
  f32_to_bf16 rm tmp_val fl.

Definition ui32_to_bf16 (rm a fl : Z) : Z * Z :=
  let origin_rounding_mode := rm in
  let rm := softfloat_round_odd in
  let '(tmp_val, fl) := ui32_to_f32 rm a fl in
  let rm := origin_rounding_mode in
  f32_to_bf16 rm tmp_val fl.
