(* ===== verification/SoftMisc.v ===== *)
(** * SoftFloat: minimum and maximum, reciprocal estimates

    [fall_maxmin.c], [fall_reciprocal.c] and [fall_sign.c]. *)

From S2P Require Import Prelude SoftPrim SoftF16 SoftF32 SoftF64 SoftConv SoftBF16.

Definition extract64 (val pos len : Z) : Z :=
  Z.shiftr val pos .& Z.shiftr (u64 (Z.lnot 0)) (64 - len).

Definition make_mask64 (pos len : Z) : Z :=
  u64 (Z.shiftl (Z.shiftr UINT64_MAX (64 - len)) pos).

Definition bf16_sign (a : Z) : bool :=
  signBF16UI a.

Definition f16_sign (a : Z) : bool :=
  signF16UI a.

Definition f32_sign (a : Z) : bool :=
  signF32UI a.

Definition f64_sign (a : Z) : bool :=
  signF64UI a.

Definition rsqrte7_table : list Z :=
  [52; 51; 50; 48; 47; 46; 44; 43; 42; 41; 40; 39; 38; 36; 35; 34;
   33; 32; 31; 30; 30; 29; 28; 27; 26; 25; 24; 23; 23; 22; 21; 20;
   19; 19; 18; 17; 16; 16; 15; 14; 14; 13; 12; 12; 11; 10; 10; 9;
   9; 8; 7; 7; 6; 6; 5; 4; 4; 3; 3; 2; 2; 1; 1; 0;
   127; 125; 123; 121; 119; 118; 116; 114; 113; 111; 109; 108; 106; 105; 103; 102;
   100; 99; 97; 96; 95; 93; 92; 91; 90; 88; 87; 86; 85; 84; 83; 82;
   80; 79; 78; 77; 76; 75; 74; 73; 72; 71; 70; 70; 69; 68; 67; 66;
   65; 64; 63; 63; 62; 61; 60; 59; 59; 58; 57; 56; 56; 55; 54; 53].

Definition recip7_table : list Z :=
  [127; 125; 123; 121; 119; 117; 116; 114; 112; 110; 109; 107; 105; 104; 102; 100;
   99; 97; 96; 94; 93; 91; 90; 88; 87; 85; 84; 83; 81; 80; 79; 77;
   76; 75; 74; 72; 71; 70; 69; 68; 66; 65; 64; 63; 62; 61; 60; 59;
   58; 57; 56; 55; 54; 53; 52; 51; 50; 49; 48; 47; 46; 45; 44; 43;
   42; 41; 40; 40; 39; 38; 37; 36; 35; 35; 34; 33; 32; 31; 31; 30;
   29; 28; 28; 27; 26; 25; 25; 24; 23; 23; 22; 21; 21; 20; 19; 19;
   18; 17; 17; 16; 15; 15; 14; 14; 13; 12; 12; 11; 11; 10; 9; 9;
   8; 8; 7; 7; 6; 5; 5; 4; 4; 3; 3; 2; 2; 1; 1; 0].

(** [while (extract64(sig, s - 1, 1) == 0) exp--, sig <<= 1;], at most [fuel]
    times: a subnormal significand of [s] bits needs fewer than [s] steps. *)
Fixpoint normalize7 (fuel : nat) (s exp sig : Z) : Z * Z :=
  match fuel with
  | O => (exp, sig)
  | S fuel =>
      if extract64 sig (s - 1) 1 =? 0
      then normalize7 fuel s (u64 (exp - 1)) (u64 (Z.shiftl sig 1))
      else (exp, sig)
  end.

Definition rsqrte7 (val e s : Z) (sub : bool) : Z :=
  let exp := extract64 val s e in
  let sig := extract64 val 0 s in
  let sign := extract64 val (s + e) 1 in
  let p := 7 in
  let '(exp, sig) :=
    if sub then
      let '(exp, sig) := normalize7 (Z.to_nat s) s exp sig in
      (exp, u64 (Z.shiftl sig 1) .& make_mask64 0 s)
    else (exp, sig)
  in
  let idx := i32 (u64 (Z.shiftl (exp .& 1) (p - 1)) .| Z.shiftr sig (s - p + 1)) in
  let out_sig := u64 (Z.shiftl (nthZ rsqrte7_table idx) (s - p)) in
  let out_exp := u64 (u64 (3 * make_mask64 0 (e - 1)) + u64 (Z.lnot exp)) / 2 in
  u64 (Z.shiftl sign (s + e)) .| u64 (Z.shiftl out_exp s) .| out_sig.

(** The second result is [*round_abnormal]. *)
Definition recip7 (val e s rm : Z) (sub : bool) : Z * bool :=
  let exp := extract64 val s e in
  let sig := extract64 val 0 s in
  let sign := extract64 val (s + e) 1 in
  let p := 7 in
  let '(exp, sig) :=
    if sub then
      let '(exp, sig) := normalize7 (Z.to_nat s) s exp sig in
      (exp, u64 (Z.shiftl sig 1) .& make_mask64 0 s)
    else (exp, sig)
  in
  if sub && negb (exp =? 0) && negb (exp =? UINT64_MAX) then
    if (rm =? 1) || ((rm =? 2) && (sign =? 0)) || ((rm =? 3) && z2b sign)
    then (u64 ((u64 (Z.shiftl sign (s + e)) .| make_mask64 s e) - 1), true)
    else (u64 (Z.shiftl sign (s + e)) .| make_mask64 s e, true)
  else
    let idx := i32 (Z.shiftr sig (s - p)) in
    let out_sig := u64 (Z.shiftl (nthZ recip7_table idx) (s - p)) in
    let out_exp := u64 (u64 (2 * make_mask64 0 (e - 1)) + u64 (Z.lnot exp)) in
    let '(out_sig, out_exp) :=
      if (out_exp =? 0) || (out_exp =? UINT64_MAX) then
        let out_sig := Z.shiftr out_sig 1 .| make_mask64 (s - 1) 1 in
        if out_exp =? UINT64_MAX then (Z.shiftr out_sig 1, 0) else (out_sig, out_exp)
      else (out_sig, out_exp)
    in
    (u64 (Z.shiftl sign (s + e)) .| u64 (Z.shiftl out_exp s) .| out_sig, false).

Definition bf16_rsqrte7 (input fl : Z) : Z * Z :=
  let ret := bf16_classify input in
  if (ret =? 0x001) || (ret =? 0x002) || (ret =? 0x004) || (ret =? 0x100) then
    (defaultNaNBF16UI, fl .| softfloat_flag_invalid)
  else if ret =? 0x200 then (defaultNaNBF16UI, fl)
  else if ret =? 0x008 then (0xff80, fl .| softfloat_flag_infinite)
  else if ret =? 0x010 then (0x7f80, fl .| softfloat_flag_infinite)
  else if ret =? 0x080 then (0x0, fl)
  else (u16 (rsqrte7 input 8 7 (ret =? 0x020)), fl).

Definition f16_rsqrte7 (input fl : Z) : Z * Z :=
  let ret := f16_classify input in
  if (ret =? 0x001) || (ret =? 0x002) || (ret =? 0x004) || (ret =? 0x100) then
    (defaultNaNF16UI, fl .| softfloat_flag_invalid)
  else if ret =? 0x200 then (defaultNaNF16UI, fl)
  else if ret =? 0x008 then (0xfc00, fl .| softfloat_flag_infinite)
  else if ret =? 0x010 then (0x7c00, fl .| softfloat_flag_infinite)
  else if ret =? 0x080 then (0x0, fl)
  else (u16 (rsqrte7 input 5 10 (ret =? 0x020)), fl).

Definition f32_rsqrte7 (input fl : Z) : Z * Z :=
  let ret := f32_classify input in
  if (ret =? 0x001) || (ret =? 0x002) || (ret =? 0x004) || (ret =? 0x100) then
    (defaultNaNF32UI, fl .| softfloat_flag_invalid)
  else if ret =? 0x200 then (defaultNaNF32UI, fl)
  else if ret =? 0x008 then (0xff800000, fl .| softfloat_flag_infinite)
  else if ret =? 0x010 then (0x7f800000, fl .| softfloat_flag_infinite)
  else if ret =? 0x080 then (0x0, fl)
  else (u32 (rsqrte7 input 8 23 (ret =? 0x020)), fl).

Definition f64_rsqrte7 (input fl : Z) : Z * Z :=
  let ret := f64_classify input in
  if (ret =? 0x001) || (ret =? 0x002) || (ret =? 0x004) || (ret =? 0x100) then
    (defaultNaNF64UI, fl .| softfloat_flag_invalid)
  else if ret =? 0x200 then (defaultNaNF64UI, fl)
  else if ret =? 0x008 then (0xfff0000000000000, fl .| softfloat_flag_infinite)
  else if ret =? 0x010 then (0x7ff0000000000000, fl .| softfloat_flag_infinite)
  else if ret =? 0x080 then (0x0, fl)
  else (u64 (rsqrte7 input 11 52 (ret =? 0x020)), fl).

Definition bf16_recip7 (rm input fl : Z) : Z * Z :=
  let ret := bf16_classify input in
  if ret =? 0x001 then (0x8000, fl)
  else if ret =? 0x080 then (0x0, fl)
  else if ret =? 0x008 then (0xff80, fl .| softfloat_flag_infinite)
  else if ret =? 0x010 then (0x7f80, fl .| softfloat_flag_infinite)
  else if ret =? 0x100 then (defaultNaNBF16UI, fl .| softfloat_flag_invalid)
  else if ret =? 0x200 then (defaultNaNBF16UI, fl)
  else
    let sub := (ret =? 0x004) || (ret =? 0x020) in
    let '(ui, round_abnormal) := recip7 input 8 7 rm sub in
    (u16 ui,
     if round_abnormal then fl .| (softfloat_flag_inexact .| softfloat_flag_overflow) else fl).

Definition f16_recip7 (rm input fl : Z) : Z * Z :=
  let ret := f16_classify input in
  if ret =? 0x001 then (0x8000, fl)
  else if ret =? 0x080 then (0x0, fl)
  else if ret =? 0x008 then (0xfc00, fl .| softfloat_flag_infinite)
  else if ret =? 0x010 then (0x7c00, fl .| softfloat_flag_infinite)
  else if ret =? 0x100 then (defaultNaNF16UI, fl .| softfloat_flag_invalid)
  else if ret =? 0x200 then (defaultNaNF16UI, fl)
  else
    let sub := (ret =? 0x004) || (ret =? 0x020) in
    let '(ui, round_abnormal) := recip7 input 5 10 rm sub in
    (u16 ui,
     if round_abnormal then fl .| (softfloat_flag_inexact .| softfloat_flag_overflow) else fl).

Definition f32_recip7 (rm input fl : Z) : Z * Z :=
  let ret := f32_classify input in
  if ret =? 0x001 then (0x80000000, fl)
  else if ret =? 0x080 then (0x0, fl)
  else if ret =? 0x008 then (0xff800000, fl .| softfloat_flag_infinite)
  else if ret =? 0x010 then (0x7f800000, fl .| softfloat_flag_infinite)
  else if ret =? 0x100 then (defaultNaNF32UI, fl .| softfloat_flag_invalid)
  else if ret =? 0x200 then (defaultNaNF32UI, fl)
  else
    let sub := (ret =? 0x004) || (ret =? 0x020) in
    let '(ui, round_abnormal) := recip7 input 8 23 rm sub in
    (u32 ui,
     if round_abnormal then fl .| (softfloat_flag_inexact .| softfloat_flag_overflow) else fl).

Definition f64_recip7 (rm input fl : Z) : Z * Z :=
  let ret := f64_classify input in
  if ret =? 0x001 then (0x8000000000000000, fl)
  else if ret =? 0x080 then (0x0, fl)
  else if ret =? 0x008 then (0xfff0000000000000, fl .| softfloat_flag_infinite)
  else if ret =? 0x010 then (0x7ff0000000000000, fl .| softfloat_flag_infinite)
  else if ret =? 0x100 then (defaultNaNF64UI, fl .| softfloat_flag_invalid)
  else if ret =? 0x200 then (defaultNaNF64UI, fl)
  else
    let sub := (ret =? 0x004) || (ret =? 0x020) in
    let '(ui, round_abnormal) := recip7 input 11 52 rm sub in
    (u64 ui,
     if round_abnormal then fl .| (softfloat_flag_inexact .| softfloat_flag_overflow) else fl).

Definition f16_max (a b fl : Z) : Z * Z :=
  let '(greater, fl) := f16_lt_quiet b a fl in
  let '(greater, fl) :=
    if greater then (true, fl)
    else let '(t1, fl) := f16_eq b a fl in (t1 && signF16UI b, fl)
  in
  if isNaNF16UI a && isNaNF16UI b then (defaultNaNF16UI, fl)
  else (if greater || isNaNF16UI b then a else b, fl).

Definition f32_max (a b fl : Z) : Z * Z :=
  let '(greater, fl) := f32_lt_quiet b a fl in
  let '(greater, fl) :=
    if greater then (true, fl)
    else let '(t1, fl) := f32_eq b a fl in (t1 && signF32UI b, fl)
  in
  if isNaNF32UI a && isNaNF32UI b then (defaultNaNF32UI, fl)
  else (if greater || isNaNF32UI b then a else b, fl).

Definition f64_max (a b fl : Z) : Z * Z :=
  let '(greater, fl) := f64_lt_quiet b a fl in
  let '(greater, fl) :=
    if greater then (true, fl)
    else let '(t1, fl) := f64_eq b a fl in (t1 && signF64UI b, fl)
  in
  if isNaNF64UI a && isNaNF64UI b then (defaultNaNF64UI, fl)
  else (if greater || isNaNF64UI b then a else b, fl).

Definition f16_min (a b fl : Z) : Z * Z :=
  let '(less, fl) := f16_lt_quiet a b fl in
  let '(less, fl) :=
    if less then (true, fl)
    else let '(t1, fl) := f16_eq a b fl in (t1 && signF16UI a, fl)
  in
  if isNaNF16UI a && isNaNF16UI b then (defaultNaNF16UI, fl)
  else (if less || isNaNF16UI b then a else b, fl).

Definition f32_min (a b fl : Z) : Z * Z :=
  let '(less, fl) := f32_lt_quiet a b fl in
  let '(less, fl) :=
    if less then (true, fl)
    else let '(t1, fl) := f32_eq a b fl in (t1 && signF32UI a, fl)
  in
  if isNaNF32UI a && isNaNF32UI b then (defaultNaNF32UI, fl)
  else (if less || isNaNF32UI b then a else b, fl).

Definition f64_min (a b fl : Z) : Z * Z :=
  let '(less, fl) := f64_lt_quiet a b fl in
  let '(less, fl) :=
    if less then (true, fl)
    else let '(t1, fl) := f64_eq a b fl in (t1 && signF64UI a, fl)
  in
  if isNaNF64UI a && isNaNF64UI b then (defaultNaNF64UI, fl)
  else (if less || isNaNF64UI b then a else b, fl).

Definition bf16_max (rm a b fl : Z) : Z * Z :=
  let f32A := u32 (Z.shiftl a 16) in
  let f32B := u32 (Z.shiftl b 16) in
  let '(t1, fl) := f32_max f32A f32B fl in
  f32_to_bf16 rm t1 fl.

Definition bf16_min (rm a b fl : Z) : Z * Z :=
  let f32A := u32 (Z.shiftl a 16) in
  let f32B := u32 (Z.shiftl b 16) in
  let '(t1, fl) := f32_min f32A f32B fl in
  f32_to_bf16 rm t1 fl.
