(* ===== verification/IntArith.v ===== *)
(** Integer helpers of [riscv/arith.h]: wide multiplication, saturating
    addition and subtraction, bit counting, permutation and rotation.
    Signed C values are [Z]s in the signed range, unsigned ones in
    [[0, 2^w)]; each operation wraps where the C type does. *)

From S2P Require Import Prelude.

(** * Definitions *)

Definition mulhu (a b : Z) : Z :=
  let a0 := u32 a in let a1 := Z.shiftr a 32 in
  let b0 := u32 b in let b1 := Z.shiftr b 32 in
  let t := u64 (u64 (a1 * b0) + Z.shiftr (u64 (a0 * b0)) 32) in
  let y1 := u32 t in
  let y2 := u32 (Z.shiftr t 32) in
  let t := u64 (u64 (a0 * b1) + y1) in
  let t := u64 (u64 (u64 (a1 * b1) + y2) + Z.shiftr t 32) in
  let y2 := u32 t in
  let y3 := u32 (Z.shiftr t 32) in
  Z.lor (Z.shiftl y3 32) y2.

Definition mulh (a b : Z) : Z :=
  let negate := xorb (a <? 0) (b <? 0) in
  let res := mulhu (if a <? 0 then u64 (- u64 a) else u64 a)
                   (if b <? 0 then u64 (- u64 b) else u64 b) in
  i64 (if negate then u64 (unot64 res + b2z (u64 (u64 a * u64 b) =? 0)) else res).

Definition mulhsu (a b : Z) : Z :=
  let negate := a <? 0 in
  let res := mulhu (if a <? 0 then u64 (- u64 a) else u64 a) b in
  i64 (if negate then u64 (unot64 res + b2z (u64 (u64 a * b) =? 0)) else res).

(** The templates [sat_add<T, UT>]: [w] is the width of [T]; the result is the
    [T] returned and the [bool &sat] written. *)
Definition sat_add (w x y : Z) : Z * bool :=
  let ux := wrap w x in
  let uy := wrap w y in
  let res := wrap w (ux + uy) in
  let sh := w - 1 in
  let ux := wrap w (Z.shiftr ux sh + (Z.shiftl 1 sh - 1)) in
  if 0 <=? swrap w (Z.lor (Z.lxor ux uy) (Z.lnot (Z.lxor uy res)))
  then (swrap w ux, true) else (swrap w res, false).

Definition sat_add3 (w x y z : Z) : Z * bool :=
  let '(a, b) := if Z.land (Z.lxor y z) (Z.lxor x z) <? 0 then (z, y) else (y, z) in
  let '(res, sat1) := sat_add w x a in
  let '(res, sat2) := sat_add w res b in
  (res, sat1 || sat2).

Definition sat_sub (w x y : Z) : Z * bool :=
  let ux := wrap w x in
  let uy := wrap w y in
  let res := wrap w (ux - uy) in
  let sh := w - 1 in
  let ux := wrap w (Z.shiftr ux sh + (Z.shiftl 1 sh - 1)) in
  if swrap w (Z.land (Z.lxor ux uy) (Z.lxor ux res)) <? 0
  then (swrap w ux, true) else (swrap w res, false).

Definition sat_addu (w x y : Z) : Z * bool :=
  let res := wrap w (x + y) in
  let sat := res <? x in
  (wrap w (Z.lor res (- b2z (res <? x))), sat).

Definition sat_subu (w x y : Z) : Z * bool :=
  let res := wrap w (x - y) in
  let sat := negb (res <=? x) in
  (wrap w (Z.land res (- b2z (res <=? x))), sat).

(** [None] is a failed [assert]. *)
Definition extract64 (val pos len : Z) : option Z :=
  if (0 <=? pos) && (0 <? len) && (len <=? 64 - pos)
  then Some (Z.land (Z.shiftr val pos) (Z.shiftr (unot64 0) (64 - len))) else None.

Definition make_mask64 (pos len : Z) : option Z :=
  if (0 <=? pos) && (0 <? len) && (pos <? 64) && (len <=? 64)
  then Some (u64 (Z.shiftl (Z.shiftr UINT64_MAX (64 - len)) pos)) else None.

Definition popcount (val : Z) : Z :=
  let val := u64 (Z.land val 0x5555555555555555 + Z.land (Z.shiftr val 1) 0x5555555555555555) in
  let val := u64 (Z.land val 0x3333333333333333 + Z.land (Z.shiftr val 2) 0x3333333333333333) in
  let val := u64 (Z.land val 0x0f0f0f0f0f0f0f0f + Z.land (Z.shiftr val 4) 0x0f0f0f0f0f0f0f0f) in
  let val := u64 (Z.land val 0x00ff00ff00ff00ff + Z.land (Z.shiftr val 8) 0x00ff00ff00ff00ff) in
  let val := u64 (Z.land val 0x0000ffff0000ffff + Z.land (Z.shiftr val 16) 0x0000ffff0000ffff) in
  let val := u64 (Z.land val 0x00000000ffffffff + Z.land (Z.shiftr val 32) 0x00000000ffffffff) in
  i32 val.

(** One line [if ((val << 64-k) == 0) res += k, val >>= k;] of [ctz] *)
Definition ctz_step (k : Z) (rv : Z * Z) : Z * Z :=
  let '(res, val) := rv in
  if u64 (Z.shiftl val (64 - k)) =? 0 then (res + k, Z.shiftr val k) else (res, val).

Definition ctz (val : Z) : Z :=
  if negb (z2b val) then 0
  else fst (ctz_step 1 (ctz_step 2 (ctz_step 4 (ctz_step 8 (ctz_step 16 (ctz_step 32 (0, val))))))).

(** One line [if ((val >> 64-k) == 0) res += k, val <<= k;] of [clz] *)
Definition clz_step (k : Z) (rv : Z * Z) : Z * Z :=
  let '(res, val) := rv in
  if Z.shiftr val (64 - k) =? 0 then (res + k, u64 (Z.shiftl val k)) else (res, val).

Definition clz (val : Z) : Z :=
  if negb (z2b val) then 0
  else fst (clz_step 1 (clz_step 2 (clz_step 4 (clz_step 8 (clz_step 16 (clz_step 32 (0, val))))))).

(** The loop of [cto]; [fuel] bounds the iterations. *)
Fixpoint cto_loop (fuel : nat) (val res : Z) : option Z :=
  match fuel with
  | O => None
  | S fuel => if Z.land val 1 =? 1 then cto_loop fuel (Z.shiftr val 1) (res + 1) else Some res
  end.

Definition cto (val : Z) : option Z := cto_loop 65 val 0.

Definition log2 (val : Z) : Z := if negb (z2b val) then 0 else 63 - clz val.

(** The indices [0, 1, ..., n-1] of a C [for] loop. *)
Definition zseq (n : Z) : list Z := map Z.of_nat (seq 0 (Z.to_nat n)).

(** The loop steps by [sz = 1 << sz_log2]; it runs ceil(len / sz) times. *)
Definition xperm (rs1 rs2 sz_log2 len : Z) : Z :=
  let sz := u64 (Z.shiftl 1 sz_log2) in
  let mask := u64 (Z.shiftl 1 sz - 1) in
  fold_left (fun r k =>
    let i := k * sz in
    let pos := u64 (Z.shiftl (Z.land (Z.shiftr rs2 i) mask) sz_log2) in
    if pos <? len
    then Z.lor r (u64 (Z.shiftl (Z.land (Z.shiftr rs1 pos) mask) i)) else r)
    (zseq ((len + sz - 1) / sz)) 0.

(** [rotate_right<T>] and [rotate_left<T>], [T] unsigned of [w] bits. *)
Definition rotate_right (w x shiftamt : Z) : Z :=
  let mask := w - 1 in
  let rshift := Z.land shiftamt mask in
  let lshift := Z.land (u64 (- rshift)) mask in
  wrap w (Z.lor (Z.shiftl x lshift) (Z.shiftr x rshift)).

Definition rotate_left (w x shiftamt : Z) : Z :=
  let mask := w - 1 in
  let lshift := Z.land shiftamt mask in
  let rshift := Z.land (u64 (- lshift)) mask in
  wrap w (Z.lor (Z.shiftl x lshift) (Z.shiftr x rshift)).

(** * Wide multiplication *)

Definition u64_range (a : Z) : Prop := 0 <= a < 2 ^ 64.
Definition i64_range (a : Z) : Prop := - 2 ^ 63 <= a < 2 ^ 63.

Lemma join_words y3 y2 : 0 <= y3 -> 0 <= y2 < 2 ^ 32 -> Z.lor (Z.shiftl y3 32) y2 = y3 * 2 ^ 32 + y2.
Proof.
  intros. rewrite lor_add; [by rewrite Z.shiftl_mul_pow2 by lia|].
  apply Z.bits_inj'. intros i Hi. autorewrite with zbits.
  destruct (Z.lt_ge_cases i 32); [by rewrite (tb_neg y3) by lia|].
  rewrite (tb_high 32 y2) by lia. apply andb_false_r.
Qed.

Lemma high_word_split a0 a1 b0 b1 :
  0 <= a0 < 2 ^ 32 -> 0 <= b0 < 2 ^ 32 -> 0 <= a1 < 2 ^ 32 -> 0 <= b1 < 2 ^ 32 ->
  let t := a1 * b0 + a0 * b0 / 2 ^ 32 in
  (a1 * 2 ^ 32 + a0) * (b1 * 2 ^ 32 + b0) / 2 ^ 64
  = a1 * b1 + t / 2 ^ 32 + (a0 * b1 + t mod 2 ^ 32) / 2 ^ 32.
Proof.
  intros Ha0 Hb0 Ha1 Hb1 t. subst t.
  replace (2 ^ 64) with (2 ^ 32 * 2 ^ 32) by reflexivity.
  rewrite <- Z.div_div by lia.
  replace ((a1 * 2 ^ 32 + a0) * (b1 * 2 ^ 32 + b0))
    with (a0 * b0 + (a1 * b1 * 2 ^ 32 + a1 * b0 + a0 * b1) * 2 ^ 32) by ring.
  rewrite Z.div_add by lia.
  set (p := a0 * b0 / 2 ^ 32). set (t := a1 * b0 + p).
  pose proof (Z.div_mod t (2 ^ 32) ltac:(lia)) as Ht.
  replace (p + (a1 * b1 * 2 ^ 32 + a1 * b0 + a0 * b1))
    with (a0 * b1 + t mod 2 ^ 32 + (a1 * b1 + t / 2 ^ 32) * 2 ^ 32) by lia.
  rewrite Z.div_add by lia. lia.
Qed.

Lemma div_bounds n m k : 0 < m -> 0 <= n < (k + 1) * m -> 0 <= n / m <= k.
Proof.
  intros Hm Hn. pose proof (Z.div_pos n m). pose proof (Z.div_lt_upper_bound n m (k + 1)). lia.
Qed.

Lemma word32_split a :
  u64_range a ->
  a = Z.shiftr a 32 * 2 ^ 32 + u32 a /\ 0 <= Z.shiftr a 32 < 2 ^ 32 /\ 0 <= u32 a < 2 ^ 32.
Proof.
  unfold u64_range. intros Ha. unfold wrap. rewrite Z.shiftr_div_pow2 by lia.
  pose proof (Z.div_mod a (2 ^ 32)). pose proof (Z.mod_pos_bound a (2 ^ 32)).
  pose proof (div_bounds a (2 ^ 32) (2 ^ 32 - 1)). lia.
Qed.

Lemma mulhu_floor a b :
  u64_range a -> u64_range b -> mulhu a b = a * b / 2 ^ 64.
Proof.
  intros Ha Hb. unfold mulhu.
  pose proof (word32_split a Ha) as (Ea & ? & ?).
  pose proof (word32_split b Hb) as (Eb & ? & ?).
  set (a0 := u32 a) in *. set (a1 := Z.shiftr a 32) in *.
  set (b0 := u32 b) in *. set (b1 := Z.shiftr b 32) in *.
  clearbody a0 a1 b0 b1. subst a b. clear Ha Hb.
  rewrite high_word_split by done.
  rewrite !Z.shiftr_div_pow2 by lia. unfold wrap.
  set (M := 2 ^ 32) in *. replace (2 ^ 64) with (M * M) by reflexivity.
  assert (HM : M = 4294967296) by reflexivity. clearbody M.
  assert (0 <= a0 * b0 <= (M - 1) * (M - 1)) by nia.
  assert (0 <= a1 * b0 <= (M - 1) * (M - 1)) by nia.
  assert (0 <= a0 * b1 <= (M - 1) * (M - 1)) by nia.
  assert (0 <= a1 * b1 <= (M - 1) * (M - 1)) by nia.
  pose proof (div_bounds (a0 * b0) M (M - 2) ltac:(lia) ltac:(nia)).
  rewrite (Z.mod_small (a1 * b0)), (Z.mod_small (a0 * b0)) by lia.
  set (t := a1 * b0 + a0 * b0 / M) in *.
  rewrite (Z.mod_small t (M * M)) by lia.
  pose proof (div_bounds t M (M - 2) ltac:(lia) ltac:(nia)).
  pose proof (Z.mod_pos_bound t M ltac:(lia)).
  rewrite (Z.mod_small (a0 * b1) (M * M)), (Z.mod_small (a0 * b1 + _)) by lia.
  rewrite (Z.mod_small (t / M)) by lia.
  set (s := (a0 * b1 + t mod M) / M).
  pose proof (div_bounds (a0 * b1 + t mod M) M (M - 1) ltac:(lia) ltac:(nia)).
  rewrite (Z.mod_small (a1 * b1)), (Z.mod_small (a1 * b1 + t / M)) by lia.
  rewrite (Z.mod_small (a1 * b1 + t / M + s)) by lia.
  set (r := a1 * b1 + t / M + s) in *.
  pose proof (Z.div_mod r M ltac:(lia)). pose proof (Z.mod_pos_bound r M ltac:(lia)).
  pose proof (div_bounds r M (M - 1) ltac:(lia) ltac:(lia)).
  rewrite (Z.mod_small (r / M)) by lia.
  rewrite join_words by lia.
  lia.
Qed.

(** Negating the high word: [~hi + (lo == 0)] is the high word of [-p]. *)
Lemma high_word_neg p :
  0 <= p < 2 ^ 127 ->
  u64 (unot64 (p / 2 ^ 64) + b2z (p mod 2 ^ 64 =? 0)) = u64 (- p / 2 ^ 64).
Proof.
  intros Hp. unfold unot, wrap. rewrite Zplus_mod_idemp_l. f_equal.
  unfold Z.lnot. pose proof (Z.div_mod p (2 ^ 64) ltac:(lia)).
  pose proof (Z.mod_pos_bound p (2 ^ 64) ltac:(lia)).
  destruct (Z.eqb_spec (p mod 2 ^ 64) 0) as [E|E]; simpl b2z.
  - rewrite Z_div_zero_opp_full by done. lia.
  - rewrite Z_div_nz_opp_full by done. lia.
Qed.

Lemma u64_opp_mul a b : u64 (u64 a * b) = u64 (a * b).
Proof. unfold wrap. apply Zmult_mod_idemp_l. Qed.

(** The wrapped product is zero exactly when the product of magnitudes is. *)
Lemma low_word_sign a b : (u64 (a * b) =? 0) = (Z.abs a * Z.abs b mod 2 ^ 64 =? 0).
Proof.
  rewrite <- Z.abs_mul. unfold wrap. destruct (Z.abs_spec (a * b)) as [[_ ->]|[_ ->]]; [done|].
  destruct (Z.eqb_spec (a * b mod 2 ^ 64) 0) as [E|E].
  - rewrite Z_mod_zero_opp_full by done. done.
  - rewrite Z_mod_nz_opp_full by done. pose proof (Z.mod_pos_bound (a * b) (2 ^ 64)).
    symmetry. apply Z.eqb_neq. lia.
Qed.

Lemma magnitude a : i64_range a -> (if a <? 0 then u64 (- u64 a) else u64 a) = Z.abs a.
Proof.
  unfold i64_range, wrap. intros. destruct (Z.ltb_spec a 0).
  - rewrite Zopp_mod_idemp || rewrite <- Z.sub_0_l, Zminus_mod_idemp_r.
    rewrite Z.mod_small; lia.
  - rewrite Z.mod_small; lia.
Qed.

Lemma high_word_signed (neg : bool) p q :
  0 <= p <= 2 ^ 127 - 2 ^ 63 -> q = (if neg then - p else p) ->
  i64 (if neg then u64 (unot64 (p / 2 ^ 64) + b2z (p mod 2 ^ 64 =? 0)) else p / 2 ^ 64) = q / 2 ^ 64.
Proof.
  intros Hp ->. pose proof (div_bounds p (2 ^ 64) (2 ^ 63 - 1) ltac:(lia) ltac:(lia)).
  destruct neg.
  - rewrite high_word_neg by lia. rewrite swrap_wrap by lia. apply swrap_small; [lia|].
    pose proof (Z.div_le_lower_bound (- p) (2 ^ 64) (- 2 ^ 63)).
    pose proof (Z.div_le_upper_bound (- p) (2 ^ 64) 0). lia.
  - apply swrap_small; lia.
Qed.

(** [mulhu], [mulh] and [mulhsu] return the high 64 bits of the exact
    128-bit product of their operands, each read with its own signedness. *)
Theorem mul_high_words a b :
  (u64_range a -> u64_range b -> mulhu a b = a * b / 2 ^ 64) /\
  (i64_range a -> i64_range b -> mulh a b = a * b / 2 ^ 64) /\
  (i64_range a -> u64_range b -> mulhsu a b = a * b / 2 ^ 64).
Proof.
  split; [|split].
  - apply mulhu_floor.
  - intros Ha Hb. unfold mulh. rewrite !magnitude by done.
    unfold u64_range, i64_range in *. rewrite mulhu_floor by (unfold u64_range; lia).
    replace (u64 (u64 a * u64 b)) with (u64 (a * b))
      by (unfold wrap; by rewrite <- Zmult_mod).
    rewrite low_word_sign. apply high_word_signed; [nia|].
    destruct (Z.ltb_spec a 0), (Z.ltb_spec b 0); simpl; nia.
  - intros Ha Hb. unfold mulhsu. rewrite magnitude by done.
    unfold u64_range, i64_range in *. rewrite mulhu_floor by (unfold u64_range; lia).
    rewrite u64_opp_mul, low_word_sign, (Z.abs_eq b) by lia. apply high_word_signed; [nia|].
    destruct (Z.ltb_spec a 0); nia.
Qed.

Lemma mul_high_words_witness :
  mulhu (2 ^ 64 - 1) (2 ^ 64 - 1) = 2 ^ 64 - 2 /\ mulh (-5) 7 = -1 /\ mulhsu (-5) (2 ^ 64 - 1) = -5.
Proof.
  split; [|split].
  - rewrite (proj1 (mul_high_words _ _)); [reflexivity|split; reflexivity || discriminate..].
  - rewrite (proj1 (proj2 (mul_high_words _ _))); [reflexivity|split; reflexivity || discriminate..].
  - rewrite (proj2 (proj2 (mul_high_words _ _))); [reflexivity|split; reflexivity || discriminate..].
Defined.

(** * Saturating arithmetic *)

Definition smin (w : Z) : Z := - 2 ^ (w - 1).
Definition smax (w : Z) : Z := 2 ^ (w - 1) - 1.
Definition clamp (lo hi z : Z) : Z := Z.max lo (Z.min hi z).
Definition in_range (lo hi z : Z) : bool := (lo <=? z) && (z <=? hi).

(** The specification of the signed routines: the exact result clamped to the
    type, and the flag raised exactly when clamping changed it. *)
Definition saturated (w z : Z) : Z * bool :=
  (clamp (smin w) (smax w) z, negb (in_range (smin w) (smax w) z)).
Definition saturated_u (w z : Z) : Z * bool :=
  (clamp 0 (2 ^ w - 1) z, negb (in_range 0 (2 ^ w - 1) z)).

Definition srange (w z : Z) : Prop := smin w <= z <= smax w.
Definition urange (w z : Z) : Prop := 0 <= z < 2 ^ w.

(** The overflow result the code precomputes: the extreme of the sign of [x]. *)
Lemma overflow_value w x :
  0 < w -> srange w x ->
  wrap w (Z.shiftr (wrap w x) (w - 1) + (Z.shiftl 1 (w - 1) - 1))
  = if x <? 0 then 2 ^ (w - 1) else 2 ^ (w - 1) - 1.
Proof.
  unfold srange, smin, smax. intros Hw Hx. pose proof (pow2_split w Hw).
  rewrite Z.shiftl_1_l, Z.shiftr_div_pow2 by lia. unfold wrap.
  destruct (Z.ltb_spec x 0).
  - rewrite <- (Z.mod_unique_pos x _ (-1) (x + 2 ^ w)) by lia.
    rewrite <- (Z.div_unique_pos (x + 2 ^ w) _ 1 (x + 2 ^ w - 2 ^ (w - 1))) by lia.
    rewrite Z.mod_small; lia.
  - rewrite (Z.mod_small x), Z.div_small by lia. rewrite Z.mod_small; lia.
Qed.

Lemma swrap_overflow w (neg : bool) :
  0 < w -> swrap w (if neg then 2 ^ (w - 1) else 2 ^ (w - 1) - 1) = if neg then smin w else smax w.
Proof.
  intros Hw. pose proof (pow2_split w Hw). unfold smin, smax.
  rewrite swrap_unsigned by (destruct neg; lia).
  destruct neg, (Z.ltb_spec (2 ^ (w - 1)) (2 ^ (w - 1))), (Z.ltb_spec (2 ^ (w - 1) - 1) (2 ^ (w - 1))); lia.
Qed.

(** Sign bits of the operands and of the wrapped sum. *)
Lemma sign_of_overflow_value w x :
  0 < w -> srange w x ->
  Z.testbit (if x <? 0 then 2 ^ (w - 1) else 2 ^ (w - 1) - 1) (w - 1) = (x <? 0).
Proof.
  unfold srange, smin, smax. intros Hw Hx. pose proof (pow2_split w Hw).
  destruct (Z.ltb_spec x 0); rewrite (top_bit w) by lia; lia.
Qed.

Lemma sign_of_wrap w x : 0 < w -> srange w x -> Z.testbit (wrap w x) (w - 1) = (x <? 0).
Proof.
  unfold srange, smin, smax. intros Hw Hx.
  rewrite tb_wrap by lia. replace (w - 1 <? w) with true by lia. simpl.
  apply sign_bit_range; lia.
Qed.

Lemma swrap_shift w z k : 0 < w -> swrap w (z + k * 2 ^ w) = swrap w z.
Proof.
  intros. rewrite <- !(swrap_wrap w (_ + _)), <- (swrap_wrap w z) by lia.
  unfold wrap. by rewrite Z_mod_plus_full.
Qed.

(** The signed value of a wrapped sum of two signed words. *)
Lemma swrap_sum w z :
  0 < w -> 2 * smin w <= z <= 2 * smax w + 1 ->
  swrap w z = if z <? smin w then z + 2 ^ w else if smax w <? z then z - 2 ^ w else z.
Proof.
  unfold smin, smax. intros Hw Hz. pose proof (pow2_split w Hw).
  destruct (Z.ltb_spec z (- 2 ^ (w - 1))).
  - rewrite <- (swrap_shift w z 1) by lia. rewrite swrap_small; lia.
  - destruct (Z.ltb_spec (2 ^ (w - 1) - 1) z).
    + rewrite <- (swrap_shift w z (-1)) by lia. rewrite swrap_small; lia.
    + apply swrap_small; lia.
Qed.

Lemma wrap_add w x y : wrap w (wrap w x + wrap w y) = wrap w (x + y).
Proof. unfold wrap. by rewrite <- Zplus_mod. Qed.

Lemma wrap_sub w x y : wrap w (wrap w x - wrap w y) = wrap w (x - y).
Proof. unfold wrap. by rewrite <- Zminus_mod. Qed.

(** Close a goal that compares clamped results once the cases are known. *)
Ltac close_clamp :=
  repeat match goal with
  | |- context [?a <? ?b] => destruct (Z.ltb_spec a b); simpl; try lia
  | |- context [?a <=? ?b] => destruct (Z.leb_spec a b); simpl; try lia
  end; simpl; f_equal; lia.

Lemma sat_add_clamps w x y :
  0 < w -> srange w x -> srange w y -> sat_add w x y = saturated w (x + y).
Proof.
  intros Hw Hx Hy. unfold sat_add, saturated, in_range, clamp.
  rewrite overflow_value, wrap_add, swrap_wrap by done.
  rewrite <- (negb_involutive (0 <=? _)), <- Z.ltb_antisym.
  rewrite sign_bit by done.
  rewrite Z.lor_spec, Z.lnot_spec, !Z.lxor_spec by lia.
  rewrite sign_of_overflow_value, sign_of_wrap, tb_wrap by (done || lia).
  replace (w - 1 <? w) with true by lia. rewrite swrap_overflow by done. simpl.
  rewrite <- (sign_bit w (x + y)) by done.
  unfold srange in *. rewrite swrap_sum by (unfold smin, smax in *; lia).
  pose proof (pow2_split w Hw). unfold smin, smax in *.
  destruct (Z.ltb_spec x 0), (Z.ltb_spec y 0), (Z.ltb_spec (x + y) (- 2 ^ (w - 1))),
    (Z.ltb_spec (2 ^ (w - 1) - 1) (x + y)); try lia; close_clamp.
Qed.

Lemma sat_sub_clamps w x y :
  0 < w -> srange w x -> srange w y -> sat_sub w x y = saturated w (x - y).
Proof.
  intros Hw Hx Hy. unfold sat_sub, saturated, in_range, clamp.
  rewrite overflow_value, wrap_sub, swrap_wrap by done.
  rewrite sign_bit by done.
  rewrite Z.land_spec, !Z.lxor_spec.
  rewrite sign_of_overflow_value, !sign_of_wrap, tb_wrap by (done || lia).
  replace (w - 1 <? w) with true by lia. rewrite swrap_overflow by done. simpl.
  rewrite <- (sign_bit w (x - y)) by done.
  unfold srange in *. rewrite swrap_sum by (unfold smin, smax in *; lia).
  pose proof (pow2_split w Hw). unfold smin, smax in *.
  destruct (Z.ltb_spec x 0), (Z.ltb_spec y 0), (Z.ltb_spec (x - y) (- 2 ^ (w - 1))),
    (Z.ltb_spec (2 ^ (w - 1) - 1) (x - y)); try lia; close_clamp.
Qed.

Lemma sign_lxor w a b : 0 < w -> srange w a -> srange w b -> (Z.lxor a b <? 0) = xorb (a <? 0) (b <? 0).
Proof.
  unfold srange, smin, smax. intros Hw Ha Hb.
  assert (Hx : - 2 ^ (w - 1) <= Z.lxor a b < 2 ^ (w - 1)).
  { rewrite <- (swrap_small w a), <- (swrap_small w b) by lia.
    replace (Z.lxor _ _) with (swrap w (Z.lxor a b)); [by apply swrap_range|].
    bitwise. }
  rewrite <- (sign_bit_range w), Z.lxor_spec by lia.
  by rewrite !(sign_bit_range w) by lia.
Qed.

Lemma sign_land w a b : 0 < w -> srange w a -> srange w b -> (Z.land a b <? 0) = (a <? 0) && (b <? 0).
Proof.
  unfold srange, smin, smax. intros Hw Ha Hb.
  assert (Hx : - 2 ^ (w - 1) <= Z.land a b < 2 ^ (w - 1)).
  { rewrite <- (swrap_small w a), <- (swrap_small w b) by lia.
    replace (Z.land _ _) with (swrap w (Z.land a b)); [by apply swrap_range|].
    bitwise. }
  rewrite <- (sign_bit_range w), Z.land_spec by lia.
  by rewrite !(sign_bit_range w) by lia.
Qed.

Lemma lxor_srange w a b : 0 < w -> srange w a -> srange w b -> srange w (Z.lxor a b).
Proof.
  unfold srange, smin, smax. intros Hw Ha Hb.
  rewrite <- (swrap_small w a), <- (swrap_small w b) by lia.
  replace (Z.lxor _ _) with (swrap w (Z.lxor a b)); [|bitwise].
  pose proof (swrap_range w (Z.lxor a b)). lia.
Qed.

(** Adding the operand of the opposite sign first keeps the partial sum
    exact whenever the total is representable. *)
Lemma sat_add3_clamps w x y z :
  0 < w -> srange w x -> srange w y -> srange w z ->
  sat_add3 w x y z = saturated w (x + y + z).
Proof.
  intros Hw Hx Hy Hz. unfold sat_add3.
  rewrite sign_land with (w := w), !sign_lxor with (w := w) by (try done; by apply lxor_srange).
  assert (Hcl : forall t, srange w (clamp (smin w) (smax w) t)).
  { unfold srange, clamp, smin, smax. intros. pose proof (pow2_split w Hw). lia. }
  pose proof (pow2_split w Hw). unfold srange in *.
  destruct (Z.ltb_spec x 0), (Z.ltb_spec y 0), (Z.ltb_spec z 0); simpl;
  rewrite (sat_add_clamps w x) by done; unfold saturated at 1;
  rewrite sat_add_clamps by first [done | apply Hcl];
  unfold saturated, in_range, clamp, smin, smax in *;
  f_equal; try lia.
Qed.

Lemma sat_addu_clamps w x y :
  0 < w -> urange w x -> urange w y -> sat_addu w x y = saturated_u w (x + y).
Proof.
  unfold urange. intros Hw Hx Hy. unfold sat_addu, saturated_u, clamp, in_range.
  destruct (Z.ltb_spec (x + y) (2 ^ w)).
  - rewrite (wrap_small w (x + y)) by lia. replace (x + y <? x) with false by lia. simpl.
    rewrite Z.lor_0_r, wrap_small by lia. f_equal; lia.
  - assert (E : wrap w (x + y) = x + y - 2 ^ w)
      by (symmetry; apply (Z.mod_unique_pos _ _ 1); lia).
    rewrite E. replace (x + y - 2 ^ w <? x) with true by lia. simpl.
    change (-(1)) with (-1). rewrite Z.lor_m1_r.
    replace (wrap w _) with (2 ^ w - 1)
      by (apply (Z.mod_unique_pos _ _ (-1)); lia).
    f_equal; lia.
Qed.

Lemma sat_subu_clamps w x y :
  0 < w -> urange w x -> urange w y -> sat_subu w x y = saturated_u w (x - y).
Proof.
  unfold urange. intros Hw Hx Hy. unfold sat_subu, saturated_u, clamp, in_range.
  destruct (Z.leb_spec y x).
  - rewrite (wrap_small w (x - y)) by lia. replace (x - y <=? x) with true by lia. simpl.
    change (-(1)) with (-1). rewrite Z.land_m1_r, wrap_small by lia. f_equal; lia.
  - assert (E : wrap w (x - y) = x - y + 2 ^ w)
      by (symmetry; apply (Z.mod_unique_pos _ _ (-1)); lia).
    rewrite E. replace (x - y + 2 ^ w <=? x) with false by lia. simpl.
    rewrite Z.land_0_r, wrap_small by lia. f_equal; lia.
Qed.

(** every saturating routine returns the exact sum or difference clamped
    to its type, and raises its flag exactly when the exact value does not
    fit; the three-operand form saturates only on the total. *)
Theorem saturating_exact w x y z :
  0 < w ->
  (srange w x -> srange w y -> srange w z ->
     sat_add w x y = saturated w (x + y) /\ sat_sub w x y = saturated w (x - y) /\
     sat_add3 w x y z = saturated w (x + y + z)) /\
  (urange w x -> urange w y ->
     sat_addu w x y = saturated_u w (x + y) /\ sat_subu w x y = saturated_u w (x - y)).
Proof.
  auto 10 using sat_add_clamps, sat_sub_clamps, sat_add3_clamps, sat_addu_clamps, sat_subu_clamps.
Qed.

Lemma saturating_exact_witness :
  sat_add3 8 100 100 (-100) = (100, false) /\ sat_sub 8 (-100) 100 = (-128, true) /\
  sat_addu 8 200 100 = (255, true).
Proof.
  split; [|split].
  - apply (saturating_exact 8 100 100 (-100)); [reflexivity|split; discriminate..].
  - apply (saturating_exact 8 (-100) 100 0); [reflexivity|split; discriminate..].
  - apply (saturating_exact 8 200 100 0); [reflexivity|split; reflexivity || discriminate..].
Defined.

(** * Bit counting *)

(** The number of set bits among the [w] low ones. *)
Definition bits_set (w a : Z) : Z := foldr Z.add 0 (map (fun i => b2z (Z.testbit a i)) (zseq w)).

(** Numbers as little-endian digit lists in base [2^k]. *)
Definition undigits (k : Z) (l : list Z) : Z := foldr (fun d r => d + 2 ^ k * r) 0 l.

Fixpoint pair_sum (l : list Z) : list Z :=
  match l with
  | d0 :: d1 :: r => (d0 + d1) :: pair_sum r
  | _ => []
  end.

(** The mask selecting the even digits of [2 * n] digits. *)
Fixpoint even_mask (k : Z) (n : nat) : Z :=
  match n with
  | O => 0
  | S n => Z.ones k + 2 ^ (2 * k) * even_mask k n
  end.

Lemma land_split n x y X Y :
  0 <= n -> 0 <= x < 2 ^ n -> 0 <= y < 2 ^ n ->
  Z.land (x + 2 ^ n * X) (y + 2 ^ n * Y) = Z.land x y + 2 ^ n * Z.land X Y.
Proof.
  intros Hn Hx Hy. pose proof (land_range n x y Hn Hx) as Hl.
  assert (J : forall u U, 0 <= u < 2 ^ n -> u + 2 ^ n * U = Z.lor (Z.shiftl U n) u).
  { intros u U Hu. rewrite lor_add; [rewrite Z.shiftl_mul_pow2 by lia; lia|].
    apply Z.bits_inj'. intros i Hi. autorewrite with zbits.
    destruct (Z.lt_ge_cases i n); [by rewrite (tb_neg U) by lia|].
    rewrite (tb_high n u) by lia. apply andb_false_r. }
  rewrite !J by done. apply Z.bits_inj'. intros i Hi. autorewrite with zbits.
  destruct (Z.lt_ge_cases i n).
  - rewrite !(tb_neg _ (i - n)) by lia. done.
  - rewrite (tb_high n x), (tb_high n y) by lia. by rewrite !orb_false_r.
Qed.

Lemma pair_ind {A} (P : list A -> Prop) :
  P [] -> (forall a, P [a]) -> (forall a b l, P l -> P (a :: b :: l)) -> forall l, P l.
Proof.
  intros H0 H1 H2. fix IH 1. intros [|a [|b l]]; [done|apply H1|apply H2, IH].
Qed.

Lemma swar_stage k n l :
  0 < k -> length l = (2 * n)%nat -> Forall (fun d => 0 <= d < 2 ^ k) l ->
  Z.land (undigits k l) (even_mask k n) + Z.land (Z.shiftr (undigits k l) k) (even_mask k n)
  = undigits (2 * k) (pair_sum l).
Proof.
  intros Hk. revert n. induction l as [|a|d0 d1 l IH] using pair_ind; intros n Hn HF.
  - destruct n; [|discriminate Hn]; cbn; by rewrite !Z.land_0_r.
  - simpl in Hn. lia.
  - destruct n as [|n]; [discriminate Hn|]. simpl in Hn.
    apply Forall_cons in HF as [H0 HF]. apply Forall_cons in HF as [H1 HF].
    specialize (IH n ltac:(lia) HF). simpl.
    fold (undigits k l) (undigits (2 * k) (pair_sum l)). rewrite <- IH.
    assert (Epow : 2 ^ (2 * k) = 2 ^ k * 2 ^ k) by (rewrite <- Z.pow_add_r by lia; f_equal; lia).
    assert (Hones : 0 <= Z.ones k < 2 ^ k) by (rewrite Z.ones_equiv; lia).
    set (U := undigits k l). set (M := even_mask k n).
    replace (d0 + 2 ^ k * (d1 + 2 ^ k * U)) with ((d0 + 2 ^ k * d1) + 2 ^ (2 * k) * U) by lia.
    rewrite land_split by (lia || nia).
    replace ((d0 + 2 ^ k * d1) + 2 ^ (2 * k) * U) with (d0 + (d1 + 2 ^ k * U) * 2 ^ k) by lia.
    rewrite (Z.shiftr_div_pow2 (d0 + _)), Z.div_add, (Z.div_small d0) by lia.
    replace (Z.ones k + 2 ^ (2 * k) * M) with (Z.ones k + 2 ^ k * (2 ^ k * M)) by lia.
    rewrite Z.add_0_l, land_split by lia.
    replace (Z.land U (2 ^ k * M)) with (2 ^ k * Z.land (Z.shiftr U k) M).
    2: { rewrite <- !(Z.mul_comm _ (2 ^ k)), <- !Z.shiftl_mul_pow2 by lia.
         apply Z.bits_inj'. intros i Hi. autorewrite with zbits.
         destruct (Z.lt_ge_cases i k).
         - repeat rewrite (tb_neg _ (i - k)) by lia. btauto.
         - autorewrite with zbits. replace (i - k + k) with i by lia. btauto. }
    rewrite !Z.land_ones by lia.
    replace (d0 + 2 ^ k * d1) with (d0 + d1 * 2 ^ k) by lia.
    rewrite Z_mod_plus_full, !Z.mod_small by lia. lia.
Qed.

Lemma pair_sum_length n l : length l = (2 * n)%nat -> length (pair_sum l) = n.
Proof.
  revert n. induction l as [|a|a b l IH] using pair_ind; intros n Hn; simpl in *; [lia..|].
  rewrite (IH (n - 1)%nat); lia.
Qed.

Lemma pair_sum_bound n b l :
  Forall (fun d => 0 <= d <= b) l -> length l = (2 * n)%nat -> Forall (fun d => 0 <= d <= 2 * b) (pair_sum l).
Proof.
  revert n. induction l as [|a|d0 d1 l IH] using pair_ind; intros n HF Hn; simpl in *; [done..|].
  apply Forall_cons in HF as [H0 HF]. apply Forall_cons in HF as [H1 HF].
  constructor; [lia|]. apply (IH (n - 1)%nat); [done|lia].
Qed.

Lemma pair_sum_total n l : length l = (2 * n)%nat -> foldr Z.add 0 (pair_sum l) = foldr Z.add 0 l.
Proof.
  revert n. induction l as [|a|d0 d1 l IH] using pair_ind; intros n Hn; simpl in *; [lia..|].
  rewrite (IH (n - 1)%nat); lia.
Qed.

Lemma undigits_range k l :
  0 <= k -> Forall (fun d => 0 <= d < 2 ^ k) l -> 0 <= undigits k l < 2 ^ (k * Z.of_nat (length l)).
Proof.
  intros Hk. induction 1 as [|d l Hd _ IH]; [by rewrite Z.mul_0_r|].
  rewrite length_cons, Nat2Z.inj_succ, Z.mul_succ_r, Z.pow_add_r by lia.
  change (undigits k (d :: l)) with (d + 2 ^ k * undigits k l). nia.
Qed.

(** One line of [popcount]: the invariant is that [val] holds [n] counters of
    [64 / n] bits, each at most that width, which add up to [total]. *)
Definition counters (k : Z) (n : nat) (total val : Z) : Prop :=
  exists l, val = undigits k l /\ length l = n /\ Forall (fun d => 0 <= d <= k) l /\
            foldr Z.add 0 l = total.

Lemma popcount_stage k n total val mask :
  0 < k -> k * Z.of_nat (2 * n) = 64 -> mask = even_mask k n ->
  counters k (2 * n) total val ->
  counters (2 * k) n total (u64 (Z.land val mask + Z.land (Z.shiftr val k) mask)).
Proof.
  intros Hk Hn -> (l & -> & Hl & HF & HS).
  assert (Hlt : forall j, 0 <= j -> j < 2 ^ j) by (intros; apply Z.pow_gt_lin_r; lia).
  rewrite swar_stage; [|done|done|].
  2: { eapply Forall_impl; [apply HF|]. intros d Hd. simpl in Hd. pose proof (Hlt k). lia. }
  exists (pair_sum l). pose proof (pair_sum_bound n k l HF Hl) as HB.
  pose proof (pair_sum_length n l Hl) as HL.
  split; [|split; [done|split; [done|by rewrite (pair_sum_total n)]]].
  apply wrap_small. replace 64 with (2 * k * Z.of_nat (length (pair_sum l))) by lia.
  apply undigits_range; [lia|]. eapply Forall_impl; [apply HB|].
  intros d Hd. simpl in Hd. pose proof (Hlt (2 * k)). lia.
Qed.

Lemma zseq_S n : 0 <= n -> zseq (n + 1) = 0 :: map Z.succ (zseq n).
Proof.
  intros. unfold zseq. replace (Z.to_nat (n + 1)) with (S (Z.to_nat n)) by lia.
  simpl. f_equal. rewrite <- seq_shift, !map_map. apply map_ext. intros. lia.
Qed.

Lemma in_zseq i n : 0 <= n -> In i (zseq n) <-> 0 <= i < n.
Proof.
  intros Hn. unfold zseq. rewrite in_map_iff. setoid_rewrite in_seq. split.
  - intros (k & <- & Hk). lia.
  - intros Hi. exists (Z.to_nat i). lia.
Qed.

Lemma zseq_In n i : In i (zseq n) <-> 0 <= i < n.
Proof.
  unfold zseq. rewrite in_map_iff. split.
  - intros (k & <- & Hk). apply in_seq in Hk. lia.
  - intros Hi. exists (Z.to_nat i). split; [lia|]. apply in_seq. lia.
Qed.

Lemma seq_from n k : seq n k = map (Nat.add n) (seq 0 k).
Proof.
  induction n as [|n IH]; [symmetry; apply map_id|].
  now rewrite <- seq_shift, IH, map_map.
Qed.

Lemma zseq_app n k : 0 <= n -> 0 <= k -> zseq (n + k) = zseq n ++ map (fun i => n + i) (zseq k).
Proof.
  intros Hn Hk. unfold zseq. rewrite Z2Nat.inj_add, seq_app, map_app by lia. f_equal.
  rewrite (seq_from (0 + Z.to_nat n)), !map_map. apply map_ext. intros i. lia.
Qed.

Lemma zseq_length n : length (zseq n) = Z.to_nat n.
Proof. unfold zseq. now rewrite length_map, length_seq. Qed.

Lemma bits_undigits n a :
  0 <= a < 2 ^ Z.of_nat n ->
  a = undigits 1 (map (fun i => b2z (Z.testbit a i)) (zseq (Z.of_nat n))).
Proof.
  revert a. induction n as [|n IH]; intros a Ha; [change (0 <= a < 1) in Ha; change (a = 0); lia|].
  replace (Z.of_nat (S n)) with (Z.of_nat n + 1) in * by lia.
  rewrite Z.pow_add_r in Ha by lia. rewrite zseq_S by lia. simpl.
  fold (undigits 1 (map (fun i => b2z (Z.testbit a i)) (map Z.succ (zseq (Z.of_nat n))))).
  rewrite map_map. pose proof (Z.div_mod a 2 ltac:(lia)).
  rewrite (map_ext_in _ (fun i => b2z (Z.testbit (a / 2) i))).
  2: { intros i Hi%in_zseq; [|lia]. f_equal. change 2 with (2 ^ 1).
       by rewrite <- Z.shiftr_div_pow2, Z.shiftr_spec by lia. }
  rewrite <- IH.
  - pose proof (Zmod_odd a). unfold b2z. destruct (Z.odd a); lia.
  - split; [apply Z.div_pos; lia|apply Z.div_lt_upper_bound; lia].
Qed.

Lemma popcount_bits a : u64_range a -> popcount a = bits_set 64 a.
Proof.
  intros Ha. unfold popcount.
  assert (C : counters 1 64 (bits_set 64 a) a).
  { exists (map (fun i => b2z (Z.testbit a i)) (zseq 64)). split_and!; [|done| |done].
    - by apply (bits_undigits 64).
    - apply List.Forall_forall. intros d (i & <- & _)%in_map_iff. by destruct (Z.testbit a i). }
  apply (popcount_stage 1 32 _ _ 0x5555555555555555) in C; [|done..].
  apply (popcount_stage 2 16 _ _ 0x3333333333333333) in C; [|done..].
  apply (popcount_stage 4 8 _ _ 0x0f0f0f0f0f0f0f0f) in C; [|done..].
  apply (popcount_stage 8 4 _ _ 0x00ff00ff00ff00ff) in C; [|done..].
  apply (popcount_stage 16 2 _ _ 0x0000ffff0000ffff) in C; [|done..].
  apply (popcount_stage 32 1 _ _ 0x00000000ffffffff) in C; [|done..].
  destruct C as (l & -> & Hl & HF & HS). destruct l as [|d [|]]; try done.
  apply Forall_cons in HF as [Hd _]. cbn in HS |- *. rewrite <- HS.
  rewrite !Z.add_0_r. apply swrap_small; lia.
Qed.

(** The state of [ctz] before the test of width [k]: [res] trailing zeros are
    accounted for and the next set bit is within the [2 * k] low ones. *)
Definition ctz_inv (orig k : Z) (rv : Z * Z) : Prop :=
  orig = snd rv * 2 ^ fst rv /\ snd rv mod 2 ^ k <> 0 /\ 0 <= snd rv < 2 ^ 64 /\ 0 <= fst rv <= 64 - k.

Lemma ctz_step_inv orig k rv :
  0 < k <= 32 -> ctz_inv orig (2 * k) rv -> ctz_inv orig k (ctz_step k rv).
Proof.
  destruct rv as [res val]. unfold ctz_inv, ctz_step. simpl. intros Hk (E & Hm & Hv & Hr).
  assert (E2 : 2 ^ (2 * k) = 2 ^ k * 2 ^ k) by (rewrite <- Z.pow_add_r by lia; f_equal; lia).
  assert (Hz : (u64 (Z.shiftl val (64 - k)) =? 0) = (val mod 2 ^ k =? 0)).
  { rewrite Z.shiftl_mul_pow2 by lia. unfold wrap.
    replace (2 ^ 64) with (2 ^ k * 2 ^ (64 - k)) by (rewrite <- Z.pow_add_r by lia; f_equal; lia).
    rewrite Z.mul_mod_distr_r by lia.
    destruct (Z.eqb_spec (val mod 2 ^ k) 0) as [->|]; [done|].
    apply Z.eqb_neq. lia. }
  rewrite Hz. destruct (Z.eqb_spec (val mod 2 ^ k) 0) as [H0|H0]; simpl.
  - rewrite Z.shiftr_div_pow2 by lia.
    assert (Ev : val = val / 2 ^ k * 2 ^ k) by (pose proof (Z.div_mod val (2 ^ k)); lia).
    split_and!; [|intros Hz0; apply Hm| | |lia..].
    + rewrite E, Z.pow_add_r by lia. rewrite Ev at 1. ring.
    + rewrite Ev, E2, Z.mul_mod_distr_r by lia. by rewrite Hz0.
    + apply Z.div_pos; lia.
    + apply Z.div_lt_upper_bound; [lia|]. nia.
  - split_and!; try done; lia.
Qed.

Lemma ctz_spec a :
  0 < a < 2 ^ 64 -> exists v, a = v * 2 ^ ctz a /\ Z.odd v = true /\ 0 <= ctz a < 64.
Proof.
  intros Ha. unfold ctz, z2b. replace (a =? 0) with false by lia. simpl negb. cbv iota.
  assert (I : ctz_inv a 64 (0, a)).
  { split_and!; simpl; try lia. rewrite Z.mod_small; lia. }
  apply (ctz_step_inv a 32) in I; [|lia]. apply (ctz_step_inv a 16) in I; [|lia].
  apply (ctz_step_inv a 8) in I; [|lia]. apply (ctz_step_inv a 4) in I; [|lia].
  apply (ctz_step_inv a 2) in I; [|lia]. apply (ctz_step_inv a 1) in I; [|lia].
  destruct I as (E & Hm & _ & Hr). eexists. split; [exact E|]. split; [|lia].
  rewrite Zmod_odd in Hm. by destruct (Z.odd _).
Qed.

(** The state of [clz] before the test of width [k]. *)
Definition clz_inv (orig k : Z) (rv : Z * Z) : Prop :=
  snd rv = orig * 2 ^ fst rv /\ 2 ^ (64 - k) <= snd rv < 2 ^ 64 /\ 0 <= fst rv <= 64 - k.

Lemma clz_step_inv orig k rv :
  0 < k <= 32 -> clz_inv orig (2 * k) rv -> clz_inv orig k (clz_step k rv).
Proof.
  destruct rv as [res val]. unfold clz_inv, clz_step. simpl. intros Hk (E & Hv & Hr).
  assert (E2 : 2 ^ (64 - k) = 2 ^ (64 - 2 * k) * 2 ^ k) by (rewrite <- Z.pow_add_r by lia; f_equal; lia).
  assert (E3 : 2 ^ 64 = 2 ^ (64 - k) * 2 ^ k) by (rewrite <- Z.pow_add_r by lia; f_equal; lia).
  rewrite Z.shiftr_div_pow2 by lia.
  destruct (Z.eqb_spec (val / 2 ^ (64 - k)) 0) as [H0|H0]; simpl.
  - apply Z.div_small_iff in H0; [|lia].
    rewrite Z.shiftl_mul_pow2, wrap_small by (lia || nia).
    split_and!; [|nia..|lia|lia]. rewrite E, Z.pow_add_r by lia. ring.
  - split_and!; try done; try lia.
    destruct (Z.le_gt_cases (2 ^ (64 - k)) val); [done|]. by rewrite Z.div_small in H0 by lia.
Qed.

Lemma clz_spec a : 0 < a < 2 ^ 64 -> clz a = 63 - Z.log2 a.
Proof.
  intros Ha. unfold clz, z2b. replace (a =? 0) with false by lia. simpl negb. cbv iota.
  assert (I : clz_inv a 64 (0, a)) by (split_and!; simpl; lia).
  apply (clz_step_inv a 32) in I; [|lia]. apply (clz_step_inv a 16) in I; [|lia].
  apply (clz_step_inv a 8) in I; [|lia]. apply (clz_step_inv a 4) in I; [|lia].
  apply (clz_step_inv a 2) in I; [|lia]. apply (clz_step_inv a 1) in I; [|lia].
  set (rv := clz_step 1 _) in *. destruct I as (E & Hv & Hr). clearbody rv.
  pose proof (Z.log2_mul_pow2 a (fst rv) ltac:(lia) ltac:(lia)) as HL.
  rewrite <- E in HL. rewrite (Z.log2_unique (snd rv) 63) in HL by lia. lia.
Qed.

Lemma cto_loop_spec fuel v r :
  (0 <= v < 2 ^ (Z.of_nat fuel - 1)) -> 0 <= r ->
  exists n, cto_loop fuel v r = Some (r + n) /\ (0 <= n < Z.of_nat fuel) /\
    Z.testbit v n = false /\ forall i, 0 <= i < n -> Z.testbit v i = true.
Proof.
  revert v r. induction fuel as [|fuel IH]; intros v r Hv Hr; [cbn in Hv; lia|].
  assert (E1 : Z.land v 1 = b2z (Z.testbit v 0)).
  { change 1 with (Z.ones 1) at 1. rewrite Z.land_ones by lia.
    symmetry. apply Z.bit0_mod. }
  simpl. rewrite E1. destruct (Z.testbit v 0) eqn:E0; simpl.
  - assert (0 < Z.of_nat fuel).
    { destruct fuel; [|lia]. replace v with 0 in E0 by (cbn in Hv; lia). done. }
    destruct (IH (Z.shiftr v 1) (r + 1)) as (n & En & Hn & Hf & Ht); [|lia|].
    { rewrite Z.shiftr_div_pow2 by lia. split; [apply Z.div_pos; lia|].
      apply Z.div_lt_upper_bound; [lia|]. rewrite <- Z.pow_add_r by lia.
      replace (1 + _) with (Z.of_nat (S fuel) - 1) by lia. lia. }
    exists (n + 1). rewrite En. split_and!; [f_equal; lia|lia|lia| |].
    + rewrite Z.shiftr_spec in Hf by lia. done.
    + intros i Hi. destruct (Z.eq_dec i 0) as [->|]; [done|].
      specialize (Ht (i - 1) ltac:(lia)). rewrite Z.shiftr_spec in Ht by lia.
      by replace (i - 1 + 1) with i in Ht by lia.
  - exists 0. rewrite Z.add_0_r. split_and!; [done|lia|lia|done|lia].
Qed.

(** for every 64-bit word, [popcount] is the number of its set bits,
    [cto] terminates with the index of its first clear bit, and for a
    non-zero word [ctz] is the exponent of two it is divisible by, [clz] and
    [log2] locate its leading bit; the three return 0 on zero. *)
Theorem bit_counts a :
  u64_range a ->
  popcount a = bits_set 64 a /\
  (exists n, cto a = Some n /\ (0 <= n <= 64) /\ Z.testbit a n = false /\
     (forall i, 0 <= i < n -> Z.testbit a i = true)) /\
  (a <> 0 ->
     clz a = 63 - Z.log2 a /\ log2 a = Z.log2 a /\
     (exists v, a = v * 2 ^ ctz a /\ Z.odd v = true /\ 0 <= ctz a < 64)) /\
  (a = 0 -> clz a = 0 /\ log2 a = 0 /\ ctz a = 0).
Proof.
  unfold u64_range. intros Ha. split_and!.
  - by apply popcount_bits.
  - destruct (cto_loop_spec 65 a 0) as (n & E & Hn & Hf & Ht); [exact Ha|lia|].
    exists n. by split_and!; [|lia|lia|..].
  - intros Hnz. pose proof (clz_spec a ltac:(lia)) as E. split_and!; [done| |apply ctz_spec; lia].
    unfold log2, z2b. rewrite E. replace (a =? 0) with false by lia. simpl. lia.
  - by intros ->.
Qed.

Lemma bit_counts_witness :
  popcount 0xf0f0 = 8 /\ clz 0xf0f0 = 48 /\ exists n, cto 0xf0f0 = Some n /\ 0 <= n <= 64.
Proof.
  destruct (bit_counts 0xf0f0) as (E & (n & En & Hn & _) & Hz & _); [split; reflexivity || discriminate|].
  split; [|split].
  - rewrite E. reflexivity.
  - rewrite (proj1 (Hz ltac:(discriminate))). reflexivity.
  - exists n. split; assumption.
Defined.

(** * Rotations *)

Lemma land_mask w s : w = 32 \/ w = 64 -> Z.land s (w - 1) = s mod w.
Proof. intros [-> | ->]; [apply (Z.land_ones s 5)|apply (Z.land_ones s 6)]; lia. Qed.

Lemma neg_mask w r : w = 32 \/ w = 64 -> Z.land (u64 (- r)) (w - 1) = (- r) mod w.
Proof.
  intros Hw. rewrite land_mask by done. unfold wrap. apply Z.mod_mod_divide.
  destruct Hw as [-> | ->]; [by exists (2 ^ 59)|by exists (2 ^ 58)].
Qed.

Lemma neg_mod w s : 0 < w -> (- (s mod w)) mod w = if s mod w =? 0 then 0 else w - s mod w.
Proof.
  intros Hw. pose proof (Z.mod_pos_bound s w Hw).
  destruct (Z.eqb_spec (s mod w) 0) as [->|]; [done|].
  symmetry. apply (Z.mod_unique_pos _ _ (-1)); lia.
Qed.

(** Bit [i] of a rotation is bit [i + s] (resp. [i - s]) of the word, cyclically. *)
Lemma tb_rotate_right w x s i :
  w = 32 \/ w = 64 -> 0 <= x < 2 ^ w -> 0 <= i < w ->
  Z.testbit (rotate_right w x s) i = Z.testbit x ((i + s) mod w).
Proof.
  intros Hw Hx Hi. unfold rotate_right. rewrite neg_mask, land_mask, neg_mod by (done || lia).
  rewrite <- Zplus_mod_idemp_r.
  pose proof (Z.mod_pos_bound s w ltac:(lia)). set (r := s mod w) in *.
  rewrite tb_wrap, Z.lor_spec, tb_shiftl, Z.shiftr_spec by lia.
  replace (i <? w) with true by lia. simpl.
  destruct (Z.eqb_spec r 0) as [->|].
  - rewrite Z.sub_0_r, Z.add_0_r, Z.mod_small by lia. btauto.
  - destruct (Z.lt_ge_cases (i + r) w).
    + rewrite (Z.mod_small (i + r)), tb_neg by lia. done.
    + rewrite (tb_high w x (i + r)), orb_false_r by lia. f_equal.
      apply (Z.mod_unique_pos _ _ 1); lia.
Qed.

Lemma tb_rotate_left w x s i :
  w = 32 \/ w = 64 -> 0 <= x < 2 ^ w -> 0 <= i < w ->
  Z.testbit (rotate_left w x s) i = Z.testbit x ((i - s) mod w).
Proof.
  intros Hw Hx Hi.
  assert (E : rotate_left w x s = rotate_right w x (- s)).
  { unfold rotate_left, rotate_right. rewrite !neg_mask, !land_mask by done.
    assert (N : forall t, (- (t mod w)) mod w = (- t) mod w)
      by (intros; by rewrite <- !Z.sub_0_l, Zminus_mod_idemp_r).
    by rewrite !N, Z.opp_involutive. }
  rewrite E, tb_rotate_right by done. f_equal.
Qed.

Lemma rotate_range w x s : 0 < w -> 0 <= rotate_right w x s < 2 ^ w /\ 0 <= rotate_left w x s < 2 ^ w.
Proof. intros. split; apply wrap_range; lia. Qed.

Lemma rotate_left_right w x s :
  w = 32 \/ w = 64 -> 0 <= x < 2 ^ w -> rotate_left w (rotate_right w x s) s = x.
Proof.
  intros Hw Hx. pose proof (rotate_range w x s ltac:(lia)) as [Hr _].
  pose proof (rotate_range w (rotate_right w x s) s ltac:(lia)) as [_ Hl].
  apply (word_eq w); [lia|done|done|]. intros i Hi.
  pose proof (Z.mod_pos_bound (i - s) w ltac:(lia)).
  rewrite tb_rotate_left, tb_rotate_right by done. f_equal.
  rewrite Zplus_mod_idemp_l. replace (i - s + s) with i by lia. apply Z.mod_small. lia.
Qed.

(** on 32- and 64-bit words [rotate_right] and [rotate_left] move bit
    positions cyclically by any amount, including 0 and amounts beyond the
    width, and undo each other. *)
Theorem rotations w x s :
  w = 32 \/ w = 64 -> 0 <= x < 2 ^ w ->
  (forall i, 0 <= i < w ->
     Z.testbit (rotate_right w x s) i = Z.testbit x ((i + s) mod w) /\
     Z.testbit (rotate_left w x s) i = Z.testbit x ((i - s) mod w)) /\
  rotate_left w (rotate_right w x s) s = x.
Proof.
  intros Hw Hx. split.
  - intros i Hi. split; [by apply tb_rotate_right|by apply tb_rotate_left].
  - by apply rotate_left_right.
Qed.

Lemma rotations_witness :
  rotate_right 32 0x80000001 33 = 0xc0000000 /\
  rotate_left 32 (rotate_right 32 0x80000001 33) 33 = 0x80000001.
Proof.
  split; [reflexivity|].
  apply (rotations 32 0x80000001 33); [left; reflexivity|split; reflexivity || discriminate].
Defined.
