(* ===== verification/Decode.v ===== *)
(** Instruction words: the fields and immediates of [insn_t], the register
    file [regfile_t] and the field macros of [riscv/decode.h].
    Fields of type [uint64_t] are [Z]s in [[0, 2^64)], the [int64_t]
    immediates are signed. *)

From S2P Require Import Prelude.

(** * Constants *)

Definition NXPR : Z := 32.
Definition X_RA : Z := 1.
Definition X_SP : Z := 2.
Definition X_T0 : Z := 5.
Definition X_S0 : Z := 8.
Definition X_A0 : Z := 10.
Definition X_A1 : Z := 11.
Definition X_Sn : Z := 16.
Definition PC_ALIGN : Z := 2.
Definition MAX_INSN_LENGTH : Z := 8.

Definition insn_length (x : Z) : Z :=
  if Z.land x 0x03 <? 0x03 then 2 else
  if Z.land x 0x1f <? 0x1f then 4 else
  if Z.land x 0x3f <? 0x3f then 6 else 8.

Definition Sn (n : Z) : Z := if n <? 2 then X_S0 + n else X_Sn + n.

(** * Fields *)

(** The word [b] of an [insn_t]. *)
Abbreviation insn_t := Z.

(** Left shift of a [uint64_t]. *)
Definition shl (a n : Z) : Z := u64 (Z.shiftl a n).

Module Insn.

Definition bits (b : insn_t) : Z := b.
Definition length (b : insn_t) : Z := insn_length b.

Definition x (b : insn_t) (lo len : Z) : Z :=
  Z.land (Z.shiftr b lo) (u64 (Z.shiftl 1 len) - 1).
Definition xs (b : insn_t) (lo len : Z) : Z :=
  u64 (Z.shiftr (i64 (Z.shiftl (i64 b) (64 - lo - len))) (64 - len)).
Definition imm_sign (b : insn_t) : Z := xs b 31 1.

Section fields.
  Context (b : insn_t).

Definition opcode : Z := x b 0 7.
Definition funct7 : Z := x b 25 7.
Definition funct3 : Z := x b 12 3.
Definition funct2 : Z := x b 25 2.
Definition i_imm : Z := i64 (xs b 20 12).
Definition shamt : Z := x b 20 6.
Definition s_imm : Z := i64 (x b 7 5 + shl (xs b 25 7) 5).
Definition sb_imm : Z := i64 (shl (x b 8 4) 1 + shl (x b 25 6) 5 + shl (x b 7 1) 11 + shl (imm_sign b) 12).
Definition u_imm : Z := i64 (shl (xs b 12 20) 12).
Definition uj_imm : Z := i64 (shl (x b 21 10) 1 + shl (x b 20 1) 11 + shl (x b 12 8) 12 + shl (imm_sign b) 20).
Definition rd : Z := x b 7 5.
Definition rs1 : Z := x b 15 5.
Definition rs2 : Z := x b 20 5.
Definition rs3 : Z := x b 27 5.
Definition rm : Z := x b 12 3.
Definition csr : Z := x b 20 12.
Definition iorw : Z := x b 20 8.
Definition bs : Z := x b 30 2.
Definition rcon : Z := x b 20 4.

Definition rvc_opcode : Z := x b 0 2.
Definition rvc_imm : Z := i64 (x b 2 5 + shl (xs b 12 1) 5).
Definition rvc_zimm : Z := i64 (x b 2 5 + shl (x b 12 1) 5).
Definition rvc_addi4spn_imm : Z := i64 (shl (x b 6 1) 2 + shl (x b 5 1) 3 + shl (x b 11 2) 4 + shl (x b 7 4) 6).
Definition rvc_addi16sp_imm : Z :=
  i64 (shl (x b 6 1) 4 + shl (x b 2 1) 5 + shl (x b 5 1) 6 + shl (x b 3 2) 7 + shl (xs b 12 1) 9).
Definition rvc_lwsp_imm : Z := i64 (shl (x b 4 3) 2 + shl (x b 12 1) 5 + shl (x b 2 2) 6).
Definition rvc_ldsp_imm : Z := i64 (shl (x b 5 2) 3 + shl (x b 12 1) 5 + shl (x b 2 3) 6).
Definition rvc_swsp_imm : Z := i64 (shl (x b 9 4) 2 + shl (x b 7 2) 6).
Definition rvc_sdsp_imm : Z := i64 (shl (x b 10 3) 3 + shl (x b 7 3) 6).
Definition rvc_lw_imm : Z := i64 (shl (x b 6 1) 2 + shl (x b 10 3) 3 + shl (x b 5 1) 6).
Definition rvc_ld_imm : Z := i64 (shl (x b 10 3) 3 + shl (x b 5 2) 6).
Definition rvc_j_imm : Z :=
  i64 (shl (x b 3 3) 1 + shl (x b 11 1) 4 + shl (x b 2 1) 5 + shl (x b 7 1) 6 + shl (x b 6 1) 7 +
       shl (x b 9 2) 8 + shl (x b 8 1) 10 + shl (xs b 12 1) 11).
Definition rvc_b_imm : Z :=
  i64 (shl (x b 3 2) 1 + shl (x b 10 2) 3 + shl (x b 2 1) 5 + shl (x b 5 2) 6 + shl (xs b 12 1) 8).
Definition rvc_simm3 : Z := x b 10 3.
Definition rvc_rd : Z := rd.
Definition rvc_rs1 : Z := rd.
Definition rvc_rs2 : Z := x b 2 5.
Definition rvc_rs1s : Z := 8 + x b 7 3.
Definition rvc_rs2s : Z := 8 + x b 2 3.

Definition rvc_lbimm : Z := shl (x b 5 1) 1 + x b 6 1.
Definition rvc_lhimm : Z := shl (x b 5 1) 1.

Definition rvc_r1sc : Z := x b 7 3.
Definition rvc_r2sc : Z := x b 2 3.
Definition rvc_rlist : Z := x b 4 4.
Definition rvc_spimm : Z := shl (x b 2 2) 4.

Definition rvc_index : Z := x b 2 8.

Definition v_vm : Z := x b 25 1.
Definition v_wd : Z := x b 26 1.
Definition v_nf : Z := x b 29 3.
Definition v_simm5 : Z := xs b 15 5.
Definition v_zimm5 : Z := x b 15 5.
Definition v_zimm10 : Z := x b 20 10.
Definition v_zimm11 : Z := x b 20 11.
Definition v_lmul : Z := x b 20 2.
Definition v_frac_lmul : Z := x b 22 1.
Definition v_sew : Z := Z.shiftl 1 (x b 23 3 + 3).
Definition v_width : Z := x b 12 3.
Definition v_mop : Z := x b 26 2.
Definition v_lumop : Z := x b 20 5.
Definition v_sumop : Z := x b 20 5.
Definition v_vta : Z := x b 26 1.
Definition v_vma : Z := x b 27 1.
Definition v_mew : Z := x b 28 1.
Definition v_zimm6 : Z := x b 15 5 + shl (x b 26 1) 5.

Definition p_imm2 : Z := x b 20 2.
Definition p_imm3 : Z := x b 20 3.
Definition p_imm4 : Z := x b 20 4.
Definition p_imm5 : Z := x b 20 5.
Definition p_imm6 : Z := x b 20 6.

(** The loop [for (i = 5; i <= rlist; i++)] runs over [0 .. rlist-5] here. *)
Definition zcmp_regmask : Z :=
  let mask := 0 in
  let rlist := rvc_rlist in
  let mask := if 4 <=? rlist then Z.lor mask (Z.shiftl 1 X_RA) else mask in
  let mask := fold_left (fun mask k => Z.lor mask (u32 (Z.shiftl 1 (Sn (5 + Z.of_nat k - 5)))))
                (seq 0 (Z.to_nat (rlist - 4))) mask in
  if rlist =? 15 then Z.lor mask (Z.shiftl 1 (Sn 11)) else mask.

(** The [switch] falls through from its label down to [case 4]. *)
Definition zcmp_stack_adjustment (xlen : Z) : Z :=
  let r := rvc_rlist in
  let wide := if xlen =? 64 then 16 else 0 in
  let from lbl adj := if lbl <=? r then adj else 0 in
  if r <? 4 then 0 + rvc_spimm
  else from 15 16 + from 14 wide + from 12 16 + from 10 wide + from 8 16 + from 6 wide + from 4 16
       + rvc_spimm.

End fields.

End Insn.

(** * Register files *)

(** [regfile_t<T, N, zero_reg>]: the array [data]. *)
Definition regfile_t (T : Type) : Type := list T.

Definition regfile_write {T} (zero_reg : bool) (r : regfile_t T) (i : Z) (value : T) : regfile_t T :=
  if negb zero_reg || negb (i =? 0) then <[Z.to_nat i := value]> r else r.

Definition regfile_read {T} (zero : T) (r : regfile_t T) (i : Z) : T := nth (Z.to_nat i) r zero.

Definition regfile_reset {T} (zero : T) (n : Z) : regfile_t T := replicate (Z.to_nat n) zero.

(** * Field macros *)

(** The lowest set bit of a mask: [mask & ~(mask << 1)]. *)
Definition field_lsb (mask : Z) : Z := Z.ldiff mask (Z.shiftl mask 1).

Definition get_field (reg mask : Z) : Z := Z.land reg mask / field_lsb mask.

Definition set_field (reg mask val : Z) : Z :=
  Z.lor (Z.ldiff reg mask) (Z.land (u64 (val * field_lsb mask)) mask).

(** * Bits of the fields *)

Lemma field_mask len : 0 <= len < 64 -> u64 (Z.shiftl 1 len) - 1 = Z.ones len.
Proof.
  intros. rewrite Z.shiftl_1_l, wrap_small, Z.ones_equiv by (split; [lia|apply Z.pow_lt_mono_r; lia]).
  lia.
Qed.

Lemma tb_x b lo len i :
  0 <= lo -> 0 <= len < 64 -> 0 <= i ->
  Z.testbit (Insn.x b lo len) i = (i <? len) && Z.testbit b (lo + i).
Proof.
  intros. unfold Insn.x. rewrite field_mask by lia. autorewrite with zbits.
  rewrite (Z.add_comm lo). btauto.
Qed.

Lemma tb_xs b lo len i :
  0 <= lo -> 0 < len -> lo + len <= 64 -> 0 <= i ->
  Z.testbit (Insn.xs b lo len) i = (i <? 64) && Z.testbit b (if i <? len then lo + i else lo + len - 1).
Proof.
  intros. unfold Insn.xs. autorewrite with zbits.
  destruct (Z.ltb_spec i 64); [|done].
  cmp_cases; autorewrite with zbits; cmp_cases; simpl; f_equal; lia.
Qed.

Lemma tb_shl a n i : 0 <= n -> 0 <= i -> Z.testbit (shl a n) i = (i <? 64) && Z.testbit a (i - n).
Proof. intros. unfold shl. by autorewrite with zbits. Qed.

#[export] Hint Rewrite tb_x tb_xs tb_shl using lia : zbits.

Lemma x_range b lo len : 0 <= lo -> 0 <= len < 64 -> 0 <= Insn.x b lo len < 2 ^ len.
Proof.
  intros. unfold Insn.x. rewrite field_mask, Z.land_ones by lia. apply Z.mod_pos_bound. lia.
Qed.

(** The immediates add fields at increasing positions: no carry. *)
Lemma add_shl a v k : 0 <= k -> 0 <= a < 2 ^ k -> a + shl v k = Z.lor a (shl v k).
Proof.
  intros Hk Ha. symmetry. apply lor_add. apply Z.bits_inj'. intros i Hi.
  autorewrite with zbits. destruct (Z.lt_ge_cases i k).
  - rewrite (tb_neg v) by lia. btauto.
  - rewrite (tb_high k a) by lia. done.
Qed.

Lemma shl_range b lo len k m :
  0 <= lo -> 0 <= len < 64 -> 0 <= k -> k + len = m -> m <= 64 ->
  0 <= shl (Insn.x b lo len) k <= 2 ^ m - 2 ^ k.
Proof.
  intros. subst m. pose proof (x_range b lo len ltac:(lia) ltac:(lia)) as Hx. unfold shl.
  rewrite Z.shiftl_mul_pow2 by lia.
  assert (2 ^ (k + len) = 2 ^ k * 2 ^ len) by (apply Z.pow_add_r; lia).
  assert (2 ^ (k + len) <= 2 ^ 64) by (apply Z.pow_le_mono_r; lia).
  rewrite wrap_small by nia. nia.
Qed.

(** Bounds of every field of the goal, put in the context. *)
Ltac field_bounds :=
  repeat match goal with
  | |- context [shl (Insn.x ?b ?lo ?len) ?k] =>
      let m := eval vm_compute in (k + len) in
      lazymatch goal with
      | _ : 0 <= shl (Insn.x b lo len) k <= _ |- _ => fail
      | _ => pose proof (shl_range b lo len k m ltac:(lia) ltac:(lia) ltac:(lia) eq_refl ltac:(lia))
      end
  | |- context [Insn.x ?b ?lo ?len] =>
      lazymatch goal with
      | _ : 0 <= Insn.x b lo len < _ |- _ => fail
      | _ => pose proof (x_range b lo len ltac:(lia) ltac:(lia))
      end
  end.

(** [tb_imm] computes a bit of an immediate from the bits of the word. *)
Ltac tb_imm :=
  intros;
  field_bounds;
  repeat (rewrite add_shl by lia);
  do 3 (autorewrite with zbits; cmp_cases; neg_bits);
  cbn [andb orb]; rewrite ?orb_false_r; try done; try (f_equal; lia).

Lemma tb_i_imm b i : 0 <= i -> Z.testbit (Insn.i_imm b) i = Z.testbit b (if i <? 12 then 20 + i else 31).
Proof. unfold Insn.i_imm. tb_imm. Qed.

Lemma tb_s_imm b i :
  0 <= i -> Z.testbit (Insn.s_imm b) i =
  Z.testbit b (if i <? 5 then 7 + i else if i <? 12 then 20 + i else 31).
Proof. unfold Insn.s_imm. tb_imm. Qed.

Lemma tb_u_imm b i :
  0 <= i -> Z.testbit (Insn.u_imm b) i = (12 <=? i) && Z.testbit b (if i <? 32 then i else 31).
Proof. unfold Insn.u_imm. tb_imm. Qed.

Lemma tb_sb_imm b i :
  0 <= i -> Z.testbit (Insn.sb_imm b) i =
  (1 <=? i) && Z.testbit b (if i <? 5 then 7 + i else if i <? 11 then 20 + i
                            else if i <? 12 then 7 else 31).
Proof. unfold Insn.sb_imm, Insn.imm_sign. tb_imm. Qed.

Lemma tb_uj_imm b i :
  0 <= i -> Z.testbit (Insn.uj_imm b) i =
  (1 <=? i) && Z.testbit b (if i <? 11 then 20 + i else if i <? 12 then 20
                            else if i <? 20 then i else 31).
Proof. unfold Insn.uj_imm, Insn.imm_sign. tb_imm. Qed.
