(* ===== verification/Encoding.v ===== *)
(** Constants of [riscv/encoding.h]: CSR numbers and fields, causes, PTE bits
    and the match and mask words the other files use, under the names the header
    gives them; then tables of all of its constants and of the names it declares
    CSRs and causes with. *)

From S2P Require Import Prelude.

Definition MSTATUS_UIE : Z := 1.
Definition MSTATUS_SIE : Z := 2.
Definition MSTATUS_HIE : Z := 4.
Definition MSTATUS_MIE : Z := 8.
Definition MSTATUS_UPIE : Z := 0x10.
Definition MSTATUS_SPIE : Z := 0x20.
Definition MSTATUS_UBE : Z := 0x40.
Definition MSTATUS_MPIE : Z := 0x80.
Definition MSTATUS_SPP : Z := 0x100.
Definition MSTATUS_VS : Z := 0x600.
Definition MSTATUS_MPP : Z := 0x1800.
Definition MSTATUS_FS : Z := 0x6000.
Definition MSTATUS_XS : Z := 0x18000.
Definition MSTATUS_MPRV : Z := 0x20000.
Definition MSTATUS_SUM : Z := 0x40000.
Definition MSTATUS_MXR : Z := 0x80000.
Definition MSTATUS_TVM : Z := 0x100000.
Definition MSTATUS_TW : Z := 0x200000.
Definition MSTATUS_TSR : Z := 0x400000.
Definition MSTATUS_SPELP : Z := 0x800000.
Definition MSTATUS_SDT : Z := 0x1000000.
Definition MSTATUS32_SD : Z := 0x80000000.
Definition MSTATUS_UXL : Z := 0x300000000.
Definition MSTATUS_SXL : Z := 0xc00000000.
Definition MSTATUS_SBE : Z := 0x1000000000.
Definition MSTATUS_MBE : Z := 0x2000000000.
Definition MSTATUS_GVA : Z := 0x4000000000.
Definition MSTATUS_MPV : Z := 0x8000000000.
Definition MSTATUS_MPELP : Z := 0x20000000000.
Definition MSTATUS_MDT : Z := 0x40000000000.
Definition MSTATUS64_SD : Z := 0x8000000000000000.
Definition MSTATUSH_SBE : Z := 0x10.
Definition MSTATUSH_MBE : Z := 0x20.
Definition MSTATUSH_GVA : Z := 0x40.
Definition MSTATUSH_MPV : Z := 0x80.
Definition MSTATUSH_MDT : Z := 0x400.
Definition SSTATUS_UIE : Z := 1.
Definition SSTATUS_SIE : Z := 2.
Definition SSTATUS_UPIE : Z := 0x10.
Definition SSTATUS_SPIE : Z := 0x20.
Definition SSTATUS_UBE : Z := 0x40.
Definition SSTATUS_SPP : Z := 0x100.
Definition SSTATUS_VS : Z := 0x600.
Definition SSTATUS_FS : Z := 0x6000.
Definition SSTATUS_XS : Z := 0x18000.
Definition SSTATUS_SUM : Z := 0x40000.
Definition SSTATUS_MXR : Z := 0x80000.
Definition SSTATUS_SPELP : Z := 0x800000.
Definition SSTATUS_SDT : Z := 0x1000000.
Definition SSTATUS32_SD : Z := 0x80000000.
Definition SSTATUS_UXL : Z := 0x300000000.
Definition SSTATUS64_SD : Z := 0x8000000000000000.
Definition HSTATUS_VSXL : Z := 0x300000000.
Definition HSTATUS_VTSR : Z := 0x400000.
Definition HSTATUS_VTW : Z := 0x200000.
Definition HSTATUS_VTVM : Z := 0x100000.
Definition HSTATUS_VGEIN : Z := 0x3f000.
Definition HSTATUS_HU : Z := 0x200.
Definition HSTATUS_SPVP : Z := 0x100.
Definition HSTATUS_SPV : Z := 0x80.
Definition HSTATUS_GVA : Z := 0x40.
Definition HSTATUS_VSBE : Z := 0x20.
Definition HSTATUS_HUPMM : Z := 0x3000000000000.
Definition USTATUS_UIE : Z := 1.
Definition USTATUS_UPIE : Z := 0x10.
Definition MNSTATUS_NMIE : Z := 8.
Definition MNSTATUS_MNPV : Z := 0x80.
Definition MNSTATUS_MNPELP : Z := 0x200.
Definition MNSTATUS_MNPP : Z := 0x1800.
Definition DCSR_XDEBUGVER : Z := 0xf0000000.
Definition DCSR_EXTCAUSE : Z := 0x7000000.
Definition DCSR_CETRIG : Z := 0x80000.
Definition DCSR_PELP : Z := 0x40000.
Definition DCSR_EBREAKVS : Z := 0x20000.
Definition DCSR_EBREAKVU : Z := 0x10000.
Definition DCSR_EBREAKM : Z := 0x8000.
Definition DCSR_EBREAKS : Z := 0x2000.
Definition DCSR_EBREAKU : Z := 0x1000.
Definition DCSR_STEPIE : Z := 0x800.
Definition DCSR_STOPCOUNT : Z := 0x400.
Definition DCSR_STOPTIME : Z := 0x200.
Definition DCSR_CAUSE : Z := 0x1c0.
Definition DCSR_V : Z := 0x20.
Definition DCSR_MPRVEN : Z := 0x10.
Definition DCSR_NMIP : Z := 8.
Definition DCSR_STEP : Z := 4.
Definition DCSR_PRV : Z := 3.
Definition DCSR_CAUSE_NONE : Z := 0.
Definition DCSR_CAUSE_SWBP : Z := 1.
Definition DCSR_CAUSE_HWBP : Z := 2.
Definition DCSR_CAUSE_DEBUGINT : Z := 3.
Definition DCSR_CAUSE_STEP : Z := 4.
Definition DCSR_CAUSE_HALT : Z := 5.
Definition DCSR_CAUSE_GROUP : Z := 6.
Definition DCSR_CAUSE_EXTCAUSE : Z := 7.
Definition DCSR_EXTCAUSE_CRITERR : Z := 0.
Definition MCONTROL_SELECT : Z := 0x80000.
Definition MCONTROL_TIMING : Z := 0x40000.
Definition MCONTROL_ACTION : Z := 0xf000.
Definition MCONTROL_CHAIN : Z := 0x800.
Definition MCONTROL_MATCH : Z := 0x780.
Definition MCONTROL_M : Z := 0x40.
Definition MCONTROL_H : Z := 0x20.
Definition MCONTROL_S : Z := 0x10.
Definition MCONTROL_U : Z := 8.
Definition MCONTROL_EXECUTE : Z := 4.
Definition MCONTROL_STORE : Z := 2.
Definition MCONTROL_LOAD : Z := 1.
Definition MCONTROL_TYPE_NONE : Z := 0.
Definition MCONTROL_TYPE_MATCH : Z := 2.
Definition MCONTROL_ACTION_DEBUG_EXCEPTION : Z := 0.
Definition MCONTROL_ACTION_DEBUG_MODE : Z := 1.
Definition MCONTROL_ACTION_TRACE_START : Z := 2.
Definition MCONTROL_ACTION_TRACE_STOP : Z := 3.
Definition MCONTROL_ACTION_TRACE_EMIT : Z := 4.
Definition MCONTROL_MATCH_EQUAL : Z := 0.
Definition MCONTROL_MATCH_NAPOT : Z := 1.
Definition MCONTROL_MATCH_GE : Z := 2.
Definition MCONTROL_MATCH_LT : Z := 3.
Definition MCONTROL_MATCH_MASK_LOW : Z := 4.
Definition MCONTROL_MATCH_MASK_HIGH : Z := 5.
Definition MIP_USIP : Z := 1.
Definition MIP_SSIP : Z := 2.
Definition MIP_VSSIP : Z := 4.
Definition MIP_MSIP : Z := 8.
Definition MIP_UTIP : Z := 0x10.
Definition MIP_STIP : Z := 0x20.
Definition MIP_VSTIP : Z := 0x40.
Definition MIP_MTIP : Z := 0x80.
Definition MIP_UEIP : Z := 0x100.
Definition MIP_SEIP : Z := 0x200.
Definition MIP_VSEIP : Z := 0x400.
Definition MIP_MEIP : Z := 0x800.
Definition MIP_SGEIP : Z := 0x1000.
Definition MIP_LCOFIP : Z := 0x2000.
Definition MIP_RAS_LOW_PRIO : Z := 0x800000000.
Definition MIP_RAS_HIGH_PRIO : Z := 0x80000000000.
Definition MIP_S_MASK : Z := 0x222.
Definition MIP_VS_MASK : Z := 0x444.
Definition MIP_HS_MASK : Z := 0x1444.
Definition MIDELEG_FORCED_MASK : Z := 0x1444.
Definition SIP_SSIP : Z := 2.
Definition SIP_STIP : Z := 0x20.
Definition MENVCFG_FIOM : Z := 1.
Definition MENVCFG_LPE : Z := 4.
Definition MENVCFG_SSE : Z := 8.
Definition MENVCFG_CBIE : Z := 0x30.
Definition MENVCFG_CBCFE : Z := 0x40.
Definition MENVCFG_CBZE : Z := 0x80.
Definition MENVCFG_PMM : Z := 0x300000000.
Definition MENVCFG_DTE : Z := 0x800000000000000.
Definition MENVCFG_CDE : Z := 0x1000000000000000.
Definition MENVCFG_ADUE : Z := 0x2000000000000000.
Definition MENVCFG_PBMTE : Z := 0x4000000000000000.
Definition MENVCFG_STCE : Z := 0x8000000000000000.
Definition MENVCFGH_DTE : Z := 0x8000000.
Definition MENVCFGH_CDE : Z := 0x10000000.
Definition MENVCFGH_ADUE : Z := 0x20000000.
Definition MENVCFGH_PBMTE : Z := 0x40000000.
Definition MENVCFGH_STCE : Z := 0x80000000.
Definition MSTATEEN0_CS : Z := 1.
Definition MSTATEEN0_FCSR : Z := 2.
Definition MSTATEEN0_JVT : Z := 4.
Definition MSTATEEN0_CTR : Z := 0x40000000000000.
Definition MSTATEEN0_PRIV113 : Z := 0x100000000000000.
Definition MSTATEEN0_PRIV114 : Z := 0x80000000000000.
Definition MSTATEEN0_IMSIC : Z := 0x400000000000000.
Definition MSTATEEN0_HCONTEXT : Z := 0x200000000000000.
Definition MSTATEEN0_AIA : Z := 0x800000000000000.
Definition MSTATEEN0_CSRIND : Z := 0x1000000000000000.
Definition MSTATEEN0_HENVCFG : Z := 0x4000000000000000.
Definition MSTATEEN_HSTATEEN : Z := 0x8000000000000000.
Definition MSTATEEN0H_CTR : Z := 0x400000.
Definition MSTATEEN0H_PRIV113 : Z := 0x1000000.
Definition MSTATEEN0H_PRIV114 : Z := 0x800000.
Definition MSTATEEN0H_IMSIC : Z := 0x4000000.
Definition MSTATEEN0H_HCONTEXT : Z := 0x2000000.
Definition MSTATEEN0H_AIA : Z := 0x8000000.
Definition MSTATEEN0H_CSRIND : Z := 0x10000000.
Definition MSTATEEN0H_HENVCFG : Z := 0x40000000.
Definition MSTATEENH_HSTATEEN : Z := 0x80000000.
Definition MHPMEVENT_VUINH : Z := 0x400000000000000.
Definition MHPMEVENT_VSINH : Z := 0x800000000000000.
Definition MHPMEVENT_UINH : Z := 0x1000000000000000.
Definition MHPMEVENT_SINH : Z := 0x2000000000000000.
Definition MHPMEVENT_MINH : Z := 0x4000000000000000.
Definition MHPMEVENT_OF : Z := 0x8000000000000000.
Definition MHPMEVENTH_VUINH : Z := 0x4000000.
Definition MHPMEVENTH_VSINH : Z := 0x8000000.
Definition MHPMEVENTH_UINH : Z := 0x10000000.
Definition MHPMEVENTH_SINH : Z := 0x20000000.
Definition MHPMEVENTH_MINH : Z := 0x40000000.
Definition MHPMEVENTH_OF : Z := 0x80000000.
Definition MCOUNTEREN_CY_SHIFT : Z := 0.
Definition MCOUNTEREN_TIME_SHIFT : Z := 1.
Definition MCOUNTEREN_IR_SHIFT : Z := 2.
Definition MCOUNTEREN_CY : Z := 1.
Definition MCOUNTEREN_TIME : Z := 2.
Definition MCOUNTEREN_IR : Z := 4.
Definition MCOUNTINHIBIT_CY : Z := 1.
Definition MCOUNTINHIBIT_IR : Z := 4.
Definition HENVCFG_FIOM : Z := 1.
Definition HENVCFG_LPE : Z := 4.
Definition HENVCFG_SSE : Z := 8.
Definition HENVCFG_CBIE : Z := 0x30.
Definition HENVCFG_CBCFE : Z := 0x40.
Definition HENVCFG_CBZE : Z := 0x80.
Definition HENVCFG_PMM : Z := 0x300000000.
Definition HENVCFG_DTE : Z := 0x800000000000000.
Definition HENVCFG_ADUE : Z := 0x2000000000000000.
Definition HENVCFG_PBMTE : Z := 0x4000000000000000.
Definition HENVCFG_STCE : Z := 0x8000000000000000.
Definition HENVCFGH_DTE : Z := 0x8000000.
Definition HENVCFGH_ADUE : Z := 0x20000000.
Definition HENVCFGH_PBMTE : Z := 0x40000000.
Definition HENVCFGH_STCE : Z := 0x80000000.
Definition HSTATEEN0_CS : Z := 1.
Definition HSTATEEN0_FCSR : Z := 2.
Definition HSTATEEN0_JVT : Z := 4.
Definition HSTATEEN0_CTR : Z := 0x40000000000000.
Definition HSTATEEN0_SCONTEXT : Z := 0x200000000000000.
Definition HSTATEEN0_IMSIC : Z := 0x400000000000000.
Definition HSTATEEN0_AIA : Z := 0x800000000000000.
Definition HSTATEEN0_CSRIND : Z := 0x1000000000000000.
Definition HSTATEEN0_SENVCFG : Z := 0x4000000000000000.
Definition HSTATEEN_SSTATEEN : Z := 0x8000000000000000.
Definition HSTATEEN0H_CTR : Z := 0x400000.
Definition HSTATEEN0H_SCONTEXT : Z := 0x2000000.
Definition HSTATEEN0H_IMSIC : Z := 0x4000000.
Definition HSTATEEN0H_AIA : Z := 0x8000000.
Definition HSTATEEN0H_CSRIND : Z := 0x10000000.
Definition HSTATEEN0H_SENVCFG : Z := 0x40000000.
Definition HSTATEENH_SSTATEEN : Z := 0x80000000.
Definition SENVCFG_FIOM : Z := 1.
Definition SENVCFG_LPE : Z := 4.
Definition SENVCFG_SSE : Z := 8.
Definition SENVCFG_CBIE : Z := 0x30.
Definition SENVCFG_CBCFE : Z := 0x40.
Definition SENVCFG_CBZE : Z := 0x80.
Definition SENVCFG_PMM : Z := 0x300000000.
Definition SSTATEEN0_CS : Z := 1.
Definition SSTATEEN0_FCSR : Z := 2.
Definition SSTATEEN0_JVT : Z := 4.
Definition MSECCFG_MML : Z := 1.
Definition MSECCFG_MMWP : Z := 2.
Definition MSECCFG_RLB : Z := 4.
Definition MSECCFG_USEED : Z := 0x100.
Definition MSECCFG_SSEED : Z := 0x200.
Definition MSECCFG_MLPE : Z := 0x400.
Definition MSECCFG_PMM : Z := 0x300000000.
Definition JVT_MODE : Z := 0x3f.
Definition JVT_BASE : Z := (-64).
Definition HVICTL_VTI : Z := 0x40000000.
Definition HVICTL_IID : Z := 0x3f0000.
Definition HVICTL_DPR : Z := 0x200.
Definition HVICTL_IPRIOM : Z := 0x100.
Definition HVICTL_IPRIO : Z := 0xff.
Definition MTOPI_IID : Z := 0xfff0000.
Definition MTOPI_IPRIO : Z := 0xff.
Definition PRV_U : Z := 0.
Definition PRV_S : Z := 1.
Definition PRV_M : Z := 3.
Definition PRV_HS : Z := 2.
Definition SATP32_MODE : Z := 0x80000000.
Definition SATP32_ASID : Z := 0x7fc00000.
Definition SATP32_PPN : Z := 0x3fffff.
Definition SATP64_MODE : Z := 0xf000000000000000.
Definition SATP64_ASID : Z := 0xffff00000000000.
Definition SATP64_PPN : Z := 0xfffffffffff.
Definition SATP_MODE_OFF : Z := 0.
Definition SATP_MODE_SV32 : Z := 1.
Definition SATP_MODE_SV39 : Z := 8.
Definition SATP_MODE_SV48 : Z := 9.
Definition SATP_MODE_SV57 : Z := 0xa.
Definition SATP_MODE_SV64 : Z := 0xb.
Definition HGATP32_MODE : Z := 0x80000000.
Definition HGATP32_VMID : Z := 0x1fc00000.
Definition HGATP32_PPN : Z := 0x3fffff.
Definition HGATP64_MODE : Z := 0xf000000000000000.
Definition HGATP64_VMID : Z := 0x3fff00000000000.
Definition HGATP64_PPN : Z := 0xfffffffffff.
Definition HGATP_MODE_OFF : Z := 0.
Definition HGATP_MODE_SV32X4 : Z := 1.
Definition HGATP_MODE_SV39X4 : Z := 8.
Definition HGATP_MODE_SV48X4 : Z := 9.
Definition HGATP_MODE_SV57X4 : Z := 0xa.
Definition PMP_R : Z := 1.
Definition PMP_W : Z := 2.
Definition PMP_X : Z := 4.
Definition PMP_A : Z := 0x18.
Definition PMP_L : Z := 0x80.
Definition PMP_SHIFT : Z := 2.
Definition PMP_TOR : Z := 8.
Definition PMP_NA4 : Z := 0x10.
Definition PMP_NAPOT : Z := 0x18.
Definition IRQ_U_SOFT : Z := 0.
Definition IRQ_S_SOFT : Z := 1.
Definition IRQ_VS_SOFT : Z := 2.
Definition IRQ_M_SOFT : Z := 3.
Definition IRQ_U_TIMER : Z := 4.
Definition IRQ_S_TIMER : Z := 5.
Definition IRQ_VS_TIMER : Z := 6.
Definition IRQ_M_TIMER : Z := 7.
Definition IRQ_U_EXT : Z := 8.
Definition IRQ_S_EXT : Z := 9.
Definition IRQ_VS_EXT : Z := 0xa.
Definition IRQ_M_EXT : Z := 0xb.
Definition IRQ_S_GEXT : Z := 0xc.
Definition IRQ_COP : Z := 0xc.
Definition IRQ_LCOF : Z := 0xd.
Definition IRQ_RAS_LOW_PRIO : Z := 0x23.
Definition IRQ_RAS_HIGH_PRIO : Z := 0x2b.
Definition PTE_V : Z := 1.
Definition PTE_R : Z := 2.
Definition PTE_W : Z := 4.
Definition PTE_X : Z := 8.
Definition PTE_U : Z := 0x10.
Definition PTE_G : Z := 0x20.
Definition PTE_A : Z := 0x40.
Definition PTE_D : Z := 0x80.
Definition PTE_SOFT : Z := 0x300.
Definition PTE_RSVD : Z := 0x1fc0000000000000.
Definition PTE_PBMT : Z := 0x6000000000000000.
Definition PTE_N : Z := 0x8000000000000000.
Definition PTE_ATTR : Z := 0xffc0000000000000.
Definition PTE_PPN_SHIFT : Z := 0xa.
Definition SRMCFG_RCID : Z := 0xfff.
Definition SRMCFG_MCID : Z := 0xfff0000.
Definition LANDING_PAD_FAULT : Z := 2.
Definition SHADOW_STACK_FAULT : Z := 3.
Definition RISCV_PGSHIFT : Z := 0xc.
Definition RISCV_PGSIZE : Z := 0x1000.
Definition CSR_FFLAGS : Z := 1.
Definition CSR_FRM : Z := 2.
Definition CSR_FCSR : Z := 3.
Definition CSR_VSTART : Z := 8.
Definition CSR_VXSAT : Z := 9.
Definition CSR_VXRM : Z := 0xa.
Definition CSR_VCSR : Z := 0xf.
Definition CSR_SSP : Z := 0x11.
Definition CSR_SEED : Z := 0x15.
Definition CSR_JVT : Z := 0x17.
Definition CSR_CYCLE : Z := 0xc00.
Definition CSR_TIME : Z := 0xc01.
Definition CSR_INSTRET : Z := 0xc02.
Definition CSR_HPMCOUNTER3 : Z := 0xc03.
Definition CSR_HPMCOUNTER4 : Z := 0xc04.
Definition CSR_HPMCOUNTER5 : Z := 0xc05.
Definition CSR_HPMCOUNTER6 : Z := 0xc06.
Definition CSR_HPMCOUNTER7 : Z := 0xc07.
Definition CSR_HPMCOUNTER8 : Z := 0xc08.
Definition CSR_HPMCOUNTER9 : Z := 0xc09.
Definition CSR_HPMCOUNTER10 : Z := 0xc0a.
Definition CSR_HPMCOUNTER11 : Z := 0xc0b.
Definition CSR_HPMCOUNTER12 : Z := 0xc0c.
Definition CSR_HPMCOUNTER13 : Z := 0xc0d.
Definition CSR_HPMCOUNTER14 : Z := 0xc0e.
Definition CSR_HPMCOUNTER15 : Z := 0xc0f.
Definition CSR_HPMCOUNTER16 : Z := 0xc10.
Definition CSR_HPMCOUNTER17 : Z := 0xc11.
Definition CSR_HPMCOUNTER18 : Z := 0xc12.
Definition CSR_HPMCOUNTER19 : Z := 0xc13.
Definition CSR_HPMCOUNTER20 : Z := 0xc14.
Definition CSR_HPMCOUNTER21 : Z := 0xc15.
Definition CSR_HPMCOUNTER22 : Z := 0xc16.
Definition CSR_HPMCOUNTER23 : Z := 0xc17.
Definition CSR_HPMCOUNTER24 : Z := 0xc18.
Definition CSR_HPMCOUNTER25 : Z := 0xc19.
Definition CSR_HPMCOUNTER26 : Z := 0xc1a.
Definition CSR_HPMCOUNTER27 : Z := 0xc1b.
Definition CSR_HPMCOUNTER28 : Z := 0xc1c.
Definition CSR_HPMCOUNTER29 : Z := 0xc1d.
Definition CSR_HPMCOUNTER30 : Z := 0xc1e.
Definition CSR_HPMCOUNTER31 : Z := 0xc1f.
Definition CSR_VL : Z := 0xc20.
Definition CSR_VTYPE : Z := 0xc21.
Definition CSR_VLENB : Z := 0xc22.
Definition CSR_SSTATUS : Z := 0x100.
Definition CSR_SIE : Z := 0x104.
Definition CSR_STVEC : Z := 0x105.
Definition CSR_SCOUNTEREN : Z := 0x106.
Definition CSR_SENVCFG : Z := 0x10a.
Definition CSR_SSTATEEN0 : Z := 0x10c.
Definition CSR_SSTATEEN1 : Z := 0x10d.
Definition CSR_SSTATEEN2 : Z := 0x10e.
Definition CSR_SSTATEEN3 : Z := 0x10f.
Definition CSR_SCOUNTINHIBIT : Z := 0x120.
Definition CSR_SSCRATCH : Z := 0x140.
Definition CSR_SEPC : Z := 0x141.
Definition CSR_SCAUSE : Z := 0x142.
Definition CSR_STVAL : Z := 0x143.
Definition CSR_SIP : Z := 0x144.
Definition CSR_STIMECMP : Z := 0x14d.
Definition CSR_SCTRCTL : Z := 0x14e.
Definition CSR_SCTRSTATUS : Z := 0x14f.
Definition CSR_SISELECT : Z := 0x150.
Definition CSR_SIREG : Z := 0x151.
Definition CSR_SIREG2 : Z := 0x152.
Definition CSR_SIREG3 : Z := 0x153.
Definition CSR_SIREG4 : Z := 0x155.
Definition CSR_SIREG5 : Z := 0x156.
Definition CSR_SIREG6 : Z := 0x157.
Definition CSR_STOPEI : Z := 0x15c.
Definition CSR_SCTRDEPTH : Z := 0x15f.
Definition CSR_SATP : Z := 0x180.
Definition CSR_SRMCFG : Z := 0x181.
Definition CSR_SCONTEXT : Z := 0x5a8.
Definition CSR_VSSTATUS : Z := 0x200.
Definition CSR_VSIE : Z := 0x204.
Definition CSR_VSTVEC : Z := 0x205.
Definition CSR_VSSCRATCH : Z := 0x240.
Definition CSR_VSEPC : Z := 0x241.
Definition CSR_VSCAUSE : Z := 0x242.
Definition CSR_VSTVAL : Z := 0x243.
Definition CSR_VSIP : Z := 0x244.
Definition CSR_VSTIMECMP : Z := 0x24d.
Definition CSR_VSCTRCTL : Z := 0x24e.
Definition CSR_VSISELECT : Z := 0x250.
Definition CSR_VSIREG : Z := 0x251.
Definition CSR_VSIREG2 : Z := 0x252.
Definition CSR_VSIREG3 : Z := 0x253.
Definition CSR_VSIREG4 : Z := 0x255.
Definition CSR_VSIREG5 : Z := 0x256.
Definition CSR_VSIREG6 : Z := 0x257.
Definition CSR_VSTOPEI : Z := 0x25c.
Definition CSR_VSATP : Z := 0x280.
Definition CSR_HSTATUS : Z := 0x600.
Definition CSR_HEDELEG : Z := 0x602.
Definition CSR_HIDELEG : Z := 0x603.
Definition CSR_HIE : Z := 0x604.
Definition CSR_HTIMEDELTA : Z := 0x605.
Definition CSR_HCOUNTEREN : Z := 0x606.
Definition CSR_HGEIE : Z := 0x607.
Definition CSR_HVIEN : Z := 0x608.
Definition CSR_HVICTL : Z := 0x609.
Definition CSR_HENVCFG : Z := 0x60a.
Definition CSR_HSTATEEN0 : Z := 0x60c.
Definition CSR_HSTATEEN1 : Z := 0x60d.
Definition CSR_HSTATEEN2 : Z := 0x60e.
Definition CSR_HSTATEEN3 : Z := 0x60f.
Definition CSR_HTVAL : Z := 0x643.
Definition CSR_HIP : Z := 0x644.
Definition CSR_HVIP : Z := 0x645.
Definition CSR_HVIPRIO1 : Z := 0x646.
Definition CSR_HVIPRIO2 : Z := 0x647.
Definition CSR_HTINST : Z := 0x64a.
Definition CSR_HGATP : Z := 0x680.
Definition CSR_HCONTEXT : Z := 0x6a8.
Definition CSR_HGEIP : Z := 0xe12.
Definition CSR_VSTOPI : Z := 0xeb0.
Definition CSR_SCOUNTOVF : Z := 0xda0.
Definition CSR_STOPI : Z := 0xdb0.
Definition CSR_UTVT : Z := 7.
Definition CSR_UNXTI : Z := 0x45.
Definition CSR_UINTSTATUS : Z := 0x46.
Definition CSR_USCRATCHCSW : Z := 0x48.
Definition CSR_USCRATCHCSWL : Z := 0x49.
Definition CSR_STVT : Z := 0x107.
Definition CSR_SNXTI : Z := 0x145.
Definition CSR_SINTSTATUS : Z := 0x146.
Definition CSR_SSCRATCHCSW : Z := 0x148.
Definition CSR_SSCRATCHCSWL : Z := 0x149.
Definition CSR_MTVT : Z := 0x307.
Definition CSR_MNXTI : Z := 0x345.
Definition CSR_MINTSTATUS : Z := 0x346.
Definition CSR_MSCRATCHCSW : Z := 0x348.
Definition CSR_MSCRATCHCSWL : Z := 0x349.
Definition CSR_MSTATUS : Z := 0x300.
Definition CSR_MISA : Z := 0x301.
Definition CSR_MEDELEG : Z := 0x302.
Definition CSR_MIDELEG : Z := 0x303.
Definition CSR_MIE : Z := 0x304.
Definition CSR_MTVEC : Z := 0x305.
Definition CSR_MCOUNTEREN : Z := 0x306.
Definition CSR_MVIEN : Z := 0x308.
Definition CSR_MVIP : Z := 0x309.
Definition CSR_MENVCFG : Z := 0x30a.
Definition CSR_MSTATEEN0 : Z := 0x30c.
Definition CSR_MSTATEEN1 : Z := 0x30d.
Definition CSR_MSTATEEN2 : Z := 0x30e.
Definition CSR_MSTATEEN3 : Z := 0x30f.
Definition CSR_MCOUNTINHIBIT : Z := 0x320.
Definition CSR_MSCRATCH : Z := 0x340.
Definition CSR_MEPC : Z := 0x341.
Definition CSR_MCAUSE : Z := 0x342.
Definition CSR_MTVAL : Z := 0x343.
Definition CSR_MIP : Z := 0x344.
Definition CSR_MTINST : Z := 0x34a.
Definition CSR_MTVAL2 : Z := 0x34b.
Definition CSR_MCTRCTL : Z := 0x34e.
Definition CSR_MISELECT : Z := 0x350.
Definition CSR_MIREG : Z := 0x351.
Definition CSR_MIREG2 : Z := 0x352.
Definition CSR_MIREG3 : Z := 0x353.
Definition CSR_MIREG4 : Z := 0x355.
Definition CSR_MIREG5 : Z := 0x356.
Definition CSR_MIREG6 : Z := 0x357.
Definition CSR_MTOPEI : Z := 0x35c.
Definition CSR_PMPCFG0 : Z := 0x3a0.
Definition CSR_PMPCFG1 : Z := 0x3a1.
Definition CSR_PMPCFG2 : Z := 0x3a2.
Definition CSR_PMPCFG3 : Z := 0x3a3.
Definition CSR_PMPCFG4 : Z := 0x3a4.
Definition CSR_PMPCFG5 : Z := 0x3a5.
Definition CSR_PMPCFG6 : Z := 0x3a6.
Definition CSR_PMPCFG7 : Z := 0x3a7.
Definition CSR_PMPCFG8 : Z := 0x3a8.
Definition CSR_PMPCFG9 : Z := 0x3a9.
Definition CSR_PMPCFG10 : Z := 0x3aa.
Definition CSR_PMPCFG11 : Z := 0x3ab.
Definition CSR_PMPCFG12 : Z := 0x3ac.
Definition CSR_PMPCFG13 : Z := 0x3ad.
Definition CSR_PMPCFG14 : Z := 0x3ae.
Definition CSR_PMPCFG15 : Z := 0x3af.
Definition CSR_PMPADDR0 : Z := 0x3b0.
Definition CSR_PMPADDR1 : Z := 0x3b1.
Definition CSR_PMPADDR2 : Z := 0x3b2.
Definition CSR_PMPADDR3 : Z := 0x3b3.
Definition CSR_PMPADDR4 : Z := 0x3b4.
Definition CSR_PMPADDR5 : Z := 0x3b5.
Definition CSR_PMPADDR6 : Z := 0x3b6.
Definition CSR_PMPADDR7 : Z := 0x3b7.
Definition CSR_PMPADDR8 : Z := 0x3b8.
Definition CSR_PMPADDR9 : Z := 0x3b9.
Definition CSR_PMPADDR10 : Z := 0x3ba.
Definition CSR_PMPADDR11 : Z := 0x3bb.
Definition CSR_PMPADDR12 : Z := 0x3bc.
Definition CSR_PMPADDR13 : Z := 0x3bd.
Definition CSR_PMPADDR14 : Z := 0x3be.
Definition CSR_PMPADDR15 : Z := 0x3bf.
Definition CSR_PMPADDR16 : Z := 0x3c0.
Definition CSR_PMPADDR17 : Z := 0x3c1.
Definition CSR_PMPADDR18 : Z := 0x3c2.
Definition CSR_PMPADDR19 : Z := 0x3c3.
Definition CSR_PMPADDR20 : Z := 0x3c4.
Definition CSR_PMPADDR21 : Z := 0x3c5.
Definition CSR_PMPADDR22 : Z := 0x3c6.
Definition CSR_PMPADDR23 : Z := 0x3c7.
Definition CSR_PMPADDR24 : Z := 0x3c8.
Definition CSR_PMPADDR25 : Z := 0x3c9.
Definition CSR_PMPADDR26 : Z := 0x3ca.
Definition CSR_PMPADDR27 : Z := 0x3cb.
Definition CSR_PMPADDR28 : Z := 0x3cc.
Definition CSR_PMPADDR29 : Z := 0x3cd.
Definition CSR_PMPADDR30 : Z := 0x3ce.
Definition CSR_PMPADDR31 : Z := 0x3cf.
Definition CSR_PMPADDR32 : Z := 0x3d0.
Definition CSR_PMPADDR33 : Z := 0x3d1.
Definition CSR_PMPADDR34 : Z := 0x3d2.
Definition CSR_PMPADDR35 : Z := 0x3d3.
Definition CSR_PMPADDR36 : Z := 0x3d4.
Definition CSR_PMPADDR37 : Z := 0x3d5.
Definition CSR_PMPADDR38 : Z := 0x3d6.
Definition CSR_PMPADDR39 : Z := 0x3d7.
Definition CSR_PMPADDR40 : Z := 0x3d8.
Definition CSR_PMPADDR41 : Z := 0x3d9.
Definition CSR_PMPADDR42 : Z := 0x3da.
Definition CSR_PMPADDR43 : Z := 0x3db.
Definition CSR_PMPADDR44 : Z := 0x3dc.
Definition CSR_PMPADDR45 : Z := 0x3dd.
Definition CSR_PMPADDR46 : Z := 0x3de.
Definition CSR_PMPADDR47 : Z := 0x3df.
Definition CSR_PMPADDR48 : Z := 0x3e0.
Definition CSR_PMPADDR49 : Z := 0x3e1.
Definition CSR_PMPADDR50 : Z := 0x3e2.
Definition CSR_PMPADDR51 : Z := 0x3e3.
Definition CSR_PMPADDR52 : Z := 0x3e4.
Definition CSR_PMPADDR53 : Z := 0x3e5.
Definition CSR_PMPADDR54 : Z := 0x3e6.
Definition CSR_PMPADDR55 : Z := 0x3e7.
Definition CSR_PMPADDR56 : Z := 0x3e8.
Definition CSR_PMPADDR57 : Z := 0x3e9.
Definition CSR_PMPADDR58 : Z := 0x3ea.
Definition CSR_PMPADDR59 : Z := 0x3eb.
Definition CSR_PMPADDR60 : Z := 0x3ec.
Definition CSR_PMPADDR61 : Z := 0x3ed.
Definition CSR_PMPADDR62 : Z := 0x3ee.
Definition CSR_PMPADDR63 : Z := 0x3ef.
Definition CSR_MSECCFG : Z := 0x747.
Definition CSR_TSELECT : Z := 0x7a0.
Definition CSR_TDATA1 : Z := 0x7a1.
Definition CSR_TDATA2 : Z := 0x7a2.
Definition CSR_TDATA3 : Z := 0x7a3.
Definition CSR_TINFO : Z := 0x7a4.
Definition CSR_TCONTROL : Z := 0x7a5.
Definition CSR_MCONTEXT : Z := 0x7a8.
Definition CSR_MSCONTEXT : Z := 0x7aa.
Definition CSR_DCSR : Z := 0x7b0.
Definition CSR_DPC : Z := 0x7b1.
Definition CSR_DSCRATCH0 : Z := 0x7b2.
Definition CSR_DSCRATCH1 : Z := 0x7b3.
Definition CSR_MCYCLE : Z := 0xb00.
Definition CSR_MINSTRET : Z := 0xb02.
Definition CSR_MHPMCOUNTER3 : Z := 0xb03.
Definition CSR_MHPMCOUNTER4 : Z := 0xb04.
Definition CSR_MHPMCOUNTER5 : Z := 0xb05.
Definition CSR_MHPMCOUNTER6 : Z := 0xb06.
Definition CSR_MHPMCOUNTER7 : Z := 0xb07.
Definition CSR_MHPMCOUNTER8 : Z := 0xb08.
Definition CSR_MHPMCOUNTER9 : Z := 0xb09.
Definition CSR_MHPMCOUNTER10 : Z := 0xb0a.
Definition CSR_MHPMCOUNTER11 : Z := 0xb0b.
Definition CSR_MHPMCOUNTER12 : Z := 0xb0c.
Definition CSR_MHPMCOUNTER13 : Z := 0xb0d.
Definition CSR_MHPMCOUNTER14 : Z := 0xb0e.
Definition CSR_MHPMCOUNTER15 : Z := 0xb0f.
Definition CSR_MHPMCOUNTER16 : Z := 0xb10.
Definition CSR_MHPMCOUNTER17 : Z := 0xb11.
Definition CSR_MHPMCOUNTER18 : Z := 0xb12.
Definition CSR_MHPMCOUNTER19 : Z := 0xb13.
Definition CSR_MHPMCOUNTER20 : Z := 0xb14.
Definition CSR_MHPMCOUNTER21 : Z := 0xb15.
Definition CSR_MHPMCOUNTER22 : Z := 0xb16.
Definition CSR_MHPMCOUNTER23 : Z := 0xb17.
Definition CSR_MHPMCOUNTER24 : Z := 0xb18.
Definition CSR_MHPMCOUNTER25 : Z := 0xb19.
Definition CSR_MHPMCOUNTER26 : Z := 0xb1a.
Definition CSR_MHPMCOUNTER27 : Z := 0xb1b.
Definition CSR_MHPMCOUNTER28 : Z := 0xb1c.
Definition CSR_MHPMCOUNTER29 : Z := 0xb1d.
Definition CSR_MHPMCOUNTER30 : Z := 0xb1e.
Definition CSR_MHPMCOUNTER31 : Z := 0xb1f.
Definition CSR_MCYCLECFG : Z := 0x321.
Definition CSR_MINSTRETCFG : Z := 0x322.
Definition CSR_MHPMEVENT3 : Z := 0x323.
Definition CSR_MHPMEVENT4 : Z := 0x324.
Definition CSR_MHPMEVENT5 : Z := 0x325.
Definition CSR_MHPMEVENT6 : Z := 0x326.
Definition CSR_MHPMEVENT7 : Z := 0x327.
Definition CSR_MHPMEVENT8 : Z := 0x328.
Definition CSR_MHPMEVENT9 : Z := 0x329.
Definition CSR_MHPMEVENT10 : Z := 0x32a.
Definition CSR_MHPMEVENT11 : Z := 0x32b.
Definition CSR_MHPMEVENT12 : Z := 0x32c.
Definition CSR_MHPMEVENT13 : Z := 0x32d.
Definition CSR_MHPMEVENT14 : Z := 0x32e.
Definition CSR_MHPMEVENT15 : Z := 0x32f.
Definition CSR_MHPMEVENT16 : Z := 0x330.
Definition CSR_MHPMEVENT17 : Z := 0x331.
Definition CSR_MHPMEVENT18 : Z := 0x332.
Definition CSR_MHPMEVENT19 : Z := 0x333.
Definition CSR_MHPMEVENT20 : Z := 0x334.
Definition CSR_MHPMEVENT21 : Z := 0x335.
Definition CSR_MHPMEVENT22 : Z := 0x336.
Definition CSR_MHPMEVENT23 : Z := 0x337.
Definition CSR_MHPMEVENT24 : Z := 0x338.
Definition CSR_MHPMEVENT25 : Z := 0x339.
Definition CSR_MHPMEVENT26 : Z := 0x33a.
Definition CSR_MHPMEVENT27 : Z := 0x33b.
Definition CSR_MHPMEVENT28 : Z := 0x33c.
Definition CSR_MHPMEVENT29 : Z := 0x33d.
Definition CSR_MHPMEVENT30 : Z := 0x33e.
Definition CSR_MHPMEVENT31 : Z := 0x33f.
Definition CSR_MVENDORID : Z := 0xf11.
Definition CSR_MARCHID : Z := 0xf12.
Definition CSR_MIMPID : Z := 0xf13.
Definition CSR_MHARTID : Z := 0xf14.
Definition CSR_MCONFIGPTR : Z := 0xf15.
Definition CSR_MTOPI : Z := 0xfb0.
Definition CSR_SIEH : Z := 0x114.
Definition CSR_SIPH : Z := 0x154.
Definition CSR_STIMECMPH : Z := 0x15d.
Definition CSR_VSIEH : Z := 0x214.
Definition CSR_VSIPH : Z := 0x254.
Definition CSR_VSTIMECMPH : Z := 0x25d.
Definition CSR_HEDELEGH : Z := 0x612.
Definition CSR_HTIMEDELTAH : Z := 0x615.
Definition CSR_HIDELEGH : Z := 0x613.
Definition CSR_HVIENH : Z := 0x618.
Definition CSR_HENVCFGH : Z := 0x61a.
Definition CSR_HVIPH : Z := 0x655.
Definition CSR_HVIPRIO1H : Z := 0x656.
Definition CSR_HVIPRIO2H : Z := 0x657.
Definition CSR_HSTATEEN0H : Z := 0x61c.
Definition CSR_HSTATEEN1H : Z := 0x61d.
Definition CSR_HSTATEEN2H : Z := 0x61e.
Definition CSR_HSTATEEN3H : Z := 0x61f.
Definition CSR_CYCLEH : Z := 0xc80.
Definition CSR_TIMEH : Z := 0xc81.
Definition CSR_INSTRETH : Z := 0xc82.
Definition CSR_HPMCOUNTER3H : Z := 0xc83.
Definition CSR_HPMCOUNTER4H : Z := 0xc84.
Definition CSR_HPMCOUNTER5H : Z := 0xc85.
Definition CSR_HPMCOUNTER6H : Z := 0xc86.
Definition CSR_HPMCOUNTER7H : Z := 0xc87.
Definition CSR_HPMCOUNTER8H : Z := 0xc88.
Definition CSR_HPMCOUNTER9H : Z := 0xc89.
Definition CSR_HPMCOUNTER10H : Z := 0xc8a.
Definition CSR_HPMCOUNTER11H : Z := 0xc8b.
Definition CSR_HPMCOUNTER12H : Z := 0xc8c.
Definition CSR_HPMCOUNTER13H : Z := 0xc8d.
Definition CSR_HPMCOUNTER14H : Z := 0xc8e.
Definition CSR_HPMCOUNTER15H : Z := 0xc8f.
Definition CSR_HPMCOUNTER16H : Z := 0xc90.
Definition CSR_HPMCOUNTER17H : Z := 0xc91.
Definition CSR_HPMCOUNTER18H : Z := 0xc92.
Definition CSR_HPMCOUNTER19H : Z := 0xc93.
Definition CSR_HPMCOUNTER20H : Z := 0xc94.
Definition CSR_HPMCOUNTER21H : Z := 0xc95.
Definition CSR_HPMCOUNTER22H : Z := 0xc96.
Definition CSR_HPMCOUNTER23H : Z := 0xc97.
Definition CSR_HPMCOUNTER24H : Z := 0xc98.
Definition CSR_HPMCOUNTER25H : Z := 0xc99.
Definition CSR_HPMCOUNTER26H : Z := 0xc9a.
Definition CSR_HPMCOUNTER27H : Z := 0xc9b.
Definition CSR_HPMCOUNTER28H : Z := 0xc9c.
Definition CSR_HPMCOUNTER29H : Z := 0xc9d.
Definition CSR_HPMCOUNTER30H : Z := 0xc9e.
Definition CSR_HPMCOUNTER31H : Z := 0xc9f.
Definition CSR_MSTATUSH : Z := 0x310.
Definition CSR_MIDELEGH : Z := 0x313.
Definition CSR_MIEH : Z := 0x314.
Definition CSR_MVIENH : Z := 0x318.
Definition CSR_MVIPH : Z := 0x319.
Definition CSR_MENVCFGH : Z := 0x31a.
Definition CSR_MSTATEEN0H : Z := 0x31c.
Definition CSR_MSTATEEN1H : Z := 0x31d.
Definition CSR_MSTATEEN2H : Z := 0x31e.
Definition CSR_MSTATEEN3H : Z := 0x31f.
Definition CSR_MIPH : Z := 0x354.
Definition CSR_MCYCLECFGH : Z := 0x721.
Definition CSR_MINSTRETCFGH : Z := 0x722.
Definition CSR_MHPMEVENT3H : Z := 0x723.
Definition CSR_MHPMEVENT4H : Z := 0x724.
Definition CSR_MHPMEVENT5H : Z := 0x725.
Definition CSR_MHPMEVENT6H : Z := 0x726.
Definition CSR_MHPMEVENT7H : Z := 0x727.
Definition CSR_MHPMEVENT8H : Z := 0x728.
Definition CSR_MHPMEVENT9H : Z := 0x729.
Definition CSR_MHPMEVENT10H : Z := 0x72a.
Definition CSR_MHPMEVENT11H : Z := 0x72b.
Definition CSR_MHPMEVENT12H : Z := 0x72c.
Definition CSR_MHPMEVENT13H : Z := 0x72d.
Definition CSR_MHPMEVENT14H : Z := 0x72e.
Definition CSR_MHPMEVENT15H : Z := 0x72f.
Definition CSR_MHPMEVENT16H : Z := 0x730.
Definition CSR_MHPMEVENT17H : Z := 0x731.
Definition CSR_MHPMEVENT18H : Z := 0x732.
Definition CSR_MHPMEVENT19H : Z := 0x733.
Definition CSR_MHPMEVENT20H : Z := 0x734.
Definition CSR_MHPMEVENT21H : Z := 0x735.
Definition CSR_MHPMEVENT22H : Z := 0x736.
Definition CSR_MHPMEVENT23H : Z := 0x737.
Definition CSR_MHPMEVENT24H : Z := 0x738.
Definition CSR_MHPMEVENT25H : Z := 0x739.
Definition CSR_MHPMEVENT26H : Z := 0x73a.
Definition CSR_MHPMEVENT27H : Z := 0x73b.
Definition CSR_MHPMEVENT28H : Z := 0x73c.
Definition CSR_MHPMEVENT29H : Z := 0x73d.
Definition CSR_MHPMEVENT30H : Z := 0x73e.
Definition CSR_MHPMEVENT31H : Z := 0x73f.
Definition CSR_MNSCRATCH : Z := 0x740.
Definition CSR_MNEPC : Z := 0x741.
Definition CSR_MNCAUSE : Z := 0x742.
Definition CSR_MNSTATUS : Z := 0x744.
Definition CSR_MSECCFGH : Z := 0x757.
Definition CSR_MCYCLEH : Z := 0xb80.
Definition CSR_MINSTRETH : Z := 0xb82.
Definition CSR_MHPMCOUNTER3H : Z := 0xb83.
Definition CSR_MHPMCOUNTER4H : Z := 0xb84.
Definition CSR_MHPMCOUNTER5H : Z := 0xb85.
Definition CSR_MHPMCOUNTER6H : Z := 0xb86.
Definition CSR_MHPMCOUNTER7H : Z := 0xb87.
Definition CSR_MHPMCOUNTER8H : Z := 0xb88.
Definition CSR_MHPMCOUNTER9H : Z := 0xb89.
Definition CSR_MHPMCOUNTER10H : Z := 0xb8a.
Definition CSR_MHPMCOUNTER11H : Z := 0xb8b.
Definition CSR_MHPMCOUNTER12H : Z := 0xb8c.
Definition CSR_MHPMCOUNTER13H : Z := 0xb8d.
Definition CSR_MHPMCOUNTER14H : Z := 0xb8e.
Definition CSR_MHPMCOUNTER15H : Z := 0xb8f.
Definition CSR_MHPMCOUNTER16H : Z := 0xb90.
Definition CSR_MHPMCOUNTER17H : Z := 0xb91.
Definition CSR_MHPMCOUNTER18H : Z := 0xb92.
Definition CSR_MHPMCOUNTER19H : Z := 0xb93.
Definition CSR_MHPMCOUNTER20H : Z := 0xb94.
Definition CSR_MHPMCOUNTER21H : Z := 0xb95.
Definition CSR_MHPMCOUNTER22H : Z := 0xb96.
Definition CSR_MHPMCOUNTER23H : Z := 0xb97.
Definition CSR_MHPMCOUNTER24H : Z := 0xb98.
Definition CSR_MHPMCOUNTER25H : Z := 0xb99.
Definition CSR_MHPMCOUNTER26H : Z := 0xb9a.
Definition CSR_MHPMCOUNTER27H : Z := 0xb9b.
Definition CSR_MHPMCOUNTER28H : Z := 0xb9c.
Definition CSR_MHPMCOUNTER29H : Z := 0xb9d.
Definition CSR_MHPMCOUNTER30H : Z := 0xb9e.
Definition CSR_MHPMCOUNTER31H : Z := 0xb9f.
Definition CSR_SIMPOINT : Z := 0x8c2.
Definition CAUSE_MISALIGNED_FETCH : Z := 0.
Definition CAUSE_FETCH_ACCESS : Z := 1.
Definition CAUSE_ILLEGAL_INSTRUCTION : Z := 2.
Definition CAUSE_BREAKPOINT : Z := 3.
Definition CAUSE_MISALIGNED_LOAD : Z := 4.
Definition CAUSE_LOAD_ACCESS : Z := 5.
Definition CAUSE_MISALIGNED_STORE : Z := 6.
Definition CAUSE_STORE_ACCESS : Z := 7.
Definition CAUSE_USER_ECALL : Z := 8.
Definition CAUSE_SUPERVISOR_ECALL : Z := 9.
Definition CAUSE_VIRTUAL_SUPERVISOR_ECALL : Z := 0xa.
Definition CAUSE_MACHINE_ECALL : Z := 0xb.
Definition CAUSE_FETCH_PAGE_FAULT : Z := 0xc.
Definition CAUSE_LOAD_PAGE_FAULT : Z := 0xd.
Definition CAUSE_STORE_PAGE_FAULT : Z := 0xf.
Definition CAUSE_DOUBLE_TRAP : Z := 0x10.
Definition CAUSE_SOFTWARE_CHECK_FAULT : Z := 0x12.
Definition CAUSE_HARDWARE_ERROR_FAULT : Z := 0x13.
Definition CAUSE_FETCH_GUEST_PAGE_FAULT : Z := 0x14.
Definition CAUSE_LOAD_GUEST_PAGE_FAULT : Z := 0x15.
Definition CAUSE_VIRTUAL_INSTRUCTION : Z := 0x16.
Definition CAUSE_STORE_GUEST_PAGE_FAULT : Z := 0x17.

(** * Opcodes: [MATCH_*] and [MASK_*] of the scalar instructions *)

Definition MATCH_ADD : Z := 0x33.
Definition MASK_ADD : Z := 0xfe00707f.
Definition MATCH_ADDI : Z := 0x13.
Definition MASK_ADDI : Z := 0x707f.
Definition MATCH_C_EBREAK : Z := 0x9002.
Definition MASK_C_EBREAK : Z := 0xffff.
Definition MATCH_CSRRS : Z := 0x2073.
Definition MASK_CSRRS : Z := 0x707f.
Definition MATCH_CSRRSI : Z := 0x6073.
Definition MASK_CSRRSI : Z := 0x707f.
Definition MATCH_CSRRW : Z := 0x1073.
Definition MASK_CSRRW : Z := 0x707f.
Definition MATCH_DRET : Z := 0x7b200073.
Definition MASK_DRET : Z := 0xffffffff.
Definition MATCH_EBREAK : Z := 0x100073.
Definition MASK_EBREAK : Z := 0xffffffff.
Definition MATCH_FENCE_I : Z := 0x100f.
Definition MASK_FENCE_I : Z := 0x707f.
Definition MATCH_FLD : Z := 0x3007.
Definition MASK_FLD : Z := 0x707f.
Definition MATCH_FLW : Z := 0x2007.
Definition MASK_FLW : Z := 0x707f.
Definition MATCH_FSD : Z := 0x3027.
Definition MASK_FSD : Z := 0x707f.
Definition MATCH_FSW : Z := 0x2027.
Definition MASK_FSW : Z := 0x707f.
Definition MATCH_JAL : Z := 0x6f.
Definition MASK_JAL : Z := 0x7f.
Definition MATCH_LB : Z := 3.
Definition MASK_LB : Z := 0x707f.
Definition MATCH_LD : Z := 0x3003.
Definition MASK_LD : Z := 0x707f.
Definition MATCH_LH : Z := 0x1003.
Definition MASK_LH : Z := 0x707f.
Definition MATCH_LPAD : Z := 0x17.
Definition MASK_LPAD : Z := 0xfff.
Definition MATCH_LUI : Z := 0x37.
Definition MASK_LUI : Z := 0x7f.
Definition MATCH_LW : Z := 0x2003.
Definition MASK_LW : Z := 0x707f.
Definition MATCH_MRET : Z := 0x30200073.
Definition MATCH_SB : Z := 0x23.
Definition MASK_SB : Z := 0x707f.
Definition MATCH_SD : Z := 0x3023.
Definition MASK_SD : Z := 0x707f.
Definition MATCH_SH : Z := 0x1023.
Definition MASK_SH : Z := 0x707f.
Definition MATCH_SRLI : Z := 0x5013.
Definition MASK_SRLI : Z := 0xfc00707f.
Definition MATCH_SW : Z := 0x2023.
Definition MASK_SW : Z := 0x707f.
Definition MATCH_XORI : Z := 0x4013.
Definition MASK_XORI : Z := 0x707f.

(** * The constants in the order of the header *)

Local Open Scope string_scope.

Definition DEFINE_0 : list (string * Z) := [
  ("MSTATUS_UIE", MSTATUS_UIE);
  ("MSTATUS_SIE", MSTATUS_SIE);
  ("MSTATUS_HIE", MSTATUS_HIE);
  ("MSTATUS_MIE", MSTATUS_MIE);
  ("MSTATUS_UPIE", MSTATUS_UPIE);
  ("MSTATUS_SPIE", MSTATUS_SPIE);
  ("MSTATUS_UBE", MSTATUS_UBE);
  ("MSTATUS_MPIE", MSTATUS_MPIE);
  ("MSTATUS_SPP", MSTATUS_SPP);
  ("MSTATUS_VS", MSTATUS_VS);
  ("MSTATUS_MPP", MSTATUS_MPP);
  ("MSTATUS_FS", MSTATUS_FS);
  ("MSTATUS_XS", MSTATUS_XS);
  ("MSTATUS_MPRV", MSTATUS_MPRV);
  ("MSTATUS_SUM", MSTATUS_SUM);
  ("MSTATUS_MXR", MSTATUS_MXR);
  ("MSTATUS_TVM", MSTATUS_TVM);
  ("MSTATUS_TW", MSTATUS_TW);
  ("MSTATUS_TSR", MSTATUS_TSR);
  ("MSTATUS_SPELP", MSTATUS_SPELP);
  ("MSTATUS_SDT", MSTATUS_SDT);
  ("MSTATUS32_SD", MSTATUS32_SD);
  ("MSTATUS_UXL", MSTATUS_UXL);
  ("MSTATUS_SXL", MSTATUS_SXL);
  ("MSTATUS_SBE", MSTATUS_SBE);
  ("MSTATUS_MBE", MSTATUS_MBE);
  ("MSTATUS_GVA", MSTATUS_GVA);
  ("MSTATUS_MPV", MSTATUS_MPV);
  ("MSTATUS_MPELP", MSTATUS_MPELP);
  ("MSTATUS_MDT", MSTATUS_MDT);
  ("MSTATUS64_SD", MSTATUS64_SD);
  ("MSTATUSH_SBE", MSTATUSH_SBE);
  ("MSTATUSH_MBE", MSTATUSH_MBE);
  ("MSTATUSH_GVA", MSTATUSH_GVA);
  ("MSTATUSH_MPV", MSTATUSH_MPV);
  ("MSTATUSH_MDT", MSTATUSH_MDT);
  ("SSTATUS_UIE", SSTATUS_UIE);
  ("SSTATUS_SIE", SSTATUS_SIE);
  ("SSTATUS_UPIE", SSTATUS_UPIE);
  ("SSTATUS_SPIE", SSTATUS_SPIE);
  ("SSTATUS_UBE", SSTATUS_UBE);
  ("SSTATUS_SPP", SSTATUS_SPP);
  ("SSTATUS_VS", SSTATUS_VS);
  ("SSTATUS_FS", SSTATUS_FS);
  ("SSTATUS_XS", SSTATUS_XS);
  ("SSTATUS_SUM", SSTATUS_SUM);
  ("SSTATUS_MXR", SSTATUS_MXR);
  ("SSTATUS_SPELP", SSTATUS_SPELP);
  ("SSTATUS_SDT", SSTATUS_SDT);
  ("SSTATUS32_SD", SSTATUS32_SD);
  ("SSTATUS_UXL", SSTATUS_UXL);
  ("SSTATUS64_SD", SSTATUS64_SD);
  ("HSTATUS_VSXL", HSTATUS_VSXL);
  ("HSTATUS_VTSR", HSTATUS_VTSR);
  ("HSTATUS_VTW", HSTATUS_VTW);
  ("HSTATUS_VTVM", HSTATUS_VTVM);
  ("HSTATUS_VGEIN", HSTATUS_VGEIN);
  ("HSTATUS_HU", HSTATUS_HU);
  ("HSTATUS_SPVP", HSTATUS_SPVP);
  ("HSTATUS_SPV", HSTATUS_SPV);
  ("HSTATUS_GVA", HSTATUS_GVA);
  ("HSTATUS_VSBE", HSTATUS_VSBE);
  ("HSTATUS_HUPMM", HSTATUS_HUPMM);
  ("USTATUS_UIE", USTATUS_UIE);
  ("USTATUS_UPIE", USTATUS_UPIE);
  ("MNSTATUS_NMIE", MNSTATUS_NMIE);
  ("MNSTATUS_MNPV", MNSTATUS_MNPV);
  ("MNSTATUS_MNPELP", MNSTATUS_MNPELP);
  ("MNSTATUS_MNPP", MNSTATUS_MNPP);
  ("DCSR_XDEBUGVER", DCSR_XDEBUGVER);
  ("DCSR_EXTCAUSE", DCSR_EXTCAUSE);
  ("DCSR_CETRIG", DCSR_CETRIG);
  ("DCSR_PELP", DCSR_PELP);
  ("DCSR_EBREAKVS", DCSR_EBREAKVS);
  ("DCSR_EBREAKVU", DCSR_EBREAKVU);
  ("DCSR_EBREAKM", DCSR_EBREAKM);
  ("DCSR_EBREAKS", DCSR_EBREAKS);
  ("DCSR_EBREAKU", DCSR_EBREAKU);
  ("DCSR_STEPIE", DCSR_STEPIE);
  ("DCSR_STOPCOUNT", DCSR_STOPCOUNT);
  ("DCSR_STOPTIME", DCSR_STOPTIME);
  ("DCSR_CAUSE", DCSR_CAUSE);
  ("DCSR_V", DCSR_V);
  ("DCSR_MPRVEN", DCSR_MPRVEN);
  ("DCSR_NMIP", DCSR_NMIP);
  ("DCSR_STEP", DCSR_STEP);
  ("DCSR_PRV", DCSR_PRV);
  ("DCSR_CAUSE_NONE", DCSR_CAUSE_NONE);
  ("DCSR_CAUSE_SWBP", DCSR_CAUSE_SWBP);
  ("DCSR_CAUSE_HWBP", DCSR_CAUSE_HWBP);
  ("DCSR_CAUSE_DEBUGINT", DCSR_CAUSE_DEBUGINT);
  ("DCSR_CAUSE_STEP", DCSR_CAUSE_STEP);
  ("DCSR_CAUSE_HALT", DCSR_CAUSE_HALT);
  ("DCSR_CAUSE_GROUP", DCSR_CAUSE_GROUP);
  ("DCSR_CAUSE_EXTCAUSE", DCSR_CAUSE_EXTCAUSE);
  ("DCSR_EXTCAUSE_CRITERR", DCSR_EXTCAUSE_CRITERR);
  ("MCONTROL_SELECT", MCONTROL_SELECT);
  ("MCONTROL_TIMING", MCONTROL_TIMING);
  ("MCONTROL_ACTION", MCONTROL_ACTION);
  ("MCONTROL_CHAIN", MCONTROL_CHAIN);
  ("MCONTROL_MATCH", MCONTROL_MATCH);
  ("MCONTROL_M", MCONTROL_M);
  ("MCONTROL_H", MCONTROL_H);
  ("MCONTROL_S", MCONTROL_S);
  ("MCONTROL_U", MCONTROL_U);
  ("MCONTROL_EXECUTE", MCONTROL_EXECUTE);
  ("MCONTROL_STORE", MCONTROL_STORE);
  ("MCONTROL_LOAD", MCONTROL_LOAD);
  ("MCONTROL_TYPE_NONE", MCONTROL_TYPE_NONE);
  ("MCONTROL_TYPE_MATCH", MCONTROL_TYPE_MATCH);
  ("MCONTROL_ACTION_DEBUG_EXCEPTION", MCONTROL_ACTION_DEBUG_EXCEPTION);
  ("MCONTROL_ACTION_DEBUG_MODE", MCONTROL_ACTION_DEBUG_MODE);
  ("MCONTROL_ACTION_TRACE_START", MCONTROL_ACTION_TRACE_START);
  ("MCONTROL_ACTION_TRACE_STOP", MCONTROL_ACTION_TRACE_STOP);
  ("MCONTROL_ACTION_TRACE_EMIT", MCONTROL_ACTION_TRACE_EMIT);
  ("MCONTROL_MATCH_EQUAL", MCONTROL_MATCH_EQUAL);
  ("MCONTROL_MATCH_NAPOT", MCONTROL_MATCH_NAPOT);
  ("MCONTROL_MATCH_GE", MCONTROL_MATCH_GE);
  ("MCONTROL_MATCH_LT", MCONTROL_MATCH_LT);
  ("MCONTROL_MATCH_MASK_LOW", MCONTROL_MATCH_MASK_LOW);
  ("MCONTROL_MATCH_MASK_HIGH", MCONTROL_MATCH_MASK_HIGH);
  ("MIP_USIP", MIP_USIP);
  ("MIP_SSIP", MIP_SSIP);
  ("MIP_VSSIP", MIP_VSSIP);
  ("MIP_MSIP", MIP_MSIP);
  ("MIP_UTIP", MIP_UTIP);
  ("MIP_STIP", MIP_STIP);
  ("MIP_VSTIP", MIP_VSTIP);
  ("MIP_MTIP", MIP_MTIP);
  ("MIP_UEIP", MIP_UEIP);
  ("MIP_SEIP", MIP_SEIP);
  ("MIP_VSEIP", MIP_VSEIP);
  ("MIP_MEIP", MIP_MEIP)].

Definition DEFINE_1 : list (string * Z) := [
  ("MIP_SGEIP", MIP_SGEIP);
  ("MIP_LCOFIP", MIP_LCOFIP);
  ("MIP_RAS_LOW_PRIO", MIP_RAS_LOW_PRIO);
  ("MIP_RAS_HIGH_PRIO", MIP_RAS_HIGH_PRIO);
  ("MIP_S_MASK", MIP_S_MASK);
  ("MIP_VS_MASK", MIP_VS_MASK);
  ("MIP_HS_MASK", MIP_HS_MASK);
  ("MIDELEG_FORCED_MASK", MIDELEG_FORCED_MASK);
  ("SIP_SSIP", SIP_SSIP);
  ("SIP_STIP", SIP_STIP);
  ("MENVCFG_FIOM", MENVCFG_FIOM);
  ("MENVCFG_LPE", MENVCFG_LPE);
  ("MENVCFG_SSE", MENVCFG_SSE);
  ("MENVCFG_CBIE", MENVCFG_CBIE);
  ("MENVCFG_CBCFE", MENVCFG_CBCFE);
  ("MENVCFG_CBZE", MENVCFG_CBZE);
  ("MENVCFG_PMM", MENVCFG_PMM);
  ("MENVCFG_DTE", MENVCFG_DTE);
  ("MENVCFG_CDE", MENVCFG_CDE);
  ("MENVCFG_ADUE", MENVCFG_ADUE);
  ("MENVCFG_PBMTE", MENVCFG_PBMTE);
  ("MENVCFG_STCE", MENVCFG_STCE);
  ("MENVCFGH_DTE", MENVCFGH_DTE);
  ("MENVCFGH_CDE", MENVCFGH_CDE);
  ("MENVCFGH_ADUE", MENVCFGH_ADUE);
  ("MENVCFGH_PBMTE", MENVCFGH_PBMTE);
  ("MENVCFGH_STCE", MENVCFGH_STCE);
  ("MSTATEEN0_CS", MSTATEEN0_CS);
  ("MSTATEEN0_FCSR", MSTATEEN0_FCSR);
  ("MSTATEEN0_JVT", MSTATEEN0_JVT);
  ("MSTATEEN0_CTR", MSTATEEN0_CTR);
  ("MSTATEEN0_PRIV113", MSTATEEN0_PRIV113);
  ("MSTATEEN0_PRIV114", MSTATEEN0_PRIV114);
  ("MSTATEEN0_IMSIC", MSTATEEN0_IMSIC);
  ("MSTATEEN0_HCONTEXT", MSTATEEN0_HCONTEXT);
  ("MSTATEEN0_AIA", MSTATEEN0_AIA);
  ("MSTATEEN0_CSRIND", MSTATEEN0_CSRIND);
  ("MSTATEEN0_HENVCFG", MSTATEEN0_HENVCFG);
  ("MSTATEEN_HSTATEEN", MSTATEEN_HSTATEEN);
  ("MSTATEEN0H_CTR", MSTATEEN0H_CTR);
  ("MSTATEEN0H_PRIV113", MSTATEEN0H_PRIV113);
  ("MSTATEEN0H_PRIV114", MSTATEEN0H_PRIV114);
  ("MSTATEEN0H_IMSIC", MSTATEEN0H_IMSIC);
  ("MSTATEEN0H_HCONTEXT", MSTATEEN0H_HCONTEXT);
  ("MSTATEEN0H_AIA", MSTATEEN0H_AIA);
  ("MSTATEEN0H_CSRIND", MSTATEEN0H_CSRIND);
  ("MSTATEEN0H_HENVCFG", MSTATEEN0H_HENVCFG);
  ("MSTATEENH_HSTATEEN", MSTATEENH_HSTATEEN);
  ("MHPMEVENT_VUINH", MHPMEVENT_VUINH);
  ("MHPMEVENT_VSINH", MHPMEVENT_VSINH);
  ("MHPMEVENT_UINH", MHPMEVENT_UINH);
  ("MHPMEVENT_SINH", MHPMEVENT_SINH);
  ("MHPMEVENT_MINH", MHPMEVENT_MINH);
  ("MHPMEVENT_OF", MHPMEVENT_OF);
  ("MHPMEVENTH_VUINH", MHPMEVENTH_VUINH);
  ("MHPMEVENTH_VSINH", MHPMEVENTH_VSINH);
  ("MHPMEVENTH_UINH", MHPMEVENTH_UINH);
  ("MHPMEVENTH_SINH", MHPMEVENTH_SINH);
  ("MHPMEVENTH_MINH", MHPMEVENTH_MINH);
  ("MHPMEVENTH_OF", MHPMEVENTH_OF);
  ("MCOUNTEREN_CY_SHIFT", MCOUNTEREN_CY_SHIFT);
  ("MCOUNTEREN_TIME_SHIFT", MCOUNTEREN_TIME_SHIFT);
  ("MCOUNTEREN_IR_SHIFT", MCOUNTEREN_IR_SHIFT);
  ("MCOUNTEREN_CY", MCOUNTEREN_CY);
  ("MCOUNTEREN_TIME", MCOUNTEREN_TIME);
  ("MCOUNTEREN_IR", MCOUNTEREN_IR);
  ("MCOUNTINHIBIT_CY", MCOUNTINHIBIT_CY);
  ("MCOUNTINHIBIT_IR", MCOUNTINHIBIT_IR);
  ("HENVCFG_FIOM", HENVCFG_FIOM);
  ("HENVCFG_LPE", HENVCFG_LPE);
  ("HENVCFG_SSE", HENVCFG_SSE);
  ("HENVCFG_CBIE", HENVCFG_CBIE);
  ("HENVCFG_CBCFE", HENVCFG_CBCFE);
  ("HENVCFG_CBZE", HENVCFG_CBZE);
  ("HENVCFG_PMM", HENVCFG_PMM);
  ("HENVCFG_DTE", HENVCFG_DTE);
  ("HENVCFG_ADUE", HENVCFG_ADUE);
  ("HENVCFG_PBMTE", HENVCFG_PBMTE);
  ("HENVCFG_STCE", HENVCFG_STCE);
  ("HENVCFGH_DTE", HENVCFGH_DTE);
  ("HENVCFGH_ADUE", HENVCFGH_ADUE);
  ("HENVCFGH_PBMTE", HENVCFGH_PBMTE);
  ("HENVCFGH_STCE", HENVCFGH_STCE);
  ("SISELECT_SMCDELEG_START", 0x40);
  ("SISELECT_SMCDELEG_UNUSED", 0x41);
  ("SISELECT_SMCDELEG_INSTRET", 0x42);
  ("SISELECT_SMCDELEG_INSTRETCFG", 0x42);
  ("SISELECT_SMCDELEG_HPMCOUNTER_3", 0x43);
  ("SISELECT_SMCDELEG_HPMEVENT_3", 0x43);
  ("SISELECT_SMCDELEG_END", 0x5f);
  ("MISELECT_IPRIO", 0x30);
  ("MISELECT_IPRIO_TOP", 0x3f);
  ("MISELECT_IMSIC", 0x70);
  ("MISELECT_IMSIC_TOP", 0xff);
  ("SISELECT_IPRIO", 0x30);
  ("SISELECT_IPRIO_TOP", 0x3f);
  ("SISELECT_IMSIC", 0x70);
  ("SISELECT_IMSIC_TOP", 0xff);
  ("VSISELECT_IMSIC", 0x70);
  ("VSISELECT_IMSIC_TOP", 0xff);
  ("HSTATEEN0_CS", HSTATEEN0_CS);
  ("HSTATEEN0_FCSR", HSTATEEN0_FCSR);
  ("HSTATEEN0_JVT", HSTATEEN0_JVT);
  ("HSTATEEN0_CTR", HSTATEEN0_CTR);
  ("HSTATEEN0_SCONTEXT", HSTATEEN0_SCONTEXT);
  ("HSTATEEN0_IMSIC", HSTATEEN0_IMSIC);
  ("HSTATEEN0_AIA", HSTATEEN0_AIA);
  ("HSTATEEN0_CSRIND", HSTATEEN0_CSRIND);
  ("HSTATEEN0_SENVCFG", HSTATEEN0_SENVCFG);
  ("HSTATEEN_SSTATEEN", HSTATEEN_SSTATEEN);
  ("HSTATEEN0H_CTR", HSTATEEN0H_CTR);
  ("HSTATEEN0H_SCONTEXT", HSTATEEN0H_SCONTEXT);
  ("HSTATEEN0H_IMSIC", HSTATEEN0H_IMSIC);
  ("HSTATEEN0H_AIA", HSTATEEN0H_AIA);
  ("HSTATEEN0H_CSRIND", HSTATEEN0H_CSRIND);
  ("HSTATEEN0H_SENVCFG", HSTATEEN0H_SENVCFG);
  ("HSTATEENH_SSTATEEN", HSTATEENH_SSTATEEN);
  ("SENVCFG_FIOM", SENVCFG_FIOM);
  ("SENVCFG_LPE", SENVCFG_LPE);
  ("SENVCFG_SSE", SENVCFG_SSE);
  ("SENVCFG_CBIE", SENVCFG_CBIE);
  ("SENVCFG_CBCFE", SENVCFG_CBCFE);
  ("SENVCFG_CBZE", SENVCFG_CBZE);
  ("SENVCFG_PMM", SENVCFG_PMM)].

Definition DEFINE_2 : list (string * Z) := [
  ("SSTATEEN0_CS", SSTATEEN0_CS);
  ("SSTATEEN0_FCSR", SSTATEEN0_FCSR);
  ("SSTATEEN0_JVT", SSTATEEN0_JVT);
  ("MSECCFG_MML", MSECCFG_MML);
  ("MSECCFG_MMWP", MSECCFG_MMWP);
  ("MSECCFG_RLB", MSECCFG_RLB);
  ("MSECCFG_USEED", MSECCFG_USEED);
  ("MSECCFG_SSEED", MSECCFG_SSEED);
  ("MSECCFG_MLPE", MSECCFG_MLPE);
  ("MSECCFG_PMM", MSECCFG_PMM);
  ("JVT_MODE", JVT_MODE);
  ("JVT_BASE", JVT_BASE);
  ("HVICTL_VTI", HVICTL_VTI);
  ("HVICTL_IID", HVICTL_IID);
  ("HVICTL_DPR", HVICTL_DPR);
  ("HVICTL_IPRIOM", HVICTL_IPRIOM);
  ("HVICTL_IPRIO", HVICTL_IPRIO);
  ("MTOPI_IID", MTOPI_IID);
  ("MTOPI_IPRIO", MTOPI_IPRIO);
  ("PRV_U", PRV_U);
  ("PRV_S", PRV_S);
  ("PRV_M", PRV_M);
  ("PRV_HS", PRV_HS);
  ("SATP32_MODE", SATP32_MODE);
  ("SATP32_ASID", SATP32_ASID);
  ("SATP32_PPN", SATP32_PPN);
  ("SATP64_MODE", SATP64_MODE);
  ("SATP64_ASID", SATP64_ASID);
  ("SATP64_PPN", SATP64_PPN);
  ("SATP_MODE_OFF", SATP_MODE_OFF);
  ("SATP_MODE_SV32", SATP_MODE_SV32);
  ("SATP_MODE_SV39", SATP_MODE_SV39);
  ("SATP_MODE_SV48", SATP_MODE_SV48);
  ("SATP_MODE_SV57", SATP_MODE_SV57);
  ("SATP_MODE_SV64", SATP_MODE_SV64);
  ("HGATP32_MODE", HGATP32_MODE);
  ("HGATP32_VMID", HGATP32_VMID);
  ("HGATP32_PPN", HGATP32_PPN);
  ("HGATP64_MODE", HGATP64_MODE);
  ("HGATP64_VMID", HGATP64_VMID);
  ("HGATP64_PPN", HGATP64_PPN);
  ("HGATP_MODE_OFF", HGATP_MODE_OFF);
  ("HGATP_MODE_SV32X4", HGATP_MODE_SV32X4);
  ("HGATP_MODE_SV39X4", HGATP_MODE_SV39X4);
  ("HGATP_MODE_SV48X4", HGATP_MODE_SV48X4);
  ("HGATP_MODE_SV57X4", HGATP_MODE_SV57X4);
  ("PMP_R", PMP_R);
  ("PMP_W", PMP_W);
  ("PMP_X", PMP_X);
  ("PMP_A", PMP_A);
  ("PMP_L", PMP_L);
  ("PMP_SHIFT", PMP_SHIFT);
  ("PMP_TOR", PMP_TOR);
  ("PMP_NA4", PMP_NA4);
  ("PMP_NAPOT", PMP_NAPOT);
  ("MCTRCTL_U", 1);
  ("MCTRCTL_S", 2);
  ("MCTRCTL_M", 4);
  ("MCTRCTL_RASEMU", 0x80);
  ("MCTRCTL_STE", 0x100);
  ("MCTRCTL_MTE", 0x200);
  ("MCTRCTL_BPFRZ", 0x800);
  ("MCTRCTL_LCOFIFRZ", 0x1000);
  ("MCTRCTL_EXCINH", 0x200000000);
  ("MCTRCTL_INTRINH", 0x400000000);
  ("MCTRCTL_TRETINH", 0x800000000);
  ("MCTRCTL_NTBREN", 0x1000000000);
  ("MCTRCTL_TKBRINH", 0x2000000000);
  ("MCTRCTL_INDCALLINH", 0x10000000000);
  ("MCTRCTL_DIRCALLINH", 0x20000000000);
  ("MCTRCTL_INDJMPINH", 0x40000000000);
  ("MCTRCTL_DIRJMPINH", 0x80000000000);
  ("MCTRCTL_CORSWAPINH", 0x100000000000);
  ("MCTRCTL_RETINH", 0x200000000000);
  ("MCTRCTL_INDLJMPINH", 0x400000000000);
  ("MCTRCTL_DIRLJMPINH", 0x800000000000);
  ("SCTRCTL_U", 1);
  ("SCTRCTL_S", 2);
  ("SCTRCTL_RASEMU", 0x80);
  ("SCTRCTL_STE", 0x100);
  ("SCTRCTL_BPFRZ", 0x800);
  ("SCTRCTL_LCOFIFRZ", 0x1000);
  ("SCTRCTL_EXCINH", 0x200000000);
  ("SCTRCTL_INTRINH", 0x400000000);
  ("SCTRCTL_TRETINH", 0x800000000);
  ("SCTRCTL_NTBREN", 0x1000000000);
  ("SCTRCTL_TKBRINH", 0x2000000000);
  ("SCTRCTL_INDCALLINH", 0x10000000000);
  ("SCTRCTL_DIRCALLINH", 0x20000000000);
  ("SCTRCTL_INDJMPINH", 0x40000000000);
  ("SCTRCTL_DIRJMPINH", 0x80000000000);
  ("SCTRCTL_CORSWAPINH", 0x100000000000);
  ("SCTRCTL_RETINH", 0x200000000000);
  ("SCTRCTL_INDLJMPINH", 0x400000000000);
  ("SCTRCTL_DIRLJMPINH", 0x800000000000);
  ("VSCTRCTL_U", 1);
  ("VSCTRCTL_S", 2);
  ("VSCTRCTL_RASEMU", 0x80);
  ("VSCTRCTL_STE", 0x100);
  ("VSCTRCTL_BPFRZ", 0x800);
  ("VSCTRCTL_LCOFIFRZ", 0x1000);
  ("VSCTRCTL_EXCINH", 0x200000000);
  ("VSCTRCTL_INTRINH", 0x400000000);
  ("VSCTRCTL_TRETINH", 0x800000000);
  ("VSCTRCTL_NTBREN", 0x1000000000);
  ("VSCTRCTL_TKBRINH", 0x2000000000);
  ("VSCTRCTL_INDCALLINH", 0x10000000000);
  ("VSCTRCTL_DIRCALLINH", 0x20000000000);
  ("VSCTRCTL_INDJMPINH", 0x40000000000);
  ("VSCTRCTL_DIRJMPINH", 0x80000000000);
  ("VSCTRCTL_CORSWAPINH", 0x100000000000);
  ("VSCTRCTL_RETINH", 0x200000000000);
  ("VSCTRCTL_INDLJMPINH", 0x400000000000);
  ("VSCTRCTL_DIRLJMPINH", 0x800000000000);
  ("SCTRDEPTH_DEPTH", 7);
  ("SCTRSTATUS_WRPTR", 0xff);
  ("SCTRSTATUS_FROZEN", 0x80000000);
  ("IRQ_U_SOFT", IRQ_U_SOFT);
  ("IRQ_S_SOFT", IRQ_S_SOFT);
  ("IRQ_VS_SOFT", IRQ_VS_SOFT);
  ("IRQ_M_SOFT", IRQ_M_SOFT);
  ("IRQ_U_TIMER", IRQ_U_TIMER);
  ("IRQ_S_TIMER", IRQ_S_TIMER);
  ("IRQ_VS_TIMER", IRQ_VS_TIMER);
  ("IRQ_M_TIMER", IRQ_M_TIMER);
  ("IRQ_U_EXT", IRQ_U_EXT);
  ("IRQ_S_EXT", IRQ_S_EXT);
  ("IRQ_VS_EXT", IRQ_VS_EXT);
  ("IRQ_M_EXT", IRQ_M_EXT);
  ("IRQ_S_GEXT", IRQ_S_GEXT)].

Definition DEFINE_3 : list (string * Z) := [
  ("IRQ_COP", IRQ_COP);
  ("IRQ_LCOF", IRQ_LCOF);
  ("IRQ_RAS_LOW_PRIO", IRQ_RAS_LOW_PRIO);
  ("IRQ_RAS_HIGH_PRIO", IRQ_RAS_HIGH_PRIO);
  ("PTE_V", PTE_V);
  ("PTE_R", PTE_R);
  ("PTE_W", PTE_W);
  ("PTE_X", PTE_X);
  ("PTE_U", PTE_U);
  ("PTE_G", PTE_G);
  ("PTE_A", PTE_A);
  ("PTE_D", PTE_D);
  ("PTE_SOFT", PTE_SOFT);
  ("PTE_RSVD", PTE_RSVD);
  ("PTE_PBMT", PTE_PBMT);
  ("PTE_N", PTE_N);
  ("PTE_ATTR", PTE_ATTR);
  ("PTE_PPN_SHIFT", PTE_PPN_SHIFT);
  ("SRMCFG_RCID", SRMCFG_RCID);
  ("SRMCFG_MCID", SRMCFG_MCID);
  ("LANDING_PAD_FAULT", LANDING_PAD_FAULT);
  ("SHADOW_STACK_FAULT", SHADOW_STACK_FAULT)].

Definition DEFINE_4 : list (string * Z) := [
  ("CSR_FFLAGS", CSR_FFLAGS);
  ("CSR_FRM", CSR_FRM);
  ("CSR_FCSR", CSR_FCSR);
  ("CSR_VSTART", CSR_VSTART);
  ("CSR_VXSAT", CSR_VXSAT);
  ("CSR_VXRM", CSR_VXRM);
  ("CSR_VCSR", CSR_VCSR);
  ("CSR_SSP", CSR_SSP);
  ("CSR_SEED", CSR_SEED);
  ("CSR_JVT", CSR_JVT);
  ("CSR_CYCLE", CSR_CYCLE);
  ("CSR_TIME", CSR_TIME);
  ("CSR_INSTRET", CSR_INSTRET);
  ("CSR_HPMCOUNTER3", CSR_HPMCOUNTER3);
  ("CSR_HPMCOUNTER4", CSR_HPMCOUNTER4);
  ("CSR_HPMCOUNTER5", CSR_HPMCOUNTER5);
  ("CSR_HPMCOUNTER6", CSR_HPMCOUNTER6);
  ("CSR_HPMCOUNTER7", CSR_HPMCOUNTER7);
  ("CSR_HPMCOUNTER8", CSR_HPMCOUNTER8);
  ("CSR_HPMCOUNTER9", CSR_HPMCOUNTER9);
  ("CSR_HPMCOUNTER10", CSR_HPMCOUNTER10);
  ("CSR_HPMCOUNTER11", CSR_HPMCOUNTER11);
  ("CSR_HPMCOUNTER12", CSR_HPMCOUNTER12);
  ("CSR_HPMCOUNTER13", CSR_HPMCOUNTER13);
  ("CSR_HPMCOUNTER14", CSR_HPMCOUNTER14);
  ("CSR_HPMCOUNTER15", CSR_HPMCOUNTER15);
  ("CSR_HPMCOUNTER16", CSR_HPMCOUNTER16);
  ("CSR_HPMCOUNTER17", CSR_HPMCOUNTER17);
  ("CSR_HPMCOUNTER18", CSR_HPMCOUNTER18);
  ("CSR_HPMCOUNTER19", CSR_HPMCOUNTER19);
  ("CSR_HPMCOUNTER20", CSR_HPMCOUNTER20);
  ("CSR_HPMCOUNTER21", CSR_HPMCOUNTER21);
  ("CSR_HPMCOUNTER22", CSR_HPMCOUNTER22);
  ("CSR_HPMCOUNTER23", CSR_HPMCOUNTER23);
  ("CSR_HPMCOUNTER24", CSR_HPMCOUNTER24);
  ("CSR_HPMCOUNTER25", CSR_HPMCOUNTER25);
  ("CSR_HPMCOUNTER26", CSR_HPMCOUNTER26);
  ("CSR_HPMCOUNTER27", CSR_HPMCOUNTER27);
  ("CSR_HPMCOUNTER28", CSR_HPMCOUNTER28);
  ("CSR_HPMCOUNTER29", CSR_HPMCOUNTER29);
  ("CSR_HPMCOUNTER30", CSR_HPMCOUNTER30);
  ("CSR_HPMCOUNTER31", CSR_HPMCOUNTER31);
  ("CSR_VL", CSR_VL);
  ("CSR_VTYPE", CSR_VTYPE);
  ("CSR_VLENB", CSR_VLENB);
  ("CSR_SSTATUS", CSR_SSTATUS);
  ("CSR_SIE", CSR_SIE);
  ("CSR_STVEC", CSR_STVEC);
  ("CSR_SCOUNTEREN", CSR_SCOUNTEREN);
  ("CSR_SENVCFG", CSR_SENVCFG);
  ("CSR_SSTATEEN0", CSR_SSTATEEN0);
  ("CSR_SSTATEEN1", CSR_SSTATEEN1);
  ("CSR_SSTATEEN2", CSR_SSTATEEN2);
  ("CSR_SSTATEEN3", CSR_SSTATEEN3);
  ("CSR_SCOUNTINHIBIT", CSR_SCOUNTINHIBIT);
  ("CSR_SSCRATCH", CSR_SSCRATCH);
  ("CSR_SEPC", CSR_SEPC);
  ("CSR_SCAUSE", CSR_SCAUSE);
  ("CSR_STVAL", CSR_STVAL);
  ("CSR_SIP", CSR_SIP);
  ("CSR_STIMECMP", CSR_STIMECMP);
  ("CSR_SCTRCTL", CSR_SCTRCTL);
  ("CSR_SCTRSTATUS", CSR_SCTRSTATUS);
  ("CSR_SISELECT", CSR_SISELECT);
  ("CSR_SIREG", CSR_SIREG);
  ("CSR_SIREG2", CSR_SIREG2);
  ("CSR_SIREG3", CSR_SIREG3);
  ("CSR_SIREG4", CSR_SIREG4);
  ("CSR_SIREG5", CSR_SIREG5);
  ("CSR_SIREG6", CSR_SIREG6);
  ("CSR_STOPEI", CSR_STOPEI);
  ("CSR_SCTRDEPTH", CSR_SCTRDEPTH);
  ("CSR_SATP", CSR_SATP);
  ("CSR_SRMCFG", CSR_SRMCFG);
  ("CSR_SCONTEXT", CSR_SCONTEXT);
  ("CSR_VSSTATUS", CSR_VSSTATUS);
  ("CSR_VSIE", CSR_VSIE);
  ("CSR_VSTVEC", CSR_VSTVEC);
  ("CSR_VSSCRATCH", CSR_VSSCRATCH);
  ("CSR_VSEPC", CSR_VSEPC);
  ("CSR_VSCAUSE", CSR_VSCAUSE);
  ("CSR_VSTVAL", CSR_VSTVAL);
  ("CSR_VSIP", CSR_VSIP);
  ("CSR_VSTIMECMP", CSR_VSTIMECMP);
  ("CSR_VSCTRCTL", CSR_VSCTRCTL);
  ("CSR_VSISELECT", CSR_VSISELECT);
  ("CSR_VSIREG", CSR_VSIREG);
  ("CSR_VSIREG2", CSR_VSIREG2);
  ("CSR_VSIREG3", CSR_VSIREG3);
  ("CSR_VSIREG4", CSR_VSIREG4);
  ("CSR_VSIREG5", CSR_VSIREG5);
  ("CSR_VSIREG6", CSR_VSIREG6);
  ("CSR_VSTOPEI", CSR_VSTOPEI);
  ("CSR_VSATP", CSR_VSATP);
  ("CSR_HSTATUS", CSR_HSTATUS);
  ("CSR_HEDELEG", CSR_HEDELEG);
  ("CSR_HIDELEG", CSR_HIDELEG);
  ("CSR_HIE", CSR_HIE);
  ("CSR_HTIMEDELTA", CSR_HTIMEDELTA);
  ("CSR_HCOUNTEREN", CSR_HCOUNTEREN);
  ("CSR_HGEIE", CSR_HGEIE);
  ("CSR_HVIEN", CSR_HVIEN);
  ("CSR_HVICTL", CSR_HVICTL);
  ("CSR_HENVCFG", CSR_HENVCFG);
  ("CSR_HSTATEEN0", CSR_HSTATEEN0);
  ("CSR_HSTATEEN1", CSR_HSTATEEN1);
  ("CSR_HSTATEEN2", CSR_HSTATEEN2);
  ("CSR_HSTATEEN3", CSR_HSTATEEN3);
  ("CSR_HTVAL", CSR_HTVAL);
  ("CSR_HIP", CSR_HIP);
  ("CSR_HVIP", CSR_HVIP);
  ("CSR_HVIPRIO1", CSR_HVIPRIO1);
  ("CSR_HVIPRIO2", CSR_HVIPRIO2);
  ("CSR_HTINST", CSR_HTINST);
  ("CSR_HGATP", CSR_HGATP);
  ("CSR_HCONTEXT", CSR_HCONTEXT);
  ("CSR_HGEIP", CSR_HGEIP);
  ("CSR_VSTOPI", CSR_VSTOPI);
  ("CSR_SCOUNTOVF", CSR_SCOUNTOVF);
  ("CSR_STOPI", CSR_STOPI);
  ("CSR_UTVT", CSR_UTVT);
  ("CSR_UNXTI", CSR_UNXTI);
  ("CSR_UINTSTATUS", CSR_UINTSTATUS);
  ("CSR_USCRATCHCSW", CSR_USCRATCHCSW);
  ("CSR_USCRATCHCSWL", CSR_USCRATCHCSWL);
  ("CSR_STVT", CSR_STVT);
  ("CSR_SNXTI", CSR_SNXTI);
  ("CSR_SINTSTATUS", CSR_SINTSTATUS);
  ("CSR_SSCRATCHCSW", CSR_SSCRATCHCSW);
  ("CSR_SSCRATCHCSWL", CSR_SSCRATCHCSWL);
  ("CSR_MTVT", CSR_MTVT);
  ("CSR_MNXTI", CSR_MNXTI);
  ("CSR_MINTSTATUS", CSR_MINTSTATUS);
  ("CSR_MSCRATCHCSW", CSR_MSCRATCHCSW);
  ("CSR_MSCRATCHCSWL", CSR_MSCRATCHCSWL);
  ("CSR_MSTATUS", CSR_MSTATUS);
  ("CSR_MISA", CSR_MISA);
  ("CSR_MEDELEG", CSR_MEDELEG);
  ("CSR_MIDELEG", CSR_MIDELEG);
  ("CSR_MIE", CSR_MIE);
  ("CSR_MTVEC", CSR_MTVEC);
  ("CSR_MCOUNTEREN", CSR_MCOUNTEREN);
  ("CSR_MVIEN", CSR_MVIEN);
  ("CSR_MVIP", CSR_MVIP);
  ("CSR_MENVCFG", CSR_MENVCFG);
  ("CSR_MSTATEEN0", CSR_MSTATEEN0);
  ("CSR_MSTATEEN1", CSR_MSTATEEN1);
  ("CSR_MSTATEEN2", CSR_MSTATEEN2);
  ("CSR_MSTATEEN3", CSR_MSTATEEN3);
  ("CSR_MCOUNTINHIBIT", CSR_MCOUNTINHIBIT)].

Definition DEFINE_5 : list (string * Z) := [
  ("CSR_MSCRATCH", CSR_MSCRATCH);
  ("CSR_MEPC", CSR_MEPC);
  ("CSR_MCAUSE", CSR_MCAUSE);
  ("CSR_MTVAL", CSR_MTVAL);
  ("CSR_MIP", CSR_MIP);
  ("CSR_MTINST", CSR_MTINST);
  ("CSR_MTVAL2", CSR_MTVAL2);
  ("CSR_MCTRCTL", CSR_MCTRCTL);
  ("CSR_MISELECT", CSR_MISELECT);
  ("CSR_MIREG", CSR_MIREG);
  ("CSR_MIREG2", CSR_MIREG2);
  ("CSR_MIREG3", CSR_MIREG3);
  ("CSR_MIREG4", CSR_MIREG4);
  ("CSR_MIREG5", CSR_MIREG5);
  ("CSR_MIREG6", CSR_MIREG6);
  ("CSR_MTOPEI", CSR_MTOPEI);
  ("CSR_PMPCFG0", CSR_PMPCFG0);
  ("CSR_PMPCFG1", CSR_PMPCFG1);
  ("CSR_PMPCFG2", CSR_PMPCFG2);
  ("CSR_PMPCFG3", CSR_PMPCFG3);
  ("CSR_PMPCFG4", CSR_PMPCFG4);
  ("CSR_PMPCFG5", CSR_PMPCFG5);
  ("CSR_PMPCFG6", CSR_PMPCFG6);
  ("CSR_PMPCFG7", CSR_PMPCFG7);
  ("CSR_PMPCFG8", CSR_PMPCFG8);
  ("CSR_PMPCFG9", CSR_PMPCFG9);
  ("CSR_PMPCFG10", CSR_PMPCFG10);
  ("CSR_PMPCFG11", CSR_PMPCFG11);
  ("CSR_PMPCFG12", CSR_PMPCFG12);
  ("CSR_PMPCFG13", CSR_PMPCFG13);
  ("CSR_PMPCFG14", CSR_PMPCFG14);
  ("CSR_PMPCFG15", CSR_PMPCFG15);
  ("CSR_PMPADDR0", CSR_PMPADDR0);
  ("CSR_PMPADDR1", CSR_PMPADDR1);
  ("CSR_PMPADDR2", CSR_PMPADDR2);
  ("CSR_PMPADDR3", CSR_PMPADDR3);
  ("CSR_PMPADDR4", CSR_PMPADDR4);
  ("CSR_PMPADDR5", CSR_PMPADDR5);
  ("CSR_PMPADDR6", CSR_PMPADDR6);
  ("CSR_PMPADDR7", CSR_PMPADDR7);
  ("CSR_PMPADDR8", CSR_PMPADDR8);
  ("CSR_PMPADDR9", CSR_PMPADDR9);
  ("CSR_PMPADDR10", CSR_PMPADDR10);
  ("CSR_PMPADDR11", CSR_PMPADDR11);
  ("CSR_PMPADDR12", CSR_PMPADDR12);
  ("CSR_PMPADDR13", CSR_PMPADDR13);
  ("CSR_PMPADDR14", CSR_PMPADDR14);
  ("CSR_PMPADDR15", CSR_PMPADDR15);
  ("CSR_PMPADDR16", CSR_PMPADDR16);
  ("CSR_PMPADDR17", CSR_PMPADDR17);
  ("CSR_PMPADDR18", CSR_PMPADDR18);
  ("CSR_PMPADDR19", CSR_PMPADDR19);
  ("CSR_PMPADDR20", CSR_PMPADDR20);
  ("CSR_PMPADDR21", CSR_PMPADDR21);
  ("CSR_PMPADDR22", CSR_PMPADDR22);
  ("CSR_PMPADDR23", CSR_PMPADDR23);
  ("CSR_PMPADDR24", CSR_PMPADDR24);
  ("CSR_PMPADDR25", CSR_PMPADDR25);
  ("CSR_PMPADDR26", CSR_PMPADDR26);
  ("CSR_PMPADDR27", CSR_PMPADDR27);
  ("CSR_PMPADDR28", CSR_PMPADDR28);
  ("CSR_PMPADDR29", CSR_PMPADDR29);
  ("CSR_PMPADDR30", CSR_PMPADDR30);
  ("CSR_PMPADDR31", CSR_PMPADDR31);
  ("CSR_PMPADDR32", CSR_PMPADDR32);
  ("CSR_PMPADDR33", CSR_PMPADDR33);
  ("CSR_PMPADDR34", CSR_PMPADDR34);
  ("CSR_PMPADDR35", CSR_PMPADDR35);
  ("CSR_PMPADDR36", CSR_PMPADDR36);
  ("CSR_PMPADDR37", CSR_PMPADDR37);
  ("CSR_PMPADDR38", CSR_PMPADDR38);
  ("CSR_PMPADDR39", CSR_PMPADDR39);
  ("CSR_PMPADDR40", CSR_PMPADDR40);
  ("CSR_PMPADDR41", CSR_PMPADDR41);
  ("CSR_PMPADDR42", CSR_PMPADDR42);
  ("CSR_PMPADDR43", CSR_PMPADDR43);
  ("CSR_PMPADDR44", CSR_PMPADDR44);
  ("CSR_PMPADDR45", CSR_PMPADDR45);
  ("CSR_PMPADDR46", CSR_PMPADDR46);
  ("CSR_PMPADDR47", CSR_PMPADDR47);
  ("CSR_PMPADDR48", CSR_PMPADDR48);
  ("CSR_PMPADDR49", CSR_PMPADDR49);
  ("CSR_PMPADDR50", CSR_PMPADDR50);
  ("CSR_PMPADDR51", CSR_PMPADDR51);
  ("CSR_PMPADDR52", CSR_PMPADDR52);
  ("CSR_PMPADDR53", CSR_PMPADDR53);
  ("CSR_PMPADDR54", CSR_PMPADDR54);
  ("CSR_PMPADDR55", CSR_PMPADDR55);
  ("CSR_PMPADDR56", CSR_PMPADDR56);
  ("CSR_PMPADDR57", CSR_PMPADDR57);
  ("CSR_PMPADDR58", CSR_PMPADDR58);
  ("CSR_PMPADDR59", CSR_PMPADDR59);
  ("CSR_PMPADDR60", CSR_PMPADDR60);
  ("CSR_PMPADDR61", CSR_PMPADDR61);
  ("CSR_PMPADDR62", CSR_PMPADDR62);
  ("CSR_PMPADDR63", CSR_PMPADDR63);
  ("CSR_MSECCFG", CSR_MSECCFG);
  ("CSR_TSELECT", CSR_TSELECT);
  ("CSR_TDATA1", CSR_TDATA1);
  ("CSR_TDATA2", CSR_TDATA2);
  ("CSR_TDATA3", CSR_TDATA3);
  ("CSR_TINFO", CSR_TINFO);
  ("CSR_TCONTROL", CSR_TCONTROL);
  ("CSR_MCONTEXT", CSR_MCONTEXT);
  ("CSR_MSCONTEXT", CSR_MSCONTEXT);
  ("CSR_DCSR", CSR_DCSR);
  ("CSR_DPC", CSR_DPC);
  ("CSR_DSCRATCH0", CSR_DSCRATCH0);
  ("CSR_DSCRATCH1", CSR_DSCRATCH1);
  ("CSR_MCYCLE", CSR_MCYCLE);
  ("CSR_MINSTRET", CSR_MINSTRET);
  ("CSR_MHPMCOUNTER3", CSR_MHPMCOUNTER3);
  ("CSR_MHPMCOUNTER4", CSR_MHPMCOUNTER4);
  ("CSR_MHPMCOUNTER5", CSR_MHPMCOUNTER5);
  ("CSR_MHPMCOUNTER6", CSR_MHPMCOUNTER6);
  ("CSR_MHPMCOUNTER7", CSR_MHPMCOUNTER7);
  ("CSR_MHPMCOUNTER8", CSR_MHPMCOUNTER8);
  ("CSR_MHPMCOUNTER9", CSR_MHPMCOUNTER9);
  ("CSR_MHPMCOUNTER10", CSR_MHPMCOUNTER10);
  ("CSR_MHPMCOUNTER11", CSR_MHPMCOUNTER11);
  ("CSR_MHPMCOUNTER12", CSR_MHPMCOUNTER12);
  ("CSR_MHPMCOUNTER13", CSR_MHPMCOUNTER13);
  ("CSR_MHPMCOUNTER14", CSR_MHPMCOUNTER14);
  ("CSR_MHPMCOUNTER15", CSR_MHPMCOUNTER15);
  ("CSR_MHPMCOUNTER16", CSR_MHPMCOUNTER16);
  ("CSR_MHPMCOUNTER17", CSR_MHPMCOUNTER17);
  ("CSR_MHPMCOUNTER18", CSR_MHPMCOUNTER18);
  ("CSR_MHPMCOUNTER19", CSR_MHPMCOUNTER19);
  ("CSR_MHPMCOUNTER20", CSR_MHPMCOUNTER20);
  ("CSR_MHPMCOUNTER21", CSR_MHPMCOUNTER21);
  ("CSR_MHPMCOUNTER22", CSR_MHPMCOUNTER22);
  ("CSR_MHPMCOUNTER23", CSR_MHPMCOUNTER23);
  ("CSR_MHPMCOUNTER24", CSR_MHPMCOUNTER24);
  ("CSR_MHPMCOUNTER25", CSR_MHPMCOUNTER25);
  ("CSR_MHPMCOUNTER26", CSR_MHPMCOUNTER26);
  ("CSR_MHPMCOUNTER27", CSR_MHPMCOUNTER27);
  ("CSR_MHPMCOUNTER28", CSR_MHPMCOUNTER28);
  ("CSR_MHPMCOUNTER29", CSR_MHPMCOUNTER29);
  ("CSR_MHPMCOUNTER30", CSR_MHPMCOUNTER30);
  ("CSR_MHPMCOUNTER31", CSR_MHPMCOUNTER31);
  ("CSR_MCYCLECFG", CSR_MCYCLECFG);
  ("CSR_MINSTRETCFG", CSR_MINSTRETCFG);
  ("CSR_MHPMEVENT3", CSR_MHPMEVENT3);
  ("CSR_MHPMEVENT4", CSR_MHPMEVENT4);
  ("CSR_MHPMEVENT5", CSR_MHPMEVENT5);
  ("CSR_MHPMEVENT6", CSR_MHPMEVENT6);
  ("CSR_MHPMEVENT7", CSR_MHPMEVENT7);
  ("CSR_MHPMEVENT8", CSR_MHPMEVENT8);
  ("CSR_MHPMEVENT9", CSR_MHPMEVENT9);
  ("CSR_MHPMEVENT10", CSR_MHPMEVENT10)].

Definition DEFINE_6 : list (string * Z) := [
  ("CSR_MHPMEVENT11", CSR_MHPMEVENT11);
  ("CSR_MHPMEVENT12", CSR_MHPMEVENT12);
  ("CSR_MHPMEVENT13", CSR_MHPMEVENT13);
  ("CSR_MHPMEVENT14", CSR_MHPMEVENT14);
  ("CSR_MHPMEVENT15", CSR_MHPMEVENT15);
  ("CSR_MHPMEVENT16", CSR_MHPMEVENT16);
  ("CSR_MHPMEVENT17", CSR_MHPMEVENT17);
  ("CSR_MHPMEVENT18", CSR_MHPMEVENT18);
  ("CSR_MHPMEVENT19", CSR_MHPMEVENT19);
  ("CSR_MHPMEVENT20", CSR_MHPMEVENT20);
  ("CSR_MHPMEVENT21", CSR_MHPMEVENT21);
  ("CSR_MHPMEVENT22", CSR_MHPMEVENT22);
  ("CSR_MHPMEVENT23", CSR_MHPMEVENT23);
  ("CSR_MHPMEVENT24", CSR_MHPMEVENT24);
  ("CSR_MHPMEVENT25", CSR_MHPMEVENT25);
  ("CSR_MHPMEVENT26", CSR_MHPMEVENT26);
  ("CSR_MHPMEVENT27", CSR_MHPMEVENT27);
  ("CSR_MHPMEVENT28", CSR_MHPMEVENT28);
  ("CSR_MHPMEVENT29", CSR_MHPMEVENT29);
  ("CSR_MHPMEVENT30", CSR_MHPMEVENT30);
  ("CSR_MHPMEVENT31", CSR_MHPMEVENT31);
  ("CSR_MVENDORID", CSR_MVENDORID);
  ("CSR_MARCHID", CSR_MARCHID);
  ("CSR_MIMPID", CSR_MIMPID);
  ("CSR_MHARTID", CSR_MHARTID);
  ("CSR_MCONFIGPTR", CSR_MCONFIGPTR);
  ("CSR_MTOPI", CSR_MTOPI);
  ("CSR_SIEH", CSR_SIEH);
  ("CSR_SIPH", CSR_SIPH);
  ("CSR_STIMECMPH", CSR_STIMECMPH);
  ("CSR_VSIEH", CSR_VSIEH);
  ("CSR_VSIPH", CSR_VSIPH);
  ("CSR_VSTIMECMPH", CSR_VSTIMECMPH);
  ("CSR_HEDELEGH", CSR_HEDELEGH);
  ("CSR_HTIMEDELTAH", CSR_HTIMEDELTAH);
  ("CSR_HIDELEGH", CSR_HIDELEGH);
  ("CSR_HVIENH", CSR_HVIENH);
  ("CSR_HENVCFGH", CSR_HENVCFGH);
  ("CSR_HVIPH", CSR_HVIPH);
  ("CSR_HVIPRIO1H", CSR_HVIPRIO1H);
  ("CSR_HVIPRIO2H", CSR_HVIPRIO2H);
  ("CSR_HSTATEEN0H", CSR_HSTATEEN0H);
  ("CSR_HSTATEEN1H", CSR_HSTATEEN1H);
  ("CSR_HSTATEEN2H", CSR_HSTATEEN2H);
  ("CSR_HSTATEEN3H", CSR_HSTATEEN3H);
  ("CSR_CYCLEH", CSR_CYCLEH);
  ("CSR_TIMEH", CSR_TIMEH);
  ("CSR_INSTRETH", CSR_INSTRETH);
  ("CSR_HPMCOUNTER3H", CSR_HPMCOUNTER3H);
  ("CSR_HPMCOUNTER4H", CSR_HPMCOUNTER4H);
  ("CSR_HPMCOUNTER5H", CSR_HPMCOUNTER5H);
  ("CSR_HPMCOUNTER6H", CSR_HPMCOUNTER6H);
  ("CSR_HPMCOUNTER7H", CSR_HPMCOUNTER7H);
  ("CSR_HPMCOUNTER8H", CSR_HPMCOUNTER8H);
  ("CSR_HPMCOUNTER9H", CSR_HPMCOUNTER9H);
  ("CSR_HPMCOUNTER10H", CSR_HPMCOUNTER10H);
  ("CSR_HPMCOUNTER11H", CSR_HPMCOUNTER11H);
  ("CSR_HPMCOUNTER12H", CSR_HPMCOUNTER12H);
  ("CSR_HPMCOUNTER13H", CSR_HPMCOUNTER13H);
  ("CSR_HPMCOUNTER14H", CSR_HPMCOUNTER14H);
  ("CSR_HPMCOUNTER15H", CSR_HPMCOUNTER15H);
  ("CSR_HPMCOUNTER16H", CSR_HPMCOUNTER16H);
  ("CSR_HPMCOUNTER17H", CSR_HPMCOUNTER17H);
  ("CSR_HPMCOUNTER18H", CSR_HPMCOUNTER18H);
  ("CSR_HPMCOUNTER19H", CSR_HPMCOUNTER19H);
  ("CSR_HPMCOUNTER20H", CSR_HPMCOUNTER20H);
  ("CSR_HPMCOUNTER21H", CSR_HPMCOUNTER21H);
  ("CSR_HPMCOUNTER22H", CSR_HPMCOUNTER22H);
  ("CSR_HPMCOUNTER23H", CSR_HPMCOUNTER23H);
  ("CSR_HPMCOUNTER24H", CSR_HPMCOUNTER24H);
  ("CSR_HPMCOUNTER25H", CSR_HPMCOUNTER25H);
  ("CSR_HPMCOUNTER26H", CSR_HPMCOUNTER26H);
  ("CSR_HPMCOUNTER27H", CSR_HPMCOUNTER27H);
  ("CSR_HPMCOUNTER28H", CSR_HPMCOUNTER28H);
  ("CSR_HPMCOUNTER29H", CSR_HPMCOUNTER29H);
  ("CSR_HPMCOUNTER30H", CSR_HPMCOUNTER30H);
  ("CSR_HPMCOUNTER31H", CSR_HPMCOUNTER31H);
  ("CSR_MSTATUSH", CSR_MSTATUSH);
  ("CSR_MIDELEGH", CSR_MIDELEGH);
  ("CSR_MIEH", CSR_MIEH);
  ("CSR_MVIENH", CSR_MVIENH);
  ("CSR_MVIPH", CSR_MVIPH);
  ("CSR_MENVCFGH", CSR_MENVCFGH);
  ("CSR_MSTATEEN0H", CSR_MSTATEEN0H);
  ("CSR_MSTATEEN1H", CSR_MSTATEEN1H);
  ("CSR_MSTATEEN2H", CSR_MSTATEEN2H);
  ("CSR_MSTATEEN3H", CSR_MSTATEEN3H);
  ("CSR_MIPH", CSR_MIPH);
  ("CSR_MCYCLECFGH", CSR_MCYCLECFGH);
  ("CSR_MINSTRETCFGH", CSR_MINSTRETCFGH);
  ("CSR_MHPMEVENT3H", CSR_MHPMEVENT3H);
  ("CSR_MHPMEVENT4H", CSR_MHPMEVENT4H);
  ("CSR_MHPMEVENT5H", CSR_MHPMEVENT5H);
  ("CSR_MHPMEVENT6H", CSR_MHPMEVENT6H);
  ("CSR_MHPMEVENT7H", CSR_MHPMEVENT7H);
  ("CSR_MHPMEVENT8H", CSR_MHPMEVENT8H);
  ("CSR_MHPMEVENT9H", CSR_MHPMEVENT9H);
  ("CSR_MHPMEVENT10H", CSR_MHPMEVENT10H);
  ("CSR_MHPMEVENT11H", CSR_MHPMEVENT11H);
  ("CSR_MHPMEVENT12H", CSR_MHPMEVENT12H);
  ("CSR_MHPMEVENT13H", CSR_MHPMEVENT13H);
  ("CSR_MHPMEVENT14H", CSR_MHPMEVENT14H);
  ("CSR_MHPMEVENT15H", CSR_MHPMEVENT15H);
  ("CSR_MHPMEVENT16H", CSR_MHPMEVENT16H);
  ("CSR_MHPMEVENT17H", CSR_MHPMEVENT17H);
  ("CSR_MHPMEVENT18H", CSR_MHPMEVENT18H);
  ("CSR_MHPMEVENT19H", CSR_MHPMEVENT19H);
  ("CSR_MHPMEVENT20H", CSR_MHPMEVENT20H);
  ("CSR_MHPMEVENT21H", CSR_MHPMEVENT21H);
  ("CSR_MHPMEVENT22H", CSR_MHPMEVENT22H);
  ("CSR_MHPMEVENT23H", CSR_MHPMEVENT23H);
  ("CSR_MHPMEVENT24H", CSR_MHPMEVENT24H);
  ("CSR_MHPMEVENT25H", CSR_MHPMEVENT25H);
  ("CSR_MHPMEVENT26H", CSR_MHPMEVENT26H);
  ("CSR_MHPMEVENT27H", CSR_MHPMEVENT27H);
  ("CSR_MHPMEVENT28H", CSR_MHPMEVENT28H);
  ("CSR_MHPMEVENT29H", CSR_MHPMEVENT29H);
  ("CSR_MHPMEVENT30H", CSR_MHPMEVENT30H);
  ("CSR_MHPMEVENT31H", CSR_MHPMEVENT31H);
  ("CSR_MNSCRATCH", CSR_MNSCRATCH);
  ("CSR_MNEPC", CSR_MNEPC);
  ("CSR_MNCAUSE", CSR_MNCAUSE);
  ("CSR_MNSTATUS", CSR_MNSTATUS);
  ("CSR_MSECCFGH", CSR_MSECCFGH);
  ("CSR_MCYCLEH", CSR_MCYCLEH);
  ("CSR_MINSTRETH", CSR_MINSTRETH);
  ("CSR_MHPMCOUNTER3H", CSR_MHPMCOUNTER3H);
  ("CSR_MHPMCOUNTER4H", CSR_MHPMCOUNTER4H);
  ("CSR_MHPMCOUNTER5H", CSR_MHPMCOUNTER5H);
  ("CSR_MHPMCOUNTER6H", CSR_MHPMCOUNTER6H);
  ("CSR_MHPMCOUNTER7H", CSR_MHPMCOUNTER7H);
  ("CSR_MHPMCOUNTER8H", CSR_MHPMCOUNTER8H);
  ("CSR_MHPMCOUNTER9H", CSR_MHPMCOUNTER9H);
  ("CSR_MHPMCOUNTER10H", CSR_MHPMCOUNTER10H);
  ("CSR_MHPMCOUNTER11H", CSR_MHPMCOUNTER11H);
  ("CSR_MHPMCOUNTER12H", CSR_MHPMCOUNTER12H);
  ("CSR_MHPMCOUNTER13H", CSR_MHPMCOUNTER13H);
  ("CSR_MHPMCOUNTER14H", CSR_MHPMCOUNTER14H);
  ("CSR_MHPMCOUNTER15H", CSR_MHPMCOUNTER15H);
  ("CSR_MHPMCOUNTER16H", CSR_MHPMCOUNTER16H);
  ("CSR_MHPMCOUNTER17H", CSR_MHPMCOUNTER17H);
  ("CSR_MHPMCOUNTER18H", CSR_MHPMCOUNTER18H);
  ("CSR_MHPMCOUNTER19H", CSR_MHPMCOUNTER19H);
  ("CSR_MHPMCOUNTER20H", CSR_MHPMCOUNTER20H);
  ("CSR_MHPMCOUNTER21H", CSR_MHPMCOUNTER21H);
  ("CSR_MHPMCOUNTER22H", CSR_MHPMCOUNTER22H);
  ("CSR_MHPMCOUNTER23H", CSR_MHPMCOUNTER23H);
  ("CSR_MHPMCOUNTER24H", CSR_MHPMCOUNTER24H);
  ("CSR_MHPMCOUNTER25H", CSR_MHPMCOUNTER25H);
  ("CSR_MHPMCOUNTER26H", CSR_MHPMCOUNTER26H)].

Definition DEFINE_7 : list (string * Z) := [
  ("CSR_MHPMCOUNTER27H", CSR_MHPMCOUNTER27H);
  ("CSR_MHPMCOUNTER28H", CSR_MHPMCOUNTER28H);
  ("CSR_MHPMCOUNTER29H", CSR_MHPMCOUNTER29H);
  ("CSR_MHPMCOUNTER30H", CSR_MHPMCOUNTER30H);
  ("CSR_MHPMCOUNTER31H", CSR_MHPMCOUNTER31H);
  ("CSR_SIMPOINT", CSR_SIMPOINT);
  ("CAUSE_MISALIGNED_FETCH", CAUSE_MISALIGNED_FETCH);
  ("CAUSE_FETCH_ACCESS", CAUSE_FETCH_ACCESS);
  ("CAUSE_ILLEGAL_INSTRUCTION", CAUSE_ILLEGAL_INSTRUCTION);
  ("CAUSE_BREAKPOINT", CAUSE_BREAKPOINT);
  ("CAUSE_MISALIGNED_LOAD", CAUSE_MISALIGNED_LOAD);
  ("CAUSE_LOAD_ACCESS", CAUSE_LOAD_ACCESS);
  ("CAUSE_MISALIGNED_STORE", CAUSE_MISALIGNED_STORE);
  ("CAUSE_STORE_ACCESS", CAUSE_STORE_ACCESS);
  ("CAUSE_USER_ECALL", CAUSE_USER_ECALL);
  ("CAUSE_SUPERVISOR_ECALL", CAUSE_SUPERVISOR_ECALL);
  ("CAUSE_VIRTUAL_SUPERVISOR_ECALL", CAUSE_VIRTUAL_SUPERVISOR_ECALL);
  ("CAUSE_MACHINE_ECALL", CAUSE_MACHINE_ECALL);
  ("CAUSE_FETCH_PAGE_FAULT", CAUSE_FETCH_PAGE_FAULT);
  ("CAUSE_LOAD_PAGE_FAULT", CAUSE_LOAD_PAGE_FAULT);
  ("CAUSE_STORE_PAGE_FAULT", CAUSE_STORE_PAGE_FAULT);
  ("CAUSE_DOUBLE_TRAP", CAUSE_DOUBLE_TRAP);
  ("CAUSE_SOFTWARE_CHECK_FAULT", CAUSE_SOFTWARE_CHECK_FAULT);
  ("CAUSE_HARDWARE_ERROR_FAULT", CAUSE_HARDWARE_ERROR_FAULT);
  ("CAUSE_FETCH_GUEST_PAGE_FAULT", CAUSE_FETCH_GUEST_PAGE_FAULT);
  ("CAUSE_LOAD_GUEST_PAGE_FAULT", CAUSE_LOAD_GUEST_PAGE_FAULT);
  ("CAUSE_VIRTUAL_INSTRUCTION", CAUSE_VIRTUAL_INSTRUCTION);
  ("CAUSE_STORE_GUEST_PAGE_FAULT", CAUSE_STORE_GUEST_PAGE_FAULT);
  ("INSN_FIELD_RD", 0xf80);
  ("INSN_FIELD_RT", 0xf8000);
  ("INSN_FIELD_RS1", 0xf8000);
  ("INSN_FIELD_RS2", 0x1f00000);
  ("INSN_FIELD_RS3", 0xf8000000);
  ("INSN_FIELD_AQRL", 0x6000000);
  ("INSN_FIELD_AQ", 0x4000000);
  ("INSN_FIELD_RL", 0x2000000);
  ("INSN_FIELD_FM", 0xf0000000);
  ("INSN_FIELD_PRED", 0xf000000);
  ("INSN_FIELD_SUCC", 0xf00000);
  ("INSN_FIELD_RM", 0x7000);
  ("INSN_FIELD_FUNCT3", 0x7000);
  ("INSN_FIELD_FUNCT2", 0x6000000);
  ("INSN_FIELD_IMM20", 0xfffff000);
  ("INSN_FIELD_JIMM20", 0xfffff000);
  ("INSN_FIELD_IMM12", 0xfff00000);
  ("INSN_FIELD_CSR", 0xfff00000);
  ("INSN_FIELD_IMM12HI", 0xfe000000);
  ("INSN_FIELD_BIMM12HI", 0xfe000000);
  ("INSN_FIELD_IMM12LO", 0xf80);
  ("INSN_FIELD_BIMM12LO", 0xf80);
  ("INSN_FIELD_SHAMTQ", 0x7f00000);
  ("INSN_FIELD_SHAMTW", 0x1f00000);
  ("INSN_FIELD_SHAMTW4", 0xf00000);
  ("INSN_FIELD_SHAMTD", 0x3f00000);
  ("INSN_FIELD_BS", 0xc0000000);
  ("INSN_FIELD_RNUM", 0xf00000);
  ("INSN_FIELD_RC", 0x3e000000);
  ("INSN_FIELD_IMM2", 0x300000);
  ("INSN_FIELD_IMM3", 0x700000);
  ("INSN_FIELD_IMM4", 0xf00000);
  ("INSN_FIELD_IMM5", 0x1f00000);
  ("INSN_FIELD_IMM6", 0x3f00000);
  ("INSN_FIELD_OPCODE", 0x7f);
  ("INSN_FIELD_FUNCT7", 0xfe000000);
  ("INSN_FIELD_VD", 0xf80);
  ("INSN_FIELD_VS3", 0xf80);
  ("INSN_FIELD_VS1", 0xf8000);
  ("INSN_FIELD_VS2", 0x1f00000);
  ("INSN_FIELD_VM", 0x2000000);
  ("INSN_FIELD_WD", 0x4000000);
  ("INSN_FIELD_AMOOP", 0xf8000000);
  ("INSN_FIELD_NF", 0xe0000000);
  ("INSN_FIELD_SIMM5", 0xf8000);
  ("INSN_FIELD_ZIMM5", 0xf8000);
  ("INSN_FIELD_ZIMM10", 0x3ff00000);
  ("INSN_FIELD_ZIMM11", 0x7ff00000);
  ("INSN_FIELD_ZIMM6HI", 0x4000000);
  ("INSN_FIELD_ZIMM6LO", 0xf8000);
  ("INSN_FIELD_C_NZUIMM10", 0x1fe0);
  ("INSN_FIELD_C_UIMM7LO", 0x60);
  ("INSN_FIELD_C_UIMM7HI", 0x1c00);
  ("INSN_FIELD_C_UIMM8LO", 0x60);
  ("INSN_FIELD_C_UIMM8HI", 0x1c00);
  ("INSN_FIELD_C_UIMM9LO", 0x60);
  ("INSN_FIELD_C_UIMM9HI", 0x1c00);
  ("INSN_FIELD_C_NZIMM6LO", 0x7c);
  ("INSN_FIELD_C_NZIMM6HI", 0x1000);
  ("INSN_FIELD_C_IMM6LO", 0x7c);
  ("INSN_FIELD_C_IMM6HI", 0x1000);
  ("INSN_FIELD_C_NZIMM10HI", 0x1000);
  ("INSN_FIELD_C_NZIMM10LO", 0x7c);
  ("INSN_FIELD_C_NZIMM18HI", 0x1000);
  ("INSN_FIELD_C_NZIMM18LO", 0x7c);
  ("INSN_FIELD_C_IMM12", 0x1ffc);
  ("INSN_FIELD_C_BIMM9LO", 0x7c);
  ("INSN_FIELD_C_BIMM9HI", 0x1c00);
  ("INSN_FIELD_C_NZUIMM5", 0x7c);
  ("INSN_FIELD_C_NZUIMM6LO", 0x7c);
  ("INSN_FIELD_C_NZUIMM6HI", 0x1000);
  ("INSN_FIELD_C_UIMM8SPLO", 0x7c);
  ("INSN_FIELD_C_UIMM8SPHI", 0x1000);
  ("INSN_FIELD_C_UIMM8SP_S", 0x1f80);
  ("INSN_FIELD_C_UIMM10SPLO", 0x7c);
  ("INSN_FIELD_C_UIMM10SPHI", 0x1000);
  ("INSN_FIELD_C_UIMM9SPLO", 0x7c);
  ("INSN_FIELD_C_UIMM9SPHI", 0x1000);
  ("INSN_FIELD_C_UIMM10SP_S", 0x1f80);
  ("INSN_FIELD_C_UIMM9SP_S", 0x1f80);
  ("INSN_FIELD_C_UIMM2", 0x60);
  ("INSN_FIELD_C_UIMM1", 0x20);
  ("INSN_FIELD_C_RLIST", 0xf0);
  ("INSN_FIELD_C_SPIMM", 0xc);
  ("INSN_FIELD_C_INDEX", 0x3fc);
  ("INSN_FIELD_RS1_P", 0x380);
  ("INSN_FIELD_RS2_P", 0x1c);
  ("INSN_FIELD_RD_P", 0x1c);
  ("INSN_FIELD_RD_RS1_N0", 0xf80);
  ("INSN_FIELD_RD_RS1_P", 0x380);
  ("INSN_FIELD_RD_RS1", 0xf80);
  ("INSN_FIELD_RD_N2", 0xf80);
  ("INSN_FIELD_RD_N0", 0xf80);
  ("INSN_FIELD_RS1_N0", 0xf80);
  ("INSN_FIELD_C_RS2_N0", 0x7c);
  ("INSN_FIELD_C_RS1_N0", 0xf80);
  ("INSN_FIELD_C_RS2", 0x7c);
  ("INSN_FIELD_C_SREG1", 0x380);
  ("INSN_FIELD_C_SREG2", 0x1c);
  ("INSN_FIELD_RD_P_E", 0x18);
  ("INSN_FIELD_RS2_P_E", 0x18);
  ("INSN_FIELD_RD_N0_E", 0xf00);
  ("INSN_FIELD_C_RS2_E", 0x78);
  ("INSN_FIELD_RD_E", 0xf00);
  ("INSN_FIELD_RS2_E", 0x1e00000);
  ("INSN_FIELD_MOP_R_T_30", 0x40000000);
  ("INSN_FIELD_MOP_R_T_27_26", 0xc000000);
  ("INSN_FIELD_MOP_R_T_21_20", 0x300000);
  ("INSN_FIELD_MOP_RR_T_30", 0x40000000);
  ("INSN_FIELD_MOP_RR_T_27_26", 0xc000000);
  ("INSN_FIELD_C_MOP_T", 0x700);
  ("INSN_FIELD_RS2_EQ_RS1", 0x1f00000)].

Definition DECLARE_CSR_0 : list (string * Z) := [
  ("fflags", CSR_FFLAGS);
  ("frm", CSR_FRM);
  ("fcsr", CSR_FCSR);
  ("vstart", CSR_VSTART);
  ("vxsat", CSR_VXSAT);
  ("vxrm", CSR_VXRM);
  ("vcsr", CSR_VCSR);
  ("ssp", CSR_SSP);
  ("seed", CSR_SEED);
  ("jvt", CSR_JVT);
  ("cycle", CSR_CYCLE);
  ("time", CSR_TIME);
  ("instret", CSR_INSTRET);
  ("hpmcounter3", CSR_HPMCOUNTER3);
  ("hpmcounter4", CSR_HPMCOUNTER4);
  ("hpmcounter5", CSR_HPMCOUNTER5);
  ("hpmcounter6", CSR_HPMCOUNTER6);
  ("hpmcounter7", CSR_HPMCOUNTER7);
  ("hpmcounter8", CSR_HPMCOUNTER8);
  ("hpmcounter9", CSR_HPMCOUNTER9);
  ("hpmcounter10", CSR_HPMCOUNTER10);
  ("hpmcounter11", CSR_HPMCOUNTER11);
  ("hpmcounter12", CSR_HPMCOUNTER12);
  ("hpmcounter13", CSR_HPMCOUNTER13);
  ("hpmcounter14", CSR_HPMCOUNTER14);
  ("hpmcounter15", CSR_HPMCOUNTER15);
  ("hpmcounter16", CSR_HPMCOUNTER16);
  ("hpmcounter17", CSR_HPMCOUNTER17);
  ("hpmcounter18", CSR_HPMCOUNTER18);
  ("hpmcounter19", CSR_HPMCOUNTER19);
  ("hpmcounter20", CSR_HPMCOUNTER20);
  ("hpmcounter21", CSR_HPMCOUNTER21);
  ("hpmcounter22", CSR_HPMCOUNTER22);
  ("hpmcounter23", CSR_HPMCOUNTER23);
  ("hpmcounter24", CSR_HPMCOUNTER24);
  ("hpmcounter25", CSR_HPMCOUNTER25);
  ("hpmcounter26", CSR_HPMCOUNTER26);
  ("hpmcounter27", CSR_HPMCOUNTER27);
  ("hpmcounter28", CSR_HPMCOUNTER28);
  ("hpmcounter29", CSR_HPMCOUNTER29);
  ("hpmcounter30", CSR_HPMCOUNTER30);
  ("hpmcounter31", CSR_HPMCOUNTER31);
  ("vl", CSR_VL);
  ("vtype", CSR_VTYPE);
  ("vlenb", CSR_VLENB);
  ("sstatus", CSR_SSTATUS);
  ("sie", CSR_SIE);
  ("stvec", CSR_STVEC);
  ("scounteren", CSR_SCOUNTEREN);
  ("senvcfg", CSR_SENVCFG);
  ("sstateen0", CSR_SSTATEEN0);
  ("sstateen1", CSR_SSTATEEN1);
  ("sstateen2", CSR_SSTATEEN2);
  ("sstateen3", CSR_SSTATEEN3);
  ("scountinhibit", CSR_SCOUNTINHIBIT);
  ("sscratch", CSR_SSCRATCH);
  ("sepc", CSR_SEPC);
  ("scause", CSR_SCAUSE);
  ("stval", CSR_STVAL);
  ("sip", CSR_SIP);
  ("stimecmp", CSR_STIMECMP);
  ("sctrctl", CSR_SCTRCTL);
  ("sctrstatus", CSR_SCTRSTATUS);
  ("siselect", CSR_SISELECT);
  ("sireg", CSR_SIREG);
  ("sireg2", CSR_SIREG2);
  ("sireg3", CSR_SIREG3);
  ("sireg4", CSR_SIREG4);
  ("sireg5", CSR_SIREG5);
  ("sireg6", CSR_SIREG6);
  ("stopei", CSR_STOPEI);
  ("sctrdepth", CSR_SCTRDEPTH);
  ("satp", CSR_SATP);
  ("srmcfg", CSR_SRMCFG);
  ("scontext", CSR_SCONTEXT);
  ("vsstatus", CSR_VSSTATUS);
  ("vsie", CSR_VSIE);
  ("vstvec", CSR_VSTVEC);
  ("vsscratch", CSR_VSSCRATCH);
  ("vsepc", CSR_VSEPC);
  ("vscause", CSR_VSCAUSE);
  ("vstval", CSR_VSTVAL);
  ("vsip", CSR_VSIP);
  ("vstimecmp", CSR_VSTIMECMP);
  ("vsctrctl", CSR_VSCTRCTL);
  ("vsiselect", CSR_VSISELECT);
  ("vsireg", CSR_VSIREG);
  ("vsireg2", CSR_VSIREG2);
  ("vsireg3", CSR_VSIREG3);
  ("vsireg4", CSR_VSIREG4);
  ("vsireg5", CSR_VSIREG5);
  ("vsireg6", CSR_VSIREG6);
  ("vstopei", CSR_VSTOPEI);
  ("vsatp", CSR_VSATP);
  ("hstatus", CSR_HSTATUS);
  ("hedeleg", CSR_HEDELEG);
  ("hideleg", CSR_HIDELEG);
  ("hie", CSR_HIE);
  ("htimedelta", CSR_HTIMEDELTA);
  ("hcounteren", CSR_HCOUNTEREN);
  ("hgeie", CSR_HGEIE);
  ("hvien", CSR_HVIEN);
  ("hvictl", CSR_HVICTL);
  ("henvcfg", CSR_HENVCFG);
  ("hstateen0", CSR_HSTATEEN0);
  ("hstateen1", CSR_HSTATEEN1);
  ("hstateen2", CSR_HSTATEEN2);
  ("hstateen3", CSR_HSTATEEN3);
  ("htval", CSR_HTVAL);
  ("hip", CSR_HIP);
  ("hvip", CSR_HVIP);
  ("hviprio1", CSR_HVIPRIO1);
  ("hviprio2", CSR_HVIPRIO2);
  ("htinst", CSR_HTINST);
  ("hgatp", CSR_HGATP);
  ("hcontext", CSR_HCONTEXT);
  ("hgeip", CSR_HGEIP);
  ("vstopi", CSR_VSTOPI);
  ("scountovf", CSR_SCOUNTOVF);
  ("stopi", CSR_STOPI);
  ("utvt", CSR_UTVT);
  ("unxti", CSR_UNXTI);
  ("uintstatus", CSR_UINTSTATUS);
  ("uscratchcsw", CSR_USCRATCHCSW);
  ("uscratchcswl", CSR_USCRATCHCSWL);
  ("stvt", CSR_STVT);
  ("snxti", CSR_SNXTI);
  ("sintstatus", CSR_SINTSTATUS);
  ("sscratchcsw", CSR_SSCRATCHCSW);
  ("sscratchcswl", CSR_SSCRATCHCSWL);
  ("mtvt", CSR_MTVT);
  ("mnxti", CSR_MNXTI);
  ("mintstatus", CSR_MINTSTATUS);
  ("mscratchcsw", CSR_MSCRATCHCSW);
  ("mscratchcswl", CSR_MSCRATCHCSWL);
  ("mstatus", CSR_MSTATUS);
  ("misa", CSR_MISA);
  ("medeleg", CSR_MEDELEG);
  ("mideleg", CSR_MIDELEG);
  ("mie", CSR_MIE);
  ("mtvec", CSR_MTVEC);
  ("mcounteren", CSR_MCOUNTEREN);
  ("mvien", CSR_MVIEN);
  ("mvip", CSR_MVIP);
  ("menvcfg", CSR_MENVCFG);
  ("mstateen0", CSR_MSTATEEN0);
  ("mstateen1", CSR_MSTATEEN1);
  ("mstateen2", CSR_MSTATEEN2);
  ("mstateen3", CSR_MSTATEEN3);
  ("mcountinhibit", CSR_MCOUNTINHIBIT)].

Definition DECLARE_CSR_1 : list (string * Z) := [
  ("mscratch", CSR_MSCRATCH);
  ("mepc", CSR_MEPC);
  ("mcause", CSR_MCAUSE);
  ("mtval", CSR_MTVAL);
  ("mip", CSR_MIP);
  ("mtinst", CSR_MTINST);
  ("mtval2", CSR_MTVAL2);
  ("mctrctl", CSR_MCTRCTL);
  ("miselect", CSR_MISELECT);
  ("mireg", CSR_MIREG);
  ("mireg2", CSR_MIREG2);
  ("mireg3", CSR_MIREG3);
  ("mireg4", CSR_MIREG4);
  ("mireg5", CSR_MIREG5);
  ("mireg6", CSR_MIREG6);
  ("mtopei", CSR_MTOPEI);
  ("pmpcfg0", CSR_PMPCFG0);
  ("pmpcfg1", CSR_PMPCFG1);
  ("pmpcfg2", CSR_PMPCFG2);
  ("pmpcfg3", CSR_PMPCFG3);
  ("pmpcfg4", CSR_PMPCFG4);
  ("pmpcfg5", CSR_PMPCFG5);
  ("pmpcfg6", CSR_PMPCFG6);
  ("pmpcfg7", CSR_PMPCFG7);
  ("pmpcfg8", CSR_PMPCFG8);
  ("pmpcfg9", CSR_PMPCFG9);
  ("pmpcfg10", CSR_PMPCFG10);
  ("pmpcfg11", CSR_PMPCFG11);
  ("pmpcfg12", CSR_PMPCFG12);
  ("pmpcfg13", CSR_PMPCFG13);
  ("pmpcfg14", CSR_PMPCFG14);
  ("pmpcfg15", CSR_PMPCFG15);
  ("pmpaddr0", CSR_PMPADDR0);
  ("pmpaddr1", CSR_PMPADDR1);
  ("pmpaddr2", CSR_PMPADDR2);
  ("pmpaddr3", CSR_PMPADDR3);
  ("pmpaddr4", CSR_PMPADDR4);
  ("pmpaddr5", CSR_PMPADDR5);
  ("pmpaddr6", CSR_PMPADDR6);
  ("pmpaddr7", CSR_PMPADDR7);
  ("pmpaddr8", CSR_PMPADDR8);
  ("pmpaddr9", CSR_PMPADDR9);
  ("pmpaddr10", CSR_PMPADDR10);
  ("pmpaddr11", CSR_PMPADDR11);
  ("pmpaddr12", CSR_PMPADDR12);
  ("pmpaddr13", CSR_PMPADDR13);
  ("pmpaddr14", CSR_PMPADDR14);
  ("pmpaddr15", CSR_PMPADDR15);
  ("pmpaddr16", CSR_PMPADDR16);
  ("pmpaddr17", CSR_PMPADDR17);
  ("pmpaddr18", CSR_PMPADDR18);
  ("pmpaddr19", CSR_PMPADDR19);
  ("pmpaddr20", CSR_PMPADDR20);
  ("pmpaddr21", CSR_PMPADDR21);
  ("pmpaddr22", CSR_PMPADDR22);
  ("pmpaddr23", CSR_PMPADDR23);
  ("pmpaddr24", CSR_PMPADDR24);
  ("pmpaddr25", CSR_PMPADDR25);
  ("pmpaddr26", CSR_PMPADDR26);
  ("pmpaddr27", CSR_PMPADDR27);
  ("pmpaddr28", CSR_PMPADDR28);
  ("pmpaddr29", CSR_PMPADDR29);
  ("pmpaddr30", CSR_PMPADDR30);
  ("pmpaddr31", CSR_PMPADDR31);
  ("pmpaddr32", CSR_PMPADDR32);
  ("pmpaddr33", CSR_PMPADDR33);
  ("pmpaddr34", CSR_PMPADDR34);
  ("pmpaddr35", CSR_PMPADDR35);
  ("pmpaddr36", CSR_PMPADDR36);
  ("pmpaddr37", CSR_PMPADDR37);
  ("pmpaddr38", CSR_PMPADDR38);
  ("pmpaddr39", CSR_PMPADDR39);
  ("pmpaddr40", CSR_PMPADDR40);
  ("pmpaddr41", CSR_PMPADDR41);
  ("pmpaddr42", CSR_PMPADDR42);
  ("pmpaddr43", CSR_PMPADDR43);
  ("pmpaddr44", CSR_PMPADDR44);
  ("pmpaddr45", CSR_PMPADDR45);
  ("pmpaddr46", CSR_PMPADDR46);
  ("pmpaddr47", CSR_PMPADDR47);
  ("pmpaddr48", CSR_PMPADDR48);
  ("pmpaddr49", CSR_PMPADDR49);
  ("pmpaddr50", CSR_PMPADDR50);
  ("pmpaddr51", CSR_PMPADDR51);
  ("pmpaddr52", CSR_PMPADDR52);
  ("pmpaddr53", CSR_PMPADDR53);
  ("pmpaddr54", CSR_PMPADDR54);
  ("pmpaddr55", CSR_PMPADDR55);
  ("pmpaddr56", CSR_PMPADDR56);
  ("pmpaddr57", CSR_PMPADDR57);
  ("pmpaddr58", CSR_PMPADDR58);
  ("pmpaddr59", CSR_PMPADDR59);
  ("pmpaddr60", CSR_PMPADDR60);
  ("pmpaddr61", CSR_PMPADDR61);
  ("pmpaddr62", CSR_PMPADDR62);
  ("pmpaddr63", CSR_PMPADDR63);
  ("mseccfg", CSR_MSECCFG);
  ("tselect", CSR_TSELECT);
  ("tdata1", CSR_TDATA1);
  ("tdata2", CSR_TDATA2);
  ("tdata3", CSR_TDATA3);
  ("tinfo", CSR_TINFO);
  ("tcontrol", CSR_TCONTROL);
  ("mcontext", CSR_MCONTEXT);
  ("mscontext", CSR_MSCONTEXT);
  ("dcsr", CSR_DCSR);
  ("dpc", CSR_DPC);
  ("dscratch0", CSR_DSCRATCH0);
  ("dscratch1", CSR_DSCRATCH1);
  ("mcycle", CSR_MCYCLE);
  ("minstret", CSR_MINSTRET);
  ("mhpmcounter3", CSR_MHPMCOUNTER3);
  ("mhpmcounter4", CSR_MHPMCOUNTER4);
  ("mhpmcounter5", CSR_MHPMCOUNTER5);
  ("mhpmcounter6", CSR_MHPMCOUNTER6);
  ("mhpmcounter7", CSR_MHPMCOUNTER7);
  ("mhpmcounter8", CSR_MHPMCOUNTER8);
  ("mhpmcounter9", CSR_MHPMCOUNTER9);
  ("mhpmcounter10", CSR_MHPMCOUNTER10);
  ("mhpmcounter11", CSR_MHPMCOUNTER11);
  ("mhpmcounter12", CSR_MHPMCOUNTER12);
  ("mhpmcounter13", CSR_MHPMCOUNTER13);
  ("mhpmcounter14", CSR_MHPMCOUNTER14);
  ("mhpmcounter15", CSR_MHPMCOUNTER15);
  ("mhpmcounter16", CSR_MHPMCOUNTER16);
  ("mhpmcounter17", CSR_MHPMCOUNTER17);
  ("mhpmcounter18", CSR_MHPMCOUNTER18);
  ("mhpmcounter19", CSR_MHPMCOUNTER19);
  ("mhpmcounter20", CSR_MHPMCOUNTER20);
  ("mhpmcounter21", CSR_MHPMCOUNTER21);
  ("mhpmcounter22", CSR_MHPMCOUNTER22);
  ("mhpmcounter23", CSR_MHPMCOUNTER23);
  ("mhpmcounter24", CSR_MHPMCOUNTER24);
  ("mhpmcounter25", CSR_MHPMCOUNTER25);
  ("mhpmcounter26", CSR_MHPMCOUNTER26);
  ("mhpmcounter27", CSR_MHPMCOUNTER27);
  ("mhpmcounter28", CSR_MHPMCOUNTER28);
  ("mhpmcounter29", CSR_MHPMCOUNTER29);
  ("mhpmcounter30", CSR_MHPMCOUNTER30);
  ("mhpmcounter31", CSR_MHPMCOUNTER31);
  ("mcyclecfg", CSR_MCYCLECFG);
  ("minstretcfg", CSR_MINSTRETCFG);
  ("mhpmevent3", CSR_MHPMEVENT3);
  ("mhpmevent4", CSR_MHPMEVENT4);
  ("mhpmevent5", CSR_MHPMEVENT5);
  ("mhpmevent6", CSR_MHPMEVENT6);
  ("mhpmevent7", CSR_MHPMEVENT7);
  ("mhpmevent8", CSR_MHPMEVENT8);
  ("mhpmevent9", CSR_MHPMEVENT9);
  ("mhpmevent10", CSR_MHPMEVENT10)].

Definition DECLARE_CSR_2 : list (string * Z) := [
  ("mhpmevent11", CSR_MHPMEVENT11);
  ("mhpmevent12", CSR_MHPMEVENT12);
  ("mhpmevent13", CSR_MHPMEVENT13);
  ("mhpmevent14", CSR_MHPMEVENT14);
  ("mhpmevent15", CSR_MHPMEVENT15);
  ("mhpmevent16", CSR_MHPMEVENT16);
  ("mhpmevent17", CSR_MHPMEVENT17);
  ("mhpmevent18", CSR_MHPMEVENT18);
  ("mhpmevent19", CSR_MHPMEVENT19);
  ("mhpmevent20", CSR_MHPMEVENT20);
  ("mhpmevent21", CSR_MHPMEVENT21);
  ("mhpmevent22", CSR_MHPMEVENT22);
  ("mhpmevent23", CSR_MHPMEVENT23);
  ("mhpmevent24", CSR_MHPMEVENT24);
  ("mhpmevent25", CSR_MHPMEVENT25);
  ("mhpmevent26", CSR_MHPMEVENT26);
  ("mhpmevent27", CSR_MHPMEVENT27);
  ("mhpmevent28", CSR_MHPMEVENT28);
  ("mhpmevent29", CSR_MHPMEVENT29);
  ("mhpmevent30", CSR_MHPMEVENT30);
  ("mhpmevent31", CSR_MHPMEVENT31);
  ("mvendorid", CSR_MVENDORID);
  ("marchid", CSR_MARCHID);
  ("mimpid", CSR_MIMPID);
  ("mhartid", CSR_MHARTID);
  ("mconfigptr", CSR_MCONFIGPTR);
  ("mtopi", CSR_MTOPI);
  ("sieh", CSR_SIEH);
  ("siph", CSR_SIPH);
  ("stimecmph", CSR_STIMECMPH);
  ("vsieh", CSR_VSIEH);
  ("vsiph", CSR_VSIPH);
  ("vstimecmph", CSR_VSTIMECMPH);
  ("hedelegh", CSR_HEDELEGH);
  ("htimedeltah", CSR_HTIMEDELTAH);
  ("hidelegh", CSR_HIDELEGH);
  ("hvienh", CSR_HVIENH);
  ("henvcfgh", CSR_HENVCFGH);
  ("hviph", CSR_HVIPH);
  ("hviprio1h", CSR_HVIPRIO1H);
  ("hviprio2h", CSR_HVIPRIO2H);
  ("hstateen0h", CSR_HSTATEEN0H);
  ("hstateen1h", CSR_HSTATEEN1H);
  ("hstateen2h", CSR_HSTATEEN2H);
  ("hstateen3h", CSR_HSTATEEN3H);
  ("cycleh", CSR_CYCLEH);
  ("timeh", CSR_TIMEH);
  ("instreth", CSR_INSTRETH);
  ("hpmcounter3h", CSR_HPMCOUNTER3H);
  ("hpmcounter4h", CSR_HPMCOUNTER4H);
  ("hpmcounter5h", CSR_HPMCOUNTER5H);
  ("hpmcounter6h", CSR_HPMCOUNTER6H);
  ("hpmcounter7h", CSR_HPMCOUNTER7H);
  ("hpmcounter8h", CSR_HPMCOUNTER8H);
  ("hpmcounter9h", CSR_HPMCOUNTER9H);
  ("hpmcounter10h", CSR_HPMCOUNTER10H);
  ("hpmcounter11h", CSR_HPMCOUNTER11H);
  ("hpmcounter12h", CSR_HPMCOUNTER12H);
  ("hpmcounter13h", CSR_HPMCOUNTER13H);
  ("hpmcounter14h", CSR_HPMCOUNTER14H);
  ("hpmcounter15h", CSR_HPMCOUNTER15H);
  ("hpmcounter16h", CSR_HPMCOUNTER16H);
  ("hpmcounter17h", CSR_HPMCOUNTER17H);
  ("hpmcounter18h", CSR_HPMCOUNTER18H);
  ("hpmcounter19h", CSR_HPMCOUNTER19H);
  ("hpmcounter20h", CSR_HPMCOUNTER20H);
  ("hpmcounter21h", CSR_HPMCOUNTER21H);
  ("hpmcounter22h", CSR_HPMCOUNTER22H);
  ("hpmcounter23h", CSR_HPMCOUNTER23H);
  ("hpmcounter24h", CSR_HPMCOUNTER24H);
  ("hpmcounter25h", CSR_HPMCOUNTER25H);
  ("hpmcounter26h", CSR_HPMCOUNTER26H);
  ("hpmcounter27h", CSR_HPMCOUNTER27H);
  ("hpmcounter28h", CSR_HPMCOUNTER28H);
  ("hpmcounter29h", CSR_HPMCOUNTER29H);
  ("hpmcounter30h", CSR_HPMCOUNTER30H);
  ("hpmcounter31h", CSR_HPMCOUNTER31H);
  ("mstatush", CSR_MSTATUSH);
  ("midelegh", CSR_MIDELEGH);
  ("mieh", CSR_MIEH);
  ("mvienh", CSR_MVIENH);
  ("mviph", CSR_MVIPH);
  ("menvcfgh", CSR_MENVCFGH);
  ("mstateen0h", CSR_MSTATEEN0H);
  ("mstateen1h", CSR_MSTATEEN1H);
  ("mstateen2h", CSR_MSTATEEN2H);
  ("mstateen3h", CSR_MSTATEEN3H);
  ("miph", CSR_MIPH);
  ("mcyclecfgh", CSR_MCYCLECFGH);
  ("minstretcfgh", CSR_MINSTRETCFGH);
  ("mhpmevent3h", CSR_MHPMEVENT3H);
  ("mhpmevent4h", CSR_MHPMEVENT4H);
  ("mhpmevent5h", CSR_MHPMEVENT5H);
  ("mhpmevent6h", CSR_MHPMEVENT6H);
  ("mhpmevent7h", CSR_MHPMEVENT7H);
  ("mhpmevent8h", CSR_MHPMEVENT8H);
  ("mhpmevent9h", CSR_MHPMEVENT9H);
  ("mhpmevent10h", CSR_MHPMEVENT10H);
  ("mhpmevent11h", CSR_MHPMEVENT11H);
  ("mhpmevent12h", CSR_MHPMEVENT12H);
  ("mhpmevent13h", CSR_MHPMEVENT13H);
  ("mhpmevent14h", CSR_MHPMEVENT14H);
  ("mhpmevent15h", CSR_MHPMEVENT15H);
  ("mhpmevent16h", CSR_MHPMEVENT16H);
  ("mhpmevent17h", CSR_MHPMEVENT17H);
  ("mhpmevent18h", CSR_MHPMEVENT18H);
  ("mhpmevent19h", CSR_MHPMEVENT19H);
  ("mhpmevent20h", CSR_MHPMEVENT20H);
  ("mhpmevent21h", CSR_MHPMEVENT21H);
  ("mhpmevent22h", CSR_MHPMEVENT22H);
  ("mhpmevent23h", CSR_MHPMEVENT23H);
  ("mhpmevent24h", CSR_MHPMEVENT24H);
  ("mhpmevent25h", CSR_MHPMEVENT25H);
  ("mhpmevent26h", CSR_MHPMEVENT26H);
  ("mhpmevent27h", CSR_MHPMEVENT27H);
  ("mhpmevent28h", CSR_MHPMEVENT28H);
  ("mhpmevent29h", CSR_MHPMEVENT29H);
  ("mhpmevent30h", CSR_MHPMEVENT30H);
  ("mhpmevent31h", CSR_MHPMEVENT31H);
  ("mnscratch", CSR_MNSCRATCH);
  ("mnepc", CSR_MNEPC);
  ("mncause", CSR_MNCAUSE);
  ("mnstatus", CSR_MNSTATUS);
  ("mseccfgh", CSR_MSECCFGH);
  ("mcycleh", CSR_MCYCLEH);
  ("minstreth", CSR_MINSTRETH);
  ("mhpmcounter3h", CSR_MHPMCOUNTER3H);
  ("mhpmcounter4h", CSR_MHPMCOUNTER4H);
  ("mhpmcounter5h", CSR_MHPMCOUNTER5H);
  ("mhpmcounter6h", CSR_MHPMCOUNTER6H);
  ("mhpmcounter7h", CSR_MHPMCOUNTER7H);
  ("mhpmcounter8h", CSR_MHPMCOUNTER8H);
  ("mhpmcounter9h", CSR_MHPMCOUNTER9H);
  ("mhpmcounter10h", CSR_MHPMCOUNTER10H);
  ("mhpmcounter11h", CSR_MHPMCOUNTER11H);
  ("mhpmcounter12h", CSR_MHPMCOUNTER12H);
  ("mhpmcounter13h", CSR_MHPMCOUNTER13H);
  ("mhpmcounter14h", CSR_MHPMCOUNTER14H);
  ("mhpmcounter15h", CSR_MHPMCOUNTER15H);
  ("mhpmcounter16h", CSR_MHPMCOUNTER16H);
  ("mhpmcounter17h", CSR_MHPMCOUNTER17H);
  ("mhpmcounter18h", CSR_MHPMCOUNTER18H);
  ("mhpmcounter19h", CSR_MHPMCOUNTER19H);
  ("mhpmcounter20h", CSR_MHPMCOUNTER20H);
  ("mhpmcounter21h", CSR_MHPMCOUNTER21H);
  ("mhpmcounter22h", CSR_MHPMCOUNTER22H);
  ("mhpmcounter23h", CSR_MHPMCOUNTER23H);
  ("mhpmcounter24h", CSR_MHPMCOUNTER24H);
  ("mhpmcounter25h", CSR_MHPMCOUNTER25H);
  ("mhpmcounter26h", CSR_MHPMCOUNTER26H)].

Definition DECLARE_CSR_3 : list (string * Z) := [
  ("mhpmcounter27h", CSR_MHPMCOUNTER27H);
  ("mhpmcounter28h", CSR_MHPMCOUNTER28H);
  ("mhpmcounter29h", CSR_MHPMCOUNTER29H);
  ("mhpmcounter30h", CSR_MHPMCOUNTER30H);
  ("mhpmcounter31h", CSR_MHPMCOUNTER31H)].

Definition DECLARE_CSR : list (string * Z) := concat [DECLARE_CSR_0; DECLARE_CSR_1; DECLARE_CSR_2; DECLARE_CSR_3].

Definition DECLARE_CAUSE_0 : list (string * Z) := [
  ("misaligned fetch", CAUSE_MISALIGNED_FETCH);
  ("fetch access", CAUSE_FETCH_ACCESS);
  ("illegal instruction", CAUSE_ILLEGAL_INSTRUCTION);
  ("breakpoint", CAUSE_BREAKPOINT);
  ("misaligned load", CAUSE_MISALIGNED_LOAD);
  ("load access", CAUSE_LOAD_ACCESS);
  ("misaligned store", CAUSE_MISALIGNED_STORE);
  ("store access", CAUSE_STORE_ACCESS);
  ("user ecall", CAUSE_USER_ECALL);
  ("supervisor ecall", CAUSE_SUPERVISOR_ECALL);
  ("virtual supervisor ecall", CAUSE_VIRTUAL_SUPERVISOR_ECALL);
  ("machine ecall", CAUSE_MACHINE_ECALL);
  ("fetch page fault", CAUSE_FETCH_PAGE_FAULT);
  ("load page fault", CAUSE_LOAD_PAGE_FAULT);
  ("store page fault", CAUSE_STORE_PAGE_FAULT);
  ("double trap", CAUSE_DOUBLE_TRAP);
  ("software check fault", CAUSE_SOFTWARE_CHECK_FAULT);
  ("hardware error fault", CAUSE_HARDWARE_ERROR_FAULT);
  ("fetch guest page fault", CAUSE_FETCH_GUEST_PAGE_FAULT);
  ("load guest page fault", CAUSE_LOAD_GUEST_PAGE_FAULT);
  ("virtual instruction", CAUSE_VIRTUAL_INSTRUCTION);
  ("store guest page fault", CAUSE_STORE_GUEST_PAGE_FAULT)].

Definition DECLARE_CAUSE : list (string * Z) := concat [DECLARE_CAUSE_0].
