(* ===== verification/Opcodes.v ===== *)
(** The opcodes of [riscv/encoding.h]: its match and mask words, and the
    [DECLARE_INSN] lines that give each instruction its two words, in tables
    that follow the header. *)

From S2P Require Import Prelude.
Local Open Scope string_scope.

(** * Match and mask words *)

Definition MATCH_MASK_0 : list (string * Z) := [
  ("MATCH_ADD", 0x33);
  ("MASK_ADD", 0xfe00707f);
  ("MATCH_ADD_UW", 0x800003b);
  ("MASK_ADD_UW", 0xfe00707f);
  ("MATCH_ADDI", 0x13);
  ("MASK_ADDI", 0x707f);
  ("MATCH_ADDIW", 0x1b);
  ("MASK_ADDIW", 0x707f);
  ("MATCH_ADDW", 0x3b);
  ("MASK_ADDW", 0xfe00707f);
  ("MATCH_AES32DSI", 0x2a000033);
  ("MASK_AES32DSI", 0x3e00707f);
  ("MATCH_AES32DSMI", 0x2e000033);
  ("MASK_AES32DSMI", 0x3e00707f);
  ("MATCH_AES32ESI", 0x22000033);
  ("MASK_AES32ESI", 0x3e00707f);
  ("MATCH_AES32ESMI", 0x26000033);
  ("MASK_AES32ESMI", 0x3e00707f);
  ("MATCH_AES64DS", 0x3a000033);
  ("MASK_AES64DS", 0xfe00707f);
  ("MATCH_AES64DSM", 0x3e000033);
  ("MASK_AES64DSM", 0xfe00707f);
  ("MATCH_AES64ES", 0x32000033);
  ("MASK_AES64ES", 0xfe00707f);
  ("MATCH_AES64ESM", 0x36000033);
  ("MASK_AES64ESM", 0xfe00707f);
  ("MATCH_AES64IM", 0x30001013);
  ("MASK_AES64IM", 0xfff0707f);
  ("MATCH_AES64KS1I", 0x31001013);
  ("MASK_AES64KS1I", 0xff00707f);
  ("MATCH_AES64KS2", 0x7e000033);
  ("MASK_AES64KS2", 0xfe00707f);
  ("MATCH_AMOADD_B", 0x2f);
  ("MASK_AMOADD_B", 0xf800707f);
  ("MATCH_AMOADD_D", 0x302f);
  ("MASK_AMOADD_D", 0xf800707f);
  ("MATCH_AMOADD_H", 0x102f);
  ("MASK_AMOADD_H", 0xf800707f);
  ("MATCH_AMOADD_W", 0x202f);
  ("MASK_AMOADD_W", 0xf800707f);
  ("MATCH_AMOAND_B", 0x6000002f);
  ("MASK_AMOAND_B", 0xf800707f);
  ("MATCH_AMOAND_D", 0x6000302f);
  ("MASK_AMOAND_D", 0xf800707f);
  ("MATCH_AMOAND_H", 0x6000102f);
  ("MASK_AMOAND_H", 0xf800707f);
  ("MATCH_AMOAND_W", 0x6000202f);
  ("MASK_AMOAND_W", 0xf800707f);
  ("MATCH_AMOCAS_B", 0x2800002f);
  ("MASK_AMOCAS_B", 0xf800707f);
  ("MATCH_AMOCAS_D", 0x2800302f);
  ("MASK_AMOCAS_D", 0xf800707f);
  ("MATCH_AMOCAS_H", 0x2800102f);
  ("MASK_AMOCAS_H", 0xf800707f);
  ("MATCH_AMOCAS_Q", 0x2800402f);
  ("MASK_AMOCAS_Q", 0xf800707f);
  ("MATCH_AMOCAS_W", 0x2800202f);
  ("MASK_AMOCAS_W", 0xf800707f);
  ("MATCH_AMOMAX_B", 0xa000002f);
  ("MASK_AMOMAX_B", 0xf800707f);
  ("MATCH_AMOMAX_D", 0xa000302f);
  ("MASK_AMOMAX_D", 0xf800707f);
  ("MATCH_AMOMAX_H", 0xa000102f);
  ("MASK_AMOMAX_H", 0xf800707f);
  ("MATCH_AMOMAX_W", 0xa000202f);
  ("MASK_AMOMAX_W", 0xf800707f);
  ("MATCH_AMOMAXU_B", 0xe000002f);
  ("MASK_AMOMAXU_B", 0xf800707f);
  ("MATCH_AMOMAXU_D", 0xe000302f);
  ("MASK_AMOMAXU_D", 0xf800707f);
  ("MATCH_AMOMAXU_H", 0xe000102f);
  ("MASK_AMOMAXU_H", 0xf800707f);
  ("MATCH_AMOMAXU_W", 0xe000202f);
  ("MASK_AMOMAXU_W", 0xf800707f);
  ("MATCH_AMOMIN_B", 0x8000002f);
  ("MASK_AMOMIN_B", 0xf800707f);
  ("MATCH_AMOMIN_D", 0x8000302f);
  ("MASK_AMOMIN_D", 0xf800707f);
  ("MATCH_AMOMIN_H", 0x8000102f);
  ("MASK_AMOMIN_H", 0xf800707f);
  ("MATCH_AMOMIN_W", 0x8000202f);
  ("MASK_AMOMIN_W", 0xf800707f);
  ("MATCH_AMOMINU_B", 0xc000002f);
  ("MASK_AMOMINU_B", 0xf800707f);
  ("MATCH_AMOMINU_D", 0xc000302f);
  ("MASK_AMOMINU_D", 0xf800707f);
  ("MATCH_AMOMINU_H", 0xc000102f);
  ("MASK_AMOMINU_H", 0xf800707f);
  ("MATCH_AMOMINU_W", 0xc000202f);
  ("MASK_AMOMINU_W", 0xf800707f);
  ("MATCH_AMOOR_B", 0x4000002f);
  ("MASK_AMOOR_B", 0xf800707f);
  ("MATCH_AMOOR_D", 0x4000302f);
  ("MASK_AMOOR_D", 0xf800707f);
  ("MATCH_AMOOR_H", 0x4000102f);
  ("MASK_AMOOR_H", 0xf800707f);
  ("MATCH_AMOOR_W", 0x4000202f);
  ("MASK_AMOOR_W", 0xf800707f);
  ("MATCH_AMOSWAP_B", 0x800002f);
  ("MASK_AMOSWAP_B", 0xf800707f);
  ("MATCH_AMOSWAP_D", 0x800302f);
  ("MASK_AMOSWAP_D", 0xf800707f);
  ("MATCH_AMOSWAP_H", 0x800102f);
  ("MASK_AMOSWAP_H", 0xf800707f);
  ("MATCH_AMOSWAP_W", 0x800202f);
  ("MASK_AMOSWAP_W", 0xf800707f);
  ("MATCH_AMOXOR_B", 0x2000002f);
  ("MASK_AMOXOR_B", 0xf800707f);
  ("MATCH_AMOXOR_D", 0x2000302f);
  ("MASK_AMOXOR_D", 0xf800707f);
  ("MATCH_AMOXOR_H", 0x2000102f);
  ("MASK_AMOXOR_H", 0xf800707f);
  ("MATCH_AMOXOR_W", 0x2000202f);
  ("MASK_AMOXOR_W", 0xf800707f);
  ("MATCH_AND", 0x7033);
  ("MASK_AND", 0xfe00707f);
  ("MATCH_ANDI", 0x7013);
  ("MASK_ANDI", 0x707f);
  ("MATCH_ANDN", 0x40007033);
  ("MASK_ANDN", 0xfe00707f);
  ("MATCH_AUIPC", 0x17);
  ("MASK_AUIPC", 0x7f);
  ("MATCH_BCLR", 0x48001033);
  ("MASK_BCLR", 0xfe00707f);
  ("MATCH_BCLRI", 0x48001013);
  ("MASK_BCLRI", 0xfc00707f);
  ("MATCH_BEQ", 0x63);
  ("MASK_BEQ", 0x707f);
  ("MATCH_BEXT", 0x48005033);
  ("MASK_BEXT", 0xfe00707f);
  ("MATCH_BEXTI", 0x48005013);
  ("MASK_BEXTI", 0xfc00707f);
  ("MATCH_BGE", 0x5063);
  ("MASK_BGE", 0x707f);
  ("MATCH_BGEU", 0x7063);
  ("MASK_BGEU", 0x707f);
  ("MATCH_BINV", 0x68001033);
  ("MASK_BINV", 0xfe00707f);
  ("MATCH_BINVI", 0x68001013);
  ("MASK_BINVI", 0xfc00707f);
  ("MATCH_BLT", 0x4063);
  ("MASK_BLT", 0x707f);
  ("MATCH_BLTU", 0x6063);
  ("MASK_BLTU", 0x707f);
  ("MATCH_BNE", 0x1063);
  ("MASK_BNE", 0x707f);
  ("MATCH_BSET", 0x28001033);
  ("MASK_BSET", 0xfe00707f);
  ("MATCH_BSETI", 0x28001013);
  ("MASK_BSETI", 0xfc00707f)].

Definition MATCH_MASK_1 : list (string * Z) := [
  ("MATCH_C_ADD", 0x9002);
  ("MASK_C_ADD", 0xf003);
  ("MATCH_C_ADDI", 1);
  ("MASK_C_ADDI", 0xe003);
  ("MATCH_C_ADDI16SP", 0x6101);
  ("MASK_C_ADDI16SP", 0xef83);
  ("MATCH_C_ADDI4SPN", 0);
  ("MASK_C_ADDI4SPN", 0xe003);
  ("MATCH_C_ADDIW", 0x2001);
  ("MASK_C_ADDIW", 0xe003);
  ("MATCH_C_ADDW", 0x9c21);
  ("MASK_C_ADDW", 0xfc63);
  ("MATCH_C_AND", 0x8c61);
  ("MASK_C_AND", 0xfc63);
  ("MATCH_C_ANDI", 0x8801);
  ("MASK_C_ANDI", 0xec03);
  ("MATCH_C_BEQZ", 0xc001);
  ("MASK_C_BEQZ", 0xe003);
  ("MATCH_C_BNEZ", 0xe001);
  ("MASK_C_BNEZ", 0xe003);
  ("MATCH_C_EBREAK", 0x9002);
  ("MASK_C_EBREAK", 0xffff);
  ("MATCH_C_FLD", 0x2000);
  ("MASK_C_FLD", 0xe003);
  ("MATCH_C_FLDSP", 0x2002);
  ("MASK_C_FLDSP", 0xe003);
  ("MATCH_C_FLW", 0x6000);
  ("MASK_C_FLW", 0xe003);
  ("MATCH_C_FLWSP", 0x6002);
  ("MASK_C_FLWSP", 0xe003);
  ("MATCH_C_FSD", 0xa000);
  ("MASK_C_FSD", 0xe003);
  ("MATCH_C_FSDSP", 0xa002);
  ("MASK_C_FSDSP", 0xe003);
  ("MATCH_C_FSW", 0xe000);
  ("MASK_C_FSW", 0xe003);
  ("MATCH_C_FSWSP", 0xe002);
  ("MASK_C_FSWSP", 0xe003);
  ("MATCH_C_J", 0xa001);
  ("MASK_C_J", 0xe003);
  ("MATCH_C_JAL", 0x2001);
  ("MASK_C_JAL", 0xe003);
  ("MATCH_C_JALR", 0x9002);
  ("MASK_C_JALR", 0xf07f);
  ("MATCH_C_JR", 0x8002);
  ("MASK_C_JR", 0xf07f);
  ("MATCH_C_LBU", 0x8000);
  ("MASK_C_LBU", 0xfc03);
  ("MATCH_C_LD", 0x6000);
  ("MASK_C_LD", 0xe003);
  ("MATCH_C_LDSP", 0x6002);
  ("MASK_C_LDSP", 0xe003);
  ("MATCH_C_LH", 0x8440);
  ("MASK_C_LH", 0xfc43);
  ("MATCH_C_LHU", 0x8400);
  ("MASK_C_LHU", 0xfc43);
  ("MATCH_C_LI", 0x4001);
  ("MASK_C_LI", 0xe003);
  ("MATCH_C_LUI", 0x6001);
  ("MASK_C_LUI", 0xe003);
  ("MATCH_C_LW", 0x4000);
  ("MASK_C_LW", 0xe003);
  ("MATCH_C_LWSP", 0x4002);
  ("MASK_C_LWSP", 0xe003);
  ("MATCH_C_MOP_1", 0x6081);
  ("MASK_C_MOP_1", 0xffff);
  ("MATCH_C_MOP_11", 0x6581);
  ("MASK_C_MOP_11", 0xffff);
  ("MATCH_C_MOP_13", 0x6681);
  ("MASK_C_MOP_13", 0xffff);
  ("MATCH_C_MOP_15", 0x6781);
  ("MASK_C_MOP_15", 0xffff);
  ("MATCH_C_MOP_3", 0x6181);
  ("MASK_C_MOP_3", 0xffff);
  ("MATCH_C_MOP_5", 0x6281);
  ("MASK_C_MOP_5", 0xffff);
  ("MATCH_C_MOP_7", 0x6381);
  ("MASK_C_MOP_7", 0xffff);
  ("MATCH_C_MOP_9", 0x6481);
  ("MASK_C_MOP_9", 0xffff);
  ("MATCH_C_MOP_N", 0x6081);
  ("MASK_C_MOP_N", 0xf8ff);
  ("MATCH_C_MUL", 0x9c41);
  ("MASK_C_MUL", 0xfc63);
  ("MATCH_C_MV", 0x8002);
  ("MASK_C_MV", 0xf003);
  ("MATCH_C_NOP", 1);
  ("MASK_C_NOP", 0xef83);
  ("MATCH_C_NOT", 0x9c75);
  ("MASK_C_NOT", 0xfc7f);
  ("MATCH_C_OR", 0x8c41);
  ("MASK_C_OR", 0xfc63);
  ("MATCH_C_SB", 0x8800);
  ("MASK_C_SB", 0xfc03);
  ("MATCH_C_SD", 0xe000);
  ("MASK_C_SD", 0xe003);
  ("MATCH_C_SDSP", 0xe002);
  ("MASK_C_SDSP", 0xe003);
  ("MATCH_C_SEXT_B", 0x9c65);
  ("MASK_C_SEXT_B", 0xfc7f);
  ("MATCH_C_SEXT_H", 0x9c6d);
  ("MASK_C_SEXT_H", 0xfc7f);
  ("MATCH_C_SH", 0x8c00);
  ("MASK_C_SH", 0xfc43);
  ("MATCH_C_SLLI", 2);
  ("MASK_C_SLLI", 0xe003);
  ("MATCH_C_SRAI", 0x8401);
  ("MASK_C_SRAI", 0xec03);
  ("MATCH_C_SRLI", 0x8001);
  ("MASK_C_SRLI", 0xec03);
  ("MATCH_C_SSPOPCHK_X5", 0x6281);
  ("MASK_C_SSPOPCHK_X5", 0xffff);
  ("MATCH_C_SSPUSH_X1", 0x6081);
  ("MASK_C_SSPUSH_X1", 0xffff);
  ("MATCH_C_SUB", 0x8c01);
  ("MASK_C_SUB", 0xfc63);
  ("MATCH_C_SUBW", 0x9c01);
  ("MASK_C_SUBW", 0xfc63);
  ("MATCH_C_SW", 0xc000);
  ("MASK_C_SW", 0xe003);
  ("MATCH_C_SWSP", 0xc002);
  ("MASK_C_SWSP", 0xe003);
  ("MATCH_C_XOR", 0x8c21);
  ("MASK_C_XOR", 0xfc63);
  ("MATCH_C_ZEXT_B", 0x9c61);
  ("MASK_C_ZEXT_B", 0xfc7f);
  ("MATCH_C_ZEXT_H", 0x9c69);
  ("MASK_C_ZEXT_H", 0xfc7f);
  ("MATCH_C_ZEXT_W", 0x9c71);
  ("MASK_C_ZEXT_W", 0xfc7f);
  ("MATCH_CBO_CLEAN", 0x10200f);
  ("MASK_CBO_CLEAN", 0xfff07fff);
  ("MATCH_CBO_FLUSH", 0x20200f);
  ("MASK_CBO_FLUSH", 0xfff07fff);
  ("MATCH_CBO_INVAL", 0x200f);
  ("MASK_CBO_INVAL", 0xfff07fff);
  ("MATCH_CBO_ZERO", 0x40200f);
  ("MASK_CBO_ZERO", 0xfff07fff);
  ("MATCH_CLMUL", 0xa001033);
  ("MASK_CLMUL", 0xfe00707f);
  ("MATCH_CLMULH", 0xa003033);
  ("MASK_CLMULH", 0xfe00707f);
  ("MATCH_CLMULR", 0xa002033);
  ("MASK_CLMULR", 0xfe00707f);
  ("MATCH_CLZ", 0x60001013);
  ("MASK_CLZ", 0xfff0707f);
  ("MATCH_CLZW", 0x6000101b);
  ("MASK_CLZW", 0xfff0707f);
  ("MATCH_CM_JALT", 0xa002);
  ("MASK_CM_JALT", 0xfc03)].

Definition MATCH_MASK_2 : list (string * Z) := [
  ("MATCH_CM_MVA01S", 0xac62);
  ("MASK_CM_MVA01S", 0xfc63);
  ("MATCH_CM_MVSA01", 0xac22);
  ("MASK_CM_MVSA01", 0xfc63);
  ("MATCH_CM_POP", 0xba02);
  ("MASK_CM_POP", 0xff03);
  ("MATCH_CM_POPRET", 0xbe02);
  ("MASK_CM_POPRET", 0xff03);
  ("MATCH_CM_POPRETZ", 0xbc02);
  ("MASK_CM_POPRETZ", 0xff03);
  ("MATCH_CM_PUSH", 0xb802);
  ("MASK_CM_PUSH", 0xff03);
  ("MATCH_CPOP", 0x60201013);
  ("MASK_CPOP", 0xfff0707f);
  ("MATCH_CPOPW", 0x6020101b);
  ("MASK_CPOPW", 0xfff0707f);
  ("MATCH_CSRRC", 0x3073);
  ("MASK_CSRRC", 0x707f);
  ("MATCH_CSRRCI", 0x7073);
  ("MASK_CSRRCI", 0x707f);
  ("MATCH_CSRRS", 0x2073);
  ("MASK_CSRRS", 0x707f);
  ("MATCH_CSRRSI", 0x6073);
  ("MASK_CSRRSI", 0x707f);
  ("MATCH_CSRRW", 0x1073);
  ("MASK_CSRRW", 0x707f);
  ("MATCH_CSRRWI", 0x5073);
  ("MASK_CSRRWI", 0x707f);
  ("MATCH_CTZ", 0x60101013);
  ("MASK_CTZ", 0xfff0707f);
  ("MATCH_CTZW", 0x6010101b);
  ("MASK_CTZW", 0xfff0707f);
  ("MATCH_CZERO_EQZ", 0xe005033);
  ("MASK_CZERO_EQZ", 0xfe00707f);
  ("MATCH_CZERO_NEZ", 0xe007033);
  ("MASK_CZERO_NEZ", 0xfe00707f);
  ("MATCH_DIV", 0x2004033);
  ("MASK_DIV", 0xfe00707f);
  ("MATCH_DIVU", 0x2005033);
  ("MASK_DIVU", 0xfe00707f);
  ("MATCH_DIVUW", 0x200503b);
  ("MASK_DIVUW", 0xfe00707f);
  ("MATCH_DIVW", 0x200403b);
  ("MASK_DIVW", 0xfe00707f);
  ("MATCH_DRET", 0x7b200073);
  ("MASK_DRET", 0xffffffff);
  ("MATCH_EBREAK", 0x100073);
  ("MASK_EBREAK", 0xffffffff);
  ("MATCH_ECALL", 0x73);
  ("MASK_ECALL", 0xffffffff);
  ("MATCH_FADD_D", 0x2000053);
  ("MASK_FADD_D", 0xfe00007f);
  ("MATCH_FADD_H", 0x4000053);
  ("MASK_FADD_H", 0xfe00007f);
  ("MATCH_FADD_Q", 0x6000053);
  ("MASK_FADD_Q", 0xfe00007f);
  ("MATCH_FADD_S", 0x53);
  ("MASK_FADD_S", 0xfe00007f);
  ("MATCH_FCLASS_D", 0xe2001053);
  ("MASK_FCLASS_D", 0xfff0707f);
  ("MATCH_FCLASS_H", 0xe4001053);
  ("MASK_FCLASS_H", 0xfff0707f);
  ("MATCH_FCLASS_Q", 0xe6001053);
  ("MASK_FCLASS_Q", 0xfff0707f);
  ("MATCH_FCLASS_S", 0xe0001053);
  ("MASK_FCLASS_S", 0xfff0707f);
  ("MATCH_FCVT_BF16_S", 0x44800053);
  ("MASK_FCVT_BF16_S", 0xfff0007f);
  ("MATCH_FCVT_D_H", 0x42200053);
  ("MASK_FCVT_D_H", 0xfff0007f);
  ("MATCH_FCVT_D_L", 0xd2200053);
  ("MASK_FCVT_D_L", 0xfff0007f);
  ("MATCH_FCVT_D_LU", 0xd2300053);
  ("MASK_FCVT_D_LU", 0xfff0007f);
  ("MATCH_FCVT_D_Q", 0x42300053);
  ("MASK_FCVT_D_Q", 0xfff0007f);
  ("MATCH_FCVT_D_S", 0x42000053);
  ("MASK_FCVT_D_S", 0xfff0007f);
  ("MATCH_FCVT_D_W", 0xd2000053);
  ("MASK_FCVT_D_W", 0xfff0007f);
  ("MATCH_FCVT_D_WU", 0xd2100053);
  ("MASK_FCVT_D_WU", 0xfff0007f);
  ("MATCH_FCVT_H_D", 0x44100053);
  ("MASK_FCVT_H_D", 0xfff0007f);
  ("MATCH_FCVT_H_L", 0xd4200053);
  ("MASK_FCVT_H_L", 0xfff0007f);
  ("MATCH_FCVT_H_LU", 0xd4300053);
  ("MASK_FCVT_H_LU", 0xfff0007f);
  ("MATCH_FCVT_H_Q", 0x44300053);
  ("MASK_FCVT_H_Q", 0xfff0007f);
  ("MATCH_FCVT_H_S", 0x44000053);
  ("MASK_FCVT_H_S", 0xfff0007f);
  ("MATCH_FCVT_H_W", 0xd4000053);
  ("MASK_FCVT_H_W", 0xfff0007f);
  ("MATCH_FCVT_H_WU", 0xd4100053);
  ("MASK_FCVT_H_WU", 0xfff0007f);
  ("MATCH_FCVT_L_D", 0xc2200053);
  ("MASK_FCVT_L_D", 0xfff0007f);
  ("MATCH_FCVT_L_H", 0xc4200053);
  ("MASK_FCVT_L_H", 0xfff0007f);
  ("MATCH_FCVT_L_Q", 0xc6200053);
  ("MASK_FCVT_L_Q", 0xfff0007f);
  ("MATCH_FCVT_L_S", 0xc0200053);
  ("MASK_FCVT_L_S", 0xfff0007f);
  ("MATCH_FCVT_LU_D", 0xc2300053);
  ("MASK_FCVT_LU_D", 0xfff0007f);
  ("MATCH_FCVT_LU_H", 0xc4300053);
  ("MASK_FCVT_LU_H", 0xfff0007f);
  ("MATCH_FCVT_LU_Q", 0xc6300053);
  ("MASK_FCVT_LU_Q", 0xfff0007f);
  ("MATCH_FCVT_LU_S", 0xc0300053);
  ("MASK_FCVT_LU_S", 0xfff0007f);
  ("MATCH_FCVT_Q_D", 0x46100053);
  ("MASK_FCVT_Q_D", 0xfff0007f);
  ("MATCH_FCVT_Q_H", 0x46200053);
  ("MASK_FCVT_Q_H", 0xfff0007f);
  ("MATCH_FCVT_Q_L", 0xd6200053);
  ("MASK_FCVT_Q_L", 0xfff0007f);
  ("MATCH_FCVT_Q_LU", 0xd6300053);
  ("MASK_FCVT_Q_LU", 0xfff0007f);
  ("MATCH_FCVT_Q_S", 0x46000053);
  ("MASK_FCVT_Q_S", 0xfff0007f);
  ("MATCH_FCVT_Q_W", 0xd6000053);
  ("MASK_FCVT_Q_W", 0xfff0007f);
  ("MATCH_FCVT_Q_WU", 0xd6100053);
  ("MASK_FCVT_Q_WU", 0xfff0007f);
  ("MATCH_FCVT_S_BF16", 0x40600053);
  ("MASK_FCVT_S_BF16", 0xfff0007f);
  ("MATCH_FCVT_S_D", 0x40100053);
  ("MASK_FCVT_S_D", 0xfff0007f);
  ("MATCH_FCVT_S_H", 0x40200053);
  ("MASK_FCVT_S_H", 0xfff0007f);
  ("MATCH_FCVT_S_L", 0xd0200053);
  ("MASK_FCVT_S_L", 0xfff0007f);
  ("MATCH_FCVT_S_LU", 0xd0300053);
  ("MASK_FCVT_S_LU", 0xfff0007f);
  ("MATCH_FCVT_S_Q", 0x40300053);
  ("MASK_FCVT_S_Q", 0xfff0007f);
  ("MATCH_FCVT_S_W", 0xd0000053);
  ("MASK_FCVT_S_W", 0xfff0007f);
  ("MATCH_FCVT_S_WU", 0xd0100053);
  ("MASK_FCVT_S_WU", 0xfff0007f);
  ("MATCH_FCVT_W_D", 0xc2000053);
  ("MASK_FCVT_W_D", 0xfff0007f);
  ("MATCH_FCVT_W_H", 0xc4000053);
  ("MASK_FCVT_W_H", 0xfff0007f);
  ("MATCH_FCVT_W_Q", 0xc6000053);
  ("MASK_FCVT_W_Q", 0xfff0007f);
  ("MATCH_FCVT_W_S", 0xc0000053);
  ("MASK_FCVT_W_S", 0xfff0007f)].

Definition MATCH_MASK_3 : list (string * Z) := [
  ("MATCH_FCVT_WU_D", 0xc2100053);
  ("MASK_FCVT_WU_D", 0xfff0007f);
  ("MATCH_FCVT_WU_H", 0xc4100053);
  ("MASK_FCVT_WU_H", 0xfff0007f);
  ("MATCH_FCVT_WU_Q", 0xc6100053);
  ("MASK_FCVT_WU_Q", 0xfff0007f);
  ("MATCH_FCVT_WU_S", 0xc0100053);
  ("MASK_FCVT_WU_S", 0xfff0007f);
  ("MATCH_FCVTMOD_W_D", 0xc2801053);
  ("MASK_FCVTMOD_W_D", 0xfff0707f);
  ("MATCH_FDIV_D", 0x1a000053);
  ("MASK_FDIV_D", 0xfe00007f);
  ("MATCH_FDIV_H", 0x1c000053);
  ("MASK_FDIV_H", 0xfe00007f);
  ("MATCH_FDIV_Q", 0x1e000053);
  ("MASK_FDIV_Q", 0xfe00007f);
  ("MATCH_FDIV_S", 0x18000053);
  ("MASK_FDIV_S", 0xfe00007f);
  ("MATCH_FENCE", 0xf);
  ("MASK_FENCE", 0x707f);
  ("MATCH_FENCE_I", 0x100f);
  ("MASK_FENCE_I", 0x707f);
  ("MATCH_FEQ_D", 0xa2002053);
  ("MASK_FEQ_D", 0xfe00707f);
  ("MATCH_FEQ_H", 0xa4002053);
  ("MASK_FEQ_H", 0xfe00707f);
  ("MATCH_FEQ_Q", 0xa6002053);
  ("MASK_FEQ_Q", 0xfe00707f);
  ("MATCH_FEQ_S", 0xa0002053);
  ("MASK_FEQ_S", 0xfe00707f);
  ("MATCH_FLD", 0x3007);
  ("MASK_FLD", 0x707f);
  ("MATCH_FLE_D", 0xa2000053);
  ("MASK_FLE_D", 0xfe00707f);
  ("MATCH_FLE_H", 0xa4000053);
  ("MASK_FLE_H", 0xfe00707f);
  ("MATCH_FLE_Q", 0xa6000053);
  ("MASK_FLE_Q", 0xfe00707f);
  ("MATCH_FLE_S", 0xa0000053);
  ("MASK_FLE_S", 0xfe00707f);
  ("MATCH_FLEQ_D", 0xa2004053);
  ("MASK_FLEQ_D", 0xfe00707f);
  ("MATCH_FLEQ_H", 0xa4004053);
  ("MASK_FLEQ_H", 0xfe00707f);
  ("MATCH_FLEQ_Q", 0xa6004053);
  ("MASK_FLEQ_Q", 0xfe00707f);
  ("MATCH_FLEQ_S", 0xa0004053);
  ("MASK_FLEQ_S", 0xfe00707f);
  ("MATCH_FLH", 0x1007);
  ("MASK_FLH", 0x707f);
  ("MATCH_FLI_D", 0xf2100053);
  ("MASK_FLI_D", 0xfff0707f);
  ("MATCH_FLI_H", 0xf4100053);
  ("MASK_FLI_H", 0xfff0707f);
  ("MATCH_FLI_Q", 0xf6100053);
  ("MASK_FLI_Q", 0xfff0707f);
  ("MATCH_FLI_S", 0xf0100053);
  ("MASK_FLI_S", 0xfff0707f);
  ("MATCH_FLQ", 0x4007);
  ("MASK_FLQ", 0x707f);
  ("MATCH_FLT_D", 0xa2001053);
  ("MASK_FLT_D", 0xfe00707f);
  ("MATCH_FLT_H", 0xa4001053);
  ("MASK_FLT_H", 0xfe00707f);
  ("MATCH_FLT_Q", 0xa6001053);
  ("MASK_FLT_Q", 0xfe00707f);
  ("MATCH_FLT_S", 0xa0001053);
  ("MASK_FLT_S", 0xfe00707f);
  ("MATCH_FLTQ_D", 0xa2005053);
  ("MASK_FLTQ_D", 0xfe00707f);
  ("MATCH_FLTQ_H", 0xa4005053);
  ("MASK_FLTQ_H", 0xfe00707f);
  ("MATCH_FLTQ_Q", 0xa6005053);
  ("MASK_FLTQ_Q", 0xfe00707f);
  ("MATCH_FLTQ_S", 0xa0005053);
  ("MASK_FLTQ_S", 0xfe00707f);
  ("MATCH_FLW", 0x2007);
  ("MASK_FLW", 0x707f);
  ("MATCH_FMADD_D", 0x2000043);
  ("MASK_FMADD_D", 0x600007f);
  ("MATCH_FMADD_H", 0x4000043);
  ("MASK_FMADD_H", 0x600007f);
  ("MATCH_FMADD_Q", 0x6000043);
  ("MASK_FMADD_Q", 0x600007f);
  ("MATCH_FMADD_S", 0x43);
  ("MASK_FMADD_S", 0x600007f);
  ("MATCH_FMAX_D", 0x2a001053);
  ("MASK_FMAX_D", 0xfe00707f);
  ("MATCH_FMAX_H", 0x2c001053);
  ("MASK_FMAX_H", 0xfe00707f);
  ("MATCH_FMAX_Q", 0x2e001053);
  ("MASK_FMAX_Q", 0xfe00707f);
  ("MATCH_FMAX_S", 0x28001053);
  ("MASK_FMAX_S", 0xfe00707f);
  ("MATCH_FMAXM_D", 0x2a003053);
  ("MASK_FMAXM_D", 0xfe00707f);
  ("MATCH_FMAXM_H", 0x2c003053);
  ("MASK_FMAXM_H", 0xfe00707f);
  ("MATCH_FMAXM_Q", 0x2e003053);
  ("MASK_FMAXM_Q", 0xfe00707f);
  ("MATCH_FMAXM_S", 0x28003053);
  ("MASK_FMAXM_S", 0xfe00707f);
  ("MATCH_FMIN_D", 0x2a000053);
  ("MASK_FMIN_D", 0xfe00707f);
  ("MATCH_FMIN_H", 0x2c000053);
  ("MASK_FMIN_H", 0xfe00707f);
  ("MATCH_FMIN_Q", 0x2e000053);
  ("MASK_FMIN_Q", 0xfe00707f);
  ("MATCH_FMIN_S", 0x28000053);
  ("MASK_FMIN_S", 0xfe00707f);
  ("MATCH_FMINM_D", 0x2a002053);
  ("MASK_FMINM_D", 0xfe00707f);
  ("MATCH_FMINM_H", 0x2c002053);
  ("MASK_FMINM_H", 0xfe00707f);
  ("MATCH_FMINM_Q", 0x2e002053);
  ("MASK_FMINM_Q", 0xfe00707f);
  ("MATCH_FMINM_S", 0x28002053);
  ("MASK_FMINM_S", 0xfe00707f);
  ("MATCH_FMSUB_D", 0x2000047);
  ("MASK_FMSUB_D", 0x600007f);
  ("MATCH_FMSUB_H", 0x4000047);
  ("MASK_FMSUB_H", 0x600007f);
  ("MATCH_FMSUB_Q", 0x6000047);
  ("MASK_FMSUB_Q", 0x600007f);
  ("MATCH_FMSUB_S", 0x47);
  ("MASK_FMSUB_S", 0x600007f);
  ("MATCH_FMUL_D", 0x12000053);
  ("MASK_FMUL_D", 0xfe00007f);
  ("MATCH_FMUL_H", 0x14000053);
  ("MASK_FMUL_H", 0xfe00007f);
  ("MATCH_FMUL_Q", 0x16000053);
  ("MASK_FMUL_Q", 0xfe00007f);
  ("MATCH_FMUL_S", 0x10000053);
  ("MASK_FMUL_S", 0xfe00007f);
  ("MATCH_FMV_D_X", 0xf2000053);
  ("MASK_FMV_D_X", 0xfff0707f);
  ("MATCH_FMV_H_X", 0xf4000053);
  ("MASK_FMV_H_X", 0xfff0707f);
  ("MATCH_FMV_W_X", 0xf0000053);
  ("MASK_FMV_W_X", 0xfff0707f);
  ("MATCH_FMV_X_D", 0xe2000053);
  ("MASK_FMV_X_D", 0xfff0707f);
  ("MATCH_FMV_X_H", 0xe4000053);
  ("MASK_FMV_X_H", 0xfff0707f);
  ("MATCH_FMV_X_W", 0xe0000053);
  ("MASK_FMV_X_W", 0xfff0707f);
  ("MATCH_FMVH_X_D", 0xe2100053);
  ("MASK_FMVH_X_D", 0xfff0707f);
  ("MATCH_FMVH_X_Q", 0xe6100053);
  ("MASK_FMVH_X_Q", 0xfff0707f)].

Definition MATCH_MASK_4 : list (string * Z) := [
  ("MATCH_FMVP_D_X", 0xb2000053);
  ("MASK_FMVP_D_X", 0xfe00707f);
  ("MATCH_FMVP_Q_X", 0xb6000053);
  ("MASK_FMVP_Q_X", 0xfe00707f);
  ("MATCH_FNMADD_D", 0x200004f);
  ("MASK_FNMADD_D", 0x600007f);
  ("MATCH_FNMADD_H", 0x400004f);
  ("MASK_FNMADD_H", 0x600007f);
  ("MATCH_FNMADD_Q", 0x600004f);
  ("MASK_FNMADD_Q", 0x600007f);
  ("MATCH_FNMADD_S", 0x4f);
  ("MASK_FNMADD_S", 0x600007f);
  ("MATCH_FNMSUB_D", 0x200004b);
  ("MASK_FNMSUB_D", 0x600007f);
  ("MATCH_FNMSUB_H", 0x400004b);
  ("MASK_FNMSUB_H", 0x600007f);
  ("MATCH_FNMSUB_Q", 0x600004b);
  ("MASK_FNMSUB_Q", 0x600007f);
  ("MATCH_FNMSUB_S", 0x4b);
  ("MASK_FNMSUB_S", 0x600007f);
  ("MATCH_FROUND_D", 0x42400053);
  ("MASK_FROUND_D", 0xfff0007f);
  ("MATCH_FROUND_H", 0x44400053);
  ("MASK_FROUND_H", 0xfff0007f);
  ("MATCH_FROUND_Q", 0x46400053);
  ("MASK_FROUND_Q", 0xfff0007f);
  ("MATCH_FROUND_S", 0x40400053);
  ("MASK_FROUND_S", 0xfff0007f);
  ("MATCH_FROUNDNX_D", 0x42500053);
  ("MASK_FROUNDNX_D", 0xfff0007f);
  ("MATCH_FROUNDNX_H", 0x44500053);
  ("MASK_FROUNDNX_H", 0xfff0007f);
  ("MATCH_FROUNDNX_Q", 0x46500053);
  ("MASK_FROUNDNX_Q", 0xfff0007f);
  ("MATCH_FROUNDNX_S", 0x40500053);
  ("MASK_FROUNDNX_S", 0xfff0007f);
  ("MATCH_FSD", 0x3027);
  ("MASK_FSD", 0x707f);
  ("MATCH_FSGNJ_D", 0x22000053);
  ("MASK_FSGNJ_D", 0xfe00707f);
  ("MATCH_FSGNJ_H", 0x24000053);
  ("MASK_FSGNJ_H", 0xfe00707f);
  ("MATCH_FSGNJ_Q", 0x26000053);
  ("MASK_FSGNJ_Q", 0xfe00707f);
  ("MATCH_FSGNJ_S", 0x20000053);
  ("MASK_FSGNJ_S", 0xfe00707f);
  ("MATCH_FSGNJN_D", 0x22001053);
  ("MASK_FSGNJN_D", 0xfe00707f);
  ("MATCH_FSGNJN_H", 0x24001053);
  ("MASK_FSGNJN_H", 0xfe00707f);
  ("MATCH_FSGNJN_Q", 0x26001053);
  ("MASK_FSGNJN_Q", 0xfe00707f);
  ("MATCH_FSGNJN_S", 0x20001053);
  ("MASK_FSGNJN_S", 0xfe00707f);
  ("MATCH_FSGNJX_D", 0x22002053);
  ("MASK_FSGNJX_D", 0xfe00707f);
  ("MATCH_FSGNJX_H", 0x24002053);
  ("MASK_FSGNJX_H", 0xfe00707f);
  ("MATCH_FSGNJX_Q", 0x26002053);
  ("MASK_FSGNJX_Q", 0xfe00707f);
  ("MATCH_FSGNJX_S", 0x20002053);
  ("MASK_FSGNJX_S", 0xfe00707f);
  ("MATCH_FSH", 0x1027);
  ("MASK_FSH", 0x707f);
  ("MATCH_FSQ", 0x4027);
  ("MASK_FSQ", 0x707f);
  ("MATCH_FSQRT_D", 0x5a000053);
  ("MASK_FSQRT_D", 0xfff0007f);
  ("MATCH_FSQRT_H", 0x5c000053);
  ("MASK_FSQRT_H", 0xfff0007f);
  ("MATCH_FSQRT_Q", 0x5e000053);
  ("MASK_FSQRT_Q", 0xfff0007f);
  ("MATCH_FSQRT_S", 0x58000053);
  ("MASK_FSQRT_S", 0xfff0007f);
  ("MATCH_FSUB_D", 0xa000053);
  ("MASK_FSUB_D", 0xfe00007f);
  ("MATCH_FSUB_H", 0xc000053);
  ("MASK_FSUB_H", 0xfe00007f);
  ("MATCH_FSUB_Q", 0xe000053);
  ("MASK_FSUB_Q", 0xfe00007f);
  ("MATCH_FSUB_S", 0x8000053);
  ("MASK_FSUB_S", 0xfe00007f);
  ("MATCH_FSW", 0x2027);
  ("MASK_FSW", 0x707f);
  ("MATCH_GORCI", 0x28005013);
  ("MASK_GORCI", 0xfc00707f);
  ("MATCH_GREVI", 0x68005013);
  ("MASK_GREVI", 0xfc00707f);
  ("MATCH_HFENCE_GVMA", 0x62000073);
  ("MASK_HFENCE_GVMA", 0xfe007fff);
  ("MATCH_HFENCE_VVMA", 0x22000073);
  ("MASK_HFENCE_VVMA", 0xfe007fff);
  ("MATCH_HINVAL_GVMA", 0x66000073);
  ("MASK_HINVAL_GVMA", 0xfe007fff);
  ("MATCH_HINVAL_VVMA", 0x26000073);
  ("MASK_HINVAL_VVMA", 0xfe007fff);
  ("MATCH_HLV_B", 0x60004073);
  ("MASK_HLV_B", 0xfff0707f);
  ("MATCH_HLV_BU", 0x60104073);
  ("MASK_HLV_BU", 0xfff0707f);
  ("MATCH_HLV_D", 0x6c004073);
  ("MASK_HLV_D", 0xfff0707f);
  ("MATCH_HLV_H", 0x64004073);
  ("MASK_HLV_H", 0xfff0707f);
  ("MATCH_HLV_HU", 0x64104073);
  ("MASK_HLV_HU", 0xfff0707f);
  ("MATCH_HLV_W", 0x68004073);
  ("MASK_HLV_W", 0xfff0707f);
  ("MATCH_HLV_WU", 0x68104073);
  ("MASK_HLV_WU", 0xfff0707f);
  ("MATCH_HLVX_HU", 0x64304073);
  ("MASK_HLVX_HU", 0xfff0707f);
  ("MATCH_HLVX_WU", 0x68304073);
  ("MASK_HLVX_WU", 0xfff0707f);
  ("MATCH_HSV_B", 0x62004073);
  ("MASK_HSV_B", 0xfe007fff);
  ("MATCH_HSV_D", 0x6e004073);
  ("MASK_HSV_D", 0xfe007fff);
  ("MATCH_HSV_H", 0x66004073);
  ("MASK_HSV_H", 0xfe007fff);
  ("MATCH_HSV_W", 0x6a004073);
  ("MASK_HSV_W", 0xfe007fff);
  ("MATCH_JAL", 0x6f);
  ("MASK_JAL", 0x7f);
  ("MATCH_JALR", 0x67);
  ("MASK_JALR", 0x707f);
  ("MATCH_LB", 3);
  ("MASK_LB", 0x707f);
  ("MATCH_LB_AQ", 0x3400002f);
  ("MASK_LB_AQ", 0xfdf0707f);
  ("MATCH_LBU", 0x4003);
  ("MASK_LBU", 0x707f);
  ("MATCH_LD", 0x3003);
  ("MASK_LD", 0x707f);
  ("MATCH_LD_AQ", 0x3400302f);
  ("MASK_LD_AQ", 0xfdf0707f);
  ("MATCH_LH", 0x1003);
  ("MASK_LH", 0x707f);
  ("MATCH_LH_AQ", 0x3400102f);
  ("MASK_LH_AQ", 0xfdf0707f);
  ("MATCH_LHU", 0x5003);
  ("MASK_LHU", 0x707f);
  ("MATCH_LPAD", 0x17);
  ("MASK_LPAD", 0xfff);
  ("MATCH_LR_D", 0x1000302f);
  ("MASK_LR_D", 0xf9f0707f);
  ("MATCH_LR_W", 0x1000202f);
  ("MASK_LR_W", 0xf9f0707f);
  ("MATCH_LUI", 0x37);
  ("MASK_LUI", 0x7f)].

Definition MATCH_MASK_5 : list (string * Z) := [
  ("MATCH_LW", 0x2003);
  ("MASK_LW", 0x707f);
  ("MATCH_LW_AQ", 0x3400202f);
  ("MASK_LW_AQ", 0xfdf0707f);
  ("MATCH_LWU", 0x6003);
  ("MASK_LWU", 0x707f);
  ("MATCH_MAX", 0xa006033);
  ("MASK_MAX", 0xfe00707f);
  ("MATCH_MAXU", 0xa007033);
  ("MASK_MAXU", 0xfe00707f);
  ("MATCH_MIN", 0xa004033);
  ("MASK_MIN", 0xfe00707f);
  ("MATCH_MINU", 0xa005033);
  ("MASK_MINU", 0xfe00707f);
  ("MATCH_MNRET", 0x70200073);
  ("MASK_MNRET", 0xffffffff);
  ("MATCH_MOP_R_0", 0x81c04073);
  ("MASK_MOP_R_0", 0xfff0707f);
  ("MATCH_MOP_R_1", 0x81d04073);
  ("MASK_MOP_R_1", 0xfff0707f);
  ("MATCH_MOP_R_10", 0x89e04073);
  ("MASK_MOP_R_10", 0xfff0707f);
  ("MATCH_MOP_R_11", 0x89f04073);
  ("MASK_MOP_R_11", 0xfff0707f);
  ("MATCH_MOP_R_12", 0x8dc04073);
  ("MASK_MOP_R_12", 0xfff0707f);
  ("MATCH_MOP_R_13", 0x8dd04073);
  ("MASK_MOP_R_13", 0xfff0707f);
  ("MATCH_MOP_R_14", 0x8de04073);
  ("MASK_MOP_R_14", 0xfff0707f);
  ("MATCH_MOP_R_15", 0x8df04073);
  ("MASK_MOP_R_15", 0xfff0707f);
  ("MATCH_MOP_R_16", 0xc1c04073);
  ("MASK_MOP_R_16", 0xfff0707f);
  ("MATCH_MOP_R_17", 0xc1d04073);
  ("MASK_MOP_R_17", 0xfff0707f);
  ("MATCH_MOP_R_18", 0xc1e04073);
  ("MASK_MOP_R_18", 0xfff0707f);
  ("MATCH_MOP_R_19", 0xc1f04073);
  ("MASK_MOP_R_19", 0xfff0707f);
  ("MATCH_MOP_R_2", 0x81e04073);
  ("MASK_MOP_R_2", 0xfff0707f);
  ("MATCH_MOP_R_20", 0xc5c04073);
  ("MASK_MOP_R_20", 0xfff0707f);
  ("MATCH_MOP_R_21", 0xc5d04073);
  ("MASK_MOP_R_21", 0xfff0707f);
  ("MATCH_MOP_R_22", 0xc5e04073);
  ("MASK_MOP_R_22", 0xfff0707f);
  ("MATCH_MOP_R_23", 0xc5f04073);
  ("MASK_MOP_R_23", 0xfff0707f);
  ("MATCH_MOP_R_24", 0xc9c04073);
  ("MASK_MOP_R_24", 0xfff0707f);
  ("MATCH_MOP_R_25", 0xc9d04073);
  ("MASK_MOP_R_25", 0xfff0707f);
  ("MATCH_MOP_R_26", 0xc9e04073);
  ("MASK_MOP_R_26", 0xfff0707f);
  ("MATCH_MOP_R_27", 0xc9f04073);
  ("MASK_MOP_R_27", 0xfff0707f);
  ("MATCH_MOP_R_28", 0xcdc04073);
  ("MASK_MOP_R_28", 0xfff0707f);
  ("MATCH_MOP_R_29", 0xcdd04073);
  ("MASK_MOP_R_29", 0xfff0707f);
  ("MATCH_MOP_R_3", 0x81f04073);
  ("MASK_MOP_R_3", 0xfff0707f);
  ("MATCH_MOP_R_30", 0xcde04073);
  ("MASK_MOP_R_30", 0xfff0707f);
  ("MATCH_MOP_R_31", 0xcdf04073);
  ("MASK_MOP_R_31", 0xfff0707f);
  ("MATCH_MOP_R_4", 0x85c04073);
  ("MASK_MOP_R_4", 0xfff0707f);
  ("MATCH_MOP_R_5", 0x85d04073);
  ("MASK_MOP_R_5", 0xfff0707f);
  ("MATCH_MOP_R_6", 0x85e04073);
  ("MASK_MOP_R_6", 0xfff0707f);
  ("MATCH_MOP_R_7", 0x85f04073);
  ("MASK_MOP_R_7", 0xfff0707f);
  ("MATCH_MOP_R_8", 0x89c04073);
  ("MASK_MOP_R_8", 0xfff0707f);
  ("MATCH_MOP_R_9", 0x89d04073);
  ("MASK_MOP_R_9", 0xfff0707f);
  ("MATCH_MOP_R_N", 0x81c04073);
  ("MASK_MOP_R_N", 0xb3c0707f);
  ("MATCH_MOP_RR_0", 0x82004073);
  ("MASK_MOP_RR_0", 0xfe00707f);
  ("MATCH_MOP_RR_1", 0x86004073);
  ("MASK_MOP_RR_1", 0xfe00707f);
  ("MATCH_MOP_RR_2", 0x8a004073);
  ("MASK_MOP_RR_2", 0xfe00707f);
  ("MATCH_MOP_RR_3", 0x8e004073);
  ("MASK_MOP_RR_3", 0xfe00707f);
  ("MATCH_MOP_RR_4", 0xc2004073);
  ("MASK_MOP_RR_4", 0xfe00707f);
  ("MATCH_MOP_RR_5", 0xc6004073);
  ("MASK_MOP_RR_5", 0xfe00707f);
  ("MATCH_MOP_RR_6", 0xca004073);
  ("MASK_MOP_RR_6", 0xfe00707f);
  ("MATCH_MOP_RR_7", 0xce004073);
  ("MASK_MOP_RR_7", 0xfe00707f);
  ("MATCH_MOP_RR_N", 0x82004073);
  ("MASK_MOP_RR_N", 0xb200707f);
  ("MATCH_MRET", 0x30200073);
  ("MASK_MRET", 0xffffffff);
  ("MATCH_MUL", 0x2000033);
  ("MASK_MUL", 0xfe00707f);
  ("MATCH_MULH", 0x2001033);
  ("MASK_MULH", 0xfe00707f);
  ("MATCH_MULHSU", 0x2002033);
  ("MASK_MULHSU", 0xfe00707f);
  ("MATCH_MULHU", 0x2003033);
  ("MASK_MULHU", 0xfe00707f);
  ("MATCH_MULW", 0x200003b);
  ("MASK_MULW", 0xfe00707f);
  ("MATCH_OR", 0x6033);
  ("MASK_OR", 0xfe00707f);
  ("MATCH_ORI", 0x6013);
  ("MASK_ORI", 0x707f);
  ("MATCH_ORN", 0x40006033);
  ("MASK_ORN", 0xfe00707f);
  ("MATCH_PACK", 0x8004033);
  ("MASK_PACK", 0xfe00707f);
  ("MATCH_PACKH", 0x8007033);
  ("MASK_PACKH", 0xfe00707f);
  ("MATCH_PACKW", 0x800403b);
  ("MASK_PACKW", 0xfe00707f);
  ("MATCH_PAUSE", 0x100000f);
  ("MASK_PAUSE", 0xffffffff);
  ("MATCH_PREFETCH_I", 0x6013);
  ("MASK_PREFETCH_I", 0x1f07fff);
  ("MATCH_PREFETCH_R", 0x106013);
  ("MASK_PREFETCH_R", 0x1f07fff);
  ("MATCH_PREFETCH_W", 0x306013);
  ("MASK_PREFETCH_W", 0x1f07fff);
  ("MATCH_REM", 0x2006033);
  ("MASK_REM", 0xfe00707f);
  ("MATCH_REMU", 0x2007033);
  ("MASK_REMU", 0xfe00707f);
  ("MATCH_REMUW", 0x200703b);
  ("MASK_REMUW", 0xfe00707f);
  ("MATCH_REMW", 0x200603b);
  ("MASK_REMW", 0xfe00707f);
  ("MATCH_ROL", 0x60001033);
  ("MASK_ROL", 0xfe00707f);
  ("MATCH_ROLW", 0x6000103b);
  ("MASK_ROLW", 0xfe00707f);
  ("MATCH_ROR", 0x60005033);
  ("MASK_ROR", 0xfe00707f);
  ("MATCH_RORI", 0x60005013);
  ("MASK_RORI", 0xfc00707f);
  ("MATCH_RORIW", 0x6000501b);
  ("MASK_RORIW", 0xfe00707f)].

Definition MATCH_MASK_6 : list (string * Z) := [
  ("MATCH_RORW", 0x6000503b);
  ("MASK_RORW", 0xfe00707f);
  ("MATCH_SB", 0x23);
  ("MASK_SB", 0x707f);
  ("MATCH_SB_RL", 0x3a00002f);
  ("MASK_SB_RL", 0xfa007fff);
  ("MATCH_SC_D", 0x1800302f);
  ("MASK_SC_D", 0xf800707f);
  ("MATCH_SC_W", 0x1800202f);
  ("MASK_SC_W", 0xf800707f);
  ("MATCH_SCTRCLR", 0x10400073);
  ("MASK_SCTRCLR", 0xffffffff);
  ("MATCH_SD", 0x3023);
  ("MASK_SD", 0x707f);
  ("MATCH_SD_RL", 0x3a00302f);
  ("MASK_SD_RL", 0xfa007fff);
  ("MATCH_SEXT_B", 0x60401013);
  ("MASK_SEXT_B", 0xfff0707f);
  ("MATCH_SEXT_H", 0x60501013);
  ("MASK_SEXT_H", 0xfff0707f);
  ("MATCH_SFENCE_INVAL_IR", 0x18100073);
  ("MASK_SFENCE_INVAL_IR", 0xffffffff);
  ("MATCH_SFENCE_VMA", 0x12000073);
  ("MASK_SFENCE_VMA", 0xfe007fff);
  ("MATCH_SFENCE_W_INVAL", 0x18000073);
  ("MASK_SFENCE_W_INVAL", 0xffffffff);
  ("MATCH_SH", 0x1023);
  ("MASK_SH", 0x707f);
  ("MATCH_SH1ADD", 0x20002033);
  ("MASK_SH1ADD", 0xfe00707f);
  ("MATCH_SH1ADD_UW", 0x2000203b);
  ("MASK_SH1ADD_UW", 0xfe00707f);
  ("MATCH_SH2ADD", 0x20004033);
  ("MASK_SH2ADD", 0xfe00707f);
  ("MATCH_SH2ADD_UW", 0x2000403b);
  ("MASK_SH2ADD_UW", 0xfe00707f);
  ("MATCH_SH3ADD", 0x20006033);
  ("MASK_SH3ADD", 0xfe00707f);
  ("MATCH_SH3ADD_UW", 0x2000603b);
  ("MASK_SH3ADD_UW", 0xfe00707f);
  ("MATCH_SH_RL", 0x3a00102f);
  ("MASK_SH_RL", 0xfa007fff);
  ("MATCH_SHA256SIG0", 0x10201013);
  ("MASK_SHA256SIG0", 0xfff0707f);
  ("MATCH_SHA256SIG1", 0x10301013);
  ("MASK_SHA256SIG1", 0xfff0707f);
  ("MATCH_SHA256SUM0", 0x10001013);
  ("MASK_SHA256SUM0", 0xfff0707f);
  ("MATCH_SHA256SUM1", 0x10101013);
  ("MASK_SHA256SUM1", 0xfff0707f);
  ("MATCH_SHA512SIG0", 0x10601013);
  ("MASK_SHA512SIG0", 0xfff0707f);
  ("MATCH_SHA512SIG0H", 0x5c000033);
  ("MASK_SHA512SIG0H", 0xfe00707f);
  ("MATCH_SHA512SIG0L", 0x54000033);
  ("MASK_SHA512SIG0L", 0xfe00707f);
  ("MATCH_SHA512SIG1", 0x10701013);
  ("MASK_SHA512SIG1", 0xfff0707f);
  ("MATCH_SHA512SIG1H", 0x5e000033);
  ("MASK_SHA512SIG1H", 0xfe00707f);
  ("MATCH_SHA512SIG1L", 0x56000033);
  ("MASK_SHA512SIG1L", 0xfe00707f);
  ("MATCH_SHA512SUM0", 0x10401013);
  ("MASK_SHA512SUM0", 0xfff0707f);
  ("MATCH_SHA512SUM0R", 0x50000033);
  ("MASK_SHA512SUM0R", 0xfe00707f);
  ("MATCH_SHA512SUM1", 0x10501013);
  ("MASK_SHA512SUM1", 0xfff0707f);
  ("MATCH_SHA512SUM1R", 0x52000033);
  ("MASK_SHA512SUM1R", 0xfe00707f);
  ("MATCH_SHFLI", 0x8001013);
  ("MASK_SHFLI", 0xfe00707f);
  ("MATCH_SINVAL_VMA", 0x16000073);
  ("MASK_SINVAL_VMA", 0xfe007fff);
  ("MATCH_SLL", 0x1033);
  ("MASK_SLL", 0xfe00707f);
  ("MATCH_SLLI", 0x1013);
  ("MASK_SLLI", 0xfc00707f);
  ("MATCH_SLLI_RV32", 0x1013);
  ("MASK_SLLI_RV32", 0xfe00707f);
  ("MATCH_SLLI_UW", 0x800101b);
  ("MASK_SLLI_UW", 0xfc00707f);
  ("MATCH_SLLIW", 0x101b);
  ("MASK_SLLIW", 0xfe00707f);
  ("MATCH_SLLW", 0x103b);
  ("MASK_SLLW", 0xfe00707f);
  ("MATCH_SLT", 0x2033);
  ("MASK_SLT", 0xfe00707f);
  ("MATCH_SLTI", 0x2013);
  ("MASK_SLTI", 0x707f);
  ("MATCH_SLTIU", 0x3013);
  ("MASK_SLTIU", 0x707f);
  ("MATCH_SLTU", 0x3033);
  ("MASK_SLTU", 0xfe00707f);
  ("MATCH_SM3P0", 0x10801013);
  ("MASK_SM3P0", 0xfff0707f);
  ("MATCH_SM3P1", 0x10901013);
  ("MASK_SM3P1", 0xfff0707f);
  ("MATCH_SM4ED", 0x30000033);
  ("MASK_SM4ED", 0x3e00707f);
  ("MATCH_SM4KS", 0x34000033);
  ("MASK_SM4KS", 0x3e00707f);
  ("MATCH_SRA", 0x40005033);
  ("MASK_SRA", 0xfe00707f);
  ("MATCH_SRAI", 0x40005013);
  ("MASK_SRAI", 0xfc00707f);
  ("MATCH_SRAI_RV32", 0x40005013);
  ("MASK_SRAI_RV32", 0xfe00707f);
  ("MATCH_SRAIW", 0x4000501b);
  ("MASK_SRAIW", 0xfe00707f);
  ("MATCH_SRAW", 0x4000503b);
  ("MASK_SRAW", 0xfe00707f);
  ("MATCH_SRET", 0x10200073);
  ("MASK_SRET", 0xffffffff);
  ("MATCH_SRL", 0x5033);
  ("MASK_SRL", 0xfe00707f);
  ("MATCH_SRLI", 0x5013);
  ("MASK_SRLI", 0xfc00707f);
  ("MATCH_SRLI_RV32", 0x5013);
  ("MASK_SRLI_RV32", 0xfe00707f);
  ("MATCH_SRLIW", 0x501b);
  ("MASK_SRLIW", 0xfe00707f);
  ("MATCH_SRLW", 0x503b);
  ("MASK_SRLW", 0xfe00707f);
  ("MATCH_SSAMOSWAP_D", 0x4800302f);
  ("MASK_SSAMOSWAP_D", 0xf800707f);
  ("MATCH_SSAMOSWAP_W", 0x4800202f);
  ("MASK_SSAMOSWAP_W", 0xf800707f);
  ("MATCH_SSPOPCHK_X1", 0xcdc0c073);
  ("MASK_SSPOPCHK_X1", 0xffffffff);
  ("MATCH_SSPOPCHK_X5", 0xcdc2c073);
  ("MASK_SSPOPCHK_X5", 0xffffffff);
  ("MATCH_SSPUSH_X1", 0xce104073);
  ("MASK_SSPUSH_X1", 0xffffffff);
  ("MATCH_SSPUSH_X5", 0xce504073);
  ("MASK_SSPUSH_X5", 0xffffffff);
  ("MATCH_SSRDP", 0xcdc04073);
  ("MASK_SSRDP", 0xfffff07f);
  ("MATCH_SUB", 0x40000033);
  ("MASK_SUB", 0xfe00707f);
  ("MATCH_SUBW", 0x4000003b);
  ("MASK_SUBW", 0xfe00707f);
  ("MATCH_SW", 0x2023);
  ("MASK_SW", 0x707f);
  ("MATCH_SW_RL", 0x3a00202f);
  ("MASK_SW_RL", 0xfa007fff);
  ("MATCH_UNSHFLI", 0x8005013);
  ("MASK_UNSHFLI", 0xfe00707f);
  ("MATCH_VAADD_VV", 0x24002057);
  ("MASK_VAADD_VV", 0xfc00707f)].

Definition MATCH_MASK_7 : list (string * Z) := [
  ("MATCH_VAADD_VX", 0x24006057);
  ("MASK_VAADD_VX", 0xfc00707f);
  ("MATCH_VAADDU_VV", 0x20002057);
  ("MASK_VAADDU_VV", 0xfc00707f);
  ("MATCH_VAADDU_VX", 0x20006057);
  ("MASK_VAADDU_VX", 0xfc00707f);
  ("MATCH_VADC_VIM", 0x40003057);
  ("MASK_VADC_VIM", 0xfe00707f);
  ("MATCH_VADC_VVM", 0x40000057);
  ("MASK_VADC_VVM", 0xfe00707f);
  ("MATCH_VADC_VXM", 0x40004057);
  ("MASK_VADC_VXM", 0xfe00707f);
  ("MATCH_VADD_VI", 0x3057);
  ("MASK_VADD_VI", 0xfc00707f);
  ("MATCH_VADD_VV", 0x57);
  ("MASK_VADD_VV", 0xfc00707f);
  ("MATCH_VADD_VX", 0x4057);
  ("MASK_VADD_VX", 0xfc00707f);
  ("MATCH_VAESDF_VS", 0xa600a077);
  ("MASK_VAESDF_VS", 0xfe0ff07f);
  ("MATCH_VAESDF_VV", 0xa200a077);
  ("MASK_VAESDF_VV", 0xfe0ff07f);
  ("MATCH_VAESDM_VS", 0xa6002077);
  ("MASK_VAESDM_VS", 0xfe0ff07f);
  ("MATCH_VAESDM_VV", 0xa2002077);
  ("MASK_VAESDM_VV", 0xfe0ff07f);
  ("MATCH_VAESEF_VS", 0xa601a077);
  ("MASK_VAESEF_VS", 0xfe0ff07f);
  ("MATCH_VAESEF_VV", 0xa201a077);
  ("MASK_VAESEF_VV", 0xfe0ff07f);
  ("MATCH_VAESEM_VS", 0xa6012077);
  ("MASK_VAESEM_VS", 0xfe0ff07f);
  ("MATCH_VAESEM_VV", 0xa2012077);
  ("MASK_VAESEM_VV", 0xfe0ff07f);
  ("MATCH_VAESKF1_VI", 0x8a002077);
  ("MASK_VAESKF1_VI", 0xfe00707f);
  ("MATCH_VAESKF2_VI", 0xaa002077);
  ("MASK_VAESKF2_VI", 0xfe00707f);
  ("MATCH_VAESZ_VS", 0xa603a077);
  ("MASK_VAESZ_VS", 0xfe0ff07f);
  ("MATCH_VAND_VI", 0x24003057);
  ("MASK_VAND_VI", 0xfc00707f);
  ("MATCH_VAND_VV", 0x24000057);
  ("MASK_VAND_VV", 0xfc00707f);
  ("MATCH_VAND_VX", 0x24004057);
  ("MASK_VAND_VX", 0xfc00707f);
  ("MATCH_VANDN_VV", 0x4000057);
  ("MASK_VANDN_VV", 0xfc00707f);
  ("MATCH_VANDN_VX", 0x4004057);
  ("MASK_VANDN_VX", 0xfc00707f);
  ("MATCH_VASUB_VV", 0x2c002057);
  ("MASK_VASUB_VV", 0xfc00707f);
  ("MATCH_VASUB_VX", 0x2c006057);
  ("MASK_VASUB_VX", 0xfc00707f);
  ("MATCH_VASUBU_VV", 0x28002057);
  ("MASK_VASUBU_VV", 0xfc00707f);
  ("MATCH_VASUBU_VX", 0x28006057);
  ("MASK_VASUBU_VX", 0xfc00707f);
  ("MATCH_VBREV8_V", 0x48042057);
  ("MASK_VBREV8_V", 0xfc0ff07f);
  ("MATCH_VBREV_V", 0x48052057);
  ("MASK_VBREV_V", 0xfc0ff07f);
  ("MATCH_VCLMUL_VV", 0x30002057);
  ("MASK_VCLMUL_VV", 0xfc00707f);
  ("MATCH_VCLMUL_VX", 0x30006057);
  ("MASK_VCLMUL_VX", 0xfc00707f);
  ("MATCH_VCLMULH_VV", 0x34002057);
  ("MASK_VCLMULH_VV", 0xfc00707f);
  ("MATCH_VCLMULH_VX", 0x34006057);
  ("MASK_VCLMULH_VX", 0xfc00707f);
  ("MATCH_VCLZ_V", 0x48062057);
  ("MASK_VCLZ_V", 0xfc0ff07f);
  ("MATCH_VCOMPRESS_VM", 0x5e002057);
  ("MASK_VCOMPRESS_VM", 0xfe00707f);
  ("MATCH_VCPOP_M", 0x40082057);
  ("MASK_VCPOP_M", 0xfc0ff07f);
  ("MATCH_VCPOP_V", 0x48072057);
  ("MASK_VCPOP_V", 0xfc0ff07f);
  ("MATCH_VCTZ_V", 0x4806a057);
  ("MASK_VCTZ_V", 0xfc0ff07f);
  ("MATCH_VDIV_VV", 0x84002057);
  ("MASK_VDIV_VV", 0xfc00707f);
  ("MATCH_VDIV_VX", 0x84006057);
  ("MASK_VDIV_VX", 0xfc00707f);
  ("MATCH_VDIVU_VV", 0x80002057);
  ("MASK_VDIVU_VV", 0xfc00707f);
  ("MATCH_VDIVU_VX", 0x80006057);
  ("MASK_VDIVU_VX", 0xfc00707f);
  ("MATCH_VFADD_VF", 0x5057);
  ("MASK_VFADD_VF", 0xfc00707f);
  ("MATCH_VFADD_VV", 0x1057);
  ("MASK_VFADD_VV", 0xfc00707f);
  ("MATCH_VFBDOT_VV", 0xac001077);
  ("MASK_VFBDOT_VV", 0xfc00707f);
  ("MATCH_VFCLASS_V", 0x4c081057);
  ("MASK_VFCLASS_V", 0xfc0ff07f);
  ("MATCH_VFCVT_F_X_V", 0x48019057);
  ("MASK_VFCVT_F_X_V", 0xfc0ff07f);
  ("MATCH_VFCVT_F_XU_V", 0x48011057);
  ("MASK_VFCVT_F_XU_V", 0xfc0ff07f);
  ("MATCH_VFCVT_RTZ_X_F_V", 0x48039057);
  ("MASK_VFCVT_RTZ_X_F_V", 0xfc0ff07f);
  ("MATCH_VFCVT_RTZ_XU_F_V", 0x48031057);
  ("MASK_VFCVT_RTZ_XU_F_V", 0xfc0ff07f);
  ("MATCH_VFCVT_X_F_V", 0x48009057);
  ("MASK_VFCVT_X_F_V", 0xfc0ff07f);
  ("MATCH_VFCVT_XU_F_V", 0x48001057);
  ("MASK_VFCVT_XU_F_V", 0xfc0ff07f);
  ("MATCH_VFDIV_VF", 0x80005057);
  ("MASK_VFDIV_VF", 0xfc00707f);
  ("MATCH_VFDIV_VV", 0x80001057);
  ("MASK_VFDIV_VV", 0xfc00707f);
  ("MATCH_VFIRST_M", 0x4008a057);
  ("MASK_VFIRST_M", 0xfc0ff07f);
  ("MATCH_VFMACC_VF", 0xb0005057);
  ("MASK_VFMACC_VF", 0xfc00707f);
  ("MATCH_VFMACC_VV", 0xb0001057);
  ("MASK_VFMACC_VV", 0xfc00707f);
  ("MATCH_VFMADD_VF", 0xa0005057);
  ("MASK_VFMADD_VF", 0xfc00707f);
  ("MATCH_VFMADD_VV", 0xa0001057);
  ("MASK_VFMADD_VV", 0xfc00707f);
  ("MATCH_VFMAX_VF", 0x18005057);
  ("MASK_VFMAX_VF", 0xfc00707f);
  ("MATCH_VFMAX_VV", 0x18001057);
  ("MASK_VFMAX_VV", 0xfc00707f);
  ("MATCH_VFMERGE_VFM", 0x5c005057);
  ("MASK_VFMERGE_VFM", 0xfe00707f);
  ("MATCH_VFMIN_VF", 0x10005057);
  ("MASK_VFMIN_VF", 0xfc00707f);
  ("MATCH_VFMIN_VV", 0x10001057);
  ("MASK_VFMIN_VV", 0xfc00707f);
  ("MATCH_VFMSAC_VF", 0xb8005057);
  ("MASK_VFMSAC_VF", 0xfc00707f);
  ("MATCH_VFMSAC_VV", 0xb8001057);
  ("MASK_VFMSAC_VV", 0xfc00707f);
  ("MATCH_VFMSUB_VF", 0xa8005057);
  ("MASK_VFMSUB_VF", 0xfc00707f);
  ("MATCH_VFMSUB_VV", 0xa8001057);
  ("MASK_VFMSUB_VV", 0xfc00707f);
  ("MATCH_VFMUL_VF", 0x90005057);
  ("MASK_VFMUL_VF", 0xfc00707f);
  ("MATCH_VFMUL_VV", 0x90001057);
  ("MASK_VFMUL_VV", 0xfc00707f);
  ("MATCH_VFMV_F_S", 0x42001057);
  ("MASK_VFMV_F_S", 0xfe0ff07f);
  ("MATCH_VFMV_S_F", 0x42005057);
  ("MASK_VFMV_S_F", 0xfff0707f);
  ("MATCH_VFMV_V_F", 0x5e005057);
  ("MASK_VFMV_V_F", 0xfff0707f)].

Definition MATCH_MASK_8 : list (string * Z) := [
  ("MATCH_VFNCVT_F_F_W", 0x480a1057);
  ("MASK_VFNCVT_F_F_W", 0xfc0ff07f);
  ("MATCH_VFNCVT_F_X_W", 0x48099057);
  ("MASK_VFNCVT_F_X_W", 0xfc0ff07f);
  ("MATCH_VFNCVT_F_XU_W", 0x48091057);
  ("MASK_VFNCVT_F_XU_W", 0xfc0ff07f);
  ("MATCH_VFNCVT_ROD_F_F_W", 0x480a9057);
  ("MASK_VFNCVT_ROD_F_F_W", 0xfc0ff07f);
  ("MATCH_VFNCVT_RTZ_X_F_W", 0x480b9057);
  ("MASK_VFNCVT_RTZ_X_F_W", 0xfc0ff07f);
  ("MATCH_VFNCVT_RTZ_XU_F_W", 0x480b1057);
  ("MASK_VFNCVT_RTZ_XU_F_W", 0xfc0ff07f);
  ("MATCH_VFNCVT_X_F_W", 0x48089057);
  ("MASK_VFNCVT_X_F_W", 0xfc0ff07f);
  ("MATCH_VFNCVT_XU_F_W", 0x48081057);
  ("MASK_VFNCVT_XU_F_W", 0xfc0ff07f);
  ("MATCH_VFNCVTBF16_F_F_Q", 0x480c9057);
  ("MASK_VFNCVTBF16_F_F_Q", 0xfc0ff07f);
  ("MATCH_VFNCVTBF16_F_F_W", 0x480e9057);
  ("MASK_VFNCVTBF16_F_F_W", 0xfc0ff07f);
  ("MATCH_VFNCVTBF16_SAT_F_F_Q", 0x480d9057);
  ("MASK_VFNCVTBF16_SAT_F_F_Q", 0xfc0ff07f);
  ("MATCH_VFNCVTBF16_SAT_F_F_W", 0x480f9057);
  ("MASK_VFNCVTBF16_SAT_F_F_W", 0xfc0ff07f);
  ("MATCH_VFNMACC_VF", 0xb4005057);
  ("MASK_VFNMACC_VF", 0xfc00707f);
  ("MATCH_VFNMACC_VV", 0xb4001057);
  ("MASK_VFNMACC_VV", 0xfc00707f);
  ("MATCH_VFNMADD_VF", 0xa4005057);
  ("MASK_VFNMADD_VF", 0xfc00707f);
  ("MATCH_VFNMADD_VV", 0xa4001057);
  ("MASK_VFNMADD_VV", 0xfc00707f);
  ("MATCH_VFNMSAC_VF", 0xbc005057);
  ("MASK_VFNMSAC_VF", 0xfc00707f);
  ("MATCH_VFNMSAC_VV", 0xbc001057);
  ("MASK_VFNMSAC_VV", 0xfc00707f);
  ("MATCH_VFNMSUB_VF", 0xac005057);
  ("MASK_VFNMSUB_VF", 0xfc00707f);
  ("MATCH_VFNMSUB_VV", 0xac001057);
  ("MASK_VFNMSUB_VV", 0xfc00707f);
  ("MATCH_VFQBDOT_ALT_VV", 0xbc001077);
  ("MASK_VFQBDOT_ALT_VV", 0xfc00707f);
  ("MATCH_VFQBDOT_VV", 0xb8001077);
  ("MASK_VFQBDOT_VV", 0xfc00707f);
  ("MATCH_VFQLDOT_ALT_VV", 0x9c001077);
  ("MASK_VFQLDOT_ALT_VV", 0xfc00707f);
  ("MATCH_VFQLDOT_VV", 0x98001077);
  ("MASK_VFQLDOT_VV", 0xfc00707f);
  ("MATCH_VFRDIV_VF", 0x84005057);
  ("MASK_VFRDIV_VF", 0xfc00707f);
  ("MATCH_VFREC7_V", 0x4c029057);
  ("MASK_VFREC7_V", 0xfc0ff07f);
  ("MATCH_VFREDMAX_VS", 0x1c001057);
  ("MASK_VFREDMAX_VS", 0xfc00707f);
  ("MATCH_VFREDMIN_VS", 0x14001057);
  ("MASK_VFREDMIN_VS", 0xfc00707f);
  ("MATCH_VFREDOSUM_VS", 0xc001057);
  ("MASK_VFREDOSUM_VS", 0xfc00707f);
  ("MATCH_VFREDUSUM_VS", 0x4001057);
  ("MASK_VFREDUSUM_VS", 0xfc00707f);
  ("MATCH_VFRSQRT7_V", 0x4c021057);
  ("MASK_VFRSQRT7_V", 0xfc0ff07f);
  ("MATCH_VFRSUB_VF", 0x9c005057);
  ("MASK_VFRSUB_VF", 0xfc00707f);
  ("MATCH_VFSGNJ_VF", 0x20005057);
  ("MASK_VFSGNJ_VF", 0xfc00707f);
  ("MATCH_VFSGNJ_VV", 0x20001057);
  ("MASK_VFSGNJ_VV", 0xfc00707f);
  ("MATCH_VFSGNJN_VF", 0x24005057);
  ("MASK_VFSGNJN_VF", 0xfc00707f);
  ("MATCH_VFSGNJN_VV", 0x24001057);
  ("MASK_VFSGNJN_VV", 0xfc00707f);
  ("MATCH_VFSGNJX_VF", 0x28005057);
  ("MASK_VFSGNJX_VF", 0xfc00707f);
  ("MATCH_VFSGNJX_VV", 0x28001057);
  ("MASK_VFSGNJX_VV", 0xfc00707f);
  ("MATCH_VFSLIDE1DOWN_VF", 0x3c005057);
  ("MASK_VFSLIDE1DOWN_VF", 0xfc00707f);
  ("MATCH_VFSLIDE1UP_VF", 0x38005057);
  ("MASK_VFSLIDE1UP_VF", 0xfc00707f);
  ("MATCH_VFSQRT_V", 0x4c001057);
  ("MASK_VFSQRT_V", 0xfc0ff07f);
  ("MATCH_VFSUB_VF", 0x8005057);
  ("MASK_VFSUB_VF", 0xfc00707f);
  ("MATCH_VFSUB_VV", 0x8001057);
  ("MASK_VFSUB_VV", 0xfc00707f);
  ("MATCH_VFWADD_VF", 0xc0005057);
  ("MASK_VFWADD_VF", 0xfc00707f);
  ("MATCH_VFWADD_VV", 0xc0001057);
  ("MASK_VFWADD_VV", 0xfc00707f);
  ("MATCH_VFWADD_WF", 0xd0005057);
  ("MASK_VFWADD_WF", 0xfc00707f);
  ("MATCH_VFWADD_WV", 0xd0001057);
  ("MASK_VFWADD_WV", 0xfc00707f);
  ("MATCH_VFWBDOT_VV", 0xb0001077);
  ("MASK_VFWBDOT_VV", 0xfc00707f);
  ("MATCH_VFWCVT_F_F_V", 0x48061057);
  ("MASK_VFWCVT_F_F_V", 0xfc0ff07f);
  ("MATCH_VFWCVT_F_X_V", 0x48059057);
  ("MASK_VFWCVT_F_X_V", 0xfc0ff07f);
  ("MATCH_VFWCVT_F_XU_V", 0x48051057);
  ("MASK_VFWCVT_F_XU_V", 0xfc0ff07f);
  ("MATCH_VFWCVT_RTZ_X_F_V", 0x48079057);
  ("MASK_VFWCVT_RTZ_X_F_V", 0xfc0ff07f);
  ("MATCH_VFWCVT_RTZ_XU_F_V", 0x48071057);
  ("MASK_VFWCVT_RTZ_XU_F_V", 0xfc0ff07f);
  ("MATCH_VFWCVT_X_F_V", 0x48049057);
  ("MASK_VFWCVT_X_F_V", 0xfc0ff07f);
  ("MATCH_VFWCVT_XU_F_V", 0x48041057);
  ("MASK_VFWCVT_XU_F_V", 0xfc0ff07f);
  ("MATCH_VFWCVTBF16_F_F_V", 0x48069057);
  ("MASK_VFWCVTBF16_F_F_V", 0xfc0ff07f);
  ("MATCH_VFWLDOT_VV", 0x90001077);
  ("MASK_VFWLDOT_VV", 0xfc00707f);
  ("MATCH_VFWMACC_VF", 0xf0005057);
  ("MASK_VFWMACC_VF", 0xfc00707f);
  ("MATCH_VFWMACC_VV", 0xf0001057);
  ("MASK_VFWMACC_VV", 0xfc00707f);
  ("MATCH_VFWMACCBF16_VF", 0xec005057);
  ("MASK_VFWMACCBF16_VF", 0xfc00707f);
  ("MATCH_VFWMACCBF16_VV", 0xec001057);
  ("MASK_VFWMACCBF16_VV", 0xfc00707f);
  ("MATCH_VFWMSAC_VF", 0xf8005057);
  ("MASK_VFWMSAC_VF", 0xfc00707f);
  ("MATCH_VFWMSAC_VV", 0xf8001057);
  ("MASK_VFWMSAC_VV", 0xfc00707f);
  ("MATCH_VFWMUL_VF", 0xe0005057);
  ("MASK_VFWMUL_VF", 0xfc00707f);
  ("MATCH_VFWMUL_VV", 0xe0001057);
  ("MASK_VFWMUL_VV", 0xfc00707f);
  ("MATCH_VFWNMACC_VF", 0xf4005057);
  ("MASK_VFWNMACC_VF", 0xfc00707f);
  ("MATCH_VFWNMACC_VV", 0xf4001057);
  ("MASK_VFWNMACC_VV", 0xfc00707f);
  ("MATCH_VFWNMSAC_VF", 0xfc005057);
  ("MASK_VFWNMSAC_VF", 0xfc00707f);
  ("MATCH_VFWNMSAC_VV", 0xfc001057);
  ("MASK_VFWNMSAC_VV", 0xfc00707f);
  ("MATCH_VFWREDOSUM_VS", 0xcc001057);
  ("MASK_VFWREDOSUM_VS", 0xfc00707f);
  ("MATCH_VFWREDUSUM_VS", 0xc4001057);
  ("MASK_VFWREDUSUM_VS", 0xfc00707f);
  ("MATCH_VFWSUB_VF", 0xc8005057);
  ("MASK_VFWSUB_VF", 0xfc00707f);
  ("MATCH_VFWSUB_VV", 0xc8001057);
  ("MASK_VFWSUB_VV", 0xfc00707f);
  ("MATCH_VFWSUB_WF", 0xd8005057);
  ("MASK_VFWSUB_WF", 0xfc00707f);
  ("MATCH_VFWSUB_WV", 0xd8001057);
  ("MASK_VFWSUB_WV", 0xfc00707f)].

Definition MATCH_MASK_9 : list (string * Z) := [
  ("MATCH_VGHSH_VV", 0xb2002077);
  ("MASK_VGHSH_VV", 0xfe00707f);
  ("MATCH_VGMUL_VV", 0xa208a077);
  ("MASK_VGMUL_VV", 0xfe0ff07f);
  ("MATCH_VID_V", 0x5008a057);
  ("MASK_VID_V", 0xfdfff07f);
  ("MATCH_VIOTA_M", 0x50082057);
  ("MASK_VIOTA_M", 0xfc0ff07f);
  ("MATCH_VL1RE16_V", 0x2805007);
  ("MASK_VL1RE16_V", 0xfff0707f);
  ("MATCH_VL1RE32_V", 0x2806007);
  ("MASK_VL1RE32_V", 0xfff0707f);
  ("MATCH_VL1RE64_V", 0x2807007);
  ("MASK_VL1RE64_V", 0xfff0707f);
  ("MATCH_VL1RE8_V", 0x2800007);
  ("MASK_VL1RE8_V", 0xfff0707f);
  ("MATCH_VL2RE16_V", 0x22805007);
  ("MASK_VL2RE16_V", 0xfff0707f);
  ("MATCH_VL2RE32_V", 0x22806007);
  ("MASK_VL2RE32_V", 0xfff0707f);
  ("MATCH_VL2RE64_V", 0x22807007);
  ("MASK_VL2RE64_V", 0xfff0707f);
  ("MATCH_VL2RE8_V", 0x22800007);
  ("MASK_VL2RE8_V", 0xfff0707f);
  ("MATCH_VL4RE16_V", 0x62805007);
  ("MASK_VL4RE16_V", 0xfff0707f);
  ("MATCH_VL4RE32_V", 0x62806007);
  ("MASK_VL4RE32_V", 0xfff0707f);
  ("MATCH_VL4RE64_V", 0x62807007);
  ("MASK_VL4RE64_V", 0xfff0707f);
  ("MATCH_VL4RE8_V", 0x62800007);
  ("MASK_VL4RE8_V", 0xfff0707f);
  ("MATCH_VL8RE16_V", 0xe2805007);
  ("MASK_VL8RE16_V", 0xfff0707f);
  ("MATCH_VL8RE32_V", 0xe2806007);
  ("MASK_VL8RE32_V", 0xfff0707f);
  ("MATCH_VL8RE64_V", 0xe2807007);
  ("MASK_VL8RE64_V", 0xfff0707f);
  ("MATCH_VL8RE8_V", 0xe2800007);
  ("MASK_VL8RE8_V", 0xfff0707f);
  ("MATCH_VLE16_V", 0x5007);
  ("MASK_VLE16_V", 0x1df0707f);
  ("MATCH_VLE16FF_V", 0x1005007);
  ("MASK_VLE16FF_V", 0x1df0707f);
  ("MATCH_VLE32_V", 0x6007);
  ("MASK_VLE32_V", 0x1df0707f);
  ("MATCH_VLE32FF_V", 0x1006007);
  ("MASK_VLE32FF_V", 0x1df0707f);
  ("MATCH_VLE64_V", 0x7007);
  ("MASK_VLE64_V", 0x1df0707f);
  ("MATCH_VLE64FF_V", 0x1007007);
  ("MASK_VLE64FF_V", 0x1df0707f);
  ("MATCH_VLE8_V", 7);
  ("MASK_VLE8_V", 0x1df0707f);
  ("MATCH_VLE8FF_V", 0x1000007);
  ("MASK_VLE8FF_V", 0x1df0707f);
  ("MATCH_VLM_V", 0x2b00007);
  ("MASK_VLM_V", 0xfff0707f);
  ("MATCH_VLOXEI16_V", 0xc005007);
  ("MASK_VLOXEI16_V", 0x1c00707f);
  ("MATCH_VLOXEI32_V", 0xc006007);
  ("MASK_VLOXEI32_V", 0x1c00707f);
  ("MATCH_VLOXEI64_V", 0xc007007);
  ("MASK_VLOXEI64_V", 0x1c00707f);
  ("MATCH_VLOXEI8_V", 0xc000007);
  ("MASK_VLOXEI8_V", 0x1c00707f);
  ("MATCH_VLSE16_V", 0x8005007);
  ("MASK_VLSE16_V", 0x1c00707f);
  ("MATCH_VLSE32_V", 0x8006007);
  ("MASK_VLSE32_V", 0x1c00707f);
  ("MATCH_VLSE64_V", 0x8007007);
  ("MASK_VLSE64_V", 0x1c00707f);
  ("MATCH_VLSE8_V", 0x8000007);
  ("MASK_VLSE8_V", 0x1c00707f);
  ("MATCH_VLUXEI16_V", 0x4005007);
  ("MASK_VLUXEI16_V", 0x1c00707f);
  ("MATCH_VLUXEI32_V", 0x4006007);
  ("MASK_VLUXEI32_V", 0x1c00707f);
  ("MATCH_VLUXEI64_V", 0x4007007);
  ("MASK_VLUXEI64_V", 0x1c00707f);
  ("MATCH_VLUXEI8_V", 0x4000007);
  ("MASK_VLUXEI8_V", 0x1c00707f);
  ("MATCH_VMACC_VV", 0xb4002057);
  ("MASK_VMACC_VV", 0xfc00707f);
  ("MATCH_VMACC_VX", 0xb4006057);
  ("MASK_VMACC_VX", 0xfc00707f);
  ("MATCH_VMADC_VI", 0x46003057);
  ("MASK_VMADC_VI", 0xfe00707f);
  ("MATCH_VMADC_VIM", 0x44003057);
  ("MASK_VMADC_VIM", 0xfe00707f);
  ("MATCH_VMADC_VV", 0x46000057);
  ("MASK_VMADC_VV", 0xfe00707f);
  ("MATCH_VMADC_VVM", 0x44000057);
  ("MASK_VMADC_VVM", 0xfe00707f);
  ("MATCH_VMADC_VX", 0x46004057);
  ("MASK_VMADC_VX", 0xfe00707f);
  ("MATCH_VMADC_VXM", 0x44004057);
  ("MASK_VMADC_VXM", 0xfe00707f);
  ("MATCH_VMADD_VV", 0xa4002057);
  ("MASK_VMADD_VV", 0xfc00707f);
  ("MATCH_VMADD_VX", 0xa4006057);
  ("MASK_VMADD_VX", 0xfc00707f);
  ("MATCH_VMAND_MM", 0x66002057);
  ("MASK_VMAND_MM", 0xfe00707f);
  ("MATCH_VMANDN_MM", 0x62002057);
  ("MASK_VMANDN_MM", 0xfe00707f);
  ("MATCH_VMAX_VV", 0x1c000057);
  ("MASK_VMAX_VV", 0xfc00707f);
  ("MATCH_VMAX_VX", 0x1c004057);
  ("MASK_VMAX_VX", 0xfc00707f);
  ("MATCH_VMAXU_VV", 0x18000057);
  ("MASK_VMAXU_VV", 0xfc00707f);
  ("MATCH_VMAXU_VX", 0x18004057);
  ("MASK_VMAXU_VX", 0xfc00707f);
  ("MATCH_VMERGE_VIM", 0x5c003057);
  ("MASK_VMERGE_VIM", 0xfe00707f);
  ("MATCH_VMERGE_VVM", 0x5c000057);
  ("MASK_VMERGE_VVM", 0xfe00707f);
  ("MATCH_VMERGE_VXM", 0x5c004057);
  ("MASK_VMERGE_VXM", 0xfe00707f);
  ("MATCH_VMFEQ_VF", 0x60005057);
  ("MASK_VMFEQ_VF", 0xfc00707f);
  ("MATCH_VMFEQ_VV", 0x60001057);
  ("MASK_VMFEQ_VV", 0xfc00707f);
  ("MATCH_VMFGE_VF", 0x7c005057);
  ("MASK_VMFGE_VF", 0xfc00707f);
  ("MATCH_VMFGT_VF", 0x74005057);
  ("MASK_VMFGT_VF", 0xfc00707f);
  ("MATCH_VMFLE_VF", 0x64005057);
  ("MASK_VMFLE_VF", 0xfc00707f);
  ("MATCH_VMFLE_VV", 0x64001057);
  ("MASK_VMFLE_VV", 0xfc00707f);
  ("MATCH_VMFLT_VF", 0x6c005057);
  ("MASK_VMFLT_VF", 0xfc00707f);
  ("MATCH_VMFLT_VV", 0x6c001057);
  ("MASK_VMFLT_VV", 0xfc00707f);
  ("MATCH_VMFNE_VF", 0x70005057);
  ("MASK_VMFNE_VF", 0xfc00707f);
  ("MATCH_VMFNE_VV", 0x70001057);
  ("MASK_VMFNE_VV", 0xfc00707f);
  ("MATCH_VMIN_VV", 0x14000057);
  ("MASK_VMIN_VV", 0xfc00707f);
  ("MATCH_VMIN_VX", 0x14004057);
  ("MASK_VMIN_VX", 0xfc00707f);
  ("MATCH_VMINU_VV", 0x10000057);
  ("MASK_VMINU_VV", 0xfc00707f);
  ("MATCH_VMINU_VX", 0x10004057);
  ("MASK_VMINU_VX", 0xfc00707f);
  ("MATCH_VMNAND_MM", 0x76002057);
  ("MASK_VMNAND_MM", 0xfe00707f)].

Definition MATCH_MASK_10 : list (string * Z) := [
  ("MATCH_VMNOR_MM", 0x7a002057);
  ("MASK_VMNOR_MM", 0xfe00707f);
  ("MATCH_VMOR_MM", 0x6a002057);
  ("MASK_VMOR_MM", 0xfe00707f);
  ("MATCH_VMORN_MM", 0x72002057);
  ("MASK_VMORN_MM", 0xfe00707f);
  ("MATCH_VMSBC_VV", 0x4e000057);
  ("MASK_VMSBC_VV", 0xfe00707f);
  ("MATCH_VMSBC_VVM", 0x4c000057);
  ("MASK_VMSBC_VVM", 0xfe00707f);
  ("MATCH_VMSBC_VX", 0x4e004057);
  ("MASK_VMSBC_VX", 0xfe00707f);
  ("MATCH_VMSBC_VXM", 0x4c004057);
  ("MASK_VMSBC_VXM", 0xfe00707f);
  ("MATCH_VMSBF_M", 0x5000a057);
  ("MASK_VMSBF_M", 0xfc0ff07f);
  ("MATCH_VMSEQ_VI", 0x60003057);
  ("MASK_VMSEQ_VI", 0xfc00707f);
  ("MATCH_VMSEQ_VV", 0x60000057);
  ("MASK_VMSEQ_VV", 0xfc00707f);
  ("MATCH_VMSEQ_VX", 0x60004057);
  ("MASK_VMSEQ_VX", 0xfc00707f);
  ("MATCH_VMSGT_VI", 0x7c003057);
  ("MASK_VMSGT_VI", 0xfc00707f);
  ("MATCH_VMSGT_VX", 0x7c004057);
  ("MASK_VMSGT_VX", 0xfc00707f);
  ("MATCH_VMSGTU_VI", 0x78003057);
  ("MASK_VMSGTU_VI", 0xfc00707f);
  ("MATCH_VMSGTU_VX", 0x78004057);
  ("MASK_VMSGTU_VX", 0xfc00707f);
  ("MATCH_VMSIF_M", 0x5001a057);
  ("MASK_VMSIF_M", 0xfc0ff07f);
  ("MATCH_VMSLE_VI", 0x74003057);
  ("MASK_VMSLE_VI", 0xfc00707f);
  ("MATCH_VMSLE_VV", 0x74000057);
  ("MASK_VMSLE_VV", 0xfc00707f);
  ("MATCH_VMSLE_VX", 0x74004057);
  ("MASK_VMSLE_VX", 0xfc00707f);
  ("MATCH_VMSLEU_VI", 0x70003057);
  ("MASK_VMSLEU_VI", 0xfc00707f);
  ("MATCH_VMSLEU_VV", 0x70000057);
  ("MASK_VMSLEU_VV", 0xfc00707f);
  ("MATCH_VMSLEU_VX", 0x70004057);
  ("MASK_VMSLEU_VX", 0xfc00707f);
  ("MATCH_VMSLT_VV", 0x6c000057);
  ("MASK_VMSLT_VV", 0xfc00707f);
  ("MATCH_VMSLT_VX", 0x6c004057);
  ("MASK_VMSLT_VX", 0xfc00707f);
  ("MATCH_VMSLTU_VV", 0x68000057);
  ("MASK_VMSLTU_VV", 0xfc00707f);
  ("MATCH_VMSLTU_VX", 0x68004057);
  ("MASK_VMSLTU_VX", 0xfc00707f);
  ("MATCH_VMSNE_VI", 0x64003057);
  ("MASK_VMSNE_VI", 0xfc00707f);
  ("MATCH_VMSNE_VV", 0x64000057);
  ("MASK_VMSNE_VV", 0xfc00707f);
  ("MATCH_VMSNE_VX", 0x64004057);
  ("MASK_VMSNE_VX", 0xfc00707f);
  ("MATCH_VMSOF_M", 0x50012057);
  ("MASK_VMSOF_M", 0xfc0ff07f);
  ("MATCH_VMUL_VV", 0x94002057);
  ("MASK_VMUL_VV", 0xfc00707f);
  ("MATCH_VMUL_VX", 0x94006057);
  ("MASK_VMUL_VX", 0xfc00707f);
  ("MATCH_VMULH_VV", 0x9c002057);
  ("MASK_VMULH_VV", 0xfc00707f);
  ("MATCH_VMULH_VX", 0x9c006057);
  ("MASK_VMULH_VX", 0xfc00707f);
  ("MATCH_VMULHSU_VV", 0x98002057);
  ("MASK_VMULHSU_VV", 0xfc00707f);
  ("MATCH_VMULHSU_VX", 0x98006057);
  ("MASK_VMULHSU_VX", 0xfc00707f);
  ("MATCH_VMULHU_VV", 0x90002057);
  ("MASK_VMULHU_VV", 0xfc00707f);
  ("MATCH_VMULHU_VX", 0x90006057);
  ("MASK_VMULHU_VX", 0xfc00707f);
  ("MATCH_VMV1R_V", 0x9e003057);
  ("MASK_VMV1R_V", 0xfe0ff07f);
  ("MATCH_VMV2R_V", 0x9e00b057);
  ("MASK_VMV2R_V", 0xfe0ff07f);
  ("MATCH_VMV4R_V", 0x9e01b057);
  ("MASK_VMV4R_V", 0xfe0ff07f);
  ("MATCH_VMV8R_V", 0x9e03b057);
  ("MASK_VMV8R_V", 0xfe0ff07f);
  ("MATCH_VMV_S_X", 0x42006057);
  ("MASK_VMV_S_X", 0xfff0707f);
  ("MATCH_VMV_V_I", 0x5e003057);
  ("MASK_VMV_V_I", 0xfff0707f);
  ("MATCH_VMV_V_V", 0x5e000057);
  ("MASK_VMV_V_V", 0xfff0707f);
  ("MATCH_VMV_V_X", 0x5e004057);
  ("MASK_VMV_V_X", 0xfff0707f);
  ("MATCH_VMV_X_S", 0x42002057);
  ("MASK_VMV_X_S", 0xfe0ff07f);
  ("MATCH_VMXNOR_MM", 0x7e002057);
  ("MASK_VMXNOR_MM", 0xfe00707f);
  ("MATCH_VMXOR_MM", 0x6e002057);
  ("MASK_VMXOR_MM", 0xfe00707f);
  ("MATCH_VNCLIP_WI", 0xbc003057);
  ("MASK_VNCLIP_WI", 0xfc00707f);
  ("MATCH_VNCLIP_WV", 0xbc000057);
  ("MASK_VNCLIP_WV", 0xfc00707f);
  ("MATCH_VNCLIP_WX", 0xbc004057);
  ("MASK_VNCLIP_WX", 0xfc00707f);
  ("MATCH_VNCLIPU_WI", 0xb8003057);
  ("MASK_VNCLIPU_WI", 0xfc00707f);
  ("MATCH_VNCLIPU_WV", 0xb8000057);
  ("MASK_VNCLIPU_WV", 0xfc00707f);
  ("MATCH_VNCLIPU_WX", 0xb8004057);
  ("MASK_VNCLIPU_WX", 0xfc00707f);
  ("MATCH_VNMSAC_VV", 0xbc002057);
  ("MASK_VNMSAC_VV", 0xfc00707f);
  ("MATCH_VNMSAC_VX", 0xbc006057);
  ("MASK_VNMSAC_VX", 0xfc00707f);
  ("MATCH_VNMSUB_VV", 0xac002057);
  ("MASK_VNMSUB_VV", 0xfc00707f);
  ("MATCH_VNMSUB_VX", 0xac006057);
  ("MASK_VNMSUB_VX", 0xfc00707f);
  ("MATCH_VNSRA_WI", 0xb4003057);
  ("MASK_VNSRA_WI", 0xfc00707f);
  ("MATCH_VNSRA_WV", 0xb4000057);
  ("MASK_VNSRA_WV", 0xfc00707f);
  ("MATCH_VNSRA_WX", 0xb4004057);
  ("MASK_VNSRA_WX", 0xfc00707f);
  ("MATCH_VNSRL_WI", 0xb0003057);
  ("MASK_VNSRL_WI", 0xfc00707f);
  ("MATCH_VNSRL_WV", 0xb0000057);
  ("MASK_VNSRL_WV", 0xfc00707f);
  ("MATCH_VNSRL_WX", 0xb0004057);
  ("MASK_VNSRL_WX", 0xfc00707f);
  ("MATCH_VOR_VI", 0x28003057);
  ("MASK_VOR_VI", 0xfc00707f);
  ("MATCH_VOR_VV", 0x28000057);
  ("MASK_VOR_VV", 0xfc00707f);
  ("MATCH_VOR_VX", 0x28004057);
  ("MASK_VOR_VX", 0xfc00707f);
  ("MATCH_VQBDOTS_VV", 0xbc000077);
  ("MASK_VQBDOTS_VV", 0xfc00707f);
  ("MATCH_VQBDOTU_VV", 0xb8000077);
  ("MASK_VQBDOTU_VV", 0xfc00707f);
  ("MATCH_VQDOT_VV", 0xb0002057);
  ("MASK_VQDOT_VV", 0xfc00707f);
  ("MATCH_VQDOT_VX", 0xb0006057);
  ("MASK_VQDOT_VX", 0xfc00707f);
  ("MATCH_VQDOTSU_VV", 0xa8002057);
  ("MASK_VQDOTSU_VV", 0xfc00707f);
  ("MATCH_VQDOTSU_VX", 0xa8006057);
  ("MASK_VQDOTSU_VX", 0xfc00707f);
  ("MATCH_VQDOTU_VV", 0xa0002057);
  ("MASK_VQDOTU_VV", 0xfc00707f)].

Definition MATCH_MASK_11 : list (string * Z) := [
  ("MATCH_VQDOTU_VX", 0xa0006057);
  ("MASK_VQDOTU_VX", 0xfc00707f);
  ("MATCH_VQDOTUS_VX", 0xb8006057);
  ("MASK_VQDOTUS_VX", 0xfc00707f);
  ("MATCH_VQLDOTS_VV", 0x9c000077);
  ("MASK_VQLDOTS_VV", 0xfc00707f);
  ("MATCH_VQLDOTU_VV", 0x98000077);
  ("MASK_VQLDOTU_VV", 0xfc00707f);
  ("MATCH_VREDAND_VS", 0x4002057);
  ("MASK_VREDAND_VS", 0xfc00707f);
  ("MATCH_VREDMAX_VS", 0x1c002057);
  ("MASK_VREDMAX_VS", 0xfc00707f);
  ("MATCH_VREDMAXU_VS", 0x18002057);
  ("MASK_VREDMAXU_VS", 0xfc00707f);
  ("MATCH_VREDMIN_VS", 0x14002057);
  ("MASK_VREDMIN_VS", 0xfc00707f);
  ("MATCH_VREDMINU_VS", 0x10002057);
  ("MASK_VREDMINU_VS", 0xfc00707f);
  ("MATCH_VREDOR_VS", 0x8002057);
  ("MASK_VREDOR_VS", 0xfc00707f);
  ("MATCH_VREDSUM_VS", 0x2057);
  ("MASK_VREDSUM_VS", 0xfc00707f);
  ("MATCH_VREDXOR_VS", 0xc002057);
  ("MASK_VREDXOR_VS", 0xfc00707f);
  ("MATCH_VREM_VV", 0x8c002057);
  ("MASK_VREM_VV", 0xfc00707f);
  ("MATCH_VREM_VX", 0x8c006057);
  ("MASK_VREM_VX", 0xfc00707f);
  ("MATCH_VREMU_VV", 0x88002057);
  ("MASK_VREMU_VV", 0xfc00707f);
  ("MATCH_VREMU_VX", 0x88006057);
  ("MASK_VREMU_VX", 0xfc00707f);
  ("MATCH_VREV8_V", 0x4804a057);
  ("MASK_VREV8_V", 0xfc0ff07f);
  ("MATCH_VRGATHER_VI", 0x30003057);
  ("MASK_VRGATHER_VI", 0xfc00707f);
  ("MATCH_VRGATHER_VV", 0x30000057);
  ("MASK_VRGATHER_VV", 0xfc00707f);
  ("MATCH_VRGATHER_VX", 0x30004057);
  ("MASK_VRGATHER_VX", 0xfc00707f);
  ("MATCH_VRGATHEREI16_VV", 0x38000057);
  ("MASK_VRGATHEREI16_VV", 0xfc00707f);
  ("MATCH_VROL_VV", 0x54000057);
  ("MASK_VROL_VV", 0xfc00707f);
  ("MATCH_VROL_VX", 0x54004057);
  ("MASK_VROL_VX", 0xfc00707f);
  ("MATCH_VROR_VI", 0x50003057);
  ("MASK_VROR_VI", 0xf800707f);
  ("MATCH_VROR_VV", 0x50000057);
  ("MASK_VROR_VV", 0xfc00707f);
  ("MATCH_VROR_VX", 0x50004057);
  ("MASK_VROR_VX", 0xfc00707f);
  ("MATCH_VRSUB_VI", 0xc003057);
  ("MASK_VRSUB_VI", 0xfc00707f);
  ("MATCH_VRSUB_VX", 0xc004057);
  ("MASK_VRSUB_VX", 0xfc00707f);
  ("MATCH_VS1R_V", 0x2800027);
  ("MASK_VS1R_V", 0xfff0707f);
  ("MATCH_VS2R_V", 0x22800027);
  ("MASK_VS2R_V", 0xfff0707f);
  ("MATCH_VS4R_V", 0x62800027);
  ("MASK_VS4R_V", 0xfff0707f);
  ("MATCH_VS8R_V", 0xe2800027);
  ("MASK_VS8R_V", 0xfff0707f);
  ("MATCH_VSADD_VI", 0x84003057);
  ("MASK_VSADD_VI", 0xfc00707f);
  ("MATCH_VSADD_VV", 0x84000057);
  ("MASK_VSADD_VV", 0xfc00707f);
  ("MATCH_VSADD_VX", 0x84004057);
  ("MASK_VSADD_VX", 0xfc00707f);
  ("MATCH_VSADDU_VI", 0x80003057);
  ("MASK_VSADDU_VI", 0xfc00707f);
  ("MATCH_VSADDU_VV", 0x80000057);
  ("MASK_VSADDU_VV", 0xfc00707f);
  ("MATCH_VSADDU_VX", 0x80004057);
  ("MASK_VSADDU_VX", 0xfc00707f);
  ("MATCH_VSBC_VVM", 0x48000057);
  ("MASK_VSBC_VVM", 0xfe00707f);
  ("MATCH_VSBC_VXM", 0x48004057);
  ("MASK_VSBC_VXM", 0xfe00707f);
  ("MATCH_VSE16_V", 0x5027);
  ("MASK_VSE16_V", 0x1df0707f);
  ("MATCH_VSE32_V", 0x6027);
  ("MASK_VSE32_V", 0x1df0707f);
  ("MATCH_VSE64_V", 0x7027);
  ("MASK_VSE64_V", 0x1df0707f);
  ("MATCH_VSE8_V", 0x27);
  ("MASK_VSE8_V", 0x1df0707f);
  ("MATCH_VSETIVLI", 0xc0007057);
  ("MASK_VSETIVLI", 0xc000707f);
  ("MATCH_VSETVL", 0x80007057);
  ("MASK_VSETVL", 0xfe00707f);
  ("MATCH_VSETVLI", 0x7057);
  ("MASK_VSETVLI", 0x8000707f);
  ("MATCH_VSEXT_VF2", 0x4803a057);
  ("MASK_VSEXT_VF2", 0xfc0ff07f);
  ("MATCH_VSEXT_VF4", 0x4802a057);
  ("MASK_VSEXT_VF4", 0xfc0ff07f);
  ("MATCH_VSEXT_VF8", 0x4801a057);
  ("MASK_VSEXT_VF8", 0xfc0ff07f);
  ("MATCH_VSHA2CH_VV", 0xba002077);
  ("MASK_VSHA2CH_VV", 0xfe00707f);
  ("MATCH_VSHA2CL_VV", 0xbe002077);
  ("MASK_VSHA2CL_VV", 0xfe00707f);
  ("MATCH_VSHA2MS_VV", 0xb6002077);
  ("MASK_VSHA2MS_VV", 0xfe00707f);
  ("MATCH_VSLIDE1DOWN_VX", 0x3c006057);
  ("MASK_VSLIDE1DOWN_VX", 0xfc00707f);
  ("MATCH_VSLIDE1UP_VX", 0x38006057);
  ("MASK_VSLIDE1UP_VX", 0xfc00707f);
  ("MATCH_VSLIDEDOWN_VI", 0x3c003057);
  ("MASK_VSLIDEDOWN_VI", 0xfc00707f);
  ("MATCH_VSLIDEDOWN_VX", 0x3c004057);
  ("MASK_VSLIDEDOWN_VX", 0xfc00707f);
  ("MATCH_VSLIDEUP_VI", 0x38003057);
  ("MASK_VSLIDEUP_VI", 0xfc00707f);
  ("MATCH_VSLIDEUP_VX", 0x38004057);
  ("MASK_VSLIDEUP_VX", 0xfc00707f);
  ("MATCH_VSLL_VI", 0x94003057);
  ("MASK_VSLL_VI", 0xfc00707f);
  ("MATCH_VSLL_VV", 0x94000057);
  ("MASK_VSLL_VV", 0xfc00707f);
  ("MATCH_VSLL_VX", 0x94004057);
  ("MASK_VSLL_VX", 0xfc00707f);
  ("MATCH_VSM3C_VI", 0xae002077);
  ("MASK_VSM3C_VI", 0xfe00707f);
  ("MATCH_VSM3ME_VV", 0x82002077);
  ("MASK_VSM3ME_VV", 0xfe00707f);
  ("MATCH_VSM4K_VI", 0x86002077);
  ("MASK_VSM4K_VI", 0xfe00707f);
  ("MATCH_VSM4R_VS", 0xa6082077);
  ("MASK_VSM4R_VS", 0xfe0ff07f);
  ("MATCH_VSM4R_VV", 0xa2082077);
  ("MASK_VSM4R_VV", 0xfe0ff07f);
  ("MATCH_VSM_V", 0x2b00027);
  ("MASK_VSM_V", 0xfff0707f);
  ("MATCH_VSMUL_VV", 0x9c000057);
  ("MASK_VSMUL_VV", 0xfc00707f);
  ("MATCH_VSMUL_VX", 0x9c004057);
  ("MASK_VSMUL_VX", 0xfc00707f);
  ("MATCH_VSOXEI16_V", 0xc005027);
  ("MASK_VSOXEI16_V", 0x1c00707f);
  ("MATCH_VSOXEI32_V", 0xc006027);
  ("MASK_VSOXEI32_V", 0x1c00707f);
  ("MATCH_VSOXEI64_V", 0xc007027);
  ("MASK_VSOXEI64_V", 0x1c00707f);
  ("MATCH_VSOXEI8_V", 0xc000027);
  ("MASK_VSOXEI8_V", 0x1c00707f);
  ("MATCH_VSRA_VI", 0xa4003057);
  ("MASK_VSRA_VI", 0xfc00707f)].

Definition MATCH_MASK_12 : list (string * Z) := [
  ("MATCH_VSRA_VV", 0xa4000057);
  ("MASK_VSRA_VV", 0xfc00707f);
  ("MATCH_VSRA_VX", 0xa4004057);
  ("MASK_VSRA_VX", 0xfc00707f);
  ("MATCH_VSRL_VI", 0xa0003057);
  ("MASK_VSRL_VI", 0xfc00707f);
  ("MATCH_VSRL_VV", 0xa0000057);
  ("MASK_VSRL_VV", 0xfc00707f);
  ("MATCH_VSRL_VX", 0xa0004057);
  ("MASK_VSRL_VX", 0xfc00707f);
  ("MATCH_VSSE16_V", 0x8005027);
  ("MASK_VSSE16_V", 0x1c00707f);
  ("MATCH_VSSE32_V", 0x8006027);
  ("MASK_VSSE32_V", 0x1c00707f);
  ("MATCH_VSSE64_V", 0x8007027);
  ("MASK_VSSE64_V", 0x1c00707f);
  ("MATCH_VSSE8_V", 0x8000027);
  ("MASK_VSSE8_V", 0x1c00707f);
  ("MATCH_VSSRA_VI", 0xac003057);
  ("MASK_VSSRA_VI", 0xfc00707f);
  ("MATCH_VSSRA_VV", 0xac000057);
  ("MASK_VSSRA_VV", 0xfc00707f);
  ("MATCH_VSSRA_VX", 0xac004057);
  ("MASK_VSSRA_VX", 0xfc00707f);
  ("MATCH_VSSRL_VI", 0xa8003057);
  ("MASK_VSSRL_VI", 0xfc00707f);
  ("MATCH_VSSRL_VV", 0xa8000057);
  ("MASK_VSSRL_VV", 0xfc00707f);
  ("MATCH_VSSRL_VX", 0xa8004057);
  ("MASK_VSSRL_VX", 0xfc00707f);
  ("MATCH_VSSUB_VV", 0x8c000057);
  ("MASK_VSSUB_VV", 0xfc00707f);
  ("MATCH_VSSUB_VX", 0x8c004057);
  ("MASK_VSSUB_VX", 0xfc00707f);
  ("MATCH_VSSUBU_VV", 0x88000057);
  ("MASK_VSSUBU_VV", 0xfc00707f);
  ("MATCH_VSSUBU_VX", 0x88004057);
  ("MASK_VSSUBU_VX", 0xfc00707f);
  ("MATCH_VSUB_VV", 0x8000057);
  ("MASK_VSUB_VV", 0xfc00707f);
  ("MATCH_VSUB_VX", 0x8004057);
  ("MASK_VSUB_VX", 0xfc00707f);
  ("MATCH_VSUXEI16_V", 0x4005027);
  ("MASK_VSUXEI16_V", 0x1c00707f);
  ("MATCH_VSUXEI32_V", 0x4006027);
  ("MASK_VSUXEI32_V", 0x1c00707f);
  ("MATCH_VSUXEI64_V", 0x4007027);
  ("MASK_VSUXEI64_V", 0x1c00707f);
  ("MATCH_VSUXEI8_V", 0x4000027);
  ("MASK_VSUXEI8_V", 0x1c00707f);
  ("MATCH_VWADD_VV", 0xc4002057);
  ("MASK_VWADD_VV", 0xfc00707f);
  ("MATCH_VWADD_VX", 0xc4006057);
  ("MASK_VWADD_VX", 0xfc00707f);
  ("MATCH_VWADD_WV", 0xd4002057);
  ("MASK_VWADD_WV", 0xfc00707f);
  ("MATCH_VWADD_WX", 0xd4006057);
  ("MASK_VWADD_WX", 0xfc00707f);
  ("MATCH_VWADDU_VV", 0xc0002057);
  ("MASK_VWADDU_VV", 0xfc00707f);
  ("MATCH_VWADDU_VX", 0xc0006057);
  ("MASK_VWADDU_VX", 0xfc00707f);
  ("MATCH_VWADDU_WV", 0xd0002057);
  ("MASK_VWADDU_WV", 0xfc00707f);
  ("MATCH_VWADDU_WX", 0xd0006057);
  ("MASK_VWADDU_WX", 0xfc00707f);
  ("MATCH_VWMACC_VV", 0xf4002057);
  ("MASK_VWMACC_VV", 0xfc00707f);
  ("MATCH_VWMACC_VX", 0xf4006057);
  ("MASK_VWMACC_VX", 0xfc00707f);
  ("MATCH_VWMACCSU_VV", 0xfc002057);
  ("MASK_VWMACCSU_VV", 0xfc00707f);
  ("MATCH_VWMACCSU_VX", 0xfc006057);
  ("MASK_VWMACCSU_VX", 0xfc00707f);
  ("MATCH_VWMACCU_VV", 0xf0002057);
  ("MASK_VWMACCU_VV", 0xfc00707f);
  ("MATCH_VWMACCU_VX", 0xf0006057);
  ("MASK_VWMACCU_VX", 0xfc00707f);
  ("MATCH_VWMACCUS_VX", 0xf8006057);
  ("MASK_VWMACCUS_VX", 0xfc00707f);
  ("MATCH_VWMUL_VV", 0xec002057);
  ("MASK_VWMUL_VV", 0xfc00707f);
  ("MATCH_VWMUL_VX", 0xec006057);
  ("MASK_VWMUL_VX", 0xfc00707f);
  ("MATCH_VWMULSU_VV", 0xe8002057);
  ("MASK_VWMULSU_VV", 0xfc00707f);
  ("MATCH_VWMULSU_VX", 0xe8006057);
  ("MASK_VWMULSU_VX", 0xfc00707f);
  ("MATCH_VWMULU_VV", 0xe0002057);
  ("MASK_VWMULU_VV", 0xfc00707f);
  ("MATCH_VWMULU_VX", 0xe0006057);
  ("MASK_VWMULU_VX", 0xfc00707f);
  ("MATCH_VWREDSUM_VS", 0xc4000057);
  ("MASK_VWREDSUM_VS", 0xfc00707f);
  ("MATCH_VWREDSUMU_VS", 0xc0000057);
  ("MASK_VWREDSUMU_VS", 0xfc00707f);
  ("MATCH_VWSLL_VI", 0xd4003057);
  ("MASK_VWSLL_VI", 0xfc00707f);
  ("MATCH_VWSLL_VV", 0xd4000057);
  ("MASK_VWSLL_VV", 0xfc00707f);
  ("MATCH_VWSLL_VX", 0xd4004057);
  ("MASK_VWSLL_VX", 0xfc00707f);
  ("MATCH_VWSUB_VV", 0xcc002057);
  ("MASK_VWSUB_VV", 0xfc00707f);
  ("MATCH_VWSUB_VX", 0xcc006057);
  ("MASK_VWSUB_VX", 0xfc00707f);
  ("MATCH_VWSUB_WV", 0xdc002057);
  ("MASK_VWSUB_WV", 0xfc00707f);
  ("MATCH_VWSUB_WX", 0xdc006057);
  ("MASK_VWSUB_WX", 0xfc00707f);
  ("MATCH_VWSUBU_VV", 0xc8002057);
  ("MASK_VWSUBU_VV", 0xfc00707f);
  ("MATCH_VWSUBU_VX", 0xc8006057);
  ("MASK_VWSUBU_VX", 0xfc00707f);
  ("MATCH_VWSUBU_WV", 0xd8002057);
  ("MASK_VWSUBU_WV", 0xfc00707f);
  ("MATCH_VWSUBU_WX", 0xd8006057);
  ("MASK_VWSUBU_WX", 0xfc00707f);
  ("MATCH_VXOR_VI", 0x2c003057);
  ("MASK_VXOR_VI", 0xfc00707f);
  ("MATCH_VXOR_VV", 0x2c000057);
  ("MASK_VXOR_VV", 0xfc00707f);
  ("MATCH_VXOR_VX", 0x2c004057);
  ("MASK_VXOR_VX", 0xfc00707f);
  ("MATCH_VZEXT_VF2", 0x48032057);
  ("MASK_VZEXT_VF2", 0xfc0ff07f);
  ("MATCH_VZEXT_VF4", 0x48022057);
  ("MASK_VZEXT_VF4", 0xfc0ff07f);
  ("MATCH_VZEXT_VF8", 0x48012057);
  ("MASK_VZEXT_VF8", 0xfc0ff07f);
  ("MATCH_WFI", 0x10500073);
  ("MASK_WFI", 0xffffffff);
  ("MATCH_WRS_NTO", 0xd00073);
  ("MASK_WRS_NTO", 0xffffffff);
  ("MATCH_WRS_STO", 0x1d00073);
  ("MASK_WRS_STO", 0xffffffff);
  ("MATCH_XNOR", 0x40004033);
  ("MASK_XNOR", 0xfe00707f);
  ("MATCH_XOR", 0x4033);
  ("MASK_XOR", 0xfe00707f);
  ("MATCH_XORI", 0x4013);
  ("MASK_XORI", 0x707f);
  ("MATCH_XPERM16", 0x28006033);
  ("MASK_XPERM16", 0xfe00707f);
  ("MATCH_XPERM32", 0x28000033);
  ("MASK_XPERM32", 0xfe00707f);
  ("MATCH_XPERM4", 0x28002033);
  ("MASK_XPERM4", 0xfe00707f);
  ("MATCH_XPERM8", 0x28004033);
  ("MASK_XPERM8", 0xfe00707f)].

(** * Instructions *)

Definition DECLARE_INSN_0 : list (string * (string * string)) := [
  ("add", ("MATCH_ADD", "MASK_ADD"));
  ("add_uw", ("MATCH_ADD_UW", "MASK_ADD_UW"));
  ("addi", ("MATCH_ADDI", "MASK_ADDI"));
  ("addiw", ("MATCH_ADDIW", "MASK_ADDIW"));
  ("addw", ("MATCH_ADDW", "MASK_ADDW"));
  ("aes32dsi", ("MATCH_AES32DSI", "MASK_AES32DSI"));
  ("aes32dsmi", ("MATCH_AES32DSMI", "MASK_AES32DSMI"));
  ("aes32esi", ("MATCH_AES32ESI", "MASK_AES32ESI"));
  ("aes32esmi", ("MATCH_AES32ESMI", "MASK_AES32ESMI"));
  ("aes64ds", ("MATCH_AES64DS", "MASK_AES64DS"));
  ("aes64dsm", ("MATCH_AES64DSM", "MASK_AES64DSM"));
  ("aes64es", ("MATCH_AES64ES", "MASK_AES64ES"));
  ("aes64esm", ("MATCH_AES64ESM", "MASK_AES64ESM"));
  ("aes64im", ("MATCH_AES64IM", "MASK_AES64IM"));
  ("aes64ks1i", ("MATCH_AES64KS1I", "MASK_AES64KS1I"));
  ("aes64ks2", ("MATCH_AES64KS2", "MASK_AES64KS2"));
  ("amoadd_b", ("MATCH_AMOADD_B", "MASK_AMOADD_B"));
  ("amoadd_d", ("MATCH_AMOADD_D", "MASK_AMOADD_D"));
  ("amoadd_h", ("MATCH_AMOADD_H", "MASK_AMOADD_H"));
  ("amoadd_w", ("MATCH_AMOADD_W", "MASK_AMOADD_W"));
  ("amoand_b", ("MATCH_AMOAND_B", "MASK_AMOAND_B"));
  ("amoand_d", ("MATCH_AMOAND_D", "MASK_AMOAND_D"));
  ("amoand_h", ("MATCH_AMOAND_H", "MASK_AMOAND_H"));
  ("amoand_w", ("MATCH_AMOAND_W", "MASK_AMOAND_W"));
  ("amocas_b", ("MATCH_AMOCAS_B", "MASK_AMOCAS_B"));
  ("amocas_d", ("MATCH_AMOCAS_D", "MASK_AMOCAS_D"));
  ("amocas_h", ("MATCH_AMOCAS_H", "MASK_AMOCAS_H"));
  ("amocas_q", ("MATCH_AMOCAS_Q", "MASK_AMOCAS_Q"));
  ("amocas_w", ("MATCH_AMOCAS_W", "MASK_AMOCAS_W"));
  ("amomax_b", ("MATCH_AMOMAX_B", "MASK_AMOMAX_B"));
  ("amomax_d", ("MATCH_AMOMAX_D", "MASK_AMOMAX_D"));
  ("amomax_h", ("MATCH_AMOMAX_H", "MASK_AMOMAX_H"));
  ("amomax_w", ("MATCH_AMOMAX_W", "MASK_AMOMAX_W"));
  ("amomaxu_b", ("MATCH_AMOMAXU_B", "MASK_AMOMAXU_B"));
  ("amomaxu_d", ("MATCH_AMOMAXU_D", "MASK_AMOMAXU_D"));
  ("amomaxu_h", ("MATCH_AMOMAXU_H", "MASK_AMOMAXU_H"));
  ("amomaxu_w", ("MATCH_AMOMAXU_W", "MASK_AMOMAXU_W"));
  ("amomin_b", ("MATCH_AMOMIN_B", "MASK_AMOMIN_B"));
  ("amomin_d", ("MATCH_AMOMIN_D", "MASK_AMOMIN_D"));
  ("amomin_h", ("MATCH_AMOMIN_H", "MASK_AMOMIN_H"));
  ("amomin_w", ("MATCH_AMOMIN_W", "MASK_AMOMIN_W"));
  ("amominu_b", ("MATCH_AMOMINU_B", "MASK_AMOMINU_B"));
  ("amominu_d", ("MATCH_AMOMINU_D", "MASK_AMOMINU_D"));
  ("amominu_h", ("MATCH_AMOMINU_H", "MASK_AMOMINU_H"));
  ("amominu_w", ("MATCH_AMOMINU_W", "MASK_AMOMINU_W"));
  ("amoor_b", ("MATCH_AMOOR_B", "MASK_AMOOR_B"));
  ("amoor_d", ("MATCH_AMOOR_D", "MASK_AMOOR_D"));
  ("amoor_h", ("MATCH_AMOOR_H", "MASK_AMOOR_H"));
  ("amoor_w", ("MATCH_AMOOR_W", "MASK_AMOOR_W"));
  ("amoswap_b", ("MATCH_AMOSWAP_B", "MASK_AMOSWAP_B"));
  ("amoswap_d", ("MATCH_AMOSWAP_D", "MASK_AMOSWAP_D"));
  ("amoswap_h", ("MATCH_AMOSWAP_H", "MASK_AMOSWAP_H"));
  ("amoswap_w", ("MATCH_AMOSWAP_W", "MASK_AMOSWAP_W"));
  ("amoxor_b", ("MATCH_AMOXOR_B", "MASK_AMOXOR_B"));
  ("amoxor_d", ("MATCH_AMOXOR_D", "MASK_AMOXOR_D"));
  ("amoxor_h", ("MATCH_AMOXOR_H", "MASK_AMOXOR_H"));
  ("amoxor_w", ("MATCH_AMOXOR_W", "MASK_AMOXOR_W"));
  ("and", ("MATCH_AND", "MASK_AND"));
  ("andi", ("MATCH_ANDI", "MASK_ANDI"));
  ("andn", ("MATCH_ANDN", "MASK_ANDN"));
  ("auipc", ("MATCH_AUIPC", "MASK_AUIPC"));
  ("bclr", ("MATCH_BCLR", "MASK_BCLR"));
  ("bclri", ("MATCH_BCLRI", "MASK_BCLRI"));
  ("beq", ("MATCH_BEQ", "MASK_BEQ"));
  ("bext", ("MATCH_BEXT", "MASK_BEXT"));
  ("bexti", ("MATCH_BEXTI", "MASK_BEXTI"));
  ("bge", ("MATCH_BGE", "MASK_BGE"));
  ("bgeu", ("MATCH_BGEU", "MASK_BGEU"));
  ("binv", ("MATCH_BINV", "MASK_BINV"));
  ("binvi", ("MATCH_BINVI", "MASK_BINVI"));
  ("blt", ("MATCH_BLT", "MASK_BLT"));
  ("bltu", ("MATCH_BLTU", "MASK_BLTU"));
  ("bne", ("MATCH_BNE", "MASK_BNE"));
  ("bset", ("MATCH_BSET", "MASK_BSET"));
  ("bseti", ("MATCH_BSETI", "MASK_BSETI"));
  ("c_add", ("MATCH_C_ADD", "MASK_C_ADD"));
  ("c_addi", ("MATCH_C_ADDI", "MASK_C_ADDI"));
  ("c_addi16sp", ("MATCH_C_ADDI16SP", "MASK_C_ADDI16SP"));
  ("c_addi4spn", ("MATCH_C_ADDI4SPN", "MASK_C_ADDI4SPN"));
  ("c_addiw", ("MATCH_C_ADDIW", "MASK_C_ADDIW"));
  ("c_addw", ("MATCH_C_ADDW", "MASK_C_ADDW"));
  ("c_and", ("MATCH_C_AND", "MASK_C_AND"));
  ("c_andi", ("MATCH_C_ANDI", "MASK_C_ANDI"));
  ("c_beqz", ("MATCH_C_BEQZ", "MASK_C_BEQZ"));
  ("c_bnez", ("MATCH_C_BNEZ", "MASK_C_BNEZ"));
  ("c_ebreak", ("MATCH_C_EBREAK", "MASK_C_EBREAK"));
  ("c_fld", ("MATCH_C_FLD", "MASK_C_FLD"));
  ("c_fldsp", ("MATCH_C_FLDSP", "MASK_C_FLDSP"));
  ("c_flw", ("MATCH_C_FLW", "MASK_C_FLW"));
  ("c_flwsp", ("MATCH_C_FLWSP", "MASK_C_FLWSP"));
  ("c_fsd", ("MATCH_C_FSD", "MASK_C_FSD"));
  ("c_fsdsp", ("MATCH_C_FSDSP", "MASK_C_FSDSP"));
  ("c_fsw", ("MATCH_C_FSW", "MASK_C_FSW"));
  ("c_fswsp", ("MATCH_C_FSWSP", "MASK_C_FSWSP"));
  ("c_j", ("MATCH_C_J", "MASK_C_J"));
  ("c_jal", ("MATCH_C_JAL", "MASK_C_JAL"));
  ("c_jalr", ("MATCH_C_JALR", "MASK_C_JALR"));
  ("c_jr", ("MATCH_C_JR", "MASK_C_JR"));
  ("c_lbu", ("MATCH_C_LBU", "MASK_C_LBU"));
  ("c_ld", ("MATCH_C_LD", "MASK_C_LD"));
  ("c_ldsp", ("MATCH_C_LDSP", "MASK_C_LDSP"));
  ("c_lh", ("MATCH_C_LH", "MASK_C_LH"));
  ("c_lhu", ("MATCH_C_LHU", "MASK_C_LHU"));
  ("c_li", ("MATCH_C_LI", "MASK_C_LI"));
  ("c_lui", ("MATCH_C_LUI", "MASK_C_LUI"));
  ("c_lw", ("MATCH_C_LW", "MASK_C_LW"));
  ("c_lwsp", ("MATCH_C_LWSP", "MASK_C_LWSP"));
  ("c_mop_1", ("MATCH_C_MOP_1", "MASK_C_MOP_1"));
  ("c_mop_11", ("MATCH_C_MOP_11", "MASK_C_MOP_11"));
  ("c_mop_13", ("MATCH_C_MOP_13", "MASK_C_MOP_13"));
  ("c_mop_15", ("MATCH_C_MOP_15", "MASK_C_MOP_15"));
  ("c_mop_3", ("MATCH_C_MOP_3", "MASK_C_MOP_3"));
  ("c_mop_5", ("MATCH_C_MOP_5", "MASK_C_MOP_5"));
  ("c_mop_7", ("MATCH_C_MOP_7", "MASK_C_MOP_7"));
  ("c_mop_9", ("MATCH_C_MOP_9", "MASK_C_MOP_9"));
  ("c_mop_N", ("MATCH_C_MOP_N", "MASK_C_MOP_N"));
  ("c_mul", ("MATCH_C_MUL", "MASK_C_MUL"));
  ("c_mv", ("MATCH_C_MV", "MASK_C_MV"));
  ("c_nop", ("MATCH_C_NOP", "MASK_C_NOP"));
  ("c_not", ("MATCH_C_NOT", "MASK_C_NOT"));
  ("c_or", ("MATCH_C_OR", "MASK_C_OR"));
  ("c_sb", ("MATCH_C_SB", "MASK_C_SB"));
  ("c_sd", ("MATCH_C_SD", "MASK_C_SD"));
  ("c_sdsp", ("MATCH_C_SDSP", "MASK_C_SDSP"));
  ("c_sext_b", ("MATCH_C_SEXT_B", "MASK_C_SEXT_B"));
  ("c_sext_h", ("MATCH_C_SEXT_H", "MASK_C_SEXT_H"));
  ("c_sh", ("MATCH_C_SH", "MASK_C_SH"));
  ("c_slli", ("MATCH_C_SLLI", "MASK_C_SLLI"));
  ("c_srai", ("MATCH_C_SRAI", "MASK_C_SRAI"));
  ("c_srli", ("MATCH_C_SRLI", "MASK_C_SRLI"));
  ("c_sspopchk_x5", ("MATCH_C_SSPOPCHK_X5", "MASK_C_SSPOPCHK_X5"));
  ("c_sspush_x1", ("MATCH_C_SSPUSH_X1", "MASK_C_SSPUSH_X1"));
  ("c_sub", ("MATCH_C_SUB", "MASK_C_SUB"));
  ("c_subw", ("MATCH_C_SUBW", "MASK_C_SUBW"));
  ("c_sw", ("MATCH_C_SW", "MASK_C_SW"));
  ("c_swsp", ("MATCH_C_SWSP", "MASK_C_SWSP"));
  ("c_xor", ("MATCH_C_XOR", "MASK_C_XOR"));
  ("c_zext_b", ("MATCH_C_ZEXT_B", "MASK_C_ZEXT_B"));
  ("c_zext_h", ("MATCH_C_ZEXT_H", "MASK_C_ZEXT_H"));
  ("c_zext_w", ("MATCH_C_ZEXT_W", "MASK_C_ZEXT_W"));
  ("cbo_clean", ("MATCH_CBO_CLEAN", "MASK_CBO_CLEAN"));
  ("cbo_flush", ("MATCH_CBO_FLUSH", "MASK_CBO_FLUSH"));
  ("cbo_inval", ("MATCH_CBO_INVAL", "MASK_CBO_INVAL"));
  ("cbo_zero", ("MATCH_CBO_ZERO", "MASK_CBO_ZERO"));
  ("clmul", ("MATCH_CLMUL", "MASK_CLMUL"));
  ("clmulh", ("MATCH_CLMULH", "MASK_CLMULH"));
  ("clmulr", ("MATCH_CLMULR", "MASK_CLMULR"));
  ("clz", ("MATCH_CLZ", "MASK_CLZ"));
  ("clzw", ("MATCH_CLZW", "MASK_CLZW"));
  ("cm_jalt", ("MATCH_CM_JALT", "MASK_CM_JALT"))].

Definition DECLARE_INSN_1 : list (string * (string * string)) := [
  ("cm_mva01s", ("MATCH_CM_MVA01S", "MASK_CM_MVA01S"));
  ("cm_mvsa01", ("MATCH_CM_MVSA01", "MASK_CM_MVSA01"));
  ("cm_pop", ("MATCH_CM_POP", "MASK_CM_POP"));
  ("cm_popret", ("MATCH_CM_POPRET", "MASK_CM_POPRET"));
  ("cm_popretz", ("MATCH_CM_POPRETZ", "MASK_CM_POPRETZ"));
  ("cm_push", ("MATCH_CM_PUSH", "MASK_CM_PUSH"));
  ("cpop", ("MATCH_CPOP", "MASK_CPOP"));
  ("cpopw", ("MATCH_CPOPW", "MASK_CPOPW"));
  ("csrrc", ("MATCH_CSRRC", "MASK_CSRRC"));
  ("csrrci", ("MATCH_CSRRCI", "MASK_CSRRCI"));
  ("csrrs", ("MATCH_CSRRS", "MASK_CSRRS"));
  ("csrrsi", ("MATCH_CSRRSI", "MASK_CSRRSI"));
  ("csrrw", ("MATCH_CSRRW", "MASK_CSRRW"));
  ("csrrwi", ("MATCH_CSRRWI", "MASK_CSRRWI"));
  ("ctz", ("MATCH_CTZ", "MASK_CTZ"));
  ("ctzw", ("MATCH_CTZW", "MASK_CTZW"));
  ("czero_eqz", ("MATCH_CZERO_EQZ", "MASK_CZERO_EQZ"));
  ("czero_nez", ("MATCH_CZERO_NEZ", "MASK_CZERO_NEZ"));
  ("div", ("MATCH_DIV", "MASK_DIV"));
  ("divu", ("MATCH_DIVU", "MASK_DIVU"));
  ("divuw", ("MATCH_DIVUW", "MASK_DIVUW"));
  ("divw", ("MATCH_DIVW", "MASK_DIVW"));
  ("dret", ("MATCH_DRET", "MASK_DRET"));
  ("ebreak", ("MATCH_EBREAK", "MASK_EBREAK"));
  ("ecall", ("MATCH_ECALL", "MASK_ECALL"));
  ("fadd_d", ("MATCH_FADD_D", "MASK_FADD_D"));
  ("fadd_h", ("MATCH_FADD_H", "MASK_FADD_H"));
  ("fadd_q", ("MATCH_FADD_Q", "MASK_FADD_Q"));
  ("fadd_s", ("MATCH_FADD_S", "MASK_FADD_S"));
  ("fclass_d", ("MATCH_FCLASS_D", "MASK_FCLASS_D"));
  ("fclass_h", ("MATCH_FCLASS_H", "MASK_FCLASS_H"));
  ("fclass_q", ("MATCH_FCLASS_Q", "MASK_FCLASS_Q"));
  ("fclass_s", ("MATCH_FCLASS_S", "MASK_FCLASS_S"));
  ("fcvt_bf16_s", ("MATCH_FCVT_BF16_S", "MASK_FCVT_BF16_S"));
  ("fcvt_d_h", ("MATCH_FCVT_D_H", "MASK_FCVT_D_H"));
  ("fcvt_d_l", ("MATCH_FCVT_D_L", "MASK_FCVT_D_L"));
  ("fcvt_d_lu", ("MATCH_FCVT_D_LU", "MASK_FCVT_D_LU"));
  ("fcvt_d_q", ("MATCH_FCVT_D_Q", "MASK_FCVT_D_Q"));
  ("fcvt_d_s", ("MATCH_FCVT_D_S", "MASK_FCVT_D_S"));
  ("fcvt_d_w", ("MATCH_FCVT_D_W", "MASK_FCVT_D_W"));
  ("fcvt_d_wu", ("MATCH_FCVT_D_WU", "MASK_FCVT_D_WU"));
  ("fcvt_h_d", ("MATCH_FCVT_H_D", "MASK_FCVT_H_D"));
  ("fcvt_h_l", ("MATCH_FCVT_H_L", "MASK_FCVT_H_L"));
  ("fcvt_h_lu", ("MATCH_FCVT_H_LU", "MASK_FCVT_H_LU"));
  ("fcvt_h_q", ("MATCH_FCVT_H_Q", "MASK_FCVT_H_Q"));
  ("fcvt_h_s", ("MATCH_FCVT_H_S", "MASK_FCVT_H_S"));
  ("fcvt_h_w", ("MATCH_FCVT_H_W", "MASK_FCVT_H_W"));
  ("fcvt_h_wu", ("MATCH_FCVT_H_WU", "MASK_FCVT_H_WU"));
  ("fcvt_l_d", ("MATCH_FCVT_L_D", "MASK_FCVT_L_D"));
  ("fcvt_l_h", ("MATCH_FCVT_L_H", "MASK_FCVT_L_H"));
  ("fcvt_l_q", ("MATCH_FCVT_L_Q", "MASK_FCVT_L_Q"));
  ("fcvt_l_s", ("MATCH_FCVT_L_S", "MASK_FCVT_L_S"));
  ("fcvt_lu_d", ("MATCH_FCVT_LU_D", "MASK_FCVT_LU_D"));
  ("fcvt_lu_h", ("MATCH_FCVT_LU_H", "MASK_FCVT_LU_H"));
  ("fcvt_lu_q", ("MATCH_FCVT_LU_Q", "MASK_FCVT_LU_Q"));
  ("fcvt_lu_s", ("MATCH_FCVT_LU_S", "MASK_FCVT_LU_S"));
  ("fcvt_q_d", ("MATCH_FCVT_Q_D", "MASK_FCVT_Q_D"));
  ("fcvt_q_h", ("MATCH_FCVT_Q_H", "MASK_FCVT_Q_H"));
  ("fcvt_q_l", ("MATCH_FCVT_Q_L", "MASK_FCVT_Q_L"));
  ("fcvt_q_lu", ("MATCH_FCVT_Q_LU", "MASK_FCVT_Q_LU"));
  ("fcvt_q_s", ("MATCH_FCVT_Q_S", "MASK_FCVT_Q_S"));
  ("fcvt_q_w", ("MATCH_FCVT_Q_W", "MASK_FCVT_Q_W"));
  ("fcvt_q_wu", ("MATCH_FCVT_Q_WU", "MASK_FCVT_Q_WU"));
  ("fcvt_s_bf16", ("MATCH_FCVT_S_BF16", "MASK_FCVT_S_BF16"));
  ("fcvt_s_d", ("MATCH_FCVT_S_D", "MASK_FCVT_S_D"));
  ("fcvt_s_h", ("MATCH_FCVT_S_H", "MASK_FCVT_S_H"));
  ("fcvt_s_l", ("MATCH_FCVT_S_L", "MASK_FCVT_S_L"));
  ("fcvt_s_lu", ("MATCH_FCVT_S_LU", "MASK_FCVT_S_LU"));
  ("fcvt_s_q", ("MATCH_FCVT_S_Q", "MASK_FCVT_S_Q"));
  ("fcvt_s_w", ("MATCH_FCVT_S_W", "MASK_FCVT_S_W"));
  ("fcvt_s_wu", ("MATCH_FCVT_S_WU", "MASK_FCVT_S_WU"));
  ("fcvt_w_d", ("MATCH_FCVT_W_D", "MASK_FCVT_W_D"));
  ("fcvt_w_h", ("MATCH_FCVT_W_H", "MASK_FCVT_W_H"));
  ("fcvt_w_q", ("MATCH_FCVT_W_Q", "MASK_FCVT_W_Q"));
  ("fcvt_w_s", ("MATCH_FCVT_W_S", "MASK_FCVT_W_S"));
  ("fcvt_wu_d", ("MATCH_FCVT_WU_D", "MASK_FCVT_WU_D"));
  ("fcvt_wu_h", ("MATCH_FCVT_WU_H", "MASK_FCVT_WU_H"));
  ("fcvt_wu_q", ("MATCH_FCVT_WU_Q", "MASK_FCVT_WU_Q"));
  ("fcvt_wu_s", ("MATCH_FCVT_WU_S", "MASK_FCVT_WU_S"));
  ("fcvtmod_w_d", ("MATCH_FCVTMOD_W_D", "MASK_FCVTMOD_W_D"));
  ("fdiv_d", ("MATCH_FDIV_D", "MASK_FDIV_D"));
  ("fdiv_h", ("MATCH_FDIV_H", "MASK_FDIV_H"));
  ("fdiv_q", ("MATCH_FDIV_Q", "MASK_FDIV_Q"));
  ("fdiv_s", ("MATCH_FDIV_S", "MASK_FDIV_S"));
  ("fence", ("MATCH_FENCE", "MASK_FENCE"));
  ("fence_i", ("MATCH_FENCE_I", "MASK_FENCE_I"));
  ("feq_d", ("MATCH_FEQ_D", "MASK_FEQ_D"));
  ("feq_h", ("MATCH_FEQ_H", "MASK_FEQ_H"));
  ("feq_q", ("MATCH_FEQ_Q", "MASK_FEQ_Q"));
  ("feq_s", ("MATCH_FEQ_S", "MASK_FEQ_S"));
  ("fld", ("MATCH_FLD", "MASK_FLD"));
  ("fle_d", ("MATCH_FLE_D", "MASK_FLE_D"));
  ("fle_h", ("MATCH_FLE_H", "MASK_FLE_H"));
  ("fle_q", ("MATCH_FLE_Q", "MASK_FLE_Q"));
  ("fle_s", ("MATCH_FLE_S", "MASK_FLE_S"));
  ("fleq_d", ("MATCH_FLEQ_D", "MASK_FLEQ_D"));
  ("fleq_h", ("MATCH_FLEQ_H", "MASK_FLEQ_H"));
  ("fleq_q", ("MATCH_FLEQ_Q", "MASK_FLEQ_Q"));
  ("fleq_s", ("MATCH_FLEQ_S", "MASK_FLEQ_S"));
  ("flh", ("MATCH_FLH", "MASK_FLH"));
  ("fli_d", ("MATCH_FLI_D", "MASK_FLI_D"));
  ("fli_h", ("MATCH_FLI_H", "MASK_FLI_H"));
  ("fli_q", ("MATCH_FLI_Q", "MASK_FLI_Q"));
  ("fli_s", ("MATCH_FLI_S", "MASK_FLI_S"));
  ("flq", ("MATCH_FLQ", "MASK_FLQ"));
  ("flt_d", ("MATCH_FLT_D", "MASK_FLT_D"));
  ("flt_h", ("MATCH_FLT_H", "MASK_FLT_H"));
  ("flt_q", ("MATCH_FLT_Q", "MASK_FLT_Q"));
  ("flt_s", ("MATCH_FLT_S", "MASK_FLT_S"));
  ("fltq_d", ("MATCH_FLTQ_D", "MASK_FLTQ_D"));
  ("fltq_h", ("MATCH_FLTQ_H", "MASK_FLTQ_H"));
  ("fltq_q", ("MATCH_FLTQ_Q", "MASK_FLTQ_Q"));
  ("fltq_s", ("MATCH_FLTQ_S", "MASK_FLTQ_S"));
  ("flw", ("MATCH_FLW", "MASK_FLW"));
  ("fmadd_d", ("MATCH_FMADD_D", "MASK_FMADD_D"));
  ("fmadd_h", ("MATCH_FMADD_H", "MASK_FMADD_H"));
  ("fmadd_q", ("MATCH_FMADD_Q", "MASK_FMADD_Q"));
  ("fmadd_s", ("MATCH_FMADD_S", "MASK_FMADD_S"));
  ("fmax_d", ("MATCH_FMAX_D", "MASK_FMAX_D"));
  ("fmax_h", ("MATCH_FMAX_H", "MASK_FMAX_H"));
  ("fmax_q", ("MATCH_FMAX_Q", "MASK_FMAX_Q"));
  ("fmax_s", ("MATCH_FMAX_S", "MASK_FMAX_S"));
  ("fmaxm_d", ("MATCH_FMAXM_D", "MASK_FMAXM_D"));
  ("fmaxm_h", ("MATCH_FMAXM_H", "MASK_FMAXM_H"));
  ("fmaxm_q", ("MATCH_FMAXM_Q", "MASK_FMAXM_Q"));
  ("fmaxm_s", ("MATCH_FMAXM_S", "MASK_FMAXM_S"));
  ("fmin_d", ("MATCH_FMIN_D", "MASK_FMIN_D"));
  ("fmin_h", ("MATCH_FMIN_H", "MASK_FMIN_H"));
  ("fmin_q", ("MATCH_FMIN_Q", "MASK_FMIN_Q"));
  ("fmin_s", ("MATCH_FMIN_S", "MASK_FMIN_S"));
  ("fminm_d", ("MATCH_FMINM_D", "MASK_FMINM_D"));
  ("fminm_h", ("MATCH_FMINM_H", "MASK_FMINM_H"));
  ("fminm_q", ("MATCH_FMINM_Q", "MASK_FMINM_Q"));
  ("fminm_s", ("MATCH_FMINM_S", "MASK_FMINM_S"));
  ("fmsub_d", ("MATCH_FMSUB_D", "MASK_FMSUB_D"));
  ("fmsub_h", ("MATCH_FMSUB_H", "MASK_FMSUB_H"));
  ("fmsub_q", ("MATCH_FMSUB_Q", "MASK_FMSUB_Q"));
  ("fmsub_s", ("MATCH_FMSUB_S", "MASK_FMSUB_S"));
  ("fmul_d", ("MATCH_FMUL_D", "MASK_FMUL_D"));
  ("fmul_h", ("MATCH_FMUL_H", "MASK_FMUL_H"));
  ("fmul_q", ("MATCH_FMUL_Q", "MASK_FMUL_Q"));
  ("fmul_s", ("MATCH_FMUL_S", "MASK_FMUL_S"));
  ("fmv_d_x", ("MATCH_FMV_D_X", "MASK_FMV_D_X"));
  ("fmv_h_x", ("MATCH_FMV_H_X", "MASK_FMV_H_X"));
  ("fmv_w_x", ("MATCH_FMV_W_X", "MASK_FMV_W_X"));
  ("fmv_x_d", ("MATCH_FMV_X_D", "MASK_FMV_X_D"));
  ("fmv_x_h", ("MATCH_FMV_X_H", "MASK_FMV_X_H"));
  ("fmv_x_w", ("MATCH_FMV_X_W", "MASK_FMV_X_W"));
  ("fmvh_x_d", ("MATCH_FMVH_X_D", "MASK_FMVH_X_D"));
  ("fmvh_x_q", ("MATCH_FMVH_X_Q", "MASK_FMVH_X_Q"))].

Definition DECLARE_INSN_2 : list (string * (string * string)) := [
  ("fmvp_d_x", ("MATCH_FMVP_D_X", "MASK_FMVP_D_X"));
  ("fmvp_q_x", ("MATCH_FMVP_Q_X", "MASK_FMVP_Q_X"));
  ("fnmadd_d", ("MATCH_FNMADD_D", "MASK_FNMADD_D"));
  ("fnmadd_h", ("MATCH_FNMADD_H", "MASK_FNMADD_H"));
  ("fnmadd_q", ("MATCH_FNMADD_Q", "MASK_FNMADD_Q"));
  ("fnmadd_s", ("MATCH_FNMADD_S", "MASK_FNMADD_S"));
  ("fnmsub_d", ("MATCH_FNMSUB_D", "MASK_FNMSUB_D"));
  ("fnmsub_h", ("MATCH_FNMSUB_H", "MASK_FNMSUB_H"));
  ("fnmsub_q", ("MATCH_FNMSUB_Q", "MASK_FNMSUB_Q"));
  ("fnmsub_s", ("MATCH_FNMSUB_S", "MASK_FNMSUB_S"));
  ("fround_d", ("MATCH_FROUND_D", "MASK_FROUND_D"));
  ("fround_h", ("MATCH_FROUND_H", "MASK_FROUND_H"));
  ("fround_q", ("MATCH_FROUND_Q", "MASK_FROUND_Q"));
  ("fround_s", ("MATCH_FROUND_S", "MASK_FROUND_S"));
  ("froundnx_d", ("MATCH_FROUNDNX_D", "MASK_FROUNDNX_D"));
  ("froundnx_h", ("MATCH_FROUNDNX_H", "MASK_FROUNDNX_H"));
  ("froundnx_q", ("MATCH_FROUNDNX_Q", "MASK_FROUNDNX_Q"));
  ("froundnx_s", ("MATCH_FROUNDNX_S", "MASK_FROUNDNX_S"));
  ("fsd", ("MATCH_FSD", "MASK_FSD"));
  ("fsgnj_d", ("MATCH_FSGNJ_D", "MASK_FSGNJ_D"));
  ("fsgnj_h", ("MATCH_FSGNJ_H", "MASK_FSGNJ_H"));
  ("fsgnj_q", ("MATCH_FSGNJ_Q", "MASK_FSGNJ_Q"));
  ("fsgnj_s", ("MATCH_FSGNJ_S", "MASK_FSGNJ_S"));
  ("fsgnjn_d", ("MATCH_FSGNJN_D", "MASK_FSGNJN_D"));
  ("fsgnjn_h", ("MATCH_FSGNJN_H", "MASK_FSGNJN_H"));
  ("fsgnjn_q", ("MATCH_FSGNJN_Q", "MASK_FSGNJN_Q"));
  ("fsgnjn_s", ("MATCH_FSGNJN_S", "MASK_FSGNJN_S"));
  ("fsgnjx_d", ("MATCH_FSGNJX_D", "MASK_FSGNJX_D"));
  ("fsgnjx_h", ("MATCH_FSGNJX_H", "MASK_FSGNJX_H"));
  ("fsgnjx_q", ("MATCH_FSGNJX_Q", "MASK_FSGNJX_Q"));
  ("fsgnjx_s", ("MATCH_FSGNJX_S", "MASK_FSGNJX_S"));
  ("fsh", ("MATCH_FSH", "MASK_FSH"));
  ("fsq", ("MATCH_FSQ", "MASK_FSQ"));
  ("fsqrt_d", ("MATCH_FSQRT_D", "MASK_FSQRT_D"));
  ("fsqrt_h", ("MATCH_FSQRT_H", "MASK_FSQRT_H"));
  ("fsqrt_q", ("MATCH_FSQRT_Q", "MASK_FSQRT_Q"));
  ("fsqrt_s", ("MATCH_FSQRT_S", "MASK_FSQRT_S"));
  ("fsub_d", ("MATCH_FSUB_D", "MASK_FSUB_D"));
  ("fsub_h", ("MATCH_FSUB_H", "MASK_FSUB_H"));
  ("fsub_q", ("MATCH_FSUB_Q", "MASK_FSUB_Q"));
  ("fsub_s", ("MATCH_FSUB_S", "MASK_FSUB_S"));
  ("fsw", ("MATCH_FSW", "MASK_FSW"));
  ("gorci", ("MATCH_GORCI", "MASK_GORCI"));
  ("grevi", ("MATCH_GREVI", "MASK_GREVI"));
  ("hfence_gvma", ("MATCH_HFENCE_GVMA", "MASK_HFENCE_GVMA"));
  ("hfence_vvma", ("MATCH_HFENCE_VVMA", "MASK_HFENCE_VVMA"));
  ("hinval_gvma", ("MATCH_HINVAL_GVMA", "MASK_HINVAL_GVMA"));
  ("hinval_vvma", ("MATCH_HINVAL_VVMA", "MASK_HINVAL_VVMA"));
  ("hlv_b", ("MATCH_HLV_B", "MASK_HLV_B"));
  ("hlv_bu", ("MATCH_HLV_BU", "MASK_HLV_BU"));
  ("hlv_d", ("MATCH_HLV_D", "MASK_HLV_D"));
  ("hlv_h", ("MATCH_HLV_H", "MASK_HLV_H"));
  ("hlv_hu", ("MATCH_HLV_HU", "MASK_HLV_HU"));
  ("hlv_w", ("MATCH_HLV_W", "MASK_HLV_W"));
  ("hlv_wu", ("MATCH_HLV_WU", "MASK_HLV_WU"));
  ("hlvx_hu", ("MATCH_HLVX_HU", "MASK_HLVX_HU"));
  ("hlvx_wu", ("MATCH_HLVX_WU", "MASK_HLVX_WU"));
  ("hsv_b", ("MATCH_HSV_B", "MASK_HSV_B"));
  ("hsv_d", ("MATCH_HSV_D", "MASK_HSV_D"));
  ("hsv_h", ("MATCH_HSV_H", "MASK_HSV_H"));
  ("hsv_w", ("MATCH_HSV_W", "MASK_HSV_W"));
  ("jal", ("MATCH_JAL", "MASK_JAL"));
  ("jalr", ("MATCH_JALR", "MASK_JALR"));
  ("lb", ("MATCH_LB", "MASK_LB"));
  ("lb_aq", ("MATCH_LB_AQ", "MASK_LB_AQ"));
  ("lbu", ("MATCH_LBU", "MASK_LBU"));
  ("ld", ("MATCH_LD", "MASK_LD"));
  ("ld_aq", ("MATCH_LD_AQ", "MASK_LD_AQ"));
  ("lh", ("MATCH_LH", "MASK_LH"));
  ("lh_aq", ("MATCH_LH_AQ", "MASK_LH_AQ"));
  ("lhu", ("MATCH_LHU", "MASK_LHU"));
  ("lpad", ("MATCH_LPAD", "MASK_LPAD"));
  ("lr_d", ("MATCH_LR_D", "MASK_LR_D"));
  ("lr_w", ("MATCH_LR_W", "MASK_LR_W"));
  ("lui", ("MATCH_LUI", "MASK_LUI"));
  ("lw", ("MATCH_LW", "MASK_LW"));
  ("lw_aq", ("MATCH_LW_AQ", "MASK_LW_AQ"));
  ("lwu", ("MATCH_LWU", "MASK_LWU"));
  ("max", ("MATCH_MAX", "MASK_MAX"));
  ("maxu", ("MATCH_MAXU", "MASK_MAXU"));
  ("min", ("MATCH_MIN", "MASK_MIN"));
  ("minu", ("MATCH_MINU", "MASK_MINU"));
  ("mnret", ("MATCH_MNRET", "MASK_MNRET"));
  ("mop_r_0", ("MATCH_MOP_R_0", "MASK_MOP_R_0"));
  ("mop_r_1", ("MATCH_MOP_R_1", "MASK_MOP_R_1"));
  ("mop_r_10", ("MATCH_MOP_R_10", "MASK_MOP_R_10"));
  ("mop_r_11", ("MATCH_MOP_R_11", "MASK_MOP_R_11"));
  ("mop_r_12", ("MATCH_MOP_R_12", "MASK_MOP_R_12"));
  ("mop_r_13", ("MATCH_MOP_R_13", "MASK_MOP_R_13"));
  ("mop_r_14", ("MATCH_MOP_R_14", "MASK_MOP_R_14"));
  ("mop_r_15", ("MATCH_MOP_R_15", "MASK_MOP_R_15"));
  ("mop_r_16", ("MATCH_MOP_R_16", "MASK_MOP_R_16"));
  ("mop_r_17", ("MATCH_MOP_R_17", "MASK_MOP_R_17"));
  ("mop_r_18", ("MATCH_MOP_R_18", "MASK_MOP_R_18"));
  ("mop_r_19", ("MATCH_MOP_R_19", "MASK_MOP_R_19"));
  ("mop_r_2", ("MATCH_MOP_R_2", "MASK_MOP_R_2"));
  ("mop_r_20", ("MATCH_MOP_R_20", "MASK_MOP_R_20"));
  ("mop_r_21", ("MATCH_MOP_R_21", "MASK_MOP_R_21"));
  ("mop_r_22", ("MATCH_MOP_R_22", "MASK_MOP_R_22"));
  ("mop_r_23", ("MATCH_MOP_R_23", "MASK_MOP_R_23"));
  ("mop_r_24", ("MATCH_MOP_R_24", "MASK_MOP_R_24"));
  ("mop_r_25", ("MATCH_MOP_R_25", "MASK_MOP_R_25"));
  ("mop_r_26", ("MATCH_MOP_R_26", "MASK_MOP_R_26"));
  ("mop_r_27", ("MATCH_MOP_R_27", "MASK_MOP_R_27"));
  ("mop_r_28", ("MATCH_MOP_R_28", "MASK_MOP_R_28"));
  ("mop_r_29", ("MATCH_MOP_R_29", "MASK_MOP_R_29"));
  ("mop_r_3", ("MATCH_MOP_R_3", "MASK_MOP_R_3"));
  ("mop_r_30", ("MATCH_MOP_R_30", "MASK_MOP_R_30"));
  ("mop_r_31", ("MATCH_MOP_R_31", "MASK_MOP_R_31"));
  ("mop_r_4", ("MATCH_MOP_R_4", "MASK_MOP_R_4"));
  ("mop_r_5", ("MATCH_MOP_R_5", "MASK_MOP_R_5"));
  ("mop_r_6", ("MATCH_MOP_R_6", "MASK_MOP_R_6"));
  ("mop_r_7", ("MATCH_MOP_R_7", "MASK_MOP_R_7"));
  ("mop_r_8", ("MATCH_MOP_R_8", "MASK_MOP_R_8"));
  ("mop_r_9", ("MATCH_MOP_R_9", "MASK_MOP_R_9"));
  ("mop_r_N", ("MATCH_MOP_R_N", "MASK_MOP_R_N"));
  ("mop_rr_0", ("MATCH_MOP_RR_0", "MASK_MOP_RR_0"));
  ("mop_rr_1", ("MATCH_MOP_RR_1", "MASK_MOP_RR_1"));
  ("mop_rr_2", ("MATCH_MOP_RR_2", "MASK_MOP_RR_2"));
  ("mop_rr_3", ("MATCH_MOP_RR_3", "MASK_MOP_RR_3"));
  ("mop_rr_4", ("MATCH_MOP_RR_4", "MASK_MOP_RR_4"));
  ("mop_rr_5", ("MATCH_MOP_RR_5", "MASK_MOP_RR_5"));
  ("mop_rr_6", ("MATCH_MOP_RR_6", "MASK_MOP_RR_6"));
  ("mop_rr_7", ("MATCH_MOP_RR_7", "MASK_MOP_RR_7"));
  ("mop_rr_N", ("MATCH_MOP_RR_N", "MASK_MOP_RR_N"));
  ("mret", ("MATCH_MRET", "MASK_MRET"));
  ("mul", ("MATCH_MUL", "MASK_MUL"));
  ("mulh", ("MATCH_MULH", "MASK_MULH"));
  ("mulhsu", ("MATCH_MULHSU", "MASK_MULHSU"));
  ("mulhu", ("MATCH_MULHU", "MASK_MULHU"));
  ("mulw", ("MATCH_MULW", "MASK_MULW"));
  ("or", ("MATCH_OR", "MASK_OR"));
  ("ori", ("MATCH_ORI", "MASK_ORI"));
  ("orn", ("MATCH_ORN", "MASK_ORN"));
  ("pack", ("MATCH_PACK", "MASK_PACK"));
  ("packh", ("MATCH_PACKH", "MASK_PACKH"));
  ("packw", ("MATCH_PACKW", "MASK_PACKW"));
  ("pause", ("MATCH_PAUSE", "MASK_PAUSE"));
  ("prefetch_i", ("MATCH_PREFETCH_I", "MASK_PREFETCH_I"));
  ("prefetch_r", ("MATCH_PREFETCH_R", "MASK_PREFETCH_R"));
  ("prefetch_w", ("MATCH_PREFETCH_W", "MASK_PREFETCH_W"));
  ("rem", ("MATCH_REM", "MASK_REM"));
  ("remu", ("MATCH_REMU", "MASK_REMU"));
  ("remuw", ("MATCH_REMUW", "MASK_REMUW"));
  ("remw", ("MATCH_REMW", "MASK_REMW"));
  ("rol", ("MATCH_ROL", "MASK_ROL"));
  ("rolw", ("MATCH_ROLW", "MASK_ROLW"));
  ("ror", ("MATCH_ROR", "MASK_ROR"));
  ("rori", ("MATCH_RORI", "MASK_RORI"));
  ("roriw", ("MATCH_RORIW", "MASK_RORIW"))].

Definition DECLARE_INSN_3 : list (string * (string * string)) := [
  ("rorw", ("MATCH_RORW", "MASK_RORW"));
  ("sb", ("MATCH_SB", "MASK_SB"));
  ("sb_rl", ("MATCH_SB_RL", "MASK_SB_RL"));
  ("sc_d", ("MATCH_SC_D", "MASK_SC_D"));
  ("sc_w", ("MATCH_SC_W", "MASK_SC_W"));
  ("sctrclr", ("MATCH_SCTRCLR", "MASK_SCTRCLR"));
  ("sd", ("MATCH_SD", "MASK_SD"));
  ("sd_rl", ("MATCH_SD_RL", "MASK_SD_RL"));
  ("sext_b", ("MATCH_SEXT_B", "MASK_SEXT_B"));
  ("sext_h", ("MATCH_SEXT_H", "MASK_SEXT_H"));
  ("sfence_inval_ir", ("MATCH_SFENCE_INVAL_IR", "MASK_SFENCE_INVAL_IR"));
  ("sfence_vma", ("MATCH_SFENCE_VMA", "MASK_SFENCE_VMA"));
  ("sfence_w_inval", ("MATCH_SFENCE_W_INVAL", "MASK_SFENCE_W_INVAL"));
  ("sh", ("MATCH_SH", "MASK_SH"));
  ("sh1add", ("MATCH_SH1ADD", "MASK_SH1ADD"));
  ("sh1add_uw", ("MATCH_SH1ADD_UW", "MASK_SH1ADD_UW"));
  ("sh2add", ("MATCH_SH2ADD", "MASK_SH2ADD"));
  ("sh2add_uw", ("MATCH_SH2ADD_UW", "MASK_SH2ADD_UW"));
  ("sh3add", ("MATCH_SH3ADD", "MASK_SH3ADD"));
  ("sh3add_uw", ("MATCH_SH3ADD_UW", "MASK_SH3ADD_UW"));
  ("sh_rl", ("MATCH_SH_RL", "MASK_SH_RL"));
  ("sha256sig0", ("MATCH_SHA256SIG0", "MASK_SHA256SIG0"));
  ("sha256sig1", ("MATCH_SHA256SIG1", "MASK_SHA256SIG1"));
  ("sha256sum0", ("MATCH_SHA256SUM0", "MASK_SHA256SUM0"));
  ("sha256sum1", ("MATCH_SHA256SUM1", "MASK_SHA256SUM1"));
  ("sha512sig0", ("MATCH_SHA512SIG0", "MASK_SHA512SIG0"));
  ("sha512sig0h", ("MATCH_SHA512SIG0H", "MASK_SHA512SIG0H"));
  ("sha512sig0l", ("MATCH_SHA512SIG0L", "MASK_SHA512SIG0L"));
  ("sha512sig1", ("MATCH_SHA512SIG1", "MASK_SHA512SIG1"));
  ("sha512sig1h", ("MATCH_SHA512SIG1H", "MASK_SHA512SIG1H"));
  ("sha512sig1l", ("MATCH_SHA512SIG1L", "MASK_SHA512SIG1L"));
  ("sha512sum0", ("MATCH_SHA512SUM0", "MASK_SHA512SUM0"));
  ("sha512sum0r", ("MATCH_SHA512SUM0R", "MASK_SHA512SUM0R"));
  ("sha512sum1", ("MATCH_SHA512SUM1", "MASK_SHA512SUM1"));
  ("sha512sum1r", ("MATCH_SHA512SUM1R", "MASK_SHA512SUM1R"));
  ("shfli", ("MATCH_SHFLI", "MASK_SHFLI"));
  ("sinval_vma", ("MATCH_SINVAL_VMA", "MASK_SINVAL_VMA"));
  ("sll", ("MATCH_SLL", "MASK_SLL"));
  ("slli", ("MATCH_SLLI", "MASK_SLLI"));
  ("slli_rv32", ("MATCH_SLLI_RV32", "MASK_SLLI_RV32"));
  ("slli_uw", ("MATCH_SLLI_UW", "MASK_SLLI_UW"));
  ("slliw", ("MATCH_SLLIW", "MASK_SLLIW"));
  ("sllw", ("MATCH_SLLW", "MASK_SLLW"));
  ("slt", ("MATCH_SLT", "MASK_SLT"));
  ("slti", ("MATCH_SLTI", "MASK_SLTI"));
  ("sltiu", ("MATCH_SLTIU", "MASK_SLTIU"));
  ("sltu", ("MATCH_SLTU", "MASK_SLTU"));
  ("sm3p0", ("MATCH_SM3P0", "MASK_SM3P0"));
  ("sm3p1", ("MATCH_SM3P1", "MASK_SM3P1"));
  ("sm4ed", ("MATCH_SM4ED", "MASK_SM4ED"));
  ("sm4ks", ("MATCH_SM4KS", "MASK_SM4KS"));
  ("sra", ("MATCH_SRA", "MASK_SRA"));
  ("srai", ("MATCH_SRAI", "MASK_SRAI"));
  ("srai_rv32", ("MATCH_SRAI_RV32", "MASK_SRAI_RV32"));
  ("sraiw", ("MATCH_SRAIW", "MASK_SRAIW"));
  ("sraw", ("MATCH_SRAW", "MASK_SRAW"));
  ("sret", ("MATCH_SRET", "MASK_SRET"));
  ("srl", ("MATCH_SRL", "MASK_SRL"));
  ("srli", ("MATCH_SRLI", "MASK_SRLI"));
  ("srli_rv32", ("MATCH_SRLI_RV32", "MASK_SRLI_RV32"));
  ("srliw", ("MATCH_SRLIW", "MASK_SRLIW"));
  ("srlw", ("MATCH_SRLW", "MASK_SRLW"));
  ("ssamoswap_d", ("MATCH_SSAMOSWAP_D", "MASK_SSAMOSWAP_D"));
  ("ssamoswap_w", ("MATCH_SSAMOSWAP_W", "MASK_SSAMOSWAP_W"));
  ("sspopchk_x1", ("MATCH_SSPOPCHK_X1", "MASK_SSPOPCHK_X1"));
  ("sspopchk_x5", ("MATCH_SSPOPCHK_X5", "MASK_SSPOPCHK_X5"));
  ("sspush_x1", ("MATCH_SSPUSH_X1", "MASK_SSPUSH_X1"));
  ("sspush_x5", ("MATCH_SSPUSH_X5", "MASK_SSPUSH_X5"));
  ("ssrdp", ("MATCH_SSRDP", "MASK_SSRDP"));
  ("sub", ("MATCH_SUB", "MASK_SUB"));
  ("subw", ("MATCH_SUBW", "MASK_SUBW"));
  ("sw", ("MATCH_SW", "MASK_SW"));
  ("sw_rl", ("MATCH_SW_RL", "MASK_SW_RL"));
  ("unshfli", ("MATCH_UNSHFLI", "MASK_UNSHFLI"));
  ("vaadd_vv", ("MATCH_VAADD_VV", "MASK_VAADD_VV"));
  ("vaadd_vx", ("MATCH_VAADD_VX", "MASK_VAADD_VX"));
  ("vaaddu_vv", ("MATCH_VAADDU_VV", "MASK_VAADDU_VV"));
  ("vaaddu_vx", ("MATCH_VAADDU_VX", "MASK_VAADDU_VX"));
  ("vadc_vim", ("MATCH_VADC_VIM", "MASK_VADC_VIM"));
  ("vadc_vvm", ("MATCH_VADC_VVM", "MASK_VADC_VVM"));
  ("vadc_vxm", ("MATCH_VADC_VXM", "MASK_VADC_VXM"));
  ("vadd_vi", ("MATCH_VADD_VI", "MASK_VADD_VI"));
  ("vadd_vv", ("MATCH_VADD_VV", "MASK_VADD_VV"));
  ("vadd_vx", ("MATCH_VADD_VX", "MASK_VADD_VX"));
  ("vaesdf_vs", ("MATCH_VAESDF_VS", "MASK_VAESDF_VS"));
  ("vaesdf_vv", ("MATCH_VAESDF_VV", "MASK_VAESDF_VV"));
  ("vaesdm_vs", ("MATCH_VAESDM_VS", "MASK_VAESDM_VS"));
  ("vaesdm_vv", ("MATCH_VAESDM_VV", "MASK_VAESDM_VV"));
  ("vaesef_vs", ("MATCH_VAESEF_VS", "MASK_VAESEF_VS"));
  ("vaesef_vv", ("MATCH_VAESEF_VV", "MASK_VAESEF_VV"));
  ("vaesem_vs", ("MATCH_VAESEM_VS", "MASK_VAESEM_VS"));
  ("vaesem_vv", ("MATCH_VAESEM_VV", "MASK_VAESEM_VV"));
  ("vaeskf1_vi", ("MATCH_VAESKF1_VI", "MASK_VAESKF1_VI"));
  ("vaeskf2_vi", ("MATCH_VAESKF2_VI", "MASK_VAESKF2_VI"));
  ("vaesz_vs", ("MATCH_VAESZ_VS", "MASK_VAESZ_VS"));
  ("vand_vi", ("MATCH_VAND_VI", "MASK_VAND_VI"));
  ("vand_vv", ("MATCH_VAND_VV", "MASK_VAND_VV"));
  ("vand_vx", ("MATCH_VAND_VX", "MASK_VAND_VX"));
  ("vandn_vv", ("MATCH_VANDN_VV", "MASK_VANDN_VV"));
  ("vandn_vx", ("MATCH_VANDN_VX", "MASK_VANDN_VX"));
  ("vasub_vv", ("MATCH_VASUB_VV", "MASK_VASUB_VV"));
  ("vasub_vx", ("MATCH_VASUB_VX", "MASK_VASUB_VX"));
  ("vasubu_vv", ("MATCH_VASUBU_VV", "MASK_VASUBU_VV"));
  ("vasubu_vx", ("MATCH_VASUBU_VX", "MASK_VASUBU_VX"));
  ("vbrev8_v", ("MATCH_VBREV8_V", "MASK_VBREV8_V"));
  ("vbrev_v", ("MATCH_VBREV_V", "MASK_VBREV_V"));
  ("vclmul_vv", ("MATCH_VCLMUL_VV", "MASK_VCLMUL_VV"));
  ("vclmul_vx", ("MATCH_VCLMUL_VX", "MASK_VCLMUL_VX"));
  ("vclmulh_vv", ("MATCH_VCLMULH_VV", "MASK_VCLMULH_VV"));
  ("vclmulh_vx", ("MATCH_VCLMULH_VX", "MASK_VCLMULH_VX"));
  ("vclz_v", ("MATCH_VCLZ_V", "MASK_VCLZ_V"));
  ("vcompress_vm", ("MATCH_VCOMPRESS_VM", "MASK_VCOMPRESS_VM"));
  ("vcpop_m", ("MATCH_VCPOP_M", "MASK_VCPOP_M"));
  ("vcpop_v", ("MATCH_VCPOP_V", "MASK_VCPOP_V"));
  ("vctz_v", ("MATCH_VCTZ_V", "MASK_VCTZ_V"));
  ("vdiv_vv", ("MATCH_VDIV_VV", "MASK_VDIV_VV"));
  ("vdiv_vx", ("MATCH_VDIV_VX", "MASK_VDIV_VX"));
  ("vdivu_vv", ("MATCH_VDIVU_VV", "MASK_VDIVU_VV"));
  ("vdivu_vx", ("MATCH_VDIVU_VX", "MASK_VDIVU_VX"));
  ("vfadd_vf", ("MATCH_VFADD_VF", "MASK_VFADD_VF"));
  ("vfadd_vv", ("MATCH_VFADD_VV", "MASK_VFADD_VV"));
  ("vfbdot_vv", ("MATCH_VFBDOT_VV", "MASK_VFBDOT_VV"));
  ("vfclass_v", ("MATCH_VFCLASS_V", "MASK_VFCLASS_V"));
  ("vfcvt_f_x_v", ("MATCH_VFCVT_F_X_V", "MASK_VFCVT_F_X_V"));
  ("vfcvt_f_xu_v", ("MATCH_VFCVT_F_XU_V", "MASK_VFCVT_F_XU_V"));
  ("vfcvt_rtz_x_f_v", ("MATCH_VFCVT_RTZ_X_F_V", "MASK_VFCVT_RTZ_X_F_V"));
  ("vfcvt_rtz_xu_f_v", ("MATCH_VFCVT_RTZ_XU_F_V", "MASK_VFCVT_RTZ_XU_F_V"));
  ("vfcvt_x_f_v", ("MATCH_VFCVT_X_F_V", "MASK_VFCVT_X_F_V"));
  ("vfcvt_xu_f_v", ("MATCH_VFCVT_XU_F_V", "MASK_VFCVT_XU_F_V"));
  ("vfdiv_vf", ("MATCH_VFDIV_VF", "MASK_VFDIV_VF"));
  ("vfdiv_vv", ("MATCH_VFDIV_VV", "MASK_VFDIV_VV"));
  ("vfirst_m", ("MATCH_VFIRST_M", "MASK_VFIRST_M"));
  ("vfmacc_vf", ("MATCH_VFMACC_VF", "MASK_VFMACC_VF"));
  ("vfmacc_vv", ("MATCH_VFMACC_VV", "MASK_VFMACC_VV"));
  ("vfmadd_vf", ("MATCH_VFMADD_VF", "MASK_VFMADD_VF"));
  ("vfmadd_vv", ("MATCH_VFMADD_VV", "MASK_VFMADD_VV"));
  ("vfmax_vf", ("MATCH_VFMAX_VF", "MASK_VFMAX_VF"));
  ("vfmax_vv", ("MATCH_VFMAX_VV", "MASK_VFMAX_VV"));
  ("vfmerge_vfm", ("MATCH_VFMERGE_VFM", "MASK_VFMERGE_VFM"));
  ("vfmin_vf", ("MATCH_VFMIN_VF", "MASK_VFMIN_VF"));
  ("vfmin_vv", ("MATCH_VFMIN_VV", "MASK_VFMIN_VV"));
  ("vfmsac_vf", ("MATCH_VFMSAC_VF", "MASK_VFMSAC_VF"));
  ("vfmsac_vv", ("MATCH_VFMSAC_VV", "MASK_VFMSAC_VV"));
  ("vfmsub_vf", ("MATCH_VFMSUB_VF", "MASK_VFMSUB_VF"));
  ("vfmsub_vv", ("MATCH_VFMSUB_VV", "MASK_VFMSUB_VV"));
  ("vfmul_vf", ("MATCH_VFMUL_VF", "MASK_VFMUL_VF"));
  ("vfmul_vv", ("MATCH_VFMUL_VV", "MASK_VFMUL_VV"));
  ("vfmv_f_s", ("MATCH_VFMV_F_S", "MASK_VFMV_F_S"));
  ("vfmv_s_f", ("MATCH_VFMV_S_F", "MASK_VFMV_S_F"));
  ("vfmv_v_f", ("MATCH_VFMV_V_F", "MASK_VFMV_V_F"))].

Definition DECLARE_INSN_4 : list (string * (string * string)) := [
  ("vfncvt_f_f_w", ("MATCH_VFNCVT_F_F_W", "MASK_VFNCVT_F_F_W"));
  ("vfncvt_f_x_w", ("MATCH_VFNCVT_F_X_W", "MASK_VFNCVT_F_X_W"));
  ("vfncvt_f_xu_w", ("MATCH_VFNCVT_F_XU_W", "MASK_VFNCVT_F_XU_W"));
  ("vfncvt_rod_f_f_w", ("MATCH_VFNCVT_ROD_F_F_W", "MASK_VFNCVT_ROD_F_F_W"));
  ("vfncvt_rtz_x_f_w", ("MATCH_VFNCVT_RTZ_X_F_W", "MASK_VFNCVT_RTZ_X_F_W"));
  ("vfncvt_rtz_xu_f_w", ("MATCH_VFNCVT_RTZ_XU_F_W", "MASK_VFNCVT_RTZ_XU_F_W"));
  ("vfncvt_x_f_w", ("MATCH_VFNCVT_X_F_W", "MASK_VFNCVT_X_F_W"));
  ("vfncvt_xu_f_w", ("MATCH_VFNCVT_XU_F_W", "MASK_VFNCVT_XU_F_W"));
  ("vfncvtbf16_f_f_q", ("MATCH_VFNCVTBF16_F_F_Q", "MASK_VFNCVTBF16_F_F_Q"));
  ("vfncvtbf16_f_f_w", ("MATCH_VFNCVTBF16_F_F_W", "MASK_VFNCVTBF16_F_F_W"));
  ("vfncvtbf16_sat_f_f_q", ("MATCH_VFNCVTBF16_SAT_F_F_Q", "MASK_VFNCVTBF16_SAT_F_F_Q"));
  ("vfncvtbf16_sat_f_f_w", ("MATCH_VFNCVTBF16_SAT_F_F_W", "MASK_VFNCVTBF16_SAT_F_F_W"));
  ("vfnmacc_vf", ("MATCH_VFNMACC_VF", "MASK_VFNMACC_VF"));
  ("vfnmacc_vv", ("MATCH_VFNMACC_VV", "MASK_VFNMACC_VV"));
  ("vfnmadd_vf", ("MATCH_VFNMADD_VF", "MASK_VFNMADD_VF"));
  ("vfnmadd_vv", ("MATCH_VFNMADD_VV", "MASK_VFNMADD_VV"));
  ("vfnmsac_vf", ("MATCH_VFNMSAC_VF", "MASK_VFNMSAC_VF"));
  ("vfnmsac_vv", ("MATCH_VFNMSAC_VV", "MASK_VFNMSAC_VV"));
  ("vfnmsub_vf", ("MATCH_VFNMSUB_VF", "MASK_VFNMSUB_VF"));
  ("vfnmsub_vv", ("MATCH_VFNMSUB_VV", "MASK_VFNMSUB_VV"));
  ("vfqbdot_alt_vv", ("MATCH_VFQBDOT_ALT_VV", "MASK_VFQBDOT_ALT_VV"));
  ("vfqbdot_vv", ("MATCH_VFQBDOT_VV", "MASK_VFQBDOT_VV"));
  ("vfqldot_alt_vv", ("MATCH_VFQLDOT_ALT_VV", "MASK_VFQLDOT_ALT_VV"));
  ("vfqldot_vv", ("MATCH_VFQLDOT_VV", "MASK_VFQLDOT_VV"));
  ("vfrdiv_vf", ("MATCH_VFRDIV_VF", "MASK_VFRDIV_VF"));
  ("vfrec7_v", ("MATCH_VFREC7_V", "MASK_VFREC7_V"));
  ("vfredmax_vs", ("MATCH_VFREDMAX_VS", "MASK_VFREDMAX_VS"));
  ("vfredmin_vs", ("MATCH_VFREDMIN_VS", "MASK_VFREDMIN_VS"));
  ("vfredosum_vs", ("MATCH_VFREDOSUM_VS", "MASK_VFREDOSUM_VS"));
  ("vfredusum_vs", ("MATCH_VFREDUSUM_VS", "MASK_VFREDUSUM_VS"));
  ("vfrsqrt7_v", ("MATCH_VFRSQRT7_V", "MASK_VFRSQRT7_V"));
  ("vfrsub_vf", ("MATCH_VFRSUB_VF", "MASK_VFRSUB_VF"));
  ("vfsgnj_vf", ("MATCH_VFSGNJ_VF", "MASK_VFSGNJ_VF"));
  ("vfsgnj_vv", ("MATCH_VFSGNJ_VV", "MASK_VFSGNJ_VV"));
  ("vfsgnjn_vf", ("MATCH_VFSGNJN_VF", "MASK_VFSGNJN_VF"));
  ("vfsgnjn_vv", ("MATCH_VFSGNJN_VV", "MASK_VFSGNJN_VV"));
  ("vfsgnjx_vf", ("MATCH_VFSGNJX_VF", "MASK_VFSGNJX_VF"));
  ("vfsgnjx_vv", ("MATCH_VFSGNJX_VV", "MASK_VFSGNJX_VV"));
  ("vfslide1down_vf", ("MATCH_VFSLIDE1DOWN_VF", "MASK_VFSLIDE1DOWN_VF"));
  ("vfslide1up_vf", ("MATCH_VFSLIDE1UP_VF", "MASK_VFSLIDE1UP_VF"));
  ("vfsqrt_v", ("MATCH_VFSQRT_V", "MASK_VFSQRT_V"));
  ("vfsub_vf", ("MATCH_VFSUB_VF", "MASK_VFSUB_VF"));
  ("vfsub_vv", ("MATCH_VFSUB_VV", "MASK_VFSUB_VV"));
  ("vfwadd_vf", ("MATCH_VFWADD_VF", "MASK_VFWADD_VF"));
  ("vfwadd_vv", ("MATCH_VFWADD_VV", "MASK_VFWADD_VV"));
  ("vfwadd_wf", ("MATCH_VFWADD_WF", "MASK_VFWADD_WF"));
  ("vfwadd_wv", ("MATCH_VFWADD_WV", "MASK_VFWADD_WV"));
  ("vfwbdot_vv", ("MATCH_VFWBDOT_VV", "MASK_VFWBDOT_VV"));
  ("vfwcvt_f_f_v", ("MATCH_VFWCVT_F_F_V", "MASK_VFWCVT_F_F_V"));
  ("vfwcvt_f_x_v", ("MATCH_VFWCVT_F_X_V", "MASK_VFWCVT_F_X_V"));
  ("vfwcvt_f_xu_v", ("MATCH_VFWCVT_F_XU_V", "MASK_VFWCVT_F_XU_V"));
  ("vfwcvt_rtz_x_f_v", ("MATCH_VFWCVT_RTZ_X_F_V", "MASK_VFWCVT_RTZ_X_F_V"));
  ("vfwcvt_rtz_xu_f_v", ("MATCH_VFWCVT_RTZ_XU_F_V", "MASK_VFWCVT_RTZ_XU_F_V"));
  ("vfwcvt_x_f_v", ("MATCH_VFWCVT_X_F_V", "MASK_VFWCVT_X_F_V"));
  ("vfwcvt_xu_f_v", ("MATCH_VFWCVT_XU_F_V", "MASK_VFWCVT_XU_F_V"));
  ("vfwcvtbf16_f_f_v", ("MATCH_VFWCVTBF16_F_F_V", "MASK_VFWCVTBF16_F_F_V"));
  ("vfwldot_vv", ("MATCH_VFWLDOT_VV", "MASK_VFWLDOT_VV"));
  ("vfwmacc_vf", ("MATCH_VFWMACC_VF", "MASK_VFWMACC_VF"));
  ("vfwmacc_vv", ("MATCH_VFWMACC_VV", "MASK_VFWMACC_VV"));
  ("vfwmaccbf16_vf", ("MATCH_VFWMACCBF16_VF", "MASK_VFWMACCBF16_VF"));
  ("vfwmaccbf16_vv", ("MATCH_VFWMACCBF16_VV", "MASK_VFWMACCBF16_VV"));
  ("vfwmsac_vf", ("MATCH_VFWMSAC_VF", "MASK_VFWMSAC_VF"));
  ("vfwmsac_vv", ("MATCH_VFWMSAC_VV", "MASK_VFWMSAC_VV"));
  ("vfwmul_vf", ("MATCH_VFWMUL_VF", "MASK_VFWMUL_VF"));
  ("vfwmul_vv", ("MATCH_VFWMUL_VV", "MASK_VFWMUL_VV"));
  ("vfwnmacc_vf", ("MATCH_VFWNMACC_VF", "MASK_VFWNMACC_VF"));
  ("vfwnmacc_vv", ("MATCH_VFWNMACC_VV", "MASK_VFWNMACC_VV"));
  ("vfwnmsac_vf", ("MATCH_VFWNMSAC_VF", "MASK_VFWNMSAC_VF"));
  ("vfwnmsac_vv", ("MATCH_VFWNMSAC_VV", "MASK_VFWNMSAC_VV"));
  ("vfwredosum_vs", ("MATCH_VFWREDOSUM_VS", "MASK_VFWREDOSUM_VS"));
  ("vfwredusum_vs", ("MATCH_VFWREDUSUM_VS", "MASK_VFWREDUSUM_VS"));
  ("vfwsub_vf", ("MATCH_VFWSUB_VF", "MASK_VFWSUB_VF"));
  ("vfwsub_vv", ("MATCH_VFWSUB_VV", "MASK_VFWSUB_VV"));
  ("vfwsub_wf", ("MATCH_VFWSUB_WF", "MASK_VFWSUB_WF"));
  ("vfwsub_wv", ("MATCH_VFWSUB_WV", "MASK_VFWSUB_WV"));
  ("vghsh_vv", ("MATCH_VGHSH_VV", "MASK_VGHSH_VV"));
  ("vgmul_vv", ("MATCH_VGMUL_VV", "MASK_VGMUL_VV"));
  ("vid_v", ("MATCH_VID_V", "MASK_VID_V"));
  ("viota_m", ("MATCH_VIOTA_M", "MASK_VIOTA_M"));
  ("vl1re16_v", ("MATCH_VL1RE16_V", "MASK_VL1RE16_V"));
  ("vl1re32_v", ("MATCH_VL1RE32_V", "MASK_VL1RE32_V"));
  ("vl1re64_v", ("MATCH_VL1RE64_V", "MASK_VL1RE64_V"));
  ("vl1re8_v", ("MATCH_VL1RE8_V", "MASK_VL1RE8_V"));
  ("vl2re16_v", ("MATCH_VL2RE16_V", "MASK_VL2RE16_V"));
  ("vl2re32_v", ("MATCH_VL2RE32_V", "MASK_VL2RE32_V"));
  ("vl2re64_v", ("MATCH_VL2RE64_V", "MASK_VL2RE64_V"));
  ("vl2re8_v", ("MATCH_VL2RE8_V", "MASK_VL2RE8_V"));
  ("vl4re16_v", ("MATCH_VL4RE16_V", "MASK_VL4RE16_V"));
  ("vl4re32_v", ("MATCH_VL4RE32_V", "MASK_VL4RE32_V"));
  ("vl4re64_v", ("MATCH_VL4RE64_V", "MASK_VL4RE64_V"));
  ("vl4re8_v", ("MATCH_VL4RE8_V", "MASK_VL4RE8_V"));
  ("vl8re16_v", ("MATCH_VL8RE16_V", "MASK_VL8RE16_V"));
  ("vl8re32_v", ("MATCH_VL8RE32_V", "MASK_VL8RE32_V"));
  ("vl8re64_v", ("MATCH_VL8RE64_V", "MASK_VL8RE64_V"));
  ("vl8re8_v", ("MATCH_VL8RE8_V", "MASK_VL8RE8_V"));
  ("vle16_v", ("MATCH_VLE16_V", "MASK_VLE16_V"));
  ("vle16ff_v", ("MATCH_VLE16FF_V", "MASK_VLE16FF_V"));
  ("vle32_v", ("MATCH_VLE32_V", "MASK_VLE32_V"));
  ("vle32ff_v", ("MATCH_VLE32FF_V", "MASK_VLE32FF_V"));
  ("vle64_v", ("MATCH_VLE64_V", "MASK_VLE64_V"));
  ("vle64ff_v", ("MATCH_VLE64FF_V", "MASK_VLE64FF_V"));
  ("vle8_v", ("MATCH_VLE8_V", "MASK_VLE8_V"));
  ("vle8ff_v", ("MATCH_VLE8FF_V", "MASK_VLE8FF_V"));
  ("vlm_v", ("MATCH_VLM_V", "MASK_VLM_V"));
  ("vloxei16_v", ("MATCH_VLOXEI16_V", "MASK_VLOXEI16_V"));
  ("vloxei32_v", ("MATCH_VLOXEI32_V", "MASK_VLOXEI32_V"));
  ("vloxei64_v", ("MATCH_VLOXEI64_V", "MASK_VLOXEI64_V"));
  ("vloxei8_v", ("MATCH_VLOXEI8_V", "MASK_VLOXEI8_V"));
  ("vlse16_v", ("MATCH_VLSE16_V", "MASK_VLSE16_V"));
  ("vlse32_v", ("MATCH_VLSE32_V", "MASK_VLSE32_V"));
  ("vlse64_v", ("MATCH_VLSE64_V", "MASK_VLSE64_V"));
  ("vlse8_v", ("MATCH_VLSE8_V", "MASK_VLSE8_V"));
  ("vluxei16_v", ("MATCH_VLUXEI16_V", "MASK_VLUXEI16_V"));
  ("vluxei32_v", ("MATCH_VLUXEI32_V", "MASK_VLUXEI32_V"));
  ("vluxei64_v", ("MATCH_VLUXEI64_V", "MASK_VLUXEI64_V"));
  ("vluxei8_v", ("MATCH_VLUXEI8_V", "MASK_VLUXEI8_V"));
  ("vmacc_vv", ("MATCH_VMACC_VV", "MASK_VMACC_VV"));
  ("vmacc_vx", ("MATCH_VMACC_VX", "MASK_VMACC_VX"));
  ("vmadc_vi", ("MATCH_VMADC_VI", "MASK_VMADC_VI"));
  ("vmadc_vim", ("MATCH_VMADC_VIM", "MASK_VMADC_VIM"));
  ("vmadc_vv", ("MATCH_VMADC_VV", "MASK_VMADC_VV"));
  ("vmadc_vvm", ("MATCH_VMADC_VVM", "MASK_VMADC_VVM"));
  ("vmadc_vx", ("MATCH_VMADC_VX", "MASK_VMADC_VX"));
  ("vmadc_vxm", ("MATCH_VMADC_VXM", "MASK_VMADC_VXM"));
  ("vmadd_vv", ("MATCH_VMADD_VV", "MASK_VMADD_VV"));
  ("vmadd_vx", ("MATCH_VMADD_VX", "MASK_VMADD_VX"));
  ("vmand_mm", ("MATCH_VMAND_MM", "MASK_VMAND_MM"));
  ("vmandn_mm", ("MATCH_VMANDN_MM", "MASK_VMANDN_MM"));
  ("vmax_vv", ("MATCH_VMAX_VV", "MASK_VMAX_VV"));
  ("vmax_vx", ("MATCH_VMAX_VX", "MASK_VMAX_VX"));
  ("vmaxu_vv", ("MATCH_VMAXU_VV", "MASK_VMAXU_VV"));
  ("vmaxu_vx", ("MATCH_VMAXU_VX", "MASK_VMAXU_VX"));
  ("vmerge_vim", ("MATCH_VMERGE_VIM", "MASK_VMERGE_VIM"));
  ("vmerge_vvm", ("MATCH_VMERGE_VVM", "MASK_VMERGE_VVM"));
  ("vmerge_vxm", ("MATCH_VMERGE_VXM", "MASK_VMERGE_VXM"));
  ("vmfeq_vf", ("MATCH_VMFEQ_VF", "MASK_VMFEQ_VF"));
  ("vmfeq_vv", ("MATCH_VMFEQ_VV", "MASK_VMFEQ_VV"));
  ("vmfge_vf", ("MATCH_VMFGE_VF", "MASK_VMFGE_VF"));
  ("vmfgt_vf", ("MATCH_VMFGT_VF", "MASK_VMFGT_VF"));
  ("vmfle_vf", ("MATCH_VMFLE_VF", "MASK_VMFLE_VF"));
  ("vmfle_vv", ("MATCH_VMFLE_VV", "MASK_VMFLE_VV"));
  ("vmflt_vf", ("MATCH_VMFLT_VF", "MASK_VMFLT_VF"));
  ("vmflt_vv", ("MATCH_VMFLT_VV", "MASK_VMFLT_VV"));
  ("vmfne_vf", ("MATCH_VMFNE_VF", "MASK_VMFNE_VF"));
  ("vmfne_vv", ("MATCH_VMFNE_VV", "MASK_VMFNE_VV"));
  ("vmin_vv", ("MATCH_VMIN_VV", "MASK_VMIN_VV"));
  ("vmin_vx", ("MATCH_VMIN_VX", "MASK_VMIN_VX"));
  ("vminu_vv", ("MATCH_VMINU_VV", "MASK_VMINU_VV"));
  ("vminu_vx", ("MATCH_VMINU_VX", "MASK_VMINU_VX"));
  ("vmnand_mm", ("MATCH_VMNAND_MM", "MASK_VMNAND_MM"))].

Definition DECLARE_INSN_5 : list (string * (string * string)) := [
  ("vmnor_mm", ("MATCH_VMNOR_MM", "MASK_VMNOR_MM"));
  ("vmor_mm", ("MATCH_VMOR_MM", "MASK_VMOR_MM"));
  ("vmorn_mm", ("MATCH_VMORN_MM", "MASK_VMORN_MM"));
  ("vmsbc_vv", ("MATCH_VMSBC_VV", "MASK_VMSBC_VV"));
  ("vmsbc_vvm", ("MATCH_VMSBC_VVM", "MASK_VMSBC_VVM"));
  ("vmsbc_vx", ("MATCH_VMSBC_VX", "MASK_VMSBC_VX"));
  ("vmsbc_vxm", ("MATCH_VMSBC_VXM", "MASK_VMSBC_VXM"));
  ("vmsbf_m", ("MATCH_VMSBF_M", "MASK_VMSBF_M"));
  ("vmseq_vi", ("MATCH_VMSEQ_VI", "MASK_VMSEQ_VI"));
  ("vmseq_vv", ("MATCH_VMSEQ_VV", "MASK_VMSEQ_VV"));
  ("vmseq_vx", ("MATCH_VMSEQ_VX", "MASK_VMSEQ_VX"));
  ("vmsgt_vi", ("MATCH_VMSGT_VI", "MASK_VMSGT_VI"));
  ("vmsgt_vx", ("MATCH_VMSGT_VX", "MASK_VMSGT_VX"));
  ("vmsgtu_vi", ("MATCH_VMSGTU_VI", "MASK_VMSGTU_VI"));
  ("vmsgtu_vx", ("MATCH_VMSGTU_VX", "MASK_VMSGTU_VX"));
  ("vmsif_m", ("MATCH_VMSIF_M", "MASK_VMSIF_M"));
  ("vmsle_vi", ("MATCH_VMSLE_VI", "MASK_VMSLE_VI"));
  ("vmsle_vv", ("MATCH_VMSLE_VV", "MASK_VMSLE_VV"));
  ("vmsle_vx", ("MATCH_VMSLE_VX", "MASK_VMSLE_VX"));
  ("vmsleu_vi", ("MATCH_VMSLEU_VI", "MASK_VMSLEU_VI"));
  ("vmsleu_vv", ("MATCH_VMSLEU_VV", "MASK_VMSLEU_VV"));
  ("vmsleu_vx", ("MATCH_VMSLEU_VX", "MASK_VMSLEU_VX"));
  ("vmslt_vv", ("MATCH_VMSLT_VV", "MASK_VMSLT_VV"));
  ("vmslt_vx", ("MATCH_VMSLT_VX", "MASK_VMSLT_VX"));
  ("vmsltu_vv", ("MATCH_VMSLTU_VV", "MASK_VMSLTU_VV"));
  ("vmsltu_vx", ("MATCH_VMSLTU_VX", "MASK_VMSLTU_VX"));
  ("vmsne_vi", ("MATCH_VMSNE_VI", "MASK_VMSNE_VI"));
  ("vmsne_vv", ("MATCH_VMSNE_VV", "MASK_VMSNE_VV"));
  ("vmsne_vx", ("MATCH_VMSNE_VX", "MASK_VMSNE_VX"));
  ("vmsof_m", ("MATCH_VMSOF_M", "MASK_VMSOF_M"));
  ("vmul_vv", ("MATCH_VMUL_VV", "MASK_VMUL_VV"));
  ("vmul_vx", ("MATCH_VMUL_VX", "MASK_VMUL_VX"));
  ("vmulh_vv", ("MATCH_VMULH_VV", "MASK_VMULH_VV"));
  ("vmulh_vx", ("MATCH_VMULH_VX", "MASK_VMULH_VX"));
  ("vmulhsu_vv", ("MATCH_VMULHSU_VV", "MASK_VMULHSU_VV"));
  ("vmulhsu_vx", ("MATCH_VMULHSU_VX", "MASK_VMULHSU_VX"));
  ("vmulhu_vv", ("MATCH_VMULHU_VV", "MASK_VMULHU_VV"));
  ("vmulhu_vx", ("MATCH_VMULHU_VX", "MASK_VMULHU_VX"));
  ("vmv1r_v", ("MATCH_VMV1R_V", "MASK_VMV1R_V"));
  ("vmv2r_v", ("MATCH_VMV2R_V", "MASK_VMV2R_V"));
  ("vmv4r_v", ("MATCH_VMV4R_V", "MASK_VMV4R_V"));
  ("vmv8r_v", ("MATCH_VMV8R_V", "MASK_VMV8R_V"));
  ("vmv_s_x", ("MATCH_VMV_S_X", "MASK_VMV_S_X"));
  ("vmv_v_i", ("MATCH_VMV_V_I", "MASK_VMV_V_I"));
  ("vmv_v_v", ("MATCH_VMV_V_V", "MASK_VMV_V_V"));
  ("vmv_v_x", ("MATCH_VMV_V_X", "MASK_VMV_V_X"));
  ("vmv_x_s", ("MATCH_VMV_X_S", "MASK_VMV_X_S"));
  ("vmxnor_mm", ("MATCH_VMXNOR_MM", "MASK_VMXNOR_MM"));
  ("vmxor_mm", ("MATCH_VMXOR_MM", "MASK_VMXOR_MM"));
  ("vnclip_wi", ("MATCH_VNCLIP_WI", "MASK_VNCLIP_WI"));
  ("vnclip_wv", ("MATCH_VNCLIP_WV", "MASK_VNCLIP_WV"));
  ("vnclip_wx", ("MATCH_VNCLIP_WX", "MASK_VNCLIP_WX"));
  ("vnclipu_wi", ("MATCH_VNCLIPU_WI", "MASK_VNCLIPU_WI"));
  ("vnclipu_wv", ("MATCH_VNCLIPU_WV", "MASK_VNCLIPU_WV"));
  ("vnclipu_wx", ("MATCH_VNCLIPU_WX", "MASK_VNCLIPU_WX"));
  ("vnmsac_vv", ("MATCH_VNMSAC_VV", "MASK_VNMSAC_VV"));
  ("vnmsac_vx", ("MATCH_VNMSAC_VX", "MASK_VNMSAC_VX"));
  ("vnmsub_vv", ("MATCH_VNMSUB_VV", "MASK_VNMSUB_VV"));
  ("vnmsub_vx", ("MATCH_VNMSUB_VX", "MASK_VNMSUB_VX"));
  ("vnsra_wi", ("MATCH_VNSRA_WI", "MASK_VNSRA_WI"));
  ("vnsra_wv", ("MATCH_VNSRA_WV", "MASK_VNSRA_WV"));
  ("vnsra_wx", ("MATCH_VNSRA_WX", "MASK_VNSRA_WX"));
  ("vnsrl_wi", ("MATCH_VNSRL_WI", "MASK_VNSRL_WI"));
  ("vnsrl_wv", ("MATCH_VNSRL_WV", "MASK_VNSRL_WV"));
  ("vnsrl_wx", ("MATCH_VNSRL_WX", "MASK_VNSRL_WX"));
  ("vor_vi", ("MATCH_VOR_VI", "MASK_VOR_VI"));
  ("vor_vv", ("MATCH_VOR_VV", "MASK_VOR_VV"));
  ("vor_vx", ("MATCH_VOR_VX", "MASK_VOR_VX"));
  ("vqbdots_vv", ("MATCH_VQBDOTS_VV", "MASK_VQBDOTS_VV"));
  ("vqbdotu_vv", ("MATCH_VQBDOTU_VV", "MASK_VQBDOTU_VV"));
  ("vqdot_vv", ("MATCH_VQDOT_VV", "MASK_VQDOT_VV"));
  ("vqdot_vx", ("MATCH_VQDOT_VX", "MASK_VQDOT_VX"));
  ("vqdotsu_vv", ("MATCH_VQDOTSU_VV", "MASK_VQDOTSU_VV"));
  ("vqdotsu_vx", ("MATCH_VQDOTSU_VX", "MASK_VQDOTSU_VX"));
  ("vqdotu_vv", ("MATCH_VQDOTU_VV", "MASK_VQDOTU_VV"));
  ("vqdotu_vx", ("MATCH_VQDOTU_VX", "MASK_VQDOTU_VX"));
  ("vqdotus_vx", ("MATCH_VQDOTUS_VX", "MASK_VQDOTUS_VX"));
  ("vqldots_vv", ("MATCH_VQLDOTS_VV", "MASK_VQLDOTS_VV"));
  ("vqldotu_vv", ("MATCH_VQLDOTU_VV", "MASK_VQLDOTU_VV"));
  ("vredand_vs", ("MATCH_VREDAND_VS", "MASK_VREDAND_VS"));
  ("vredmax_vs", ("MATCH_VREDMAX_VS", "MASK_VREDMAX_VS"));
  ("vredmaxu_vs", ("MATCH_VREDMAXU_VS", "MASK_VREDMAXU_VS"));
  ("vredmin_vs", ("MATCH_VREDMIN_VS", "MASK_VREDMIN_VS"));
  ("vredminu_vs", ("MATCH_VREDMINU_VS", "MASK_VREDMINU_VS"));
  ("vredor_vs", ("MATCH_VREDOR_VS", "MASK_VREDOR_VS"));
  ("vredsum_vs", ("MATCH_VREDSUM_VS", "MASK_VREDSUM_VS"));
  ("vredxor_vs", ("MATCH_VREDXOR_VS", "MASK_VREDXOR_VS"));
  ("vrem_vv", ("MATCH_VREM_VV", "MASK_VREM_VV"));
  ("vrem_vx", ("MATCH_VREM_VX", "MASK_VREM_VX"));
  ("vremu_vv", ("MATCH_VREMU_VV", "MASK_VREMU_VV"));
  ("vremu_vx", ("MATCH_VREMU_VX", "MASK_VREMU_VX"));
  ("vrev8_v", ("MATCH_VREV8_V", "MASK_VREV8_V"));
  ("vrgather_vi", ("MATCH_VRGATHER_VI", "MASK_VRGATHER_VI"));
  ("vrgather_vv", ("MATCH_VRGATHER_VV", "MASK_VRGATHER_VV"));
  ("vrgather_vx", ("MATCH_VRGATHER_VX", "MASK_VRGATHER_VX"));
  ("vrgatherei16_vv", ("MATCH_VRGATHEREI16_VV", "MASK_VRGATHEREI16_VV"));
  ("vrol_vv", ("MATCH_VROL_VV", "MASK_VROL_VV"));
  ("vrol_vx", ("MATCH_VROL_VX", "MASK_VROL_VX"));
  ("vror_vi", ("MATCH_VROR_VI", "MASK_VROR_VI"));
  ("vror_vv", ("MATCH_VROR_VV", "MASK_VROR_VV"));
  ("vror_vx", ("MATCH_VROR_VX", "MASK_VROR_VX"));
  ("vrsub_vi", ("MATCH_VRSUB_VI", "MASK_VRSUB_VI"));
  ("vrsub_vx", ("MATCH_VRSUB_VX", "MASK_VRSUB_VX"));
  ("vs1r_v", ("MATCH_VS1R_V", "MASK_VS1R_V"));
  ("vs2r_v", ("MATCH_VS2R_V", "MASK_VS2R_V"));
  ("vs4r_v", ("MATCH_VS4R_V", "MASK_VS4R_V"));
  ("vs8r_v", ("MATCH_VS8R_V", "MASK_VS8R_V"));
  ("vsadd_vi", ("MATCH_VSADD_VI", "MASK_VSADD_VI"));
  ("vsadd_vv", ("MATCH_VSADD_VV", "MASK_VSADD_VV"));
  ("vsadd_vx", ("MATCH_VSADD_VX", "MASK_VSADD_VX"));
  ("vsaddu_vi", ("MATCH_VSADDU_VI", "MASK_VSADDU_VI"));
  ("vsaddu_vv", ("MATCH_VSADDU_VV", "MASK_VSADDU_VV"));
  ("vsaddu_vx", ("MATCH_VSADDU_VX", "MASK_VSADDU_VX"));
  ("vsbc_vvm", ("MATCH_VSBC_VVM", "MASK_VSBC_VVM"));
  ("vsbc_vxm", ("MATCH_VSBC_VXM", "MASK_VSBC_VXM"));
  ("vse16_v", ("MATCH_VSE16_V", "MASK_VSE16_V"));
  ("vse32_v", ("MATCH_VSE32_V", "MASK_VSE32_V"));
  ("vse64_v", ("MATCH_VSE64_V", "MASK_VSE64_V"));
  ("vse8_v", ("MATCH_VSE8_V", "MASK_VSE8_V"));
  ("vsetivli", ("MATCH_VSETIVLI", "MASK_VSETIVLI"));
  ("vsetvl", ("MATCH_VSETVL", "MASK_VSETVL"));
  ("vsetvli", ("MATCH_VSETVLI", "MASK_VSETVLI"));
  ("vsext_vf2", ("MATCH_VSEXT_VF2", "MASK_VSEXT_VF2"));
  ("vsext_vf4", ("MATCH_VSEXT_VF4", "MASK_VSEXT_VF4"));
  ("vsext_vf8", ("MATCH_VSEXT_VF8", "MASK_VSEXT_VF8"));
  ("vsha2ch_vv", ("MATCH_VSHA2CH_VV", "MASK_VSHA2CH_VV"));
  ("vsha2cl_vv", ("MATCH_VSHA2CL_VV", "MASK_VSHA2CL_VV"));
  ("vsha2ms_vv", ("MATCH_VSHA2MS_VV", "MASK_VSHA2MS_VV"));
  ("vslide1down_vx", ("MATCH_VSLIDE1DOWN_VX", "MASK_VSLIDE1DOWN_VX"));
  ("vslide1up_vx", ("MATCH_VSLIDE1UP_VX", "MASK_VSLIDE1UP_VX"));
  ("vslidedown_vi", ("MATCH_VSLIDEDOWN_VI", "MASK_VSLIDEDOWN_VI"));
  ("vslidedown_vx", ("MATCH_VSLIDEDOWN_VX", "MASK_VSLIDEDOWN_VX"));
  ("vslideup_vi", ("MATCH_VSLIDEUP_VI", "MASK_VSLIDEUP_VI"));
  ("vslideup_vx", ("MATCH_VSLIDEUP_VX", "MASK_VSLIDEUP_VX"));
  ("vsll_vi", ("MATCH_VSLL_VI", "MASK_VSLL_VI"));
  ("vsll_vv", ("MATCH_VSLL_VV", "MASK_VSLL_VV"));
  ("vsll_vx", ("MATCH_VSLL_VX", "MASK_VSLL_VX"));
  ("vsm3c_vi", ("MATCH_VSM3C_VI", "MASK_VSM3C_VI"));
  ("vsm3me_vv", ("MATCH_VSM3ME_VV", "MASK_VSM3ME_VV"));
  ("vsm4k_vi", ("MATCH_VSM4K_VI", "MASK_VSM4K_VI"));
  ("vsm4r_vs", ("MATCH_VSM4R_VS", "MASK_VSM4R_VS"));
  ("vsm4r_vv", ("MATCH_VSM4R_VV", "MASK_VSM4R_VV"));
  ("vsm_v", ("MATCH_VSM_V", "MASK_VSM_V"));
  ("vsmul_vv", ("MATCH_VSMUL_VV", "MASK_VSMUL_VV"));
  ("vsmul_vx", ("MATCH_VSMUL_VX", "MASK_VSMUL_VX"));
  ("vsoxei16_v", ("MATCH_VSOXEI16_V", "MASK_VSOXEI16_V"));
  ("vsoxei32_v", ("MATCH_VSOXEI32_V", "MASK_VSOXEI32_V"));
  ("vsoxei64_v", ("MATCH_VSOXEI64_V", "MASK_VSOXEI64_V"));
  ("vsoxei8_v", ("MATCH_VSOXEI8_V", "MASK_VSOXEI8_V"));
  ("vsra_vi", ("MATCH_VSRA_VI", "MASK_VSRA_VI"))].

Definition DECLARE_INSN_6 : list (string * (string * string)) := [
  ("vsra_vv", ("MATCH_VSRA_VV", "MASK_VSRA_VV"));
  ("vsra_vx", ("MATCH_VSRA_VX", "MASK_VSRA_VX"));
  ("vsrl_vi", ("MATCH_VSRL_VI", "MASK_VSRL_VI"));
  ("vsrl_vv", ("MATCH_VSRL_VV", "MASK_VSRL_VV"));
  ("vsrl_vx", ("MATCH_VSRL_VX", "MASK_VSRL_VX"));
  ("vsse16_v", ("MATCH_VSSE16_V", "MASK_VSSE16_V"));
  ("vsse32_v", ("MATCH_VSSE32_V", "MASK_VSSE32_V"));
  ("vsse64_v", ("MATCH_VSSE64_V", "MASK_VSSE64_V"));
  ("vsse8_v", ("MATCH_VSSE8_V", "MASK_VSSE8_V"));
  ("vssra_vi", ("MATCH_VSSRA_VI", "MASK_VSSRA_VI"));
  ("vssra_vv", ("MATCH_VSSRA_VV", "MASK_VSSRA_VV"));
  ("vssra_vx", ("MATCH_VSSRA_VX", "MASK_VSSRA_VX"));
  ("vssrl_vi", ("MATCH_VSSRL_VI", "MASK_VSSRL_VI"));
  ("vssrl_vv", ("MATCH_VSSRL_VV", "MASK_VSSRL_VV"));
  ("vssrl_vx", ("MATCH_VSSRL_VX", "MASK_VSSRL_VX"));
  ("vssub_vv", ("MATCH_VSSUB_VV", "MASK_VSSUB_VV"));
  ("vssub_vx", ("MATCH_VSSUB_VX", "MASK_VSSUB_VX"));
  ("vssubu_vv", ("MATCH_VSSUBU_VV", "MASK_VSSUBU_VV"));
  ("vssubu_vx", ("MATCH_VSSUBU_VX", "MASK_VSSUBU_VX"));
  ("vsub_vv", ("MATCH_VSUB_VV", "MASK_VSUB_VV"));
  ("vsub_vx", ("MATCH_VSUB_VX", "MASK_VSUB_VX"));
  ("vsuxei16_v", ("MATCH_VSUXEI16_V", "MASK_VSUXEI16_V"));
  ("vsuxei32_v", ("MATCH_VSUXEI32_V", "MASK_VSUXEI32_V"));
  ("vsuxei64_v", ("MATCH_VSUXEI64_V", "MASK_VSUXEI64_V"));
  ("vsuxei8_v", ("MATCH_VSUXEI8_V", "MASK_VSUXEI8_V"));
  ("vwadd_vv", ("MATCH_VWADD_VV", "MASK_VWADD_VV"));
  ("vwadd_vx", ("MATCH_VWADD_VX", "MASK_VWADD_VX"));
  ("vwadd_wv", ("MATCH_VWADD_WV", "MASK_VWADD_WV"));
  ("vwadd_wx", ("MATCH_VWADD_WX", "MASK_VWADD_WX"));
  ("vwaddu_vv", ("MATCH_VWADDU_VV", "MASK_VWADDU_VV"));
  ("vwaddu_vx", ("MATCH_VWADDU_VX", "MASK_VWADDU_VX"));
  ("vwaddu_wv", ("MATCH_VWADDU_WV", "MASK_VWADDU_WV"));
  ("vwaddu_wx", ("MATCH_VWADDU_WX", "MASK_VWADDU_WX"));
  ("vwmacc_vv", ("MATCH_VWMACC_VV", "MASK_VWMACC_VV"));
  ("vwmacc_vx", ("MATCH_VWMACC_VX", "MASK_VWMACC_VX"));
  ("vwmaccsu_vv", ("MATCH_VWMACCSU_VV", "MASK_VWMACCSU_VV"));
  ("vwmaccsu_vx", ("MATCH_VWMACCSU_VX", "MASK_VWMACCSU_VX"));
  ("vwmaccu_vv", ("MATCH_VWMACCU_VV", "MASK_VWMACCU_VV"));
  ("vwmaccu_vx", ("MATCH_VWMACCU_VX", "MASK_VWMACCU_VX"));
  ("vwmaccus_vx", ("MATCH_VWMACCUS_VX", "MASK_VWMACCUS_VX"));
  ("vwmul_vv", ("MATCH_VWMUL_VV", "MASK_VWMUL_VV"));
  ("vwmul_vx", ("MATCH_VWMUL_VX", "MASK_VWMUL_VX"));
  ("vwmulsu_vv", ("MATCH_VWMULSU_VV", "MASK_VWMULSU_VV"));
  ("vwmulsu_vx", ("MATCH_VWMULSU_VX", "MASK_VWMULSU_VX"));
  ("vwmulu_vv", ("MATCH_VWMULU_VV", "MASK_VWMULU_VV"));
  ("vwmulu_vx", ("MATCH_VWMULU_VX", "MASK_VWMULU_VX"));
  ("vwredsum_vs", ("MATCH_VWREDSUM_VS", "MASK_VWREDSUM_VS"));
  ("vwredsumu_vs", ("MATCH_VWREDSUMU_VS", "MASK_VWREDSUMU_VS"));
  ("vwsll_vi", ("MATCH_VWSLL_VI", "MASK_VWSLL_VI"));
  ("vwsll_vv", ("MATCH_VWSLL_VV", "MASK_VWSLL_VV"));
  ("vwsll_vx", ("MATCH_VWSLL_VX", "MASK_VWSLL_VX"));
  ("vwsub_vv", ("MATCH_VWSUB_VV", "MASK_VWSUB_VV"));
  ("vwsub_vx", ("MATCH_VWSUB_VX", "MASK_VWSUB_VX"));
  ("vwsub_wv", ("MATCH_VWSUB_WV", "MASK_VWSUB_WV"));
  ("vwsub_wx", ("MATCH_VWSUB_WX", "MASK_VWSUB_WX"));
  ("vwsubu_vv", ("MATCH_VWSUBU_VV", "MASK_VWSUBU_VV"));
  ("vwsubu_vx", ("MATCH_VWSUBU_VX", "MASK_VWSUBU_VX"));
  ("vwsubu_wv", ("MATCH_VWSUBU_WV", "MASK_VWSUBU_WV"));
  ("vwsubu_wx", ("MATCH_VWSUBU_WX", "MASK_VWSUBU_WX"));
  ("vxor_vi", ("MATCH_VXOR_VI", "MASK_VXOR_VI"));
  ("vxor_vv", ("MATCH_VXOR_VV", "MASK_VXOR_VV"));
  ("vxor_vx", ("MATCH_VXOR_VX", "MASK_VXOR_VX"));
  ("vzext_vf2", ("MATCH_VZEXT_VF2", "MASK_VZEXT_VF2"));
  ("vzext_vf4", ("MATCH_VZEXT_VF4", "MASK_VZEXT_VF4"));
  ("vzext_vf8", ("MATCH_VZEXT_VF8", "MASK_VZEXT_VF8"));
  ("wfi", ("MATCH_WFI", "MASK_WFI"));
  ("wrs_nto", ("MATCH_WRS_NTO", "MASK_WRS_NTO"));
  ("wrs_sto", ("MATCH_WRS_STO", "MASK_WRS_STO"));
  ("xnor", ("MATCH_XNOR", "MASK_XNOR"));
  ("xor", ("MATCH_XOR", "MASK_XOR"));
  ("xori", ("MATCH_XORI", "MASK_XORI"));
  ("xperm16", ("MATCH_XPERM16", "MASK_XPERM16"));
  ("xperm32", ("MATCH_XPERM32", "MASK_XPERM32"));
  ("xperm4", ("MATCH_XPERM4", "MASK_XPERM4"));
  ("xperm8", ("MATCH_XPERM8", "MASK_XPERM8"))].

(** * The tables together *)

Definition MATCH_MASK : list (string * Z) := concat [MATCH_MASK_0; MATCH_MASK_1; MATCH_MASK_2; MATCH_MASK_3; MATCH_MASK_4; MATCH_MASK_5; MATCH_MASK_6; MATCH_MASK_7; MATCH_MASK_8; MATCH_MASK_9; MATCH_MASK_10; MATCH_MASK_11; MATCH_MASK_12].
Definition DECLARE_INSN : list (string * (string * string)) := concat [DECLARE_INSN_0; DECLARE_INSN_1; DECLARE_INSN_2; DECLARE_INSN_3; DECLARE_INSN_4; DECLARE_INSN_5; DECLARE_INSN_6].

(** The first entry under a name. *)
Fixpoint assoc {A} (d : A) (k : string) (l : list (string * A)) : A :=
  match l with [] => d | (k', x) :: l => if String.eqb k k' then x else assoc d k l end.

(** The two words an instruction is declared with. *)
Definition opcode_of (name : string) : Z * Z :=
  let '(m, k) := assoc ("", "") name DECLARE_INSN in (assoc 0 m MATCH_MASK, assoc 0 k MATCH_MASK).
