(* ===== verification/Assembler.v ===== *)
(** The instruction encoders of [riscv/opcodes.h], with which the debug module
    assembles its programs, and their inverse relation to the field
    extractors of [riscv/decode.h]. *)

From S2P Require Import Prelude Decode Encoding.

(** * Definitions

    Arguments are [unsigned int]s or narrower; [a << n] is the 32-bit shift. *)

Declare Scope asm_scope.
Delimit Scope asm_scope with asm.
Definition sll32 (a n : Z) : Z := u32 (Z.shiftl a n).
Local Infix "<<" := sll32 (at level 35, no associativity) : asm_scope.
Local Infix ".|" := Z.lor (at level 50, left associativity) : asm_scope.
Local Open Scope asm_scope.

Module Assembler.

Definition bits (value hi lo : Z) : Z :=
  Z.land (Z.shiftr value lo) (u32 (Z.shiftl 1 (hi + 1 - lo) - 1)).

Definition bit (value b : Z) : Z := Z.land (Z.shiftr value b) 1.

Definition jal (rd imm : Z) : Z :=
  bit imm 20 << 31 .| bits imm 10 1 << 21 .| bit imm 11 << 20 .| bits imm 19 12 << 12
  .| rd << 7 .| MATCH_JAL.

Definition csrsi (csr imm : Z) : Z := csr << 20 .| bits imm 4 0 << 15 .| MATCH_CSRRSI.

Definition sw (src base offset : Z) : Z :=
  bits offset 11 5 << 25 .| src << 20 .| base << 15 .| bits offset 4 0 << 7 .| MATCH_SW.

Definition sd (src base offset : Z) : Z :=
  bits offset 11 5 << 25 .| src << 20 .| base << 15 .| bits offset 4 0 << 7 .| MATCH_SD.

Definition sh (src base offset : Z) : Z :=
  bits offset 11 5 << 25 .| src << 20 .| base << 15 .| bits offset 4 0 << 7 .| MATCH_SH.

Definition sb (src base offset : Z) : Z :=
  bits offset 11 5 << 25 .| src << 20 .| base << 15 .| bits offset 4 0 << 7 .| MATCH_SB.

Definition ld (rd base offset : Z) : Z :=
  bits offset 11 0 << 20 .| base << 15 .| bits rd 4 0 << 7 .| MATCH_LD.

Definition lw (rd base offset : Z) : Z :=
  bits offset 11 0 << 20 .| base << 15 .| bits rd 4 0 << 7 .| MATCH_LW.

Definition lh (rd base offset : Z) : Z :=
  bits offset 11 0 << 20 .| base << 15 .| bits rd 4 0 << 7 .| MATCH_LH.

Definition lb (rd base offset : Z) : Z :=
  bits offset 11 0 << 20 .| base << 15 .| bits rd 4 0 << 7 .| MATCH_LB.

Definition csrw (source csr : Z) : Z := csr << 20 .| source << 15 .| MATCH_CSRRW.

Definition addi (dest src imm : Z) : Z :=
  bits imm 11 0 << 20 .| src << 15 .| dest << 7 .| MATCH_ADDI.

Definition csrr (rd csr : Z) : Z := csr << 20 .| rd << 7 .| MATCH_CSRRS.

Definition csrrs (rd rs1 csr : Z) : Z := csr << 20 .| rs1 << 15 .| rd << 7 .| MATCH_CSRRS.

Definition fsw (src base offset : Z) : Z :=
  bits offset 11 5 << 25 .| bits src 4 0 << 20 .| base << 15 .| bits offset 4 0 << 7 .| MATCH_FSW.

Definition fsd (src base offset : Z) : Z :=
  bits offset 11 5 << 25 .| bits src 4 0 << 20 .| base << 15 .| bits offset 4 0 << 7 .| MATCH_FSD.

Definition flw (dest base offset : Z) : Z :=
  bits offset 11 0 << 20 .| base << 15 .| bits dest 4 0 << 7 .| MATCH_FLW.

Definition fld (dest base offset : Z) : Z :=
  bits offset 11 0 << 20 .| base << 15 .| bits dest 4 0 << 7 .| MATCH_FLD.

Definition ebreak : Z := MATCH_EBREAK.

Definition ebreak_c : Z := MATCH_C_EBREAK.

Definition dret : Z := MATCH_DRET.

Definition fence_i : Z := MATCH_FENCE_I.

Definition lui (dest imm : Z) : Z := bits imm 19 0 << 12 .| dest << 7 .| MATCH_LUI.

Definition xori (dest src imm : Z) : Z :=
  bits imm 11 0 << 20 .| src << 15 .| dest << 7 .| MATCH_XORI.

Definition srli (dest src shamt : Z) : Z :=
  bits shamt 4 0 << 20 .| src << 15 .| dest << 7 .| MATCH_SRLI.

End Assembler.

(** * Encoding and decoding *)

Import Assembler.

Lemma tb_bits v hi lo i :
  0 <= lo -> lo <= hi -> hi - lo < 31 -> 0 <= i ->
  Z.testbit (bits v hi lo) i = (i <=? hi - lo) && Z.testbit v (lo + i).
Proof.
  intros. unfold bits. rewrite Z.shiftl_1_l.
  assert (E : u32 (2 ^ (hi + 1 - lo) - 1) = Z.ones (hi + 1 - lo)).
  { rewrite Z.ones_equiv, wrap_small; [lia|].
    pose proof (Z.pow_le_mono_r 2 (hi + 1 - lo) 31). lia. }
  rewrite E. autorewrite with zbits. rewrite (Z.add_comm lo).
  replace (i <=? hi - lo) with (i <? hi + 1 - lo) by lia. btauto.
Qed.

Lemma tb_bit v b i : 0 <= b -> 0 <= i -> Z.testbit (bit v b) i = (i =? 0) && Z.testbit v b.
Proof.
  intros. unfold bit. change 1 with (Z.ones 1). autorewrite with zbits.
  destruct (Z.eqb_spec i 0) as [->|]; [rewrite Z.add_0_l; apply andb_true_r|].
  replace (i <? 1) with false by lia. btauto.
Qed.

Lemma tb_sll32 a n i : 0 <= n -> 0 <= i -> Z.testbit (a << n) i = (i <? 32) && Z.testbit a (i - n).
Proof. intros. unfold sll32. by autorewrite with zbits. Qed.

#[export] Hint Rewrite tb_bits tb_bit tb_sll32 using lia : zbits.

(** Opcodes of the formats with a register or immediate in the other fields. *)
Definition low_opcode (op : Z) : Prop := Z.land op 0x707f = op.

Lemma tb_low_opcode op i :
  low_opcode op -> 7 <= i -> i < 12 \/ 15 <= i -> Z.testbit op i = false.
Proof.
  intros <- Hi Ho. rewrite Z.land_spec.
  assert (Z.testbit 0x707f i = false) as ->; [|btauto].
  destruct (Z.lt_ge_cases i 15); [|by apply (tb_high 15)].
  assert (i = 7 \/ i = 8 \/ i = 9 \/ i = 10 \/ i = 11) by lia.
  intuition (subst; done).
Qed.

(** Fields of an assembled word, by the position of each part. *)
Lemma x_lor a b lo len : Insn.x (a .| b) lo len = Insn.x a lo len .| Insn.x b lo len.
Proof. unfold Insn.x. by rewrite Z.shiftr_lor, Z.land_lor_distr_l. Qed.

Lemma x_here v lo len :
  0 <= lo -> 0 <= len < 64 -> lo + len <= 32 -> 0 <= v < 2 ^ len -> Insn.x (v << lo) lo len = v.
Proof.
  intros Hlo Hlen H32 Hv. apply Z.bits_inj'. intros i Hi. rewrite tb_x, tb_sll32 by lia.
  replace (lo + i - lo) with i by lia. destruct (Z.ltb_spec i len).
  - by replace (lo + i <? 32) with true by lia.
  - by rewrite (tb_high len v) by lia.
Qed.

Lemma x_above v k lo len :
  0 <= lo -> 0 <= len < 64 -> lo + len <= k -> Insn.x (v << k) lo len = 0.
Proof.
  intros. apply Z.bits_inj'. intros i Hi. rewrite tb_x, tb_sll32, Z.bits_0 by lia.
  destruct (Z.ltb_spec i len); [|done]. rewrite (tb_neg v) by lia. btauto.
Qed.

Lemma x_below v n k lo len :
  0 <= k -> 0 <= n -> 0 <= len < 64 -> k + n <= lo -> 0 <= v < 2 ^ n -> Insn.x (v << k) lo len = 0.
Proof.
  intros. apply Z.bits_inj'. intros i Hi. rewrite tb_x, tb_sll32, Z.bits_0 by lia.
  rewrite (tb_high n v) by lia. btauto.
Qed.

Lemma x_opcode op lo len :
  low_opcode op -> 0 <= len < 64 -> 7 <= lo -> lo + len <= 12 \/ 15 <= lo -> Insn.x op lo len = 0.
Proof.
  intros. apply Z.bits_inj'. intros i Hi. rewrite tb_x, Z.bits_0 by lia.
  destruct (Z.ltb_spec i len); [|done]. by rewrite tb_low_opcode by (done || lia).
Qed.

Definition reg_range (r : Z) : Prop := 0 <= r < 2 ^ 5.

Lemma bits_range v hi lo : 0 <= lo -> lo <= hi -> hi - lo < 31 -> 0 <= bits v hi lo < 2 ^ (hi - lo + 1).
Proof.
  intros. assert (bits v hi lo = wrap (hi - lo + 1) (bits v hi lo)) as ->; [|by apply wrap_range; lia].
  apply Z.bits_inj'. intros i Hi. rewrite tb_wrap, !tb_bits by lia.
  destruct (Z.leb_spec i (hi - lo)), (Z.ltb_spec i (hi - lo + 1)); try lia; btauto.
Qed.

(** [asm_field] evaluates a field of a disjunction of shifted parts. *)
Ltac asm_field :=
  rewrite !x_lor;
  repeat first
    [ rewrite x_here by first [lia | assumption | apply bits_range; lia]
    | rewrite x_above by lia
    | rewrite x_opcode by first [lia | assumption | reflexivity]
    | erewrite x_below; [|lia| |lia| |eassumption || apply bits_range; lia]; [|lia..] ];
  rewrite ?Z.lor_0_r, ?Z.lor_0_l.

(** The immediates as sign-extended combinations of fields. *)
Lemma i_imm_field b : Insn.i_imm b = swrap 12 (Insn.x b 20 12).
Proof.
  apply Z.bits_inj'. intros i Hi. rewrite tb_i_imm, tb_swrap, tb_x by (cmp_cases; lia).
  cmp_cases; done.
Qed.

Lemma s_imm_field b : Insn.s_imm b = swrap 12 (Z.lor (Z.shiftl (Insn.x b 25 7) 5) (Insn.x b 7 5)).
Proof.
  apply Z.bits_inj'. intros i Hi. rewrite tb_s_imm, tb_swrap, Z.lor_spec by lia.
  cmp_cases; rewrite tb_shiftl by lia; cmp_cases; neg_bits; rewrite ?tb_x by lia;
    cmp_cases; cbn [andb orb]; rewrite ?orb_false_r; done || (f_equal; lia).
Qed.

Lemma u_imm_field b : Insn.u_imm b = swrap 32 (Z.shiftl (Insn.x b 12 20) 12).
Proof.
  apply Z.bits_inj'. intros i Hi. rewrite tb_u_imm, tb_swrap, tb_shiftl by (cmp_cases; lia).
  cmp_cases; neg_bits; rewrite ?tb_x by lia; cmp_cases; done || (cbn [andb]; f_equal; lia).
Qed.

Lemma uj_imm_field b :
  Insn.uj_imm b = swrap 21 (Z.shiftl (Insn.x b 31 1) 20 .| Z.shiftl (Insn.x b 12 8) 12
                            .| Z.shiftl (Insn.x b 20 1) 11 .| Z.shiftl (Insn.x b 21 10) 1).
Proof.
  apply Z.bits_inj'. intros i Hi. rewrite tb_uj_imm, tb_swrap, !Z.lor_spec, !tb_shiftl by (cmp_cases; lia).
  cmp_cases; neg_bits; rewrite ?tb_x by lia; cmp_cases; cbn [andb orb];
    rewrite ?orb_false_r; done || (f_equal; lia).
Qed.

Definition S_type (op src base offset : Z) : Z :=
  bits offset 11 5 << 25 .| src << 20 .| base << 15 .| bits offset 4 0 << 7 .| op.
Definition I_type (op rd base imm : Z) : Z :=
  bits imm 11 0 << 20 .| base << 15 .| rd << 7 .| op.

Lemma S_type_fields op src base offset :
  low_opcode op -> reg_range src -> reg_range base ->
  let b := S_type op src base offset in
  Insn.rs1 b = base /\ Insn.rs2 b = src /\ Insn.s_imm b = swrap 12 offset.
Proof.
  intros Hop Hs Hb b. unfold reg_range in *. rewrite s_imm_field.
  unfold b, S_type, Insn.rs1, Insn.rs2. split_and!; [by asm_field..|].
  asm_field. apply Z.bits_inj'. intros i Hi.
  rewrite !tb_swrap, Z.lor_spec, tb_shiftl by (cmp_cases; lia).
  destruct (Z.lt_ge_cases i 5); cmp_cases; neg_bits; rewrite ?tb_bits by lia; cmp_cases; cbn [andb orb];
    rewrite ?orb_false_r; done || (f_equal; lia).
Qed.

Lemma I_type_fields op rd base imm :
  low_opcode op -> reg_range rd -> reg_range base ->
  let b := I_type op rd base imm in
  Insn.rd b = rd /\ Insn.rs1 b = base /\ Insn.i_imm b = swrap 12 imm.
Proof.
  intros Hop Hs Hb b. unfold reg_range in *. rewrite i_imm_field.
  unfold b, I_type, Insn.rs1, Insn.rd. split_and!; [by asm_field..|].
  asm_field. apply Z.bits_inj'. intros i Hi.
  rewrite !tb_swrap, tb_bits by (cmp_cases; lia). cmp_cases; done.
Qed.

Lemma jal_fields rd imm :
  reg_range rd -> Insn.rd (jal rd imm) = rd /\ Insn.uj_imm (jal rd imm) = Z.ldiff (swrap 21 imm) 1.
Proof.
  unfold reg_range. intros Hrd. rewrite uj_imm_field. unfold Insn.rd, jal.
  assert (Hb : forall v b, 0 <= bit v b < 2 ^ 1).
  { intros. unfold bit. rewrite (Z.land_ones _ 1 ltac:(lia) : Z.land _ 1 = _).
    by apply Z.mod_pos_bound. }
  pose proof (Hb imm 20). pose proof (Hb imm 11).
  split; [by asm_field|]. asm_field. apply Z.bits_inj'. intros i Hi.
  rewrite Z.ldiff_spec, !tb_swrap, !Z.lor_spec, !tb_shiftl by (cmp_cases; lia).
  rewrite (tb_ones 1 _ ltac:(lia) Hi : Z.testbit 1 i = _).
  destruct (Z.lt_ge_cases i 1), (Z.lt_ge_cases i 11), (Z.lt_ge_cases i 12), (Z.lt_ge_cases i 20);
    try lia; cmp_cases; neg_bits; rewrite ?tb_bits, ?tb_bit by lia; cmp_cases; cbn [andb orb negb];
    rewrite ?orb_false_r, ?andb_false_r, ?andb_true_r; done || (f_equal; lia).
Qed.

(** The opcode survives below the operands. *)
Lemma land_opcode_above v k : 15 <= k -> Z.land (v << k) 0x707f = 0.
Proof.
  intros. apply Z.bits_inj'. intros i Hi. rewrite Z.land_spec, tb_sll32, Z.bits_0 by lia.
  destruct (Z.lt_ge_cases i 15); [rewrite (tb_neg v) by lia; btauto|].
  rewrite (tb_high 15 0x707f) by lia. btauto.
Qed.

Lemma land_opcode_rd v : 0 <= v < 2 ^ 5 -> Z.land (v << 7) 0x707f = 0.
Proof.
  intros Hv. apply Z.bits_inj'. intros i Hi. rewrite Z.land_spec, tb_sll32, Z.bits_0 by lia.
  destruct (Z.lt_ge_cases i 7); [rewrite (tb_neg v) by lia; btauto|].
  destruct (Z.lt_ge_cases i 12); [|rewrite (tb_high 5 v) by lia; btauto].
  assert (Z.testbit 0x707f i = false) as ->; [|btauto].
  assert (i = 7 \/ i = 8 \/ i = 9 \/ i = 10 \/ i = 11) by lia. intuition (subst; done).
Qed.

Lemma S_type_opcode op src base offset :
  low_opcode op -> Z.land (S_type op src base offset) 0x707f = op.
Proof.
  intros Hop. unfold S_type. rewrite !Z.land_lor_distr_l, !land_opcode_above, land_opcode_rd by
    (lia || apply bits_range; lia). done.
Qed.

Lemma I_type_opcode op rd base imm :
  low_opcode op -> reg_range rd -> Z.land (I_type op rd base imm) 0x707f = op.
Proof.
  intros Hop Hrd. unfold I_type.
  rewrite !Z.land_lor_distr_l, !land_opcode_above, land_opcode_rd by (lia || done). done.
Qed.

Lemma bits_id v : reg_range v -> bits v 4 0 = v.
Proof.
  unfold reg_range. intros Hv. apply Z.bits_inj'. intros i Hi. rewrite tb_bits by lia.
  destruct (Z.leb_spec i (4 - 0)); [done|]. cbn [andb]. by rewrite (tb_high 5 v) by lia.
Qed.

Lemma bits_csr c : 0 <= c < 2 ^ 12 -> bits c 11 0 = c.
Proof.
  intros Hv. apply Z.bits_inj'. intros i Hi. rewrite tb_bits by lia.
  destruct (Z.leb_spec i (11 - 0)); [done|]. cbn [andb]. by rewrite (tb_high 12 c) by lia.
Qed.

Lemma I_type_csr op rd base c :
  low_opcode op -> reg_range rd -> reg_range base -> 0 <= c < 2 ^ 12 ->
  Insn.csr (I_type op rd base c) = c.
Proof.
  unfold reg_range. intros. unfold Insn.csr, I_type. rewrite bits_csr by done. by asm_field.
Qed.

(** The encoders of each format, with the match and mask words of the opcode. *)
Definition store_encoders : list ((Z -> Z -> Z -> Z) * (Z * Z)) :=
  [(sw, (MATCH_SW, MASK_SW)); (sd, (MATCH_SD, MASK_SD)); (sh, (MATCH_SH, MASK_SH));
   (sb, (MATCH_SB, MASK_SB)); (fsw, (MATCH_FSW, MASK_FSW)); (fsd, (MATCH_FSD, MASK_FSD))].

Definition imm_encoders : list ((Z -> Z -> Z -> Z) * (Z * Z)) :=
  [(ld, (MATCH_LD, MASK_LD)); (lw, (MATCH_LW, MASK_LW)); (lh, (MATCH_LH, MASK_LH));
   (lb, (MATCH_LB, MASK_LB)); (flw, (MATCH_FLW, MASK_FLW)); (fld, (MATCH_FLD, MASK_FLD));
   (addi, (MATCH_ADDI, MASK_ADDI)); (xori, (MATCH_XORI, MASK_XORI))].

Lemma store_encoders_S enc m k :
  In (enc, (m, k)) store_encoders ->
  low_opcode m /\ k = 0x707f /\ forall src base offset, reg_range src -> enc src base offset = S_type m src base offset.
Proof.
  simpl. intros H.
  repeat (destruct H as [[= <- <- <-]|H];
    [split_and!; [done..|]; intros src base offset Hs; unfold sw, sd, sh, sb, fsw, fsd;
     rewrite ?(bits_id src) by done; done|]). done.
Qed.

Lemma imm_encoders_I enc m k :
  In (enc, (m, k)) imm_encoders ->
  low_opcode m /\ k = 0x707f /\ forall rd base imm, reg_range rd -> enc rd base imm = I_type m rd base imm.
Proof.
  simpl. intros H.
  repeat (destruct H as [[= <- <- <-]|H];
    [split_and!; [done..|]; intros rd base imm Hs; unfold ld, lw, lh, lb, flw, fld;
     rewrite ?(bits_id rd) by done; done|]). done.
Qed.

(** The other encoders as the two formats with fields that are zero. *)
Lemma sll32_0 n : sll32 0 n = 0.
Proof. unfold sll32. by rewrite Z.shiftl_0_l. Qed.
Lemma bits_imm5 v : reg_range (bits v 4 0).
Proof. apply (bits_range v 4 0); lia. Qed.
Lemma bits_low v k : 0 < k < 31 -> bits v (k - 1) 0 = v mod 2 ^ k.
Proof.
  intros K. apply Z.bits_inj'. intros i Hi. rewrite tb_bits, tb_mod by lia. cmp_cases; done.
Qed.

Lemma csrw_I r c : 0 <= c < 2 ^ 12 -> csrw r c = I_type MATCH_CSRRW 0 r c.
Proof. intros H. unfold csrw, I_type. by rewrite bits_csr, sll32_0, Z.lor_0_r. Qed.
Lemma csrr_I r c : 0 <= c < 2 ^ 12 -> csrr r c = I_type MATCH_CSRRS r 0 c.
Proof. intros H. unfold csrr, I_type. by rewrite bits_csr, sll32_0, Z.lor_0_r. Qed.
Lemma csrrs_I rd r c : 0 <= c < 2 ^ 12 -> csrrs rd r c = I_type MATCH_CSRRS rd r c.
Proof. intros H. unfold csrrs, I_type. by rewrite bits_csr. Qed.
Lemma csrsi_I c imm : 0 <= c < 2 ^ 12 -> csrsi c imm = I_type MATCH_CSRRSI 0 (bits imm 4 0) c.
Proof. intros H. unfold csrsi, I_type. by rewrite bits_csr, sll32_0, Z.lor_0_r. Qed.
Lemma srli_I rd r imm : srli rd r imm = I_type MATCH_SRLI rd r (bits imm 4 0).
Proof. unfold srli, I_type. rewrite bits_csr; [done|]. pose proof (bits_imm5 imm). unfold reg_range in *. lia. Qed.

Lemma csr_encoders op rd r c :
  low_opcode op -> reg_range rd -> reg_range r -> 0 <= c < 2 ^ 12 ->
  let b := I_type op rd r c in Z.land b 0x707f = op /\ Insn.rd b = rd /\ Insn.rs1 b = r /\ Insn.csr b = c.
Proof.
  intros Ho Hd Hr Hc b. pose proof (I_type_fields op rd r c Ho Hd Hr) as (? & ? & _).
  split; [by apply I_type_opcode|]. split_and!; [done..|by apply I_type_csr].
Qed.

Lemma srli_fields rd r imm : reg_range rd -> reg_range r ->
  let b := srli rd r imm in
  Z.land b MASK_SRLI = MATCH_SRLI /\ Insn.rd b = rd /\ Insn.rs1 b = r /\ Insn.i_imm b = imm mod 2 ^ 5.
Proof.
  intros Hd Hr b. unfold b. rewrite srli_I. pose proof (I_type_fields MATCH_SRLI rd r (bits imm 4 0) eq_refl Hd Hr) as (F1 & F2 & F3).
  pose proof (bits_imm5 imm) as B. unfold reg_range in B. split; [|split; [done|split; [done|]]].
  - pose proof (I_type_opcode MATCH_SRLI rd r (bits imm 4 0) eq_refl Hd) as Ho.
    change MASK_SRLI with (Z.lor 0x707f (Z.shiftl (Z.ones 6) 26)). rewrite Z.land_lor_distr_r, Ho.
    replace (Z.land _ (Z.shiftl (Z.ones 6) 26)) with 0; [apply Z.lor_0_r|].
    apply Z.bits_inj'. intros i Hi. rewrite Z.bits_0, Z.land_spec, tb_shiftl by lia.
    destruct (Z.lt_ge_cases i 26); [rewrite (tb_neg (Z.ones 6)) by lia; btauto|].
    unfold I_type. rewrite (bits_csr (bits imm 4 0)) by lia. rewrite !Z.lor_spec, !tb_sll32 by lia.
    rewrite (tb_high 5 (bits imm 4 0)), (tb_high 5 r), (tb_high 5 rd), (tb_high 15 MATCH_SRLI) by (unfold reg_range in *; done || lia). btauto.
  - rewrite F3. change (bits imm 4 0) with (bits imm (5 - 1) 0). rewrite bits_low by lia. pose proof (Z.mod_pos_bound imm (2 ^ 5)). apply swrap_small; lia.
Qed.

Lemma land_opcode7 v k : 7 <= k -> Z.land (v << k) 0x7f = 0.
Proof.
  intros. apply Z.bits_inj'. intros i Hi. rewrite Z.land_spec, tb_sll32, Z.bits_0 by lia.
  destruct (Z.lt_ge_cases i 7); [rewrite (tb_neg v) by lia; btauto|]. rewrite (tb_high 7 0x7f) by lia. btauto.
Qed.

Lemma lui_fields rd imm : reg_range rd ->
  let b := lui rd imm in Z.land b MASK_LUI = MATCH_LUI /\ Insn.rd b = rd /\ Insn.u_imm b = i32 (Z.shiftl imm 12).
Proof.
  intros Hd b. unfold reg_range in Hd. rewrite u_imm_field. unfold b, Insn.rd, lui. split; [|split].
  - change MASK_LUI with 0x7f. rewrite !Z.land_lor_distr_l, !land_opcode7 by lia. done.
  - asm_field. done.
  - asm_field. apply Z.bits_inj'. intros i Hi. rewrite !tb_swrap by lia.
    set (j := if i <? 32 then i else 32 - 1). assert (0 <= j < 32) by (subst j; cmp_cases; lia).
    rewrite !tb_shiftl by lia. destruct (Z.lt_ge_cases j 12); [by rewrite !tb_neg by lia|].
    rewrite tb_bits by lia. by replace (j - 12 <=? 19 - 0) with true by lia.
Qed.

Lemma jal_opcode rd imm : Z.land (jal rd imm) MASK_JAL = MATCH_JAL.
Proof. unfold jal. change MASK_JAL with 0x7f. rewrite !Z.land_lor_distr_l, !land_opcode7 by lia. done. Qed.

(** C20. assembling with [opcodes.h] and taking the fields apart with
    [decode.h] is the identity.  Every encoder of the header produces a word that its
    own opcode matches, whose register and CSR fields are the operands, or 0 where the
    encoder has none, and whose
    immediate is the low bits of the operand: sign-extended for offsets, the low five for
    [csrsi] and [srli]; [jal] drops bit 0 of its offset. *)
Theorem assemble_decode r1 r2 imm c :
  reg_range r1 -> reg_range r2 -> 0 <= c < 2 ^ 12 ->
  (forall enc m k, In (enc, (m, k)) store_encoders ->
     let b := enc r1 r2 imm in
     Z.land b k = m /\ Insn.rs2 b = r1 /\ Insn.rs1 b = r2 /\ Insn.s_imm b = swrap 12 imm) /\
  (forall enc m k, In (enc, (m, k)) imm_encoders ->
     let b := enc r1 r2 imm in
     Z.land b k = m /\ Insn.rd b = r1 /\ Insn.rs1 b = r2 /\ Insn.i_imm b = swrap 12 imm) /\
  (let b := csrrs r1 r2 c in
     Z.land b MASK_CSRRS = MATCH_CSRRS /\ Insn.rd b = r1 /\ Insn.rs1 b = r2 /\ Insn.csr b = c) /\
  (let b := csrr r1 c in
     Z.land b MASK_CSRRS = MATCH_CSRRS /\ Insn.rd b = r1 /\ Insn.rs1 b = 0 /\ Insn.csr b = c) /\
  (let b := csrw r1 c in
     Z.land b MASK_CSRRW = MATCH_CSRRW /\ Insn.rd b = 0 /\ Insn.rs1 b = r1 /\ Insn.csr b = c) /\
  (let b := csrsi c imm in
     Z.land b MASK_CSRRSI = MATCH_CSRRSI /\ Insn.rd b = 0 /\ Insn.rs1 b = imm mod 2 ^ 5 /\ Insn.csr b = c) /\
  (let b := srli r1 r2 imm in
     Z.land b MASK_SRLI = MATCH_SRLI /\ Insn.rd b = r1 /\ Insn.rs1 b = r2 /\ Insn.i_imm b = imm mod 2 ^ 5) /\
  (let b := lui r1 imm in
     Z.land b MASK_LUI = MATCH_LUI /\ Insn.rd b = r1 /\ Insn.u_imm b = i32 (Z.shiftl imm 12)) /\
  (let b := jal r1 imm in
     Z.land b MASK_JAL = MATCH_JAL /\ Insn.rd b = r1 /\ Insn.uj_imm b = Z.ldiff (swrap 21 imm) 1) /\
  Z.land ebreak MASK_EBREAK = MATCH_EBREAK /\ Z.land ebreak_c MASK_C_EBREAK = MATCH_C_EBREAK /\
  Z.land dret MASK_DRET = MATCH_DRET /\ Z.land fence_i MASK_FENCE_I = MATCH_FENCE_I.
Proof.
  intros H1 H2 Hc. assert (reg_range 0) as H0 by done.
  split; [|split; [|split; [|split; [|split; [|split; [|split; [|split; [|split]]]]]]]].
  - intros enc m k (Hm & -> & E)%store_encoders_S. rewrite E by done. intros b.
    destruct (S_type_fields m r1 r2 imm Hm H1 H2) as (? & ? & ?). split; [by apply S_type_opcode|]. done.
  - intros enc m k (Hm & -> & E)%imm_encoders_I. rewrite E by done. intros b.
    destruct (I_type_fields m r1 r2 imm Hm H1 H2) as (? & ? & ?). split; [by apply I_type_opcode|]. done.
  - rewrite csrrs_I by done. by apply csr_encoders.
  - rewrite csrr_I by done. by apply csr_encoders.
  - rewrite csrw_I by done. by apply csr_encoders.
  - rewrite csrsi_I, <- (bits_low imm 5) by done. apply csr_encoders; [done|done|apply bits_imm5|done].
  - by apply srli_fields.
  - by apply lui_fields.
  - split; [apply jal_opcode|by apply jal_fields].
  - split_and!; vm_compute; reflexivity.
Qed.

Lemma assemble_decode_witness :
  Insn.s_imm (sw 5 10 0xffc) = -4 /\ Insn.uj_imm (jal 1 0x1ffffe) = -2 /\ Insn.csr (csrrs 3 4 0x300) = 0x300.
Proof.
  assert (H : forall r, (0 <=? r) && (r <? 32) = true -> reg_range r) by (unfold reg_range; lia).
  split; [|split].
  - pose proof (assemble_decode 5 10 0xffc 0 (H 5 eq_refl) (H 10 eq_refl)
      ltac:(split; reflexivity || discriminate)) as [Hs _].
    rewrite (proj2 (proj2 (proj2 (Hs sw _ _ (or_introl eq_refl))))). reflexivity.
  - pose proof (assemble_decode 1 3 0x1ffffe 0 (H 1 eq_refl) (H 3 eq_refl)
      ltac:(split; reflexivity || discriminate)) as (_ & _ & _ & _ & _ & _ & _ & _ & (_ & _ & Hj) & _).
    rewrite Hj. reflexivity.
  - pose proof (assemble_decode 3 4 0 0x300 (H 3 eq_refl) (H 4 eq_refl)
      ltac:(split; reflexivity || discriminate)) as (_ & _ & (_ & _ & _ & Hc) & _).
    exact Hc.
Defined.
