(* ===== verification/DebugDefines.v ===== *)
(** The registers of the debug specification, [riscv/debug_defines.h]: the
    addresses and fields that the debug module and its JTAG transport use, and
    tables of all the constants of the header.  A field has an offset, a length
    and a mask, and the three agree. *)

From S2P Require Import Prelude Decode.
Local Open Scope string_scope.

Definition DTM_DTMCS_ABITS_OFFSET : Z := 4.
Definition DTM_DMI_OP_OFFSET : Z := 0.
Definition DM_DMSTATUS : Z := 0x11.
Definition DM_DMSTATUS_IMPEBREAK : Z := 0x400000.
Definition DM_DMSTATUS_ALLHAVERESET : Z := 0x80000.
Definition DM_DMSTATUS_ANYHAVERESET : Z := 0x40000.
Definition DM_DMSTATUS_ALLRESUMEACK : Z := 0x20000.
Definition DM_DMSTATUS_ANYRESUMEACK : Z := 0x10000.
Definition DM_DMSTATUS_ALLNONEXISTENT : Z := 0x8000.
Definition DM_DMSTATUS_ANYNONEXISTENT : Z := 0x4000.
Definition DM_DMSTATUS_ALLUNAVAIL : Z := 0x2000.
Definition DM_DMSTATUS_ANYUNAVAIL : Z := 0x1000.
Definition DM_DMSTATUS_ALLRUNNING : Z := 0x800.
Definition DM_DMSTATUS_ANYRUNNING : Z := 0x400.
Definition DM_DMSTATUS_ALLHALTED : Z := 0x200.
Definition DM_DMSTATUS_ANYHALTED : Z := 0x100.
Definition DM_DMSTATUS_AUTHENTICATED : Z := 0x80.
Definition DM_DMSTATUS_AUTHBUSY : Z := 0x40.
Definition DM_DMSTATUS_VERSION : Z := 0xf.
Definition DM_DMCONTROL : Z := 0x10.
Definition DM_DMCONTROL_HALTREQ : Z := 0x80000000.
Definition DM_DMCONTROL_RESUMEREQ : Z := 0x40000000.
Definition DM_DMCONTROL_HARTRESET : Z := 0x20000000.
Definition DM_DMCONTROL_ACKHAVERESET : Z := 0x10000000.
Definition DM_DMCONTROL_HASEL : Z := 0x4000000.
Definition DM_DMCONTROL_HARTSELLO_LENGTH : Z := 0xa.
Definition DM_DMCONTROL_HARTSELLO : Z := 0x3ff0000.
Definition DM_DMCONTROL_HARTSELHI : Z := 0xffc0.
Definition DM_DMCONTROL_NDMRESET : Z := 2.
Definition DM_DMCONTROL_DMACTIVE : Z := 1.
Definition DM_HARTINFO : Z := 0x12.
Definition DM_HARTINFO_NSCRATCH : Z := 0xf00000.
Definition DM_HARTINFO_DATAACCESS : Z := 0x10000.
Definition DM_HARTINFO_DATASIZE : Z := 0xf000.
Definition DM_HARTINFO_DATAADDR : Z := 0xfff.
Definition DM_HAWINDOWSEL : Z := 0x14.
Definition DM_HAWINDOW : Z := 0x15.
Definition DM_ABSTRACTCS : Z := 0x16.
Definition DM_ABSTRACTCS_PROGBUFSIZE : Z := 0x1f000000.
Definition DM_ABSTRACTCS_BUSY : Z := 0x1000.
Definition DM_ABSTRACTCS_CMDERR : Z := 0x700.
Definition DM_ABSTRACTCS_DATACOUNT : Z := 0xf.
Definition DM_COMMAND : Z := 0x17.
Definition DM_ABSTRACTAUTO : Z := 0x18.
Definition DM_ABSTRACTAUTO_AUTOEXECPROGBUF : Z := 0xffff0000.
Definition DM_ABSTRACTAUTO_AUTOEXECDATA : Z := 0xfff.
Definition DM_DATA0 : Z := 4.
Definition DM_PROGBUF0 : Z := 0x20.
Definition DM_AUTHDATA : Z := 0x30.
Definition DM_DMCS2 : Z := 0x32.
Definition DM_DMCS2_GROUPTYPE : Z := 0x800.
Definition DM_DMCS2_GROUP : Z := 0x7c.
Definition DM_DMCS2_HGWRITE : Z := 2.
Definition DM_SBCS : Z := 0x38.
Definition DM_SBCS_SBVERSION : Z := 0xe0000000.
Definition DM_SBCS_SBBUSYERROR : Z := 0x400000.
Definition DM_SBCS_SBBUSY : Z := 0x200000.
Definition DM_SBCS_SBREADONADDR : Z := 0x100000.
Definition DM_SBCS_SBACCESS : Z := 0xe0000.
Definition DM_SBCS_SBAUTOINCREMENT : Z := 0x10000.
Definition DM_SBCS_SBREADONDATA : Z := 0x8000.
Definition DM_SBCS_SBERROR : Z := 0x7000.
Definition DM_SBCS_SBASIZE : Z := 0xfe0.
Definition DM_SBCS_SBACCESS128 : Z := 0x10.
Definition DM_SBCS_SBACCESS64 : Z := 8.
Definition DM_SBCS_SBACCESS32 : Z := 4.
Definition DM_SBCS_SBACCESS16 : Z := 2.
Definition DM_SBCS_SBACCESS8 : Z := 1.
Definition DM_SBADDRESS0 : Z := 0x39.
Definition DM_SBADDRESS1 : Z := 0x3a.
Definition DM_SBADDRESS2 : Z := 0x3b.
Definition DM_SBADDRESS3 : Z := 0x37.
Definition DM_SBDATA0 : Z := 0x3c.
Definition DM_SBDATA1 : Z := 0x3d.
Definition DM_SBDATA2 : Z := 0x3e.
Definition DM_SBDATA3 : Z := 0x3f.
Definition DM_CUSTOM : Z := 0x1f.
Definition AC_ACCESS_REGISTER_AARSIZE : Z := 0x700000.
Definition AC_ACCESS_REGISTER_POSTEXEC : Z := 0x40000.
Definition AC_ACCESS_REGISTER_TRANSFER : Z := 0x20000.
Definition AC_ACCESS_REGISTER_WRITE : Z := 0x10000.
Definition AC_ACCESS_REGISTER_REGNO : Z := 0xffff.

(** * The header as tables

    A constant is a function of the [XLEN], [DXLEN] or [abits] some of them take. *)

Definition debug_define : Type := string * (Z -> Z).
Local Abbreviation K z := (fun _ : Z => z).
(** [1ULL << n]. *)
Local Abbreviation sll64 a n := (u64 (Z.shiftl a n)).

Definition debug_defines_0 : list debug_define := [
  ("DTM_IDCODE", K 1);
  ("DTM_IDCODE_VERSION_OFFSET", K 0x1c);
  ("DTM_IDCODE_VERSION_LENGTH", K 4);
  ("DTM_IDCODE_VERSION", K 0xf0000000);
  ("DTM_IDCODE_PARTNUMBER_OFFSET", K 0xc);
  ("DTM_IDCODE_PARTNUMBER_LENGTH", K 0x10);
  ("DTM_IDCODE_PARTNUMBER", K 0xffff000);
  ("DTM_IDCODE_MANUFID_OFFSET", K 1);
  ("DTM_IDCODE_MANUFID_LENGTH", K 0xb);
  ("DTM_IDCODE_MANUFID", K 0xffe);
  ("DTM_IDCODE_1_OFFSET", K 0);
  ("DTM_IDCODE_1_LENGTH", K 1);
  ("DTM_IDCODE_1", K 1);
  ("DTM_DTMCS", K 0x10);
  ("DTM_DTMCS_ERRINFO_OFFSET", K 0x12);
  ("DTM_DTMCS_ERRINFO_LENGTH", K 3);
  ("DTM_DTMCS_ERRINFO", K 0x1c0000);
  ("DTM_DTMCS_ERRINFO_NOT_IMPLEMENTED", K 0);
  ("DTM_DTMCS_ERRINFO_DMI_ERROR", K 1);
  ("DTM_DTMCS_ERRINFO_COMMUNICATION_ERROR", K 2);
  ("DTM_DTMCS_ERRINFO_DEVICE_ERROR", K 3);
  ("DTM_DTMCS_ERRINFO_UNKNOWN", K 4);
  ("DTM_DTMCS_DTMHARDRESET_OFFSET", K 0x11);
  ("DTM_DTMCS_DTMHARDRESET_LENGTH", K 1);
  ("DTM_DTMCS_DTMHARDRESET", K 0x20000);
  ("DTM_DTMCS_DMIRESET_OFFSET", K 0x10);
  ("DTM_DTMCS_DMIRESET_LENGTH", K 1);
  ("DTM_DTMCS_DMIRESET", K 0x10000);
  ("DTM_DTMCS_IDLE_OFFSET", K 0xc);
  ("DTM_DTMCS_IDLE_LENGTH", K 3);
  ("DTM_DTMCS_IDLE", K 0x7000);
  ("DTM_DTMCS_DMISTAT_OFFSET", K 0xa);
  ("DTM_DTMCS_DMISTAT_LENGTH", K 2);
  ("DTM_DTMCS_DMISTAT", K 0xc00);
  ("DTM_DTMCS_ABITS_OFFSET", K DTM_DTMCS_ABITS_OFFSET);
  ("DTM_DTMCS_ABITS_LENGTH", K 6);
  ("DTM_DTMCS_ABITS", K 0x3f0);
  ("DTM_DTMCS_VERSION_OFFSET", K 0);
  ("DTM_DTMCS_VERSION_LENGTH", K 4);
  ("DTM_DTMCS_VERSION", K 0xf);
  ("DTM_DTMCS_VERSION_0_11", K 0);
  ("DTM_DTMCS_VERSION_1_0", K 1);
  ("DTM_DTMCS_VERSION_CUSTOM", K 0xf);
  ("DTM_DMI", K 0x11);
  ("DTM_DMI_ADDRESS_OFFSET", K 0x22);
  ("DTM_DMI_ADDRESS_LENGTH", fun x => x);
  ("DTM_DMI_ADDRESS", fun x => u64 (0x400000000 * sll64 1 x - 0x400000000));
  ("DTM_DMI_DATA_OFFSET", K 2);
  ("DTM_DMI_DATA_LENGTH", K 0x20);
  ("DTM_DMI_DATA", K 0x3fffffffc);
  ("DTM_DMI_OP_OFFSET", K DTM_DMI_OP_OFFSET);
  ("DTM_DMI_OP_LENGTH", K 2);
  ("DTM_DMI_OP", K 3)].

Definition debug_defines_1 : list debug_define := [
  ("DTM_DMI_OP_NOP", K 0);
  ("DTM_DMI_OP_READ", K 1);
  ("DTM_DMI_OP_WRITE", K 2);
  ("DTM_DMI_OP_SUCCESS", K 0);
  ("DTM_DMI_OP_FAILED", K 2);
  ("DTM_DMI_OP_BUSY", K 3);
  ("CSR_DCSR", K 0x7b0);
  ("CSR_DCSR_DEBUGVER_OFFSET", K 0x1c);
  ("CSR_DCSR_DEBUGVER_LENGTH", K 4);
  ("CSR_DCSR_DEBUGVER", K 0xf0000000);
  ("CSR_DCSR_DEBUGVER_NONE", K 0);
  ("CSR_DCSR_DEBUGVER_1_0", K 4);
  ("CSR_DCSR_DEBUGVER_CUSTOM", K 0xf);
  ("CSR_DCSR_EXTCAUSE_OFFSET", K 0x18);
  ("CSR_DCSR_EXTCAUSE_LENGTH", K 3);
  ("CSR_DCSR_EXTCAUSE", K 0x7000000);
  ("CSR_DCSR_EXTCAUSE_CRITICAL_ERROR", K 0);
  ("CSR_DCSR_CETRIG_OFFSET", K 0x13);
  ("CSR_DCSR_CETRIG_LENGTH", K 1);
  ("CSR_DCSR_CETRIG", K 0x80000);
  ("CSR_DCSR_CETRIG_DISABLED", K 0);
  ("CSR_DCSR_CETRIG_ENABLED", K 1);
  ("CSR_DCSR_EBREAKVS_OFFSET", K 0x11);
  ("CSR_DCSR_EBREAKVS_LENGTH", K 1);
  ("CSR_DCSR_EBREAKVS", K 0x20000);
  ("CSR_DCSR_EBREAKVS_EXCEPTION", K 0);
  ("CSR_DCSR_EBREAKVS_DEBUG_MODE", K 1);
  ("CSR_DCSR_EBREAKVU_OFFSET", K 0x10);
  ("CSR_DCSR_EBREAKVU_LENGTH", K 1);
  ("CSR_DCSR_EBREAKVU", K 0x10000);
  ("CSR_DCSR_EBREAKVU_EXCEPTION", K 0);
  ("CSR_DCSR_EBREAKVU_DEBUG_MODE", K 1)].

Definition debug_defines_2 : list debug_define := [
  ("CSR_DCSR_EBREAKM_OFFSET", K 0xf);
  ("CSR_DCSR_EBREAKM_LENGTH", K 1);
  ("CSR_DCSR_EBREAKM", K 0x8000);
  ("CSR_DCSR_EBREAKM_EXCEPTION", K 0);
  ("CSR_DCSR_EBREAKM_DEBUG_MODE", K 1);
  ("CSR_DCSR_EBREAKS_OFFSET", K 0xd);
  ("CSR_DCSR_EBREAKS_LENGTH", K 1);
  ("CSR_DCSR_EBREAKS", K 0x2000);
  ("CSR_DCSR_EBREAKS_EXCEPTION", K 0);
  ("CSR_DCSR_EBREAKS_DEBUG_MODE", K 1);
  ("CSR_DCSR_EBREAKU_OFFSET", K 0xc);
  ("CSR_DCSR_EBREAKU_LENGTH", K 1);
  ("CSR_DCSR_EBREAKU", K 0x1000);
  ("CSR_DCSR_EBREAKU_EXCEPTION", K 0);
  ("CSR_DCSR_EBREAKU_DEBUG_MODE", K 1);
  ("CSR_DCSR_STEPIE_OFFSET", K 0xb);
  ("CSR_DCSR_STEPIE_LENGTH", K 1);
  ("CSR_DCSR_STEPIE", K 0x800);
  ("CSR_DCSR_STEPIE_INTERRUPTS_DISABLED", K 0);
  ("CSR_DCSR_STEPIE_INTERRUPTS_ENABLED", K 1);
  ("CSR_DCSR_STOPCOUNT_OFFSET", K 0xa);
  ("CSR_DCSR_STOPCOUNT_LENGTH", K 1);
  ("CSR_DCSR_STOPCOUNT", K 0x400);
  ("CSR_DCSR_STOPCOUNT_NORMAL", K 0);
  ("CSR_DCSR_STOPCOUNT_FREEZE", K 1);
  ("CSR_DCSR_STOPTIME_OFFSET", K 9);
  ("CSR_DCSR_STOPTIME_LENGTH", K 1);
  ("CSR_DCSR_STOPTIME", K 0x200);
  ("CSR_DCSR_STOPTIME_NORMAL", K 0);
  ("CSR_DCSR_STOPTIME_FREEZE", K 1);
  ("CSR_DCSR_CAUSE_OFFSET", K 6);
  ("CSR_DCSR_CAUSE_LENGTH", K 3);
  ("CSR_DCSR_CAUSE", K 0x1c0);
  ("CSR_DCSR_CAUSE_EBREAK", K 1);
  ("CSR_DCSR_CAUSE_TRIGGER", K 2);
  ("CSR_DCSR_CAUSE_HALTREQ", K 3);
  ("CSR_DCSR_CAUSE_STEP", K 4);
  ("CSR_DCSR_CAUSE_RESETHALTREQ", K 5);
  ("CSR_DCSR_CAUSE_GROUP", K 6);
  ("CSR_DCSR_CAUSE_OTHER", K 7);
  ("CSR_DCSR_V_OFFSET", K 5);
  ("CSR_DCSR_V_LENGTH", K 1)].

Definition debug_defines_3 : list debug_define := [
  ("CSR_DCSR_V", K 0x20);
  ("CSR_DCSR_MPRVEN_OFFSET", K 4);
  ("CSR_DCSR_MPRVEN_LENGTH", K 1);
  ("CSR_DCSR_MPRVEN", K 0x10);
  ("CSR_DCSR_MPRVEN_DISABLED", K 0);
  ("CSR_DCSR_MPRVEN_ENABLED", K 1);
  ("CSR_DCSR_NMIP_OFFSET", K 3);
  ("CSR_DCSR_NMIP_LENGTH", K 1);
  ("CSR_DCSR_NMIP", K 8);
  ("CSR_DCSR_STEP_OFFSET", K 2);
  ("CSR_DCSR_STEP_LENGTH", K 1);
  ("CSR_DCSR_STEP", K 4);
  ("CSR_DCSR_PRV_OFFSET", K 0);
  ("CSR_DCSR_PRV_LENGTH", K 2);
  ("CSR_DCSR_PRV", K 3);
  ("CSR_DPC", K 0x7b1);
  ("CSR_DPC_DPC_OFFSET", K 0);
  ("CSR_DPC_DPC_LENGTH", fun x => x);
  ("CSR_DPC_DPC", fun x => u64 (sll64 1 x - 1));
  ("CSR_DSCRATCH0", K 0x7b2);
  ("CSR_DSCRATCH0_DSCRATCH0_OFFSET", K 0);
  ("CSR_DSCRATCH0_DSCRATCH0_LENGTH", fun x => x);
  ("CSR_DSCRATCH0_DSCRATCH0", fun x => u64 (sll64 1 x - 1));
  ("CSR_DSCRATCH1", K 0x7b3);
  ("CSR_DSCRATCH1_DSCRATCH1_OFFSET", K 0);
  ("CSR_DSCRATCH1_DSCRATCH1_LENGTH", fun x => x);
  ("CSR_DSCRATCH1_DSCRATCH1", fun x => u64 (sll64 1 x - 1));
  ("CSR_TSELECT", K 0x7a0);
  ("CSR_TSELECT_INDEX_OFFSET", K 0);
  ("CSR_TSELECT_INDEX_LENGTH", fun x => x);
  ("CSR_TSELECT_INDEX", fun x => u64 (sll64 1 x - 1));
  ("CSR_TDATA1", K 0x7a1);
  ("CSR_TDATA1_TYPE_OFFSET", fun x => x - 4);
  ("CSR_TDATA1_TYPE_LENGTH", K 4);
  ("CSR_TDATA1_TYPE", fun x => u64 (0xf * sll64 1 (x - 4)));
  ("CSR_TDATA1_TYPE_NONE", K 0);
  ("CSR_TDATA1_TYPE_LEGACY", K 1);
  ("CSR_TDATA1_TYPE_MCONTROL", K 2);
  ("CSR_TDATA1_TYPE_ICOUNT", K 3);
  ("CSR_TDATA1_TYPE_ITRIGGER", K 4);
  ("CSR_TDATA1_TYPE_ETRIGGER", K 5);
  ("CSR_TDATA1_TYPE_MCONTROL6", K 6);
  ("CSR_TDATA1_TYPE_TMEXTTRIGGER", K 7);
  ("CSR_TDATA1_TYPE_CUSTOM_LOW", K 0xc);
  ("CSR_TDATA1_TYPE_CUSTOM_HIGH", K 0xe);
  ("CSR_TDATA1_TYPE_DISABLED", K 0xf);
  ("CSR_TDATA1_DMODE_OFFSET", fun x => x - 5);
  ("CSR_TDATA1_DMODE_LENGTH", K 1);
  ("CSR_TDATA1_DMODE", fun x => sll64 1 (x - 5));
  ("CSR_TDATA1_DMODE_BOTH", K 0);
  ("CSR_TDATA1_DMODE_DMODE", K 1)].

Definition debug_defines_4 : list debug_define := [
  ("CSR_TDATA1_DATA_OFFSET", K 0);
  ("CSR_TDATA1_DATA_LENGTH", fun x => x - 5);
  ("CSR_TDATA1_DATA", fun x => u64 (sll64 1 (x - 5) - 1));
  ("CSR_TDATA2", K 0x7a2);
  ("CSR_TDATA2_DATA_OFFSET", K 0);
  ("CSR_TDATA2_DATA_LENGTH", fun x => x);
  ("CSR_TDATA2_DATA", fun x => u64 (sll64 1 x - 1));
  ("CSR_TDATA3", K 0x7a3);
  ("CSR_TDATA3_DATA_OFFSET", K 0);
  ("CSR_TDATA3_DATA_LENGTH", fun x => x);
  ("CSR_TDATA3_DATA", fun x => u64 (sll64 1 x - 1));
  ("CSR_TINFO", K 0x7a4);
  ("CSR_TINFO_VERSION_OFFSET", K 0x18);
  ("CSR_TINFO_VERSION_LENGTH", K 8);
  ("CSR_TINFO_VERSION", K 0xff000000);
  ("CSR_TINFO_VERSION_0", K 0);
  ("CSR_TINFO_VERSION_1", K 1);
  ("CSR_TINFO_INFO_OFFSET", K 0);
  ("CSR_TINFO_INFO_LENGTH", K 0x10);
  ("CSR_TINFO_INFO", K 0xffff);
  ("CSR_TCONTROL", K 0x7a5);
  ("CSR_TCONTROL_MPTE_OFFSET", K 7);
  ("CSR_TCONTROL_MPTE_LENGTH", K 1);
  ("CSR_TCONTROL_MPTE", K 0x80);
  ("CSR_TCONTROL_MTE_OFFSET", K 3);
  ("CSR_TCONTROL_MTE_LENGTH", K 1);
  ("CSR_TCONTROL_MTE", K 8);
  ("CSR_TCONTROL_MTE_DISABLED", K 0);
  ("CSR_TCONTROL_MTE_ENABLED", K 1);
  ("CSR_HCONTEXT", K 0x6a8);
  ("CSR_SCONTEXT", K 0x5a8);
  ("CSR_SCONTEXT_DATA_OFFSET", K 0);
  ("CSR_SCONTEXT_DATA_LENGTH", K 0x20);
  ("CSR_SCONTEXT_DATA", K 0xffffffff);
  ("CSR_MCONTEXT", K 0x7a8);
  ("CSR_MCONTEXT_HCONTEXT_OFFSET", K 0);
  ("CSR_MCONTEXT_HCONTEXT_LENGTH", K 0xe);
  ("CSR_MCONTEXT_HCONTEXT", K 0x3fff);
  ("CSR_MSCONTEXT", K 0x7aa);
  ("CSR_MCONTROL", K 0x7a1);
  ("CSR_MCONTROL_TYPE_OFFSET", fun x => x - 4);
  ("CSR_MCONTROL_TYPE_LENGTH", K 4);
  ("CSR_MCONTROL_TYPE", fun x => u64 (0xf * sll64 1 (x - 4)));
  ("CSR_MCONTROL_DMODE_OFFSET", fun x => x - 5);
  ("CSR_MCONTROL_DMODE_LENGTH", K 1);
  ("CSR_MCONTROL_DMODE", fun x => sll64 1 (x - 5));
  ("CSR_MCONTROL_MASKMAX_OFFSET", fun x => x - 0xb);
  ("CSR_MCONTROL_MASKMAX_LENGTH", K 6);
  ("CSR_MCONTROL_MASKMAX", fun x => u64 (0x3f * sll64 1 (x - 0xb)));
  ("CSR_MCONTROL_SIZEHI_OFFSET", K 0x15);
  ("CSR_MCONTROL_SIZEHI_LENGTH", K 2);
  ("CSR_MCONTROL_SIZEHI", K 0x600000);
  ("CSR_MCONTROL_HIT_OFFSET", K 0x14);
  ("CSR_MCONTROL_HIT_LENGTH", K 1);
  ("CSR_MCONTROL_HIT", K 0x100000);
  ("CSR_MCONTROL_SELECT_OFFSET", K 0x13)].

Definition debug_defines_5 : list debug_define := [
  ("CSR_MCONTROL_SELECT_LENGTH", K 1);
  ("CSR_MCONTROL_SELECT", K 0x80000);
  ("CSR_MCONTROL_SELECT_ADDRESS", K 0);
  ("CSR_MCONTROL_SELECT_DATA", K 1);
  ("CSR_MCONTROL_TIMING_OFFSET", K 0x12);
  ("CSR_MCONTROL_TIMING_LENGTH", K 1);
  ("CSR_MCONTROL_TIMING", K 0x40000);
  ("CSR_MCONTROL_TIMING_BEFORE", K 0);
  ("CSR_MCONTROL_TIMING_AFTER", K 1);
  ("CSR_MCONTROL_SIZELO_OFFSET", K 0x10);
  ("CSR_MCONTROL_SIZELO_LENGTH", K 2);
  ("CSR_MCONTROL_SIZELO", K 0x30000);
  ("CSR_MCONTROL_SIZELO_ANY", K 0);
  ("CSR_MCONTROL_SIZELO_8BIT", K 1);
  ("CSR_MCONTROL_SIZELO_16BIT", K 2);
  ("CSR_MCONTROL_SIZELO_32BIT", K 3);
  ("CSR_MCONTROL_SIZELO_48BIT", K 4);
  ("CSR_MCONTROL_SIZELO_64BIT", K 5);
  ("CSR_MCONTROL_SIZELO_80BIT", K 6);
  ("CSR_MCONTROL_SIZELO_96BIT", K 7);
  ("CSR_MCONTROL_SIZELO_112BIT", K 8);
  ("CSR_MCONTROL_SIZELO_128BIT", K 9);
  ("CSR_MCONTROL_ACTION_OFFSET", K 0xc);
  ("CSR_MCONTROL_ACTION_LENGTH", K 4);
  ("CSR_MCONTROL_ACTION", K 0xf000);
  ("CSR_MCONTROL_ACTION_BREAKPOINT", K 0)].

Definition debug_defines_6 : list debug_define := [
  ("CSR_MCONTROL_ACTION_DEBUG_MODE", K 1);
  ("CSR_MCONTROL_ACTION_TRACE_ON", K 2);
  ("CSR_MCONTROL_ACTION_TRACE_OFF", K 3);
  ("CSR_MCONTROL_ACTION_TRACE_NOTIFY", K 4);
  ("CSR_MCONTROL_ACTION_EXTERNAL0", K 8);
  ("CSR_MCONTROL_ACTION_EXTERNAL1", K 9);
  ("CSR_MCONTROL_CHAIN_OFFSET", K 0xb);
  ("CSR_MCONTROL_CHAIN_LENGTH", K 1);
  ("CSR_MCONTROL_CHAIN", K 0x800);
  ("CSR_MCONTROL_CHAIN_DISABLED", K 0);
  ("CSR_MCONTROL_CHAIN_ENABLED", K 1);
  ("CSR_MCONTROL_MATCH_OFFSET", K 7);
  ("CSR_MCONTROL_MATCH_LENGTH", K 4);
  ("CSR_MCONTROL_MATCH", K 0x780);
  ("CSR_MCONTROL_MATCH_EQUAL", K 0);
  ("CSR_MCONTROL_MATCH_NAPOT", K 1);
  ("CSR_MCONTROL_MATCH_GE", K 2);
  ("CSR_MCONTROL_MATCH_LT", K 3);
  ("CSR_MCONTROL_MATCH_MASK_LOW", K 4);
  ("CSR_MCONTROL_MATCH_MASK_HIGH", K 5);
  ("CSR_MCONTROL_MATCH_NOT_EQUAL", K 8);
  ("CSR_MCONTROL_MATCH_NOT_NAPOT", K 9);
  ("CSR_MCONTROL_MATCH_NOT_MASK_LOW", K 0xc);
  ("CSR_MCONTROL_MATCH_NOT_MASK_HIGH", K 0xd);
  ("CSR_MCONTROL_M_OFFSET", K 6);
  ("CSR_MCONTROL_M_LENGTH", K 1);
  ("CSR_MCONTROL_M", K 0x40);
  ("CSR_MCONTROL_S_OFFSET", K 4);
  ("CSR_MCONTROL_S_LENGTH", K 1);
  ("CSR_MCONTROL_S", K 0x10);
  ("CSR_MCONTROL_U_OFFSET", K 3);
  ("CSR_MCONTROL_U_LENGTH", K 1);
  ("CSR_MCONTROL_U", K 8);
  ("CSR_MCONTROL_EXECUTE_OFFSET", K 2)].

Definition debug_defines_7 : list debug_define := [
  ("CSR_MCONTROL_EXECUTE_LENGTH", K 1);
  ("CSR_MCONTROL_EXECUTE", K 4);
  ("CSR_MCONTROL_STORE_OFFSET", K 1);
  ("CSR_MCONTROL_STORE_LENGTH", K 1);
  ("CSR_MCONTROL_STORE", K 2);
  ("CSR_MCONTROL_LOAD_OFFSET", K 0);
  ("CSR_MCONTROL_LOAD_LENGTH", K 1);
  ("CSR_MCONTROL_LOAD", K 1);
  ("CSR_MCONTROL6", K 0x7a1);
  ("CSR_MCONTROL6_TYPE_OFFSET", fun x => x - 4);
  ("CSR_MCONTROL6_TYPE_LENGTH", K 4);
  ("CSR_MCONTROL6_TYPE", fun x => u64 (0xf * sll64 1 (x - 4)));
  ("CSR_MCONTROL6_DMODE_OFFSET", fun x => x - 5);
  ("CSR_MCONTROL6_DMODE_LENGTH", K 1);
  ("CSR_MCONTROL6_DMODE", fun x => sll64 1 (x - 5));
  ("CSR_MCONTROL6_UNCERTAIN_OFFSET", K 0x1a);
  ("CSR_MCONTROL6_UNCERTAIN_LENGTH", K 1);
  ("CSR_MCONTROL6_UNCERTAIN", K 0x4000000);
  ("CSR_MCONTROL6_UNCERTAIN_CERTAIN", K 0);
  ("CSR_MCONTROL6_UNCERTAIN_UNCERTAIN", K 1);
  ("CSR_MCONTROL6_HIT1_OFFSET", K 0x19);
  ("CSR_MCONTROL6_HIT1_LENGTH", K 1);
  ("CSR_MCONTROL6_HIT1", K 0x2000000);
  ("CSR_MCONTROL6_VS_OFFSET", K 0x18);
  ("CSR_MCONTROL6_VS_LENGTH", K 1);
  ("CSR_MCONTROL6_VS", K 0x1000000);
  ("CSR_MCONTROL6_VU_OFFSET", K 0x17);
  ("CSR_MCONTROL6_VU_LENGTH", K 1);
  ("CSR_MCONTROL6_VU", K 0x800000);
  ("CSR_MCONTROL6_HIT0_OFFSET", K 0x16);
  ("CSR_MCONTROL6_HIT0_LENGTH", K 1);
  ("CSR_MCONTROL6_HIT0", K 0x400000);
  ("CSR_MCONTROL6_HIT0_FALSE", K 0);
  ("CSR_MCONTROL6_HIT0_BEFORE", K 1);
  ("CSR_MCONTROL6_HIT0_AFTER", K 2);
  ("CSR_MCONTROL6_HIT0_IMMEDIATELY_AFTER", K 3);
  ("CSR_MCONTROL6_SELECT_OFFSET", K 0x15);
  ("CSR_MCONTROL6_SELECT_LENGTH", K 1);
  ("CSR_MCONTROL6_SELECT", K 0x200000);
  ("CSR_MCONTROL6_SELECT_ADDRESS", K 0);
  ("CSR_MCONTROL6_SELECT_DATA", K 1);
  ("CSR_MCONTROL6_SIZE_OFFSET", K 0x10);
  ("CSR_MCONTROL6_SIZE_LENGTH", K 3);
  ("CSR_MCONTROL6_SIZE", K 0x70000);
  ("CSR_MCONTROL6_SIZE_ANY", K 0);
  ("CSR_MCONTROL6_SIZE_8BIT", K 1);
  ("CSR_MCONTROL6_SIZE_16BIT", K 2);
  ("CSR_MCONTROL6_SIZE_32BIT", K 3)].

Definition debug_defines_8 : list debug_define := [
  ("CSR_MCONTROL6_SIZE_48BIT", K 4);
  ("CSR_MCONTROL6_SIZE_64BIT", K 5);
  ("CSR_MCONTROL6_SIZE_128BIT", K 6);
  ("CSR_MCONTROL6_ACTION_OFFSET", K 0xc);
  ("CSR_MCONTROL6_ACTION_LENGTH", K 4);
  ("CSR_MCONTROL6_ACTION", K 0xf000);
  ("CSR_MCONTROL6_ACTION_BREAKPOINT", K 0);
  ("CSR_MCONTROL6_ACTION_DEBUG_MODE", K 1);
  ("CSR_MCONTROL6_ACTION_TRACE_ON", K 2);
  ("CSR_MCONTROL6_ACTION_TRACE_OFF", K 3);
  ("CSR_MCONTROL6_ACTION_TRACE_NOTIFY", K 4);
  ("CSR_MCONTROL6_ACTION_EXTERNAL0", K 8);
  ("CSR_MCONTROL6_ACTION_EXTERNAL1", K 9);
  ("CSR_MCONTROL6_CHAIN_OFFSET", K 0xb);
  ("CSR_MCONTROL6_CHAIN_LENGTH", K 1);
  ("CSR_MCONTROL6_CHAIN", K 0x800);
  ("CSR_MCONTROL6_CHAIN_DISABLED", K 0);
  ("CSR_MCONTROL6_CHAIN_ENABLED", K 1);
  ("CSR_MCONTROL6_MATCH_OFFSET", K 7);
  ("CSR_MCONTROL6_MATCH_LENGTH", K 4);
  ("CSR_MCONTROL6_MATCH", K 0x780);
  ("CSR_MCONTROL6_MATCH_EQUAL", K 0);
  ("CSR_MCONTROL6_MATCH_NAPOT", K 1);
  ("CSR_MCONTROL6_MATCH_GE", K 2);
  ("CSR_MCONTROL6_MATCH_LT", K 3);
  ("CSR_MCONTROL6_MATCH_MASK_LOW", K 4);
  ("CSR_MCONTROL6_MATCH_MASK_HIGH", K 5);
  ("CSR_MCONTROL6_MATCH_NOT_EQUAL", K 8)].

Definition debug_defines_9 : list debug_define := [
  ("CSR_MCONTROL6_MATCH_NOT_NAPOT", K 9);
  ("CSR_MCONTROL6_MATCH_NOT_MASK_LOW", K 0xc);
  ("CSR_MCONTROL6_MATCH_NOT_MASK_HIGH", K 0xd);
  ("CSR_MCONTROL6_M_OFFSET", K 6);
  ("CSR_MCONTROL6_M_LENGTH", K 1);
  ("CSR_MCONTROL6_M", K 0x40);
  ("CSR_MCONTROL6_UNCERTAINEN_OFFSET", K 5);
  ("CSR_MCONTROL6_UNCERTAINEN_LENGTH", K 1);
  ("CSR_MCONTROL6_UNCERTAINEN", K 0x20);
  ("CSR_MCONTROL6_UNCERTAINEN_DISABLED", K 0);
  ("CSR_MCONTROL6_UNCERTAINEN_ENABLED", K 1);
  ("CSR_MCONTROL6_S_OFFSET", K 4);
  ("CSR_MCONTROL6_S_LENGTH", K 1);
  ("CSR_MCONTROL6_S", K 0x10);
  ("CSR_MCONTROL6_U_OFFSET", K 3);
  ("CSR_MCONTROL6_U_LENGTH", K 1);
  ("CSR_MCONTROL6_U", K 8);
  ("CSR_MCONTROL6_EXECUTE_OFFSET", K 2);
  ("CSR_MCONTROL6_EXECUTE_LENGTH", K 1);
  ("CSR_MCONTROL6_EXECUTE", K 4);
  ("CSR_MCONTROL6_STORE_OFFSET", K 1);
  ("CSR_MCONTROL6_STORE_LENGTH", K 1);
  ("CSR_MCONTROL6_STORE", K 2);
  ("CSR_MCONTROL6_LOAD_OFFSET", K 0);
  ("CSR_MCONTROL6_LOAD_LENGTH", K 1);
  ("CSR_MCONTROL6_LOAD", K 1);
  ("CSR_ICOUNT", K 0x7a1);
  ("CSR_ICOUNT_TYPE_OFFSET", fun x => x - 4);
  ("CSR_ICOUNT_TYPE_LENGTH", K 4);
  ("CSR_ICOUNT_TYPE", fun x => u64 (0xf * sll64 1 (x - 4)));
  ("CSR_ICOUNT_DMODE_OFFSET", fun x => x - 5);
  ("CSR_ICOUNT_DMODE_LENGTH", K 1);
  ("CSR_ICOUNT_DMODE", fun x => sll64 1 (x - 5));
  ("CSR_ICOUNT_VS_OFFSET", K 0x1a);
  ("CSR_ICOUNT_VS_LENGTH", K 1);
  ("CSR_ICOUNT_VS", K 0x4000000);
  ("CSR_ICOUNT_VU_OFFSET", K 0x19);
  ("CSR_ICOUNT_VU_LENGTH", K 1);
  ("CSR_ICOUNT_VU", K 0x2000000);
  ("CSR_ICOUNT_HIT_OFFSET", K 0x18);
  ("CSR_ICOUNT_HIT_LENGTH", K 1);
  ("CSR_ICOUNT_HIT", K 0x1000000);
  ("CSR_ICOUNT_COUNT_OFFSET", K 0xa);
  ("CSR_ICOUNT_COUNT_LENGTH", K 0xe);
  ("CSR_ICOUNT_COUNT", K 0xfffc00);
  ("CSR_ICOUNT_M_OFFSET", K 9);
  ("CSR_ICOUNT_M_LENGTH", K 1);
  ("CSR_ICOUNT_M", K 0x200);
  ("CSR_ICOUNT_PENDING_OFFSET", K 8);
  ("CSR_ICOUNT_PENDING_LENGTH", K 1);
  ("CSR_ICOUNT_PENDING", K 0x100);
  ("CSR_ICOUNT_S_OFFSET", K 7);
  ("CSR_ICOUNT_S_LENGTH", K 1);
  ("CSR_ICOUNT_S", K 0x80);
  ("CSR_ICOUNT_U_OFFSET", K 6);
  ("CSR_ICOUNT_U_LENGTH", K 1);
  ("CSR_ICOUNT_U", K 0x40);
  ("CSR_ICOUNT_ACTION_OFFSET", K 0)].

Definition debug_defines_10 : list debug_define := [
  ("CSR_ICOUNT_ACTION_LENGTH", K 6);
  ("CSR_ICOUNT_ACTION", K 0x3f);
  ("CSR_ICOUNT_ACTION_BREAKPOINT", K 0);
  ("CSR_ICOUNT_ACTION_DEBUG_MODE", K 1);
  ("CSR_ICOUNT_ACTION_TRACE_ON", K 2);
  ("CSR_ICOUNT_ACTION_TRACE_OFF", K 3);
  ("CSR_ICOUNT_ACTION_TRACE_NOTIFY", K 4);
  ("CSR_ICOUNT_ACTION_EXTERNAL0", K 8);
  ("CSR_ICOUNT_ACTION_EXTERNAL1", K 9);
  ("CSR_ITRIGGER", K 0x7a1);
  ("CSR_ITRIGGER_TYPE_OFFSET", fun x => x - 4);
  ("CSR_ITRIGGER_TYPE_LENGTH", K 4);
  ("CSR_ITRIGGER_TYPE", fun x => u64 (0xf * sll64 1 (x - 4)));
  ("CSR_ITRIGGER_DMODE_OFFSET", fun x => x - 5);
  ("CSR_ITRIGGER_DMODE_LENGTH", K 1);
  ("CSR_ITRIGGER_DMODE", fun x => sll64 1 (x - 5));
  ("CSR_ITRIGGER_HIT_OFFSET", fun x => x - 6);
  ("CSR_ITRIGGER_HIT_LENGTH", K 1);
  ("CSR_ITRIGGER_HIT", fun x => sll64 1 (x - 6));
  ("CSR_ITRIGGER_VS_OFFSET", K 0xc);
  ("CSR_ITRIGGER_VS_LENGTH", K 1);
  ("CSR_ITRIGGER_VS", K 0x1000);
  ("CSR_ITRIGGER_VU_OFFSET", K 0xb);
  ("CSR_ITRIGGER_VU_LENGTH", K 1);
  ("CSR_ITRIGGER_VU", K 0x800);
  ("CSR_ITRIGGER_NMI_OFFSET", K 0xa);
  ("CSR_ITRIGGER_NMI_LENGTH", K 1);
  ("CSR_ITRIGGER_NMI", K 0x400);
  ("CSR_ITRIGGER_M_OFFSET", K 9);
  ("CSR_ITRIGGER_M_LENGTH", K 1);
  ("CSR_ITRIGGER_M", K 0x200);
  ("CSR_ITRIGGER_S_OFFSET", K 7);
  ("CSR_ITRIGGER_S_LENGTH", K 1);
  ("CSR_ITRIGGER_S", K 0x80);
  ("CSR_ITRIGGER_U_OFFSET", K 6);
  ("CSR_ITRIGGER_U_LENGTH", K 1);
  ("CSR_ITRIGGER_U", K 0x40);
  ("CSR_ITRIGGER_ACTION_OFFSET", K 0);
  ("CSR_ITRIGGER_ACTION_LENGTH", K 6);
  ("CSR_ITRIGGER_ACTION", K 0x3f);
  ("CSR_ITRIGGER_ACTION_BREAKPOINT", K 0);
  ("CSR_ITRIGGER_ACTION_DEBUG_MODE", K 1);
  ("CSR_ITRIGGER_ACTION_TRACE_ON", K 2);
  ("CSR_ITRIGGER_ACTION_TRACE_OFF", K 3);
  ("CSR_ITRIGGER_ACTION_TRACE_NOTIFY", K 4);
  ("CSR_ITRIGGER_ACTION_EXTERNAL0", K 8);
  ("CSR_ITRIGGER_ACTION_EXTERNAL1", K 9);
  ("CSR_ETRIGGER", K 0x7a1);
  ("CSR_ETRIGGER_TYPE_OFFSET", fun x => x - 4);
  ("CSR_ETRIGGER_TYPE_LENGTH", K 4);
  ("CSR_ETRIGGER_TYPE", fun x => u64 (0xf * sll64 1 (x - 4)));
  ("CSR_ETRIGGER_DMODE_OFFSET", fun x => x - 5);
  ("CSR_ETRIGGER_DMODE_LENGTH", K 1);
  ("CSR_ETRIGGER_DMODE", fun x => sll64 1 (x - 5));
  ("CSR_ETRIGGER_HIT_OFFSET", fun x => x - 6);
  ("CSR_ETRIGGER_HIT_LENGTH", K 1);
  ("CSR_ETRIGGER_HIT", fun x => sll64 1 (x - 6))].

Definition debug_defines_11 : list debug_define := [
  ("CSR_ETRIGGER_VS_OFFSET", K 0xc);
  ("CSR_ETRIGGER_VS_LENGTH", K 1);
  ("CSR_ETRIGGER_VS", K 0x1000);
  ("CSR_ETRIGGER_VU_OFFSET", K 0xb);
  ("CSR_ETRIGGER_VU_LENGTH", K 1);
  ("CSR_ETRIGGER_VU", K 0x800);
  ("CSR_ETRIGGER_M_OFFSET", K 9);
  ("CSR_ETRIGGER_M_LENGTH", K 1);
  ("CSR_ETRIGGER_M", K 0x200);
  ("CSR_ETRIGGER_S_OFFSET", K 7);
  ("CSR_ETRIGGER_S_LENGTH", K 1);
  ("CSR_ETRIGGER_S", K 0x80);
  ("CSR_ETRIGGER_U_OFFSET", K 6);
  ("CSR_ETRIGGER_U_LENGTH", K 1);
  ("CSR_ETRIGGER_U", K 0x40);
  ("CSR_ETRIGGER_ACTION_OFFSET", K 0);
  ("CSR_ETRIGGER_ACTION_LENGTH", K 6);
  ("CSR_ETRIGGER_ACTION", K 0x3f);
  ("CSR_ETRIGGER_ACTION_BREAKPOINT", K 0);
  ("CSR_ETRIGGER_ACTION_DEBUG_MODE", K 1);
  ("CSR_ETRIGGER_ACTION_TRACE_ON", K 2);
  ("CSR_ETRIGGER_ACTION_TRACE_OFF", K 3);
  ("CSR_ETRIGGER_ACTION_TRACE_NOTIFY", K 4);
  ("CSR_ETRIGGER_ACTION_EXTERNAL0", K 8);
  ("CSR_ETRIGGER_ACTION_EXTERNAL1", K 9);
  ("CSR_TMEXTTRIGGER", K 0x7a1);
  ("CSR_TMEXTTRIGGER_TYPE_OFFSET", fun x => x - 4);
  ("CSR_TMEXTTRIGGER_TYPE_LENGTH", K 4);
  ("CSR_TMEXTTRIGGER_TYPE", fun x => u64 (0xf * sll64 1 (x - 4)));
  ("CSR_TMEXTTRIGGER_DMODE_OFFSET", fun x => x - 5);
  ("CSR_TMEXTTRIGGER_DMODE_LENGTH", K 1);
  ("CSR_TMEXTTRIGGER_DMODE", fun x => sll64 1 (x - 5));
  ("CSR_TMEXTTRIGGER_HIT_OFFSET", fun x => x - 6);
  ("CSR_TMEXTTRIGGER_HIT_LENGTH", K 1);
  ("CSR_TMEXTTRIGGER_HIT", fun x => sll64 1 (x - 6));
  ("CSR_TMEXTTRIGGER_INTCTL_OFFSET", K 0x16);
  ("CSR_TMEXTTRIGGER_INTCTL_LENGTH", K 1);
  ("CSR_TMEXTTRIGGER_INTCTL", K 0x400000);
  ("CSR_TMEXTTRIGGER_SELECT_OFFSET", K 6);
  ("CSR_TMEXTTRIGGER_SELECT_LENGTH", K 0x10);
  ("CSR_TMEXTTRIGGER_SELECT", K 0x3fffc0);
  ("CSR_TMEXTTRIGGER_ACTION_OFFSET", K 0);
  ("CSR_TMEXTTRIGGER_ACTION_LENGTH", K 6);
  ("CSR_TMEXTTRIGGER_ACTION", K 0x3f);
  ("CSR_TMEXTTRIGGER_ACTION_BREAKPOINT", K 0);
  ("CSR_TMEXTTRIGGER_ACTION_DEBUG_MODE", K 1);
  ("CSR_TMEXTTRIGGER_ACTION_TRACE_ON", K 2);
  ("CSR_TMEXTTRIGGER_ACTION_TRACE_OFF", K 3);
  ("CSR_TMEXTTRIGGER_ACTION_TRACE_NOTIFY", K 4);
  ("CSR_TMEXTTRIGGER_ACTION_EXTERNAL0", K 8);
  ("CSR_TMEXTTRIGGER_ACTION_EXTERNAL1", K 9);
  ("CSR_TEXTRA32", K 0x7a3);
  ("CSR_TEXTRA32_MHVALUE_OFFSET", K 0x1a);
  ("CSR_TEXTRA32_MHVALUE_LENGTH", K 6);
  ("CSR_TEXTRA32_MHVALUE", K 0xfc000000);
  ("CSR_TEXTRA32_MHSELECT_OFFSET", K 0x17);
  ("CSR_TEXTRA32_MHSELECT_LENGTH", K 3);
  ("CSR_TEXTRA32_MHSELECT", K 0x3800000)].

Definition debug_defines_12 : list debug_define := [
  ("CSR_TEXTRA32_MHSELECT_IGNORE", K 0);
  ("CSR_TEXTRA32_MHSELECT_MCONTEXT", K 4);
  ("CSR_TEXTRA32_SBYTEMASK_OFFSET", K 0x12);
  ("CSR_TEXTRA32_SBYTEMASK_LENGTH", K 2);
  ("CSR_TEXTRA32_SBYTEMASK", K 0xc0000);
  ("CSR_TEXTRA32_SVALUE_OFFSET", K 2);
  ("CSR_TEXTRA32_SVALUE_LENGTH", K 0x10);
  ("CSR_TEXTRA32_SVALUE", K 0x3fffc);
  ("CSR_TEXTRA32_SSELECT_OFFSET", K 0);
  ("CSR_TEXTRA32_SSELECT_LENGTH", K 2);
  ("CSR_TEXTRA32_SSELECT", K 3);
  ("CSR_TEXTRA32_SSELECT_IGNORE", K 0);
  ("CSR_TEXTRA32_SSELECT_SCONTEXT", K 1);
  ("CSR_TEXTRA32_SSELECT_ASID", K 2);
  ("CSR_TEXTRA64", K 0x7a3);
  ("CSR_TEXTRA64_MHVALUE_OFFSET", K 0x33);
  ("CSR_TEXTRA64_MHVALUE_LENGTH", K 0xd);
  ("CSR_TEXTRA64_MHVALUE", K 0xfff8000000000000);
  ("CSR_TEXTRA64_MHSELECT_OFFSET", K 0x30);
  ("CSR_TEXTRA64_MHSELECT_LENGTH", K 3);
  ("CSR_TEXTRA64_MHSELECT", K 0x7000000000000);
  ("CSR_TEXTRA64_SBYTEMASK_OFFSET", K 0x24);
  ("CSR_TEXTRA64_SBYTEMASK_LENGTH", K 4);
  ("CSR_TEXTRA64_SBYTEMASK", K 0xf000000000);
  ("CSR_TEXTRA64_SVALUE_OFFSET", K 2);
  ("CSR_TEXTRA64_SVALUE_LENGTH", K 0x20);
  ("CSR_TEXTRA64_SVALUE", K 0x3fffffffc);
  ("CSR_TEXTRA64_SSELECT_OFFSET", K 0);
  ("CSR_TEXTRA64_SSELECT_LENGTH", K 2);
  ("CSR_TEXTRA64_SSELECT", K 3);
  ("DM_DMSTATUS", K DM_DMSTATUS);
  ("DM_DMSTATUS_NDMRESETPENDING_OFFSET", K 0x18);
  ("DM_DMSTATUS_NDMRESETPENDING_LENGTH", K 1);
  ("DM_DMSTATUS_NDMRESETPENDING", K 0x1000000);
  ("DM_DMSTATUS_NDMRESETPENDING_FALSE", K 0);
  ("DM_DMSTATUS_NDMRESETPENDING_TRUE", K 1);
  ("DM_DMSTATUS_STICKYUNAVAIL_OFFSET", K 0x17);
  ("DM_DMSTATUS_STICKYUNAVAIL_LENGTH", K 1);
  ("DM_DMSTATUS_STICKYUNAVAIL", K 0x800000);
  ("DM_DMSTATUS_STICKYUNAVAIL_CURRENT", K 0);
  ("DM_DMSTATUS_STICKYUNAVAIL_STICKY", K 1);
  ("DM_DMSTATUS_IMPEBREAK_OFFSET", K 0x16);
  ("DM_DMSTATUS_IMPEBREAK_LENGTH", K 1);
  ("DM_DMSTATUS_IMPEBREAK", K DM_DMSTATUS_IMPEBREAK);
  ("DM_DMSTATUS_ALLHAVERESET_OFFSET", K 0x13);
  ("DM_DMSTATUS_ALLHAVERESET_LENGTH", K 1);
  ("DM_DMSTATUS_ALLHAVERESET", K DM_DMSTATUS_ALLHAVERESET);
  ("DM_DMSTATUS_ANYHAVERESET_OFFSET", K 0x12);
  ("DM_DMSTATUS_ANYHAVERESET_LENGTH", K 1);
  ("DM_DMSTATUS_ANYHAVERESET", K DM_DMSTATUS_ANYHAVERESET);
  ("DM_DMSTATUS_ALLRESUMEACK_OFFSET", K 0x11);
  ("DM_DMSTATUS_ALLRESUMEACK_LENGTH", K 1);
  ("DM_DMSTATUS_ALLRESUMEACK", K DM_DMSTATUS_ALLRESUMEACK);
  ("DM_DMSTATUS_ANYRESUMEACK_OFFSET", K 0x10);
  ("DM_DMSTATUS_ANYRESUMEACK_LENGTH", K 1);
  ("DM_DMSTATUS_ANYRESUMEACK", K DM_DMSTATUS_ANYRESUMEACK)].

Definition debug_defines_13 : list debug_define := [
  ("DM_DMSTATUS_ALLNONEXISTENT_OFFSET", K 0xf);
  ("DM_DMSTATUS_ALLNONEXISTENT_LENGTH", K 1);
  ("DM_DMSTATUS_ALLNONEXISTENT", K DM_DMSTATUS_ALLNONEXISTENT);
  ("DM_DMSTATUS_ANYNONEXISTENT_OFFSET", K 0xe);
  ("DM_DMSTATUS_ANYNONEXISTENT_LENGTH", K 1);
  ("DM_DMSTATUS_ANYNONEXISTENT", K DM_DMSTATUS_ANYNONEXISTENT);
  ("DM_DMSTATUS_ALLUNAVAIL_OFFSET", K 0xd);
  ("DM_DMSTATUS_ALLUNAVAIL_LENGTH", K 1);
  ("DM_DMSTATUS_ALLUNAVAIL", K DM_DMSTATUS_ALLUNAVAIL);
  ("DM_DMSTATUS_ANYUNAVAIL_OFFSET", K 0xc);
  ("DM_DMSTATUS_ANYUNAVAIL_LENGTH", K 1);
  ("DM_DMSTATUS_ANYUNAVAIL", K DM_DMSTATUS_ANYUNAVAIL);
  ("DM_DMSTATUS_ALLRUNNING_OFFSET", K 0xb);
  ("DM_DMSTATUS_ALLRUNNING_LENGTH", K 1);
  ("DM_DMSTATUS_ALLRUNNING", K DM_DMSTATUS_ALLRUNNING);
  ("DM_DMSTATUS_ANYRUNNING_OFFSET", K 0xa);
  ("DM_DMSTATUS_ANYRUNNING_LENGTH", K 1);
  ("DM_DMSTATUS_ANYRUNNING", K DM_DMSTATUS_ANYRUNNING);
  ("DM_DMSTATUS_ALLHALTED_OFFSET", K 9);
  ("DM_DMSTATUS_ALLHALTED_LENGTH", K 1);
  ("DM_DMSTATUS_ALLHALTED", K DM_DMSTATUS_ALLHALTED);
  ("DM_DMSTATUS_ANYHALTED_OFFSET", K 8);
  ("DM_DMSTATUS_ANYHALTED_LENGTH", K 1);
  ("DM_DMSTATUS_ANYHALTED", K DM_DMSTATUS_ANYHALTED);
  ("DM_DMSTATUS_AUTHENTICATED_OFFSET", K 7);
  ("DM_DMSTATUS_AUTHENTICATED_LENGTH", K 1);
  ("DM_DMSTATUS_AUTHENTICATED", K DM_DMSTATUS_AUTHENTICATED);
  ("DM_DMSTATUS_AUTHENTICATED_FALSE", K 0);
  ("DM_DMSTATUS_AUTHENTICATED_TRUE", K 1);
  ("DM_DMSTATUS_AUTHBUSY_OFFSET", K 6);
  ("DM_DMSTATUS_AUTHBUSY_LENGTH", K 1);
  ("DM_DMSTATUS_AUTHBUSY", K DM_DMSTATUS_AUTHBUSY);
  ("DM_DMSTATUS_AUTHBUSY_READY", K 0);
  ("DM_DMSTATUS_AUTHBUSY_BUSY", K 1);
  ("DM_DMSTATUS_HASRESETHALTREQ_OFFSET", K 5);
  ("DM_DMSTATUS_HASRESETHALTREQ_LENGTH", K 1);
  ("DM_DMSTATUS_HASRESETHALTREQ", K 0x20);
  ("DM_DMSTATUS_CONFSTRPTRVALID_OFFSET", K 4);
  ("DM_DMSTATUS_CONFSTRPTRVALID_LENGTH", K 1);
  ("DM_DMSTATUS_CONFSTRPTRVALID", K 0x10);
  ("DM_DMSTATUS_CONFSTRPTRVALID_INVALID", K 0);
  ("DM_DMSTATUS_CONFSTRPTRVALID_VALID", K 1);
  ("DM_DMSTATUS_VERSION_OFFSET", K 0);
  ("DM_DMSTATUS_VERSION_LENGTH", K 4);
  ("DM_DMSTATUS_VERSION", K DM_DMSTATUS_VERSION);
  ("DM_DMSTATUS_VERSION_NONE", K 0);
  ("DM_DMSTATUS_VERSION_0_11", K 1);
  ("DM_DMSTATUS_VERSION_0_13", K 2);
  ("DM_DMSTATUS_VERSION_1_0", K 3);
  ("DM_DMSTATUS_VERSION_CUSTOM", K 0xf);
  ("DM_DMCONTROL", K DM_DMCONTROL);
  ("DM_DMCONTROL_HALTREQ_OFFSET", K 0x1f);
  ("DM_DMCONTROL_HALTREQ_LENGTH", K 1);
  ("DM_DMCONTROL_HALTREQ", K DM_DMCONTROL_HALTREQ)].

Definition debug_defines_14 : list debug_define := [
  ("DM_DMCONTROL_RESUMEREQ_OFFSET", K 0x1e);
  ("DM_DMCONTROL_RESUMEREQ_LENGTH", K 1);
  ("DM_DMCONTROL_RESUMEREQ", K DM_DMCONTROL_RESUMEREQ);
  ("DM_DMCONTROL_HARTRESET_OFFSET", K 0x1d);
  ("DM_DMCONTROL_HARTRESET_LENGTH", K 1);
  ("DM_DMCONTROL_HARTRESET", K DM_DMCONTROL_HARTRESET);
  ("DM_DMCONTROL_ACKHAVERESET_OFFSET", K 0x1c);
  ("DM_DMCONTROL_ACKHAVERESET_LENGTH", K 1);
  ("DM_DMCONTROL_ACKHAVERESET", K DM_DMCONTROL_ACKHAVERESET);
  ("DM_DMCONTROL_ACKHAVERESET_NOP", K 0);
  ("DM_DMCONTROL_ACKHAVERESET_ACK", K 1);
  ("DM_DMCONTROL_ACKUNAVAIL_OFFSET", K 0x1b);
  ("DM_DMCONTROL_ACKUNAVAIL_LENGTH", K 1);
  ("DM_DMCONTROL_ACKUNAVAIL", K 0x8000000);
  ("DM_DMCONTROL_ACKUNAVAIL_NOP", K 0);
  ("DM_DMCONTROL_ACKUNAVAIL_ACK", K 1);
  ("DM_DMCONTROL_HASEL_OFFSET", K 0x1a);
  ("DM_DMCONTROL_HASEL_LENGTH", K 1);
  ("DM_DMCONTROL_HASEL", K DM_DMCONTROL_HASEL);
  ("DM_DMCONTROL_HASEL_SINGLE", K 0);
  ("DM_DMCONTROL_HASEL_MULTIPLE", K 1);
  ("DM_DMCONTROL_HARTSELLO_OFFSET", K 0x10);
  ("DM_DMCONTROL_HARTSELLO_LENGTH", K DM_DMCONTROL_HARTSELLO_LENGTH);
  ("DM_DMCONTROL_HARTSELLO", K DM_DMCONTROL_HARTSELLO);
  ("DM_DMCONTROL_HARTSELHI_OFFSET", K 6);
  ("DM_DMCONTROL_HARTSELHI_LENGTH", K 0xa);
  ("DM_DMCONTROL_HARTSELHI", K DM_DMCONTROL_HARTSELHI);
  ("DM_DMCONTROL_SETKEEPALIVE_OFFSET", K 5);
  ("DM_DMCONTROL_SETKEEPALIVE_LENGTH", K 1);
  ("DM_DMCONTROL_SETKEEPALIVE", K 0x20);
  ("DM_DMCONTROL_CLRKEEPALIVE_OFFSET", K 4);
  ("DM_DMCONTROL_CLRKEEPALIVE_LENGTH", K 1);
  ("DM_DMCONTROL_CLRKEEPALIVE", K 0x10);
  ("DM_DMCONTROL_SETRESETHALTREQ_OFFSET", K 3);
  ("DM_DMCONTROL_SETRESETHALTREQ_LENGTH", K 1);
  ("DM_DMCONTROL_SETRESETHALTREQ", K 8);
  ("DM_DMCONTROL_CLRRESETHALTREQ_OFFSET", K 2);
  ("DM_DMCONTROL_CLRRESETHALTREQ_LENGTH", K 1);
  ("DM_DMCONTROL_CLRRESETHALTREQ", K 4);
  ("DM_DMCONTROL_NDMRESET_OFFSET", K 1);
  ("DM_DMCONTROL_NDMRESET_LENGTH", K 1);
  ("DM_DMCONTROL_NDMRESET", K DM_DMCONTROL_NDMRESET);
  ("DM_DMCONTROL_DMACTIVE_OFFSET", K 0);
  ("DM_DMCONTROL_DMACTIVE_LENGTH", K 1)].

Definition debug_defines_15 : list debug_define := [
  ("DM_DMCONTROL_DMACTIVE", K DM_DMCONTROL_DMACTIVE);
  ("DM_DMCONTROL_DMACTIVE_INACTIVE", K 0);
  ("DM_DMCONTROL_DMACTIVE_ACTIVE", K 1);
  ("DM_HARTINFO", K DM_HARTINFO);
  ("DM_HARTINFO_NSCRATCH_OFFSET", K 0x14);
  ("DM_HARTINFO_NSCRATCH_LENGTH", K 4);
  ("DM_HARTINFO_NSCRATCH", K DM_HARTINFO_NSCRATCH);
  ("DM_HARTINFO_DATAACCESS_OFFSET", K 0x10);
  ("DM_HARTINFO_DATAACCESS_LENGTH", K 1);
  ("DM_HARTINFO_DATAACCESS", K DM_HARTINFO_DATAACCESS);
  ("DM_HARTINFO_DATAACCESS_CSR", K 0);
  ("DM_HARTINFO_DATAACCESS_MEMORY", K 1);
  ("DM_HARTINFO_DATASIZE_OFFSET", K 0xc);
  ("DM_HARTINFO_DATASIZE_LENGTH", K 4);
  ("DM_HARTINFO_DATASIZE", K DM_HARTINFO_DATASIZE);
  ("DM_HARTINFO_DATAADDR_OFFSET", K 0);
  ("DM_HARTINFO_DATAADDR_LENGTH", K 0xc);
  ("DM_HARTINFO_DATAADDR", K DM_HARTINFO_DATAADDR);
  ("DM_HAWINDOWSEL", K DM_HAWINDOWSEL);
  ("DM_HAWINDOWSEL_HAWINDOWSEL_OFFSET", K 0);
  ("DM_HAWINDOWSEL_HAWINDOWSEL_LENGTH", K 0xf);
  ("DM_HAWINDOWSEL_HAWINDOWSEL", K 0x7fff);
  ("DM_HAWINDOW", K DM_HAWINDOW);
  ("DM_HAWINDOW_MASKDATA_OFFSET", K 0);
  ("DM_HAWINDOW_MASKDATA_LENGTH", K 0x20);
  ("DM_HAWINDOW_MASKDATA", K 0xffffffff);
  ("DM_ABSTRACTCS", K DM_ABSTRACTCS);
  ("DM_ABSTRACTCS_PROGBUFSIZE_OFFSET", K 0x18);
  ("DM_ABSTRACTCS_PROGBUFSIZE_LENGTH", K 5);
  ("DM_ABSTRACTCS_PROGBUFSIZE", K DM_ABSTRACTCS_PROGBUFSIZE);
  ("DM_ABSTRACTCS_BUSY_OFFSET", K 0xc);
  ("DM_ABSTRACTCS_BUSY_LENGTH", K 1);
  ("DM_ABSTRACTCS_BUSY", K DM_ABSTRACTCS_BUSY);
  ("DM_ABSTRACTCS_BUSY_READY", K 0);
  ("DM_ABSTRACTCS_BUSY_BUSY", K 1);
  ("DM_ABSTRACTCS_RELAXEDPRIV_OFFSET", K 0xb);
  ("DM_ABSTRACTCS_RELAXEDPRIV_LENGTH", K 1);
  ("DM_ABSTRACTCS_RELAXEDPRIV", K 0x800);
  ("DM_ABSTRACTCS_RELAXEDPRIV_FULL_CHECKS", K 0);
  ("DM_ABSTRACTCS_RELAXEDPRIV_RELAXED_CHECKS", K 1);
  ("DM_ABSTRACTCS_CMDERR_OFFSET", K 8);
  ("DM_ABSTRACTCS_CMDERR_LENGTH", K 3);
  ("DM_ABSTRACTCS_CMDERR", K DM_ABSTRACTCS_CMDERR);
  ("DM_ABSTRACTCS_CMDERR_NONE", K 0);
  ("DM_ABSTRACTCS_CMDERR_BUSY", K 1)].

Definition debug_defines_16 : list debug_define := [
  ("DM_ABSTRACTCS_CMDERR_NOT_SUPPORTED", K 2);
  ("DM_ABSTRACTCS_CMDERR_EXCEPTION", K 3);
  ("DM_ABSTRACTCS_CMDERR_HALT_RESUME", K 4);
  ("DM_ABSTRACTCS_CMDERR_BUS", K 5);
  ("DM_ABSTRACTCS_CMDERR_RESERVED", K 6);
  ("DM_ABSTRACTCS_CMDERR_OTHER", K 7);
  ("DM_ABSTRACTCS_DATACOUNT_OFFSET", K 0);
  ("DM_ABSTRACTCS_DATACOUNT_LENGTH", K 4);
  ("DM_ABSTRACTCS_DATACOUNT", K DM_ABSTRACTCS_DATACOUNT);
  ("DM_COMMAND", K DM_COMMAND);
  ("DM_COMMAND_CMDTYPE_OFFSET", K 0x18);
  ("DM_COMMAND_CMDTYPE_LENGTH", K 8);
  ("DM_COMMAND_CMDTYPE", K 0xff000000);
  ("DM_COMMAND_CONTROL_OFFSET", K 0);
  ("DM_COMMAND_CONTROL_LENGTH", K 0x18);
  ("DM_COMMAND_CONTROL", K 0xffffff);
  ("DM_ABSTRACTAUTO", K DM_ABSTRACTAUTO);
  ("DM_ABSTRACTAUTO_AUTOEXECPROGBUF_OFFSET", K 0x10);
  ("DM_ABSTRACTAUTO_AUTOEXECPROGBUF_LENGTH", K 0x10);
  ("DM_ABSTRACTAUTO_AUTOEXECPROGBUF", K DM_ABSTRACTAUTO_AUTOEXECPROGBUF);
  ("DM_ABSTRACTAUTO_AUTOEXECDATA_OFFSET", K 0);
  ("DM_ABSTRACTAUTO_AUTOEXECDATA_LENGTH", K 0xc);
  ("DM_ABSTRACTAUTO_AUTOEXECDATA", K DM_ABSTRACTAUTO_AUTOEXECDATA);
  ("DM_CONFSTRPTR0", K 0x19);
  ("DM_CONFSTRPTR0_ADDR_OFFSET", K 0);
  ("DM_CONFSTRPTR0_ADDR_LENGTH", K 0x20);
  ("DM_CONFSTRPTR0_ADDR", K 0xffffffff);
  ("DM_CONFSTRPTR1", K 0x1a);
  ("DM_CONFSTRPTR1_ADDR_OFFSET", K 0);
  ("DM_CONFSTRPTR1_ADDR_LENGTH", K 0x20);
  ("DM_CONFSTRPTR1_ADDR", K 0xffffffff);
  ("DM_CONFSTRPTR2", K 0x1b);
  ("DM_CONFSTRPTR2_ADDR_OFFSET", K 0);
  ("DM_CONFSTRPTR2_ADDR_LENGTH", K 0x20);
  ("DM_CONFSTRPTR2_ADDR", K 0xffffffff);
  ("DM_CONFSTRPTR3", K 0x1c);
  ("DM_CONFSTRPTR3_ADDR_OFFSET", K 0);
  ("DM_CONFSTRPTR3_ADDR_LENGTH", K 0x20);
  ("DM_CONFSTRPTR3_ADDR", K 0xffffffff);
  ("DM_NEXTDM", K 0x1d);
  ("DM_NEXTDM_ADDR_OFFSET", K 0);
  ("DM_NEXTDM_ADDR_LENGTH", K 0x20);
  ("DM_NEXTDM_ADDR", K 0xffffffff);
  ("DM_DATA0", K DM_DATA0);
  ("DM_DATA0_DATA_OFFSET", K 0);
  ("DM_DATA0_DATA_LENGTH", K 0x20);
  ("DM_DATA0_DATA", K 0xffffffff);
  ("DM_DATA1", K 5);
  ("DM_DATA2", K 6);
  ("DM_DATA3", K 7);
  ("DM_DATA4", K 8);
  ("DM_DATA5", K 9);
  ("DM_DATA6", K 0xa);
  ("DM_DATA7", K 0xb);
  ("DM_DATA8", K 0xc);
  ("DM_DATA9", K 0xd);
  ("DM_DATA10", K 0xe);
  ("DM_DATA11", K 0xf);
  ("DM_PROGBUF0", K DM_PROGBUF0);
  ("DM_PROGBUF0_DATA_OFFSET", K 0);
  ("DM_PROGBUF0_DATA_LENGTH", K 0x20);
  ("DM_PROGBUF0_DATA", K 0xffffffff);
  ("DM_PROGBUF1", K 0x21);
  ("DM_PROGBUF2", K 0x22);
  ("DM_PROGBUF3", K 0x23);
  ("DM_PROGBUF4", K 0x24);
  ("DM_PROGBUF5", K 0x25);
  ("DM_PROGBUF6", K 0x26);
  ("DM_PROGBUF7", K 0x27);
  ("DM_PROGBUF8", K 0x28);
  ("DM_PROGBUF9", K 0x29);
  ("DM_PROGBUF10", K 0x2a);
  ("DM_PROGBUF11", K 0x2b);
  ("DM_PROGBUF12", K 0x2c);
  ("DM_PROGBUF13", K 0x2d);
  ("DM_PROGBUF14", K 0x2e);
  ("DM_PROGBUF15", K 0x2f);
  ("DM_AUTHDATA", K DM_AUTHDATA);
  ("DM_AUTHDATA_DATA_OFFSET", K 0);
  ("DM_AUTHDATA_DATA_LENGTH", K 0x20);
  ("DM_AUTHDATA_DATA", K 0xffffffff);
  ("DM_DMCS2", K DM_DMCS2);
  ("DM_DMCS2_GROUPTYPE_OFFSET", K 0xb);
  ("DM_DMCS2_GROUPTYPE_LENGTH", K 1);
  ("DM_DMCS2_GROUPTYPE", K DM_DMCS2_GROUPTYPE);
  ("DM_DMCS2_GROUPTYPE_HALT", K 0);
  ("DM_DMCS2_GROUPTYPE_RESUME", K 1);
  ("DM_DMCS2_DMEXTTRIGGER_OFFSET", K 7);
  ("DM_DMCS2_DMEXTTRIGGER_LENGTH", K 4);
  ("DM_DMCS2_DMEXTTRIGGER", K 0x780)].

Definition debug_defines_17 : list debug_define := [
  ("DM_DMCS2_GROUP_OFFSET", K 2);
  ("DM_DMCS2_GROUP_LENGTH", K 5);
  ("DM_DMCS2_GROUP", K DM_DMCS2_GROUP);
  ("DM_DMCS2_HGWRITE_OFFSET", K 1);
  ("DM_DMCS2_HGWRITE_LENGTH", K 1);
  ("DM_DMCS2_HGWRITE", K DM_DMCS2_HGWRITE);
  ("DM_DMCS2_HGSELECT_OFFSET", K 0);
  ("DM_DMCS2_HGSELECT_LENGTH", K 1);
  ("DM_DMCS2_HGSELECT", K 1);
  ("DM_DMCS2_HGSELECT_HARTS", K 0);
  ("DM_DMCS2_HGSELECT_TRIGGERS", K 1);
  ("DM_HALTSUM0", K 0x40);
  ("DM_HALTSUM0_HALTSUM0_OFFSET", K 0);
  ("DM_HALTSUM0_HALTSUM0_LENGTH", K 0x20);
  ("DM_HALTSUM0_HALTSUM0", K 0xffffffff);
  ("DM_HALTSUM1", K 0x13);
  ("DM_HALTSUM1_HALTSUM1_OFFSET", K 0);
  ("DM_HALTSUM1_HALTSUM1_LENGTH", K 0x20);
  ("DM_HALTSUM1_HALTSUM1", K 0xffffffff);
  ("DM_HALTSUM2", K 0x34);
  ("DM_HALTSUM2_HALTSUM2_OFFSET", K 0);
  ("DM_HALTSUM2_HALTSUM2_LENGTH", K 0x20);
  ("DM_HALTSUM2_HALTSUM2", K 0xffffffff);
  ("DM_HALTSUM3", K 0x35);
  ("DM_HALTSUM3_HALTSUM3_OFFSET", K 0);
  ("DM_HALTSUM3_HALTSUM3_LENGTH", K 0x20);
  ("DM_HALTSUM3_HALTSUM3", K 0xffffffff);
  ("DM_SBCS", K DM_SBCS);
  ("DM_SBCS_SBVERSION_OFFSET", K 0x1d);
  ("DM_SBCS_SBVERSION_LENGTH", K 3);
  ("DM_SBCS_SBVERSION", K DM_SBCS_SBVERSION);
  ("DM_SBCS_SBVERSION_LEGACY", K 0);
  ("DM_SBCS_SBVERSION_1_0", K 1);
  ("DM_SBCS_SBBUSYERROR_OFFSET", K 0x16);
  ("DM_SBCS_SBBUSYERROR_LENGTH", K 1);
  ("DM_SBCS_SBBUSYERROR", K DM_SBCS_SBBUSYERROR);
  ("DM_SBCS_SBBUSY_OFFSET", K 0x15);
  ("DM_SBCS_SBBUSY_LENGTH", K 1);
  ("DM_SBCS_SBBUSY", K DM_SBCS_SBBUSY);
  ("DM_SBCS_SBREADONADDR_OFFSET", K 0x14);
  ("DM_SBCS_SBREADONADDR_LENGTH", K 1);
  ("DM_SBCS_SBREADONADDR", K DM_SBCS_SBREADONADDR);
  ("DM_SBCS_SBACCESS_OFFSET", K 0x11);
  ("DM_SBCS_SBACCESS_LENGTH", K 3);
  ("DM_SBCS_SBACCESS", K DM_SBCS_SBACCESS);
  ("DM_SBCS_SBACCESS_8BIT", K 0);
  ("DM_SBCS_SBACCESS_16BIT", K 1);
  ("DM_SBCS_SBACCESS_32BIT", K 2);
  ("DM_SBCS_SBACCESS_64BIT", K 3);
  ("DM_SBCS_SBACCESS_128BIT", K 4);
  ("DM_SBCS_SBAUTOINCREMENT_OFFSET", K 0x10);
  ("DM_SBCS_SBAUTOINCREMENT_LENGTH", K 1);
  ("DM_SBCS_SBAUTOINCREMENT", K DM_SBCS_SBAUTOINCREMENT);
  ("DM_SBCS_SBREADONDATA_OFFSET", K 0xf);
  ("DM_SBCS_SBREADONDATA_LENGTH", K 1);
  ("DM_SBCS_SBREADONDATA", K DM_SBCS_SBREADONDATA)].

Definition debug_defines_18 : list debug_define := [
  ("DM_SBCS_SBERROR_OFFSET", K 0xc);
  ("DM_SBCS_SBERROR_LENGTH", K 3);
  ("DM_SBCS_SBERROR", K DM_SBCS_SBERROR);
  ("DM_SBCS_SBERROR_NONE", K 0);
  ("DM_SBCS_SBERROR_TIMEOUT", K 1);
  ("DM_SBCS_SBERROR_ADDRESS", K 2);
  ("DM_SBCS_SBERROR_ALIGNMENT", K 3);
  ("DM_SBCS_SBERROR_SIZE", K 4);
  ("DM_SBCS_SBERROR_OTHER", K 7);
  ("DM_SBCS_SBASIZE_OFFSET", K 5);
  ("DM_SBCS_SBASIZE_LENGTH", K 7);
  ("DM_SBCS_SBASIZE", K DM_SBCS_SBASIZE);
  ("DM_SBCS_SBACCESS128_OFFSET", K 4);
  ("DM_SBCS_SBACCESS128_LENGTH", K 1);
  ("DM_SBCS_SBACCESS128", K DM_SBCS_SBACCESS128);
  ("DM_SBCS_SBACCESS64_OFFSET", K 3);
  ("DM_SBCS_SBACCESS64_LENGTH", K 1);
  ("DM_SBCS_SBACCESS64", K DM_SBCS_SBACCESS64);
  ("DM_SBCS_SBACCESS32_OFFSET", K 2);
  ("DM_SBCS_SBACCESS32_LENGTH", K 1);
  ("DM_SBCS_SBACCESS32", K DM_SBCS_SBACCESS32);
  ("DM_SBCS_SBACCESS16_OFFSET", K 1);
  ("DM_SBCS_SBACCESS16_LENGTH", K 1);
  ("DM_SBCS_SBACCESS16", K DM_SBCS_SBACCESS16);
  ("DM_SBCS_SBACCESS8_OFFSET", K 0);
  ("DM_SBCS_SBACCESS8_LENGTH", K 1);
  ("DM_SBCS_SBACCESS8", K DM_SBCS_SBACCESS8);
  ("DM_SBADDRESS0", K DM_SBADDRESS0);
  ("DM_SBADDRESS0_ADDRESS_OFFSET", K 0);
  ("DM_SBADDRESS0_ADDRESS_LENGTH", K 0x20);
  ("DM_SBADDRESS0_ADDRESS", K 0xffffffff);
  ("DM_SBADDRESS1", K DM_SBADDRESS1);
  ("DM_SBADDRESS1_ADDRESS_OFFSET", K 0);
  ("DM_SBADDRESS1_ADDRESS_LENGTH", K 0x20);
  ("DM_SBADDRESS1_ADDRESS", K 0xffffffff);
  ("DM_SBADDRESS2", K DM_SBADDRESS2);
  ("DM_SBADDRESS2_ADDRESS_OFFSET", K 0);
  ("DM_SBADDRESS2_ADDRESS_LENGTH", K 0x20);
  ("DM_SBADDRESS2_ADDRESS", K 0xffffffff);
  ("DM_SBADDRESS3", K DM_SBADDRESS3);
  ("DM_SBADDRESS3_ADDRESS_OFFSET", K 0);
  ("DM_SBADDRESS3_ADDRESS_LENGTH", K 0x20);
  ("DM_SBADDRESS3_ADDRESS", K 0xffffffff);
  ("DM_SBDATA0", K DM_SBDATA0);
  ("DM_SBDATA0_DATA_OFFSET", K 0);
  ("DM_SBDATA0_DATA_LENGTH", K 0x20);
  ("DM_SBDATA0_DATA", K 0xffffffff);
  ("DM_SBDATA1", K DM_SBDATA1);
  ("DM_SBDATA1_DATA_OFFSET", K 0);
  ("DM_SBDATA1_DATA_LENGTH", K 0x20);
  ("DM_SBDATA1_DATA", K 0xffffffff);
  ("DM_SBDATA2", K DM_SBDATA2);
  ("DM_SBDATA2_DATA_OFFSET", K 0);
  ("DM_SBDATA2_DATA_LENGTH", K 0x20);
  ("DM_SBDATA2_DATA", K 0xffffffff);
  ("DM_SBDATA3", K DM_SBDATA3);
  ("DM_SBDATA3_DATA_OFFSET", K 0);
  ("DM_SBDATA3_DATA_LENGTH", K 0x20);
  ("DM_SBDATA3_DATA", K 0xffffffff);
  ("DM_CUSTOM", K DM_CUSTOM);
  ("DM_CUSTOM0", K 0x70);
  ("DM_CUSTOM1", K 0x71);
  ("DM_CUSTOM2", K 0x72);
  ("DM_CUSTOM3", K 0x73);
  ("DM_CUSTOM4", K 0x74);
  ("DM_CUSTOM5", K 0x75);
  ("DM_CUSTOM6", K 0x76);
  ("DM_CUSTOM7", K 0x77);
  ("DM_CUSTOM8", K 0x78);
  ("DM_CUSTOM9", K 0x79);
  ("DM_CUSTOM10", K 0x7a);
  ("DM_CUSTOM11", K 0x7b);
  ("DM_CUSTOM12", K 0x7c);
  ("DM_CUSTOM13", K 0x7d);
  ("DM_CUSTOM14", K 0x7e);
  ("DM_CUSTOM15", K 0x7f);
  ("SHORTNAME", K 0x123);
  ("SHORTNAME_FIELD_OFFSET", K 0);
  ("SHORTNAME_FIELD_LENGTH", K 8);
  ("SHORTNAME_FIELD", K 0xff)].

Definition debug_defines_19 : list debug_define := [
  ("AC_ACCESS_REGISTER_CMDTYPE_OFFSET", K 0x18);
  ("AC_ACCESS_REGISTER_CMDTYPE_LENGTH", K 8);
  ("AC_ACCESS_REGISTER_CMDTYPE", K 0xff000000);
  ("AC_ACCESS_REGISTER_AARSIZE_OFFSET", K 0x14);
  ("AC_ACCESS_REGISTER_AARSIZE_LENGTH", K 3);
  ("AC_ACCESS_REGISTER_AARSIZE", K AC_ACCESS_REGISTER_AARSIZE);
  ("AC_ACCESS_REGISTER_AARSIZE_32BIT", K 2);
  ("AC_ACCESS_REGISTER_AARSIZE_64BIT", K 3);
  ("AC_ACCESS_REGISTER_AARSIZE_128BIT", K 4);
  ("AC_ACCESS_REGISTER_AARPOSTINCREMENT_OFFSET", K 0x13);
  ("AC_ACCESS_REGISTER_AARPOSTINCREMENT_LENGTH", K 1);
  ("AC_ACCESS_REGISTER_AARPOSTINCREMENT", K 0x80000);
  ("AC_ACCESS_REGISTER_AARPOSTINCREMENT_DISABLED", K 0);
  ("AC_ACCESS_REGISTER_AARPOSTINCREMENT_ENABLED", K 1);
  ("AC_ACCESS_REGISTER_POSTEXEC_OFFSET", K 0x12);
  ("AC_ACCESS_REGISTER_POSTEXEC_LENGTH", K 1);
  ("AC_ACCESS_REGISTER_POSTEXEC", K AC_ACCESS_REGISTER_POSTEXEC);
  ("AC_ACCESS_REGISTER_POSTEXEC_DISABLED", K 0);
  ("AC_ACCESS_REGISTER_POSTEXEC_ENABLED", K 1);
  ("AC_ACCESS_REGISTER_TRANSFER_OFFSET", K 0x11);
  ("AC_ACCESS_REGISTER_TRANSFER_LENGTH", K 1);
  ("AC_ACCESS_REGISTER_TRANSFER", K AC_ACCESS_REGISTER_TRANSFER);
  ("AC_ACCESS_REGISTER_TRANSFER_DISABLED", K 0);
  ("AC_ACCESS_REGISTER_TRANSFER_ENABLED", K 1);
  ("AC_ACCESS_REGISTER_WRITE_OFFSET", K 0x10);
  ("AC_ACCESS_REGISTER_WRITE_LENGTH", K 1);
  ("AC_ACCESS_REGISTER_WRITE", K AC_ACCESS_REGISTER_WRITE);
  ("AC_ACCESS_REGISTER_WRITE_ARG0", K 0);
  ("AC_ACCESS_REGISTER_WRITE_REGISTER", K 1);
  ("AC_ACCESS_REGISTER_REGNO_OFFSET", K 0);
  ("AC_ACCESS_REGISTER_REGNO_LENGTH", K 0x10);
  ("AC_ACCESS_REGISTER_REGNO", K AC_ACCESS_REGISTER_REGNO);
  ("AC_QUICK_ACCESS_CMDTYPE_OFFSET", K 0x18);
  ("AC_QUICK_ACCESS_CMDTYPE_LENGTH", K 8);
  ("AC_QUICK_ACCESS_CMDTYPE", K 0xff000000);
  ("AC_ACCESS_MEMORY_CMDTYPE_OFFSET", K 0x18);
  ("AC_ACCESS_MEMORY_CMDTYPE_LENGTH", K 8);
  ("AC_ACCESS_MEMORY_CMDTYPE", K 0xff000000);
  ("AC_ACCESS_MEMORY_AAMVIRTUAL_OFFSET", K 0x17);
  ("AC_ACCESS_MEMORY_AAMVIRTUAL_LENGTH", K 1);
  ("AC_ACCESS_MEMORY_AAMVIRTUAL", K 0x800000);
  ("AC_ACCESS_MEMORY_AAMVIRTUAL_PHYSICAL", K 0);
  ("AC_ACCESS_MEMORY_AAMVIRTUAL_VIRTUAL", K 1);
  ("AC_ACCESS_MEMORY_AAMSIZE_OFFSET", K 0x14);
  ("AC_ACCESS_MEMORY_AAMSIZE_LENGTH", K 3);
  ("AC_ACCESS_MEMORY_AAMSIZE", K 0x700000);
  ("AC_ACCESS_MEMORY_AAMSIZE_8BIT", K 0);
  ("AC_ACCESS_MEMORY_AAMSIZE_16BIT", K 1);
  ("AC_ACCESS_MEMORY_AAMSIZE_32BIT", K 2);
  ("AC_ACCESS_MEMORY_AAMSIZE_64BIT", K 3)].

Definition debug_defines_20 : list debug_define := [
  ("AC_ACCESS_MEMORY_AAMSIZE_128BIT", K 4);
  ("AC_ACCESS_MEMORY_AAMPOSTINCREMENT_OFFSET", K 0x13);
  ("AC_ACCESS_MEMORY_AAMPOSTINCREMENT_LENGTH", K 1);
  ("AC_ACCESS_MEMORY_AAMPOSTINCREMENT", K 0x80000);
  ("AC_ACCESS_MEMORY_WRITE_OFFSET", K 0x10);
  ("AC_ACCESS_MEMORY_WRITE_LENGTH", K 1);
  ("AC_ACCESS_MEMORY_WRITE", K 0x10000);
  ("AC_ACCESS_MEMORY_WRITE_ARG0", K 0);
  ("AC_ACCESS_MEMORY_WRITE_MEMORY", K 1);
  ("AC_ACCESS_MEMORY_TARGET_SPECIFIC_OFFSET", K 0xe);
  ("AC_ACCESS_MEMORY_TARGET_SPECIFIC_LENGTH", K 2);
  ("AC_ACCESS_MEMORY_TARGET_SPECIFIC", K 0xc000);
  ("VIRT_PRIV_V_OFFSET", K 2);
  ("VIRT_PRIV_V_LENGTH", K 1);
  ("VIRT_PRIV_V", K 4);
  ("VIRT_PRIV_PRV_OFFSET", K 0);
  ("VIRT_PRIV_PRV_LENGTH", K 2);
  ("VIRT_PRIV_PRV", K 3)].

Definition debug_defines : list debug_define := concat [debug_defines_0; debug_defines_1; debug_defines_2; debug_defines_3; debug_defines_4; debug_defines_5; debug_defines_6; debug_defines_7; debug_defines_8; debug_defines_9; debug_defines_10; debug_defines_11; debug_defines_12; debug_defines_13; debug_defines_14; debug_defines_15; debug_defines_16; debug_defines_17; debug_defines_18; debug_defines_19; debug_defines_20].

Fixpoint find_define (k : string) (l : list debug_define) : option (Z -> Z) :=
  match l with [] => None | (k', f) :: l => if String.eqb k k' then Some f else find_define k l end.

(** The fields of the header: a name that also has an offset and a length. *)
Definition field_agrees (xlen : Z) (f : debug_define) : bool :=
  match find_define (fst f ++ "_OFFSET") debug_defines, find_define (fst f ++ "_LENGTH") debug_defines with
  | Some off, Some len => (snd f xlen =? u64 (Z.shiftl (Z.ones (len xlen)) (off xlen)))%Z
  | _, _ => true
  end.
