(* ===== verification/JtagDtm.v ===== *)
(** The JTAG transport of the debug module, [riscv/jtag_dtm.cc] and
    [riscv/jtag_dtm.h]: the TAP controller, its instruction and data registers,
    and the accesses to the debug module that updates of [IR_DBUS] make. *)

From S2P Require Import Prelude Decode DebugDefines.

(** What the transport asks of a debug module; an operation is [None] when the
    simulator would stop. *)
Class dmi_target (D : Type) : Type := {
  dmi_read : Z -> D -> option (option Z * D);
  dmi_write : Z -> Z -> D -> option (bool * D);
  run_test_idle : D -> option D
}.

(** What a debug module promises: an invariant under which no operation fails, and
    which every operation keeps. *)
Class dmi_safe (D : Type) `{dmi_target D} : Type := {
  dmi_inv : D -> Prop;
  safe_read address d : 0 <= address < 128 -> dmi_inv d -> exists r d', dmi_read address d = Some (r, d') /\ dmi_inv d';
  safe_write address value d : 0 <= address < 128 -> 0 <= value < 2 ^ 32 -> dmi_inv d ->
    exists r d', dmi_write address value d = Some (r, d') /\ dmi_inv d';
  safe_idle d : dmi_inv d -> exists d', run_test_idle d = Some d' /\ dmi_inv d'
}.

Inductive jtag_state_t : Type :=
| TEST_LOGIC_RESET | RUN_TEST_IDLE
| SELECT_DR_SCAN | CAPTURE_DR | SHIFT_DR | EXIT1_DR | PAUSE_DR | EXIT2_DR | UPDATE_DR
| SELECT_IR_SCAN | CAPTURE_IR | SHIFT_IR | EXIT1_IR | PAUSE_IR | EXIT2_IR | UPDATE_IR.

Definition next (s : jtag_state_t) (tms : bool) : jtag_state_t :=
  match s, tms with
  | TEST_LOGIC_RESET, false => RUN_TEST_IDLE | TEST_LOGIC_RESET, true => TEST_LOGIC_RESET
  | RUN_TEST_IDLE, false => RUN_TEST_IDLE | RUN_TEST_IDLE, true => SELECT_DR_SCAN
  | SELECT_DR_SCAN, false => CAPTURE_DR | SELECT_DR_SCAN, true => SELECT_IR_SCAN
  | CAPTURE_DR, false => SHIFT_DR | CAPTURE_DR, true => EXIT1_DR
  | SHIFT_DR, false => SHIFT_DR | SHIFT_DR, true => EXIT1_DR
  | EXIT1_DR, false => PAUSE_DR | EXIT1_DR, true => UPDATE_DR
  | PAUSE_DR, false => PAUSE_DR | PAUSE_DR, true => EXIT2_DR
  | EXIT2_DR, false => SHIFT_DR | EXIT2_DR, true => UPDATE_DR
  | UPDATE_DR, false => RUN_TEST_IDLE | UPDATE_DR, true => SELECT_DR_SCAN
  | SELECT_IR_SCAN, false => CAPTURE_IR | SELECT_IR_SCAN, true => TEST_LOGIC_RESET
  | CAPTURE_IR, false => SHIFT_IR | CAPTURE_IR, true => EXIT1_IR
  | SHIFT_IR, false => SHIFT_IR | SHIFT_IR, true => EXIT1_IR
  | EXIT1_IR, false => PAUSE_IR | EXIT1_IR, true => UPDATE_IR
  | PAUSE_IR, false => PAUSE_IR | PAUSE_IR, true => EXIT2_IR
  | EXIT2_IR, false => SHIFT_IR | EXIT2_IR, true => UPDATE_IR
  | UPDATE_IR, false => RUN_TEST_IDLE | UPDATE_IR, true => SELECT_DR_SCAN
  end.

Definition IR_IDCODE : Z := 1.
Definition IR_DTMCONTROL : Z := 0x10.
Definition IR_DBUS : Z := 0x11.
Definition IR_BYPASS : Z := 0x1f.

Definition DTMCONTROL_DMIRESET : Z := Z.shiftl 1 16.
Definition DTMCONTROL_DMIHARDRESET : Z := Z.shiftl 1 17.

Definition idcode : Z := 0xdeadbeef.
Definition abits : Z := 7.
Definition ir_length : Z := 5.

Definition DMI_OP : Z := 3.
Definition DMI_DATA : Z := Z.shiftl 0xffffffff 2.
Definition DMI_ADDRESS : Z := Z.shiftl 1 (abits + 34) - Z.shiftl 1 34.

Definition DMI_OP_STATUS_SUCCESS : Z := 0.
Definition DMI_OP_STATUS_FAILED : Z := 2.
Definition DMI_OP_STATUS_BUSY : Z := 3.
Definition DMI_OP_READ : Z := 1.
Definition DMI_OP_WRITE : Z := 2.

Section jtag.
Context {D : Type} `{!dmi_target D} (required_rti_cycles : Z).

Record jtag_dtm_t : Type := mk_jtag {
  tck : bool; tms : bool; tdi : bool; tdo : bool;
  ir : Z; dr : Z; dr_length : Z;
  dtmcontrol : Z; dmi : Z; bypass : Z;
  rti_remaining : Z; busy_stuck : bool;
  state : jtag_state_t;
  dm : D }.

Definition set_tdo (x : bool) (j : jtag_dtm_t) : jtag_dtm_t :=
  mk_jtag (tck j) (tms j) (tdi j) x (ir j) (dr j) (dr_length j) (dtmcontrol j) (dmi j) (bypass j)
    (rti_remaining j) (busy_stuck j) (state j) (dm j).
Definition set_ir (x : Z) (j : jtag_dtm_t) : jtag_dtm_t :=
  mk_jtag (tck j) (tms j) (tdi j) (tdo j) x (dr j) (dr_length j) (dtmcontrol j) (dmi j) (bypass j)
    (rti_remaining j) (busy_stuck j) (state j) (dm j).
Definition set_dr (x : Z) (j : jtag_dtm_t) : jtag_dtm_t :=
  mk_jtag (tck j) (tms j) (tdi j) (tdo j) (ir j) x (dr_length j) (dtmcontrol j) (dmi j) (bypass j)
    (rti_remaining j) (busy_stuck j) (state j) (dm j).
Definition set_dr_length (x : Z) (j : jtag_dtm_t) : jtag_dtm_t :=
  mk_jtag (tck j) (tms j) (tdi j) (tdo j) (ir j) (dr j) x (dtmcontrol j) (dmi j) (bypass j)
    (rti_remaining j) (busy_stuck j) (state j) (dm j).
Definition set_dmi (x : Z) (j : jtag_dtm_t) : jtag_dtm_t :=
  mk_jtag (tck j) (tms j) (tdi j) (tdo j) (ir j) (dr j) (dr_length j) (dtmcontrol j) x (bypass j)
    (rti_remaining j) (busy_stuck j) (state j) (dm j).
Definition set_bypass (x : Z) (j : jtag_dtm_t) : jtag_dtm_t :=
  mk_jtag (tck j) (tms j) (tdi j) (tdo j) (ir j) (dr j) (dr_length j) (dtmcontrol j) (dmi j) x
    (rti_remaining j) (busy_stuck j) (state j) (dm j).
Definition set_rti_remaining (x : Z) (j : jtag_dtm_t) : jtag_dtm_t :=
  mk_jtag (tck j) (tms j) (tdi j) (tdo j) (ir j) (dr j) (dr_length j) (dtmcontrol j) (dmi j) (bypass j)
    x (busy_stuck j) (state j) (dm j).
Definition set_busy_stuck (x : bool) (j : jtag_dtm_t) : jtag_dtm_t :=
  mk_jtag (tck j) (tms j) (tdi j) (tdo j) (ir j) (dr j) (dr_length j) (dtmcontrol j) (dmi j) (bypass j)
    (rti_remaining j) x (state j) (dm j).
Definition set_state (x : jtag_state_t) (j : jtag_dtm_t) : jtag_dtm_t :=
  mk_jtag (tck j) (tms j) (tdi j) (tdo j) (ir j) (dr j) (dr_length j) (dtmcontrol j) (dmi j) (bypass j)
    (rti_remaining j) (busy_stuck j) x (dm j).
Definition set_dm (x : D) (j : jtag_dtm_t) : jtag_dtm_t :=
  mk_jtag (tck j) (tms j) (tdi j) (tdo j) (ir j) (dr j) (dr_length j) (dtmcontrol j) (dmi j) (bypass j)
    (rti_remaining j) (busy_stuck j) (state j) x.

(** The constructor, with what it leaves uninitialised as arguments. *)
Definition new_jtag (ir0 dr0 dr_length0 rti0 : Z) (busy0 : bool) (d : D) : jtag_dtm_t :=
  mk_jtag false false false false ir0 dr0 dr_length0
    (Z.lor (Z.shiftl abits DTM_DTMCS_ABITS_OFFSET) 1) (Z.shiftl DMI_OP_STATUS_SUCCESS DTM_DMI_OP_OFFSET) 0
    rti0 busy0 TEST_LOGIC_RESET d.

Definition reset (j : jtag_dtm_t) : jtag_dtm_t :=
  set_dmi 0 (set_rti_remaining 0 (set_busy_stuck false (set_state TEST_LOGIC_RESET j))).

(** An unsupported instruction leaves the data register as it was. *)
Definition capture_dr (j : jtag_dtm_t) : jtag_dtm_t :=
  if ir j =? IR_IDCODE then set_dr_length 32 (set_dr idcode j)
  else if ir j =? IR_DTMCONTROL then set_dr_length 32 (set_dr (dtmcontrol j) j)
  else if ir j =? IR_DBUS then
    set_dr_length (abits + 34)
      (if (0 <? rti_remaining j) || busy_stuck j then set_busy_stuck true (set_dr DMI_OP_STATUS_BUSY j)
       else set_dr (dmi j) j)
  else if ir j =? IR_BYPASS then set_dr_length 1 (set_dr (bypass j) j)
  else j.

(** The access of an update of [IR_DBUS]: the new [dmi], and whether the
    access succeeded. *)
Definition dbus_access (op address data dmi0 : Z) (d : D) : option (Z * bool * D) :=
  if op =? DMI_OP_READ then
    '(r, d) ← dmi_read address d;
    Some (match r with Some value => (set_field dmi0 DMI_DATA value, true, d) | None => (dmi0, false, d) end)
  else if op =? DMI_OP_WRITE then
    '(success, d) ← dmi_write address data d; Some (dmi0, success, d)
  else Some (dmi0, true, d).

Definition update_dr (j : jtag_dtm_t) : option jtag_dtm_t :=
  if ir j =? IR_DTMCONTROL then
    let j1 := if negb (Z.land (dr j) DTMCONTROL_DMIRESET =? 0) then set_busy_stuck false j else j in
    Some (if negb (Z.land (dr j) DTMCONTROL_DMIHARDRESET =? 0) then reset j1 else j1)
  else if ir j =? IR_BYPASS then Some (set_bypass (u32 (dr j)) j)
  else if (ir j =? IR_DBUS) && negb (busy_stuck j) then
    let op := get_field (dr j) DMI_OP in
    let data := get_field (dr j) DMI_DATA in
    let address := get_field (dr j) DMI_ADDRESS in
    '(dmi1, success, d) ← dbus_access op address data (dr j) (dm j);
    let dmi1 := set_field dmi1 DMI_OP (if success : bool then DMI_OP_STATUS_SUCCESS else DMI_OP_STATUS_FAILED) in
    Some (set_rti_remaining required_rti_cycles (set_dmi dmi1 (set_dm d j)))
  else Some j.

(** The positive edge of the clock, with the pins as they were before it. *)
Definition positive_edge (j : jtag_dtm_t) : jtag_dtm_t :=
  let j1 :=
    match state j with
    | SHIFT_DR => set_dr (Z.lor (Z.shiftr (dr j) 1) (u64 (Z.shiftl (Z.b2z (tdi j)) (dr_length j - 1)))) j
    | SHIFT_IR => set_ir (Z.lor (Z.shiftr (ir j) 1) (Z.shiftl (Z.b2z (tdi j)) (ir_length - 1))) j
    | _ => j
    end in
  set_state (next (state j) (tms j)) j1.

Definition negative_edge (j : jtag_dtm_t) : option jtag_dtm_t :=
  match state j with
  | RUN_TEST_IDLE =>
      let j1 := if 0 <? rti_remaining j then set_rti_remaining (rti_remaining j - 1) j else j in
      d ← run_test_idle (dm j1); Some (set_dm d j1)
  | TEST_LOGIC_RESET => Some (set_ir IR_IDCODE j)
  | CAPTURE_DR => Some (capture_dr j)
  | SHIFT_DR => Some (set_tdo (Z.odd (dr j)) j)
  | UPDATE_DR => update_dr j
  | SHIFT_IR => Some (set_tdo (Z.odd (ir j)) j)
  | _ => Some j
  end.

Definition set_pins (tck' tms' tdi' : bool) (j : jtag_dtm_t) : option jtag_dtm_t :=
  j ← (if negb (tck j) && tck' then Some (positive_edge j) else negative_edge j);
  Some (mk_jtag tck' tms' tdi' (tdo j) (ir j) (dr j) (dr_length j) (dtmcontrol j) (dmi j) (bypass j)
    (rti_remaining j) (busy_stuck j) (state j) (dm j)).

(** A command of [remote_bitbang_t]: the pins, a reset, or a sample of [tdo];
    the character sent back, if any.  Everything else ([B], [b], [Q], unknown
    characters) leaves the TAP alone. *)
Definition execute_command (command : Z) (j : jtag_dtm_t) : option (option bool * jtag_dtm_t) :=
  if (48 <=? command) && (command <=? 55) then
    let pins := command - 48 in
    j ← set_pins (Z.testbit pins 2) (Z.testbit pins 1) (Z.testbit pins 0) j; Some (None, j)
  else if command =? 114 then Some (None, reset j)
  else if command =? 82 then Some (Some (tdo j), j)
  else Some (None, j).

End jtag.

Arguments jtag_dtm_t D : clear implicits.
