(* ===== verification/IsaExt.v ===== *)
(** Extension identifiers of [riscv/isa_parser.h].  The single-letter
    extensions are the ASCII codes of their letters, as in the [enum]. *)

From S2P Require Import Prelude.

Definition ext_letter (c : ascii) : Z := Z.of_N (N_of_ascii c).

Definition EXT_ZFH : Z := 91.
Definition EXT_ZFHMIN : Z := 92.
Definition EXT_ZBA : Z := 93.
Definition EXT_ZBB : Z := 94.
Definition EXT_ZBC : Z := 95.
Definition EXT_ZBS : Z := 96.
Definition EXT_ZBKB : Z := 97.
Definition EXT_ZBKC : Z := 98.
Definition EXT_ZBKX : Z := 99.
Definition EXT_ZCA : Z := 100.
Definition EXT_ZCB : Z := 101.
Definition EXT_ZCD : Z := 102.
Definition EXT_ZCF : Z := 103.
Definition EXT_ZCLSD : Z := 104.
Definition EXT_ZCMP : Z := 105.
Definition EXT_ZCMT : Z := 106.
Definition EXT_ZKND : Z := 107.
Definition EXT_ZKNE : Z := 108.
Definition EXT_ZKNH : Z := 109.
Definition EXT_ZKSED : Z := 110.
Definition EXT_ZKSH : Z := 111.
Definition EXT_ZKR : Z := 112.
Definition EXT_ZMMUL : Z := 113.
Definition EXT_ZVFH : Z := 114.
Definition EXT_ZVFHMIN : Z := 115.
Definition EXT_SMEPMP : Z := 116.
Definition EXT_SMSTATEEN : Z := 117.
Definition EXT_SMRNMI : Z := 118.
Definition EXT_SSCOFPMF : Z := 119.
Definition EXT_SVADU : Z := 120.
Definition EXT_SVADE : Z := 121.
Definition EXT_SVNAPOT : Z := 122.
Definition EXT_SVPBMT : Z := 123.
Definition EXT_SVINVAL : Z := 124.
Definition EXT_ZDINX : Z := 125.
Definition EXT_ZFA : Z := 126.
Definition EXT_ZFBFMIN : Z := 127.
Definition EXT_ZFINX : Z := 128.
Definition EXT_ZHINX : Z := 129.
Definition EXT_ZHINXMIN : Z := 130.
Definition EXT_ZICCID : Z := 131.
Definition EXT_ZICBOM : Z := 132.
Definition EXT_ZICBOZ : Z := 133.
Definition EXT_ZICNTR : Z := 134.
Definition EXT_ZICOND : Z := 135.
Definition EXT_ZIHPM : Z := 136.
Definition EXT_ZILSD : Z := 137.
Definition EXT_ZVBB : Z := 138.
Definition EXT_ZVBC : Z := 139.
Definition EXT_ZVFBFMIN : Z := 140.
Definition EXT_ZVFBFWMA : Z := 141.
Definition EXT_ZVKG : Z := 142.
Definition EXT_ZVKNED : Z := 143.
Definition EXT_ZVKNHA : Z := 144.
Definition EXT_ZVKNHB : Z := 145.
Definition EXT_ZVKSED : Z := 146.
Definition EXT_ZVKSH : Z := 147.
Definition EXT_ZVQDOTQ : Z := 148.
Definition EXT_ZVQBDOT8I : Z := 149.
Definition EXT_ZVQBDOT16I : Z := 150.
Definition EXT_ZVFWBDOT16BF : Z := 151.
Definition EXT_ZVFBDOT32F : Z := 152.
Definition EXT_ZVQLDOT8I : Z := 153.
Definition EXT_ZVQLDOT16I : Z := 154.
Definition EXT_ZVFWLDOT16BF : Z := 155.
Definition EXT_SSTC : Z := 156.
Definition EXT_ZAAMO : Z := 157.
Definition EXT_ZALRSC : Z := 158.
Definition EXT_ZACAS : Z := 159.
Definition EXT_ZABHA : Z := 160.
Definition EXT_ZAWRS : Z := 161.
Definition EXT_INTERNAL_ZFH_MOVE : Z := 162.
Definition EXT_SMCSRIND : Z := 163.
Definition EXT_SSCSRIND : Z := 164.
Definition EXT_SMCDELEG : Z := 165.
Definition EXT_SSCCFG : Z := 166.
Definition EXT_SMCNTRPMF : Z := 167.
Definition EXT_ZIMOP : Z := 168.
Definition EXT_ZCMOP : Z := 169.
Definition EXT_ZALASR : Z := 170.
Definition EXT_SSQOSID : Z := 171.
Definition EXT_ZICFILP : Z := 172.
Definition EXT_ZICFISS : Z := 173.
Definition EXT_SSDBLTRP : Z := 174.
Definition EXT_SMDBLTRP : Z := 175.
Definition EXT_SMMPM : Z := 176.
Definition EXT_SMNPM : Z := 177.
Definition EXT_SSNPM : Z := 178.
Definition EXT_SMAIA : Z := 179.
Definition EXT_SSAIA : Z := 180.
Definition NUM_ISA_EXTENSIONS : Z := 181.

(** [impl_extension_t] *)
Definition IMPL_MMU_SV32 : Z := 0.
Definition IMPL_MMU_SV39 : Z := 1.
Definition IMPL_MMU_SV48 : Z := 2.
Definition IMPL_MMU_SV57 : Z := 3.
Definition IMPL_MMU_SBARE : Z := 4.
Definition IMPL_MMU : Z := 5.
Definition IMPL_MMU_VMID : Z := 6.
Definition IMPL_MMU_ASID : Z := 7.

(** A [std::bitset] as the integer whose bits are the elements. *)
Definition bitset_test (s i : Z) : bool := Z.testbit s i.
Definition bitset_set (s i : Z) (b : bool) : Z := if b then Z.setbit s i else Z.clearbit s i.
