(* ===== verification/Trap.v ===== *)
(** Traps: the class hierarchy of [riscv/trap.h] and the exceptions an
    instruction can raise. *)

From S2P Require Import Prelude Encoding.

(** [trap_t] and its two subclasses carrying values. *)
Inductive trap_t : Type :=
| Plain_trap (which : Z)
| Insn_trap (which : Z) (gva : bool) (tval : Z)
| Mem_trap (which : Z) (gva : bool) (tval tval2 tinst : Z).

Definition cause (t : trap_t) : Z :=
  match t with Plain_trap w | Insn_trap w _ _ | Mem_trap w _ _ _ _ => w end.

Definition has_gva (t : trap_t) : bool :=
  match t with Plain_trap _ => false | Insn_trap _ g _ | Mem_trap _ g _ _ _ => g end.

Definition has_tval (t : trap_t) : bool :=
  match t with Plain_trap _ => false | _ => true end.

Definition get_tval (t : trap_t) : Z :=
  match t with Plain_trap _ => 0 | Insn_trap _ _ v | Mem_trap _ _ v _ _ => v end.

Definition has_tval2 (t : trap_t) : bool :=
  match t with Mem_trap _ _ _ _ _ => true | _ => false end.

Definition get_tval2 (t : trap_t) : Z :=
  match t with Mem_trap _ _ _ v _ => v | _ => 0 end.

Definition has_tinst (t : trap_t) : bool :=
  match t with Mem_trap _ _ _ _ _ => true | _ => false end.

Definition get_tinst (t : trap_t) : Z :=
  match t with Mem_trap _ _ _ _ i => i | _ => 0 end.

(** The [DECLARE_*TRAP] instances. *)
Definition trap_instruction_address_misaligned := Mem_trap CAUSE_MISALIGNED_FETCH.
Definition trap_instruction_access_fault := Mem_trap CAUSE_FETCH_ACCESS.
Definition trap_illegal_instruction := Insn_trap CAUSE_ILLEGAL_INSTRUCTION false.
Definition trap_breakpoint := Insn_trap CAUSE_BREAKPOINT.
Definition trap_load_address_misaligned := Mem_trap CAUSE_MISALIGNED_LOAD.
Definition trap_store_address_misaligned := Mem_trap CAUSE_MISALIGNED_STORE.
Definition trap_load_access_fault := Mem_trap CAUSE_LOAD_ACCESS.
Definition trap_store_access_fault := Mem_trap CAUSE_STORE_ACCESS.
Definition trap_user_ecall := Plain_trap CAUSE_USER_ECALL.
Definition trap_supervisor_ecall := Plain_trap CAUSE_SUPERVISOR_ECALL.
Definition trap_virtual_supervisor_ecall := Plain_trap CAUSE_VIRTUAL_SUPERVISOR_ECALL.
Definition trap_machine_ecall := Plain_trap CAUSE_MACHINE_ECALL.
Definition trap_instruction_page_fault := Mem_trap CAUSE_FETCH_PAGE_FAULT.
Definition trap_load_page_fault := Mem_trap CAUSE_LOAD_PAGE_FAULT.
Definition trap_store_page_fault := Mem_trap CAUSE_STORE_PAGE_FAULT.
Definition trap_double_trap := Plain_trap CAUSE_DOUBLE_TRAP.
Definition trap_instruction_guest_page_fault := Mem_trap CAUSE_FETCH_GUEST_PAGE_FAULT true.
Definition trap_load_guest_page_fault := Mem_trap CAUSE_LOAD_GUEST_PAGE_FAULT true.
Definition trap_virtual_instruction := Insn_trap CAUSE_VIRTUAL_INSTRUCTION false.
Definition trap_store_guest_page_fault := Mem_trap CAUSE_STORE_GUEST_PAGE_FAULT true.
Definition trap_software_check := Insn_trap CAUSE_SOFTWARE_CHECK_FAULT false.

#[export] Instance trap_t_eq_dec : EqDecision trap_t.
Proof. solve_decision. Defined.
