(* ===== verification/Hart.v ===== *)
(** The state of one hart: [state_t], the mutable parts of [processor_t] and
    [mmu_t], the physical memory behind them, and the monad of its
    operations.

    An operation is a function from the hart to an outcome and the new hart.
    A C++ [throw] is the outcome [Exc]: what was written before it stays
    written, as in the program.  [Exc Abort] is a failed [assert] or a call
    of [abort]. *)

From S2P Require Import Prelude Decode Encoding IsaExt Trap.

(** * Data *)

Inductive elp_t : Type := NO_LP_EXPECTED | LP_EXPECTED.
Definition elp_z (e : elp_t) : Z := match e with NO_LP_EXPECTED => 0 | LP_EXPECTED => 1 end.
Definition elp_of_z (z : Z) : elp_t := if z =? 0 then NO_LP_EXPECTED else LP_EXPECTED.

Inductive single_step_t : Type := STEP_NONE | STEP_STEPPING | STEP_STEPPED.
Inductive halt_request_t : Type := HR_NONE | HR_REGULAR | HR_GROUP.
Inductive access_type : Type := LOAD | STORE | FETCH.

(** [triggers::operation_t], [timing_t], [match_result_t] and [matched_t]. *)
Inductive operation_t : Type := OPERATION_EXECUTE | OPERATION_STORE | OPERATION_LOAD.
Inductive timing_t : Type := TIMING_BEFORE | TIMING_AFTER.
Record match_result_t : Type := mk_match_result { mr_timing : timing_t; mr_action : Z }.
Record matched_t : Type := mk_matched {
  m_operation : operation_t; m_address : Z; m_action : Z; m_gva : bool }.

#[export] Instance elp_t_eq_dec : EqDecision elp_t.
Proof. solve_decision. Defined.
#[export] Instance access_type_eq_dec : EqDecision access_type.
Proof. solve_decision. Defined.
#[export] Instance single_step_eq_dec : EqDecision single_step_t.
Proof. solve_decision. Defined.

(** A floating-point register: the two 64-bit halves [v[0]], [v[1]]. *)
Definition freg_t : Type := Z * Z.

(** The state of a [pmpaddr_csr_t]. *)
Record pmp_entry : Type := mk_pmp { pmp_val : Z; pmp_cfg : Z }.

(** The fields of [dcsr_csr_t]. *)
Record dcsr_t : Type := mk_dcsr {
  dcsr_prv : Z;
  dcsr_step : bool;
  dcsr_ebreakm : bool;
  dcsr_ebreaks : bool;
  dcsr_ebreaku : bool;
  dcsr_ebreakvs : bool;
  dcsr_ebreakvu : bool;
  dcsr_v : bool;
  dcsr_mprven : bool;
  dcsr_cause : Z;
  dcsr_ext_cause : Z;
  dcsr_cetrig : bool;
  dcsr_pelp : elp_t
}.

(** The initial value of [dcsr_csr_t]. *)
Definition dcsr_init : dcsr_t :=
  mk_dcsr 0 false false false false false false false false 0 0 false NO_LP_EXPECTED.

(** A TLB entry.  [host_addr] is the host pointer as the physical address it
    points to, [None] for the null pointer of MMIO pages; like the C++ field it
    is kept relative to the virtual page offset. *)
Record tlb_entry_t : Type := mk_tlb { host_addr : option Z; target_addr : Z }.
Record dtlb_entry_t : Type := mk_dtlb { dtlb_data : tlb_entry_t; dtlb_tag : Z }.

(** [insn_fetch_t]: the function is the index of the instruction's descriptor
    and the variant (E or I) chosen from it. *)
Record insn_fetch_t : Type := mk_fetch { fetch_func : Z; fetch_rve : bool; fetch_insn : Z }.
Record icache_entry_t : Type := mk_icache { ic_tag : Z; ic_next : Z; ic_data : insn_fetch_t }.

(** [mmu_t].  The arrays are finite maps; an absent entry is one that
    [flush_tlb] or [flush_icache] has filled with ones. *)
Record mmu_t : Type := mk_mmu {
  tlb_insn : gmap Z dtlb_entry_t;
  tlb_load : gmap Z dtlb_entry_t;
  tlb_store : gmap Z dtlb_entry_t;
  icache : gmap Z icache_entry_t;
  load_reservation_address : Z;
  check_triggers_fetch : bool;
  check_triggers_load : bool;
  check_triggers_store : bool;
  matched_trigger : option matched_t
}.

Definition set_tlb_insn (x : gmap Z dtlb_entry_t) (m : mmu_t) : mmu_t :=
  mk_mmu x (tlb_load m) (tlb_store m) (icache m) (load_reservation_address m) (check_triggers_fetch m) (check_triggers_load m) (check_triggers_store m) (matched_trigger m).
Definition set_tlb_load (x : gmap Z dtlb_entry_t) (m : mmu_t) : mmu_t :=
  mk_mmu (tlb_insn m) x (tlb_store m) (icache m) (load_reservation_address m) (check_triggers_fetch m) (check_triggers_load m) (check_triggers_store m) (matched_trigger m).
Definition set_tlb_store (x : gmap Z dtlb_entry_t) (m : mmu_t) : mmu_t :=
  mk_mmu (tlb_insn m) (tlb_load m) x (icache m) (load_reservation_address m) (check_triggers_fetch m) (check_triggers_load m) (check_triggers_store m) (matched_trigger m).
Definition set_icache (x : gmap Z icache_entry_t) (m : mmu_t) : mmu_t :=
  mk_mmu (tlb_insn m) (tlb_load m) (tlb_store m) x (load_reservation_address m) (check_triggers_fetch m) (check_triggers_load m) (check_triggers_store m) (matched_trigger m).
Definition set_load_reservation_address (x : Z) (m : mmu_t) : mmu_t :=
  mk_mmu (tlb_insn m) (tlb_load m) (tlb_store m) (icache m) x (check_triggers_fetch m) (check_triggers_load m) (check_triggers_store m) (matched_trigger m).
Definition set_check_triggers_fetch (x : bool) (m : mmu_t) : mmu_t :=
  mk_mmu (tlb_insn m) (tlb_load m) (tlb_store m) (icache m) (load_reservation_address m) x (check_triggers_load m) (check_triggers_store m) (matched_trigger m).
Definition set_check_triggers_load (x : bool) (m : mmu_t) : mmu_t :=
  mk_mmu (tlb_insn m) (tlb_load m) (tlb_store m) (icache m) (load_reservation_address m) (check_triggers_fetch m) x (check_triggers_store m) (matched_trigger m).
Definition set_check_triggers_store (x : bool) (m : mmu_t) : mmu_t :=
  mk_mmu (tlb_insn m) (tlb_load m) (tlb_store m) (icache m) (load_reservation_address m) (check_triggers_fetch m) (check_triggers_load m) x (matched_trigger m).
Definition set_matched_trigger (x : option matched_t) (m : mmu_t) : mmu_t :=
  mk_mmu (tlb_insn m) (tlb_load m) (tlb_store m) (icache m) (load_reservation_address m) (check_triggers_fetch m) (check_triggers_load m) (check_triggers_store m) x.

(** The mutable members of [vectorUnit_t].  [reg_file] maps the offset of a
    byte to its value, 0 when absent; [vflmul], a float whose values are powers
    of two, is counted in units of 1/1024. *)
Record vu_t : Type := mk_vu {
  reg_file : gmap Z Z;
  vlmax : Z;
  vsew : Z;
  vflmul : Z;
  vta : Z;
  vma : Z;
  altfmt : Z;
  vill : bool }.
Definition set_reg_file (x : gmap Z Z) (u : vu_t) : vu_t :=
  mk_vu x (vlmax u) (vsew u) (vflmul u) (vta u) (vma u) (altfmt u) (vill u).
Definition set_vlmax (x : Z) (u : vu_t) : vu_t :=
  mk_vu (reg_file u) x (vsew u) (vflmul u) (vta u) (vma u) (altfmt u) (vill u).
Definition set_vsew (x : Z) (u : vu_t) : vu_t :=
  mk_vu (reg_file u) (vlmax u) x (vflmul u) (vta u) (vma u) (altfmt u) (vill u).
Definition set_vflmul (x : Z) (u : vu_t) : vu_t :=
  mk_vu (reg_file u) (vlmax u) (vsew u) x (vta u) (vma u) (altfmt u) (vill u).
Definition set_vta (x : Z) (u : vu_t) : vu_t :=
  mk_vu (reg_file u) (vlmax u) (vsew u) (vflmul u) x (vma u) (altfmt u) (vill u).
Definition set_vma (x : Z) (u : vu_t) : vu_t :=
  mk_vu (reg_file u) (vlmax u) (vsew u) (vflmul u) (vta u) x (altfmt u) (vill u).
Definition set_altfmt (x : Z) (u : vu_t) : vu_t :=
  mk_vu (reg_file u) (vlmax u) (vsew u) (vflmul u) (vta u) (vma u) x (vill u).
Definition set_vill (x : bool) (u : vu_t) : vu_t :=
  mk_vu (reg_file u) (vlmax u) (vsew u) (vflmul u) (vta u) (vma u) (altfmt u) x.
Definition vu_init : vu_t := mk_vu ∅ 0 0 0 0 0 0 false.

(** * Configuration and interfaces *)

(** What the constructor of [processor_t] fixes: the parsed ISA, [cfg_t] and
    the capabilities of the MMU. *)
Class config : Type := {
  max_xlen : Z;                     (* isa.get_max_xlen() *)
  max_isa : Z;                      (* isa.get_max_isa() *)
  isa_extension_table : Z;          (* isa.get_extension_table() *)
  n_pmp : Z;
  lg_pmp_granularity : Z;
  cfg_misaligned : bool;            (* get_cfg().misaligned *)
  target_big_endian : bool;
  cfg_VLEN : Z;                     (* VU.VLEN *)
  cfg_ELEN : Z;                     (* VU.ELEN *)
  cfg_zvf : bool;                   (* isa.get_zvf() *)
  cfg_zvd : bool;                   (* isa.get_zvd() *)
  any_custom_extensions : bool;
  impl_table : Z -> bool;           (* supports_impl *)
  blocksz : Z;
  trigger_count : Z;                (* get_cfg().trigger_count *)
  hart_id : Z;
  seed_value : Z;                   (* es.get_seed() *)
  cfg_slow : bool;                  (* debug, log_commits_enabled, histogram_enabled or tracing *)
  cfg_log : bool                    (* get_log_or_stf_commits_enabled() *)
}.

(** What a device does to a hart: [backdoor_write_with_mask] of its [mip], or
    [sync] of its [time]. *)
Inductive hart_effect : Type := Mip_backdoor (mask val : Z) | Time_sync (val : Z).

(** [simif_t]: RAM is where [addr_to_mem] is not null; everything else goes to
    the devices, whose state is [device_state], which see the number of the hart and its [mip] and
    act on it.  A list is the buffer [bytes],
    [None] the result [false]. *)
Class simif : Type := {
  device_state : Type;
  addr_to_mem : Z -> bool;
  reservable : Z -> bool;
  sim_mmio_fetch : Z -> Z -> Z -> Z -> device_state -> option (list Z) * device_state * list hart_effect;
  sim_mmio_load : Z -> Z -> Z -> Z -> device_state -> option (list Z) * device_state * list hart_effect;
  sim_mmio_store : Z -> Z -> Z -> list Z -> device_state -> bool * device_state * list hart_effect;
  tracer_interested : Z -> Z -> access_type -> bool
}.

(** What the trigger module reads of the hart: the current and previous
    privilege and virtualization, debug mode, the extensions, the status
    registers and [satp] as their objects read them, the other CSRs by number. *)
Record trigger_env : Type := mk_trigger_env {
  te_prv : Z; te_v : bool; te_prev_prv : Z; te_prev_v : bool; te_debug_mode : bool;
  te_ext : Z -> bool;
  te_mstatus : Z; te_sstatus : Z; te_vsstatus : Z; te_satp : Z;
  te_csr : Z -> Z }.

(** [triggers::module_t], behind the methods the CSRs, the MMU and the
    processor call. *)
Class trigger_module : Type := {
  trigger_state : Type;
  tdata1_read : trigger_env -> trigger_state -> Z -> Z;
  tdata1_write : trigger_env -> trigger_state -> Z -> Z -> bool * trigger_state;
  tdata2_read : trigger_env -> trigger_state -> Z -> Z;
  tdata2_write : trigger_env -> trigger_state -> Z -> Z -> bool * trigger_state;
  tdata3_read : trigger_env -> trigger_state -> Z -> Z;
  tdata3_write : trigger_env -> trigger_state -> Z -> Z -> bool * trigger_state;
  tinfo_read : trigger_env -> trigger_state -> Z -> Z;
  (* what trigger_updated asks of all triggers *)
  any_execute : trigger_state -> bool;
  any_load : trigger_state -> bool;
  any_store : trigger_state -> bool;
  any_icount : trigger_state -> bool;
  detect_memory_access_match :
    trigger_env -> operation_t -> Z -> option Z -> trigger_state -> option match_result_t * trigger_state;
  detect_icount_match : trigger_env -> trigger_state -> option match_result_t * trigger_state;
  (* [None]: an assertion fails *)
  detect_trap_match : trigger_env -> trap_t -> trigger_state -> option (option match_result_t * trigger_state)
}.

(** * The hart *)

Section hart.
Context `{!config, !simif, !trigger_module}.

Record hart : Type := mk_hart {
  pc : Z;
  npc : Z;
  XPR : regfile_t Z;
  FPR : regfile_t freg_t;
  csr_val : gmap Z Z;
  pmpaddr : list pmp_entry;
  dcsr : dcsr_t;
  counter_written : gmap Z bool;
  prev_val : gmap Z Z;
  prv : Z;
  prev_prv : Z;
  prv_changed : bool;
  v_changed : bool;
  v : bool;
  prev_v : bool;
  debug_mode : bool;
  serialized : bool;
  single_step : single_step_t;
  elp : elp_t;
  taken_branch_flag : bool;
  critical_error : bool;
  extension_enable_table : Z;
  in_wfi : bool;
  halt_request : halt_request_t;
  halt_on_reset : bool;
  ziccid_flush_count : Z;
  check_triggers_icount : bool;
  opcode_cache : gmap Z (list (Z * Z));
  softfloat_exceptionFlags : Z;
  VU : vu_t;
  mmu : mmu_t;
  mem : gmap Z Z;
  dev : device_state;
  tm : trigger_state
}.

Definition set_pc (x : Z) (h : hart) : hart :=
  mk_hart x (npc h) (XPR h) (FPR h) (csr_val h) (pmpaddr h) (dcsr h) (counter_written h) (prev_val h) (prv h) (prev_prv h) (prv_changed h) (v_changed h) (v h) (prev_v h) (debug_mode h) (serialized h) (single_step h) (elp h) (taken_branch_flag h) (critical_error h) (extension_enable_table h) (in_wfi h) (halt_request h) (halt_on_reset h) (ziccid_flush_count h) (check_triggers_icount h) (opcode_cache h) (softfloat_exceptionFlags h) (VU h) (mmu h) (mem h) (dev h) (tm h).
Definition set_npc (x : Z) (h : hart) : hart :=
  mk_hart (pc h) x (XPR h) (FPR h) (csr_val h) (pmpaddr h) (dcsr h) (counter_written h) (prev_val h) (prv h) (prev_prv h) (prv_changed h) (v_changed h) (v h) (prev_v h) (debug_mode h) (serialized h) (single_step h) (elp h) (taken_branch_flag h) (critical_error h) (extension_enable_table h) (in_wfi h) (halt_request h) (halt_on_reset h) (ziccid_flush_count h) (check_triggers_icount h) (opcode_cache h) (softfloat_exceptionFlags h) (VU h) (mmu h) (mem h) (dev h) (tm h).
Definition set_XPR (x : regfile_t Z) (h : hart) : hart :=
  mk_hart (pc h) (npc h) x (FPR h) (csr_val h) (pmpaddr h) (dcsr h) (counter_written h) (prev_val h) (prv h) (prev_prv h) (prv_changed h) (v_changed h) (v h) (prev_v h) (debug_mode h) (serialized h) (single_step h) (elp h) (taken_branch_flag h) (critical_error h) (extension_enable_table h) (in_wfi h) (halt_request h) (halt_on_reset h) (ziccid_flush_count h) (check_triggers_icount h) (opcode_cache h) (softfloat_exceptionFlags h) (VU h) (mmu h) (mem h) (dev h) (tm h).
Definition set_FPR (x : regfile_t freg_t) (h : hart) : hart :=
  mk_hart (pc h) (npc h) (XPR h) x (csr_val h) (pmpaddr h) (dcsr h) (counter_written h) (prev_val h) (prv h) (prev_prv h) (prv_changed h) (v_changed h) (v h) (prev_v h) (debug_mode h) (serialized h) (single_step h) (elp h) (taken_branch_flag h) (critical_error h) (extension_enable_table h) (in_wfi h) (halt_request h) (halt_on_reset h) (ziccid_flush_count h) (check_triggers_icount h) (opcode_cache h) (softfloat_exceptionFlags h) (VU h) (mmu h) (mem h) (dev h) (tm h).
Definition set_csr_val (x : gmap Z Z) (h : hart) : hart :=
  mk_hart (pc h) (npc h) (XPR h) (FPR h) x (pmpaddr h) (dcsr h) (counter_written h) (prev_val h) (prv h) (prev_prv h) (prv_changed h) (v_changed h) (v h) (prev_v h) (debug_mode h) (serialized h) (single_step h) (elp h) (taken_branch_flag h) (critical_error h) (extension_enable_table h) (in_wfi h) (halt_request h) (halt_on_reset h) (ziccid_flush_count h) (check_triggers_icount h) (opcode_cache h) (softfloat_exceptionFlags h) (VU h) (mmu h) (mem h) (dev h) (tm h).
Definition set_pmpaddr (x : list pmp_entry) (h : hart) : hart :=
  mk_hart (pc h) (npc h) (XPR h) (FPR h) (csr_val h) x (dcsr h) (counter_written h) (prev_val h) (prv h) (prev_prv h) (prv_changed h) (v_changed h) (v h) (prev_v h) (debug_mode h) (serialized h) (single_step h) (elp h) (taken_branch_flag h) (critical_error h) (extension_enable_table h) (in_wfi h) (halt_request h) (halt_on_reset h) (ziccid_flush_count h) (check_triggers_icount h) (opcode_cache h) (softfloat_exceptionFlags h) (VU h) (mmu h) (mem h) (dev h) (tm h).
Definition set_dcsr (x : dcsr_t) (h : hart) : hart :=
  mk_hart (pc h) (npc h) (XPR h) (FPR h) (csr_val h) (pmpaddr h) x (counter_written h) (prev_val h) (prv h) (prev_prv h) (prv_changed h) (v_changed h) (v h) (prev_v h) (debug_mode h) (serialized h) (single_step h) (elp h) (taken_branch_flag h) (critical_error h) (extension_enable_table h) (in_wfi h) (halt_request h) (halt_on_reset h) (ziccid_flush_count h) (check_triggers_icount h) (opcode_cache h) (softfloat_exceptionFlags h) (VU h) (mmu h) (mem h) (dev h) (tm h).
Definition set_counter_written (x : gmap Z bool) (h : hart) : hart :=
  mk_hart (pc h) (npc h) (XPR h) (FPR h) (csr_val h) (pmpaddr h) (dcsr h) x (prev_val h) (prv h) (prev_prv h) (prv_changed h) (v_changed h) (v h) (prev_v h) (debug_mode h) (serialized h) (single_step h) (elp h) (taken_branch_flag h) (critical_error h) (extension_enable_table h) (in_wfi h) (halt_request h) (halt_on_reset h) (ziccid_flush_count h) (check_triggers_icount h) (opcode_cache h) (softfloat_exceptionFlags h) (VU h) (mmu h) (mem h) (dev h) (tm h).
Definition set_prev_val (x : gmap Z Z) (h : hart) : hart :=
  mk_hart (pc h) (npc h) (XPR h) (FPR h) (csr_val h) (pmpaddr h) (dcsr h) (counter_written h) x (prv h) (prev_prv h) (prv_changed h) (v_changed h) (v h) (prev_v h) (debug_mode h) (serialized h) (single_step h) (elp h) (taken_branch_flag h) (critical_error h) (extension_enable_table h) (in_wfi h) (halt_request h) (halt_on_reset h) (ziccid_flush_count h) (check_triggers_icount h) (opcode_cache h) (softfloat_exceptionFlags h) (VU h) (mmu h) (mem h) (dev h) (tm h).
Definition set_prv (x : Z) (h : hart) : hart :=
  mk_hart (pc h) (npc h) (XPR h) (FPR h) (csr_val h) (pmpaddr h) (dcsr h) (counter_written h) (prev_val h) x (prev_prv h) (prv_changed h) (v_changed h) (v h) (prev_v h) (debug_mode h) (serialized h) (single_step h) (elp h) (taken_branch_flag h) (critical_error h) (extension_enable_table h) (in_wfi h) (halt_request h) (halt_on_reset h) (ziccid_flush_count h) (check_triggers_icount h) (opcode_cache h) (softfloat_exceptionFlags h) (VU h) (mmu h) (mem h) (dev h) (tm h).
Definition set_prev_prv (x : Z) (h : hart) : hart :=
  mk_hart (pc h) (npc h) (XPR h) (FPR h) (csr_val h) (pmpaddr h) (dcsr h) (counter_written h) (prev_val h) (prv h) x (prv_changed h) (v_changed h) (v h) (prev_v h) (debug_mode h) (serialized h) (single_step h) (elp h) (taken_branch_flag h) (critical_error h) (extension_enable_table h) (in_wfi h) (halt_request h) (halt_on_reset h) (ziccid_flush_count h) (check_triggers_icount h) (opcode_cache h) (softfloat_exceptionFlags h) (VU h) (mmu h) (mem h) (dev h) (tm h).
Definition set_prv_changed (x : bool) (h : hart) : hart :=
  mk_hart (pc h) (npc h) (XPR h) (FPR h) (csr_val h) (pmpaddr h) (dcsr h) (counter_written h) (prev_val h) (prv h) (prev_prv h) x (v_changed h) (v h) (prev_v h) (debug_mode h) (serialized h) (single_step h) (elp h) (taken_branch_flag h) (critical_error h) (extension_enable_table h) (in_wfi h) (halt_request h) (halt_on_reset h) (ziccid_flush_count h) (check_triggers_icount h) (opcode_cache h) (softfloat_exceptionFlags h) (VU h) (mmu h) (mem h) (dev h) (tm h).
Definition set_v_changed (x : bool) (h : hart) : hart :=
  mk_hart (pc h) (npc h) (XPR h) (FPR h) (csr_val h) (pmpaddr h) (dcsr h) (counter_written h) (prev_val h) (prv h) (prev_prv h) (prv_changed h) x (v h) (prev_v h) (debug_mode h) (serialized h) (single_step h) (elp h) (taken_branch_flag h) (critical_error h) (extension_enable_table h) (in_wfi h) (halt_request h) (halt_on_reset h) (ziccid_flush_count h) (check_triggers_icount h) (opcode_cache h) (softfloat_exceptionFlags h) (VU h) (mmu h) (mem h) (dev h) (tm h).
Definition set_v (x : bool) (h : hart) : hart :=
  mk_hart (pc h) (npc h) (XPR h) (FPR h) (csr_val h) (pmpaddr h) (dcsr h) (counter_written h) (prev_val h) (prv h) (prev_prv h) (prv_changed h) (v_changed h) x (prev_v h) (debug_mode h) (serialized h) (single_step h) (elp h) (taken_branch_flag h) (critical_error h) (extension_enable_table h) (in_wfi h) (halt_request h) (halt_on_reset h) (ziccid_flush_count h) (check_triggers_icount h) (opcode_cache h) (softfloat_exceptionFlags h) (VU h) (mmu h) (mem h) (dev h) (tm h).
Definition set_prev_v (x : bool) (h : hart) : hart :=
  mk_hart (pc h) (npc h) (XPR h) (FPR h) (csr_val h) (pmpaddr h) (dcsr h) (counter_written h) (prev_val h) (prv h) (prev_prv h) (prv_changed h) (v_changed h) (v h) x (debug_mode h) (serialized h) (single_step h) (elp h) (taken_branch_flag h) (critical_error h) (extension_enable_table h) (in_wfi h) (halt_request h) (halt_on_reset h) (ziccid_flush_count h) (check_triggers_icount h) (opcode_cache h) (softfloat_exceptionFlags h) (VU h) (mmu h) (mem h) (dev h) (tm h).
Definition set_debug_mode (x : bool) (h : hart) : hart :=
  mk_hart (pc h) (npc h) (XPR h) (FPR h) (csr_val h) (pmpaddr h) (dcsr h) (counter_written h) (prev_val h) (prv h) (prev_prv h) (prv_changed h) (v_changed h) (v h) (prev_v h) x (serialized h) (single_step h) (elp h) (taken_branch_flag h) (critical_error h) (extension_enable_table h) (in_wfi h) (halt_request h) (halt_on_reset h) (ziccid_flush_count h) (check_triggers_icount h) (opcode_cache h) (softfloat_exceptionFlags h) (VU h) (mmu h) (mem h) (dev h) (tm h).
Definition set_serialized (x : bool) (h : hart) : hart :=
  mk_hart (pc h) (npc h) (XPR h) (FPR h) (csr_val h) (pmpaddr h) (dcsr h) (counter_written h) (prev_val h) (prv h) (prev_prv h) (prv_changed h) (v_changed h) (v h) (prev_v h) (debug_mode h) x (single_step h) (elp h) (taken_branch_flag h) (critical_error h) (extension_enable_table h) (in_wfi h) (halt_request h) (halt_on_reset h) (ziccid_flush_count h) (check_triggers_icount h) (opcode_cache h) (softfloat_exceptionFlags h) (VU h) (mmu h) (mem h) (dev h) (tm h).
Definition set_single_step (x : single_step_t) (h : hart) : hart :=
  mk_hart (pc h) (npc h) (XPR h) (FPR h) (csr_val h) (pmpaddr h) (dcsr h) (counter_written h) (prev_val h) (prv h) (prev_prv h) (prv_changed h) (v_changed h) (v h) (prev_v h) (debug_mode h) (serialized h) x (elp h) (taken_branch_flag h) (critical_error h) (extension_enable_table h) (in_wfi h) (halt_request h) (halt_on_reset h) (ziccid_flush_count h) (check_triggers_icount h) (opcode_cache h) (softfloat_exceptionFlags h) (VU h) (mmu h) (mem h) (dev h) (tm h).
Definition set_elp (x : elp_t) (h : hart) : hart :=
  mk_hart (pc h) (npc h) (XPR h) (FPR h) (csr_val h) (pmpaddr h) (dcsr h) (counter_written h) (prev_val h) (prv h) (prev_prv h) (prv_changed h) (v_changed h) (v h) (prev_v h) (debug_mode h) (serialized h) (single_step h) x (taken_branch_flag h) (critical_error h) (extension_enable_table h) (in_wfi h) (halt_request h) (halt_on_reset h) (ziccid_flush_count h) (check_triggers_icount h) (opcode_cache h) (softfloat_exceptionFlags h) (VU h) (mmu h) (mem h) (dev h) (tm h).
Definition set_taken_branch_flag (x : bool) (h : hart) : hart :=
  mk_hart (pc h) (npc h) (XPR h) (FPR h) (csr_val h) (pmpaddr h) (dcsr h) (counter_written h) (prev_val h) (prv h) (prev_prv h) (prv_changed h) (v_changed h) (v h) (prev_v h) (debug_mode h) (serialized h) (single_step h) (elp h) x (critical_error h) (extension_enable_table h) (in_wfi h) (halt_request h) (halt_on_reset h) (ziccid_flush_count h) (check_triggers_icount h) (opcode_cache h) (softfloat_exceptionFlags h) (VU h) (mmu h) (mem h) (dev h) (tm h).
Definition set_critical_error (x : bool) (h : hart) : hart :=
  mk_hart (pc h) (npc h) (XPR h) (FPR h) (csr_val h) (pmpaddr h) (dcsr h) (counter_written h) (prev_val h) (prv h) (prev_prv h) (prv_changed h) (v_changed h) (v h) (prev_v h) (debug_mode h) (serialized h) (single_step h) (elp h) (taken_branch_flag h) x (extension_enable_table h) (in_wfi h) (halt_request h) (halt_on_reset h) (ziccid_flush_count h) (check_triggers_icount h) (opcode_cache h) (softfloat_exceptionFlags h) (VU h) (mmu h) (mem h) (dev h) (tm h).
Definition set_extension_enable_table (x : Z) (h : hart) : hart :=
  mk_hart (pc h) (npc h) (XPR h) (FPR h) (csr_val h) (pmpaddr h) (dcsr h) (counter_written h) (prev_val h) (prv h) (prev_prv h) (prv_changed h) (v_changed h) (v h) (prev_v h) (debug_mode h) (serialized h) (single_step h) (elp h) (taken_branch_flag h) (critical_error h) x (in_wfi h) (halt_request h) (halt_on_reset h) (ziccid_flush_count h) (check_triggers_icount h) (opcode_cache h) (softfloat_exceptionFlags h) (VU h) (mmu h) (mem h) (dev h) (tm h).
Definition set_in_wfi (x : bool) (h : hart) : hart :=
  mk_hart (pc h) (npc h) (XPR h) (FPR h) (csr_val h) (pmpaddr h) (dcsr h) (counter_written h) (prev_val h) (prv h) (prev_prv h) (prv_changed h) (v_changed h) (v h) (prev_v h) (debug_mode h) (serialized h) (single_step h) (elp h) (taken_branch_flag h) (critical_error h) (extension_enable_table h) x (halt_request h) (halt_on_reset h) (ziccid_flush_count h) (check_triggers_icount h) (opcode_cache h) (softfloat_exceptionFlags h) (VU h) (mmu h) (mem h) (dev h) (tm h).
Definition set_halt_request (x : halt_request_t) (h : hart) : hart :=
  mk_hart (pc h) (npc h) (XPR h) (FPR h) (csr_val h) (pmpaddr h) (dcsr h) (counter_written h) (prev_val h) (prv h) (prev_prv h) (prv_changed h) (v_changed h) (v h) (prev_v h) (debug_mode h) (serialized h) (single_step h) (elp h) (taken_branch_flag h) (critical_error h) (extension_enable_table h) (in_wfi h) x (halt_on_reset h) (ziccid_flush_count h) (check_triggers_icount h) (opcode_cache h) (softfloat_exceptionFlags h) (VU h) (mmu h) (mem h) (dev h) (tm h).
Definition set_halt_on_reset (x : bool) (h : hart) : hart :=
  mk_hart (pc h) (npc h) (XPR h) (FPR h) (csr_val h) (pmpaddr h) (dcsr h) (counter_written h) (prev_val h) (prv h) (prev_prv h) (prv_changed h) (v_changed h) (v h) (prev_v h) (debug_mode h) (serialized h) (single_step h) (elp h) (taken_branch_flag h) (critical_error h) (extension_enable_table h) (in_wfi h) (halt_request h) x (ziccid_flush_count h) (check_triggers_icount h) (opcode_cache h) (softfloat_exceptionFlags h) (VU h) (mmu h) (mem h) (dev h) (tm h).
Definition set_ziccid_flush_count (x : Z) (h : hart) : hart :=
  mk_hart (pc h) (npc h) (XPR h) (FPR h) (csr_val h) (pmpaddr h) (dcsr h) (counter_written h) (prev_val h) (prv h) (prev_prv h) (prv_changed h) (v_changed h) (v h) (prev_v h) (debug_mode h) (serialized h) (single_step h) (elp h) (taken_branch_flag h) (critical_error h) (extension_enable_table h) (in_wfi h) (halt_request h) (halt_on_reset h) x (check_triggers_icount h) (opcode_cache h) (softfloat_exceptionFlags h) (VU h) (mmu h) (mem h) (dev h) (tm h).
Definition set_check_triggers_icount (x : bool) (h : hart) : hart :=
  mk_hart (pc h) (npc h) (XPR h) (FPR h) (csr_val h) (pmpaddr h) (dcsr h) (counter_written h) (prev_val h) (prv h) (prev_prv h) (prv_changed h) (v_changed h) (v h) (prev_v h) (debug_mode h) (serialized h) (single_step h) (elp h) (taken_branch_flag h) (critical_error h) (extension_enable_table h) (in_wfi h) (halt_request h) (halt_on_reset h) (ziccid_flush_count h) x (opcode_cache h) (softfloat_exceptionFlags h) (VU h) (mmu h) (mem h) (dev h) (tm h).
Definition set_opcode_cache (x : gmap Z (list (Z * Z))) (h : hart) : hart :=
  mk_hart (pc h) (npc h) (XPR h) (FPR h) (csr_val h) (pmpaddr h) (dcsr h) (counter_written h) (prev_val h) (prv h) (prev_prv h) (prv_changed h) (v_changed h) (v h) (prev_v h) (debug_mode h) (serialized h) (single_step h) (elp h) (taken_branch_flag h) (critical_error h) (extension_enable_table h) (in_wfi h) (halt_request h) (halt_on_reset h) (ziccid_flush_count h) (check_triggers_icount h) x (softfloat_exceptionFlags h) (VU h) (mmu h) (mem h) (dev h) (tm h).
Definition set_softfloat_exceptionFlags (x : Z) (h : hart) : hart :=
  mk_hart (pc h) (npc h) (XPR h) (FPR h) (csr_val h) (pmpaddr h) (dcsr h) (counter_written h) (prev_val h) (prv h) (prev_prv h) (prv_changed h) (v_changed h) (v h) (prev_v h) (debug_mode h) (serialized h) (single_step h) (elp h) (taken_branch_flag h) (critical_error h) (extension_enable_table h) (in_wfi h) (halt_request h) (halt_on_reset h) (ziccid_flush_count h) (check_triggers_icount h) (opcode_cache h) x (VU h) (mmu h) (mem h) (dev h) (tm h).
Definition set_VU (x : vu_t) (h : hart) : hart :=
  mk_hart (pc h) (npc h) (XPR h) (FPR h) (csr_val h) (pmpaddr h) (dcsr h) (counter_written h) (prev_val h) (prv h) (prev_prv h) (prv_changed h) (v_changed h) (v h) (prev_v h) (debug_mode h) (serialized h) (single_step h) (elp h) (taken_branch_flag h) (critical_error h) (extension_enable_table h) (in_wfi h) (halt_request h) (halt_on_reset h) (ziccid_flush_count h) (check_triggers_icount h) (opcode_cache h) (softfloat_exceptionFlags h) x (mmu h) (mem h) (dev h) (tm h).
Definition set_mmu (x : mmu_t) (h : hart) : hart :=
  mk_hart (pc h) (npc h) (XPR h) (FPR h) (csr_val h) (pmpaddr h) (dcsr h) (counter_written h) (prev_val h) (prv h) (prev_prv h) (prv_changed h) (v_changed h) (v h) (prev_v h) (debug_mode h) (serialized h) (single_step h) (elp h) (taken_branch_flag h) (critical_error h) (extension_enable_table h) (in_wfi h) (halt_request h) (halt_on_reset h) (ziccid_flush_count h) (check_triggers_icount h) (opcode_cache h) (softfloat_exceptionFlags h) (VU h) x (mem h) (dev h) (tm h).
Definition set_mem (x : gmap Z Z) (h : hart) : hart :=
  mk_hart (pc h) (npc h) (XPR h) (FPR h) (csr_val h) (pmpaddr h) (dcsr h) (counter_written h) (prev_val h) (prv h) (prev_prv h) (prv_changed h) (v_changed h) (v h) (prev_v h) (debug_mode h) (serialized h) (single_step h) (elp h) (taken_branch_flag h) (critical_error h) (extension_enable_table h) (in_wfi h) (halt_request h) (halt_on_reset h) (ziccid_flush_count h) (check_triggers_icount h) (opcode_cache h) (softfloat_exceptionFlags h) (VU h) (mmu h) x (dev h) (tm h).
Definition set_dev (x : device_state) (h : hart) : hart :=
  mk_hart (pc h) (npc h) (XPR h) (FPR h) (csr_val h) (pmpaddr h) (dcsr h) (counter_written h) (prev_val h) (prv h) (prev_prv h) (prv_changed h) (v_changed h) (v h) (prev_v h) (debug_mode h) (serialized h) (single_step h) (elp h) (taken_branch_flag h) (critical_error h) (extension_enable_table h) (in_wfi h) (halt_request h) (halt_on_reset h) (ziccid_flush_count h) (check_triggers_icount h) (opcode_cache h) (softfloat_exceptionFlags h) (VU h) (mmu h) (mem h) x (tm h).
Definition set_tm (x : trigger_state) (h : hart) : hart :=
  mk_hart (pc h) (npc h) (XPR h) (FPR h) (csr_val h) (pmpaddr h) (dcsr h) (counter_written h) (prev_val h) (prv h) (prev_prv h) (prv_changed h) (v_changed h) (v h) (prev_v h) (debug_mode h) (serialized h) (single_step h) (elp h) (taken_branch_flag h) (critical_error h) (extension_enable_table h) (in_wfi h) (halt_request h) (halt_on_reset h) (ziccid_flush_count h) (check_triggers_icount h) (opcode_cache h) (softfloat_exceptionFlags h) (VU h) (mmu h) (mem h) (dev h) x.

End hart.

(** * The monad *)

Inductive exn : Type :=
| Trap (t : trap_t)
| Trap_debug_mode
| Wait_for_interrupt
| Matched_trigger (t : matched_t)
| Return_npc (npc : Z)       (* an early [return] of an instruction *)
| Abort.

Inductive outcome (A : Type) : Type := Val (a : A) | Exc (e : exn).
Arguments Val {A} a.
Arguments Exc {A} e.

Declare Scope hart_scope.
Delimit Scope hart_scope with hart.
Open Scope hart_scope.

Section monad.
Context `{!config, !simif, !trigger_module}.

Definition M (A : Type) : Type := hart -> outcome A * hart.

Definition ret {A} (a : A) : M A := fun h => (Val a, h).
Definition bind {A B} (m : M A) (f : A -> M B) : M B :=
  fun h => match m h with (Val a, h') => f a h' | (Exc e, h') => (Exc e, h') end.
Definition raise {A} (e : exn) : M A := fun h => (Exc e, h).
Definition gets {A} (f : hart -> A) : M A := fun h => (Val (f h), h).
Definition modify (f : hart -> hart) : M unit := fun h => (Val tt, f h).
Definition get_hart : M hart := fun h => (Val h, h).
Definition throw {A} (t : trap_t) : M A := raise (Trap t).
Definition abort {A} : M A := raise Abort.
Definition assert (b : bool) : M unit := if b then ret tt else abort.
Definition when (b : bool) (m : M unit) : M unit := if b then m else ret tt.
(** [try body catch e => handler e]. *)
Definition catch {A} (m : M A) (handler : exn -> M A) : M A :=
  fun h => match m h with (Exc e, h') => handler e h' | r => r end.

End monad.

Notation "'let*' x := m 'in' k" := (bind m (fun x => k))
  (at level 200, x pattern, m at level 100, k at level 200, right associativity) : hart_scope.
Notation "m ;; k" := (bind m (fun _ => k))
  (at level 100, k at level 200, right associativity) : hart_scope.
