(* ===== verification/IsaParser.v ===== *)
(** The parser of ISA strings, [disasm/isa_parser.cc]: what [--isa] and [--priv]
    say becomes the set of extensions and the vector parameters of the
    configuration.  A string is what precedes the NUL of a C string. *)

From stdpp Require Import strings.
From S2P Require Import Prelude IsaExt Hart.

(** How the constructor of [isa_parser_t] ends: with an object, with the message of
    [bad_isa_string] or in [bad_priv_string], which abort, or with a read behind
    the NUL of the string, which is undefined. *)
Inductive isa_result (A : Type) : Type :=
| Parsed (a : A)
| Bad_isa (msg : string)
| Bad_priv
| Overread.
Arguments Parsed {A} a.
Arguments Bad_isa {A} msg.
Arguments Bad_priv {A}.
Arguments Overread {A}.

Definition isa_bind {A B} (m : isa_result A) (k : A -> isa_result B) : isa_result B :=
  match m with
  | Parsed a => k a
  | Bad_isa msg => Bad_isa msg
  | Bad_priv => Bad_priv
  | Overread => Overread
  end.

Declare Scope isa_scope.
Delimit Scope isa_scope with isa.
Notation "'let!' x := m 'in' k" := (isa_bind m (fun x => k)) (at level 200, x name, k at level 200) : isa_scope.
(** [if (b) bad_isa_string(str, msg);] *)
Notation "'bad_if' b 'msg' t 'in' k" := (if b : bool then Bad_isa t else k)
  (at level 200, b at level 100, t at level 100, k at level 200) : isa_scope.
Local Open Scope isa_scope.

(** * Characters and strings of C *)

Definition code (c : ascii) : Z := Z.of_N (N_of_ascii c).
Definition chr (z : Z) : ascii := ascii_of_N (Z.to_N z).
Definition islower (c : ascii) : bool := (97 <=? code c) && (code c <=? 122).
Definition isupper (c : ascii) : bool := (65 <=? code c) && (code c <=? 90).
Definition isdigit (c : ascii) : bool := (48 <=? code c) && (code c <=? 57).
Definition isspace (c : ascii) : bool := (code c =? 32) || ((9 <=? code c) && (code c <=? 13)).
Definition tolower (c : ascii) : ascii := if isupper c then chr (code c + 32) else c.
Definition toupper (c : ascii) : ascii := if islower c then chr (code c - 32) else c.

Fixpoint strtolower (s : string) : string :=
  match s with EmptyString => EmptyString | String c s => String (tolower c) (strtolower s) end.

(** [strchr(s, c)] for a [c] that is not NUL. *)
Fixpoint strchr (s : string) (c : ascii) : bool :=
  match s with EmptyString => false | String d s => Ascii.eqb d c || strchr s c end.

(** [s.substr(k)]; [strdrop] and [strtake] split at a position. *)
Fixpoint strdrop (k : nat) (s : string) : string :=
  match k, s with S k, String _ s => strdrop k s | _, _ => s end.
Fixpoint strtake (k : nat) (s : string) : string :=
  match k, s with S k, String c s => String c (strtake k s) | _, _ => EmptyString end.
Definition prefixed (p s : string) : bool := String.eqb (strtake (String.length p) s) p.
Definition back (s : string) : ascii := match strdrop (String.length s - 1) s with String c _ => c | EmptyString => zero end.

Definition underscore : ascii := "_"%char.

(** [strtoul(s, &endp, 10)] and the tests of [safe_stoul]: [None] when it throws. *)
Fixpoint skip_space (s : string) : string :=
  match s with String c s' => if isspace c then skip_space s' else s | EmptyString => s end.
Fixpoint digits (s : string) (acc : Z) : option Z :=
  match s with
  | EmptyString => Some acc
  | String c s => if isdigit c then digits s (10 * acc + (code c - 48)) else None
  end.
Definition safe_stoul (s : string) : option Z :=
  let s := skip_space s in
  let '(neg, s) := match s with
                   | String c s' => if code c =? 45 then (true, s') else if code c =? 43 then (false, s') else (false, s)
                   | EmptyString => (false, s)
                   end in
  if String.eqb s EmptyString then None
  else match digits s 0 with
       | Some n => if n <? 2 ^ 64 then Some (if neg then u64 (- n) else n) else None
       | None => None
       end.

(** * The object *)

Record isa_parser_t : Type := mk_isa {
  isa_max_xlen : Z;
  isa_max_isa : Z;
  isa_vlen : Z;
  isa_elen : Z;
  isa_zvf : bool;
  isa_zvd : bool;
  extension_table : Z;
  isa_string : string;
  extensions : gset string
}.

Definition set_table (x : Z) (i : isa_parser_t) : isa_parser_t :=
  mk_isa (isa_max_xlen i) (isa_max_isa i) (isa_vlen i) (isa_elen i) (isa_zvf i) (isa_zvd i) x (isa_string i) (extensions i).
Definition set_vector (vlen elen : Z) (zvf zvd : bool) (i : isa_parser_t) : isa_parser_t :=
  mk_isa (isa_max_xlen i) (isa_max_isa i) vlen elen zvf zvd (extension_table i) (isa_string i) (extensions i).
Definition set_max_isa (x : Z) (i : isa_parser_t) : isa_parser_t :=
  mk_isa (isa_max_xlen i) x (isa_vlen i) (isa_elen i) (isa_zvf i) (isa_zvd i) (extension_table i) (isa_string i) (extensions i).
Definition add_extension (x : string) (i : isa_parser_t) : isa_parser_t :=
  mk_isa (isa_max_xlen i) (isa_max_isa i) (isa_vlen i) (isa_elen i) (isa_zvf i) (isa_zvd i) (extension_table i) (isa_string i)
    ({[x]} ∪ extensions i).

(** [extension_table[e]], and its assignment. *)
Definition has (e : Z) (i : isa_parser_t) : bool := bitset_test (extension_table i) e.
Definition put (e : Z) (b : bool) (i : isa_parser_t) : isa_parser_t := set_table (bitset_set (extension_table i) e b) i.
Definition enable (es : list Z) (i : isa_parser_t) : isa_parser_t := fold_left (fun i e => put e true i) es i.

(** * Single-letter extensions *)

Definition all_subsets : string := "mafdqcbpvh".

(** [while ( *subset && ( *p != *subset)) ++subset;] *)
Fixpoint find_subset (c : ascii) (subset : string) : string :=
  match subset with
  | EmptyString => subset
  | String d subset' => if Ascii.eqb d c then subset else find_subset c subset'
  end.

(** The [switch] on a letter and the assignment below it. *)
Definition single_letter (c : ascii) (i : isa_parser_t) : isa_parser_t :=
  let eq := Ascii.eqb c in
  let i := if eq "v"%char then set_vector 128 64 true true i else i in
  let i := if eq "v"%char || eq "q"%char then put (ext_letter "D") true i else i in
  let i := if eq "v"%char || eq "q"%char || eq "d"%char then put (ext_letter "F") true i else i in
  put (ext_letter (toupper c)) true i.

(** The version behind a letter: digits, [p], digits. *)
Fixpoint skip_version (s : string) : string :=
  match s with
  | EmptyString => s
  | String c s' =>
      if isdigit c then
        match s' with
        | EmptyString => s'
        | String d s'' => if Ascii.eqb d "p"%char then skip_version s'' else skip_version s'
        end
      else s
  end.
Definition skip_underscore (s : string) : string :=
  match s with String c s' => if Ascii.eqb c underscore then s' else s | EmptyString => s end.

(** The loop over the letters; it returns the object and what is left of the string. *)
Fixpoint letters (p subset : string) (i : isa_parser_t) : isa_result (isa_parser_t * string) :=
  match p with
  | EmptyString => Parsed (i, p)
  | String c p' =>
      if islower c && negb (strchr "zsx" c) then
        let subset := find_subset c subset in
        bad_if String.eqb subset EmptyString
          msg (if strchr all_subsets c then "Extension '" ++ String c "' appears too late in ISA string"
               else "Unsupported extension '" ++ String c "'")%string in
        letters (skip_underscore (skip_version p')) subset (single_letter c i)
      else Parsed (i, p)
  end.

(** * Extensions with longer names

    The branches of the [if] that only assign, in their order. *)

(** Half precision under vectors, [I], [A], [M] and [B], and [Zfinx]. *)
Definition a_extensions : list (string * list Z) := [
  ("zvfh"%string, [EXT_ZVFHMIN; EXT_ZVFH; EXT_ZFHMIN]);
  ("zvfhmin"%string, [EXT_ZVFHMIN]);
  ("zicsr"%string, []);
  ("zifencei"%string, []);
  ("zihintpause"%string, []);
  ("zihintntl"%string, []);
  ("ziccid"%string, [EXT_ZICCID]);
  ("ziccif"%string, []);
  ("zaamo"%string, [EXT_ZAAMO]);
  ("zalrsc"%string, [EXT_ZALRSC]);
  ("zacas"%string, [EXT_ZACAS]);
  ("zabha"%string, [EXT_ZABHA]);
  ("zawrs"%string, [EXT_ZAWRS]);
  ("zmmul"%string, [EXT_ZMMUL]);
  ("zba"%string, [EXT_ZBA]);
  ("zbb"%string, [EXT_ZBB]);
  ("zbc"%string, [EXT_ZBC]);
  ("zbs"%string, [EXT_ZBS]);
  ("zbkb"%string, [EXT_ZBKB]);
  ("zbkc"%string, [EXT_ZBKC]);
  ("zbkx"%string, [EXT_ZBKX]);
  ("zdinx"%string, [EXT_ZFINX; EXT_ZDINX]);
  ("zfbfmin"%string, [EXT_ZFBFMIN]);
  ("zfinx"%string, [EXT_ZFINX]);
  ("zhinx"%string, [EXT_ZFINX; EXT_ZHINX; EXT_ZHINXMIN]);
  ("zhinxmin"%string, [EXT_ZFINX; EXT_ZHINXMIN])].

(** Compressed instructions; [zcf] and [zce] are in [extension]. *)
Definition zc_extensions : list (string * list Z) := [
  ("zca"%string, [EXT_ZCA]);
  ("zcb"%string, [EXT_ZCB]);
  ("zcd"%string, [EXT_ZCD]);
  ("zcmp"%string, [EXT_ZCMP]);
  ("zcmt"%string, [EXT_ZCMT])].

(** Scalar cryptography. *)
Definition zk_extensions : list (string * list Z) := [
  ("zk"%string, [EXT_ZBKB; EXT_ZBKC; EXT_ZBKX; EXT_ZKND; EXT_ZKNE; EXT_ZKNH; EXT_ZKR]);
  ("zkn"%string, [EXT_ZBKB; EXT_ZBKC; EXT_ZBKX; EXT_ZKND; EXT_ZKNE; EXT_ZKNH]);
  ("zknd"%string, [EXT_ZKND]);
  ("zkne"%string, [EXT_ZKNE]);
  ("zknh"%string, [EXT_ZKNH]);
  ("zks"%string, [EXT_ZBKB; EXT_ZBKC; EXT_ZBKX; EXT_ZKSED; EXT_ZKSH]);
  ("zksed"%string, [EXT_ZKSED]);
  ("zksh"%string, [EXT_ZKSH]);
  ("zkr"%string, [EXT_ZKR]);
  ("zkt"%string, [])].

(** Privileged extensions, cache blocks and counters. *)
Definition misc_extensions : list (string * list Z) := [
  ("smepmp"%string, [EXT_SMEPMP]);
  ("smstateen"%string, [EXT_SMSTATEEN]);
  ("smrnmi"%string, [EXT_SMRNMI]);
  ("sscofpmf"%string, [EXT_SSCOFPMF]);
  ("svadu"%string, [EXT_SVADU]);
  ("svade"%string, [EXT_SVADE]);
  ("svnapot"%string, [EXT_SVNAPOT]);
  ("svpbmt"%string, [EXT_SVPBMT]);
  ("svinval"%string, [EXT_SVINVAL]);
  ("zfa"%string, [EXT_ZFA]);
  ("zicbom"%string, [EXT_ZICBOM]);
  ("zicboz"%string, [EXT_ZICBOZ]);
  ("zicbop"%string, []);
  ("zicntr"%string, [EXT_ZICNTR]);
  ("zicond"%string, [EXT_ZICOND]);
  ("zihpm"%string, [EXT_ZIHPM])].

(** [Zclsd] and the vector extensions. *)
Definition v_extensions : list (string * list Z) := [
  ("zclsd"%string, [EXT_ZCLSD]);
  ("zvbb"%string, [EXT_ZVBB]);
  ("zvbc"%string, [EXT_ZVBC]);
  ("zvfbfmin"%string, [EXT_ZVFBFMIN]);
  ("zvfbfwma"%string, [EXT_ZVFBFWMA]);
  ("zvkg"%string, [EXT_ZVKG]);
  ("zvkn"%string, [EXT_ZVBB; EXT_ZVKNED; EXT_ZVKNHB]);
  ("zvknc"%string, [EXT_ZVBB; EXT_ZVBC; EXT_ZVKNED; EXT_ZVKNHB]);
  ("zvkng"%string, [EXT_ZVBB; EXT_ZVKG; EXT_ZVKNED; EXT_ZVKNHB]);
  ("zvkned"%string, [EXT_ZVKNED]);
  ("zvknha"%string, [EXT_ZVKNHA]);
  ("zvknhb"%string, [EXT_ZVKNHB]);
  ("zvks"%string, [EXT_ZVBB; EXT_ZVKSED; EXT_ZVKSH]);
  ("zvksc"%string, [EXT_ZVBB; EXT_ZVBC; EXT_ZVKSED; EXT_ZVKSH]);
  ("zvksg"%string, [EXT_ZVBB; EXT_ZVKG; EXT_ZVKSED; EXT_ZVKSH]);
  ("zvksed"%string, [EXT_ZVKSED]);
  ("zvksh"%string, [EXT_ZVKSH]);
  ("zvqdotq"%string, [EXT_ZVQDOTQ]);
  ("zvqbdot8i"%string, [EXT_ZVQBDOT8I]);
  ("zvqbdot16i"%string, [EXT_ZVQBDOT16I]);
  ("zvfwbdot16bf"%string, [EXT_ZVFWBDOT16BF]);
  ("zvfbdot32f"%string, [EXT_ZVFBDOT32F]);
  ("zvqldot8i"%string, [EXT_ZVQLDOT8I]);
  ("zvqldot16i"%string, [EXT_ZVQLDOT16I]);
  ("zvfwldot16bf"%string, [EXT_ZVFWLDOT16BF]);
  ("zvkt"%string, [])].

(** Supervisor extensions, CFI and pointer masking. *)
Definition s_extensions : list (string * list Z) := [
  ("sstc"%string, [EXT_SSTC]);
  ("smcsrind"%string, [EXT_SMCSRIND]);
  ("sscsrind"%string, [EXT_SSCSRIND]);
  ("smcntrpmf"%string, [EXT_SMCNTRPMF]);
  ("smcdeleg"%string, [EXT_SMCDELEG]);
  ("ssccfg"%string, [EXT_SSCCFG]);
  ("zimop"%string, [EXT_ZIMOP]);
  ("zcmop"%string, [EXT_ZCMOP]);
  ("zalasr"%string, [EXT_ZALASR]);
  ("ssqosid"%string, [EXT_SSQOSID]);
  ("zicfilp"%string, [EXT_ZICFILP]);
  ("zicfiss"%string, [EXT_ZICFISS]);
  ("smmpm"%string, [EXT_SMMPM]);
  ("smnpm"%string, [EXT_SMNPM]);
  ("ssnpm"%string, [EXT_SSNPM])].

(** Double traps and interrupt files. *)
Definition d_extensions : list (string * list Z) := [
  ("ssdbltrp"%string, [EXT_SSDBLTRP]);
  ("smdbltrp"%string, [EXT_SMDBLTRP]);
  ("smaia"%string, [EXT_SMAIA; EXT_SSAIA; EXT_SMCSRIND; EXT_SSCSRIND]);
  ("ssaia"%string, [EXT_SSAIA; EXT_SSCSRIND])].
Definition assigned : list (string * list Z) :=
  (a_extensions ++ zc_extensions ++ zk_extensions ++ misc_extensions ++ v_extensions ++ s_extensions ++ d_extensions)%list.

Fixpoint assoc (s : string) (l : list (string * list Z)) : option (list Z) :=
  match l with [] => None | (t, es) :: l => if String.eqb s t then Some es else assoc s l end.

Definition half_precision (ext_str : string) (i : isa_parser_t) : isa_result isa_parser_t :=
  bad_if negb (has (ext_letter "F") i) msg ("'" ++ ext_str ++ "' extension requires 'F'")%string in
  Parsed (enable (EXT_ZFHMIN :: if String.eqb ext_str "zfh" then [EXT_ZFH] else []) i).

Definition code_size (i : isa_parser_t) : isa_parser_t :=
  enable ([EXT_ZCA; EXT_ZCB; EXT_ZCMT; EXT_ZCMP] ++
    if has (ext_letter "F") i && (isa_max_xlen i =? 32) then [EXT_ZCF] else []) i.

(** [Zvl<n>b] *)
Definition vector_length (ext_str : string) (i : isa_parser_t) : isa_result isa_parser_t :=
  let new_vlen := match safe_stoul (strtake (String.length ext_str - 4) (strdrop 3 ext_str)) with
                  | Some n => n
                  | None => 0
                  end in
  bad_if negb (new_vlen .& u64 (new_vlen - 1) =? 0) || (new_vlen <? 32) || negb (Ascii.eqb (back ext_str) "b")
    msg ("Invalid Zvl string: " ++ ext_str)%string in
  Parsed (set_vector (Z.max (isa_vlen i) new_vlen) (isa_elen i) (isa_zvf i) (isa_zvd i) i).

(** [Zve<n><d|f|x>] *)
Definition vector_elements (ext_str : string) (i : isa_parser_t) : isa_result isa_parser_t :=
  bad_if negb (Nat.eqb (String.length ext_str) 6) msg ("Invalid Zve string: " ++ ext_str)%string in
  let new_elen := match safe_stoul (strtake (String.length ext_str - 4) (strdrop 3 ext_str)) with
                  | Some n => n
                  | None => 0
                  end in
  let suffix := strdrop 5 ext_str in
  let '(zvd, zvf, new_elen) :=
    if String.eqb suffix "d" then (true, true, new_elen)
    else if String.eqb suffix "f" then (isa_zvd i, true, new_elen)
    else if String.eqb suffix "x" then (isa_zvd i, isa_zvf i, new_elen)
    else (isa_zvd i, isa_zvf i, 0) in
  bad_if negb (new_elen =? 32) && negb (new_elen =? 64) msg ("Invalid Zve string: " ++ ext_str)%string in
  Parsed (set_vector (Z.max (isa_vlen i) new_elen) (Z.max (isa_elen i) new_elen) zvf zvd i).

(** [x<name>] *)
Definition custom_extension (ext_str : string) (i : isa_parser_t) : isa_result isa_parser_t :=
  let i := put (ext_letter "X") true i in
  bad_if Nat.eqb (String.length ext_str) 1 msg "single 'X' is not a proper name"%string in
  Parsed (if String.eqb ext_str "xdummy" then i else add_extension (strdrop 1 ext_str) i).

Definition extension (ext_str : string) (i : isa_parser_t) : isa_result isa_parser_t :=
  if String.eqb ext_str "zfh" || String.eqb ext_str "zfhmin" then half_precision ext_str i
  else if String.eqb ext_str "zce" then Parsed (code_size i)
  else if String.eqb ext_str "zcf" then
    bad_if negb (isa_max_xlen i =? 32) msg "'Zcf' requires RV32"%string in Parsed (put EXT_ZCF true i)
  else if String.eqb ext_str "zilsd" then
    bad_if negb (isa_max_xlen i =? 32) msg "'Zilsd' requires RV32"%string in Parsed (put EXT_ZILSD true i)
  else match assoc ext_str assigned with
       | Some es => Parsed (enable es i)
       | None =>
           if prefixed "zvl" ext_str then vector_length ext_str i
           else if prefixed "zve" ext_str then vector_elements ext_str i
           else if prefixed "x" ext_str then custom_extension ext_str i
           else Bad_isa ("unsupported extension: " ++ ext_str)%string
       end.

(** The name at [p] ends at the next underscore or the NUL; it has the first
    character of [p] whatever that is. *)
Fixpoint take_name (s : string) : string :=
  match s with
  | EmptyString => s
  | String c s' => if Ascii.eqb c underscore then EmptyString else String c (take_name s')
  end.
Fixpoint skip_name (s : string) : string :=
  match s with EmptyString => s | String c s' => if Ascii.eqb c underscore then s else skip_name s' end.

(** The loop over the names.  Behind an underscore at the end of the string [p]
    is at the NUL, and [do ++end; while ( *end ...)] reads behind it. *)
Fixpoint names (p : string) (i : isa_parser_t) : isa_result (isa_parser_t * string) :=
  match p with
  | EmptyString => Parsed (i, p)
  | String c p' =>
      if islower c || Ascii.eqb c underscore then
        match (if Ascii.eqb c underscore then p' else p) with
        | EmptyString => Overread
        | String d q => let! i := extension (String d (take_name q)) i in names (skip_name q) i
        end
      else Parsed (i, p)
  end.

(** * The rules between extensions *)

(** [A], [B] and [C] as groups of others, and the move instructions of half precision. *)
Definition groups (i : isa_parser_t) : isa_parser_t :=
  let i := if has (ext_letter "A") i then enable [EXT_ZAAMO; EXT_ZALRSC] i
           else if has EXT_ZAAMO i && has EXT_ZALRSC i then put (ext_letter "A") true i else i in
  let i := if has (ext_letter "B") i then enable [EXT_ZBA; EXT_ZBB; EXT_ZBS] i
           else if has EXT_ZBA i && has EXT_ZBB i && has EXT_ZBS i then put (ext_letter "B") true i else i in
  if has (ext_letter "C") i then
    let i := put EXT_ZCA true i in
    let i := if has (ext_letter "F") i && (isa_max_xlen i =? 32) then put EXT_ZCF true i else i in
    if has (ext_letter "D") i then put EXT_ZCD true i else i
  else i.

Definition half_moves (i : isa_parser_t) : isa_parser_t :=
  if has EXT_ZFBFMIN i || has EXT_ZFHMIN i then put EXT_INTERNAL_ZFH_MOVE true i else i.

(** The tests, in their order: a condition and the message. *)
Definition rules_before : list ((isa_parser_t -> bool) * string) := [
  (fun i => has EXT_ZCLSD i && has EXT_ZCF i, "'Zclsd' extension conflicts with 'Zcf' extensions"%string);
  (fun i => has EXT_ZCLSD i && (negb (has EXT_ZCA i) || negb (has EXT_ZILSD i)),
    "'Zclsd' extension requires 'Zca' and 'Zilsd' extensions"%string)].

Definition rules_after : list ((isa_parser_t -> bool) * string) := [
  (fun i => has EXT_ZFBFMIN i && negb (has (ext_letter "F") i), "'Zfbfmin' extension requires 'F' extension"%string);
  (fun i => has EXT_ZVFBFMIN i && ((isa_vlen i =? 0) || negb (isa_zvf i)),
    "'Zvfbfmin' extension requires 'Zve32f' extension"%string);
  (fun i => has EXT_ZVFBFWMA i && (negb (has EXT_ZFBFMIN i) || negb (has EXT_ZVFBFMIN i)),
    "'Zvfbfwma' extension requires 'Zfbfmin' and 'Zvfbfmin' extensions"%string);
  (fun i => has EXT_ZFINX i && has (ext_letter "F") i,
    "Zfinx/Zdinx/Zhinx{min} extensions conflict with 'F/D/Q/Zfh{min}' extensions"%string);
  (fun i => has EXT_ZCF i && negb (has (ext_letter "F") i), "'Zcf' extension requires 'F' extension"%string);
  (fun i => has EXT_ZCD i && negb (has (ext_letter "D") i), "'Zcd' extension requires 'D' extension"%string);
  (fun i => (has EXT_ZCMP i || has EXT_ZCMT i) && has EXT_ZCD i,
    "Zcmp' and 'Zcmt' extensions are incompatible with 'Zcd' extension"%string);
  (fun i => (has EXT_ZCF i || has EXT_ZCD i || has EXT_ZCB i || has EXT_ZCMP i || has EXT_ZCMT i) && negb (has EXT_ZCA i),
    "'Zcf/Zcd/Zcb/Zcmp/Zcmt' extensions require 'Zca' extension"%string);
  (fun i => has EXT_ZACAS i && negb (has EXT_ZAAMO i),
    "'Zacas' extension requires either the 'A' or the 'Zaamo' extension"%string);
  (fun i => has EXT_ZABHA i && negb (has EXT_ZAAMO i),
    "'Zabha' extension requires either the 'A' or the 'Zaamo' extension"%string);
  (fun i => has EXT_ZAWRS i && negb (has EXT_ZALRSC i),
    "'Zabha' extension requires either the 'A' or the 'Zalrsc' extension"%string);
  (fun i => has EXT_ZICFISS i && negb (has EXT_ZIMOP i), "'Zicfiss' extension requires 'Zimop' extension"%string);
  (fun i => has EXT_ZICFISS i && has EXT_ZCA i && negb (has EXT_ZCMOP i),
    "'Zicfiss' extension requires 'Zcmop' extension when `Zca` is supported"%string);
  (fun i => 4096 <? isa_vlen i, "Spike does not support VLEN > 4096"%string);
  (fun i => has EXT_ZVFHMIN i && ((isa_vlen i =? 0) || (isa_elen i =? 0) || negb (isa_zvf i)),
    "'Zvfhmin' extension requires Zve32f"%string);
  (fun i => has EXT_ZVFH i && ((isa_vlen i =? 0) || (isa_elen i =? 0) || negb (isa_zvf i) || negb (has EXT_ZVFHMIN i)),
    "'Zvfh' extension requires Zve32f and 'Zvfhmin'"%string);
  (fun i => isa_zvd i && negb (has (ext_letter "D") i) && (isa_elen i <? 64), "'ZveXXd' extension requires D"%string);
  (fun i => isa_zvf i && negb (has (ext_letter "F") i), "'ZveXXf' extension requires F"%string)].

Fixpoint check (rules : list ((isa_parser_t -> bool) * string)) (i : isa_parser_t) : isa_result isa_parser_t :=
  match rules with
  | [] => Parsed i
  | (b, t) :: rules => bad_if b i msg t in check rules i
  end.

(** [--priv]: whether there are user and supervisor modes. *)
Definition priv_modes (priv : string) : isa_result (bool * bool) :=
  let lowercase := strtolower priv in
  if String.eqb lowercase "m" then Parsed (false, false)
  else if String.eqb lowercase "mu" then Parsed (true, false)
  else if String.eqb lowercase "msu" then Parsed (true, true)
  else Bad_priv.

(** The loop over [A] to [Z]. *)
Definition misa_letters (table : Z) (misa : Z) : Z :=
  fold_left (fun m k => if bitset_test table (ext_letter "A" + k) then m .| Z.shiftl 1 k else m) (seqZ 0 26) misa.

(** * The constructor *)

Definition xlen_of (s : string) : option Z :=
  if prefixed "rv32" s then Some 32 else if prefixed "rv64" s then Some 64 else None.

(** [switch (isa_string[4])]: the string after it, and the letter of the base. *)
Definition base_isa (s : string) : option (string * Z) :=
  match strdrop 4 s with
  | String c rest =>
      if Ascii.eqb c "g" then Some (strtake 4 s ++ "imafd" ++ rest, ext_letter "I")%string
      else if Ascii.eqb c "i" then Some (s, ext_letter "I")
      else if Ascii.eqb c "e" then Some (s, ext_letter "E")
      else None
  | EmptyString => None
  end.

(** What precedes the loops: the string in lower case with [G] spelt out, the base. *)
Definition start (str : string) : isa_result isa_parser_t :=
  let s := strtolower str in
  match xlen_of s with
  | None => Bad_isa "ISA strings must begin with RV32 or RV64"%string
  | Some xlen =>
      match base_isa s with
      | None => Bad_isa ("'" ++ strtake 4 s ++ "' must be followed by I, E, or G")%string
      | Some (s, base) => Parsed (put base true (mk_isa xlen 0 0 0 false false 0 s ∅))
      end
  end.

(** What follows them. *)
Definition finish (priv : string) (i : isa_parser_t) : isa_result isa_parser_t :=
  let! i := check rules_before (groups i) in
  let! i := check rules_after (half_moves i) in
  let! modes := priv_modes priv in
  let i := put (ext_letter "U") (fst modes) i in
  let i := put (ext_letter "S") (snd modes) i in
  bad_if has (ext_letter "H") i && negb (snd modes) msg "'H' extension requires S mode"%string in
  Parsed (set_max_isa (misa_letters (extension_table i) (if isa_max_xlen i =? 32 then Z.shiftl 1 30 else Z.shiftl 2 62)) i).

Definition new_isa_parser (str priv : string) : isa_result isa_parser_t :=
  let! i := start str in
  let! r := letters (strdrop 5 (isa_string i)) all_subsets i in
  let! r := names (snd r) (fst r) in
  bad_if negb (String.eqb (snd r) EmptyString) msg ("can't parse: " ++ snd r)%string in
  finish priv (fst r).


(** What the constructor of [processor_t] takes from the object; [c] is the rest of
    its configuration. *)
Definition configure (i : isa_parser_t) (c : config) : config := {|
  max_xlen := isa_max_xlen i; max_isa := isa_max_isa i; isa_extension_table := extension_table i;
  n_pmp := @n_pmp c; lg_pmp_granularity := @lg_pmp_granularity c; cfg_misaligned := @cfg_misaligned c;
  target_big_endian := @target_big_endian c;
  cfg_VLEN := isa_vlen i; cfg_ELEN := isa_elen i; cfg_zvf := isa_zvf i; cfg_zvd := isa_zvd i;
  any_custom_extensions := negb (bool_decide (extensions i = ∅));
  impl_table := @impl_table c; blocksz := @blocksz c; trigger_count := @trigger_count c; hart_id := @hart_id c;
  seed_value := @seed_value c; cfg_slow := @cfg_slow c; cfg_log := @cfg_log c |}.
