(* ===== verification/CacheSim.v ===== *)
(** The cache simulator, [riscv/cachesim.cc] and [riscv/cachesim.h]: caches that
    count hits and misses beside the execution, each with the next level as its
    [miss_handler], and the tracers of instruction and data accesses. *)

From S2P Require Import Prelude IsaParser.

Definition VALID : Z := Z.shiftl 1 63.
Definition DIRTY : Z := Z.shiftl 1 62.

(** [lfsr_t::next]: the register, which is also the number returned. *)
Definition lfsr_next (reg : Z) : Z := Z.shiftr reg 1 .^ (u32 (- (reg .& 1)) .& 0xd0000001).

(** The tags: the array of [cache_sim_t], or the [std::map] of [fa_cache_sim_t] in the
    order of its keys. *)
Inductive tags_t : Type :=
| Array (words : list Z)
| Map (entries : list (Z * Z)).

Record stats_t : Type := mk_stats {
  read_accesses : Z;
  read_misses : Z;
  bytes_read : Z;
  write_accesses : Z;
  write_misses : Z;
  bytes_written : Z;
  writebacks : Z
}.

(** [name] and [log] are left out; the [miss_handler] is the next element of the
    list of caches an operation works on. *)
Record cache_sim_t : Type := mk_cache {
  sets : Z;
  ways : Z;
  linesz : Z;
  idx_shift : Z;
  tags : tags_t;
  lfsr : Z;
  stats : stats_t
}.

Definition set_tags (x : tags_t) (c : cache_sim_t) : cache_sim_t :=
  mk_cache (sets c) (ways c) (linesz c) (idx_shift c) x (lfsr c) (stats c).
Definition set_lfsr (x : Z) (c : cache_sim_t) : cache_sim_t :=
  mk_cache (sets c) (ways c) (linesz c) (idx_shift c) (tags c) x (stats c).
Definition set_stats (x : stats_t) (c : cache_sim_t) : cache_sim_t :=
  mk_cache (sets c) (ways c) (linesz c) (idx_shift c) (tags c) (lfsr c) x.

Definition no_stats : stats_t := mk_stats 0 0 0 0 0 0 0.

(** * Construction *)

(** [for (size_t x = linesz; x>1; x >>= 1) idx_shift++;]: [x] has at most 64 bits. *)
Fixpoint shift_loop (fuel : nat) (x n : Z) : Z :=
  match fuel with O => n | S fuel => if 1 <? x then shift_loop fuel (Z.shiftr x 1) (n + 1) else n end.

(** [init]; it is [None] where [help] exits. *)
Definition init (fa : bool) (sets ways linesz : Z) : option cache_sim_t :=
  if (sets =? 0) || z2b (sets .& u64 (sets - 1)) then None
  else if (linesz <? 8) || z2b (linesz .& u64 (linesz - 1)) then None
  else Some (mk_cache sets ways linesz (shift_loop 64 linesz 0)
               (if fa then Map [] else Array (replicate (Z.to_nat (u64 (sets * ways))) 0)) 1 no_stats).

(** [atoi]: white space, a sign, digits up to another character.  A number
    outside of [int] is undefined; it is [None]. *)
Fixpoint digits_prefix (s : string) (acc : Z) : Z :=
  match s with
  | String c s => if isdigit c then digits_prefix s (10 * acc + (code c - 48)) else acc
  | EmptyString => acc
  end.
Definition atoi (s : string) : option Z :=
  let s := skip_space s in
  let n := match s with
           | String c s' => if code c =? 45 then - digits_prefix s' 0 else if code c =? 43 then digits_prefix s' 0 else digits_prefix s 0
           | EmptyString => 0
           end in
  if swrap 32 n =? n then Some n else None.

(** [strchr(s, ':') + 1] *)
Fixpoint behind_colon (s : string) : option string :=
  match s with
  | EmptyString => None
  | String c s => if Ascii.eqb c ":"%char then Some s else behind_colon s
  end.

(** [construct]: a cache, an exit in [help], or [None] for a number [atoi] does not
    define.  [atoi(std::string(config, wp))] stops at the colon as [atoi(config)]
    does. *)
Definition construct (config : string) : option (option cache_sim_t) :=
  match behind_colon config with
  | None => Some None
  | Some wp =>
      match behind_colon wp with
      | None => Some None
      | Some bp =>
          sets ← atoi config; ways ← atoi wp; linesz ← atoi bp;
          let '(sets, ways, linesz) := (u64 sets, u64 ways, u64 linesz) in
          Some (if (4 <? ways) && (sets =? 1) then init true 1 ways linesz else init false sets ways linesz)
      end
  end.

(** * Tags *)

Definition line_of (c : cache_sim_t) (addr : Z) : Z := Z.shiftr addr (idx_shift c).
Definition index_of (c : cache_sim_t) (addr : Z) : Z := line_of c addr .& (sets c - 1).

(** The slot of a tag: its index in the array, its place in the map. *)
Definition tag_at (c : cache_sim_t) (slot : nat) : option Z :=
  match tags c with Array ws => ws !! slot | Map es => snd <$> es !! slot end.
Definition set_tag (slot : nat) (t : Z) (c : cache_sim_t) : cache_sim_t :=
  set_tags (match tags c with
            | Array ws => Array (<[slot := t]> ws)
            | Map es => Map (alter (fun e => (fst e, t)) slot es)
            end) c.

(** The loop of [check_tag] from way [i], [n] ways to go. *)
Fixpoint find_way (ws : list Z) (base : Z) (tag : Z) (i n : nat) : option nat :=
  match n with
  | O => None
  | S n =>
      let slot := (Z.to_nat base + i)%nat in
      match ws !! slot with
      | Some t => if tag =? t &~ DIRTY then Some slot else find_way ws base tag (S i) n
      | None => None
      end
  end.
Fixpoint find_key (es : list (Z * Z)) (key : Z) (i : nat) : option nat :=
  match es with [] => None | (k, _) :: es => if k =? key then Some i else find_key es key (S i) end.

Definition check_tag (addr : Z) (c : cache_sim_t) : option nat :=
  match tags c with
  | Array ws => find_way ws (index_of c addr * ways c) (line_of c addr .| VALID) 0 (Z.to_nat (ways c))
  | Map es => find_key es (line_of c addr) 0
  end.

(** [std::map::operator[]] with an assignment. *)
Fixpoint map_assign (k v : Z) (es : list (Z * Z)) : list (Z * Z) :=
  match es with
  | [] => [(k, v)]
  | (k', v') :: es' => if k <? k' then (k, v) :: es else if k =? k' then (k, v) :: es' else (k', v') :: map_assign k v es'
  end.

(** [victimize]: the tag replaced.  It is [None] for a cache without ways, where the
    remainder divides by zero. *)
Definition victimize (addr : Z) (c : cache_sim_t) : option (Z * cache_sim_t) :=
  let t := line_of c addr .| VALID in
  match tags c with
  | Array ws =>
      if ways c =? 0 then None else
      let c := set_lfsr (lfsr_next (lfsr c)) c in
      let slot := Z.to_nat (index_of c addr * ways c + lfsr c mod ways c) in
      victim ← ws !! slot;
      Some (victim, set_tag slot t c)
  | Map es =>
      if Z.of_nat (length es) =? ways c then
        if ways c =? 0 then None else
        let c := set_lfsr (lfsr_next (lfsr c)) c in
        let slot := Z.to_nat (lfsr c mod ways c) in
        old ← es !! slot;
        Some (snd old, set_tags (Map (map_assign (line_of c addr) t (delete slot es))) c)
      else Some (0, set_tags (Map (map_assign (line_of c addr) t es)) c)
  end.

Definition set_dirty (slot : nat) (c : cache_sim_t) : cache_sim_t :=
  match tag_at c slot with Some t => set_tag slot (t .| DIRTY) c | None => c end.

(** * Accesses *)

Definition count_access (bytes : Z) (store : bool) (s : stats_t) : stats_t :=
  if store then mk_stats (read_accesses s) (read_misses s) (bytes_read s) (u64 (write_accesses s + 1)) (write_misses s)
                  (u64 (bytes_written s + bytes)) (writebacks s)
  else mk_stats (u64 (read_accesses s + 1)) (read_misses s) (u64 (bytes_read s + bytes)) (write_accesses s) (write_misses s)
         (bytes_written s) (writebacks s).
Definition count_miss (store : bool) (s : stats_t) : stats_t :=
  if store then mk_stats (read_accesses s) (read_misses s) (bytes_read s) (write_accesses s) (u64 (write_misses s + 1)) (bytes_written s) (writebacks s)
  else mk_stats (read_accesses s) (u64 (read_misses s + 1)) (bytes_read s) (write_accesses s) (write_misses s) (bytes_written s) (writebacks s).
Definition count_writeback (s : stats_t) : stats_t :=
  mk_stats (read_accesses s) (read_misses s) (bytes_read s) (write_accesses s) (write_misses s) (bytes_written s) (u64 (writebacks s + 1)).

(** The address of the line of a victim, and whether it must be written back. *)
Definition dirty_victim (victim : Z) : bool := victim .& (VALID .| DIRTY) =? VALID .| DIRTY.
Definition dirty_addr (victim : Z) (c : cache_sim_t) : Z := u64 (Z.shiftl (victim &~ (VALID .| DIRTY)) (idx_shift c)).
Definition line_addr (addr : Z) (c : cache_sim_t) : Z := addr &~ (linesz c - 1).

(** [access] on a cache and those below it; it is [None] where the simulator would
    divide by zero or follow a null pointer.  An access keeps the number of levels,
    on which it recurs. *)
Fixpoint access_levels (n : nat) (addr bytes : Z) (store : bool) (cs : list cache_sim_t) : option (list cache_sim_t) :=
  match n, cs with
  | S n, c :: below =>
      let c := set_stats (count_access bytes store (stats c)) c in
      match check_tag addr c with
      | Some slot => Some ((if store then set_dirty slot c else c) :: below)
      | None =>
          let c := set_stats (count_miss store (stats c)) c in
          '(victim, c) ← victimize addr c;
          '(c, below) ←
            (if dirty_victim victim then
               below ← access_levels n (dirty_addr victim c) (linesz c) true below;
               Some (set_stats (count_writeback (stats c)) c, below)
             else Some (c, below));
          below ← access_levels n (line_addr addr c) (linesz c) false below;
          if store then slot ← check_tag addr c; Some (set_dirty slot c :: below)
          else Some (c :: below)
      end
  | _, _ => Some cs
  end.
Definition access (addr bytes : Z) (store : bool) (cs : list cache_sim_t) : option (list cache_sim_t) :=
  access_levels (length cs) addr bytes store cs.

(** * Cleaning and invalidation *)

(** The body of the loop at one line. *)
Definition clean_line (clean inval : bool) (addr : Z) (c : cache_sim_t) : cache_sim_t :=
  match check_tag addr c with
  | Some slot =>
      let c := match tag_at c slot with
               | Some t =>
                   if clean && z2b (t .& DIRTY) then
                     set_tag slot (t &~ DIRTY) (set_stats (count_writeback (stats c)) c)
                   else c
               | None => c
               end in
      match tag_at c slot with
      | Some t => if inval then set_tag slot (t &~ VALID) c else c
      | None => c
      end
  | None => c
  end.

(** [while (cur_addr < end_addr)]: the number of turns is that of lines between. *)
Fixpoint clean_lines (clean inval : bool) (cur_addr : Z) (n : nat) (c : cache_sim_t) : cache_sim_t :=
  match n with
  | O => c
  | S n => clean_lines clean inval (cur_addr + linesz c) n (clean_line clean inval cur_addr c)
  end.

Definition clean_range (addr bytes : Z) (clean inval : bool) (c : cache_sim_t) : cache_sim_t :=
  let start_addr := addr &~ (linesz c - 1) in
  let end_addr := u64 (addr + bytes + linesz c - 1) &~ (linesz c - 1) in
  clean_lines clean inval start_addr (Z.to_nat ((end_addr - start_addr) / linesz c)) c.

(** [clean_invalidate], on the cache and those below it. *)
Definition clean_invalidate (addr bytes : Z) (clean inval : bool) (cs : list cache_sim_t) : list cache_sim_t :=
  map (clean_range addr bytes clean inval) cs.

(** * Tracers *)

Inductive access_type : Type := LOAD | STORE | FETCH.

(** [icache_sim_t] and [dcache_sim_t]. *)
Inductive cache_memtracer_t : Type := Icache | Dcache.

Definition interested (t : cache_memtracer_t) (type : access_type) : bool :=
  match t, type with Icache, FETCH => true | Dcache, (LOAD | STORE) => true | _, _ => false end.

(** The caches of [spike.cc]: those of instructions and data, and the [--l2] that
    both have as their miss handler. *)
Record hierarchy : Type := mk_hierarchy {
  ic : option cache_sim_t;
  dc : option cache_sim_t;
  l2 : option cache_sim_t
}.

Definition to_list (c : option cache_sim_t) : list cache_sim_t := match c with Some c => [c] | None => [] end.

(** An operation on the cache of a tracer with those below it. *)
Definition on_tracer (t : cache_memtracer_t) (f : list cache_sim_t -> option (list cache_sim_t)) (h : hierarchy) : option hierarchy :=
  match (match t with Icache => ic h | Dcache => dc h end) with
  | None => Some h
  | Some c =>
      cs ← f (c :: to_list (l2 h));
      match cs with
      | c :: below =>
          Some (match t with
                | Icache => mk_hierarchy (Some c) (dc h) (head below)
                | Dcache => mk_hierarchy (ic h) (Some c) (head below)
                end)
      | [] => None
      end
  end.

(** [trace]: an access of the type the tracer looks at. *)
Definition trace (t : cache_memtracer_t) (addr bytes : Z) (type : access_type) (h : hierarchy) : option hierarchy :=
  if interested t type then
    on_tracer t (access addr bytes (match type with STORE => true | _ => false end)) h
  else Some h.

(** [memtracer_list_t]: the tracers in the order they were hooked. *)
Definition hooked (h : hierarchy) : list cache_memtracer_t :=
  (match ic h with Some _ => [Icache] | None => [] end) ++ (match dc h with Some _ => [Dcache] | None => [] end).
Definition list_interested (h : hierarchy) (type : access_type) : bool := existsb (fun t => interested t type) (hooked h).
Fixpoint for_tracers (ts : list cache_memtracer_t) (f : cache_memtracer_t -> hierarchy -> option hierarchy) (h : hierarchy) : option hierarchy :=
  match ts with [] => Some h | t :: ts => h ← f t h; for_tracers ts f h end.
Definition list_trace (addr bytes : Z) (type : access_type) (h : hierarchy) : option hierarchy :=
  for_tracers (hooked h) (fun t => trace t addr bytes type) h.
Definition list_clean_invalidate (addr bytes : Z) (clean inval : bool) (h : hierarchy) : option hierarchy :=
  for_tracers (hooked h) (fun t => on_tracer t (fun cs => Some (clean_invalidate addr bytes clean inval cs))) h.
