(* ===== verification/DebugModule.v ===== *)
(** The debug module, [riscv/debug_module.cc] and [riscv/debug_module.h]: its
    registers as the debugger sees them over the debug module interface, the
    programs it assembles for a halted hart, the page of memory by which the
    hart and the module talk, and its master on the system bus.

    What the module does to the harts is a queue of acts.  An access outside an
    array, a failed [assert] and a throwing [at] are the result [None]. *)

From S2P Require Import Prelude IntArith Decode Encoding Assembler DebugDefines JtagDtm Trap Hart.
Import Assembler.

Module Dm.

(** * Constants *)

Definition DEBUG_ROM_HALTED : Z := 0x100.
Definition DEBUG_ROM_GOING : Z := 0x104.
Definition DEBUG_ROM_RESUMING : Z := 0x108.
Definition DEBUG_ROM_EXCEPTION : Z := 0x10c.
Definition DEBUG_ROM_FLAGS : Z := 0x400.
Definition DEBUG_ROM_FLAG_GO : Z := 0.
Definition DEBUG_ROM_FLAG_RESUME : Z := 1.
Definition DEBUG_ROM_WHERETO : Z := 0x300.
Definition DEBUG_ROM_ENTRY : Z := 0x800.
Definition DEBUG_START : Z := 0.
Definition ZERO : Z := 0.
Definition S0 : Z := 8.

(** The program of [debug_rom.S], as assembled in [debug_rom.h]. *)
Definition debug_rom_raw : list Z := [
  0x6f; 0x00; 0xc0; 0x00; 0x6f; 0x00; 0x40; 0x0d; 0x6f; 0x00; 0x40; 0x07; 0x0f; 0x00; 0xf0; 0x0f;
  0x73; 0x10; 0x24; 0x7b; 0x73; 0x74; 0x08; 0x7b; 0x13; 0x74; 0x04; 0x01; 0x63; 0x1a; 0x04; 0x00;
  0x73; 0x24; 0x40; 0xf1; 0x23; 0x20; 0x80; 0x10; 0x03; 0x44; 0x04; 0x40; 0x6f; 0x00; 0x40; 0x01;
  0x73; 0x24; 0x40; 0xf1; 0x23; 0x20; 0x80; 0x10; 0x03; 0x44; 0x04; 0x40; 0x73; 0x60; 0x08; 0x7b;
  0x13; 0x74; 0x14; 0x00; 0x63; 0x10; 0x04; 0x06; 0x73; 0x74; 0x08; 0x7b; 0x13; 0x74; 0x04; 0x01;
  0x63; 0x18; 0x04; 0x00; 0x73; 0x24; 0x40; 0xf1; 0x03; 0x44; 0x04; 0x40; 0x6f; 0x00; 0x00; 0x01;
  0x73; 0x24; 0x40; 0xf1; 0x03; 0x44; 0x04; 0x40; 0x73; 0x60; 0x08; 0x7b; 0x13; 0x74; 0x24; 0x00;
  0x63; 0x14; 0x04; 0x06; 0x73; 0x00; 0x50; 0x10; 0x6f; 0xf0; 0xdf; 0xf9; 0x73; 0x74; 0x08; 0x7b;
  0x13; 0x74; 0x04; 0x01; 0x63; 0x18; 0x04; 0x00; 0x73; 0x24; 0x20; 0x7b; 0x23; 0x26; 0x00; 0x10;
  0x6f; 0x00; 0x00; 0x01; 0x73; 0x24; 0x20; 0x7b; 0x23; 0x26; 0x00; 0x10; 0x73; 0x60; 0x08; 0x7b;
  0x73; 0x00; 0x10; 0x00; 0x73; 0x74; 0x08; 0x7b; 0x13; 0x74; 0x04; 0x01; 0x63; 0x18; 0x04; 0x00;
  0x73; 0x24; 0x40; 0xf1; 0x23; 0x22; 0x80; 0x10; 0x6f; 0x00; 0x00; 0x01; 0x73; 0x24; 0x40; 0xf1;
  0x23; 0x22; 0x80; 0x10; 0x73; 0x60; 0x08; 0x7b; 0x73; 0x24; 0x20; 0x7b; 0x0f; 0x00; 0xf0; 0x0f;
  0x0f; 0x10; 0x00; 0x00; 0x67; 0x00; 0x00; 0x30; 0x73; 0x74; 0x08; 0x7b; 0x13; 0x74; 0x04; 0x01;
  0x63; 0x18; 0x04; 0x00; 0x73; 0x24; 0x40; 0xf1; 0x23; 0x24; 0x80; 0x10; 0x6f; 0x00; 0x00; 0x01;
  0x73; 0x24; 0x40; 0xf1; 0x23; 0x24; 0x80; 0x10; 0x73; 0x60; 0x08; 0x7b; 0x73; 0x24; 0x20; 0x7b;
  0x73; 0x00; 0x20; 0x7b].

Definition CMDERR_NONE : Z := 0.
Definition CMDERR_BUSY : Z := 1.
Definition CMDERR_NOTSUP : Z := 2.
Definition CMDERR_EXCEPTION : Z := 3.
Definition CMDERR_HALTRESUME : Z := 4.

(** The loop that shifts [n] until it is 0. *)
Fixpoint width_loop (fuel : nat) (i n : Z) : Z :=
  match fuel with
  | O => i
  | S fuel => if n =? 0 then i else width_loop fuel (i + 1) (Z.shiftr n 1)
  end.
Definition field_width (n : Z) : Z := width_loop 32 0 (u32 (n - 1)).

(** * The configuration

    [debug_module_config_t], the harts of [cfg_t], and what [random()] returns
    at each call. *)
Class debug_config : Type := {
  progbufsize : Z;
  max_sba_data_width : Z;
  require_authentication : bool;
  abstract_rti : Z;
  support_hasel : bool;
  support_abstract_csr_access : bool;
  support_abstract_fpr_access : bool;
  support_haltgroups : bool;
  support_impebreak : bool;
  hartids : list Z;
  random : nat -> Z
}.

(** The loads and stores of [debug_mmu]: an address and a size in bytes; a load
    without a value and a store that answers [false] have thrown a memory trap. *)
Class system_bus (B : Type) : Type := {
  sb_load : Z -> Z -> B -> option Z * B;
  sb_store : Z -> Z -> Z -> B -> bool * B
}.

(** * The state *)

Record dmcontrol_t : Type := mk_dmcontrol {
  haltreq : bool; resumereq : bool; hasel : bool; hartsel : Z; hartreset : bool; dmactive : bool; ndmreset : bool }.
(** The flags over the selected harts, which every read of [dmstatus] computes
    afresh, are not kept. *)
Record dmstatus_t : Type := mk_dmstatus { impebreak : bool; authenticated : bool; authbusy : bool; version : Z }.
Record abstractcs_t : Type := mk_abstractcs { busy : bool; datacount : Z; cs_progbufsize : Z; cmderr : Z }.
Record abstractauto_t : Type := mk_abstractauto { autoexecprogbuf : Z; autoexecdata : Z }.
Record sbcs_t : Type := mk_sbcs {
  sbversion : Z; readonaddr : bool; sbaccess : Z; autoincrement : bool; readondata : bool; error : Z; asize : Z;
  access128 : bool; access64 : bool; access32 : bool; access16 : bool; access8 : bool; sbbusyerror : bool }.
Record hart_debug_state_t : Type := mk_hart_state {
  halted : bool; resumeack : bool; havereset : bool; haltgroup : Z }.

Definition set_busy (x : bool) (a : abstractcs_t) : abstractcs_t := mk_abstractcs x (datacount a) (cs_progbufsize a) (cmderr a).
Definition set_cmderr (x : Z) (a : abstractcs_t) : abstractcs_t := mk_abstractcs (busy a) (datacount a) (cs_progbufsize a) x.
Definition set_authenticated (x : bool) (s : dmstatus_t) : dmstatus_t :=
  mk_dmstatus (impebreak s) x (authbusy s) (version s).
Definition set_sberror (x : Z) (s : sbcs_t) : sbcs_t :=
  mk_sbcs (sbversion s) (readonaddr s) (sbaccess s) (autoincrement s) (readondata s) x (asize s)
    (access128 s) (access64 s) (access32 s) (access16 s) (access8 s) (sbbusyerror s).
Definition set_sbbusyerror (x : bool) (s : sbcs_t) : sbcs_t :=
  mk_sbcs (sbversion s) (readonaddr s) (sbaccess s) (autoincrement s) (readondata s) (error s) (asize s)
    (access128 s) (access64 s) (access32 s) (access16 s) (access8 s) x.
Definition set_halted (x : bool) (h : hart_debug_state_t) : hart_debug_state_t :=
  mk_hart_state x (resumeack h) (havereset h) (haltgroup h).
Definition set_resumeack (x : bool) (h : hart_debug_state_t) : hart_debug_state_t :=
  mk_hart_state (halted h) x (havereset h) (haltgroup h).
Definition set_havereset (x : bool) (h : hart_debug_state_t) : hart_debug_state_t :=
  mk_hart_state (halted h) (resumeack h) x (haltgroup h).
Definition set_haltgroup (x : Z) (h : hart_debug_state_t) : hart_debug_state_t :=
  mk_hart_state (halted h) (resumeack h) (havereset h) x.

(** What the module does to a hart: a new [halt_request], a reset. *)
Inductive debug_act : Type := Halt_request (hart_id : Z) (r : halt_request_t) | Hart_reset (hart_id : Z).

Section debug_module.
Context {B : Type} `{!debug_config, !system_bus B}.

Record debug_module_t : Type := mk_dm {
  dmcontrol : dmcontrol_t;
  dmstatus : dmstatus_t;
  abstractcs : abstractcs_t;
  abstractauto : abstractauto_t;
  command : Z;
  hawindowsel : Z;
  hart_array_mask : list bool;
  sbcs : sbcs_t;
  sbaddress : list Z;
  sbdata : list Z;
  challenge : Z;
  abstract_command_completed : bool;
  rti_remaining : Z;
  hart_available_state : list bool;
  sb_read_wait : Z;
  sb_write_wait : Z;
  custom_base : Z;
  debug_rom_whereto : list Z;
  debug_abstract : list Z;
  program_buffer : list Z;
  dmdata : list Z;
  hart_state : list hart_debug_state_t;
  debug_rom_flags : list Z;
  randoms : nat;
  acts : list debug_act;
  sba : B }.

Definition set_dmcontrol (x : dmcontrol_t) (d : debug_module_t) : debug_module_t :=
  mk_dm x (dmstatus d) (abstractcs d) (abstractauto d) (command d) (hawindowsel d) (hart_array_mask d)
    (sbcs d) (sbaddress d) (sbdata d) (challenge d) (abstract_command_completed d) (rti_remaining d)
    (hart_available_state d) (sb_read_wait d) (sb_write_wait d) (custom_base d) (debug_rom_whereto d)
    (debug_abstract d) (program_buffer d) (dmdata d) (hart_state d) (debug_rom_flags d) (randoms d) (acts d)
    (sba d).
Definition set_dmstatus (x : dmstatus_t) (d : debug_module_t) : debug_module_t :=
  mk_dm (dmcontrol d) x (abstractcs d) (abstractauto d) (command d) (hawindowsel d) (hart_array_mask d)
    (sbcs d) (sbaddress d) (sbdata d) (challenge d) (abstract_command_completed d) (rti_remaining d)
    (hart_available_state d) (sb_read_wait d) (sb_write_wait d) (custom_base d) (debug_rom_whereto d)
    (debug_abstract d) (program_buffer d) (dmdata d) (hart_state d) (debug_rom_flags d) (randoms d) (acts d)
    (sba d).
Definition set_abstractcs (x : abstractcs_t) (d : debug_module_t) : debug_module_t :=
  mk_dm (dmcontrol d) (dmstatus d) x (abstractauto d) (command d) (hawindowsel d) (hart_array_mask d) (sbcs d)
    (sbaddress d) (sbdata d) (challenge d) (abstract_command_completed d) (rti_remaining d)
    (hart_available_state d) (sb_read_wait d) (sb_write_wait d) (custom_base d) (debug_rom_whereto d)
    (debug_abstract d) (program_buffer d) (dmdata d) (hart_state d) (debug_rom_flags d) (randoms d) (acts d)
    (sba d).
Definition set_abstractauto (x : abstractauto_t) (d : debug_module_t) : debug_module_t :=
  mk_dm (dmcontrol d) (dmstatus d) (abstractcs d) x (command d) (hawindowsel d) (hart_array_mask d) (sbcs d)
    (sbaddress d) (sbdata d) (challenge d) (abstract_command_completed d) (rti_remaining d)
    (hart_available_state d) (sb_read_wait d) (sb_write_wait d) (custom_base d) (debug_rom_whereto d)
    (debug_abstract d) (program_buffer d) (dmdata d) (hart_state d) (debug_rom_flags d) (randoms d) (acts d)
    (sba d).
Definition set_command (x : Z) (d : debug_module_t) : debug_module_t :=
  mk_dm (dmcontrol d) (dmstatus d) (abstractcs d) (abstractauto d) x (hawindowsel d) (hart_array_mask d)
    (sbcs d) (sbaddress d) (sbdata d) (challenge d) (abstract_command_completed d) (rti_remaining d)
    (hart_available_state d) (sb_read_wait d) (sb_write_wait d) (custom_base d) (debug_rom_whereto d)
    (debug_abstract d) (program_buffer d) (dmdata d) (hart_state d) (debug_rom_flags d) (randoms d) (acts d)
    (sba d).
Definition set_hawindowsel (x : Z) (d : debug_module_t) : debug_module_t :=
  mk_dm (dmcontrol d) (dmstatus d) (abstractcs d) (abstractauto d) (command d) x (hart_array_mask d) (sbcs d)
    (sbaddress d) (sbdata d) (challenge d) (abstract_command_completed d) (rti_remaining d)
    (hart_available_state d) (sb_read_wait d) (sb_write_wait d) (custom_base d) (debug_rom_whereto d)
    (debug_abstract d) (program_buffer d) (dmdata d) (hart_state d) (debug_rom_flags d) (randoms d) (acts d)
    (sba d).
Definition set_hart_array_mask (x : list bool) (d : debug_module_t) : debug_module_t :=
  mk_dm (dmcontrol d) (dmstatus d) (abstractcs d) (abstractauto d) (command d) (hawindowsel d) x (sbcs d)
    (sbaddress d) (sbdata d) (challenge d) (abstract_command_completed d) (rti_remaining d)
    (hart_available_state d) (sb_read_wait d) (sb_write_wait d) (custom_base d) (debug_rom_whereto d)
    (debug_abstract d) (program_buffer d) (dmdata d) (hart_state d) (debug_rom_flags d) (randoms d) (acts d)
    (sba d).
Definition set_sbcs (x : sbcs_t) (d : debug_module_t) : debug_module_t :=
  mk_dm (dmcontrol d) (dmstatus d) (abstractcs d) (abstractauto d) (command d) (hawindowsel d)
    (hart_array_mask d) x (sbaddress d) (sbdata d) (challenge d) (abstract_command_completed d)
    (rti_remaining d) (hart_available_state d) (sb_read_wait d) (sb_write_wait d) (custom_base d)
    (debug_rom_whereto d) (debug_abstract d) (program_buffer d) (dmdata d) (hart_state d) (debug_rom_flags d)
    (randoms d) (acts d) (sba d).
Definition set_sbaddress (x : list Z) (d : debug_module_t) : debug_module_t :=
  mk_dm (dmcontrol d) (dmstatus d) (abstractcs d) (abstractauto d) (command d) (hawindowsel d)
    (hart_array_mask d) (sbcs d) x (sbdata d) (challenge d) (abstract_command_completed d) (rti_remaining d)
    (hart_available_state d) (sb_read_wait d) (sb_write_wait d) (custom_base d) (debug_rom_whereto d)
    (debug_abstract d) (program_buffer d) (dmdata d) (hart_state d) (debug_rom_flags d) (randoms d) (acts d)
    (sba d).
Definition set_sbdata (x : list Z) (d : debug_module_t) : debug_module_t :=
  mk_dm (dmcontrol d) (dmstatus d) (abstractcs d) (abstractauto d) (command d) (hawindowsel d)
    (hart_array_mask d) (sbcs d) (sbaddress d) x (challenge d) (abstract_command_completed d)
    (rti_remaining d) (hart_available_state d) (sb_read_wait d) (sb_write_wait d) (custom_base d)
    (debug_rom_whereto d) (debug_abstract d) (program_buffer d) (dmdata d) (hart_state d) (debug_rom_flags d)
    (randoms d) (acts d) (sba d).
Definition set_challenge (x : Z) (d : debug_module_t) : debug_module_t :=
  mk_dm (dmcontrol d) (dmstatus d) (abstractcs d) (abstractauto d) (command d) (hawindowsel d)
    (hart_array_mask d) (sbcs d) (sbaddress d) (sbdata d) x (abstract_command_completed d) (rti_remaining d)
    (hart_available_state d) (sb_read_wait d) (sb_write_wait d) (custom_base d) (debug_rom_whereto d)
    (debug_abstract d) (program_buffer d) (dmdata d) (hart_state d) (debug_rom_flags d) (randoms d) (acts d)
    (sba d).
Definition set_abstract_command_completed (x : bool) (d : debug_module_t) : debug_module_t :=
  mk_dm (dmcontrol d) (dmstatus d) (abstractcs d) (abstractauto d) (command d) (hawindowsel d)
    (hart_array_mask d) (sbcs d) (sbaddress d) (sbdata d) (challenge d) x (rti_remaining d)
    (hart_available_state d) (sb_read_wait d) (sb_write_wait d) (custom_base d) (debug_rom_whereto d)
    (debug_abstract d) (program_buffer d) (dmdata d) (hart_state d) (debug_rom_flags d) (randoms d) (acts d)
    (sba d).
Definition set_rti_remaining (x : Z) (d : debug_module_t) : debug_module_t :=
  mk_dm (dmcontrol d) (dmstatus d) (abstractcs d) (abstractauto d) (command d) (hawindowsel d)
    (hart_array_mask d) (sbcs d) (sbaddress d) (sbdata d) (challenge d) (abstract_command_completed d) x
    (hart_available_state d) (sb_read_wait d) (sb_write_wait d) (custom_base d) (debug_rom_whereto d)
    (debug_abstract d) (program_buffer d) (dmdata d) (hart_state d) (debug_rom_flags d) (randoms d) (acts d)
    (sba d).
Definition set_hart_available_state (x : list bool) (d : debug_module_t) : debug_module_t :=
  mk_dm (dmcontrol d) (dmstatus d) (abstractcs d) (abstractauto d) (command d) (hawindowsel d)
    (hart_array_mask d) (sbcs d) (sbaddress d) (sbdata d) (challenge d) (abstract_command_completed d)
    (rti_remaining d) x (sb_read_wait d) (sb_write_wait d) (custom_base d) (debug_rom_whereto d)
    (debug_abstract d) (program_buffer d) (dmdata d) (hart_state d) (debug_rom_flags d) (randoms d) (acts d)
    (sba d).
Definition set_sb_read_wait (x : Z) (d : debug_module_t) : debug_module_t :=
  mk_dm (dmcontrol d) (dmstatus d) (abstractcs d) (abstractauto d) (command d) (hawindowsel d)
    (hart_array_mask d) (sbcs d) (sbaddress d) (sbdata d) (challenge d) (abstract_command_completed d)
    (rti_remaining d) (hart_available_state d) x (sb_write_wait d) (custom_base d) (debug_rom_whereto d)
    (debug_abstract d) (program_buffer d) (dmdata d) (hart_state d) (debug_rom_flags d) (randoms d) (acts d)
    (sba d).
Definition set_sb_write_wait (x : Z) (d : debug_module_t) : debug_module_t :=
  mk_dm (dmcontrol d) (dmstatus d) (abstractcs d) (abstractauto d) (command d) (hawindowsel d)
    (hart_array_mask d) (sbcs d) (sbaddress d) (sbdata d) (challenge d) (abstract_command_completed d)
    (rti_remaining d) (hart_available_state d) (sb_read_wait d) x (custom_base d) (debug_rom_whereto d)
    (debug_abstract d) (program_buffer d) (dmdata d) (hart_state d) (debug_rom_flags d) (randoms d) (acts d)
    (sba d).
Definition set_custom_base (x : Z) (d : debug_module_t) : debug_module_t :=
  mk_dm (dmcontrol d) (dmstatus d) (abstractcs d) (abstractauto d) (command d) (hawindowsel d)
    (hart_array_mask d) (sbcs d) (sbaddress d) (sbdata d) (challenge d) (abstract_command_completed d)
    (rti_remaining d) (hart_available_state d) (sb_read_wait d) (sb_write_wait d) x (debug_rom_whereto d)
    (debug_abstract d) (program_buffer d) (dmdata d) (hart_state d) (debug_rom_flags d) (randoms d) (acts d)
    (sba d).
Definition set_debug_rom_whereto (x : list Z) (d : debug_module_t) : debug_module_t :=
  mk_dm (dmcontrol d) (dmstatus d) (abstractcs d) (abstractauto d) (command d) (hawindowsel d)
    (hart_array_mask d) (sbcs d) (sbaddress d) (sbdata d) (challenge d) (abstract_command_completed d)
    (rti_remaining d) (hart_available_state d) (sb_read_wait d) (sb_write_wait d) (custom_base d) x
    (debug_abstract d) (program_buffer d) (dmdata d) (hart_state d) (debug_rom_flags d) (randoms d) (acts d)
    (sba d).
Definition set_debug_abstract (x : list Z) (d : debug_module_t) : debug_module_t :=
  mk_dm (dmcontrol d) (dmstatus d) (abstractcs d) (abstractauto d) (command d) (hawindowsel d)
    (hart_array_mask d) (sbcs d) (sbaddress d) (sbdata d) (challenge d) (abstract_command_completed d)
    (rti_remaining d) (hart_available_state d) (sb_read_wait d) (sb_write_wait d) (custom_base d)
    (debug_rom_whereto d) x (program_buffer d) (dmdata d) (hart_state d) (debug_rom_flags d) (randoms d)
    (acts d) (sba d).
Definition set_program_buffer (x : list Z) (d : debug_module_t) : debug_module_t :=
  mk_dm (dmcontrol d) (dmstatus d) (abstractcs d) (abstractauto d) (command d) (hawindowsel d)
    (hart_array_mask d) (sbcs d) (sbaddress d) (sbdata d) (challenge d) (abstract_command_completed d)
    (rti_remaining d) (hart_available_state d) (sb_read_wait d) (sb_write_wait d) (custom_base d)
    (debug_rom_whereto d) (debug_abstract d) x (dmdata d) (hart_state d) (debug_rom_flags d) (randoms d)
    (acts d) (sba d).
Definition set_dmdata (x : list Z) (d : debug_module_t) : debug_module_t :=
  mk_dm (dmcontrol d) (dmstatus d) (abstractcs d) (abstractauto d) (command d) (hawindowsel d)
    (hart_array_mask d) (sbcs d) (sbaddress d) (sbdata d) (challenge d) (abstract_command_completed d)
    (rti_remaining d) (hart_available_state d) (sb_read_wait d) (sb_write_wait d) (custom_base d)
    (debug_rom_whereto d) (debug_abstract d) (program_buffer d) x (hart_state d) (debug_rom_flags d)
    (randoms d) (acts d) (sba d).
Definition set_hart_state (x : list hart_debug_state_t) (d : debug_module_t) : debug_module_t :=
  mk_dm (dmcontrol d) (dmstatus d) (abstractcs d) (abstractauto d) (command d) (hawindowsel d)
    (hart_array_mask d) (sbcs d) (sbaddress d) (sbdata d) (challenge d) (abstract_command_completed d)
    (rti_remaining d) (hart_available_state d) (sb_read_wait d) (sb_write_wait d) (custom_base d)
    (debug_rom_whereto d) (debug_abstract d) (program_buffer d) (dmdata d) x (debug_rom_flags d) (randoms d)
    (acts d) (sba d).
Definition set_debug_rom_flags (x : list Z) (d : debug_module_t) : debug_module_t :=
  mk_dm (dmcontrol d) (dmstatus d) (abstractcs d) (abstractauto d) (command d) (hawindowsel d)
    (hart_array_mask d) (sbcs d) (sbaddress d) (sbdata d) (challenge d) (abstract_command_completed d)
    (rti_remaining d) (hart_available_state d) (sb_read_wait d) (sb_write_wait d) (custom_base d)
    (debug_rom_whereto d) (debug_abstract d) (program_buffer d) (dmdata d) (hart_state d) x (randoms d)
    (acts d) (sba d).
Definition set_randoms (x : nat) (d : debug_module_t) : debug_module_t :=
  mk_dm (dmcontrol d) (dmstatus d) (abstractcs d) (abstractauto d) (command d) (hawindowsel d)
    (hart_array_mask d) (sbcs d) (sbaddress d) (sbdata d) (challenge d) (abstract_command_completed d)
    (rti_remaining d) (hart_available_state d) (sb_read_wait d) (sb_write_wait d) (custom_base d)
    (debug_rom_whereto d) (debug_abstract d) (program_buffer d) (dmdata d) (hart_state d) (debug_rom_flags d)
    x (acts d) (sba d).
Definition set_acts (x : list debug_act) (d : debug_module_t) : debug_module_t :=
  mk_dm (dmcontrol d) (dmstatus d) (abstractcs d) (abstractauto d) (command d) (hawindowsel d)
    (hart_array_mask d) (sbcs d) (sbaddress d) (sbdata d) (challenge d) (abstract_command_completed d)
    (rti_remaining d) (hart_available_state d) (sb_read_wait d) (sb_write_wait d) (custom_base d)
    (debug_rom_whereto d) (debug_abstract d) (program_buffer d) (dmdata d) (hart_state d) (debug_rom_flags d)
    (randoms d) x (sba d).
Definition set_sba (x : B) (d : debug_module_t) : debug_module_t :=
  mk_dm (dmcontrol d) (dmstatus d) (abstractcs d) (abstractauto d) (command d) (hawindowsel d)
    (hart_array_mask d) (sbcs d) (sbaddress d) (sbdata d) (challenge d) (abstract_command_completed d)
    (rti_remaining d) (hart_available_state d) (sb_read_wait d) (sb_write_wait d) (custom_base d)
    (debug_rom_whereto d) (debug_abstract d) (program_buffer d) (dmdata d) (hart_state d) (debug_rom_flags d)
    (randoms d) (acts d) x.

Definition act (a : debug_act) (d : debug_module_t) : debug_module_t := set_acts (acts d ++ [a]) d.

(** * Sizes and places *)

Definition nprocs : Z := Z.of_nat (length hartids).
Definition max_hartid : Z := List.last hartids 0.
(** The map of harts, in the order of their numbers, which is that of [hartids]. *)
Definition harts : list Z := hartids.
Definition datasize : Z := 2.
Definition program_buffer_bytes : Z := (if support_impebreak then 4 else 0) + 4 * progbufsize.
Definition debug_data_start : Z := 0x380.
Definition debug_progbuf_start : Z := debug_data_start - program_buffer_bytes.
Definition debug_abstract_size : Z := 12.
Definition debug_abstract_start : Z := debug_progbuf_start - debug_abstract_size * 4.

(** * Arrays *)

Definition in_bounds {A} (l : list A) (i : Z) : bool := (0 <=? i) && (i <? Z.of_nat (length l)).
Definition at_ {A} (l : list A) (i : Z) : option A := if in_bounds l i then l !! Z.to_nat i else None.
Definition put_at {A} (l : list A) (i : Z) (x : A) : option (list A) :=
  if in_bounds l i then Some (<[Z.to_nat i := x]> l) else None.

Definition le32 (value : Z) : list Z :=
  [u8 value; u8 (Z.shiftr value 8); u8 (Z.shiftr value 16); u8 (Z.shiftr value 24)].
Definition memcpy (l : list Z) (off : Z) (bytes : list Z) : option (list Z) :=
  if (0 <=? off) && (off + Z.of_nat (length bytes) <=? Z.of_nat (length l)) then
    Some (firstn (Z.to_nat off) l ++ bytes ++ skipn (Z.to_nat off + length bytes) l)
  else None.
Definition write32 (memory : list Z) (index value : Z) : option (list Z) := memcpy memory (index * 4) (le32 value).
Definition read32 (memory : list Z) (index : Z) : option Z :=
  b0 ← at_ memory (index * 4); b1 ← at_ memory (index * 4 + 1);
  b2 ← at_ memory (index * 4 + 2); b3 ← at_ memory (index * 4 + 3);
  Some (b0 .| Z.shiftl b1 8 .| Z.shiftl b2 16 .| Z.shiftl b3 24).

(** * Harts *)

Definition selected_hart_id (d : debug_module_t) : option Z := at_ hartids (hartsel (dmcontrol d)).
Definition hart_state_at (id : Z) (d : debug_module_t) : option hart_debug_state_t := at_ (hart_state d) id.
Definition update_hart (id : Z) (f : hart_debug_state_t -> hart_debug_state_t) (d : debug_module_t) : option debug_module_t :=
  h ← hart_state_at id d; l ← put_at (hart_state d) id (f h); Some (set_hart_state l d).
Definition selected_hart_state (d : debug_module_t) : option hart_debug_state_t :=
  id ← selected_hart_id d; hart_state_at id d.
Definition hart_selected (hartid : Z) (d : debug_module_t) : option bool :=
  id ← selected_hart_id d;
  if hartid =? id then Some true else if hasel (dmcontrol d) then at_ (hart_array_mask d) hartid else Some false.
Definition hart_available (hart_id : Z) (d : debug_module_t) : bool :=
  if hart_id <? 2 then nth (Z.to_nat hart_id) (hart_available_state d) true else true.

Definition update_flags (id : Z) (f : Z -> Z) (d : debug_module_t) : option debug_module_t :=
  x ← at_ (debug_rom_flags d) id; l ← put_at (debug_rom_flags d) id (f x); Some (set_debug_rom_flags l d).

(** [for (const auto& [hart_id, hart] : sim->get_harts())]. *)
Fixpoint for_harts (l : list Z) (body : Z -> debug_module_t -> option debug_module_t) (d : debug_module_t) :
    option debug_module_t :=
  match l with [] => Some d | id :: l => d ← body id d; for_harts l body d end.

(** [proc_reset]; [hart->reset()] ends by calling it. *)
Definition proc_reset (id : Z) (d : debug_module_t) : option debug_module_t :=
  update_hart id (fun h => set_haltgroup 0 (set_halted false (set_havereset true h))) d.
Definition reset_hart (id : Z) (d : debug_module_t) : option debug_module_t := proc_reset id (act (Hart_reset id) d).

(** * Reset *)

Definition challenge_again (d : debug_module_t) : debug_module_t :=
  set_randoms (S (randoms d)) (set_challenge (u32 (random (randoms d))) d).

Definition reset (d : debug_module_t) : debug_module_t :=
  let d := set_acts (acts d ++ map (fun id => Halt_request id HR_NONE) harts) d in
  let w := max_sba_data_width in
  challenge_again
    (set_sbcs (mk_sbcs (if 0 <? w then 1 else 0) false 0 false false 0 (if 0 <? w then 64 else 0)
                 false (64 <=? w) (32 <=? w) (16 <=? w) (8 <=? w) false)
    (set_abstractauto (mk_abstractauto 0 0)
    (set_abstractcs (mk_abstractcs false datasize progbufsize 0)
    (set_dmstatus (mk_dmstatus support_impebreak (negb require_authentication) false 2)
    (set_dmcontrol (mk_dmcontrol false false false 0 false false false) d))))).

(** The constructor, with what it leaves uninitialised as arguments. *)
Definition new_debug_module (command0 hawindowsel0 : Z) (sbaddress0 sbdata0 : list Z) (completed0 : bool) (b : B) :
    debug_module_t :=
  reset (mk_dm (mk_dmcontrol false false false 0 false false false) (mk_dmstatus false false false 0)
    (mk_abstractcs false 0 0 0) (mk_abstractauto 0 0) command0 hawindowsel0
    (replicate (Z.to_nat (max_hartid + 1)) false)
    (mk_sbcs 0 false 0 false false 0 0 false false false false false false) sbaddress0 sbdata0
    0 completed0 0 [true; true] 0 0 0
    (le32 (jal ZERO (u32 (debug_abstract_start - DEBUG_ROM_WHERETO))))
    (replicate (Z.to_nat (debug_abstract_size * 4)) 0)
    (replicate (Z.to_nat (4 * progbufsize)) 0 ++ (if support_impebreak then le32 ebreak else []))
    (replicate (Z.to_nat (datasize * 4)) 0)
    (replicate (Z.to_nat (Z.shiftl 1 (field_width (max_hartid + 1)))) (mk_hart_state false false false 0))
    (replicate 1024 0) 0 [] b).

(** * The page the harts see *)

Definition in_region (addr len start size : Z) : bool := (start <=? addr) && (u64 (addr + len) <=? start + size).
Definition slice (l : list Z) (off len : Z) : list Z := firstn (Z.to_nat len) (skipn (Z.to_nat off) l).

Definition load (offset len : Z) (d : debug_module_t) : option (list Z) :=
  let addr := DEBUG_START + offset in
  if in_region addr len DEBUG_ROM_ENTRY (Z.of_nat (length debug_rom_raw)) then
    Some (slice debug_rom_raw (addr - DEBUG_ROM_ENTRY) len)
  else if in_region addr len DEBUG_ROM_WHERETO 4 then Some (slice (debug_rom_whereto d) (addr - DEBUG_ROM_WHERETO) len)
  else if in_region addr len DEBUG_ROM_FLAGS 1024 then Some (slice (debug_rom_flags d) (addr - DEBUG_ROM_FLAGS) len)
  else if in_region addr len debug_abstract_start (debug_abstract_size * 4) then
    Some (slice (debug_abstract d) (addr - debug_abstract_start) len)
  else if in_region addr len debug_data_start (datasize * 4) then Some (slice (dmdata d) (addr - debug_data_start) len)
  else if in_region addr len debug_progbuf_start program_buffer_bytes then
    Some (slice (program_buffer d) (addr - debug_progbuf_start) len)
  else None.

(** A hart reports that it is halted: its halt group follows. *)
Definition halt_group (id : Z) (d : debug_module_t) : option debug_module_t :=
  hs ← hart_state_at id d;
  if halted hs then Some d else
  d ← update_hart id (set_halted true) d;
  if haltgroup hs =? 0 then Some d else
  for_harts harts (fun hart_id d =>
    h ← hart_state_at hart_id d;
    Some (if negb (halted h) && (haltgroup h =? haltgroup hs) && hart_available hart_id d
          then act (Halt_request hart_id HR_GROUP) d else d)) d.

Definition store_halted (id : Z) (d : debug_module_t) : option debug_module_t :=
  d ← halt_group id d;
  sel ← selected_hart_id d;
  if sel =? id then
    f ← at_ (debug_rom_flags d) id;
    Some (if Z.testbit f DEBUG_ROM_FLAG_GO then d else set_abstract_command_completed true d)
  else Some d.

Definition store_resuming (id : Z) (d : debug_module_t) : option debug_module_t :=
  d ← update_hart id (fun h => set_resumeack true (set_halted false h)) d;
  update_flags id (fun f => f &~ Z.shiftl 1 DEBUG_ROM_FLAG_RESUME) d.

Definition store (offset : Z) (bytes : list Z) (d : debug_module_t) : option (bool * debug_module_t) :=
  let len := Z.of_nat (length bytes) in
  let addr := DEBUG_START + offset in
  let id := if len =? 4 then default 0 (read32 bytes 0) else 0 in
  if in_region addr len debug_data_start (datasize * 4) then
    m ← memcpy (dmdata d) (addr - debug_data_start) bytes; Some (true, set_dmdata m d)
  else if in_region addr len debug_progbuf_start program_buffer_bytes then
    m ← memcpy (program_buffer d) (addr - debug_progbuf_start) bytes; Some (true, set_program_buffer m d)
  else if addr =? DEBUG_ROM_HALTED then
    if len =? 4 then d ← store_halted id d; Some (true, d) else None
  else if addr =? DEBUG_ROM_GOING then
    if len =? 4 then d ← update_flags id (fun f => f &~ Z.shiftl 1 DEBUG_ROM_FLAG_GO) d; Some (true, d) else None
  else if addr =? DEBUG_ROM_RESUMING then
    if len =? 4 then d ← store_resuming id d; Some (true, d) else None
  else if addr =? DEBUG_ROM_EXCEPTION then
    Some (true, if cmderr (abstractcs d) =? CMDERR_NONE then set_abstractcs (set_cmderr CMDERR_EXCEPTION (abstractcs d)) d else d)
  else Some (false, d).

(** * The master on the system bus *)

Definition sb_access_bits (d : debug_module_t) : Z := Z.shiftl 8 (sbaccess (sbcs d)).

(** The first sum is one of [uint32_t] and [unsigned], and has no carry. *)
Definition sb_autoincrement (d : debug_module_t) : debug_module_t :=
  if negb (autoincrement (sbcs d)) || (max_sba_data_width =? 0) then d else
  let a i := nth i (sbaddress d) 0 in
  let value := u32 (a 0%nat + sb_access_bits d / 8) in
  let a0 := u32 value in
  let carry := u32 (Z.shiftr value 32) in
  let value := u32 (a 1%nat + carry) in
  let a1 := u32 value in
  let carry := u32 (Z.shiftr value 32) in
  let value := u32 (a 2%nat + carry) in
  let a2 := u32 value in
  let carry := u32 (Z.shiftr value 32) in
  set_sbaddress [a0; a1; a2; u32 (a 3%nat + carry)] d.

Definition sb_busy (d : debug_module_t) : bool := (0 <? sb_read_wait d) || (0 <? sb_write_wait d).
Definition sb_fail_busy (d : debug_module_t) : debug_module_t := set_sbcs (set_sbbusyerror true (sbcs d)) d.

Definition sb_read_start (d : debug_module_t) : debug_module_t :=
  if sb_busy d || sbbusyerror (sbcs d) then sb_fail_busy d else set_sb_read_wait 20 d.
Definition sb_write_start (d : debug_module_t) : debug_module_t :=
  if sb_busy d || sbbusyerror (sbcs d) then sb_fail_busy d else set_sb_write_wait 20 d.

Definition sb_address (d : debug_module_t) : Z :=
  Z.shiftl (nth 1 (sbaddress d) 0) 32 .| nth 0 (sbaddress d) 0.
(** The size in bytes of an access the module supports. *)
Definition sb_size (d : debug_module_t) : option Z :=
  let a := sbaccess (sbcs d) in let w := max_sba_data_width in
  if (a =? 0) && (8 <=? w) then Some 1 else if (a =? 1) && (16 <=? w) then Some 2
  else if (a =? 2) && (32 <=? w) then Some 4 else if (a =? 3) && (64 <=? w) then Some 8 else None.
Definition sb_error (e : Z) (d : debug_module_t) : debug_module_t := set_sbcs (set_sberror e (sbcs d)) d.

Definition sb_read (d : debug_module_t) : debug_module_t :=
  match sb_size d with
  | None => sb_error 3 d
  | Some n =>
      let '(r, b) := sb_load (sb_address d) n (sba d) in
      let d := set_sba b d in
      match r with
      | None => sb_error 2 d
      | Some value =>
          let d := set_sbdata (<[0%nat := u32 value]> (sbdata d)) d in
          if n =? 8 then set_sbdata (<[1%nat := u32 (Z.shiftr value 32)]> (sbdata d)) d else d
      end
  end.

Definition sb_write (d : debug_module_t) : debug_module_t :=
  match sb_size d with
  | None => sb_error 3 d
  | Some n =>
      let low := nth 0 (sbdata d) 0 in
      let value := if n =? 8 then Z.shiftl (nth 1 (sbdata d) 0) 32 .| low else wrap (8 * n) low in
      let '(ok, b) := sb_store (sb_address d) n value (sba d) in
      let d := set_sba b d in
      if ok then d else sb_error 2 d
  end.

(** * Abstract commands *)

Definition is_fpu_reg (regno : Z) : bool :=
  ((0x1020 <=? regno) && (regno <=? 0x103f)) || (regno =? CSR_FFLAGS) || (regno =? CSR_FRM) || (regno =? CSR_FCSR).

Definition fail (e : Z) (d : debug_module_t) : debug_module_t := set_abstractcs (set_cmderr e (abstractcs d)) d.

(** [write32(debug_abstract, i++, w)] for the words of a list, from word [i] on. *)
Fixpoint emit (i : Z) (ws : list Z) (d : debug_module_t) : option (Z * debug_module_t) :=
  match ws with
  | [] => Some (i, d)
  | w :: ws => m ← write32 (debug_abstract d) i w; emit (i + 1) ws (set_debug_abstract m d)
  end.

(** The parts of a transfer end with the next word, or without one when the
    command has ended there. *)
Definition transfer_csr (regno size : Z) (write : bool) (i : Z) (d : debug_module_t) :
    option (option Z * debug_module_t) :=
  let own := negb (is_fpu_reg regno) in
  '(i, d) ← emit i (if own then [csrw S0 CSR_DSCRATCH0] else []) d;
  '(r, d) ←
    (if write then
       match (if size =? 2 then Some (lw S0 ZERO debug_data_start)
              else if size =? 3 then Some (ld S0 ZERO debug_data_start) else None) with
       | None => Some (None, fail CMDERR_NOTSUP d)
       | Some w => '(i, d) ← emit i [w; csrw S0 regno] d; Some (Some i, d)
       end
     else
       '(i, d) ← emit i [csrr S0 regno] d;
       match (if size =? 2 then Some (sw S0 ZERO debug_data_start)
              else if size =? 3 then Some (sd S0 ZERO debug_data_start) else None) with
       | None => Some (None, fail CMDERR_NOTSUP d)
       | Some w => '(i, d) ← emit i [w] d; Some (Some i, d)
       end);
  match r with
  | None => Some (None, d)
  | Some i => '(i, d) ← emit i (if own then [csrr S0 CSR_DSCRATCH0] else []) d; Some (Some i, d)
  end.

Definition transfer_gpr (regno size : Z) (write : bool) (i : Z) (d : debug_module_t) :
    option (option Z * debug_module_t) :=
  let regnum := regno - 0x1000 in
  match (if size =? 2 then Some (if write then lw regnum ZERO debug_data_start else sw regnum ZERO debug_data_start)
         else if size =? 3 then Some (if write then ld regnum ZERO debug_data_start else sd regnum ZERO debug_data_start)
         else None) with
  | None => Some (None, fail CMDERR_NOTSUP d)
  | Some w =>
      '(i, d) ← emit i [w] d;
      '(i, d) ← emit i (if (regno =? 0x1000 + S0) && write then [csrw S0 CSR_DSCRATCH0] else []) d;
      Some (Some i, d)
  end.

Definition transfer_fpr (regno size : Z) (write : bool) (i : Z) (d : debug_module_t) :
    option (option Z * debug_module_t) :=
  let fprnum := regno - 0x1020 in
  match (if size =? 2 then Some (if write then flw fprnum ZERO debug_data_start else fsw fprnum ZERO debug_data_start)
         else if size =? 3 then Some (if write then fld fprnum ZERO debug_data_start else fsd fprnum ZERO debug_data_start)
         else None) with
  | None => Some (None, fail CMDERR_NOTSUP d)
  | Some w => '(i, d) ← emit i [w] d; Some (Some i, d)
  end.

(** Odd custom registers, without a program. *)
Definition transfer_custom (regno : Z) (write : bool) (d : debug_module_t) : option (option Z * debug_module_t) :=
  let custom_number := regno - 0xc000 in
  let d := fail CMDERR_NONE d in
  if write then
    x ← read32 (dmdata d) 0; Some (None, set_custom_base (u32 (x - custom_number)) d)
  else
    m ← write32 (dmdata d) 0 (u32 (custom_number + custom_base d));
    m ← write32 m 1 0;
    Some (None, set_dmdata m d).

Definition transfer (regno size : Z) (write : bool) (d : debug_module_t) : option (option Z * debug_module_t) :=
  let fpu := is_fpu_reg regno in
  '(i, d) ← emit 0 (if fpu then
      [csrw S0 CSR_DSCRATCH0; csrr S0 CSR_MSTATUS; csrw S0 CSR_DSCRATCH1;
       lui S0 (Z.shiftr MSTATUS_FS 12); csrrs ZERO S0 CSR_MSTATUS] else []) d;
  '(r, d) ←
    (if (regno <? 0x1000) && support_abstract_csr_access then transfer_csr regno size write i d
     else if (0x1000 <=? regno) && (regno <? 0x1020) then transfer_gpr regno size write i d
     else if (0x1020 <=? regno) && (regno <? 0x1040) && support_abstract_fpr_access then transfer_fpr regno size write i d
     else if (0xc000 <=? regno) && Z.odd regno then transfer_custom regno write d
     else Some (None, fail CMDERR_NOTSUP d));
  match r with
  | None => Some (None, d)
  | Some i =>
      '(i, d) ← emit i (if fpu then [csrr S0 CSR_DSCRATCH1; csrw S0 CSR_MSTATUS; csrr S0 CSR_DSCRATCH0] else []) d;
      Some (Some i, d)
  end.

(** The end of the program, and its start on the selected hart. *)
Definition run_program (postexec : bool) (i : Z) (d : debug_module_t) : option debug_module_t :=
  '(_, d) ← emit i [if postexec then jal ZERO (u32 (debug_progbuf_start - debug_abstract_start - 4 * i)) else ebreak] d;
  id ← selected_hart_id d;
  d ← update_flags id (fun f => f .| Z.shiftl 1 DEBUG_ROM_FLAG_GO) d;
  Some (set_abstractcs (set_busy true (abstractcs d))
    (set_abstract_command_completed false (set_rti_remaining abstract_rti d))).

Definition access_register (d : debug_module_t) : option debug_module_t :=
  let size := get_field (command d) AC_ACCESS_REGISTER_AARSIZE in
  let write := z2b (get_field (command d) AC_ACCESS_REGISTER_WRITE) in
  let regno := get_field (command d) AC_ACCESS_REGISTER_REGNO in
  let postexec := z2b (get_field (command d) AC_ACCESS_REGISTER_POSTEXEC) in
  hs ← selected_hart_state d;
  if negb (halted hs) then Some (fail CMDERR_HALTRESUME d) else
  '(r, d) ← (if z2b (get_field (command d) AC_ACCESS_REGISTER_TRANSFER) then transfer regno size write d
             else Some (Some 0, d));
  match r with None => Some d | Some i => run_program postexec i d end.

(** It always returns [true]. *)
Definition perform_abstract_command (d : debug_module_t) : option debug_module_t :=
  if negb (cmderr (abstractcs d) =? CMDERR_NONE) then Some d
  else if busy (abstractcs d) then Some (fail CMDERR_BUSY d)
  else if negb (hart_available (hartsel (dmcontrol d)) d) then Some (fail CMDERR_HALTRESUME d)
  else if Z.shiftr (command d) 24 =? 0 then access_register d
  else Some (fail CMDERR_NOTSUP d).

Definition autoexec (mask i : Z) (d : debug_module_t) : option debug_module_t :=
  if negb (busy (abstractcs d)) && Z.odd (Z.shiftr mask i) then perform_abstract_command d else Some d.
Definition data_busy (d : debug_module_t) : debug_module_t :=
  if busy (abstractcs d) && (cmderr (abstractcs d) =? CMDERR_NONE) then fail CMDERR_BUSY d else d.

(** * Reads over the debug module interface *)

(** [result = set_field(result, mask, value)] for each field, from 0. *)
Definition fields (l : list (Z * Z)) : Z := fold_left (fun r '(mask, value) => set_field r mask value) l 0.

Definition read_dmcontrol (d : debug_module_t) : Z :=
  let c := dmcontrol d in
  fields [(DM_DMCONTROL_HALTREQ, b2z (haltreq c)); (DM_DMCONTROL_RESUMEREQ, b2z (resumereq c));
    (DM_DMCONTROL_HARTSELHI, Z.shiftr (hartsel c) DM_DMCONTROL_HARTSELLO_LENGTH); (DM_DMCONTROL_HASEL, b2z (hasel c));
    (DM_DMCONTROL_HARTSELLO, hartsel c); (DM_DMCONTROL_HARTRESET, b2z (hartreset c));
    (DM_DMCONTROL_NDMRESET, b2z (ndmreset c)); (DM_DMCONTROL_DMACTIVE, b2z (dmactive c))].

Record hart_flags : Type := mk_flags {
  allnonexistant : bool; allunavail : bool; anyunavail : bool; allrunning : bool; anyrunning : bool;
  allhalted : bool; anyhalted : bool; allresumeack : bool; anyresumeack : bool }.

Definition see_hart (id : Z) (d : debug_module_t) (s : hart_flags) : option hart_flags :=
  sel ← hart_selected id d;
  if negb sel then Some s else
  hs ← hart_state_at id d;
  let allr := allresumeack s && resumeack hs in
  let anyr := anyresumeack s || resumeack hs in
  Some (if negb (hart_available id d) then mk_flags false (allunavail s) true false (anyrunning s) false (anyhalted s) allr anyr
        else if halted hs then mk_flags false false (anyunavail s) false (anyrunning s) (allhalted s) true allr anyr
        else mk_flags false false (anyunavail s) (allrunning s) true false (anyhalted s) allr anyr).
Fixpoint see_harts (l : list Z) (d : debug_module_t) (s : hart_flags) : option hart_flags :=
  match l with [] => Some s | id :: l => s ← see_hart id d s; see_harts l d s end.

Definition read_dmstatus (d : debug_module_t) : option Z :=
  s ← see_harts harts d (mk_flags true true false true false true false true false);
  hs ← selected_hart_state d;
  let anynonexistant := nprocs <=? hartsel (dmcontrol d) in
  Some (fields [(DM_DMSTATUS_IMPEBREAK, b2z (impebreak (dmstatus d)));
    (DM_DMSTATUS_ALLHAVERESET, b2z (havereset hs)); (DM_DMSTATUS_ANYHAVERESET, b2z (havereset hs));
    (DM_DMSTATUS_ALLNONEXISTENT, b2z (allnonexistant s)); (DM_DMSTATUS_ALLUNAVAIL, b2z (allunavail s));
    (DM_DMSTATUS_ALLRUNNING, b2z (allrunning s)); (DM_DMSTATUS_ALLHALTED, b2z (allhalted s));
    (DM_DMSTATUS_ALLRESUMEACK, b2z (allresumeack s)); (DM_DMSTATUS_ANYNONEXISTENT, b2z anynonexistant);
    (DM_DMSTATUS_ANYUNAVAIL, b2z (anyunavail s)); (DM_DMSTATUS_ANYRUNNING, b2z (anyrunning s));
    (DM_DMSTATUS_ANYHALTED, b2z (anyhalted s)); (DM_DMSTATUS_ANYRESUMEACK, b2z (anyresumeack s));
    (DM_DMSTATUS_AUTHENTICATED, b2z (authenticated (dmstatus d))); (DM_DMSTATUS_AUTHBUSY, b2z (authbusy (dmstatus d)));
    (DM_DMSTATUS_VERSION, version (dmstatus d))]).

Definition read_sbcs (d : debug_module_t) : Z :=
  let s := sbcs d in
  fields [(DM_SBCS_SBVERSION, sbversion s); (DM_SBCS_SBREADONADDR, b2z (readonaddr s)); (DM_SBCS_SBACCESS, sbaccess s);
    (DM_SBCS_SBAUTOINCREMENT, b2z (autoincrement s)); (DM_SBCS_SBREADONDATA, b2z (readondata s));
    (DM_SBCS_SBERROR, error s); (DM_SBCS_SBBUSY, b2z (sb_busy d)); (DM_SBCS_SBBUSYERROR, b2z (sbbusyerror s));
    (DM_SBCS_SBASIZE, asize s); (DM_SBCS_SBACCESS128, b2z (access128 s)); (DM_SBCS_SBACCESS64, b2z (access64 s));
    (DM_SBCS_SBACCESS32, b2z (access32 s)); (DM_SBCS_SBACCESS16, b2z (access16 s)); (DM_SBCS_SBACCESS8, b2z (access8 s))].

Definition read_hawindow (d : debug_module_t) : option Z :=
  fold_left (fun r i =>
    r ← r;
    let n := hawindowsel d * 32 + i in
    if n <? nprocs then
      id ← at_ hartids n; b ← at_ (hart_array_mask d) id; Some (if b : bool then r .| Z.shiftl 1 i else r)
    else Some r) (zseq 32) (Some 0).

Definition read_sbdata (i : nat) (d : debug_module_t) : Z * debug_module_t :=
  (nth i (sbdata d) 0,
   if sb_busy d then sb_fail_busy d
   else if Nat.eqb i 0 && (error (sbcs d) =? 0) && readondata (sbcs d) then sb_read_start d else d).

Definition dm_read (address : Z) (d : debug_module_t) : option (option Z * debug_module_t) :=
  let a := abstractcs d in
  if (DM_DATA0 <=? address) && (address <? DM_DATA0 + datacount a) then
    let i := address - DM_DATA0 in
    x ← read32 (dmdata d) i;
    let result := if busy a then u32 (-1) else x in
    d ← autoexec (autoexecdata (abstractauto d)) i (data_busy d);
    Some (Some result, d)
  else if (DM_PROGBUF0 <=? address) && (address <? DM_PROGBUF0 + progbufsize) then
    let i := address - DM_PROGBUF0 in
    x ← read32 (program_buffer d) i;
    let result := if busy a then u32 (-1) else x in
    d ← autoexec (autoexecprogbuf (abstractauto d)) i d;
    Some (Some result, d)
  else if address =? DM_DMCONTROL then Some (Some (read_dmcontrol d), d)
  else if address =? DM_DMSTATUS then r ← read_dmstatus d; Some (Some r, d)
  else if address =? DM_ABSTRACTCS then
    Some (Some (fields [(DM_ABSTRACTCS_CMDERR, cmderr a); (DM_ABSTRACTCS_BUSY, b2z (busy a));
      (DM_ABSTRACTCS_DATACOUNT, datacount a); (DM_ABSTRACTCS_PROGBUFSIZE, cs_progbufsize a)]), d)
  else if address =? DM_ABSTRACTAUTO then
    Some (Some (fields [(DM_ABSTRACTAUTO_AUTOEXECPROGBUF, autoexecprogbuf (abstractauto d));
      (DM_ABSTRACTAUTO_AUTOEXECDATA, autoexecdata (abstractauto d))]), d)
  else if address =? DM_COMMAND then Some (Some 0, d)
  else if address =? DM_HARTINFO then
    Some (Some (fields [(DM_HARTINFO_NSCRATCH, 1); (DM_HARTINFO_DATAACCESS, 1); (DM_HARTINFO_DATASIZE, datacount a);
      (DM_HARTINFO_DATAADDR, debug_data_start)]), d)
  else if address =? DM_HAWINDOWSEL then Some (Some (hawindowsel d), d)
  else if address =? DM_HAWINDOW then r ← read_hawindow d; Some (Some r, d)
  else if address =? DM_SBCS then Some (Some (read_sbcs d), d)
  else if address =? DM_SBADDRESS0 then Some (Some (nth 0 (sbaddress d) 0), d)
  else if address =? DM_SBADDRESS1 then Some (Some (nth 1 (sbaddress d) 0), d)
  else if address =? DM_SBADDRESS2 then Some (Some (nth 2 (sbaddress d) 0), d)
  else if address =? DM_SBADDRESS3 then Some (Some (nth 3 (sbaddress d) 0), d)
  else if address =? DM_SBDATA0 then let '(r, d) := read_sbdata 0 d in Some (Some r, d)
  else if address =? DM_SBDATA1 then let '(r, d) := read_sbdata 1 d in Some (Some r, d)
  else if address =? DM_SBDATA2 then let '(r, d) := read_sbdata 2 d in Some (Some r, d)
  else if address =? DM_SBDATA3 then let '(r, d) := read_sbdata 3 d in Some (Some r, d)
  else if address =? DM_AUTHDATA then Some (Some (challenge d), d)
  else if address =? DM_DMCS2 then
    hs ← selected_hart_state d; Some (Some (fields [(DM_DMCS2_GROUP, haltgroup hs)]), d)
  else if address =? DM_CUSTOM then
    Some (Some (b2z (nth 0 (hart_available_state d) false) .| Z.shiftl (b2z (nth 1 (hart_available_state d) false)) 1), d)
  else Some (None, d).

(** * Run-Test/Idle *)

Definition rti_abstract (d : debug_module_t) : debug_module_t :=
  let d := if 0 <? rti_remaining d then set_rti_remaining (rti_remaining d - 1) d else d in
  if (rti_remaining d =? 0) && busy (abstractcs d) && abstract_command_completed d
  then set_abstractcs (set_busy false (abstractcs d)) d else d.
Definition sb_done (d : debug_module_t) : debug_module_t :=
  if error (sbcs d) =? 0 then sb_autoincrement d else d.
Definition rti_read (d : debug_module_t) : debug_module_t :=
  if 0 <? sb_read_wait d then
    let d := set_sb_read_wait (sb_read_wait d - 1) d in
    if sb_read_wait d =? 0 then sb_done (sb_read d) else d
  else d.
Definition rti_write (d : debug_module_t) : debug_module_t :=
  if 0 <? sb_write_wait d then
    let d := set_sb_write_wait (sb_write_wait d - 1) d in
    if sb_write_wait d =? 0 then sb_done (sb_write d) else d
  else d.
Definition dm_run_test_idle (d : debug_module_t) : debug_module_t := rti_write (rti_read (rti_abstract d)).

(** * Writes over the debug module interface *)

Definition flag (value mask : Z) : bool := z2b (get_field value mask).

(** The new [dmcontrol], for an active module. *)
Definition new_dmcontrol (value : Z) : dmcontrol_t :=
  let sel := Z.shiftl (get_field value DM_DMCONTROL_HARTSELHI) DM_DMCONTROL_HARTSELLO_LENGTH
             .| get_field value DM_DMCONTROL_HARTSELLO in
  mk_dmcontrol (flag value DM_DMCONTROL_HALTREQ) (flag value DM_DMCONTROL_RESUMEREQ)
    (if support_hasel then flag value DM_DMCONTROL_HASEL else false) (Z.min sel (u64 (nprocs - 1)))
    (flag value DM_DMCONTROL_HARTRESET) true (flag value DM_DMCONTROL_NDMRESET).

Definition control_hart (value id : Z) (d : debug_module_t) : option debug_module_t :=
  let c := dmcontrol d in
  sel ← hart_selected id d;
  if negb sel then Some d else
  d ← (if flag value DM_DMCONTROL_ACKHAVERESET then update_hart id (set_havereset false) d else Some d);
  let d := act (Halt_request id (if haltreq c && hart_available id d then HR_REGULAR else HR_NONE)) d in
  d ← (if resumereq c && hart_available id d then
         d ← update_flags id (fun f => f .| Z.shiftl 1 DEBUG_ROM_FLAG_RESUME) d; update_hart id (set_resumeack false) d
       else Some d);
  if hartreset c && hart_available id d then reset_hart id d else Some d.

Definition set_dmactive (x : bool) (d : debug_module_t) : debug_module_t :=
  let c := dmcontrol d in
  set_dmcontrol (mk_dmcontrol (haltreq c) (resumereq c) (hasel c) (hartsel c) (hartreset c) x (ndmreset c)) d.

Definition write_dmcontrol (value : Z) (d : debug_module_t) : option debug_module_t :=
  let active := flag value DM_DMCONTROL_DMACTIVE in
  let d := if negb (dmactive (dmcontrol d)) && active then reset d else d in
  let d := set_dmactive active d in
  if negb (authenticated (dmstatus d)) || negb active then Some d else
  let d := set_dmcontrol (new_dmcontrol value) d in
  d ← for_harts harts (control_hart value) d;
  if ndmreset (dmcontrol d) then for_harts harts reset_hart d else Some d.

Definition write_hawindow (value : Z) (d : debug_module_t) : option debug_module_t :=
  fold_left (fun d i =>
    d ← d;
    let n := hawindowsel d * 32 + i in
    if n <? nprocs then
      id ← at_ hartids n; l ← put_at (hart_array_mask d) id (Z.testbit value i); Some (set_hart_array_mask l d)
    else Some d) (zseq 32) (Some d).

Definition write_sbcs (value : Z) (d : debug_module_t) : debug_module_t :=
  let s := sbcs d in
  set_sbcs (mk_sbcs (sbversion s) (flag value DM_SBCS_SBREADONADDR) (get_field value DM_SBCS_SBACCESS)
    (flag value DM_SBCS_SBAUTOINCREMENT) (flag value DM_SBCS_SBREADONDATA)
    (error s &~ get_field value DM_SBCS_SBERROR) (asize s)
    (access128 s) (access64 s) (access32 s) (access16 s) (access8 s)
    (if flag value DM_SBCS_SBBUSYERROR then false else sbbusyerror s)) d.

Definition write_sbaddress (i : nat) (value : Z) (d : debug_module_t) : debug_module_t :=
  if sb_busy d then sb_fail_busy d else
  let d := set_sbaddress (<[i := value]> (sbaddress d)) d in
  if Nat.eqb i 0 && (error (sbcs d) =? 0) && readonaddr (sbcs d) then sb_read_start d else d.
Definition write_sbdata (i : nat) (value : Z) (d : debug_module_t) : debug_module_t :=
  if sb_busy d then sb_fail_busy d else
  let d := set_sbdata (<[i := value]> (sbdata d)) d in
  if Nat.eqb i 0 && (error (sbcs d) =? 0) then sb_write_start d else d.

Definition write_authdata (value : Z) (d : debug_module_t) : debug_module_t :=
  if negb require_authentication then d
  else if value =? u32 (challenge d + 1) then set_dmstatus (set_authenticated true (dmstatus d)) d
  else challenge_again (set_dmstatus (set_authenticated false (dmstatus d)) d).

Definition write_dmcs2 (value : Z) (d : debug_module_t) : option debug_module_t :=
  if support_haltgroups && flag value DM_DMCS2_HGWRITE && (get_field value DM_DMCS2_GROUPTYPE =? 0) then
    id ← selected_hart_id d; update_hart id (set_haltgroup (get_field value DM_DMCS2_GROUP)) d
  else Some d.

(** A register other than the data and the program buffer; [None] for a number
    that names none. *)
Definition write_register (address value : Z) (d : debug_module_t) : option (option debug_module_t) :=
  if address =? DM_DMCONTROL then Some (write_dmcontrol value d)
  else if address =? DM_COMMAND then Some (perform_abstract_command (set_command value d))
  else if address =? DM_HAWINDOWSEL then
    Some (Some (set_hawindowsel (value .& (Z.shiftl 1 (field_width (Z.of_nat (length (hart_array_mask d)))) - 1)) d))
  else if address =? DM_HAWINDOW then Some (write_hawindow value d)
  else if address =? DM_ABSTRACTCS then
    Some (Some (fail (cmderr (abstractcs d) &~ get_field value DM_ABSTRACTCS_CMDERR) d))
  else if address =? DM_ABSTRACTAUTO then
    Some (Some (set_abstractauto (mk_abstractauto (get_field value DM_ABSTRACTAUTO_AUTOEXECPROGBUF)
      (get_field value DM_ABSTRACTAUTO_AUTOEXECDATA)) d))
  else if address =? DM_SBCS then Some (Some (write_sbcs value d))
  else if address =? DM_SBADDRESS0 then Some (Some (write_sbaddress 0 value d))
  else if address =? DM_SBADDRESS1 then Some (Some (write_sbaddress 1 value d))
  else if address =? DM_SBADDRESS2 then Some (Some (write_sbaddress 2 value d))
  else if address =? DM_SBADDRESS3 then Some (Some (write_sbaddress 3 value d))
  else if address =? DM_SBDATA0 then Some (Some (write_sbdata 0 value d))
  else if address =? DM_SBDATA1 then Some (Some (write_sbdata 1 value d))
  else if address =? DM_SBDATA2 then Some (Some (write_sbdata 2 value d))
  else if address =? DM_SBDATA3 then Some (Some (write_sbdata 3 value d))
  else if address =? DM_AUTHDATA then Some (Some (write_authdata value d))
  else if address =? DM_DMCS2 then Some (write_dmcs2 value d)
  else if address =? DM_CUSTOM then
    Some (Some (set_hart_available_state [z2b (get_field value 1); z2b (get_field value 2)] d))
  else None.

Definition dm_write (address value : Z) (d : debug_module_t) : option (bool * debug_module_t) :=
  let a := abstractcs d in
  if negb (authenticated (dmstatus d)) && negb (address =? DM_AUTHDATA) && negb (address =? DM_DMCONTROL) then
    Some (false, d)
  else if (DM_DATA0 <=? address) && (address <? DM_DATA0 + datacount a) then
    let i := address - DM_DATA0 in
    d ← (if busy a then Some d else m ← write32 (dmdata d) i value; Some (set_dmdata m d));
    d ← autoexec (autoexecdata (abstractauto d)) i (data_busy d);
    Some (true, d)
  else if (DM_PROGBUF0 <=? address) && (address <? DM_PROGBUF0 + progbufsize) then
    let i := address - DM_PROGBUF0 in
    d ← (if busy a then Some d else m ← write32 (program_buffer d) i value; Some (set_program_buffer m d));
    d ← autoexec (autoexecprogbuf (abstractauto d)) i d;
    Some (true, d)
  else match write_register address value d with
       | Some r => d ← r; Some (true, d)
       | None => Some (false, d)
       end.

#[export] Instance debug_module_target : dmi_target debug_module_t := {|
  dmi_read := dm_read; dmi_write := dm_write; run_test_idle := fun d => Some (dm_run_test_idle d) |}.

End debug_module.

Arguments debug_module_t B : clear implicits.

End Dm.
