(* ===== verification/Pmp.v ===== *)
(** Physical memory protection: [pmpaddr_csr_t], [pmpcfg_csr_t] and
    [mseccfg_csr_t] of [riscv/csrs.cc], after the helpers of [processor_t] and
    [mmu_t] that every CSR uses (extension tests, TLB flush, storage).

    The [val] member of a CSR object is stored in [csr_val] under the object's
    address (every storage-bearing object has its own address); a PMP entry
    has its [val] and [cfg] in [pmpaddr]. *)

From S2P Require Import Prelude IntArith Decode Encoding IsaExt Trap Hart.

(** Fields of [debug_defines.h] used by [dcsr] and [tcontrol]. *)
Definition CSR_DCSR_EBREAKVS : Z := 0x20000.
Definition CSR_DCSR_EBREAKVU : Z := 0x10000.
Definition CSR_DCSR_V : Z := 0x20.
Definition CSR_DCSR_MPRVEN : Z := 0x10.
Definition CSR_TCONTROL_MPTE : Z := 0x80.
Definition CSR_TCONTROL_MTE : Z := 8.

Definition PGSHIFT : Z := 12.
Definition PGSIZE : Z := Z.shiftl 1 PGSHIFT.
Definition FIRST_HPMCOUNTER : Z := 3.
Definition N_HPMCOUNTERS : Z := 29.
Definition max_pmp : Z := 64.
Definition FSR_AEXC : Z := 0x1f.
Definition FSR_RD_SHIFT : Z := 5.
Definition FSR_RD : Z := 0xe0.

(** [c ? x : 0] on masks. *)
Definition opt (c : bool) (x : Z) : Z := if c then x else 0.

Section csr.
Context `{!config, !simif, !trigger_module}.

(** * Configuration-dependent helpers of [processor_t] *)

Definition xlen : Z := max_xlen.
Definition paddr_bits : Z := if max_xlen =? 64 then 56 else 34.
Definition pmp_tor_mask : Z := u64 (- Z.shiftl 1 (lg_pmp_granularity - PMP_SHIFT)).
Definition any_vector_extensions : bool := 0 <? cfg_VLEN.
Definition supports_impl (impl : Z) : bool := impl_table impl.
Definition isa_extension_enabled (ext : Z) : bool := bitset_test isa_extension_table ext.

(** The stored [val] of a CSR object. *)
Definition csr_raw (h : hart) (addr : Z) : Z := default 0 (csr_val h !! addr).
Definition set_csr_raw (addr val : Z) (h : hart) : hart := set_csr_val (<[addr := val]> (csr_val h)) h.

Definition misa_extension_enabled (h : hart) (ext : Z) : bool :=
  Z.testbit (csr_raw h CSR_MISA) (ext - 65).

Definition extension_enabled (h : hart) (ext : Z) : bool :=
  if (65 <=? ext) && (ext <=? 90) then misa_extension_enabled h ext
  else bitset_test (extension_enable_table h) ext.

(** [extension_enabled_const] of a letter asserts that [misa] cannot change it. *)
Definition extension_enabled_const (h : hart) (ext : Z) : bool := extension_enabled h ext.

Definition set_extension_enable (ext : Z) (enable : bool) (h : hart) : hart :=
  set_extension_enable_table
    (bitset_set (extension_enable_table h) ext (enable && isa_extension_enabled ext)) h.

(** Constructors run at reset, when [misa] holds [max_isa] and the table the
    parsed ISA: this is [extension_enabled] at that time. *)
Definition ee0 (ext : Z) : bool :=
  if (65 <=? ext) && (ext <=? 90) then Z.testbit max_isa (ext - 65)
  else bitset_test isa_extension_table ext.

Definition ext_S : Z := ext_letter "S".
Definition ext_U : Z := ext_letter "U".
Definition ext_H : Z := ext_letter "H".
Definition ext_F : Z := ext_letter "F".
Definition ext_D : Z := ext_letter "D".
Definition ext_E : Z := ext_letter "E".
Definition ext_M : Z := ext_letter "M".
Definition ext_A : Z := ext_letter "A".
Definition ext_B : Z := ext_letter "B".
Definition ext_C : Z := ext_letter "C".
Definition ext_Q : Z := ext_letter "Q".
Definition ext_V : Z := ext_letter "V".

Definition legalize_privilege (h : hart) (p : Z) : Z :=
  if negb (extension_enabled h ext_U) then PRV_M
  else if (p =? PRV_HS) || ((p =? PRV_S) && negb (extension_enabled h ext_S)) then PRV_U
  else p.

Definition pc_alignment_mask (h : hart) : Z :=
  let ialign := if extension_enabled h EXT_ZCA then 16 else 32 in
  unot64 (if ialign =? 16 then 0 else 2).

(** * The MMU operations the CSRs call *)

Definition flush_icache (h : hart) : hart := set_mmu (set_icache ∅ (mmu h)) h.

Definition flush_tlb (h : hart) : hart :=
  flush_icache (set_mmu (set_tlb_insn ∅ (set_tlb_load ∅ (set_tlb_store ∅ (mmu h)))) h).

(** * PMP entries *)

Definition pmp_at (h : hart) (i : Z) : pmp_entry := nth (Z.to_nat i) (pmpaddr h) (mk_pmp 0 0).
Definition set_pmp_at (i : Z) (e : pmp_entry) (h : hart) : hart :=
  set_pmpaddr (<[Z.to_nat i := e]> (pmpaddr h)) h.

Definition mseccfg_read (h : hart) : Z := csr_raw h CSR_MSECCFG.
Definition get_mml (h : hart) : bool := z2b (mseccfg_read h .& MSECCFG_MML).
Definition get_mmwp (h : hart) : bool := z2b (mseccfg_read h .& MSECCFG_MMWP).
Definition get_rlb (h : hart) : bool := z2b (mseccfg_read h .& MSECCFG_RLB).
Definition get_useed (h : hart) : bool := z2b (mseccfg_read h .& MSECCFG_USEED).
Definition get_sseed (h : hart) : bool := z2b (mseccfg_read h .& MSECCFG_SSEED).

Definition pmpaddr_read (h : hart) (idx : Z) : Z :=
  let e := pmp_at h idx in
  if PMP_NAPOT <=? pmp_cfg e .& PMP_A then pmp_val e .| Z.shiftr (unot64 pmp_tor_mask) 1
  else pmp_val e .& pmp_tor_mask.

Definition is_locked (e : pmp_entry) : bool := z2b (pmp_cfg e .& PMP_L).

Definition next_locked_and_tor (h : hart) (idx : Z) : bool :=
  if max_pmp <=? idx + 1 then false else
  let lock_bypass := get_rlb h in
  let next_locked := negb lock_bypass && z2b (pmp_cfg (pmp_at h (idx + 1)) .& PMP_L) in
  let next_tor := pmp_cfg (pmp_at h (idx + 1)) .& PMP_A =? PMP_TOR in
  next_locked && next_tor.

Definition pmpaddr_unlogged_write (idx val : Z) (h : hart) : bool * hart :=
  if n_pmp =? 0 then (false, h) else
  let lock_bypass := get_rlb h in
  let e := pmp_at h idx in
  let locked := negb lock_bypass && z2b (pmp_cfg e .& PMP_L) in
  if (idx <? n_pmp) && negb locked && negb (next_locked_and_tor h idx) then
    let h := set_pmp_at idx
               (mk_pmp (val .& (u64 (Z.shiftl 1 (paddr_bits - PMP_SHIFT)) - 1)) (pmp_cfg e)) h in
    (true, flush_tlb h)
  else (false, h).

Definition tor_paddr (h : hart) (idx : Z) : Z :=
  u64 (Z.shiftl (pmp_val (pmp_at h idx) .& pmp_tor_mask) PMP_SHIFT).

Definition tor_base_paddr (h : hart) (idx : Z) : Z :=
  if idx =? 0 then 0 else tor_paddr h (idx - 1).

Definition napot_mask (h : hart) (idx : Z) : Z :=
  let e := pmp_at h idx in
  let is_na4 := pmp_cfg e .& PMP_A =? PMP_NA4 in
  let mask := u64 (Z.shiftl (pmp_val e) 1) .| b2z (negb is_na4) .| unot64 pmp_tor_mask in
  u64 (Z.shiftl (unot64 (mask &~ u64 (mask + 1))) PMP_SHIFT).

Definition match4 (h : hart) (idx addr : Z) : bool :=
  let cfg := pmp_cfg (pmp_at h idx) in
  if cfg .& PMP_A =? 0 then false else
  if cfg .& PMP_A =? PMP_TOR then (tor_base_paddr h idx <=? addr) && (addr <? tor_paddr h idx)
  else (addr .^ tor_paddr h idx) .& napot_mask h idx =? 0.

(** [None] is the [abort()] of a misaligned or non-power-of-two range. *)
Definition subset_match (h : hart) (idx addr len : Z) : option bool :=
  if z2b ((addr .| len) .& (len - 1)) then None else Some (
  let cfg := pmp_cfg (pmp_at h idx) in
  let base := tor_base_paddr h idx in
  let tor := tor_paddr h idx in
  if cfg .& PMP_A =? 0 then false else
  let is_tor := cfg .& PMP_A =? PMP_TOR in
  let begins_after_lower := base <=? addr in
  let begins_after_upper := tor <=? addr in
  let ends_before_lower := addr .& u64 (- len) <? base .& u64 (- len) in
  let ends_before_upper := addr .& u64 (- len) <? tor .& u64 (- len) in
  let tor_homogeneous := ends_before_lower || begins_after_upper ||
                         (begins_after_lower && ends_before_upper) in
  let mask_homogeneous := z2b (len &~ u64 (Z.shiftl (napot_mask h idx) 1)) in
  let napot_homogeneous := mask_homogeneous || z2b ((addr .^ tor) / len) in
  negb (if is_tor then tor_homogeneous else napot_homogeneous)).

Definition access_ok (h : hart) (idx : Z) (type : access_type) (mode : Z) (hlvx : bool) : bool :=
  let cfg := pmp_cfg (pmp_at h idx) in
  let cfgx := z2b (cfg .& PMP_X) in
  let cfgw := z2b (cfg .& PMP_W) in
  let cfgr := z2b (cfg .& PMP_R) in
  let cfgl := z2b (cfg .& PMP_L) in
  let prvm := mode =? PRV_M in
  let typer := bool_decide (type = LOAD) in
  let typex := bool_decide (type = FETCH) in
  let typew := bool_decide (type = STORE) in
  let normal_rwx := (typer && cfgr && (negb hlvx || cfgx)) || (typew && cfgw) || (typex && cfgx) in
  if get_mml h then
    if cfgx && cfgw && cfgr && cfgl then typer && negb hlvx
    else
      let mml_shared_region := negb cfgr && cfgw in
      let mml_chk_normal := Bool.eqb prvm cfgl && normal_rwx in
      let mml_chk_shared :=
        (negb cfgl && cfgx && ((typer && negb hlvx) || typew)) ||
        (negb cfgl && negb cfgx && ((typer && negb hlvx) || (typew && prvm))) ||
        (cfgl && typex) || (cfgl && typer && cfgx && prvm) in
      if mml_shared_region then mml_chk_shared else mml_chk_normal
  else
    let m_bypass := prvm && negb cfgl in
    m_bypass || normal_rwx.

Definition pmpcfg_read (h : hart) (addr : Z) : Z :=
  let i0 := (addr - CSR_PMPCFG0) * 4 in
  fold_left (fun cfg_res k =>
      if i0 + k <? max_pmp then cfg_res .| Z.shiftl (pmp_cfg (pmp_at h (i0 + k))) (8 * k) else cfg_res)
    (zseq (xlen / 8)) 0.

(** The new [cfg] of one entry, [None] when the write to it is ignored. *)
Definition pmpcfg_legalize (rlb mml : bool) (bits : Z) : option Z :=
  let cfg := bits .& (PMP_R .| PMP_W .| PMP_X .| PMP_A .| PMP_L) in
  let cfg := if negb mml then cfg .& u8 (unot 8 PMP_W .| opt (z2b (cfg .& PMP_R)) PMP_W) else cfg in
  let cfg := if negb (lg_pmp_granularity =? PMP_SHIFT) && (cfg .& PMP_A =? PMP_NA4)
             then cfg .| PMP_NAPOT else cfg in
  let cfgx := z2b (cfg .& PMP_X) in
  let cfgw := z2b (cfg .& PMP_W) in
  let cfgr := z2b (cfg .& PMP_R) in
  if rlb || negb (mml && (z2b (cfg .& PMP_L) && negb (cfgx && cfgw && cfgr)
                          && (cfgx || (cfgw && negb cfgr))))
  then Some cfg else None.

(** One iteration of the loop of [pmpcfg_csr_t::unlogged_write]. *)
Definition pmpcfg_step (rlb mml : bool) (i0 val : Z) (st : bool * hart) (k : Z) : bool * hart :=
  let '(write_success, h) := st in
  let i := i0 + k in
  if i <? n_pmp then
    let e := pmp_at h i in
    let locked := z2b (pmp_cfg e .& PMP_L) in
    let h := if rlb || negb locked then
               match pmpcfg_legalize rlb mml (u8 (Z.shiftr val (8 * k))) with
               | Some cfg => set_pmp_at i (mk_pmp (pmp_val e) cfg) h
               | None => h
               end
             else h in
    (true, h)
  else (write_success, h).

Definition pmpcfg_unlogged_write (addr val : Z) (h : hart) : bool * hart :=
  if n_pmp =? 0 then (false, h) else
  let rlb := get_rlb h in
  let mml := get_mml h in
  let i0 := (addr - CSR_PMPCFG0) * 4 in
  let '(write_success, h) :=
    fold_left (pmpcfg_step rlb mml i0 val) (zseq (xlen / 8)) (false, h) in
  (write_success, flush_tlb h).

Definition mseccfg_unlogged_write (val : Z) (h : hart) : bool * hart :=
  let new_val := mseccfg_read h in
  let '(new_val, h) :=
    if negb (n_pmp =? 0) then
      let pmplock_recorded := existsb (fun i => is_locked (pmp_at h i)) (zseq n_pmp) in
      let new_val := if negb (pmplock_recorded && (mseccfg_read h .& MSECCFG_RLB =? 0))
                     then (new_val &~ MSECCFG_RLB) .| (val .& MSECCFG_RLB) else new_val in
      let new_val := new_val .| (val .& MSECCFG_MMWP) in
      let new_val := new_val .| (val .& MSECCFG_MML) in
      (new_val, flush_tlb h)
    else (new_val, h) in
  let new_val := if extension_enabled h EXT_ZKR then
      let mask := MSECCFG_USEED .| MSECCFG_SSEED in (new_val &~ mask) .| (val .& mask)
    else new_val in
  let new_val := if extension_enabled h EXT_ZICFILP
    then (new_val &~ MSECCFG_MLPE) .| (val .& MSECCFG_MLPE) else new_val in
  let new_val := if extension_enabled h EXT_SMMPM then
      let pmm_reserved := 1 in
      let pmm := get_field val MSECCFG_PMM in
      set_field new_val MSECCFG_PMM (if negb (pmm =? pmm_reserved) then pmm else 0)
    else new_val in
  (true, set_csr_raw CSR_MSECCFG new_val h).

End csr.
