(* ===== verification/Triggers.v ===== *)
(** The trigger module, [riscv/triggers.h] and [riscv/triggers.cc]: an
    instance of the class [trigger_module] of [Hart].

    A [trigger_t] object is the record of the members of the base class with a
    constructor for its dynamic class; the virtual methods are functions by
    cases on it.  [triggers::module_t] is the list of its triggers.  The
    asserts on [sselect], [mhselect] and the actions are left out: the writes
    legalise the values they test. *)

From S2P Require Import Prelude IntArith Decode Encoding IsaExt Trap Hart Pmp.

(** * Constants of [debug_defines.h] *)

Definition CSR_TDATA1_TYPE (w : Z) : Z := 0xf * Z.shiftl 1 (w - 4).
Definition CSR_TDATA1_TYPE_MCONTROL : Z := 2.
Definition CSR_TDATA1_TYPE_ICOUNT : Z := 3.
Definition CSR_TDATA1_TYPE_ITRIGGER : Z := 4.
Definition CSR_TDATA1_TYPE_ETRIGGER : Z := 5.
Definition CSR_TDATA1_TYPE_MCONTROL6 : Z := 6.
Definition CSR_TDATA1_TYPE_DISABLED : Z := 15.
Definition CSR_TDATA1_DMODE (w : Z) : Z := Z.shiftl 1 (w - 5).
Definition CSR_TINFO_VERSION_OFFSET : Z := 0x18.
Definition CSR_TINFO_VERSION_1 : Z := 1.
Definition MCONTROL_TYPE (w : Z) : Z := Z.shiftl 0xf (w - 4).
Definition MCONTROL_MASKMAX (w : Z) : Z := Z.shiftl 0x3f (w - 11).
Definition CSR_MCONTROL_DMODE (w : Z) : Z := Z.shiftl 1 (w - 5).
Definition CSR_MCONTROL_HIT : Z := 0x100000.
Definition CSR_MCONTROL_S : Z := 0x10.
Definition CSR_MCONTROL_U : Z := 8.
Definition CSR_MCONTROL6_TYPE (w : Z) : Z := 0xf * Z.shiftl 1 (w - 4).
Definition CSR_MCONTROL6_DMODE (w : Z) : Z := Z.shiftl 1 (w - 5).
Definition CSR_MCONTROL6_HIT1 : Z := 0x2000000.
Definition CSR_MCONTROL6_VS : Z := 0x1000000.
Definition CSR_MCONTROL6_VU : Z := 0x800000.
Definition CSR_MCONTROL6_HIT0 : Z := 0x400000.
Definition CSR_MCONTROL6_SELECT : Z := 0x200000.
Definition CSR_MCONTROL6_ACTION : Z := 0xf000.
Definition CSR_MCONTROL6_CHAIN : Z := 0x800.
Definition CSR_MCONTROL6_MATCH : Z := 0x780.
Definition CSR_MCONTROL6_M : Z := 0x40.
Definition CSR_MCONTROL6_S : Z := 0x10.
Definition CSR_MCONTROL6_U : Z := 8.
Definition CSR_MCONTROL6_EXECUTE : Z := 4.
Definition CSR_MCONTROL6_STORE : Z := 2.
Definition CSR_MCONTROL6_LOAD : Z := 1.
Definition CSR_ICOUNT_TYPE (w : Z) : Z := 0xf * Z.shiftl 1 (w - 4).
Definition CSR_ICOUNT_DMODE (w : Z) : Z := Z.shiftl 1 (w - 5).
Definition CSR_ICOUNT_VS : Z := 0x4000000.
Definition CSR_ICOUNT_VU : Z := 0x2000000.
Definition CSR_ICOUNT_HIT : Z := 0x1000000.
Definition CSR_ICOUNT_COUNT : Z := 0xfffc00.
Definition CSR_ICOUNT_M : Z := 0x200.
Definition CSR_ICOUNT_PENDING : Z := 0x100.
Definition CSR_ICOUNT_S : Z := 0x80.
Definition CSR_ICOUNT_U : Z := 0x40.
Definition CSR_ICOUNT_ACTION : Z := 0x3f.
Definition CSR_ITRIGGER_TYPE (w : Z) : Z := 0xf * Z.shiftl 1 (w - 4).
Definition CSR_ITRIGGER_DMODE (w : Z) : Z := Z.shiftl 1 (w - 5).
Definition CSR_ITRIGGER_HIT (w : Z) : Z := Z.shiftl 1 (w - 6).
Definition CSR_ITRIGGER_VS : Z := 0x1000.
Definition CSR_ITRIGGER_VU : Z := 0x800.
Definition CSR_ITRIGGER_NMI : Z := 0x400.
Definition CSR_ITRIGGER_M : Z := 0x200.
Definition CSR_ITRIGGER_S : Z := 0x80.
Definition CSR_ITRIGGER_U : Z := 0x40.
Definition CSR_ITRIGGER_ACTION : Z := 0x3f.
Definition CSR_ETRIGGER_TYPE (w : Z) : Z := 0xf * Z.shiftl 1 (w - 4).
Definition CSR_ETRIGGER_DMODE (w : Z) : Z := Z.shiftl 1 (w - 5).
Definition CSR_ETRIGGER_HIT (w : Z) : Z := Z.shiftl 1 (w - 6).
Definition CSR_ETRIGGER_VS : Z := 0x1000.
Definition CSR_ETRIGGER_VU : Z := 0x800.
Definition CSR_ETRIGGER_M : Z := 0x200.
Definition CSR_ETRIGGER_S : Z := 0x80.
Definition CSR_ETRIGGER_U : Z := 0x40.
Definition CSR_ETRIGGER_ACTION : Z := 0x3f.

(** * Macros of [triggers.cc]: [w] is the width of the machine *)

Definition ASIDMAX (w : Z) : Z := if w =? 32 then 9 else 16.
Definition SATP_ASID (w : Z) : Z := if w =? 32 then SATP32_ASID else SATP64_ASID.
Definition VMIDMAX (w : Z) : Z := if w =? 32 then 7 else 14.
Definition HGATP_VMID (w : Z) : Z := if w =? 32 then HGATP32_VMID else HGATP64_VMID.
Definition CSR_TEXTRA_MHVALUE_LENGTH (w : Z) : Z := if w =? 32 then 6 else 0xd.
Definition CSR_TEXTRA_MHVALUE (w : Z) : Z := if w =? 32 then 0xfc000000 else 0xfff8000000000000.
Definition CSR_TEXTRA_MHSELECT (w : Z) : Z := if w =? 32 then 0x3800000 else 0x7000000000000.
Definition CSR_TEXTRA_SBYTEMASK (w : Z) : Z := if w =? 32 then 0xc0000 else 0xf000000000.
Definition CSR_TEXTRA_SVALUE (w : Z) : Z := if w =? 32 then 0x3fffc else 0x3fffffffc.
Definition CSR_TEXTRA_SSELECT (w : Z) : Z := 3.
Definition CSR_TEXTRA64_SBYTEMASK_LENGTH : Z := 4.

(** * Data *)

Definition ACTION_MAXVAL : Z := MCONTROL_ACTION_TRACE_EMIT.
Definition SSELECT_IGNORE : Z := 0.
Definition SSELECT_SCONTEXT : Z := 1.
Definition SSELECT_ASID : Z := 2.
Definition SSELECT_MAXVAL : Z := 2.
Inductive mhselect_mode_t : Type := MHSELECT_MODE_IGNORE | MHSELECT_MODE_MCONTEXT | MHSELECT_MODE_VMID.
Definition HIT_FALSE : Z := 0.
Definition HIT_BEFORE : Z := 1.
Definition HIT_IMMEDIATELY_AFTER : Z := 3.

Inductive match_t : Type :=
| MATCH_EQUAL | MATCH_NAPOT | MATCH_GE | MATCH_LT | MATCH_MASK_LOW | MATCH_MASK_HIGH.
Definition match_z (k : match_t) : Z :=
  match k with
  | MATCH_EQUAL => MCONTROL_MATCH_EQUAL | MATCH_NAPOT => MCONTROL_MATCH_NAPOT
  | MATCH_GE => MCONTROL_MATCH_GE | MATCH_LT => MCONTROL_MATCH_LT
  | MATCH_MASK_LOW => MCONTROL_MATCH_MASK_LOW | MATCH_MASK_HIGH => MCONTROL_MATCH_MASK_HIGH
  end.

(** The members of [mcontrol_common_t]. *)
Record mcontrol_common_t : Type := mk_mcontrol {
  mc_dmode : bool; mc_action : Z; mc_select : bool; mc_timing : timing_t; mc_chain : bool;
  mc_match : match_t; mc_execute : bool; mc_store : bool; mc_load : bool }.

(** The members of [icount_t]. *)
Record icount_t : Type := mk_icount {
  ic_dmode : bool; ic_hit : bool; ic_count : Z; ic_count_read_value : Z;
  ic_pending : bool; ic_pending_read_value : bool; ic_action : Z }.

(** The members of [trap_common_t]. *)
Record trap_common_t : Type := mk_trap_common { tc_dmode : bool; tc_hit : bool; tc_action : Z }.

(** The dynamic class. *)
Inductive trigger_class : Type :=
| disabled_trigger_t (dmode : bool)
| mcontrol_t (c : mcontrol_common_t) (hit : bool)
| mcontrol6_t (c : mcontrol_common_t) (hit : Z)
| icount_trigger_t (c : icount_t)
| itrigger_t (c : trap_common_t) (nmi : bool)
| etrigger_t (c : trap_common_t).

(** [trigger_t]. *)
Record trigger_t : Type := mk_trigger {
  tr_class : trigger_class;
  tr_tdata2 : Z;
  tr_vs : bool; tr_vu : bool; tr_m : bool; tr_s : bool; tr_u : bool;
  tr_sselect : Z; tr_svalue : Z; tr_sbytemask : Z; tr_mhselect : Z; tr_mhvalue : Z }.

(** A new object: its members are zero. *)
Definition new_trigger (c : trigger_class) : trigger_t :=
  mk_trigger c 0 false false false false false 0 0 0 0 0.

(** [module_t]. *)
Abbreviation module_t := (list trigger_t).

Definition with_class (c : trigger_class) (t : trigger_t) : trigger_t :=
  mk_trigger c (tr_tdata2 t) (tr_vs t) (tr_vu t) (tr_m t) (tr_s t) (tr_u t)
    (tr_sselect t) (tr_svalue t) (tr_sbytemask t) (tr_mhselect t) (tr_mhvalue t).
Definition with_modes (vs vu m s u : bool) (t : trigger_t) : trigger_t :=
  mk_trigger (tr_class t) (tr_tdata2 t) vs vu m s u
    (tr_sselect t) (tr_svalue t) (tr_sbytemask t) (tr_mhselect t) (tr_mhvalue t).

(** * Virtual getters *)

Definition get_dmode (t : trigger_t) : bool :=
  match tr_class t with
  | disabled_trigger_t d => d
  | mcontrol_t c _ | mcontrol6_t c _ => mc_dmode c
  | icount_trigger_t c => ic_dmode c
  | itrigger_t c _ | etrigger_t c => tc_dmode c
  end.

Definition mcontrol_of (t : trigger_t) : option mcontrol_common_t :=
  match tr_class t with mcontrol_t c _ | mcontrol6_t c _ => Some c | _ => None end.
Definition get_chain (t : trigger_t) : bool := from_option mc_chain false (mcontrol_of t).
Definition get_execute (t : trigger_t) : bool := from_option mc_execute false (mcontrol_of t).
Definition get_store (t : trigger_t) : bool := from_option mc_store false (mcontrol_of t).
Definition get_load (t : trigger_t) : bool := from_option mc_load false (mcontrol_of t).

Definition get_action (t : trigger_t) : Z :=
  match tr_class t with
  | disabled_trigger_t _ => MCONTROL_ACTION_DEBUG_EXCEPTION
  | mcontrol_t c _ | mcontrol6_t c _ => mc_action c
  | icount_trigger_t c => ic_action c
  | itrigger_t c _ | etrigger_t c => tc_action c
  end.

Definition icount_check_needed (t : trigger_t) : bool :=
  match tr_class t with icount_trigger_t c => (0 <? ic_count c) || ic_pending c | _ => false end.

Section triggers.
Context `{cfg : !config}.

(** * Legalisation *)

Definition legalize_action (val action_mask dmode_mask : Z) : Z :=
  let act := get_field val action_mask in
  if (ACTION_MAXVAL <? act) || ((act =? MCONTROL_ACTION_DEBUG_MODE) && (get_field val dmode_mask =? 0))
  then MCONTROL_ACTION_DEBUG_EXCEPTION else act.

Definition legalize_match (val maskmax : Z) : match_t :=
  if val =? MCONTROL_MATCH_NAPOT then if maskmax =? 0 then MATCH_EQUAL else MATCH_NAPOT
  else if val =? MCONTROL_MATCH_GE then MATCH_GE
  else if val =? MCONTROL_MATCH_LT then MATCH_LT
  else if val =? MCONTROL_MATCH_MASK_LOW then MATCH_MASK_LOW
  else if val =? MCONTROL_MATCH_MASK_HIGH then MATCH_MASK_HIGH
  else MATCH_EQUAL.

Definition legalize_timing (val timing_mask select_mask execute_mask load_mask : Z) : timing_t :=
  if z2b (get_field val select_mask) && z2b (get_field val load_mask) then TIMING_AFTER
  else if z2b (get_field val execute_mask) then TIMING_BEFORE
  else if z2b timing_mask then if z2b (get_field val timing_mask) then TIMING_AFTER else TIMING_BEFORE
  else TIMING_BEFORE.

Definition timing_z (t : timing_t) : Z := match t with TIMING_BEFORE => 0 | TIMING_AFTER => 1 end.

(** [mhselect_interpretation]: its [mhselect], mode and [shift_mhvalue]. *)
Definition mhselect_interpretation : Type := Z * mhselect_mode_t * bool.

(** The values 3 and 7 are downgraded; without H only 0 and 4 are legal. *)
Definition interpret_mhselect (h_enabled : bool) (mhselect : Z) : mhselect_interpretation :=
  let legal :=
    if h_enabled then nth (Z.to_nat mhselect) [0; 1; 2; 0; 4; 5; 6; 4] 0
    else nth (Z.to_nat mhselect) [0; 0; 0; 0; 4; 4; 4; 4] 0 in
  if legal =? 1 then (1, MHSELECT_MODE_MCONTEXT, true)
  else if legal =? 2 then (2, MHSELECT_MODE_VMID, true)
  else if legal =? 4 then (4, MHSELECT_MODE_MCONTEXT, false)
  else if legal =? 5 then (5, MHSELECT_MODE_MCONTEXT, true)
  else if legal =? 6 then (6, MHSELECT_MODE_VMID, true)
  else (0, MHSELECT_MODE_IGNORE, false).

Definition legalize_mhselect (h_enabled : bool) (mhselect : Z) : Z :=
  fst (fst (interpret_mhselect h_enabled mhselect)).

Definition compare_val (i : mhselect_interpretation) (mhvalue : Z) : Z :=
  let '(mhselect, _, shift_mhvalue) := i in
  if shift_mhvalue then u32 (Z.shiftl mhvalue 1) .| Z.shiftr mhselect 2 else mhvalue.

(** * [trigger_t]: tdata2, tdata3 *)

Definition tdata2_write_trigger (val : Z) (t : trigger_t) : trigger_t :=
  mk_trigger (tr_class t) val (tr_vs t) (tr_vu t) (tr_m t) (tr_s t) (tr_u t)
    (tr_sselect t) (tr_svalue t) (tr_sbytemask t) (tr_mhselect t) (tr_mhvalue t).

Definition tdata3_read_trigger (env : trigger_env) (t : trigger_t) : Z :=
  let r := 0 in
  let r := set_field r (CSR_TEXTRA_MHVALUE xlen) (tr_mhvalue t) in
  let r := set_field r (CSR_TEXTRA_MHSELECT xlen) (legalize_mhselect (te_ext env ext_H) (tr_mhselect t)) in
  let r := set_field r (CSR_TEXTRA_SBYTEMASK xlen) (tr_sbytemask t) in
  let r := set_field r (CSR_TEXTRA_SVALUE xlen) (tr_svalue t) in
  set_field r (CSR_TEXTRA_SSELECT xlen) (tr_sselect t).

Definition tdata3_write_trigger (env : trigger_env) (val : Z) (t : trigger_t) : trigger_t :=
  let ext_s := te_ext env ext_S in
  let sselect := get_field val (CSR_TEXTRA_SSELECT xlen) in
  mk_trigger (tr_class t) (tr_tdata2 t) (tr_vs t) (tr_vu t) (tr_m t) (tr_s t) (tr_u t)
    (if ext_s && (sselect <=? SSELECT_MAXVAL) then sselect else SSELECT_IGNORE)
    (if ext_s then get_field val (CSR_TEXTRA_SVALUE xlen) else 0)
    (get_field val (CSR_TEXTRA_SBYTEMASK xlen))
    (get_field val (CSR_TEXTRA_MHSELECT xlen))
    (get_field val (CSR_TEXTRA_MHVALUE xlen)).

(** * tdata1 *)

Definition set_flag (r mask : Z) (b : bool) : Z := set_field r mask (b2z b).
Definition flag (val mask : Z) : bool := z2b (get_field val mask).

Definition disabled_tdata1_read (dmode : bool) : Z :=
  let r := set_field 0 (CSR_TDATA1_TYPE xlen) CSR_TDATA1_TYPE_DISABLED in
  set_flag r (CSR_TDATA1_DMODE xlen) dmode.

Definition mcontrol_tdata1_read (t : trigger_t) (c : mcontrol_common_t) (hit : bool) : Z :=
  let r := set_field 0 (MCONTROL_TYPE xlen) CSR_TDATA1_TYPE_MCONTROL in
  let r := set_flag r (CSR_MCONTROL_DMODE xlen) (mc_dmode c) in
  let r := set_field r (MCONTROL_MASKMAX xlen) 0 in
  let r := set_flag r CSR_MCONTROL_HIT hit in
  let r := set_flag r MCONTROL_SELECT (mc_select c) in
  let r := set_field r MCONTROL_TIMING (timing_z (mc_timing c)) in
  let r := set_field r MCONTROL_ACTION (mc_action c) in
  let r := set_flag r MCONTROL_CHAIN (mc_chain c) in
  let r := set_field r MCONTROL_MATCH (match_z (mc_match c)) in
  let r := set_flag r MCONTROL_M (tr_m t) in
  let r := set_flag r MCONTROL_S (tr_s t) in
  let r := set_flag r MCONTROL_U (tr_u t) in
  let r := set_flag r MCONTROL_EXECUTE (mc_execute c) in
  let r := set_flag r MCONTROL_STORE (mc_store c) in
  set_flag r MCONTROL_LOAD (mc_load c).

Definition mcontrol_tdata1_write (env : trigger_env) (val : Z) (allow_chain : bool) (t : trigger_t) : trigger_t :=
  let c := {|
    mc_dmode := flag val (CSR_MCONTROL_DMODE xlen);
    mc_select := flag val MCONTROL_SELECT;
    mc_timing := legalize_timing val MCONTROL_TIMING MCONTROL_SELECT MCONTROL_EXECUTE MCONTROL_LOAD;
    mc_action := legalize_action val MCONTROL_ACTION (CSR_MCONTROL_DMODE xlen);
    mc_chain := allow_chain && flag val MCONTROL_CHAIN;
    mc_match := legalize_match (get_field val MCONTROL_MATCH) 0;
    mc_execute := flag val MCONTROL_EXECUTE;
    mc_store := flag val MCONTROL_STORE;
    mc_load := flag val MCONTROL_LOAD |} in
  with_modes (tr_vs t) (tr_vu t) (flag val MCONTROL_M)
    (te_ext env ext_S && flag val CSR_MCONTROL_S) (te_ext env ext_U && flag val CSR_MCONTROL_U)
    (with_class (mcontrol_t c (flag val CSR_MCONTROL_HIT)) t).

Definition mcontrol6_tdata1_read (env : trigger_env) (t : trigger_t) (c : mcontrol_common_t) (hit : Z) : Z :=
  let r := set_field 0 (CSR_MCONTROL6_TYPE xlen) CSR_TDATA1_TYPE_MCONTROL6 in
  let r := set_flag r (CSR_MCONTROL6_DMODE xlen) (mc_dmode c) in
  let r := set_field r CSR_MCONTROL6_HIT1 (Z.shiftr hit 1) in
  let r := set_flag r CSR_MCONTROL6_VS (te_ext env ext_H && tr_vs t) in
  let r := set_flag r CSR_MCONTROL6_VU (te_ext env ext_H && tr_vu t) in
  let r := set_field r CSR_MCONTROL6_HIT0 (hit .& 1) in
  let r := set_flag r CSR_MCONTROL6_SELECT (mc_select c) in
  let r := set_field r CSR_MCONTROL6_ACTION (mc_action c) in
  let r := set_flag r CSR_MCONTROL6_CHAIN (mc_chain c) in
  let r := set_field r CSR_MCONTROL6_MATCH (match_z (mc_match c)) in
  let r := set_flag r CSR_MCONTROL6_M (tr_m t) in
  let r := set_flag r CSR_MCONTROL6_S (tr_s t) in
  let r := set_flag r CSR_MCONTROL6_U (tr_u t) in
  let r := set_flag r CSR_MCONTROL6_EXECUTE (mc_execute c) in
  let r := set_flag r CSR_MCONTROL6_STORE (mc_store c) in
  set_flag r CSR_MCONTROL6_LOAD (mc_load c).

Definition mcontrol6_tdata1_write (env : trigger_env) (val : Z) (allow_chain : bool) (t : trigger_t) : trigger_t :=
  let c := {|
    mc_dmode := flag val (CSR_MCONTROL6_DMODE xlen);
    mc_select := flag val CSR_MCONTROL6_SELECT;
    mc_timing := legalize_timing val 0 CSR_MCONTROL6_SELECT CSR_MCONTROL6_EXECUTE CSR_MCONTROL6_LOAD;
    mc_action := legalize_action val CSR_MCONTROL6_ACTION (CSR_MCONTROL6_DMODE xlen);
    mc_chain := allow_chain && flag val CSR_MCONTROL6_CHAIN;
    mc_match := legalize_match (get_field val CSR_MCONTROL6_MATCH) (xlen - 1);
    mc_execute := flag val CSR_MCONTROL6_EXECUTE;
    mc_store := flag val CSR_MCONTROL6_STORE;
    mc_load := flag val CSR_MCONTROL6_LOAD |} in
  with_modes (flag val CSR_MCONTROL6_VS) (flag val CSR_MCONTROL6_VU) (flag val CSR_MCONTROL6_M)
    (te_ext env ext_S && flag val CSR_MCONTROL6_S) (te_ext env ext_U && flag val CSR_MCONTROL6_U)
    (with_class (mcontrol6_t c (2 * get_field val CSR_MCONTROL6_HIT1 + get_field val CSR_MCONTROL6_HIT0)) t).

Definition icount_tdata1_read (env : trigger_env) (t : trigger_t) (c : icount_t) : Z :=
  let r := set_field 0 (CSR_ICOUNT_TYPE xlen) CSR_TDATA1_TYPE_ICOUNT in
  let r := set_flag r (CSR_ICOUNT_DMODE xlen) (ic_dmode c) in
  let r := set_flag r CSR_ICOUNT_VS (te_ext env ext_H && tr_vs t) in
  let r := set_flag r CSR_ICOUNT_VU (te_ext env ext_H && tr_vu t) in
  let r := set_flag r CSR_ICOUNT_HIT (ic_hit c) in
  let r := set_field r CSR_ICOUNT_COUNT (ic_count_read_value c) in
  let r := set_flag r CSR_ICOUNT_M (tr_m t) in
  let r := set_flag r CSR_ICOUNT_PENDING (ic_pending_read_value c) in
  let r := set_flag r CSR_ICOUNT_S (tr_s t) in
  let r := set_flag r CSR_ICOUNT_U (tr_u t) in
  set_field r CSR_ICOUNT_ACTION (ic_action c).

Definition icount_tdata1_write (env : trigger_env) (val : Z) (t : trigger_t) : trigger_t :=
  let count := get_field val CSR_ICOUNT_COUNT in
  let pending := flag val CSR_ICOUNT_PENDING in
  let c := {|
    ic_dmode := te_debug_mode env && flag val (CSR_ICOUNT_DMODE xlen);
    ic_hit := flag val CSR_ICOUNT_HIT;
    ic_count := count; ic_count_read_value := count;
    ic_pending := pending; ic_pending_read_value := pending;
    ic_action := legalize_action val CSR_ICOUNT_ACTION (CSR_ICOUNT_DMODE xlen) |} in
  with_modes (flag val CSR_ICOUNT_VS) (flag val CSR_ICOUNT_VU) (flag val CSR_ICOUNT_M)
    (te_ext env ext_S && flag val CSR_ICOUNT_S) (te_ext env ext_U && flag val CSR_ICOUNT_U)
    (with_class (icount_trigger_t c) t).

Definition itrigger_tdata1_read (env : trigger_env) (t : trigger_t) (c : trap_common_t) (nmi : bool) : Z :=
  let r := set_field 0 (CSR_ITRIGGER_TYPE xlen) CSR_TDATA1_TYPE_ITRIGGER in
  let r := set_flag r (CSR_ITRIGGER_DMODE xlen) (tc_dmode c) in
  let r := set_flag r (CSR_ITRIGGER_HIT xlen) (tc_hit c) in
  let r := set_flag r CSR_ITRIGGER_VS (te_ext env ext_H && tr_vs t) in
  let r := set_flag r CSR_ITRIGGER_VU (te_ext env ext_H && tr_vu t) in
  let r := set_flag r CSR_ITRIGGER_NMI nmi in
  let r := set_flag r CSR_ITRIGGER_M (tr_m t) in
  let r := set_flag r CSR_ITRIGGER_S (tr_s t) in
  let r := set_flag r CSR_ITRIGGER_U (tr_u t) in
  set_field r CSR_ITRIGGER_ACTION (tc_action c).

Definition itrigger_tdata1_write (env : trigger_env) (val : Z) (t : trigger_t) : trigger_t :=
  let c := mk_trap_common (flag val (CSR_ITRIGGER_DMODE xlen)) (flag val (CSR_ITRIGGER_HIT xlen))
             (legalize_action val CSR_ITRIGGER_ACTION (CSR_ITRIGGER_DMODE xlen)) in
  with_modes (flag val CSR_ITRIGGER_VS) (flag val CSR_ITRIGGER_VU) (flag val CSR_ITRIGGER_M)
    (te_ext env ext_S && flag val CSR_ITRIGGER_S) (te_ext env ext_U && flag val CSR_ITRIGGER_U)
    (with_class (itrigger_t c (flag val CSR_ITRIGGER_NMI)) t).

Definition etrigger_tdata1_read (env : trigger_env) (t : trigger_t) (c : trap_common_t) : Z :=
  let r := set_field 0 (CSR_ETRIGGER_TYPE xlen) CSR_TDATA1_TYPE_ETRIGGER in
  let r := set_flag r (CSR_ETRIGGER_DMODE xlen) (tc_dmode c) in
  let r := set_flag r (CSR_ETRIGGER_HIT xlen) (tc_hit c) in
  let r := set_flag r CSR_ETRIGGER_VS (te_ext env ext_H && tr_vs t) in
  let r := set_flag r CSR_ETRIGGER_VU (te_ext env ext_H && tr_vu t) in
  let r := set_flag r CSR_ETRIGGER_M (tr_m t) in
  let r := set_flag r CSR_ETRIGGER_S (tr_s t) in
  let r := set_flag r CSR_ETRIGGER_U (tr_u t) in
  set_field r CSR_ETRIGGER_ACTION (tc_action c).

Definition etrigger_tdata1_write (env : trigger_env) (val : Z) (t : trigger_t) : trigger_t :=
  let c := mk_trap_common (flag val (CSR_ETRIGGER_DMODE xlen)) (flag val (CSR_ETRIGGER_HIT xlen))
             (legalize_action val CSR_ETRIGGER_ACTION (CSR_ETRIGGER_DMODE xlen)) in
  with_modes (flag val CSR_ETRIGGER_VS) (flag val CSR_ETRIGGER_VU) (flag val CSR_ETRIGGER_M)
    (te_ext env ext_S && flag val CSR_ETRIGGER_S) (te_ext env ext_U && flag val CSR_ETRIGGER_U)
    (with_class (etrigger_t c) t).

Definition tdata1_read_trigger (env : trigger_env) (t : trigger_t) : Z :=
  match tr_class t with
  | disabled_trigger_t d => disabled_tdata1_read d
  | mcontrol_t c hit => mcontrol_tdata1_read t c hit
  | mcontrol6_t c hit => mcontrol6_tdata1_read env t c hit
  | icount_trigger_t c => icount_tdata1_read env t c
  | itrigger_t c nmi => itrigger_tdata1_read env t c nmi
  | etrigger_t c => etrigger_tdata1_read env t c
  end.

(** The object made for the type field of [tdata1], then written. *)
Definition tdata1_new_trigger (env : trigger_env) (type val : Z) (allow_chain : bool) : trigger_t :=
  let t := new_trigger (disabled_trigger_t false) in
  if type =? CSR_TDATA1_TYPE_MCONTROL then mcontrol_tdata1_write env val allow_chain t
  else if type =? CSR_TDATA1_TYPE_ICOUNT then icount_tdata1_write env val t
  else if type =? CSR_TDATA1_TYPE_ITRIGGER then itrigger_tdata1_write env val t
  else if type =? CSR_TDATA1_TYPE_ETRIGGER then etrigger_tdata1_write env val t
  else if type =? CSR_TDATA1_TYPE_MCONTROL6 then mcontrol6_tdata1_write env val allow_chain t
  else with_class (disabled_trigger_t (flag val (CSR_TDATA1_DMODE xlen))) t.

(** * Matching *)

(** The unexpected privilege of the source's [assert(false)] matches nothing. *)
Definition mode_match (t : trigger_t) (p : Z) (virt : bool) : bool :=
  if p =? PRV_M then tr_m t
  else if p =? PRV_S then if virt then tr_vs t else tr_s t
  else if p =? PRV_U then if virt then tr_vu t else tr_u t
  else false.

(** The bytes of the supervisor context that [sbytemask] leaves. *)
Definition svalue_mask (sbytemask : Z) : Z :=
  fold_left (fun mask i => if Z.testbit sbytemask i then mask &~ Z.shiftl 0xff (i * 8) else mask)
    (zseq CSR_TEXTRA64_SBYTEMASK_LENGTH)
    (Z.shiftl 1 (if xlen =? 32 then 0x10 else 0x20) - 1).

Definition textra_match (env : trigger_env) (t : trigger_t) : bool :=
  let s_ok :=
    if tr_sselect t =? SSELECT_SCONTEXT then
      let mask := svalue_mask (tr_sbytemask t) in
      te_csr env CSR_SCONTEXT .& mask =? tr_svalue t .& mask
    else if tr_sselect t =? SSELECT_ASID then
      get_field (te_satp env) (SATP_ASID xlen) =? tr_svalue t .& (Z.shiftl 1 (ASIDMAX xlen) - 1)
    else true in
  let i := interpret_mhselect (te_ext env ext_H) (tr_mhselect t) in
  let mh_ok :=
    match snd (fst i) with
    | MHSELECT_MODE_MCONTEXT =>
        te_csr env CSR_HCONTEXT .& (Z.shiftl 1 (CSR_TEXTRA_MHVALUE_LENGTH xlen + 1) - 1)
          =? compare_val i (tr_mhvalue t)
    | MHSELECT_MODE_VMID =>
        get_field (te_csr env CSR_HGATP) (HGATP_VMID xlen)
          =? compare_val i (tr_mhvalue t) .& (Z.shiftl 1 (VMIDMAX xlen) - 1)
    | MHSELECT_MODE_IGNORE => true
    end in
  s_ok && mh_ok.

Definition tcontrol_value (env : trigger_env) : Z := te_csr env CSR_TCONTROL.

Definition breakpoint_delegated (deleg : Z) : bool := z2b (Z.shiftr deleg CAUSE_BREAKPOINT .& 1).

Definition common_match (env : trigger_env) (use_prev_prv : bool) (t : trigger_t) : bool :=
  let p := if use_prev_prv then te_prev_prv env else te_prv env in
  let virt := if use_prev_prv then te_prev_v env else te_v env in
  if negb (mode_match t p virt) then false
  else if negb (textra_match env t) then false
  else if get_action t =? MCONTROL_ACTION_DEBUG_EXCEPTION then
    if te_ext env ext_S then
      let mstatus_mie := z2b (te_mstatus env .& MSTATUS_MIE) in
      let sstatus_sie := z2b (te_sstatus env .& MSTATUS_SIE) in
      let medeleg_breakpoint := breakpoint_delegated (te_csr env CSR_MEDELEG) in
      let vsstatus_sie := z2b (te_vsstatus env .& MSTATUS_SIE) in
      let hedeleg_breakpoint := breakpoint_delegated (te_csr env CSR_HEDELEG) in
      if (p =? PRV_M) && negb mstatus_mie then false
      else if (p =? PRV_S) && negb virt && medeleg_breakpoint && negb sstatus_sie then false
      else if (p =? PRV_S) && virt && medeleg_breakpoint && hedeleg_breakpoint && negb vsstatus_sie then false
      else true
    else if (p =? PRV_M) && negb (z2b (tcontrol_value env .& CSR_TCONTROL_MTE)) then false else true
  else true.

(** The mask of a NAPOT match is computed on [int]: C leaves it undefined from
    31 trailing ones on; here the shifted bit is dropped. *)
Definition napot_match_mask (tdata2 : Z) : Z :=
  let ones := i32 (i32 (Z.shiftl 1 (default 64 (cto tdata2) + 1)) - 1) in
  u64 (Z.lnot ones).

Definition mcontrol_simple_match (k : match_t) (tdata2 value : Z) : bool :=
  let half := xlen / 2 in
  let low x := x .& (u64 (Z.shiftl 1 half) - 1) in
  match k with
  | MATCH_EQUAL => value =? tdata2
  | MATCH_NAPOT => value .& napot_match_mask tdata2 =? tdata2 .& napot_match_mask tdata2
  | MATCH_GE => tdata2 <=? value
  | MATCH_LT => value <? tdata2
  | MATCH_MASK_LOW => low value .& Z.shiftr tdata2 half =? low tdata2
  | MATCH_MASK_HIGH => Z.shiftr value half .& Z.shiftr tdata2 half =? low tdata2
  end.

(** [set_hit]: a flag in [mcontrol_t], the value in [mcontrol6_t]. *)
Definition set_hit (val : Z) (t : trigger_t) : trigger_t :=
  match tr_class t with
  | mcontrol_t c _ => with_class (mcontrol_t c (negb (val =? HIT_FALSE))) t
  | mcontrol6_t c _ => with_class (mcontrol6_t c val) t
  | _ => t
  end.

(** [mcontrol_common_t::detect_memory_access_match]; the other classes never match. *)
Definition trigger_memory_access_match (env : trigger_env) (op : operation_t) (address : Z) (data : option Z)
    (t : trigger_t) : option match_result_t * trigger_t :=
  match mcontrol_of t with
  | None => (None, t)
  | Some c =>
      let enabled := match op with
                     | OPERATION_EXECUTE => mc_execute c
                     | OPERATION_STORE => mc_store c
                     | OPERATION_LOAD => mc_load c
                     end in
      if negb enabled || negb (common_match env false t) then (None, t) else
      match (if mc_select c then data else Some address) with
      | None => (None, t)
      | Some value =>
          let value := if xlen =? 32 then value .& 0xffffffff else value in
          if mcontrol_simple_match (mc_match c) (tr_tdata2 t) value
          then (Some (mk_match_result (mc_timing c) (mc_action c)),
                set_hit (match mc_timing c with TIMING_AFTER => HIT_IMMEDIATELY_AFTER | TIMING_BEFORE => HIT_BEFORE end) t)
          else (None, t)
      end
  end.

Definition with_icount (c : icount_t) (t : trigger_t) : trigger_t := with_class (icount_trigger_t c) t.

Definition stash_read_values (t : trigger_t) : trigger_t :=
  match tr_class t with
  | icount_trigger_t c =>
      with_icount (mk_icount (ic_dmode c) (ic_hit c) (ic_count c) (ic_count c) (ic_pending c) (ic_pending c) (ic_action c)) t
  | _ => t
  end.

Definition detect_icount_fire (env : trigger_env) (t : trigger_t) : option match_result_t * trigger_t :=
  match tr_class t with
  | icount_trigger_t c =>
      if negb (common_match env false t) then (None, t)
      else if ic_pending c then
        (Some (mk_match_result TIMING_BEFORE (ic_action c)),
         with_icount (mk_icount (ic_dmode c) true (ic_count c) (ic_count_read_value c) false
                        (ic_pending_read_value c) (ic_action c)) t)
      else (None, t)
  | _ => (None, t)
  end.

Definition detect_icount_decrement (env : trigger_env) (t : trigger_t) : trigger_t :=
  match tr_class t with
  | icount_trigger_t c =>
      if negb (common_match env false t) then t
      else if 1 <=? ic_count c then
        with_icount (mk_icount (ic_dmode c) (ic_hit c) (ic_count c - 1) (ic_count_read_value c)
                       (if ic_count c =? 1 then true else ic_pending c) (ic_pending_read_value c) (ic_action c)) t
      else t
  | _ => t
  end.

(** [itrigger_t::simple_match] and [etrigger_t::simple_match]. *)
Definition itrigger_simple_match (tdata2 : Z) (nmi interrupt : bool) (bit : Z) : bool :=
  interrupt && (((bit =? 0) && nmi) || z2b (Z.shiftr tdata2 bit .& 1)).
Definition etrigger_simple_match (tdata2 : Z) (interrupt : bool) (bit : Z) : bool :=
  negb interrupt && z2b (Z.shiftr tdata2 bit .& 1).

(** [trap_common_t::detect_trap_match]: the privilege before the trap counts.  [None] is
    the failed assertion that the cause is a bit of the register. *)
Definition trigger_trap_match (env : trigger_env) (tr : trap_t) (t : trigger_t)
    : option (option match_result_t * trigger_t) :=
  let interrupt := z2b (cause tr .& Z.shiftl 1 (xlen - 1)) in
  let bit := cause tr &~ Z.shiftl 1 (xlen - 1) in
  let hit c := mk_trap_common (tc_dmode c) true (tc_action c) in
  match tr_class t with
  | itrigger_t c nmi =>
      if negb (common_match env true t) then Some (None, t) else
      if xlen <=? bit then None else
      if itrigger_simple_match (tr_tdata2 t) nmi interrupt bit
      then Some (Some (mk_match_result TIMING_AFTER (tc_action c)), with_class (itrigger_t (hit c) nmi) t)
      else Some (None, t)
  | etrigger_t c =>
      if negb (common_match env true t) then Some (None, t) else
      if xlen <=? bit then None else
      if etrigger_simple_match (tr_tdata2 t) interrupt bit
      then Some (Some (mk_match_result TIMING_AFTER (tc_action c)), with_class (etrigger_t (hit c)) t)
      else Some (None, t)
  | _ => Some (None, t)
  end.

(** * [module_t] *)

Definition new_module (count : Z) : module_t := repeat (new_trigger (disabled_trigger_t false)) (Z.to_nat count).
Definition trigger_at (s : module_t) (i : Z) : trigger_t :=
  nth (Z.to_nat i) s (new_trigger (disabled_trigger_t false)).
Definition update_trigger (s : module_t) (i : Z) (t : trigger_t) : module_t := <[Z.to_nat i := t]> s.
Definition trigger_total (s : module_t) : Z := Z.of_nat (length s).

(** A write is refused to a trigger of debug mode from outside it. *)
Definition write_refused (env : trigger_env) (s : module_t) (i : Z) : bool :=
  get_dmode (trigger_at s i) && negb (te_debug_mode env).

Definition module_tdata1_write (env : trigger_env) (s : module_t) (i val : Z) : bool * module_t :=
  if write_refused env s i then (false, s) else
  let allow_chain := negb ((i + 1 <? trigger_total s) && get_dmode (trigger_at s (i + 1))
                           && negb (flag val (CSR_TDATA1_DMODE xlen))) in
  let tdata1 := if te_debug_mode env then val else set_field val (CSR_TDATA1_DMODE xlen) 0 in
  if (0 <? i) && negb (get_dmode (trigger_at s (i - 1))) && get_chain (trigger_at s (i - 1))
     && flag tdata1 (CSR_TDATA1_DMODE xlen) then (false, s) else
  let type := get_field val (CSR_TDATA1_TYPE xlen) in
  let tdata2 := tr_tdata2 (trigger_at s i) in
  let tdata3 := tdata3_read_trigger env (trigger_at s i) in
  let t := tdata1_new_trigger env type tdata1 allow_chain in
  (true, update_trigger s i (tdata3_write_trigger env tdata3 (tdata2_write_trigger tdata2 t))).

Definition module_tdata2_write (env : trigger_env) (s : module_t) (i val : Z) : bool * module_t :=
  if write_refused env s i then (false, s)
  else (true, update_trigger s i (tdata2_write_trigger val (trigger_at s i))).

Definition module_tdata3_write (env : trigger_env) (s : module_t) (i val : Z) : bool * module_t :=
  if write_refused env s i then (false, s)
  else (true, update_trigger s i (tdata3_write_trigger env val (trigger_at s i))).

(** [ret] becomes [result] when it has none or a smaller action. *)
Definition better (ret result : option match_result_t) : option match_result_t :=
  match result with
  | None => ret
  | Some r => match ret with
              | None => Some r
              | Some q => if mr_action q <? mr_action r then Some r else ret
              end
  end.

(** The loop over the triggers: [chain_ok] is lost when a trigger of a chain
    does not match, until the chain ends. *)
Fixpoint memory_match_loop (env : trigger_env) (op : operation_t) (address : Z) (data : option Z)
    (chain_ok : bool) (ret : option match_result_t) (s : module_t) : option match_result_t * module_t :=
  match s with
  | [] => (ret, [])
  | t :: s =>
      if negb chain_ok then
        let '(r, s') := memory_match_loop env op address data (negb (get_chain t)) ret s in (r, t :: s')
      else
        let '(result, t') := trigger_memory_access_match env op address data t in
        let ret := if negb (get_chain t) then better ret result else ret in
        let chain_ok := match result with Some _ => true | None => negb (get_chain t) end in
        let '(r, s') := memory_match_loop env op address data chain_ok ret s in (r, t' :: s')
  end.

Definition module_memory_access_match (env : trigger_env) (op : operation_t) (address : Z) (data : option Z)
    (s : module_t) : option match_result_t * module_t :=
  if te_debug_mode env then (None, s) else memory_match_loop env op address data true None s.

(** A loop that asks every trigger and keeps the best result. *)
Fixpoint best_match (f : trigger_t -> option match_result_t * trigger_t) (ret : option match_result_t)
    (s : module_t) : option match_result_t * module_t :=
  match s with
  | [] => (ret, [])
  | t :: s => let '(result, t') := f t in
              let '(r, s') := best_match f (better ret result) s in (r, t' :: s')
  end.

Definition module_icount_match (env : trigger_env) (s : module_t) : option match_result_t * module_t :=
  let s := map stash_read_values s in
  if te_debug_mode env then (None, s) else
  let '(ret, s) := best_match (detect_icount_fire env) None s in
  let debug := match ret with Some r => mr_action r =? MCONTROL_ACTION_DEBUG_MODE | None => false end in
  (ret, if debug then s else map (detect_icount_decrement env) s).

Fixpoint trap_match_loop (env : trigger_env) (tr : trap_t) (ret : option match_result_t) (s : module_t)
    : option (option match_result_t * module_t) :=
  match s with
  | [] => Some (ret, [])
  | t :: s => '(result, t') ← trigger_trap_match env tr t;
              '(r, s') ← trap_match_loop env tr (better ret result) s; Some (r, t' :: s')
  end.
Definition module_trap_match (env : trigger_env) (tr : trap_t) (s : module_t) : option (option match_result_t * module_t) :=
  if te_debug_mode env then Some (None, s) else trap_match_loop env tr None s.

(** Every trigger supports the same types. *)
Definition module_tinfo_read : Z :=
  Z.shiftl 1 CSR_TDATA1_TYPE_MCONTROL .| Z.shiftl 1 CSR_TDATA1_TYPE_ICOUNT .| Z.shiftl 1 CSR_TDATA1_TYPE_ITRIGGER
  .| Z.shiftl 1 CSR_TDATA1_TYPE_ETRIGGER .| Z.shiftl 1 CSR_TDATA1_TYPE_MCONTROL6
  .| Z.shiftl 1 CSR_TDATA1_TYPE_DISABLED .| Z.shiftl CSR_TINFO_VERSION_1 CSR_TINFO_VERSION_OFFSET.

(** The trigger module of a hart. *)
Definition triggers_module : trigger_module := {|
  trigger_state := module_t;
  Hart.tdata1_read := fun env s i => tdata1_read_trigger env (trigger_at s i);
  Hart.tdata1_write := module_tdata1_write;
  Hart.tdata2_read := fun _ s i => tr_tdata2 (trigger_at s i);
  Hart.tdata2_write := module_tdata2_write;
  Hart.tdata3_read := fun env s i => tdata3_read_trigger env (trigger_at s i);
  Hart.tdata3_write := module_tdata3_write;
  Hart.tinfo_read := fun _ _ _ => module_tinfo_read;
  Hart.any_execute := existsb get_execute;
  Hart.any_load := existsb get_load;
  Hart.any_store := existsb get_store;
  Hart.any_icount := existsb icount_check_needed;
  Hart.detect_memory_access_match := module_memory_access_match;
  Hart.detect_icount_match := module_icount_match;
  Hart.detect_trap_match := module_trap_match |}.

End triggers.
