(* ===== verification/Csr.v ===== *)
(** Control and status registers: the class hierarchy of [riscv/csrs.h] and
    its methods in [riscv/csrs.cc].

    Each class is a constructor of [csr_t]; its arguments are those of the
    C++ constructor.  The virtual methods are the three functions [csr_read],
    [csr_verify_permissions] and [csr_unlogged_write], by cases on the class.
    The commit log is not modelled: [log_write] is dropped, and the [bool]
    of [unlogged_write], used only for it, is kept as the result. *)

From S2P Require Import Prelude IntArith Decode Encoding IsaExt Trap Hart Pmp.

Section csr.
Context `{!config, !simif, !trigger_module}.

(** * The *status registers *)

Definition has_page : bool := ee0 ext_S && supports_impl IMPL_MMU.

Definition sstatus_write_mask : Z :=
  let has_fs := (ee0 ext_S || ee0 ext_F) && negb (ee0 EXT_ZFINX) in
  let has_vs := any_vector_extensions in
  0 .| opt (ee0 ext_S) (SSTATUS_SIE .| SSTATUS_SPIE .| SSTATUS_SPP)
    .| opt has_page (SSTATUS_SUM .| SSTATUS_MXR)
    .| opt has_fs SSTATUS_FS
    .| opt any_custom_extensions SSTATUS_XS
    .| opt has_vs SSTATUS_VS
    .| opt (ee0 EXT_ZICFILP) SSTATUS_SPELP
    .| opt (ee0 EXT_SSDBLTRP) SSTATUS_SDT.

Definition sd_bit : Z := if xlen =? 64 then SSTATUS64_SD else SSTATUS32_SD.

Definition sstatus_read_mask : Z :=
  sstatus_write_mask .| SSTATUS_UBE .| SSTATUS_UXL
  .| (if xlen =? 32 then SSTATUS32_SD else SSTATUS64_SD).

Definition adjust_sd (val : Z) : Z :=
  if (val .& SSTATUS_FS =? SSTATUS_FS) || (val .& SSTATUS_VS =? SSTATUS_VS) ||
     (val .& SSTATUS_XS =? SSTATUS_XS)
  then val .| sd_bit else val &~ sd_bit.

(** [maybe_flush_tlb(newval)], [old] being [read()]. *)
Definition maybe_flush_tlb (old newval : Z) (h : hart) : hart :=
  if z2b ((newval .^ old) .& (MSTATUS_MPP .| MSTATUS_MPRV .| opt has_page (MSTATUS_MXR .| MSTATUS_SUM)))
  then flush_tlb h else h.

Definition mstatus_read (h : hart) : Z := csr_raw h CSR_MSTATUS.
Definition menvcfg_read (h : hart) : Z := csr_raw h CSR_MENVCFG.

Definition henvcfg_read (h : hart) : Z :=
  (menvcfg_read h .| unot64 (MENVCFG_PBMTE .| MENVCFG_STCE .| MENVCFG_ADUE .| MENVCFG_DTE .| MENVCFG_SSE))
  .& csr_raw h CSR_HENVCFG.

Definition senvcfg_read (h : hart) : Z :=
  let envcfg := if v h then henvcfg_read h else menvcfg_read h in
  csr_raw h CSR_SENVCFG &~ (if z2b (envcfg .& MENVCFG_SSE) then 0 else MENVCFG_SSE).

Definition mstatus_mask (h : hart) : Z :=
  let has_mpv := extension_enabled h ext_H in
  let has_gva := has_mpv in
  sstatus_write_mask
  .| MSTATUS_MIE .| MSTATUS_MPIE
  .| opt (extension_enabled h ext_U) MSTATUS_MPRV
  .| MSTATUS_MPP .| MSTATUS_TW
  .| opt (extension_enabled h ext_S) MSTATUS_TSR
  .| opt has_page MSTATUS_TVM
  .| opt has_gva MSTATUS_GVA
  .| opt has_mpv MSTATUS_MPV
  .| opt (extension_enabled h EXT_SMDBLTRP) MSTATUS_MDT
  .| opt (extension_enabled h EXT_ZICFILP) (MSTATUS_SPELP .| MSTATUS_MPELP)
  .| opt (extension_enabled h EXT_SSDBLTRP) SSTATUS_SDT.

Definition mstatus_new (h : hart) (val : Z) : Z :=
  let mask := mstatus_mask h in
  let requested_mpp := legalize_privilege h (get_field val MSTATUS_MPP) in
  let adjusted_val := set_field val MSTATUS_MPP requested_mpp in
  let new_mstatus := (mstatus_read h &~ mask) .| (adjusted_val .& mask) in
  let new_mstatus := if z2b (new_mstatus .& MSTATUS_MDT) then new_mstatus &~ MSTATUS_MIE else new_mstatus in
  if z2b (new_mstatus .& MSTATUS_SDT) then new_mstatus &~ MSTATUS_SIE else new_mstatus.

Definition mstatus_write (val : Z) (h : hart) : hart :=
  let new_mstatus := mstatus_new h val in
  set_csr_raw CSR_MSTATUS (adjust_sd new_mstatus) (maybe_flush_tlb (mstatus_read h) new_mstatus h).

Definition xlen_to_uxl (w : Z) : Z := if w =? 32 then 1 else 2.

Definition compute_mstatus_initial_value : Z :=
  let big_endian_bits := opt (ee0 ext_U) MSTATUS_UBE .| opt (ee0 ext_S) MSTATUS_SBE .| MSTATUS_MBE in
  0 .| set_field 0 MSTATUS_MPP (if ee0 ext_U then PRV_U else PRV_M)
    .| (if ee0 ext_U && negb (xlen =? 32) then set_field 0 MSTATUS_UXL (xlen_to_uxl xlen) else 0)
    .| (if ee0 ext_S && negb (xlen =? 32) then set_field 0 MSTATUS_SXL (xlen_to_uxl xlen) else 0)
    .| (if target_big_endian then big_endian_bits else 0)
    .| opt (ee0 EXT_SMDBLTRP) MSTATUS_MDT
    .| 0.

Definition vsstatus_read (h : hart) : Z :=
  let hDTE := z2b (henvcfg_read h .& HENVCFG_DTE) in
  let adj_read_mask := sstatus_read_mask &~ (if hDTE then 0 else SSTATUS_SDT) in
  csr_raw h CSR_VSSTATUS .& adj_read_mask.

Definition vsstatus_write (val : Z) (h : hart) : hart :=
  let hDTE := z2b (henvcfg_read h .& HENVCFG_DTE) in
  let adj_write_mask := sstatus_write_mask &~ (if hDTE then 0 else SSTATUS_SDT) in
  let newval := (csr_raw h CSR_VSSTATUS &~ adj_write_mask) .| (val .& adj_write_mask) in
  let newval := if z2b (newval .& SSTATUS_SDT) then newval &~ SSTATUS_SIE else newval in
  let h' := if v h then maybe_flush_tlb (vsstatus_read h) newval h else h in
  set_csr_raw CSR_VSSTATUS (adjust_sd newval) h'.

Definition sstatus_proxy_read (h : hart) : Z :=
  let mDTE := z2b (menvcfg_read h .& MENVCFG_DTE) in
  let adj_read_mask := sstatus_read_mask &~ (if mDTE then 0 else SSTATUS_SDT) in
  mstatus_read h .& adj_read_mask.

Definition sstatus_proxy_write (val : Z) (h : hart) : hart :=
  let mDTE := z2b (menvcfg_read h .& MENVCFG_DTE) in
  let adj_write_mask := sstatus_write_mask &~ (if mDTE then 0 else SSTATUS_SDT) in
  let new_mstatus := (mstatus_read h &~ adj_write_mask) .| (val .& adj_write_mask) in
  let new_mstatus := if z2b (new_mstatus .& SSTATUS_SDT) then new_mstatus &~ SSTATUS_SIE else new_mstatus in
  mstatus_write new_mstatus h.

(** [state->sstatus]: [readvirt], [write], [enabled] and [dirty]. *)
Definition sstatus_readvirt (h : hart) (virt : bool) : Z :=
  if virt then vsstatus_read h else sstatus_proxy_read h.
Definition sstatus_read (h : hart) : Z := sstatus_readvirt h (v h).
Definition sstatus_write (val : Z) (h : hart) : hart :=
  if v h then vsstatus_write val h else sstatus_proxy_write val h.

Definition sstatus_enabled (h : hart) (which : Z) : bool :=
  z2b (sstatus_proxy_read h .& which) && (negb (v h) || z2b (vsstatus_read h .& which)).

Definition sstatus_dirty (dirties : Z) : M unit :=
  let* h := get_hart in
  if (sstatus_proxy_read h .& dirties =? dirties) &&
     (negb (v h) || (vsstatus_read h .& dirties =? dirties))
  then ret tt
  else if negb (sstatus_enabled h dirties) then abort
  else
    modify (fun h => sstatus_proxy_write (sstatus_proxy_read h .| dirties) h) ;;
    let* h := get_hart in
    when (v h) (modify (fun h => vsstatus_write (vsstatus_read h .| dirties) h)).

Definition dirty_fp_state : M unit := sstatus_dirty SSTATUS_FS.
Definition dirty_vs_state : M unit := sstatus_dirty SSTATUS_VS.
Definition dirty_ext_state : M unit := sstatus_dirty SSTATUS_XS.

Definition mnstatus_read (h : hart) : Z := csr_raw h CSR_MNSTATUS.
(** [state->mnstatus] is null without Smrnmi. *)
Definition has_mnstatus : bool := ee0 EXT_SMRNMI.

Definition mnstatus_write (val : Z) (h : hart) : hart :=
  let mask := (unot64 (mnstatus_read h) .& MNSTATUS_NMIE)
              .| opt (extension_enabled h ext_H) MNSTATUS_MNPV
              .| opt (extension_enabled h EXT_ZICFILP) MNSTATUS_MNPELP
              .| MNSTATUS_MNPP in
  let requested_mnpp := legalize_privilege h (get_field val MNSTATUS_MNPP) in
  let adjusted_val := set_field val MNSTATUS_MNPP requested_mnpp in
  set_csr_raw CSR_MNSTATUS ((mnstatus_read h &~ mask) .| (adjusted_val .& mask)) h.

(** * Interrupt registers *)

Definition mvien_read (h : hart) : Z := csr_raw h CSR_MVIEN.
Definition mie_read (h : hart) : Z := csr_raw h CSR_MIE.

Definition mideleg_read (h : hart) : Z :=
  let val := csr_raw h CSR_MIDELEG in
  if extension_enabled h ext_H then val .| MIDELEG_FORCED_MASK else val.

Definition hideleg_read (h : hart) : Z := csr_raw h CSR_HIDELEG .& mideleg_read h.

Definition mip_read (h : hart) : Z :=
  csr_raw h CSR_MIP .| csr_raw h CSR_HVIP
  .| (if z2b (mvien_read h .& MIP_SEIP) then 0 else csr_raw h CSR_MVIP .& MIP_SEIP).

Definition mvip_read (h : hart) : Z :=
  let val := csr_raw h CSR_MVIP in
  0 .| (val .& MIP_SEIP)
    .| (if z2b (menvcfg_read h .& MENVCFG_STCE) then 0 else mip_read h .& MIP_STIP)
    .| ((if z2b (mvien_read h .& MIP_SSIP) then val else mip_read h) .& MIP_SSIP).

Definition hvip_read (h : hart) : Z := csr_raw h CSR_HVIP .| (mip_read h .& MIP_VSSIP).

(** [mip_or_mie_csr_t::write_with_mask] on the register at [addr]. *)
Definition int_write_with_mask (addr mask val : Z) (h : hart) : hart :=
  set_csr_raw addr ((csr_raw h addr &~ mask) .| (val .& mask)) h.

Definition mie_write_with_mask : Z -> Z -> hart -> hart := int_write_with_mask CSR_MIE.

Definition mvip_write_with_mask (mask val : Z) (h : hart) : hart :=
  set_csr_raw CSR_MVIP ((csr_raw h CSR_MVIP &~ mask) .| (val .& mask)) h.

Definition mip_write_with_mask (mask val : Z) (h : hart) : hart :=
  let h := if negb (z2b (mvien_read h .& MIP_SEIP)) && z2b (mask .& MIP_SEIP)
           then mvip_write_with_mask MIP_SEIP val h else h in
  int_write_with_mask CSR_MIP (mask &~ MIP_SEIP) val h.

Definition mip_backdoor_write_with_mask (mask val : Z) (h : hart) : hart :=
  int_write_with_mask CSR_MIP mask val h.

Definition mip_write_mask (h : hart) : Z :=
  let supervisor_ints :=
    if extension_enabled h ext_S
    then MIP_SSIP .| (if z2b (menvcfg_read h .& MENVCFG_STCE) then 0 else MIP_STIP) .| MIP_SEIP else 0 in
  let lscof_int := opt (extension_enabled h EXT_SSCOFPMF) MIP_LCOFIP in
  let vssip_int := opt (extension_enabled h ext_H) MIP_VSSIP in
  let hypervisor_ints := opt (extension_enabled h ext_H) MIP_HS_MASK in
  (supervisor_ints .| hypervisor_ints .| lscof_int)
  .& (MIP_SEIP .| MIP_SSIP .| MIP_STIP .| MIP_LCOFIP .| vssip_int).

Definition supervisor_ints (h : hart) : Z := opt (extension_enabled h ext_S) (MIP_SSIP .| MIP_STIP .| MIP_SEIP).
Definition coprocessor_ints : Z := Z.shiftl (b2z any_custom_extensions) IRQ_COP.

Definition mie_write_mask (h : hart) : Z :=
  let lscof_int := opt (extension_enabled h EXT_SSCOFPMF) MIP_LCOFIP in
  let hypervisor_ints := opt (extension_enabled h ext_H) MIP_HS_MASK in
  let delegable_ints := supervisor_ints h .| coprocessor_ints .| lscof_int in
  delegable_ints .| hypervisor_ints .| MIP_MSIP .| MIP_MTIP .| MIP_MEIP.

Definition mideleg_write (val : Z) (h : hart) : hart :=
  let lscof_int := opt (extension_enabled h EXT_SSCOFPMF) MIP_LCOFIP in
  let delegable_ints := supervisor_ints h .| coprocessor_ints .| lscof_int in
  set_csr_raw CSR_MIDELEG (val .& delegable_ints) h.

Definition bit_of (n : Z) : Z := Z.shiftl 1 n.

Definition hypervisor_exceptions : Z :=
  0 .| bit_of CAUSE_VIRTUAL_SUPERVISOR_ECALL .| bit_of CAUSE_FETCH_GUEST_PAGE_FAULT
    .| bit_of CAUSE_LOAD_GUEST_PAGE_FAULT .| bit_of CAUSE_VIRTUAL_INSTRUCTION
    .| bit_of CAUSE_STORE_GUEST_PAGE_FAULT.

Definition medeleg_read (h : hart) : Z := csr_raw h CSR_MEDELEG.

Definition medeleg_write (val : Z) (h : hart) : hart :=
  let mask := 0
    .| bit_of CAUSE_MISALIGNED_FETCH .| bit_of CAUSE_FETCH_ACCESS .| bit_of CAUSE_ILLEGAL_INSTRUCTION
    .| bit_of CAUSE_BREAKPOINT .| bit_of CAUSE_MISALIGNED_LOAD .| bit_of CAUSE_LOAD_ACCESS
    .| bit_of CAUSE_MISALIGNED_STORE .| bit_of CAUSE_STORE_ACCESS .| bit_of CAUSE_USER_ECALL
    .| bit_of CAUSE_SUPERVISOR_ECALL .| bit_of CAUSE_FETCH_PAGE_FAULT .| bit_of CAUSE_LOAD_PAGE_FAULT
    .| bit_of CAUSE_STORE_PAGE_FAULT
    .| opt (extension_enabled h ext_H) hypervisor_exceptions
    .| bit_of CAUSE_SOFTWARE_CHECK_FAULT .| bit_of CAUSE_HARDWARE_ERROR_FAULT in
  set_csr_raw CSR_MEDELEG ((medeleg_read h &~ mask) .| (val .& mask)) h.

(** [generic_int_accessor_t]. *)
Record int_accessor : Type := mk_int_accessor {
  read_mask : Z; ip_write_mask : Z; ie_write_mask : Z;
  mask_mideleg : bool; mask_hideleg : bool; shiftamt : Z }.

Definition deleg_mask (a : int_accessor) (h : hart) : Z :=
  let hideleg_mask := if mask_hideleg a then hideleg_read h else UINT64_MAX in
  let mideleg_mask := if mask_mideleg a then mideleg_read h else UINT64_MAX in
  hideleg_mask .& mideleg_mask.

Definition ip_read (a : int_accessor) (h : hart) : Z :=
  Z.shiftr (mip_read h .& deleg_mask a h .& read_mask a) (shiftamt a).
Definition ip_write (a : int_accessor) (val : Z) (h : hart) : hart :=
  mip_write_with_mask (deleg_mask a h .& ip_write_mask a) (u64 (Z.shiftl val (shiftamt a))) h.
Definition ie_read (a : int_accessor) (h : hart) : Z :=
  Z.shiftr (mie_read h .& deleg_mask a h .& read_mask a) (shiftamt a).
Definition ie_write (a : int_accessor) (val : Z) (h : hart) : hart :=
  mie_write_with_mask (deleg_mask a h .& ie_write_mask a) (u64 (Z.shiftl val (shiftamt a))) h.

Definition sip_sie_accr : int_accessor :=
  mk_int_accessor (unot64 MIP_HS_MASK) (MIP_SSIP .| MIP_LCOFIP) (unot64 MIP_HS_MASK) true false 0.
Definition hip_hie_accr : int_accessor :=
  mk_int_accessor MIP_HS_MASK MIP_VSSIP MIP_HS_MASK true false 0.
Definition vsip_vsie_accr : int_accessor :=
  mk_int_accessor MIP_VS_MASK MIP_VSSIP MIP_VS_MASK false true 1.

(** Interrupts visible to S-mode through mvien instead of mideleg. *)
Definition mvien_mask (h : hart) : Z := mvien_read h &~ mideleg_read h.

Definition sip_read (h : hart) : Z :=
  (ip_read sip_sie_accr h &~ mvien_mask h) .| (mvip_read h .& mvien_mask h).
Definition sip_write (val : Z) (h : hart) : hart :=
  let mask := mvien_mask h in
  ip_write sip_sie_accr (val &~ mask)
    (mvip_write_with_mask (mask .& ip_write_mask sip_sie_accr) val h).

Definition sie_read (h : hart) : Z :=
  (ie_read sip_sie_accr h &~ mvien_mask h) .| (csr_raw h CSR_SIE .& mvien_mask h).
Definition sie_write (val : Z) (h : hart) : hart :=
  let mask := mvien_mask h in
  ie_write sip_sie_accr (val &~ mask)
    (set_csr_raw CSR_SIE ((csr_raw h CSR_SIE &~ mask) .| (val .& mask)) h).

Definition hvip_write (val : Z) (h : hart) : hart :=
  set_csr_raw CSR_HVIP (val .& (MIP_VSEIP .| MIP_VSTIP)) (mip_write_with_mask MIP_VSSIP val h).

Definition mvip_write (val : Z) (h : hart) : hart :=
  let h := if negb (z2b (menvcfg_read h .& MENVCFG_STCE)) then mip_write_with_mask MIP_STIP val h else h in
  let h := if negb (z2b (mvien_read h .& MIP_SSIP)) then mip_write_with_mask MIP_SSIP val h else h in
  let new_val := (val .& MIP_SEIP)
    .| ((if z2b (mvien_read h .& MIP_SSIP) then val else csr_raw h CSR_MVIP) .& MIP_SSIP) in
  set_csr_raw CSR_MVIP new_val h.

Definition select_an_interrupt_with_default_priority (enabled_interrupts : Z) : Z :=
  let e := enabled_interrupts in
  if z2b (Z.shiftr e (IRQ_LCOF + 1)) then Z.shiftl (Z.shiftr e (IRQ_LCOF + 1)) (IRQ_LCOF + 1)
  else if z2b (e .& MIP_MEIP) then MIP_MEIP
  else if z2b (e .& MIP_MSIP) then MIP_MSIP
  else if z2b (e .& MIP_MTIP) then MIP_MTIP
  else if z2b (e .& MIP_SEIP) then MIP_SEIP
  else if z2b (e .& MIP_SSIP) then MIP_SSIP
  else if z2b (e .& MIP_STIP) then MIP_STIP
  else if z2b (e .& MIP_LCOFIP) then MIP_LCOFIP
  else if z2b (e .& MIP_VSEIP) then MIP_VSEIP
  else if z2b (e .& MIP_VSSIP) then MIP_VSSIP
  else if z2b (e .& MIP_VSTIP) then MIP_VSTIP
  else e.

Definition mtopi_read (h : hart) : Z :=
  let enabled_interrupts := mip_read h .& mie_read h &~ mideleg_read h in
  if enabled_interrupts =? 0 then 0 else
  let identity := ctz (select_an_interrupt_with_default_priority enabled_interrupts) in
  set_field 1 MTOPI_IID identity.

Definition nonvirtual_stopi_read (h : hart) : Z :=
  let enabled_interrupts := sip_read h .& sie_read h &~ hideleg_read h in
  if enabled_interrupts =? 0 then 0 else
  let identity := ctz (select_an_interrupt_with_default_priority enabled_interrupts) in
  set_field 1 MTOPI_IID identity.

Definition hstatus_read (h : hart) : Z := csr_raw h CSR_HSTATUS.
Definition hvictl_read (h : hart) : Z := csr_raw h CSR_HVICTL.

Definition vstopi_read (h : hart) : Z :=
  let hvictl := hvictl_read h in
  let vti := z2b (hvictl .& HVICTL_VTI) in
  let iid := get_field hvictl HVICTL_IID in
  let dpr := z2b (hvictl .& HVICTL_DPR) in
  let ipriom := z2b (hvictl .& HVICTL_IPRIOM) in
  let iprio := get_field hvictl HVICTL_IPRIO in
  let enabled_interrupts := Z.shiftr (mip_read h .& mie_read h .& hideleg_read h) 1 in
  let vgein := get_field (hstatus_read h) HSTATUS_VGEIN in
  let virtual_sei_priority :=
    if (vgein =? 0) && (iid =? IRQ_S_EXT) && negb (iprio =? 0) then iprio else 255 in
  let result identity priority := set_field (if ipriom then priority else 1) MTOPI_IID identity in
  if vti then
    if negb (z2b (enabled_interrupts .& MIP_SEIP)) && (iid =? IRQ_S_EXT) then 0 else
    let identity := if z2b (enabled_interrupts .& MIP_SEIP) && ((iid =? IRQ_S_EXT) || dpr)
                    then IRQ_S_EXT else iid in
    let priority := if identity =? IRQ_S_EXT then virtual_sei_priority
                    else if negb (iprio =? 0) || negb dpr then iprio else 255 in
    result identity priority
  else
    if enabled_interrupts =? 0 then 0 else
    let identity := ctz (select_an_interrupt_with_default_priority enabled_interrupts) in
    let priority := if identity =? IRQ_S_EXT then virtual_sei_priority else 255 in
    result identity priority.

End csr.
