(* ===== verification/CsrFile.v ===== *)
(** The classes of [riscv/csrs.h] and their virtual methods: the type [csr_t]
    of CSR objects, [csr_read], [csr_verify_permissions] and
    [csr_unlogged_write] by cases on the class, and the helper methods of the
    remaining classes (counters, address translation, environment
    configuration, indirect access). *)

From S2P Require Import Prelude IntArith Decode Encoding IsaExt Trap Hart Pmp Csr.

(** One constructor per class.  Classes with a single instance carry no
    address.  A null [csr_t_p] in a map of the source is [None]. *)
Inductive csr_t : Type :=
| basic_csr (addr : Z)
| pmpaddr_csr (pmpidx : Z)
| pmpcfg_csr (addr : Z)
| mseccfg_csr
| virtualized_csr (orig virt : csr_t)
| virtualized_satp_csr (orig virt : csr_t)
| virtualized_with_special_permission_csr (orig virt : csr_t)
| virtualized_indirect_csr (orig virt : csr_t)
| epc_csr (addr : Z)
| dpc_csr
| tvec_csr (addr : Z)
| cause_csr (addr : Z)
| mstatus_csr
| vsstatus_csr
| sstatus_proxy_csr
| sstatus_csr
| mnstatus_csr
| rv32_low_csr (addr : Z) (orig : csr_t)
| rv32_high_csr (addr : Z) (orig : csr_t)
| aia_rv32_high_csr (addr : Z) (orig : csr_t)
| misa_csr
| mip_csr
| mie_csr
| mip_proxy_csr (addr : Z) (accr : int_accessor)
| mie_proxy_csr (addr : Z) (accr : int_accessor)
| sip_csr
| sie_csr
| mideleg_csr
| medeleg_csr
| masked_csr (addr mask : Z)
| envcfg_csr (addr mask : Z)
| henvcfg_csr (mask : Z)
| senvcfg_csr (mask : Z)
| base_atp_csr (addr : Z)
| satp_csr
| wide_counter_csr (addr config_csr : Z)
| time_counter_csr
| proxy_csr (addr : Z) (delegate : csr_t)
| const_csr (addr val : Z)
| counter_proxy_csr (addr : Z) (delegate : csr_t)
| mevent_csr (addr : Z)
| hypervisor_csr (addr : Z)
| mtval2_csr
| hideleg_csr
| hgatp_csr
| hstatus_csr
| tselect_csr
| tdata1_csr
| tdata2_csr
| tdata3_csr
| tinfo_csr
| debug_mode_csr (addr : Z)
| dcsr_csr
| float_csr (addr mask : Z)
| composite_csr (addr : Z) (upper_csr lower_csr : csr_t) (upper_lsb : Z)
| seed_csr
| vector_csr (addr mask : Z)
| vxsat_csr
| hstateen_csr (mask index : Z)
| sstateen_csr (mask index : Z)
| stimecmp_csr (addr intr_mask : Z)
| scountovf_csr
| jvt_csr
| sscsrind_reg_csr (addr : Z) (iselect : csr_t) (ireg_proxy : list (Z * option csr_t))
| smcntrpmf_csr (addr mask : Z)
| srmcfg_csr (mask : Z)
| hvip_csr
| ssp_csr (mask : Z)
| scntinhibit_csr
| mtopi_csr
| mvip_csr
| nonvirtual_stopi_csr
| inaccessible_csr (addr : Z)
| vstopi_csr
| siselect_csr (addr : Z)
| aia_csr (addr mask : Z)
| simpoint_csr.

Fixpoint csr_address (c : csr_t) : Z :=
  match c with
  | basic_csr a | pmpcfg_csr a | epc_csr a | tvec_csr a | cause_csr a => a
  | pmpaddr_csr i => CSR_PMPADDR0 + i
  | mseccfg_csr => CSR_MSECCFG
  | virtualized_csr o _ | virtualized_satp_csr o _
  | virtualized_with_special_permission_csr o _ | virtualized_indirect_csr o _ => csr_address o
  | dpc_csr => CSR_DPC
  | mstatus_csr => CSR_MSTATUS
  | vsstatus_csr => CSR_VSSTATUS
  | sstatus_proxy_csr | sstatus_csr => CSR_SSTATUS
  | mnstatus_csr => CSR_MNSTATUS
  | rv32_low_csr a _ | rv32_high_csr a _ | aia_rv32_high_csr a _ => a
  | misa_csr => CSR_MISA
  | mip_csr => CSR_MIP
  | mie_csr => CSR_MIE
  | mip_proxy_csr a _ | mie_proxy_csr a _ => a
  | sip_csr => CSR_SIP
  | sie_csr => CSR_SIE
  | mideleg_csr => CSR_MIDELEG
  | medeleg_csr => CSR_MEDELEG
  | masked_csr a _ | envcfg_csr a _ => a
  | henvcfg_csr _ => CSR_HENVCFG
  | senvcfg_csr _ => CSR_SENVCFG
  | base_atp_csr a => a
  | satp_csr => CSR_SATP
  | wide_counter_csr a _ => a
  | time_counter_csr => CSR_TIME
  | proxy_csr a _ | const_csr a _ | counter_proxy_csr a _ => a
  | mevent_csr a | hypervisor_csr a => a
  | mtval2_csr => CSR_MTVAL2
  | hideleg_csr => CSR_HIDELEG
  | hgatp_csr => CSR_HGATP
  | hstatus_csr => CSR_HSTATUS
  | tselect_csr => CSR_TSELECT
  | tdata1_csr => CSR_TDATA1
  | tdata2_csr => CSR_TDATA2
  | tdata3_csr => CSR_TDATA3
  | tinfo_csr => CSR_TINFO
  | debug_mode_csr a => a
  | dcsr_csr => CSR_DCSR
  | float_csr a _ => a
  | composite_csr a _ _ _ => a
  | seed_csr => CSR_SEED
  | vector_csr a _ => a
  | vxsat_csr => CSR_VXSAT
  | hstateen_csr _ i => CSR_HSTATEEN0 + i
  | sstateen_csr _ i => CSR_SSTATEEN0 + i
  | stimecmp_csr a _ => a
  | scountovf_csr => CSR_SCOUNTOVF
  | jvt_csr => CSR_JVT
  | sscsrind_reg_csr a _ _ => a
  | smcntrpmf_csr a _ => a
  | srmcfg_csr _ => CSR_SRMCFG
  | hvip_csr => CSR_HVIP
  | ssp_csr _ => CSR_SSP
  | scntinhibit_csr => CSR_SCOUNTINHIBIT
  | mtopi_csr => CSR_MTOPI
  | mvip_csr => CSR_MVIP
  | nonvirtual_stopi_csr => CSR_STOPI
  | inaccessible_csr a => a
  | vstopi_csr => CSR_VSTOPI
  | siselect_csr a => a
  | aia_csr a _ => a
  | simpoint_csr => CSR_SIMPOINT
  end.

Section csr_file.
Context `{!config, !simif, !trigger_module}.

(** The default of [virtual unlogged_write] for stored values. *)
Definition basic_write (addr val : Z) (h : hart) : hart := set_csr_raw addr val h.

Definition masked_write (addr mask val : Z) (h : hart) : hart :=
  basic_write addr ((csr_raw h addr &~ mask) .| (val .& mask)) h.

(** * misa *)

Definition misa_bit (l : Z) : Z := Z.shiftl 1 (l - 65).

Definition misa_write_mask : Z :=
  max_isa .& (0 .| misa_bit ext_M .| misa_bit ext_A .| misa_bit ext_B .| misa_bit ext_F
              .| misa_bit ext_D .| misa_bit ext_Q .| misa_bit ext_C .| misa_bit ext_H .| misa_bit ext_V).

Definition misa_dependency (val feature depends_on : Z) : Z :=
  if z2b (val .& misa_bit depends_on) then val else val &~ misa_bit feature.

(** The [set_extension_enable] calls of [misa_csr_t::unlogged_write]. *)
Definition misa_update_extensions (new_misa : Z) (h : hart) : hart :=
  let on l := z2b (new_misa .& misa_bit l) in
  let h := set_extension_enable EXT_ZCA (on ext_C || negb (isa_extension_enabled ext_C)) h in
  let h := set_extension_enable EXT_ZCF (on ext_F && extension_enabled h EXT_ZCA) h in
  let h := set_extension_enable EXT_ZCD (on ext_D && extension_enabled h EXT_ZCA) h in
  let h := set_extension_enable EXT_ZCB (extension_enabled h EXT_ZCA) h in
  let h := set_extension_enable EXT_ZCMP (extension_enabled h EXT_ZCA) h in
  let h := set_extension_enable EXT_ZCMT (extension_enabled h EXT_ZCA) h in
  let h := set_extension_enable EXT_ZFH (on ext_F) h in
  let h := set_extension_enable EXT_ZFHMIN (on ext_F) h in
  let h := set_extension_enable EXT_ZVFH (on ext_V && extension_enabled h EXT_ZFHMIN) h in
  let h := set_extension_enable EXT_ZVFHMIN (on ext_V) h in
  let h := set_extension_enable EXT_ZAAMO (on ext_A || negb (isa_extension_enabled ext_A)) h in
  let h := set_extension_enable EXT_ZALRSC (on ext_A || negb (isa_extension_enabled ext_A)) h in
  let h := set_extension_enable EXT_ZBA (on ext_B || negb (isa_extension_enabled ext_B)) h in
  let h := set_extension_enable EXT_ZBB (on ext_B || negb (isa_extension_enabled ext_B)) h in
  set_extension_enable EXT_ZBS (on ext_B || negb (isa_extension_enabled ext_B)) h.

Definition mevent_mask (h : hart) : Z :=
  if extension_enabled h EXT_SSCOFPMF then
    MHPMEVENT_OF .| MHPMEVENT_MINH
    .| opt (extension_enabled_const h ext_U) MHPMEVENT_UINH
    .| opt (extension_enabled_const h ext_S) MHPMEVENT_SINH
    .| (if extension_enabled h ext_H then MHPMEVENT_VUINH .| MHPMEVENT_VSINH else 0)
  else 0.

Definition mevent_write (addr val : Z) (h : hart) : hart := masked_write addr (mevent_mask h) val h.

Definition hstatus_write (val : Z) (h : hart) : hart :=
  let mask := HSTATUS_VTSR .| HSTATUS_VTW
    .| opt (supports_impl IMPL_MMU) HSTATUS_VTVM
    .| opt (extension_enabled h EXT_SSNPM) HSTATUS_HUPMM
    .| HSTATUS_HU .| HSTATUS_SPVP .| HSTATUS_SPV .| HSTATUS_GVA in
  let pmm_reserved := 1 in
  let pmm := get_field val HSTATUS_HUPMM in
  let adjusted_val := set_field val HSTATUS_HUPMM (if negb (pmm =? pmm_reserved) then pmm else 0) in
  let new_hstatus := (hstatus_read h &~ mask) .| (adjusted_val .& mask) in
  let h' := if negb (get_field new_hstatus HSTATUS_HUPMM =? get_field (hstatus_read h) HSTATUS_HUPMM)
            then flush_tlb h else h in
  basic_write CSR_HSTATUS new_hstatus h'.

(** Writing the upper half of [mstatus] through [mstatush]. *)
Definition mstatush_write (val : Z) (h : hart) : hart :=
  mstatus_write (u32 (mstatus_read h) .| Z.shiftl (u32 val) 32) h.

(** The state update of [misa_csr_t::unlogged_write] when H is turned off. *)
Definition misa_disable_h (h : hart) : hart :=
  let h := medeleg_write (medeleg_read h &~ hypervisor_exceptions) h in
  let h := if has_mnstatus then mnstatus_write (mnstatus_read h &~ MNSTATUS_MNPV) h else h in
  let new_mstatus := mstatus_read h &~ (MSTATUS_GVA .| MSTATUS_MPV) in
  let h := mstatus_write new_mstatus h in
  let h := if xlen =? 32 then mstatush_write (Z.shiftr new_mstatus 32) h else h in
  let h := mie_write_with_mask MIP_HS_MASK 0 h in
  let h := mip_write_with_mask MIP_HS_MASK 0 h in
  let h := hstatus_write 0 h in
  fold_left (fun h i =>
      mevent_write (CSR_MHPMEVENT3 + i)
        (csr_raw h (CSR_MHPMEVENT3 + i) &~ (MHPMEVENT_VUINH .| MHPMEVENT_VSINH)) h)
    (zseq N_HPMCOUNTERS) h.

Definition misa_write (val : Z) (h : hart) : bool * hart :=
  let old_misa := csr_raw h CSR_MISA in
  if negb (z2b (val .& misa_bit ext_C)) && z2b (old_misa .& misa_bit ext_C) && z2b (pc h .& 2)
  then (false, h) else
  let adjusted_val := misa_dependency val ext_D ext_F in
  let adjusted_val := misa_dependency adjusted_val ext_Q ext_D in
  let adjusted_val := misa_dependency adjusted_val ext_V ext_D in
  let prev_h := z2b (old_misa .& misa_bit ext_H) in
  let new_misa := (adjusted_val .& misa_write_mask) .| (old_misa &~ misa_write_mask) in
  let new_h := z2b (new_misa .& misa_bit ext_H) in
  let h := misa_update_extensions new_misa h in
  let h := if negb new_h && prev_h then misa_disable_h h else h in
  (true, basic_write CSR_MISA new_misa h).

(** * Environment configuration *)

Definition envcfg_write (addr mask : Z) (read : Z) (val : Z) (h : hart) : hart :=
  let cbie_reserved := 2 in
  let adjusted_val := if negb (get_field val MENVCFG_CBIE =? cbie_reserved) then val
                      else set_field val MENVCFG_CBIE 0 in
  let pmm_reserved := 1 in
  let pmm := get_field adjusted_val MENVCFG_PMM in
  let adjusted_val := set_field adjusted_val MENVCFG_PMM (if negb (pmm =? pmm_reserved) then pmm else 0) in
  let h := if negb (get_field adjusted_val MENVCFG_PMM =? get_field read MENVCFG_PMM)
           then flush_tlb h else h in
  basic_write addr ((read &~ mask) .| (adjusted_val .& mask)) h.

Definition henvcfg_write (cmask val : Z) (h : hart) : hart :=
  let mask := menvcfg_read h
    .| unot64 (MENVCFG_PBMTE .| MENVCFG_STCE .| MENVCFG_ADUE .| MENVCFG_DTE .| MENVCFG_SSE) in
  envcfg_write CSR_HENVCFG cmask (henvcfg_read h)
    ((csr_raw h CSR_HENVCFG &~ mask) .| (val .& mask)) h.

Definition senvcfg_write (cmask val : Z) (h : hart) : hart :=
  let envcfg := if v h then henvcfg_read h else menvcfg_read h in
  let mask := envcfg .| unot64 MENVCFG_SSE in
  envcfg_write CSR_SENVCFG cmask (senvcfg_read h)
    ((csr_raw h CSR_SENVCFG &~ mask) .| (val .& mask)) h.

(** * Address translation registers *)

Definition satp_valid (val : Z) : bool :=
  if xlen =? 32 then
    let mode := get_field val SATP32_MODE in
    if mode =? SATP_MODE_SV32 then supports_impl IMPL_MMU_SV32
    else mode =? SATP_MODE_OFF
  else
    let mode := get_field val SATP64_MODE in
    if mode =? SATP_MODE_SV39 then supports_impl IMPL_MMU_SV39
    else if mode =? SATP_MODE_SV48 then supports_impl IMPL_MMU_SV48
    else if mode =? SATP_MODE_SV57 then supports_impl IMPL_MMU_SV57
    else mode =? SATP_MODE_OFF.

Definition compute_new_satp (old val : Z) : Z :=
  let rv64_ppn_mask := u64 (Z.shiftl 1 (paddr_bits - PGSHIFT)) - 1 in
  let mode_mask := if xlen =? 32 then SATP32_MODE else SATP64_MODE in
  let asid_mask_if_enabled := if xlen =? 32 then SATP32_ASID else SATP64_ASID in
  let asid_mask := opt (supports_impl IMPL_MMU_ASID) asid_mask_if_enabled in
  let ppn_mask := if xlen =? 32 then SATP32_PPN else SATP64_PPN .& rv64_ppn_mask in
  let new_mask := opt (satp_valid val) mode_mask .| asid_mask .| ppn_mask in
  let old_mask := if satp_valid val then 0 else mode_mask in
  (new_mask .& val) .| (old_mask .& old).

Definition base_atp_write (addr val : Z) (h : hart) : hart :=
  let old := csr_raw h addr in
  let newval := if supports_impl IMPL_MMU then compute_new_satp old val else 0 in
  basic_write addr newval (if negb (newval =? old) then flush_tlb h else h).

Definition satp_readvirt (h : hart) (virt : bool) : Z :=
  if virt then csr_raw h CSR_VSATP else csr_raw h CSR_SATP.

Definition hgatp_write (val : Z) (h : hart) : hart :=
  let h := flush_tlb h in
  let mask :=
    if xlen =? 32 then HGATP32_PPN .| HGATP32_MODE .| opt (supports_impl IMPL_MMU_VMID) HGATP32_VMID
    else
      let mask := (HGATP64_PPN .& (u64 (Z.shiftl 1 (paddr_bits - PGSHIFT)) - 1))
                  .| opt (supports_impl IMPL_MMU_VMID) HGATP64_VMID in
      let mode := get_field val HGATP64_MODE in
      if (mode =? HGATP_MODE_OFF) ||
         (supports_impl IMPL_MMU_SV39 && (mode =? HGATP_MODE_SV39X4)) ||
         (supports_impl IMPL_MMU_SV48 && (mode =? HGATP_MODE_SV48X4)) ||
         (supports_impl IMPL_MMU_SV57 && (mode =? HGATP_MODE_SV57X4))
      then mask .| HGATP64_MODE else mask in
  let mask := mask &~ 3 in
  masked_write CSR_HGATP mask val h.

(** * Counters *)

(** [assert(!written)]. *)
Definition wide_counter_write (addr val : Z) : M bool :=
  let* h := get_hart in
  assert (negb (default false (counter_written h !! addr))) ;;
  modify (fun h => basic_write addr val (set_counter_written (<[addr := true]> (counter_written h)) h)) ;;
  ret true.

Definition smcntrpmf_read_prev (config_csr : Z) (h : hart) : Z :=
  default (csr_raw h config_csr) (prev_val h !! config_csr).

Definition is_counting_enabled (config_csr : Z) (h : hart) : bool :=
  let p := if prv_changed h then prev_prv h else prv h in
  let virt := if v_changed h then prev_v h else v h in
  let mask := if p =? PRV_S then (if virt then MHPMEVENT_VSINH else MHPMEVENT_SINH)
              else if p =? PRV_U then (if virt then MHPMEVENT_VUINH else MHPMEVENT_UINH)
              else MHPMEVENT_MINH in
  smcntrpmf_read_prev config_csr h .& mask =? 0.

Definition wide_counter_bump (addr config_csr howmuch : Z) : M unit :=
  let* h := get_hart in
  (if default false (counter_written h !! addr) then
     assert (howmuch <=? 1) ;;
     modify (fun h => set_counter_written (<[addr := false]> (counter_written h)) h)
   else if is_counting_enabled config_csr h then
     modify (fun h => basic_write addr (u64 (csr_raw h addr + howmuch)) h)
   else ret tt) ;;
  modify (fun h => set_prev_val (delete config_csr (prev_val h)) h).

Definition time_read (h : hart) : Z :=
  if v h then u64 (csr_raw h CSR_TIME + csr_raw h CSR_HTIMEDELTA) else csr_raw h CSR_TIME.

Definition time_sync (val : Z) (h : hart) : hart :=
  let h := basic_write CSR_TIME val h in
  if extension_enabled h EXT_SSTC then
    let shadow_val := csr_raw h CSR_TIME in
    let mip_val := opt (csr_raw h CSR_STIMECMP <=? shadow_val) MIP_STIP
      .| opt (csr_raw h CSR_VSTIMECMP <=? u64 (shadow_val + csr_raw h CSR_HTIMEDELTA)) MIP_VSTIP in
    let mask := opt (z2b (menvcfg_read h .& MENVCFG_STCE)) MIP_STIP
                .| opt (z2b (henvcfg_read h .& HENVCFG_STCE)) MIP_VSTIP in
    mip_backdoor_write_with_mask mask mip_val h
  else h.

Definition stimecmp_write (addr intr_mask val : Z) (h : hart) : hart :=
  let mask := opt (z2b (menvcfg_read h .& MENVCFG_STCE)) MIP_STIP
              .| opt (z2b (henvcfg_read h .& HENVCFG_STCE)) MIP_VSTIP in
  basic_write addr val
    (mip_backdoor_write_with_mask mask (if val <=? time_read h then intr_mask else 0) h).

Definition scountovf_read (h : hart) : Z :=
  let val := fold_left (fun val i =>
      let overflow := z2b (csr_raw h (CSR_MHPMEVENT3 + i) .& MHPMEVENT_OF) in
      val .| u64 (i32 (Z.shiftl (b2z overflow) (i + FIRST_HPMCOUNTER)))) (zseq N_HPMCOUNTERS) 0 in
  let val := val .& csr_raw h CSR_MCOUNTEREN in
  if v h then val .& csr_raw h CSR_HCOUNTEREN else val.

(** * State enable *)

Definition mstateen_read (h : hart) (i : Z) : Z := csr_raw h (CSR_MSTATEEN0 + i).
Definition hstateen_read (h : hart) (i : Z) : Z := csr_raw h (CSR_HSTATEEN0 + i) .& mstateen_read h i.
Definition sstateen_read (h : hart) (i : Z) : Z :=
  let r := csr_raw h (CSR_SSTATEEN0 + i) .& mstateen_read h i in
  if v h then r .& hstateen_read h i else r.

(** [hstateen_csr_t::unlogged_write] on the object at [addr]. *)
Definition hstateen_write (addr cmask i val : Z) (h : hart) : hart :=
  masked_write addr (cmask .& mstateen_read h i) val h.

Definition sstateen_write (cmask i val : Z) (h : hart) : hart :=
  hstateen_write (CSR_SSTATEEN0 + i) cmask i (if v h then val .& hstateen_read h i else val) h.

(** * dcsr *)

Definition dcsr_read (h : hart) : Z :=
  let d := dcsr h in
  let result := 0 in
  let result := set_field result DCSR_XDEBUGVER 4 in
  let result := set_field result DCSR_EBREAKM (b2z (dcsr_ebreakm d)) in
  let result := set_field result DCSR_EBREAKS (b2z (dcsr_ebreaks d)) in
  let result := set_field result DCSR_EBREAKU (b2z (dcsr_ebreaku d)) in
  let result := set_field result CSR_DCSR_EBREAKVS (b2z (dcsr_ebreakvs d)) in
  let result := set_field result CSR_DCSR_EBREAKVU (b2z (dcsr_ebreakvu d)) in
  let result := set_field result DCSR_STOPCOUNT 0 in
  let result := set_field result DCSR_STOPTIME 0 in
  let result := set_field result DCSR_CAUSE (dcsr_cause d) in
  let result := set_field result DCSR_EXTCAUSE (dcsr_ext_cause d) in
  let result := if extension_enabled h EXT_SMDBLTRP
                then set_field result DCSR_CETRIG (b2z (dcsr_cetrig d)) else result in
  let result := set_field result DCSR_STEP (b2z (dcsr_step d)) in
  let result := set_field result DCSR_PRV (dcsr_prv d) in
  let result := set_field result CSR_DCSR_V (b2z (dcsr_v d)) in
  let result := set_field result DCSR_MPRVEN (b2z (dcsr_mprven d)) in
  set_field result DCSR_PELP (elp_z (dcsr_pelp d)).

Definition dcsr_write (val : Z) (h : hart) : hart :=
  let d := dcsr h in
  let bool_field m := z2b (get_field val m) in
  set_dcsr {|
    dcsr_prv := get_field val DCSR_PRV;
    dcsr_step := bool_field DCSR_STEP;
    dcsr_ebreakm := bool_field DCSR_EBREAKM;
    dcsr_ebreaks := extension_enabled h ext_S && bool_field DCSR_EBREAKS;
    dcsr_ebreaku := extension_enabled h ext_U && bool_field DCSR_EBREAKU;
    dcsr_ebreakvs := extension_enabled h ext_H && bool_field CSR_DCSR_EBREAKVS;
    dcsr_ebreakvu := extension_enabled h ext_H && bool_field CSR_DCSR_EBREAKVU;
    dcsr_v := extension_enabled h ext_H && bool_field CSR_DCSR_V;
    dcsr_mprven := bool_field CSR_DCSR_MPRVEN;
    dcsr_cause := dcsr_cause d;
    dcsr_ext_cause := dcsr_ext_cause d;
    dcsr_pelp := if extension_enabled h EXT_ZICFILP then elp_of_z (get_field val DCSR_PELP)
                 else NO_LP_EXPECTED;
    dcsr_cetrig := extension_enabled h EXT_SMDBLTRP && bool_field DCSR_CETRIG
  |} h.

Definition dcsr_update_fields (cause ext_cause p : Z) (virt : bool) (pelp : elp_t) (h : hart) : hart :=
  let d := dcsr h in
  set_dcsr {|
    dcsr_prv := p; dcsr_step := dcsr_step d; dcsr_ebreakm := dcsr_ebreakm d;
    dcsr_ebreaks := dcsr_ebreaks d; dcsr_ebreaku := dcsr_ebreaku d; dcsr_ebreakvs := dcsr_ebreakvs d;
    dcsr_ebreakvu := dcsr_ebreakvu d; dcsr_v := virt; dcsr_mprven := dcsr_mprven d;
    dcsr_cause := cause; dcsr_ext_cause := ext_cause; dcsr_cetrig := dcsr_cetrig d; dcsr_pelp := pelp
  |} h.

(** The effects of a device access on the hart that makes it. *)
Definition apply_effect (h : hart) (e : hart_effect) : hart :=
  match e with
  | Mip_backdoor mask val => mip_backdoor_write_with_mask mask val h
  | Time_sync val => time_sync val h
  end.
Definition apply_effects (es : list hart_effect) (h : hart) : hart := fold_left apply_effect es h.

(** What the trigger module sees of the hart. *)
Definition trigger_env_of (h : hart) : trigger_env :=
  mk_trigger_env (prv h) (v h) (prev_prv h) (prev_v h) (debug_mode h) (extension_enabled h)
    (mstatus_read h) (sstatus_read h) (vsstatus_read h) (satp_readvirt h (v h)) (csr_raw h).

Definition epc_read (h : hart) (addr : Z) : Z := csr_raw h addr .& pc_alignment_mask h.

Definition cause_read (h : hart) (addr : Z) : Z :=
  let val := csr_raw h addr in
  if xlen <? max_xlen
  then val .| u64 (Z.shiftl (Z.shiftr val (max_xlen - 1)) (xlen - 1)) else val.

(** * Reading *)

Fixpoint csr_read (c : csr_t) (h : hart) {struct c} : Z :=
  match c with
  | basic_csr a | tvec_csr a | masked_csr a _ | envcfg_csr a _ | base_atp_csr a | mevent_csr a
  | hypervisor_csr a | debug_mode_csr a | float_csr a _ | vector_csr a _ | stimecmp_csr a _
  | smcntrpmf_csr a _ | siselect_csr a | aia_csr a _ | wide_counter_csr a _ => csr_raw h a
  | pmpaddr_csr i => pmpaddr_read h i
  | pmpcfg_csr a => pmpcfg_read h a
  | mseccfg_csr => mseccfg_read h
  | virtualized_csr o w | virtualized_satp_csr o w | virtualized_with_special_permission_csr o w
  | virtualized_indirect_csr o w => if v h then csr_read w h else csr_read o h
  | epc_csr a => epc_read h a
  | dpc_csr => epc_read h CSR_DPC
  | cause_csr a => cause_read h a
  | mstatus_csr => mstatus_read h
  | vsstatus_csr => vsstatus_read h
  | sstatus_proxy_csr => sstatus_proxy_read h
  | sstatus_csr => sstatus_read h
  | mnstatus_csr => mnstatus_read h
  | rv32_low_csr _ o => u32 (csr_read o h)
  | rv32_high_csr _ o | aia_rv32_high_csr _ o => u32 (Z.shiftr (csr_read o h) 32)
  | misa_csr => csr_raw h CSR_MISA
  | mip_csr => mip_read h
  | mie_csr => mie_read h
  | mip_proxy_csr _ a => ip_read a h
  | mie_proxy_csr _ a => ie_read a h
  | sip_csr => sip_read h
  | sie_csr => sie_read h
  | mideleg_csr => mideleg_read h
  | medeleg_csr => medeleg_read h
  | henvcfg_csr _ => henvcfg_read h
  | senvcfg_csr _ => senvcfg_read h
  | satp_csr => csr_raw h CSR_SATP
  | time_counter_csr => time_read h
  | proxy_csr _ d | counter_proxy_csr _ d => csr_read d h
  | const_csr _ x => x
  | mtval2_csr => csr_raw h CSR_MTVAL2
  | hideleg_csr => hideleg_read h
  | hgatp_csr => csr_raw h CSR_HGATP
  | hstatus_csr => hstatus_read h
  | tselect_csr => csr_raw h CSR_TSELECT
  | tdata1_csr => tdata1_read (trigger_env_of h) (tm h) (csr_raw h CSR_TSELECT)
  | tdata2_csr => tdata2_read (trigger_env_of h) (tm h) (csr_raw h CSR_TSELECT)
  | tdata3_csr => tdata3_read (trigger_env_of h) (tm h) (csr_raw h CSR_TSELECT)
  | tinfo_csr => tinfo_read (trigger_env_of h) (tm h) (csr_raw h CSR_TSELECT)
  | dcsr_csr => dcsr_read h
  | composite_csr _ up lo lsb => u64 (Z.shiftl (csr_read up h) lsb) .| csr_read lo h
  | seed_csr => seed_value
  | vxsat_csr => csr_raw h CSR_VXSAT
  | hstateen_csr _ i => hstateen_read h i
  | sstateen_csr _ i => sstateen_read h i
  | scountovf_csr => scountovf_read h
  | jvt_csr => csr_raw h CSR_JVT
  | sscsrind_reg_csr _ isel proxies =>
      let i := csr_read isel h in
      (fix find l := match l with
                     | [] => 0
                     | (k, Some t) :: l => if k =? i then csr_read t h else find l
                     | (k, None) :: l => if k =? i then 0 else find l
                     end) proxies
  | srmcfg_csr _ => csr_raw h CSR_SRMCFG
  | hvip_csr => hvip_read h
  | ssp_csr _ => csr_raw h CSR_SSP
  | scntinhibit_csr => csr_raw h CSR_MCOUNTEREN .& csr_raw h CSR_MCOUNTINHIBIT
  | mtopi_csr => mtopi_read h
  | mvip_csr => mvip_read h
  | nonvirtual_stopi_csr => nonvirtual_stopi_read h
  | inaccessible_csr _ => 0
  | vstopi_csr => vstopi_read h
  | simpoint_csr => 0
  end.


(** * Permissions

    [Val tt] is an access allowed, [Exc] the exception thrown. *)

Definition perm : Type := outcome unit.
Definition allowed : perm := Val tt.
Definition illegal (insn : insn_t) : perm := Exc (Trap (trap_illegal_instruction insn)).
Definition virtual_insn (insn : insn_t) : perm := Exc (Trap (trap_virtual_instruction insn)).
Definition check (bad : bool) (p : perm) : perm := if bad then p else allowed.
Definition andthen (p q : perm) : perm := match p with Val _ => q | Exc e => Exc e end.
Local Infix "&>>" := andthen (at level 60, right associativity).

Definition csr_t_verify_permissions (addr : Z) (h : hart) (insn : insn_t) (write : bool) : perm :=
  let csr_priv := get_field addr 0x300 in
  let csr_read_only := get_field addr 0xC00 =? 3 in
  let priv := if (prv h =? PRV_S) && negb (v h) then PRV_HS else prv h in
  if ((csr_priv =? PRV_S) && negb (extension_enabled h ext_S)) ||
     ((csr_priv =? PRV_HS) && negb (extension_enabled h ext_H))
  then illegal insn
  else if write && csr_read_only then illegal insn
  else if priv <? csr_priv then
    if v h && (csr_priv <=? PRV_HS) then virtual_insn insn else illegal insn
  else allowed.

(** The Smstateen checks repeated in several classes, on bit [bit]. *)
Definition mstateen_check (h : hart) (insn : insn_t) (bit : Z) : perm :=
  check ((prv h <? PRV_M) && negb (z2b (mstateen_read h 0 .& bit))) (illegal insn).
Definition hstateen_check (h : hart) (insn : insn_t) (bit : Z) : perm :=
  check (v h && negb (z2b (hstateen_read h 0 .& bit))) (virtual_insn insn).
Definition sstateen_check (h : hart) (insn : insn_t) (bit : Z) : perm :=
  check (extension_enabled h ext_S && (prv h <? PRV_S) && negb (z2b (sstateen_read h 0 .& bit)))
        (if v h then virtual_insn insn else illegal insn).
Definition stateen_checks (h : hart) (insn : insn_t) (bit : Z) : perm :=
  if extension_enabled h EXT_SMSTATEEN
  then mstateen_check h insn bit &>> hstateen_check h insn bit else allowed.

Definition myenable (addr counteren : Z) : bool := Z.testbit counteren (addr .& 31).

Definition counter_checks (addr : Z) (h : hart) (insn : insn_t) : perm :=
  let mctr_ok := if prv h <? PRV_M then myenable addr (csr_raw h CSR_MCOUNTEREN) else true in
  let hctr_ok := if v h then myenable addr (csr_raw h CSR_HCOUNTEREN) else true in
  let sctr_ok := if extension_enabled h ext_S && (prv h <? PRV_S)
                 then myenable addr (csr_raw h CSR_SCOUNTEREN) else true in
  check (negb mctr_ok) (illegal insn) &>>
  check (negb hctr_ok) (virtual_insn insn) &>>
  check (negb sctr_ok) (if v h then virtual_insn insn else illegal insn).

(** sip and sie from VS-mode with hvictl.VTI set. *)
Definition vti_check (h : hart) (insn : insn_t) : perm :=
  check (extension_enabled_const h EXT_SSAIA && extension_enabled h ext_H &&
         z2b (hvictl_read h .& HVICTL_VTI) && extension_enabled h ext_S && v h) (virtual_insn insn).

Definition float_checks (h : hart) (insn : insn_t) : perm :=
  check (negb ((extension_enabled h ext_F && sstatus_enabled h SSTATUS_FS) || extension_enabled h EXT_ZFINX))
        (illegal insn) &>>
  if extension_enabled h EXT_SMSTATEEN && extension_enabled h EXT_ZFINX then
    mstateen_check h insn MSTATEEN0_FCSR &>>
    hstateen_check h insn HSTATEEN0_FCSR &>>
    sstateen_check h insn SSTATEEN0_FCSR
  else allowed.

(** The checks of [require_envcfg(SSE)]. *)
Definition envcfg_sse_checks (h : hart) (insn : insn_t) : perm :=
  let mSSE := get_field (menvcfg_read h) MENVCFG_SSE in
  let sSSE := get_field (senvcfg_read h) SENVCFG_SSE in
  let hSSE := get_field (henvcfg_read h) HENVCFG_SSE in
  if (negb (prv h =? PRV_M) && (mSSE =? 0)) || ((prv h =? PRV_U) && negb (v h) && (sSSE =? 0))
  then illegal insn
  else if v h && ((hSSE =? 0) || ((prv h =? PRV_U) && (sSSE =? 0))) then virtual_insn insn
  else allowed.

(** [time_proxy] is null without Zicntr: the call is then undefined. *)
Definition time_proxy_checks (h : hart) (insn : insn_t) : perm :=
  if ee0 EXT_ZICNTR then csr_t_verify_permissions CSR_TIME h insn false &>> counter_checks CSR_TIME h insn
  else Exc Abort.

Definition cde_off (h : hart) : bool := negb (menvcfg_read h .& MENVCFG_CDE =? MENVCFG_CDE).

Definition SISELECT_SMCDELEG_START : Z := 0x40.
Definition SISELECT_SMCDELEG_INSTRET : Z := 0x42.
Definition SISELECT_SMCDELEG_INSTRETCFG : Z := 0x42.
Definition SISELECT_SMCDELEG_HPMCOUNTER_3 : Z := 0x43.
Definition SISELECT_SMCDELEG_HPMEVENT_3 : Z := 0x43.
Definition SISELECT_SMCDELEG_END : Z := 0x5f.

(** The checks of [sscsrind_reg_csr_t] before its target's. *)
Definition sscsrind_checks (addr iselect : Z) (h : hart) (insn : insn_t) (write : bool) : perm :=
  let stateen := extension_enabled h EXT_SMSTATEEN in
  let which := Insn.csr insn in
  (if stateen then mstateen_check h insn MSTATEEN0_CSRIND else allowed) &>>
  (if which =? addr then csr_t_verify_permissions addr h insn write else allowed) &>>
  (if stateen then hstateen_check h insn HSTATEEN0_CSRIND else allowed) &>>
  if extension_enabled h EXT_SMCDELEG then
    (if (CSR_VSIREG <=? which) && (which <=? CSR_VSIREG6) then
       if negb (v h) then illegal insn
       else if prv h =? PRV_S then (if cde_off h then illegal insn else virtual_insn insn)
       else virtual_insn insn
     else allowed) &>>
    (if (CSR_SIREG <=? which) && (which <=? CSR_SIREG6) then
       if cde_off h then
         if negb (v h) then illegal insn
         else if prv h =? PRV_S then illegal insn else virtual_insn insn
       else
         if v h then virtual_insn insn
         else if (SISELECT_SMCDELEG_START <=? iselect) && (iselect <=? SISELECT_SMCDELEG_END) then
           let counter_id_offset := iselect - SISELECT_SMCDELEG_START in
           check (negb (z2b (csr_raw h CSR_MCOUNTEREN .& u32 (Z.shiftl 1 counter_id_offset))))
                 (if negb (v h) then illegal insn else virtual_insn insn)
         else allowed
     else allowed)
  else allowed.

Fixpoint csr_verify_permissions (c : csr_t) (h : hart) (insn : insn_t) (write : bool) {struct c} : perm :=
  let base := csr_t_verify_permissions (csr_address c) h insn write in
  match c with
  | pmpaddr_csr _ | pmpcfg_csr _ => base &>> check (n_pmp =? 0) (illegal insn)
  | mseccfg_csr =>
      base &>> check (negb (extension_enabled h EXT_SMEPMP) && negb (extension_enabled h EXT_SMMPM) &&
                      negb (extension_enabled h EXT_ZICFILP) && negb (extension_enabled h EXT_ZKR)) (illegal insn)
  | rv32_low_csr _ o | rv32_high_csr _ o => csr_verify_permissions o h insn write
  | aia_rv32_high_csr _ o =>
      stateen_checks h insn MSTATEEN0_AIA &>> csr_verify_permissions o h insn write
  | mip_proxy_csr _ _ | sip_csr | mie_proxy_csr _ _ | sie_csr => base &>> vti_check h insn
  | mideleg_csr | medeleg_csr => base &>> check (negb (extension_enabled h ext_S)) (illegal insn)
  | satp_csr =>
      base &>> check (z2b (get_field (mstatus_read h) MSTATUS_TVM) && negb (prv h =? PRV_M)) (illegal insn)
  | virtualized_satp_csr o _ =>
      base &>> if v h then check (z2b (get_field (hstatus_read h) HSTATUS_VTVM)) (virtual_insn insn)
               else csr_verify_permissions o h insn write
  | virtualized_with_special_permission_csr o _ => csr_verify_permissions o h insn write
  | virtualized_indirect_csr o w =>
      base &>> if v h then csr_verify_permissions w h insn write else csr_verify_permissions o h insn write
  | counter_proxy_csr a _ => base &>> counter_checks a h insn
  | hypervisor_csr _ => base &>> check (negb (extension_enabled h ext_H)) (illegal insn)
  | mtval2_csr =>
      base &>> check (negb (extension_enabled h ext_H) && negb (extension_enabled h EXT_SSDBLTRP)) (illegal insn)
  | hgatp_csr =>
      base &>> check (negb (v h) && z2b (get_field (mstatus_read h) MSTATUS_TVM) && negb (PRV_M <=? prv h))
                     (illegal insn)
  | debug_mode_csr _ | dpc_csr | dcsr_csr => base &>> check (negb (debug_mode h)) (illegal insn)
  | float_csr _ _ => base &>> float_checks h insn
  | composite_csr _ up _ _ => csr_verify_permissions up h insn write
  | seed_csr =>
      check (negb (extension_enabled h EXT_ZKR) || negb write) (illegal insn) &>> base &>>
      if v h then (if get_sseed h && write then virtual_insn insn else illegal insn)
      else check (((prv h =? PRV_U) && negb (get_useed h)) || ((prv h =? PRV_S) && negb (get_sseed h)))
                 (illegal insn)
  | vector_csr _ _ | vxsat_csr =>
      check (negb (any_vector_extensions && sstatus_enabled h SSTATUS_VS)) (illegal insn) &>> base
  | hstateen_csr _ i =>
      check ((prv h <? PRV_M) && negb (z2b (mstateen_read h i .& MSTATEEN_HSTATEEN))) (illegal insn) &>> base
  | sstateen_csr _ i =>
      check ((prv h <? PRV_M) && negb (z2b (mstateen_read h i .& MSTATEEN_HSTATEEN))) (illegal insn) &>> base
      &>> check (v h && negb (z2b (hstateen_read h i .& HSTATEEN_SSTATEEN))) (virtual_insn insn)
  | senvcfg_csr _ =>
      (if extension_enabled h EXT_SMSTATEEN
       then mstateen_check h insn MSTATEEN0_HENVCFG &>> hstateen_check h insn HSTATEEN0_SENVCFG
       else allowed) &>> base
  | henvcfg_csr _ =>
      (if extension_enabled h EXT_SMSTATEEN then mstateen_check h insn MSTATEEN0_HENVCFG else allowed) &>> base
  | stimecmp_csr _ _ =>
      check (negb (z2b (menvcfg_read h .& MENVCFG_STCE)) && (prv h <? PRV_M)) (illegal insn) &>>
      time_proxy_checks h insn &>>
      check (v h && negb (z2b (henvcfg_read h .& HENVCFG_STCE))) (virtual_insn insn) &>>
      base &>>
      check (extension_enabled_const h EXT_SSAIA && extension_enabled h ext_H &&
             z2b (hvictl_read h .& HVICTL_VTI) && v h && write) (virtual_insn insn)
  | scountovf_csr =>
      check (negb (extension_enabled h EXT_SSCOFPMF)) (illegal insn) &>>
      check (extension_enabled h ext_H &&
             (extension_enabled_const h EXT_SMCDELEG || extension_enabled h EXT_SSCCFG) &&
             v h && z2b (menvcfg_read h .& MENVCFG_CDE)) (virtual_insn insn) &>> base
  | jvt_csr =>
      base &>> check (negb (extension_enabled h EXT_ZCMT)) (illegal insn) &>>
      if extension_enabled h EXT_SMSTATEEN then
        mstateen_check h insn SSTATEEN0_JVT &>> hstateen_check h insn SSTATEEN0_JVT &>>
        sstateen_check h insn SSTATEEN0_JVT
      else allowed
  | sscsrind_reg_csr a isel proxies =>
      let i := csr_read isel h in
      sscsrind_checks a i h insn write &>>
      let missing := if negb (v h) then illegal insn else virtual_insn insn in
      (fix find l := match l with
                     | [] => missing
                     | (k, Some t) :: l => if k =? i then csr_verify_permissions t h insn write else find l
                     | (k, None) :: l => if k =? i then missing else find l
                     end) proxies
  | srmcfg_csr _ =>
      check (negb (extension_enabled h EXT_SSQOSID)) (illegal insn) &>>
      (if extension_enabled h EXT_SMSTATEEN then mstateen_check h insn MSTATEEN0_PRIV114 else allowed) &>>
      check (v h) (virtual_insn insn) &>> check (prv h <? PRV_S) (illegal insn)
  | ssp_csr _ => base &>> envcfg_sse_checks h insn
  | scntinhibit_csr =>
      (if Insn.csr insn =? CSR_SCOUNTINHIBIT then base else allowed) &>> check (cde_off h) (illegal insn)
  | nonvirtual_stopi_csr | vstopi_csr | aia_csr _ _ => stateen_checks h insn MSTATEEN0_AIA &>> base
  | siselect_csr _ => stateen_checks h insn MSTATEEN0_CSRIND &>> base
  | inaccessible_csr _ => if v h then virtual_insn insn else illegal insn
  | _ => base
  end.

(** * Writing *)

Definition write_ok (f : hart -> hart) : M bool := modify f ;; ret true.
Definition write_alias (f : hart -> hart) : M bool := modify f ;; ret false.
Definition write_result (f : hart -> bool * hart) : M bool :=
  fun h => let '(b, h') := f h in (Val b, h').

(** [processor_t::trigger_updated]. *)
Definition trigger_updated (h : hart) : hart :=
  let h := flush_tlb h in
  let t := tm h in
  let m := set_check_triggers_store (any_store t) (set_check_triggers_load (any_load t)
             (set_check_triggers_fetch (any_execute t) (mmu h))) in
  set_check_triggers_icount (any_icount t) (set_mmu m h).

Definition trigger_write (f : trigger_env -> trigger_state -> Z -> Z -> bool * trigger_state) (val : Z) : M bool :=
  fun h => let '(b, t) := f (trigger_env_of h) (tm h) (csr_raw h CSR_TSELECT) val in
           (Val b, if b then trigger_updated (set_tm t h) else set_tm t h).

Fixpoint csr_unlogged_write (c : csr_t) (val : Z) {struct c} : M bool :=
  match c with
  | basic_csr a | cause_csr a | hypervisor_csr a | debug_mode_csr a | siselect_csr a =>
      write_ok (basic_write a val)
  | mtval2_csr => write_ok (basic_write CSR_MTVAL2 val)
  | jvt_csr => write_ok (basic_write CSR_JVT val)
  | pmpaddr_csr i => write_result (pmpaddr_unlogged_write i val)
  | pmpcfg_csr a => write_result (pmpcfg_unlogged_write a val)
  | mseccfg_csr => write_result (mseccfg_unlogged_write val)
  | virtualized_csr o w | virtualized_with_special_permission_csr o w | virtualized_indirect_csr o w =>
      let* h := get_hart in
      (if v h then csr_unlogged_write w val else csr_unlogged_write o val) ;; ret false
  | virtualized_satp_csr o w =>
      let* h := get_hart in
      let newval := if satp_valid val then val else satp_readvirt h (v h) in
      (if v h then csr_unlogged_write w newval else csr_unlogged_write o newval) ;; ret false
  | epc_csr a => write_ok (basic_write a (val &~ 1))
  | dpc_csr => write_ok (basic_write CSR_DPC (val &~ 1))
  | tvec_csr a => write_ok (basic_write a (val &~ 2))
  | mstatus_csr => write_ok (mstatus_write val)
  | vsstatus_csr => write_ok (vsstatus_write val)
  | sstatus_proxy_csr => write_alias (sstatus_proxy_write val)
  | sstatus_csr => write_alias (sstatus_write val)
  | mnstatus_csr => write_ok (mnstatus_write val)
  | rv32_low_csr _ o =>
      let* h := get_hart in
      csr_unlogged_write o (Z.shiftl (Z.shiftr (csr_read o h) 32) 32 .| u32 val)
  | rv32_high_csr _ o | aia_rv32_high_csr _ o =>
      let* h := get_hart in
      csr_unlogged_write o (Z.shiftr (u64 (Z.shiftl (csr_read o h) 32)) 32 .| Z.shiftl (u32 val) 32)
  | misa_csr => write_result (misa_write val)
  | mip_csr => write_alias (fun h => mip_write_with_mask (mip_write_mask h) val h)
  | mie_csr => write_alias (fun h => mie_write_with_mask (mie_write_mask h) val h)
  | mip_proxy_csr _ a => write_alias (ip_write a val)
  | mie_proxy_csr _ a => write_alias (ie_write a val)
  | sip_csr => write_alias (sip_write val)
  | sie_csr => write_ok (sie_write val)
  | mideleg_csr => write_ok (mideleg_write val)
  | medeleg_csr => write_ok (medeleg_write val)
  | masked_csr a m | aia_csr a m => write_ok (masked_write a m val)
  | srmcfg_csr m => write_ok (masked_write CSR_SRMCFG m val)
  | ssp_csr m => write_ok (masked_write CSR_SSP m val)
  | envcfg_csr a m => write_ok (fun h => envcfg_write a m (csr_raw h a) val h)
  | henvcfg_csr m => write_ok (henvcfg_write m val)
  | senvcfg_csr m => write_ok (senvcfg_write m val)
  | base_atp_csr a => write_ok (base_atp_write a val)
  | satp_csr => write_ok (base_atp_write CSR_SATP val)
  | wide_counter_csr a _ => wide_counter_write a val
  | proxy_csr _ d | counter_proxy_csr _ d => csr_unlogged_write d val ;; ret false
  | mevent_csr a => write_ok (mevent_write a val)
  | hideleg_csr =>
      write_ok (fun h => basic_write CSR_HIDELEG ((hideleg_read h &~ MIP_VS_MASK) .| (val .& MIP_VS_MASK)) h)
  | hgatp_csr => write_ok (hgatp_write val)
  | hstatus_csr => write_ok (hstatus_write val)
  | tselect_csr =>
      write_ok (fun h => basic_write CSR_TSELECT (if val <? trigger_count then val else csr_raw h CSR_TSELECT) h)
  | tdata1_csr => trigger_write tdata1_write val
  | tdata2_csr => trigger_write tdata2_write val
  | tdata3_csr => trigger_write tdata3_write val
  | dcsr_csr => write_ok (dcsr_write val)
  | float_csr a m =>
      let* h := get_hart in
      when (negb (extension_enabled h EXT_ZFINX)) dirty_fp_state ;;
      write_ok (masked_write a m val)
  | composite_csr _ up lo lsb =>
      csr_unlogged_write up (Z.shiftr val lsb) ;; csr_unlogged_write lo val ;; ret false
  | vector_csr a m =>
      if m =? 0 then ret false else dirty_vs_state ;; write_ok (basic_write a (val .& m))
  | vxsat_csr => dirty_vs_state ;; write_ok (masked_write CSR_VXSAT 1 val)
  | hstateen_csr m i => write_ok (hstateen_write (CSR_HSTATEEN0 + i) m i val)
  | sstateen_csr m i => write_ok (sstateen_write m i val)
  | stimecmp_csr a im => write_ok (stimecmp_write a im val)
  | sscsrind_reg_csr _ isel proxies =>
      let* h := get_hart in
      let i := csr_read isel h in
      (fix find l : M bool := match l with
                     | [] => ret false
                     | (k, Some t) :: l => if k =? i then csr_unlogged_write t val ;; ret false else find l
                     | (k, None) :: l => if k =? i then ret false else find l
                     end) proxies
  | smcntrpmf_csr a m =>
      write_ok (fun h => masked_write a m val (set_prev_val (<[a := csr_raw h a]> (prev_val h)) h))
  | hvip_csr => write_ok (hvip_write val)
  | mvip_csr => write_ok (mvip_write val)
  | scntinhibit_csr =>
      write_ok (fun h => masked_write CSR_MCOUNTINHIBIT
                  ((opt (ee0 EXT_ZICNTR) 7 .| opt (ee0 EXT_ZIHPM) 0xfffffff8) &~ MCOUNTEREN_TIME)
                  (csr_raw h CSR_MCOUNTEREN .& val) h)
  | seed_csr | simpoint_csr => ret true
  | time_counter_csr | const_csr _ _ | tinfo_csr | scountovf_csr | mtopi_csr | nonvirtual_stopi_csr
  | inaccessible_csr _ | vstopi_csr => ret false
  end.

Definition csr_write (c : csr_t) (val : Z) : M unit := csr_unlogged_write c val ;; ret tt.

End csr_file.
