(* ===== verification/CsrInit.v ===== *)
(** [state_t::csr_init] of [riscv/csr_init.cc]: which CSR object each number
    names, and the values the constructors leave.

    [csrmap] maps a number to a CSR object; [Some None] is an entry holding a
    null pointer, which [csrmap\[n\]] creates when [n] is absent. *)

From S2P Require Import Prelude IntArith Decode Encoding IsaExt Trap Hart Pmp Csr CsrFile.

Definition csrmap_t : Type := gmap Z (option csr_t).

(** [state_t::add_csr] and the macros around it; [ee] is
    [proc->extension_enabled]. *)
Definition add_csr (addr : Z) (c : csr_t) (m : csrmap_t) : csrmap_t := <[addr := Some c]> m.
Definition add_if (b : bool) (addr : Z) (c : csr_t) (m : csrmap_t) : csrmap_t :=
  if b then add_csr addr c m else m.

(** [csrmap\[n\]] as an rvalue: inserts a null pointer when absent. *)
Definition csrmap_index (n : Z) (m : csrmap_t) : option csr_t * csrmap_t :=
  match m !! n with Some o => (o, m) | None => (None, <[n := None]> m) end.

Section csr_init.
Context `{!config}.

Abbreviation ee := ee0.
Abbreviation is32 := (max_xlen =? 32).

Definition add_user_csr := add_if (ee ext_U).
Definition add_supervisor_csr := add_if (ee ext_S).
Definition add_hypervisor_csr := add_if (ee ext_H).

(** An object under its number, split in two halves on RV32. *)
Definition add_split (b : bool) (lo hi : Z) (c : csr_t) (m : csrmap_t) : csrmap_t :=
  if is32 then add_if b hi (rv32_high_csr hi c) (add_if b lo (rv32_low_csr lo c) m)
  else add_if b lo c m.

(** The same with [aia_rv32_high_csr_t] and only when [aia]. *)
Definition add_split_aia (aia b : bool) (lo hi : Z) (c : csr_t) (m : csrmap_t) : csrmap_t :=
  if is32 && aia then add_if b hi (aia_rv32_high_csr hi c) (add_if b lo (rv32_low_csr lo c) m)
  else add_if b lo c m.

Definition minstretcfg_mask : Z :=
  if negb (ee EXT_SMCNTRPMF) then 0
  else MHPMEVENT_MINH .| MHPMEVENT_SINH .| MHPMEVENT_UINH .| MHPMEVENT_VSINH .| MHPMEVENT_VUINH.
Definition minstretcfg : csr_t := smcntrpmf_csr CSR_MINSTRETCFG minstretcfg_mask.
Definition mcyclecfg : csr_t := smcntrpmf_csr CSR_MCYCLECFG minstretcfg_mask.
Definition minstret : csr_t := wide_counter_csr CSR_MINSTRET CSR_MINSTRETCFG.
Definition mcycle : csr_t := wide_counter_csr CSR_MCYCLE CSR_MCYCLECFG.

Definition init_machine (m : csrmap_t) : csrmap_t :=
  let m := add_csr CSR_MISA misa_csr m in
  let m := add_split true CSR_MSTATUS CSR_MSTATUSH mstatus_csr m in
  let m := add_csr CSR_MEPC (epc_csr CSR_MEPC) m in
  let m := add_csr CSR_MTVAL (basic_csr CSR_MTVAL) m in
  let m := add_csr CSR_MSCRATCH (basic_csr CSR_MSCRATCH) m in
  let m := add_csr CSR_MTVEC (tvec_csr CSR_MTVEC) m in
  add_csr CSR_MCAUSE (cause_csr CSR_MCAUSE) m.

Definition init_counters (m : csrmap_t) : csrmap_t :=
  let m := if ee EXT_ZICNTR then
      let m := add_csr CSR_INSTRET (counter_proxy_csr CSR_INSTRET minstret) m in
      let m := add_csr CSR_CYCLE (counter_proxy_csr CSR_CYCLE mcycle) m in
      add_csr CSR_TIME (counter_proxy_csr CSR_TIME time_counter_csr) m
    else m in
  let minstreth := rv32_high_csr CSR_MINSTRETH minstret in
  let mcycleh := rv32_high_csr CSR_MCYCLEH mcycle in
  if is32 then
    let m := add_csr CSR_MINSTRET (rv32_low_csr CSR_MINSTRET minstret) m in
    let m := add_csr CSR_MINSTRETH minstreth m in
    let m := add_csr CSR_MCYCLE (rv32_low_csr CSR_MCYCLE mcycle) m in
    let m := add_csr CSR_MCYCLEH mcycleh m in
    if ee EXT_ZICNTR then
      let timeh := rv32_high_csr CSR_TIMEH time_counter_csr in
      let m := add_csr CSR_INSTRETH (counter_proxy_csr CSR_INSTRETH minstreth) m in
      let m := add_csr CSR_CYCLEH (counter_proxy_csr CSR_CYCLEH mcycleh) m in
      add_csr CSR_TIMEH (counter_proxy_csr CSR_TIMEH timeh) m
    else m
  else add_csr CSR_MCYCLE mcycle (add_csr CSR_MINSTRET minstret m).

(** One iteration of the loop over the performance counters. *)
Definition init_hpmcounter (m : csrmap_t) (i : Z) : csrmap_t :=
  let which_mevent := CSR_MHPMEVENT3 + i in
  let which_meventh := CSR_MHPMEVENT3H + i in
  let which_mcounter := CSR_MHPMCOUNTER3 + i in
  let which_mcounterh := CSR_MHPMCOUNTER3H + i in
  let which_counter := CSR_HPMCOUNTER3 + i in
  let which_counterh := CSR_HPMCOUNTER3H + i in
  let mevent := mevent_csr which_mevent in
  let mcounter := const_csr which_mcounter 0 in
  let m := add_csr which_mcounter mcounter m in
  let m := add_if (ee EXT_ZIHPM) which_counter (counter_proxy_csr which_counter mcounter) m in
  if is32 then
    let m := add_csr which_mevent (rv32_low_csr which_mevent mevent) m in
    let mcounterh := const_csr which_mcounterh 0 in
    let m := add_csr which_mcounterh mcounterh m in
    let m := add_if (ee EXT_ZIHPM) which_counterh (counter_proxy_csr which_counterh mcounterh) m in
    add_if (ee EXT_SSCOFPMF) which_meventh (rv32_high_csr which_meventh mevent) m
  else add_csr which_mevent mevent m.

Definition init_interrupts (m : csrmap_t) : csrmap_t :=
  let m := add_if (ee EXT_SSCOFPMF) CSR_SCOUNTOVF scountovf_csr m in
  let m := if is32 && ee EXT_SMAIA then
      let m := add_csr CSR_MIE (rv32_low_csr CSR_MIE mie_csr) m in
      let m := add_csr CSR_MIEH (rv32_high_csr CSR_MIEH mie_csr) m in
      let m := add_csr CSR_MIP (rv32_low_csr CSR_MIP mip_csr) m in
      add_csr CSR_MIPH (rv32_high_csr CSR_MIPH mip_csr) m
    else add_csr CSR_MIP mip_csr (add_csr CSR_MIE mie_csr m) in
  let vsip := mip_proxy_csr CSR_VSIP vsip_vsie_accr in
  let sip := virtualized_csr sip_csr vsip in
  let m := add_split_aia (ee EXT_SSAIA) (ee ext_H) CSR_VSIP CSR_VSIPH vsip m in
  let m := add_split_aia (ee EXT_SSAIA) (ee ext_S) CSR_SIP CSR_SIPH sip m in
  let m := add_hypervisor_csr CSR_HIP (mip_proxy_csr CSR_HIP hip_hie_accr) m in
  let m := add_split_aia (ee EXT_SSAIA) (ee ext_H) CSR_HVIP CSR_HVIPH hvip_csr m in
  let vsie := mie_proxy_csr CSR_VSIE vsip_vsie_accr in
  let sie := virtualized_csr sie_csr vsie in
  let m := add_split_aia (ee EXT_SSAIA) (ee ext_H) CSR_VSIE CSR_VSIEH vsie m in
  let m := add_split_aia (ee EXT_SSAIA) (ee ext_S) CSR_SIE CSR_SIEH sie m in
  let m := add_hypervisor_csr CSR_HIE (mie_proxy_csr CSR_HIE hip_hie_accr) m in
  let m := add_supervisor_csr CSR_MEDELEG medeleg_csr m in
  add_split_aia (ee EXT_SMAIA) (ee ext_S) CSR_MIDELEG CSR_MIDELEGH mideleg_csr m.

Definition counteren_mask : Z :=
  opt (ee EXT_ZICNTR) 0x7 .| opt (ee EXT_ZIHPM) 0xfffffff8.

Definition hedeleg_mask : Z :=
  bit_of CAUSE_MISALIGNED_FETCH .| bit_of CAUSE_FETCH_ACCESS .| bit_of CAUSE_ILLEGAL_INSTRUCTION
  .| bit_of CAUSE_BREAKPOINT .| bit_of CAUSE_MISALIGNED_LOAD .| bit_of CAUSE_LOAD_ACCESS
  .| bit_of CAUSE_MISALIGNED_STORE .| bit_of CAUSE_STORE_ACCESS .| bit_of CAUSE_USER_ECALL
  .| bit_of CAUSE_FETCH_PAGE_FAULT .| bit_of CAUSE_LOAD_PAGE_FAULT .| bit_of CAUSE_STORE_PAGE_FAULT
  .| bit_of CAUSE_SOFTWARE_CHECK_FAULT .| bit_of CAUSE_HARDWARE_ERROR_FAULT.

Definition init_supervisor (m : csrmap_t) : csrmap_t :=
  let m := add_user_csr CSR_MCOUNTEREN (masked_csr CSR_MCOUNTEREN counteren_mask) m in
  let m := add_csr CSR_MCOUNTINHIBIT (masked_csr CSR_MCOUNTINHIBIT (counteren_mask &~ MCOUNTEREN_TIME)) m in
  let m := add_supervisor_csr CSR_SCOUNTEREN (masked_csr CSR_SCOUNTEREN counteren_mask) m in
  let virt orig vaddr mk m :=
    add_supervisor_csr orig (virtualized_csr (mk orig) (mk vaddr)) (add_hypervisor_csr vaddr (mk vaddr) m) in
  let m := virt CSR_SEPC CSR_VSEPC epc_csr m in
  let m := virt CSR_STVAL CSR_VSTVAL basic_csr m in
  let m := virt CSR_SSCRATCH CSR_VSSCRATCH basic_csr m in
  let m := virt CSR_STVEC CSR_VSTVEC tvec_csr m in
  let m := add_hypervisor_csr CSR_VSATP (base_atp_csr CSR_VSATP) m in
  let m := add_supervisor_csr CSR_SATP (virtualized_satp_csr satp_csr (base_atp_csr CSR_VSATP)) m in
  let m := virt CSR_SCAUSE CSR_VSCAUSE cause_csr m in
  let m := add_if (ee ext_H || ee EXT_SSDBLTRP) CSR_MTVAL2 mtval2_csr m in
  let m := add_hypervisor_csr CSR_MTINST (hypervisor_csr CSR_MTINST) m in
  let m := add_hypervisor_csr CSR_HSTATUS hstatus_csr m in
  let m := add_hypervisor_csr CSR_HGEIE (const_csr CSR_HGEIE 0) m in
  let m := add_hypervisor_csr CSR_HGEIP (const_csr CSR_HGEIP 0) m in
  let m := add_split_aia (ee EXT_SSAIA) (ee ext_H) CSR_HIDELEG CSR_HIDELEGH hideleg_csr m in
  let m := add_hypervisor_csr CSR_HEDELEG (masked_csr CSR_HEDELEG hedeleg_mask) m in
  let m := add_hypervisor_csr CSR_HCOUNTEREN (masked_csr CSR_HCOUNTEREN counteren_mask) m in
  let m := add_split (ee ext_H) CSR_HTIMEDELTA CSR_HTIMEDELTAH (basic_csr CSR_HTIMEDELTA) m in
  let m := add_hypervisor_csr CSR_HTVAL (basic_csr CSR_HTVAL) m in
  let m := add_hypervisor_csr CSR_HTINST (basic_csr CSR_HTINST) m in
  let m := add_hypervisor_csr CSR_HGATP hgatp_csr m in
  let m := add_hypervisor_csr CSR_VSSTATUS vsstatus_csr m in
  add_supervisor_csr CSR_SSTATUS sstatus_csr m.

Definition init_debug (m : csrmap_t) : csrmap_t :=
  let m := add_csr CSR_DPC dpc_csr m in
  let m := add_csr CSR_DSCRATCH0 (debug_mode_csr CSR_DSCRATCH0) m in
  let m := add_csr CSR_DSCRATCH1 (debug_mode_csr CSR_DSCRATCH1) m in
  let m := add_csr CSR_DCSR dcsr_csr m in
  let m := add_csr CSR_TSELECT tselect_csr m in
  let m := if 0 <? trigger_count then
      let m := add_csr CSR_TDATA1 tdata1_csr m in
      let m := add_csr CSR_TDATA2 tdata2_csr m in
      let m := add_csr CSR_TDATA3 tdata3_csr m in
      let m := add_csr CSR_TINFO tinfo_csr m in
      add_if (negb (ee ext_S)) CSR_TCONTROL
        (masked_csr CSR_TCONTROL (CSR_TCONTROL_MPTE .| CSR_TCONTROL_MTE)) m
    else
      let m := add_csr CSR_TDATA1 (const_csr CSR_TDATA1 0) m in
      let m := add_csr CSR_TDATA2 (const_csr CSR_TDATA2 0) m in
      let m := add_csr CSR_TDATA3 (const_csr CSR_TDATA3 0) m in
      add_csr CSR_TINFO (const_csr CSR_TINFO 0) m in
  let scontext_length := if is32 then 16 else 32 in
  let m := add_supervisor_csr CSR_SCONTEXT
             (masked_csr CSR_SCONTEXT (Z.shiftl 1 scontext_length - 1)) m in
  let hcontext_length := (if is32 then 6 else 13) + b2z (ee ext_H) in
  let hcontext := masked_csr CSR_HCONTEXT (Z.shiftl 1 hcontext_length - 1) in
  let m := add_hypervisor_csr CSR_HCONTEXT hcontext m in
  let m := add_csr CSR_MCONTEXT (proxy_csr CSR_MCONTEXT hcontext) m in
  let m := add_csr CSR_MSECCFG mseccfg_csr m in
  let m := fold_left (fun m i => add_csr (CSR_PMPADDR0 + i) (pmpaddr_csr i) m) (zseq max_pmp) m in
  fold_left (fun m k =>
      let i := k * (max_xlen / 8) in
      if i <? max_pmp then add_csr (CSR_PMPCFG0 + i / 4) (pmpcfg_csr (CSR_PMPCFG0 + i / 4)) m else m)
    (zseq max_pmp) m.

Definition fflags_csr : csr_t := float_csr CSR_FFLAGS FSR_AEXC.
Definition frm_csr : csr_t := float_csr CSR_FRM (Z.shiftr FSR_RD FSR_RD_SHIFT).

Definition menvcfg_mask : Z :=
  opt (ee EXT_ZICBOM) (MENVCFG_CBCFE .| MENVCFG_CBIE) .| opt (ee EXT_ZICBOZ) MENVCFG_CBZE
  .| opt (ee EXT_SMNPM) MENVCFG_PMM .| opt (ee EXT_SVADU) MENVCFG_ADUE
  .| opt (ee EXT_SVPBMT) MENVCFG_PBMTE .| opt (ee EXT_SSTC) MENVCFG_STCE
  .| opt (ee EXT_ZICFILP) MENVCFG_LPE .| opt (ee EXT_ZICFISS) MENVCFG_SSE
  .| opt (ee EXT_SSDBLTRP) MENVCFG_DTE .| opt (ee EXT_SMCDELEG) MENVCFG_CDE.

Definition senvcfg_mask : Z :=
  opt (ee EXT_ZICBOM) (SENVCFG_CBCFE .| SENVCFG_CBIE) .| opt (ee EXT_ZICBOZ) SENVCFG_CBZE
  .| opt (ee EXT_SSNPM) SENVCFG_PMM .| opt (ee EXT_ZICFILP) SENVCFG_LPE
  .| opt (ee EXT_ZICFISS) SENVCFG_SSE.

Definition henvcfg_mask : Z :=
  opt (ee EXT_ZICBOM) (HENVCFG_CBCFE .| HENVCFG_CBIE) .| opt (ee EXT_ZICBOZ) HENVCFG_CBZE
  .| opt (ee EXT_SSNPM) HENVCFG_PMM .| opt (ee EXT_SVADU) HENVCFG_ADUE
  .| opt (ee EXT_SVPBMT) HENVCFG_PBMTE .| opt (ee EXT_SSTC) HENVCFG_STCE
  .| opt (ee EXT_ZICFILP) HENVCFG_LPE .| opt (ee EXT_ZICFISS) HENVCFG_SSE
  .| opt (ee EXT_SSDBLTRP) HENVCFG_DTE.

Definition init_misc (m : csrmap_t) : csrmap_t :=
  let m := add_csr CSR_FFLAGS fflags_csr m in
  let m := add_csr CSR_FRM frm_csr m in
  let m := add_csr CSR_FCSR (composite_csr CSR_FCSR frm_csr fflags_csr FSR_RD_SHIFT) m in
  let m := add_if (ee EXT_ZKR) CSR_SEED seed_csr m in
  let m := add_csr CSR_MARCHID (const_csr CSR_MARCHID 5) m in
  let m := add_csr CSR_MIMPID (const_csr CSR_MIMPID 0) m in
  let m := add_csr CSR_MVENDORID (const_csr CSR_MVENDORID 0) m in
  let m := add_csr CSR_MHARTID (const_csr CSR_MHARTID hart_id) m in
  let m := add_csr CSR_MCONFIGPTR (const_csr CSR_MCONFIGPTR 0) m in
  let m := add_split (ee ext_U) CSR_MENVCFG CSR_MENVCFGH (envcfg_csr CSR_MENVCFG menvcfg_mask) m in
  let m := add_supervisor_csr CSR_SENVCFG (senvcfg_csr senvcfg_mask) m in
  add_split (ee ext_H) CSR_HENVCFG CSR_HENVCFGH (henvcfg_csr henvcfg_mask) m.

Definition sstateen0_mask : Z :=
  opt (ee EXT_ZFINX) SSTATEEN0_FCSR .| opt (ee EXT_ZCMT) SSTATEEN0_JVT .| SSTATEEN0_CS.
Definition hstateen0_mask : Z :=
  sstateen0_mask .| HSTATEEN0_CSRIND .| HSTATEEN0_SENVCFG .| HSTATEEN_SSTATEEN.
Definition mstateen0_mask : Z := hstateen0_mask .| opt (ee EXT_SSQOSID) MSTATEEN0_PRIV114.

Definition init_stateen (m : csrmap_t) (i : Z) : csrmap_t :=
  let mstateen_mask := if i =? 0 then mstateen0_mask else MSTATEEN_HSTATEEN in
  let hstateen_mask := if i =? 0 then hstateen0_mask else HSTATEEN_SSTATEEN in
  let sstateen_mask := if i =? 0 then sstateen0_mask else 0 in
  let m := add_split true (CSR_MSTATEEN0 + i) (CSR_MSTATEEN0H + i)
             (masked_csr (CSR_MSTATEEN0 + i) mstateen_mask) m in
  let m := add_split (ee ext_H) (CSR_HSTATEEN0 + i) (CSR_HSTATEEN0H + i) (hstateen_csr hstateen_mask i) m in
  add_supervisor_csr (CSR_SSTATEEN0 + i) (sstateen_csr sstateen_mask i) m.

Definition init_extensions (m : csrmap_t) : csrmap_t :=
  let m := if ee EXT_SMSTATEEN then fold_left init_stateen (zseq 4) m else m in
  let m := if ee EXT_SMRNMI then
      let m := add_csr CSR_MNSCRATCH (basic_csr CSR_MNSCRATCH) m in
      let m := add_csr CSR_MNEPC (epc_csr CSR_MNEPC) m in
      let m := add_csr CSR_MNCAUSE (const_csr CSR_MNCAUSE (Z.shiftl 1 (max_xlen - 1))) m in
      add_csr CSR_MNSTATUS mnstatus_csr m
    else m in
  let m := if ee EXT_SSTC then
      let stimecmp := stimecmp_csr CSR_STIMECMP MIP_STIP in
      let vstimecmp := stimecmp_csr CSR_VSTIMECMP MIP_VSTIP in
      let m := add_split (ee ext_S) CSR_STIMECMP CSR_STIMECMPH
                 (virtualized_with_special_permission_csr stimecmp vstimecmp) m in
      add_split (ee ext_H) CSR_VSTIMECMP CSR_VSTIMECMPH vstimecmp m
    else m in
  let m := add_if (ee EXT_ZCMT) CSR_JVT jvt_csr m in
  let m := add_if (ee EXT_ZICFISS) CSR_SSP (ssp_csr (u64 (- (max_xlen / 8)))) m in
  if ee EXT_SMCDELEG || ee EXT_SSCCFG
  then add_supervisor_csr CSR_SCOUNTINHIBIT scntinhibit_csr m else m.

(** [state_t::add_ireg_proxy]: the interrupt priority arrays. *)
Definition iprio_proxies : list (Z * option csr_t) :=
  let iprio0_addr := 0x30 in
  fold_left (fun l k =>
      let i := 2 * k in
      let iprio := aia_csr (iprio0_addr + i) 0 in
      if is32 then
        (iprio0_addr + i, Some (rv32_low_csr (iprio0_addr + i) iprio))
        :: (iprio0_addr + i + 1, Some (rv32_high_csr (iprio0_addr + i + 1) iprio)) :: l
      else (iprio0_addr + i, Some iprio) :: l) (zseq 8) [].

(** [sireg->add_ireg_proxy(base + j, csrmap\[from + j\])] for [j < n]: the
    new proxies and the map with the entries [operator\[\]] created. *)
Definition add_indexed_proxies (base from n : Z) (st : list (Z * option csr_t) * csrmap_t) :
    list (Z * option csr_t) * csrmap_t :=
  fold_left (fun st j => let '(l, m) := st in
      let '(c, m) := csrmap_index (from + j) m in ((base + j, c) :: l, m)) (zseq n) st.

Definition n_delegated : Z := SISELECT_SMCDELEG_END - SISELECT_SMCDELEG_HPMEVENT_3 + 1.
Definition smcdeleg : bool := ee EXT_SSCCFG || ee EXT_SMCDELEG.

Definition init_mireg (m : csrmap_t) : csrmap_t :=
  if ee EXT_SMCSRIND then
    let miselect := basic_csr CSR_MISELECT in
    let m := add_csr CSR_MISELECT miselect m in
    let m := add_csr CSR_MIREG (sscsrind_reg_csr CSR_MIREG miselect iprio_proxies) m in
    fold_left (fun m c => add_csr c (sscsrind_reg_csr c miselect []) m)
      [CSR_MIREG2; CSR_MIREG3; CSR_MIREG4; CSR_MIREG5; CSR_MIREG6] m
  else m.

(** The proxies of sireg2..sireg6; [m] may gain null entries. *)
Definition sireg_proxies (sireg : Z) (m : csrmap_t) : list (Z * option csr_t) * csrmap_t :=
  if negb smcdeleg then ([], m)
  else if sireg =? CSR_SIREG4 then
    if is32 then
      let '(l, m) := if ee EXT_ZICNTR then
          let '(cycleh, m) := csrmap_index CSR_CYCLEH m in
          let '(instreth, m) := csrmap_index CSR_INSTRETH m in
          ([(SISELECT_SMCDELEG_INSTRET, instreth); (SISELECT_SMCDELEG_START, cycleh)], m)
        else ([], m) in
      if ee EXT_ZIHPM
      then add_indexed_proxies SISELECT_SMCDELEG_HPMCOUNTER_3 CSR_HPMCOUNTER3H n_delegated (l, m) else (l, m)
    else ([], m)
  else if sireg =? CSR_SIREG2 then
    let l := if ee EXT_ZICNTR then
        [(SISELECT_SMCDELEG_INSTRETCFG, Some minstretcfg); (SISELECT_SMCDELEG_START, Some mcyclecfg)] else [] in
    if ee EXT_ZIHPM
    then add_indexed_proxies SISELECT_SMCDELEG_HPMEVENT_3 CSR_MHPMEVENT3H n_delegated (l, m) else (l, m)
  else if sireg =? CSR_SIREG5 then
    if is32 then
      let l := if ee EXT_ZICNTR then
          [(SISELECT_SMCDELEG_INSTRET, Some minstret); (SISELECT_SMCDELEG_START, Some mcycle)] else [] in
      if ee EXT_ZIHPM
      then add_indexed_proxies SISELECT_SMCDELEG_HPMCOUNTER_3 CSR_HPMCOUNTER3 (n_delegated - 1) (l, m)
      else (l, m)
    else ([], m)
  else ([], m).

Definition init_sireg (m : csrmap_t) : csrmap_t :=
  if negb (ee EXT_SSCSRIND) then m else
  let vsiselect := siselect_csr CSR_VSISELECT in
  let siselect := siselect_csr CSR_SISELECT in
  let m := add_hypervisor_csr CSR_VSISELECT vsiselect m in
  let m := add_supervisor_csr CSR_SISELECT (virtualized_with_special_permission_csr siselect vsiselect) m in
  let vsireg := sscsrind_reg_csr CSR_VSIREG vsiselect [] in
  let m := add_hypervisor_csr CSR_VSIREG vsireg m in
  let '(l, m) := if smcdeleg then
      let l := if ee EXT_ZICNTR
        then (SISELECT_SMCDELEG_INSTRET, Some minstret) :: (SISELECT_SMCDELEG_START, Some mcycle) :: iprio_proxies
        else iprio_proxies in
      if ee EXT_ZIHPM
      then add_indexed_proxies SISELECT_SMCDELEG_HPMCOUNTER_3 CSR_HPMCOUNTER3 n_delegated (l, m) else (l, m)
    else (iprio_proxies, m) in
  let m := add_supervisor_csr CSR_SIREG
             (virtualized_indirect_csr (sscsrind_reg_csr CSR_SIREG siselect l) vsireg) m in
  fold_left (fun m p => let '(vs, s) := p in
      let vsireg := sscsrind_reg_csr vs vsiselect [] in
      let m := add_hypervisor_csr vs vsireg m in
      let '(l, m) := sireg_proxies s m in
      add_supervisor_csr s (virtualized_indirect_csr (sscsrind_reg_csr s siselect l) vsireg) m)
    [(CSR_VSIREG2, CSR_SIREG2); (CSR_VSIREG3, CSR_SIREG3); (CSR_VSIREG4, CSR_SIREG4);
     (CSR_VSIREG5, CSR_SIREG5); (CSR_VSIREG6, CSR_SIREG6)] m.

Definition hvictl_csr : csr_t :=
  aia_csr CSR_HVICTL (HVICTL_VTI .| HVICTL_IID .| HVICTL_DPR .| HVICTL_IPRIOM .| HVICTL_IPRIO).
Definition mvien_csr : csr_t := masked_csr CSR_MVIEN (MIP_SEIP .| MIP_SSIP).

Definition init_aia (m : csrmap_t) : csrmap_t :=
  let m := if ee EXT_SMCNTRPMF then
      add_split true CSR_MINSTRETCFG CSR_MINSTRETCFGH minstretcfg
        (add_split true CSR_MCYCLECFG CSR_MCYCLECFGH mcyclecfg m) else m in
  let m := add_if (ee EXT_SSQOSID) CSR_SRMCFG (srmcfg_csr (SRMCFG_MCID .| SRMCFG_RCID)) m in
  let m := if ee EXT_SMAIA then
      let m := add_csr CSR_MTOPI mtopi_csr m in
      let m := add_split (ee ext_S) CSR_MVIEN CSR_MVIENH mvien_csr m in
      add_split (ee ext_S) CSR_MVIP CSR_MVIPH mvip_csr m
    else m in
  let m := if ee EXT_SSAIA then
      let m := add_supervisor_csr CSR_STOPI
                 (virtualized_with_special_permission_csr nonvirtual_stopi_csr vstopi_csr) m in
      let m := add_supervisor_csr CSR_STOPEI (inaccessible_csr CSR_STOPEI) m in
      let m := add_split (ee ext_H) CSR_HVIEN CSR_HVIENH (aia_csr CSR_HVIEN 0) m in
      let m := add_split (ee ext_H) CSR_HVIPRIO1 CSR_HVIPRIO1H (aia_csr CSR_HVIPRIO1 0) m in
      let m := add_split (ee ext_H) CSR_HVIPRIO2 CSR_HVIPRIO2H (aia_csr CSR_HVIPRIO2 0) m in
      let m := add_hypervisor_csr CSR_HVICTL hvictl_csr m in
      add_hypervisor_csr CSR_VSTOPI vstopi_csr m
    else m in
  add_csr CSR_SIMPOINT simpoint_csr m.

Definition csr_init : csrmap_t :=
  let m := init_counters (init_machine ∅) in
  let m := fold_left init_hpmcounter (zseq N_HPMCOUNTERS) m in
  let m := init_misc (init_debug (init_supervisor (init_interrupts m))) in
  init_aia (init_sireg (init_mireg (init_extensions m))).

(** The objects [vectorUnit_t::reset] adds. *)
Definition vstart_csr : csr_t := vector_csr CSR_VSTART (u64 (cfg_VLEN - 1)).
Definition vxrm_csr : csr_t := vector_csr CSR_VXRM 3.
Definition VCSR_VXRM_SHIFT : Z := 1.
Definition vu_csrs (m : csrmap_t) : csrmap_t :=
  let m := add_csr CSR_VXSAT vxsat_csr m in
  let m := add_csr CSR_VSTART vstart_csr m in
  let m := add_csr CSR_VXRM vxrm_csr m in
  let m := add_csr CSR_VL (vector_csr CSR_VL 0) m in
  let m := add_csr CSR_VTYPE (vector_csr CSR_VTYPE 0) m in
  let m := add_csr CSR_VLENB (vector_csr CSR_VLENB 0) m in
  add_csr CSR_VCSR (composite_csr CSR_VCSR vxrm_csr vxsat_csr VCSR_VXRM_SHIFT) m.

(** The map after [processor_t::reset]. *)
Definition csrmap : csrmap_t := if any_vector_extensions then vu_csrs csr_init else csr_init.

(** The values the constructors give; every other [val] starts at 0. *)
Definition csr_init_val : gmap Z Z :=
  let mstatus := compute_mstatus_initial_value in
  <[CSR_HSTATUS := set_field 0 HSTATUS_VSXL (xlen_to_uxl max_xlen)]>
  (<[CSR_VSSTATUS := mstatus .& sstatus_read_mask]>
  (<[CSR_MSTATUS := mstatus]>
  (<[CSR_MISA := max_isa]> ∅))).

End csr_init.
