(* ===== verification/Mmu.v ===== *)
(** The processor's port into memory, [riscv/mmu.h] and [riscv/mmu.cc]:
    software TLBs, page-table walks in one and two stages, PMP checks, and
    loads, stores, atomics and instruction fetches with their traps.

    The host pointer of a page in RAM is modelled by the physical address it
    points to; a buffer of bytes is a list.  [T] of the templates is its size
    in bytes.  Logging, [MMU_OBSERVE_*] and the effects of the memory tracer
    are not modelled (whether it is interested in a page is). *)

From S2P Require Import Prelude IntArith Decode Encoding IsaExt Trap Hart Pmp Csr CsrFile.

(** * Bytes *)

Fixpoint le_bytes (n : nat) (z : Z) : list Z :=
  match n with O => [] | S n => u8 z :: le_bytes n (Z.shiftr z 8) end.
Fixpoint le_value (l : list Z) : Z :=
  match l with [] => 0 | b :: l => b .| Z.shiftl (le_value l) 8 end.

(** [xlate_flags_t]. *)
Record xlate_flags_t : Type := mk_flags {
  forced_virt : bool; hlvx : bool; lr : bool; ss_access : bool; clean_inval : bool }.
Definition no_flags : xlate_flags_t := mk_flags false false false false false.
Definition is_special_access (f : xlate_flags_t) : bool :=
  forced_virt f || hlvx f || lr f || ss_access f || clean_inval f.

Record mem_access_info_t : Type := mk_access_info {
  vaddr : Z; transformed_vaddr : Z; effective_priv : Z; effective_virt : bool;
  flags : xlate_flags_t; type : access_type }.

Record vm_info : Type := mk_vm { levels : Z; idxbits : Z; widenbits : Z; ptesize : Z; ptbase : Z }.

Definition TLB_ENTRIES : Z := 256.
Definition TLB_CHECK_TRIGGERS : Z := 2 ^ 63.
Definition TLB_CHECK_TRACER : Z := 2 ^ 62.
Definition TLB_MMIO : Z := 2 ^ 61.
Definition TLB_FLAGS : Z := TLB_CHECK_TRIGGERS .| TLB_CHECK_TRACER .| TLB_MMIO.

Definition DEBUG_START : Z := 0.
Definition DEBUG_SIZE : Z := 0x1000.

Definition vm_off : vm_info := mk_vm 0 0 0 0 0.

(** [None] is the [abort()] of an unsupported mode. *)
Definition decode_vm_info (w : Z) (stage2 : bool) (p satp : Z) : option vm_info :=
  if p =? PRV_M then Some vm_off
  else if negb stage2 && (p <=? PRV_S) && (w =? 32) then
    let mode := get_field satp SATP32_MODE in
    if mode =? SATP_MODE_OFF then Some vm_off
    else if mode =? SATP_MODE_SV32 then Some (mk_vm 2 10 0 4 (u64 (Z.shiftl (satp .& SATP32_PPN) PGSHIFT)))
    else None
  else if negb stage2 && (p <=? PRV_S) && (w =? 64) then
    let mode := get_field satp SATP64_MODE in
    let base := u64 (Z.shiftl (satp .& SATP64_PPN) PGSHIFT) in
    if mode =? SATP_MODE_OFF then Some vm_off
    else if mode =? SATP_MODE_SV39 then Some (mk_vm 3 9 0 8 base)
    else if mode =? SATP_MODE_SV48 then Some (mk_vm 4 9 0 8 base)
    else if mode =? SATP_MODE_SV57 then Some (mk_vm 5 9 0 8 base)
    else if mode =? SATP_MODE_SV64 then Some (mk_vm 6 9 0 8 base)
    else None
  else if stage2 && (w =? 32) then
    let mode := get_field satp HGATP32_MODE in
    if mode =? HGATP_MODE_OFF then Some vm_off
    else if mode =? HGATP_MODE_SV32X4 then Some (mk_vm 2 10 2 4 (u64 (Z.shiftl (satp .& HGATP32_PPN) PGSHIFT)))
    else None
  else if stage2 && (w =? 64) then
    let mode := get_field satp HGATP64_MODE in
    let base := u64 (Z.shiftl (satp .& HGATP64_PPN) PGSHIFT) in
    if mode =? HGATP_MODE_OFF then Some vm_off
    else if mode =? HGATP_MODE_SV39X4 then Some (mk_vm 3 9 2 8 base)
    else if mode =? HGATP_MODE_SV48X4 then Some (mk_vm 4 9 2 8 base)
    else if mode =? HGATP_MODE_SV57X4 then Some (mk_vm 5 9 2 8 base)
    else None
  else None.

(** [PTE_TABLE(pte)]. *)
Definition PTE_TABLE (pte : Z) : bool := pte .& (PTE_V .| PTE_R .| PTE_W .| PTE_X) =? PTE_V.

Section mmu.
Context `{!config, !simif, !trigger_module}.

(** * Physical memory *)

Definition mem_byte (h : hart) (a : Z) : Z := default 0 (mem h !! a).
Definition read_bytes (h : hart) (a len : Z) : list Z := map (fun i => mem_byte h (a + i)) (zseq len).
Fixpoint write_bytes (a : Z) (bytes : list Z) (m : gmap Z Z) : gmap Z Z :=
  match bytes with [] => m | b :: bytes => <[a := b]> (write_bytes (a + 1) bytes m) end.

(** [sim->addr_to_mem]: the host pointer of RAM. *)
Definition host_of (paddr : Z) : option Z := if addr_to_mem paddr then Some paddr else None.

Definition from_target (bytes : list Z) : Z :=
  if target_big_endian then le_value (rev bytes) else le_value bytes.
Definition to_target (n val : Z) : list Z :=
  let b := le_bytes (Z.to_nat n) val in if target_big_endian then rev b else b.

Definition throw_access_exception {A} (virt : bool) (addr : Z) (t : access_type) : M A :=
  match t with
  | FETCH => throw (trap_instruction_access_fault virt addr 0 0)
  | LOAD => throw (trap_load_access_fault virt addr 0 0)
  | STORE => throw (trap_store_access_fault virt addr 0 0)
  end.

(** * MMIO *)

Definition mmio_ok (h : hart) (paddr : Z) : bool :=
  negb ((DEBUG_START <=? paddr) && (paddr - DEBUG_START <? DEBUG_SIZE) && negb (debug_mode h)).

Definition mmio_fetch (paddr len : Z) : M (option (list Z)) := fun h =>
  if negb (mmio_ok h paddr) then (Val None, h)
  else let '(r, d, es) := sim_mmio_fetch hart_id (csr_raw h CSR_MIP) paddr len (dev h) in (Val r, apply_effects es (set_dev d h)).

(** A power-of-two, naturally aligned access. *)
Definition mmio_load_one (paddr len : Z) : M (option (list Z)) := fun h =>
  if negb (mmio_ok h paddr) then (Val None, h)
  else let '(r, d, es) := sim_mmio_load hart_id (csr_raw h CSR_MIP) paddr len (dev h) in (Val r, apply_effects es (set_dev d h)).
Definition mmio_store_one (paddr : Z) (bytes : list Z) : M bool := fun h =>
  if negb (mmio_ok h paddr) then (Val false, h)
  else let '(r, d, es) := sim_mmio_store hart_id (csr_raw h CSR_MIP) paddr bytes (dev h) in (Val r, apply_effects es (set_dev d h)).

Definition mmio_simple (paddr len : Z) : bool :=
  (len .& (len - 1) =? 0) && (paddr .& (len - 1) =? 0).

(** [mmio]: other accesses are split into bytes, which are always simple. *)
Fixpoint mmio_load_bytes (paddr : Z) (n : nat) : M (option (list Z)) :=
  match n with
  | O => ret (Some [])
  | S n =>
      let* b := mmio_load_one paddr 1 in
      match b with
      | None => ret None
      | Some b => let* r := mmio_load_bytes (paddr + 1) n in
                  ret (match r with Some r => Some (b ++ r) | None => None end)
      end
  end.
Fixpoint mmio_store_bytes (paddr : Z) (bytes : list Z) : M bool :=
  match bytes with
  | [] => ret true
  | b :: bytes =>
      let* ok := mmio_store_one paddr [b] in
      if ok then mmio_store_bytes (paddr + 1) bytes else ret false
  end.

Definition mmio_load (paddr len : Z) : M (option (list Z)) :=
  if mmio_simple paddr len then mmio_load_one paddr len
  else mmio_load_bytes paddr (Z.to_nat len).
Definition mmio_store (paddr : Z) (bytes : list Z) : M bool :=
  if mmio_simple paddr (Z.of_nat (length bytes)) then mmio_store_one paddr bytes
  else mmio_store_bytes paddr bytes.

(** * PMP *)

(** [any_match] and [all_match] over the 4-byte sectors of the access. *)
Definition pmp_sectors (h : hart) (i addr len : Z) : bool * bool :=
  fold_left (fun st k => let '(any_match, all_match) := st in
      let m := match4 h i (u64 (addr + 4 * k)) in (any_match || m, all_match && m))
    (zseq ((len + 3) / 4)) (false, true).

Fixpoint pmp_ok_from (h : hart) (i : Z) (n : nat) (addr len : Z) (t : access_type) (mode : Z) (hx : bool) : bool :=
  match n with
  | O =>
      (mode =? PRV_M) && negb (get_mmwp h) &&
      (negb (get_mml h) || bool_decide (t = LOAD) || bool_decide (t = STORE))
  | S n =>
      let '(any_match, all_match) := pmp_sectors h i addr len in
      if any_match then if negb all_match then false else access_ok h i t mode hx
      else pmp_ok_from h (i + 1) n addr len t mode hx
  end.

Definition pmp_ok (h : hart) (addr len : Z) (t : access_type) (mode : Z) (hx : bool) : bool :=
  if n_pmp =? 0 then true else pmp_ok_from h 0 (Z.to_nat n_pmp) addr len t mode hx.

Definition pmp_homogeneous (h : hart) (addr len : Z) : option bool :=
  if z2b ((addr .| len) .& (len - 1)) then None
  else fold_left (fun r i => match r, subset_match h i addr len with
                             | Some r, Some s => Some (r && negb s) | _, _ => None end)
         (zseq n_pmp) (Some true).

(** * Page-table accesses *)

Definition pte_load (pte_paddr addr : Z) (virt : bool) (trap_type : access_type) (size : Z) : M Z :=
  let* h := get_hart in
  if negb (pmp_ok h pte_paddr size LOAD PRV_S false) then throw_access_exception virt addr trap_type
  else if addr_to_mem pte_paddr then ret (from_target (read_bytes h pte_paddr size))
  else
    let* r := mmio_load pte_paddr size in
    match r with
    | Some bytes => ret (from_target bytes)
    | None => throw_access_exception virt addr trap_type
    end.

Definition pte_store (pte_paddr new_pte addr : Z) (virt : bool) (trap_type : access_type) (size : Z) : M unit :=
  let* h := get_hart in
  if negb (pmp_ok h pte_paddr size STORE PRV_S false) then throw_access_exception virt addr trap_type
  else if addr_to_mem pte_paddr
  then modify (fun h => set_mem (write_bytes pte_paddr (to_target size new_pte) (mem h)) h)
  else
    let* ok := mmio_store pte_paddr (to_target size new_pte) in
    if ok then ret tt else throw_access_exception virt addr trap_type.

Definition pte_ppn (pte : Z) : Z := Z.shiftr (pte &~ PTE_ATTR) PTE_PPN_SHIFT.
Definition pte_napot_bits (pte : Z) : Z := if z2b (pte .& PTE_N) then ctz (pte_ppn pte) + 1 else 0.
Definition low_mask (n : Z) : Z := u64 (Z.shiftl 1 n) - 1.
Definition has (pte bits : Z) : bool := z2b (pte .& bits).

(** The physical page a leaf PTE at level [ptshift] maps [vpn] to. *)
Definition leaf_page_base (pte vpn ptshift : Z) : Z :=
  let ppn := pte_ppn pte in
  let nb := pte_napot_bits pte in
  u64 (Z.shiftl ((ppn &~ low_mask nb) .| (vpn .& low_mask nb) .| (vpn .& low_mask ptshift)) PGSHIFT).

(** * Second-stage translation *)

(** One turn of a walk: go to the next level, stop with a result, or [break]. *)
Inductive step_result : Type := Next (base : Z) | Done (paddr : Z) | Break.

Definition s2_level (gva gpa : Z) (t trap_type : access_type) (virt hx mxr : bool) (vm : vm_info)
    (i base : Z) : M step_result :=
  let ptshift := i * idxbits vm in
  let ib := if i =? levels vm - 1 then idxbits vm + widenbits vm else idxbits vm in
  let idx := Z.shiftr gpa (PGSHIFT + ptshift) .& low_mask ib in
  let pte_paddr := u64 (base + idx * ptesize vm) in
  let* pte := pte_load pte_paddr gva virt trap_type (ptesize vm) in
  let* h := get_hart in
  let ppn := pte_ppn pte in
  let pbmte := has (menvcfg_read h) MENVCFG_PBMTE in
  let hade := has (menvcfg_read h) MENVCFG_ADUE in
  let napot_bits := pte_napot_bits pte in
  if has pte PTE_RSVD then ret Break
  else if negb (extension_enabled h EXT_SVNAPOT) && has pte PTE_N then ret Break
  else if negb pbmte && has pte PTE_PBMT then ret Break
  else if pte .& PTE_PBMT =? PTE_PBMT then ret Break
  else if PTE_TABLE pte then
    if has pte (PTE_D .| PTE_A .| PTE_U .| PTE_N .| PTE_PBMT) then ret Break
    else ret (Next (u64 (Z.shiftl ppn PGSHIFT)))
  else if negb (has pte PTE_V) || (negb (has pte PTE_R) && has pte PTE_W) then ret Break
  else if (has pte PTE_N && ((ppn =? 0) || negb (i =? 0))) ||
          (negb (napot_bits =? 0) && negb (napot_bits =? 4)) then ret Break
  else if negb (has pte PTE_U) then ret Break
  else if (if bool_decide (t = FETCH) || hx then negb (has pte PTE_X)
           else if bool_decide (t = LOAD) then negb (has pte PTE_R) && negb (mxr && has pte PTE_X)
           else negb (has pte PTE_R && has pte PTE_W)) then ret Break
  else if negb (ppn .& low_mask ptshift =? 0) then ret Break
  else
    let ad := PTE_A .| (b2z (bool_decide (t = STORE)) * PTE_D) in
    let result := ret (Done (leaf_page_base pte (Z.shiftr gpa PGSHIFT) ptshift .| (gpa .& low_mask PGSHIFT))) in
    if pte .& ad =? ad then result
    else if hade then pte_store pte_paddr (pte .| ad) gva virt t (ptesize vm) ;; result
    else ret Break.

Fixpoint s2_loop (n : nat) (gva gpa : Z) (t trap_type : access_type) (virt hx mxr : bool) (vm : vm_info)
    (base : Z) : M (option Z) :=
  match n with
  | O => ret None
  | S n =>
      let* r := s2_level gva gpa t trap_type virt hx mxr vm (Z.of_nat n) base in
      match r with
      | Next base => s2_loop n gva gpa t trap_type virt hx mxr vm base
      | Done paddr => ret (Some paddr)
      | Break => ret None
      end
  end.

Definition s2xlate (gva gpa : Z) (t trap_type : access_type) (virt hx is_for_vs_pt_addr : bool) : M Z :=
  if negb virt then ret gpa else
  let* h := get_hart in
  match decode_vm_info xlen true 0 (csr_raw h CSR_HGATP) with
  | None => abort
  | Some vm =>
      if levels vm =? 0 then ret gpa else
      let maxgpabits := levels vm * idxbits vm + widenbits vm + PGSHIFT in
      let maxgpa := low_mask maxgpabits in
      let mxr := negb is_for_vs_pt_addr && has (sstatus_readvirt h false) MSTATUS_MXR in
      let tinst := (if is_for_vs_pt_addr then 0x2000 else 0)
        .| (if (xlen =? 64) && is_for_vs_pt_addr then 0x1000 else 0)
        .| (if bool_decide (t = STORE) && is_for_vs_pt_addr then 0x0020 else 0) in
      let* r := if gpa &~ maxgpa =? 0
                then s2_loop (Z.to_nat (levels vm)) gva gpa t trap_type virt hx mxr vm (ptbase vm)
                else ret None in
      match r with
      | Some paddr => ret paddr
      | None =>
          match trap_type with
          | FETCH => throw (trap_instruction_guest_page_fault gva (Z.shiftr gpa 2) tinst)
          | LOAD => throw (trap_load_guest_page_fault gva (Z.shiftr gpa 2) tinst)
          | STORE => throw (trap_store_guest_page_fault gva (Z.shiftr gpa 2) tinst)
          end
      end
  end.

(** * First-stage walk *)

(** What the walk reads once, before its loop. *)
Record walk_env : Type := mk_walk {
  w_addr : Z; w_type : access_type; w_virt : bool; w_hlvx : bool; w_ss_access : bool;
  w_clean_inval : bool; w_s_mode : bool; w_sum : bool; w_mxr : bool; w_vm : vm_info }.

Definition walk_level (w : walk_env) (i base : Z) : M step_result :=
  let vm := w_vm w in
  let addr := w_addr w in
  let t := w_type w in
  let virt := w_virt w in
  let ptshift := i * idxbits vm in
  let idx := Z.shiftr addr (PGSHIFT + ptshift) .& low_mask (idxbits vm) in
  let pte_gpa := u64 (base + idx * ptesize vm) in
  let* pte_paddr := s2xlate addr pte_gpa LOAD t virt false true in
  let* pte := pte_load pte_paddr addr virt t (ptesize vm) in
  let* h := get_hart in
  let ppn := pte_ppn pte in
  let envcfg := if virt then henvcfg_read h else menvcfg_read h in
  let pbmte := has envcfg MENVCFG_PBMTE in
  let hade := has envcfg MENVCFG_ADUE in
  let sse := has envcfg MENVCFG_SSE in
  let ss_page := negb (has pte PTE_R) && has pte PTE_W && negb (has pte PTE_X) in
  let napot_bits := pte_napot_bits pte in
  if has pte PTE_RSVD then ret Break
  else if negb (extension_enabled h EXT_SVNAPOT) && has pte PTE_N then ret Break
  else if negb pbmte && has pte PTE_PBMT then ret Break
  else if pte .& PTE_PBMT =? PTE_PBMT then ret Break
  else if PTE_TABLE pte then
    if has pte (PTE_D .| PTE_A .| PTE_U .| PTE_N .| PTE_PBMT) then ret Break
    else ret (Next (u64 (Z.shiftl ppn PGSHIFT)))
  else if (if has pte PTE_U then w_s_mode w && (bool_decide (t = FETCH) || negb (w_sum w))
           else negb (w_s_mode w)) then ret Break
  else if negb (has pte PTE_V) ||
          (negb (has pte PTE_R) && has pte PTE_W && ((negb sse && negb (has pte PTE_X)) || has pte PTE_X))
  then ret Break
  else if (has pte PTE_N && ((ppn =? 0) || negb (i =? 0))) ||
          (negb (napot_bits =? 0) && negb (napot_bits =? 4)) then ret Break
  else if negb (ppn .& low_mask ptshift =? 0) then ret Break
  else if ss_page && ((bool_decide (t = STORE) && negb (w_ss_access w)) || w_clean_inval w)
  then throw (trap_store_access_fault virt addr 0 0)
  else if ss_page && bool_decide (t = FETCH)
  then throw (trap_instruction_access_fault virt addr 0 0)
  else if ((has pte PTE_R && has pte PTE_W) || has pte PTE_X) && w_ss_access w
  then throw (trap_store_access_fault virt addr 0 0)
  else if (if bool_decide (t = FETCH) || w_hlvx w then negb (has pte PTE_X)
           else if bool_decide (t = LOAD)
           then negb (sse && ss_page) && negb (has pte PTE_R) && negb (w_mxr w && has pte PTE_X)
           else negb (has pte PTE_W)) then ret Break
  else
    let ad := PTE_A .| (b2z (bool_decide (t = STORE)) * PTE_D) in
    let finish :=
      let phys := leaf_page_base pte (Z.shiftr addr PGSHIFT) ptshift .| (addr .& low_mask PGSHIFT) in
      let* p := s2xlate addr phys t t virt (w_hlvx w) false in
      ret (Done (p &~ low_mask PGSHIFT)) in
    if pte .& ad =? ad then finish
    else if hade then
      s2xlate addr pte_gpa STORE t virt false true ;;
      pte_store pte_paddr (pte .| ad) addr virt t (ptesize vm) ;;
      finish
    else ret Break.

Fixpoint walk_loop (n : nat) (w : walk_env) (base : Z) : M (option Z) :=
  match n with
  | O => ret None
  | S n =>
      let* r := walk_level w (Z.of_nat n) base in
      match r with
      | Next base => walk_loop n w base
      | Done paddr => ret (Some paddr)
      | Break => ret None
      end
  end.

Definition walk (a : mem_access_info_t) : M Z :=
  let* h := get_hart in
  let addr := transformed_vaddr a in
  let virt := effective_virt a in
  let mode := effective_priv a in
  let hx := hlvx (flags a) in
  match decode_vm_info xlen false mode (satp_readvirt h virt) with
  | None => abort
  | Some vm =>
      let ss := ss_access (flags a) in
      if ss && (levels vm =? 0) then throw (trap_store_access_fault virt addr 0 0) else
      let t := if ss then STORE else type a in
      if levels vm =? 0 then
        let* p := s2xlate addr (addr .& (u64 (Z.shiftl 2 (xlen - 1)) - 1)) t t virt hx false in
        ret (p &~ low_mask PGSHIFT)
      else
        let s_mode := mode =? PRV_S in
        let sum := has (sstatus_readvirt h virt) MSTATUS_SUM in
        let mxr := has (sstatus_readvirt h false .| sstatus_readvirt h virt) MSTATUS_MXR in
        let va_bits := PGSHIFT + levels vm * idxbits vm in
        let mask := low_mask (xlen - (va_bits - 1)) in
        let masked_msbs := Z.shiftr addr (va_bits - 1) .& mask in
        let lv := if negb (masked_msbs =? 0) && negb (masked_msbs =? mask) then 0 else levels vm in
        let w := mk_walk addr t virt hx ss (clean_inval (flags a)) s_mode sum mxr vm in
        let* r := walk_loop (Z.to_nat lv) w (ptbase vm) in
        match r with
        | Some p => ret p
        | None =>
            match t with
            | FETCH => throw (trap_instruction_page_fault virt addr 0 0)
            | LOAD => throw (trap_load_page_fault virt addr 0 0)
            | STORE => throw (trap_store_page_fault virt addr 0 0)
            end
        end
  end.

Definition translate (a : mem_access_info_t) (len : Z) : M Z :=
  let addr := transformed_vaddr a in
  let t := if ss_access (flags a) then STORE else type a in
  let* p := walk a in
  let paddr := p .| (addr .& (PGSIZE - 1)) in
  let* h := get_hart in
  if negb (pmp_ok h paddr len t (effective_priv a) (hlvx (flags a)))
  then throw_access_exception (effective_virt a) addr t
  else ret paddr.

(** * Effective privilege and pointer masking *)

Definition in_mprv (h : hart) : bool :=
  negb (has_mnstatus && negb (z2b (get_field (mnstatus_read h) MNSTATUS_NMIE))) &&
  (negb (debug_mode h) || z2b (get_field (dcsr_read h) DCSR_MPRVEN)) &&
  z2b (get_field (mstatus_read h) MSTATUS_MPRV).

(** [None] is the [assert(false)] of an unexpected privilege. *)
Definition get_pmlen (h : hart) (virt : bool) (epriv : Z) (f : xlate_flags_t) : option Z :=
  if negb (xlen =? 64) || hlvx f then Some 0 else
  let pmm :=
    if epriv =? PRV_M then Some (get_field (mseccfg_read h) MSECCFG_PMM)
    else if has (sstatus_readvirt h false .| sstatus_readvirt h virt) MSTATUS_MXR then Some 0
    else if negb virt && ((epriv =? PRV_S) || (negb (extension_enabled h ext_S) && (epriv =? PRV_U)))
    then Some (get_field (menvcfg_read h) MENVCFG_PMM)
    else if virt && (epriv =? PRV_S) then Some (get_field (henvcfg_read h) HENVCFG_PMM)
    else if (prv h =? PRV_U) && forced_virt f then Some (get_field (hstatus_read h) HSTATUS_HUPMM)
    else if epriv =? PRV_U then Some (get_field (senvcfg_read h) SENVCFG_PMM)
    else None in
  match pmm with
  | None => None
  | Some m => Some (if m =? 2 then 7 else if m =? 3 then 16 else 0)
  end.

(** [sext] and [zext] of [decode_macros.h]. *)
Definition sext (x pos : Z) : Z := Z.shiftr (i64 (Z.shiftl x (64 - pos))) (64 - pos).
Definition zext (x pos : Z) : Z := Z.shiftr (u64 (Z.shiftl x (64 - pos))) (64 - pos).

Definition generate_access_info (addr : Z) (t : access_type) (f : xlate_flags_t) : M mem_access_info_t :=
  let* h := get_hart in
  let virt := v h in
  let mode := prv h in
  if bool_decide (t = FETCH) then ret (mk_access_info addr addr mode virt f t) else
  let '(mode, virt) :=
    if in_mprv h then
      let mode := get_field (mstatus_read h) MSTATUS_MPP in
      (mode, if z2b (get_field (mstatus_read h) MSTATUS_MPV) && negb (mode =? PRV_M) then true else virt)
    else (mode, virt) in
  let '(mode, virt) :=
    if forced_virt f then (get_field (hstatus_read h) HSTATUS_SPVP, true) else (mode, virt) in
  match get_pmlen h virt mode f with
  | None => abort
  | Some pmlen =>
      let satp := satp_readvirt h virt in
      let is_physical_addr := (mode =? PRV_M) || (get_field satp SATP64_MODE =? SATP_MODE_OFF) in
      let transformed_addr := if is_physical_addr then zext addr (xlen - pmlen)
                              else u64 (sext addr (xlen - pmlen)) in
      ret (mk_access_info addr transformed_addr mode virt f t)
  end.

(** * Triggers *)

Definition check_triggers (op : operation_t) (address : Z) (virt : bool) (tval : Z) (data : option Z) : M unit :=
  let* h := get_hart in
  match matched_trigger (mmu h) with
  | Some _ => ret tt
  | None =>
      let '(r, t) := detect_memory_access_match (trigger_env_of h) op address data (tm h) in
      modify (set_tm t) ;;
      match r with
      | None => ret tt
      | Some m =>
          match mr_timing m with
          | TIMING_BEFORE => raise (Matched_trigger (mk_matched op tval (mr_action m) virt))
          | TIMING_AFTER =>
              modify flush_tlb ;;
              modify (fun h => set_mmu (set_matched_trigger
                        (Some (mk_matched op tval (mr_action m) virt)) (mmu h)) h)
          end
      end
  end.

(** * The TLBs *)

Definition flushed_entry : dtlb_entry_t := mk_dtlb (mk_tlb (Some UINT64_MAX) UINT64_MAX) UINT64_MAX.

(** [access_tlb]: hit, host address, physical address. *)
Definition access_tlb (tlb : gmap Z dtlb_entry_t) (va allowed_flags required_flags : Z) : bool * option Z * Z :=
  let vpn := va / PGSIZE in
  let pgoff := va mod PGSIZE in
  let entry := default flushed_entry (tlb !! (vpn mod TLB_ENTRIES)) in
  let tag := dtlb_tag entry in
  let hit := tag .& (unot64 allowed_flags .| required_flags) =? vpn .| required_flags in
  let is_mmio := z2b (allowed_flags .& TLB_MMIO .& tag) in
  let host := if is_mmio then None
              else match host_addr (dtlb_data entry) with Some a => Some (u64 (a + pgoff)) | None => None end in
  (hit, host, u64 (target_addr (dtlb_data entry) + pgoff)).

Definition refill_tlb (va paddr : Z) (host : option Z) (t : access_type) : M unit :=
  let* h := get_hart in
  let idx := Z.shiftr va PGSHIFT mod TLB_ENTRIES in
  let expected_tag := Z.shiftr va PGSHIFT in
  let base_paddr := paddr &~ (PGSIZE - 1) in
  let off := va mod PGSIZE in
  let entry := mk_tlb (match host with Some a => Some (u64 (a - off)) | None => None end) (u64 (paddr - off)) in
  if in_mprv h then ret tt else
  match pmp_homogeneous h base_paddr PGSIZE with
  | None => abort
  | Some homogeneous =>
      if negb homogeneous || cfg_log then ret tt else
      let trace_flag := if tracer_interested base_paddr (base_paddr + PGSIZE) t then TLB_CHECK_TRACER else 0 in
      let mmio_flag := match host with Some _ => 0 | None => TLB_MMIO end in
      let tag check := expected_tag .| opt check TLB_CHECK_TRIGGERS .| trace_flag .| mmio_flag in
      modify (fun h =>
        let m := mmu h in
        match t with
        | FETCH => set_mmu (set_tlb_insn (<[idx := mk_dtlb entry (tag (check_triggers_fetch m))]> (tlb_insn m)) m) h
        | LOAD => set_mmu (set_tlb_load (<[idx := mk_dtlb entry (tag (check_triggers_load m))]> (tlb_load m)) m) h
        | STORE => set_mmu (set_tlb_store (<[idx := mk_dtlb entry (tag (check_triggers_store m))]> (tlb_store m)) m) h
        end)
  end.

(** * Loads *)

Definition perform_intrapage_load (va : Z) (host : option Z) (paddr len : Z) (f : xlate_flags_t) : M (list Z) :=
  match host with
  | Some a => gets (fun h => read_bytes h a len)
  | None =>
      let* r := mmio_load paddr len in
      match r with
      | Some bytes => ret bytes
      | None =>
          let* a := generate_access_info va LOAD f in
          if ss_access (flags a)
          then throw (trap_store_access_fault (effective_virt a) (transformed_vaddr a) 0 0)
          else throw (trap_load_access_fault (effective_virt a) (transformed_vaddr a) 0 0)
      end
  end.

Definition load_slow_path_intrapage (len : Z) (a : mem_access_info_t) : M (list Z) :=
  let va := vaddr a in
  let* h := get_hart in
  let '(tlb_hit, host, paddr) := access_tlb (tlb_load (mmu h)) va TLB_FLAGS 0 in
  let* (host, paddr) :=
    (if negb tlb_hit || is_special_access (flags a) then
       let* paddr := translate a len in
       let host := host_of paddr in
       when (negb (is_special_access (flags a))) (refill_tlb va paddr host LOAD) ;;
       when (lr (flags a) && negb (reservable paddr))
         (throw (trap_load_access_fault (effective_virt a) (transformed_vaddr a) 0 0)) ;;
       ret (host, paddr)
     else ret (host, paddr)) in
  let* bytes := perform_intrapage_load va host paddr len (flags a) in
  when (lr (flags a)) (modify (fun h => set_mmu (set_load_reservation_address paddr (mmu h)) h)) ;;
  ret bytes.

(** The 8-byte chunks on which data triggers are checked: [reg_from_bytes]. *)
Definition data_chunks (bytes : list Z) : list Z :=
  if Z.of_nat (length bytes) <=? 8 then [le_value bytes]
  else [le_value (firstn 8 bytes); le_value (skipn 8 bytes)].

Fixpoint check_triggers_data (op : operation_t) (addr : Z) (virt : bool) (data : list Z) : M unit :=
  match data with
  | [] => ret tt
  | d :: data => check_triggers op addr virt addr (Some d) ;; check_triggers_data op addr virt data
  end.

Definition load_slow_path (original_addr len : Z) (f : xlate_flags_t) : M (list Z) :=
  let* h := get_hart in
  let '(tlb_hit, host, paddr) := access_tlb (tlb_load (mmu h)) original_addr (TLB_FLAGS &~ TLB_CHECK_TRIGGERS) 0 in
  let intrapage := original_addr mod PGSIZE + len <=? PGSIZE in
  let aligned := original_addr .& (len - 1) =? 0 in
  if negb (is_special_access f) && (tlb_hit && (aligned || (intrapage && cfg_misaligned)))
  then perform_intrapage_load original_addr host paddr len f
  else
    let* a := generate_access_info original_addr LOAD f in
    let transformed_addr := transformed_vaddr a in
    let gva := effective_virt a in
    check_triggers OPERATION_LOAD transformed_addr gva transformed_addr None ;;
    let* bytes :=
      (if transformed_addr .& (len - 1) =? 0 then load_slow_path_intrapage len a
       else if negb cfg_misaligned then throw (trap_load_address_misaligned gva transformed_addr 0 0)
       else if lr (flags a) then throw (trap_load_access_fault gva transformed_addr 0 0)
       else
         let len_page0 := Z.min len (PGSIZE - transformed_addr mod PGSIZE) in
         let* b0 := load_slow_path_intrapage len_page0 a in
         if negb (len_page0 =? len) then
           let* tail := generate_access_info (u64 (original_addr + len_page0)) LOAD f in
           let* b1 := load_slow_path_intrapage (len - len_page0) tail in
           ret (b0 ++ b1)
         else ret b0) in
    check_triggers_data OPERATION_LOAD transformed_addr gva (data_chunks bytes) ;;
    ret bytes.

(** [load<T>], [n] being [sizeof(T)]; the result is the unsigned value. *)
Definition load (n addr : Z) (f : xlate_flags_t) : M Z :=
  let* h := get_hart in
  let aligned := addr .& (n - 1) =? 0 in
  let '(tlb_hit, host, _) := access_tlb (tlb_load (mmu h)) addr 0 0 in
  if negb (is_special_access f) && aligned && tlb_hit then
    match host with
    | Some a => ret (from_target (read_bytes h a n))
    | None => abort
    end
  else let* bytes := load_slow_path addr n f in ret (from_target bytes).

(** * Stores *)

Definition perform_intrapage_store (va : Z) (host : option Z) (paddr : Z) (bytes : list Z) (f : xlate_flags_t) : M unit :=
  match host with
  | Some a => modify (fun h => set_mem (write_bytes a bytes (mem h)) h)
  | None =>
      let* ok := mmio_store paddr bytes in
      if ok then ret tt else
      let* a := generate_access_info va STORE f in
      throw (trap_store_access_fault (effective_virt a) (transformed_vaddr a) 0 0)
  end.

Definition store_slow_path_intrapage (len : Z) (bytes : list Z) (a : mem_access_info_t) (actually_store : bool) : M unit :=
  let va := vaddr a in
  let* h := get_hart in
  let '(tlb_hit, host, paddr) := access_tlb (tlb_store (mmu h)) va TLB_FLAGS 0 in
  let* (host, paddr) :=
    (if negb tlb_hit || is_special_access (flags a) then
       let* paddr := translate a len in
       let host := host_of paddr in
       when (negb (is_special_access (flags a))) (refill_tlb va paddr host STORE) ;;
       ret (host, paddr)
     else ret (host, paddr)) in
  when actually_store (perform_intrapage_store va host paddr bytes (flags a)).

(** [bytes] is [nullptr] exactly when [actually_store] is false. *)
Definition store_slow_path (original_addr len : Z) (bytes : list Z) (f : xlate_flags_t)
    (actually_store require_alignment : bool) : M unit :=
  let* h := get_hart in
  let '(tlb_hit, host, paddr) := access_tlb (tlb_store (mmu h)) original_addr (TLB_FLAGS &~ TLB_CHECK_TRIGGERS) 0 in
  let intrapage := original_addr mod PGSIZE + len <=? PGSIZE in
  let aligned := original_addr .& (len - 1) =? 0 in
  if negb (is_special_access f) && (tlb_hit && (aligned || (intrapage && cfg_misaligned)))
  then when actually_store (perform_intrapage_store original_addr host paddr bytes f)
  else
    let* a := generate_access_info original_addr STORE f in
    let transformed_addr := transformed_vaddr a in
    let gva := effective_virt a in
    when actually_store (check_triggers_data OPERATION_STORE transformed_addr gva (data_chunks bytes)) ;;
    if negb (transformed_addr .& (len - 1) =? 0) then
      if negb cfg_misaligned then throw (trap_store_address_misaligned gva transformed_addr 0 0)
      else if require_alignment then throw (trap_store_access_fault gva transformed_addr 0 0)
      else
        let len_page0 := Z.min len (PGSIZE - transformed_addr mod PGSIZE) in
        store_slow_path_intrapage len_page0 (firstn (Z.to_nat len_page0) bytes) a actually_store ;;
        when (negb (len_page0 =? len))
          (let* tail := generate_access_info (u64 (original_addr + len_page0)) STORE f in
           store_slow_path_intrapage (len - len_page0) (skipn (Z.to_nat len_page0) bytes) tail actually_store)
    else store_slow_path_intrapage len bytes a actually_store.

Definition store (n addr val : Z) (f : xlate_flags_t) : M unit :=
  let* h := get_hart in
  let aligned := addr .& (n - 1) =? 0 in
  let '(tlb_hit, host, _) := access_tlb (tlb_store (mmu h)) addr 0 0 in
  if negb (is_special_access f) && aligned && tlb_hit then
    match host with
    | Some a => modify (fun h => set_mem (write_bytes a (to_target n val) (mem h)) h)
    | None => abort
    end
  else store_slow_path addr n (to_target n val) f true false.

(** * The variants used by instructions *)

Definition load_reserved (n addr : Z) : M Z := load n addr (mk_flags false false true false false).
Definition guest_load (n addr : Z) : M Z := load n addr (mk_flags true false false false false).
Definition guest_load_x (n addr : Z) : M Z := load n addr (mk_flags true true false false false).
Definition guest_store (n addr val : Z) : M unit := store n addr val (mk_flags true false false false false).
Definition ss_flags : xlate_flags_t := mk_flags false false false true false.

Definition ss_load (n addr : Z) : M Z :=
  let* h := get_hart in
  if negb (addr .& (n - 1) =? 0) then throw (trap_store_access_fault (v h) addr 0 0)
  else load n addr ss_flags.

Definition ss_store (n addr val : Z) : M unit :=
  let* h := get_hart in
  if negb (addr .& (n - 1) =? 0) then throw (trap_store_access_fault (v h) addr 0 0)
  else store n addr val ss_flags.

Definition convert_load_traps_to_store_traps {A} (body : M A) : M A :=
  catch body (fun e =>
    match e with
    | Trap (Mem_trap w g tv tv2 ti) =>
        if w =? CAUSE_MISALIGNED_LOAD then throw (trap_store_address_misaligned g tv tv2 ti)
        else if w =? CAUSE_LOAD_PAGE_FAULT then throw (trap_store_page_fault g tv tv2 ti)
        else if w =? CAUSE_LOAD_ACCESS then throw (trap_store_access_fault g tv tv2 ti)
        else if w =? CAUSE_LOAD_GUEST_PAGE_FAULT then throw (trap_store_guest_page_fault tv tv2 ti)
        else raise e
    | _ => raise e
    end).

(** [amo<T>(addr, f)]; [f] takes the value loaded and may itself raise (it
    reads a register). *)
Definition amo (n addr : Z) (f : Z -> M Z) : M Z :=
  convert_load_traps_to_store_traps (
    store_slow_path addr n [] no_flags false true ;;
    let* lhs := load n addr no_flags in
    let* val := f lhs in
    store n addr val no_flags ;;
    ret lhs).

Definition ssamoswap (n addr value : Z) : M Z :=
  store_slow_path addr n [] ss_flags false true ;;
  let* data := load n addr ss_flags in
  store n addr value ss_flags ;;
  ret data.

Definition amo_compare_and_swap (n addr comp swap : Z) : M Z :=
  convert_load_traps_to_store_traps (
    store_slow_path addr n [] no_flags false true ;;
    let* lhs := load n addr no_flags in
    when (lhs =? comp) (store n addr swap no_flags) ;;
    ret lhs).

Definition store_float128 (addr : Z) (val : freg_t) : M unit :=
  let* h := get_hart in
  if negb (addr .& 15 =? 0) && negb cfg_misaligned
  then throw (trap_store_address_misaligned (v h) addr 0 0)
  else store 8 addr (fst val) no_flags ;; store 8 (u64 (addr + 8)) (snd val) no_flags.

Definition load_float128 (addr : Z) : M freg_t :=
  let* h := get_hart in
  if negb (addr .& 15 =? 0) && negb cfg_misaligned
  then throw (trap_load_address_misaligned (v h) addr 0 0)
  else
    let* v0 := load 8 addr no_flags in
    let* v1 := load 8 (u64 (addr + 8)) no_flags in
    ret (v0, v1).

Fixpoint for_bytes (n : nat) (offset : Z) (body : Z -> M unit) : M unit :=
  match n with O => ret tt | S n => body offset ;; for_bytes n (offset + 1) body end.

Definition cbo_zero (addr : Z) : M unit :=
  let* a := generate_access_info addr STORE no_flags in
  let transformed_addr := transformed_vaddr a in
  let base := transformed_addr &~ (blocksz - 1) in
  for_bytes (Z.to_nat blocksz) 0 (fun offset =>
    check_triggers OPERATION_STORE (u64 (base + offset)) false transformed_addr None ;;
    store 1 (u64 (base + offset)) 0 no_flags).

(** [clean_inval]; the tracer call has no effect on the hart. *)
Definition clean_inval_addr (addr : Z) : M unit :=
  let* a := generate_access_info addr LOAD (mk_flags false false false false true) in
  let transformed_addr := transformed_vaddr a in
  let base := transformed_addr &~ (blocksz - 1) in
  for_bytes (Z.to_nat blocksz) 0 (fun offset =>
    check_triggers OPERATION_STORE (u64 (base + offset)) false transformed_addr None) ;;
  convert_load_traps_to_store_traps (
    let* paddr := translate a 1 in
    let* h := get_hart in
    if reservable paddr then ret tt
    else throw (trap_store_access_fault (v h) transformed_addr 0 0)).

Definition yield_load_reservation : M unit :=
  modify (fun h => set_mmu (set_load_reservation_address UINT64_MAX (mmu h)) h).

Definition check_load_reservation (va size : Z) : M bool :=
  when (negb (va .& (size - 1) =? 0)) (store_slow_path va size [] no_flags false true) ;;
  let* a := generate_access_info va STORE no_flags in
  let* paddr := translate a 1 in
  let* h := get_hart in
  if reservable paddr then ret (load_reservation_address (mmu h) =? paddr)
  else throw (trap_store_access_fault (v h) va 0 0).

Definition store_conditional (n addr val : Z) : M bool :=
  let* have_reservation := check_load_reservation addr n in
  when have_reservation (store n addr val no_flags) ;;
  yield_load_reservation ;;
  ret have_reservation.

(** * Instruction fetch *)

Definition perform_intrapage_fetch (va : Z) (host : option Z) (paddr : Z) : M (list Z) :=
  match host with
  | Some a => gets (fun h => read_bytes h a 2)
  | None =>
      let* r := mmio_fetch paddr 2 in
      match r with
      | Some bytes => ret bytes
      | None => let* h := get_hart in throw (trap_instruction_access_fault (v h) va 0 0)
      end
  end.

Definition fetch_slow_path (va : Z) : M (list Z) :=
  let* h := get_hart in
  match matched_trigger (mmu h) with
  | Some trig =>
      modify (fun h => set_mmu (set_matched_trigger None (mmu h)) h) ;; raise (Matched_trigger trig)
  | None =>
      let '(hit, host, paddr) := access_tlb (tlb_insn (mmu h)) va (TLB_FLAGS &~ TLB_CHECK_TRIGGERS) 0 in
      if hit then perform_intrapage_fetch va host paddr else
      let '(tlb_hit, host, paddr) := access_tlb (tlb_insn (mmu h)) va TLB_FLAGS 0 in
      let* a := generate_access_info va FETCH no_flags in
      check_triggers OPERATION_EXECUTE va (effective_virt a) va None ;;
      let* (host, paddr) :=
        (if negb tlb_hit then
           let* paddr := translate a 2 in
           let host := host_of paddr in
           refill_tlb va paddr host FETCH ;; ret (host, paddr)
         else ret (host, paddr)) in
      let* bytes := perform_intrapage_fetch va host paddr in
      check_triggers OPERATION_EXECUTE va (effective_virt a) va (Some (le_value bytes)) ;;
      ret bytes
  end.

Definition fetch_insn_parcel (addr : Z) : M Z :=
  let* h := get_hart in
  let '(tlb_hit, host, _) := access_tlb (tlb_insn (mmu h)) addr 0 0 in
  if tlb_hit then
    match host with
    | Some a => ret (le_value (read_bytes h a 2))
    | None => abort
    end
  else let* bytes := fetch_slow_path addr in ret (le_value bytes).

(** [fetch_jump_table<T>]: parcels assembled little-endian. *)
Fixpoint fetch_parcels (n : nat) (addr : Z) : M Z :=
  match n with
  | O => ret 0
  | S n => let* p := fetch_insn_parcel addr in
           let* r := fetch_parcels n (u64 (addr + 2)) in
           ret (p .| Z.shiftl r 16)
  end.

Definition fetch_jump_table (n addr : Z) : M Z :=
  let* res := fetch_parcels (Z.to_nat (n / 2)) addr in
  ret (if target_big_endian then le_value (rev (le_bytes (Z.to_nat n) res)) else res).

End mmu.
