(* ===== verification/Memif.v ===== *)
(** The memory interface of the host, [fesvr/memif.h], [fesvr/memif.cc] and
    [fesvr/byteorder.h]: arrays of bytes of any length and alignment over a memory
    that is accessed in aligned chunks; and the memory of [fesvr/htif_hexwriter.cc]. *)

From S2P Require Import Prelude Mmu.

(** * Operations of the host

    What an operation ends with: a value; [mem_trap_t] with the address; another
    exception with its text, or with the two sizes of [incompat_xlen]; a failed
    [assert]; an access outside of an object, which is undefined; or nothing, as a loop
    goes on forever. *)
Inductive outcome (A : Type) : Type :=
| Done (a : A)
| Mem_trap (tval : Z)
| Exception (what : string)
| Incompat_xlen (expected_xlen actual_xlen : Z)
| Assertion
| Wild
| Unending.
Arguments Done {A} _.
Arguments Mem_trap {A} _.
Arguments Exception {A} _.
Arguments Incompat_xlen {A} _ _.
Arguments Assertion {A}.
Arguments Wild {A}.
Arguments Unending {A}.

(** An operation on a state keeps the changes made before it fails. *)
Definition host (S A : Type) : Type := S -> outcome A * S.

Definition give {S A} (a : A) : host S A := fun s => (Done a, s).
Definition fails {S A} (o : outcome A) : host S A := fun s => (o, s).

(** The failure of one operation as that of another. *)
Definition failed {A B} (o : outcome A) : outcome B :=
  match o with
  | Done _ | Wild => Wild
  | Mem_trap a => Mem_trap a
  | Exception w => Exception w
  | Incompat_xlen e a => Incompat_xlen e a
  | Assertion => Assertion
  | Unending => Unending
  end.
Definition host_bind {S A B} (m : host S A) (f : A -> host S B) : host S B := fun s =>
  match m s with (Done a, s) => f a s | (o, s) => (failed o, s) end.

Declare Scope host_scope.
Delimit Scope host_scope with host.
Notation "'let?' x := m 'in' k" := (host_bind m (fun x => k)) (at level 200, x name, k at level 200) : host_scope.
Notation "'run' m 'in' k" := (host_bind m (fun _ => k)) (at level 200, m at level 100, k at level 200) : host_scope.
Local Open Scope host_scope.

(** * Byte order

    The host is little endian: [is_be] is false. *)
Definition swap16 (n : Z) : Z := u16 (Z.shiftr n 8 .| Z.shiftl n 8).
Definition swap32 (n : Z) : Z := u32 (Z.shiftl (swap16 (u16 n)) 16) .| swap16 (u16 (Z.shiftr n 16)).
Definition swap64 (n : Z) : Z := u64 (Z.shiftl (swap32 (u32 n)) 32) .| swap32 (u32 (Z.shiftr n 32)).

(** [swap] of a number of [size] bytes. *)
Definition swap (size n : Z) : Z :=
  if size =? 1 then n else if size =? 2 then swap16 n else if size =? 4 then swap32 n else swap64 n.
Definition from_be (size n : Z) : Z := swap size n.
Definition from_le (size n : Z) : Z := n.

(** * Chunks

    [chunked_memif_t]: the methods of a memory with the state [S].  Addresses and lengths
    are 64-bit words; [read_chunk] answers as many bytes as it is asked for. *)
Class chunked_memif (S : Type) : Type := {
  read_chunk : Z -> Z -> host S (list Z);
  write_chunk : Z -> list Z -> host S unit;
  clear_chunk : Z -> Z -> host S unit;
  chunk_align : Z;
  chunk_max_size : Z;
  big_endian : bool
}.

Section memif.
Context {S : Type} `{!chunked_memif S}.

(** [htif_t::from_target] and [htif_t::to_target] for numbers of [size] bytes. *)
Definition from_target (size n : Z) : Z := if big_endian then from_be size n else from_le size n.
Definition to_target (size n : Z) : Z := if big_endian then from_be size n else from_le size n.

(** The loops over the aligned chunks from [pos].  Every turn advances by
    [chunk_max_size], or there is no end. *)
Fixpoint read_chunks (fuel : nat) (addr len pos : Z) : host S (list Z) :=
  if pos <? len then
    match fuel with
    | O => fails Unending
    | Datatypes.S fuel =>
        let? bytes := read_chunk (u64 (addr + pos)) (Z.min chunk_max_size (len - pos)) in
        let? rest := read_chunks fuel addr len (pos + chunk_max_size) in
        give (bytes ++ rest)
    end
  else give [].
Fixpoint write_chunks (fuel : nat) (addr : Z) (bytes : list Z) (pos : Z) : host S unit :=
  let len := Z.of_nat (length bytes) in
  if pos <? len then
    match fuel with
    | O => fails Unending
    | Datatypes.S fuel =>
        let n := Z.min chunk_max_size (len - pos) in
        run write_chunk (u64 (addr + pos)) (firstn (Z.to_nat n) (skipn (Z.to_nat pos) bytes)) in
        write_chunks fuel addr bytes (pos + chunk_max_size)
    end
  else give tt.

(** The bytes in front of the first aligned address: how many they are. *)
Definition head_len (addr len : Z) : Z :=
  if (len =? 0) || (addr .& (chunk_align - 1) =? 0) then 0
  else Z.min len (chunk_align - (addr .& (chunk_align - 1))).

(** [memif_t::read] *)
Definition memif_read (addr len : Z) : host S (list Z) :=
  let align := chunk_align in
  let this_len := head_len addr len in
  let? first :=
    (if this_len =? 0 then give [] else
     let? chunk := read_chunk (addr &~ (align - 1)) align in
     give (firstn (Z.to_nat this_len) (skipn (Z.to_nat (addr .& (align - 1))) chunk))) in
  let addr := u64 (addr + this_len) in
  let len := len - this_len in
  let this_len := len .& (align - 1) in
  let start := len - this_len in
  let? last :=
    (if this_len =? 0 then give [] else
     let? chunk := read_chunk (u64 (addr + start)) align in
     give (firstn (Z.to_nat this_len) chunk)) in
  let? middle := read_chunks (Z.to_nat start) addr start 0 in
  give (first ++ middle ++ last).

(** [memcpy(&chunk[off], bytes, n)] *)
Definition patch (off : Z) (bytes chunk : list Z) : list Z :=
  firstn (Z.to_nat off) chunk ++ bytes ++ skipn (Z.to_nat off + length bytes) chunk.

(** [memif_t::write] *)
Definition memif_write (addr : Z) (bytes : list Z) : host S unit :=
  let align := chunk_align in
  let len := Z.of_nat (length bytes) in
  let this_len := head_len addr len in
  run (if this_len =? 0 then give tt else
       let? chunk := read_chunk (addr &~ (align - 1)) align in
       write_chunk (addr &~ (align - 1)) (patch (addr .& (align - 1)) (firstn (Z.to_nat this_len) bytes) chunk)) in
  let bytes := skipn (Z.to_nat this_len) bytes in
  let addr := u64 (addr + this_len) in
  let len := len - this_len in
  let this_len := len .& (align - 1) in
  let start := len - this_len in
  run (if this_len =? 0 then give tt else
       let? chunk := read_chunk (u64 (addr + start)) align in
       write_chunk (u64 (addr + start)) (patch 0 (skipn (Z.to_nat start) bytes) chunk)) in
  let bytes := firstn (Z.to_nat start) bytes in
  let all_zero := negb (start =? 0) && forallb (fun b => b =? 0) bytes in
  if all_zero then clear_chunk addr start else write_chunks (Z.to_nat start) addr bytes 0.

(** * Words

    [read_uint8] to [read_int64] and [write_uint8] to [write_int64], by the size of
    the number, which is in the byte order of the target. *)
Definition misaligned : string := "misaligned address".

Definition read_uint (size addr : Z) : host S Z :=
  if addr .& (size - 1) =? 0 then let? bytes := memif_read addr size in give (le_value bytes)
  else fails (Exception misaligned).
Definition write_uint (size addr val : Z) : host S unit :=
  if addr .& (size - 1) =? 0 then memif_write addr (le_bytes (Z.to_nat size) val)
  else fails (Exception misaligned).
End memif.

(** [htif_t::clear_chunk], over the [write_chunk] and [chunk_max_size] of its subclass. *)
Section clear.
Context {S : Type} (write_chunk : Z -> list Z -> host S unit) (chunk_max_size : Z).

Fixpoint clear_chunks (fuel : nat) (addr len pos : Z) : host S unit :=
  if pos <? len then
    match fuel with
    | O => fails Unending
    | Datatypes.S fuel =>
        run write_chunk (u64 (addr + pos)) (replicate (Z.to_nat (Z.min (len - pos) chunk_max_size)) 0) in
        clear_chunks fuel addr len (pos + chunk_max_size)
    end
  else give tt.
Definition htif_clear_chunk (addr len : Z) : host S unit := clear_chunks (Z.to_nat len) addr len 0.
End clear.

(** * [htif_hexwriter_t]

    Words of [width] bytes by their number from [base], kept when they were touched. *)
Record htif_hexwriter_t : Type := mk_hexwriter { hex_base : Z; hex_width : Z; hex_depth : Z; hex_mem : gmap Z (list Z) }.

Definition hex_set (k : Z) (w : list Z) (h : htif_hexwriter_t) : htif_hexwriter_t :=
  mk_hexwriter (hex_base h) (hex_width h) (hex_depth h) (<[k := w]> (hex_mem h)).

(** [mem[k]] after its [resize] when it is empty. *)
Definition hex_touch (k : Z) (h : htif_hexwriter_t) : list Z :=
  match hex_mem h !! k with Some (b :: w) => b :: w | _ => replicate (Z.to_nat (hex_width h)) 0 end.

(** The three assertions on the offset [taddr]. *)
Definition hex_in_range (taddr len : Z) (h : htif_hexwriter_t) : bool :=
  let size := u64 (hex_width h * hex_depth h) in
  (len mod hex_width h =? 0) && (taddr <? size) && (u64 (taddr + len) <=? size).

Fixpoint hex_read_words (n : nat) (taddr : Z) (h : htif_hexwriter_t) : list Z * htif_hexwriter_t :=
  match n with
  | O => ([], h)
  | S n =>
      let w := hex_touch (taddr / hex_width h) h in
      let '(rest, h') := hex_read_words n (u64 (taddr + hex_width h)) (hex_set (taddr / hex_width h) w h) in (w ++ rest, h')
  end.
Definition hex_read_chunk (taddr len : Z) : host htif_hexwriter_t (list Z) := fun h =>
  let taddr := u64 (taddr - hex_base h) in
  if hex_in_range taddr len h then
    let '(bytes, h) := hex_read_words (Z.to_nat (len / hex_width h)) taddr h in (Done bytes, h)
  else (Assertion, h).

(** The source is not advanced: every word is written with the first bytes. *)
Fixpoint hex_write_words (n : nat) (taddr : Z) (src : list Z) (h : htif_hexwriter_t) : htif_hexwriter_t :=
  match n with
  | O => h
  | S n => hex_write_words n (u64 (taddr + hex_width h)) src (hex_set (taddr / hex_width h) (firstn (Z.to_nat (hex_width h)) src) h)
  end.
Definition hex_write_chunk (taddr : Z) (src : list Z) : host htif_hexwriter_t unit := fun h =>
  let taddr := u64 (taddr - hex_base h) in
  let len := Z.of_nat (length src) in
  if hex_in_range taddr len h then (Done tt, hex_write_words (Z.to_nat (len / hex_width h)) taddr src h)
  else (Assertion, h).

(** [operator<<]: the words in order, each from its last byte, in hexadecimal. *)
Definition hex_digit (d : Z) : Ascii.ascii := Ascii.ascii_of_nat (Z.to_nat (if d <? 10 then 48 + d else 87 + d)).
Definition hex_byte (b : Z) : string :=
  String (hex_digit (Z.shiftr b 4 .& 0xf)) (String (hex_digit (b .& 0xf)) EmptyString).
Definition hex_line (width : Z) (w : option (list Z)) : string :=
  match w with
  | None => String.concat EmptyString (repeat "00"%string (Z.to_nat width))
  | Some bytes => String.concat EmptyString (map hex_byte (rev bytes))
  end.
Definition hex_print (h : htif_hexwriter_t) : list string :=
  map (fun i => hex_line (hex_width h) (hex_mem h !! Z.of_nat i)) (seq 0 (Z.to_nat (hex_depth h))).

(** A memory of words of [width] bytes; [clear_chunk] does nothing. *)
Definition hexwriter_memif (width : Z) : chunked_memif htif_hexwriter_t := {|
  read_chunk := hex_read_chunk; write_chunk := hex_write_chunk; clear_chunk := fun _ _ => give tt;
  chunk_align := width; chunk_max_size := width; big_endian := false |}.
