(* ===== verification/ElfLoader.v ===== *)
(** The loader of ELF files, [fesvr/elfloader.cc] and [fesvr/elf.h]. *)

From S2P Require Import Prelude Mmu Memif.
Local Open Scope host_scope.

Definition ET_EXEC : Z := 2.
Definition ET_DYN : Z := 3.
Definition EM_RISCV : Z := 243.
Definition EM_NONE : Z := 0.
Definition EV_CURRENT : Z := 1.
Definition PT_LOAD : Z := 1.
Definition SHT_NOBITS : Z := 8.

(** * Layouts

    A field is its offset and its size in bytes; [word] is the width in bits of
    [Elf32_Off] and [Elf64_Off], in which offsets and sizes are added. *)
Definition field : Type := Z * Z.

Record layout : Type := mk_layout {
  word : Z;
  e_entry : field; e_phoff : field; e_shoff : field; e_phnum : field; e_shnum : field; e_shstrndx : field;
  sizeof_phdr : Z; p_type : field; p_offset : field; p_paddr : field; p_filesz : field; p_memsz : field;
  sizeof_shdr : Z; sh_name : field; sh_type : field; sh_offset : field; sh_size : field;
  sizeof_sym : Z; st_name : field; st_value : field }.

Definition sizeof_Elf64_Ehdr : Z := 64.
Definition e_type : field := (16, 2).
Definition e_machine : field := (18, 2).
Definition e_version : field := (20, 4).

Definition Elf32 : layout := {|
  word := 32;
  e_entry := (24, 4); e_phoff := (28, 4); e_shoff := (32, 4); e_phnum := (44, 2); e_shnum := (48, 2); e_shstrndx := (50, 2);
  sizeof_phdr := 32; p_type := (0, 4); p_offset := (4, 4); p_paddr := (12, 4); p_filesz := (16, 4); p_memsz := (20, 4);
  sizeof_shdr := 40; sh_name := (0, 4); sh_type := (4, 4); sh_offset := (16, 4); sh_size := (20, 4);
  sizeof_sym := 16; st_name := (0, 4); st_value := (4, 4) |}.

Definition Elf64 : layout := {|
  word := 64;
  e_entry := (24, 8); e_phoff := (32, 8); e_shoff := (40, 8); e_phnum := (56, 2); e_shnum := (60, 2); e_shstrndx := (62, 2);
  sizeof_phdr := 56; p_type := (0, 4); p_offset := (8, 8); p_paddr := (24, 8); p_filesz := (32, 8); p_memsz := (40, 8);
  sizeof_shdr := 64; sh_name := (0, 4); sh_type := (4, 4); sh_offset := (24, 8); sh_size := (32, 8);
  sizeof_sym := 24; st_name := (0, 4); st_value := (8, 8) |}.

(** * The file

    Its bytes, as they are mapped; a read that is not inside of it is [Wild]. *)
Section file.
Context (buf : list Z).

Definition size : Z := Z.of_nat (length buf).

Definition bytes_at (off n : Z) : option (list Z) :=
  if (0 <=? off) && (0 <=? n) && (off + n <=? size) then Some (firstn (Z.to_nat n) (skipn (Z.to_nat off) buf)) else None.

(** A field of the structure at [base], through [from_le] or [from_be]. *)
Definition get_field_at (big : bool) (base : Z) (f : field) : option Z :=
  l ← bytes_at (base + fst f) (snd f); Some (le_value (if big then rev l else l)).

(** [strnlen(s, n)] *)
Fixpoint strnlen (off : Z) (n : nat) : option Z :=
  match n with
  | O => Some 0
  | S n =>
      b ← bytes_at off 1;
      if bool_decide (b = [0]) then Some 0 else l ← strnlen (off + 1) n; Some (l + 1)
  end.

(** The string at an offset, up to its NUL. *)
Fixpoint c_string (bytes : list Z) : string :=
  match bytes with
  | [] => EmptyString
  | b :: bytes => if b =? 0 then EmptyString else String (Ascii.ascii_of_nat (Z.to_nat b)) (c_string bytes)
  end.
Definition string_at (off : Z) : string := c_string (skipn (Z.to_nat off) buf).

Definition e_ident (i : Z) : Z := nth (Z.to_nat i) buf 0.
Definition IS_ELF : bool := (e_ident 0 =? 0x7f) && (e_ident 1 =? 69) && (e_ident 2 =? 76) && (e_ident 3 =? 70).
Definition IS_ELF32 : bool := IS_ELF && (e_ident 4 =? 1).
Definition IS_ELF64 : bool := IS_ELF && (e_ident 4 =? 2).
Definition IS_ELFLE : bool := IS_ELF && (e_ident 5 =? 1).
Definition IS_ELFBE : bool := IS_ELF && (e_ident 5 =? 2).

(** [ELF_SWAP(hdr, hdr.f) == x], of a header that is there. *)
Definition header_is (f : field) (x : Z) : bool :=
  IS_ELF && match get_field_at (negb IS_ELFLE) 0 f with Some v => v =? x | None => false end.
Definition IS_ELF_EXEC : bool := header_is e_type ET_EXEC.
Definition IS_ELF_DYN : bool := header_is e_type ET_DYN.
Definition IS_ELF_RISCV : bool := header_is e_machine EM_RISCV.
Definition IS_ELF_EM_NONE : bool := header_is e_machine EM_NONE.
Definition IS_ELF_VCURRENT : bool := header_is e_version EV_CURRENT.

(** * Loading

    Over a memory with the [write] of a [memif_t]. *)
Section load.
Context {S : Type} (write : Z -> list Z -> host S unit) (l : layout) (big : bool) (load_offset : Z).

Definition fetch {A} (o : option A) : host S A := match o with Some a => give a | None => fails Wild end.
Definition get (base : Z) (f : field) : host S Z := fetch (get_field_at big base f).
Definition assert (b : bool) : host S unit := if b then give tt else fails Assertion.

(** [bswap(offset) + bswap(size)] in the width of the fields. *)
Definition end_of (off n : Z) : Z := wrap (word l) (off + n).

(** The body of the loop over the program headers. *)
Definition load_segment (ph : Z) : host S unit :=
  let? type := get ph (p_type l) in
  if negb (type =? PT_LOAD) then give tt else
  let? memsz := get ph (p_memsz l) in
  if memsz =? 0 then give tt else
  let? paddr := get ph (p_paddr l) in
  let load_addr := u64 (paddr + load_offset) in
  let? filesz := get ph (p_filesz l) in
  run (if filesz =? 0 then give tt else
       let? offset := get ph (p_offset l) in
       run assert (end_of offset filesz <=? size) in
       let? bytes := fetch (bytes_at offset filesz) in
       write load_addr bytes) in
  let pad := wrap (word l) (memsz - filesz) in
  if pad =? 0 then give tt
  else if 2 ^ 63 <=? pad then fails (Exception "vector::_M_default_append"%string)
  else write (u64 (load_addr + filesz)) (replicate (Z.to_nat pad) 0).
Fixpoint load_segments (n : nat) (ph : Z) : host S unit :=
  match n with O => give tt | Datatypes.S n => run load_segment ph in load_segments n (ph + sizeof_phdr l) end.

(** [max_len] and the assertions that a name of a string table ends in it: the table
    has [strsize] bytes at [strtab]. *)
Definition check_name (strtab strsize name : Z) : host S unit :=
  let max_len := u32 (strsize - name) in
  run assert (name <? strsize) in
  let? len := fetch (strnlen (strtab + name) (Z.to_nat max_len)) in
  assert (len <? max_len).

(** The loop over the sections from the [i]th, with the indices found. *)
Fixpoint find_tables (n : nat) (sh i shstrtab strsize : Z) (found : Z * Z) : host S (Z * Z) :=
  match n with
  | O => give found
  | Datatypes.S n =>
      let? name := get sh (sh_name l) in
      run check_name shstrtab strsize name in
      let? type := get sh (sh_type l) in
      let next := find_tables n (sh + sizeof_shdr l) (i + 1) shstrtab strsize in
      if z2b (type .& SHT_NOBITS) then next found else
      let? offset := get sh (sh_offset l) in
      let? sz := get sh (sh_size l) in
      run assert (end_of offset sz <=? size) in
      let s := string_at (shstrtab + name) in
      let '(strtabidx, symtabidx) := found in
      let strtabidx := if String.eqb s ".strtab" then i else strtabidx in
      let symtabidx := if String.eqb s ".symtab" then i else symtabidx in
      next (strtabidx, symtabidx)
  end.

(** The loop over the symbols.  Its counter has 32 bits, more than the symbols of a
    file below 64 GB. *)
Fixpoint load_symbols (n : nat) (sym strtab strsize : Z) (symbols : gmap string Z) : host S (gmap string Z) :=
  match n with
  | O => give symbols
  | Datatypes.S n =>
      let? name := get sym (st_name l) in
      run check_name strtab strsize name in
      let? value := get sym (st_value l) in
      load_symbols n (sym + sizeof_sym l) strtab strsize (<[string_at (strtab + name) := u64 (value + load_offset)]> symbols)
  end.

(** The macro [LOAD_ELF]: the entry point and the symbols. *)
Definition LOAD_ELF : host S (Z * gmap string Z) :=
  let? phoff := get 0 (e_phoff l) in
  let? entry := get 0 (e_entry l) in
  let entry := u64 (entry + load_offset) in
  let? phnum := get 0 (e_phnum l) in
  run assert (u64 (phoff + phnum * sizeof_phdr l) <=? size) in
  run load_segments (Z.to_nat phnum) phoff in
  let? shoff := get 0 (e_shoff l) in
  let? shnum := get 0 (e_shnum l) in
  run assert (u64 (shoff + shnum * sizeof_shdr l) <=? size) in
  let? shstrndx := get 0 (e_shstrndx l) in
  run assert (shstrndx <? shnum) in
  let shstr := shoff + shstrndx * sizeof_shdr l in
  let? shstrtab := get shstr (sh_offset l) in
  let? shstrsize := get shstr (sh_size l) in
  run assert (end_of shstrtab shstrsize <=? size) in
  let? found := find_tables (Z.to_nat shnum) shoff 0 shstrtab shstrsize (0, 0) in
  let '(strtabidx, symtabidx) := found in
  if (strtabidx =? 0) || (symtabidx =? 0) then give (entry, ∅) else
  let? strtab := get (shoff + strtabidx * sizeof_shdr l) (sh_offset l) in
  let? strsize := get (shoff + strtabidx * sizeof_shdr l) (sh_size l) in
  let? symtab := get (shoff + symtabidx * sizeof_shdr l) (sh_offset l) in
  let? symsize := get (shoff + symtabidx * sizeof_shdr l) (sh_size l) in
  let? symbols := load_symbols (Z.to_nat (symsize / sizeof_sym l)) symtab strtab strsize ∅ in
  give (entry, symbols).
End load.

Definition little_endian_file : string := "Specified ELF is little endian, but system uses a big-endian memory system. Rerun without --big-endian".
Definition big_endian_file : string := "Specified ELF is big endian, but system uses a little-endian memory system. Rerun with --big-endian".
Definition no_dual_endian : string := "Specified ELF is big endian.  Configure with --enable-dual-endian to enable support".

(** [load_elf] of a file that could be opened and mapped: [dual_endian] says whether
    [RISCV_ENABLE_DUAL_ENDIAN] is defined, [target_big] is the byte order of the memory. *)
Definition load_elf {S} (dual_endian : bool) (write : Z -> list Z -> host S unit) (target_big : bool) (load_offset required_xlen : Z) :
  host S (Z * gmap string Z) :=
  run assert (sizeof_Elf64_Ehdr <=? size) in
  run assert (IS_ELF32 || IS_ELF64) in
  let xlen := if IS_ELF32 then 32 else 64 in
  if negb (required_xlen =? 0) && negb (required_xlen =? xlen) then fails (Incompat_xlen required_xlen xlen) else
  run assert (IS_ELFLE || IS_ELFBE) in
  run assert (IS_ELF_EXEC || IS_ELF_DYN) in
  run assert (IS_ELF_RISCV || IS_ELF_EM_NONE) in
  run assert IS_ELF_VCURRENT in
  let load_offset := if IS_ELF_EXEC then 0 else load_offset in
  let l := if IS_ELF32 then Elf32 else Elf64 in
  if IS_ELFLE then
    if target_big then fails (Exception little_endian_file) else LOAD_ELF write l false load_offset
  else if negb dual_endian then fails (Exception no_dual_endian)
  else if negb target_big then fails (Exception big_endian_file)
  else LOAD_ELF write l true load_offset.
End file.
