(* ===== verification/Devices.v ===== *)
(** The devices of the platform, [riscv/abstract_device.h], [riscv/devices.h],
    [riscv/devices.cc] and [riscv/rom.cc]: the interface, the bus, the boot ROM
    and the memory. *)

From S2P Require Import Prelude IntArith Decode Encoding Trap Hart Pmp.

(** * The interface

    [abstract_device_t]: a device answers a load with the bytes and a store with
    success, and may act on harts (given by their numbers), drive a line of the
    interrupt controller, write to the terminal, or fail an assertion, which ends the
    program there and then.  The state of a device
    includes what it knows of the world. *)
Inductive effect : Type :=
| Act (hart : Z) (e : hart_effect)
| Irq (id : Z) (lvl : bool)
| Tx (c : Z)
| Aborts.
Abbreviation effects := (list effect).

Class abstract_device (D : Type) : Type := {
  dev_size : D -> Z;
  dev_load : Z -> Z -> D -> option (list Z) * D * effects;
  dev_store : Z -> list Z -> D -> bool * D * effects
}.

(** * Byte-wise access to registers of [size] bytes *)

(** [write_little_endian_reg]: the bytes fall on the register by address.  [None] is the
    failed assertion that there are no more bytes than the register has. *)
Fixpoint put_little_endian (size : Z) (word addr : Z) (bytes : list Z) : Z :=
  match bytes with
  | [] => word
  | b :: bytes =>
      let shift := 8 * (addr mod size) in
      let word := Z.lor (Z.ldiff word (Z.shiftl 0xff shift)) (Z.shiftl b shift) in
      put_little_endian size word (addr + 1) bytes
  end.
Definition write_little_endian_reg (size : Z) (word addr : Z) (bytes : list Z) : option Z :=
  if Z.of_nat (length bytes) <=? size then Some (put_little_endian size word addr bytes) else None.

Definition read_little_endian_reg (size : Z) (word addr len : Z) : option (list Z) :=
  if len <=? size then Some (map (fun i => u8 (Z.shiftr word (8 * ((addr + i) mod size)))) (zseq len)) else None.

(** A load that reads a register, and a store that writes one and goes on with it. *)
Definition load_reg {D} (size word addr len : Z) (d : D) (es : effects) : option (list Z) * D * effects :=
  match read_little_endian_reg size word addr len with
  | Some bytes => (Some bytes, d, es)
  | None => (None, d, es ++ [Aborts])
  end.
Definition store_reg {D} (size word addr : Z) (bytes : list Z) (d : D) (k : Z -> bool * D * effects)
    : bool * D * effects :=
  match write_little_endian_reg size word addr bytes with
  | Some word => k word
  | None => (false, d, [Aborts])
  end.

(** * The boot ROM *)

Record rom_device_t : Type := mk_rom { rom_data : list Z }.

Definition rom_load (addr len : Z) (r : rom_device_t) : option (list Z) :=
  if Z.of_nat (length (rom_data r)) <? u64 (addr + len) then None
  else Some (firstn (Z.to_nat len) (skipn (Z.to_nat addr) (rom_data r))).
Definition rom_size (r : rom_device_t) : Z := Z.of_nat (length (rom_data r)).

#[export] Instance rom_device : abstract_device rom_device_t := {|
  dev_size := rom_size;
  dev_load := fun addr len r => (rom_load addr len r, r, []);
  dev_store := fun _ _ r => (false, r, []) |}.

(** * Memory *)

(** [mem_t]: pages are allocated, with zeros, when they are first touched. *)
Record mem_t : Type := mk_mem { sparse_memory_map : gmap Z (gmap Z Z); sz : Z }.

(** The constructor throws on a size that is not a positive number of pages. *)
Definition new_mem (size : Z) : option mem_t :=
  if (size =? 0) || negb (size mod PGSIZE =? 0) then None else Some (mk_mem ∅ size).

(** [contents]: the page of the address, allocated if it is absent. *)
Definition touch_page (ppn : Z) (m : mem_t) : mem_t :=
  match sparse_memory_map m !! ppn with
  | Some _ => m
  | None => mk_mem (<[ppn := ∅]> (sparse_memory_map m)) (sz m)
  end.
Definition page_byte (m : mem_t) (ppn off : Z) : Z := default 0 (default ∅ (sparse_memory_map m !! ppn) !! off).
Definition set_page_byte (ppn off b : Z) (m : mem_t) : mem_t :=
  mk_mem (<[ppn := <[off := b]> (default ∅ (sparse_memory_map m !! ppn))]> (sparse_memory_map m)) (sz m).

(** [memcpy] within a page, from and to the offset [off]. *)
Definition copy_out (m : mem_t) (ppn off n : Z) : list Z := map (fun i => page_byte m ppn (off + i)) (zseq n).
Fixpoint copy_in (ppn off : Z) (bytes : list Z) (m : mem_t) : mem_t :=
  match bytes with [] => m | b :: bytes => copy_in ppn (off + 1) bytes (set_page_byte ppn off b m) end.

(** The loop of [load_store], page by page: every turn copies at least a byte,
    so the length is fuel enough. *)
Fixpoint mem_load_loop (fuel : nat) (addr len : Z) (m : mem_t) : list Z * mem_t :=
  match fuel with
  | O => ([], m)
  | S fuel =>
      if len <=? 0 then ([], m) else
      let ppn := Z.shiftr addr PGSHIFT in
      let n := Z.min (PGSIZE - addr mod PGSIZE) len in
      let m := touch_page ppn m in
      let bytes := copy_out m ppn (addr mod PGSIZE) n in
      let '(rest, m) := mem_load_loop fuel (addr + n) (len - n) m in (bytes ++ rest, m)
  end.
Fixpoint mem_store_loop (fuel : nat) (addr : Z) (bytes : list Z) (m : mem_t) : mem_t :=
  match fuel with
  | O => m
  | S fuel =>
      let len := Z.of_nat (length bytes) in
      if len <=? 0 then m else
      let ppn := Z.shiftr addr PGSHIFT in
      let n := Z.min (PGSIZE - addr mod PGSIZE) len in
      let m := copy_in ppn (addr mod PGSIZE) (firstn (Z.to_nat n) bytes) (touch_page ppn m) in
      mem_store_loop fuel (addr + n) (skipn (Z.to_nat n) bytes) m
  end.

Definition mem_in_range (addr len : Z) (m : mem_t) : bool :=
  negb ((u64 (addr + len) <? addr) || (sz m <? u64 (addr + len))).
Definition mem_load (addr len : Z) (m : mem_t) : option (list Z) * mem_t :=
  if mem_in_range addr len m
  then let '(bytes, m) := mem_load_loop (Z.to_nat len) addr len m in (Some bytes, m)
  else (None, m).
Definition mem_store (addr : Z) (bytes : list Z) (m : mem_t) : bool * mem_t :=
  if mem_in_range addr (Z.of_nat (length bytes)) m
  then (true, mem_store_loop (length bytes) addr bytes m) else (false, m).

#[export] Instance mem_device : abstract_device mem_t := {|
  dev_size := sz;
  dev_load := fun addr len m => let '(r, m) := mem_load addr len m in (r, m, []);
  dev_store := fun addr bytes m => let '(r, m) := mem_store addr bytes m in (r, m, []) |}.

(** [dump]: the pages in order, zeros for those never touched. *)
Definition mem_pages (m : mem_t) : list Z := zseq (sz m / PGSIZE).
Definition dump_page (m : mem_t) (ppn : Z) : list Z := copy_out m ppn 0 PGSIZE.
Definition mem_dump (m : mem_t) : list Z := concat (map (dump_page m) (mem_pages m)).

(** [checkpoint_restore]: reads a page of bytes into each page.  A stream that
    ends early leaves the rest of the pages as they are. *)
Fixpoint restore_pages (ppns : list Z) (input : list Z) (m : mem_t) : mem_t :=
  match ppns with
  | [] => m
  | ppn :: ppns =>
      restore_pages ppns (skipn (Z.to_nat PGSIZE) input)
        (copy_in ppn 0 (firstn (Z.to_nat PGSIZE) input) (touch_page ppn m))
  end.
Definition mem_checkpoint_restore (input : list Z) (m : mem_t) : mem_t := restore_pages (mem_pages m) input m.

(** * The bus *)

Section bus.
Context {D : Type} `{!abstract_device D}.

(** [devices] in the order of the [std::map], by base address. *)
Record bus_t : Type := mk_bus { devices : list (Z * D); fallback : D }.

(** The entries up to [addr], the last one first, and those after it:
    [upper_bound] points between the two. *)
Fixpoint upper_bound (addr : Z) (before l : list (Z * D)) : list (Z * D) * list (Z * D) :=
  match l with
  | [] => (before, [])
  | (base, d) :: l' => if base <=? addr then upper_bound addr ((base, d) :: before) l' else (before, l)
  end.

Fixpoint map_insert (addr : Z) (d : D) (l : list (Z * D)) : list (Z * D) :=
  match l with
  | [] => [(addr, d)]
  | (base, d') :: l' =>
      if addr <? base then (addr, d) :: l
      else if addr =? base then (addr, d) :: l'
      else (base, d') :: map_insert addr d l'
  end.

(** [None] is the [abort] on a device that overflows or overlaps. *)
Definition add_device (addr : Z) (dev : D) (b : bus_t) : option bus_t :=
  let size := dev_size dev in
  if size =? 0 then Some b
  else if u64 (addr + size - 1) <? addr then None
  else
    let '(before, after) := upper_bound addr [] (devices b) in
    let hits_next := match after with (base, _) :: _ => base <=? u64 (addr + size - 1) | [] => false end in
    let hits_prev := match before with (base, d) :: _ => addr <=? u64 (base + dev_size d - 1) | [] => false end in
    if hits_next || hits_prev then None
    else Some (mk_bus (map_insert addr dev (devices b)) (fallback b)).

(** What [find_device] returns: a device and its base, the fallback, or null. *)
Inductive found_device : Type := Found (base : Z) (d : D) | Found_fallback | Found_none.

Definition find_device (addr len : Z) (b : bus_t) : found_device :=
  if (len =? 0) || (u64 (addr + len - 1) <? addr) then Found_none else
  let '(before, after) := upper_bound addr [] (devices b) in
  let contains := match before with
                  | (base, d) :: _ => u64 (addr - base + len - 1) <? dev_size d | [] => false end in
  let partly_next := match after with (base, _) :: _ => base <=? u64 (addr + len - 1) | [] => false end in
  let partly_prev := match before with (base, d) :: _ => u64 (addr - base) <? dev_size d | [] => false end in
  match before with
  | (base, d) :: _ => if contains then Found base d
                      else if partly_next || partly_prev then Found_none else Found_fallback
  | [] => if partly_next then Found_none else Found_fallback
  end.

(** The bus with the state of the device at [base], or of the fallback, replaced. *)
Definition update_device (base : Z) (d : D) (b : bus_t) : bus_t :=
  mk_bus (map_insert base d (devices b)) (fallback b).

Definition bus_load (addr len : Z) (b : bus_t) : option (list Z) * bus_t * effects :=
  match find_device addr len b with
  | Found base d =>
      let '(r, d, es) := dev_load (u64 (addr - base)) len d in (r, update_device base d b, es)
  | Found_fallback =>
      let '(r, d, es) := dev_load addr len (fallback b) in (r, mk_bus (devices b) d, es)
  | Found_none => (None, b, [])
  end.

Definition bus_store (addr : Z) (bytes : list Z) (b : bus_t) : bool * bus_t * effects :=
  match find_device addr (Z.of_nat (length bytes)) b with
  | Found base d =>
      let '(r, d, es) := dev_store (u64 (addr - base)) bytes d in (r, update_device base d b, es)
  | Found_fallback =>
      let '(r, d, es) := dev_store addr bytes (fallback b) in (r, mk_bus (devices b) d, es)
  | Found_none => (false, b, [])
  end.

Definition bus_size (b : bus_t) : Z :=
  match rev (devices b) with (base, d) :: _ => u64 (base + dev_size d) | [] => 0 end.
End bus.
Arguments bus_t : clear implicits.
Arguments found_device : clear implicits.
