(* ===== verification/Clint.v ===== *)
(** The core-local interruptor, [riscv/clint.cc]: the timer, its compare
    registers and the software interrupts. *)

From S2P Require Import Prelude IntArith Decode Encoding Trap Hart Pmp Devices.

Definition CLINT_SIZE : Z := 0x000c0000.
Definition MSIP_BASE : Z := 0x0.
Definition MTIMECMP_BASE : Z := 0x4000.
Definition MTIME_BASE : Z := 0xbff8.

Record clint_t : Type := mk_clint {
  freq_hz : Z; real_time : bool; real_time_ref_secs : Z; real_time_ref_usecs : Z;
  mtime : Z; mtimecmp : gmap Z Z }.

(** The device with what it sees: [get_harts], each hart with its [mip] (of
    which only [MIP_MSIP] is read), in the order of the map, and the time of day
    in seconds and microseconds. *)
Abbreviation harts_t := (list (Z * Z)).
Record clint_dev : Type := mk_clint_dev { cl : clint_t; cl_harts : harts_t; cl_now : Z * Z }.

Fixpoint hart_mip (id : Z) (hs : harts_t) : option Z :=
  match hs with [] => None | (i, mip) :: hs => if i =? id then Some mip else hart_mip id hs end.
Definition mip_after (e : hart_effect) (mip : Z) : Z :=
  match e with Mip_backdoor mask val => (mip &~ mask) .| (val .& mask) | Time_sync _ => mip end.
Definition act (id : Z) (e : hart_effect) (hs : harts_t) : harts_t :=
  map (fun '(i, mip) => (i, if i =? id then mip_after e mip else mip)) hs.

(** [mtimecmp[hart_id]]: an entry that is absent is made, with zero. *)
Definition compare (c : clint_t) (id : Z) : Z := default 0 (mtimecmp c !! id).

Definition set_mtime (t : Z) (c : clint_t) : clint_t :=
  mk_clint (freq_hz c) (real_time c) (real_time_ref_secs c) (real_time_ref_usecs c) t (mtimecmp c).
Definition set_mtimecmp (id t : Z) (c : clint_t) : clint_t :=
  mk_clint (freq_hz c) (real_time c) (real_time_ref_secs c) (real_time_ref_usecs c) (mtime c) (<[id := t]> (mtimecmp c)).

(** The time after [rtc_ticks], or by the time of day. *)
Definition next_mtime (rtc_ticks : Z) (now : Z * Z) (c : clint_t) : Z :=
  if real_time c then
    let diff_usecs := u64 (u64 (u64 (fst now - real_time_ref_secs c) * 1000000) + u64 (snd now - real_time_ref_usecs c)) in
    u64 (diff_usecs * freq_hz c) / 1000000
  else u64 (mtime c + rtc_ticks).

Definition mtip (c : clint_t) (id : Z) : Z := if compare c id <=? mtime c then MIP_MTIP else 0.

Definition clint_tick (rtc_ticks : Z) (d : clint_dev) : clint_dev * effects :=
  let c := set_mtime (next_mtime rtc_ticks (cl_now d) (cl d)) (cl d) in
  (mk_clint_dev c (map (fun '(id, mip) => (id, mip_after (Mip_backdoor MIP_MTIP (mtip c id)) mip)) (cl_harts d)) (cl_now d),
   flat_map (fun '(id, _) => [Act id (Time_sync (mtime c)); Act id (Mip_backdoor MIP_MTIP (mtip c id))]) (cl_harts d)).

(** [clint_t::load] without the split of a doubleword of [msip]. *)
Definition clint_load_once (addr len : Z) (d : clint_dev) : option (list Z) * clint_dev * effects :=
  let '(d, es) := clint_tick 0 d in
  if addr <? MTIMECMP_BASE then
    let hart_id := (addr - MSIP_BASE) / 4 in
    let res := match hart_mip hart_id (cl_harts d) with Some mip => b2z (z2b (mip .& MIP_MSIP)) | None => 0 end in
    load_reg 4 res addr len d es
  else if addr <? MTIME_BASE then
    let hart_id := (addr - MTIMECMP_BASE) / 8 in
    let res := match hart_mip hart_id (cl_harts d) with Some _ => compare (cl d) hart_id | None => 0 end in
    load_reg 8 res addr len d es
  else if addr <? MTIME_BASE + 8 then load_reg 8 (mtime (cl d)) addr len d es
  else if u64 (addr + len) <=? CLINT_SIZE then (Some (repeat 0 (Z.to_nat len)), d, es)
  else (None, d, es).

Definition clint_load (addr len : Z) (d : clint_dev) : option (list Z) * clint_dev * effects :=
  if 8 <? len then (None, d, [])
  else if (addr <? MTIMECMP_BASE) && (len =? 8) then
    let '(d, es0) := clint_tick 0 d in
    let '(r1, d, es1) := clint_load_once addr 4 d in
    match r1 with
    | None => (None, d, es0 ++ es1)
    | Some b1 => let '(r2, d, es2) := clint_load_once (addr + 4) 4 d in
                 (option_map (app b1) r2, d, es0 ++ es1 ++ es2)
    end
  else clint_load_once addr len d.

(** The end of a store that succeeds: [tick(0)]. *)
Definition clint_stored (es : effects) (d : clint_dev) : bool * clint_dev * effects :=
  let '(d, es') := clint_tick 0 d in (true, d, es ++ es').

Definition clint_store_once (addr : Z) (bytes : list Z) (d : clint_dev) : bool * clint_dev * effects :=
  let len := Z.of_nat (length bytes) in
  let with_cl c := mk_clint_dev c (cl_harts d) (cl_now d) in
  if addr <? MTIMECMP_BASE then
    if addr mod 4 =? 0 then
      store_reg 4 0 addr bytes d (fun msip =>
      let hart_id := (addr - MSIP_BASE) / 4 in
      match hart_mip hart_id (cl_harts d) with
      | Some _ =>
          let e := Mip_backdoor MIP_MSIP (if z2b (msip .& 1) then MIP_MSIP else 0) in
          clint_stored [Act hart_id e] (mk_clint_dev (cl d) (act hart_id e (cl_harts d)) (cl_now d))
      | None => clint_stored [] d
      end)
    else clint_stored [] d
  else if addr <? MTIME_BASE then
    let hart_id := (addr - MTIMECMP_BASE) / 8 in
    match hart_mip hart_id (cl_harts d) with
    | Some _ => store_reg 8 (compare (cl d) hart_id) addr bytes d (fun t =>
                  clint_stored [] (with_cl (set_mtimecmp hart_id t (cl d))))
    | None => clint_stored [] d
    end
  else if addr <? MTIME_BASE + 8 then
    store_reg 8 (mtime (cl d)) addr bytes d (fun t => clint_stored [] (with_cl (set_mtime t (cl d))))
  else if u64 (addr + len) <=? CLINT_SIZE then clint_stored [] d
  else (false, d, []).

Definition clint_store (addr : Z) (bytes : list Z) (d : clint_dev) : bool * clint_dev * effects :=
  let len := Z.of_nat (length bytes) in
  if 8 <? len then (false, d, [])
  else if (addr <? MTIMECMP_BASE) && (len =? 8) then
    let '(r1, d, es1) := clint_store_once addr (firstn 4 bytes) d in
    if r1 then let '(r2, d, es2) := clint_store_once (addr + 4) (skipn 4 bytes) d in (r2, d, es1 ++ es2)
    else (false, d, es1)
  else clint_store_once addr bytes d.

#[export] Instance clint_device : abstract_device clint_dev := {|
  dev_size := fun _ => CLINT_SIZE;
  dev_load := clint_load;
  dev_store := clint_store |}.

(** The constructor: the reference time is now. *)
Definition new_clint (freq : Z) (rt : bool) (hs : harts_t) (now : Z * Z) : clint_dev * effects :=
  clint_tick 0 (mk_clint_dev (mk_clint freq rt (fst now) (snd now) 0 ∅) hs now).

(** [checkpoint] keeps the compare register of hart 0 only, and
    [checkpoint_restore] puts it back there. *)
Definition clint_checkpoint (c : clint_t) : clint_t * Z :=
  (mk_clint (freq_hz c) (real_time c) (real_time_ref_secs c) (real_time_ref_usecs c) (mtime c) ∅, compare c 0).
Definition clint_checkpoint_restore (j : clint_t * Z) (c : clint_t) : clint_t :=
  mk_clint (freq_hz j.1) (real_time j.1) (real_time_ref_secs j.1) (real_time_ref_usecs j.1) (mtime j.1)
    (<[0 := j.2]> (mtimecmp c)).
