(* ===== verification/Plic.v ===== *)
(** The platform-level interrupt controller, [riscv/plic.cc]. *)

From S2P Require Import Prelude IntArith Decode Encoding Trap Hart Pmp Devices.

Definition PLIC_SIZE : Z := 0x01000000.
Definition PLIC_PRIO_BITS : Z := 4.
Definition PRIORITY_BASE : Z := 0.
Definition PENDING_BASE : Z := 0x1000.
Definition ENABLE_BASE : Z := 0x2000.
Definition ENABLE_PER_HART : Z := 0x80.
Definition CONTEXT_BASE : Z := 0x200000.
Definition CONTEXT_PER_HART : Z := 0x1000.
Definition CONTEXT_THRESHOLD : Z := 0.
Definition CONTEXT_CLAIM : Z := 4.
Definition REG_SIZE : Z := 0x1000000.

(** The arrays are maps; an element never written is zero. *)
Abbreviation words := (gmap Z Z).
Definition word (m : words) (i : Z) : Z := default 0 (m !! i).
Definition set_bit (m : words) (i mask : Z) : words := <[i := word m i .| mask]> m.
Definition clear_bit (m : words) (i mask : Z) : words := <[i := word m i &~ mask]> m.

Record plic_context_t : Type := mk_context {
  proc : Z; mmode : bool; priority_threshold : Z;
  enable : words; pending : words; pending_priority : words; claimed : words }.

Record plic_t : Type := mk_plic {
  contexts : list plic_context_t; num_ids : Z; num_ids_word : Z; max_prio : Z;
  priority : words; level : words }.

Definition set_threshold (x : Z) (c : plic_context_t) : plic_context_t :=
  mk_context (proc c) (mmode c) x (enable c) (pending c) (pending_priority c) (claimed c).
Definition set_enable (x : words) (c : plic_context_t) : plic_context_t :=
  mk_context (proc c) (mmode c) (priority_threshold c) x (pending c) (pending_priority c) (claimed c).
Definition set_claimed (x : words) (c : plic_context_t) : plic_context_t :=
  mk_context (proc c) (mmode c) (priority_threshold c) (enable c) (pending c) (pending_priority c) x.

(** An interrupt becomes pending with a priority, or stops being so. *)
Definition raise_pending (id_word id_mask id prio : Z) (c : plic_context_t) : plic_context_t :=
  mk_context (proc c) (mmode c) (priority_threshold c) (enable c) (set_bit (pending c) id_word id_mask)
    (<[id := prio]> (pending_priority c)) (claimed c).
Definition drop_pending (id_word id_mask id : Z) (c : plic_context_t) : plic_context_t :=
  mk_context (proc c) (mmode c) (priority_threshold c) (enable c) (clear_bit (pending c) id_word id_mask)
    (<[id := 0]> (pending_priority c)) (clear_bit (claimed c) id_word id_mask).

(** Per hart, a context for M-mode and, with the supervisor, one for S-mode. *)
Definition new_plic (harts : list (Z * bool)) (ndev : Z) : plic_t :=
  let context h m := mk_context h m 0 ∅ ∅ ∅ ∅ in
  mk_plic (flat_map (fun '(h, s) => context h true :: if s : bool then [context h false] else []) harts)
    (ndev + 1) ((ndev + 1 + (32 - 1)) / 32) (Z.shiftl 1 PLIC_PRIO_BITS - 1) ∅ ∅.

(** One interrupt of the search: [best] is [best_id] and [best_id_prio]. *)
Definition best_step (p : plic_t) (c : plic_context_t) (i j : Z) (best : Z * Z) : Z * Z :=
  let '(best_id, best_id_prio) := best in
  let id := i * 32 + j in
  if (num_ids p <=? id) || negb (Z.testbit (word (pending c) i) j) || Z.testbit (word (claimed c) i) j then best
  else if (best_id =? 0) || (best_id_prio <? word (pending_priority c) id)
  then (id, word (pending_priority c) id) else best.

Definition best_loop (p : plic_t) (c : plic_context_t) : Z * Z :=
  fold_left (fun best i =>
    if word (pending c) i =? 0 then best
    else fold_left (fun best j => best_step p c i j best) (zseq 32) best)
    (zseq (num_ids_word p)) (0, 0).

Definition context_best_pending (p : plic_t) (c : plic_context_t) : Z :=
  let '(best_id, best_id_prio) := best_loop p c in
  if best_id_prio <=? priority_threshold c then 0 else best_id.

Definition context_update (p : plic_t) (c : plic_context_t) : effects :=
  let best_id := context_best_pending p c in
  let mask := if mmode c then MIP_MEIP else MIP_SEIP in
  [Act (proc c) (Mip_backdoor mask (if z2b best_id then mask else 0))].

Definition context_claim (p : plic_t) (c : plic_context_t) : Z * plic_context_t * effects :=
  let best_id := context_best_pending p c in
  let c := if z2b best_id
           then set_claimed (set_bit (claimed c) (best_id / 32) (Z.shiftl 1 (best_id mod 32))) c else c in
  (best_id, c, context_update p c).

Definition priority_read (p : plic_t) (offset : Z) : Z :=
  let id := u32 (Z.shiftr offset 2) in
  if (0 <? id) && (id <? num_ids p) then word (priority p) id else 0.

Definition priority_write (p : plic_t) (offset val : Z) : plic_t :=
  let id := u32 (Z.shiftr offset 2) in
  if (0 <? id) && (id <? num_ids p)
  then mk_plic (contexts p) (num_ids p) (num_ids_word p) (max_prio p)
         (<[id := val .& (Z.shiftl 1 PLIC_PRIO_BITS - 1)]> (priority p)) (level p)
  else p.

Definition pending_read (p : plic_t) (offset : Z) : Z :=
  let id_word := u32 (Z.shiftr offset 2) in
  if id_word <? num_ids_word p
  then fold_left (fun val c => val .| word (pending c) id_word) (contexts p) 0 else 0.

Definition context_enable_read (p : plic_t) (c : plic_context_t) (offset : Z) : Z :=
  let id_word := u32 (Z.shiftr offset 2) in
  if id_word <? num_ids_word p then word (enable c) id_word else 0.

(** One bit of the word written. *)
Definition enable_step (p : plic_t) (id_word old_val new_val i : Z) (c : plic_context_t) : plic_context_t :=
  let id := id_word * 32 + i in
  if negb (Z.testbit (old_val .^ new_val) i) then c
  else if Z.testbit new_val i && Z.testbit (word (level p) id_word) i
  then raise_pending id_word (Z.shiftl 1 i) id (word (priority p) id) c
  else if negb (Z.testbit new_val i) then drop_pending id_word (Z.shiftl 1 i) id c
  else c.

Definition context_enable_write (p : plic_t) (c : plic_context_t) (offset val : Z) : plic_context_t * effects :=
  let id_word := u32 (Z.shiftr offset 2) in
  if num_ids_word p <=? id_word then (c, []) else
  let old_val := word (enable c) id_word in
  let new_val := if id_word =? 0 then val &~ 1 else val in
  let c := set_enable (<[id_word := new_val]> (enable c)) c in
  let c := fold_left (fun c i => enable_step p id_word old_val new_val i c) (zseq 32) c in
  (c, context_update p c).

Definition context_read (p : plic_t) (c : plic_context_t) (offset : Z) : Z * plic_context_t * effects :=
  if offset =? CONTEXT_THRESHOLD then (priority_threshold c, c, [])
  else if offset =? CONTEXT_CLAIM then context_claim p c
  else (0, c, []).

Definition context_write (p : plic_t) (c : plic_context_t) (offset val : Z) : bool * plic_context_t * effects :=
  if offset =? CONTEXT_THRESHOLD then
    let val := val .& (Z.shiftl 1 PLIC_PRIO_BITS - 1) in
    if val <=? max_prio p then let c := set_threshold val c in (true, c, context_update p c)
    else (false, c, [])
  else if offset =? CONTEXT_CLAIM then
    let id_word := val / 32 in
    if (val <? num_ids p) && Z.testbit (word (enable c) id_word) (val mod 32) then
      let c := set_claimed (clear_bit (claimed c) id_word (Z.shiftl 1 (val mod 32))) c in (true, c, context_update p c)
    else (true, c, [])
  else (false, c, []).

Definition with_contexts (cs : list plic_context_t) (p : plic_t) : plic_t :=
  mk_plic cs (num_ids p) (num_ids_word p) (max_prio p) (priority p) (level p).
Definition set_level (x : words) (p : plic_t) : plic_t :=
  mk_plic (contexts p) (num_ids p) (num_ids_word p) (max_prio p) (priority p) x.

(** The loop of [set_interrupt_level]: the first context that enables the
    interrupt takes it. *)
Fixpoint deliver (p : plic_t) (id prio : Z) (lvl : bool) (cs : list plic_context_t) : list plic_context_t * effects :=
  match cs with
  | [] => ([], [])
  | c :: cs =>
      if Z.testbit (word (enable c) (id / 32)) (id mod 32) then
        let mask := Z.shiftl 1 (id mod 32) in
        let c := if lvl then raise_pending (id / 32) mask id prio c else drop_pending (id / 32) mask id c in
        (c :: cs, context_update p c)
      else let '(cs, es) := deliver p id prio lvl cs in (c :: cs, es)
  end.

Definition set_interrupt_level (id : Z) (lvl : bool) (p : plic_t) : plic_t * effects :=
  if (id <=? 0) || (num_ids p <=? id) then (p, []) else
  let mask := Z.shiftl 1 (id mod 32) in
  let p := set_level (if lvl then set_bit (level p) (id / 32) mask else clear_bit (level p) (id / 32) mask) p in
  let '(cs, es) := deliver p id (word (priority p) id) lvl (contexts p) in
  (with_contexts cs p, es).

(** Runs an operation on context [cntx]; [None] if there is none. *)
Definition on_context {A} (p : plic_t) (cntx : Z) (f : plic_context_t -> A * plic_context_t * effects)
    : option (A * plic_t * effects) :=
  match contexts p !! Z.to_nat cntx with
  | None => None
  | Some c => let '(r, c, es) := f c in Some (r, with_contexts (<[Z.to_nat cntx := c]> (contexts p)) p, es)
  end.

(** [plic_t::load] of a word. *)
Definition plic_load_word (addr : Z) (p : plic_t) : option (list Z) * plic_t * effects :=
  let answer offset val p es := load_reg 4 val offset 4 p es in
  if addr <? PENDING_BASE then answer addr (priority_read p addr) p []
  else if addr <? ENABLE_BASE then answer addr (pending_read p (addr - PENDING_BASE)) p []
  else if addr <? CONTEXT_BASE then
    let cntx := (addr - ENABLE_BASE) / ENABLE_PER_HART in
    let offset := addr - (cntx * ENABLE_PER_HART + ENABLE_BASE) in
    match on_context p cntx (fun c => (context_enable_read p c offset, c, [])) with
    | Some (val, p, es) => answer offset val p es
    | None => (None, p, [])
    end
  else if addr <? REG_SIZE then
    let cntx := (addr - CONTEXT_BASE) / CONTEXT_PER_HART in
    let offset := addr - (cntx * CONTEXT_PER_HART + CONTEXT_BASE) in
    match on_context p cntx (fun c => context_read p c offset) with
    | Some (val, p, es) => answer offset val p es
    | None => (None, p, [])
    end
  else (None, p, []).

(** A doubleword is a pair of words; other lengths are refused. *)
Definition plic_load (addr len : Z) (p : plic_t) : option (list Z) * plic_t * effects :=
  if len =? 4 then plic_load_word addr p
  else if len =? 8 then
    let '(r1, p, es1) := plic_load_word addr p in
    match r1 with
    | None => (None, p, es1)
    | Some b1 => let '(r2, p, es2) := plic_load_word (addr + 4) p in (option_map (app b1) r2, p, es1 ++ es2)
    end
  else (None, p, []).

Definition plic_store_word (addr : Z) (bytes : list Z) (p : plic_t) : bool * plic_t * effects :=
  store_reg 4 0 addr bytes p (fun val =>
  if addr <? ENABLE_BASE then (true, priority_write p addr val, [])
  else if addr <? CONTEXT_BASE then
    let cntx := (addr - ENABLE_BASE) / ENABLE_PER_HART in
    let offset := addr - (cntx * ENABLE_PER_HART + ENABLE_BASE) in
    match on_context p cntx (fun c => let '(c, es) := context_enable_write p c offset val in (true, c, es)) with
    | Some r => r
    | None => (false, p, [])
    end
  else if addr <? REG_SIZE then
    let cntx := (addr - CONTEXT_BASE) / CONTEXT_PER_HART in
    let offset := addr - (cntx * CONTEXT_PER_HART + CONTEXT_BASE) in
    match on_context p cntx (fun c => context_write p c offset val) with
    | Some r => r
    | None => (false, p, [])
    end
  else (false, p, [])).

Definition plic_store (addr : Z) (bytes : list Z) (p : plic_t) : bool * plic_t * effects :=
  let len := Z.of_nat (length bytes) in
  if len =? 4 then plic_store_word addr bytes p
  else if len =? 8 then
    let '(r1, p, es1) := plic_store_word addr (firstn 4 bytes) p in
    if r1 then let '(r2, p, es2) := plic_store_word (addr + 4) (skipn 4 bytes) p in (r2, p, es1 ++ es2)
    else (false, p, es1)
  else (false, p, []).

#[export] Instance plic_device : abstract_device plic_t := {|
  dev_size := fun _ => PLIC_SIZE;
  dev_load := plic_load;
  dev_store := plic_store |}.

(** [checkpoint] and [checkpoint_restore]: of a context, all but the hart; the
    arrays have [PLIC_MAX_DEVICES] elements, or one for every 32 of them. *)
Definition PLIC_MAX_DEVICES : Z := 1024.
Definition save_array (n : Z) (m : words) : list Z := map (word m) (zseq n).
Definition restore_array (l : list Z) (m : words) : words := list_to_map (zip (zseq (Z.of_nat (length l))) l) ∪ m.

Record context_json : Type := mk_context_json {
  j_mmode : bool; j_threshold : Z; j_enable : list Z; j_pending : list Z; j_pending_priority : list Z; j_claimed : list Z }.
Definition context_checkpoint (c : plic_context_t) : context_json :=
  mk_context_json (mmode c) (priority_threshold c) (save_array (PLIC_MAX_DEVICES / 32) (enable c))
    (save_array (PLIC_MAX_DEVICES / 32) (pending c)) (save_array PLIC_MAX_DEVICES (pending_priority c))
    (save_array (PLIC_MAX_DEVICES / 32) (claimed c)).
Definition context_checkpoint_restore (j : context_json) (c : plic_context_t) : plic_context_t :=
  mk_context (proc c) (j_mmode j) (j_threshold j) (restore_array (j_enable j) (enable c))
    (restore_array (j_pending j) (pending c)) (restore_array (j_pending_priority j) (pending_priority c))
    (restore_array (j_claimed j) (claimed c)).

Record plic_json : Type := mk_plic_json {
  j_contexts : list context_json; j_num_ids : Z; j_num_ids_word : Z; j_max_prio : Z; j_priority : list Z; j_level : list Z }.
Definition plic_checkpoint (p : plic_t) : plic_json :=
  mk_plic_json (map context_checkpoint (contexts p)) (num_ids p) (num_ids_word p) (max_prio p)
    (save_array PLIC_MAX_DEVICES (priority p)) (save_array (PLIC_MAX_DEVICES / 32) (level p)).
Definition plic_checkpoint_restore (j : plic_json) (p : plic_t) : plic_t :=
  mk_plic (zip_with context_checkpoint_restore (j_contexts j) (contexts p)) (j_num_ids j) (j_num_ids_word j) (j_max_prio j)
    (restore_array (j_priority j) (priority p)) (restore_array (j_level j) (level p)).
