(* ===== verification/Uart.v ===== *)
(** The serial port, [riscv/ns16550.cc]. *)

From S2P Require Import Prelude IntArith Decode Encoding Trap Hart Pmp Devices.

Definition NS16550_SIZE : Z := 0x100.
Definition UART_QUEUE_SIZE : Z := 64.
Definition UART_RX : Z := 0.
Definition UART_TX : Z := 0.
Definition UART_IER : Z := 1.
Definition UART_IER_THRI : Z := 0x02.
Definition UART_IER_RDI : Z := 0x01.
Definition UART_IIR : Z := 2.
Definition UART_IIR_NO_INT : Z := 0x01.
Definition UART_IIR_THRI : Z := 0x02.
Definition UART_IIR_RDI : Z := 0x04.
Definition UART_IIR_RLSI : Z := 0x06.
Definition UART_IIR_TYPE_BITS : Z := 0xc0.
Definition UART_FCR : Z := 2.
Definition UART_FCR_ENABLE_FIFO : Z := 0x01.
Definition UART_FCR_CLEAR_RCVR : Z := 0x02.
Definition UART_FCR_CLEAR_XMIT : Z := 0x04.
Definition UART_LCR : Z := 3.
Definition UART_LCR_DLAB : Z := 0x80.
Definition UART_MCR : Z := 4.
Definition UART_MCR_LOOP : Z := 0x10.
Definition UART_MCR_OUT2 : Z := 0x08.
Definition UART_LSR : Z := 5.
Definition UART_LSR_TEMT : Z := 0x40.
Definition UART_LSR_THRE : Z := 0x20.
Definition UART_LSR_BI : Z := 0x10.
Definition UART_LSR_DR : Z := 0x01.
Definition UART_MSR : Z := 6.
Definition UART_MSR_DCD : Z := 0x80.
Definition UART_MSR_DSR : Z := 0x20.
Definition UART_MSR_CTS : Z := 0x10.
Definition UART_SCR : Z := 7.
Definition MAX_BACKOFF : Z := 16.

(** What the constructor fixes. *)
Record ns16550_config : Type := mk_ns16550_config {
  interrupt_id : Z; reg_shift : Z; reg_io_width : Z; disable_stdin : bool }.

Record ns16550_t : Type := mk_ns16550 {
  ns_config : ns16550_config;
  rx_queue : list Z;
  dll : Z; dlm : Z; iir : Z; ier : Z; fcr : Z; lcr : Z; mcr : Z; lsr : Z; msr : Z; scr : Z;
  backoff_counter : Z }.

Definition set_rx_queue (x : list Z) (u : ns16550_t) : ns16550_t :=
  mk_ns16550 (ns_config u) x (dll u) (dlm u) (iir u) (ier u) (fcr u) (lcr u) (mcr u) (lsr u) (msr u) (scr u) (backoff_counter u).
Definition set_dll (x : Z) (u : ns16550_t) : ns16550_t :=
  mk_ns16550 (ns_config u) (rx_queue u) x (dlm u) (iir u) (ier u) (fcr u) (lcr u) (mcr u) (lsr u) (msr u) (scr u) (backoff_counter u).
Definition set_dlm (x : Z) (u : ns16550_t) : ns16550_t :=
  mk_ns16550 (ns_config u) (rx_queue u) (dll u) x (iir u) (ier u) (fcr u) (lcr u) (mcr u) (lsr u) (msr u) (scr u) (backoff_counter u).
Definition set_iir (x : Z) (u : ns16550_t) : ns16550_t :=
  mk_ns16550 (ns_config u) (rx_queue u) (dll u) (dlm u) x (ier u) (fcr u) (lcr u) (mcr u) (lsr u) (msr u) (scr u) (backoff_counter u).
Definition set_ier (x : Z) (u : ns16550_t) : ns16550_t :=
  mk_ns16550 (ns_config u) (rx_queue u) (dll u) (dlm u) (iir u) x (fcr u) (lcr u) (mcr u) (lsr u) (msr u) (scr u) (backoff_counter u).
Definition set_fcr (x : Z) (u : ns16550_t) : ns16550_t :=
  mk_ns16550 (ns_config u) (rx_queue u) (dll u) (dlm u) (iir u) (ier u) x (lcr u) (mcr u) (lsr u) (msr u) (scr u) (backoff_counter u).
Definition set_lcr (x : Z) (u : ns16550_t) : ns16550_t :=
  mk_ns16550 (ns_config u) (rx_queue u) (dll u) (dlm u) (iir u) (ier u) (fcr u) x (mcr u) (lsr u) (msr u) (scr u) (backoff_counter u).
Definition set_mcr (x : Z) (u : ns16550_t) : ns16550_t :=
  mk_ns16550 (ns_config u) (rx_queue u) (dll u) (dlm u) (iir u) (ier u) (fcr u) (lcr u) x (lsr u) (msr u) (scr u) (backoff_counter u).
Definition set_lsr (x : Z) (u : ns16550_t) : ns16550_t :=
  mk_ns16550 (ns_config u) (rx_queue u) (dll u) (dlm u) (iir u) (ier u) (fcr u) (lcr u) (mcr u) x (msr u) (scr u) (backoff_counter u).
Definition set_scr (x : Z) (u : ns16550_t) : ns16550_t :=
  mk_ns16550 (ns_config u) (rx_queue u) (dll u) (dlm u) (iir u) (ier u) (fcr u) (lcr u) (mcr u) (lsr u) (msr u) x (backoff_counter u).
Definition set_backoff (x : Z) (u : ns16550_t) : ns16550_t :=
  mk_ns16550 (ns_config u) (rx_queue u) (dll u) (dlm u) (iir u) (ier u) (fcr u) (lcr u) (mcr u) (lsr u) (msr u) (scr u) x.

Definition new_ns16550 (c : ns16550_config) : ns16550_t :=
  mk_ns16550 c [] 0x0C 0 UART_IIR_NO_INT 0 0 0 UART_MCR_OUT2 (UART_LSR_TEMT .| UART_LSR_THRE)
    (UART_MSR_DCD .| UART_MSR_DSR .| UART_MSR_CTS) 0 0.

Definition has_flag (r mask : Z) : bool := z2b (r .& mask).

Definition clear_rx (u : ns16550_t) : ns16550_t :=
  if has_flag (fcr u) UART_FCR_CLEAR_RCVR
  then set_lsr (lsr u &~ UART_LSR_DR) (set_rx_queue [] (set_fcr (fcr u &~ UART_FCR_CLEAR_RCVR) u)) else u.
Definition clear_tx (u : ns16550_t) : ns16550_t :=
  if has_flag (fcr u) UART_FCR_CLEAR_XMIT
  then set_lsr (lsr u .| (UART_LSR_TEMT .| UART_LSR_THRE)) (set_fcr (fcr u &~ UART_FCR_CLEAR_XMIT) u) else u.

(** The identification of the pending interrupts. *)
Definition pending_interrupts (u : ns16550_t) : Z :=
  (if has_flag (ier u) UART_IER_RDI && has_flag (lsr u) UART_LSR_DR then UART_IIR_RDI else 0) .|
  (if has_flag (ier u) UART_IER_THRI && has_flag (lsr u) UART_LSR_TEMT then UART_IIR_THRI else 0).

Definition update_interrupt (u : ns16550_t) : ns16550_t * effects :=
  let u := clear_tx (clear_rx u) in
  let interrupts := pending_interrupts u in
  let '(u, es) :=
    if z2b interrupts then (set_iir interrupts u, [Irq (interrupt_id (ns_config u)) true])
    else (set_iir UART_IIR_NO_INT u, [Irq (interrupt_id (ns_config u)) false]) in
  (if has_flag (ier u) UART_IER_THRI then u else set_lsr (lsr u .| (UART_LSR_TEMT .| UART_LSR_THRE)) u, es).

Definition rx_byte (u : ns16550_t) : Z * ns16550_t :=
  match rx_queue u with
  | [] => (0, set_lsr (lsr u &~ UART_LSR_DR) u)
  | b :: q =>
      if has_flag (lsr u) UART_LSR_BI then (0, set_lsr (lsr u &~ UART_LSR_BI) u)
      else
        let u := set_rx_queue q u in
        (b, match q with [] => set_lsr (lsr u &~ UART_LSR_DR) u | _ => u end)
  end.

Definition tx_byte (val : Z) (u : ns16550_t) : ns16550_t * effects :=
  (set_lsr (lsr u .| (UART_LSR_TEMT .| UART_LSR_THRE)) u, [Tx val]).

(** The register an access names, if its width and place are right. *)
Definition uart_register (addr len : Z) (u : ns16550_t) : option Z :=
  if negb (reg_io_width (ns_config u) =? len) then None
  else if PGSIZE <? u64 (addr + len) then None
  else Some (Z.shiftr addr (reg_shift (ns_config u)) .& 7).

(** The byte returned is [bytes[0]]; the caller's other bytes are not written. *)
Definition ns16550_load (addr len : Z) (u : ns16550_t) : option Z * ns16550_t * effects :=
  match uart_register addr len u with
  | None => (None, u, [])
  | Some r =>
      if r =? UART_RX then
        let '(val, u) := if has_flag (lcr u) UART_LCR_DLAB then (dll u, u) else rx_byte u in
        let '(u, es) := update_interrupt u in (Some val, u, es)
      else if r =? UART_IER then (Some (if has_flag (lcr u) UART_LCR_DLAB then dlm u else ier u), u, [])
      else if r =? UART_IIR then (Some (iir u .| UART_IIR_TYPE_BITS), u, [])
      else if r =? UART_LCR then (Some (lcr u), u, [])
      else if r =? UART_MCR then (Some (mcr u), u, [])
      else if r =? UART_LSR then (Some (lsr u), u, [])
      else if r =? UART_MSR then (Some (msr u), u, [])
      else (Some (scr u), u, [])
  end.

Definition updated (es : effects) (u : ns16550_t) : bool * ns16550_t * effects :=
  let '(u, es') := update_interrupt u in (true, u, es ++ es').

Definition ns16550_store (addr : Z) (bytes : list Z) (u : ns16550_t) : bool * ns16550_t * effects :=
  match uart_register addr (Z.of_nat (length bytes)) u with
  | None => (false, u, [])
  | Some r =>
      let val := hd 0 bytes in
      if r =? UART_TX then
        if has_flag (lcr u) UART_LCR_DLAB then updated [] (set_dll val u)
        else if has_flag (mcr u) UART_MCR_LOOP then
          updated [] (if Z.of_nat (length (rx_queue u)) <? UART_QUEUE_SIZE
                      then set_lsr (lsr u .| UART_LSR_DR) (set_rx_queue (rx_queue u ++ [val]) u) else u)
        else let '(u, es) := tx_byte val u in updated es u
      else if r =? UART_IER then
        updated [] (if has_flag (lcr u) UART_LCR_DLAB then set_dlm val u else set_ier (val .& 0x0f) u)
      else if r =? UART_FCR then updated [] (set_fcr val u)
      else if r =? UART_LCR then updated [] (set_lcr val u)
      else if r =? UART_MCR then updated [] (set_mcr val u)
      else if r =? UART_LSR then (true, u, [])
      else if r =? UART_MSR then (true, u, [])
      else (true, set_scr val u, [])
  end.

(** [rc] is what the terminal answers: a byte, or [-1] for none. *)
Definition ns16550_tick (rc : Z) (u : ns16550_t) : ns16550_t * effects :=
  if negb (has_flag (fcr u) UART_FCR_ENABLE_FIFO) || has_flag (mcr u) UART_MCR_LOOP
     || (UART_QUEUE_SIZE <=? Z.of_nat (length (rx_queue u))) then (u, [])
  else if (0 <? backoff_counter u) && (backoff_counter u <? MAX_BACKOFF)
  then (set_backoff (backoff_counter u + 1) u, [])
  else
    let rc := if disable_stdin (ns_config u) then -1 else rc in
    if rc <? 0 then (set_backoff 1 u, [])
    else update_interrupt (set_lsr (lsr u .| UART_LSR_DR)
           (set_rx_queue (rx_queue u ++ [u8 rc]) (set_backoff 0 u))).

#[export] Instance ns16550_device : abstract_device ns16550_t := {|
  dev_size := fun _ => NS16550_SIZE;
  dev_load := fun addr len u => let '(r, u, es) := ns16550_load addr len u in
                (option_map (fun b => b :: repeat 0 (Z.to_nat len - 1)) r, u, es);
  dev_store := ns16550_store |}.

(** [checkpoint] and [checkpoint_restore], over the values that are saved.
    Restoring appends the saved bytes to the queue. *)
Definition ns16550_checkpoint (u : ns16550_t) : list Z * list Z :=
  (rx_queue u, [dll u; dlm u; iir u; ier u; fcr u; lcr u; mcr u; lsr u; msr u; scr u; backoff_counter u]).
Definition ns16550_checkpoint_restore (j : list Z * list Z) (u : ns16550_t) : ns16550_t :=
  match snd j with
  | [a; b; c; d; e; f; g; h; i; k; l] => mk_ns16550 (ns_config u) (rx_queue u ++ fst j) a b c d e f g h i k l
  | _ => u
  end.

(** Whether a tick reads the terminal. *)
Definition ns16550_polls (u : ns16550_t) : bool :=
  has_flag (fcr u) UART_FCR_ENABLE_FIFO && negb (has_flag (mcr u) UART_MCR_LOOP)
  && (Z.of_nat (length (rx_queue u)) <? UART_QUEUE_SIZE)
  && negb ((0 <? backoff_counter u) && (backoff_counter u <? MAX_BACKOFF)) && negb (disable_stdin (ns_config u)).
