(* ===== verification/Macros.v ===== *)
(** The vocabulary of the instruction bodies: [riscv/decode_macros.h],
    [riscv/insn_macros.h], [riscv/zicfiss.h], the prologue and epilogue of
    [riscv/insn_template.cc], and the methods of [processor_t] that
    instructions call ([get_csr], [put_csr], [set_privilege]).

    An instruction body is an [M unit] that reads [insn] and [insn_pc]; the
    local variable [npc] of the C++ function is the field [npc] of the hart.
    [reg_t] values are [Z]s in [[0, 2^64)].  A macro argument with side effects
    is a computation, run where the macro evaluates it. *)

From S2P Require Import Prelude IntArith Decode Encoding IsaExt Trap Hart Pmp Csr CsrFile CsrInit Mmu.

(** What an instruction function is called with; [rve] is the variant chosen
    by [insn_desc_t::func]. *)
Class insn_ctx : Type := mk_ctx { insn : insn_t; insn_pc : Z; rve : bool }.

Definition PC_SERIALIZE_BEFORE : Z := 3.
Definition PC_SERIALIZE_AFTER : Z := 5.
Definition invalid_pc (pc : Z) : bool := z2b (pc .& 1).

Section processor.
Context `{!config, !simif, !trigger_module}.

Definition sext32 (x : Z) : Z := i32 x.
Definition zext32 (x : Z) : Z := u32 x.
Definition sext_xlen (x : Z) : Z := sext x xlen.
Definition zext_xlen (x : Z) : Z := zext x xlen.

(** * [processor_t] *)

Definition check_pc_alignment (target : Z) : M unit :=
  let* h := get_hart in
  if z2b (target .& unot64 (pc_alignment_mask h))
  then throw (trap_instruction_address_misaligned (v h) target 0 0) else ret tt.

Definition set_privilege (new_prv : Z) (virt : bool) : M unit :=
  modify flush_tlb ;;
  modify (fun h => set_prev_v (v h) (set_prev_prv (prv h) h)) ;;
  let* h := get_hart in
  assert (new_prv <=? PRV_M) ;;
  let p := legalize_privilege h new_prv in
  let nv := virt && negb (p =? PRV_M) in
  modify (fun h => set_v nv (set_prv p h)) ;;
  modify (fun h => set_v_changed (negb (Bool.eqb (v h) (prev_v h)))
                     (set_prv_changed (negb (prv h =? prev_prv h)) h)).

(** A null pointer in [csrmap] is dereferenced. *)
Definition put_csr (which val : Z) : M unit :=
  let val := zext_xlen val in
  match csrmap !! which with
  | Some (Some c) => csr_write c val
  | Some None => abort
  | None => ret tt
  end.

Definition get_csr (which : Z) (i : insn_t) (write peek : bool) : M Z :=
  match csrmap !! which with
  | Some (Some c) =>
      let* h := get_hart in
      (if peek then ret tt
       else match csr_verify_permissions c h i write with Val _ => ret tt | Exc e => raise e end) ;;
      gets (fun h => csr_read c h)
  | Some None => abort
  | None => throw (trap_illegal_instruction (Insn.bits i))
  end.

(** [ZICFILP_xLPE(v, prv)] *)
Definition ZICFILP_xLPE (virt : bool) (p : Z) : M bool :=
  let* h := get_hart in
  if extension_enabled h EXT_ZICFILP then
    let mLPE := get_field (menvcfg_read h) MENVCFG_LPE in
    let sLPE := get_field (senvcfg_read h) SENVCFG_LPE in
    let hLPE := get_field (henvcfg_read h) HENVCFG_LPE in
    let msecLPE := get_field (mseccfg_read h) MSECCFG_MLPE in
    if p =? PRV_U then ret (z2b (if extension_enabled h ext_S then sLPE else mLPE))
    else if p =? PRV_S then ret (z2b (if virt then hLPE else mLPE))
    else if p =? PRV_M then ret (z2b msecLPE)
    else abort
  else ret false.

Definition ZICFILP_IS_LP_EXPECTED (reg_num : Z) : elp_t :=
  if negb (reg_num =? 1) && negb (reg_num =? 5) && negb (reg_num =? 7)
  then LP_EXPECTED else NO_LP_EXPECTED.

Definition software_check (b : bool) (tval : Z) : M unit :=
  if b then ret tt else throw (trap_software_check tval).

(** * Instruction macros *)

Context `{!insn_ctx}.

Definition illegal_insn {A} : M A := throw (trap_illegal_instruction (Insn.bits insn)).
Definition require (b : bool) : M unit := if b then ret tt else illegal_insn.
Definition require_state (f : hart -> bool) : M unit := let* h := get_hart in require (f h).

Definition CHECK_REG (reg : Z) : M unit := if rve then require (reg <? 16) else ret tt.
Definition READ_REG (reg : Z) : M Z := CHECK_REG reg ;; gets (fun h => regfile_read 0 (XPR h) reg).
Definition write_xpr (reg val : Z) : M unit :=
  modify (fun h => set_XPR (regfile_write true (XPR h) reg (u64 val)) h).
(** [WRITE_REG(reg, value)]: the check comes first, then the value. *)
Definition WRITE_REG (reg : Z) (value : M Z) : M unit :=
  CHECK_REG reg ;; let* wdata := value in write_xpr reg wdata.

Definition RD : M Z := READ_REG (Insn.rd insn).
Definition RS1 : M Z := READ_REG (Insn.rs1 insn).
Definition RS2 : M Z := READ_REG (Insn.rs2 insn).
Definition WRITE_RD (value : M Z) : M unit := WRITE_REG (Insn.rd insn) value.
Definition CHECK_RD : M unit := CHECK_REG (Insn.rd insn).

(** [WRITE_RD] of a pure function of the operands. *)
Definition WRITE_RD0 (value : Z) : M unit := WRITE_RD (ret value).
Definition WRITE_RD1 (f : Z -> Z) : M unit := WRITE_RD (let* a := RS1 in ret (f a)).
Definition WRITE_RD2 (f : Z -> Z -> Z) : M unit :=
  WRITE_RD (let* a := RS1 in let* b := RS2 in ret (f a b)).

Definition WRITE_REG_PAIR (reg : Z) (value : M Z) : M unit :=
  when (negb (reg =? 0))
    (require (reg mod 2 =? 0) ;;
     let* val := value in
     WRITE_REG reg (ret (sext32 val)) ;;
     WRITE_REG (reg + 1) (ret (Z.shiftr (i64 val) 32))).
Definition READ_REG_PAIR (reg : Z) : M Z :=
  require (reg mod 2 =? 0) ;;
  if reg =? 0 then ret 0 else
  let* hi := READ_REG (reg + 1) in
  let* lo := READ_REG reg in
  ret (u64 (shl hi 32 + zext32 lo)).
Definition RS2_PAIR : M Z := READ_REG_PAIR (Insn.rs2 insn).
Definition WRITE_RD_PAIR (value : M Z) : M unit := WRITE_REG_PAIR (Insn.rd insn) value.

(** Compressed instructions. *)
Definition WRITE_RVC_RS1S (value : M Z) : M unit := WRITE_REG (Insn.rvc_rs1s insn) value.
Definition WRITE_RVC_RS2S (value : M Z) : M unit := WRITE_REG (Insn.rvc_rs2s insn) value.
Definition RVC_RS1 : M Z := READ_REG (Insn.rvc_rs1 insn).
Definition RVC_RS2 : M Z := READ_REG (Insn.rvc_rs2 insn).
Definition RVC_RS1S : M Z := READ_REG (Insn.rvc_rs1s insn).
Definition RVC_RS2S : M Z := READ_REG (Insn.rvc_rs2s insn).
Definition RVC_SP : M Z := READ_REG X_SP.
Definition SP : M Z := READ_REG X_SP.
Definition RA : M Z := READ_REG X_RA.
Definition RVC_R1S : Z := Sn (Insn.rvc_r1sc insn).
Definition RVC_R2S : Z := Sn (Insn.rvc_r2sc insn).
Definition WRITE_RVC_RS2S_PAIR (value : M Z) : M unit := WRITE_REG_PAIR (Insn.rvc_rs2s insn) value.
Definition RVC_RS2S_PAIR : M Z := READ_REG_PAIR (Insn.rvc_rs2s insn).
Definition RVC_RS2_PAIR : M Z := READ_REG_PAIR (Insn.rvc_rs2 insn).

(** Pure compressed updates of [rs1'] by [rs1'] and [rs2']. *)
Definition WRITE_RVC_RS1S1 (f : Z -> Z) : M unit := WRITE_RVC_RS1S (let* a := RVC_RS1S in ret (f a)).
Definition WRITE_RVC_RS1S2 (f : Z -> Z -> Z) : M unit :=
  WRITE_RVC_RS1S (let* a := RVC_RS1S in let* b := RVC_RS2S in ret (f a b)).

Definition SHAMT : Z := u64 (Insn.i_imm insn) .& 0x3F.
Definition BRANCH_TARGET : Z := u64 (insn_pc + Insn.sb_imm insn).
Definition JUMP_TARGET : Z := u64 (insn_pc + Insn.uj_imm insn).

Definition is_aligned (val pos : Z) : bool := if pos =? 0 then true else val .& (pos - 1) =? 0.

(** * Requirements *)

Definition require_rv64 : M unit := require (xlen =? 64).
Definition require_rv32 : M unit := require (xlen =? 32).
Definition require_extension (ext : Z) : M unit := require_state (fun h => extension_enabled h ext).
Definition require_either_extension (a b : Z) : M unit :=
  require_state (fun h => extension_enabled h a || extension_enabled h b).
Definition require_impl (s : Z) : M unit := require (supports_impl s).
Definition require_privilege (p : Z) : M unit := require_state (fun h => p <=? prv h).
Definition require_novirt : M unit :=
  let* h := get_hart in if v h then throw (trap_virtual_instruction (Insn.bits insn)) else ret tt.
Definition require_privilege_hs_qualified (p : Z) : M unit :=
  let* h := get_hart in if v h && negb (p <=? prv h) then require_novirt else require (p <=? prv h).
Definition require_align (val pos : Z) : M unit := require (is_aligned val pos).

(** [require_envcfg(field)] on the three values [DECLARE_XENVCFG_VARS] declares. *)
Definition require_envcfg (m s hy : Z) : M unit :=
  let* h := get_hart in
  if (negb (prv h =? PRV_M) && (m =? 0)) || ((prv h =? PRV_U) && negb (v h) && (s =? 0))
  then illegal_insn
  else if v h && ((hy =? 0) || ((prv h =? PRV_U) && (s =? 0)))
  then throw (trap_virtual_instruction (Insn.bits insn))
  else ret tt.

Definition require_zcmp_pushpop : M unit :=
  require_extension EXT_ZCMP ;;
  let rlist := Insn.rvc_rlist insn in
  require (4 <=? rlist) ;;
  let* h := get_hart in
  if extension_enabled h ext_E then require (rlist <=? 6) else ret tt.

(** * Control transfer *)

Definition set_next_pc (x : Z) : M unit :=
  check_pc_alignment x ;;
  modify (fun h => set_taken_branch_flag true (set_npc (u64 (sext_xlen x)) h)).

Definition set_pc_and_serialize (x : Z) : M unit :=
  modify (fun h =>
    set_taken_branch_flag true
      (set_pc (x .& pc_alignment_mask h) (set_npc PC_SERIALIZE_AFTER h))).

Definition wfi : M unit :=
  let* h := get_hart in
  set_pc_and_serialize (npc h) ;;
  modify (set_taken_branch_flag false) ;;
  raise Wait_for_interrupt.

Definition serialize : M unit :=
  let* h := get_hart in
  set_pc_and_serialize (npc h) ;;
  modify (set_taken_branch_flag false).

(** [validate_csr]: the [return] leaves the instruction. *)
Definition validate_csr (which : Z) : M Z :=
  let* h := get_hart in
  if negb (serialized h) then raise (Return_npc PC_SERIALIZE_BEFORE)
  else modify (set_serialized false) ;; ret which.

(** * Shadow stack *)

Definition xSSE (h : hart) : bool :=
  negb (prv h =? PRV_M) && z2b (get_field (menvcfg_read h) MENVCFG_SSE) &&
  extension_enabled h ext_S &&
  ((v h && z2b (get_field (henvcfg_read h) HENVCFG_SSE)) || negb (v h)) &&
  (((prv h =? PRV_U) && z2b (get_field (senvcfg_read h) SENVCFG_SSE)) || negb (prv h =? PRV_U)).

Definition ssp_obj : csr_t := ssp_csr (u64 (- (xlen / 8))).

Definition PUSH_VALUE_TO_SS (value : M Z) : M unit :=
  let* push_value := value in
  let* h := get_hart in
  let push_ssp_addr := u64 (csr_read ssp_obj h - xlen / 8) in
  (if xlen =? 32 then ss_store 4 push_ssp_addr push_value
   else ss_store 8 push_ssp_addr push_value) ;;
  csr_write ssp_obj push_ssp_addr.

Definition POP_VALUE_FROM_SS_AND_CHECK (value : M Z) : M unit :=
  let* h := get_hart in
  let* shadow_return_addr :=
    (if xlen =? 32 then ss_load 4 (csr_read ssp_obj h) else ss_load 8 (csr_read ssp_obj h)) in
  let* val := value in
  software_check (zext_xlen val =? shadow_return_addr) SHADOW_STACK_FAULT ;;
  let* h := get_hart in
  csr_write ssp_obj (u64 (csr_read ssp_obj h + xlen / 8)).

(** * [insn_template.cc] *)

(** The function [NAME(p, insn, pc)]: prologue, body, epilogue.  [opcode] is
    the [MATCH] constant of the instruction. *)
Definition run_insn (opcode : Z) (body : M unit) : M Z :=
  modify (fun h => set_taken_branch_flag false
                     (set_npc (u64 (sext_xlen (insn_pc + insn_length opcode))) h)) ;;
  catch (body ;; gets npc)
    (fun e => match e with Return_npc n => ret n | _ => raise e end).

End processor.
