(* ===== verification/InsnsInt.v ===== *)
(** Integer computation: the bodies [riscv/insns/*.h] of I, M, Zba, Zbb, Zbc,
    Zbs, Zbkb, Zbkc, Zbkx and Zicond.  Each [insn_<name>] is the body of
    [insns/<name>.h].

    Results are converted to [reg_t] by [write_xpr] (wrap to 64 bits), so an
    intermediate wrap is written only where a comparison, a shift to the right
    or a division looks at the value. *)

From S2P Require Import Prelude IntArith Decode Encoding IsaExt Trap Hart Pmp Csr CsrFile CsrInit Mmu Macros.

(** * Loops of the bit-manipulation bodies *)

(** [for (i = 0; i < n; i++) if (f i) { x = i; break; }], [x] being [n] before. *)
Definition first_index (n : Z) (f : Z -> bool) : Z :=
  match List.find f (zseq n) with Some i => i | None => n end.
(** [for (i = 0; i < n; i++) if (f i) x++;] *)
Definition count_index (n : Z) (f : Z -> bool) : Z :=
  fold_left (fun x i => if f i then x + 1 else x) (zseq n) 0.
(** [for (i in l) if ((b >> i) & 1) x ^= g i;] *)
Definition xor_loop (l : list Z) (b : Z) (g : Z -> Z) : Z :=
  fold_left (fun x i => if z2b (Z.shiftr b i .& 1) then x .^ g i else x) l 0.

Section insns.
Context `{!config, !simif, !trigger_module, !insn_ctx}.

(** * I *)

Definition insn_add : M unit := WRITE_RD2 (fun a b => sext_xlen (a + b)).
Definition insn_addi : M unit := WRITE_RD1 (fun a => sext_xlen (a + Insn.i_imm insn)).
Definition insn_addiw : M unit := require_rv64 ;; WRITE_RD1 (fun a => sext32 (Insn.i_imm insn + a)).
Definition insn_addw : M unit := require_rv64 ;; WRITE_RD2 (fun a b => sext32 (a + b)).
Definition insn_and : M unit := WRITE_RD2 (fun a b => a .& b).
Definition insn_andi : M unit := WRITE_RD1 (fun a => Insn.i_imm insn .& a).
Definition insn_auipc : M unit := WRITE_RD0 (sext_xlen (Insn.u_imm insn + insn_pc)).
Definition insn_lui : M unit := WRITE_RD0 (Insn.u_imm insn).
Definition insn_or : M unit := WRITE_RD2 (fun a b => a .| b).
Definition insn_ori : M unit := WRITE_RD1 (fun a => Insn.i_imm insn .| a).
Definition insn_xor : M unit := WRITE_RD2 (fun a b => a .^ b).
Definition insn_xori : M unit := WRITE_RD1 (fun a => Insn.i_imm insn .^ a).
Definition insn_sub : M unit := WRITE_RD2 (fun a b => sext_xlen (a - b)).
Definition insn_subw : M unit := require_rv64 ;; WRITE_RD2 (fun a b => sext32 (a - b)).
Definition insn_sll : M unit := WRITE_RD2 (fun a b => sext_xlen (shl a (b .& (xlen - 1)))).
Definition insn_slli : M unit := require (SHAMT <? xlen) ;; WRITE_RD1 (fun a => sext_xlen (shl a SHAMT)).
Definition insn_slliw : M unit := require_rv64 ;; WRITE_RD1 (fun a => sext32 (shl a SHAMT)).
Definition insn_sllw : M unit := require_rv64 ;; WRITE_RD2 (fun a b => sext32 (shl a (b .& 0x1F))).
Definition insn_slt : M unit := WRITE_RD2 (fun a b => b2z (i64 a <? i64 b)).
Definition insn_slti : M unit := WRITE_RD1 (fun a => b2z (i64 a <? Insn.i_imm insn)).
Definition insn_sltiu : M unit := WRITE_RD1 (fun a => b2z (a <? u64 (Insn.i_imm insn))).
Definition insn_sltu : M unit := WRITE_RD2 (fun a b => b2z (a <? b)).
Definition insn_sra : M unit := WRITE_RD2 (fun a b => sext_xlen (Z.shiftr (sext_xlen a) (b .& (xlen - 1)))).
Definition insn_srai : M unit :=
  require (SHAMT <? xlen) ;; WRITE_RD1 (fun a => sext_xlen (Z.shiftr (sext_xlen a) SHAMT)).
Definition insn_sraiw : M unit := require_rv64 ;; WRITE_RD1 (fun a => sext32 (Z.shiftr (i32 a) SHAMT)).
Definition insn_sraw : M unit := require_rv64 ;; WRITE_RD2 (fun a b => sext32 (Z.shiftr (i32 a) (b .& 0x1F))).
Definition insn_srl : M unit := WRITE_RD2 (fun a b => sext_xlen (Z.shiftr (zext_xlen a) (b .& (xlen - 1)))).
Definition insn_srli : M unit :=
  require (SHAMT <? xlen) ;; WRITE_RD1 (fun a => sext_xlen (Z.shiftr (zext_xlen a) SHAMT)).
Definition insn_srliw : M unit := require_rv64 ;; WRITE_RD1 (fun a => sext32 (Z.shiftr (u32 a) SHAMT)).
Definition insn_srlw : M unit := require_rv64 ;; WRITE_RD2 (fun a b => sext32 (Z.shiftr (u32 a) (b .& 0x1F))).

(** A conditional branch to [target]. *)
Definition branch (taken : Z -> Z -> bool) : M unit :=
  let* a := RS1 in let* b := RS2 in when (taken a b) (set_next_pc BRANCH_TARGET).
Definition insn_beq : M unit := branch (fun a b => a =? b).
Definition insn_bne : M unit := branch (fun a b => negb (a =? b)).
Definition insn_blt : M unit := branch (fun a b => i64 a <? i64 b).
Definition insn_bge : M unit := branch (fun a b => i64 b <=? i64 a).
Definition insn_bltu : M unit := branch (fun a b => a <? b).
Definition insn_bgeu : M unit := branch (fun a b => b <=? a).

Definition insn_jal : M unit :=
  CHECK_RD ;;
  let* h := get_hart in
  let tmp := npc h in
  set_next_pc JUMP_TARGET ;;
  WRITE_RD0 tmp.

Definition insn_jalr : M unit :=
  CHECK_RD ;;
  let* h := get_hart in
  let tmp := npc h in
  let* a := RS1 in
  set_next_pc (u64 (a + Insn.i_imm insn) .& unot64 1) ;;
  WRITE_RD0 tmp ;;
  let* h := get_hart in
  let* lpe := ZICFILP_xLPE (v h) (prv h) in
  when lpe (modify (set_elp (ZICFILP_IS_LP_EXPECTED (Insn.rs1 insn))) ;; serialize).

(** * M *)

Definition insn_mul : M unit := require_either_extension ext_M EXT_ZMMUL ;; WRITE_RD2 (fun a b => sext_xlen (a * b)).
Definition insn_mulh : M unit :=
  require_either_extension ext_M EXT_ZMMUL ;;
  if xlen =? 64 then WRITE_RD2 (fun a b => mulh (i64 a) (i64 b))
  else WRITE_RD2 (fun a b => sext32 (Z.shiftr (i64 (sext32 a * sext32 b)) 32)).
Definition insn_mulhsu : M unit :=
  require_either_extension ext_M EXT_ZMMUL ;;
  if xlen =? 64 then WRITE_RD2 (fun a b => mulhsu (i64 a) b)
  else WRITE_RD2 (fun a b => sext32 (Z.shiftr (u64 (sext32 a * u32 b)) 32)).
Definition insn_mulhu : M unit :=
  require_either_extension ext_M EXT_ZMMUL ;;
  if xlen =? 64 then WRITE_RD2 (fun a b => mulhu a b)
  else WRITE_RD2 (fun a b => sext32 (Z.shiftr (u64 (u32 a * u32 b)) 32)).
Definition insn_mulw : M unit :=
  require_either_extension ext_M EXT_ZMMUL ;; require_rv64 ;; WRITE_RD2 (fun a b => sext32 (a * b)).
Definition insn_div : M unit :=
  require_extension ext_M ;;
  WRITE_RD2 (fun a b =>
    let lhs := sext_xlen a in let rhs := sext_xlen b in
    if rhs =? 0 then UINT64_MAX
    else if (lhs =? INT64_MIN) && (rhs =? -1) then lhs
    else sext_xlen (Z.quot lhs rhs)).
Definition insn_divu : M unit :=
  require_extension ext_M ;;
  WRITE_RD2 (fun a b =>
    let lhs := zext_xlen a in let rhs := zext_xlen b in
    if rhs =? 0 then UINT64_MAX else sext_xlen (lhs / rhs)).
Definition insn_divuw : M unit :=
  require_extension ext_M ;; require_rv64 ;;
  WRITE_RD2 (fun a b =>
    let lhs := zext32 a in let rhs := zext32 b in
    if rhs =? 0 then UINT64_MAX else sext32 (lhs / rhs)).
Definition insn_divw : M unit :=
  require_extension ext_M ;; require_rv64 ;;
  WRITE_RD2 (fun a b =>
    let lhs := sext32 a in let rhs := sext32 b in
    if rhs =? 0 then UINT64_MAX else sext32 (Z.quot lhs rhs)).
Definition insn_rem : M unit :=
  require_extension ext_M ;;
  WRITE_RD2 (fun a b =>
    let lhs := sext_xlen a in let rhs := sext_xlen b in
    if rhs =? 0 then lhs
    else if (lhs =? INT64_MIN) && (rhs =? -1) then 0
    else sext_xlen (Z.rem lhs rhs)).
Definition insn_remu : M unit :=
  require_extension ext_M ;;
  WRITE_RD2 (fun a b =>
    let lhs := zext_xlen a in let rhs := zext_xlen b in
    if rhs =? 0 then sext_xlen a else sext_xlen (lhs mod rhs)).
Definition insn_remuw : M unit :=
  require_extension ext_M ;; require_rv64 ;;
  WRITE_RD2 (fun a b =>
    let lhs := zext32 a in let rhs := zext32 b in
    if rhs =? 0 then sext32 lhs else sext32 (lhs mod rhs)).
Definition insn_remw : M unit :=
  require_extension ext_M ;; require_rv64 ;;
  WRITE_RD2 (fun a b =>
    let lhs := sext32 a in let rhs := sext32 b in
    if rhs =? 0 then lhs else sext32 (Z.rem lhs rhs)).

(** * Zicond *)

Definition insn_czero_eqz : M unit := require_extension EXT_ZICOND ;; WRITE_RD2 (fun a b => if b =? 0 then 0 else a).
Definition insn_czero_nez : M unit := require_extension EXT_ZICOND ;; WRITE_RD2 (fun a b => if negb (b =? 0) then 0 else a).

(** * Zba *)

Definition insn_add_uw : M unit :=
  require_rv64 ;; require_extension EXT_ZBA ;; WRITE_RD2 (fun a b => sext_xlen (zext32 a + b)).
Definition insn_slli_uw : M unit :=
  require_rv64 ;; require_extension EXT_ZBA ;; WRITE_RD1 (fun a => sext_xlen (shl (zext32 a) SHAMT)).
Definition insn_sh1add : M unit := require_extension EXT_ZBA ;; WRITE_RD2 (fun a b => sext_xlen (shl a 1 + b)).
Definition insn_sh2add : M unit := require_extension EXT_ZBA ;; WRITE_RD2 (fun a b => sext_xlen (shl a 2 + b)).
Definition insn_sh3add : M unit := require_extension EXT_ZBA ;; WRITE_RD2 (fun a b => sext_xlen (shl a 3 + b)).
Definition insn_sh1add_uw : M unit :=
  require_rv64 ;; require_extension EXT_ZBA ;; WRITE_RD2 (fun a b => sext_xlen (shl (zext32 a) 1 + b)).
Definition insn_sh2add_uw : M unit :=
  require_rv64 ;; require_extension EXT_ZBA ;; WRITE_RD2 (fun a b => sext_xlen (shl (zext32 a) 2 + b)).
Definition insn_sh3add_uw : M unit :=
  require_rv64 ;; require_extension EXT_ZBA ;; WRITE_RD2 (fun a b => sext_xlen (shl (zext32 a) 3 + b)).

(** * Zbs *)

Definition bclr_at (a shamt : Z) : Z := sext_xlen (a .& unot64 (shl 1 shamt)).
Definition bext_at (a shamt : Z) : Z := sext_xlen (1 .& Z.shiftr a shamt).
Definition binv_at (a shamt : Z) : Z := sext_xlen (a .^ shl 1 shamt).
Definition bset_at (a shamt : Z) : Z := sext_xlen (a .| shl 1 shamt).
Definition by_rs2 (f : Z -> Z -> Z) : M unit :=
  require_extension EXT_ZBS ;; WRITE_RD2 (fun a b => f a (b .& (xlen - 1))).
Definition by_shamt (f : Z -> Z -> Z) : M unit :=
  require_extension EXT_ZBS ;; require (SHAMT <? xlen) ;; WRITE_RD1 (fun a => f a (SHAMT .& (xlen - 1))).
Definition insn_bclr : M unit := by_rs2 bclr_at.
Definition insn_bclri : M unit := by_shamt bclr_at.
Definition insn_bext : M unit := by_rs2 bext_at.
Definition insn_bexti : M unit := by_shamt bext_at.
Definition insn_binv : M unit := by_rs2 binv_at.
Definition insn_binvi : M unit := by_shamt binv_at.
Definition insn_bset : M unit := by_rs2 bset_at.
Definition insn_bseti : M unit := by_shamt bset_at.

(** * Zbb *)

Definition require_zbb_zbkb : M unit := require_either_extension EXT_ZBB EXT_ZBKB.
Definition insn_andn : M unit := require_zbb_zbkb ;; WRITE_RD2 (fun a b => a .& unot64 b).
Definition insn_orn : M unit := require_zbb_zbkb ;; WRITE_RD2 (fun a b => a .| unot64 b).
Definition insn_xnor : M unit := require_zbb_zbkb ;; WRITE_RD2 (fun a b => a .^ unot64 b).

Definition clz_loop (n a : Z) : Z := first_index n (fun i => z2b (1 .& Z.shiftr a (n - i - 1))).
Definition ctz_loop (n a : Z) : Z := first_index n (fun i => z2b (1 .& Z.shiftr a i)).
Definition cpop_loop (n a : Z) : Z := count_index n (fun i => z2b (1 .& Z.shiftr a i)).
Definition insn_clz : M unit := require_extension EXT_ZBB ;; WRITE_RD1 (fun a => sext_xlen (clz_loop xlen a)).
Definition insn_clzw : M unit := require_rv64 ;; require_extension EXT_ZBB ;; WRITE_RD1 (fun a => sext32 (clz_loop 32 a)).
Definition insn_ctz : M unit := require_extension EXT_ZBB ;; WRITE_RD1 (fun a => sext_xlen (ctz_loop xlen a)).
Definition insn_ctzw : M unit := require_rv64 ;; require_extension EXT_ZBB ;; WRITE_RD1 (fun a => sext32 (ctz_loop 32 a)).
Definition insn_cpop : M unit := require_extension EXT_ZBB ;; WRITE_RD1 (fun a => sext_xlen (cpop_loop xlen a)).
Definition insn_cpopw : M unit := require_rv64 ;; require_extension EXT_ZBB ;; WRITE_RD1 (fun a => sext32 (cpop_loop 32 a)).

Definition insn_max : M unit := require_extension EXT_ZBB ;; WRITE_RD2 (fun a b => sext_xlen (if i64 b <? i64 a then a else b)).
Definition insn_maxu : M unit := require_extension EXT_ZBB ;; WRITE_RD2 (fun a b => sext_xlen (if b <? a then a else b)).
Definition insn_min : M unit := require_extension EXT_ZBB ;; WRITE_RD2 (fun a b => sext_xlen (if i64 a <? i64 b then a else b)).
Definition insn_minu : M unit := require_extension EXT_ZBB ;; WRITE_RD2 (fun a b => sext_xlen (if a <? b then a else b)).
Definition insn_sext_b : M unit := require_extension EXT_ZBB ;; WRITE_RD1 (fun a => i8 a).
Definition insn_sext_h : M unit := require_extension EXT_ZBB ;; WRITE_RD1 (fun a => i16 a).

(** [-shamt & (w-1)] *)
Definition rshamt (w shamt : Z) : Z := - shamt .& (w - 1).
Definition insn_rol : M unit :=
  require_zbb_zbkb ;;
  WRITE_RD2 (fun a b => let shamt := b .& (xlen - 1) in
    sext_xlen (shl a shamt .| Z.shiftr (zext_xlen a) (rshamt xlen shamt))).
Definition insn_rolw : M unit :=
  require_rv64 ;; require_zbb_zbkb ;;
  WRITE_RD2 (fun a b => let shamt := b .& 31 in
    sext32 (shl a shamt .| Z.shiftr (zext32 a) (rshamt 32 shamt))).
Definition insn_ror : M unit :=
  require_zbb_zbkb ;;
  WRITE_RD2 (fun a b => let shamt := b .& (xlen - 1) in
    sext_xlen (shl a (rshamt xlen shamt) .| Z.shiftr (zext_xlen a) shamt)).
Definition insn_rori : M unit :=
  require_zbb_zbkb ;; require (SHAMT <? xlen) ;;
  WRITE_RD1 (fun a => let shamt := SHAMT .& (xlen - 1) in
    sext_xlen (shl a (rshamt xlen shamt) .| Z.shiftr (zext_xlen a) shamt)).
Definition insn_roriw : M unit :=
  require_rv64 ;; require_zbb_zbkb ;; require (SHAMT <? 32) ;;
  WRITE_RD1 (fun a => let shamt := SHAMT .& 31 in
    sext32 (shl a (rshamt 32 shamt) .| Z.shiftr (zext32 a) shamt)).
Definition insn_rorw : M unit :=
  require_rv64 ;; require_zbb_zbkb ;;
  WRITE_RD2 (fun a b => let shamt := b .& 31 in
    sext32 (shl a (rshamt 32 shamt) .| Z.shiftr (zext32 a) shamt)).

(** One stage of the butterfly networks: [(x & l) << k | (x & r) >> k]. *)
Definition swap_stage (k l r x : Z) : Z := shl (x .& l) k .| Z.shiftr (x .& r) k.
Definition grev (shamt x : Z) : Z :=
  let stage c k l r x := if z2b (shamt .& c) then swap_stage k l r x else x in
  let x := stage 1 1 0x5555555555555555 0xAAAAAAAAAAAAAAAA x in
  let x := stage 2 2 0x3333333333333333 0xCCCCCCCCCCCCCCCC x in
  let x := stage 4 4 0x0F0F0F0F0F0F0F0F 0xF0F0F0F0F0F0F0F0 x in
  let x := stage 8 8 0x00FF00FF00FF00FF 0xFF00FF00FF00FF00 x in
  let x := stage 16 16 0x0000FFFF0000FFFF 0xFFFF0000FFFF0000 x in
  stage 32 32 0x00000000FFFFFFFF 0xFFFFFFFF00000000 x.
Definition gorc (shamt x : Z) : Z :=
  let stage c k l r x := if z2b (shamt .& c) then x .| swap_stage k l r x else x in
  let x := stage 1 1 0x5555555555555555 0xAAAAAAAAAAAAAAAA x in
  let x := stage 2 2 0x3333333333333333 0xCCCCCCCCCCCCCCCC x in
  let x := stage 4 4 0x0F0F0F0F0F0F0F0F 0xF0F0F0F0F0F0F0F0 x in
  let x := stage 8 8 0x00FF00FF00FF00FF 0xFF00FF00FF00FF00 x in
  let x := stage 16 16 0x0000FFFF0000FFFF 0xFFFF0000FFFF0000 x in
  stage 32 32 0x00000000FFFFFFFF 0xFFFFFFFF00000000 x.
Definition insn_gorci : M unit :=
  require_state (fun h => (SHAMT =? 7) && extension_enabled h EXT_ZBB) ;;
  require (SHAMT <? xlen) ;;
  WRITE_RD1 (fun a => sext_xlen (gorc SHAMT a)).
Definition insn_grevi : M unit :=
  require_state (fun h =>
    ((SHAMT =? xlen - 8) && (extension_enabled h EXT_ZBB || extension_enabled h EXT_ZBKB))
    || ((SHAMT =? 7) && extension_enabled h EXT_ZBKB)) ;;
  require (SHAMT <? xlen) ;;
  WRITE_RD1 (fun a => sext_xlen (grev SHAMT a)).

(** * Zbc, Zbkc *)

Definition clmul (a b : Z) : Z := xor_loop (zseq xlen) b (fun i => shl a i).
Definition clmulh (a b : Z) : Z :=
  xor_loop (map (fun i => i + 1) (zseq (xlen - 1))) b (fun i => Z.shiftr a (xlen - i)).
Definition clmulr (a b : Z) : Z := xor_loop (zseq xlen) b (fun i => Z.shiftr a (xlen - i - 1)).
Definition insn_clmul : M unit :=
  require_either_extension EXT_ZBC EXT_ZBKC ;; WRITE_RD2 (fun a b => sext_xlen (clmul (zext_xlen a) (zext_xlen b))).
Definition insn_clmulh : M unit :=
  require_either_extension EXT_ZBC EXT_ZBKC ;; WRITE_RD2 (fun a b => sext_xlen (clmulh (zext_xlen a) (zext_xlen b))).
Definition insn_clmulr : M unit :=
  require_extension EXT_ZBC ;; WRITE_RD2 (fun a b => sext_xlen (clmulr (zext_xlen a) (zext_xlen b))).

(** * Zbkb, Zbkx *)

Definition insn_pack : M unit :=
  require_state (fun h => ((xlen =? 32) && (Insn.rs2 insn =? 0) && extension_enabled h EXT_ZBB)
                          || extension_enabled h EXT_ZBKB) ;;
  WRITE_RD2 (fun a b =>
    let lo := Z.shiftr (zext_xlen (shl a (xlen / 2))) (xlen / 2) in
    let hi := zext_xlen (shl b (xlen / 2)) in
    sext_xlen (lo .| hi)).
Definition insn_packh : M unit :=
  require_extension EXT_ZBKB ;;
  WRITE_RD2 (fun a b =>
    let lo := Z.shiftr (zext_xlen (shl a (xlen - 8))) (xlen - 8) in
    let hi := Z.shiftr (zext_xlen (shl b (xlen - 8))) (xlen - 16) in
    sext_xlen (lo .| hi)).
Definition insn_packw : M unit :=
  require_state (fun h => ((Insn.rs2 insn =? 0) && extension_enabled h EXT_ZBB)
                          || extension_enabled h EXT_ZBKB) ;;
  require_rv64 ;;
  WRITE_RD2 (fun a b =>
    let lo := Z.shiftr (zext32 (shl a 16)) 16 in
    let hi := zext32 (shl b 16) in
    sext32 (lo .| hi)).

(** [(x & keep) | ((x & r) >> k) | ((x & l) << k)] *)
Definition shuffle_stage (k keep r l x : Z) : Z := (x .& keep) .| Z.shiftr (x .& r) k .| shl (x .& l) k.
Definition shfl16 := shuffle_stage 16 0xFFFF00000000FFFF 0x0000FFFF00000000 0x00000000FFFF0000.
Definition shfl8 := shuffle_stage 8 0xFF0000FFFF0000FF 0x00FF000000FF0000 0x0000FF000000FF00.
Definition shfl4 := shuffle_stage 4 0xF00FF00FF00FF00F 0x0F000F000F000F00 0x00F000F000F000F0.
Definition shfl2 := shuffle_stage 2 0xC3C3C3C3C3C3C3C3 0x3030303030303030 0x0C0C0C0C0C0C0C0C.
Definition shfl1 := shuffle_stage 1 0x9999999999999999 0x4444444444444444 0x2222222222222222.
Definition shfl (shamt x : Z) : Z :=
  let at_bit c f x := if z2b (shamt .& c) then f x else x in
  at_bit 1 shfl1 (at_bit 2 shfl2 (at_bit 4 shfl4 (at_bit 8 shfl8 (at_bit 16 shfl16 x)))).
Definition unshfl (shamt x : Z) : Z :=
  let at_bit c f x := if z2b (shamt .& c) then f x else x in
  at_bit 16 shfl16 (at_bit 8 shfl8 (at_bit 4 shfl4 (at_bit 2 shfl2 (at_bit 1 shfl1 x)))).
Definition require_zip : M unit :=
  require_rv32 ;;
  require_state (fun h => (Insn.rs2 insn =? xlen / 2 - 1) && extension_enabled h EXT_ZBKB) ;;
  require (SHAMT <? xlen / 2).
Definition insn_shfli : M unit :=
  require_zip ;; WRITE_RD1 (fun a => sext_xlen (shfl (SHAMT .& Z.shiftr (xlen - 1) 1) a)).
Definition insn_unshfli : M unit :=
  require_zip ;; WRITE_RD1 (fun a => sext_xlen (unshfl (SHAMT .& Z.shiftr (xlen - 1) 1) a)).

Definition insn_xperm4 : M unit := require_extension EXT_ZBKX ;; WRITE_RD2 (fun a b => sext_xlen (xperm a b 2 xlen)).
Definition insn_xperm8 : M unit := require_extension EXT_ZBKX ;; WRITE_RD2 (fun a b => sext_xlen (xperm a b 3 xlen)).

End insns.
