(* ===== verification/InsnsMem.v ===== *)
(** Memory access: loads and stores, A, Zacas, Zabha, Zalasr, the hypervisor
    loads and stores, the cache-block operations and shadow-stack swaps.  Each
    [insn_<name>] is the body of [riscv/insns/<name>.h].

    [load_s n] is [load<int{8n}_t>], [load_u n] is [load<uint{8n}_t>]. *)

From S2P Require Import Prelude IntArith Decode Encoding IsaExt Trap Hart Pmp Csr CsrFile CsrInit Mmu Macros.

Section insns.
Context `{!config, !simif, !trigger_module, !insn_ctx}.

Definition load_u (n addr : Z) : M Z := load n addr no_flags.
Definition load_s (n addr : Z) : M Z := let* x := load n addr no_flags in ret (swrap (8 * n) x).
Definition store_n (n addr val : Z) : M unit := store n addr val no_flags.
(** [RS1 + insn.i_imm()] and [RS1 + insn.s_imm()]. *)
Definition load_address : M Z := let* a := RS1 in ret (u64 (a + Insn.i_imm insn)).
Definition store_address : M Z := let* a := RS1 in ret (u64 (a + Insn.s_imm insn)).

(** * Loads and stores *)

Definition load_to_rd (ld : Z -> M Z) : M unit := WRITE_RD (let* a := load_address in ld a).
Definition store_from_rs2 (n : Z) : M unit :=
  let* a := store_address in let* b := RS2 in store_n n a b.
Definition insn_lb : M unit := load_to_rd (load_s 1).
Definition insn_lbu : M unit := load_to_rd (load_u 1).
Definition insn_lh : M unit := load_to_rd (load_s 2).
Definition insn_lhu : M unit := load_to_rd (load_u 2).
Definition insn_lw : M unit := load_to_rd (load_s 4).
Definition insn_lwu : M unit := require_rv64 ;; load_to_rd (load_u 4).
Definition insn_ld : M unit :=
  require_state (fun h => (xlen =? 64) || extension_enabled h EXT_ZILSD) ;;
  if xlen =? 32 then WRITE_RD_PAIR (let* a := load_address in load_s 8 a)
  else load_to_rd (load_s 8).
Definition insn_sb : M unit := store_from_rs2 1.
Definition insn_sh : M unit := store_from_rs2 2.
Definition insn_sw : M unit := store_from_rs2 4.
Definition insn_sd : M unit :=
  require_state (fun h => (xlen =? 64) || extension_enabled h EXT_ZILSD) ;;
  if xlen =? 32 then let* a := store_address in let* b := RS2_PAIR in store_n 8 a b
  else store_from_rs2 8.

(** * Zalasr *)

Definition load_rs1 (ld : Z -> M Z) : M unit := WRITE_RD (let* a := RS1 in ld a).
Definition store_rs1 (n : Z) : M unit := let* a := RS1 in let* b := RS2 in store_n n a b.
Definition insn_lb_aq : M unit := require_extension EXT_ZALASR ;; load_rs1 (load_s 1).
Definition insn_lh_aq : M unit := require_extension EXT_ZALASR ;; load_rs1 (load_s 2).
Definition insn_lw_aq : M unit := require_extension EXT_ZALASR ;; load_rs1 (load_s 4).
Definition insn_ld_aq : M unit := require_rv64 ;; require_extension EXT_ZALASR ;; load_rs1 (load_s 8).
Definition insn_sb_rl : M unit := require_extension EXT_ZALASR ;; store_rs1 1.
Definition insn_sh_rl : M unit := require_extension EXT_ZALASR ;; store_rs1 2.
Definition insn_sw_rl : M unit := require_extension EXT_ZALASR ;; store_rs1 4.
Definition insn_sd_rl : M unit := require_rv64 ;; require_extension EXT_ZALASR ;; store_rs1 8.

(** * Load-reserved and store-conditional *)

Definition insn_lr_w : M unit := require_extension ext_A ;; WRITE_RD (let* a := RS1 in let* x := load_reserved 4 a in ret (i32 x)).
Definition insn_lr_d : M unit :=
  require_extension ext_A ;; require_rv64 ;; WRITE_RD (let* a := RS1 in let* x := load_reserved 8 a in ret (i64 x)).
Definition sc (n : Z) : M unit :=
  let* a := RS1 in let* b := RS2 in
  let* have_reservation := store_conditional n a b in
  WRITE_RD0 (b2z (negb have_reservation)).
Definition insn_sc_w : M unit := require_extension ext_A ;; sc 4.
Definition insn_sc_d : M unit := require_extension ext_A ;; require_rv64 ;; sc 8.

(** * Atomic memory operations *)

(** [WRITE_RD(conv(MMU.amo<T>(RS1, [&](T' lhs) { return f(lhs, RS2); })))],
    [n] being [sizeof(T)], the result sign-extended. *)
Definition amo_rd (n : Z) (f : Z -> Z -> Z) : M unit :=
  WRITE_RD (let* a := RS1 in
            let* lhs := amo n a (fun lhs => let* b := RS2 in ret (f lhs b)) in
            ret (swrap (8 * n) lhs)).
Definition amo_max (n lhs b : Z) : Z := Z.max (swrap (8 * n) lhs) (swrap (8 * n) b).
Definition amo_min (n lhs b : Z) : Z := Z.min (swrap (8 * n) lhs) (swrap (8 * n) b).
Definition amo_maxu (n lhs b : Z) : Z := Z.max lhs (wrap (8 * n) b).
Definition amo_minu (n lhs b : Z) : Z := Z.min lhs (wrap (8 * n) b).

Definition insn_amoadd_b : M unit := require_extension EXT_ZABHA ;; amo_rd 1 (fun lhs b => lhs + b).
Definition insn_amoand_b : M unit := require_extension EXT_ZABHA ;; amo_rd 1 (fun lhs b => lhs .& b).
Definition insn_amomax_b : M unit := require_extension EXT_ZABHA ;; amo_rd 1 (amo_max 1).
Definition insn_amomaxu_b : M unit := require_extension EXT_ZABHA ;; amo_rd 1 (amo_maxu 1).
Definition insn_amomin_b : M unit := require_extension EXT_ZABHA ;; amo_rd 1 (amo_min 1).
Definition insn_amominu_b : M unit := require_extension EXT_ZABHA ;; amo_rd 1 (amo_minu 1).
Definition insn_amoor_b : M unit := require_extension EXT_ZABHA ;; amo_rd 1 (fun lhs b => lhs .| b).
Definition insn_amoswap_b : M unit := require_extension EXT_ZABHA ;; amo_rd 1 (fun _ b => b).
Definition insn_amoxor_b : M unit := require_extension EXT_ZABHA ;; amo_rd 1 (fun lhs b => lhs .^ b).

Definition insn_amoadd_h : M unit := require_extension EXT_ZABHA ;; amo_rd 2 (fun lhs b => lhs + b).
Definition insn_amoand_h : M unit := require_extension EXT_ZABHA ;; amo_rd 2 (fun lhs b => lhs .& b).
Definition insn_amomax_h : M unit := require_extension EXT_ZABHA ;; amo_rd 2 (amo_max 2).
Definition insn_amomaxu_h : M unit := require_extension EXT_ZABHA ;; amo_rd 2 (amo_maxu 2).
Definition insn_amomin_h : M unit := require_extension EXT_ZABHA ;; amo_rd 2 (amo_min 2).
Definition insn_amominu_h : M unit := require_extension EXT_ZABHA ;; amo_rd 2 (amo_minu 2).
Definition insn_amoor_h : M unit := require_extension EXT_ZABHA ;; amo_rd 2 (fun lhs b => lhs .| b).
Definition insn_amoswap_h : M unit := require_extension EXT_ZABHA ;; amo_rd 2 (fun _ b => b).
Definition insn_amoxor_h : M unit := require_extension EXT_ZABHA ;; amo_rd 2 (fun lhs b => lhs .^ b).

Definition insn_amoadd_w : M unit := require_extension ext_A ;; amo_rd 4 (fun lhs b => lhs + b).
Definition insn_amoand_w : M unit := require_extension ext_A ;; amo_rd 4 (fun lhs b => lhs .& b).
Definition insn_amomax_w : M unit := require_extension ext_A ;; amo_rd 4 (amo_max 4).
Definition insn_amomaxu_w : M unit := require_extension ext_A ;; amo_rd 4 (amo_maxu 4).
Definition insn_amomin_w : M unit := require_extension ext_A ;; amo_rd 4 (amo_min 4).
Definition insn_amominu_w : M unit := require_extension ext_A ;; amo_rd 4 (amo_minu 4).
Definition insn_amoor_w : M unit := require_extension ext_A ;; amo_rd 4 (fun lhs b => lhs .| b).
Definition insn_amoswap_w : M unit := require_extension ext_A ;; amo_rd 4 (fun _ b => b).
Definition insn_amoxor_w : M unit := require_extension ext_A ;; amo_rd 4 (fun lhs b => lhs .^ b).

Definition insn_amoadd_d : M unit := require_extension ext_A ;; require_rv64 ;; amo_rd 8 (fun lhs b => lhs + b).
Definition insn_amoand_d : M unit := require_extension ext_A ;; require_rv64 ;; amo_rd 8 (fun lhs b => lhs .& b).
Definition insn_amomax_d : M unit := require_extension ext_A ;; require_rv64 ;; amo_rd 8 (amo_max 8).
Definition insn_amomaxu_d : M unit := require_extension ext_A ;; require_rv64 ;; amo_rd 8 (amo_maxu 8).
Definition insn_amomin_d : M unit := require_extension ext_A ;; require_rv64 ;; amo_rd 8 (amo_min 8).
Definition insn_amominu_d : M unit := require_extension ext_A ;; require_rv64 ;; amo_rd 8 (amo_minu 8).
Definition insn_amoor_d : M unit := require_extension ext_A ;; require_rv64 ;; amo_rd 8 (fun lhs b => lhs .| b).
Definition insn_amoswap_d : M unit := require_extension ext_A ;; require_rv64 ;; amo_rd 8 (fun _ b => b).
Definition insn_amoxor_d : M unit := require_extension ext_A ;; require_rv64 ;; amo_rd 8 (fun lhs b => lhs .^ b).

(** * Zacas *)

(** [MMU.amo_compare_and_swap<T>(RS1, RD, RS2)]; the comparison is on [T]. *)
Definition amocas_rd (n : Z) : M unit :=
  WRITE_RD (let* a := RS1 in let* comp := RD in let* swap := RS2 in
            let* res := amo_compare_and_swap n a (wrap (8 * n) comp) (wrap (8 * n) swap) in
            ret (swrap (8 * n) res)).
Definition insn_amocas_b : M unit := require_extension EXT_ZACAS ;; require_extension EXT_ZABHA ;; amocas_rd 1.
Definition insn_amocas_h : M unit := require_extension EXT_ZACAS ;; require_extension EXT_ZABHA ;; amocas_rd 2.
Definition insn_amocas_w : M unit := require_extension EXT_ZACAS ;; amocas_rd 4.

(** The register pair [reg], [reg + 1] as one value of [2 * w] bits; the
    first register is the low half in a little-endian target. *)
Definition cas_pair (w reg : Z) : M Z :=
  if reg =? 0 then ret 0
  else if target_big_endian then
    let* lo := READ_REG (reg + 1) in let* hi := READ_REG reg in
    ret (wrap w lo .| wrap (2 * w) (Z.shiftl hi w))
  else
    let* lo := READ_REG reg in let* hi := READ_REG (reg + 1) in
    ret (wrap w lo .| wrap (2 * w) (Z.shiftl hi w)).
Definition write_cas_pair (w reg res : Z) : M unit :=
  when (negb (reg =? 0))
    (let lo := swrap w res in
     let hi := swrap w (Z.shiftr res w) in
     if target_big_endian
     then if w =? 32 then WRITE_REG (reg + 1) (ret lo) ;; WRITE_REG reg (ret hi)
          else WRITE_REG reg (ret hi) ;; WRITE_REG (reg + 1) (ret lo)
     else WRITE_REG reg (ret lo) ;; WRITE_REG (reg + 1) (ret hi)).
Definition amocas_pair (w : Z) : M unit :=
  let rd := Insn.rd insn in
  let rs2 := Insn.rs2 insn in
  require_align rd 2 ;; require_align rs2 2 ;;
  let* comp := cas_pair w rd in
  let* swap := cas_pair w rs2 in
  let* a := RS1 in
  let* res := amo_compare_and_swap (2 * w / 8) a comp swap in
  write_cas_pair w rd res.
Definition insn_amocas_d : M unit :=
  require_extension EXT_ZACAS ;;
  if xlen =? 32 then amocas_pair 32 else amocas_rd 8.
Definition insn_amocas_q : M unit := require_extension EXT_ZACAS ;; require_rv64 ;; amocas_pair 64.

(** * Hypervisor loads and stores *)

Definition require_hlsv : M unit :=
  require_novirt ;;
  let* h := get_hart in
  require_privilege (if z2b (get_field (hstatus_read h) HSTATUS_HU) then PRV_U else PRV_S).
Definition hlv (n : Z) (conv : Z -> Z) : M unit :=
  WRITE_RD (let* a := RS1 in let* x := guest_load n a in ret (conv x)).
Definition hlvx (n : Z) (conv : Z -> Z) : M unit :=
  WRITE_RD (let* a := RS1 in let* x := guest_load_x n a in ret (conv x)).
Definition hsv (n : Z) : M unit := let* a := RS1 in let* b := RS2 in guest_store n a b.
Definition insn_hlv_b : M unit := require_extension ext_H ;; require_hlsv ;; hlv 1 i8.
Definition insn_hlv_bu : M unit := require_extension ext_H ;; require_hlsv ;; hlv 1 id.
Definition insn_hlv_h : M unit := require_extension ext_H ;; require_hlsv ;; hlv 2 i16.
Definition insn_hlv_hu : M unit := require_extension ext_H ;; require_hlsv ;; hlv 2 id.
Definition insn_hlv_w : M unit := require_extension ext_H ;; require_hlsv ;; hlv 4 i32.
Definition insn_hlv_wu : M unit := require_extension ext_H ;; require_rv64 ;; require_hlsv ;; hlv 4 id.
Definition insn_hlv_d : M unit := require_extension ext_H ;; require_rv64 ;; require_hlsv ;; hlv 8 i64.
Definition insn_hlvx_hu : M unit := require_extension ext_H ;; require_hlsv ;; hlvx 2 id.
Definition insn_hlvx_wu : M unit := require_extension ext_H ;; require_hlsv ;; hlvx 4 sext_xlen.
Definition insn_hsv_b : M unit := require_extension ext_H ;; require_hlsv ;; hsv 1.
Definition insn_hsv_h : M unit := require_extension ext_H ;; require_hlsv ;; hsv 2.
Definition insn_hsv_w : M unit := require_extension ext_H ;; require_hlsv ;; hsv 4.
Definition insn_hsv_d : M unit := require_extension ext_H ;; require_rv64 ;; require_hlsv ;; hsv 8.

(** * Cache blocks *)

(** [DECLARE_XENVCFG_VARS(field); require_envcfg(field)], the three values
    passed on. *)
Definition with_envcfg (mfield sfield hfield : Z) (k : Z -> Z -> Z -> M unit) : M unit :=
  let* h := get_hart in
  let m := get_field (menvcfg_read h) mfield in
  let s := get_field (senvcfg_read h) sfield in
  let hy := get_field (henvcfg_read h) hfield in
  require_envcfg m s hy ;; k m s hy.
Definition cbo_clean_inval : M unit :=
  require_extension EXT_ZICBOM ;;
  with_envcfg MENVCFG_CBCFE SENVCFG_CBCFE HENVCFG_CBCFE (fun _ _ _ => let* a := RS1 in clean_inval_addr a).
Definition insn_cbo_clean : M unit := cbo_clean_inval.
Definition insn_cbo_flush : M unit := cbo_clean_inval.
(** Whether the block is cleaned as well only concerns the tracer. *)
Definition insn_cbo_inval : M unit :=
  require_extension EXT_ZICBOM ;;
  with_envcfg MENVCFG_CBIE SENVCFG_CBIE HENVCFG_CBIE (fun _ _ _ => let* a := RS1 in clean_inval_addr a).
Definition insn_cbo_zero : M unit :=
  require_extension EXT_ZICBOZ ;;
  with_envcfg MENVCFG_CBZE SENVCFG_CBZE HENVCFG_CBZE (fun _ _ _ => let* a := RS1 in cbo_zero a).

(** * Shadow-stack swaps *)

Definition ssamoswap_rd (n : Z) : M unit :=
  with_envcfg MENVCFG_SSE SENVCFG_SSE HENVCFG_SSE (fun _ _ _ =>
    WRITE_RD (let* a := RS1 in let* b := RS2 in
              let* data := ssamoswap n a b in ret (swrap (8 * n) data))).
Definition insn_ssamoswap_w : M unit := require_extension EXT_ZICFISS ;; require_extension ext_A ;; ssamoswap_rd 4.
Definition insn_ssamoswap_d : M unit :=
  require_extension EXT_ZICFISS ;; require_extension ext_A ;; require_rv64 ;; ssamoswap_rd 8.

End insns.
