(* ===== verification/InsnsPriv.v ===== *)
(** System instructions: environment calls, returns from traps, CSR access,
    fences, waits, landing pads, shadow stacks and may-be-operations.  Each
    [insn_<name>] is the body of [riscv/insns/<name>.h]. *)

From S2P Require Import Prelude IntArith Decode Encoding IsaExt Trap Hart Pmp Csr CsrFile CsrInit Mmu Macros.

Section insns.
Context `{!config, !simif, !trigger_module, !insn_ctx}.

(** * The CSR objects that [state_t] points to *)

Definition sepc_obj : csr_t := virtualized_csr (epc_csr CSR_SEPC) (epc_csr CSR_VSEPC).
Definition mstatush_obj : option csr_t :=
  if max_xlen =? 32 then Some (rv32_high_csr CSR_MSTATUSH mstatus_csr) else None.
Definition tcontrol_obj : option csr_t :=
  if (0 <? trigger_count) && negb (ee0 ext_S)
  then Some (masked_csr CSR_TCONTROL (CSR_TCONTROL_MPTE .| CSR_TCONTROL_MTE)) else None.

(** [if (obj) obj->write(f(obj->read()));] *)
Definition write_if_present (obj : option csr_t) (f : Z -> Z) : M unit :=
  match obj with
  | Some c => let* h := get_hart in csr_write c (f (csr_read c h))
  | None => ret tt
  end.
(** [obj->write(obj->read() & ~mask)] *)
Definition clear_bits (c : csr_t) (mask : Z) : M unit :=
  let* h := get_hart in csr_write c (csr_read c h &~ mask).

(** * Calls and breakpoints *)

Definition insn_ecall : M unit :=
  let* h := get_hart in
  if prv h =? PRV_U then throw trap_user_ecall
  else if prv h =? PRV_S then
    if v h then throw trap_virtual_supervisor_ecall else throw trap_supervisor_ecall
  else if prv h =? PRV_M then throw trap_machine_ecall
  else abort.

Definition insn_ebreak : M unit :=
  let* h := get_hart in
  let d := dcsr h in
  if negb (debug_mode h) &&
     ((negb (v h) && (prv h =? PRV_M) && dcsr_ebreakm d) ||
      (negb (v h) && (prv h =? PRV_S) && dcsr_ebreaks d) ||
      (negb (v h) && (prv h =? PRV_U) && dcsr_ebreaku d) ||
      (v h && (prv h =? PRV_S) && dcsr_ebreakvs d) ||
      (v h && (prv h =? PRV_U) && dcsr_ebreakvu d))
  then raise Trap_debug_mode
  else throw (trap_breakpoint (v h) insn_pc).

(** * Returns *)

Definition insn_mret : M unit :=
  require_privilege PRV_M ;;
  let* h := get_hart in
  set_pc_and_serialize (csr_read (epc_csr CSR_MEPC) h) ;;
  let* h := get_hart in
  let s := csr_read mstatus_csr h in
  let prev_prv := get_field s MSTATUS_MPP in
  let prev_virt := z2b (get_field s MSTATUS_MPV) in
  let s := if negb (prev_prv =? PRV_M) then set_field s MSTATUS_MPRV 0 else s in
  let s := set_field s MSTATUS_MIE (get_field s MSTATUS_MPIE) in
  let s := set_field s MSTATUS_MPIE 1 in
  let s := set_field s MSTATUS_MPP (if extension_enabled h ext_U then PRV_U else PRV_M) in
  let s := set_field s MSTATUS_MPV 0 in
  let* lpe := ZICFILP_xLPE prev_virt prev_prv in
  when lpe (modify (set_elp (elp_of_z (get_field s MSTATUS_MPELP)))) ;;
  let s := set_field s MSTATUS_MPELP (elp_z NO_LP_EXPECTED) in
  let s := set_field s MSTATUS_MDT 0 in
  let s := if (prev_prv =? PRV_U) || (prev_virt && negb (prev_prv =? PRV_M))
           then set_field s MSTATUS_SDT 0 else s in
  when (prev_virt && (prev_prv =? PRV_U)) (clear_bits vsstatus_csr SSTATUS_SDT) ;;
  csr_write mstatus_csr s ;;
  write_if_present mstatush_obj (fun _ => Z.shiftr s 32) ;;
  write_if_present tcontrol_obj (fun t =>
    if z2b (t .& CSR_TCONTROL_MPTE) then CSR_TCONTROL_MPTE .| CSR_TCONTROL_MTE else 0) ;;
  set_privilege prev_prv prev_virt.

Definition insn_sret : M unit :=
  require_extension ext_S ;;
  let* h := get_hart in
  let prev_hstatus := hstatus_read h in
  (if v h then
     when ((prv h =? PRV_U) || z2b (get_field prev_hstatus HSTATUS_VTSR)) require_novirt
   else require_privilege (if z2b (get_field (csr_read mstatus_csr h) MSTATUS_TSR) then PRV_M else PRV_S)) ;;
  let next_pc := csr_read sepc_obj h in
  set_pc_and_serialize next_pc ;;
  let* h := get_hart in
  let s := csr_read sstatus_csr h in
  let prev_prv := get_field s MSTATUS_SPP in
  let s := set_field s MSTATUS_SIE (get_field s MSTATUS_SPIE) in
  let s := set_field s MSTATUS_SPIE 1 in
  let s := set_field s MSTATUS_SPP PRV_U in
  let* prev_virt :=
    (if negb (v h) then
       let* prev_virt :=
         (if extension_enabled h ext_H then
            csr_write hstatus_csr (set_field prev_hstatus HSTATUS_SPV 0) ;;
            ret (z2b (get_field prev_hstatus HSTATUS_SPV))
          else ret (v h)) in
       let* h := get_hart in
       csr_write mstatus_csr (set_field (csr_read mstatus_csr h) MSTATUS_MPRV 0) ;;
       ret prev_virt
     else ret (v h)) in
  let* lpe := ZICFILP_xLPE prev_virt prev_prv in
  when lpe (modify (set_elp (elp_of_z (get_field s SSTATUS_SPELP)))) ;;
  let* h := get_hart in
  let* s :=
    (if prv h =? PRV_M then
       clear_bits mstatus_csr MSTATUS_MDT ;;
       when (prev_virt && (prev_prv =? PRV_U)) (clear_bits vsstatus_csr SSTATUS_SDT) ;;
       ret (if (prev_prv =? PRV_U) || prev_virt then set_field s SSTATUS_SDT 0 else s)
     else ret s) in
  let s := set_field s SSTATUS_SPELP (elp_z NO_LP_EXPECTED) in
  let* s :=
    (if prv h =? PRV_S then
       when (negb (v h) && prev_virt && (prev_prv =? PRV_U)) (clear_bits vsstatus_csr SSTATUS_SDT) ;;
       ret (set_field s SSTATUS_SDT 0)
     else ret s) in
  csr_write sstatus_csr s ;;
  set_privilege prev_prv prev_virt.

Definition insn_mnret : M unit :=
  require_extension EXT_SMRNMI ;;
  require_privilege PRV_M ;;
  let* h := get_hart in
  set_pc_and_serialize (csr_read (epc_csr CSR_MNEPC) h) ;;
  let* h := get_hart in
  let s := csr_read mnstatus_csr h in
  let prev_prv := get_field s MNSTATUS_MNPP in
  let prev_virt := z2b (get_field s MNSTATUS_MNPV) in
  when (negb (prev_prv =? PRV_M))
    (csr_write mstatus_csr (set_field (csr_read mstatus_csr h) MSTATUS_MPRV 0)) ;;
  let s := set_field s MNSTATUS_NMIE 1 in
  let* lpe := ZICFILP_xLPE prev_virt prev_prv in
  when lpe (modify (set_elp (elp_of_z (get_field s MNSTATUS_MNPELP)))) ;;
  let* h := get_hart in
  let s := if extension_enabled h EXT_ZICFILP then set_field s MNSTATUS_MNPELP (elp_z NO_LP_EXPECTED) else s in
  csr_write mnstatus_csr s ;;
  set_privilege prev_prv prev_virt.

(** The block that clears [SDT], which the source has twice. *)
Definition dret_clear_sdt : M unit :=
  let* h := get_hart in
  let d := dcsr h in
  when ((dcsr_prv d =? PRV_U) || dcsr_v d) (clear_bits mstatus_csr MSTATUS_SDT) ;;
  when (dcsr_v d && (dcsr_prv d =? PRV_U)) (clear_bits vsstatus_csr SSTATUS_SDT).
Definition insn_dret : M unit :=
  require_state debug_mode ;;
  let* h := get_hart in
  set_pc_and_serialize (csr_read dpc_csr h) ;;
  let d := dcsr h in
  let* lpe := ZICFILP_xLPE (dcsr_v d) (dcsr_prv d) in
  when lpe (modify (set_elp (dcsr_pelp d))) ;;
  set_privilege (dcsr_prv d) (dcsr_v d) ;;
  let* h := get_hart in
  when (prv h <? PRV_M) (clear_bits mstatus_csr MSTATUS_MPRV ;; clear_bits mstatus_csr MSTATUS_MDT) ;;
  dret_clear_sdt ;;
  dret_clear_sdt ;;
  modify (set_debug_mode false) ;;
  when (dcsr_step d) (modify (set_single_step STEP_STEPPING)).

(** * CSR access *)

(** [csrrs] and the like: [write] decides whether the CSR is written at all,
    [new old] is what is written. *)
Definition csr_access (write : bool) (new : Z -> M Z) : M unit :=
  let* csr := validate_csr (Insn.csr insn) in
  let* old := get_csr csr insn write false in
  when write (let* val := new old in put_csr csr val) ;;
  WRITE_RD0 (sext_xlen old) ;;
  serialize.
Definition insn_csrrw : M unit := csr_access true (fun _ => RS1).
Definition insn_csrrwi : M unit := csr_access true (fun _ => ret (Insn.rs1 insn)).
Definition insn_csrrs : M unit :=
  csr_access (negb (Insn.rs1 insn =? 0)) (fun old => let* a := RS1 in ret (old .| a)).
Definition insn_csrrsi : M unit := csr_access (negb (Insn.rs1 insn =? 0)) (fun old => ret (old .| Insn.rs1 insn)).
Definition insn_csrrc : M unit :=
  csr_access (negb (Insn.rs1 insn =? 0)) (fun old => let* a := RS1 in ret (old .& unot64 a)).
Definition insn_csrrci : M unit :=
  csr_access (negb (Insn.rs1 insn =? 0)) (fun old => ret (old .& unot64 (Insn.rs1 insn))).

(** * Fences *)

Definition insn_fence : M unit := ret tt.
Definition insn_fence_i : M unit := modify flush_icache.
Definition insn_sfence_vma : M unit :=
  require_extension ext_S ;; require_impl IMPL_MMU ;;
  let* h := get_hart in
  (if v h then
     when ((prv h =? PRV_U) || z2b (get_field (hstatus_read h) HSTATUS_VTVM)) require_novirt
   else require_privilege (if z2b (get_field (csr_read mstatus_csr h) MSTATUS_TVM) then PRV_M else PRV_S)) ;;
  modify flush_tlb.
Definition insn_sinval_vma : M unit := require_extension EXT_SVINVAL ;; insn_sfence_vma.
Definition insn_sfence_inval_ir : M unit :=
  require_extension ext_S ;; require_extension EXT_SVINVAL ;; require_impl IMPL_MMU ;;
  require_privilege_hs_qualified PRV_S.
Definition insn_sfence_w_inval : M unit := insn_sfence_inval_ir.
Definition insn_hfence_vvma : M unit :=
  require_extension ext_H ;; require_novirt ;; require_privilege PRV_S ;; modify flush_tlb.
Definition insn_hfence_gvma : M unit :=
  require_extension ext_H ;; require_novirt ;;
  let* h := get_hart in
  require_privilege (if z2b (get_field (csr_read mstatus_csr h) MSTATUS_TVM) then PRV_M else PRV_S) ;;
  modify flush_tlb.
Definition insn_hinval_vvma : M unit := require_extension EXT_SVINVAL ;; insn_hfence_vvma.
Definition insn_hinval_gvma : M unit := require_extension EXT_SVINVAL ;; insn_hfence_gvma.

(** * Waits *)

Definition insn_wfi : M unit :=
  let* h := get_hart in
  (if z2b (get_field (csr_read mstatus_csr h) MSTATUS_TW) then require_privilege PRV_M
   else if v h then
     when ((prv h =? PRV_U) || z2b (get_field (hstatus_read h) HSTATUS_VTW)) require_novirt
   else if extension_enabled h ext_S then require_privilege PRV_S else ret tt) ;;
  wfi.
Definition insn_wrs_nto : M unit :=
  let* h := get_hart in
  if z2b (get_field (csr_read mstatus_csr h) MSTATUS_TW) then require_privilege PRV_M
  else if v h then when (z2b (get_field (hstatus_read h) HSTATUS_VTW)) require_novirt
  else ret tt.
Definition insn_wrs_sto : M unit := ret tt.

(** * Control-flow integrity *)

Definition insn_lpad : M unit :=
  let* h := get_hart in
  let* lpe := ZICFILP_xLPE (v h) (prv h) in
  when (lpe && bool_decide (elp h = LP_EXPECTED))
    ((if insn_pc mod 4 =? 0 then
        let* x7 := READ_REG 7 in
        software_check ((x7 .& 0xFFFFF000 =? u64 (Insn.u_imm insn) .& 0xFFFFF000) || (Insn.u_imm insn =? 0))
          LANDING_PAD_FAULT
      else software_check false LANDING_PAD_FAULT) ;;
     modify (set_elp NO_LP_EXPECTED)).

Definition insn_mop_r_N : M unit := require_extension EXT_ZIMOP ;; WRITE_RD0 0.
Definition insn_mop_rr_N : M unit := require_extension EXT_ZIMOP ;; WRITE_RD0 0.
Definition insn_ssrdp : M unit :=
  let* h := get_hart in
  if xSSE h then WRITE_RD0 (sext_xlen (csr_read ssp_obj h)) else insn_mop_r_N.
Definition insn_sspush_x1 : M unit :=
  let* h := get_hart in if xSSE h then PUSH_VALUE_TO_SS RS2 else insn_mop_rr_N.
Definition insn_sspush_x5 : M unit := insn_sspush_x1.
Definition insn_sspopchk_x1 : M unit :=
  let* h := get_hart in if xSSE h then POP_VALUE_FROM_SS_AND_CHECK RS1 else insn_mop_r_N.
Definition insn_sspopchk_x5 : M unit := insn_sspopchk_x1.

End insns.
