(* ===== verification/InsnsC.v ===== *)
(** Compressed instructions: Zca, Zcb, Zclsd, Zcmop, Zcmp, Zcmt.  Each
    [insn_<name>] is the body of [riscv/insns/<name>.h]. *)

From S2P Require Import Prelude IntArith Decode Encoding IsaExt Trap Hart Pmp Csr CsrFile CsrInit Mmu Macros.
From S2P Require Import InsnsInt InsnsMem InsnsPriv.

Section insns.
Context `{!config, !simif, !trigger_module, !insn_ctx}.

Definition zca : M unit := require_extension EXT_ZCA.
Definition zcb : M unit := require_extension EXT_ZCB.

(** * Computation *)

Definition insn_c_add : M unit :=
  zca ;; require (negb (Insn.rvc_rs2 insn =? 0)) ;;
  WRITE_RD (let* a := RVC_RS1 in let* b := RVC_RS2 in ret (sext_xlen (a + b))).
Definition insn_c_addi : M unit := zca ;; WRITE_RD (let* a := RVC_RS1 in ret (sext_xlen (a + Insn.rvc_imm insn))).
Definition insn_c_addi4spn : M unit :=
  zca ;; require (negb (Insn.rvc_addi4spn_imm insn =? 0)) ;;
  WRITE_RVC_RS2S (let* a := RVC_SP in ret (sext_xlen (a + Insn.rvc_addi4spn_imm insn))).
Definition insn_c_addw : M unit := zca ;; require_rv64 ;; WRITE_RVC_RS1S2 (fun a b => sext32 (a + b)).
Definition insn_c_and : M unit := zca ;; WRITE_RVC_RS1S2 (fun a b => a .& b).
Definition insn_c_andi : M unit := zca ;; WRITE_RVC_RS1S1 (fun a => a .& Insn.rvc_imm insn).
Definition insn_c_li : M unit := zca ;; WRITE_RD0 (Insn.rvc_imm insn).
Definition insn_c_mv : M unit := zca ;; require (negb (Insn.rvc_rs2 insn =? 0)) ;; WRITE_RD RVC_RS2.
Definition insn_c_or : M unit := zca ;; WRITE_RVC_RS1S2 (fun a b => a .| b).
Definition insn_c_slli : M unit :=
  zca ;; require (Insn.rvc_zimm insn <? xlen) ;;
  WRITE_RD (let* a := RVC_RS1 in ret (sext_xlen (shl a (Insn.rvc_zimm insn)))).
Definition insn_c_srai : M unit :=
  zca ;; require (Insn.rvc_zimm insn <? xlen) ;;
  WRITE_RVC_RS1S1 (fun a => sext_xlen (Z.shiftr (sext_xlen a) (Insn.rvc_zimm insn))).
Definition insn_c_srli : M unit :=
  zca ;; require (Insn.rvc_zimm insn <? xlen) ;;
  WRITE_RVC_RS1S1 (fun a => sext_xlen (Z.shiftr (zext_xlen a) (Insn.rvc_zimm insn))).
Definition insn_c_sub : M unit := zca ;; WRITE_RVC_RS1S2 (fun a b => sext_xlen (a - b)).
Definition insn_c_subw : M unit := zca ;; require_rv64 ;; WRITE_RVC_RS1S2 (fun a b => sext32 (a - b)).
Definition insn_c_xor : M unit := zca ;; WRITE_RVC_RS1S2 (fun a b => a .^ b).
Definition insn_c_mul : M unit :=
  zcb ;; require_either_extension ext_M EXT_ZMMUL ;; WRITE_RVC_RS1S2 (fun a b => sext_xlen (a * b)).
Definition insn_c_not : M unit := zcb ;; WRITE_RVC_RS1S1 (fun a => sext_xlen (unot64 a)).
Definition insn_c_sext_b : M unit := zcb ;; require_extension EXT_ZBB ;; WRITE_RVC_RS1S1 (fun a => i8 a).
Definition insn_c_sext_h : M unit := zcb ;; require_extension EXT_ZBB ;; WRITE_RVC_RS1S1 (fun a => i16 a).
Definition insn_c_zext_b : M unit := zcb ;; WRITE_RVC_RS1S1 (fun a => u8 a).
Definition insn_c_zext_h : M unit := zcb ;; require_extension EXT_ZBB ;; WRITE_RVC_RS1S1 (fun a => u16 a).
Definition insn_c_zext_w : M unit :=
  zcb ;; require_extension EXT_ZBA ;; require_rv64 ;; WRITE_RVC_RS1S1 (fun a => u32 a).

(** * Control transfer *)

Definition c_branch (taken : Z -> bool) : M unit :=
  zca ;; let* a := RVC_RS1S in when (taken a) (set_next_pc (u64 (insn_pc + Insn.rvc_b_imm insn))).
Definition insn_c_beqz : M unit := c_branch (fun a => a =? 0).
Definition insn_c_bnez : M unit := c_branch (fun a => negb (a =? 0)).
Definition insn_c_ebreak : M unit := zca ;; insn_ebreak.
Definition insn_c_j : M unit := zca ;; set_next_pc (u64 (insn_pc + Insn.rvc_j_imm insn)).
Definition insn_c_jal : M unit :=
  zca ;;
  if xlen =? 32 then
    let* h := get_hart in
    let tmp := npc h in
    set_next_pc (u64 (insn_pc + Insn.rvc_j_imm insn)) ;;
    WRITE_REG X_RA (ret tmp)
  else
    require (negb (Insn.rvc_rd insn =? 0)) ;;
    WRITE_RD (let* a := RVC_RS1 in ret (sext32 (a + Insn.rvc_imm insn))).
(** The landing-pad state after an indirect jump. *)
Definition c_expect_lpad : M unit :=
  let* h := get_hart in
  let* lpe := ZICFILP_xLPE (v h) (prv h) in
  when lpe (modify (set_elp (ZICFILP_IS_LP_EXPECTED (Insn.rvc_rs1 insn))) ;; serialize).
Definition insn_c_jr : M unit :=
  zca ;; require (negb (Insn.rvc_rs1 insn =? 0)) ;;
  let* a := RVC_RS1 in
  set_next_pc (a .& unot64 1) ;;
  c_expect_lpad.
Definition insn_c_jalr : M unit :=
  zca ;; require (negb (Insn.rvc_rs1 insn =? 0)) ;;
  let* h := get_hart in
  let tmp := npc h in
  let* a := RVC_RS1 in
  set_next_pc (a .& unot64 1) ;;
  WRITE_REG X_RA (ret tmp) ;;
  c_expect_lpad.

(** * Loads and stores *)

Definition rvc_address (imm : Z) : M Z := let* a := RVC_RS1S in ret (u64 (a + imm)).
Definition sp_address (imm : Z) : M Z := let* a := RVC_SP in ret (u64 (a + imm)).
Definition insn_c_lbu : M unit := zcb ;; WRITE_RVC_RS2S (let* a := rvc_address (Insn.rvc_lbimm insn) in load_u 1 a).
Definition insn_c_lh : M unit := zcb ;; WRITE_RVC_RS2S (let* a := rvc_address (Insn.rvc_lhimm insn) in load_s 2 a).
Definition insn_c_lhu : M unit := zcb ;; WRITE_RVC_RS2S (let* a := rvc_address (Insn.rvc_lhimm insn) in load_u 2 a).
Definition insn_c_lw : M unit := zca ;; WRITE_RVC_RS2S (let* a := rvc_address (Insn.rvc_lw_imm insn) in load_s 4 a).
Definition require_zclsd : M unit := require_state (fun h => (xlen =? 64) || extension_enabled h EXT_ZCLSD).
Definition insn_c_ld : M unit :=
  zca ;; require_zclsd ;;
  if xlen =? 32 then WRITE_RVC_RS2S_PAIR (let* a := rvc_address (Insn.rvc_ld_imm insn) in load_s 8 a)
  else WRITE_RVC_RS2S (let* a := rvc_address (Insn.rvc_ld_imm insn) in load_s 8 a).
Definition insn_c_lwsp : M unit :=
  zca ;; require (negb (Insn.rvc_rd insn =? 0)) ;;
  WRITE_RD (let* a := sp_address (Insn.rvc_lwsp_imm insn) in load_s 4 a).
Definition insn_c_ldsp : M unit :=
  zca ;; require_zclsd ;; require (negb (Insn.rvc_rd insn =? 0)) ;;
  if xlen =? 32 then WRITE_RD_PAIR (let* a := sp_address (Insn.rvc_ldsp_imm insn) in load_s 8 a)
  else WRITE_RD (let* a := sp_address (Insn.rvc_ldsp_imm insn) in load_s 8 a).
Definition insn_c_sb : M unit :=
  zcb ;; let* a := rvc_address (Insn.rvc_lbimm insn) in let* b := RVC_RS2S in store_n 1 a b.
Definition insn_c_sh : M unit :=
  zcb ;; let* a := rvc_address (Insn.rvc_lhimm insn) in let* b := RVC_RS2S in store_n 2 a b.
Definition insn_c_sw : M unit :=
  zca ;; let* a := rvc_address (Insn.rvc_lw_imm insn) in let* b := RVC_RS2S in store_n 4 a b.
Definition insn_c_sd : M unit :=
  zca ;; require_zclsd ;;
  let* a := rvc_address (Insn.rvc_ld_imm insn) in
  let* b := (if xlen =? 32 then RVC_RS2S_PAIR else RVC_RS2S) in
  store_n 8 a b.
Definition insn_c_swsp : M unit :=
  zca ;; let* a := sp_address (Insn.rvc_swsp_imm insn) in let* b := RVC_RS2 in store_n 4 a b.
Definition insn_c_sdsp : M unit :=
  zca ;; require_zclsd ;;
  let* a := sp_address (Insn.rvc_sdsp_imm insn) in
  let* b := (if xlen =? 32 then RVC_RS2_PAIR else RVC_RS2) in
  store_n 8 a b.

(** * [c.lui] and what shares its encoding *)

Definition insn_c_mop_N : M unit := zca ;; require_extension EXT_ZCMOP.
Definition insn_c_sspopchk_x5 : M unit :=
  let* h := get_hart in when (xSSE h) (POP_VALUE_FROM_SS_AND_CHECK (READ_REG X_T0)).
Definition insn_c_sspush_x1 : M unit :=
  let* h := get_hart in when (xSSE h) (PUSH_VALUE_TO_SS RA).
Definition insn_c_lui : M unit :=
  zca ;;
  if Insn.rvc_rd insn =? 2 then
    require (negb (Insn.rvc_addi16sp_imm insn =? 0)) ;;
    WRITE_REG X_SP (let* a := RVC_SP in ret (sext_xlen (a + Insn.rvc_addi16sp_imm insn)))
  else if negb (Insn.rvc_imm insn =? 0) then WRITE_RD0 (Z.shiftl (Insn.rvc_imm insn) 12)
  else if Insn.rvc_rd insn .& 0x11 =? 1 then
    let* h := get_hart in
    if (Insn.rvc_rd insn =? 5) && extension_enabled h EXT_ZICFISS then insn_c_sspopchk_x5
    else if (Insn.rvc_rd insn =? 1) && extension_enabled h EXT_ZICFISS then insn_c_sspush_x1
    else insn_c_mop_N
  else require false.

(** * Zcmp *)

Definition insn_cm_mva01s : M unit :=
  require_extension EXT_ZCMP ;;
  WRITE_REG X_A0 (READ_REG RVC_R1S) ;;
  WRITE_REG X_A1 (READ_REG RVC_R2S).
Definition insn_cm_mvsa01 : M unit :=
  require_extension EXT_ZCMP ;;
  require (negb (Insn.rvc_r1sc insn =? Insn.rvc_r2sc insn)) ;;
  WRITE_REG RVC_R1S (READ_REG X_A0) ;;
  WRITE_REG RVC_R2S (READ_REG X_A1).

(** [for (int i = n - 1; i >= 0; i--) if (regmask & (1 << i)) body(i, addr)],
    [addr] being decremented first. *)
Fixpoint for_registers (n : nat) (regmask addr : Z) (body : Z -> Z -> M unit) : M unit :=
  match n with
  | O => ret tt
  | S n =>
      let i := Z.of_nat n in
      if z2b (regmask .& Z.shiftl 1 i) then
        let addr := u64 (addr - xlen / 8) in
        body i addr ;; for_registers n regmask addr body
      else for_registers n regmask addr body
  end.
Definition zcmp_registers : nat := Z.to_nat (Sn 11 + 1).
Definition load_word (addr : Z) : M Z := if xlen =? 32 then load_s 4 addr else load_s 8 addr.
Definition store_word (addr val : Z) : M unit := if xlen =? 32 then store_n 4 addr val else store_n 8 addr val.

Definition insn_cm_push : M unit :=
  require_zcmp_pushpop ;;
  let* sp := SP in
  let new_sp := u64 (sp - Insn.zcmp_stack_adjustment insn xlen) in
  for_registers zcmp_registers (Insn.zcmp_regmask insn) sp
    (fun i addr => let* x := READ_REG i in store_word addr x) ;;
  WRITE_REG X_SP (ret new_sp).
Definition insn_cm_pop : M unit :=
  require_zcmp_pushpop ;;
  let* sp := SP in
  let new_sp := u64 (sp + Insn.zcmp_stack_adjustment insn xlen) in
  for_registers zcmp_registers (Insn.zcmp_regmask insn) new_sp
    (fun i addr => WRITE_REG i (load_word addr)) ;;
  WRITE_REG X_SP (ret new_sp).
Definition insn_cm_popret : M unit := insn_cm_pop ;; let* ra := RA in set_next_pc ra.
Definition insn_cm_popretz : M unit := insn_cm_popret ;; WRITE_REG X_A0 (ret 0).

(** * Zcmt *)

Definition insn_cm_jalt : M unit :=
  require_extension EXT_ZCMT ;;
  let* h := get_hart in
  (match csr_verify_permissions jvt_csr h insn false with Val _ => ret tt | Exc e => raise e end) ;;
  let jvt := csr_read jvt_csr h in
  let mode := u8 (get_field jvt JVT_MODE) in
  let base := jvt .& JVT_BASE in
  let index := Insn.rvc_index insn in
  if mode =? 0 then
    let* target :=
      (if xlen =? 32
       then let* t := fetch_jump_table 4 (u64 (base + Z.shiftl index 2)) in ret (u64 (i32 t))
       else fetch_jump_table 8 (u64 (base + Z.shiftl index 3))) in
    when (32 <=? index) (let* h := get_hart in WRITE_REG 1 (ret (npc h))) ;;
    set_next_pc (target .& unot64 1)
  else require false.

End insns.
