(* ===== verification/InsnsCrypto.v ===== *)
(** Scalar cryptography: Zknd, Zkne, Zknh, Zksh and Zksed.  Each
    [insn_<name>] is the body of [riscv/insns/<name>.h]; the tables and helper
    macros are those of [insns/aes_common.h] and [insns/sm4_common.h].

    [uint32_t] intermediates are wrapped where they are assigned.  The shift
    [u >> (32 - 8*bs)] of the byte-select instructions is by 32 when [bs] is 0;
    the value shifted is or-ed into itself, so [0] stands for it here. *)

From S2P Require Import Prelude IntArith Decode Encoding IsaExt Trap Hart Pmp Csr CsrFile CsrInit Mmu Macros.

(** * AES *)

Definition AES_ENC_SBOX : list Z :=
  [0x63; 0x7C; 0x77; 0x7B; 0xF2; 0x6B; 0x6F; 0xC5; 0x30; 0x01; 0x67; 0x2B; 0xFE; 0xD7; 0xAB; 0x76;
   0xCA; 0x82; 0xC9; 0x7D; 0xFA; 0x59; 0x47; 0xF0; 0xAD; 0xD4; 0xA2; 0xAF; 0x9C; 0xA4; 0x72; 0xC0;
   0xB7; 0xFD; 0x93; 0x26; 0x36; 0x3F; 0xF7; 0xCC; 0x34; 0xA5; 0xE5; 0xF1; 0x71; 0xD8; 0x31; 0x15;
   0x04; 0xC7; 0x23; 0xC3; 0x18; 0x96; 0x05; 0x9A; 0x07; 0x12; 0x80; 0xE2; 0xEB; 0x27; 0xB2; 0x75;
   0x09; 0x83; 0x2C; 0x1A; 0x1B; 0x6E; 0x5A; 0xA0; 0x52; 0x3B; 0xD6; 0xB3; 0x29; 0xE3; 0x2F; 0x84;
   0x53; 0xD1; 0x00; 0xED; 0x20; 0xFC; 0xB1; 0x5B; 0x6A; 0xCB; 0xBE; 0x39; 0x4A; 0x4C; 0x58; 0xCF;
   0xD0; 0xEF; 0xAA; 0xFB; 0x43; 0x4D; 0x33; 0x85; 0x45; 0xF9; 0x02; 0x7F; 0x50; 0x3C; 0x9F; 0xA8;
   0x51; 0xA3; 0x40; 0x8F; 0x92; 0x9D; 0x38; 0xF5; 0xBC; 0xB6; 0xDA; 0x21; 0x10; 0xFF; 0xF3; 0xD2;
   0xCD; 0x0C; 0x13; 0xEC; 0x5F; 0x97; 0x44; 0x17; 0xC4; 0xA7; 0x7E; 0x3D; 0x64; 0x5D; 0x19; 0x73;
   0x60; 0x81; 0x4F; 0xDC; 0x22; 0x2A; 0x90; 0x88; 0x46; 0xEE; 0xB8; 0x14; 0xDE; 0x5E; 0x0B; 0xDB;
   0xE0; 0x32; 0x3A; 0x0A; 0x49; 0x06; 0x24; 0x5C; 0xC2; 0xD3; 0xAC; 0x62; 0x91; 0x95; 0xE4; 0x79;
   0xE7; 0xC8; 0x37; 0x6D; 0x8D; 0xD5; 0x4E; 0xA9; 0x6C; 0x56; 0xF4; 0xEA; 0x65; 0x7A; 0xAE; 0x08;
   0xBA; 0x78; 0x25; 0x2E; 0x1C; 0xA6; 0xB4; 0xC6; 0xE8; 0xDD; 0x74; 0x1F; 0x4B; 0xBD; 0x8B; 0x8A;
   0x70; 0x3E; 0xB5; 0x66; 0x48; 0x03; 0xF6; 0x0E; 0x61; 0x35; 0x57; 0xB9; 0x86; 0xC1; 0x1D; 0x9E;
   0xE1; 0xF8; 0x98; 0x11; 0x69; 0xD9; 0x8E; 0x94; 0x9B; 0x1E; 0x87; 0xE9; 0xCE; 0x55; 0x28; 0xDF;
   0x8C; 0xA1; 0x89; 0x0D; 0xBF; 0xE6; 0x42; 0x68; 0x41; 0x99; 0x2D; 0x0F; 0xB0; 0x54; 0xBB; 0x16].

Definition AES_DEC_SBOX : list Z :=
  [0x52; 0x09; 0x6A; 0xD5; 0x30; 0x36; 0xA5; 0x38; 0xBF; 0x40; 0xA3; 0x9E; 0x81; 0xF3; 0xD7; 0xFB;
   0x7C; 0xE3; 0x39; 0x82; 0x9B; 0x2F; 0xFF; 0x87; 0x34; 0x8E; 0x43; 0x44; 0xC4; 0xDE; 0xE9; 0xCB;
   0x54; 0x7B; 0x94; 0x32; 0xA6; 0xC2; 0x23; 0x3D; 0xEE; 0x4C; 0x95; 0x0B; 0x42; 0xFA; 0xC3; 0x4E;
   0x08; 0x2E; 0xA1; 0x66; 0x28; 0xD9; 0x24; 0xB2; 0x76; 0x5B; 0xA2; 0x49; 0x6D; 0x8B; 0xD1; 0x25;
   0x72; 0xF8; 0xF6; 0x64; 0x86; 0x68; 0x98; 0x16; 0xD4; 0xA4; 0x5C; 0xCC; 0x5D; 0x65; 0xB6; 0x92;
   0x6C; 0x70; 0x48; 0x50; 0xFD; 0xED; 0xB9; 0xDA; 0x5E; 0x15; 0x46; 0x57; 0xA7; 0x8D; 0x9D; 0x84;
   0x90; 0xD8; 0xAB; 0x00; 0x8C; 0xBC; 0xD3; 0x0A; 0xF7; 0xE4; 0x58; 0x05; 0xB8; 0xB3; 0x45; 0x06;
   0xD0; 0x2C; 0x1E; 0x8F; 0xCA; 0x3F; 0x0F; 0x02; 0xC1; 0xAF; 0xBD; 0x03; 0x01; 0x13; 0x8A; 0x6B;
   0x3A; 0x91; 0x11; 0x41; 0x4F; 0x67; 0xDC; 0xEA; 0x97; 0xF2; 0xCF; 0xCE; 0xF0; 0xB4; 0xE6; 0x73;
   0x96; 0xAC; 0x74; 0x22; 0xE7; 0xAD; 0x35; 0x85; 0xE2; 0xF9; 0x37; 0xE8; 0x1C; 0x75; 0xDF; 0x6E;
   0x47; 0xF1; 0x1A; 0x71; 0x1D; 0x29; 0xC5; 0x89; 0x6F; 0xB7; 0x62; 0x0E; 0xAA; 0x18; 0xBE; 0x1B;
   0xFC; 0x56; 0x3E; 0x4B; 0xC6; 0xD2; 0x79; 0x20; 0x9A; 0xDB; 0xC0; 0xFE; 0x78; 0xCD; 0x5A; 0xF4;
   0x1F; 0xDD; 0xA8; 0x33; 0x88; 0x07; 0xC7; 0x31; 0xB1; 0x12; 0x10; 0x59; 0x27; 0x80; 0xEC; 0x5F;
   0x60; 0x51; 0x7F; 0xA9; 0x19; 0xB5; 0x4A; 0x0D; 0x2D; 0xE5; 0x7A; 0x9F; 0x93; 0xC9; 0x9C; 0xEF;
   0xA0; 0xE0; 0x3B; 0x4D; 0xAE; 0x2A; 0xF5; 0xB0; 0xC8; 0xEB; 0xBB; 0x3C; 0x83; 0x53; 0x99; 0x61;
   0x17; 0x2B; 0x04; 0x7E; 0xBA; 0x77; 0xD6; 0x26; 0xE1; 0x69; 0x14; 0x63; 0x55; 0x21; 0x0C; 0x7D].

Definition sbox (t : list Z) (x : Z) : Z := nth (Z.to_nat x) t 0.
(** [BY(X,I)] *)
Definition BY (x i : Z) : Z := Z.shiftr x (8 * i) .& 0xFF.
Definition AES_XTIME (a : Z) : Z := Z.shiftl a 1 .^ (if z2b (a .& 0x80) then 0x1b else 0).
Definition AES_GFMUL (a b : Z) : Z :=
  ((if z2b (b .& 0x1) then a else 0) .^
   (if z2b (b .& 0x2) then AES_XTIME a else 0) .^
   (if z2b (b .& 0x4) then AES_XTIME (AES_XTIME a) else 0) .^
   (if z2b (b .& 0x8) then AES_XTIME (AES_XTIME (AES_XTIME a)) else 0)) .& 0xFF.

(** [(((x >> from) & 0xFF) << to)] *)
Definition move_byte (x from to : Z) : Z := Z.shiftl (Z.shiftr x from .& 0xFF) to.
Definition AES_SHIFROWS_LO (rs1 rs2 : Z) : Z :=
  move_byte rs1 24 56 .| move_byte rs2 48 48 .| move_byte rs2 8 40 .| move_byte rs1 32 32 .|
  move_byte rs2 56 24 .| move_byte rs2 16 16 .| move_byte rs1 40 8 .| move_byte rs1 0 0.
Definition AES_INVSHIFROWS_LO (rs1 rs2 : Z) : Z :=
  move_byte rs2 24 56 .| move_byte rs2 48 48 .| move_byte rs1 8 40 .| move_byte rs1 32 32 .|
  move_byte rs1 56 24 .| move_byte rs2 16 16 .| move_byte rs2 40 8 .| move_byte rs1 0 0.
Definition AES_MIXBYTE (col b0 b1 b2 b3 : Z) : Z :=
  BY col b3 .^ BY col b2 .^ AES_GFMUL (BY col b1) 3 .^ AES_GFMUL (BY col b0) 2.
Definition AES_MIXCOLUMN (col : Z) : Z :=
  Z.shiftl (AES_MIXBYTE col 3 0 1 2) 24 .| Z.shiftl (AES_MIXBYTE col 2 3 0 1) 16 .|
  Z.shiftl (AES_MIXBYTE col 1 2 3 0) 8 .| Z.shiftl (AES_MIXBYTE col 0 1 2 3) 0.
Definition AES_INVMIXBYTE (col b0 b1 b2 b3 : Z) : Z :=
  AES_GFMUL (BY col b3) 0x9 .^ AES_GFMUL (BY col b2) 0xd .^ AES_GFMUL (BY col b1) 0xb .^ AES_GFMUL (BY col b0) 0xe.
Definition AES_INVMIXCOLUMN (col : Z) : Z :=
  Z.shiftl (AES_INVMIXBYTE col 3 0 1 2) 24 .| Z.shiftl (AES_INVMIXBYTE col 2 3 0 1) 16 .|
  Z.shiftl (AES_INVMIXBYTE col 1 2 3 0) 8 .| Z.shiftl (AES_INVMIXBYTE col 0 1 2 3) 0.

(** The eight lookups of the 64-bit instructions. *)
Definition sub_bytes (t : list Z) (temp : Z) : Z :=
  fold_left (fun r i => r .| Z.shiftl (sbox t (Z.shiftr temp (8 * i) .& 0xFF)) (8 * i)) (zseq 8) 0.
Definition both_columns (mix : Z -> Z) (temp : Z) : Z :=
  let col_0 := mix (temp .& 0xFFFFFFFF) in
  let col_1 := mix (u32 (Z.shiftr temp 32)) in
  Z.shiftl col_1 32 .| col_0.
(** [u = (u << (8*bs)) | (u >> (32-8*bs))] *)
Definition rotl_bs (u bs : Z) : Z :=
  u32 (Z.shiftl u (8 * bs)) .| (if bs =? 0 then 0 else Z.shiftr u (32 - 8 * bs)).

Definition round_consts : list Z := [0x01; 0x02; 0x04; 0x08; 0x10; 0x20; 0x40; 0x80; 0x1b; 0x36].
Definition aes64ks1i_value (enc_rcon rs1 : Z) : Z :=
  let temp := Z.shiftr rs1 32 .& 0xFFFFFFFF in
  let temp' := if enc_rcon =? 0xA then temp else Z.shiftr temp 8 .| u32 (Z.shiftl temp 24) in
  let rcon := if enc_rcon =? 0xA then 0 else nth (Z.to_nat enc_rcon) round_consts 0 in
  let sub := fold_left (fun r i => r .| Z.shiftl (sbox AES_ENC_SBOX (Z.shiftr temp' (8 * i) .& 0xFF)) (8 * i)) (zseq 4) 0 in
  let t := sub .^ rcon in
  Z.shiftl t 32 .| t.
Definition aes64ks2_value (rs1 rs2 : Z) : Z :=
  let rs1_hi := u32 (Z.shiftr rs1 32) in
  let rs2_lo := u32 rs2 in
  let rs2_hi := u32 (Z.shiftr rs2 32) in
  Z.shiftl (rs1_hi .^ rs2_lo .^ rs2_hi) 32 .| (rs1_hi .^ rs2_lo).

(** * SHA-2 and SM3 *)

Definition ROR32 (a amt : Z) : Z := u32 (Z.shiftl a (- amt .& 31)) .| Z.shiftr a (amt .& 31).
Definition ROL32 (a amt : Z) : Z := Z.shiftr a (- amt .& 31) .| u32 (Z.shiftl a (amt .& 31)).
Definition ROR64 (a amt : Z) : Z := u64 (Z.shiftl a (- amt .& 63)) .| Z.shiftr a (amt .& 63).

(** * SM4 *)

Definition sm4_sbox : list Z :=
  [0xD6; 0x90; 0xE9; 0xFE; 0xCC; 0xE1; 0x3D; 0xB7; 0x16; 0xB6; 0x14; 0xC2; 0x28; 0xFB; 0x2C; 0x05;
   0x2B; 0x67; 0x9A; 0x76; 0x2A; 0xBE; 0x04; 0xC3; 0xAA; 0x44; 0x13; 0x26; 0x49; 0x86; 0x06; 0x99;
   0x9C; 0x42; 0x50; 0xF4; 0x91; 0xEF; 0x98; 0x7A; 0x33; 0x54; 0x0B; 0x43; 0xED; 0xCF; 0xAC; 0x62;
   0xE4; 0xB3; 0x1C; 0xA9; 0xC9; 0x08; 0xE8; 0x95; 0x80; 0xDF; 0x94; 0xFA; 0x75; 0x8F; 0x3F; 0xA6;
   0x47; 0x07; 0xA7; 0xFC; 0xF3; 0x73; 0x17; 0xBA; 0x83; 0x59; 0x3C; 0x19; 0xE6; 0x85; 0x4F; 0xA8;
   0x68; 0x6B; 0x81; 0xB2; 0x71; 0x64; 0xDA; 0x8B; 0xF8; 0xEB; 0x0F; 0x4B; 0x70; 0x56; 0x9D; 0x35;
   0x1E; 0x24; 0x0E; 0x5E; 0x63; 0x58; 0xD1; 0xA2; 0x25; 0x22; 0x7C; 0x3B; 0x01; 0x21; 0x78; 0x87;
   0xD4; 0x00; 0x46; 0x57; 0x9F; 0xD3; 0x27; 0x52; 0x4C; 0x36; 0x02; 0xE7; 0xA0; 0xC4; 0xC8; 0x9E;
   0xEA; 0xBF; 0x8A; 0xD2; 0x40; 0xC7; 0x38; 0xB5; 0xA3; 0xF7; 0xF2; 0xCE; 0xF9; 0x61; 0x15; 0xA1;
   0xE0; 0xAE; 0x5D; 0xA4; 0x9B; 0x34; 0x1A; 0x55; 0xAD; 0x93; 0x32; 0x30; 0xF5; 0x8C; 0xB1; 0xE3;
   0x1D; 0xF6; 0xE2; 0x2E; 0x82; 0x66; 0xCA; 0x60; 0xC0; 0x29; 0x23; 0xAB; 0x0D; 0x53; 0x4E; 0x6F;
   0xD5; 0xDB; 0x37; 0x45; 0xDE; 0xFD; 0x8E; 0x2F; 0x03; 0xFF; 0x6A; 0x72; 0x6D; 0x6C; 0x5B; 0x51;
   0x8D; 0x1B; 0xAF; 0x92; 0xBB; 0xDD; 0xBC; 0x7F; 0x11; 0xD9; 0x5C; 0x41; 0x1F; 0x10; 0x5A; 0xD8;
   0x0A; 0xC1; 0x31; 0x88; 0xA5; 0xCD; 0x7B; 0xBD; 0x2D; 0x74; 0xD0; 0x12; 0xB8; 0xE5; 0xB4; 0xB0;
   0x89; 0x69; 0x97; 0x4A; 0x0C; 0x96; 0x77; 0x7E; 0x65; 0xB9; 0xF1; 0x09; 0xC5; 0x6E; 0xC6; 0x84;
   0x18; 0xF0; 0x7D; 0xEC; 0x3A; 0xDC; 0x4D; 0x20; 0x79; 0xEE; 0x5F; 0x3E; 0xD7; 0xCB; 0x39; 0x48].

Definition sm4ed_linear (sb_out : Z) : Z :=
  u32 (sb_out .^ Z.shiftl sb_out 8 .^ Z.shiftl sb_out 2 .^ Z.shiftl sb_out 18
       .^ Z.shiftl (sb_out .& 0x3f) 26 .^ Z.shiftl (sb_out .& 0xC0) 10).
Definition sm4ks_linear (sb_out : Z) : Z :=
  u32 (sb_out .^ Z.shiftl (sb_out .& 0x07) 29 .^ Z.shiftl (sb_out .& 0xFE) 7
       .^ Z.shiftl (sb_out .& 0x01) 23 .^ Z.shiftl (sb_out .& 0xF8) 13).

Section insns.
Context `{!config, !simif, !trigger_module, !insn_ctx}.

(** [uint8_t t0 = RS2 >> (8*bs)] *)
Definition selected_byte (rs2 : Z) : Z := u8 (Z.shiftr rs2 (8 * Insn.bs insn)).
Definition aes32 (ext : Z) (mix : Z -> Z) : M unit :=
  require_rv32 ;; require_extension ext ;;
  WRITE_RD2 (fun a b => sext_xlen (rotl_bs (mix (selected_byte b)) (Insn.bs insn) .^ a)).
Definition insn_aes32dsi : M unit := aes32 EXT_ZKND (fun t0 => sbox AES_DEC_SBOX t0).
Definition insn_aes32dsmi : M unit :=
  aes32 EXT_ZKND (fun t0 => let x := sbox AES_DEC_SBOX t0 in
    Z.shiftl (AES_GFMUL x 0xb) 24 .| Z.shiftl (AES_GFMUL x 0xd) 16 .|
    Z.shiftl (AES_GFMUL x 0x9) 8 .| Z.shiftl (AES_GFMUL x 0xe) 0).
Definition insn_aes32esi : M unit := aes32 EXT_ZKNE (fun t0 => sbox AES_ENC_SBOX t0).
Definition insn_aes32esmi : M unit :=
  aes32 EXT_ZKNE (fun t0 => let x := sbox AES_ENC_SBOX t0 in
    Z.shiftl (AES_GFMUL x 3) 24 .| Z.shiftl x 16 .| Z.shiftl x 8 .| Z.shiftl (AES_GFMUL x 2) 0).

Definition insn_aes64ds : M unit :=
  require_rv64 ;; require_extension EXT_ZKND ;;
  WRITE_RD2 (fun a b => sub_bytes AES_DEC_SBOX (AES_INVSHIFROWS_LO a b)).
Definition insn_aes64dsm : M unit :=
  require_rv64 ;; require_extension EXT_ZKND ;;
  WRITE_RD2 (fun a b => both_columns AES_INVMIXCOLUMN (sub_bytes AES_DEC_SBOX (AES_INVSHIFROWS_LO a b))).
Definition insn_aes64es : M unit :=
  require_rv64 ;; require_extension EXT_ZKNE ;;
  WRITE_RD2 (fun a b => sub_bytes AES_ENC_SBOX (AES_SHIFROWS_LO a b)).
Definition insn_aes64esm : M unit :=
  require_rv64 ;; require_extension EXT_ZKNE ;;
  WRITE_RD2 (fun a b => both_columns AES_MIXCOLUMN (sub_bytes AES_ENC_SBOX (AES_SHIFROWS_LO a b))).
Definition insn_aes64im : M unit :=
  require_rv64 ;; require_extension EXT_ZKND ;; WRITE_RD1 (both_columns AES_INVMIXCOLUMN).
Definition insn_aes64ks1i : M unit :=
  require_rv64 ;; require_either_extension EXT_ZKND EXT_ZKNE ;;
  let enc_rcon := Insn.rcon insn in
  require (enc_rcon <=? 0xA) ;;
  WRITE_RD1 (aes64ks1i_value enc_rcon).
Definition insn_aes64ks2 : M unit :=
  require_rv64 ;; require_either_extension EXT_ZKND EXT_ZKNE ;; WRITE_RD2 aes64ks2_value.

(** [WRITE_RD(sext32(f(a)))], [uint32_t a = RS1]. *)
Definition sha32 (ext : Z) (f : Z -> Z) : M unit := require_extension ext ;; WRITE_RD1 (fun a => sext32 (f (u32 a))).
Definition insn_sha256sig0 : M unit := sha32 EXT_ZKNH (fun a => ROR32 a 7 .^ ROR32 a 18 .^ Z.shiftr a 3).
Definition insn_sha256sig1 : M unit := sha32 EXT_ZKNH (fun a => ROR32 a 17 .^ ROR32 a 19 .^ Z.shiftr a 10).
Definition insn_sha256sum0 : M unit := sha32 EXT_ZKNH (fun a => ROR32 a 2 .^ ROR32 a 13 .^ ROR32 a 22).
Definition insn_sha256sum1 : M unit := sha32 EXT_ZKNH (fun a => ROR32 a 6 .^ ROR32 a 11 .^ ROR32 a 25).
Definition insn_sm3p0 : M unit := sha32 EXT_ZKSH (fun src => src .^ ROL32 src 9 .^ ROL32 src 17).
Definition insn_sm3p1 : M unit := sha32 EXT_ZKSH (fun src => src .^ ROL32 src 15 .^ ROL32 src 23).

Definition sha64 (f : Z -> Z) : M unit := require_rv64 ;; require_extension EXT_ZKNH ;; WRITE_RD1 f.
Definition insn_sha512sig0 : M unit := sha64 (fun a => ROR64 a 1 .^ ROR64 a 8 .^ Z.shiftr a 7).
Definition insn_sha512sig1 : M unit := sha64 (fun a => ROR64 a 19 .^ ROR64 a 61 .^ Z.shiftr a 6).
Definition insn_sha512sum0 : M unit := sha64 (fun a => ROR64 a 28 .^ ROR64 a 34 .^ ROR64 a 39).
Definition insn_sha512sum1 : M unit := sha64 (fun a => ROR64 a 14 .^ ROR64 a 18 .^ ROR64 a 41).

(** The RV32 halves of SHA-512, on [zext32(RS1)] and [zext32(RS2)]. *)
Definition sha512_half (f : Z -> Z -> Z) : M unit :=
  require_rv32 ;; require_extension EXT_ZKNH ;;
  WRITE_RD2 (fun a b => sext_xlen (f (zext32 a) (zext32 b))).
Definition insn_sha512sig0h : M unit := sha512_half (fun a b =>
  Z.shiftr a 1 .^ Z.shiftr a 7 .^ Z.shiftr a 8 .^ shl b 31 .^ shl b 24).
Definition insn_sha512sig0l : M unit := sha512_half (fun a b =>
  Z.shiftr a 1 .^ Z.shiftr a 7 .^ Z.shiftr a 8 .^ shl b 31 .^ shl b 25 .^ shl b 24).
Definition insn_sha512sig1h : M unit := sha512_half (fun a b =>
  shl a 3 .^ Z.shiftr a 6 .^ Z.shiftr a 19 .^ Z.shiftr b 29 .^ shl b 13).
Definition insn_sha512sig1l : M unit := sha512_half (fun a b =>
  shl a 3 .^ Z.shiftr a 6 .^ Z.shiftr a 19 .^ Z.shiftr b 29 .^ shl b 26 .^ shl b 13).
Definition insn_sha512sum0r : M unit := sha512_half (fun a b =>
  shl a 25 .^ shl a 30 .^ Z.shiftr a 28 .^ Z.shiftr b 7 .^ Z.shiftr b 2 .^ shl b 4).
Definition insn_sha512sum1r : M unit := sha512_half (fun a b =>
  shl a 23 .^ Z.shiftr a 14 .^ Z.shiftr a 18 .^ Z.shiftr b 9 .^ shl b 18 .^ shl b 14).

Definition sm4 (linear : Z -> Z) : M unit :=
  require_extension EXT_ZKSED ;;
  WRITE_RD2 (fun a b =>
    let bs := Insn.bs insn in
    let sb_in := Z.shiftr b (8 * bs) .& 0xFF in
    sext32 (rotl_bs (linear (sbox sm4_sbox sb_in)) bs .^ a)).
Definition insn_sm4ed : M unit := sm4 sm4ed_linear.
Definition insn_sm4ks : M unit := sm4 sm4ks_linear.

End insns.
