(* ===== verification/InsnsFp.v ===== *)
(** The floating-point instructions: F, D, Q, Zfh, Zfa, Zfbfmin and the Zfinx
    family, which keeps floats in the integer registers.  Each [insn_<name>] is
    the body of [riscv/insns/<name>.h] on the SoftFloat routines; before them
    the macros of [riscv/decode_macros.h] they use.

    [softfloat_exceptionFlags] is a field of the hart; every instruction that
    uses the rounding mode sets [softfloat_roundingMode] first, so the mode is
    the local variable [rm].  A float is the number of its bits; a quadruple
    precision one is the pair of its words, the most significant first.
    [fsqrt.q] is left out with [f128_sqrt]. *)

From S2P Require Import Prelude IntArith Decode Encoding IsaExt Trap Hart Pmp Csr CsrFile CsrInit Mmu Macros InsnsMem InsnsC.
From S2P Require Import SoftPrim SoftRound SoftF16 SoftF32 SoftF64 SoftF128 SoftConv SoftBF16 SoftMisc.

(** * Boxing

    A register holds a narrower float under ones; reading one that is not
    boxed so gives the default NaN. *)

Definition isBoxedF64 (r : freg_t) : bool := u64 (snd r + 1) =? 0.
Definition isBoxedF32 (r : freg_t) : bool := isBoxedF64 r && (u32 (Z.shiftr (fst r) 32 + 1) =? 0).
Definition isBoxedF16 (r : freg_t) : bool :=
  isBoxedF32 r && (u64 (Z.shiftr (fst r) 16 + 1) =? u64 (Z.shiftl 1 48)).
Definition isBoxedBF16 (r : freg_t) : bool := isBoxedF16 r.
Definition unboxF64 (r : freg_t) : Z := if isBoxedF64 r then fst r else defaultNaNF64UI.
Definition unboxF32 (r : freg_t) : Z := if isBoxedF32 r then u32 (fst r) else defaultNaNF32UI.
Definition unboxF16 (r : freg_t) : Z := if isBoxedF16 r then u16 (fst r) else defaultNaNF16UI.
Definition unboxBF16 (r : freg_t) : Z := if isBoxedBF16 r then u16 (fst r) else defaultNaNBF16UI.
Definition f128 (r : freg_t) : Z * Z := (snd r, fst r).
Definition freg16 (f : Z) : freg_t := (u64 (Z.shiftl (u64 (-1)) 16) .| f, u64 (-1)).
Definition freg32 (f : Z) : freg_t := (u64 (Z.shiftl (u64 (-1)) 32) .| f, u64 (-1)).
Definition freg64 (f : Z) : freg_t := (f, u64 (-1)).
Definition freg128 (f : Z * Z) : freg_t := (snd f, fst f).

Definition F16_SIGN : Z := Z.shiftl 1 15.
Definition F32_SIGN : Z := Z.shiftl 1 31.
Definition F64_SIGN : Z := Z.shiftl 1 63.
Definition sign_injected (SIGN a b : Z) (n x : bool) : Z :=
  a &~ SIGN .| (((if x then a else if n then SIGN else 0) .^ b) .& SIGN).
Definition fsgnj16 (a b : Z) (n x : bool) : Z := sign_injected F16_SIGN a b n x.
Definition fsgnj32 (a b : Z) (n x : bool) : Z := sign_injected F32_SIGN a b n x.
Definition fsgnj64 (a b : Z) (n x : bool) : Z := sign_injected F64_SIGN a b n x.
Definition fsgnj128 (a b : Z * Z) (n x : bool) : Z * Z :=
  (sign_injected F64_SIGN (fst a) (fst b) n x, snd a).
Definition f128_negate (a : Z * Z) : Z * Z := (fst a .^ F64_SIGN, snd a).
Definition isNaNF128 (x : Z * Z) : bool := isNaNF128UI (fst x) (snd x).
Definition defaultNaNF128 : Z * Z := (defaultNaNF128UI64, defaultNaNF128UI0).

Section fp.
Context `{!config, !simif, !trigger_module, !insn_ctx}.

(** * Macros *)

Definition require_fp : M unit :=
  let* h := get_hart in
  match csr_verify_permissions fflags_csr h insn false with Val _ => ret tt | Exc e => raise e end.

Definition validate_rm (rm : Z) : M Z := require (rm <? 5) ;; ret rm.
Definition VFP_RM : M Z := let* h := get_hart in validate_rm (csr_read frm_csr h).
Definition RM : M Z := if Insn.rm insn =? 7 then VFP_RM else validate_rm (Insn.rm insn).

Definition raise_fp_exceptions (flags : Z) : M unit :=
  when (z2b flags)
    (let* h := get_hart in csr_write fflags_csr (csr_read fflags_csr h .| flags)).
Definition set_fp_exceptions : M unit :=
  let* h := get_hart in
  raise_fp_exceptions (softfloat_exceptionFlags h) ;;
  modify (set_softfloat_exceptionFlags 0).

(** A call of a SoftFloat routine that may raise flags. *)
Definition soft {A} (f : Z -> A * Z) : M A :=
  let* h := get_hart in
  let '(r, fl) := f (softfloat_exceptionFlags h) in
  modify (set_softfloat_exceptionFlags fl) ;; ret r.
(** [a || b] where [b] has side effects. *)
Definition orelse (a b : M bool) : M bool := let* x := a in if x then ret true else b.

(** Under Zfinx a float is an integer register, without [CHECK_REG]. *)
Definition xpr (reg : Z) : M Z := gets (fun h => regfile_read 0 (XPR h) reg).
Definition READ_FREG (reg : Z) : M freg_t := gets (fun h => regfile_read (0, 0) (FPR h) reg).
Definition READ_ZDINX_REG (reg : Z) : M Z := if xlen =? 32 then READ_REG_PAIR reg else xpr reg.
Definition zfinx : M bool := gets (fun h => extension_enabled h EXT_ZFINX).
Definition READ_FREG_H (reg : Z) : M Z :=
  let* z := zfinx in
  if z then let* x := xpr reg in ret (u16 x) else let* r := READ_FREG reg in ret (unboxF16 r).
Definition READ_FREG_BF (reg : Z) : M Z :=
  let* z := zfinx in
  if z then let* x := xpr reg in ret (u16 x) else let* r := READ_FREG reg in ret (unboxBF16 r).
Definition READ_FREG_F (reg : Z) : M Z :=
  let* z := zfinx in
  if z then let* x := xpr reg in ret (u32 x) else let* r := READ_FREG reg in ret (unboxF32 r).
Definition READ_FREG_D (reg : Z) : M Z :=
  let* z := zfinx in
  if z then READ_ZDINX_REG reg else let* r := READ_FREG reg in ret (unboxF64 r).
Definition FRS1 : M freg_t := READ_FREG (Insn.rs1 insn).
Definition FRS2 : M freg_t := READ_FREG (Insn.rs2 insn).
Definition FRS1_Q : M (Z * Z) := let* r := FRS1 in ret (f128 r).
Definition FRS2_Q : M (Z * Z) := let* r := FRS2 in ret (f128 r).
Definition FRS3_Q : M (Z * Z) := let* r := READ_FREG (Insn.rs3 insn) in ret (f128 r).
Definition FRS1_H : M Z := READ_FREG_H (Insn.rs1 insn).
Definition FRS1_BF : M Z := READ_FREG_BF (Insn.rs1 insn).
Definition FRS1_F : M Z := READ_FREG_F (Insn.rs1 insn).
Definition FRS1_D : M Z := READ_FREG_D (Insn.rs1 insn).
Definition FRS2_H : M Z := READ_FREG_H (Insn.rs2 insn).
Definition FRS2_F : M Z := READ_FREG_F (Insn.rs2 insn).
Definition FRS2_D : M Z := READ_FREG_D (Insn.rs2 insn).
Definition FRS3_H : M Z := READ_FREG_H (Insn.rs3 insn).
Definition FRS3_F : M Z := READ_FREG_F (Insn.rs3 insn).
Definition FRS3_D : M Z := READ_FREG_D (Insn.rs3 insn).
Definition RVC_FRS2 : M freg_t := READ_FREG (Insn.rvc_rs2 insn).
Definition RVC_FRS2S : M freg_t := READ_FREG (Insn.rvc_rs2s insn).

Definition DO_WRITE_FREG (reg : Z) (value : freg_t) : M unit :=
  modify (fun h => set_FPR (regfile_write false (FPR h) reg value) h) ;; dirty_fp_state.
(** [WRITE_FREG(reg, value)]; [freg] converts the value to a register. *)
Definition WRITE_FREG {A} (reg : Z) (freg : A -> freg_t) (value : M A) : M unit :=
  let* wdata := value in DO_WRITE_FREG reg (freg wdata).
Definition WRITE_FRD {A} (freg : A -> freg_t) (value : M A) : M unit :=
  WRITE_FREG (Insn.rd insn) freg value.
Definition WRITE_RVC_FRS2S {A} (freg : A -> freg_t) (value : M A) : M unit :=
  WRITE_FREG (Insn.rvc_rs2s insn) freg value.
Definition WRITE_FRD_H (value : M Z) : M unit :=
  let* z := zfinx in
  if z then WRITE_REG (Insn.rd insn) (let* w := value in ret (sext_xlen (i16 w)))
  else WRITE_FRD freg16 value.
Definition WRITE_FRD_F (value : M Z) : M unit :=
  let* z := zfinx in
  if z then WRITE_REG (Insn.rd insn) (let* w := value in ret (sext_xlen w))
  else WRITE_FRD freg32 value.
Definition WRITE_FRD_D (value : M Z) : M unit :=
  let* z := zfinx in
  if z then if xlen =? 32 then WRITE_RD_PAIR value else WRITE_REG (Insn.rd insn) value
  else WRITE_FRD freg64 value.

(** * Loads and stores *)

Definition insn_c_fld : M unit :=
  require_extension EXT_ZCD ;;
  require_fp ;;
  WRITE_RVC_FRS2S freg64 (let* a := rvc_address (Insn.rvc_ld_imm insn) in load_u 8 a).

Definition insn_c_fldsp : M unit :=
  require_extension EXT_ZCD ;;
  require_fp ;;
  WRITE_FRD freg64 (let* a := sp_address (Insn.rvc_ldsp_imm insn) in load_u 8 a).

Definition insn_c_flw : M unit :=
  require_extension EXT_ZCF ;;
  require_fp ;;
  WRITE_RVC_FRS2S freg32 (let* a := rvc_address (Insn.rvc_lw_imm insn) in load_u 4 a).

Definition insn_c_flwsp : M unit :=
  require_extension EXT_ZCF ;;
  require_fp ;;
  WRITE_FRD freg32 (let* a := sp_address (Insn.rvc_lwsp_imm insn) in load_u 4 a).

Definition insn_c_fsd : M unit :=
  require_extension EXT_ZCD ;;
  require_fp ;;
  let* a := rvc_address (Insn.rvc_ld_imm insn) in let* b := RVC_FRS2S in store_n 8 a (fst b).

Definition insn_c_fsdsp : M unit :=
  require_extension EXT_ZCD ;;
  require_fp ;;
  let* a := sp_address (Insn.rvc_sdsp_imm insn) in let* b := RVC_FRS2 in store_n 8 a (fst b).

Definition insn_c_fsw : M unit :=
  require_extension EXT_ZCF ;;
  require_fp ;;
  let* a := rvc_address (Insn.rvc_lw_imm insn) in let* b := RVC_FRS2S in store_n 4 a (u32 (fst b)).

Definition insn_c_fswsp : M unit :=
  require_extension EXT_ZCF ;;
  require_fp ;;
  let* a := sp_address (Insn.rvc_swsp_imm insn) in let* b := RVC_FRS2 in store_n 4 a (u32 (fst b)).

Definition insn_fld : M unit :=
  require_extension ext_D ;;
  require_fp ;;
  WRITE_FRD freg64 (let* a := load_address in load_u 8 a).

Definition insn_flh : M unit :=
  require_extension EXT_INTERNAL_ZFH_MOVE ;;
  require_fp ;;
  WRITE_FRD freg16 (let* a := load_address in load_u 2 a).

Definition insn_flq : M unit :=
  require_extension ext_Q ;;
  require_fp ;;
  WRITE_FRD (fun r => r) (let* a := load_address in load_float128 a).

Definition insn_flw : M unit :=
  require_extension ext_F ;;
  require_fp ;;
  WRITE_FRD freg32 (let* a := load_address in load_u 4 a).

Definition insn_fsd : M unit :=
  require_extension ext_D ;;
  require_fp ;;
  let* a := store_address in let* b := FRS2 in store_n 8 a (fst b).

Definition insn_fsh : M unit :=
  require_extension EXT_INTERNAL_ZFH_MOVE ;;
  require_fp ;;
  let* a := store_address in let* b := FRS2 in store_n 2 a (u16 (fst b)).

Definition insn_fsq : M unit :=
  require_extension ext_Q ;;
  require_fp ;;
  let* a := store_address in let* b := FRS2 in store_float128 a b.

Definition insn_fsw : M unit :=
  require_extension ext_F ;;
  require_fp ;;
  let* a := store_address in let* b := FRS2 in store_n 4 a (u32 (fst b)).

(** * Single precision *)

Definition insn_fadd_s : M unit :=
  require_either_extension ext_F EXT_ZFINX ;;
  require_fp ;;
  let* rm := RM in
  WRITE_FRD_F (let* a := FRS1_F in let* b := FRS2_F in soft (f32_add rm a b)) ;;
  set_fp_exceptions.

Definition insn_fclass_s : M unit :=
  require_either_extension ext_F EXT_ZFINX ;;
  require_fp ;;
  WRITE_RD (let* a := FRS1_F in ret (f32_classify a)).

Definition insn_fdiv_s : M unit :=
  require_either_extension ext_F EXT_ZFINX ;;
  require_fp ;;
  let* rm := RM in
  WRITE_FRD_F (let* a := FRS1_F in let* b := FRS2_F in soft (f32_div rm a b)) ;;
  set_fp_exceptions.

Definition insn_feq_s : M unit :=
  require_either_extension ext_F EXT_ZFINX ;;
  require_fp ;;
  WRITE_RD (let* a := FRS1_F in let* b := FRS2_F in let* c := soft (f32_eq a b) in ret (b2z c)) ;;
  set_fp_exceptions.

Definition insn_fle_s : M unit :=
  require_either_extension ext_F EXT_ZFINX ;;
  require_fp ;;
  WRITE_RD (let* a := FRS1_F in let* b := FRS2_F in let* c := soft (f32_le a b) in ret (b2z c)) ;;
  set_fp_exceptions.

Definition insn_fleq_s : M unit :=
  require_extension ext_F ;;
  require_extension EXT_ZFA ;;
  require_fp ;;
  WRITE_RD (let* a := FRS1_F in let* b := FRS2_F in let* c := soft (f32_le_quiet a b) in ret (b2z c)) ;;
  set_fp_exceptions.

Definition fli_s_bits : list Z :=
  [0xbf800000; 0x00800000; 0x37800000; 0x38000000; 0x3b800000; 0x3c000000; 0x3d800000; 0x3e000000;
   0x3e800000; 0x3ea00000; 0x3ec00000; 0x3ee00000; 0x3f000000; 0x3f200000; 0x3f400000; 0x3f600000;
   0x3f800000; 0x3fa00000; 0x3fc00000; 0x3fe00000; 0x40000000; 0x40200000; 0x40400000; 0x40800000;
   0x41000000; 0x41800000; 0x43000000; 0x43800000; 0x47000000; 0x47800000; 0x7f800000; defaultNaNF32UI].
Definition insn_fli_s : M unit :=
  require_extension ext_F ;;
  require_extension EXT_ZFA ;;
  require_fp ;;
  WRITE_FRD_F (ret (nthZ fli_s_bits (Insn.rs1 insn))).

Definition insn_flt_s : M unit :=
  require_either_extension ext_F EXT_ZFINX ;;
  require_fp ;;
  WRITE_RD (let* a := FRS1_F in let* b := FRS2_F in let* c := soft (f32_lt a b) in ret (b2z c)) ;;
  set_fp_exceptions.

Definition insn_fltq_s : M unit :=
  require_extension ext_F ;;
  require_extension EXT_ZFA ;;
  require_fp ;;
  WRITE_RD (let* a := FRS1_F in let* b := FRS2_F in let* c := soft (f32_lt_quiet a b) in ret (b2z c)) ;;
  set_fp_exceptions.

Definition insn_fmadd_s : M unit :=
  require_either_extension ext_F EXT_ZFINX ;;
  require_fp ;;
  let* rm := RM in
  WRITE_FRD_F (let* a := FRS1_F in let* b := FRS2_F in let* c := FRS3_F in soft (f32_mulAdd rm a b c)) ;;
  set_fp_exceptions.

Definition insn_fmax_s : M unit :=
  require_either_extension ext_F EXT_ZFINX ;;
  require_fp ;;
  let* a := FRS1_F in let* b := FRS2_F in
  let* greater := orelse (soft (f32_lt_quiet b a))
    (let* e := soft (f32_eq b a) in ret (e && z2b (b .& F32_SIGN))) in
  (if isNaNF32UI a && isNaNF32UI b then WRITE_FRD_F (ret defaultNaNF32UI)
   else WRITE_FRD_F (ret (if greater || isNaNF32UI b then a else b))) ;;
  set_fp_exceptions.

Definition insn_fmaxm_s : M unit :=
  require_extension ext_F ;;
  require_extension EXT_ZFA ;;
  require_fp ;;
  let* a := FRS1_F in let* b := FRS2_F in
  let* greater := orelse (soft (f32_lt_quiet b a))
    (let* e := soft (f32_eq b a) in ret (e && z2b (b .& F32_SIGN))) in
  (if isNaNF32UI a || isNaNF32UI b then WRITE_FRD_F (ret defaultNaNF32UI)
   else WRITE_FRD_F (ret (if greater then a else b))) ;;
  set_fp_exceptions.

Definition insn_fmin_s : M unit :=
  require_either_extension ext_F EXT_ZFINX ;;
  require_fp ;;
  let* a := FRS1_F in let* b := FRS2_F in
  let* less := orelse (soft (f32_lt_quiet a b))
    (let* e := soft (f32_eq a b) in ret (e && z2b (a .& F32_SIGN))) in
  (if isNaNF32UI a && isNaNF32UI b then WRITE_FRD_F (ret defaultNaNF32UI)
   else WRITE_FRD_F (ret (if less || isNaNF32UI b then a else b))) ;;
  set_fp_exceptions.

Definition insn_fminm_s : M unit :=
  require_extension ext_F ;;
  require_extension EXT_ZFA ;;
  require_fp ;;
  let* a := FRS1_F in let* b := FRS2_F in
  let* less := orelse (soft (f32_lt_quiet a b))
    (let* e := soft (f32_eq b a) in ret (e && z2b (a .& F32_SIGN))) in
  (if isNaNF32UI a || isNaNF32UI b then WRITE_FRD_F (ret defaultNaNF32UI)
   else WRITE_FRD_F (ret (if less then a else b))) ;;
  set_fp_exceptions.

Definition insn_fmsub_s : M unit :=
  require_either_extension ext_F EXT_ZFINX ;;
  require_fp ;;
  let* rm := RM in
  WRITE_FRD_F (let* a := FRS1_F in let* b := FRS2_F in let* c := FRS3_F in soft (f32_mulAdd rm a b (c .^ F32_SIGN))) ;;
  set_fp_exceptions.

Definition insn_fmul_s : M unit :=
  require_either_extension ext_F EXT_ZFINX ;;
  require_fp ;;
  let* rm := RM in
  WRITE_FRD_F (let* a := FRS1_F in let* b := FRS2_F in soft (f32_mul rm a b)) ;;
  set_fp_exceptions.

Definition insn_fnmadd_s : M unit :=
  require_either_extension ext_F EXT_ZFINX ;;
  require_fp ;;
  let* rm := RM in
  WRITE_FRD_F (let* a := FRS1_F in let* b := FRS2_F in let* c := FRS3_F in soft (f32_mulAdd rm (a .^ F32_SIGN) b (c .^ F32_SIGN))) ;;
  set_fp_exceptions.

Definition insn_fnmsub_s : M unit :=
  require_either_extension ext_F EXT_ZFINX ;;
  require_fp ;;
  let* rm := RM in
  WRITE_FRD_F (let* a := FRS1_F in let* b := FRS2_F in let* c := FRS3_F in soft (f32_mulAdd rm (a .^ F32_SIGN) b c)) ;;
  set_fp_exceptions.

Definition insn_fround_s : M unit :=
  require_extension ext_F ;;
  require_extension EXT_ZFA ;;
  require_fp ;;
  WRITE_FRD_F (let* a := FRS1_F in let* b := RM in soft (f32_roundToInt a b false)) ;;
  set_fp_exceptions.

Definition insn_froundnx_s : M unit :=
  require_extension ext_F ;;
  require_extension EXT_ZFA ;;
  require_fp ;;
  WRITE_FRD_F (let* a := FRS1_F in let* b := RM in soft (f32_roundToInt a b true)) ;;
  set_fp_exceptions.

Definition insn_fsgnj_s : M unit :=
  require_either_extension ext_F EXT_ZFINX ;;
  require_fp ;;
  WRITE_FRD_F (let* a := FRS1_F in let* b := FRS2_F in ret (fsgnj32 a b false false)).

Definition insn_fsgnjn_s : M unit :=
  require_either_extension ext_F EXT_ZFINX ;;
  require_fp ;;
  WRITE_FRD_F (let* a := FRS1_F in let* b := FRS2_F in ret (fsgnj32 a b true false)).

Definition insn_fsgnjx_s : M unit :=
  require_either_extension ext_F EXT_ZFINX ;;
  require_fp ;;
  WRITE_FRD_F (let* a := FRS1_F in let* b := FRS2_F in ret (fsgnj32 a b false true)).

Definition insn_fsqrt_s : M unit :=
  require_either_extension ext_F EXT_ZFINX ;;
  require_fp ;;
  let* rm := RM in
  WRITE_FRD_F (let* a := FRS1_F in soft (f32_sqrt rm a)) ;;
  set_fp_exceptions.

Definition insn_fsub_s : M unit :=
  require_either_extension ext_F EXT_ZFINX ;;
  require_fp ;;
  let* rm := RM in
  WRITE_FRD_F (let* a := FRS1_F in let* b := FRS2_F in soft (f32_sub rm a b)) ;;
  set_fp_exceptions.

(** * Double precision *)

Definition insn_fadd_d : M unit :=
  require_either_extension ext_D EXT_ZDINX ;;
  require_fp ;;
  let* rm := RM in
  WRITE_FRD_D (let* a := FRS1_D in let* b := FRS2_D in soft (f64_add rm a b)) ;;
  set_fp_exceptions.

Definition insn_fclass_d : M unit :=
  require_either_extension ext_D EXT_ZDINX ;;
  require_fp ;;
  WRITE_RD (let* a := FRS1_D in ret (f64_classify a)).

Definition insn_fdiv_d : M unit :=
  require_either_extension ext_D EXT_ZDINX ;;
  require_fp ;;
  let* rm := RM in
  WRITE_FRD_D (let* a := FRS1_D in let* b := FRS2_D in soft (f64_div rm a b)) ;;
  set_fp_exceptions.

Definition insn_feq_d : M unit :=
  require_either_extension ext_D EXT_ZDINX ;;
  require_fp ;;
  WRITE_RD (let* a := FRS1_D in let* b := FRS2_D in let* c := soft (f64_eq a b) in ret (b2z c)) ;;
  set_fp_exceptions.

Definition insn_fle_d : M unit :=
  require_either_extension ext_D EXT_ZDINX ;;
  require_fp ;;
  WRITE_RD (let* a := FRS1_D in let* b := FRS2_D in let* c := soft (f64_le a b) in ret (b2z c)) ;;
  set_fp_exceptions.

Definition insn_fleq_d : M unit :=
  require_extension ext_D ;;
  require_extension EXT_ZFA ;;
  require_fp ;;
  WRITE_RD (let* a := FRS1_D in let* b := FRS2_D in let* c := soft (f64_le_quiet a b) in ret (b2z c)) ;;
  set_fp_exceptions.

Definition fli_d_bits : list Z :=
  [0xbff0000000000000; 0x0010000000000000; 0x3ef0000000000000; 0x3f00000000000000;
   0x3f70000000000000; 0x3f80000000000000; 0x3fb0000000000000; 0x3fc0000000000000;
   0x3fd0000000000000; 0x3fd4000000000000; 0x3fd8000000000000; 0x3fdc000000000000;
   0x3fe0000000000000; 0x3fe4000000000000; 0x3fe8000000000000; 0x3fec000000000000;
   0x3ff0000000000000; 0x3ff4000000000000; 0x3ff8000000000000; 0x3ffc000000000000;
   0x4000000000000000; 0x4004000000000000; 0x4008000000000000; 0x4010000000000000;
   0x4020000000000000; 0x4030000000000000; 0x4060000000000000; 0x4070000000000000;
   0x40e0000000000000; 0x40f0000000000000; 0x7ff0000000000000; defaultNaNF64UI].
Definition insn_fli_d : M unit :=
  require_extension ext_D ;;
  require_extension EXT_ZFA ;;
  require_fp ;;
  WRITE_FRD_D (ret (nthZ fli_d_bits (Insn.rs1 insn))).

Definition insn_flt_d : M unit :=
  require_either_extension ext_D EXT_ZDINX ;;
  require_fp ;;
  WRITE_RD (let* a := FRS1_D in let* b := FRS2_D in let* c := soft (f64_lt a b) in ret (b2z c)) ;;
  set_fp_exceptions.

Definition insn_fltq_d : M unit :=
  require_extension ext_D ;;
  require_extension EXT_ZFA ;;
  require_fp ;;
  WRITE_RD (let* a := FRS1_D in let* b := FRS2_D in let* c := soft (f64_lt_quiet a b) in ret (b2z c)) ;;
  set_fp_exceptions.

Definition insn_fmadd_d : M unit :=
  require_either_extension ext_D EXT_ZDINX ;;
  require_fp ;;
  let* rm := RM in
  WRITE_FRD_D (let* a := FRS1_D in let* b := FRS2_D in let* c := FRS3_D in soft (f64_mulAdd rm a b c)) ;;
  set_fp_exceptions.

Definition insn_fmax_d : M unit :=
  require_either_extension ext_D EXT_ZDINX ;;
  require_fp ;;
  let* a := FRS1_D in let* b := FRS2_D in
  let* greater := orelse (soft (f64_lt_quiet b a))
    (let* e := soft (f64_eq b a) in ret (e && z2b (b .& F64_SIGN))) in
  (if isNaNF64UI a && isNaNF64UI b then WRITE_FRD_D (ret defaultNaNF64UI)
   else WRITE_FRD_D (ret (if greater || isNaNF64UI b then a else b))) ;;
  set_fp_exceptions.

Definition insn_fmaxm_d : M unit :=
  require_extension ext_D ;;
  require_extension EXT_ZFA ;;
  require_fp ;;
  let* a := FRS1_D in let* b := FRS2_D in
  let* greater := orelse (soft (f64_lt_quiet b a))
    (let* e := soft (f64_eq b a) in ret (e && z2b (b .& F64_SIGN))) in
  (if isNaNF64UI a || isNaNF64UI b then WRITE_FRD_D (ret defaultNaNF64UI)
   else WRITE_FRD_D (ret (if greater then a else b))) ;;
  set_fp_exceptions.

Definition insn_fmin_d : M unit :=
  require_either_extension ext_D EXT_ZDINX ;;
  require_fp ;;
  let* a := FRS1_D in let* b := FRS2_D in
  let* less := orelse (soft (f64_lt_quiet a b))
    (let* e := soft (f64_eq a b) in ret (e && z2b (a .& F64_SIGN))) in
  (if isNaNF64UI a && isNaNF64UI b then WRITE_FRD_D (ret defaultNaNF64UI)
   else WRITE_FRD_D (ret (if less || isNaNF64UI b then a else b))) ;;
  set_fp_exceptions.

Definition insn_fminm_d : M unit :=
  require_extension ext_D ;;
  require_extension EXT_ZFA ;;
  require_fp ;;
  let* a := FRS1_D in let* b := FRS2_D in
  let* less := orelse (soft (f64_lt_quiet a b))
    (let* e := soft (f64_eq b a) in ret (e && z2b (a .& F64_SIGN))) in
  (if isNaNF64UI a || isNaNF64UI b then WRITE_FRD_D (ret defaultNaNF64UI)
   else WRITE_FRD_D (ret (if less then a else b))) ;;
  set_fp_exceptions.

Definition insn_fmsub_d : M unit :=
  require_either_extension ext_D EXT_ZDINX ;;
  require_fp ;;
  let* rm := RM in
  WRITE_FRD_D (let* a := FRS1_D in let* b := FRS2_D in let* c := FRS3_D in soft (f64_mulAdd rm a b (c .^ F64_SIGN))) ;;
  set_fp_exceptions.

Definition insn_fmul_d : M unit :=
  require_either_extension ext_D EXT_ZDINX ;;
  require_fp ;;
  let* rm := RM in
  WRITE_FRD_D (let* a := FRS1_D in let* b := FRS2_D in soft (f64_mul rm a b)) ;;
  set_fp_exceptions.

Definition insn_fnmadd_d : M unit :=
  require_either_extension ext_D EXT_ZDINX ;;
  require_fp ;;
  let* rm := RM in
  WRITE_FRD_D (let* a := FRS1_D in let* b := FRS2_D in let* c := FRS3_D in soft (f64_mulAdd rm (a .^ F64_SIGN) b (c .^ F64_SIGN))) ;;
  set_fp_exceptions.

Definition insn_fnmsub_d : M unit :=
  require_either_extension ext_D EXT_ZDINX ;;
  require_fp ;;
  let* rm := RM in
  WRITE_FRD_D (let* a := FRS1_D in let* b := FRS2_D in let* c := FRS3_D in soft (f64_mulAdd rm (a .^ F64_SIGN) b c)) ;;
  set_fp_exceptions.

Definition insn_fround_d : M unit :=
  require_extension ext_D ;;
  require_extension EXT_ZFA ;;
  require_fp ;;
  WRITE_FRD_D (let* a := FRS1_D in let* b := RM in soft (f64_roundToInt a b false)) ;;
  set_fp_exceptions.

Definition insn_froundnx_d : M unit :=
  require_extension ext_D ;;
  require_extension EXT_ZFA ;;
  require_fp ;;
  WRITE_FRD_D (let* a := FRS1_D in let* b := RM in soft (f64_roundToInt a b true)) ;;
  set_fp_exceptions.

Definition insn_fsgnj_d : M unit :=
  require_either_extension ext_D EXT_ZDINX ;;
  require_fp ;;
  WRITE_FRD_D (let* a := FRS1_D in let* b := FRS2_D in ret (fsgnj64 a b false false)).

Definition insn_fsgnjn_d : M unit :=
  require_either_extension ext_D EXT_ZDINX ;;
  require_fp ;;
  WRITE_FRD_D (let* a := FRS1_D in let* b := FRS2_D in ret (fsgnj64 a b true false)).

Definition insn_fsgnjx_d : M unit :=
  require_either_extension ext_D EXT_ZDINX ;;
  require_fp ;;
  WRITE_FRD_D (let* a := FRS1_D in let* b := FRS2_D in ret (fsgnj64 a b false true)).

Definition insn_fsqrt_d : M unit :=
  require_either_extension ext_D EXT_ZDINX ;;
  require_fp ;;
  let* rm := RM in
  WRITE_FRD_D (let* a := FRS1_D in soft (f64_sqrt rm a)) ;;
  set_fp_exceptions.

Definition insn_fsub_d : M unit :=
  require_either_extension ext_D EXT_ZDINX ;;
  require_fp ;;
  let* rm := RM in
  WRITE_FRD_D (let* a := FRS1_D in let* b := FRS2_D in soft (f64_sub rm a b)) ;;
  set_fp_exceptions.

(** * Half precision *)

Definition insn_fadd_h : M unit :=
  require_either_extension EXT_ZFH EXT_ZHINX ;;
  require_fp ;;
  let* rm := RM in
  WRITE_FRD_H (let* a := FRS1_H in let* b := FRS2_H in soft (f16_add rm a b)) ;;
  set_fp_exceptions.

Definition insn_fclass_h : M unit :=
  require_either_extension EXT_ZFH EXT_ZHINX ;;
  require_fp ;;
  WRITE_RD (let* a := FRS1_H in ret (f16_classify a)).

Definition insn_fdiv_h : M unit :=
  require_either_extension EXT_ZFH EXT_ZHINX ;;
  require_fp ;;
  let* rm := RM in
  WRITE_FRD_H (let* a := FRS1_H in let* b := FRS2_H in soft (f16_div rm a b)) ;;
  set_fp_exceptions.

Definition insn_feq_h : M unit :=
  require_either_extension EXT_ZFH EXT_ZHINX ;;
  require_fp ;;
  WRITE_RD (let* a := FRS1_H in let* b := FRS2_H in let* c := soft (f16_eq a b) in ret (b2z c)) ;;
  set_fp_exceptions.

Definition insn_fle_h : M unit :=
  require_either_extension EXT_ZFH EXT_ZHINX ;;
  require_fp ;;
  WRITE_RD (let* a := FRS1_H in let* b := FRS2_H in let* c := soft (f16_le a b) in ret (b2z c)) ;;
  set_fp_exceptions.

Definition insn_fleq_h : M unit :=
  require_extension EXT_ZFH ;;
  require_extension EXT_ZFA ;;
  require_fp ;;
  WRITE_RD (let* a := FRS1_H in let* b := FRS2_H in let* c := soft (f16_le_quiet a b) in ret (b2z c)) ;;
  set_fp_exceptions.

Definition fli_h_bits : list Z :=
  [0xbc00; 0x0400; 0x0100; 0x0200; 0x1c00; 0x2000; 0x2c00; 0x3000;
   0x3400; 0x3500; 0x3600; 0x3700; 0x3800; 0x3900; 0x3a00; 0x3b00;
   0x3c00; 0x3d00; 0x3e00; 0x3f00; 0x4000; 0x4100; 0x4200; 0x4400;
   0x4800; 0x4c00; 0x5800; 0x5c00; 0x7800; 0x7c00; 0x7c00; defaultNaNF16UI].
Definition insn_fli_h : M unit :=
  require_either_extension EXT_ZFH EXT_ZVFH ;;
  require_extension EXT_ZFA ;;
  require_fp ;;
  WRITE_FRD_H (ret (nthZ fli_h_bits (Insn.rs1 insn))).

Definition insn_flt_h : M unit :=
  require_either_extension EXT_ZFH EXT_ZHINX ;;
  require_fp ;;
  WRITE_RD (let* a := FRS1_H in let* b := FRS2_H in let* c := soft (f16_lt a b) in ret (b2z c)) ;;
  set_fp_exceptions.

Definition insn_fltq_h : M unit :=
  require_extension EXT_ZFH ;;
  require_extension EXT_ZFA ;;
  require_fp ;;
  WRITE_RD (let* a := FRS1_H in let* b := FRS2_H in let* c := soft (f16_lt_quiet a b) in ret (b2z c)) ;;
  set_fp_exceptions.

Definition insn_fmadd_h : M unit :=
  require_either_extension EXT_ZFH EXT_ZHINX ;;
  require_fp ;;
  let* rm := RM in
  WRITE_FRD_H (let* a := FRS1_H in let* b := FRS2_H in let* c := FRS3_H in soft (f16_mulAdd rm a b c)) ;;
  set_fp_exceptions.

Definition insn_fmax_h : M unit :=
  require_either_extension EXT_ZFH EXT_ZHINX ;;
  require_fp ;;
  WRITE_FRD_H (let* a := FRS1_H in let* b := FRS2_H in soft (f16_max a b)) ;;
  set_fp_exceptions.

Definition insn_fmaxm_h : M unit :=
  require_extension EXT_ZFH ;;
  require_extension EXT_ZFA ;;
  require_fp ;;
  let* a := FRS1_H in let* b := FRS2_H in
  let* greater := orelse (soft (f16_lt_quiet b a))
    (let* e := soft (f16_eq b a) in ret (e && z2b (b .& F16_SIGN))) in
  (if isNaNF16UI a || isNaNF16UI b then WRITE_FRD_H (ret defaultNaNF16UI)
   else WRITE_FRD_H (ret (if greater then a else b))) ;;
  set_fp_exceptions.

Definition insn_fmin_h : M unit :=
  require_either_extension EXT_ZFH EXT_ZHINX ;;
  require_fp ;;
  WRITE_FRD_H (let* a := FRS1_H in let* b := FRS2_H in soft (f16_min a b)) ;;
  set_fp_exceptions.

Definition insn_fminm_h : M unit :=
  require_extension EXT_ZFH ;;
  require_extension EXT_ZFA ;;
  require_fp ;;
  let* a := FRS1_H in let* b := FRS2_H in
  let* less := orelse (soft (f16_lt_quiet a b))
    (let* e := soft (f16_eq b a) in ret (e && z2b (a .& F16_SIGN))) in
  (if isNaNF16UI a || isNaNF16UI b then WRITE_FRD_H (ret defaultNaNF16UI)
   else WRITE_FRD_H (ret (if less then a else b))) ;;
  set_fp_exceptions.

Definition insn_fmsub_h : M unit :=
  require_either_extension EXT_ZFH EXT_ZHINX ;;
  require_fp ;;
  let* rm := RM in
  WRITE_FRD_H (let* a := FRS1_H in let* b := FRS2_H in let* c := FRS3_H in soft (f16_mulAdd rm a b (c .^ F16_SIGN))) ;;
  set_fp_exceptions.

Definition insn_fmul_h : M unit :=
  require_either_extension EXT_ZFH EXT_ZHINX ;;
  require_fp ;;
  let* rm := RM in
  WRITE_FRD_H (let* a := FRS1_H in let* b := FRS2_H in soft (f16_mul rm a b)) ;;
  set_fp_exceptions.

Definition insn_fnmadd_h : M unit :=
  require_either_extension EXT_ZFH EXT_ZHINX ;;
  require_fp ;;
  let* rm := RM in
  WRITE_FRD_H (let* a := FRS1_H in let* b := FRS2_H in let* c := FRS3_H in soft (f16_mulAdd rm (a .^ F16_SIGN) b (c .^ F16_SIGN))) ;;
  set_fp_exceptions.

Definition insn_fnmsub_h : M unit :=
  require_either_extension EXT_ZFH EXT_ZHINX ;;
  require_fp ;;
  let* rm := RM in
  WRITE_FRD_H (let* a := FRS1_H in let* b := FRS2_H in let* c := FRS3_H in soft (f16_mulAdd rm (a .^ F16_SIGN) b c)) ;;
  set_fp_exceptions.

Definition insn_fround_h : M unit :=
  require_extension EXT_ZFH ;;
  require_extension EXT_ZFA ;;
  require_fp ;;
  WRITE_FRD_H (let* a := FRS1_H in let* b := RM in soft (f16_roundToInt a b false)) ;;
  set_fp_exceptions.

Definition insn_froundnx_h : M unit :=
  require_extension EXT_ZFH ;;
  require_extension EXT_ZFA ;;
  require_fp ;;
  WRITE_FRD_H (let* a := FRS1_H in let* b := RM in soft (f16_roundToInt a b true)) ;;
  set_fp_exceptions.

Definition insn_fsgnj_h : M unit :=
  require_either_extension EXT_ZFH EXT_ZHINX ;;
  require_fp ;;
  WRITE_FRD_H (let* a := FRS1_H in let* b := FRS2_H in ret (fsgnj16 a b false false)).

Definition insn_fsgnjn_h : M unit :=
  require_either_extension EXT_ZFH EXT_ZHINX ;;
  require_fp ;;
  WRITE_FRD_H (let* a := FRS1_H in let* b := FRS2_H in ret (fsgnj16 a b true false)).

Definition insn_fsgnjx_h : M unit :=
  require_either_extension EXT_ZFH EXT_ZHINX ;;
  require_fp ;;
  WRITE_FRD_H (let* a := FRS1_H in let* b := FRS2_H in ret (fsgnj16 a b false true)).

Definition insn_fsqrt_h : M unit :=
  require_either_extension EXT_ZFH EXT_ZHINX ;;
  require_fp ;;
  let* rm := RM in
  WRITE_FRD_H (let* a := FRS1_H in soft (f16_sqrt rm a)) ;;
  set_fp_exceptions.

Definition insn_fsub_h : M unit :=
  require_either_extension EXT_ZFH EXT_ZHINX ;;
  require_fp ;;
  let* rm := RM in
  WRITE_FRD_H (let* a := FRS1_H in let* b := FRS2_H in soft (f16_sub rm a b)) ;;
  set_fp_exceptions.

(** * Quadruple precision *)

Definition insn_fadd_q : M unit :=
  require_extension ext_Q ;;
  require_fp ;;
  let* rm := RM in
  WRITE_FRD freg128 (let* a := FRS1_Q in let* b := FRS2_Q in soft (f128_add rm a b)) ;;
  set_fp_exceptions.

Definition insn_fclass_q : M unit :=
  require_extension ext_Q ;;
  require_fp ;;
  WRITE_RD (let* a := FRS1_Q in ret (f128_classify a)).

Definition insn_fdiv_q : M unit :=
  require_extension ext_Q ;;
  require_fp ;;
  let* rm := RM in
  WRITE_FRD freg128 (let* a := FRS1_Q in let* b := FRS2_Q in soft (f128_div rm a b)) ;;
  set_fp_exceptions.

Definition insn_feq_q : M unit :=
  require_extension ext_Q ;;
  require_fp ;;
  WRITE_RD (let* a := FRS1_Q in let* b := FRS2_Q in let* c := soft (f128_eq a b) in ret (b2z c)) ;;
  set_fp_exceptions.

Definition insn_fle_q : M unit :=
  require_extension ext_Q ;;
  require_fp ;;
  WRITE_RD (let* a := FRS1_Q in let* b := FRS2_Q in let* c := soft (f128_le a b) in ret (b2z c)) ;;
  set_fp_exceptions.

Definition insn_fleq_q : M unit :=
  require_extension ext_Q ;;
  require_extension EXT_ZFA ;;
  require_fp ;;
  WRITE_RD (let* a := FRS1_Q in let* b := FRS2_Q in let* c := soft (f128_le_quiet a b) in ret (b2z c)) ;;
  set_fp_exceptions.

Definition fli_q_bits : list Z :=
  [0xbfff000000000000; 0x0001000000000000; 0x3fef000000000000; 0x3ff0000000000000;
   0x3ff7000000000000; 0x3ff8000000000000; 0x3ffb000000000000; 0x3ffc000000000000;
   0x3ffd000000000000; 0x3ffd400000000000; 0x3ffd800000000000; 0x3ffdc00000000000;
   0x3ffe000000000000; 0x3ffe400000000000; 0x3ffe800000000000; 0x3ffec00000000000;
   0x3fff000000000000; 0x3fff400000000000; 0x3fff800000000000; 0x3fffc00000000000;
   0x4000000000000000; 0x4000400000000000; 0x4000800000000000; 0x4001000000000000;
   0x4002000000000000; 0x4003000000000000; 0x4006000000000000; 0x4007000000000000;
   0x400e000000000000; 0x400f000000000000; 0x7fff000000000000; defaultNaNF128UI64].
Definition insn_fli_q : M unit :=
  require_extension ext_Q ;;
  require_extension EXT_ZFA ;;
  require_fp ;;
  WRITE_FRD freg128 (ret (nthZ fli_q_bits (Insn.rs1 insn), 0)).

Definition insn_flt_q : M unit :=
  require_extension ext_Q ;;
  require_fp ;;
  WRITE_RD (let* a := FRS1_Q in let* b := FRS2_Q in let* c := soft (f128_lt a b) in ret (b2z c)) ;;
  set_fp_exceptions.

Definition insn_fltq_q : M unit :=
  require_extension ext_Q ;;
  require_extension EXT_ZFA ;;
  require_fp ;;
  WRITE_RD (let* a := FRS1_Q in let* b := FRS2_Q in let* c := soft (f128_lt_quiet a b) in ret (b2z c)) ;;
  set_fp_exceptions.

Definition insn_fmadd_q : M unit :=
  require_extension ext_Q ;;
  require_fp ;;
  let* rm := RM in
  WRITE_FRD freg128 (let* a := FRS1_Q in let* b := FRS2_Q in let* c := FRS3_Q in soft (f128_mulAdd rm a b c)) ;;
  set_fp_exceptions.

Definition insn_fmax_q : M unit :=
  require_extension ext_Q ;;
  require_fp ;;
  let* a := FRS1_Q in let* b := FRS2_Q in
  let* greater := orelse (soft (f128_lt_quiet b a))
    (let* e := soft (f128_eq b a) in ret (e && z2b (fst b .& F64_SIGN))) in
  (if isNaNF128 a && isNaNF128 b then WRITE_FRD freg128 (ret defaultNaNF128)
   else WRITE_FRD freg128 (ret (if greater || isNaNF128 b then a else b))) ;;
  set_fp_exceptions.

Definition insn_fmaxm_q : M unit :=
  require_extension ext_Q ;;
  require_extension EXT_ZFA ;;
  require_fp ;;
  let* a := FRS1_Q in let* b := FRS2_Q in
  let* greater := orelse (soft (f128_lt_quiet b a))
    (let* e := soft (f128_eq a b) in ret (e && signF128UI64 (fst b))) in
  (if isNaNF128 a || isNaNF128 b then WRITE_FRD freg128 (ret defaultNaNF128)
   else WRITE_FRD freg128 (ret (if greater then a else b))) ;;
  set_fp_exceptions.

Definition insn_fmin_q : M unit :=
  require_extension ext_Q ;;
  require_fp ;;
  let* a := FRS1_Q in let* b := FRS2_Q in
  let* less := orelse (soft (f128_lt_quiet a b))
    (let* e := soft (f128_eq a b) in ret (e && z2b (fst a .& F64_SIGN))) in
  (if isNaNF128 a && isNaNF128 b then WRITE_FRD freg128 (ret defaultNaNF128)
   else WRITE_FRD freg128 (ret (if less || isNaNF128 b then a else b))) ;;
  set_fp_exceptions.

Definition insn_fminm_q : M unit :=
  require_extension ext_Q ;;
  require_extension EXT_ZFA ;;
  require_fp ;;
  let* a := FRS1_Q in let* b := FRS2_Q in
  let* less := orelse (soft (f128_lt_quiet a b))
    (let* e := soft (f128_eq a b) in ret (e && signF128UI64 (fst a))) in
  (if isNaNF128 a || isNaNF128 b then WRITE_FRD freg128 (ret defaultNaNF128)
   else WRITE_FRD freg128 (ret (if less then a else b))) ;;
  set_fp_exceptions.

Definition insn_fmsub_q : M unit :=
  require_extension ext_Q ;;
  require_fp ;;
  let* rm := RM in
  WRITE_FRD freg128 (let* a := FRS1_Q in let* b := FRS2_Q in let* c := FRS3_Q in soft (f128_mulAdd rm a b (f128_negate c))) ;;
  set_fp_exceptions.

Definition insn_fmul_q : M unit :=
  require_extension ext_Q ;;
  require_fp ;;
  let* rm := RM in
  WRITE_FRD freg128 (let* a := FRS1_Q in let* b := FRS2_Q in soft (f128_mul rm a b)) ;;
  set_fp_exceptions.

Definition insn_fnmadd_q : M unit :=
  require_extension ext_Q ;;
  require_fp ;;
  let* rm := RM in
  WRITE_FRD freg128 (let* a := FRS1_Q in let* b := FRS2_Q in let* c := FRS3_Q in soft (f128_mulAdd rm (f128_negate a) b (f128_negate c))) ;;
  set_fp_exceptions.

Definition insn_fnmsub_q : M unit :=
  require_extension ext_Q ;;
  require_fp ;;
  let* rm := RM in
  WRITE_FRD freg128 (let* a := FRS1_Q in let* b := FRS2_Q in let* c := FRS3_Q in soft (f128_mulAdd rm (f128_negate a) b c)) ;;
  set_fp_exceptions.

Definition insn_fround_q : M unit :=
  require_extension ext_Q ;;
  require_extension EXT_ZFA ;;
  require_fp ;;
  WRITE_FRD freg128 (let* a := FRS1_Q in let* b := RM in soft (f128_roundToInt a b false)) ;;
  set_fp_exceptions.

Definition insn_froundnx_q : M unit :=
  require_extension ext_Q ;;
  require_extension EXT_ZFA ;;
  require_fp ;;
  WRITE_FRD freg128 (let* a := FRS1_Q in let* b := RM in soft (f128_roundToInt a b true)) ;;
  set_fp_exceptions.

Definition insn_fsgnj_q : M unit :=
  require_extension ext_Q ;;
  require_fp ;;
  WRITE_FRD freg128 (let* a := FRS1_Q in let* b := FRS2_Q in ret (fsgnj128 a b false false)).

Definition insn_fsgnjn_q : M unit :=
  require_extension ext_Q ;;
  require_fp ;;
  WRITE_FRD freg128 (let* a := FRS1_Q in let* b := FRS2_Q in ret (fsgnj128 a b true false)).

Definition insn_fsgnjx_q : M unit :=
  require_extension ext_Q ;;
  require_fp ;;
  WRITE_FRD freg128 (let* a := FRS1_Q in let* b := FRS2_Q in ret (fsgnj128 a b false true)).

Definition insn_fsub_q : M unit :=
  require_extension ext_Q ;;
  require_fp ;;
  let* rm := RM in
  WRITE_FRD freg128 (let* a := FRS1_Q in let* b := FRS2_Q in soft (f128_sub rm a b)) ;;
  set_fp_exceptions.

(** * bfloat16 *)

Definition insn_fcvt_bf16_s : M unit :=
  require_extension EXT_ZFBFMIN ;;
  require_fp ;;
  let* rm := RM in
  WRITE_FRD_H (let* a := FRS1_F in soft (f32_to_bf16 rm a)) ;;
  set_fp_exceptions.

Definition insn_fcvt_s_bf16 : M unit :=
  require_extension EXT_ZFBFMIN ;;
  require_fp ;;
  let* rm := RM in
  WRITE_FRD_F (let* a := FRS1_BF in soft (bf16_to_f32 a)) ;;
  set_fp_exceptions.

(** * Conversions and moves *)

Definition insn_fcvt_d_h : M unit :=
  require_either_extension EXT_ZFHMIN EXT_ZHINXMIN ;;
  require_either_extension ext_D EXT_ZDINX ;;
  require_fp ;;
  let* rm := RM in
  WRITE_FRD_D (let* a := FRS1_H in soft (f16_to_f64 a)) ;;
  set_fp_exceptions.

Definition insn_fcvt_d_l : M unit :=
  require_either_extension ext_D EXT_ZDINX ;;
  require_rv64 ;;
  require_fp ;;
  let* rm := RM in
  WRITE_FRD_D (let* a := RS1 in soft (i64_to_f64 rm (i64 a))) ;;
  set_fp_exceptions.

Definition insn_fcvt_d_lu : M unit :=
  require_either_extension ext_D EXT_ZDINX ;;
  require_rv64 ;;
  require_fp ;;
  let* rm := RM in
  WRITE_FRD_D (let* a := RS1 in soft (ui64_to_f64 rm a)) ;;
  set_fp_exceptions.

Definition insn_fcvt_d_q : M unit :=
  require_extension ext_Q ;;
  require_fp ;;
  let* rm := RM in
  WRITE_FRD freg64 (let* a := FRS1_Q in soft (f128_to_f64 rm a)) ;;
  set_fp_exceptions.

Definition insn_fcvt_d_s : M unit :=
  require_either_extension ext_D EXT_ZDINX ;;
  require_fp ;;
  let* rm := RM in
  WRITE_FRD_D (let* a := FRS1_F in soft (f32_to_f64 a)) ;;
  set_fp_exceptions.

Definition insn_fcvt_d_w : M unit :=
  require_either_extension ext_D EXT_ZDINX ;;
  require_fp ;;
  let* rm := RM in
  WRITE_FRD_D (let* a := RS1 in ret (i32_to_f64 (i32 a))) ;;
  set_fp_exceptions.

Definition insn_fcvt_d_wu : M unit :=
  require_either_extension ext_D EXT_ZDINX ;;
  require_fp ;;
  let* rm := RM in
  WRITE_FRD_D (let* a := RS1 in ret (ui32_to_f64 (u32 a))) ;;
  set_fp_exceptions.

Definition insn_fcvt_h_d : M unit :=
  require_either_extension EXT_ZFHMIN EXT_ZHINXMIN ;;
  require_either_extension ext_D EXT_ZDINX ;;
  require_fp ;;
  let* rm := RM in
  WRITE_FRD_H (let* a := FRS1_D in soft (f64_to_f16 rm a)) ;;
  set_fp_exceptions.

Definition insn_fcvt_h_l : M unit :=
  require_either_extension EXT_ZFH EXT_ZHINX ;;
  require_rv64 ;;
  require_fp ;;
  let* rm := RM in
  WRITE_FRD_H (let* a := RS1 in soft (i64_to_f16 rm (i64 a))) ;;
  set_fp_exceptions.

Definition insn_fcvt_h_lu : M unit :=
  require_either_extension EXT_ZFH EXT_ZHINX ;;
  require_rv64 ;;
  require_fp ;;
  let* rm := RM in
  WRITE_FRD_H (let* a := RS1 in soft (ui64_to_f16 rm a)) ;;
  set_fp_exceptions.

Definition insn_fcvt_h_q : M unit :=
  require_extension EXT_ZFHMIN ;;
  require_extension ext_Q ;;
  require_fp ;;
  let* rm := RM in
  WRITE_FRD freg16 (let* a := FRS1_Q in soft (f128_to_f16 rm a)) ;;
  set_fp_exceptions.

Definition insn_fcvt_h_s : M unit :=
  require_either_extension EXT_ZFHMIN EXT_ZHINXMIN ;;
  require_fp ;;
  let* rm := RM in
  WRITE_FRD_H (let* a := FRS1_F in soft (f32_to_f16 rm a)) ;;
  set_fp_exceptions.

Definition insn_fcvt_h_w : M unit :=
  require_either_extension EXT_ZFH EXT_ZHINX ;;
  require_fp ;;
  let* rm := RM in
  WRITE_FRD_H (let* a := RS1 in soft (i32_to_f16 rm (i32 a))) ;;
  set_fp_exceptions.

Definition insn_fcvt_h_wu : M unit :=
  require_either_extension EXT_ZFH EXT_ZHINX ;;
  require_fp ;;
  let* rm := RM in
  WRITE_FRD_H (let* a := RS1 in soft (ui32_to_f16 rm (u32 a))) ;;
  set_fp_exceptions.

Definition insn_fcvt_l_d : M unit :=
  require_either_extension ext_D EXT_ZDINX ;;
  require_rv64 ;;
  require_fp ;;
  let* rm := RM in
  WRITE_RD (let* a := FRS1_D in soft (f64_to_i64 a rm true)) ;;
  set_fp_exceptions.

Definition insn_fcvt_l_h : M unit :=
  require_either_extension EXT_ZFH EXT_ZHINX ;;
  require_rv64 ;;
  require_fp ;;
  let* rm := RM in
  WRITE_RD (let* a := FRS1_H in soft (f16_to_i64 a rm true)) ;;
  set_fp_exceptions.

Definition insn_fcvt_l_q : M unit :=
  require_extension ext_Q ;;
  require_rv64 ;;
  require_fp ;;
  let* rm := RM in
  WRITE_RD (let* a := FRS1_Q in soft (f128_to_i64 a rm true)) ;;
  set_fp_exceptions.

Definition insn_fcvt_l_s : M unit :=
  require_either_extension ext_F EXT_ZFINX ;;
  require_rv64 ;;
  require_fp ;;
  let* rm := RM in
  WRITE_RD (let* a := FRS1_F in soft (f32_to_i64 a rm true)) ;;
  set_fp_exceptions.

Definition insn_fcvt_lu_d : M unit :=
  require_either_extension ext_D EXT_ZDINX ;;
  require_rv64 ;;
  require_fp ;;
  let* rm := RM in
  WRITE_RD (let* a := FRS1_D in soft (f64_to_ui64 a rm true)) ;;
  set_fp_exceptions.

Definition insn_fcvt_lu_h : M unit :=
  require_either_extension EXT_ZFH EXT_ZHINX ;;
  require_rv64 ;;
  require_fp ;;
  let* rm := RM in
  WRITE_RD (let* a := FRS1_H in soft (f16_to_ui64 a rm true)) ;;
  set_fp_exceptions.

Definition insn_fcvt_lu_q : M unit :=
  require_extension ext_Q ;;
  require_rv64 ;;
  require_fp ;;
  let* rm := RM in
  WRITE_RD (let* a := FRS1_Q in soft (f128_to_ui64 a rm true)) ;;
  set_fp_exceptions.

Definition insn_fcvt_lu_s : M unit :=
  require_either_extension ext_F EXT_ZFINX ;;
  require_rv64 ;;
  require_fp ;;
  let* rm := RM in
  WRITE_RD (let* a := FRS1_F in soft (f32_to_ui64 a rm true)) ;;
  set_fp_exceptions.

Definition insn_fcvt_q_d : M unit :=
  require_extension ext_Q ;;
  require_fp ;;
  let* rm := RM in
  WRITE_FRD freg128 (let* a := FRS1 in soft (f64_to_f128 (unboxF64 a))) ;;
  set_fp_exceptions.

Definition insn_fcvt_q_h : M unit :=
  require_extension EXT_ZFHMIN ;;
  require_extension ext_Q ;;
  require_fp ;;
  let* rm := RM in
  WRITE_FRD freg128 (let* a := FRS1 in soft (f16_to_f128 (unboxF16 a))) ;;
  set_fp_exceptions.

Definition insn_fcvt_q_l : M unit :=
  require_extension ext_Q ;;
  require_rv64 ;;
  require_fp ;;
  let* rm := RM in
  WRITE_FRD freg128 (let* a := RS1 in ret (i64_to_f128 (i64 a))) ;;
  set_fp_exceptions.

Definition insn_fcvt_q_lu : M unit :=
  require_extension ext_Q ;;
  require_rv64 ;;
  require_fp ;;
  let* rm := RM in
  WRITE_FRD freg128 (let* a := RS1 in ret (ui64_to_f128 a)) ;;
  set_fp_exceptions.

Definition insn_fcvt_q_s : M unit :=
  require_extension ext_Q ;;
  require_fp ;;
  let* rm := RM in
  WRITE_FRD freg128 (let* a := FRS1 in soft (f32_to_f128 (unboxF32 a))) ;;
  set_fp_exceptions.

Definition insn_fcvt_q_w : M unit :=
  require_extension ext_Q ;;
  require_fp ;;
  let* rm := RM in
  WRITE_FRD freg128 (let* a := RS1 in ret (i32_to_f128 (i32 a))) ;;
  set_fp_exceptions.

Definition insn_fcvt_q_wu : M unit :=
  require_extension ext_Q ;;
  require_fp ;;
  let* rm := RM in
  WRITE_FRD freg128 (let* a := RS1 in ret (ui32_to_f128 (u32 a))) ;;
  set_fp_exceptions.

Definition insn_fcvt_s_d : M unit :=
  require_either_extension ext_D EXT_ZDINX ;;
  require_fp ;;
  let* rm := RM in
  WRITE_FRD_F (let* a := FRS1_D in soft (f64_to_f32 rm a)) ;;
  set_fp_exceptions.

Definition insn_fcvt_s_h : M unit :=
  require_either_extension EXT_ZFHMIN EXT_ZHINXMIN ;;
  require_fp ;;
  let* rm := RM in
  WRITE_FRD_F (let* a := FRS1_H in soft (f16_to_f32 a)) ;;
  set_fp_exceptions.

Definition insn_fcvt_s_l : M unit :=
  require_either_extension ext_F EXT_ZFINX ;;
  require_rv64 ;;
  require_fp ;;
  let* rm := RM in
  WRITE_FRD_F (let* a := RS1 in soft (i64_to_f32 rm (i64 a))) ;;
  set_fp_exceptions.

Definition insn_fcvt_s_lu : M unit :=
  require_either_extension ext_F EXT_ZFINX ;;
  require_rv64 ;;
  require_fp ;;
  let* rm := RM in
  WRITE_FRD_F (let* a := RS1 in soft (ui64_to_f32 rm a)) ;;
  set_fp_exceptions.

Definition insn_fcvt_s_q : M unit :=
  require_extension ext_Q ;;
  require_fp ;;
  let* rm := RM in
  WRITE_FRD freg32 (let* a := FRS1_Q in soft (f128_to_f32 rm a)) ;;
  set_fp_exceptions.

Definition insn_fcvt_s_w : M unit :=
  require_either_extension ext_F EXT_ZFINX ;;
  require_fp ;;
  let* rm := RM in
  WRITE_FRD_F (let* a := RS1 in soft (i32_to_f32 rm (i32 a))) ;;
  set_fp_exceptions.

Definition insn_fcvt_s_wu : M unit :=
  require_either_extension ext_F EXT_ZFINX ;;
  require_fp ;;
  let* rm := RM in
  WRITE_FRD_F (let* a := RS1 in soft (ui32_to_f32 rm (u32 a))) ;;
  set_fp_exceptions.

Definition insn_fcvt_w_d : M unit :=
  require_either_extension ext_D EXT_ZDINX ;;
  require_fp ;;
  let* rm := RM in
  WRITE_RD (let* a := FRS1_D in let* b := soft (f64_to_i32 a rm true) in ret (sext32 b)) ;;
  set_fp_exceptions.

Definition insn_fcvt_w_h : M unit :=
  require_either_extension EXT_ZFH EXT_ZHINX ;;
  require_fp ;;
  let* rm := RM in
  WRITE_RD (let* a := FRS1_H in let* b := soft (f16_to_i32 a rm true) in ret (sext32 b)) ;;
  set_fp_exceptions.

Definition insn_fcvt_w_q : M unit :=
  require_extension ext_Q ;;
  require_fp ;;
  let* rm := RM in
  WRITE_RD (let* a := FRS1_Q in let* b := soft (f128_to_i32 a rm true) in ret (sext32 b)) ;;
  set_fp_exceptions.

Definition insn_fcvt_w_s : M unit :=
  require_either_extension ext_F EXT_ZFINX ;;
  require_fp ;;
  let* rm := RM in
  WRITE_RD (let* a := FRS1_F in let* b := soft (f32_to_i32 a rm true) in ret (sext32 b)) ;;
  set_fp_exceptions.

Definition insn_fcvt_wu_d : M unit :=
  require_either_extension ext_D EXT_ZDINX ;;
  require_fp ;;
  let* rm := RM in
  WRITE_RD (let* a := FRS1_D in let* b := soft (f64_to_ui32 a rm true) in ret (sext32 b)) ;;
  set_fp_exceptions.

Definition insn_fcvt_wu_h : M unit :=
  require_either_extension EXT_ZFH EXT_ZHINX ;;
  require_fp ;;
  let* rm := RM in
  WRITE_RD (let* a := FRS1_H in let* b := soft (f16_to_ui32 a rm true) in ret (sext32 b)) ;;
  set_fp_exceptions.

Definition insn_fcvt_wu_q : M unit :=
  require_extension ext_Q ;;
  require_fp ;;
  let* rm := RM in
  WRITE_RD (let* a := FRS1_Q in let* b := soft (f128_to_ui32 a rm true) in ret (sext32 b)) ;;
  set_fp_exceptions.

Definition insn_fcvt_wu_s : M unit :=
  require_either_extension ext_F EXT_ZFINX ;;
  require_fp ;;
  let* rm := RM in
  WRITE_RD (let* a := FRS1_F in let* b := soft (f32_to_ui32 a rm true) in ret (sext32 b)) ;;
  set_fp_exceptions.

(** The branches on [exp] and [shift]: the fraction shifted into place, and
    whether bits were lost. *)
Definition fcvtmod_shift (frac shift : Z) : Z * bool :=
  if 64 <=? shift then (0, false)
  else if (0 <=? shift) && (shift <? 64) then (u64 (Z.shiftl frac shift), false)
  else if (-64 <? shift) && (shift <? 0)
  then (Z.shiftr frac (- shift), negb (u64 (Z.shiftl frac (64 + shift)) =? 0))
  else (0, true).

(** The result, [inexact] and [invalid]. *)
Definition fcvtmod (a : Z) : Z * bool * bool :=
  let sign := signF64UI a in
  let exp := expF64UI a in
  let frac := fracF64UI a in
  if exp =? 0 then (0, negb (frac =? 0), false)
  else if exp =? 0x7ff then (0, false, true)
  else
    let true_exp := exp - 1023 in
    let shift := true_exp - 52 in
    let frac := frac .| Z.shiftl 1 52 in
    let '(frac, inexact) := fcvtmod_shift frac shift in
    let overflow := (31 <? true_exp) || ((if sign then 0x80000000 else 0x7fffffff) <? frac) in
    let frac' := if sign then u64 (- frac) else frac in
    if overflow then (frac', false, true) else (frac', inexact, false).

Definition insn_fcvtmod_w_d : M unit :=
  require_extension ext_D ;;
  require_extension EXT_ZFA ;;
  require_fp ;;
  let* a := FRS1_D in
  let '(frac, inexact, invalid) := fcvtmod a in
  WRITE_RD (ret (sext32 frac)) ;;
  raise_fp_exceptions ((if inexact then softfloat_flag_inexact else 0)
                       .| (if invalid then softfloat_flag_invalid else 0)).

Definition insn_fmv_d_x : M unit :=
  require_extension ext_D ;;
  require_rv64 ;;
  require_fp ;;
  WRITE_FRD freg64 (let* a := RS1 in ret (u64 a)).

Definition insn_fmv_h_x : M unit :=
  require_extension EXT_INTERNAL_ZFH_MOVE ;;
  require_fp ;;
  WRITE_FRD freg16 (let* a := RS1 in ret (u16 a)).

Definition insn_fmv_w_x : M unit :=
  require_extension ext_F ;;
  require_fp ;;
  WRITE_FRD freg32 (let* a := RS1 in ret (u32 a)).

Definition insn_fmv_x_d : M unit :=
  require_extension ext_D ;;
  require_rv64 ;;
  require_fp ;;
  WRITE_RD (let* a := FRS1 in ret (fst a)).

Definition insn_fmv_x_h : M unit :=
  require_extension EXT_INTERNAL_ZFH_MOVE ;;
  require_fp ;;
  WRITE_RD (let* a := FRS1 in ret (sext32 (i16 (fst a)))).

Definition insn_fmv_x_w : M unit :=
  require_extension ext_F ;;
  require_fp ;;
  WRITE_RD (let* a := FRS1 in ret (sext32 (fst a))).

Definition insn_fmvh_x_d : M unit :=
  require_rv32 ;;
  require_extension ext_D ;;
  require_extension EXT_ZFA ;;
  require_fp ;;
  let* ui := FRS1_D in
  WRITE_RD (ret (sext32 (Z.shiftr ui 32))).

Definition insn_fmvh_x_q : M unit :=
  require_rv64 ;;
  require_extension ext_Q ;;
  require_extension EXT_ZFA ;;
  require_fp ;;
  let* ui := FRS1_Q in
  WRITE_RD (ret (fst ui)).

Definition insn_fmvp_d_x : M unit :=
  require_rv32 ;;
  require_extension ext_D ;;
  require_extension EXT_ZFA ;;
  require_fp ;;
  let* b := RS2 in
  let* a := RS1 in
  WRITE_FRD_D (ret (u64 (Z.shiftl b 32) .| zext32 a)).

Definition insn_fmvp_q_x : M unit :=
  require_rv64 ;;
  require_extension ext_Q ;;
  require_extension EXT_ZFA ;;
  require_fp ;;
  let* b := RS2 in
  let* a := RS1 in
  WRITE_FRD freg128 (ret (b, a)).

End fp.
