(* ===== verification/Vector.v ===== *)
(** The vector unit, [riscv/vector_unit.h] and [vector_unit.cc], with the
    checks of [decode_macros.h] and [v_ext_macros.h] that vector instructions
    start with.

    The register file is [NVPR * vlenb] bytes; [elt] gives the element of a
    size in bytes, which may lie in a later register of the group.  An access
    outside the register file is undefined in the source: here it aborts, and
    [VectorFacts] shows which checks exclude it.  The float [vflmul], and the
    floats computed from it, are multiples of 1/1024, [FL] being one. *)

From S2P Require Import Prelude IntArith Decode Encoding IsaExt Trap Hart Pmp Csr CsrFile CsrInit Mmu Macros.

Definition NVPR : Z := 32.
Definition e8 : Z := 8.
Definition e16 : Z := 16.
Definition e32 : Z := 32.
Definition e64 : Z := 64.

(** One as a [vflmul], and the conversion of such a float to an integer. *)
Definition FL : Z := 1024.
Definition fl_int (x : Z) : Z := x / FL.

(** [VRM]. *)
Definition RNU : Z := 0.
Definition RNE : Z := 1.
Definition RDN : Z := 2.
Definition ROD : Z := 3.

(** * Overlap and alignment of register groups *)

Definition is_aligned (val pos : Z) : bool := if pos =? 0 then true else val .& (pos - 1) =? 0.

Definition is_overlapped (astart asize bstart bsize : Z) : bool :=
  let asize := if asize =? 0 then 1 else asize in
  let bsize := if bsize =? 0 then 1 else bsize in
  let aend := astart + asize in
  let bend := bstart + bsize in
  Z.max aend bend - Z.min astart bstart <? asize + bsize.

Definition is_overlapped_widen (astart asize bstart bsize : Z) : bool :=
  let asize := if asize =? 0 then 1 else asize in
  let bsize := if bsize =? 0 then 1 else bsize in
  let aend := astart + asize in
  let bend := bstart + bsize in
  if (astart <? bstart) && is_overlapped astart asize bstart bsize
     && negb (is_overlapped astart asize (bstart + bsize) bsize)
  then false
  else Z.max aend bend - Z.min astart bstart <? asize + bsize.

Section vector.
Context `{!config, !simif, !trigger_module}.

Definition VLEN : Z := cfg_VLEN.
Definition ELEN : Z := cfg_ELEN.
Definition vlenb : Z := VLEN / 8.
Definition vstart_alu : bool := false.

Definition VU_modify (f : vu_t -> vu_t) : M unit := modify (fun h => set_VU (f (VU h)) h).

(** [read], [write] and [write_raw] of the objects [vl], [vtype], [vstart]. *)
Definition vl_read (h : hart) : Z := csr_raw h CSR_VL.
Definition vtype_read (h : hart) : Z := csr_raw h CSR_VTYPE.
Definition vstart_read (h : hart) : Z := csr_raw h CSR_VSTART.
Definition vstart_write (val : Z) : M unit := csr_write vstart_csr val.
Definition write_raw (addr val : Z) : M unit := modify (basic_write addr val).
Definition get_vround_mode (h : hart) : Z := csr_raw h CSR_VXRM.

(** * Configuration *)

(** The fields of [vtype] in a new value. *)
Definition new_vlmul (t : Z) : Z := Z.shiftr (i8 (Z.shiftl (default 0 (extract64 t 0 3)) 5)) 5.
Definition vsew_of (t : Z) : Z := Z.shiftl 1 (default 0 (extract64 t 3 3) + 3).
Definition vflmul_of (t : Z) : Z :=
  if 0 <=? new_vlmul t then Z.shiftl FL (new_vlmul t) else FL / Z.shiftl 1 (- new_vlmul t).
Definition vlmax_of (t : Z) : Z := fl_int (VLEN / vsew_of t * vflmul_of t).

Definition ill_altfmt (h : hart) (sew : Z) : bool :=
  if extension_enabled h EXT_ZVQBDOT8I && (sew =? 8) then false
  else if extension_enabled h EXT_ZVQBDOT16I && (sew =? 16) then false
  else if extension_enabled h EXT_ZVFWBDOT16BF && (sew =? 16) then false
  else if extension_enabled h EXT_ZVQLDOT8I && (sew =? 8) then false
  else if extension_enabled h EXT_ZVQLDOT16I && (sew =? 16) then false
  else if extension_enabled h EXT_ZVFWLDOT16BF && (sew =? 16) then false
  else true.

Definition vill_of (h : hart) (rd rs1 t : Z) : bool :=
  negb ((FL / 8 <=? vflmul_of t) && (vflmul_of t <=? 8 * FL))
  || (Z.min (vflmul_of t) FL * ELEN <? vsew_of t * FL)
  || negb (Z.shiftr t 9 =? 0)
  || (z2b (default 0 (extract64 t 8 1)) && ill_altfmt h (vsew_of t))
  || ((rd =? 0) && (rs1 =? 0) && negb (vlmax (VU h) =? vlmax_of t)).

(** The assignment of a new [vtype]. *)
Definition set_vtype (rd rs1 newType : Z) : M unit :=
  let* h := get_hart in
  let ill := vill_of h rd rs1 newType in
  VU_modify (fun u => mk_vu (reg_file u) (if ill then 0 else vlmax_of newType) (vsew_of newType)
    (vflmul_of newType) (default 0 (extract64 newType 6 1)) (default 0 (extract64 newType 7 1))
    (default 0 (extract64 newType 8 1)) ill) ;;
  write_raw CSR_VTYPE (if ill then u64 (Z.shiftl UINT64_MAX (xlen - 1)) else newType).

Definition set_vl (rd rs1 reqVL newType : Z) : M Z :=
  let* h := get_hart in
  when (negb (vtype_read h =? newType)) (set_vtype rd rs1 newType) ;;
  let* max := gets (fun h => vlmax (VU h)) in
  (if max =? 0 then write_raw CSR_VL 0
   else if (rd =? 0) && (rs1 =? 0) then ret tt
   else if negb (rd =? 0) && (rs1 =? 0) then write_raw CSR_VL max
   else if negb (rs1 =? 0) then write_raw CSR_VL (Z.min reqVL max)
   else ret tt) ;;
  write_raw CSR_VSTART 0 ;;
  gets vl_read.

Definition VU_reset : M unit :=
  VU_modify (set_reg_file ∅) ;;
  write_raw CSR_VXSAT 0 ;; write_raw CSR_VSTART 0 ;; write_raw CSR_VXRM 0 ;;
  write_raw CSR_VL 0 ;; write_raw CSR_VLENB vlenb ;;
  write_raw CSR_VTYPE 0 ;;
  let* _ := set_vl 0 0 0 UINT64_MAX in ret tt.

(** * Elements *)

Definition elts_per_reg (size : Z) : Z := VLEN / 8 / size.

(** The offset of an element of [size] bytes. *)
Definition elt_offset (size vReg n : Z) : Z :=
  u64 (vReg + n / elts_per_reg size) * vlenb + n mod elts_per_reg size * size.

(** The reference [elt<T>(vReg, n)]: its offset in the register file. *)
Definition elt_ref (size vReg n : Z) : M Z :=
  let* sew := gets (fun h => vsew (VU h)) in
  assert (negb (sew =? 0)) ;;
  assert (0 <? elts_per_reg size) ;;
  let o := elt_offset size vReg n in
  assert ((0 <=? o) && (o + size <=? NVPR * vlenb)) ;;
  ret o.

Definition reg_bytes (o n : Z) (u : vu_t) : list Z :=
  map (fun k => default 0 (reg_file u !! (o + k))) (zseq n).
Definition set_reg_bytes (o : Z) (bytes : list Z) (u : vu_t) : vu_t :=
  set_reg_file (write_bytes o bytes (reg_file u)) u.

(** Elements of [w] bits, unsigned and signed, and the assignment of one. *)
Definition elt (w vReg n : Z) : M Z :=
  let* o := elt_ref (w / 8) vReg n in
  gets (fun h => le_value (reg_bytes o (w / 8) (VU h))).
Definition elt_s (w vReg n : Z) : M Z := let* x := elt w vReg n in ret (swrap w x).
Definition set_elt (w vReg n val : Z) : M unit :=
  let* o := elt_ref (w / 8) vReg n in
  VU_modify (set_reg_bytes o (le_bytes (Z.to_nat (w / 8)) val)).

Definition mask_elt (vReg n : Z) : M bool :=
  let* e := elt 8 vReg (n / 8) in ret (z2b (Z.shiftr e (n mod 8) .& 1)).
Definition set_mask_elt (vReg n : Z) (value : bool) : M unit :=
  let* e := elt 8 vReg (n / 8) in
  set_elt 8 vReg (n / 8) ((e &~ Z.shiftl 1 (n mod 8)) .| Z.shiftl (b2z value) (n mod 8)).

(** [elt_group<EG>(vReg, n)] for an array of [N] elements of [w] bits. *)
Definition group_ref (w N vReg n : Z) : M Z :=
  let* u := gets VU in
  assert (negb (vsew u =? 0)) ;;
  let size := N * (w / 8) in
  assert ((n + 1) * size <=? fl_int (vlenb * vflmul u)) ;;
  let o := vReg * vlenb + n * size in
  assert ((0 <=? o) && (o + size <=? NVPR * vlenb)) ;;
  ret o.
Definition elt_group (w N vReg n : Z) : M (list Z) :=
  let* o := group_ref w N vReg n in
  gets (fun h => map (fun k => le_value (reg_bytes (o + k * (w / 8)) (w / 8) (VU h))) (zseq N)).
Definition set_elt_group (w N vReg n : Z) (vals : list Z) : M unit :=
  let* o := group_ref w N vReg n in
  VU_modify (set_reg_bytes o (concat (map (le_bytes (Z.to_nat (w / 8))) vals))).

(** * Loops *)

(** [for (i = lo; i < hi; i++)], without and with a variable it updates. *)
Fixpoint loop_from {A} (n : nat) (i : Z) (body : Z -> A -> M A) (a : A) : M A :=
  match n with
  | O => ret a
  | S n => let* a := body i a in loop_from n (i + 1) body a
  end.
Definition for_acc {A} (lo hi : Z) (a : A) (body : Z -> A -> M A) : M A :=
  loop_from (Z.to_nat (hi - lo)) lo body a.
Definition for_loop (lo hi : Z) (body : Z -> M unit) : M unit :=
  for_acc lo hi tt (fun i _ => body i).

(** * Checks *)

Context `{!insn_ctx}.

Definition require_vector_vs : M unit :=
  require_state (fun h => any_vector_extensions && sstatus_enabled h SSTATUS_VS).
Definition require_vector (alu : bool) : M unit :=
  require_vector_vs ;;
  require_state (fun h => negb (vill (VU h))) ;;
  (if alu && negb vstart_alu then require_state (fun h => vstart_read h =? 0) else ret tt) ;;
  dirty_vs_state.
Definition require_vector_novtype : M unit := require_vector_vs ;; dirty_vs_state.
Definition require_align (val pos : Z) : M unit := require (is_aligned val pos).
Definition require_noover (astart asize bstart bsize : Z) : M unit :=
  require (negb (is_overlapped astart asize bstart bsize)).
Definition require_noover_widen (astart asize bstart bsize : Z) : M unit :=
  require (negb (is_overlapped_widen astart asize bstart bsize)).
Definition require_vm : M unit :=
  if Insn.v_vm insn =? 0 then require (negb (Insn.rd insn =? 0)) else ret tt.

End vector.
