(* ===== verification/VMacros.v ===== *)
(** The macros of [riscv/v_ext_macros.h] the bodies of the vector instructions
    are written with.

    A loop macro takes the body as a function of the operands its parameter
    macro declares; the result of the body is what it assigns to [vd] (to [res]
    in a comparison, to the accumulator in a reduction).  Signed operands are
    integers of their type, unsigned ones and floats the number of the bits; an
    assignment to an element wraps to its width.  The loops on [sew] and
    the [switch]es on it, which differ in the types only, take the width as an
    argument. *)

From S2P Require Import Prelude IntArith Decode Encoding IsaExt Trap Hart Pmp Csr CsrFile CsrInit Mmu Macros InsnsMem InsnsFp Vector.
From S2P Require Import SoftPrim SoftRound SoftF16 SoftF32 SoftF64 SoftConv SoftBF16.

(** [INT_ROUNDING(result, xrm, gb)]. *)
Definition INT_ROUNDING (result xrm gb : Z) : Z :=
  let lsb := Z.shiftl 1 gb in
  let lsb_half := Z.shiftr lsb 1 in
  if xrm =? RNU then result + lsb_half
  else if xrm =? RNE then
    if z2b (result .& lsb_half) && (z2b (result .& u64 (lsb_half - 1)) || z2b (result .& lsb))
    then result + lsb else result
  else if xrm =? ROD then (if z2b (result .& (lsb - 1)) then result .| lsb else result)
  else result.

(** The types [intN_t] and [uintN_t] by their width: the conversion to one. *)
Definition cast (signed : bool) (w x : Z) : Z := if signed then swrap w x else wrap w x.

Section macros.
Context `{!config, !simif, !trigger_module, !insn_ctx}.

Definition rd_num : Z := Insn.rd insn.
Definition rs1_num : Z := Insn.rs1 insn.
Definition rs2_num : Z := Insn.rs2 insn.
Definition get_sew : M Z := gets (fun h => vsew (VU h)).
Definition get_flmul : M Z := gets (fun h => vflmul (VU h)).
Definition get_vl : M Z := gets vl_read.
Definition get_vstart : M Z := gets vstart_read.
Definition elt_t (signed : bool) (w vReg n : Z) : M Z := if signed then elt_s w vReg n else elt w vReg n.

(** * Register-group checks *)

Definition VI_NARROW_CHECK_COMMON : M unit :=
  require_vector true ;;
  let* lmul := get_flmul in
  let* sew := get_sew in
  require (lmul <=? 4 * FL) ;;
  require (sew * 2 <=? ELEN) ;;
  require_align rs2_num (fl_int (lmul * 2)) ;;
  require_align rd_num (fl_int lmul) ;;
  require_vm.

Definition VI_WIDE_CHECK_COMMON : M unit :=
  require_vector true ;;
  let* lmul := get_flmul in
  let* sew := get_sew in
  require (lmul <=? 4 * FL) ;;
  require (sew * 2 <=? ELEN) ;;
  require_align rd_num (fl_int (lmul * 2)) ;;
  require_vm.

(** Both branches of a check on [vflmul < 1]. *)
Definition require_noover_lmul (lmul astart asize bstart bsize : Z) : M unit :=
  if lmul <? FL then require_noover astart asize bstart bsize
  else require_noover_widen astart asize bstart bsize.

(** The [vemul], [emul] and [flmul] an indexed access declares. *)
Definition VI_CHECK_ST_INDEX (elt_width nf : Z) : M (Z * Z * Z) :=
  require_vector false ;;
  let* lmul := get_flmul in
  let* sew := get_sew in
  require (elt_width <=? ELEN) ;;
  let vemul := elt_width * lmul / sew in
  require ((FL / 8 <=? vemul) && (vemul <=? 8 * FL)) ;;
  let emul := if vemul <? FL then 1 else fl_int vemul in
  let flmul := if lmul <? FL then 1 else fl_int lmul in
  require_align rd_num (fl_int lmul) ;;
  require_align rs2_num (fl_int vemul) ;;
  require ((nf * flmul <=? NVPR / 4) && (rd_num + nf * flmul <=? NVPR)) ;;
  ret (vemul, emul, flmul).

Definition VI_CHECK_LD_INDEX (elt_width nf : Z) : M (Z * Z * Z) :=
  let* (vemul, emul, flmul) := VI_CHECK_ST_INDEX elt_width nf in
  let* lmul := get_flmul in
  let* sew := get_sew in
  for_loop 0 nf (fun idx =>
    let seg_vd := rd_num + flmul * idx in
    (if sew <? elt_width then
       when (negb (seg_vd =? rs2_num)) (require_noover seg_vd (fl_int lmul) rs2_num (fl_int vemul))
     else if elt_width <? sew then
       require_noover_lmul vemul seg_vd (fl_int lmul) rs2_num (fl_int vemul)
     else ret tt) ;;
    when (2 <=? nf) (require_noover seg_vd (fl_int lmul) rs2_num (fl_int vemul))) ;;
  require_vm ;;
  ret (vemul, emul, flmul).

Definition VI_CHECK_MSS (is_vs1 : bool) : M unit :=
  let* lmul := get_flmul in
  when (negb (rd_num =? rs2_num)) (require_noover rd_num 1 rs2_num (fl_int lmul)) ;;
  require_align rs2_num (fl_int lmul) ;;
  when is_vs1
    (when (negb (rd_num =? rs1_num)) (require_noover rd_num 1 rs1_num (fl_int lmul)) ;;
     require_align rs1_num (fl_int lmul)).

Definition VI_CHECK_SSS (is_vs1 : bool) : M unit :=
  require_vm ;;
  let* lmul := get_flmul in
  when (FL <? lmul)
    (require_align rd_num (fl_int lmul) ;;
     require_align rs2_num (fl_int lmul) ;;
     when is_vs1 (require_align rs1_num (fl_int lmul))).

(** The [emul] an access to memory declares; elements of [n] bytes. *)
Definition VI_CHECK_STORE (n nf : Z) (is_mask_ldst : bool) : M Z :=
  require_vector false ;;
  let* lmul := get_flmul in
  let* sew := get_sew in
  let veew := if is_mask_ldst then 1 else n * 8 in
  let vemul := if is_mask_ldst then FL else veew * lmul / sew in
  let emul := if vemul <? FL then 1 else fl_int vemul in
  require ((FL / 8 <=? vemul) && (vemul <=? 8 * FL)) ;;
  require_align rd_num (fl_int vemul) ;;
  require ((nf * emul <=? NVPR / 4) && (rd_num + nf * emul <=? NVPR)) ;;
  require (veew <=? ELEN) ;;
  ret emul.

Definition VI_CHECK_LOAD (n nf : Z) (is_mask_ldst : bool) : M Z :=
  let* emul := VI_CHECK_STORE n nf is_mask_ldst in require_vm ;; ret emul.

Definition VI_CHECK_DSS (is_vs1 : bool) : M unit :=
  VI_WIDE_CHECK_COMMON ;;
  let* lmul := get_flmul in
  require_align rs2_num (fl_int lmul) ;;
  require_noover_lmul lmul rd_num (fl_int (lmul * 2)) rs2_num (fl_int lmul) ;;
  when is_vs1
    (require_align rs1_num (fl_int lmul) ;;
     require_noover_lmul lmul rd_num (fl_int (lmul * 2)) rs1_num (fl_int lmul)).

Definition VI_CHECK_DDS (is_rs : bool) : M unit :=
  VI_WIDE_CHECK_COMMON ;;
  let* lmul := get_flmul in
  require_align rs2_num (fl_int (lmul * 2)) ;;
  when is_rs
    (require_align rs1_num (fl_int lmul) ;;
     require_noover_lmul lmul rd_num (fl_int (lmul * 2)) rs1_num (fl_int lmul)).

Definition VI_CHECK_SDS (is_vs1 : bool) : M unit :=
  VI_NARROW_CHECK_COMMON ;;
  let* lmul := get_flmul in
  when (negb (rd_num =? rs2_num)) (require_noover rd_num (fl_int lmul) rs2_num (fl_int (lmul * 2))) ;;
  when is_vs1 (require_align rs1_num (fl_int lmul)).

Definition VI_CHECK_REDUCTION (is_wide : bool) : M unit :=
  require_vector true ;;
  let* lmul := get_flmul in
  let* sew := get_sew in
  when is_wide (require (sew * 2 <=? ELEN)) ;;
  require_align rs2_num (fl_int lmul) ;;
  require_state (fun h => vstart_read h =? 0).

Definition VI_CHECK_SLIDE (is_over : bool) : M unit :=
  let* lmul := get_flmul in
  require_align rs2_num (fl_int lmul) ;;
  require_align rd_num (fl_int lmul) ;;
  require_vm ;;
  when is_over (require (negb (rd_num =? rs2_num))).

(** * Loop headers *)

(** [VI_LOOP_ELEMENT_SKIP] before [body]. *)
Definition VI_LOOP_ELEMENT_SKIP {A} (i : Z) (a : A) (body : M A) : M A :=
  if Insn.v_vm insn =? 0 then let* m := mask_elt 0 i in if m then body else ret a else body.

Definition VI_ELEMENT_SKIP (vl i : Z) (body : M unit) : M unit :=
  let* vstart := get_vstart in
  if vl <=? i then ret tt else if i <? vstart then ret tt else VI_LOOP_ELEMENT_SKIP i tt body.

(** [VI_GENERAL_LOOP_BASE .. VI_LOOP_END_BASE], the body given [sew], [vl], [i]. *)
Definition VI_GENERAL_LOOP_ACC {A} (a : A) (body : Z -> Z -> Z -> A -> M A) : M A :=
  let* sew := get_sew in
  require ((e8 <=? sew) && (sew <=? e64)) ;;
  require_vector true ;;
  let* vl := get_vl in
  let* vstart := get_vstart in
  for_acc vstart vl a (body sew vl).
Definition VI_GENERAL_LOOP (body : Z -> Z -> Z -> M unit) : M unit :=
  VI_GENERAL_LOOP_ACC tt (fun sew vl i _ => body sew vl i) ;;
  vstart_write 0.

(** [VI_LOOP_BASE .. VI_LOOP_END]. *)
Definition VI_LOOP (body : Z -> Z -> Z -> M unit) : M unit :=
  VI_GENERAL_LOOP (fun sew vl i => VI_LOOP_ELEMENT_SKIP i tt (body sew vl i)).

Definition VI_LOOP_CMP (body : Z -> Z -> M bool) : M unit :=
  VI_LOOP (fun sew _ i => let* res := body sew i in set_mask_elt rd_num i res).

Definition VI_LOOP_MASK (op : bool -> bool -> bool) : M unit :=
  require_state (fun h => vsew (VU h) <=? e64) ;;
  require_vector true ;;
  let* vl := get_vl in
  let* vstart := get_vstart in
  for_loop vstart vl (fun i =>
    let* vs2 := mask_elt rs2_num i in
    let* vs1 := mask_elt rs1_num i in
    set_mask_elt rd_num i (op vs2 vs1)) ;;
  vstart_write 0.

(** * Operands

    The parameter macros, for elements of [w] bits: the old [vd], then the
    operands of the body, whose result is assigned to [vd]. *)

Definition VV_operands (sd s1 s2 : bool) (w i : Z) (body : Z -> Z -> Z -> M Z) : M unit :=
  let* vd := elt_t sd w rd_num i in
  let* vs1 := elt_t s1 w rs1_num i in
  let* vs2 := elt_t s2 w rs2_num i in
  let* res := body vd vs1 vs2 in
  set_elt w rd_num i res.
Definition VX_operands (sd s1 s2 : bool) (w i : Z) (body : Z -> Z -> Z -> M Z) : M unit :=
  let* vd := elt_t sd w rd_num i in
  let* rs1 := RS1 in
  let* vs2 := elt_t s2 w rs2_num i in
  let* res := body vd (cast s1 w rs1) vs2 in
  set_elt w rd_num i res.
(** With an immediate, [v_simm5] or [v_zimm5] converted to the type. *)
Definition VI_operands (sd s1 s2 : bool) (w i : Z) (body : Z -> Z -> Z -> M Z) : M unit :=
  let* vd := elt_t sd w rd_num i in
  let* vs2 := elt_t s2 w rs2_num i in
  let* res := body vd (if s1 then swrap w (Insn.v_simm5 insn) else wrap w (Insn.v_zimm5 insn)) vs2 in
  set_elt w rd_num i res.

(** * Integer loops

    The body takes [sew], the old [vd], the first operand ([vs1], [rs1],
    [simm5] or [zimm5]) and [vs2]. *)

Definition op3 : Type := Z -> Z -> Z -> Z -> M Z.

Definition VI_VV_LOOP (body : op3) : M unit :=
  VI_CHECK_SSS true ;; VI_LOOP (fun sew _ i => VV_operands true true true sew i (body sew)).
Definition VI_VX_LOOP (body : op3) : M unit :=
  VI_CHECK_SSS false ;; VI_LOOP (fun sew _ i => VX_operands true true true sew i (body sew)).
Definition VI_VI_LOOP (body : op3) : M unit :=
  VI_CHECK_SSS false ;; VI_LOOP (fun sew _ i => VI_operands true true true sew i (body sew)).
Definition VI_VV_ULOOP (body : op3) : M unit :=
  VI_CHECK_SSS true ;; VI_LOOP (fun sew _ i => VV_operands false false false sew i (body sew)).
Definition VI_VX_ULOOP (body : op3) : M unit :=
  VI_CHECK_SSS false ;; VI_LOOP (fun sew _ i => VX_operands false false false sew i (body sew)).
Definition VI_VI_ULOOP (body : op3) : M unit :=
  VI_CHECK_SSS false ;; VI_LOOP (fun sew _ i => VI_operands false false false sew i (body sew)).
Definition VI_VV_SU_LOOP (body : op3) : M unit :=
  VI_CHECK_SSS true ;; VI_LOOP (fun sew _ i => VV_operands true false true sew i (body sew)).
Definition VI_VX_SU_LOOP (body : op3) : M unit :=
  VI_CHECK_SSS false ;; VI_LOOP (fun sew _ i => VX_operands true false true sew i (body sew)).
Definition VI_V_ULOOP (body : Z -> Z -> M Z) : M unit :=
  VI_CHECK_SSS false ;;
  VI_LOOP (fun sew _ i =>
    let* _ := elt sew rd_num i in
    let* vs2 := elt sew rs2_num i in
    let* res := body sew vs2 in
    set_elt sew rd_num i res).

(** Comparisons: [sew], the first operand and [vs2]. *)
Definition cmp2 : Type := Z -> Z -> Z -> bool.
Definition VV_CMP (s : bool) (body : cmp2) : M unit :=
  VI_CHECK_MSS true ;;
  VI_LOOP_CMP (fun sew i =>
    let* vs1 := elt_t s sew rs1_num i in
    let* vs2 := elt_t s sew rs2_num i in
    ret (body sew vs1 vs2)).
Definition VX_CMP (s : bool) (body : cmp2) : M unit :=
  VI_CHECK_MSS false ;;
  VI_LOOP_CMP (fun sew i =>
    let* rs1 := RS1 in
    let* vs2 := elt_t s sew rs2_num i in
    ret (body sew (cast s sew rs1) vs2)).
Definition VI_VV_LOOP_CMP : cmp2 -> M unit := VV_CMP true.
Definition VI_VX_LOOP_CMP : cmp2 -> M unit := VX_CMP true.
Definition VI_VV_ULOOP_CMP : cmp2 -> M unit := VV_CMP false.
Definition VI_VX_ULOOP_CMP : cmp2 -> M unit := VX_CMP false.
Definition VI_VI_LOOP_CMP (body : cmp2) : M unit :=
  VI_CHECK_MSS false ;;
  VI_LOOP_CMP (fun sew i =>
    let* vs2 := elt_s sew rs2_num i in ret (body sew (swrap sew (Insn.v_simm5 insn)) vs2)).
(** The bodies of the unsigned ones mask the immediate themselves. *)
Definition VI_VI_ULOOP_CMP (body : Z -> Z -> bool) : M unit :=
  VI_CHECK_MSS false ;;
  VI_LOOP_CMP (fun sew i => let* vs2 := elt sew rs2_num i in ret (body sew vs2)).

(** [VI_*_MERGE_LOOP]: the body takes [use_first]. *)
Definition merge : Type := bool -> Z -> Z -> M Z.
Definition MERGE_LOOP (is_vs1 : bool)
    (operands : bool -> bool -> bool -> Z -> Z -> (Z -> Z -> Z -> M Z) -> M unit) (body : merge) : M unit :=
  VI_CHECK_SSS is_vs1 ;;
  VI_GENERAL_LOOP (fun sew _ i =>
    let* use_first := mask_elt 0 i in
    operands true true true sew i (fun _ a b => body use_first a b)).
Definition VI_VV_MERGE_LOOP : merge -> M unit := MERGE_LOOP true VV_operands.
Definition VI_VX_MERGE_LOOP : merge -> M unit := MERGE_LOOP false VX_operands.
Definition VI_VI_MERGE_LOOP : merge -> M unit := MERGE_LOOP false VI_operands.

(** Reductions: [sew], the accumulator and [vs2]; the sources have [w2] bits,
    the accumulator [w1]. *)
Definition REDUCTION_LOOP (s : bool) (w1 w2 : Z) (body : Z -> Z -> Z) : M unit :=
  let* vl := get_vl in
  let* vd_0_des := elt_ref (w1 / 8) rd_num 0 in
  let* vd_0_res := elt_t s w1 rs1_num 0 in
  let* vstart := get_vstart in
  let* vd_0_res := for_acc vstart vl vd_0_res (fun i res =>
    VI_LOOP_ELEMENT_SKIP i res (let* vs2 := elt_t s w2 rs2_num i in ret (cast s w1 (body res vs2)))) in
  when (0 <? vl) (set_elt w1 rd_num 0 vd_0_res) ;;
  vstart_write 0.
Definition REDUCTION (s : bool) (body : Z -> Z -> Z) : M unit :=
  VI_CHECK_REDUCTION false ;;
  let* sew := get_sew in
  when ((e8 <=? sew) && (sew <=? e64)) (REDUCTION_LOOP s sew sew body).
Definition WIDE_REDUCTION (s : bool) (body : Z -> Z -> Z) : M unit :=
  VI_CHECK_REDUCTION true ;;
  let* sew := get_sew in
  when ((e8 <=? sew) && (sew <=? e32)) (REDUCTION_LOOP s (2 * sew) sew body).
Definition VI_VV_LOOP_REDUCTION : (Z -> Z -> Z) -> M unit := REDUCTION true.
Definition VI_VV_ULOOP_REDUCTION : (Z -> Z -> Z) -> M unit := REDUCTION false.
Definition VI_VV_LOOP_WIDE_REDUCTION : (Z -> Z -> Z) -> M unit := WIDE_REDUCTION true.
Definition VI_VV_ULOOP_WIDE_REDUCTION : (Z -> Z -> Z) -> M unit := WIDE_REDUCTION false.

(** Narrowing: [sew], the first operand, [vs2_u] and [vs2]. *)
Definition narrow : Type := Z -> Z -> Z -> Z -> M Z.
Definition NARROW_LOOP (first : Z -> Z -> M Z) (body : narrow) (sew i : Z) : M unit :=
  when (sew <=? e32)
    (let* _ := elt sew rd_num i in
     let* vs2_u := elt (2 * sew) rs2_num i in
     let* vs2 := elt_s (2 * sew) rs2_num i in
     let* a := first sew i in
     let* res := body sew a vs2_u vs2 in
     set_elt sew rd_num i res).
Definition narrow_vs1 (w i : Z) : M Z := elt_s w rs1_num i.
Definition narrow_rs1 (w i : Z) : M Z := let* x := RS1 in ret (swrap w x).
Definition narrow_zimm5 (w i : Z) : M Z := ret (wrap w (Insn.v_zimm5 insn)).
Definition VI_LOOP_NARROW (first : Z -> Z -> M Z) (is_vs1 : bool) (body : narrow) : M unit :=
  VI_CHECK_SDS is_vs1 ;; VI_LOOP (fun sew _ i => NARROW_LOOP first body sew i).
Definition VI_VV_LOOP_NARROW : narrow -> M unit := VI_LOOP_NARROW narrow_vs1 true.
Definition VI_VX_LOOP_NARROW : narrow -> M unit := VI_LOOP_NARROW narrow_rs1 false.
Definition VI_VI_LOOP_NARROW : narrow -> M unit := VI_LOOP_NARROW narrow_zimm5 false.

(** [VI_LOOP_NSHIFT_BASE]: the requirement stands before the mask test. *)
Definition VI_LOOP_NSHIFT (first : Z -> Z -> M Z) (is_vs1 : bool) (body : narrow) : M unit :=
  VI_CHECK_SDS is_vs1 ;;
  VI_GENERAL_LOOP (fun sew _ i =>
    when (Insn.v_vm insn =? 0)
      (let* lmul := get_flmul in require (negb ((rd_num =? 0) && (FL <? lmul)))) ;;
    VI_LOOP_ELEMENT_SKIP i tt (NARROW_LOOP first body sew i)).
Definition VI_VV_LOOP_NSHIFT : narrow -> M unit := VI_LOOP_NSHIFT narrow_vs1 true.
Definition VI_VX_LOOP_NSHIFT : narrow -> M unit := VI_LOOP_NSHIFT narrow_rs1 false.
Definition VI_VI_LOOP_NSHIFT : narrow -> M unit := VI_LOOP_NSHIFT narrow_zimm5 false.

(** Widening: [VI_V*_LOOP_WIDEN] around a body given [sew], [i], the first
    operand and [vs2]. *)
Definition widen : Type := Z -> Z -> Z -> Z -> M unit.
Definition VI_VV_LOOP_WIDEN (body : widen) : M unit :=
  VI_LOOP (fun sew _ i =>
    when (sew <=? e32)
      (let* _ := elt_s sew rd_num i in
       let* vs1 := elt_s sew rs1_num i in
       let* vs2 := elt_s sew rs2_num i in
       body sew i vs1 vs2)).
Definition VI_VX_LOOP_WIDEN (body : widen) : M unit :=
  VI_LOOP (fun sew _ i =>
    when (sew <=? e32)
      (let* _ := elt_s sew rd_num i in
       let* rs1 := RS1 in
       let* vs2 := elt_s sew rs2_num i in
       body sew i (swrap sew rs1) vs2)).

(** [VI_WIDE_OP_AND_ASSIGN_MIX(var0, var1, var2, op0, +, sign_d, sign_1, sign_2)],
    the third operand 0 or the old wide [vd]. *)
Definition VI_WIDE_OP_AND_ASSIGN_MIX (sign_d sign_1 sign_2 accumulate : bool) (op0 : Z -> Z -> Z)
    (sew i var0 var1 : Z) : M unit :=
  let* vd_w := elt_t sign_d (2 * sew) rd_num i in
  set_elt (2 * sew) rd_num i
    (op0 (cast sign_1 sew var0) (cast sign_2 sew var1) + (if accumulate then vd_w else 0)).
Definition VI_WIDE_OP_AND_ASSIGN (sign : bool) : bool -> (Z -> Z -> Z) -> Z -> Z -> Z -> Z -> M unit :=
  VI_WIDE_OP_AND_ASSIGN_MIX sign sign sign.
Definition VI_WIDE_WVX_OP (sign : bool) (op0 : Z -> Z -> Z) (sew i var0 : Z) : M unit :=
  let* _ := elt_t sign (2 * sew) rd_num i in
  let* vs2_w := elt_t sign (2 * sew) rs2_num i in
  set_elt (2 * sew) rd_num i (op0 vs2_w (cast sign sew var0)).

(** Carries: the mask of the element, the carry, the first operand and [vs2]. *)
Definition carry_op : Type := Z -> Z -> Z -> Z -> Z -> Z.
Definition op_mask (sew : Z) : Z := Z.shiftr UINT64_MAX (64 - sew).
Definition carry_in (i : Z) : M Z := let* m := mask_elt 0 i in ret (b2z m).
(** The first operand: [vs1], or [rs1] and [simm5]. *)
Definition carry_vs1 (w i : Z) : M Z := elt_s w rs1_num i.
Definition carry_rs1 (w i : Z) : M Z := let* x := RS1 in ret (swrap w x).
Definition carry_simm5 (w i : Z) : M Z := ret (swrap w (Insn.v_simm5 insn)).
Definition VI_LOOP_CARRY (is_vs1 : bool) (first : Z -> Z -> M Z) (body : carry_op) : M unit :=
  VI_CHECK_MSS is_vs1 ;;
  VI_GENERAL_LOOP (fun sew _ i =>
    let* carry := if Insn.v_vm insn =? 0 then carry_in i else ret 0 in
    let* vs2 := elt_s sew rs2_num i in
    let* a := first sew i in
    set_mask_elt rd_num i (z2b (body sew (op_mask sew) carry a vs2))).
Definition VI_LOOP_WITH_CARRY (is_vs1 : bool) (first : Z -> Z -> M Z) (body : carry_op) : M unit :=
  VI_CHECK_SSS is_vs1 ;;
  VI_GENERAL_LOOP (fun sew _ i =>
    let* carry := carry_in i in
    let* vs2 := elt_s sew rs2_num i in
    let* a := first sew i in
    set_elt sew rd_num i (body sew (op_mask sew) carry a vs2)).

(** Averages. *)
Definition avg (op : Z -> Z -> Z) : op3 := fun _ _ a vs2 =>
  let* xrm := gets get_vround_mode in
  ret (Z.shiftr (INT_ROUNDING (op vs2 a) xrm 1) 1).
Definition VI_VV_LOOP_AVG (op : Z -> Z -> Z) : M unit := VI_VV_LOOP (avg op).
Definition VI_VX_LOOP_AVG (op : Z -> Z -> Z) : M unit := VI_VX_LOOP (avg op).
Definition VI_VV_ULOOP_AVG (op : Z -> Z -> Z) : M unit := VI_VV_ULOOP (avg op).
Definition VI_VX_ULOOP_AVG (op : Z -> Z -> Z) : M unit := VI_VX_ULOOP (avg op).

Definition P_SET_OV (ov : bool) : M unit := when ov (csr_write vxsat_csr 1).

(** [VI_VV_EXT(div, type)]. *)
Definition VI_VV_EXT (div : Z) (signed : bool) : M unit :=
  require (negb (rd_num =? rs2_num)) ;;
  require_vm ;;
  let* lmul := get_flmul in
  let* vsew := get_sew in
  let from := vsew / div in
  require ((e8 <=? from) && (from <=? e64)) ;;
  require ((FL / 8 <=? lmul / div) && (lmul / div <=? 8 * FL)) ;;
  require_align rd_num (fl_int lmul) ;;
  require_align rs2_num (fl_int (lmul / div)) ;;
  require_noover_lmul (lmul / div) rd_num (fl_int lmul) rs2_num (fl_int (lmul / div)) ;;
  VI_LOOP (fun sew _ i => let* x := elt_t signed from rs2_num i in set_elt vsew rd_num i x).

(** * Dot products *)

Definition ZVLDOT_INIT : M unit :=
  require_vector true ;;
  require_state (fun h => vstart_read h =? 0) ;;
  let* lmul := get_flmul in
  require_align rs1_num (fl_int lmul) ;;
  require_align rs2_num (fl_int lmul) ;;
  require_vm ;;
  require_noover rd_num 1 rs1_num (fl_int lmul) ;;
  require_noover rd_num 1 rs2_num (fl_int lmul).

(** The [vs2] and [ci] it declares. *)
Definition ZVBDOT_INIT (widen : Z) : M (Z * Z) :=
  require_vector true ;;
  let* vsew := get_sew in
  let vd_eew := vsew * widen in
  let vd_emul := Z.max 1 (8 * vd_eew / VLEN) in
  let vs2 := rs2_num &~ 7 in
  let ci := (rs2_num .& 7) * 8 in
  require_state (fun h => vstart_read h =? 0) ;;
  require_state (fun h => vflmul (VU h) =? FL) ;;
  require (ci * vd_eew <? VLEN) ;;
  require_align rd_num vd_emul ;;
  require_vm ;;
  require_noover rd_num vd_emul rs1_num 1 ;;
  require_noover rd_num vd_emul vs2 8 ;;
  ret (vs2, ci).

(** A dot product takes the two vectors, as the list of their pairs, and the
    accumulator. *)
Definition dot : Type := list (Z * Z) -> Z -> M Z.
Fixpoint generic_dot_product (macc : Z -> Z -> Z -> M Z) (ab : list (Z * Z)) (c : Z) : M Z :=
  match ab with
  | [] => ret c
  | (a, b) :: ab => let* c := macc a b c in generic_dot_product macc ab c
  end.

(** The elements have [w] bits, the accumulator [cw]. *)
Definition ZVLDOT_LOOP (sa sb : bool) (w cw : Z) (dot : dot) : M unit :=
  let* vl := get_vl in
  let* ab := for_acc 0 vl [] (fun i ab =>
    let* p := VI_LOOP_ELEMENT_SKIP i (0, 0)
                (let* a := elt_t sa w rs1_num i in let* b := elt_t sb w rs2_num i in ret (a, b)) in
    ret (ab ++ [p])) in
  let* acc := elt cw rd_num 0 in
  let* acc := dot ab acc in
  set_elt cw rd_num 0 acc.

Definition ZVBDOT_LOOP (vs2_ci : Z * Z) (sa sb : bool) (w cw : Z) (dot : dot) : M unit :=
  let '(vs2, ci) := vs2_ci in
  for_loop 0 8 (fun idx =>
    let i := ci + idx in
    VI_LOOP_ELEMENT_SKIP i tt
      (let* vl := get_vl in
       let* ab := for_acc 0 vl [] (fun k ab =>
         let* a := elt_t sa w rs1_num k in
         let* b := elt_t sb w (vs2 + idx) k in
         ret (ab ++ [(a, b)])) in
       let* acc := elt cw rd_num i in
       let* acc := dot ab acc in
       set_elt cw rd_num i acc)).

(** [c + decltype(c)(a) * decltype(c)(b)]. *)
Definition macc (cw : Z) (a b c : Z) : M Z := ret (wrap cw (c + wrap cw a * wrap cw b)).
Definition ZVLDOT_SIMPLE_LOOP (sa sb : bool) (w cw : Z) : M unit :=
  ZVLDOT_LOOP sa sb w cw (generic_dot_product (macc cw)).
Definition ZVBDOT_SIMPLE_LOOP (vs2_ci : Z * Z) (sa sb : bool) (w cw : Z) : M unit :=
  ZVBDOT_LOOP vs2_ci sa sb w cw (generic_dot_product (macc cw)).

End macros.
