(* ===== verification/InsnsVMem.v ===== *)
(** The vector loads and stores: the load and store macros of
    [riscv/v_ext_macros.h] and the bodies [insns/vl*.h], [insns/vs*.h] that use
    them.  [n] is the size of an element in bytes, [nf] the number of fields
    of a segment; the old value of [vstart] is overwritten at each element, so
    that a trap leaves the element to restart from. *)

From S2P Require Import Prelude IntArith Decode Encoding IsaExt Trap Hart Pmp Csr CsrFile CsrInit Mmu Macros InsnsMem Vector VMacros.

Section memory.
Context `{!config, !simif, !trigger_module, !insn_ctx}.

Definition nf : Z := Insn.v_nf insn + 1.

(** The number of elements: bytes of masks for [vlm.v] and [vsm.v]. *)
Definition evl (is_mask_ldst : bool) : M Z :=
  let* vl := get_vl in ret (if is_mask_ldst then u64 (vl + 7) / 8 else vl).

(** [VI_LD(stride, offset, elt_width, is_mask_ldst)]; [stride] and [offset] are
    functions of the variables [i] and [fn] their texts mention. *)
Definition VI_LD (stride : Z -> M Z) (offset : Z -> Z -> Z) (n : Z) (is_mask_ldst : bool) : M unit :=
  let* emul := VI_CHECK_LOAD n nf is_mask_ldst in
  let* vl := evl is_mask_ldst in
  let* baseAddr := RS1 in
  for_loop 0 vl (fun i =>
    VI_ELEMENT_SKIP vl i
      (vstart_write i ;;
       for_loop 0 nf (fun fn =>
         let* s := stride i in
         let* val := load_u n (u64 (baseAddr + s + offset i fn * n)) in
         set_elt (8 * n) (rd_num + fn * emul) i val))) ;;
  vstart_write 0.

Definition VI_ST (stride : Z -> M Z) (offset : Z -> Z -> Z) (n : Z) (is_mask_ldst : bool) : M unit :=
  let* emul := VI_CHECK_STORE n nf is_mask_ldst in
  let* vl := evl is_mask_ldst in
  let* baseAddr := RS1 in
  for_loop 0 vl (fun i =>
    VI_ELEMENT_SKIP vl i
      (vstart_write i ;;
       for_loop 0 nf (fun fn =>
         let* val := elt (8 * n) (rd_num + fn * emul) i in
         let* s := stride i in
         store_n n (u64 (baseAddr + s + offset i fn * n)) val))) ;;
  vstart_write 0.

(** The texts [0], [i * RS2] and [i * nf + fn], [fn]. *)
Definition unit_stride (i : Z) : M Z := ret 0.
Definition rs2_stride (i : Z) : M Z := let* s := RS2 in ret (u64 (i * s)).
Definition segment_offset (i fn : Z) : Z := i * nf + fn.
Definition field_offset (i fn : Z) : Z := fn.

(** [VI_LD_INDEX(elt_width, is_seg)] and [VI_ST_INDEX]: indices of
    [elt_width] bits, data of [vsew]. *)
Definition VI_LD_INDEX (elt_width : Z) (is_seg : bool) : M unit :=
  let* (_, _, flmul) := VI_CHECK_LD_INDEX elt_width nf in
  let* vl := get_vl in
  let* baseAddr := RS1 in
  when (negb is_seg) (require (nf =? 1)) ;;
  for_loop 0 vl (fun i =>
    let* index := elt elt_width rs2_num i in
    VI_ELEMENT_SKIP vl i
      (vstart_write i ;;
       for_loop 0 nf (fun fn =>
         let* sew := get_sew in
         let* val := load_u (sew / 8) (u64 (baseAddr + index + fn * (sew / 8))) in
         set_elt sew (rd_num + fn * flmul) i val))) ;;
  vstart_write 0.

Definition VI_ST_INDEX (elt_width : Z) (is_seg : bool) : M unit :=
  let* (_, _, flmul) := VI_CHECK_ST_INDEX elt_width nf in
  let* vl := get_vl in
  let* baseAddr := RS1 in
  when (negb is_seg) (require (nf =? 1)) ;;
  for_loop 0 vl (fun i =>
    let* index := elt elt_width rs2_num i in
    VI_ELEMENT_SKIP vl i
      (vstart_write i ;;
       for_loop 0 nf (fun fn =>
         let* sew := get_sew in
         let* val := elt sew (rd_num + fn * flmul) i in
         store_n (sew / 8) (u64 (baseAddr + index + fn * (sew / 8))) val))) ;;
  vstart_write 0.

(** The fields of one element of a fault-only-first load; [true] when a trap
    stopped it, after which [vl] is the number of the element. *)
Fixpoint ff_fields (n emul i : Z) (addr : Z -> Z) (k : nat) (fn : Z) : M bool :=
  match k with
  | O => ret false
  | S k =>
      let* val := catch (let* x := load_u n (addr fn) in ret (Some x))
        (fun e => match e with
          | Trap _ => if i =? 0 then raise e else write_raw CSR_VL i ;; ret None
          | _ => raise e
          end) in
      match val with
      | None => ret true
      | Some val => set_elt (8 * n) (rd_num + fn * emul) i val ;; ff_fields n emul i addr k (fn + 1)
      end
  end.

Definition VI_LDST_FF (n : Z) : M unit :=
  let* emul := VI_CHECK_LOAD n nf false in
  let* vl := get_vl in
  let* baseAddr := RS1 in
  let* vstart := get_vstart in
  let* _ := for_acc vstart vl false (fun i (early_stop : bool) =>
    if early_stop then ret true else
    let* vstart := get_vstart in
    if vl <=? i then ret false else if i <? vstart then ret false else
    VI_LOOP_ELEMENT_SKIP i false
      (ff_fields n emul i (fun fn => u64 (baseAddr + (i * nf + fn) * n)) (Z.to_nat nf) 0)) in
  vstart_write 0.

(** The loop of the whole-register accesses over the elements [pos .. per_reg)
    of register [i]. *)
Definition whole_register (per_reg i pos : Z) (access : Z -> Z -> M unit) : M unit :=
  for_loop pos per_reg (fun pos =>
    access i pos ;;
    let* vstart := get_vstart in vstart_write (vstart + 1)).

Definition WHOLE (per_reg len : Z) (access : Z -> Z -> M unit) : M unit :=
  let* vstart := get_vstart in
  when (vstart <? len * per_reg)
    (let i := vstart / per_reg in
     let off := vstart mod per_reg in
     when (negb (off =? 0)) (whole_register per_reg i off access) ;;
     for_loop (if off =? 0 then i else i + 1) len (fun i => whole_register per_reg i 0 access)) ;;
  vstart_write 0.

Definition VI_LD_WHOLE (n : Z) : M unit :=
  require_vector_novtype ;;
  require (n * 8 <=? ELEN) ;;
  let* baseAddr := RS1 in
  let len := Insn.v_nf insn + 1 in
  require_align rd_num len ;;
  WHOLE (vlenb / n) len (fun i pos =>
    let* vstart := get_vstart in
    let* val := load_u n (u64 (baseAddr + vstart * n)) in
    set_elt (8 * n) (rd_num + i) pos val).

Definition VI_ST_WHOLE : M unit :=
  require_vector_novtype ;;
  let* baseAddr := RS1 in
  let len := Insn.v_nf insn + 1 in
  require_align rd_num len ;;
  WHOLE vlenb len (fun i pos =>
    let* val := elt 8 (rd_num + i) pos in
    let* vstart := get_vstart in
    store_n 1 (u64 (baseAddr + vstart)) val).

(** * The instructions *)

Definition insn_vl1re16_v : M unit := VI_LD_WHOLE 2.
Definition insn_vl1re32_v : M unit := VI_LD_WHOLE 4.
Definition insn_vl1re64_v : M unit := VI_LD_WHOLE 8.
Definition insn_vl1re8_v : M unit := VI_LD_WHOLE 1.
Definition insn_vl2re16_v : M unit := VI_LD_WHOLE 2.
Definition insn_vl2re32_v : M unit := VI_LD_WHOLE 4.
Definition insn_vl2re64_v : M unit := VI_LD_WHOLE 8.
Definition insn_vl2re8_v : M unit := VI_LD_WHOLE 1.
Definition insn_vl4re16_v : M unit := VI_LD_WHOLE 2.
Definition insn_vl4re32_v : M unit := VI_LD_WHOLE 4.
Definition insn_vl4re64_v : M unit := VI_LD_WHOLE 8.
Definition insn_vl4re8_v : M unit := VI_LD_WHOLE 1.
Definition insn_vl8re16_v : M unit := VI_LD_WHOLE 2.
Definition insn_vl8re32_v : M unit := VI_LD_WHOLE 4.
Definition insn_vl8re64_v : M unit := VI_LD_WHOLE 8.
Definition insn_vl8re8_v : M unit := VI_LD_WHOLE 1.
Definition insn_vle16_v : M unit := VI_LD unit_stride segment_offset 2 false.
Definition insn_vle16ff_v : M unit := VI_LDST_FF 2.
Definition insn_vle32_v : M unit := VI_LD unit_stride segment_offset 4 false.
Definition insn_vle32ff_v : M unit := VI_LDST_FF 4.
Definition insn_vle64_v : M unit := VI_LD unit_stride segment_offset 8 false.
Definition insn_vle64ff_v : M unit := VI_LDST_FF 8.
Definition insn_vle8_v : M unit := VI_LD unit_stride segment_offset 1 false.
Definition insn_vle8ff_v : M unit := VI_LDST_FF 1.
Definition insn_vlm_v : M unit := VI_LD unit_stride segment_offset 1 true.
Definition insn_vloxei16_v : M unit := VI_LD_INDEX 16 true.
Definition insn_vloxei32_v : M unit := VI_LD_INDEX 32 true.
Definition insn_vloxei64_v : M unit := VI_LD_INDEX 64 true.
Definition insn_vloxei8_v : M unit := VI_LD_INDEX 8 true.
Definition insn_vlse16_v : M unit := VI_LD rs2_stride field_offset 2 false.
Definition insn_vlse32_v : M unit := VI_LD rs2_stride field_offset 4 false.
Definition insn_vlse64_v : M unit := VI_LD rs2_stride field_offset 8 false.
Definition insn_vlse8_v : M unit := VI_LD rs2_stride field_offset 1 false.
Definition insn_vluxei16_v : M unit := VI_LD_INDEX 16 true.
Definition insn_vluxei32_v : M unit := VI_LD_INDEX 32 true.
Definition insn_vluxei64_v : M unit := VI_LD_INDEX 64 true.
Definition insn_vluxei8_v : M unit := VI_LD_INDEX 8 true.
Definition insn_vs1r_v : M unit := VI_ST_WHOLE.
Definition insn_vs2r_v : M unit := VI_ST_WHOLE.
Definition insn_vs4r_v : M unit := VI_ST_WHOLE.
Definition insn_vs8r_v : M unit := VI_ST_WHOLE.
Definition insn_vse16_v : M unit := VI_ST unit_stride segment_offset 2 false.
Definition insn_vse32_v : M unit := VI_ST unit_stride segment_offset 4 false.
Definition insn_vse64_v : M unit := VI_ST unit_stride segment_offset 8 false.
Definition insn_vse8_v : M unit := VI_ST unit_stride segment_offset 1 false.
Definition insn_vsm_v : M unit := VI_ST unit_stride segment_offset 1 true.
Definition insn_vsoxei16_v : M unit := VI_ST_INDEX 16 true.
Definition insn_vsoxei32_v : M unit := VI_ST_INDEX 32 true.
Definition insn_vsoxei64_v : M unit := VI_ST_INDEX 64 true.
Definition insn_vsoxei8_v : M unit := VI_ST_INDEX 8 true.
Definition insn_vsse16_v : M unit := VI_ST rs2_stride field_offset 2 false.
Definition insn_vsse32_v : M unit := VI_ST rs2_stride field_offset 4 false.
Definition insn_vsse64_v : M unit := VI_ST rs2_stride field_offset 8 false.
Definition insn_vsse8_v : M unit := VI_ST rs2_stride field_offset 1 false.
Definition insn_vsuxei16_v : M unit := VI_ST_INDEX 16 true.
Definition insn_vsuxei32_v : M unit := VI_ST_INDEX 32 true.
Definition insn_vsuxei64_v : M unit := VI_ST_INDEX 64 true.
Definition insn_vsuxei8_v : M unit := VI_ST_INDEX 8 true.

End memory.
