(* ===== verification/InsnsV.v ===== *)
(** The integer, mask, permutation and configuration instructions of the vector
    unit, and the element-wise ones of Zvbb, Zvbc and the dot-product
    extensions: each [insn_<name>] is the body of [riscv/insns/<name>.h].

    A body of a loop gives the value assigned to [vd], [a] being its first
    operand ([vs1], [rs1] or an immediate).  Where it computes in a type wider than
    the element the model computes in integers, and [set_elt] keeps the low
    bits, as the assignment does. *)

From S2P Require Import Prelude IntArith Decode Encoding IsaExt Trap Hart Pmp Csr CsrFile CsrInit Mmu Macros.
From S2P Require Import InsnsInt InsnsMem Vector VMacros.

Section instructions.
Context `{!config, !simif, !trigger_module, !insn_ctx}.

(** The predicates of [zvk_ext_macros.h]. *)
Definition require_zvbb : M unit := require_vector true ;; require_extension EXT_ZVBB.
Definition require_zvbc : M unit := require_vector true ;; require_extension EXT_ZVBC.

(** * Addition and subtraction *)

Definition insn_vaadd_vv : M unit := VI_VV_LOOP_AVG Z.add.
Definition insn_vaadd_vx : M unit := VI_VX_LOOP_AVG Z.add.
Definition insn_vaaddu_vv : M unit := VI_VV_ULOOP_AVG Z.add.
Definition insn_vaaddu_vx : M unit := VI_VX_ULOOP_AVG Z.add.
Definition insn_vadc_vim : M unit :=
  VI_LOOP_WITH_CARRY false carry_simm5 (fun _ mask carry a vs2 => (a .& mask) + (vs2 .& mask) + carry).
Definition insn_vadc_vvm : M unit :=
  VI_LOOP_WITH_CARRY true carry_vs1 (fun _ mask carry a vs2 => (a .& mask) + (vs2 .& mask) + carry).
Definition insn_vadc_vxm : M unit :=
  VI_LOOP_WITH_CARRY false carry_rs1 (fun _ mask carry a vs2 => (a .& mask) + (vs2 .& mask) + carry).
Definition insn_vadd_vi : M unit := VI_VI_LOOP (fun _ _ a vs2 => ret (a + vs2)).
Definition insn_vadd_vv : M unit := VI_VV_LOOP (fun _ _ a vs2 => ret (a + vs2)).
Definition insn_vadd_vx : M unit := VI_VX_LOOP (fun _ _ a vs2 => ret (a + vs2)).
Definition insn_vasub_vv : M unit := VI_VV_LOOP_AVG Z.sub.
Definition insn_vasub_vx : M unit := VI_VX_LOOP_AVG Z.sub.
Definition insn_vasubu_vv : M unit := VI_VV_ULOOP_AVG Z.sub.
Definition insn_vasubu_vx : M unit := VI_VX_ULOOP_AVG Z.sub.
Definition insn_vrsub_vi : M unit := VI_VI_LOOP (fun _ _ a vs2 => ret (a - vs2)).
Definition insn_vrsub_vx : M unit := VI_VX_LOOP (fun _ _ a vs2 => ret (a - vs2)).
Definition insn_vsbc_vvm : M unit :=
  VI_LOOP_WITH_CARRY true carry_vs1 (fun _ mask carry a vs2 => (vs2 .& mask) - (a .& mask) - carry).
Definition insn_vsbc_vxm : M unit :=
  VI_LOOP_WITH_CARRY false carry_rs1 (fun _ mask carry a vs2 => (vs2 .& mask) - (a .& mask) - carry).
Definition insn_vsub_vv : M unit := VI_VV_LOOP (fun _ _ a vs2 => ret (vs2 - a)).
Definition insn_vsub_vx : M unit := VI_VX_LOOP (fun _ _ a vs2 => ret (vs2 - a)).

(** * Carries *)

Definition insn_vmadc_vim : M unit :=
  VI_LOOP_CARRY false carry_simm5 (fun sew mask carry a vs2 =>
    Z.shiftr ((a .& mask) + (vs2 .& mask) + carry) sew .& 1).
Definition insn_vmadc_vvm : M unit :=
  VI_LOOP_CARRY true carry_vs1 (fun sew mask carry a vs2 =>
    Z.shiftr ((a .& mask) + (vs2 .& mask) + carry) sew .& 1).
Definition insn_vmadc_vxm : M unit :=
  VI_LOOP_CARRY false carry_rs1 (fun sew mask carry a vs2 =>
    Z.shiftr ((a .& mask) + (vs2 .& mask) + carry) sew .& 1).
Definition insn_vmsbc_vvm : M unit :=
  VI_LOOP_CARRY true carry_vs1 (fun sew mask carry a vs2 =>
    Z.shiftr ((vs2 .& mask) - (a .& mask) - carry) sew .& 1).
Definition insn_vmsbc_vxm : M unit :=
  VI_LOOP_CARRY false carry_rs1 (fun sew mask carry a vs2 =>
    Z.shiftr ((vs2 .& mask) - (a .& mask) - carry) sew .& 1).

(** * Bitwise operations and shifts *)

Definition insn_vand_vi : M unit := VI_VI_LOOP (fun _ _ a vs2 => ret (a .& vs2)).
Definition insn_vand_vv : M unit := VI_VV_LOOP (fun _ _ a vs2 => ret (a .& vs2)).
Definition insn_vand_vx : M unit := VI_VX_LOOP (fun _ _ a vs2 => ret (a .& vs2)).
Definition insn_vandn_vv : M unit := require_zvbb ;; VI_VV_LOOP (fun _ _ a vs2 => ret (vs2 .& Z.lnot a)).
Definition insn_vandn_vx : M unit := require_zvbb ;; VI_VX_LOOP (fun _ _ a vs2 => ret (vs2 .& Z.lnot a)).
Definition insn_vnsra_wi : M unit :=
  VI_VI_LOOP_NSHIFT (fun sew a _ vs2 => ret (Z.shiftr vs2 (a .& (sew * 2 - 1)))).
Definition insn_vnsra_wv : M unit :=
  VI_VV_LOOP_NSHIFT (fun sew a _ vs2 => ret (Z.shiftr vs2 (a .& (sew * 2 - 1)))).
Definition insn_vnsra_wx : M unit :=
  VI_VX_LOOP_NSHIFT (fun sew a _ vs2 => ret (Z.shiftr vs2 (a .& (sew * 2 - 1)))).
Definition insn_vnsrl_wi : M unit :=
  VI_VI_LOOP_NSHIFT (fun sew a vs2_u _ => ret (Z.shiftr vs2_u (a .& (sew * 2 - 1)))).
Definition insn_vnsrl_wv : M unit :=
  VI_VV_LOOP_NSHIFT (fun sew a vs2_u _ => ret (Z.shiftr vs2_u (a .& (sew * 2 - 1)))).
Definition insn_vnsrl_wx : M unit :=
  VI_VX_LOOP_NSHIFT (fun sew a vs2_u _ => ret (Z.shiftr vs2_u (a .& (sew * 2 - 1)))).
Definition insn_vor_vi : M unit := VI_VI_LOOP (fun _ _ a vs2 => ret (a .| vs2)).
Definition insn_vor_vv : M unit := VI_VV_LOOP (fun _ _ a vs2 => ret (a .| vs2)).
Definition insn_vor_vx : M unit := VI_VX_LOOP (fun _ _ a vs2 => ret (a .| vs2)).
Definition insn_vsll_vi : M unit := VI_VI_ULOOP (fun sew _ a vs2 => ret (Z.shiftl vs2 (a .& (sew - 1)))).
Definition insn_vsll_vv : M unit := VI_VV_ULOOP (fun sew _ a vs2 => ret (Z.shiftl vs2 (a .& (sew - 1)))).
Definition insn_vsll_vx : M unit := VI_VX_ULOOP (fun sew _ a vs2 => ret (Z.shiftl vs2 (a .& (sew - 1)))).
Definition insn_vsra_vi : M unit :=
  VI_VI_LOOP (fun sew _ _ vs2 => ret (Z.shiftr vs2 (Insn.v_zimm5 insn .& (sew - 1)))).
Definition insn_vsra_vv : M unit := VI_VV_LOOP (fun sew _ a vs2 => ret (Z.shiftr vs2 (a .& (sew - 1)))).
Definition insn_vsra_vx : M unit := VI_VX_LOOP (fun sew _ a vs2 => ret (Z.shiftr vs2 (a .& (sew - 1)))).
Definition insn_vsrl_vi : M unit := VI_VI_ULOOP (fun sew _ a vs2 => ret (Z.shiftr vs2 (a .& (sew - 1)))).
Definition insn_vsrl_vv : M unit := VI_VV_ULOOP (fun sew _ a vs2 => ret (Z.shiftr vs2 (a .& (sew - 1)))).
Definition insn_vsrl_vx : M unit := VI_VX_ULOOP (fun sew _ a vs2 => ret (Z.shiftr vs2 (a .& (sew - 1)))).
Definition insn_vxor_vi : M unit := VI_VI_LOOP (fun _ _ a vs2 => ret (a .^ vs2)).
Definition insn_vxor_vv : M unit := VI_VV_LOOP (fun _ _ a vs2 => ret (a .^ vs2)).
Definition insn_vxor_vx : M unit := VI_VX_LOOP (fun _ _ a vs2 => ret (a .^ vs2)).

(** * Masks *)

Definition insn_vmand_mm : M unit := VI_LOOP_MASK (fun vs2 vs1 => vs2 && vs1).
Definition insn_vmandn_mm : M unit := VI_LOOP_MASK (fun vs2 vs1 => vs2 && negb vs1).
Definition insn_vmnand_mm : M unit := VI_LOOP_MASK (fun vs2 vs1 => negb (vs2 && vs1)).
Definition insn_vmnor_mm : M unit := VI_LOOP_MASK (fun vs2 vs1 => negb (vs2 || vs1)).
Definition insn_vmor_mm : M unit := VI_LOOP_MASK (fun vs2 vs1 => vs2 || vs1).
Definition insn_vmorn_mm : M unit := VI_LOOP_MASK (fun vs2 vs1 => vs2 || negb vs1).
Definition insn_vmxnor_mm : M unit := VI_LOOP_MASK (fun vs2 vs1 => negb (xorb vs2 vs1)).
Definition insn_vmxor_mm : M unit := VI_LOOP_MASK (fun vs2 vs1 => xorb vs2 vs1).

(** * Comparisons, minima and maxima *)

(** [insn.v_simm5() & (UINT64_MAX >> (64 - vsew))]. *)
Definition simm5_masked (sew : Z) : Z := u64 (Insn.v_simm5 insn) .& Z.shiftr UINT64_MAX (64 - sew).
Definition vmax_op : op3 := fun _ _ a vs2 => ret (if vs2 <=? a then a else vs2).
Definition vmin_op : op3 := fun _ _ a vs2 => ret (if a <=? vs2 then a else vs2).
Definition insn_vmax_vv : M unit := VI_VV_LOOP vmax_op.
Definition insn_vmax_vx : M unit := VI_VX_LOOP vmax_op.
Definition insn_vmaxu_vv : M unit := VI_VV_ULOOP vmax_op.
Definition insn_vmaxu_vx : M unit := VI_VX_ULOOP vmax_op.
Definition insn_vmin_vv : M unit := VI_VV_LOOP vmin_op.
Definition insn_vmin_vx : M unit := VI_VX_LOOP vmin_op.
Definition insn_vminu_vv : M unit := VI_VV_ULOOP vmin_op.
Definition insn_vminu_vx : M unit := VI_VX_ULOOP vmin_op.
Definition insn_vmseq_vi : M unit := VI_VI_LOOP_CMP (fun _ a vs2 => a =? vs2).
Definition insn_vmseq_vv : M unit := VI_VV_LOOP_CMP (fun _ a vs2 => vs2 =? a).
Definition insn_vmseq_vx : M unit := VI_VX_LOOP_CMP (fun _ a vs2 => a =? vs2).
Definition insn_vmsgt_vi : M unit := VI_VI_LOOP_CMP (fun _ a vs2 => a <? vs2).
Definition insn_vmsgt_vx : M unit := VI_VX_LOOP_CMP (fun _ a vs2 => a <? vs2).
Definition insn_vmsgtu_vi : M unit := VI_VI_ULOOP_CMP (fun sew vs2 => simm5_masked sew <? vs2).
Definition insn_vmsgtu_vx : M unit := VI_VX_ULOOP_CMP (fun _ a vs2 => a <? vs2).
Definition insn_vmsle_vi : M unit := VI_VI_LOOP_CMP (fun _ a vs2 => vs2 <=? a).
Definition insn_vmsle_vv : M unit := VI_VV_LOOP_CMP (fun _ a vs2 => vs2 <=? a).
Definition insn_vmsle_vx : M unit := VI_VX_LOOP_CMP (fun _ a vs2 => vs2 <=? a).
Definition insn_vmsleu_vi : M unit := VI_VI_ULOOP_CMP (fun sew vs2 => vs2 <=? simm5_masked sew).
Definition insn_vmsleu_vv : M unit := VI_VV_ULOOP_CMP (fun _ a vs2 => vs2 <=? a).
Definition insn_vmsleu_vx : M unit := VI_VX_ULOOP_CMP (fun _ a vs2 => vs2 <=? a).
Definition insn_vmslt_vv : M unit := VI_VV_LOOP_CMP (fun _ a vs2 => vs2 <? a).
Definition insn_vmslt_vx : M unit := VI_VX_LOOP_CMP (fun _ a vs2 => vs2 <? a).
Definition insn_vmsltu_vv : M unit := VI_VV_ULOOP_CMP (fun _ a vs2 => vs2 <? a).
Definition insn_vmsltu_vx : M unit := VI_VX_ULOOP_CMP (fun _ a vs2 => vs2 <? a).
Definition insn_vmsne_vi : M unit := VI_VI_LOOP_CMP (fun _ a vs2 => negb (vs2 =? a)).
Definition insn_vmsne_vv : M unit := VI_VV_LOOP_CMP (fun _ a vs2 => negb (vs2 =? a)).
Definition insn_vmsne_vx : M unit := VI_VX_LOOP_CMP (fun _ a vs2 => negb (vs2 =? a)).

(** * Multiplication and division *)

Definition vdiv_op : op3 := fun sew _ a vs2 => ret (
  if a =? 0 then -1
  else if (vs2 =? Z.shiftr INT64_MIN (64 - sew)) && (a =? -1) then vs2 else Z.quot vs2 a).
Definition vdivu_op : op3 := fun _ _ a vs2 => ret (if a =? 0 then -1 else vs2 / a).
Definition vrem_op : op3 := fun sew _ a vs2 => ret (
  if a =? 0 then vs2
  else if (vs2 =? - Z.shiftl 1 (sew - 1)) && (a =? -1) then 0 else Z.rem vs2 a).
Definition vremu_op : op3 := fun _ _ a vs2 => ret (if a =? 0 then vs2 else vs2 mod a).
Definition insn_vdiv_vv : M unit := VI_VV_LOOP vdiv_op.
Definition insn_vdiv_vx : M unit := VI_VX_LOOP vdiv_op.
Definition insn_vdivu_vv : M unit := VI_VV_ULOOP vdivu_op.
Definition insn_vdivu_vx : M unit := VI_VX_ULOOP vdivu_op.
Definition insn_vmacc_vv : M unit := VI_VV_LOOP (fun _ vd a vs2 => ret (a * vs2 + vd)).
Definition insn_vmacc_vx : M unit := VI_VX_LOOP (fun _ vd a vs2 => ret (a * vs2 + vd)).
Definition insn_vmadd_vv : M unit := VI_VV_LOOP (fun _ vd a vs2 => ret (vd * a + vs2)).
Definition insn_vmadd_vx : M unit := VI_VX_LOOP (fun _ vd a vs2 => ret (vd * a + vs2)).
Definition insn_vmul_vv : M unit := VI_VV_LOOP (fun _ _ a vs2 => ret (vs2 * a)).
Definition insn_vmul_vx : M unit := VI_VX_LOOP (fun _ _ a vs2 => ret (vs2 * a)).
Definition insn_vmulh_vv : M unit := VI_VV_LOOP (fun sew _ a vs2 => ret (Z.shiftr (vs2 * a) sew)).
Definition insn_vmulh_vx : M unit := VI_VX_LOOP (fun sew _ a vs2 => ret (Z.shiftr (vs2 * a) sew)).
Definition insn_vmulhsu_vv : M unit := VI_VV_SU_LOOP (fun sew _ a vs2 => ret (Z.shiftr (vs2 * a) sew)).
Definition insn_vmulhsu_vx : M unit := VI_VX_SU_LOOP (fun sew _ a vs2 => ret (Z.shiftr (vs2 * a) sew)).
Definition insn_vmulhu_vv : M unit := VI_VV_ULOOP (fun sew _ a vs2 => ret (Z.shiftr (vs2 * a) sew)).
Definition insn_vmulhu_vx : M unit := VI_VX_ULOOP (fun sew _ a vs2 => ret (Z.shiftr (vs2 * a) sew)).
Definition insn_vnmsac_vv : M unit := VI_VV_LOOP (fun _ vd a vs2 => ret (- (a * vs2) + vd)).
Definition insn_vnmsac_vx : M unit := VI_VX_LOOP (fun _ vd a vs2 => ret (- (a * vs2) + vd)).
Definition insn_vnmsub_vv : M unit := VI_VV_LOOP (fun _ vd a vs2 => ret (- (vd * a) + vs2)).
Definition insn_vnmsub_vx : M unit := VI_VX_LOOP (fun _ vd a vs2 => ret (- (vd * a) + vs2)).
Definition insn_vrem_vv : M unit := VI_VV_LOOP vrem_op.
Definition insn_vrem_vx : M unit := VI_VX_LOOP vrem_op.
Definition insn_vremu_vv : M unit := VI_VV_ULOOP vremu_op.
Definition insn_vremu_vx : M unit := VI_VX_ULOOP vremu_op.

(** * Merges and moves *)

Definition insn_vmerge_vim : M unit :=
  VI_VI_MERGE_LOOP (fun use_first a vs2 => ret (if use_first then a else vs2)).
Definition insn_vmerge_vvm : M unit :=
  VI_VV_MERGE_LOOP (fun use_first a vs2 => ret (if use_first then a else vs2)).
Definition insn_vmerge_vxm : M unit :=
  VI_VX_MERGE_LOOP (fun use_first a vs2 => ret (if use_first then a else vs2)).
Definition insn_vmv_v_i : M unit := VI_VI_MERGE_LOOP (fun _ a _ => ret a).
Definition insn_vmv_v_v : M unit := VI_VV_MERGE_LOOP (fun _ a _ => ret a).
Definition insn_vmv_v_x : M unit := VI_VX_MERGE_LOOP (fun _ a _ => ret a).

(** * Reductions *)

Definition insn_vredand_vs : M unit := VI_VV_LOOP_REDUCTION (fun res vs2 => res .& vs2).
Definition insn_vredmax_vs : M unit := VI_VV_LOOP_REDUCTION (fun res vs2 => if vs2 <=? res then res else vs2).
Definition insn_vredmaxu_vs : M unit := VI_VV_ULOOP_REDUCTION (fun res vs2 => if vs2 <=? res then res else vs2).
Definition insn_vredmin_vs : M unit := VI_VV_LOOP_REDUCTION (fun res vs2 => if res <=? vs2 then res else vs2).
Definition insn_vredminu_vs : M unit := VI_VV_ULOOP_REDUCTION (fun res vs2 => if res <=? vs2 then res else vs2).
Definition insn_vredor_vs : M unit := VI_VV_LOOP_REDUCTION (fun res vs2 => res .| vs2).
Definition insn_vredsum_vs : M unit := VI_VV_LOOP_REDUCTION (fun res vs2 => res + vs2).
Definition insn_vredxor_vs : M unit := VI_VV_LOOP_REDUCTION (fun res vs2 => res .^ vs2).
Definition insn_vwredsum_vs : M unit := VI_VV_LOOP_WIDE_REDUCTION (fun res vs2 => res + vs2).
Definition insn_vwredsumu_vs : M unit := VI_VV_ULOOP_WIDE_REDUCTION (fun res vs2 => res + vs2).

(** * Widening *)

Definition insn_vsext_vf2 : M unit := VI_VV_EXT 2 true.
Definition insn_vsext_vf4 : M unit := VI_VV_EXT 4 true.
Definition insn_vsext_vf8 : M unit := VI_VV_EXT 8 true.
Definition insn_vwadd_vv : M unit :=
  VI_CHECK_DSS true ;; VI_VV_LOOP_WIDEN (fun sew i a vs2 => VI_WIDE_OP_AND_ASSIGN true false Z.add sew i vs2 a).
Definition insn_vwadd_vx : M unit :=
  VI_CHECK_DSS false ;;
  VI_VX_LOOP_WIDEN (fun sew i a vs2 => VI_WIDE_OP_AND_ASSIGN true false Z.add sew i vs2 a).
Definition insn_vwadd_wv : M unit :=
  VI_CHECK_DDS true ;; VI_VV_LOOP_WIDEN (fun sew i a _ => VI_WIDE_WVX_OP true Z.add sew i a).
Definition insn_vwadd_wx : M unit :=
  VI_CHECK_DDS false ;; VI_VX_LOOP_WIDEN (fun sew i a _ => VI_WIDE_WVX_OP true Z.add sew i a).
Definition insn_vwaddu_vv : M unit :=
  VI_CHECK_DSS true ;;
  VI_VV_LOOP_WIDEN (fun sew i a vs2 => VI_WIDE_OP_AND_ASSIGN false false Z.add sew i vs2 a).
Definition insn_vwaddu_vx : M unit :=
  VI_CHECK_DSS false ;;
  VI_VX_LOOP_WIDEN (fun sew i a vs2 => VI_WIDE_OP_AND_ASSIGN false false Z.add sew i vs2 a).
Definition insn_vwaddu_wv : M unit :=
  VI_CHECK_DDS true ;; VI_VV_LOOP_WIDEN (fun sew i a _ => VI_WIDE_WVX_OP false Z.add sew i a).
Definition insn_vwaddu_wx : M unit :=
  VI_CHECK_DDS false ;; VI_VX_LOOP_WIDEN (fun sew i a _ => VI_WIDE_WVX_OP false Z.add sew i a).
Definition insn_vwmacc_vv : M unit :=
  VI_CHECK_DSS true ;; VI_VV_LOOP_WIDEN (fun sew i a vs2 => VI_WIDE_OP_AND_ASSIGN true true Z.mul sew i vs2 a).
Definition insn_vwmacc_vx : M unit :=
  VI_CHECK_DSS false ;; VI_VX_LOOP_WIDEN (fun sew i a vs2 => VI_WIDE_OP_AND_ASSIGN true true Z.mul sew i vs2 a).
Definition insn_vwmaccsu_vv : M unit :=
  VI_CHECK_DSS true ;;
  VI_VV_LOOP_WIDEN (fun sew i a vs2 => VI_WIDE_OP_AND_ASSIGN_MIX true false true true Z.mul sew i vs2 a).
Definition insn_vwmaccsu_vx : M unit :=
  VI_CHECK_DSS false ;;
  VI_VX_LOOP_WIDEN (fun sew i a vs2 => VI_WIDE_OP_AND_ASSIGN_MIX true false true true Z.mul sew i vs2 a).
Definition insn_vwmaccu_vv : M unit :=
  VI_CHECK_DSS true ;; VI_VV_LOOP_WIDEN (fun sew i a vs2 => VI_WIDE_OP_AND_ASSIGN false true Z.mul sew i vs2 a).
Definition insn_vwmaccu_vx : M unit :=
  VI_CHECK_DSS false ;;
  VI_VX_LOOP_WIDEN (fun sew i a vs2 => VI_WIDE_OP_AND_ASSIGN false true Z.mul sew i vs2 a).
Definition insn_vwmaccus_vx : M unit :=
  VI_CHECK_DSS false ;;
  VI_VX_LOOP_WIDEN (fun sew i a vs2 => VI_WIDE_OP_AND_ASSIGN_MIX true true false true Z.mul sew i vs2 a).
Definition insn_vwmul_vv : M unit :=
  VI_CHECK_DSS true ;; VI_VV_LOOP_WIDEN (fun sew i a vs2 => VI_WIDE_OP_AND_ASSIGN true false Z.mul sew i vs2 a).
Definition insn_vwmul_vx : M unit :=
  VI_CHECK_DSS false ;;
  VI_VX_LOOP_WIDEN (fun sew i a vs2 => VI_WIDE_OP_AND_ASSIGN true false Z.mul sew i vs2 a).
Definition insn_vwmulsu_vv : M unit :=
  VI_CHECK_DSS true ;;
  VI_VV_LOOP_WIDEN (fun sew i a vs2 => VI_WIDE_OP_AND_ASSIGN_MIX false true false false Z.mul sew i vs2 a).
Definition insn_vwmulsu_vx : M unit :=
  VI_CHECK_DSS false ;;
  VI_VX_LOOP_WIDEN (fun sew i a vs2 => VI_WIDE_OP_AND_ASSIGN_MIX false true false false Z.mul sew i vs2 a).
Definition insn_vwmulu_vv : M unit :=
  VI_CHECK_DSS true ;;
  VI_VV_LOOP_WIDEN (fun sew i a vs2 => VI_WIDE_OP_AND_ASSIGN false false Z.mul sew i vs2 a).
Definition insn_vwmulu_vx : M unit :=
  VI_CHECK_DSS false ;;
  VI_VX_LOOP_WIDEN (fun sew i a vs2 => VI_WIDE_OP_AND_ASSIGN false false Z.mul sew i vs2 a).
Definition insn_vwsub_vv : M unit :=
  VI_CHECK_DSS true ;; VI_VV_LOOP_WIDEN (fun sew i a vs2 => VI_WIDE_OP_AND_ASSIGN true false Z.sub sew i vs2 a).
Definition insn_vwsub_vx : M unit :=
  VI_CHECK_DSS false ;;
  VI_VX_LOOP_WIDEN (fun sew i a vs2 => VI_WIDE_OP_AND_ASSIGN true false Z.sub sew i vs2 a).
Definition insn_vwsub_wv : M unit :=
  VI_CHECK_DDS true ;; VI_VV_LOOP_WIDEN (fun sew i a _ => VI_WIDE_WVX_OP true Z.sub sew i a).
Definition insn_vwsub_wx : M unit :=
  VI_CHECK_DDS false ;; VI_VX_LOOP_WIDEN (fun sew i a _ => VI_WIDE_WVX_OP true Z.sub sew i a).
Definition insn_vwsubu_vv : M unit :=
  VI_CHECK_DSS true ;;
  VI_VV_LOOP_WIDEN (fun sew i a vs2 => VI_WIDE_OP_AND_ASSIGN false false Z.sub sew i vs2 a).
Definition insn_vwsubu_vx : M unit :=
  VI_CHECK_DSS false ;;
  VI_VX_LOOP_WIDEN (fun sew i a vs2 => VI_WIDE_OP_AND_ASSIGN false false Z.sub sew i vs2 a).
Definition insn_vwsubu_wv : M unit :=
  VI_CHECK_DDS true ;; VI_VV_LOOP_WIDEN (fun sew i a _ => VI_WIDE_WVX_OP false Z.sub sew i a).
Definition insn_vwsubu_wx : M unit :=
  VI_CHECK_DDS false ;; VI_VX_LOOP_WIDEN (fun sew i a _ => VI_WIDE_WVX_OP false Z.sub sew i a).
Definition insn_vzext_vf2 : M unit := VI_VV_EXT 2 false.
Definition insn_vzext_vf4 : M unit := VI_VV_EXT 4 false.
Definition insn_vzext_vf8 : M unit := VI_VV_EXT 8 false.

(** * Saturation, rounding and narrowing *)

Definition int_max (sew : Z) : Z := Z.shiftr 0x7FFFFFFFFFFFFFFF (64 - sew).
Definition int_min (sew : Z) : Z := Z.shiftr INT64_MIN (64 - sew).

(** [bool sat = false; ... vd = op(vs2, first, sat); P_SET_OV(sat);] *)
Definition saturating (op : Z -> Z -> Z -> Z * bool) : op3 := fun sew _ a vs2 =>
  let '(vd, sat) := op sew vs2 a in P_SET_OV sat ;; ret vd.
Definition insn_vsadd_vi : M unit := VI_VI_LOOP (saturating sat_add).
Definition insn_vsadd_vv : M unit := VI_VV_LOOP (saturating sat_add).
Definition insn_vsadd_vx : M unit := VI_VX_LOOP (saturating sat_add).
Definition insn_vssub_vv : M unit := VI_VV_LOOP (saturating sat_sub).
Definition insn_vssub_vx : M unit := VI_VX_LOOP (saturating sat_sub).
Definition insn_vssubu_vv : M unit := VI_VV_ULOOP (saturating sat_subu).
Definition insn_vssubu_vx : M unit := VI_VX_ULOOP (saturating sat_subu).

Definition vsaddu_op : op3 := fun sew _ a vs2 =>
  let vd := wrap sew (vs2 + a) in
  let sat := vd <? vs2 in
  P_SET_OV sat ;; ret (vd .| - b2z sat).
Definition insn_vsaddu_vi : M unit := VI_VI_ULOOP (fun sew vd _ vs2 => vsaddu_op sew vd (simm5_masked sew) vs2).
Definition insn_vsaddu_vv : M unit := VI_VV_ULOOP vsaddu_op.
Definition insn_vsaddu_vx : M unit := VI_VX_ULOOP vsaddu_op.

Definition vsmul_op : op3 := fun sew _ a vs2 =>
  let* xrm := gets get_vround_mode in
  let overflow := (a =? vs2) && (a =? int_min sew) in
  let result := Z.shiftr (INT_ROUNDING (a * vs2) xrm (sew - 1)) (sew - 1) in
  if overflow then P_SET_OV true ;; ret (int_max sew) else ret result.
Definition insn_vsmul_vv : M unit := VI_VV_LOOP vsmul_op.
Definition insn_vsmul_vx : M unit := VI_VX_LOOP vsmul_op.

Definition scaling_shift : op3 := fun sew _ a vs2 =>
  let* xrm := gets get_vround_mode in
  let sh := a .& (sew - 1) in
  ret (Z.shiftr (INT_ROUNDING vs2 xrm sh) sh).
Definition insn_vssra_vi : M unit := VI_VI_LOOP (fun sew vd _ vs2 => scaling_shift sew vd (Insn.v_zimm5 insn) vs2).
Definition insn_vssra_vv : M unit := VI_VV_LOOP scaling_shift.
Definition insn_vssra_vx : M unit := VI_VX_LOOP scaling_shift.
Definition insn_vssrl_vi : M unit := VI_VI_ULOOP scaling_shift.
Definition insn_vssrl_vv : M unit := VI_VV_ULOOP scaling_shift.
Definition insn_vssrl_vx : M unit := VI_VX_ULOOP scaling_shift.

Definition vnclip_op : narrow := fun sew a _ vs2 =>
  let* xrm := gets get_vround_mode in
  let shift := a .& (sew * 2 - 1) in
  let result := Z.shiftr (INT_ROUNDING vs2 xrm shift) shift in
  if result <? int_min sew then P_SET_OV true ;; ret (int_min sew)
  else if int_max sew <? result then P_SET_OV true ;; ret (int_max sew)
  else ret result.
Definition insn_vnclip_wi : M unit := VI_VI_LOOP_NARROW vnclip_op.
Definition insn_vnclip_wv : M unit := VI_VV_LOOP_NARROW vnclip_op.
Definition insn_vnclip_wx : M unit := VI_VX_LOOP_NARROW vnclip_op.

Definition vnclipu_op : narrow := fun sew a vs2_u _ =>
  let* xrm := gets get_vround_mode in
  let uint_max := Z.shiftr UINT64_MAX (64 - sew) in
  let sign_mask := shl UINT64_MAX sew in
  let shift := a .& (sew * 2 - 1) in
  let result := Z.shiftr (INT_ROUNDING vs2_u xrm shift) shift in
  if z2b (result .& sign_mask) then P_SET_OV true ;; ret uint_max else ret result.
Definition insn_vnclipu_wi : M unit := VI_VI_LOOP_NARROW vnclipu_op.
Definition insn_vnclipu_wv : M unit := VI_VV_LOOP_NARROW vnclipu_op.
Definition insn_vnclipu_wx : M unit := VI_VX_LOOP_NARROW vnclipu_op.

(** * Masks *)

Definition insn_vmadc_vi : M unit := insn_vmadc_vim.
Definition insn_vmadc_vv : M unit := insn_vmadc_vvm.
Definition insn_vmadc_vx : M unit := insn_vmadc_vxm.
Definition insn_vmsbc_vv : M unit := insn_vmsbc_vvm.
Definition insn_vmsbc_vx : M unit := insn_vmsbc_vxm.

Definition require_sew : M unit :=
  let* sew := get_sew in require ((e8 <=? sew) && (sew <=? e64)).
Definition require_vstart_0 : M unit := require_state (fun h => vstart_read h =? 0).

Definition insn_vcpop_m : M unit :=
  require_sew ;; require_vector true ;;
  let* vl := get_vl in
  require_vstart_0 ;;
  let* vstart := get_vstart in
  let* popcount := for_acc vstart vl 0 (fun i popcount =>
    let* vs2_bit := mask_elt rs2_num i in
    let* active := if vs2_bit then if Insn.v_vm insn =? 0 then mask_elt 0 i else ret true else ret false in
    ret (popcount + b2z active)) in
  WRITE_RD (ret popcount).

(** [break] leaves the loop once [pos] is set. *)
Definition insn_vfirst_m : M unit :=
  require_sew ;; require_vector true ;;
  let* vl := get_vl in
  require_vstart_0 ;;
  let* vstart := get_vstart in
  let* pos := for_acc vstart vl None (fun i pos =>
    match pos with
    | Some _ => ret pos
    | None => VI_LOOP_ELEMENT_SKIP i None
                (let* b := mask_elt rs2_num i in ret (if b then Some i else None))
    end) in
  WRITE_RD (ret (default (u64 (-1)) pos)).

(** [vmsbf.m], [vmsif.m] and [vmsof.m]: [res] gives, from [has_one] and the bit of
    [vs2], the bit to write and the new [has_one]. *)
Definition mask_first (res : bool -> bool -> bool * bool) : M unit :=
  require_sew ;; require_vector true ;;
  require_vstart_0 ;;
  require_vm ;; require (negb (rd_num =? rs2_num)) ;;
  let* vl := get_vl in
  let* vstart := get_vstart in
  let* _ := for_acc vstart vl false (fun i has_one =>
    let* vs2_lsb := mask_elt rs2_num i in
    let* do_mask := mask_elt 0 i in
    if (Insn.v_vm insn =? 1) || do_mask then
      let '(r, has_one) := res has_one vs2_lsb in
      set_mask_elt rd_num i r ;; ret has_one
    else ret has_one) in
  ret tt.
Definition insn_vmsbf_m : M unit := mask_first (fun has_one vs2_lsb =>
  if negb has_one && negb vs2_lsb then (true, has_one)
  else if negb has_one && vs2_lsb then (false, true) else (false, has_one)).
Definition insn_vmsif_m : M unit := mask_first (fun has_one vs2_lsb =>
  if negb has_one && negb vs2_lsb then (true, has_one)
  else if negb has_one && vs2_lsb then (true, true) else (false, has_one)).
Definition insn_vmsof_m : M unit := mask_first (fun has_one vs2_lsb =>
  if negb has_one && vs2_lsb then (true, true) else (false, has_one)).

Definition insn_vid_v : M unit :=
  require_sew ;; require_vector true ;;
  let* sew := get_sew in
  let* lmul := get_flmul in
  require_align rd_num (fl_int lmul) ;; require_vm ;;
  let* vl := get_vl in
  let* vstart := get_vstart in
  for_loop vstart vl (fun i => VI_LOOP_ELEMENT_SKIP i tt (set_elt sew rd_num i i)) ;;
  vstart_write 0.

Definition insn_viota_m : M unit :=
  require_sew ;; require_vector true ;;
  let* vl := get_vl in
  let* sew := get_sew in
  require_vstart_0 ;;
  require_vm ;;
  let* lmul := get_flmul in
  require_align rd_num (fl_int lmul) ;;
  require_noover rd_num (fl_int lmul) rs2_num 1 ;;
  let* _ := for_acc 0 vl 0 (fun i cnt =>
    let* do_mask := mask_elt 0 i in
    if (Insn.v_vm insn =? 1) || do_mask then
      let* has_one := mask_elt rs2_num i in
      set_elt sew rd_num i cnt ;; ret (if has_one then cnt + 1 else cnt)
    else ret cnt) in
  ret tt.

(** * Moves and permutations *)

Definition insn_vmv_s_x : M unit :=
  require_vector true ;;
  require (Insn.v_vm insn =? 1) ;;
  require_sew ;;
  let* vl := get_vl in
  let* vstart := get_vstart in
  when ((0 <? vl) && (vstart <? vl))
    (let* sew := get_sew in let* x := RS1 in set_elt sew rd_num 0 x) ;;
  vstart_write 0.

Definition insn_vmv_x_s : M unit :=
  require_vector true ;;
  require (Insn.v_vm insn =? 1) ;;
  let* sew := get_sew in
  assert ((sew =? e8) || (sew =? e16) || (sew =? e32) || (sew =? e64)) ;;
  let* res := elt_s sew rs2_num 0 in
  WRITE_RD (ret (sext_xlen (u64 res))) ;;
  vstart_write 0.

(** [memcpy] between two registers, from byte [off] on. *)
Definition copy_register (vd vs2 off : Z) : M unit :=
  let* d := elt_ref 1 vd off in
  let* s := elt_ref 1 vs2 off in
  VU_modify (fun u => set_reg_bytes d (reg_bytes s (vlenb - off) u) u).
Definition vmvnfr_v : M unit :=
  require_vector true ;;
  let vd := rd_num in
  let vs2 := rs2_num in
  let len := rs1_num + 1 in
  require_align vd len ;; require_align vs2 len ;;
  let size := len * vlenb in
  let* vstart := get_vstart in
  let* sew := get_sew in
  let start := u64 (vstart * Z.shiftr sew 3) in
  when (negb (vd =? vs2) && (start <? size))
    (let i := start / vlenb in
     let off := start mod vlenb in
     when (z2b off) (copy_register (vd + i) (vs2 + i) off) ;;
     for_loop (if z2b off then i + 1 else i) len (fun i => copy_register (vd + i) (vs2 + i) 0)) ;;
  vstart_write 0.
Definition insn_vmv1r_v : M unit := vmvnfr_v.
Definition insn_vmv2r_v : M unit := vmvnfr_v.
Definition insn_vmv4r_v : M unit := vmvnfr_v.
Definition insn_vmv8r_v : M unit := vmvnfr_v.

Definition insn_vcompress_vm : M unit :=
  require any_vector_extensions ;;
  require_vstart_0 ;;
  let* lmul := get_flmul in
  require_align rd_num (fl_int lmul) ;;
  require_align rs2_num (fl_int lmul) ;;
  require (negb (rd_num =? rs2_num)) ;;
  require_noover rd_num (fl_int lmul) rs1_num 1 ;;
  let* _ := VI_GENERAL_LOOP_ACC 0 (fun sew _ i pos =>
    let* m := mask_elt rs1_num i in
    if m then let* x := elt sew rs2_num i in set_elt sew rd_num pos x ;; ret (pos + 1) else ret pos) in
  ret tt.

(** The element [vs2[index]], 0 from [vlmax] on. *)
Definition gather (sew i index : Z) : M unit :=
  let* vlmax := gets (fun h => vlmax (VU h)) in
  let* x := if vlmax <=? index then ret 0 else elt sew rs2_num index in
  set_elt sew rd_num i x.
Definition require_gather : M unit :=
  let* lmul := get_flmul in
  require_align rd_num (fl_int lmul) ;; require_align rs2_num (fl_int lmul).
Definition insn_vrgather_vi : M unit :=
  require_gather ;; require (negb (rd_num =? rs2_num)) ;; require_vm ;;
  VI_LOOP (fun sew _ i => gather sew i (Insn.v_zimm5 insn)).
Definition insn_vrgather_vx : M unit :=
  require_gather ;; require (negb (rd_num =? rs2_num)) ;; require_vm ;;
  let* rs1 := RS1 in
  VI_LOOP (fun sew _ i => gather sew i rs1).
Definition insn_vrgather_vv : M unit :=
  require_gather ;;
  let* lmul := get_flmul in
  require_align rs1_num (fl_int lmul) ;;
  require (negb (rd_num =? rs2_num) && negb (rd_num =? rs1_num)) ;; require_vm ;;
  VI_LOOP (fun sew _ i => let* vs1 := elt sew rs1_num i in gather sew i vs1).
Definition insn_vrgatherei16_vv : M unit :=
  let* lmul := get_flmul in
  let* vsew := get_sew in
  let vemul := 16 * lmul / vsew in
  require ((FL / 8 <=? vemul) && (vemul <=? 8 * FL)) ;;
  require_gather ;;
  require_align rs1_num (fl_int vemul) ;;
  require_noover rd_num (fl_int lmul) rs1_num (fl_int vemul) ;;
  require (negb (rd_num =? rs2_num)) ;; require_vm ;;
  VI_LOOP (fun sew _ i => let* vs1 := elt 16 rs1_num i in gather sew i vs1).

(** [VI_XI_SLIDEDOWN_PARAMS] and [VI_XI_SLIDEUP_PARAMS]: the element the slide
    moves to [vd]. *)
Definition slide_params (sew i from : Z) : M Z :=
  let* _ := elt_s sew rd_num i in elt_s sew rs2_num (u64 from).
Definition insn_vslide1down_vx : M unit :=
  VI_CHECK_SLIDE false ;;
  VI_LOOP (fun sew vl i =>
    let* x := if i =? vl - 1 then RS1 else slide_params sew i (i + 1) in set_elt sew rd_num i x).
Definition insn_vslide1up_vx : M unit :=
  VI_CHECK_SLIDE true ;;
  VI_LOOP (fun sew _ i =>
    let* x := if i =? 0 then RS1 else slide_params sew i (i - 1) in set_elt sew rd_num i x).

Definition slidedown (sh : Z) : M unit :=
  VI_LOOP (fun sew _ i =>
    let* vlmax := gets (fun h => vlmax (VU h)) in
    let is_valid := i + sh <? vlmax in
    let offset := if is_valid then sh else 0 in
    let* vs2 := slide_params sew i (i + offset) in
    set_elt sew rd_num i (if is_valid then vs2 else 0)).
Definition insn_vslidedown_vi : M unit := VI_CHECK_SLIDE false ;; slidedown (Insn.v_zimm5 insn).
Definition insn_vslidedown_vx : M unit := VI_CHECK_SLIDE false ;; let* sh := RS1 in slidedown sh.

Definition slideup (offset : Z) : M unit :=
  VI_LOOP (fun sew _ i =>
    let* vstart := get_vstart in
    when (negb ((vstart <? offset) && (i <? offset)))
      (let* vs2 := slide_params sew i (i - offset) in set_elt sew rd_num i vs2)).
Definition insn_vslideup_vi : M unit := VI_CHECK_SLIDE true ;; slideup (Insn.v_zimm5 insn).
Definition insn_vslideup_vx : M unit := VI_CHECK_SLIDE true ;; let* offset := RS1 in slideup offset.

(** * Configuration *)

Definition insn_vsetvl : M unit :=
  require_vector_novtype ;;
  WRITE_RD (let* a := RS1 in let* b := RS2 in set_vl rd_num rs1_num a b).
Definition insn_vsetvli : M unit :=
  require_vector_novtype ;;
  WRITE_RD (let* a := RS1 in set_vl rd_num rs1_num a (Insn.v_zimm11 insn)).
Definition insn_vsetivli : M unit :=
  require_vector_novtype ;;
  WRITE_RD (set_vl rd_num (-1) rs1_num (Insn.v_zimm10 insn)).

(** * Bit manipulation: Zvbb and Zvbc *)

(** [((x & lo) << n) | ((x & hi) >> n)] *)
Definition swap_bits (x lo hi n : Z) : Z := Z.shiftl (x .& lo) n .| Z.shiftr (x .& hi) n.
Definition brev8_op (x : Z) : Z :=
  let x := swap_bits x 0x5555555555555555 0xAAAAAAAAAAAAAAAA 1 in
  let x := swap_bits x 0x3333333333333333 0xCCCCCCCCCCCCCCCC 2 in
  swap_bits x 0x0F0F0F0F0F0F0F0F 0xF0F0F0F0F0F0F0F0 4.
Definition rev8_op (sew x : Z) : Z :=
  let x := if 8 <? sew then swap_bits x 0x00FF00FF00FF00FF 0xFF00FF00FF00FF00 8 else x in
  let x := if 16 <? sew then swap_bits x 0x0000FFFF0000FFFF 0xFFFF0000FFFF0000 16 else x in
  if 32 <? sew then swap_bits x 0x00000000FFFFFFFF 0xFFFFFFFF00000000 32 else x.
Definition insn_vbrev_v : M unit := require_zvbb ;; VI_V_ULOOP (fun sew vs2 => ret (rev8_op sew (brev8_op vs2))).
Definition insn_vbrev8_v : M unit := require_zvbb ;; VI_V_ULOOP (fun _ vs2 => ret (brev8_op vs2)).
Definition insn_vrev8_v : M unit := require_zvbb ;; VI_V_ULOOP (fun sew vs2 => ret (rev8_op sew vs2)).
Definition insn_vclz_v : M unit := require_zvbb ;;
  VI_V_ULOOP (fun sew vs2 => ret (first_index sew (fun i => z2b (1 .& Z.shiftr vs2 (sew - 1 - i))))).
Definition insn_vctz_v : M unit := require_zvbb ;;
  VI_V_ULOOP (fun sew vs2 => ret (first_index sew (fun i => z2b (1 .& Z.shiftr vs2 i)))).
Definition insn_vcpop_v : M unit := require_zvbb ;;
  VI_V_ULOOP (fun sew vs2 =>
    ret (count_index sew (fun i => z2b (1 .& Z.shiftr vs2 i)))).

Definition vrol_op (sew vs2 amount : Z) : Z :=
  let mask := sew - 1 in
  let lshift := amount .& mask in
  let rshift := u64 (- lshift) .& mask in
  Z.shiftl vs2 lshift .| Z.shiftr vs2 rshift.
Definition vror_op (sew vs2 amount : Z) : Z :=
  let mask := sew - 1 in
  let rshift := amount .& mask in
  let lshift := u64 (- rshift) .& mask in
  Z.shiftl vs2 lshift .| Z.shiftr vs2 rshift.
Definition insn_vrol_vv : M unit := require_zvbb ;; VI_VV_ULOOP (fun sew _ vs1 vs2 => ret (vrol_op sew vs2 vs1)).
Definition insn_vrol_vx : M unit := require_zvbb ;;
  let* rs1 := RS1 in VI_V_ULOOP (fun sew vs2 => ret (vrol_op sew vs2 rs1)).
Definition insn_vror_vi : M unit := require_zvbb ;;
  VI_V_ULOOP (fun sew vs2 => ret (vror_op sew vs2 (Insn.v_zimm6 insn))).
Definition insn_vror_vv : M unit := require_zvbb ;; VI_VV_ULOOP (fun sew _ vs1 vs2 => ret (vror_op sew vs2 vs1)).
Definition insn_vror_vx : M unit := require_zvbb ;;
  let* rs1 := RS1 in VI_V_ULOOP (fun sew vs2 => ret (vror_op sew vs2 rs1)).

(** The carry-less product: its low half, and its high half. *)
Definition vclmul_op : op3 := fun sew _ a vs2 =>
  ret (fold_left (fun vd k => if z2b (a .& shl 1 k) then vd .^ shl vs2 k else vd) (zseq sew) 0).
Definition vclmulh_op : op3 := fun sew _ a vs2 =>
  ret (fold_left (fun vd k => if z2b (a .& shl 1 k) then vd .^ Z.shiftr vs2 (sew - k) else vd)
    (map (Z.add 1) (zseq (sew - 1))) 0).
Definition require_sew_64 : M unit := let* sew := get_sew in require (sew =? 64).
Definition insn_vclmul_vv : M unit := require_zvbc ;; require_sew_64 ;; VI_VV_ULOOP vclmul_op.
Definition insn_vclmul_vx : M unit := require_zvbc ;; require_sew_64 ;; VI_VX_ULOOP vclmul_op.
Definition insn_vclmulh_vv : M unit := require_zvbc ;; require_sew_64 ;; VI_VV_ULOOP vclmulh_op.
Definition insn_vclmulh_vx : M unit := require_zvbc ;; require_sew_64 ;; VI_VX_ULOOP vclmulh_op.

(** [VI_ZVK_V*_WIDENING_ULOOP]: the body takes [sew], the first operand and
    [vs2_w]. *)
Definition ZVK_WIDENING_ULOOP (is_vs1 : bool) (first : Z -> Z -> M Z) (body : Z -> Z -> Z -> Z) : M unit :=
  VI_CHECK_DSS is_vs1 ;;
  VI_LOOP (fun sew _ i => when (sew <=? e32)
    (let* _ := elt (2 * sew) rd_num i in
     let* vs2_w := elt sew rs2_num i in
     let* a := first sew i in
     set_elt (2 * sew) rd_num i (body sew a vs2_w))).
Definition widening_vs1 (w i : Z) : M Z := elt w rs1_num i.
Definition widening_rs1 (w i : Z) : M Z := let* x := RS1 in ret (wrap w x).
Definition widening_zimm5 (w i : Z) : M Z := ret (wrap w (Insn.v_zimm5 insn)).
Definition VI_ZVK_VV_WIDENING_ULOOP : (Z -> Z -> Z -> Z) -> M unit := ZVK_WIDENING_ULOOP true widening_vs1.
Definition VI_ZVK_VX_WIDENING_ULOOP : (Z -> Z -> Z -> Z) -> M unit := ZVK_WIDENING_ULOOP false widening_rs1.
Definition VI_ZVK_VI_WIDENING_ULOOP : (Z -> Z -> Z -> Z) -> M unit := ZVK_WIDENING_ULOOP false widening_zimm5.
Definition vwsll_op (sew a vs2_w : Z) : Z := Z.shiftl vs2_w (a .& (2 * sew - 1)).
Definition insn_vwsll_vi : M unit := require_zvbb ;; VI_CHECK_DSS false ;; VI_ZVK_VI_WIDENING_ULOOP vwsll_op.
Definition insn_vwsll_vv : M unit := require_zvbb ;; VI_CHECK_DSS true ;; VI_ZVK_VV_WIDENING_ULOOP vwsll_op.
Definition insn_vwsll_vx : M unit := require_zvbb ;; VI_CHECK_DSS false ;; VI_ZVK_VX_WIDENING_ULOOP vwsll_op.

(** * Dot products: Zvqdotq, Zvqldot and Zvqbdot *)

(** [VQDOT(IN1, IN2, TYPE1, TYPE2)], the types [int8_t] or [uint8_t]. *)
Definition UNPACK_32_TO_8 (x : Z) (s : bool) : list Z := map (fun k => cast s 8 (Z.shiftr x (8 * k))) (zseq 4).
Definition VQDOT (in1 in2 : Z) (s1 s2 : bool) : Z :=
  u64 (fold_left (fun r p => r + fst p * snd p) (zip (UNPACK_32_TO_8 in1 s1) (UNPACK_32_TO_8 in2 s2)) 0).
Definition vqdot_op (s1 s2 : bool) : op3 := fun _ vd a vs2 => ret ((vd + VQDOT a vs2 s1 s2) .& 0xffffffff).
Definition require_zvqdotq : M unit :=
  require_extension EXT_ZVQDOTQ ;; let* sew := get_sew in require (sew =? e32).
Definition insn_vqdot_vv : M unit := require_zvqdotq ;; VI_VV_LOOP (vqdot_op true true).
Definition insn_vqdot_vx : M unit := require_zvqdotq ;; VI_VX_LOOP (vqdot_op true true).
Definition insn_vqdotsu_vv : M unit := require_zvqdotq ;; VI_VV_LOOP (vqdot_op false true).
Definition insn_vqdotsu_vx : M unit := require_zvqdotq ;; VI_VX_LOOP (vqdot_op false true).
Definition insn_vqdotu_vv : M unit := require_zvqdotq ;; VI_VV_LOOP (vqdot_op false false).
Definition insn_vqdotu_vx : M unit := require_zvqdotq ;; VI_VX_LOOP (vqdot_op false false).
Definition insn_vqdotus_vx : M unit := require_zvqdotq ;; VI_VX_LOOP (vqdot_op true false).

Definition vqldot (b_signed : bool) : M unit :=
  ZVLDOT_INIT ;;
  let* u := gets VU in
  let a_signed := z2b (altfmt u) in
  if vsew u =? 8 then require_extension EXT_ZVQLDOT8I ;; ZVLDOT_SIMPLE_LOOP a_signed b_signed 8 32
  else if vsew u =? 16 then require_extension EXT_ZVQLDOT16I ;; ZVLDOT_SIMPLE_LOOP a_signed b_signed 16 64
  else require false.
Definition insn_vqldots_vv : M unit := vqldot true.
Definition insn_vqldotu_vv : M unit := vqldot false.

Definition vqbdot (b_signed : bool) : M unit :=
  let* p := ZVBDOT_INIT 4 in
  let* u := gets VU in
  let a_signed := z2b (altfmt u) in
  if vsew u =? 8 then require_extension EXT_ZVQBDOT8I ;; ZVBDOT_SIMPLE_LOOP p a_signed b_signed 8 32
  else if vsew u =? 16 then require_extension EXT_ZVQBDOT16I ;; ZVBDOT_SIMPLE_LOOP p a_signed b_signed 16 64
  else require false.
Definition insn_vqbdots_vv : M unit := vqbdot true.
Definition insn_vqbdotu_vv : M unit := vqbdot false.

End instructions.
