(* ===== verification/InsnsVFp.v ===== *)
(** The floating-point instructions of the vector unit: the [VI_VFP] macros of
    [riscv/v_ext_macros.h] and the bodies [insns/vf*.h], [insns/vmf*.h].

    A loop takes a body for each width of [vsew] it accepts, as the macro does.
    A body is given the rounding mode [VFP_RM], the old [vd], the first
    operand [a] ([vs1] or [rs1]) and [vs2]; the flags of each element are
    accrued before the next. *)

From S2P Require Import Prelude IntArith Decode Encoding IsaExt Trap Hart Pmp Csr CsrFile CsrInit Mmu Macros.
From S2P Require Import InsnsMem InsnsFp Vector VMacros InsnsV.
From S2P Require Import SoftPrim SoftRound SoftF16 SoftF32 SoftF64 SoftConv SoftBF16 SoftMisc.

Section instructions.
Context `{!config, !simif, !trigger_module, !insn_ctx}.

(** * Macros *)

Definition VI_VFP_BASE : M Z := require_fp ;; require_vector true ;; VFP_RM.
Definition VI_VFP_COMMON : M Z :=
  let* rm := VI_VFP_BASE in
  require_state (fun h =>
    ((vsew (VU h) =? e16) && extension_enabled h EXT_ZVFH) ||
    ((vsew (VU h) =? e32) && cfg_zvf) ||
    ((vsew (VU h) =? e64) && cfg_zvd)) ;;
  ret rm.
Definition VI_VFP_BF16_COMMON : M Z :=
  let* rm := VI_VFP_BASE in
  require_state (fun h => (vsew (VU h) =? e16) && extension_enabled h EXT_ZVFBFWMA) ;;
  ret rm.

(** [VI_VFP_LOOP_BASE .. VI_VFP_LOOP_END] after one of them. *)
Definition VFP_ELEMENTS (body : Z -> M unit) : M unit :=
  let* vl := get_vl in
  let* vstart := get_vstart in
  for_loop vstart vl (fun i => VI_LOOP_ELEMENT_SKIP i tt (body i)) ;;
  vstart_write 0.
Definition VI_VFP_LOOP (common : M Z) (body : Z -> Z -> M unit) : M unit :=
  let* rm := common in VFP_ELEMENTS (body rm).

(** [switch (P.VU.vsew)] with [default: require(0)]. *)
Definition switch_sew {A} (cases : list (Z * M A)) : M A :=
  let* sew := get_sew in
  match List.find (fun c => fst c =? sew) cases with Some (_, m) => m | None => illegal_insn end.

Definition fbody : Type := Z -> Z -> Z -> Z -> M Z.
Definition fcmp : Type := Z -> Z -> M bool.

(** [VFP_VV_PARAMS] and [VFP_VF_PARAMS]: the first operand. *)
Definition vfp_vs1 (w i : Z) : M Z := elt w rs1_num i.
Definition vfp_rs1 (w i : Z) : M Z :=
  let* r := READ_FREG rs1_num in
  ret (if w =? 16 then unboxF16 r else if w =? 32 then unboxF32 r else unboxF64 r).

Definition VFP_body (first : Z -> Z -> M Z) (w : Z) (body : fbody) (rm i : Z) : M unit :=
  let* vd := elt w rd_num i in
  let* a := first w i in
  let* vs2 := elt w rs2_num i in
  let* r := body rm vd a vs2 in
  set_elt w rd_num i r ;;
  set_fp_exceptions.
Definition VFP_LOOP (is_vs1 : bool) (first : Z -> Z -> M Z) (body16 body32 body64 : fbody) : M unit :=
  VI_CHECK_SSS is_vs1 ;;
  VI_VFP_LOOP VI_VFP_COMMON (fun rm i => switch_sew
    [(e16, VFP_body first 16 body16 rm i); (e32, VFP_body first 32 body32 rm i); (e64, VFP_body first 64 body64 rm i)]).
Definition VI_VFP_VV_LOOP : fbody -> fbody -> fbody -> M unit := VFP_LOOP true vfp_vs1.
Definition VI_VFP_VF_LOOP : fbody -> fbody -> fbody -> M unit := VFP_LOOP false vfp_rs1.

Definition VFP_V_body (w : Z) (body : Z -> Z -> M Z) (rm i : Z) : M unit :=
  let* _ := elt w rd_num i in
  let* vs2 := elt w rs2_num i in
  let* r := body rm vs2 in
  set_elt w rd_num i r.
Definition VI_VFP_V_LOOP (body16 body32 body64 : Z -> Z -> M Z) : M unit :=
  VI_CHECK_SSS false ;;
  VI_VFP_LOOP VI_VFP_COMMON (fun rm i => switch_sew
    [(e16, VFP_V_body 16 body16 rm i); (e32, VFP_V_body 32 body32 rm i); (e64, VFP_V_body 64 body64 rm i)] ;;
    set_fp_exceptions).

Definition VFP_CMP_body (first : Z -> Z -> M Z) (w : Z) (body : fcmp) (i : Z) : M bool :=
  let* a := first w i in
  let* vs2 := elt w rs2_num i in
  let* res := body a vs2 in
  set_fp_exceptions ;; ret res.
Definition VFP_LOOP_CMP (is_vs1 : bool) (first : Z -> Z -> M Z) (body16 body32 body64 : fcmp) : M unit :=
  VI_CHECK_MSS is_vs1 ;;
  VI_VFP_LOOP VI_VFP_COMMON (fun _ i =>
    let* res := switch_sew
      [(e16, VFP_CMP_body first 16 body16 i); (e32, VFP_CMP_body first 32 body32 i); (e64, VFP_CMP_body first 64 body64 i)] in
    set_mask_elt rd_num i res).
Definition VI_VFP_VV_LOOP_CMP : fcmp -> fcmp -> fcmp -> M unit := VFP_LOOP_CMP true vfp_vs1.
Definition VI_VFP_VF_LOOP_CMP : fcmp -> fcmp -> fcmp -> M unit := VFP_LOOP_CMP false vfp_rs1.

(** Reductions of elements of [w] bits, read by [vs2]: [classify] and
    [defaultNaN] are those of the width. *)
Definition VFP_REDUCTION (is_propagate : bool) (w : Z) (classify : Z -> Z) (defaultNaN : Z)
    (vs2 : Z -> M Z) (body : Z -> Z -> M Z) : M unit :=
  let* vd_0 := elt w rs1_num 0 in
  let* vl := get_vl in
  let* vstart := get_vstart in
  let* (vd_0, is_active) := for_acc vstart vl (vd_0, false) (fun i acc =>
    VI_LOOP_ELEMENT_SKIP i acc
      (let* x := vs2 i in
       let* vd_0 := body (fst acc) x in
       set_fp_exceptions ;; ret (vd_0, true))) in
  vstart_write 0 ;;
  when (0 <? vl)
    (if is_propagate && negb is_active then
       let r := classify vd_0 in
       if z2b (r .& 0x300) then
         when (z2b (r .& 0x100))
           (modify (fun h => set_softfloat_exceptionFlags (softfloat_exceptionFlags h .| softfloat_flag_invalid) h) ;;
            set_fp_exceptions) ;;
         set_elt w rd_num 0 defaultNaN
       else set_elt w rd_num 0 vd_0
     else set_elt w rd_num 0 vd_0).
Definition VI_VFP_VV_LOOP_REDUCTION (is_propagate : bool) (body16 body32 body64 : Z -> Z -> Z -> M Z) : M unit :=
  VI_CHECK_REDUCTION false ;;
  let* rm := VI_VFP_COMMON in
  switch_sew
    [(e16, let* _ := elt 16 rd_num 0 in
           VFP_REDUCTION is_propagate 16 f16_classify defaultNaNF16UI (elt 16 rs2_num) (body16 rm));
     (e32, let* _ := elt 32 rd_num 0 in
           VFP_REDUCTION is_propagate 32 f32_classify defaultNaNF32UI (elt 32 rs2_num) (body32 rm));
     (e64, let* _ := elt 64 rd_num 0 in
           VFP_REDUCTION is_propagate 64 f64_classify defaultNaNF64UI (elt 64 rs2_num) (body64 rm))].

(** A half or single element as the next wider format. *)
Definition widen_16 (x : M Z) : M Z := let* x := x in soft (f16_to_f32 x).
Definition widen_32 (x : M Z) : M Z := let* x := x in soft (f32_to_f64 x).
Definition widen_bf16 (x : M Z) : M Z := let* x := x in soft (bf16_to_f32 x).

Definition VI_VFP_VV_LOOP_WIDE_REDUCTION (is_propagate : bool) (body16 body32 : Z -> Z -> Z -> M Z) : M unit :=
  VI_CHECK_REDUCTION true ;;
  let* rm := VI_VFP_COMMON in
  require_state (fun h => ((vsew (VU h) =? e16) && cfg_zvf) || ((vsew (VU h) =? e32) && cfg_zvd)) ;;
  switch_sew
    [(e16, VFP_REDUCTION is_propagate 32 f32_classify defaultNaNF32UI (fun i => widen_16 (elt 16 rs2_num i)) (body16 rm));
     (e32, VFP_REDUCTION is_propagate 64 f64_classify defaultNaNF64UI (fun i => widen_32 (elt 32 rs2_num i)) (body32 rm))].

(** Widening loops: [vs2] and the first operand as values of the wide format. *)
Definition VFP_WIDE_body (w : Z) (vs2 a : M Z) (body : fbody) (rm i : Z) : M unit :=
  let* vd := elt w rd_num i in
  let* vs2 := vs2 in
  let* a := a in
  let* r := body rm vd a vs2 in
  set_elt w rd_num i r ;;
  set_fp_exceptions.
Definition VI_VFP_VF_LOOP_WIDE (body16 body32 : fbody) : M unit :=
  VI_CHECK_DSS false ;;
  VI_VFP_LOOP VI_VFP_COMMON (fun rm i => switch_sew
    [(e16, VFP_WIDE_body 32 (widen_16 (elt 16 rs2_num i)) (widen_16 FRS1_H) body16 rm i);
     (e32, VFP_WIDE_body 64 (widen_32 (elt 32 rs2_num i)) (widen_32 FRS1_F) body32 rm i)]).
Definition VI_VFP_BF16_VF_LOOP_WIDE (body : fbody) : M unit :=
  VI_CHECK_DSS false ;;
  VI_VFP_LOOP VI_VFP_BF16_COMMON (fun rm i => switch_sew
    [(e16, VFP_WIDE_body 32 (widen_bf16 (elt 16 rs2_num i)) (widen_bf16 FRS1_BF) body rm i)]).
Definition VI_VFP_VV_LOOP_WIDE (body16 body32 : fbody) : M unit :=
  VI_CHECK_DSS true ;;
  VI_VFP_LOOP VI_VFP_COMMON (fun rm i => switch_sew
    [(e16, VFP_WIDE_body 32 (widen_16 (elt 16 rs2_num i)) (widen_16 (elt 16 rs1_num i)) body16 rm i);
     (e32, VFP_WIDE_body 64 (widen_32 (elt 32 rs2_num i)) (widen_32 (elt 32 rs1_num i)) body32 rm i)]).
Definition VI_VFP_BF16_VV_LOOP_WIDE (body : fbody) : M unit :=
  VI_CHECK_DSS true ;;
  VI_VFP_LOOP VI_VFP_BF16_COMMON (fun rm i => switch_sew
    [(e16, VFP_WIDE_body 32 (widen_bf16 (elt 16 rs2_num i)) (widen_bf16 (elt 16 rs1_num i)) body rm i)]).
Definition VI_VFP_WF_LOOP_WIDE (body16 body32 : fbody) : M unit :=
  VI_CHECK_DDS false ;;
  VI_VFP_LOOP VI_VFP_COMMON (fun rm i => switch_sew
    [(e16, VFP_WIDE_body 32 (elt 32 rs2_num i) (widen_16 FRS1_H) body16 rm i);
     (e32, VFP_WIDE_body 64 (elt 64 rs2_num i) (widen_32 FRS1_F) body32 rm i)]).
Definition VI_VFP_WV_LOOP_WIDE (body16 body32 : fbody) : M unit :=
  VI_CHECK_DDS true ;;
  VI_VFP_LOOP VI_VFP_COMMON (fun rm i => switch_sew
    [(e16, VFP_WIDE_body 32 (elt 32 rs2_num i) (widen_16 (elt 16 rs1_num i)) body16 rm i);
     (e32, VFP_WIDE_body 64 (elt 64 rs2_num i) (widen_32 (elt 32 rs1_num i)) body32 rm i)]).

(** Conversions from [vs2], of [from] bits and signed or not, to [to] bits. *)
Definition VI_VFP_CVT_LOOP (signed : bool) (from to : Z) (check : M unit) (body : Z -> Z -> M Z) : M unit :=
  check ;;
  VI_VFP_LOOP VI_VFP_BASE (fun rm i =>
    let* vs2 := elt_t signed from rs2_num i in
    let* r := body rm vs2 in
    set_elt to rd_num i r ;;
    set_fp_exceptions).
Definition require_zvf : M unit := require cfg_zvf.
Definition require_zvd : M unit := require cfg_zvd.
Definition cvt : Type := Z -> Z -> M Z.
Definition VI_VFP_CVT_INT_TO_FP (sign : bool) (body16 body32 body64 : cvt) : M unit :=
  VI_CHECK_SSS false ;;
  let* _ := VI_VFP_COMMON in
  switch_sew
    [(e16, VI_VFP_CVT_LOOP sign 16 16 (require_extension EXT_ZVFH) body16);
     (e32, VI_VFP_CVT_LOOP sign 32 32 require_zvf body32);
     (e64, VI_VFP_CVT_LOOP sign 64 64 require_zvd body64)].
(** The sign is that of the integers assigned, which makes no difference. *)
Definition VI_VFP_CVT_FP_TO_INT (sign : bool) (body16 body32 body64 : cvt) : M unit :=
  VI_CHECK_SSS false ;;
  let* _ := VI_VFP_COMMON in
  switch_sew
    [(e16, VI_VFP_CVT_LOOP false 16 16 (require_extension EXT_ZVFH) body16);
     (e32, VI_VFP_CVT_LOOP false 32 32 require_zvf body32);
     (e64, VI_VFP_CVT_LOOP false 64 64 require_zvd body64)].
Definition VI_VFP_WCVT_FP_TO_FP (body16 body32 : cvt) (check16 check32 : M unit) : M unit :=
  VI_CHECK_DSS false ;;
  switch_sew [(e16, VI_VFP_CVT_LOOP false 16 32 check16 body16); (e32, VI_VFP_CVT_LOOP false 32 64 check32 body32)].
Definition VI_VFP_WCVT_FP_TO_BF16 (body : cvt) (check : M unit) : M unit :=
  VI_CHECK_DSS false ;;
  switch_sew [(e16, VI_VFP_CVT_LOOP false 16 32 check body)].
Definition VI_VFP_WCVT_INT_TO_FP (sign : bool) (body8 body16 body32 : cvt) (check8 check16 check32 : M unit) : M unit :=
  VI_CHECK_DSS false ;;
  switch_sew
    [(e8, VI_VFP_CVT_LOOP sign 8 16 check8 body8);
     (e16, VI_VFP_CVT_LOOP sign 16 32 check16 body16);
     (e32, VI_VFP_CVT_LOOP sign 32 64 check32 body32)].
Definition VI_VFP_WCVT_FP_TO_INT (sign : bool) (body16 body32 : cvt) (check16 check32 : M unit) : M unit :=
  VI_CHECK_DSS false ;;
  switch_sew [(e16, VI_VFP_CVT_LOOP false 16 32 check16 body16); (e32, VI_VFP_CVT_LOOP false 32 64 check32 body32)].
Definition VI_VFP_NCVT_FP_TO_FP (body32 body64 : cvt) (check32 check64 : M unit) : M unit :=
  VI_CHECK_SDS false ;;
  switch_sew [(e16, VI_VFP_CVT_LOOP false 32 16 check32 body32); (e32, VI_VFP_CVT_LOOP false 64 32 check64 body64)].
Definition VI_VFP_NCVT_BF16_TO_FP (body : cvt) (check : M unit) : M unit :=
  VI_CHECK_SDS false ;;
  switch_sew [(e16, VI_VFP_CVT_LOOP false 32 16 check body)].
Definition VI_VFP_NCVT_INT_TO_FP (sign : bool) (body32 body64 : cvt) (check32 check64 : M unit) : M unit :=
  VI_CHECK_SDS false ;;
  switch_sew [(e16, VI_VFP_CVT_LOOP sign 32 16 check32 body32); (e32, VI_VFP_CVT_LOOP sign 64 32 check64 body64)].
Definition VI_VFP_NCVT_FP_TO_INT (sign : bool) (body16 body32 body64 : cvt) (check16 check32 check64 : M unit) : M unit :=
  VI_CHECK_SDS false ;;
  switch_sew
    [(e8, VI_VFP_CVT_LOOP false 16 8 check16 body16);
     (e16, VI_VFP_CVT_LOOP false 32 16 check32 body32);
     (e32, VI_VFP_CVT_LOOP false 64 32 check64 body64)].

(** * Arithmetic *)

Definition insn_vfadd_vf : M unit :=
  VI_VFP_VF_LOOP
    (fun rm _ a vs2 => soft (f16_add rm a vs2))
    (fun rm _ a vs2 => soft (f32_add rm a vs2))
    (fun rm _ a vs2 => soft (f64_add rm a vs2)).
Definition insn_vfadd_vv : M unit :=
  VI_VFP_VV_LOOP
    (fun rm _ a vs2 => soft (f16_add rm a vs2))
    (fun rm _ a vs2 => soft (f32_add rm a vs2))
    (fun rm _ a vs2 => soft (f64_add rm a vs2)).
Definition insn_vfclass_v : M unit :=
  VI_VFP_V_LOOP
    (fun _ vs2 => ret (f16_classify vs2))
    (fun _ vs2 => ret (f32_classify vs2))
    (fun _ vs2 => ret (f64_classify vs2)).
Definition insn_vfdiv_vf : M unit :=
  VI_VFP_VF_LOOP
    (fun rm _ a vs2 => soft (f16_div rm vs2 a))
    (fun rm _ a vs2 => soft (f32_div rm vs2 a))
    (fun rm _ a vs2 => soft (f64_div rm vs2 a)).
Definition insn_vfdiv_vv : M unit :=
  VI_VFP_VV_LOOP
    (fun rm _ a vs2 => soft (f16_div rm vs2 a))
    (fun rm _ a vs2 => soft (f32_div rm vs2 a))
    (fun rm _ a vs2 => soft (f64_div rm vs2 a)).
Definition insn_vfmacc_vf : M unit :=
  VI_VFP_VF_LOOP
    (fun rm vd a vs2 => soft (f16_mulAdd rm a vs2 vd))
    (fun rm vd a vs2 => soft (f32_mulAdd rm a vs2 vd))
    (fun rm vd a vs2 => soft (f64_mulAdd rm a vs2 vd)).
Definition insn_vfmacc_vv : M unit :=
  VI_VFP_VV_LOOP
    (fun rm vd a vs2 => soft (f16_mulAdd rm a vs2 vd))
    (fun rm vd a vs2 => soft (f32_mulAdd rm a vs2 vd))
    (fun rm vd a vs2 => soft (f64_mulAdd rm a vs2 vd)).
Definition insn_vfmadd_vf : M unit :=
  VI_VFP_VF_LOOP
    (fun rm vd a vs2 => soft (f16_mulAdd rm vd a vs2))
    (fun rm vd a vs2 => soft (f32_mulAdd rm vd a vs2))
    (fun rm vd a vs2 => soft (f64_mulAdd rm vd a vs2)).
Definition insn_vfmadd_vv : M unit :=
  VI_VFP_VV_LOOP
    (fun rm vd a vs2 => soft (f16_mulAdd rm vd a vs2))
    (fun rm vd a vs2 => soft (f32_mulAdd rm vd a vs2))
    (fun rm vd a vs2 => soft (f64_mulAdd rm vd a vs2)).
Definition insn_vfmax_vf : M unit :=
  VI_VFP_VF_LOOP
    (fun _ _ a vs2 => soft (f16_max vs2 a))
    (fun _ _ a vs2 => soft (f32_max vs2 a))
    (fun _ _ a vs2 => soft (f64_max vs2 a)).
Definition insn_vfmax_vv : M unit :=
  VI_VFP_VV_LOOP
    (fun _ _ a vs2 => soft (f16_max vs2 a))
    (fun _ _ a vs2 => soft (f32_max vs2 a))
    (fun _ _ a vs2 => soft (f64_max vs2 a)).
Definition insn_vfmin_vf : M unit :=
  VI_VFP_VF_LOOP
    (fun _ _ a vs2 => soft (f16_min vs2 a))
    (fun _ _ a vs2 => soft (f32_min vs2 a))
    (fun _ _ a vs2 => soft (f64_min vs2 a)).
Definition insn_vfmin_vv : M unit :=
  VI_VFP_VV_LOOP
    (fun _ _ a vs2 => soft (f16_min vs2 a))
    (fun _ _ a vs2 => soft (f32_min vs2 a))
    (fun _ _ a vs2 => soft (f64_min vs2 a)).
Definition insn_vfmsac_vf : M unit :=
  VI_VFP_VF_LOOP
    (fun rm vd a vs2 => soft (f16_mulAdd rm a vs2 (vd .^ F16_SIGN)))
    (fun rm vd a vs2 => soft (f32_mulAdd rm a vs2 (vd .^ F32_SIGN)))
    (fun rm vd a vs2 => soft (f64_mulAdd rm a vs2 (vd .^ F64_SIGN))).
Definition insn_vfmsac_vv : M unit :=
  VI_VFP_VV_LOOP
    (fun rm vd a vs2 => soft (f16_mulAdd rm a vs2 (vd .^ F16_SIGN)))
    (fun rm vd a vs2 => soft (f32_mulAdd rm a vs2 (vd .^ F32_SIGN)))
    (fun rm vd a vs2 => soft (f64_mulAdd rm a vs2 (vd .^ F64_SIGN))).
Definition insn_vfmsub_vf : M unit :=
  VI_VFP_VF_LOOP
    (fun rm vd a vs2 => soft (f16_mulAdd rm vd a (vs2 .^ F16_SIGN)))
    (fun rm vd a vs2 => soft (f32_mulAdd rm vd a (vs2 .^ F32_SIGN)))
    (fun rm vd a vs2 => soft (f64_mulAdd rm vd a (vs2 .^ F64_SIGN))).
Definition insn_vfmsub_vv : M unit :=
  VI_VFP_VV_LOOP
    (fun rm vd a vs2 => soft (f16_mulAdd rm vd a (vs2 .^ F16_SIGN)))
    (fun rm vd a vs2 => soft (f32_mulAdd rm vd a (vs2 .^ F32_SIGN)))
    (fun rm vd a vs2 => soft (f64_mulAdd rm vd a (vs2 .^ F64_SIGN))).
Definition insn_vfmul_vf : M unit :=
  VI_VFP_VF_LOOP
    (fun rm _ a vs2 => soft (f16_mul rm vs2 a))
    (fun rm _ a vs2 => soft (f32_mul rm vs2 a))
    (fun rm _ a vs2 => soft (f64_mul rm vs2 a)).
Definition insn_vfmul_vv : M unit :=
  VI_VFP_VV_LOOP
    (fun rm _ a vs2 => soft (f16_mul rm a vs2))
    (fun rm _ a vs2 => soft (f32_mul rm a vs2))
    (fun rm _ a vs2 => soft (f64_mul rm a vs2)).
Definition insn_vfnmacc_vf : M unit :=
  VI_VFP_VF_LOOP
    (fun rm vd a vs2 => soft (f16_mulAdd rm a (vs2 .^ F16_SIGN) (vd .^ F16_SIGN)))
    (fun rm vd a vs2 => soft (f32_mulAdd rm a (vs2 .^ F32_SIGN) (vd .^ F32_SIGN)))
    (fun rm vd a vs2 => soft (f64_mulAdd rm a (vs2 .^ F64_SIGN) (vd .^ F64_SIGN))).
Definition insn_vfnmacc_vv : M unit :=
  VI_VFP_VV_LOOP
    (fun rm vd a vs2 => soft (f16_mulAdd rm (vs2 .^ F16_SIGN) a (vd .^ F16_SIGN)))
    (fun rm vd a vs2 => soft (f32_mulAdd rm (vs2 .^ F32_SIGN) a (vd .^ F32_SIGN)))
    (fun rm vd a vs2 => soft (f64_mulAdd rm (vs2 .^ F64_SIGN) a (vd .^ F64_SIGN))).
Definition insn_vfnmadd_vf : M unit :=
  VI_VFP_VF_LOOP
    (fun rm vd a vs2 => soft (f16_mulAdd rm (vd .^ F16_SIGN) a (vs2 .^ F16_SIGN)))
    (fun rm vd a vs2 => soft (f32_mulAdd rm (vd .^ F32_SIGN) a (vs2 .^ F32_SIGN)))
    (fun rm vd a vs2 => soft (f64_mulAdd rm (vd .^ F64_SIGN) a (vs2 .^ F64_SIGN))).
Definition insn_vfnmadd_vv : M unit :=
  VI_VFP_VV_LOOP
    (fun rm vd a vs2 => soft (f16_mulAdd rm (vd .^ F16_SIGN) a (vs2 .^ F16_SIGN)))
    (fun rm vd a vs2 => soft (f32_mulAdd rm (vd .^ F32_SIGN) a (vs2 .^ F32_SIGN)))
    (fun rm vd a vs2 => soft (f64_mulAdd rm (vd .^ F64_SIGN) a (vs2 .^ F64_SIGN))).
Definition insn_vfnmsac_vf : M unit :=
  VI_VFP_VF_LOOP
    (fun rm vd a vs2 => soft (f16_mulAdd rm a (vs2 .^ F16_SIGN) vd))
    (fun rm vd a vs2 => soft (f32_mulAdd rm a (vs2 .^ F32_SIGN) vd))
    (fun rm vd a vs2 => soft (f64_mulAdd rm a (vs2 .^ F64_SIGN) vd)).
Definition insn_vfnmsac_vv : M unit :=
  VI_VFP_VV_LOOP
    (fun rm vd a vs2 => soft (f16_mulAdd rm (a .^ F16_SIGN) vs2 vd))
    (fun rm vd a vs2 => soft (f32_mulAdd rm (a .^ F32_SIGN) vs2 vd))
    (fun rm vd a vs2 => soft (f64_mulAdd rm (a .^ F64_SIGN) vs2 vd)).
Definition insn_vfnmsub_vf : M unit :=
  VI_VFP_VF_LOOP
    (fun rm vd a vs2 => soft (f16_mulAdd rm (vd .^ F16_SIGN) a vs2))
    (fun rm vd a vs2 => soft (f32_mulAdd rm (vd .^ F32_SIGN) a vs2))
    (fun rm vd a vs2 => soft (f64_mulAdd rm (vd .^ F64_SIGN) a vs2)).
Definition insn_vfnmsub_vv : M unit :=
  VI_VFP_VV_LOOP
    (fun rm vd a vs2 => soft (f16_mulAdd rm (vd .^ F16_SIGN) a vs2))
    (fun rm vd a vs2 => soft (f32_mulAdd rm (vd .^ F32_SIGN) a vs2))
    (fun rm vd a vs2 => soft (f64_mulAdd rm (vd .^ F64_SIGN) a vs2)).
Definition insn_vfrdiv_vf : M unit :=
  VI_VFP_VF_LOOP
    (fun rm _ a vs2 => soft (f16_div rm a vs2))
    (fun rm _ a vs2 => soft (f32_div rm a vs2))
    (fun rm _ a vs2 => soft (f64_div rm a vs2)).
Definition insn_vfrec7_v : M unit :=
  VI_VFP_V_LOOP
    (fun rm vs2 => soft (f16_recip7 rm vs2))
    (fun rm vs2 => soft (f32_recip7 rm vs2))
    (fun rm vs2 => soft (f64_recip7 rm vs2)).
Definition insn_vfrsqrt7_v : M unit :=
  VI_VFP_V_LOOP
    (fun _ vs2 => soft (f16_rsqrte7 vs2))
    (fun _ vs2 => soft (f32_rsqrte7 vs2))
    (fun _ vs2 => soft (f64_rsqrte7 vs2)).
Definition insn_vfrsub_vf : M unit :=
  VI_VFP_VF_LOOP
    (fun rm _ a vs2 => soft (f16_sub rm a vs2))
    (fun rm _ a vs2 => soft (f32_sub rm a vs2))
    (fun rm _ a vs2 => soft (f64_sub rm a vs2)).
Definition insn_vfsgnj_vf : M unit :=
  VI_VFP_VF_LOOP
    (fun _ _ a vs2 => ret (fsgnj16 vs2 a false false))
    (fun _ _ a vs2 => ret (fsgnj32 vs2 a false false))
    (fun _ _ a vs2 => ret (fsgnj64 vs2 a false false)).
Definition insn_vfsgnj_vv : M unit :=
  VI_VFP_VV_LOOP
    (fun _ _ a vs2 => ret (fsgnj16 vs2 a false false))
    (fun _ _ a vs2 => ret (fsgnj32 vs2 a false false))
    (fun _ _ a vs2 => ret (fsgnj64 vs2 a false false)).
Definition insn_vfsgnjn_vf : M unit :=
  VI_VFP_VF_LOOP
    (fun _ _ a vs2 => ret (fsgnj16 vs2 a true false))
    (fun _ _ a vs2 => ret (fsgnj32 vs2 a true false))
    (fun _ _ a vs2 => ret (fsgnj64 vs2 a true false)).
Definition insn_vfsgnjn_vv : M unit :=
  VI_VFP_VV_LOOP
    (fun _ _ a vs2 => ret (fsgnj16 vs2 a true false))
    (fun _ _ a vs2 => ret (fsgnj32 vs2 a true false))
    (fun _ _ a vs2 => ret (fsgnj64 vs2 a true false)).
Definition insn_vfsgnjx_vf : M unit :=
  VI_VFP_VF_LOOP
    (fun _ _ a vs2 => ret (fsgnj16 vs2 a false true))
    (fun _ _ a vs2 => ret (fsgnj32 vs2 a false true))
    (fun _ _ a vs2 => ret (fsgnj64 vs2 a false true)).
Definition insn_vfsgnjx_vv : M unit :=
  VI_VFP_VV_LOOP
    (fun _ _ a vs2 => ret (fsgnj16 vs2 a false true))
    (fun _ _ a vs2 => ret (fsgnj32 vs2 a false true))
    (fun _ _ a vs2 => ret (fsgnj64 vs2 a false true)).
Definition insn_vfsqrt_v : M unit :=
  VI_VFP_V_LOOP
    (fun rm vs2 => soft (f16_sqrt rm vs2))
    (fun rm vs2 => soft (f32_sqrt rm vs2))
    (fun rm vs2 => soft (f64_sqrt rm vs2)).
Definition insn_vfsub_vf : M unit :=
  VI_VFP_VF_LOOP
    (fun rm _ a vs2 => soft (f16_sub rm vs2 a))
    (fun rm _ a vs2 => soft (f32_sub rm vs2 a))
    (fun rm _ a vs2 => soft (f64_sub rm vs2 a)).
Definition insn_vfsub_vv : M unit :=
  VI_VFP_VV_LOOP
    (fun rm _ a vs2 => soft (f16_sub rm vs2 a))
    (fun rm _ a vs2 => soft (f32_sub rm vs2 a))
    (fun rm _ a vs2 => soft (f64_sub rm vs2 a)).

(** * Widening arithmetic *)

Definition insn_vfwadd_vf : M unit :=
  VI_VFP_VF_LOOP_WIDE
    (fun rm _ a vs2 => soft (f32_add rm vs2 a))
    (fun rm _ a vs2 => soft (f64_add rm vs2 a)).
Definition insn_vfwadd_vv : M unit :=
  VI_VFP_VV_LOOP_WIDE
    (fun rm _ a vs2 => soft (f32_add rm vs2 a))
    (fun rm _ a vs2 => soft (f64_add rm vs2 a)).
Definition insn_vfwadd_wf : M unit :=
  VI_VFP_WF_LOOP_WIDE
    (fun rm _ a vs2 => soft (f32_add rm vs2 a))
    (fun rm _ a vs2 => soft (f64_add rm vs2 a)).
Definition insn_vfwadd_wv : M unit :=
  VI_VFP_WV_LOOP_WIDE
    (fun rm _ a vs2 => soft (f32_add rm vs2 a))
    (fun rm _ a vs2 => soft (f64_add rm vs2 a)).
Definition insn_vfwmacc_vf : M unit :=
  VI_VFP_VF_LOOP_WIDE
    (fun rm vd a vs2 => soft (f32_mulAdd rm a vs2 vd))
    (fun rm vd a vs2 => soft (f64_mulAdd rm a vs2 vd)).
Definition insn_vfwmacc_vv : M unit :=
  VI_VFP_VV_LOOP_WIDE
    (fun rm vd a vs2 => soft (f32_mulAdd rm a vs2 vd))
    (fun rm vd a vs2 => soft (f64_mulAdd rm a vs2 vd)).
Definition insn_vfwmaccbf16_vf : M unit :=
  VI_VFP_BF16_VF_LOOP_WIDE
    (fun rm vd a vs2 => soft (f32_mulAdd rm a vs2 vd)).
Definition insn_vfwmaccbf16_vv : M unit :=
  VI_VFP_BF16_VV_LOOP_WIDE
    (fun rm vd a vs2 => soft (f32_mulAdd rm a vs2 vd)).
Definition insn_vfwmsac_vf : M unit :=
  VI_VFP_VF_LOOP_WIDE
    (fun rm vd a vs2 => soft (f32_mulAdd rm a vs2 (vd .^ F32_SIGN)))
    (fun rm vd a vs2 => soft (f64_mulAdd rm a vs2 (vd .^ F64_SIGN))).
Definition insn_vfwmsac_vv : M unit :=
  VI_VFP_VV_LOOP_WIDE
    (fun rm vd a vs2 => soft (f32_mulAdd rm a vs2 (vd .^ F32_SIGN)))
    (fun rm vd a vs2 => soft (f64_mulAdd rm a vs2 (vd .^ F64_SIGN))).
Definition insn_vfwmul_vf : M unit :=
  VI_VFP_VF_LOOP_WIDE
    (fun rm _ a vs2 => soft (f32_mul rm vs2 a))
    (fun rm _ a vs2 => soft (f64_mul rm vs2 a)).
Definition insn_vfwmul_vv : M unit :=
  VI_VFP_VV_LOOP_WIDE
    (fun rm _ a vs2 => soft (f32_mul rm vs2 a))
    (fun rm _ a vs2 => soft (f64_mul rm vs2 a)).
Definition insn_vfwnmacc_vf : M unit :=
  VI_VFP_VF_LOOP_WIDE
    (fun rm vd a vs2 => soft (f32_mulAdd rm (a .^ F32_SIGN) vs2 (vd .^ F32_SIGN)))
    (fun rm vd a vs2 => soft (f64_mulAdd rm (a .^ F64_SIGN) vs2 (vd .^ F64_SIGN))).
Definition insn_vfwnmacc_vv : M unit :=
  VI_VFP_VV_LOOP_WIDE
    (fun rm vd a vs2 => soft (f32_mulAdd rm (a .^ F32_SIGN) vs2 (vd .^ F32_SIGN)))
    (fun rm vd a vs2 => soft (f64_mulAdd rm (a .^ F64_SIGN) vs2 (vd .^ F64_SIGN))).
Definition insn_vfwnmsac_vf : M unit :=
  VI_VFP_VF_LOOP_WIDE
    (fun rm vd a vs2 => soft (f32_mulAdd rm (a .^ F32_SIGN) vs2 vd))
    (fun rm vd a vs2 => soft (f64_mulAdd rm (a .^ F64_SIGN) vs2 vd)).
Definition insn_vfwnmsac_vv : M unit :=
  VI_VFP_VV_LOOP_WIDE
    (fun rm vd a vs2 => soft (f32_mulAdd rm (a .^ F32_SIGN) vs2 vd))
    (fun rm vd a vs2 => soft (f64_mulAdd rm (a .^ F64_SIGN) vs2 vd)).
Definition insn_vfwsub_vf : M unit :=
  VI_VFP_VF_LOOP_WIDE
    (fun rm _ a vs2 => soft (f32_sub rm vs2 a))
    (fun rm _ a vs2 => soft (f64_sub rm vs2 a)).
Definition insn_vfwsub_vv : M unit :=
  VI_VFP_VV_LOOP_WIDE
    (fun rm _ a vs2 => soft (f32_sub rm vs2 a))
    (fun rm _ a vs2 => soft (f64_sub rm vs2 a)).
Definition insn_vfwsub_wf : M unit :=
  VI_VFP_WF_LOOP_WIDE
    (fun rm _ a vs2 => soft (f32_sub rm vs2 a))
    (fun rm _ a vs2 => soft (f64_sub rm vs2 a)).
Definition insn_vfwsub_wv : M unit :=
  VI_VFP_WV_LOOP_WIDE
    (fun rm _ a vs2 => soft (f32_sub rm vs2 a))
    (fun rm _ a vs2 => soft (f64_sub rm vs2 a)).

(** * Comparisons *)

Definition insn_vmfeq_vf : M unit :=
  VI_VFP_VF_LOOP_CMP
    (fun a vs2 => soft (f16_eq vs2 a))
    (fun a vs2 => soft (f32_eq vs2 a))
    (fun a vs2 => soft (f64_eq vs2 a)).
Definition insn_vmfeq_vv : M unit :=
  VI_VFP_VV_LOOP_CMP
    (fun a vs2 => soft (f16_eq vs2 a))
    (fun a vs2 => soft (f32_eq vs2 a))
    (fun a vs2 => soft (f64_eq vs2 a)).
Definition insn_vmfge_vf : M unit :=
  VI_VFP_VF_LOOP_CMP
    (fun a vs2 => soft (f16_le a vs2))
    (fun a vs2 => soft (f32_le a vs2))
    (fun a vs2 => soft (f64_le a vs2)).
Definition insn_vmfgt_vf : M unit :=
  VI_VFP_VF_LOOP_CMP
    (fun a vs2 => soft (f16_lt a vs2))
    (fun a vs2 => soft (f32_lt a vs2))
    (fun a vs2 => soft (f64_lt a vs2)).
Definition insn_vmfle_vf : M unit :=
  VI_VFP_VF_LOOP_CMP
    (fun a vs2 => soft (f16_le vs2 a))
    (fun a vs2 => soft (f32_le vs2 a))
    (fun a vs2 => soft (f64_le vs2 a)).
Definition insn_vmfle_vv : M unit :=
  VI_VFP_VV_LOOP_CMP
    (fun a vs2 => soft (f16_le vs2 a))
    (fun a vs2 => soft (f32_le vs2 a))
    (fun a vs2 => soft (f64_le vs2 a)).
Definition insn_vmflt_vf : M unit :=
  VI_VFP_VF_LOOP_CMP
    (fun a vs2 => soft (f16_lt vs2 a))
    (fun a vs2 => soft (f32_lt vs2 a))
    (fun a vs2 => soft (f64_lt vs2 a)).
Definition insn_vmflt_vv : M unit :=
  VI_VFP_VV_LOOP_CMP
    (fun a vs2 => soft (f16_lt vs2 a))
    (fun a vs2 => soft (f32_lt vs2 a))
    (fun a vs2 => soft (f64_lt vs2 a)).
Definition insn_vmfne_vf : M unit :=
  VI_VFP_VF_LOOP_CMP
    (fun a vs2 => let* r := soft (f16_eq vs2 a) in ret (negb r))
    (fun a vs2 => let* r := soft (f32_eq vs2 a) in ret (negb r))
    (fun a vs2 => let* r := soft (f64_eq vs2 a) in ret (negb r)).
Definition insn_vmfne_vv : M unit :=
  VI_VFP_VV_LOOP_CMP
    (fun a vs2 => let* r := soft (f16_eq vs2 a) in ret (negb r))
    (fun a vs2 => let* r := soft (f32_eq vs2 a) in ret (negb r))
    (fun a vs2 => let* r := soft (f64_eq vs2 a) in ret (negb r)).

(** * Reductions *)

Definition insn_vfredmax_vs : M unit :=
  VI_VFP_VV_LOOP_REDUCTION false
    (fun _ vd_0 vs2 => soft (f16_max vd_0 vs2))
    (fun _ vd_0 vs2 => soft (f32_max vd_0 vs2))
    (fun _ vd_0 vs2 => soft (f64_max vd_0 vs2)).
Definition insn_vfredmin_vs : M unit :=
  VI_VFP_VV_LOOP_REDUCTION false
    (fun _ vd_0 vs2 => soft (f16_min vd_0 vs2))
    (fun _ vd_0 vs2 => soft (f32_min vd_0 vs2))
    (fun _ vd_0 vs2 => soft (f64_min vd_0 vs2)).
Definition insn_vfredosum_vs : M unit :=
  VI_VFP_VV_LOOP_REDUCTION false
    (fun rm vd_0 vs2 => soft (f16_add rm vd_0 vs2))
    (fun rm vd_0 vs2 => soft (f32_add rm vd_0 vs2))
    (fun rm vd_0 vs2 => soft (f64_add rm vd_0 vs2)).
Definition insn_vfredusum_vs : M unit :=
  VI_VFP_VV_LOOP_REDUCTION true
    (fun rm vd_0 vs2 => soft (f16_add rm vd_0 vs2))
    (fun rm vd_0 vs2 => soft (f32_add rm vd_0 vs2))
    (fun rm vd_0 vs2 => soft (f64_add rm vd_0 vs2)).
Definition insn_vfwredosum_vs : M unit :=
  VI_VFP_VV_LOOP_WIDE_REDUCTION false
    (fun rm vd_0 vs2 => soft (f32_add rm vd_0 vs2))
    (fun rm vd_0 vs2 => soft (f64_add rm vd_0 vs2)).
Definition insn_vfwredusum_vs : M unit :=
  VI_VFP_VV_LOOP_WIDE_REDUCTION true
    (fun rm vd_0 vs2 => soft (f32_add rm vd_0 vs2))
    (fun rm vd_0 vs2 => soft (f64_add rm vd_0 vs2)).

(** * Conversions *)

Definition insn_vfcvt_f_x_v : M unit :=
  VI_VFP_CVT_INT_TO_FP true
    (fun rm vs2 => soft (i32_to_f16 rm vs2))
    (fun rm vs2 => soft (i32_to_f32 rm vs2))
    (fun rm vs2 => soft (i64_to_f64 rm vs2)).
Definition insn_vfcvt_f_xu_v : M unit :=
  VI_VFP_CVT_INT_TO_FP false
    (fun rm vs2 => soft (ui32_to_f16 rm vs2))
    (fun rm vs2 => soft (ui32_to_f32 rm vs2))
    (fun rm vs2 => soft (ui64_to_f64 rm vs2)).
Definition insn_vfcvt_rtz_x_f_v : M unit :=
  VI_VFP_CVT_FP_TO_INT true
    (fun _ vs2 => soft (f16_to_i16 vs2 softfloat_round_minMag true))
    (fun _ vs2 => soft (f32_to_i32 vs2 softfloat_round_minMag true))
    (fun _ vs2 => soft (f64_to_i64 vs2 softfloat_round_minMag true)).
Definition insn_vfcvt_rtz_xu_f_v : M unit :=
  VI_VFP_CVT_FP_TO_INT false
    (fun _ vs2 => soft (f16_to_ui16 vs2 softfloat_round_minMag true))
    (fun _ vs2 => soft (f32_to_ui32 vs2 softfloat_round_minMag true))
    (fun _ vs2 => soft (f64_to_ui64 vs2 softfloat_round_minMag true)).
Definition insn_vfcvt_x_f_v : M unit :=
  VI_VFP_CVT_FP_TO_INT true
    (fun rm vs2 => soft (f16_to_i16 vs2 rm true))
    (fun rm vs2 => soft (f32_to_i32 vs2 rm true))
    (fun rm vs2 => soft (f64_to_i64 vs2 rm true)).
Definition insn_vfcvt_xu_f_v : M unit :=
  VI_VFP_CVT_FP_TO_INT false
    (fun rm vs2 => soft (f16_to_ui16 vs2 rm true))
    (fun rm vs2 => soft (f32_to_ui32 vs2 rm true))
    (fun rm vs2 => soft (f64_to_ui64 vs2 rm true)).
Definition insn_vfncvt_f_f_w : M unit :=
  VI_VFP_NCVT_FP_TO_FP
    (fun rm vs2 => soft (f32_to_f16 rm vs2))
    (fun rm vs2 => soft (f64_to_f32 rm vs2))
    (require_extension EXT_ZVFHMIN)
    (require_extension ext_D).
Definition insn_vfncvt_f_x_w : M unit :=
  VI_VFP_NCVT_INT_TO_FP true
    (fun rm vs2 => soft (i32_to_f16 rm vs2))
    (fun rm vs2 => soft (i64_to_f32 rm vs2))
    (require_extension EXT_ZVFH)
    (require_extension ext_F).
Definition insn_vfncvt_f_xu_w : M unit :=
  VI_VFP_NCVT_INT_TO_FP false
    (fun rm vs2 => soft (ui32_to_f16 rm vs2))
    (fun rm vs2 => soft (ui64_to_f32 rm vs2))
    (require_extension EXT_ZVFH)
    (require_extension ext_F).
Definition insn_vfncvt_rod_f_f_w : M unit :=
  VI_VFP_NCVT_FP_TO_FP
    (fun _ vs2 => soft (f32_to_f16 softfloat_round_odd vs2))
    (fun _ vs2 => soft (f64_to_f32 softfloat_round_odd vs2))
    (require_extension EXT_ZVFH)
    (require_extension ext_F).
Definition insn_vfncvt_rtz_x_f_w : M unit :=
  VI_VFP_NCVT_FP_TO_INT true
    (fun _ vs2 => soft (f16_to_i8 vs2 softfloat_round_minMag true))
    (fun _ vs2 => soft (f32_to_i16 vs2 softfloat_round_minMag true))
    (fun _ vs2 => soft (f64_to_i32 vs2 softfloat_round_minMag true))
    (require_extension EXT_ZVFH)
    (require_extension ext_F)
    (require_extension ext_D).
Definition insn_vfncvt_rtz_xu_f_w : M unit :=
  VI_VFP_NCVT_FP_TO_INT false
    (fun _ vs2 => soft (f16_to_ui8 vs2 softfloat_round_minMag true))
    (fun _ vs2 => soft (f32_to_ui16 vs2 softfloat_round_minMag true))
    (fun _ vs2 => soft (f64_to_ui32 vs2 softfloat_round_minMag true))
    (require_extension EXT_ZVFH)
    (require_extension ext_F)
    (require_extension ext_D).
Definition insn_vfncvt_x_f_w : M unit :=
  VI_VFP_NCVT_FP_TO_INT true
    (fun rm vs2 => soft (f16_to_i8 vs2 rm true))
    (fun rm vs2 => soft (f32_to_i16 vs2 rm true))
    (fun rm vs2 => soft (f64_to_i32 vs2 rm true))
    (require_extension EXT_ZVFH)
    (require_extension ext_F)
    (require_extension ext_D).
Definition insn_vfncvt_xu_f_w : M unit :=
  VI_VFP_NCVT_FP_TO_INT false
    (fun rm vs2 => soft (f16_to_ui8 vs2 rm true))
    (fun rm vs2 => soft (f32_to_ui16 vs2 rm true))
    (fun rm vs2 => soft (f64_to_ui32 vs2 rm true))
    (require_extension EXT_ZVFH)
    (require_extension ext_F)
    (require_extension ext_D).
Definition insn_vfncvtbf16_f_f_w : M unit :=
  VI_VFP_NCVT_BF16_TO_FP
    (fun rm vs2 => soft (f32_to_bf16 rm vs2))
    (require_extension EXT_ZVFBFMIN).
Definition insn_vfwcvt_f_f_v : M unit :=
  VI_VFP_WCVT_FP_TO_FP
    (fun _ vs2 => soft (f16_to_f32 vs2))
    (fun _ vs2 => soft (f32_to_f64 vs2))
    (require_extension EXT_ZVFHMIN)
    (require_extension ext_D).
Definition insn_vfwcvt_f_x_v : M unit :=
  VI_VFP_WCVT_INT_TO_FP true
    (fun rm vs2 => soft (i32_to_f16 rm vs2))
    (fun rm vs2 => soft (i32_to_f32 rm vs2))
    (fun _ vs2 => ret (i32_to_f64 vs2))
    (require_extension EXT_ZVFH)
    (require_extension ext_F)
    (require_extension ext_D).
Definition insn_vfwcvt_f_xu_v : M unit :=
  VI_VFP_WCVT_INT_TO_FP false
    (fun rm vs2 => soft (ui32_to_f16 rm vs2))
    (fun rm vs2 => soft (ui32_to_f32 rm vs2))
    (fun _ vs2 => ret (ui32_to_f64 vs2))
    (require_extension EXT_ZVFH)
    (require_extension ext_F)
    (require_extension ext_D).
Definition insn_vfwcvt_rtz_x_f_v : M unit :=
  VI_VFP_WCVT_FP_TO_INT true
    (fun _ vs2 => soft (f16_to_i32 vs2 softfloat_round_minMag true))
    (fun _ vs2 => soft (f32_to_i64 vs2 softfloat_round_minMag true))
    (require_extension EXT_ZVFH)
    (require_extension ext_F).
Definition insn_vfwcvt_rtz_xu_f_v : M unit :=
  VI_VFP_WCVT_FP_TO_INT false
    (fun _ vs2 => soft (f16_to_ui32 vs2 softfloat_round_minMag true))
    (fun _ vs2 => soft (f32_to_ui64 vs2 softfloat_round_minMag true))
    (require_extension EXT_ZVFH)
    (require_extension ext_F).
Definition insn_vfwcvt_x_f_v : M unit :=
  VI_VFP_WCVT_FP_TO_INT true
    (fun rm vs2 => soft (f16_to_i32 vs2 rm true))
    (fun rm vs2 => soft (f32_to_i64 vs2 rm true))
    (require_extension EXT_ZVFH)
    (require_extension ext_F).
Definition insn_vfwcvt_xu_f_v : M unit :=
  VI_VFP_WCVT_FP_TO_INT false
    (fun rm vs2 => soft (f16_to_ui32 vs2 rm true))
    (fun rm vs2 => soft (f32_to_ui64 vs2 rm true))
    (require_extension EXT_ZVFH)
    (require_extension ext_F).
Definition insn_vfwcvtbf16_f_f_v : M unit :=
  VI_VFP_WCVT_FP_TO_BF16
    (fun _ vs2 => soft (bf16_to_f32 vs2))
    (require_extension EXT_ZVFBFMIN).

(** * Moves, merges and slides *)

(** [VI_VF_MERGE_LOOP]: the body takes [use_first], [rs1] and [vs2]. *)
Definition VI_VF_MERGE_LOOP (body : bool -> Z -> Z -> Z) : M unit :=
  VI_CHECK_SSS false ;;
  let* _ := VI_VFP_COMMON in
  let* vl := get_vl in
  let* vstart := get_vstart in
  for_loop vstart vl (fun i =>
    let* use_first := mask_elt 0 i in
    let* sew := get_sew in
    let* _ := elt sew rd_num i in
    let* rs1 := vfp_rs1 sew i in
    let* vs2 := elt sew rs2_num i in
    set_elt sew rd_num i (body use_first rs1 vs2)) ;;
  vstart_write 0.
Definition insn_vfmerge_vfm : M unit := VI_VF_MERGE_LOOP (fun use_first rs1 vs2 => if use_first then rs1 else vs2).
Definition insn_vfmv_v_f : M unit := VI_VF_MERGE_LOOP (fun _ rs1 _ => rs1).

Definition FLEN (h : hart) : Z :=
  if extension_enabled h ext_Q then 128 else if extension_enabled h ext_D then 64
  else if extension_enabled h ext_F then 32 else 0.

(** The shift of [UINT64_MAX] by 64, when [FLEN] is 128, is undefined. *)
Definition insn_vfmv_f_s : M unit :=
  let* _ := VI_VFP_COMMON in
  let* sew := get_sew in
  let* vs2_0 := switch_sew [(e16, elt 16 rs2_num 0); (e32, elt 32 rs2_num 0); (e64, elt 64 rs2_num 0)] in
  let* flen := gets FLEN in
  let* vs2_0 := if sew <? flen then assert (sew <? 64) ;; ret (vs2_0 .| shl UINT64_MAX sew) else ret vs2_0 in
  (if flen =? 64 then WRITE_FRD freg64 (ret vs2_0) else WRITE_FRD freg32 (ret (u32 vs2_0))) ;;
  vstart_write 0.

Definition insn_vfmv_s_f : M unit :=
  let* _ := VI_VFP_COMMON in
  let* vl := get_vl in
  let* vstart := get_vstart in
  when ((0 <? vl) && (vstart <? vl))
    (let* sew := get_sew in
     let* frs1 := FRS1 in
     let* flen := gets FLEN in
     if sew =? e16 then set_elt 16 rd_num 0 (unboxF16 frs1)
     else if sew =? e32 then set_elt 32 rd_num 0 (unboxF32 frs1)
     else when (sew =? e64) (set_elt 64 rd_num 0 (if flen =? 64 then unboxF64 frs1 else unboxF32 frs1))) ;;
  vstart_write 0.

(** [FRS1_H], [FRS1_F] or [FRS1_D] by [vsew]. *)
Definition slide_frs1 : M Z := switch_sew [(e16, FRS1_H); (e32, FRS1_F); (e64, FRS1_D)].
Definition insn_vfslide1down_vf : M unit :=
  VI_CHECK_SLIDE false ;;
  VI_VFP_LOOP VI_VFP_COMMON (fun _ i =>
    let* vl := get_vl in
    let* sew := get_sew in
    let* x := if i =? vl - 1 then slide_frs1 else slide_params sew i (i + 1) in set_elt sew rd_num i x).
Definition insn_vfslide1up_vf : M unit :=
  VI_CHECK_SLIDE true ;;
  VI_VFP_LOOP VI_VFP_COMMON (fun _ i =>
    let* sew := get_sew in
    let* x := if i =? 0 then slide_frs1 else slide_params sew i (i - 1) in set_elt sew rd_num i x).

(** * Dot products

    No [set_fp_exceptions] follows: the flags stay in
    [softfloat_exceptionFlags]. *)

Definition f32_add_bulknorm_odd (a b : Z) : M Z :=
  let* h := get_hart in
  let flags := softfloat_exceptionFlags h in
  let '(res, fl) := f32_add softfloat_round_odd a b 0 in
  let res := if z2b (fl .& softfloat_flag_overflow) then u32 (res + 1) else res in
  let new_flags := fl .& (softfloat_flag_overflow .| softfloat_flag_invalid) in
  modify (set_softfloat_exceptionFlags (flags .| new_flags)) ;;
  ret res.

Definition bf16_macc (rm a b c : Z) : M Z :=
  let* a := soft (bf16_to_f32 a) in
  let* b := soft (bf16_to_f32 b) in
  let* p := soft (f32_mul rm a b) in
  f32_add_bulknorm_odd c p.
Definition insn_vfwldot_vv : M unit :=
  let* rm := VI_VFP_BASE in
  ZVLDOT_INIT ;;
  let* u := gets VU in
  if (vsew u =? 16) && z2b (altfmt u) then
    require_extension EXT_ZVFWLDOT16BF ;;
    ZVLDOT_LOOP false false 16 32 (generic_dot_product (bf16_macc rm))
  else require false.
Definition insn_vfwbdot_vv : M unit :=
  let* rm := VI_VFP_BASE in
  let* p := ZVBDOT_INIT 2 in
  let* u := gets VU in
  if (vsew u =? 16) && z2b (altfmt u) then
    require_extension EXT_ZVFWBDOT16BF ;;
    ZVBDOT_LOOP p false false 16 32 (generic_dot_product (bf16_macc rm))
  else require false.
Definition f32_macc (rm a b c : Z) : M Z :=
  let* p := soft (f32_mul rm a b) in soft (f32_add rm c p).
Definition insn_vfbdot_vv : M unit :=
  let* rm := VI_VFP_BASE in
  let* p := ZVBDOT_INIT 1 in
  let* u := gets VU in
  if vsew u =? 32 then
    require_extension EXT_ZVFBDOT32F ;;
    ZVBDOT_LOOP p false false 32 32 (generic_dot_product (f32_macc rm))
  else require false.

End instructions.
