(* ===== verification/InsnsVK.v ===== *)
(** Vector cryptography on element groups: Zvkned, Zvkg, Zvknh, Zvksed and
    Zvksh.  The macros are those of [riscv/zvk_ext_macros.h] and of
    [zvkned_ext_macros.h], [zvknh_ext_macros.h], [zvksed_ext_macros.h] and
    [zvksh_ext_macros.h]; each [insn_<name>] is the body of
    [riscv/insns/<name>.h].

    A group is the list of its elements; [uint32_t] and [uint64_t] results are
    wrapped where they are assigned or rotated. *)

From S2P Require Import Prelude IntArith Decode Encoding IsaExt Trap Hart Pmp Csr CsrFile CsrInit Mmu Macros.
From S2P Require Import InsnsMem InsnsCrypto Vector VMacros InsnsV.

(** * Words of a group *)

Definition word (x : list Z) (i : Z) : Z := nth (Z.to_nat i) x 0.
Definition EXTRACT_EGU32x4_WORDS_LE (x : list Z) : Z * Z * Z * Z := (word x 0, word x 1, word x 2, word x 3).
(** In the order of the macro's parameters, the most significant word first. *)
Definition EXTRACT_EGU32x4_WORDS_BE (x : list Z) : Z * Z * Z * Z := (word x 3, word x 2, word x 1, word x 0).
Definition EXTRACT_EGU64x4_WORDS_BE : list Z -> Z * Z * Z * Z := EXTRACT_EGU32x4_WORDS_BE.
Definition SET_EGU32x4_LE (w0 w1 w2 w3 : Z) : list Z := [w0; w1; w2; w3].
Definition SET_EGU32x4_BE (w3 w2 w1 w0 : Z) : list Z := [w0; w1; w2; w3].
Definition SET_EGU64x4_BE : Z -> Z -> Z -> Z -> list Z := SET_EGU32x4_BE.
Definition ZVK_BSWAP32 (x : Z) : Z :=
  (Z.shiftr x 24 .& 0xFF) .| Z.shiftl (Z.shiftr x 16 .& 0xFF) 8 .|
  Z.shiftl (Z.shiftr x 8 .& 0xFF) 16 .| Z.shiftl (x .& 0xFF) 24.
(** Words of an [EGU32x8_t], byte-swapped, the least significant first. *)
Definition EXTRACT_EGU32x8_WORDS_BE_BSWAP (x : list Z) : list Z := map ZVK_BSWAP32 x.
Definition SET_EGU32x8_WORDS_BE_BSWAP (w7 w6 w5 w4 w3 w2 w1 w0 : Z) : list Z :=
  map ZVK_BSWAP32 [w0; w1; w2; w3; w4; w5; w6; w7].
Definition EGU8x16_XOREQ (a b : list Z) : list Z := map (fun p => fst p .^ snd p) (zip a b).
Definition EGU32x4_XOR : list Z -> list Z -> list Z := EGU8x16_XOREQ.

Definition ZVK_BREV8_32 (x : Z) : Z :=
  let x := swap_bits x 0x55555555 0xaaaaaaaa 1 in
  let x := swap_bits x 0x33333333 0xcccccccc 2 in
  swap_bits x 0x0f0f0f0f 0xf0f0f0f0 4.
Definition EGU32x4_BREV8 (x : list Z) : list Z := map ZVK_BREV8_32 x.
Definition EGU32x4_ISSET (x : list Z) (bidx : Z) : bool := z2b (word x (bidx / 32) .& shl 1 (bidx mod 32)).
Definition EGU32x4_LSHIFT (x : list Z) : list Z :=
  let dword := shl (Z.shiftl (word x 3) 32 .| word x 2) 1 in
  let dword := if z2b (word x 1 .& shl 1 31) then dword .| 1 else dword in
  let x2 := dword .& 0xffffffff in
  let x3 := Z.shiftr dword 32 in
  let dword := shl (Z.shiftl (word x 1) 32 .| word x 0) 1 in
  [dword .& 0xffffffff; Z.shiftr dword 32; x2; x3].
Definition ZVK_ROR32 (x n : Z) : Z := rotate_right 32 x n.
Definition ZVK_ROR64 (x n : Z) : Z := rotate_right 64 x n.
Definition ZVK_ROL32 (x n : Z) : Z := rotate_left 32 x n.

(** * AES *)

Definition VAES_XTIME (a : Z) : Z := Z.shiftl a 1 .^ (if z2b (a .& 0x80) then 0x1b else 0).
Definition VAES_GFMUL (a b : Z) : Z :=
  (if z2b (b .& 0x1) then a else 0) .^
  (if z2b (b .& 0x2) then VAES_XTIME a else 0) .^
  (if z2b (b .& 0x4) then VAES_XTIME (VAES_XTIME a) else 0) .^
  (if z2b (b .& 0x8) then VAES_XTIME (VAES_XTIME (VAES_XTIME a)) else 0).
Definition VAES_SUB_BYTES (state : list Z) : list Z := map (sbox AES_ENC_SBOX) state.
Definition VAES_INV_SUB_BYTES (state : list Z) : list Z := map (sbox AES_DEC_SBOX) state.
(** The byte each position takes after the swaps of the macro. *)
Definition VAES_SHIFT_ROWS (state : list Z) : list Z :=
  map (word state) [0; 5; 10; 15; 4; 9; 14; 3; 8; 13; 2; 7; 12; 1; 6; 11].
Definition VAES_INV_SHIFT_ROWS (state : list Z) : list Z :=
  map (word state) [0; 13; 10; 7; 4; 1; 14; 11; 8; 5; 2; 15; 12; 9; 6; 3].
Definition VAES_MIX_COLUMN_BYTE (a b c d : Z) : Z := u8 (VAES_GFMUL a 0x2 .^ VAES_GFMUL b 0x3 .^ c .^ d).
Definition VAES_INV_MIX_COLUMN_BYTE (a b c d : Z) : Z :=
  u8 (VAES_GFMUL a 0xE .^ VAES_GFMUL b 0xB .^ VAES_GFMUL c 0xD .^ VAES_GFMUL d 0x9).
Definition MIX_COLUMN (byte : Z -> Z -> Z -> Z -> Z) (state : list Z) (col_idx : Z) : list Z :=
  let b k := word state (col_idx * 4 + k) in
  [byte (b 0) (b 1) (b 2) (b 3); byte (b 1) (b 2) (b 3) (b 0);
   byte (b 2) (b 3) (b 0) (b 1); byte (b 3) (b 0) (b 1) (b 2)].
Definition VAES_MIX_COLUMN : list Z -> Z -> list Z := MIX_COLUMN VAES_MIX_COLUMN_BYTE.
Definition VAES_INV_MIX_COLUMN : list Z -> Z -> list Z := MIX_COLUMN VAES_INV_MIX_COLUMN_BYTE.
Definition VAES_MIX_COLUMNS (state : list Z) : list Z := concat (map (VAES_MIX_COLUMN state) (zseq 4)).
Definition VAES_INV_MIX_COLUMNS (state : list Z) : list Z := concat (map (VAES_INV_MIX_COLUMN state) (zseq 4)).

(** The rounds the instructions do, of a state and a round key. *)
Definition vaesdf (state key : list Z) : list Z :=
  EGU8x16_XOREQ (VAES_INV_SUB_BYTES (VAES_INV_SHIFT_ROWS state)) key.
Definition vaesdm (state key : list Z) : list Z :=
  VAES_INV_MIX_COLUMNS (EGU8x16_XOREQ (VAES_INV_SUB_BYTES (VAES_INV_SHIFT_ROWS state)) key).
Definition vaesef (state key : list Z) : list Z :=
  EGU8x16_XOREQ (VAES_SHIFT_ROWS (VAES_SUB_BYTES state)) key.
Definition vaesem (state key : list Z) : list Z :=
  EGU8x16_XOREQ (VAES_MIX_COLUMNS (VAES_SHIFT_ROWS (VAES_SUB_BYTES state))) key.

(** [(temp >> 8) | (temp << 24)], the S-box on the bytes, and the chain of xors
    of the key schedule. *)
Definition RotWord (temp : Z) : Z := Z.shiftr temp 8 .| u32 (Z.shiftl temp 24).
Definition SubWord (temp : Z) : Z :=
  let s k := Z.shiftl (sbox AES_ENC_SBOX (Z.shiftr temp k .& 0xFF)) k in s 24 .| s 16 .| s 8 .| s 0.
Definition key_chain (w : list Z) (temp : Z) : list Z :=
  let w0 := word w 0 .^ temp in
  let w1 := word w 1 .^ w0 in
  let w2 := word w 2 .^ w1 in
  let w3 := word w 3 .^ w2 in
  SET_EGU32x4_LE w0 w1 w2 w3.
Definition vaeskf1 (zimm5 : Z) (vs2 : list Z) : list Z :=
  let kRoundConstants := [0x01; 0x02; 0x04; 0x08; 0x10; 0x20; 0x40; 0x80; 0x1b; 0x36] in
  let zimm4 := zimm5 .& 0xF in
  let round := if (1 <=? zimm4) && (zimm4 <=? 10) then zimm4 else zimm4 .^ 0x8 in
  let rcon := word kRoundConstants (round - 1) in
  key_chain vs2 (SubWord (RotWord (word vs2 3)) .^ rcon).
Definition vaeskf2 (zimm5 : Z) (vd vs2 : list Z) : list Z :=
  let kRoundConstants := [0x01; 0x02; 0x04; 0x08; 0x10; 0x20; 0x40] in
  let zimm4 := zimm5 .& 0xF in
  let round := if (2 <=? zimm4) && (zimm4 <=? 14) then zimm4 else zimm4 .^ 0x8 in
  let temp := word vs2 3 in
  let is_even_round := round .& 0x1 =? 0 in
  let temp := if is_even_round then RotWord temp else temp in
  let temp := SubWord temp in
  let temp := if is_even_round then temp .^ word kRoundConstants (Z.shiftr round 1 - 1) else temp in
  key_chain vd temp.

(** * GHASH *)

(** The loop on the 128 bits: [Z] and [H] after it, from the multiplier [S]. *)
Definition ghash_step (S : list Z) (ZH : list Z * list Z) (bit : Z) : list Z * list Z :=
  let '(Z, H) := ZH in
  let Z := if EGU32x4_ISSET S bit then EGU32x4_XOR Z H else Z in
  let reduce := EGU32x4_ISSET H 127 in
  let H := EGU32x4_LSHIFT H in
  let H := if reduce then match H with h0 :: H => (h0 .^ 0x87) :: H | [] => [] end else H in
  (Z, H).
Definition ghash_loop (S H : list Z) : list Z :=
  fst (fold_left (ghash_step S) (zseq 128) ([0; 0; 0; 0], H)).
Definition vghsh (vd vs1 vs2 : list Z) : list Z :=
  EGU32x4_BREV8 (ghash_loop (EGU32x4_BREV8 (EGU32x4_XOR vd vs1)) (EGU32x4_BREV8 vs2)).
Definition vgmul (vd vs2 : list Z) : list Z :=
  EGU32x4_BREV8 (ghash_loop (EGU32x4_BREV8 vd) (EGU32x4_BREV8 vs2)).

(** * SHA-2 *)

Definition ZVK_SHA_CH (x y z : Z) : Z := (x .& y) .^ (Z.lnot x .& z).
Definition ZVK_SHA_MAJ (x y z : Z) : Z := (x .& y) .^ (x .& z) .^ (y .& z).
Definition ZVK_SHA256_SUM0 (x : Z) : Z := ZVK_ROR32 x 2 .^ ZVK_ROR32 x 13 .^ ZVK_ROR32 x 22.
Definition ZVK_SHA256_SUM1 (x : Z) : Z := ZVK_ROR32 x 6 .^ ZVK_ROR32 x 11 .^ ZVK_ROR32 x 25.
Definition ZVK_SHA256_SIG0 (x : Z) : Z := ZVK_ROR32 x 7 .^ ZVK_ROR32 x 18 .^ Z.shiftr x 3.
Definition ZVK_SHA256_SIG1 (x : Z) : Z := ZVK_ROR32 x 17 .^ ZVK_ROR32 x 19 .^ Z.shiftr x 10.
Definition ZVK_SHA512_SUM0 (x : Z) : Z := ZVK_ROR64 x 28 .^ ZVK_ROR64 x 34 .^ ZVK_ROR64 x 39.
Definition ZVK_SHA512_SUM1 (x : Z) : Z := ZVK_ROR64 x 14 .^ ZVK_ROR64 x 18 .^ ZVK_ROR64 x 41.
Definition ZVK_SHA512_SIG0 (x : Z) : Z := ZVK_ROR64 x 1 .^ ZVK_ROR64 x 8 .^ Z.shiftr x 7.
Definition ZVK_SHA512_SIG1 (x : Z) : Z := ZVK_ROR64 x 19 .^ ZVK_ROR64 x 61 .^ Z.shiftr x 6.
Definition ZVK_SHA256_SCHEDULE (w14 w9 w1 w0 : Z) : Z := u32 (ZVK_SHA256_SIG1 w14 + w9 + ZVK_SHA256_SIG0 w1 + w0).
Definition ZVK_SHA512_SCHEDULE (w14 w9 w1 w0 : Z) : Z := u64 (ZVK_SHA512_SIG1 w14 + w9 + ZVK_SHA512_SIG0 w1 + w0).

(** One round on the temporaries [A .. H], for words of [w] bits. *)
Definition sha_state : Type := Z * Z * Z * Z * Z * Z * Z * Z.
Definition SHA_COMPRESS (w : Z) (SUM0 SUM1 : Z -> Z) (s : sha_state) (kw : Z) : sha_state :=
  let '(a, b, c, d, e, f, g, h) := s in
  let t1 := wrap w (h + SUM1 e + ZVK_SHA_CH e f g + kw) in
  let t2 := wrap w (SUM0 a + ZVK_SHA_MAJ a b c) in
  (wrap w (t1 + t2), a, b, c, wrap w (d + t1), e, f, g).
Definition ZVK_SHA256_COMPRESS : sha_state -> Z -> sha_state := SHA_COMPRESS 32 ZVK_SHA256_SUM0 ZVK_SHA256_SUM1.
Definition ZVK_SHA512_COMPRESS : sha_state -> Z -> sha_state := SHA_COMPRESS 64 ZVK_SHA512_SUM0 ZVK_SHA512_SUM1.

(** Two rounds, with the high or the low two words of [vs1]. *)
Definition vsha2c (COMPRESS : sha_state -> Z -> sha_state) (high : bool) (vd vs1 vs2 : list Z) : list Z :=
  let '(c, d, g, h) := EXTRACT_EGU32x4_WORDS_BE vd in
  let '(a, b, e, f) := EXTRACT_EGU32x4_WORDS_BE vs2 in
  let '(kw3, kw2, kw1, kw0) := EXTRACT_EGU32x4_WORDS_BE vs1 in
  let s := COMPRESS (a, b, c, d, e, f, g, h) (if high then kw2 else kw0) in
  let '(a, b, _, _, e, f, _, _) := COMPRESS s (if high then kw3 else kw1) in
  SET_EGU32x4_BE a b e f.
Definition vsha2ms (SCHEDULE : Z -> Z -> Z -> Z -> Z) (vd vs1 vs2 : list Z) : list Z :=
  let '(w3, w2, w1, w0) := EXTRACT_EGU32x4_WORDS_BE vd in
  let '(w11, w10, w9, w4) := EXTRACT_EGU32x4_WORDS_BE vs2 in
  let '(w15, w14, _, w12) := EXTRACT_EGU32x4_WORDS_BE vs1 in
  let w16 := SCHEDULE w14 w9 w1 w0 in
  let w17 := SCHEDULE w15 w10 w2 w1 in
  let w18 := SCHEDULE w16 w11 w3 w2 in
  let w19 := SCHEDULE w17 w12 w4 w3 in
  SET_EGU32x4_BE w19 w18 w17 w16.

(** * SM3 *)

Definition FF1 (x y z : Z) : Z := x .^ y .^ z.
Definition FF2 (x y z : Z) : Z := (x .& y) .| (x .& z) .| (y .& z).
Definition ZVKSH_FF (x y z j : Z) : Z := if j <=? 15 then FF1 x y z else FF2 x y z.
Definition GG1 (x y z : Z) : Z := x .^ y .^ z.
Definition GG2 (x y z : Z) : Z := (x .& y) .| (Z.lnot x .& z).
Definition ZVKSH_GG (x y z j : Z) : Z := if j <=? 15 then GG1 x y z else GG2 x y z.
Definition ZVKSH_T (j : Z) : Z := if j <=? 15 then 0x79CC4519 else 0x7A879D8A.
Definition ZVKSH_P0 (x : Z) : Z := x .^ ZVK_ROL32 x 9 .^ ZVK_ROL32 x 17.
Definition ZVKSH_P1 (x : Z) : Z := x .^ ZVK_ROL32 x 15 .^ ZVK_ROL32 x 23.
Definition ZVKSH_W (m16 m9 m3 m13 m6 : Z) : Z :=
  ZVKSH_P1 (m16 .^ m9 .^ ZVK_ROL32 m3 15) .^ ZVK_ROL32 m13 7 .^ m6.

(** One of the two rounds of [vsm3c]: the new [A] and [E]. *)
Definition vsm3c_round (A B C D E F G H j x w : Z) : Z * Z :=
  let ss1 := ZVK_ROL32 (u32 (ZVK_ROL32 A 12 + E + ZVK_ROL32 (ZVKSH_T j) (j mod 32))) 7 in
  let ss2 := ss1 .^ ZVK_ROL32 A 12 in
  let tt1 := u32 (ZVKSH_FF A B C j + D + ss2 + x) in
  let tt2 := u32 (ZVKSH_GG E F G j + H + ss1 + w) in
  (tt1, ZVKSH_P0 tt2).
Definition vsm3c (round : Z) (vd vs2 : list Z) : list Z :=
  let v := EXTRACT_EGU32x8_WORDS_BE_BSWAP vd in
  let '(A, B, C, D, E, F, G, H) := (word v 0, word v 1, word v 2, word v 3, word v 4, word v 5, word v 6, word v 7) in
  let w := EXTRACT_EGU32x8_WORDS_BE_BSWAP vs2 in
  let '(w0, w1, w4, w5) := (word w 0, word w 1, word w 4, word w 5) in
  let x0 := w0 .^ w4 in
  let x1 := w1 .^ w5 in
  let '(A1, E1) := vsm3c_round A B C D E F G H (2 * round) x0 w0 in
  let C1 := ZVK_ROL32 B 9 in
  let G1 := ZVK_ROL32 F 19 in
  let '(A2, E2) := vsm3c_round A1 A C1 C E1 E G1 G (2 * round + 1) x1 w1 in
  let C2 := ZVK_ROL32 A 9 in
  let G2 := ZVK_ROL32 E 19 in
  SET_EGU32x8_WORDS_BE_BSWAP G1 G2 E1 E2 C1 C2 A1 A2.
Definition vsm3me (vs1 vs2 : list Z) : list Z :=
  let a := word (EXTRACT_EGU32x8_WORDS_BE_BSWAP vs1) in
  let b := word (EXTRACT_EGU32x8_WORDS_BE_BSWAP vs2) in
  let '(w0, w1, w2, w3, w4, w5, w6, w7) := (a 0, a 1, a 2, a 3, a 4, a 5, a 6, a 7) in
  let '(w8, w9, w10, w11, w12, w13, w14, w15) := (b 0, b 1, b 2, b 3, b 4, b 5, b 6, b 7) in
  let w16 := ZVKSH_W w0 w7 w13 w3 w10 in
  let w17 := ZVKSH_W w1 w8 w14 w4 w11 in
  let w18 := ZVKSH_W w2 w9 w15 w5 w12 in
  let w19 := ZVKSH_W w3 w10 w16 w6 w13 in
  let w20 := ZVKSH_W w4 w11 w17 w7 w14 in
  let w21 := ZVKSH_W w5 w12 w18 w8 w15 in
  let w22 := ZVKSH_W w6 w13 w19 w9 w16 in
  let w23 := ZVKSH_W w7 w14 w20 w10 w17 in
  SET_EGU32x8_WORDS_BE_BSWAP w23 w22 w21 w20 w19 w18 w17 w16.

(** * SM4 *)

Definition zvksed_ck : list Z :=
  [0x00070E15; 0x1C232A31; 0x383F464D; 0x545B6269; 0x70777E85; 0x8C939AA1; 0xA8AFB6BD; 0xC4CBD2D9;
   0xE0E7EEF5; 0xFC030A11; 0x181F262D; 0x343B4249; 0x50575E65; 0x6C737A81; 0x888F969D; 0xA4ABB2B9;
   0xC0C7CED5; 0xDCE3EAF1; 0xF8FF060D; 0x141B2229; 0x30373E45; 0x4C535A61; 0x686F767D; 0x848B9299;
   0xA0A7AEB5; 0xBCC3CAD1; 0xD8DFE6ED; 0xF4FB0209; 0x10171E25; 0x2C333A41; 0x484F565D; 0x646B7279].
Definition ZVKSED_EXTRACT_U8 (x byte_idx : Z) : Z := u8 (Z.shiftr x (byte_idx * 8)).
Definition ZVKSED_SUB_BYTES (b : Z) : Z :=
  let s k := Z.shiftl (sbox sm4_sbox (ZVKSED_EXTRACT_U8 b k)) (8 * k) in s 0 .| s 1 .| s 2 .| s 3.
Definition ZVKSED_ROUND (x s : Z) : Z :=
  x .^ (s .^ ZVK_ROL32 s 2 .^ ZVK_ROL32 s 10 .^ ZVK_ROL32 s 18 .^ ZVK_ROL32 s 24).
Definition ZVKSED_ROUND_KEY (x s : Z) : Z := x .^ (s .^ ZVK_ROL32 s 13 .^ ZVK_ROL32 s 23).

(** Four steps, each on the last four words and a key word. *)
Definition sm4_rounds (ROUND : Z -> Z -> Z) (x k : list Z) : list Z :=
  let '(x0, x1, x2, x3) := EXTRACT_EGU32x4_WORDS_LE x in
  let '(k0, k1, k2, k3) := EXTRACT_EGU32x4_WORDS_LE k in
  let x4 := ROUND x0 (ZVKSED_SUB_BYTES (x1 .^ x2 .^ x3 .^ k0)) in
  let x5 := ROUND x1 (ZVKSED_SUB_BYTES (x2 .^ x3 .^ x4 .^ k1)) in
  let x6 := ROUND x2 (ZVKSED_SUB_BYTES (x3 .^ x4 .^ x5 .^ k2)) in
  let x7 := ROUND x3 (ZVKSED_SUB_BYTES (x4 .^ x5 .^ x6 .^ k3)) in
  SET_EGU32x4_LE x4 x5 x6 x7.
Definition vsm4k (zimm5 : Z) (vs2 : list Z) : list Z :=
  let round := zimm5 .& 0x7 in
  sm4_rounds ZVKSED_ROUND_KEY vs2 (map (fun k => word zvksed_ck (4 * round + k)) (zseq 4)).
Definition vsm4r (state keys : list Z) : list Z := sm4_rounds ZVKSED_ROUND state keys.

Section instructions.
Context `{!config, !simif, !trigger_module, !insn_ctx}.

(** * Checks *)

Definition require_zvkg : M unit := require_vector true ;; require_extension EXT_ZVKG.
Definition require_zvkned : M unit := require_vector true ;; require_extension EXT_ZVKNED.
Definition require_zvknh_256 : M unit := require_vector true ;; require_either_extension EXT_ZVKNHA EXT_ZVKNHB.
Definition require_zvknh_512 : M unit := require_vector true ;; require_extension EXT_ZVKNHB.
Definition require_zvksed : M unit := require_vector true ;; require_extension EXT_ZVKSED.
Definition require_zvksh : M unit := require_vector true ;; require_extension EXT_ZVKSH.
Definition require_no_vmask : M unit := require (Insn.v_vm insn =? 1).
Definition require_egw_fits (EGW : Z) : M unit := require_state (fun h => EGW * FL <=? VLEN * vflmul (VU h)).
Definition require_vs2_align_eglmul (EGW : Z) : M unit :=
  let vfeglmul := EGW / VLEN in when (1 <? vfeglmul) (require_align rs2_num vfeglmul).
Definition require_noover_eglmul (vd vs2 : Z) : M unit :=
  let* lmul := get_flmul in
  let vd_emul := if lmul <? FL then 1 else fl_int lmul in
  require (negb (vd / vd_emul =? vs2 / vd_emul)).
(** [require_element_groups_32x4], [32x8] and [64x4]: [vstart] and [vl] are
    multiples of the elements of a group. *)
Definition require_element_groups (EGS : Z) : M unit :=
  require_state (fun h => vstart_read h mod EGS =? 0) ;;
  require_state (fun h => vl_read h mod EGS =? 0).
Definition require_vl_groups (EGS : Z) : M unit := require_state (fun h => vl_read h mod EGS =? 0).
Definition require_sew_32 : M unit := require_state (fun h => vsew (VU h) =? 32).

(** * Loops on groups

    [EGS] elements of [w] bits; the body gives the new group of [vd]. *)

Definition ZVK_LOOP {A} (EGS : Z) (preloop : M A) (body : A -> Z -> M unit) : M unit :=
  require_element_groups EGS ;;
  require_no_vmask ;;
  let* vstart := get_vstart in
  let* vl := get_vl in
  let vstart_eg := vstart / EGS in
  let vl_eg := vl / EGS in
  when (vstart_eg <? vl_eg)
    (let* a := preloop in for_loop vstart_eg vl_eg (body a)) ;;
  vstart_write 0.
Definition VD_VS1_VS2_LOOP (w EGS : Z) (body : list Z -> list Z -> list Z -> list Z) : M unit :=
  ZVK_LOOP EGS (ret tt) (fun _ idx_eg =>
    let* vd := elt_group w EGS rd_num idx_eg in
    let* vs1 := elt_group w EGS rs1_num idx_eg in
    let* vs2 := elt_group w EGS rs2_num idx_eg in
    set_elt_group w EGS rd_num idx_eg (body vd vs1 vs2)).
Definition VI_ZVK_VD_VS1_VS2_EGU32x4_NOVM_LOOP := VD_VS1_VS2_LOOP 32 4.
Definition VI_ZVK_VD_VS1_VS2_EGU32x8_NOVM_LOOP := VD_VS1_VS2_LOOP 32 8.
Definition VI_ZVK_VD_VS1_VS2_EGU64x4_NOVM_LOOP := VD_VS1_VS2_LOOP 64 4.
Definition VD_VS2_LOOP (w EGS : Z) (body : list Z -> list Z -> list Z) : M unit :=
  ZVK_LOOP EGS (ret tt) (fun _ idx_eg =>
    let* vd := elt_group w EGS rd_num idx_eg in
    let* vs2 := elt_group w EGS rs2_num idx_eg in
    set_elt_group w EGS rd_num idx_eg (body vd vs2)).
Definition VI_ZVK_VD_VS2_EGU32x4_NOVM_LOOP := VD_VS2_LOOP 32 4.
(** With [zimm5]. *)
Definition VI_ZVK_VD_VS2_ZIMM5_EGU32x4_NOVM_LOOP (body : Z -> list Z -> list Z -> list Z) : M unit :=
  VD_VS2_LOOP 32 4 (body (Insn.v_zimm5 insn)).
Definition VI_ZVK_VD_VS2_ZIMM5_EGU32x8_NOVM_LOOP (body : Z -> list Z -> list Z -> list Z) : M unit :=
  VD_VS2_LOOP 32 8 (body (Insn.v_zimm5 insn)).

(** * AES *)

Definition require_vaes_vs_constraints : M unit :=
  require_zvkned ;; require_vl_groups 4 ;; require_sew_32 ;; require_egw_fits 128 ;;
  (let* lmul := get_flmul in require_align rd_num (fl_int lmul)) ;;
  require_vs2_align_eglmul 128 ;;
  require_noover_eglmul rd_num rs2_num.
Definition require_vaes_vv_constraints : M unit :=
  require_zvkned ;; require_vl_groups 4 ;; require_sew_32 ;; require_egw_fits 128 ;; VI_CHECK_SSS false.
Definition require_vaeskf_vi_constraints : M unit :=
  require_zvkned ;; require_element_groups 4 ;; require_sew_32 ;; require_egw_fits 128 ;; VI_CHECK_SSS false.

(** With the key of the first group of [vs2], on groups of [N] elements of [w]
    bits, and with a key for each group. *)
Definition scalar_key_loop (w N : Z) (round : list Z -> list Z -> list Z) : M unit :=
  ZVK_LOOP 4 (elt_group w N rs2_num 0) (fun scalar_key idx_eg =>
    let* state := elt_group w N rd_num idx_eg in
    set_elt_group w N rd_num idx_eg (round state scalar_key)).
Definition vaes_vs (round : list Z -> list Z -> list Z) : M unit :=
  require_vaes_vs_constraints ;; scalar_key_loop 8 16 round.
Definition vaes_vv (round : list Z -> list Z -> list Z) : M unit :=
  require_vaes_vv_constraints ;;
  ZVK_LOOP 4 (ret tt) (fun _ idx_eg =>
    let* aes_state := elt_group 8 16 rd_num idx_eg in
    let* round_key := elt_group 8 16 rs2_num idx_eg in
    set_elt_group 8 16 rd_num idx_eg (round aes_state round_key)).
Definition insn_vaesdf_vs : M unit := vaes_vs vaesdf.
Definition insn_vaesdf_vv : M unit := vaes_vv vaesdf.
Definition insn_vaesdm_vs : M unit := vaes_vs vaesdm.
Definition insn_vaesdm_vv : M unit := vaes_vv vaesdm.
Definition insn_vaesef_vs : M unit := vaes_vs vaesef.
Definition insn_vaesef_vv : M unit := vaes_vv vaesef.
Definition insn_vaesem_vs : M unit := vaes_vs vaesem.
Definition insn_vaesem_vv : M unit := vaes_vv vaesem.
Definition insn_vaesz_vs : M unit := vaes_vs EGU8x16_XOREQ.
Definition insn_vaeskf1_vi : M unit :=
  require_vaeskf_vi_constraints ;; VI_ZVK_VD_VS2_ZIMM5_EGU32x4_NOVM_LOOP (fun zimm5 _ vs2 => vaeskf1 zimm5 vs2).
Definition insn_vaeskf2_vi : M unit :=
  require_vaeskf_vi_constraints ;; VI_ZVK_VD_VS2_ZIMM5_EGU32x4_NOVM_LOOP vaeskf2.

(** * GHASH, SHA-2, SM3 and SM4 *)

Definition require_ghash (is_vs1 : bool) : M unit :=
  require_zvkg ;; require_sew_32 ;; require_egw_fits 128 ;; require_vl_groups 4 ;; VI_CHECK_SSS is_vs1.
Definition insn_vghsh_vv : M unit := require_ghash true ;; VI_ZVK_VD_VS1_VS2_EGU32x4_NOVM_LOOP vghsh.
Definition insn_vgmul_vv : M unit := require_ghash false ;; VI_ZVK_VD_VS2_EGU32x4_NOVM_LOOP vgmul.

Definition require_vsha2_common_constraints : M unit :=
  VI_CHECK_SSS true ;;
  require_state (fun h => (vsew (VU h) =? 32) || (vsew (VU h) =? 64)) ;;
  require (negb (rd_num =? rs1_num)) ;;
  require (negb (rd_num =? rs2_num)).
Definition require_vsha2_vsew32_constraints : M unit := require_zvknh_256 ;; require_egw_fits 128.
Definition require_vsha2_vsew64_constraints : M unit := require_zvknh_512 ;; require_egw_fits 256.
Definition vsha2 (body32 body64 : list Z -> list Z -> list Z -> list Z) : M unit :=
  require_vsha2_common_constraints ;;
  let* sew := get_sew in
  if sew =? e32 then require_vsha2_vsew32_constraints ;; VI_ZVK_VD_VS1_VS2_EGU32x4_NOVM_LOOP body32
  else if sew =? e64 then require_vsha2_vsew64_constraints ;; VI_ZVK_VD_VS1_VS2_EGU64x4_NOVM_LOOP body64
  else require false.
Definition insn_vsha2ch_vv : M unit := vsha2 (vsha2c ZVK_SHA256_COMPRESS true) (vsha2c ZVK_SHA512_COMPRESS true).
Definition insn_vsha2cl_vv : M unit := vsha2 (vsha2c ZVK_SHA256_COMPRESS false) (vsha2c ZVK_SHA512_COMPRESS false).
Definition insn_vsha2ms_vv : M unit := vsha2 (vsha2ms ZVK_SHA256_SCHEDULE) (vsha2ms ZVK_SHA512_SCHEDULE).

Definition require_vsm3_constraints : M unit :=
  require_zvksh ;; require_sew_32 ;; require_egw_fits 256 ;; require_element_groups 8 ;;
  require (negb (rd_num =? rs2_num)).
Definition insn_vsm3c_vi : M unit :=
  require_vsm3_constraints ;; VI_CHECK_SSS false ;; VI_ZVK_VD_VS2_ZIMM5_EGU32x8_NOVM_LOOP vsm3c.
Definition insn_vsm3me_vv : M unit :=
  require_vsm3_constraints ;; VI_CHECK_SSS true ;;
  VI_ZVK_VD_VS1_VS2_EGU32x8_NOVM_LOOP (fun _ vs1 vs2 => vsm3me vs1 vs2).

Definition require_vsm4_constraints : M unit :=
  require_zvksed ;; require_sew_32 ;; require_egw_fits 128 ;; require_element_groups 4.
Definition insn_vsm4k_vi : M unit :=
  require_vsm4_constraints ;; VI_CHECK_SSS false ;;
  VI_ZVK_VD_VS2_ZIMM5_EGU32x4_NOVM_LOOP (fun zimm5 _ vs2 => vsm4k zimm5 vs2).
Definition insn_vsm4r_vs : M unit :=
  require_vsm4_constraints ;;
  (let* lmul := get_flmul in require_align rd_num (fl_int lmul)) ;;
  require_vs2_align_eglmul 128 ;;
  require_noover_eglmul rd_num rs2_num ;;
  scalar_key_loop 32 4 vsm4r.
Definition insn_vsm4r_vv : M unit :=
  require_vsm4_constraints ;; VI_CHECK_SSS false ;; VI_ZVK_VD_VS2_EGU32x4_NOVM_LOOP vsm4r.

End instructions.
