(* ===== verification/InsnTable.v ===== *)
(** The instruction functions by name: what [insn_template.cc] is instantiated
    with.  The one instruction whose body is outside the development, [fsqrt.q],
    is left to the parameter [other_insn]. *)

From S2P Require Import Prelude Hart Macros.
From S2P Require Import InsnsInt InsnsMem InsnsPriv InsnsC InsnsCrypto InsnsFp InsnsVMem InsnsV InsnsVFp InsnsVK.

Section table.
Context `{!config, !simif, !trigger_module}.

Definition insn_body : Type := insn_ctx -> M unit.

Definition insn_bodies : list (string * insn_body) := [
  ("add"%string, fun c : insn_ctx => insn_add);
  ("addi"%string, fun c : insn_ctx => insn_addi);
  ("addiw"%string, fun c : insn_ctx => insn_addiw);
  ("addw"%string, fun c : insn_ctx => insn_addw);
  ("and"%string, fun c : insn_ctx => insn_and);
  ("andi"%string, fun c : insn_ctx => insn_andi);
  ("auipc"%string, fun c : insn_ctx => insn_auipc);
  ("beq"%string, fun c : insn_ctx => insn_beq);
  ("bge"%string, fun c : insn_ctx => insn_bge);
  ("bgeu"%string, fun c : insn_ctx => insn_bgeu);
  ("blt"%string, fun c : insn_ctx => insn_blt);
  ("bltu"%string, fun c : insn_ctx => insn_bltu);
  ("bne"%string, fun c : insn_ctx => insn_bne);
  ("jal"%string, fun c : insn_ctx => insn_jal);
  ("jalr"%string, fun c : insn_ctx => insn_jalr);
  ("lb"%string, fun c : insn_ctx => insn_lb);
  ("lbu"%string, fun c : insn_ctx => insn_lbu);
  ("ld"%string, fun c : insn_ctx => insn_ld);
  ("lh"%string, fun c : insn_ctx => insn_lh);
  ("lhu"%string, fun c : insn_ctx => insn_lhu);
  ("lui"%string, fun c : insn_ctx => insn_lui);
  ("lw"%string, fun c : insn_ctx => insn_lw);
  ("lwu"%string, fun c : insn_ctx => insn_lwu);
  ("or"%string, fun c : insn_ctx => insn_or);
  ("ori"%string, fun c : insn_ctx => insn_ori);
  ("sb"%string, fun c : insn_ctx => insn_sb);
  ("sd"%string, fun c : insn_ctx => insn_sd);
  ("sh"%string, fun c : insn_ctx => insn_sh);
  ("sll"%string, fun c : insn_ctx => insn_sll);
  ("slli"%string, fun c : insn_ctx => insn_slli);
  ("slliw"%string, fun c : insn_ctx => insn_slliw);
  ("sllw"%string, fun c : insn_ctx => insn_sllw);
  ("slt"%string, fun c : insn_ctx => insn_slt);
  ("slti"%string, fun c : insn_ctx => insn_slti);
  ("sltiu"%string, fun c : insn_ctx => insn_sltiu);
  ("sltu"%string, fun c : insn_ctx => insn_sltu);
  ("sra"%string, fun c : insn_ctx => insn_sra);
  ("srai"%string, fun c : insn_ctx => insn_srai);
  ("sraiw"%string, fun c : insn_ctx => insn_sraiw);
  ("sraw"%string, fun c : insn_ctx => insn_sraw);
  ("srl"%string, fun c : insn_ctx => insn_srl);
  ("srli"%string, fun c : insn_ctx => insn_srli);
  ("srliw"%string, fun c : insn_ctx => insn_srliw);
  ("srlw"%string, fun c : insn_ctx => insn_srlw);
  ("sub"%string, fun c : insn_ctx => insn_sub);
  ("subw"%string, fun c : insn_ctx => insn_subw);
  ("sw"%string, fun c : insn_ctx => insn_sw);
  ("xor"%string, fun c : insn_ctx => insn_xor);
  ("xori"%string, fun c : insn_ctx => insn_xori);
  ("fence"%string, fun c : insn_ctx => insn_fence);
  ("fence_i"%string, fun c : insn_ctx => insn_fence_i);
  ("c_add"%string, fun c : insn_ctx => insn_c_add);
  ("c_addi"%string, fun c : insn_ctx => insn_c_addi);
  ("c_addi4spn"%string, fun c : insn_ctx => insn_c_addi4spn);
  ("c_addw"%string, fun c : insn_ctx => insn_c_addw);
  ("c_and"%string, fun c : insn_ctx => insn_c_and);
  ("c_andi"%string, fun c : insn_ctx => insn_c_andi);
  ("c_beqz"%string, fun c : insn_ctx => insn_c_beqz);
  ("c_bnez"%string, fun c : insn_ctx => insn_c_bnez);
  ("c_ebreak"%string, fun c : insn_ctx => insn_c_ebreak);
  ("c_fld"%string, fun c : insn_ctx => insn_c_fld);
  ("c_fldsp"%string, fun c : insn_ctx => insn_c_fldsp);
  ("c_flw"%string, fun c : insn_ctx => insn_c_flw);
  ("c_flwsp"%string, fun c : insn_ctx => insn_c_flwsp);
  ("c_fsd"%string, fun c : insn_ctx => insn_c_fsd);
  ("c_fsdsp"%string, fun c : insn_ctx => insn_c_fsdsp);
  ("c_fsw"%string, fun c : insn_ctx => insn_c_fsw);
  ("c_fswsp"%string, fun c : insn_ctx => insn_c_fswsp);
  ("c_j"%string, fun c : insn_ctx => insn_c_j);
  ("c_jal"%string, fun c : insn_ctx => insn_c_jal);
  ("c_jalr"%string, fun c : insn_ctx => insn_c_jalr);
  ("c_jr"%string, fun c : insn_ctx => insn_c_jr);
  ("c_li"%string, fun c : insn_ctx => insn_c_li);
  ("c_lui"%string, fun c : insn_ctx => insn_c_lui);
  ("c_ld"%string, fun c : insn_ctx => insn_c_ld);
  ("c_ldsp"%string, fun c : insn_ctx => insn_c_ldsp);
  ("c_lw"%string, fun c : insn_ctx => insn_c_lw);
  ("c_lwsp"%string, fun c : insn_ctx => insn_c_lwsp);
  ("c_mv"%string, fun c : insn_ctx => insn_c_mv);
  ("c_or"%string, fun c : insn_ctx => insn_c_or);
  ("c_slli"%string, fun c : insn_ctx => insn_c_slli);
  ("c_srai"%string, fun c : insn_ctx => insn_c_srai);
  ("c_srli"%string, fun c : insn_ctx => insn_c_srli);
  ("c_sub"%string, fun c : insn_ctx => insn_c_sub);
  ("c_subw"%string, fun c : insn_ctx => insn_c_subw);
  ("c_sd"%string, fun c : insn_ctx => insn_c_sd);
  ("c_sdsp"%string, fun c : insn_ctx => insn_c_sdsp);
  ("c_sw"%string, fun c : insn_ctx => insn_c_sw);
  ("c_swsp"%string, fun c : insn_ctx => insn_c_swsp);
  ("c_xor"%string, fun c : insn_ctx => insn_c_xor);
  ("fadd_s"%string, fun c : insn_ctx => insn_fadd_s);
  ("fclass_s"%string, fun c : insn_ctx => insn_fclass_s);
  ("fcvt_l_s"%string, fun c : insn_ctx => insn_fcvt_l_s);
  ("fcvt_lu_s"%string, fun c : insn_ctx => insn_fcvt_lu_s);
  ("fcvt_s_l"%string, fun c : insn_ctx => insn_fcvt_s_l);
  ("fcvt_s_lu"%string, fun c : insn_ctx => insn_fcvt_s_lu);
  ("fcvt_s_w"%string, fun c : insn_ctx => insn_fcvt_s_w);
  ("fcvt_s_wu"%string, fun c : insn_ctx => insn_fcvt_s_wu);
  ("fcvt_w_s"%string, fun c : insn_ctx => insn_fcvt_w_s);
  ("fcvt_wu_s"%string, fun c : insn_ctx => insn_fcvt_wu_s);
  ("fdiv_s"%string, fun c : insn_ctx => insn_fdiv_s);
  ("feq_s"%string, fun c : insn_ctx => insn_feq_s);
  ("fle_s"%string, fun c : insn_ctx => insn_fle_s);
  ("flt_s"%string, fun c : insn_ctx => insn_flt_s);
  ("flw"%string, fun c : insn_ctx => insn_flw);
  ("fmadd_s"%string, fun c : insn_ctx => insn_fmadd_s);
  ("fmax_s"%string, fun c : insn_ctx => insn_fmax_s);
  ("fmin_s"%string, fun c : insn_ctx => insn_fmin_s);
  ("fmsub_s"%string, fun c : insn_ctx => insn_fmsub_s);
  ("fmul_s"%string, fun c : insn_ctx => insn_fmul_s);
  ("fmv_w_x"%string, fun c : insn_ctx => insn_fmv_w_x);
  ("fmv_x_w"%string, fun c : insn_ctx => insn_fmv_x_w);
  ("fnmadd_s"%string, fun c : insn_ctx => insn_fnmadd_s);
  ("fnmsub_s"%string, fun c : insn_ctx => insn_fnmsub_s);
  ("fsgnj_s"%string, fun c : insn_ctx => insn_fsgnj_s);
  ("fsgnjn_s"%string, fun c : insn_ctx => insn_fsgnjn_s);
  ("fsgnjx_s"%string, fun c : insn_ctx => insn_fsgnjx_s);
  ("fsqrt_s"%string, fun c : insn_ctx => insn_fsqrt_s);
  ("fsub_s"%string, fun c : insn_ctx => insn_fsub_s);
  ("fsw"%string, fun c : insn_ctx => insn_fsw);
  ("fadd_d"%string, fun c : insn_ctx => insn_fadd_d);
  ("fclass_d"%string, fun c : insn_ctx => insn_fclass_d);
  ("fcvt_d_l"%string, fun c : insn_ctx => insn_fcvt_d_l);
  ("fcvt_d_lu"%string, fun c : insn_ctx => insn_fcvt_d_lu);
  ("fcvt_d_q"%string, fun c : insn_ctx => insn_fcvt_d_q);
  ("fcvt_d_s"%string, fun c : insn_ctx => insn_fcvt_d_s);
  ("fcvt_d_w"%string, fun c : insn_ctx => insn_fcvt_d_w);
  ("fcvt_d_wu"%string, fun c : insn_ctx => insn_fcvt_d_wu);
  ("fcvt_l_d"%string, fun c : insn_ctx => insn_fcvt_l_d);
  ("fcvt_lu_d"%string, fun c : insn_ctx => insn_fcvt_lu_d);
  ("fcvt_s_d"%string, fun c : insn_ctx => insn_fcvt_s_d);
  ("fcvt_w_d"%string, fun c : insn_ctx => insn_fcvt_w_d);
  ("fcvt_wu_d"%string, fun c : insn_ctx => insn_fcvt_wu_d);
  ("fdiv_d"%string, fun c : insn_ctx => insn_fdiv_d);
  ("feq_d"%string, fun c : insn_ctx => insn_feq_d);
  ("fld"%string, fun c : insn_ctx => insn_fld);
  ("fle_d"%string, fun c : insn_ctx => insn_fle_d);
  ("flt_d"%string, fun c : insn_ctx => insn_flt_d);
  ("fmadd_d"%string, fun c : insn_ctx => insn_fmadd_d);
  ("fmax_d"%string, fun c : insn_ctx => insn_fmax_d);
  ("fmin_d"%string, fun c : insn_ctx => insn_fmin_d);
  ("fmsub_d"%string, fun c : insn_ctx => insn_fmsub_d);
  ("fmul_d"%string, fun c : insn_ctx => insn_fmul_d);
  ("fmv_d_x"%string, fun c : insn_ctx => insn_fmv_d_x);
  ("fmv_x_d"%string, fun c : insn_ctx => insn_fmv_x_d);
  ("fnmadd_d"%string, fun c : insn_ctx => insn_fnmadd_d);
  ("fnmsub_d"%string, fun c : insn_ctx => insn_fnmsub_d);
  ("fsd"%string, fun c : insn_ctx => insn_fsd);
  ("fsgnj_d"%string, fun c : insn_ctx => insn_fsgnj_d);
  ("fsgnjn_d"%string, fun c : insn_ctx => insn_fsgnjn_d);
  ("fsgnjx_d"%string, fun c : insn_ctx => insn_fsgnjx_d);
  ("fsqrt_d"%string, fun c : insn_ctx => insn_fsqrt_d);
  ("fsub_d"%string, fun c : insn_ctx => insn_fsub_d);
  ("div"%string, fun c : insn_ctx => insn_div);
  ("divu"%string, fun c : insn_ctx => insn_divu);
  ("divuw"%string, fun c : insn_ctx => insn_divuw);
  ("divw"%string, fun c : insn_ctx => insn_divw);
  ("mul"%string, fun c : insn_ctx => insn_mul);
  ("mulh"%string, fun c : insn_ctx => insn_mulh);
  ("mulhsu"%string, fun c : insn_ctx => insn_mulhsu);
  ("mulhu"%string, fun c : insn_ctx => insn_mulhu);
  ("mulw"%string, fun c : insn_ctx => insn_mulw);
  ("rem"%string, fun c : insn_ctx => insn_rem);
  ("remu"%string, fun c : insn_ctx => insn_remu);
  ("remuw"%string, fun c : insn_ctx => insn_remuw);
  ("remw"%string, fun c : insn_ctx => insn_remw);
  ("add_uw"%string, fun c : insn_ctx => insn_add_uw);
  ("andn"%string, fun c : insn_ctx => insn_andn);
  ("sh1add"%string, fun c : insn_ctx => insn_sh1add);
  ("sh1add_uw"%string, fun c : insn_ctx => insn_sh1add_uw);
  ("sh2add"%string, fun c : insn_ctx => insn_sh2add);
  ("sh2add_uw"%string, fun c : insn_ctx => insn_sh2add_uw);
  ("sh3add"%string, fun c : insn_ctx => insn_sh3add);
  ("sh3add_uw"%string, fun c : insn_ctx => insn_sh3add_uw);
  ("clmul"%string, fun c : insn_ctx => insn_clmul);
  ("clmulh"%string, fun c : insn_ctx => insn_clmulh);
  ("clmulr"%string, fun c : insn_ctx => insn_clmulr);
  ("clz"%string, fun c : insn_ctx => insn_clz);
  ("clzw"%string, fun c : insn_ctx => insn_clzw);
  ("ctz"%string, fun c : insn_ctx => insn_ctz);
  ("ctzw"%string, fun c : insn_ctx => insn_ctzw);
  ("gorci"%string, fun c : insn_ctx => insn_gorci);
  ("grevi"%string, fun c : insn_ctx => insn_grevi);
  ("max"%string, fun c : insn_ctx => insn_max);
  ("maxu"%string, fun c : insn_ctx => insn_maxu);
  ("min"%string, fun c : insn_ctx => insn_min);
  ("minu"%string, fun c : insn_ctx => insn_minu);
  ("orn"%string, fun c : insn_ctx => insn_orn);
  ("pack"%string, fun c : insn_ctx => insn_pack);
  ("packh"%string, fun c : insn_ctx => insn_packh);
  ("packw"%string, fun c : insn_ctx => insn_packw);
  ("cpop"%string, fun c : insn_ctx => insn_cpop);
  ("cpopw"%string, fun c : insn_ctx => insn_cpopw);
  ("rol"%string, fun c : insn_ctx => insn_rol);
  ("rolw"%string, fun c : insn_ctx => insn_rolw);
  ("ror"%string, fun c : insn_ctx => insn_ror);
  ("rori"%string, fun c : insn_ctx => insn_rori);
  ("roriw"%string, fun c : insn_ctx => insn_roriw);
  ("rorw"%string, fun c : insn_ctx => insn_rorw);
  ("bclr"%string, fun c : insn_ctx => insn_bclr);
  ("bclri"%string, fun c : insn_ctx => insn_bclri);
  ("bext"%string, fun c : insn_ctx => insn_bext);
  ("bexti"%string, fun c : insn_ctx => insn_bexti);
  ("binv"%string, fun c : insn_ctx => insn_binv);
  ("binvi"%string, fun c : insn_ctx => insn_binvi);
  ("bset"%string, fun c : insn_ctx => insn_bset);
  ("bseti"%string, fun c : insn_ctx => insn_bseti);
  ("sext_b"%string, fun c : insn_ctx => insn_sext_b);
  ("sext_h"%string, fun c : insn_ctx => insn_sext_h);
  ("shfli"%string, fun c : insn_ctx => insn_shfli);
  ("slli_uw"%string, fun c : insn_ctx => insn_slli_uw);
  ("unshfli"%string, fun c : insn_ctx => insn_unshfli);
  ("xnor"%string, fun c : insn_ctx => insn_xnor);
  ("xperm4"%string, fun c : insn_ctx => insn_xperm4);
  ("xperm8"%string, fun c : insn_ctx => insn_xperm8);
  ("amoadd_d"%string, fun c : insn_ctx => insn_amoadd_d);
  ("amoadd_w"%string, fun c : insn_ctx => insn_amoadd_w);
  ("amoand_d"%string, fun c : insn_ctx => insn_amoand_d);
  ("amoand_w"%string, fun c : insn_ctx => insn_amoand_w);
  ("amomax_d"%string, fun c : insn_ctx => insn_amomax_d);
  ("amomaxu_d"%string, fun c : insn_ctx => insn_amomaxu_d);
  ("amomaxu_w"%string, fun c : insn_ctx => insn_amomaxu_w);
  ("amomax_w"%string, fun c : insn_ctx => insn_amomax_w);
  ("amomin_d"%string, fun c : insn_ctx => insn_amomin_d);
  ("amominu_d"%string, fun c : insn_ctx => insn_amominu_d);
  ("amominu_w"%string, fun c : insn_ctx => insn_amominu_w);
  ("amomin_w"%string, fun c : insn_ctx => insn_amomin_w);
  ("amoor_d"%string, fun c : insn_ctx => insn_amoor_d);
  ("amoor_w"%string, fun c : insn_ctx => insn_amoor_w);
  ("amoswap_d"%string, fun c : insn_ctx => insn_amoswap_d);
  ("amoswap_w"%string, fun c : insn_ctx => insn_amoswap_w);
  ("amoxor_d"%string, fun c : insn_ctx => insn_amoxor_d);
  ("amoxor_w"%string, fun c : insn_ctx => insn_amoxor_w);
  ("lr_d"%string, fun c : insn_ctx => insn_lr_d);
  ("lr_w"%string, fun c : insn_ctx => insn_lr_w);
  ("sc_d"%string, fun c : insn_ctx => insn_sc_d);
  ("sc_w"%string, fun c : insn_ctx => insn_sc_w);
  ("vfadd_vf"%string, fun c : insn_ctx => insn_vfadd_vf);
  ("vfadd_vv"%string, fun c : insn_ctx => insn_vfadd_vv);
  ("vfclass_v"%string, fun c : insn_ctx => insn_vfclass_v);
  ("vfcvt_f_x_v"%string, fun c : insn_ctx => insn_vfcvt_f_x_v);
  ("vfcvt_f_xu_v"%string, fun c : insn_ctx => insn_vfcvt_f_xu_v);
  ("vfcvt_rtz_x_f_v"%string, fun c : insn_ctx => insn_vfcvt_rtz_x_f_v);
  ("vfcvt_rtz_xu_f_v"%string, fun c : insn_ctx => insn_vfcvt_rtz_xu_f_v);
  ("vfcvt_x_f_v"%string, fun c : insn_ctx => insn_vfcvt_x_f_v);
  ("vfcvt_xu_f_v"%string, fun c : insn_ctx => insn_vfcvt_xu_f_v);
  ("vfdiv_vf"%string, fun c : insn_ctx => insn_vfdiv_vf);
  ("vfdiv_vv"%string, fun c : insn_ctx => insn_vfdiv_vv);
  ("vfmacc_vf"%string, fun c : insn_ctx => insn_vfmacc_vf);
  ("vfmacc_vv"%string, fun c : insn_ctx => insn_vfmacc_vv);
  ("vfmadd_vf"%string, fun c : insn_ctx => insn_vfmadd_vf);
  ("vfmadd_vv"%string, fun c : insn_ctx => insn_vfmadd_vv);
  ("vfmax_vf"%string, fun c : insn_ctx => insn_vfmax_vf);
  ("vfmax_vv"%string, fun c : insn_ctx => insn_vfmax_vv);
  ("vfmerge_vfm"%string, fun c : insn_ctx => insn_vfmerge_vfm);
  ("vfmin_vf"%string, fun c : insn_ctx => insn_vfmin_vf);
  ("vfmin_vv"%string, fun c : insn_ctx => insn_vfmin_vv);
  ("vfmsac_vf"%string, fun c : insn_ctx => insn_vfmsac_vf);
  ("vfmsac_vv"%string, fun c : insn_ctx => insn_vfmsac_vv);
  ("vfmsub_vf"%string, fun c : insn_ctx => insn_vfmsub_vf);
  ("vfmsub_vv"%string, fun c : insn_ctx => insn_vfmsub_vv);
  ("vfmul_vf"%string, fun c : insn_ctx => insn_vfmul_vf);
  ("vfmul_vv"%string, fun c : insn_ctx => insn_vfmul_vv);
  ("vfmv_f_s"%string, fun c : insn_ctx => insn_vfmv_f_s);
  ("vfmv_s_f"%string, fun c : insn_ctx => insn_vfmv_s_f);
  ("vfmv_v_f"%string, fun c : insn_ctx => insn_vfmv_v_f);
  ("vfncvt_f_f_w"%string, fun c : insn_ctx => insn_vfncvt_f_f_w);
  ("vfncvt_f_x_w"%string, fun c : insn_ctx => insn_vfncvt_f_x_w);
  ("vfncvt_f_xu_w"%string, fun c : insn_ctx => insn_vfncvt_f_xu_w);
  ("vfncvt_rod_f_f_w"%string, fun c : insn_ctx => insn_vfncvt_rod_f_f_w);
  ("vfncvt_rtz_x_f_w"%string, fun c : insn_ctx => insn_vfncvt_rtz_x_f_w);
  ("vfncvt_rtz_xu_f_w"%string, fun c : insn_ctx => insn_vfncvt_rtz_xu_f_w);
  ("vfncvt_x_f_w"%string, fun c : insn_ctx => insn_vfncvt_x_f_w);
  ("vfncvt_xu_f_w"%string, fun c : insn_ctx => insn_vfncvt_xu_f_w);
  ("vfnmacc_vf"%string, fun c : insn_ctx => insn_vfnmacc_vf);
  ("vfnmacc_vv"%string, fun c : insn_ctx => insn_vfnmacc_vv);
  ("vfnmadd_vf"%string, fun c : insn_ctx => insn_vfnmadd_vf);
  ("vfnmadd_vv"%string, fun c : insn_ctx => insn_vfnmadd_vv);
  ("vfnmsac_vf"%string, fun c : insn_ctx => insn_vfnmsac_vf);
  ("vfnmsac_vv"%string, fun c : insn_ctx => insn_vfnmsac_vv);
  ("vfnmsub_vf"%string, fun c : insn_ctx => insn_vfnmsub_vf);
  ("vfnmsub_vv"%string, fun c : insn_ctx => insn_vfnmsub_vv);
  ("vfrdiv_vf"%string, fun c : insn_ctx => insn_vfrdiv_vf);
  ("vfredmax_vs"%string, fun c : insn_ctx => insn_vfredmax_vs);
  ("vfredmin_vs"%string, fun c : insn_ctx => insn_vfredmin_vs);
  ("vfredosum_vs"%string, fun c : insn_ctx => insn_vfredosum_vs);
  ("vfredusum_vs"%string, fun c : insn_ctx => insn_vfredusum_vs);
  ("vfrec7_v"%string, fun c : insn_ctx => insn_vfrec7_v);
  ("vfrsub_vf"%string, fun c : insn_ctx => insn_vfrsub_vf);
  ("vfrsqrt7_v"%string, fun c : insn_ctx => insn_vfrsqrt7_v);
  ("vfsgnj_vf"%string, fun c : insn_ctx => insn_vfsgnj_vf);
  ("vfsgnj_vv"%string, fun c : insn_ctx => insn_vfsgnj_vv);
  ("vfsgnjn_vf"%string, fun c : insn_ctx => insn_vfsgnjn_vf);
  ("vfsgnjn_vv"%string, fun c : insn_ctx => insn_vfsgnjn_vv);
  ("vfsgnjx_vf"%string, fun c : insn_ctx => insn_vfsgnjx_vf);
  ("vfsgnjx_vv"%string, fun c : insn_ctx => insn_vfsgnjx_vv);
  ("vfsqrt_v"%string, fun c : insn_ctx => insn_vfsqrt_v);
  ("vfslide1down_vf"%string, fun c : insn_ctx => insn_vfslide1down_vf);
  ("vfslide1up_vf"%string, fun c : insn_ctx => insn_vfslide1up_vf);
  ("vfsub_vf"%string, fun c : insn_ctx => insn_vfsub_vf);
  ("vfsub_vv"%string, fun c : insn_ctx => insn_vfsub_vv);
  ("vfwadd_vf"%string, fun c : insn_ctx => insn_vfwadd_vf);
  ("vfwadd_vv"%string, fun c : insn_ctx => insn_vfwadd_vv);
  ("vfwadd_wf"%string, fun c : insn_ctx => insn_vfwadd_wf);
  ("vfwadd_wv"%string, fun c : insn_ctx => insn_vfwadd_wv);
  ("vfwcvt_f_f_v"%string, fun c : insn_ctx => insn_vfwcvt_f_f_v);
  ("vfwcvt_f_x_v"%string, fun c : insn_ctx => insn_vfwcvt_f_x_v);
  ("vfwcvt_f_xu_v"%string, fun c : insn_ctx => insn_vfwcvt_f_xu_v);
  ("vfwcvt_rtz_x_f_v"%string, fun c : insn_ctx => insn_vfwcvt_rtz_x_f_v);
  ("vfwcvt_rtz_xu_f_v"%string, fun c : insn_ctx => insn_vfwcvt_rtz_xu_f_v);
  ("vfwcvt_x_f_v"%string, fun c : insn_ctx => insn_vfwcvt_x_f_v);
  ("vfwcvt_xu_f_v"%string, fun c : insn_ctx => insn_vfwcvt_xu_f_v);
  ("vfwmacc_vf"%string, fun c : insn_ctx => insn_vfwmacc_vf);
  ("vfwmacc_vv"%string, fun c : insn_ctx => insn_vfwmacc_vv);
  ("vfwmsac_vf"%string, fun c : insn_ctx => insn_vfwmsac_vf);
  ("vfwmsac_vv"%string, fun c : insn_ctx => insn_vfwmsac_vv);
  ("vfwmul_vf"%string, fun c : insn_ctx => insn_vfwmul_vf);
  ("vfwmul_vv"%string, fun c : insn_ctx => insn_vfwmul_vv);
  ("vfwnmacc_vf"%string, fun c : insn_ctx => insn_vfwnmacc_vf);
  ("vfwnmacc_vv"%string, fun c : insn_ctx => insn_vfwnmacc_vv);
  ("vfwnmsac_vf"%string, fun c : insn_ctx => insn_vfwnmsac_vf);
  ("vfwnmsac_vv"%string, fun c : insn_ctx => insn_vfwnmsac_vv);
  ("vfwredosum_vs"%string, fun c : insn_ctx => insn_vfwredosum_vs);
  ("vfwredusum_vs"%string, fun c : insn_ctx => insn_vfwredusum_vs);
  ("vfwsub_vf"%string, fun c : insn_ctx => insn_vfwsub_vf);
  ("vfwsub_vv"%string, fun c : insn_ctx => insn_vfwsub_vv);
  ("vfwsub_wf"%string, fun c : insn_ctx => insn_vfwsub_wf);
  ("vfwsub_wv"%string, fun c : insn_ctx => insn_vfwsub_wv);
  ("vmfeq_vf"%string, fun c : insn_ctx => insn_vmfeq_vf);
  ("vmfeq_vv"%string, fun c : insn_ctx => insn_vmfeq_vv);
  ("vmfge_vf"%string, fun c : insn_ctx => insn_vmfge_vf);
  ("vmfgt_vf"%string, fun c : insn_ctx => insn_vmfgt_vf);
  ("vmfle_vf"%string, fun c : insn_ctx => insn_vmfle_vf);
  ("vmfle_vv"%string, fun c : insn_ctx => insn_vmfle_vv);
  ("vmflt_vf"%string, fun c : insn_ctx => insn_vmflt_vf);
  ("vmflt_vv"%string, fun c : insn_ctx => insn_vmflt_vv);
  ("vmfne_vf"%string, fun c : insn_ctx => insn_vmfne_vf);
  ("vmfne_vv"%string, fun c : insn_ctx => insn_vmfne_vv);
  ("vaadd_vv"%string, fun c : insn_ctx => insn_vaadd_vv);
  ("vaaddu_vv"%string, fun c : insn_ctx => insn_vaaddu_vv);
  ("vaadd_vx"%string, fun c : insn_ctx => insn_vaadd_vx);
  ("vaaddu_vx"%string, fun c : insn_ctx => insn_vaaddu_vx);
  ("vadc_vim"%string, fun c : insn_ctx => insn_vadc_vim);
  ("vadc_vvm"%string, fun c : insn_ctx => insn_vadc_vvm);
  ("vadc_vxm"%string, fun c : insn_ctx => insn_vadc_vxm);
  ("vadd_vi"%string, fun c : insn_ctx => insn_vadd_vi);
  ("vadd_vv"%string, fun c : insn_ctx => insn_vadd_vv);
  ("vadd_vx"%string, fun c : insn_ctx => insn_vadd_vx);
  ("vand_vi"%string, fun c : insn_ctx => insn_vand_vi);
  ("vand_vv"%string, fun c : insn_ctx => insn_vand_vv);
  ("vand_vx"%string, fun c : insn_ctx => insn_vand_vx);
  ("vasub_vv"%string, fun c : insn_ctx => insn_vasub_vv);
  ("vasubu_vv"%string, fun c : insn_ctx => insn_vasubu_vv);
  ("vasub_vx"%string, fun c : insn_ctx => insn_vasub_vx);
  ("vasubu_vx"%string, fun c : insn_ctx => insn_vasubu_vx);
  ("vcompress_vm"%string, fun c : insn_ctx => insn_vcompress_vm);
  ("vcpop_m"%string, fun c : insn_ctx => insn_vcpop_m);
  ("vdiv_vv"%string, fun c : insn_ctx => insn_vdiv_vv);
  ("vdiv_vx"%string, fun c : insn_ctx => insn_vdiv_vx);
  ("vdivu_vv"%string, fun c : insn_ctx => insn_vdivu_vv);
  ("vdivu_vx"%string, fun c : insn_ctx => insn_vdivu_vx);
  ("vid_v"%string, fun c : insn_ctx => insn_vid_v);
  ("viota_m"%string, fun c : insn_ctx => insn_viota_m);
  ("vmacc_vv"%string, fun c : insn_ctx => insn_vmacc_vv);
  ("vmacc_vx"%string, fun c : insn_ctx => insn_vmacc_vx);
  ("vmadc_vv"%string, fun c : insn_ctx => insn_vmadc_vv);
  ("vmadc_vx"%string, fun c : insn_ctx => insn_vmadc_vx);
  ("vmadc_vi"%string, fun c : insn_ctx => insn_vmadc_vi);
  ("vmadc_vim"%string, fun c : insn_ctx => insn_vmadc_vim);
  ("vmadc_vvm"%string, fun c : insn_ctx => insn_vmadc_vvm);
  ("vmadc_vxm"%string, fun c : insn_ctx => insn_vmadc_vxm);
  ("vmadd_vv"%string, fun c : insn_ctx => insn_vmadd_vv);
  ("vmadd_vx"%string, fun c : insn_ctx => insn_vmadd_vx);
  ("vmand_mm"%string, fun c : insn_ctx => insn_vmand_mm);
  ("vmandn_mm"%string, fun c : insn_ctx => insn_vmandn_mm);
  ("vmax_vv"%string, fun c : insn_ctx => insn_vmax_vv);
  ("vmax_vx"%string, fun c : insn_ctx => insn_vmax_vx);
  ("vmaxu_vv"%string, fun c : insn_ctx => insn_vmaxu_vv);
  ("vmaxu_vx"%string, fun c : insn_ctx => insn_vmaxu_vx);
  ("vmerge_vim"%string, fun c : insn_ctx => insn_vmerge_vim);
  ("vmerge_vvm"%string, fun c : insn_ctx => insn_vmerge_vvm);
  ("vmerge_vxm"%string, fun c : insn_ctx => insn_vmerge_vxm);
  ("vfirst_m"%string, fun c : insn_ctx => insn_vfirst_m);
  ("vmin_vv"%string, fun c : insn_ctx => insn_vmin_vv);
  ("vmin_vx"%string, fun c : insn_ctx => insn_vmin_vx);
  ("vminu_vv"%string, fun c : insn_ctx => insn_vminu_vv);
  ("vminu_vx"%string, fun c : insn_ctx => insn_vminu_vx);
  ("vmnand_mm"%string, fun c : insn_ctx => insn_vmnand_mm);
  ("vmnor_mm"%string, fun c : insn_ctx => insn_vmnor_mm);
  ("vmor_mm"%string, fun c : insn_ctx => insn_vmor_mm);
  ("vmorn_mm"%string, fun c : insn_ctx => insn_vmorn_mm);
  ("vmsbc_vv"%string, fun c : insn_ctx => insn_vmsbc_vv);
  ("vmsbc_vx"%string, fun c : insn_ctx => insn_vmsbc_vx);
  ("vmsbc_vvm"%string, fun c : insn_ctx => insn_vmsbc_vvm);
  ("vmsbc_vxm"%string, fun c : insn_ctx => insn_vmsbc_vxm);
  ("vmsbf_m"%string, fun c : insn_ctx => insn_vmsbf_m);
  ("vmseq_vi"%string, fun c : insn_ctx => insn_vmseq_vi);
  ("vmseq_vv"%string, fun c : insn_ctx => insn_vmseq_vv);
  ("vmseq_vx"%string, fun c : insn_ctx => insn_vmseq_vx);
  ("vmsgt_vi"%string, fun c : insn_ctx => insn_vmsgt_vi);
  ("vmsgt_vx"%string, fun c : insn_ctx => insn_vmsgt_vx);
  ("vmsgtu_vi"%string, fun c : insn_ctx => insn_vmsgtu_vi);
  ("vmsgtu_vx"%string, fun c : insn_ctx => insn_vmsgtu_vx);
  ("vmsif_m"%string, fun c : insn_ctx => insn_vmsif_m);
  ("vmsle_vi"%string, fun c : insn_ctx => insn_vmsle_vi);
  ("vmsle_vv"%string, fun c : insn_ctx => insn_vmsle_vv);
  ("vmsle_vx"%string, fun c : insn_ctx => insn_vmsle_vx);
  ("vmsleu_vi"%string, fun c : insn_ctx => insn_vmsleu_vi);
  ("vmsleu_vv"%string, fun c : insn_ctx => insn_vmsleu_vv);
  ("vmsleu_vx"%string, fun c : insn_ctx => insn_vmsleu_vx);
  ("vmslt_vv"%string, fun c : insn_ctx => insn_vmslt_vv);
  ("vmslt_vx"%string, fun c : insn_ctx => insn_vmslt_vx);
  ("vmsltu_vv"%string, fun c : insn_ctx => insn_vmsltu_vv);
  ("vmsltu_vx"%string, fun c : insn_ctx => insn_vmsltu_vx);
  ("vmsne_vi"%string, fun c : insn_ctx => insn_vmsne_vi);
  ("vmsne_vv"%string, fun c : insn_ctx => insn_vmsne_vv);
  ("vmsne_vx"%string, fun c : insn_ctx => insn_vmsne_vx);
  ("vmsof_m"%string, fun c : insn_ctx => insn_vmsof_m);
  ("vmul_vv"%string, fun c : insn_ctx => insn_vmul_vv);
  ("vmul_vx"%string, fun c : insn_ctx => insn_vmul_vx);
  ("vmulh_vv"%string, fun c : insn_ctx => insn_vmulh_vv);
  ("vmulh_vx"%string, fun c : insn_ctx => insn_vmulh_vx);
  ("vmulhsu_vv"%string, fun c : insn_ctx => insn_vmulhsu_vv);
  ("vmulhsu_vx"%string, fun c : insn_ctx => insn_vmulhsu_vx);
  ("vmulhu_vv"%string, fun c : insn_ctx => insn_vmulhu_vv);
  ("vmulhu_vx"%string, fun c : insn_ctx => insn_vmulhu_vx);
  ("vmv_s_x"%string, fun c : insn_ctx => insn_vmv_s_x);
  ("vmv_v_i"%string, fun c : insn_ctx => insn_vmv_v_i);
  ("vmv_v_v"%string, fun c : insn_ctx => insn_vmv_v_v);
  ("vmv_v_x"%string, fun c : insn_ctx => insn_vmv_v_x);
  ("vmv_x_s"%string, fun c : insn_ctx => insn_vmv_x_s);
  ("vmv1r_v"%string, fun c : insn_ctx => insn_vmv1r_v);
  ("vmv2r_v"%string, fun c : insn_ctx => insn_vmv2r_v);
  ("vmv4r_v"%string, fun c : insn_ctx => insn_vmv4r_v);
  ("vmv8r_v"%string, fun c : insn_ctx => insn_vmv8r_v);
  ("vmxnor_mm"%string, fun c : insn_ctx => insn_vmxnor_mm);
  ("vmxor_mm"%string, fun c : insn_ctx => insn_vmxor_mm);
  ("vnclip_wi"%string, fun c : insn_ctx => insn_vnclip_wi);
  ("vnclip_wv"%string, fun c : insn_ctx => insn_vnclip_wv);
  ("vnclip_wx"%string, fun c : insn_ctx => insn_vnclip_wx);
  ("vnclipu_wi"%string, fun c : insn_ctx => insn_vnclipu_wi);
  ("vnclipu_wv"%string, fun c : insn_ctx => insn_vnclipu_wv);
  ("vnclipu_wx"%string, fun c : insn_ctx => insn_vnclipu_wx);
  ("vnmsac_vv"%string, fun c : insn_ctx => insn_vnmsac_vv);
  ("vnmsac_vx"%string, fun c : insn_ctx => insn_vnmsac_vx);
  ("vnmsub_vv"%string, fun c : insn_ctx => insn_vnmsub_vv);
  ("vnmsub_vx"%string, fun c : insn_ctx => insn_vnmsub_vx);
  ("vnsra_wi"%string, fun c : insn_ctx => insn_vnsra_wi);
  ("vnsra_wv"%string, fun c : insn_ctx => insn_vnsra_wv);
  ("vnsra_wx"%string, fun c : insn_ctx => insn_vnsra_wx);
  ("vnsrl_wi"%string, fun c : insn_ctx => insn_vnsrl_wi);
  ("vnsrl_wv"%string, fun c : insn_ctx => insn_vnsrl_wv);
  ("vnsrl_wx"%string, fun c : insn_ctx => insn_vnsrl_wx);
  ("vor_vi"%string, fun c : insn_ctx => insn_vor_vi);
  ("vor_vv"%string, fun c : insn_ctx => insn_vor_vv);
  ("vor_vx"%string, fun c : insn_ctx => insn_vor_vx);
  ("vredand_vs"%string, fun c : insn_ctx => insn_vredand_vs);
  ("vredmax_vs"%string, fun c : insn_ctx => insn_vredmax_vs);
  ("vredmaxu_vs"%string, fun c : insn_ctx => insn_vredmaxu_vs);
  ("vredmin_vs"%string, fun c : insn_ctx => insn_vredmin_vs);
  ("vredminu_vs"%string, fun c : insn_ctx => insn_vredminu_vs);
  ("vredor_vs"%string, fun c : insn_ctx => insn_vredor_vs);
  ("vredsum_vs"%string, fun c : insn_ctx => insn_vredsum_vs);
  ("vredxor_vs"%string, fun c : insn_ctx => insn_vredxor_vs);
  ("vrem_vv"%string, fun c : insn_ctx => insn_vrem_vv);
  ("vrem_vx"%string, fun c : insn_ctx => insn_vrem_vx);
  ("vremu_vv"%string, fun c : insn_ctx => insn_vremu_vv);
  ("vremu_vx"%string, fun c : insn_ctx => insn_vremu_vx);
  ("vrgather_vi"%string, fun c : insn_ctx => insn_vrgather_vi);
  ("vrgather_vv"%string, fun c : insn_ctx => insn_vrgather_vv);
  ("vrgather_vx"%string, fun c : insn_ctx => insn_vrgather_vx);
  ("vrgatherei16_vv"%string, fun c : insn_ctx => insn_vrgatherei16_vv);
  ("vrsub_vi"%string, fun c : insn_ctx => insn_vrsub_vi);
  ("vrsub_vx"%string, fun c : insn_ctx => insn_vrsub_vx);
  ("vsadd_vi"%string, fun c : insn_ctx => insn_vsadd_vi);
  ("vsadd_vv"%string, fun c : insn_ctx => insn_vsadd_vv);
  ("vsadd_vx"%string, fun c : insn_ctx => insn_vsadd_vx);
  ("vsaddu_vi"%string, fun c : insn_ctx => insn_vsaddu_vi);
  ("vsaddu_vv"%string, fun c : insn_ctx => insn_vsaddu_vv);
  ("vsaddu_vx"%string, fun c : insn_ctx => insn_vsaddu_vx);
  ("vsbc_vvm"%string, fun c : insn_ctx => insn_vsbc_vvm);
  ("vsbc_vxm"%string, fun c : insn_ctx => insn_vsbc_vxm);
  ("vsext_vf2"%string, fun c : insn_ctx => insn_vsext_vf2);
  ("vsext_vf4"%string, fun c : insn_ctx => insn_vsext_vf4);
  ("vsext_vf8"%string, fun c : insn_ctx => insn_vsext_vf8);
  ("vslide1down_vx"%string, fun c : insn_ctx => insn_vslide1down_vx);
  ("vslide1up_vx"%string, fun c : insn_ctx => insn_vslide1up_vx);
  ("vslidedown_vi"%string, fun c : insn_ctx => insn_vslidedown_vi);
  ("vslidedown_vx"%string, fun c : insn_ctx => insn_vslidedown_vx);
  ("vslideup_vi"%string, fun c : insn_ctx => insn_vslideup_vi);
  ("vslideup_vx"%string, fun c : insn_ctx => insn_vslideup_vx);
  ("vsll_vi"%string, fun c : insn_ctx => insn_vsll_vi);
  ("vsll_vv"%string, fun c : insn_ctx => insn_vsll_vv);
  ("vsll_vx"%string, fun c : insn_ctx => insn_vsll_vx);
  ("vsmul_vv"%string, fun c : insn_ctx => insn_vsmul_vv);
  ("vsmul_vx"%string, fun c : insn_ctx => insn_vsmul_vx);
  ("vsra_vi"%string, fun c : insn_ctx => insn_vsra_vi);
  ("vsra_vv"%string, fun c : insn_ctx => insn_vsra_vv);
  ("vsra_vx"%string, fun c : insn_ctx => insn_vsra_vx);
  ("vsrl_vi"%string, fun c : insn_ctx => insn_vsrl_vi);
  ("vsrl_vv"%string, fun c : insn_ctx => insn_vsrl_vv);
  ("vsrl_vx"%string, fun c : insn_ctx => insn_vsrl_vx);
  ("vssra_vi"%string, fun c : insn_ctx => insn_vssra_vi);
  ("vssra_vv"%string, fun c : insn_ctx => insn_vssra_vv);
  ("vssra_vx"%string, fun c : insn_ctx => insn_vssra_vx);
  ("vssrl_vi"%string, fun c : insn_ctx => insn_vssrl_vi);
  ("vssrl_vv"%string, fun c : insn_ctx => insn_vssrl_vv);
  ("vssrl_vx"%string, fun c : insn_ctx => insn_vssrl_vx);
  ("vssub_vv"%string, fun c : insn_ctx => insn_vssub_vv);
  ("vssub_vx"%string, fun c : insn_ctx => insn_vssub_vx);
  ("vssubu_vv"%string, fun c : insn_ctx => insn_vssubu_vv);
  ("vssubu_vx"%string, fun c : insn_ctx => insn_vssubu_vx);
  ("vsub_vv"%string, fun c : insn_ctx => insn_vsub_vv);
  ("vsub_vx"%string, fun c : insn_ctx => insn_vsub_vx);
  ("vwadd_vv"%string, fun c : insn_ctx => insn_vwadd_vv);
  ("vwadd_vx"%string, fun c : insn_ctx => insn_vwadd_vx);
  ("vwadd_wv"%string, fun c : insn_ctx => insn_vwadd_wv);
  ("vwadd_wx"%string, fun c : insn_ctx => insn_vwadd_wx);
  ("vwaddu_vv"%string, fun c : insn_ctx => insn_vwaddu_vv);
  ("vwaddu_vx"%string, fun c : insn_ctx => insn_vwaddu_vx);
  ("vwaddu_wv"%string, fun c : insn_ctx => insn_vwaddu_wv);
  ("vwaddu_wx"%string, fun c : insn_ctx => insn_vwaddu_wx);
  ("vwmacc_vv"%string, fun c : insn_ctx => insn_vwmacc_vv);
  ("vwmacc_vx"%string, fun c : insn_ctx => insn_vwmacc_vx);
  ("vwmaccsu_vv"%string, fun c : insn_ctx => insn_vwmaccsu_vv);
  ("vwmaccsu_vx"%string, fun c : insn_ctx => insn_vwmaccsu_vx);
  ("vwmaccu_vv"%string, fun c : insn_ctx => insn_vwmaccu_vv);
  ("vwmaccu_vx"%string, fun c : insn_ctx => insn_vwmaccu_vx);
  ("vwmaccus_vx"%string, fun c : insn_ctx => insn_vwmaccus_vx);
  ("vwmul_vv"%string, fun c : insn_ctx => insn_vwmul_vv);
  ("vwmul_vx"%string, fun c : insn_ctx => insn_vwmul_vx);
  ("vwmulsu_vv"%string, fun c : insn_ctx => insn_vwmulsu_vv);
  ("vwmulsu_vx"%string, fun c : insn_ctx => insn_vwmulsu_vx);
  ("vwmulu_vv"%string, fun c : insn_ctx => insn_vwmulu_vv);
  ("vwmulu_vx"%string, fun c : insn_ctx => insn_vwmulu_vx);
  ("vwredsum_vs"%string, fun c : insn_ctx => insn_vwredsum_vs);
  ("vwredsumu_vs"%string, fun c : insn_ctx => insn_vwredsumu_vs);
  ("vwsub_vv"%string, fun c : insn_ctx => insn_vwsub_vv);
  ("vwsub_vx"%string, fun c : insn_ctx => insn_vwsub_vx);
  ("vwsub_wv"%string, fun c : insn_ctx => insn_vwsub_wv);
  ("vwsub_wx"%string, fun c : insn_ctx => insn_vwsub_wx);
  ("vwsubu_vv"%string, fun c : insn_ctx => insn_vwsubu_vv);
  ("vwsubu_vx"%string, fun c : insn_ctx => insn_vwsubu_vx);
  ("vwsubu_wv"%string, fun c : insn_ctx => insn_vwsubu_wv);
  ("vwsubu_wx"%string, fun c : insn_ctx => insn_vwsubu_wx);
  ("vxor_vi"%string, fun c : insn_ctx => insn_vxor_vi);
  ("vxor_vv"%string, fun c : insn_ctx => insn_vxor_vv);
  ("vxor_vx"%string, fun c : insn_ctx => insn_vxor_vx);
  ("vzext_vf2"%string, fun c : insn_ctx => insn_vzext_vf2);
  ("vzext_vf4"%string, fun c : insn_ctx => insn_vzext_vf4);
  ("vzext_vf8"%string, fun c : insn_ctx => insn_vzext_vf8);
  ("vsetivli"%string, fun c : insn_ctx => insn_vsetivli);
  ("vsetvli"%string, fun c : insn_ctx => insn_vsetvli);
  ("vsetvl"%string, fun c : insn_ctx => insn_vsetvl);
  ("vlm_v"%string, fun c : insn_ctx => insn_vlm_v);
  ("vle8_v"%string, fun c : insn_ctx => insn_vle8_v);
  ("vle16_v"%string, fun c : insn_ctx => insn_vle16_v);
  ("vle32_v"%string, fun c : insn_ctx => insn_vle32_v);
  ("vle64_v"%string, fun c : insn_ctx => insn_vle64_v);
  ("vloxei8_v"%string, fun c : insn_ctx => insn_vloxei8_v);
  ("vloxei16_v"%string, fun c : insn_ctx => insn_vloxei16_v);
  ("vloxei32_v"%string, fun c : insn_ctx => insn_vloxei32_v);
  ("vloxei64_v"%string, fun c : insn_ctx => insn_vloxei64_v);
  ("vlse8_v"%string, fun c : insn_ctx => insn_vlse8_v);
  ("vlse16_v"%string, fun c : insn_ctx => insn_vlse16_v);
  ("vlse32_v"%string, fun c : insn_ctx => insn_vlse32_v);
  ("vlse64_v"%string, fun c : insn_ctx => insn_vlse64_v);
  ("vluxei8_v"%string, fun c : insn_ctx => insn_vluxei8_v);
  ("vluxei16_v"%string, fun c : insn_ctx => insn_vluxei16_v);
  ("vluxei32_v"%string, fun c : insn_ctx => insn_vluxei32_v);
  ("vluxei64_v"%string, fun c : insn_ctx => insn_vluxei64_v);
  ("vle8ff_v"%string, fun c : insn_ctx => insn_vle8ff_v);
  ("vle16ff_v"%string, fun c : insn_ctx => insn_vle16ff_v);
  ("vle32ff_v"%string, fun c : insn_ctx => insn_vle32ff_v);
  ("vle64ff_v"%string, fun c : insn_ctx => insn_vle64ff_v);
  ("vl1re8_v"%string, fun c : insn_ctx => insn_vl1re8_v);
  ("vl2re8_v"%string, fun c : insn_ctx => insn_vl2re8_v);
  ("vl4re8_v"%string, fun c : insn_ctx => insn_vl4re8_v);
  ("vl8re8_v"%string, fun c : insn_ctx => insn_vl8re8_v);
  ("vl1re16_v"%string, fun c : insn_ctx => insn_vl1re16_v);
  ("vl2re16_v"%string, fun c : insn_ctx => insn_vl2re16_v);
  ("vl4re16_v"%string, fun c : insn_ctx => insn_vl4re16_v);
  ("vl8re16_v"%string, fun c : insn_ctx => insn_vl8re16_v);
  ("vl1re32_v"%string, fun c : insn_ctx => insn_vl1re32_v);
  ("vl2re32_v"%string, fun c : insn_ctx => insn_vl2re32_v);
  ("vl4re32_v"%string, fun c : insn_ctx => insn_vl4re32_v);
  ("vl8re32_v"%string, fun c : insn_ctx => insn_vl8re32_v);
  ("vl1re64_v"%string, fun c : insn_ctx => insn_vl1re64_v);
  ("vl2re64_v"%string, fun c : insn_ctx => insn_vl2re64_v);
  ("vl4re64_v"%string, fun c : insn_ctx => insn_vl4re64_v);
  ("vl8re64_v"%string, fun c : insn_ctx => insn_vl8re64_v);
  ("vsm_v"%string, fun c : insn_ctx => insn_vsm_v);
  ("vse8_v"%string, fun c : insn_ctx => insn_vse8_v);
  ("vse16_v"%string, fun c : insn_ctx => insn_vse16_v);
  ("vse32_v"%string, fun c : insn_ctx => insn_vse32_v);
  ("vse64_v"%string, fun c : insn_ctx => insn_vse64_v);
  ("vsse8_v"%string, fun c : insn_ctx => insn_vsse8_v);
  ("vsoxei8_v"%string, fun c : insn_ctx => insn_vsoxei8_v);
  ("vsoxei16_v"%string, fun c : insn_ctx => insn_vsoxei16_v);
  ("vsoxei32_v"%string, fun c : insn_ctx => insn_vsoxei32_v);
  ("vsoxei64_v"%string, fun c : insn_ctx => insn_vsoxei64_v);
  ("vsse16_v"%string, fun c : insn_ctx => insn_vsse16_v);
  ("vsse32_v"%string, fun c : insn_ctx => insn_vsse32_v);
  ("vsse64_v"%string, fun c : insn_ctx => insn_vsse64_v);
  ("vsuxei8_v"%string, fun c : insn_ctx => insn_vsuxei8_v);
  ("vsuxei16_v"%string, fun c : insn_ctx => insn_vsuxei16_v);
  ("vsuxei32_v"%string, fun c : insn_ctx => insn_vsuxei32_v);
  ("vsuxei64_v"%string, fun c : insn_ctx => insn_vsuxei64_v);
  ("vs1r_v"%string, fun c : insn_ctx => insn_vs1r_v);
  ("vs2r_v"%string, fun c : insn_ctx => insn_vs2r_v);
  ("vs4r_v"%string, fun c : insn_ctx => insn_vs4r_v);
  ("vs8r_v"%string, fun c : insn_ctx => insn_vs8r_v);
  ("vqdot_vv"%string, fun c : insn_ctx => insn_vqdot_vv);
  ("vqdot_vx"%string, fun c : insn_ctx => insn_vqdot_vx);
  ("vqdotu_vv"%string, fun c : insn_ctx => insn_vqdotu_vv);
  ("vqdotu_vx"%string, fun c : insn_ctx => insn_vqdotu_vx);
  ("vqdotsu_vv"%string, fun c : insn_ctx => insn_vqdotsu_vv);
  ("vqdotsu_vx"%string, fun c : insn_ctx => insn_vqdotsu_vx);
  ("vqdotus_vx"%string, fun c : insn_ctx => insn_vqdotus_vx);
  ("fcvt_bf16_s"%string, fun c : insn_ctx => insn_fcvt_bf16_s);
  ("fcvt_s_bf16"%string, fun c : insn_ctx => insn_fcvt_s_bf16);
  ("vfncvtbf16_f_f_w"%string, fun c : insn_ctx => insn_vfncvtbf16_f_f_w);
  ("vfwcvtbf16_f_f_v"%string, fun c : insn_ctx => insn_vfwcvtbf16_f_f_v);
  ("vfwmaccbf16_vv"%string, fun c : insn_ctx => insn_vfwmaccbf16_vv);
  ("vfwmaccbf16_vf"%string, fun c : insn_ctx => insn_vfwmaccbf16_vf);
  ("cbo_clean"%string, fun c : insn_ctx => insn_cbo_clean);
  ("cbo_flush"%string, fun c : insn_ctx => insn_cbo_flush);
  ("cbo_inval"%string, fun c : insn_ctx => insn_cbo_inval);
  ("cbo_zero"%string, fun c : insn_ctx => insn_cbo_zero);
  ("fli_d"%string, fun c : insn_ctx => insn_fli_d);
  ("fmaxm_d"%string, fun c : insn_ctx => insn_fmaxm_d);
  ("fminm_d"%string, fun c : insn_ctx => insn_fminm_d);
  ("fround_d"%string, fun c : insn_ctx => insn_fround_d);
  ("froundnx_d"%string, fun c : insn_ctx => insn_froundnx_d);
  ("fmvh_x_d"%string, fun c : insn_ctx => insn_fmvh_x_d);
  ("fmvp_d_x"%string, fun c : insn_ctx => insn_fmvp_d_x);
  ("fcvtmod_w_d"%string, fun c : insn_ctx => insn_fcvtmod_w_d);
  ("fleq_d"%string, fun c : insn_ctx => insn_fleq_d);
  ("fltq_d"%string, fun c : insn_ctx => insn_fltq_d);
  ("fli_s"%string, fun c : insn_ctx => insn_fli_s);
  ("fmaxm_s"%string, fun c : insn_ctx => insn_fmaxm_s);
  ("fminm_s"%string, fun c : insn_ctx => insn_fminm_s);
  ("fround_s"%string, fun c : insn_ctx => insn_fround_s);
  ("froundnx_s"%string, fun c : insn_ctx => insn_froundnx_s);
  ("fleq_s"%string, fun c : insn_ctx => insn_fleq_s);
  ("fltq_s"%string, fun c : insn_ctx => insn_fltq_s);
  ("hfence_gvma"%string, fun c : insn_ctx => insn_hfence_gvma);
  ("hfence_vvma"%string, fun c : insn_ctx => insn_hfence_vvma);
  ("hlv_b"%string, fun c : insn_ctx => insn_hlv_b);
  ("hlv_bu"%string, fun c : insn_ctx => insn_hlv_bu);
  ("hlv_h"%string, fun c : insn_ctx => insn_hlv_h);
  ("hlv_hu"%string, fun c : insn_ctx => insn_hlv_hu);
  ("hlvx_hu"%string, fun c : insn_ctx => insn_hlvx_hu);
  ("hlv_w"%string, fun c : insn_ctx => insn_hlv_w);
  ("hlv_wu"%string, fun c : insn_ctx => insn_hlv_wu);
  ("hlvx_wu"%string, fun c : insn_ctx => insn_hlvx_wu);
  ("hlv_d"%string, fun c : insn_ctx => insn_hlv_d);
  ("hsv_b"%string, fun c : insn_ctx => insn_hsv_b);
  ("hsv_h"%string, fun c : insn_ctx => insn_hsv_h);
  ("hsv_w"%string, fun c : insn_ctx => insn_hsv_w);
  ("hsv_d"%string, fun c : insn_ctx => insn_hsv_d);
  ("aes32dsi"%string, fun c : insn_ctx => insn_aes32dsi);
  ("aes32dsmi"%string, fun c : insn_ctx => insn_aes32dsmi);
  ("aes32esi"%string, fun c : insn_ctx => insn_aes32esi);
  ("aes32esmi"%string, fun c : insn_ctx => insn_aes32esmi);
  ("aes64ds"%string, fun c : insn_ctx => insn_aes64ds);
  ("aes64dsm"%string, fun c : insn_ctx => insn_aes64dsm);
  ("aes64es"%string, fun c : insn_ctx => insn_aes64es);
  ("aes64esm"%string, fun c : insn_ctx => insn_aes64esm);
  ("aes64ks1i"%string, fun c : insn_ctx => insn_aes64ks1i);
  ("aes64ks2"%string, fun c : insn_ctx => insn_aes64ks2);
  ("aes64im"%string, fun c : insn_ctx => insn_aes64im);
  ("sha256sig0"%string, fun c : insn_ctx => insn_sha256sig0);
  ("sha256sig1"%string, fun c : insn_ctx => insn_sha256sig1);
  ("sha256sum0"%string, fun c : insn_ctx => insn_sha256sum0);
  ("sha256sum1"%string, fun c : insn_ctx => insn_sha256sum1);
  ("sha512sig0"%string, fun c : insn_ctx => insn_sha512sig0);
  ("sha512sig0h"%string, fun c : insn_ctx => insn_sha512sig0h);
  ("sha512sig0l"%string, fun c : insn_ctx => insn_sha512sig0l);
  ("sha512sig1"%string, fun c : insn_ctx => insn_sha512sig1);
  ("sha512sig1h"%string, fun c : insn_ctx => insn_sha512sig1h);
  ("sha512sig1l"%string, fun c : insn_ctx => insn_sha512sig1l);
  ("sha512sum0"%string, fun c : insn_ctx => insn_sha512sum0);
  ("sha512sum0r"%string, fun c : insn_ctx => insn_sha512sum0r);
  ("sha512sum1"%string, fun c : insn_ctx => insn_sha512sum1);
  ("sha512sum1r"%string, fun c : insn_ctx => insn_sha512sum1r);
  ("sm3p0"%string, fun c : insn_ctx => insn_sm3p0);
  ("sm3p1"%string, fun c : insn_ctx => insn_sm3p1);
  ("sm4ed"%string, fun c : insn_ctx => insn_sm4ed);
  ("sm4ks"%string, fun c : insn_ctx => insn_sm4ks);
  ("fadd_q"%string, fun c : insn_ctx => insn_fadd_q);
  ("fclass_q"%string, fun c : insn_ctx => insn_fclass_q);
  ("fcvt_l_q"%string, fun c : insn_ctx => insn_fcvt_l_q);
  ("fcvt_lu_q"%string, fun c : insn_ctx => insn_fcvt_lu_q);
  ("fcvt_q_d"%string, fun c : insn_ctx => insn_fcvt_q_d);
  ("fcvt_q_l"%string, fun c : insn_ctx => insn_fcvt_q_l);
  ("fcvt_q_lu"%string, fun c : insn_ctx => insn_fcvt_q_lu);
  ("fcvt_q_s"%string, fun c : insn_ctx => insn_fcvt_q_s);
  ("fcvt_q_w"%string, fun c : insn_ctx => insn_fcvt_q_w);
  ("fcvt_q_wu"%string, fun c : insn_ctx => insn_fcvt_q_wu);
  ("fcvt_s_q"%string, fun c : insn_ctx => insn_fcvt_s_q);
  ("fcvt_w_q"%string, fun c : insn_ctx => insn_fcvt_w_q);
  ("fcvt_wu_q"%string, fun c : insn_ctx => insn_fcvt_wu_q);
  ("fdiv_q"%string, fun c : insn_ctx => insn_fdiv_q);
  ("feq_q"%string, fun c : insn_ctx => insn_feq_q);
  ("fle_q"%string, fun c : insn_ctx => insn_fle_q);
  ("flq"%string, fun c : insn_ctx => insn_flq);
  ("flt_q"%string, fun c : insn_ctx => insn_flt_q);
  ("fmadd_q"%string, fun c : insn_ctx => insn_fmadd_q);
  ("fmax_q"%string, fun c : insn_ctx => insn_fmax_q);
  ("fmin_q"%string, fun c : insn_ctx => insn_fmin_q);
  ("fmsub_q"%string, fun c : insn_ctx => insn_fmsub_q);
  ("fmul_q"%string, fun c : insn_ctx => insn_fmul_q);
  ("fnmadd_q"%string, fun c : insn_ctx => insn_fnmadd_q);
  ("fnmsub_q"%string, fun c : insn_ctx => insn_fnmsub_q);
  ("fsgnj_q"%string, fun c : insn_ctx => insn_fsgnj_q);
  ("fsgnjn_q"%string, fun c : insn_ctx => insn_fsgnjn_q);
  ("fsgnjx_q"%string, fun c : insn_ctx => insn_fsgnjx_q);
  ("fsq"%string, fun c : insn_ctx => insn_fsq);
  ("fsub_q"%string, fun c : insn_ctx => insn_fsub_q);
  ("fli_q"%string, fun c : insn_ctx => insn_fli_q);
  ("fmaxm_q"%string, fun c : insn_ctx => insn_fmaxm_q);
  ("fminm_q"%string, fun c : insn_ctx => insn_fminm_q);
  ("fround_q"%string, fun c : insn_ctx => insn_fround_q);
  ("froundnx_q"%string, fun c : insn_ctx => insn_froundnx_q);
  ("fmvh_x_q"%string, fun c : insn_ctx => insn_fmvh_x_q);
  ("fmvp_q_x"%string, fun c : insn_ctx => insn_fmvp_q_x);
  ("fleq_q"%string, fun c : insn_ctx => insn_fleq_q);
  ("fltq_q"%string, fun c : insn_ctx => insn_fltq_q);
  ("amocas_w"%string, fun c : insn_ctx => insn_amocas_w);
  ("amocas_d"%string, fun c : insn_ctx => insn_amocas_d);
  ("amocas_q"%string, fun c : insn_ctx => insn_amocas_q);
  ("amoadd_b"%string, fun c : insn_ctx => insn_amoadd_b);
  ("amoand_b"%string, fun c : insn_ctx => insn_amoand_b);
  ("amomax_b"%string, fun c : insn_ctx => insn_amomax_b);
  ("amomaxu_b"%string, fun c : insn_ctx => insn_amomaxu_b);
  ("amomin_b"%string, fun c : insn_ctx => insn_amomin_b);
  ("amominu_b"%string, fun c : insn_ctx => insn_amominu_b);
  ("amoor_b"%string, fun c : insn_ctx => insn_amoor_b);
  ("amoswap_b"%string, fun c : insn_ctx => insn_amoswap_b);
  ("amoxor_b"%string, fun c : insn_ctx => insn_amoxor_b);
  ("amocas_b"%string, fun c : insn_ctx => insn_amocas_b);
  ("amoadd_h"%string, fun c : insn_ctx => insn_amoadd_h);
  ("amoand_h"%string, fun c : insn_ctx => insn_amoand_h);
  ("amomax_h"%string, fun c : insn_ctx => insn_amomax_h);
  ("amomaxu_h"%string, fun c : insn_ctx => insn_amomaxu_h);
  ("amomin_h"%string, fun c : insn_ctx => insn_amomin_h);
  ("amominu_h"%string, fun c : insn_ctx => insn_amominu_h);
  ("amoor_h"%string, fun c : insn_ctx => insn_amoor_h);
  ("amoswap_h"%string, fun c : insn_ctx => insn_amoswap_h);
  ("amoxor_h"%string, fun c : insn_ctx => insn_amoxor_h);
  ("amocas_h"%string, fun c : insn_ctx => insn_amocas_h);
  ("wrs_sto"%string, fun c : insn_ctx => insn_wrs_sto);
  ("wrs_nto"%string, fun c : insn_ctx => insn_wrs_nto);
  ("lb_aq"%string, fun c : insn_ctx => insn_lb_aq);
  ("lh_aq"%string, fun c : insn_ctx => insn_lh_aq);
  ("lw_aq"%string, fun c : insn_ctx => insn_lw_aq);
  ("ld_aq"%string, fun c : insn_ctx => insn_ld_aq);
  ("sb_rl"%string, fun c : insn_ctx => insn_sb_rl);
  ("sh_rl"%string, fun c : insn_ctx => insn_sh_rl);
  ("sw_rl"%string, fun c : insn_ctx => insn_sw_rl);
  ("sd_rl"%string, fun c : insn_ctx => insn_sd_rl);
  ("c_zext_b"%string, fun c : insn_ctx => insn_c_zext_b);
  ("c_zext_h"%string, fun c : insn_ctx => insn_c_zext_h);
  ("c_zext_w"%string, fun c : insn_ctx => insn_c_zext_w);
  ("c_sext_b"%string, fun c : insn_ctx => insn_c_sext_b);
  ("c_sext_h"%string, fun c : insn_ctx => insn_c_sext_h);
  ("c_not"%string, fun c : insn_ctx => insn_c_not);
  ("c_mul"%string, fun c : insn_ctx => insn_c_mul);
  ("c_lbu"%string, fun c : insn_ctx => insn_c_lbu);
  ("c_lhu"%string, fun c : insn_ctx => insn_c_lhu);
  ("c_lh"%string, fun c : insn_ctx => insn_c_lh);
  ("c_sb"%string, fun c : insn_ctx => insn_c_sb);
  ("c_sh"%string, fun c : insn_ctx => insn_c_sh);
  ("cm_push"%string, fun c : insn_ctx => insn_cm_push);
  ("cm_pop"%string, fun c : insn_ctx => insn_cm_pop);
  ("cm_popret"%string, fun c : insn_ctx => insn_cm_popret);
  ("cm_popretz"%string, fun c : insn_ctx => insn_cm_popretz);
  ("cm_mva01s"%string, fun c : insn_ctx => insn_cm_mva01s);
  ("cm_mvsa01"%string, fun c : insn_ctx => insn_cm_mvsa01);
  ("cm_jalt"%string, fun c : insn_ctx => insn_cm_jalt);
  ("fadd_h"%string, fun c : insn_ctx => insn_fadd_h);
  ("fclass_h"%string, fun c : insn_ctx => insn_fclass_h);
  ("fcvt_l_h"%string, fun c : insn_ctx => insn_fcvt_l_h);
  ("fcvt_lu_h"%string, fun c : insn_ctx => insn_fcvt_lu_h);
  ("fcvt_d_h"%string, fun c : insn_ctx => insn_fcvt_d_h);
  ("fcvt_h_d"%string, fun c : insn_ctx => insn_fcvt_h_d);
  ("fcvt_h_l"%string, fun c : insn_ctx => insn_fcvt_h_l);
  ("fcvt_h_lu"%string, fun c : insn_ctx => insn_fcvt_h_lu);
  ("fcvt_h_q"%string, fun c : insn_ctx => insn_fcvt_h_q);
  ("fcvt_h_s"%string, fun c : insn_ctx => insn_fcvt_h_s);
  ("fcvt_h_w"%string, fun c : insn_ctx => insn_fcvt_h_w);
  ("fcvt_h_wu"%string, fun c : insn_ctx => insn_fcvt_h_wu);
  ("fcvt_q_h"%string, fun c : insn_ctx => insn_fcvt_q_h);
  ("fcvt_s_h"%string, fun c : insn_ctx => insn_fcvt_s_h);
  ("fcvt_w_h"%string, fun c : insn_ctx => insn_fcvt_w_h);
  ("fcvt_wu_h"%string, fun c : insn_ctx => insn_fcvt_wu_h);
  ("fdiv_h"%string, fun c : insn_ctx => insn_fdiv_h);
  ("feq_h"%string, fun c : insn_ctx => insn_feq_h);
  ("fle_h"%string, fun c : insn_ctx => insn_fle_h);
  ("flh"%string, fun c : insn_ctx => insn_flh);
  ("flt_h"%string, fun c : insn_ctx => insn_flt_h);
  ("fmadd_h"%string, fun c : insn_ctx => insn_fmadd_h);
  ("fmax_h"%string, fun c : insn_ctx => insn_fmax_h);
  ("fmin_h"%string, fun c : insn_ctx => insn_fmin_h);
  ("fmsub_h"%string, fun c : insn_ctx => insn_fmsub_h);
  ("fmul_h"%string, fun c : insn_ctx => insn_fmul_h);
  ("fmv_h_x"%string, fun c : insn_ctx => insn_fmv_h_x);
  ("fmv_x_h"%string, fun c : insn_ctx => insn_fmv_x_h);
  ("fnmadd_h"%string, fun c : insn_ctx => insn_fnmadd_h);
  ("fnmsub_h"%string, fun c : insn_ctx => insn_fnmsub_h);
  ("fsgnj_h"%string, fun c : insn_ctx => insn_fsgnj_h);
  ("fsgnjn_h"%string, fun c : insn_ctx => insn_fsgnjn_h);
  ("fsgnjx_h"%string, fun c : insn_ctx => insn_fsgnjx_h);
  ("fsh"%string, fun c : insn_ctx => insn_fsh);
  ("fsqrt_h"%string, fun c : insn_ctx => insn_fsqrt_h);
  ("fsub_h"%string, fun c : insn_ctx => insn_fsub_h);
  ("fli_h"%string, fun c : insn_ctx => insn_fli_h);
  ("fmaxm_h"%string, fun c : insn_ctx => insn_fmaxm_h);
  ("fminm_h"%string, fun c : insn_ctx => insn_fminm_h);
  ("fround_h"%string, fun c : insn_ctx => insn_fround_h);
  ("froundnx_h"%string, fun c : insn_ctx => insn_froundnx_h);
  ("fleq_h"%string, fun c : insn_ctx => insn_fleq_h);
  ("fltq_h"%string, fun c : insn_ctx => insn_fltq_h);
  ("czero_eqz"%string, fun c : insn_ctx => insn_czero_eqz);
  ("czero_nez"%string, fun c : insn_ctx => insn_czero_nez);
  ("vandn_vv"%string, fun c : insn_ctx => insn_vandn_vv);
  ("vandn_vx"%string, fun c : insn_ctx => insn_vandn_vx);
  ("vbrev8_v"%string, fun c : insn_ctx => insn_vbrev8_v);
  ("vbrev_v"%string, fun c : insn_ctx => insn_vbrev_v);
  ("vclz_v"%string, fun c : insn_ctx => insn_vclz_v);
  ("vcpop_v"%string, fun c : insn_ctx => insn_vcpop_v);
  ("vctz_v"%string, fun c : insn_ctx => insn_vctz_v);
  ("vrev8_v"%string, fun c : insn_ctx => insn_vrev8_v);
  ("vrol_vv"%string, fun c : insn_ctx => insn_vrol_vv);
  ("vrol_vx"%string, fun c : insn_ctx => insn_vrol_vx);
  ("vror_vi"%string, fun c : insn_ctx => insn_vror_vi);
  ("vror_vv"%string, fun c : insn_ctx => insn_vror_vv);
  ("vror_vx"%string, fun c : insn_ctx => insn_vror_vx);
  ("vwsll_vi"%string, fun c : insn_ctx => insn_vwsll_vi);
  ("vwsll_vv"%string, fun c : insn_ctx => insn_vwsll_vv);
  ("vwsll_vx"%string, fun c : insn_ctx => insn_vwsll_vx);
  ("vclmul_vv"%string, fun c : insn_ctx => insn_vclmul_vv);
  ("vclmul_vx"%string, fun c : insn_ctx => insn_vclmul_vx);
  ("vclmulh_vv"%string, fun c : insn_ctx => insn_vclmulh_vv);
  ("vclmulh_vx"%string, fun c : insn_ctx => insn_vclmulh_vx);
  ("vghsh_vv"%string, fun c : insn_ctx => insn_vghsh_vv);
  ("vgmul_vv"%string, fun c : insn_ctx => insn_vgmul_vv);
  ("vaesdf_vs"%string, fun c : insn_ctx => insn_vaesdf_vs);
  ("vaesdf_vv"%string, fun c : insn_ctx => insn_vaesdf_vv);
  ("vaesdm_vs"%string, fun c : insn_ctx => insn_vaesdm_vs);
  ("vaesdm_vv"%string, fun c : insn_ctx => insn_vaesdm_vv);
  ("vaesef_vs"%string, fun c : insn_ctx => insn_vaesef_vs);
  ("vaesef_vv"%string, fun c : insn_ctx => insn_vaesef_vv);
  ("vaesem_vs"%string, fun c : insn_ctx => insn_vaesem_vs);
  ("vaesem_vv"%string, fun c : insn_ctx => insn_vaesem_vv);
  ("vaeskf1_vi"%string, fun c : insn_ctx => insn_vaeskf1_vi);
  ("vaeskf2_vi"%string, fun c : insn_ctx => insn_vaeskf2_vi);
  ("vaesz_vs"%string, fun c : insn_ctx => insn_vaesz_vs);
  ("vsha2cl_vv"%string, fun c : insn_ctx => insn_vsha2cl_vv);
  ("vsha2ch_vv"%string, fun c : insn_ctx => insn_vsha2ch_vv);
  ("vsha2ms_vv"%string, fun c : insn_ctx => insn_vsha2ms_vv);
  ("vsm4k_vi"%string, fun c : insn_ctx => insn_vsm4k_vi);
  ("vsm4r_vs"%string, fun c : insn_ctx => insn_vsm4r_vs);
  ("vsm4r_vv"%string, fun c : insn_ctx => insn_vsm4r_vv);
  ("vsm3c_vi"%string, fun c : insn_ctx => insn_vsm3c_vi);
  ("vsm3me_vv"%string, fun c : insn_ctx => insn_vsm3me_vv);
  ("vqbdotu_vv"%string, fun c : insn_ctx => insn_vqbdotu_vv);
  ("vqbdots_vv"%string, fun c : insn_ctx => insn_vqbdots_vv);
  ("vfwbdot_vv"%string, fun c : insn_ctx => insn_vfwbdot_vv);
  ("vfbdot_vv"%string, fun c : insn_ctx => insn_vfbdot_vv);
  ("vqldotu_vv"%string, fun c : insn_ctx => insn_vqldotu_vv);
  ("vqldots_vv"%string, fun c : insn_ctx => insn_vqldots_vv);
  ("vfwldot_vv"%string, fun c : insn_ctx => insn_vfwldot_vv);
  ("csrrc"%string, fun c : insn_ctx => insn_csrrc);
  ("csrrci"%string, fun c : insn_ctx => insn_csrrci);
  ("csrrs"%string, fun c : insn_ctx => insn_csrrs);
  ("csrrsi"%string, fun c : insn_ctx => insn_csrrsi);
  ("csrrw"%string, fun c : insn_ctx => insn_csrrw);
  ("csrrwi"%string, fun c : insn_ctx => insn_csrrwi);
  ("dret"%string, fun c : insn_ctx => insn_dret);
  ("ebreak"%string, fun c : insn_ctx => insn_ebreak);
  ("ecall"%string, fun c : insn_ctx => insn_ecall);
  ("mret"%string, fun c : insn_ctx => insn_mret);
  ("sfence_vma"%string, fun c : insn_ctx => insn_sfence_vma);
  ("sret"%string, fun c : insn_ctx => insn_sret);
  ("wfi"%string, fun c : insn_ctx => insn_wfi);
  ("mnret"%string, fun c : insn_ctx => insn_mnret);
  ("sfence_w_inval"%string, fun c : insn_ctx => insn_sfence_w_inval);
  ("sfence_inval_ir"%string, fun c : insn_ctx => insn_sfence_inval_ir);
  ("sinval_vma"%string, fun c : insn_ctx => insn_sinval_vma);
  ("hinval_vvma"%string, fun c : insn_ctx => insn_hinval_vvma);
  ("hinval_gvma"%string, fun c : insn_ctx => insn_hinval_gvma);
  ("mop_r_N"%string, fun c : insn_ctx => insn_mop_r_N);
  ("mop_rr_N"%string, fun c : insn_ctx => insn_mop_rr_N);
  ("c_mop_N"%string, fun c : insn_ctx => insn_c_mop_N);
  ("lpad"%string, fun c : insn_ctx => insn_lpad);
  ("sspush_x1"%string, fun c : insn_ctx => insn_sspush_x1);
  ("sspush_x5"%string, fun c : insn_ctx => insn_sspush_x5);
  ("sspopchk_x1"%string, fun c : insn_ctx => insn_sspopchk_x1);
  ("sspopchk_x5"%string, fun c : insn_ctx => insn_sspopchk_x5);
  ("ssrdp"%string, fun c : insn_ctx => insn_ssrdp);
  ("ssamoswap_w"%string, fun c : insn_ctx => insn_ssamoswap_w);
  ("ssamoswap_d"%string, fun c : insn_ctx => insn_ssamoswap_d);
  ("c_sspush_x1"%string, fun c : insn_ctx => insn_c_sspush_x1);
  ("c_sspopchk_x5"%string, fun c : insn_ctx => insn_c_sspopchk_x5)].

End table.

(** The bodies outside the development. *)
Class other_insns `{!config, !simif, !trigger_module} : Type :=
  other_insn : string -> insn_body.

Section body.
Context `{!config, !simif, !trigger_module, !other_insns}.

Definition body_of (name : string) : insn_body :=
  match List.find (fun p => String.eqb (fst p) name) insn_bodies with
  | Some (_, b) => b
  | None => other_insn name
  end.

End body.
