(* ===== verification/Processor.v ===== *)
(** [processor_t]: decoding with the opcode cache and the instruction cache,
    traps, interrupts, debug mode, the fetch-decode-execute loop of
    [riscv/execute.cc] and reset.

    Logging, tracing, checkpoints and histograms do not change the hart and
    are left out; [cfg_slow] stands for those of them that select the slow
    path.  There are no custom instructions. *)

From S2P Require Import Prelude IntArith Decode Encoding IsaExt Trap Hart Pmp Csr CsrFile CsrInit Mmu Macros.
From S2P Require Import InsnsPriv Vector InsnList InsnTable.

Definition DEBUG_ROM_ENTRY : Z := 0x800.
Definition DEBUG_ROM_TVEC : Z := 0x808.
Definition DEFAULT_RSTVEC : Z := 0x1000.
Definition ACTION_DEBUG_EXCEPTION : Z := 0.
Definition ACTION_DEBUG_MODE : Z := 1.
Definition OPCODE_CACHE_SIZE : Z := 4095.
Definition ICACHE_ENTRIES : Z := 1024.
Definition ZICCID_FLUSH_PERIOD : Z := 10.

(** [try_ m] makes the exception of [m] a value. *)
Definition try_ `{!config, !simif, !trigger_module} {A} (m : M A) : M (A + exn) :=
  fun h => match m h with (Val a, h') => (Val (inl a), h') | (Exc e, h') => (Val (inr e), h') end.

(** * Decoding *)

(** [insn_desc_t]; the name stands for its eight functions. *)
Record insn_desc_t : Type := mk_desc { d_name : string; d_match : Z; d_mask : Z }.
Definition illegal_desc : insn_desc_t := mk_desc "illegal_instruction" 0 0.
Definition desc_of (r : opcode_row) : insn_desc_t := mk_desc (row_name r) (row_match r) (row_mask r).
Definition is_overlapping (name : string) : bool := existsb (fun p => String.eqb (fst p) name) overlap_list.
Definition desc_matches (bits : Z) (d : insn_desc_t) : bool := bits .& d_mask d =? d_match d.

(** [std::find_if] from index [i] on. *)
Fixpoint find_index {A} (f : A -> bool) (l : list A) (i : Z) : option Z :=
  match l with [] => None | a :: l => if f a then Some i else find_index f l (i + 1) end.

(** [opcode_cache_entry_t]: four tags with the index of their descriptor; an
    absent entry has been [reset]. *)
Definition associativity : nat := 4.
Fixpoint opcode_cache_lookup (entry : list (Z * Z)) (opcode : Z) : option Z :=
  match entry with
  | [] => None
  | (tag, contents) :: entry => if tag =? opcode then Some contents else opcode_cache_lookup entry opcode
  end.
Definition opcode_cache_replace (entry : list (Z * Z)) (opcode desc : Z) : list (Z * Z) :=
  firstn associativity ((opcode, desc) :: entry).

Section processor.
Context `{!config, !simif, !trigger_module, !other_insns}.

(** [register_base_instructions] *)
Definition instructions : list insn_desc_t :=
  flat_map (fun p =>
      if isa_extension_enabled (snd p)
      then map desc_of (List.filter (fun r => String.eqb (row_name r) (fst p)) insn_list) else [])
    overlap_list
  ++ map desc_of (List.filter (fun r => negb (is_overlapping (row_name r))) insn_list)
  ++ [illegal_desc].

Definition desc_at (i : Z) : insn_desc_t := nth (Z.to_nat i) instructions illegal_desc.
Definition reset_entry : list (Z * Z) :=
  replicate associativity (0, Z.of_nat (List.length instructions) - 1).
Definition cache_entry (h : hart) (idx : Z) : list (Z * Z) := default reset_entry (opcode_cache h !! idx).

Definition decode_insn (bits : Z) : M (Z * bool) :=
  let idx := bits mod OPCODE_CACHE_SIZE in
  let* h := get_hart in
  let* desc :=
    match opcode_cache_lookup (cache_entry h idx) bits with
    | Some desc => ret desc
    | None =>
        match find_index (desc_matches bits) instructions 0 with
        | Some desc =>
            modify (fun h => set_opcode_cache
              (<[idx := opcode_cache_replace (cache_entry h idx) bits desc]> (opcode_cache h)) h) ;;
            ret desc
        | None => abort
        end
    end in
  ret (desc, extension_enabled h ext_E).

(** Calling the function of a fetched instruction. *)
Definition call_func (f : insn_fetch_t) (at_pc : Z) : M Z :=
  let d := desc_at (fetch_func f) in
  let ctx := mk_ctx (fetch_insn f) at_pc (fetch_rve f) in
  if String.eqb (d_name d) "illegal_instruction"
  then throw (trap_illegal_instruction (fetch_insn f .& 0xffffffff))
  else @run_insn _ _ _ ctx (d_match d) (body_of (d_name d) ctx).

(** * Instruction cache *)

Definition icache_index (addr : Z) : Z := (addr / PC_ALIGN) mod ICACHE_ENTRIES.

(** [refill_icache(addr, entry)] up to the parcels: the instruction word. *)
Definition fetch_bits (addr : Z) : M Z :=
  let* p0 := fetch_insn_parcel addr in
  let length := insn_length p0 in
  if length =? 4 then
    let* p1 := fetch_insn_parcel (u64 (addr + 2)) in
    ret (p0 .| Z.shiftl p1 16)
  else if length =? 2 then ret p0
  else if length =? 6 then
    let* p1 := fetch_insn_parcel (u64 (addr + 2)) in
    let* p2 := fetch_insn_parcel (u64 (addr + 4)) in
    ret (p0 .| Z.shiftl p1 16 .| Z.shiftl p2 32)
  else
    let* p1 := fetch_insn_parcel (u64 (addr + 2)) in
    let* p2 := fetch_insn_parcel (u64 (addr + 4)) in
    let* p3 := fetch_insn_parcel (u64 (addr + 6)) in
    ret (p0 .| Z.shiftl p1 16 .| Z.shiftl p2 32 .| Z.shiftl p3 48).

(** The entry [refill_icache] fills; its tag is [-1] when a tracer wants the
    page. *)
Definition refill_icache (addr : Z) : M icache_entry_t :=
  let* bits := fetch_bits addr in
  let* (desc, e) := decode_insn bits in
  let* h := get_hart in
  let '(check_tracer, _, paddr) := access_tlb (tlb_insn (mmu h)) addr TLB_FLAGS TLB_CHECK_TRACER in
  let tag := if check_tracer && tracer_interested paddr (u64 (paddr + 1)) FETCH then UINT64_MAX else addr in
  ret (mk_icache tag (icache_index (u64 (addr + insn_length bits))) (mk_fetch desc e bits)).

Definition access_icache (addr : Z) : M icache_entry_t :=
  let* h := get_hart in
  let refill :=
    let* e := refill_icache addr in
    modify (fun h => set_mmu (set_icache (<[icache_index addr := e]> (icache (mmu h))) (mmu h)) h) ;;
    ret e in
  match icache (mmu h) !! icache_index addr with
  | Some e => if ic_tag e =? addr then ret e else refill
  | None => refill
  end.

Definition load_insn (addr : Z) : M insn_fetch_t :=
  let* e := refill_icache addr in ret (ic_data e).

(** * Debug mode and triggers *)

Definition enter_debug_mode (dcause extcause : Z) : M unit :=
  modify (set_debug_mode true) ;;
  modify (fun h => dcsr_update_fields dcause extcause (prv h) (v h) (elp h) h) ;;
  modify (set_elp NO_LP_EXPECTED) ;;
  set_privilege PRV_M false ;;
  let* h := get_hart in
  csr_write dpc_csr (pc h) ;;
  modify (fun h => set_in_wfi false (set_pc DEBUG_ROM_ENTRY (set_taken_branch_flag true h))).

(** * Traps *)

Definition nmie (h : hart) : bool :=
  negb (has_mnstatus && negb (z2b (get_field (mnstatus_read h) MNSTATUS_NMIE))).

(** [(deleg >> bit) & 1] *)
Definition delegated (deleg bit : Z) : bool := z2b (Z.shiftr deleg bit .& 1).

(** Where a trap is handled. *)
Inductive trap_target : Type := To_VS | To_HS | To_M.

(** What [take_trap] computes before it writes anything: the cause without
    the interrupt bit, and the decision. *)
Record trap_decision : Type := mk_decision {
  td_interrupt : bool; td_bit : Z; td_double : bool; td_vti : bool; td_target : trap_target }.

Definition interrupt_bit : Z := Z.shiftl 1 (max_xlen - 1).

Definition decide_trap (t : trap_t) (h : hart) : trap_decision :=
  let curr_virt := v h in
  let interrupt := z2b (cause t .& interrupt_bit) in
  let low := prv h <=? PRV_S in
  let vsdeleg :=
    if curr_virt && low
    then if interrupt then hideleg_read h else medeleg_read h .& csr_raw h CSR_HEDELEG else 0 in
  let hsdeleg :=
    if low then if interrupt then mideleg_read h .| sip_read h else medeleg_read h else 0 in
  let bit := if interrupt then cause t &~ interrupt_bit else cause t in
  let deleg_ok := low && (bit <? max_xlen) in
  let double :=
    deleg_ok && (delegated vsdeleg bit || delegated hsdeleg bit) &&
    z2b (get_field (if delegated vsdeleg bit then sstatus_read h else sstatus_proxy_read h) MSTATUS_SDT) in
  let vsdeleg := if double then 0 else vsdeleg in
  let hsdeleg := if double then 0 else hsdeleg in
  let vti :=
    ee0 EXT_SSAIA &&
    (let hvictl := hvictl_read h in
     let iid := get_field hvictl HVICTL_IID in
     z2b (hvictl .& HVICTL_VTI) && negb (iid =? IRQ_S_EXT) && (iid =? bit)
       && (get_field (vstopi_read h) MTOPI_IID =? iid)) in
  mk_decision interrupt bit double vti
    (if (deleg_ok && delegated vsdeleg bit) || vti then To_VS
     else if deleg_ok && delegated hsdeleg bit then To_HS else To_M).

(** [(tvec & ~1) + (tvec & 1 && interrupt ? 4 * n : 0)] *)
Definition vectored (tvec : Z) (interrupt : bool) (n : Z) : Z :=
  u64 ((tvec .& unot64 1) + (if z2b (tvec .& 1) && interrupt then 4 * n else 0)).

Definition enter_vs (t : trap_t) (epc : Z) (d : trap_decision) : M unit :=
  let* h := get_hart in
  let adjusted_cause :=
    if td_interrupt d && (td_bit d <=? IRQ_VS_EXT) && negb (td_vti d)
    then u64 (td_bit d - 1) else td_bit d in
  modify (set_pc (vectored (csr_read (tvec_csr CSR_VSTVEC) h) (td_interrupt d) adjusted_cause)) ;;
  csr_write (cause_csr CSR_VSCAUSE) (adjusted_cause .| (if td_interrupt d then interrupt_bit else 0)) ;;
  csr_write (epc_csr CSR_VSEPC) epc ;;
  csr_write (basic_csr CSR_VSTVAL) (get_tval t) ;;
  let* h := get_hart in
  let s := csr_read sstatus_csr h in
  let s := set_field s MSTATUS_SPIE (get_field s MSTATUS_SIE) in
  let s := set_field s MSTATUS_SPP (prv h) in
  let s := set_field s MSTATUS_SIE 0 in
  let s := set_field s MSTATUS_SPELP (elp_z (elp h)) in
  let s := if z2b (menvcfg_read h .& MENVCFG_DTE) && z2b (henvcfg_read h .& HENVCFG_DTE)
           then set_field s MSTATUS_SDT 1 else s in
  modify (set_elp NO_LP_EXPECTED) ;;
  csr_write sstatus_csr s ;;
  set_privilege PRV_S true.

Definition enter_hs (t : trap_t) (epc : Z) (d : trap_decision) : M unit :=
  let* h := get_hart in
  let curr_virt := v h in
  modify (set_pc (vectored (csr_read (tvec_csr CSR_STVEC) h) (td_interrupt d) (td_bit d))) ;;
  csr_write (cause_csr CSR_SCAUSE) (cause t) ;;
  csr_write (epc_csr CSR_SEPC) epc ;;
  csr_write (basic_csr CSR_STVAL) (get_tval t) ;;
  csr_write (basic_csr CSR_HTVAL) (get_tval2 t) ;;
  csr_write (basic_csr CSR_HTINST) (get_tinst t) ;;
  let* h := get_hart in
  let s := sstatus_proxy_read h in
  let s := set_field s MSTATUS_SPIE (get_field s MSTATUS_SIE) in
  let s := set_field s MSTATUS_SPP (prv h) in
  let s := set_field s MSTATUS_SIE 0 in
  let s := set_field s MSTATUS_SPELP (elp_z (elp h)) in
  let s := if z2b (menvcfg_read h .& MENVCFG_DTE) then set_field s MSTATUS_SDT 1 else s in
  modify (set_elp NO_LP_EXPECTED) ;;
  csr_write sstatus_proxy_csr s ;;
  let* h := get_hart in
  when (extension_enabled h ext_H)
    (let s := hstatus_read h in
     let s := if curr_virt then set_field s HSTATUS_SPVP (prv h) else s in
     let s := set_field s HSTATUS_SPV (b2z curr_virt) in
     let s := set_field s HSTATUS_GVA (b2z (has_gva t)) in
     csr_write hstatus_csr s) ;;
  set_privilege PRV_S false.

Definition enter_m (t : trap_t) (epc : Z) (d : trap_decision) : M unit :=
  let* h := get_hart in
  let curr_virt := v h in
  let trap_handler_address := vectored (csr_read (tvec_csr CSR_MTVEC) h) (td_interrupt d) (td_bit d) in
  let s := csr_read mstatus_csr h in
  if extension_enabled h EXT_SMDBLTRP && (z2b (get_field s MSTATUS_MDT) || negb (nmie h))
  then modify (set_critical_error true)
  else
    let s := if extension_enabled h EXT_SMDBLTRP then set_field s MSTATUS_MDT 1 else s in
    modify (set_pc (if nmie h then trap_handler_address else 0)) ;;
    csr_write (epc_csr CSR_MEPC) epc ;;
    csr_write (cause_csr CSR_MCAUSE) (if td_double d then CAUSE_DOUBLE_TRAP else cause t) ;;
    csr_write (basic_csr CSR_MTVAL) (get_tval t) ;;
    csr_write mtval2_csr (if td_double d then cause t else get_tval2 t) ;;
    csr_write (hypervisor_csr CSR_MTINST) (get_tinst t) ;;
    let s := set_field s MSTATUS_MPIE (get_field s MSTATUS_MIE) in
    let s := set_field s MSTATUS_MPP (prv h) in
    let s := set_field s MSTATUS_MIE 0 in
    let s := set_field s MSTATUS_MPV (b2z curr_virt) in
    let s := set_field s MSTATUS_GVA (b2z (has_gva t)) in
    let s := set_field s MSTATUS_MPELP (elp_z (elp h)) in
    modify (set_elp NO_LP_EXPECTED) ;;
    csr_write mstatus_csr s ;;
    write_if_present mstatush_obj (fun _ => Z.shiftr s 32) ;;
    write_if_present tcontrol_obj (fun t => if z2b (t .& CSR_TCONTROL_MTE) then CSR_TCONTROL_MPTE else 0) ;;
    set_privilege PRV_M false.

(** [state.csrmap[CSR_HVICTL]->read()] dereferences a null pointer when Ssaia
    is present without H. *)
Definition take_trap (t : trap_t) (epc : Z) : M unit :=
  let* h := get_hart in
  if debug_mode h then
    modify (set_pc (if cause t =? CAUSE_BREAKPOINT then DEBUG_ROM_ENTRY else DEBUG_ROM_TVEC))
  else
    assert (negb (ee0 EXT_SSAIA) || bool_decide (is_Some (csrmap !! CSR_HVICTL))) ;;
    let d := decide_trap t h in
    match td_target d with
    | To_VS => enter_vs t epc d
    | To_HS => enter_hs t epc d
    | To_M => enter_m t epc d
    end.

Definition take_trigger_action (action breakpoint_tval epc : Z) (virt : bool) : M unit :=
  if action =? ACTION_DEBUG_MODE then enter_debug_mode DCSR_CAUSE_HWBP 0
  else if action =? ACTION_DEBUG_EXCEPTION then take_trap (trap_breakpoint virt breakpoint_tval) epc
  else abort.

(** * Interrupts *)

(** What [take_interrupt] selects from: the enabled interrupts of the highest
    privilege that has any. *)
Definition enabled_interrupts (h : hart) (pending s_pending vs_pending : Z) : Z :=
  let mask (b : bool) x := if b then x else 0 in
  let mie := z2b (get_field (csr_read mstatus_csr h) MSTATUS_MIE) in
  let m_enabled := (prv h <? PRV_M) || ((prv h =? PRV_M) && mie) in
  let m := mask m_enabled (pending &~ mideleg_read h) in
  if negb (m =? 0) then m else
  let deleg_to_hs := mideleg_read h &~ hideleg_read h in
  let sie := z2b (get_field (sstatus_read h) MSTATUS_SIE) in
  let hs_enabled := v h || (prv h <? PRV_S) || ((prv h =? PRV_S) && sie) in
  let hs := mask hs_enabled ((pending .& deleg_to_hs) .| (s_pending &~ hideleg_read h)) in
  if v h && (hs =? 0) then
    let vs_enabled := (prv h <? PRV_S) || ((prv h =? PRV_S) && sie) in
    mask vs_enabled ((pending .& hideleg_read h) .| vs_pending)
  else hs.

Definition take_interrupt (pending : Z) : M unit :=
  let* h := get_hart in
  let s_pending := if ee0 EXT_SSAIA then sip_read h .& sie_read h else 0 in
  let vstopi := if ee0 EXT_SSAIA then vstopi_read h else 0 in
  let vs_pending :=
    if ee0 EXT_SSAIA then (if vstopi =? 0 then 0 else u64 (Z.shiftl 1 (get_field vstopi MTOPI_IID))) &~ MIP_S_MASK
    else 0 in
  if (pending =? 0) && (s_pending =? 0) && (vs_pending =? 0) then ret tt
  else
    modify (set_in_wfi false) ;;
    let enabled := enabled_interrupts h pending s_pending vs_pending in
    if negb (debug_mode h) && nmie h && negb (enabled =? 0) then
      let selected := select_an_interrupt_with_default_priority enabled in
      (if check_triggers_icount h then
         fun h => let '(_, s) := detect_icount_match (trigger_env_of h) (tm h) in (Val tt, set_tm s h)
       else ret tt) ;;
      throw (Plain_trap (interrupt_bit .| ctz selected))
    else ret tt.

Definition take_pending_interrupt : M unit :=
  let* h := get_hart in take_interrupt (mip_read h .& mie_read h).

Definition check_if_lpad_required : M unit :=
  let* h := get_hart in
  when (bool_decide (elp h = LP_EXPECTED))
    (let* fetch := load_insn (pc h) in
     software_check (fetch_insn fetch .& MASK_LPAD =? MATCH_LPAD) LANDING_PAD_FAULT).

(** * The loop *)

Definition slow_path (h : hart) : bool :=
  cfg_slow || negb (bool_decide (single_step h = STEP_NONE)) || debug_mode h || in_wfi h || check_triggers_icount h.

(** [advance_pc()]: whether it leaves the loop, the new [pc] and what is added
    to [instret]. *)
Definition advance_pc (p : Z) : M (bool * Z * Z) :=
  if invalid_pc p then
    let* d :=
      (if p =? PC_SERIALIZE_BEFORE then modify (set_serialized true) ;; ret 0
       else if p =? PC_SERIALIZE_AFTER then ret 1 else abort) in
    let* h := get_hart in
    ret (true, pc h, d)
  else modify (set_pc p) ;; ret (false, p, 1).

Definition critical_error_action : M unit :=
  let* h := get_hart in
  if z2b (dcsr_read h .& DCSR_CETRIG) then enter_debug_mode DCSR_CAUSE_EXTCAUSE DCSR_EXTCAUSE_CRITERR
  else enter_debug_mode DCSR_CAUSE_HALT 0.

(** One turn of the slow loop. *)
Definition slow_turn (p : Z) : M (bool * Z * Z) :=
  let* h := get_hart in
  let stepped := negb (serialized h) && bool_decide (single_step h = STEP_STEPPED) in
  when stepped (modify (set_single_step STEP_NONE)) ;;
  if stepped && negb (debug_mode h) then
    enter_debug_mode DCSR_CAUSE_STEP 0 ;; ret (true, p, 0)
  else
    modify (fun h => if decide (single_step h = STEP_STEPPING) then set_single_step STEP_STEPPED h else h) ;;
    let* h := get_hart in
    when (negb (serialized h) && check_triggers_icount h)
      (let* m := (fun h => let '(m, s) := detect_icount_match (trigger_env_of h) (tm h) in (Val m, set_tm s h)) in
       match m with
       | Some m =>
           assert (match mr_timing m with TIMING_BEFORE => true | TIMING_AFTER => false end) ;;
           raise (Matched_trigger (mk_matched OPERATION_EXECUTE 0 (mr_action m) (v h)))
       | None => ret tt
       end) ;;
    let* h := get_hart in
    when (in_wfi h && negb (debug_mode h)) (raise Wait_for_interrupt) ;;
    modify (set_in_wfi false) ;;
    let* fetch := load_insn p in
    let* next := call_func fetch p in
    let* (leave, p', d) := advance_pc next in
    let* h := get_hart in
    (if negb leave && critical_error h && negb (debug_mode h) then critical_error_action else ret tt) ;;
    ret (leave, p', d).

(** What a loop ends with: the exception that left it and the local variables
    [pc] and [instret] at that point. *)
Definition loop_end : Type := option exn * Z * Z.

(** [while (instret < n)], [k] being [n - instret]. *)
Fixpoint slow_loop (k : nat) (p instret : Z) : M loop_end :=
  match k with
  | O => ret (None, p, instret)
  | S k =>
      let* r := try_ (slow_turn p) in
      match r with
      | inr e => ret (Some e, p, instret)
      | inl (leave, p', d) =>
          if leave then ret (None, p', instret + d) else slow_loop k p' (instret + d)
      end
  end.

(** The chain of cached instructions, and the number still allowed. *)
Fixpoint fast_chain (k : nat) (e : icache_entry_t) (p instret : Z) : M (loop_end * nat) :=
  match k with
  | O => ret (None, p, instret, O)
  | S k' =>
      let* r := try_ (call_func (ic_data e) p) in
      match r with
      | inr ex => ret (Some ex, p, instret, k)
      | inl p' =>
          let* h := get_hart in
          match icache (mmu h) !! ic_next e with
          | Some e' =>
              if negb (ic_tag e' =? p') then ret (None, p', instret, k)
              else match k' with
                   | O => ret (None, p', instret, k)
                   | S _ => modify (set_pc p') ;; fast_chain k' e' p' (instret + 1)
                   end
          | None => ret (None, p', instret, k)
          end
      end
  end.

Fixpoint fast_loop (fuel : nat) (k : nat) (p instret : Z) : M loop_end :=
  match fuel, k with
  | O, _ | _, O => ret (None, p, instret)
  | S fuel, _ =>
      let* e := try_ (access_icache p) in
      match e with
      | inr ex => ret (Some ex, p, instret)
      | inl e =>
          let* (ex, p', instret', k') := fast_chain k e p instret in
          match ex with
          | Some _ => ret (ex, p', instret')
          | None =>
              let* r := try_ (advance_pc p') in
              match r with
              | inr ex => ret (Some ex, p', instret')
              | inl (leave, p', d) =>
                  if leave then ret (None, p', instret' + d) else fast_loop fuel (pred k') p' (instret' + d)
              end
          end
      end
  end.

(** The [try] block. *)
Definition run_loops (n p : Z) : M loop_end :=
  let* r := try_ (take_pending_interrupt ;; check_if_lpad_required) in
  match r with
  | inr e => ret (Some e, p, 0)
  | inl _ =>
      let* h := get_hart in
      let k := Z.to_nat n in
      if slow_path h then slow_loop k p 0 else fast_loop k k p 0
  end.

(** The [catch] blocks: the new [n] and [instret]. *)
Definition handle (e : exn) (n p instret : Z) : M (Z * Z) :=
  match e with
  | Trap t =>
      take_trap t p ;;
      let* h := get_hart in
      (if critical_error h then critical_error_action else ret tt) ;;
      let* m := (fun h => match detect_trap_match (trigger_env_of h) t (tm h) with
                        | Some (m, s) => (Val m, set_tm s h)
                        | None => (Exc Abort, h)
                        end) in
      let* h := get_hart in
      (match m with
       | Some m => take_trigger_action (mr_action m) 0 (pc h) false
       | None =>
           when (bool_decide (single_step h = STEP_STEPPED))
             (modify (set_single_step STEP_NONE) ;; enter_debug_mode DCSR_CAUSE_STEP 0)
       end) ;;
      ret (instret, instret)
  | Matched_trigger t =>
      take_trigger_action (m_action t) (m_address t) p (m_gva t) ;; ret (n, instret)
  | Trap_debug_mode => enter_debug_mode DCSR_CAUSE_SWBP 0 ;; ret (n, instret)
  | Wait_for_interrupt => modify (set_in_wfi true) ;; ret (instret + 1, instret + 1)
  | Return_npc _ | Abort => raise e
  end.

(** One turn of [while (n > 0)]: the new [n]. *)
Definition step_turn (n : Z) : M Z :=
  let* h := get_hart in
  modify (fun h => set_v_changed false (set_prv_changed false h)) ;;
  let* (ex, p, instret) := run_loops n (pc h) in
  let* (n, instret) := match ex with Some e => handle e n p instret | None => ret (n, instret) end in
  let* h := get_hart in
  let inhibit := csr_raw h CSR_MCOUNTINHIBIT in
  wide_counter_bump CSR_MINSTRET CSR_MINSTRETCFG (if z2b (inhibit .& MCOUNTINHIBIT_IR) then 0 else instret) ;;
  wide_counter_bump CSR_MCYCLE CSR_MCYCLECFG (if z2b (inhibit .& MCOUNTINHIBIT_CY) then 0 else instret) ;;
  ret (n - instret).

(** The [while] of [step]; [None] when the fuel runs out first. *)
Fixpoint step_loop (fuel : nat) (n : Z) : M (option unit) :=
  if n <=? 0 then ret (Some tt) else
  match fuel with
  | O => ret None
  | S fuel => let* n := step_turn n in step_loop fuel n
  end.

Definition step_prologue : M unit :=
  let* h := get_hart in
  when (negb (debug_mode h))
    (match halt_request h with
     | HR_REGULAR => enter_debug_mode DCSR_CAUSE_DEBUGINT 0
     | HR_GROUP => enter_debug_mode DCSR_CAUSE_GROUP 0
     | HR_NONE =>
         when (halt_on_reset h) (modify (set_halt_on_reset false) ;; enter_debug_mode DCSR_CAUSE_HALT 0)
     end) ;;
  let* h := get_hart in
  when (extension_enabled h EXT_ZICCID)
    (if ziccid_flush_count h =? 0
     then modify (fun h => flush_icache (set_ziccid_flush_count (u32 (-1 + ZICCID_FLUSH_PERIOD)) h))
     else modify (fun h => set_ziccid_flush_count (u32 (ziccid_flush_count h - 1)) h)).

Definition step (fuel : nat) (n : Z) : M (option unit) := step_prologue ;; step_loop fuel n.

(** * Reset *)

Definition state_reset (h : hart) : hart :=
  let h := set_pc DEFAULT_RSTVEC h in
  let h := set_XPR (regfile_reset 0 NXPR) (set_FPR (regfile_reset (0, 0) 32) h) in
  let h := set_prv PRV_M (set_prev_prv PRV_M (set_v false (set_prev_v false h))) in
  let h := set_prv_changed false (set_v_changed false h) in
  let h := set_serialized false (set_debug_mode false (set_single_step STEP_NONE h)) in
  let h := set_critical_error false (set_elp NO_LP_EXPECTED h) in
  let h := set_csr_val csr_init_val h in
  let h := set_pmpaddr (replicate (Z.to_nat max_pmp) (mk_pmp 0 0)) h in
  set_dcsr dcsr_init (set_counter_written ∅ (set_prev_val ∅ h)).

Definition reset : M unit :=
  modify state_reset ;;
  when any_vector_extensions VU_reset ;;
  modify (set_in_wfi false) ;;
  when (0 <? n_pmp)
    (put_csr CSR_PMPADDR0 UINT64_MAX ;;
     put_csr CSR_PMPCFG0 (PMP_R .| PMP_W .| PMP_X .| PMP_NAPOT)).

(** * The MMIO slave interface *)

Definition processor_load (addr len : Z) : M (option (list Z)) :=
  let* h := get_hart in
  ret (if (addr =? 0) && (len <=? 4)
       then Some (get_field (mip_read h) MIP_MSIP :: replicate (Z.to_nat len - 1) 0) else None).
Definition processor_store (addr : Z) (bytes : list Z) : M bool :=
  if (addr =? 0) && (Z.of_nat (List.length bytes) <=? 4)
  then modify (mip_write_with_mask MIP_MSIP (Z.shiftl (hd 0 bytes) IRQ_M_SOFT)) ;; ret true
  else ret false.

End processor.
