(* ===== verification/Sim.v ===== *)
(** The simulator, [riscv/sim.cc]: the platform that the harts share and the
    round robin in which they run. *)

From S2P Require Import Prelude IntArith Decode Encoding IsaExt Trap Hart Pmp Triggers Csr CsrFile Mmu.
From S2P Require Import Devices Clint Plic Uart Macros InsnList InsnTable Processor.

Definition INTERLEAVE : Z := 5000.
Definition INSNS_PER_RTC_TICK : Z := 100.

(** * The devices on the bus *)

Inductive device : Type :=
| Dev_rom (r : rom_device_t)
| Dev_mem (m : mem_t)
| Dev_clint (c : clint_dev)
| Dev_plic (p : plic_t)
| Dev_uart (u : ns16550_t).

Definition device_load (addr len : Z) (d : device) : option (list Z) * device * effects :=
  match d with
  | Dev_rom r => let '(x, r, es) := dev_load addr len r in (x, Dev_rom r, es)
  | Dev_mem m => let '(x, m, es) := dev_load addr len m in (x, Dev_mem m, es)
  | Dev_clint c => let '(x, c, es) := dev_load addr len c in (x, Dev_clint c, es)
  | Dev_plic p => let '(x, p, es) := dev_load addr len p in (x, Dev_plic p, es)
  | Dev_uart u => let '(x, u, es) := dev_load addr len u in (x, Dev_uart u, es)
  end.
Definition device_store (addr : Z) (bytes : list Z) (d : device) : bool * device * effects :=
  match d with
  | Dev_rom r => let '(x, r, es) := dev_store addr bytes r in (x, Dev_rom r, es)
  | Dev_mem m => let '(x, m, es) := dev_store addr bytes m in (x, Dev_mem m, es)
  | Dev_clint c => let '(x, c, es) := dev_store addr bytes c in (x, Dev_clint c, es)
  | Dev_plic p => let '(x, p, es) := dev_store addr bytes p in (x, Dev_plic p, es)
  | Dev_uart u => let '(x, u, es) := dev_store addr bytes u in (x, Dev_uart u, es)
  end.
Definition device_size (d : device) : Z :=
  match d with
  | Dev_rom r => dev_size r | Dev_mem m => dev_size m | Dev_clint c => dev_size c
  | Dev_plic p => dev_size p | Dev_uart u => dev_size u
  end.
#[export] Instance device_ops : abstract_device device := {|
  dev_size := device_size; dev_load := device_load; dev_store := device_store |}.

(** [tick] with what the terminal would answer, and whether it was asked. *)
Definition device_tick (rtc_ticks rc : Z) (d : device) : device * effects * bool :=
  match d with
  | Dev_clint c => let '(c, es) := clint_tick rtc_ticks c in (Dev_clint c, es, false)
  | Dev_uart u => let '(u', es) := ns16550_tick rc u in (Dev_uart u', es, ns16550_polls u)
  | _ => (d, [], false)
  end.

(** * The platform

    The bus with [devices], the base addresses in the order in which the devices
    were added; the acts on harts that are not running, in order; the terminal; whether a
    device failed an assertion, which ends the program. *)
Record platform : Type := mk_platform {
  pf_bus : bus_t device; pf_order : list Z;
  pf_acts : list (Z * hart_effect); pf_input : list Z; pf_output : list Z;
  pf_aborted : bool }.

Definition set_bus (b : bus_t device) (p : platform) : platform :=
  mk_platform b (pf_order p) (pf_acts p) (pf_input p) (pf_output p) (pf_aborted p).
Definition set_acts (l : list (Z * hart_effect)) (p : platform) : platform :=
  mk_platform (pf_bus p) (pf_order p) l (pf_input p) (pf_output p) (pf_aborted p).

(** The first interrupt controller, [sim_t::plic]. *)
Fixpoint set_line (id : Z) (lvl : bool) (l : list (Z * device)) : list (Z * device) * effects :=
  match l with
  | [] => ([], [])
  | (base, Dev_plic p) :: l => let '(p, es) := set_interrupt_level id lvl p in ((base, Dev_plic p) :: l, es)
  | d :: l => let '(l, es) := set_line id lvl l in (d :: l, es)
  end.

Definition queue_acts (es : effects) (p : platform) : platform :=
  set_acts (pf_acts p ++ flat_map (fun e => match e with Act id e => [(id, e)] | _ => [] end) es) p.

(** What a device did reaches the others. *)
Definition deliver_effect (p : platform) (e : effect) : platform :=
  match e with
  | Act id e => set_acts (pf_acts p ++ [(id, e)]) p
  | Irq id lvl =>
      let '(l, es) := set_line id lvl (devices (pf_bus p)) in
      queue_acts es (set_bus (mk_bus l (fallback (pf_bus p))) p)
  | Tx c => mk_platform (pf_bus p) (pf_order p) (pf_acts p) (pf_input p) (pf_output p ++ [c]) (pf_aborted p)
  | Aborts => mk_platform (pf_bus p) (pf_order p) (pf_acts p) (pf_input p) (pf_output p) true
  end.
Definition deliver_effects (es : effects) (p : platform) : platform := fold_left deliver_effect es p.

(** The acts on a hart, taken from the queue. *)
Definition acts_on (id : Z) (p : platform) : list hart_effect * platform :=
  (map snd (filter (fun a => bool_decide (fst a = id)) (pf_acts p)),
   set_acts (filter (fun a => bool_decide (fst a <> id)) (pf_acts p)) p).

(** The interruptor reads the [mip] of the hart itself. *)
Definition see_mip (id mip : Z) (p : platform) : platform :=
  let see d := match d with
    | Dev_clint c => Dev_clint (mk_clint_dev (cl c) (map (fun '(i, m) => (i, if i =? id then mip else m)) (cl_harts c)) (cl_now c))
    | _ => d end in
  set_bus (mk_bus (map (fun '(base, d) => (base, see d)) (devices (pf_bus p))) (fallback (pf_bus p))) p.

(** [sim_t::mmio_load] and [sim_t::mmio_store], for the hart [id]. *)
Definition sim_t_mmio_load (id mip paddr len : Z) (p : platform) : option (list Z) * platform * list hart_effect :=
  if u64 (paddr + len) <? paddr then (None, p, []) else
  let '(r, b, es) := bus_load paddr len (pf_bus (see_mip id mip p)) in
  let '(own, p) := acts_on id (deliver_effects es (set_bus b p)) in (r, p, own).
Definition sim_t_mmio_store (id mip paddr : Z) (bytes : list Z) (p : platform) : bool * platform * list hart_effect :=
  if u64 (paddr + Z.of_nat (length bytes)) <? paddr then (false, p, []) else
  let '(r, b, es) := bus_store paddr bytes (pf_bus (see_mip id mip p)) in
  let '(own, p) := acts_on id (deliver_effects es (set_bus b p)) in (r, p, own).

(** [sim_t::addr_to_mem]: memory is where a memory device holds the whole page.
    The places of the devices do not change, so [topology] is the bus as built;
    the bytes of memory are in [Hart.mem]. *)
Definition is_memory (topology : bus_t device) (paddr : Z) : bool :=
  match find_device (u64 (Z.shiftl (Z.shiftr paddr PGSHIFT) PGSHIFT)) PGSIZE topology with
  | Found _ (Dev_mem _) => true
  | _ => false
  end.

(** [bus_t::tick] of every device, in the order of [devices]. *)
Definition tick_device (rtc_ticks : Z) (p : platform) (base : Z) : platform :=
  match list_find (fun x => fst x = base) (devices (pf_bus p)) with
  | Some (_, (_, d)) =>
      let rc := hd (-1) (pf_input p) in
      let '(d, es, polled) := device_tick rtc_ticks rc d in
      let p := mk_platform (update_device base d (pf_bus p)) (pf_order p) (pf_acts p)
                 (if polled : bool then tl (pf_input p) else pf_input p) (pf_output p) (pf_aborted p) in
      deliver_effects es p
  | None => p
  end.
Definition tick_devices (rtc_ticks : Z) (p : platform) : platform := fold_left (tick_device rtc_ticks) (pf_order p) p.

(** [sim_t::add_device]; [None] is the abort of the bus. *)
Definition sim_add_device (addr : Z) (d : device) (p : platform) : option platform :=
  b ← add_device addr d (pf_bus p);
  Some (mk_platform b (pf_order p ++ [addr]) (pf_acts p) (pf_input p) (pf_output p) (pf_aborted p)).

(** * The round robin *)

Section schedule.
Context {S : Type} (proc_step : Z -> Z -> S -> option S) (yield : Z -> S -> S) (tick : Z -> S -> S) (nprocs : Z).

(** [sim_t::step] from the turn at [i] of [n] instructions: the current hart, the
    current step and the state. *)
Fixpoint sim_step_loop (fuel : nat) (n i current_proc current_step : Z) (s : S) : option (Z * Z * S) :=
  match fuel with
  | O => None
  | Datatypes.S fuel =>
      if n <=? i then Some (current_proc, current_step, s) else
      let steps := Z.min (n - i) (INTERLEAVE - current_step) in
      match proc_step current_proc steps s with
      | None => None
      | Some s =>
          let current_step := current_step + steps in
          if current_step =? INTERLEAVE then
            let s := yield current_proc s in
            if current_proc + 1 =? nprocs
            then sim_step_loop fuel n (i + steps) 0 0 (tick (INTERLEAVE / INSNS_PER_RTC_TICK) s)
            else sim_step_loop fuel n (i + steps) (current_proc + 1) 0 s
          else sim_step_loop fuel n (i + steps) current_proc current_step s
      end
  end.

(** Every turn but the last runs to the end of a slice. *)
Definition sim_step (n current_proc current_step : Z) (s : S) : option (Z * Z * S) :=
  sim_step_loop (2 + Z.to_nat n) n 0 current_proc current_step s.
End schedule.

(** * The machine *)

Definition with_hart_id (c : config) (id : Z) : config := {|
  max_xlen := @max_xlen c; max_isa := @max_isa c; isa_extension_table := @isa_extension_table c;
  n_pmp := @n_pmp c; lg_pmp_granularity := @lg_pmp_granularity c; cfg_misaligned := @cfg_misaligned c;
  target_big_endian := @target_big_endian c; cfg_VLEN := @cfg_VLEN c; cfg_ELEN := @cfg_ELEN c; cfg_zvf := @cfg_zvf c; cfg_zvd := @cfg_zvd c;
  any_custom_extensions := @any_custom_extensions c; impl_table := @impl_table c; blocksz := @blocksz c;
  trigger_count := @trigger_count c; hart_id := id; seed_value := @seed_value c; cfg_slow := @cfg_slow c; cfg_log := @cfg_log c |}.

Definition platform_simif (topology : bus_t device) : simif := {|
  device_state := platform;
  addr_to_mem := is_memory topology;
  reservable := is_memory topology;
  sim_mmio_fetch := sim_t_mmio_load;
  sim_mmio_load := sim_t_mmio_load;
  sim_mmio_store := sim_t_mmio_store;
  tracer_interested := fun _ _ _ => false |}.

Section machine.
Context (cfg : config) (topology : bus_t device).
#[local] Existing Instance cfg.
#[local] Instance sim_if : simif := platform_simif topology.
#[local] Instance sim_triggers : trigger_module := triggers_module.
Context (other : forall id, @other_insns (with_hart_id cfg id) sim_if sim_triggers).

(** The harts in order, with what they share.  The copies of memory and of the
    platform in a hart are those of its last turn. *)
Record sim_t : Type := mk_sim {
  procs : list hart; s_mem : gmap Z Z; s_platform : platform; current_proc : Z; current_step : Z }.

(** A hart is given what is shared and the acts on it; it gives back what is
    shared when its turn ends. *)
Definition enter_turn (id : Z) (s : sim_t) (h : hart) : hart :=
  let '(acts, p) := acts_on id (s_platform s) in apply_effects acts (set_mem (s_mem s) (set_dev p h)).
Definition leave_turn (p : Z) (h : hart) (s : sim_t) : sim_t :=
  mk_sim (<[Z.to_nat p := h]> (procs s)) (mem h) (dev h) (current_proc s) (current_step s).

(** [procs[p]->step(n)]; [None] if there is no such hart, if an exception leaves
    [step], if an assertion of a device failed in it or if the fuel runs out. *)
Definition run_proc (fuel : nat) (p n : Z) (s : sim_t) : option sim_t :=
  h ← procs s !! Z.to_nat p;
  match @step (with_hart_id cfg p) sim_if sim_triggers (other p) fuel n (enter_turn p s h) with
  | (Val (Some tt), h) => if pf_aborted (dev h) then None else Some (leave_turn p h s)
  | _ => None
  end.

Definition yield_proc (p : Z) (s : sim_t) : sim_t :=
  match procs s !! Z.to_nat p with
  | Some h => mk_sim (<[Z.to_nat p := snd (yield_load_reservation h)]> (procs s)) (s_mem s) (s_platform s)
                (current_proc s) (current_step s)
  | None => s
  end.

Definition tick_all (rtc_ticks : Z) (s : sim_t) : sim_t :=
  mk_sim (procs s) (s_mem s) (tick_devices rtc_ticks (s_platform s)) (current_proc s) (current_step s).

Definition run_sim (fuel : nat) (n : Z) (s : sim_t) : option sim_t :=
  match sim_step (run_proc fuel) yield_proc tick_all (Z.of_nat (length (procs s))) n (current_proc s) (current_step s) s with
  | Some (p, c, s) => Some (mk_sim (procs s) (s_mem s) (s_platform s) p c)
  | None => None
  end.

(** [sim_t::idle] when the simulation is neither done nor interactive, and no
    checkpoint was restored: the limit left, if there is one, and the state. *)
Definition idle (fuel : nat) (limit : option Z) (s : sim_t) : option (option Z * sim_t) :=
  match limit with
  | Some l => if l <? INTERLEAVE then s ← run_sim fuel l s; Some (Some 0, s)
              else s ← run_sim fuel INTERLEAVE s; Some (Some (l - INTERLEAVE), s)
  | None => s ← run_sim fuel INTERLEAVE s; Some (None, s)
  end.
End machine.

(** * The boot ROM *)

Definition word_bytes (big : bool) (w : Z) : list Z :=
  let l := map (fun i => u8 (Z.shiftr w (8 * i))) (zseq 4) in if big then rev l else l.

(** [sim_t::set_rom]: the reset vector, the device tree, and zeros to the page. *)
Definition reset_vec_size : Z := 8.
Definition reset_vec (xlen32 big : bool) (start_pc : Z) : list Z :=
  let code := [0x297; 0x28593 + Z.shiftl (reset_vec_size * 4) 20; 0xf1402573;
               if xlen32 then 0x0182a283 else 0x0182b283; 0x28067] in
  let lo := u32 start_pc in
  let hi := u32 (Z.shiftr start_pc 32) in
  let data := if big && negb xlen32 then [hi; lo] else [lo; hi] in
  flat_map (word_bytes false) code ++ flat_map (word_bytes big) (0 :: data).

Definition boot_rom (xlen32 big : bool) (start_pc : Z) (dtb : list Z) : list Z :=
  let rom := reset_vec xlen32 big start_pc ++ dtb in
  let size := Z.of_nat (length rom) in
  rom ++ repeat 0 (Z.to_nat ((size + 0x1000 - 1) / 0x1000 * 0x1000 - size)).

Definition set_rom (xlen32 big : bool) (start_pc : Z) (dtb : list Z) (p : platform) : option platform :=
  sim_add_device DEFAULT_RSTVEC (Dev_rom (mk_rom (boot_rom xlen32 big start_pc dtb))) p.
