(* ===== verification/SimHost.v ===== *)
(** The simulator as the host sees it: the methods of [htif_t] and [chunked_memif_t]
    in [riscv/sim.cc]. *)

From S2P Require Import Prelude IntArith Hart Mmu Devices InsnTable Sim Memif.
Local Open Scope host_scope.

Section sim_host.
Context (cfg : config) (topology : bus_t device).
#[local] Existing Instance cfg.

Definition set_s_mem (m : gmap Z Z) (s : sim_t cfg topology) : sim_t cfg topology :=
  mk_sim cfg topology (procs cfg topology s) m (s_platform cfg topology s) (current_proc cfg topology s) (current_step cfg topology s).
Definition set_s_platform (p : platform) (s : sim_t cfg topology) : sim_t cfg topology :=
  mk_sim cfg topology (procs cfg topology s) (s_mem cfg topology s) p (current_proc cfg topology s) (current_step cfg topology s).

(** [debug_mmu] belongs to no processor: nothing is translated or checked, and what
    its TLB holds is where memory is.  Devices see no hart. *)
Definition debug_load (taddr : Z) : host (sim_t cfg topology) (list Z) := fun s =>
  if negb (taddr .& 7 =? 0) then (Mem_trap taddr, s)
  else if is_memory topology taddr then (Done (map (fun i => default 0 (s_mem cfg topology s !! (taddr + i))) (zseq 8)), s)
  else let '(r, p, _) := sim_t_mmio_load (-1) 0 taddr 8 (s_platform cfg topology s) in
       (if pf_aborted p then Assertion else match r with Some bytes => Done bytes | None => Mem_trap taddr end, set_s_platform p s).
Definition debug_store (taddr : Z) (bytes : list Z) : host (sim_t cfg topology) unit := fun s =>
  if negb (taddr .& 7 =? 0) then (Mem_trap taddr, s)
  else if is_memory topology taddr then (Done tt, set_s_mem (write_bytes taddr bytes (s_mem cfg topology s)) s)
  else let '(r, p, _) := sim_t_mmio_store (-1) 0 taddr bytes (s_platform cfg topology s) in
       (if pf_aborted p then Assertion else if r : bool then Done tt else Mem_trap taddr, set_s_platform p s).

(** [sim_t::read_chunk] and [sim_t::write_chunk]: eight bytes, whose order is that of
    memory. *)
Definition sim_read_chunk (taddr len : Z) : host (sim_t cfg topology) (list Z) :=
  if len =? 8 then debug_load taddr else fails Assertion.
Definition sim_write_chunk (taddr : Z) (src : list Z) : host (sim_t cfg topology) unit :=
  if Z.of_nat (length src) =? 8 then debug_store taddr src else fails Assertion.

#[export] Instance sim_memif : chunked_memif (sim_t cfg topology) := {|
  read_chunk := sim_read_chunk; write_chunk := sim_write_chunk;
  clear_chunk := htif_clear_chunk sim_write_chunk 8;
  chunk_align := 8; chunk_max_size := 8; big_endian := target_big_endian |}.
End sim_host.
