(* ===== verification/SoftFacts.v ===== *)
(** Rounding in SoftFloat, against an arithmetic specification.

    A finite float is a sign and an integer multiple of a power of two, so
    everything here is about integers: [rounded] is the IEEE rounding of
    [x / 2^k] to an integer, [pack_spec] the float nearest to [n * 2^e] in the
    sense of the rounding mode, with its flags.  The sticky bit of
    [softfloat_shiftRightJam*] does not change a later rounding, the increment
    and mask of the [roundTo] and [roundPackTo] routines compute [rounded], and
    the conversions and the multiplication follow from the two. *)

From S2P Require Import Prelude IntArith SoftPrim SoftRound SoftF32 SoftF64 SoftConv.

(** * Rounding to an integer *)

(** [x / 2^k] rounded in mode [rm]; [sign] is the sign of the number whose
    magnitude is rounded. *)
Definition rounded (rm : Z) (sign : bool) (x k : Z) : Z :=
  if k <=? 0 then x * 2 ^ (- k) else
  let q := x / 2 ^ k in
  let r := x mod 2 ^ k in
  if r =? 0 then q
  else if rm =? softfloat_round_near_even then
    (if 2 * r <? 2 ^ k then q else if 2 ^ k <? 2 * r then q + 1 else q + q mod 2)
  else if rm =? softfloat_round_near_maxMag then (if 2 * r <? 2 ^ k then q else q + 1)
  else if rm =? softfloat_round_min then (if sign then q + 1 else q)
  else if rm =? softfloat_round_max then (if sign then q else q + 1)
  else if rm =? softfloat_round_odd then (if Z.even q then q + 1 else q)
  else q.

(** Whether [x / 2^k] is not an integer. *)
Definition lossy (x k : Z) : bool := (0 <? k) && negb (x mod 2 ^ k =? 0).

(** The increment the routines add before they shift out [k] bits. *)
Definition increment (rm : Z) (sign : bool) (k : Z) : Z :=
  if (rm =? softfloat_round_near_even) || (rm =? softfloat_round_near_maxMag) then 2 ^ (k - 1)
  else if rm =? (if sign then softfloat_round_min else softfloat_round_max) then 2 ^ k - 1
  else 0.

Definition ieee_mode (rm : Z) : Prop := 0 <= rm <= 4.

Lemma increment_range rm sign k : 0 < k -> 0 <= increment rm sign k < 2 ^ k.
Proof.
  intros. unfold increment. pose proof (pow2_split k).
  pose proof (Z.pow_pos_nonneg 2 (k - 1)).
  repeat case_match; lia.
Qed.

Lemma ldiff_1 y : y &~ 1 = y - y mod 2.
Proof.
  change 1 with (Z.ones 1) at 1. rewrite Z.ldiff_ones_r by lia.
  rewrite Z.shiftl_mul_pow2, Z.shiftr_div_pow2 by lia. change (2 ^ 1) with 2.
  pose proof (Z.div_mod y 2). lia.
Qed.

Lemma ldiff_0 y : y &~ 0 = y.
Proof. apply Z.ldiff_0_r. Qed.

Lemma ldiff_b2z y b : y &~ b2z b = if b then y - y mod 2 else y.
Proof. destruct b; [apply ldiff_1|apply ldiff_0]. Qed.

Lemma mod2_succ q : (q + 1) mod 2 = 1 - q mod 2.
Proof. rewrite !Zmod_odd, Z.odd_add. by destruct (Z.odd q). Qed.

Lemma even_mod2 q : Z.even q = (q mod 2 =? 0).
Proof. rewrite Zmod_even. by destruct (Z.even q). Qed.

Lemma lor_1 y : y .| 1 = y + 1 - y mod 2.
Proof.
  rewrite <- (Z.lor_ldiff_and y 1) at 1. rewrite <- Z.lor_assoc.
  change (y .& 1) with (y .& Z.ones 1). rewrite Z.land_ones by lia.
  assert (y mod 2 ^ 1 .| 1 = 1) as ->.
  { change (2 ^ 1) with 2. rewrite Zmod_odd. by destruct (Z.odd y). }
  rewrite lor_add.
  - rewrite ldiff_1. lia.
  - apply Z.bits_inj'. intros i Hi. rewrite Z.land_spec, Z.ldiff_spec, Z.bits_0.
    by destruct (Z.testbit y i), (Z.testbit 1 i).
Qed.

(** The increment and the correction of a tie compute the rounding. *)
Lemma round_step rm sign x k :
  0 < k -> 0 <= x -> ieee_mode rm ->
  let y := (x + increment rm sign k) / 2 ^ k in
  (if (x mod 2 ^ k =? 2 ^ (k - 1)) && (rm =? softfloat_round_near_even) then y &~ 1 else y)
  = rounded rm sign x k.
Proof.
  intros Hk Hx Hrm y. unfold rounded. replace (k <=? 0) with false by lia. cbv zeta.
  pose proof (pow2_split k Hk). pose proof (Z.pow_pos_nonneg 2 (k - 1)).
  pose proof (Z.div_mod x (2 ^ k)). pose proof (Z.mod_pos_bound x (2 ^ k)).
  set (q := x / 2 ^ k) in *. set (r := x mod 2 ^ k) in *.
  assert (Hy : y = if r + increment rm sign k <? 2 ^ k then q else q + 1).
  { unfold y. pose proof (increment_range rm sign k Hk).
    destruct (Z.ltb_spec (r + increment rm sign k) (2 ^ k)); symmetry.
    - apply Z.div_unique with (r + increment rm sign k); lia.
    - apply Z.div_unique with (r + increment rm sign k - 2 ^ k); lia. }
  rewrite Hy, !ldiff_1. clear Hy y. unfold increment, ieee_mode in *.
  unfold softfloat_round_near_even, softfloat_round_near_maxMag, softfloat_round_min,
    softfloat_round_max, softfloat_round_odd.
  assert (rm = 0 \/ rm = 1 \/ rm = 2 \/ rm = 3 \/ rm = 4) as Hc by lia.
  destruct Hc as [->|[->|[->|[->| ->]]]], sign; cbn;
    pose proof (mod2_succ q); pose proof (Z.mod_pos_bound q 2); cmp_cases; cbn; lia.
Qed.

(** * The sticky bit *)

(** [x] shifted right by [d], its last bit set when a bit was lost. *)
Definition jam (x d : Z) : Z :=
  if x mod 2 ^ d =? 0 then x / 2 ^ d else x / 2 ^ d .| 1.

Lemma jam_cases x d :
  jam x d = x / 2 ^ d + (if x mod 2 ^ d =? 0 then 0 else 1 - (x / 2 ^ d) mod 2).
Proof. unfold jam. rewrite lor_1. case_match; lia. Qed.

Lemma jam_range x d n : 0 <= d -> 0 < n -> 0 <= x < 2 ^ (n + d) -> 0 <= jam x d < 2 ^ n.
Proof.
  intros Hd Hn Hx. rewrite jam_cases. rewrite Z.pow_add_r in Hx by lia.
  assert (0 <= x / 2 ^ d < 2 ^ n) as Hq.
  { split; [apply Z.div_pos|apply Z.div_lt_upper_bound]; lia. }
  pose proof (Z.mod_pos_bound (x / 2 ^ d) 2). pose proof (pow2_split n Hn) as E.
  set (q := x / 2 ^ d) in *. case_match; [lia|].
  destruct (Z.eq_dec q (2 ^ n - 1)) as [->|]; [|lia].
  replace ((2 ^ n - 1) mod 2) with 1; [lia|].
  rewrite E. replace (2 * 2 ^ (n - 1) - 1) with (1 + (2 ^ (n - 1) - 1) * 2) by lia.
  by rewrite Z_mod_plus_full.
Qed.

Lemma jam_bound x d n : 0 <= d -> 0 < n -> 0 <= x < 2 ^ n -> 0 <= jam x d < 2 ^ n.
Proof.
  intros. apply jam_range; [lia..|].
  assert (2 ^ n <= 2 ^ (n + d)) by (apply Z.pow_le_mono_r; lia). lia.
Qed.

(** What a later shift by [k] sees of it: the same quotient, and a remainder on
    the same side of zero and of one half. *)
Lemma jam_view x d k :
  0 <= x -> 0 <= d -> 2 <= k ->
  let r := x mod 2 ^ (k + d) in
  let r' := jam x d mod 2 ^ k in
  jam x d / 2 ^ k = x / 2 ^ (k + d) /\
  (r' =? 0) = (r =? 0) /\
  (2 * r' <? 2 ^ k) = (2 * r <? 2 ^ (k + d)) /\ (2 ^ k <? 2 * r') = (2 ^ (k + d) <? 2 * r).
Proof.
  intros Hx Hd Hk. cbv zeta. rewrite jam_cases.
  replace (k + d) with (d + k) by lia. rewrite Z.pow_add_r by lia.
  rewrite Z.rem_mul_r, <- Z.div_div by lia.
  pose proof (Z.pow_pos_nonneg 2 d ltac:(lia) ltac:(lia)) as Hp.
  assert (0 <= x / 2 ^ d) by (apply Z.div_pos; lia).
  pose proof (Z.mod_pos_bound x (2 ^ d) Hp) as Hb.
  set (a := x / 2 ^ d) in *. set (b := x mod 2 ^ d) in *.
  assert (2 ^ k = 4 * 2 ^ (k - 2)) as Ek.
  { replace k with (k - 2 + 2) at 1 by lia. rewrite Z.pow_add_r by lia. lia. }
  pose proof (Z.pow_pos_nonneg 2 (k - 2)) as Hh.
  set (h := 2 ^ (k - 2)) in *.
  pose proof (Z.div_mod a (2 ^ k)) as Hdm. pose proof (Z.mod_pos_bound a (2 ^ k)) as Hm.
  assert (a mod 2 = (a mod 2 ^ k) mod 2) as Hpar.
  { rewrite Ek. replace (4 * h) with (2 * (2 * h)) by lia. by rewrite Z.rem_mul_r, Z.mul_comm, Z_mod_plus_full, Zmod_mod by lia. }
  pose proof (Z.mod_pos_bound a 2) as Hp2.
  pose proof (Z.div_mod (a mod 2 ^ k) 2) as Hc2. rewrite <- Hpar in Hc2.
  set (q := a / 2 ^ k) in *. set (c := a mod 2 ^ k) in *. set (p := a mod 2) in *.
  set (y := a + (if b =? 0 then 0 else 1 - p)).
  assert (y / 2 ^ k = q /\ y mod 2 ^ k = c + (if b =? 0 then 0 else 1 - p)) as [-> ->].
  { assert (0 <= c + (if b =? 0 then 0 else 1 - p) < 2 ^ k) by (case_match; lia).
    split; [symmetry; apply Z.div_unique with (c + (if b =? 0 then 0 else 1 - p))
           |symmetry; apply Z.mod_unique with q]; unfold y; lia. }
  rewrite Ek in *. clearbody h c q p y a b.
  split; [done|]. set (D := 2 ^ d) in *. clearbody D.
  destruct (Z.eqb_spec b 0) as [->|].
  - rewrite Z.add_0_r. repeat split; cmp_cases; nia.
  - repeat split; cmp_cases; try nia.
Qed.

Lemma rounded_jam rm sign x d k :
  0 <= x -> 0 <= d -> 2 <= k -> rounded rm sign (jam x d) k = rounded rm sign x (k + d).
Proof.
  intros Hx Hd Hk. destruct (jam_view x d k Hx Hd Hk) as (Eq & E0 & E1 & E2).
  unfold rounded. rewrite Eq, E0, E1, E2.
  by replace (k <=? 0) with false by lia; replace (k + d <=? 0) with false by lia.
Qed.

Lemma lossy_jam x d k : 0 <= x -> 0 <= d -> 2 <= k -> lossy (jam x d) k = lossy x (k + d).
Proof.
  intros Hx Hd Hk. destruct (jam_view x d k Hx Hd Hk) as (_ & E0 & _).
  unfold lossy. rewrite E0. by replace (0 <? k) with true by lia; replace (0 <? k + d) with true by lia.
Qed.

(** ** The routines that shift with a sticky bit *)

Lemma neg_shift w d : 0 < d < 2 ^ w -> 0 < w < 64 -> u64 (- d) .& (2 ^ w - 1) = 2 ^ w - d.
Proof.
  intros Hd Hw.
  replace (2 ^ w - 1) with (Z.ones w) by (rewrite Z.ones_equiv; lia).
  rewrite Z.land_ones by lia. unfold wrap. rewrite Z.mod_mod_divide.
  - rewrite <- (Z.mod_unique_pos _ _ (-1) (2 ^ w - d)); lia.
  - exists (2 ^ (64 - w)). rewrite <- Z.pow_add_r by lia. f_equal. lia.
Qed.

(** The bits shifted out are those a left shift keeps. *)
Lemma shifted_out w x d :
  0 <= d <= w -> (wrap w (Z.shiftl x (w - d)) =? 0) = (x mod 2 ^ d =? 0).
Proof.
  intros. unfold wrap. rewrite Z.shiftl_mul_pow2 by lia.
  replace (2 ^ w) with (2 ^ d * 2 ^ (w - d)) by (rewrite <- Z.pow_add_r by lia; f_equal; lia).
  pose proof (Z.pow_pos_nonneg 2 (w - d)). pose proof (Z.pow_pos_nonneg 2 d).
  rewrite Zmult_mod_distr_r. pose proof (Z.mod_pos_bound x (2 ^ d)). cmp_cases; nia.
Qed.

Lemma sticky_jam x d (b : bool) :
  0 <= d -> b = negb (x mod 2 ^ d =? 0) -> Z.shiftr x d .| b2z b = jam x d.
Proof.
  intros Hd ->. rewrite Z.shiftr_div_pow2 by lia. unfold jam.
  case_match; simpl; [apply Z.lor_0_r|done].
Qed.

Lemma jam_all x d : 0 <= x < 2 ^ d -> jam x d = b2z (negb (x =? 0)).
Proof.
  intros. unfold jam. rewrite Z.mod_small, Z.div_small by lia. by destruct (x =? 0).
Qed.

Lemma shift_jam s x d :
  0 < s <= 6 -> 0 <= x < 2 ^ 2 ^ s -> 0 < d ->
  (if d <? 2 ^ s - 1
   then Z.shiftr x d .| b2z (negb (wrap (2 ^ s) (Z.shiftl x (u64 (- d) .& (2 ^ s - 1))) =? 0))
   else b2z (negb (x =? 0))) = jam x d.
Proof.
  intros Hs Hx Hd. pose proof (Z.pow_gt_1 2 s ltac:(lia)) as [Hw _]. specialize (Hw ltac:(lia)).
  destruct (Z.ltb_spec d (2 ^ s - 1)).
  - apply sticky_jam; [lia|]. rewrite neg_shift by lia. by rewrite shifted_out by lia.
  - destruct (Z.eq_dec d (2 ^ s - 1)) as [->|].
    + set (w := 2 ^ s) in *. pose proof (pow2_split w ltac:(lia)).
      assert (0 <= x / 2 ^ (w - 1) < 2) as Hq.
      { split; [apply Z.div_pos; lia|apply Z.div_lt_upper_bound; lia]. }
      pose proof (Z.div_mod x (2 ^ (w - 1))). pose proof (Z.pow_pos_nonneg 2 (w - 1)).
      pose proof (Z.mod_pos_bound x (2 ^ (w - 1))). rewrite jam_cases.
      assert (x / 2 ^ (w - 1) = 0 \/ x / 2 ^ (w - 1) = 1) as [E|E] by lia; rewrite E in *;
        destruct (Z.eqb_spec x 0), (Z.eqb_spec (x mod 2 ^ (w - 1)) 0); simpl; done || lia.
    + symmetry. apply jam_all. split; [lia|].
      apply Z.lt_le_trans with (2 ^ 2 ^ s); [lia|]. apply Z.pow_le_mono_r; lia.
Qed.

Lemma shiftRightJam64_jam x d :
  0 <= x < 2 ^ 64 -> 0 < d -> softfloat_shiftRightJam64 x d = jam x d.
Proof. intros. by apply (shift_jam 6). Qed.

Lemma shiftRightJam32_jam x d :
  0 <= x < 2 ^ 32 -> 0 < d -> softfloat_shiftRightJam32 x d = jam x d.
Proof. intros. by apply (shift_jam 5). Qed.

Lemma shortShiftRightJam64_jam x d :
  0 <= x -> 0 < d < 64 -> softfloat_shortShiftRightJam64 x d = jam x d.
Proof.
  intros Hx Hd. unfold softfloat_shortShiftRightJam64. apply sticky_jam; [lia|].
  pose proof (Z.pow_pos_nonneg 2 d). assert (2 ^ d < 2 ^ 64) by (apply Z.pow_lt_mono_r; lia).
  rewrite Z.shiftl_1_l, (wrap_small 64 (2 ^ d)), wrap_small by lia.
  replace (2 ^ d - 1) with (Z.ones d) by (rewrite Z.ones_equiv; lia).
  by rewrite Z.land_ones by lia.
Qed.

(** * Conversion to 32-bit integers *)

(** An integer, or the bound it exceeds with the invalid flag. *)
Definition to_int_spec (lo hi z : Z) (inexact : bool) (fl : Z) : Z * Z :=
  if z <? lo then (lo, fl .| softfloat_flag_invalid)
  else if hi <? z then (hi, fl .| softfloat_flag_invalid)
  else (z, if inexact then fl .| softfloat_flag_inexact else fl).

Definition signed (sign : bool) (n : Z) : Z := if sign then - n else n.

(** A field in the middle of a word. *)
Lemma land_field x n w :
  0 <= n -> 0 <= w -> x .& (2 ^ (n + w) - 2 ^ n) = x / 2 ^ n mod 2 ^ w * 2 ^ n.
Proof.
  intros Hn Hw. replace (2 ^ (n + w) - 2 ^ n) with (Z.shiftl (Z.ones w) n).
  - rewrite <- Z.shiftl_mul_pow2, <- Z.land_ones, <- Z.shiftr_div_pow2 by lia.
    apply Z.bits_inj'. intros i Hi. rewrite Z.land_spec, !Z.shiftl_spec, Z.land_spec by lia.
    destruct (Z.ltb_spec i n).
    + rewrite !(Z.testbit_neg_r _ (i - n)) by lia. apply andb_false_r.
    + rewrite Z.shiftr_spec by lia. by replace (i - n + n) with i by lia.
  - rewrite Z.shiftl_mul_pow2, Z.ones_equiv, Z.pow_add_r by lia. lia.
Qed.

Lemma z2b_high_bits x n m :
  0 <= n <= m -> 0 <= x < 2 ^ m -> z2b (x .& (2 ^ m - 2 ^ n)) = (2 ^ n <=? x).
Proof.
  intros Hn Hx. unfold z2b. pose proof (Z.pow_pos_nonneg 2 n).
  replace (2 ^ m) with (2 ^ (n + (m - n))) in * by (f_equal; lia). rewrite land_field by lia.
  rewrite Z.pow_add_r in Hx by lia. pose proof (Z.pow_pos_nonneg 2 (m - n)).
  rewrite (Z.mod_small (x / 2 ^ n))
    by (split; [apply Z.div_pos; lia|apply Z.div_lt_upper_bound; lia]).
  destruct (Z.leb_spec (2 ^ n) x).
  - assert (1 <= x / 2 ^ n) by (apply Z.div_le_lower_bound; lia).
    by replace (x / 2 ^ n * 2 ^ n =? 0) with false by nia.
  - by rewrite Z.div_small by lia.
Qed.

(** [~x & mask] is zero when the field is all ones. *)
Lemma field_ones x n w :
  0 <= n -> 0 <= w -> ((Z.lnot x .& (2 ^ (n + w) - 2 ^ n)) =? 0) = (x / 2 ^ n mod 2 ^ w =? 2 ^ w - 1).
Proof.
  intros Hn Hw. rewrite land_field by lia. pose proof (Z.pow_pos_nonneg 2 n).
  rewrite <- !Z.shiftr_div_pow2, <- Z.lnot_shiftr by lia.
  pose proof (Z.pow_pos_nonneg 2 w). pose proof (Z.mod_pos_bound (Z.shiftr x n) (2 ^ w)).
  assert (Z.lnot (Z.shiftr x n) mod 2 ^ w = 2 ^ w - 1 - Z.shiftr x n mod 2 ^ w) as ->.
  { unfold Z.lnot. pose proof (Z.div_mod (Z.shiftr x n) (2 ^ w)). symmetry.
    apply Z.mod_unique_pos with (- (Z.shiftr x n / 2 ^ w) - 1); lia. }
  cmp_cases; nia.
Qed.

Lemma rounded_le rm sign x k n :
  0 <= k -> 0 <= x -> x <= n * 2 ^ k -> rounded rm sign x k <= n.
Proof.
  intros Hk Hx Hn. unfold rounded. destruct (Z.leb_spec k 0).
  { assert (k = 0) as -> by lia. rewrite Z.opp_0, Z.pow_0_r. change (2 ^ 0) with 1 in Hn. lia. }
  pose proof (Z.div_mod x (2 ^ k)). pose proof (Z.mod_pos_bound x (2 ^ k)).
  pose proof (Z.pow_pos_nonneg 2 k). pose proof (Z.mod_pos_bound (x / 2 ^ k) 2).
  destruct (Z.eqb_spec (x mod 2 ^ k) 0); [nia|].
  assert (x / 2 ^ k + 1 <= n) by nia. repeat case_match; lia.
Qed.

Lemma rounded_ge rm sign x k n :
  0 <= k -> 0 <= x -> n * 2 ^ k <= x -> n <= rounded rm sign x k.
Proof.
  intros Hk Hx Hn. unfold rounded. destruct (Z.leb_spec k 0).
  { assert (k = 0) as -> by lia. rewrite Z.opp_0, Z.pow_0_r. change (2 ^ 0) with 1 in Hn. lia. }
  pose proof (Z.div_mod x (2 ^ k)). pose proof (Z.mod_pos_bound x (2 ^ k)).
  pose proof (Z.pow_pos_nonneg 2 k). pose proof (Z.mod_pos_bound (x / 2 ^ k) 2).
  assert (n <= x / 2 ^ k) by (apply Z.div_le_lower_bound; lia). repeat case_match; lia.
Qed.

(** ** The shape of the code *)

Lemma lxor_eqb x y : ((x .^ y) =? 0) = (x =? y).
Proof.
  destruct (Z.eqb_spec x y) as [->|Hn]; [by rewrite Z.lxor_nilpotent|].
  apply Z.eqb_neq. by rewrite Z.lxor_eq_0_iff.
Qed.

Lemma land_low x k : 0 <= k -> x .& (2 ^ k - 1) = x mod 2 ^ k.
Proof. intros. rewrite <- Z.land_ones by lia. f_equal. rewrite Z.ones_equiv. lia. Qed.

(** The increment as the routines compute it, [w] the width it is stored at. *)
Lemma increment_code rm (sign : bool) k w :
  0 < k <= w ->
  (if negb (rm =? softfloat_round_near_even) && negb (rm =? softfloat_round_near_maxMag)
   then wrap w (if rm =? (if sign then softfloat_round_min else softfloat_round_max)
                then 2 ^ k - 1 else 0)
   else 2 ^ (k - 1)) = increment rm sign k.
Proof.
  intros. unfold increment. pose proof (Z.pow_pos_nonneg 2 k).
  assert (2 ^ k <= 2 ^ w) by (apply Z.pow_le_mono_r; lia).
  destruct (rm =? softfloat_round_near_even), (rm =? softfloat_round_near_maxMag); simpl; try done.
  case_match; apply wrap_small; lia.
Qed.

(** The rounded value as the routines compute it. *)
Lemma rounded_code rm sign x k :
  0 < k -> 0 <= x -> ieee_mode rm ->
  Z.shiftr (x + increment rm sign k) k
    &~ b2z (((x mod 2 ^ k) .^ (2 ^ (k - 1)) =? 0) && (rm =? softfloat_round_near_even))
  = rounded rm sign x k.
Proof.
  intros. rewrite <- (round_step rm sign x k), lxor_eqb, Z.shiftr_div_pow2 by done || lia.
  cbv zeta. case_match; simpl; [done|apply ldiff_0].
Qed.

Lemma roundToI32_spec sign sig rm exact fl :
  0 <= sig < 2 ^ 63 -> ieee_mode rm ->
  softfloat_roundToI32 sign sig rm exact fl =
  to_int_spec (- 2 ^ 31) (2 ^ 31 - 1) (signed sign (rounded rm sign sig 12))
    (exact && lossy sig 12) fl.
Proof.
  intros Hsig Hrm. unfold softfloat_roundToI32.
  change 0xfff with (2 ^ 12 - 1). change 0x800 with (2 ^ (12 - 1)).
  change 0xfffff00000000000 with (2 ^ 64 - 2 ^ 44). cbv zeta.
  rewrite increment_code, land_low by lia.
  pose proof (increment_range rm sign 12 ltac:(lia)).
  rewrite (wrap_small 64 (sig + _)) by lia.
  rewrite z2b_high_bits by lia.
  pose proof (rounded_code rm sign sig 12 ltac:(lia) ltac:(lia) Hrm) as E.
  assert (z2b (sig mod 2 ^ 12) = lossy sig 12) as Hl by done. rewrite Hl.
  unfold to_int_spec, signed, i32_fromNegOverflow, i32_fromPosOverflow.
  assert (Hr : 0 <= rounded rm sign sig 12).
  { apply rounded_ge; lia. }
  destruct (Z.leb_spec (2 ^ 44) (sig + increment rm sign 12)) as [Hbig|Hsmall].
  - assert (2 ^ 32 - 1 <= rounded rm sign sig 12).
    { rewrite <- E, Z.shiftr_div_pow2 by lia.
      assert (2 ^ 32 <= (sig + increment rm sign 12) / 2 ^ 12) by (apply Z.div_le_lower_bound; lia).
      set (y := _ / _) in *. rewrite ldiff_b2z. pose proof (Z.mod_pos_bound y 2). case_match; lia. }
    destruct sign; cmp_cases; done.
  - rewrite E. assert (rounded rm sign sig 12 < 2 ^ 32).
    { rewrite <- E, Z.shiftr_div_pow2 by lia.
      assert ((sig + increment rm sign 12) / 2 ^ 12 < 2 ^ 32) by (apply Z.div_lt_upper_bound; lia).
      set (y := _ / _) in *. rewrite ldiff_b2z. pose proof (Z.mod_pos_bound y 2). case_match; lia. }
    set (n := rounded rm sign sig 12) in *. clearbody n. clear E.
    assert (i32 (u32 (if sign then u64 (- n) else n)) = swrap 32 (if sign then - n else n)) as ->.
    { rewrite swrap_wrap by lia. destruct sign; [|done].
      rewrite <- (swrap_wrap 32 (u64 _)), wrap_wrap, swrap_wrap by lia. done. }
    destruct sign.
    + destruct (Z.le_gt_cases n (2 ^ 31)).
      * rewrite swrap_small by lia. unfold z2b. destruct (Z.eqb_spec (- n) 0); cmp_cases; done.
      * rewrite <- (swrap_wrap 32) by lia. unfold wrap.
        rewrite <- (Z.mod_unique_pos _ _ (-1) (2 ^ 32 - n)) by lia.
        rewrite swrap_small by lia. unfold z2b. cmp_cases; done.
    + rewrite swrap_unsigned by lia. unfold z2b. change (2 ^ (32 - 1)) with (2 ^ 31).
      destruct (Z.ltb_spec n (2 ^ 31)); cmp_cases; done.
Qed.

(** * Values *)

(** The magnitude of a finite number with biased exponent [e] and fraction [f]
    of [m] bits, in units of the least subnormal. *)
Definition float_mag (m e f : Z) : Z := if e =? 0 then f else (2 ^ m + f) * 2 ^ (e - 1).

Definition f32_mag (a : Z) : Z := float_mag 23 (expF32UI a) (fracF32UI a).
Definition f64_mag (a : Z) : Z := float_mag 52 (expF64UI a) (fracF64UI a).

Lemma exp_field w m x :
  0 <= w -> 0 <= m -> 0 <= x < 2 ^ 63 * 2 ^ m -> i64 (Z.shiftr x m) .& (2 ^ w - 1) = x / 2 ^ m mod 2 ^ w.
Proof.
  intros. rewrite land_low, Z.shiftr_div_pow2 by lia. rewrite swrap_small; [done|lia|].
  change (64 - 1) with 63. split; [|apply Z.div_lt_upper_bound; lia].
  pose proof (Z.div_pos x (2 ^ m)). lia.
Qed.

Lemma expF64_eq a : 0 <= a < 2 ^ 64 -> expF64UI a = a / 2 ^ 52 mod 2 ^ 11.
Proof. intros. unfold expF64UI. change 0x7ff with (2 ^ 11 - 1). by apply exp_field; lia. Qed.
Lemma fracF64_eq a : fracF64UI a = a mod 2 ^ 52.
Proof. unfold fracF64UI. change 0x000fffffffffffff with (2 ^ 52 - 1). by apply land_low. Qed.
Lemma expF32_eq a : 0 <= a < 2 ^ 64 -> expF32UI a = a / 2 ^ 23 mod 2 ^ 8.
Proof. intros. unfold expF32UI. change 0xff with (2 ^ 8 - 1). by apply exp_field; lia. Qed.
Lemma fracF32_eq a : fracF32UI a = a mod 2 ^ 23.
Proof. unfold fracF32UI. change 0x007fffff with (2 ^ 23 - 1). by apply land_low. Qed.

Lemma rounded_scale rm sign x j k :
  0 <= j -> rounded rm sign (x * 2 ^ j) k = rounded rm sign x (k - j).
Proof.
  intros Hj. destruct (Z.le_gt_cases k j).
  - unfold rounded at 2. replace (k - j <=? 0) with true by lia. unfold rounded.
    destruct (Z.leb_spec k 0).
    + rewrite <- Z.mul_assoc, <- Z.pow_add_r by lia. do 2 f_equal. lia.
    + replace (2 ^ j) with (2 ^ (- (k - j)) * 2 ^ k) by (rewrite <- Z.pow_add_r by lia; f_equal; lia).
      rewrite Z.mul_assoc, Z.div_mul, Z_mod_mult by lia. done.
  - unfold rounded. replace (k <=? 0) with false by lia. replace (k - j <=? 0) with false by lia.
    replace (2 ^ k) with (2 ^ (k - j) * 2 ^ j) by (rewrite <- Z.pow_add_r by lia; f_equal; lia).
    pose proof (Z.pow_pos_nonneg 2 j). pose proof (Z.pow_pos_nonneg 2 (k - j)).
    rewrite Z.div_mul_cancel_r, Zmult_mod_distr_r by lia. cbv zeta.
    set (r := x mod 2 ^ (k - j)).
    replace (r * 2 ^ j =? 0) with (r =? 0) by (cmp_cases; nia).
    replace (2 * (r * 2 ^ j) <? 2 ^ (k - j) * 2 ^ j) with (2 * r <? 2 ^ (k - j)) by (cmp_cases; nia).
    by replace (2 ^ (k - j) * 2 ^ j <? 2 * (r * 2 ^ j)) with (2 ^ (k - j) <? 2 * r) by (cmp_cases; nia).
Qed.

Lemma lossy_scale x j k : 0 <= j -> lossy (x * 2 ^ j) k = lossy x (k - j).
Proof.
  intros Hj. unfold lossy. destruct (Z.le_gt_cases k j).
  - replace (0 <? k - j) with false by lia. destruct (Z.ltb_spec 0 k); [|done].
    replace (2 ^ j) with (2 ^ (j - k) * 2 ^ k) by (rewrite <- Z.pow_add_r by lia; f_equal; lia).
    by rewrite Z.mul_assoc, Z_mod_mult.
  - replace (0 <? k) with true by lia. replace (0 <? k - j) with true by lia.
    replace (2 ^ k) with (2 ^ (k - j) * 2 ^ j) by (rewrite <- Z.pow_add_r by lia; f_equal; lia).
    pose proof (Z.pow_pos_nonneg 2 j). rewrite Zmult_mod_distr_r. simpl. f_equal. cmp_cases; nia.
Qed.

(** Numbers below one half round alike. *)
Lemma rounded_small rm sign x k y l :
  0 < k -> 0 < l -> 0 < x < 2 ^ (k - 1) -> 0 < y < 2 ^ (l - 1) ->
  rounded rm sign x k = rounded rm sign y l.
Proof.
  intros Hk Hl Hx Hy. pose proof (pow2_split k Hk). pose proof (pow2_split l Hl).
  unfold rounded. rewrite !Z.div_small, !Z.mod_small by lia.
  replace (k <=? 0) with false by lia. replace (l <=? 0) with false by lia.
  replace (x =? 0) with false by lia. replace (y =? 0) with false by lia.
  by replace (2 * x <? 2 ^ k) with true by lia; replace (2 * y <? 2 ^ l) with true by lia.
Qed.

Lemma rounded_0 rm sign k : rounded rm sign 0 k = 0.
Proof. unfold rounded. rewrite Z.mul_0_l, Zdiv_0_l, Zmod_0_l. by case_match. Qed.

Lemma rounded_tiny rm sign x k l :
  0 < k -> 0 < l -> 0 <= x < 2 ^ (k - 1) -> x < 2 ^ (l - 1) -> rounded rm sign x k = rounded rm sign x l.
Proof.
  intros. destruct (Z.eq_dec x 0) as [->|]; [by rewrite !rounded_0|].
  apply rounded_small; lia.
Qed.

Lemma lossy_tiny x k l :
  0 < k -> 0 < l -> 0 <= x < 2 ^ k -> x < 2 ^ l -> lossy x k = lossy x l.
Proof.
  intros. unfold lossy. rewrite !Z.mod_small by lia.
  by replace (0 <? k) with true by lia; replace (0 <? l) with true by lia.
Qed.

Lemma isNaNF64_eq a :
  0 <= a < 2 ^ 64 -> isNaNF64UI a = (expF64UI a =? 0x7ff) && negb (fracF64UI a =? 0).
Proof.
  intros Ha. unfold isNaNF64UI. rewrite expF64_eq by done.
  change 0x7ff0000000000000 with (2 ^ (52 + 11) - 2 ^ 52). by rewrite field_ones by lia.
Qed.

Lemma isNaNF32_eq a :
  0 <= a < 2 ^ 32 -> isNaNF32UI a = (expF32UI a =? 0xff) && negb (fracF32UI a =? 0).
Proof.
  intros Ha. unfold isNaNF32UI. rewrite expF32_eq by lia.
  change 0x7f800000 with (2 ^ (23 + 8) - 2 ^ 23). by rewrite field_ones by lia.
Qed.

(** The significand with its implicit bit, as the routines build it. *)
Lemma implicit_bit m f : 0 <= m -> 0 <= f < 2 ^ m -> f .| 2 ^ m = 2 ^ m + f.
Proof.
  intros Hm Hf. rewrite lor_add; [lia|]. rewrite land_pow2 by lia.
  by rewrite (tb_high m f m) by lia.
Qed.

(** [softfloat_roundToI32] on a value far from the representable ones. *)
Lemma to_int_spec_high lo hi (sign : bool) n inexact fl :
  lo < 0 <= hi -> Z.max (- lo) hi < n ->
  to_int_spec lo hi (signed sign n) inexact fl =
  (if sign then lo else hi, fl .| softfloat_flag_invalid).
Proof. intros. unfold to_int_spec, signed. destruct sign; cmp_cases; done. Qed.

(** [f64_to_i32] on a finite number: the value rounded in the given mode when
    it fits, the nearest bound otherwise. *)
Lemma f64_to_i32_finite a rm exact fl :
  0 <= a < 2 ^ 64 -> ieee_mode rm -> expF64UI a <> 0x7ff ->
  f64_to_i32 a rm exact fl =
  to_int_spec (- 2 ^ 31) (2 ^ 31 - 1)
    (signed (signF64UI a) (rounded rm (signF64UI a) (f64_mag a) 1074))
    (exact && lossy (f64_mag a) 1074) fl.
Proof.
  intros Ha Hrm Hfin. unfold f64_to_i32. cbv zeta.
  assert (0 <= fracF64UI a < 2 ^ 52) as Hf by (rewrite fracF64_eq; apply Z.mod_pos_bound; lia).
  assert (0 <= expF64UI a < 2 ^ 11) as He by (rewrite expF64_eq by done; apply Z.mod_pos_bound; lia).
  unfold f64_mag, float_mag. set (e := expF64UI a) in *. set (f := fracF64UI a) in *.
  set (sign := signF64UI a). clearbody e f sign. replace (e =? 0x7ff) with false by lia. cbn [andb].
  change 0x0010000000000000 with (2 ^ 52). rewrite implicit_bit by lia.
  change (z2b e) with (negb (e =? 0)).
  destruct (Z.eqb_spec e 0) as [->|He0]; cbn [negb].
  - change (0 <? 0x427 - 0) with true. cbv iota. change (u64 (0x427 - 0)) with 1063.
    rewrite shiftRightJam64_jam by lia.
    rewrite roundToI32_spec, rounded_jam, lossy_jam by done || lia || (pose proof (jam_bound f 1063 63); lia).
    rewrite (rounded_tiny _ _ f (12 + 1063) 1074), (lossy_tiny f (12 + 1063) 1074); try lia. done.
  - destruct (Z.ltb_spec 0 (0x427 - e)).
    + rewrite (wrap_small 64) by lia. rewrite shiftRightJam64_jam by lia.
      rewrite roundToI32_spec, rounded_jam, lossy_jam by done || lia || (pose proof (jam_bound (2 ^ 52 + f) (0x427 - e) 63); lia).
      rewrite rounded_scale, lossy_scale by lia.
      by replace (12 + (0x427 - e)) with (1074 - (e - 1)) by lia.
    + rewrite roundToI32_spec by lia || done.
      rewrite to_int_spec_high by (lia || (apply Z.lt_le_trans with (2 ^ 40); [lia|apply rounded_ge; lia])).
      rewrite to_int_spec_high; [done|lia|].
      apply Z.lt_le_trans with (2 ^ 40); [lia|]. assert (2 ^ 1062 <= 2 ^ (e - 1)) by (apply Z.pow_le_mono_r; lia).
      apply rounded_ge; [lia..|]. replace (2 ^ 40 * 2 ^ 1074) with (2 ^ 52 * 2 ^ 1062) by done.
      apply Z.mul_le_mono_nonneg; lia.
Qed.

(** ... and on an infinity or a NaN, which counts as positive. *)
Lemma f64_to_i32_special a rm exact fl :
  0 <= a < 2 ^ 64 -> ieee_mode rm -> expF64UI a = 0x7ff ->
  f64_to_i32 a rm exact fl =
  (if negb (isNaNF64UI a) && signF64UI a then - 2 ^ 31 else 2 ^ 31 - 1, fl .| softfloat_flag_invalid).
Proof.
  intros Ha Hrm He. rewrite isNaNF64_eq by done. unfold f64_to_i32. rewrite He. cbv zeta.
  assert (0 <= fracF64UI a < 2 ^ 52) as Hf by (rewrite fracF64_eq; apply Z.mod_pos_bound; lia).
  set (f := fracF64UI a) in *. set (sign := signF64UI a). clearbody f sign.
  change 0x0010000000000000 with (2 ^ 52). rewrite implicit_bit by lia.
  change (0 <? 0x427 - 0x7ff) with false. change (z2b 0x7ff) with true. change (0x7ff =? 0x7ff) with true.
  cbv iota. cbn [andb]. rewrite negb_involutive. change (z2b f) with (negb (f =? 0)).
  rewrite roundToI32_spec by lia || done.
  rewrite to_int_spec_high by (lia || (apply Z.lt_le_trans with (2 ^ 40); [lia|apply rounded_ge; lia])).
  by destruct (f =? 0), sign.
Qed.

(** * Leading zeros and exact conversions *)

Lemma clz8_table i : 0 < i < 256 -> nthZ softfloat_countLeadingZeros8 i = 7 - Z.log2 i.
Proof.
  intros Hi. enough (forall i, 0 <= i < Z.of_nat 256 ->
    (i =? 0) || (nthZ softfloat_countLeadingZeros8 i =? 7 - Z.log2 i) = true) as H.
  { specialize (H i ltac:(lia)). destruct (Z.eqb_spec i 0); [lia|]. by apply Z.eqb_eq in H. }
  apply forall_below, Forall_forall. intros k Hk.
  apply list_elem_of_In, in_seq in Hk.
  assert (forallb (fun k => (Z.of_nat k =? 0) ||
    (nthZ softfloat_countLeadingZeros8 (Z.of_nat k) =? 7 - Z.log2 (Z.of_nat k))) (seq 0 256) = true)
    as H by (vm_compute; done).
  rewrite forallb_forall in H. apply H, in_seq. lia.
Qed.

Lemma clz32_spec a : 0 < a < 2 ^ 32 -> softfloat_countLeadingZeros32 a = 31 - Z.log2 a.
Proof.
  intros Ha. unfold softfloat_countLeadingZeros32. cbv zeta.
  assert (forall x c, 0 < x < 2 ^ 32 -> 2 ^ 24 <= x -> 0 <= c <= 24 ->
    u8 (c + nthZ softfloat_countLeadingZeros8 (Z.shiftr x 24)) = c + 31 - Z.log2 x) as Hfin.
  { intros x c Hx H24 Hc. assert (24 <= Z.log2 x < 32) by (split; [apply Z.log2_le_pow2|apply Z.log2_lt_pow2]; lia).
    assert (0 < Z.shiftr x 24 < 256).
    { rewrite Z.shiftr_div_pow2 by lia. split; [apply Z.div_str_pos; lia|apply Z.div_lt_upper_bound; lia]. }
    rewrite clz8_table, Z.log2_shiftr by lia. rewrite wrap_small by lia. lia. }
  assert (forall x k, 0 < x -> 0 <= k -> x < 2 ^ (32 - k) -> 0 <= k <= 32 ->
    u32 (Z.shiftl x k) = x * 2 ^ k /\ 0 < x * 2 ^ k < 2 ^ 32 /\ Z.log2 (x * 2 ^ k) = k + Z.log2 x) as Hsh.
  { intros x k Hx Hk Hlt Hk'. pose proof (Z.pow_pos_nonneg 2 k).
    assert (x * 2 ^ k < 2 ^ 32).
    { replace (2 ^ 32) with (2 ^ (32 - k) * 2 ^ k) by (rewrite <- Z.pow_add_r by lia; f_equal; lia). nia. }
    rewrite Z.shiftl_mul_pow2 by lia. rewrite wrap_small by nia.
    split_and!; [done|nia|done|by rewrite Z.log2_mul_pow2 by lia]. }
  change 0x10000 with (2 ^ (32 - 16)). change 0x1000000 with (2 ^ (32 - 8)).
  destruct (Z.ltb_spec a (2 ^ (32 - 16))) as [H16|H16].
  - destruct (Hsh a 16) as (-> & Hr & Hl); try lia.
    destruct (Z.ltb_spec (a * 2 ^ 16) (2 ^ (32 - 8))).
    + destruct (Hsh (a * 2 ^ 16) 8) as (-> & Hr2 & Hl2); try lia.
      rewrite (Hfin (a * 2 ^ 16 * 2 ^ 8) (u8 (16 + 8))); change (u8 (16 + 8)) with 24; lia.
    + rewrite Hfin; lia.
  - destruct (Z.ltb_spec a (2 ^ (32 - 8))).
    + destruct (Hsh a 8) as (-> & Hr & Hl); try lia.
      rewrite Hfin; change (u8 (0 + 8)) with 8; lia.
    + rewrite Hfin; lia.
Qed.

(** The fields of a packed word. *)
Lemma pack64_fields (sign : bool) e f :
  0 <= e < 2 ^ 11 -> 0 <= f < 2 ^ 52 ->
  let a := b2z sign * 2 ^ 63 + e * 2 ^ 52 + f in
  0 <= a < 2 ^ 64 /\ signF64UI a = sign /\ expF64UI a = e /\ fracF64UI a = f.
Proof.
  intros He Hf a. assert (0 <= a < 2 ^ 64) as Ha by (unfold a; destruct sign; simpl b2z; lia).
  split; [done|]. split_and!.
  - unfold signF64UI, z2b. rewrite wrap_small, Z.shiftr_div_pow2 by lia.
    rewrite <- (Z.div_unique a (2 ^ 63) (b2z sign) (e * 2 ^ 52 + f)) by (unfold a; lia).
    by destruct sign.
  - rewrite expF64_eq by done.
    rewrite <- (Z.div_unique a (2 ^ 52) (b2z sign * 2 ^ 11 + e) f) by (unfold a; lia).
    symmetry. apply Z.mod_unique with (b2z sign); lia.
  - rewrite fracF64_eq. symmetry. apply Z.mod_unique with (b2z sign * 2 ^ 11 + e); unfold a; lia.
Qed.

Lemma packToF64UI_eq (sign : bool) e sig :
  0 <= e -> 0 <= sig -> e * 2 ^ 52 + sig < 2 ^ 63 ->
  packToF64UI sign e sig = b2z sign * 2 ^ 63 + e * 2 ^ 52 + sig.
Proof.
  intros He Hs Hb. unfold packToF64UI. rewrite !Z.shiftl_mul_pow2 by lia.
  rewrite (wrap_small 64 e) by lia. rewrite (wrap_small 64 (e * 2 ^ 52)) by lia.
  rewrite (wrap_small 64 (b2z sign * 2 ^ 63)) by (destruct sign; simpl b2z; lia).
  rewrite (wrap_small 64 (b2z sign * 2 ^ 63 + e * 2 ^ 52)) by (destruct sign; simpl b2z; lia).
  apply wrap_small. destruct sign; simpl b2z; lia.
Qed.

(** A 32-bit integer is a double: its sign and magnitude, and it is finite. *)
Lemma i32_to_f64_exact x :
  - 2 ^ 31 <= x < 2 ^ 31 ->
  let a := i32_to_f64 x in
  0 <= a < 2 ^ 64 /\ expF64UI a < 0x7ff /\ signF64UI a = (x <? 0) /\ f64_mag a = Z.abs x * 2 ^ 1074.
Proof.
  intros Hx a. unfold a, i32_to_f64. cbv zeta. destruct (Z.eqb_spec x 0) as [->|Hx0]; [done|].
  assert ((if x <? 0 then u64 (- u64 x) else u64 x) = Z.abs x) as ->.
  { destruct (Z.ltb_spec x 0); [|rewrite wrap_small; lia].
    unfold wrap. rewrite <- (Z.mod_unique x (2 ^ 64) (-1) (x + 2 ^ 64)) by lia.
    rewrite <- (Z.mod_unique (- (x + 2 ^ 64)) (2 ^ 64) (-1) (- x)) by lia. lia. }
  set (n := Z.abs x). assert (0 < n <= 2 ^ 31) by lia.
  rewrite (wrap_small 32 n), clz32_spec by lia.
  pose proof (Z.log2_spec n ltac:(lia)) as Hlog.
  assert (Z.log2 n < 32) by (apply Z.log2_lt_pow2; lia). pose proof (Z.log2_nonneg n).
  set (l := Z.log2 n) in *. clearbody l n.
  rewrite (swrap_small 8) by lia. replace (31 - l + 21) with (52 - l) by lia.
  rewrite Z.shiftl_mul_pow2 by lia.
  assert (2 ^ 52 <= n * 2 ^ (52 - l) < 2 ^ 53) as Hsig.
  { replace (2 ^ 52) with (2 ^ l * 2 ^ (52 - l)) by (rewrite <- Z.pow_add_r by lia; f_equal; lia).
    replace (2 ^ 53) with (2 ^ Z.succ l * 2 ^ (52 - l)) by (rewrite <- Z.pow_add_r by lia; f_equal; lia).
    pose proof (Z.pow_pos_nonneg 2 (52 - l)). nia. }
  rewrite (wrap_small 64) by lia. rewrite packToF64UI_eq by lia.
  destruct (pack64_fields (x <? 0) (1023 + l) (n * 2 ^ (52 - l) - 2 ^ 52)) as (Hr & Hs & He & Hf); [lia..|].
  match goal with |- context [?u <= ?a0 < 2 ^ 64] =>
    replace a0 with (b2z (x <? 0) * 2 ^ 63 + (1023 + l) * 2 ^ 52 + (n * 2 ^ (52 - l) - 2 ^ 52)) by lia end.
  split_and!; [lia..|done|].
  unfold f64_mag, float_mag. rewrite He, Hf. replace (1023 + l =? 0) with false by lia.
  replace (2 ^ 52 + (n * 2 ^ (52 - l) - 2 ^ 52)) with (n * 2 ^ (52 - l)) by lia.
  rewrite <- Z.mul_assoc, <- Z.pow_add_r by lia. do 2 f_equal. lia.
Qed.

(** * Rounding to single precision *)

(** The float nearest to [n * 2^e] in mode [rm] (IEEE 754, tininess detected
    after rounding): [q] is the exponent of the last bit of the result, [m] its
    significand, whose carries reach the exponent field by themselves.  Too
    large a result overflows to infinity, or to the greatest finite number when
    the mode rounds towards zero. *)
Definition f32_round (rm : Z) (sign : bool) (n e fl : Z) : Z * Z :=
  let q1 := Z.log2 n + e - 23 in
  let q := Z.max q1 (-149) in
  let m := rounded rm sign n (q - e) in
  let bits := (q + 149) * 2 ^ 23 + m in
  let tiny := rounded rm sign n (q1 - e) <? 2 ^ (-126 - q1) in
  if 0xff * 2 ^ 23 <=? bits
  then (b2z sign * 2 ^ 31 + 0xff * 2 ^ 23 - b2z (increment rm sign 7 =? 0),
        fl .| (softfloat_flag_overflow .| softfloat_flag_inexact))
  else (b2z sign * 2 ^ 31 + bits,
        if lossy n (q - e)
        then (if tiny then fl .| softfloat_flag_underflow else fl) .| softfloat_flag_inexact
        else fl).

Definition rounding_mode (rm : Z) : Prop := 0 <= rm <= 5.

Lemma rounded_odd sign x k :
  0 < k -> rounded softfloat_round_odd sign x k = if x mod 2 ^ k =? 0 then x / 2 ^ k else x / 2 ^ k .| 1.
Proof.
  intros. unfold rounded. replace (k <=? 0) with false by lia. cbv zeta.
  destruct (x mod 2 ^ k =? 0); [done|]. rewrite lor_1, even_mod2.
  unfold softfloat_round_odd, softfloat_round_near_even, softfloat_round_near_maxMag,
    softfloat_round_min, softfloat_round_max. cbn [Z.eqb Pos.eqb].
  pose proof (Z.mod_pos_bound (x / 2 ^ k) 2). destruct (Z.eqb_spec ((x / 2 ^ k) mod 2) 0); lia.
Qed.

Lemma packToF32UI_eq (sign : bool) e sig :
  0 <= e -> 0 <= sig -> e * 2 ^ 23 + sig < 2 ^ 31 ->
  packToF32UI sign e sig = b2z sign * 2 ^ 31 + e * 2 ^ 23 + sig.
Proof.
  intros He Hs Hb. unfold packToF32UI. rewrite !Z.shiftl_mul_pow2 by lia.
  rewrite (wrap_small 32 e), (wrap_small 32 (e * 2 ^ 23)) by lia.
  rewrite (wrap_small 32 (b2z sign * 2 ^ 31)) by (destruct sign; simpl b2z; lia).
  rewrite (wrap_small 32 (b2z sign * 2 ^ 31 + e * 2 ^ 23)) by (destruct sign; simpl b2z; lia).
  apply wrap_small. destruct sign; simpl b2z; lia.
Qed.

(** The part of [softfloat_roundPackToF32] after the range checks. *)
Definition pack_tail (rm : Z) (sign : bool) (exp sig roundBits fl : Z) : Z * Z :=
  let roundNearEven := rm =? softfloat_round_near_even in
  let sig := Z.shiftr (u64 (sig + increment rm sign 7)) 7 in
  let join1 (fl sig : Z) :=
    let sig := sig &~ b2z (((roundBits .^ 0x40) =? 0) && roundNearEven) in
    let exp := if sig =? 0 then 0 else exp in
    (u32 (packToF32UI sign exp sig), fl)
  in
  if z2b roundBits then
    let fl := fl .| softfloat_flag_inexact in
    if rm =? softfloat_round_odd then (u32 (packToF32UI sign exp (sig .| 1)), fl) else join1 fl sig
  else join1 fl sig.

Lemma pack_tail_spec rm sign exp sig fl :
  rounding_mode rm -> 0 <= sig < 2 ^ 31 -> 0 <= exp -> (0 < exp -> 2 ^ 30 <= sig) ->
  exp * 2 ^ 23 + rounded rm sign sig 7 < 2 ^ 31 ->
  pack_tail rm sign exp sig (sig .& 0x7f) fl =
  (b2z sign * 2 ^ 31 + exp * 2 ^ 23 + rounded rm sign sig 7,
   if lossy sig 7 then fl .| softfloat_flag_inexact else fl).
Proof.
  intros Hrm Hsig Hexp Hnorm Hb. unfold pack_tail.
  change 0x7f with (2 ^ 7 - 1). change 0x40 with (2 ^ (7 - 1)). rewrite land_low by lia.
  pose proof (increment_range rm sign 7 ltac:(lia)). rewrite (wrap_small 64 (sig + _)) by lia.
  change (z2b (sig mod 2 ^ 7)) with (lossy sig 7). cbv zeta.
  assert (Hr : 0 <= rounded rm sign sig 7) by (apply rounded_ge; lia).
  assert (Hn : 0 < exp -> 2 ^ 23 <= rounded rm sign sig 7) by (intros; apply rounded_ge; lia).
  assert (Hpack : forall e s, 0 <= e -> 0 <= s -> e * 2 ^ 23 + s < 2 ^ 31 ->
    u32 (packToF32UI sign e s) = b2z sign * 2 ^ 31 + e * 2 ^ 23 + s).
  { intros. rewrite packToF32UI_eq by done. apply wrap_small. destruct sign; simpl b2z; lia. }
  destruct (Z.eqb_spec rm softfloat_round_odd) as [->|Hodd].
  - assert (increment softfloat_round_odd sign 7 = 0) as -> by (by destruct sign).
    rewrite Z.add_0_r, Z.shiftr_div_pow2 by lia. rewrite rounded_odd in * by lia.
    unfold lossy. change (0 <? 7) with true. cbn [andb].
    change (softfloat_round_odd =? softfloat_round_near_even) with false.
    destruct (sig mod 2 ^ 7 =? 0); cbn [negb].
    + rewrite andb_false_r. simpl b2z. rewrite ldiff_0.
      destruct (Z.eqb_spec (sig / 2 ^ 7) 0) as [E|E].
      * rewrite E in *. rewrite Hpack by lia. assert (exp = 0) as -> by lia. done.
      * rewrite Hpack by lia. done.
    + rewrite Hpack by lia. done.
  - rewrite rounded_code by (unfold ieee_mode, rounding_mode, softfloat_round_odd in *; lia).
    assert (forall fl' : Z, (u32 (packToF32UI sign (if rounded rm sign sig 7 =? 0 then 0 else exp) (rounded rm sign sig 7)), fl')
      = (b2z sign * 2 ^ 31 + exp * 2 ^ 23 + rounded rm sign sig 7, fl')) as E.
    { intros fl'. f_equal. destruct (Z.eqb_spec (rounded rm sign sig 7) 0) as [E|E].
      - rewrite E in *. rewrite Hpack by lia. assert (exp = 0) by lia. lia.
      - by rewrite Hpack by lia. }
    rewrite E. by destruct (lossy sig 7).
Qed.

(** Rounding carries out of [n] bits exactly when the increment does. *)
Lemma rounded_top rm sign x k n :
  rounding_mode rm -> 0 < k -> 0 < n -> 0 <= x < 2 ^ (n + k) ->
  (rounded rm sign x k <? 2 ^ n) = (x + increment rm sign k <? 2 ^ (n + k)).
Proof.
  intros Hrm Hk Hn Hx. pose proof (pow2_split n Hn) as Es. pose proof (increment_range rm sign k Hk) as Hi.
  rewrite Z.pow_add_r in * by lia. pose proof (Z.pow_pos_nonneg 2 k). pose proof (Z.pow_pos_nonneg 2 (n - 1)).
  assert (0 <= x / 2 ^ k < 2 ^ n) as Hq by (split; [apply Z.div_pos|apply Z.div_lt_upper_bound]; lia).
  destruct (Z.eq_dec rm softfloat_round_odd) as [->|Hodd].
  - assert (increment softfloat_round_odd sign k = 0) as -> by (by destruct sign).
    rewrite Z.add_0_r. replace (x <? 2 ^ n * 2 ^ k) with true by lia. apply Z.ltb_lt.
    rewrite rounded_odd by lia. case_match; [lia|]. rewrite lor_1.
    destruct (Z.eq_dec (x / 2 ^ k) (2 ^ n - 1)) as [->|]; [|pose proof (Z.mod_pos_bound (x / 2 ^ k) 2); lia].
    replace ((2 ^ n - 1) mod 2) with 1; [lia|]. rewrite Es.
    apply Z.mod_unique_pos with (2 ^ (n - 1) - 1); lia.
  - rewrite <- round_step by (unfold ieee_mode, rounding_mode, softfloat_round_odd in *; lia). cbv zeta.
    set (y := (x + increment rm sign k) / 2 ^ k).
    destruct (Z.ltb_spec (x + increment rm sign k) (2 ^ n * 2 ^ k)) as [Hlt|Hge].
    + assert (y < 2 ^ n) by (apply Z.div_lt_upper_bound; lia). apply Z.ltb_lt.
      case_match; [rewrite ldiff_1; pose proof (Z.mod_pos_bound y 2)|]; lia.
    + assert (y = 2 ^ n) as ->.
      { symmetry. apply Z.div_unique with (x + increment rm sign k - 2 ^ n * 2 ^ k); lia. }
      apply Z.ltb_ge. case_match; [rewrite ldiff_1|lia].
      replace (2 ^ n mod 2) with 0; [lia|]. rewrite Es. by rewrite Z.mul_comm, Z_mod_mult.
Qed.

Lemma roundPackToF32_code rm sign exp sig fl :
  softfloat_roundPackToF32 rm sign exp sig fl =
  let inc := increment rm sign 7 in
  let tail exp sig fl := pack_tail rm sign exp sig (sig .& 0x7f) fl in
  if 0xfd <=? u32 exp then
    if exp <? 0 then
      let isTiny := (exp <? -1) || (u64 (sig + inc) <? 0x80000000) in
      let sig := softfloat_shiftRightJam32 (u32 sig) (u64 (- exp)) in
      tail 0 sig (if isTiny && z2b (sig .& 0x7f) then fl .| softfloat_flag_underflow else fl)
    else if (0xfd <? exp) || (0x80000000 <=? u64 (sig + inc)) then
      (u32 (u64 (packToF32UI sign 0xff 0 - b2z (inc =? 0))),
       fl .| (softfloat_flag_overflow .| softfloat_flag_inexact))
    else tail exp sig fl
  else tail exp sig fl.
Proof.
  unfold softfloat_roundPackToF32, pack_tail. cbv zeta.
  pose proof (increment_code rm sign 7 8 ltac:(lia)) as E.
  change (2 ^ 7 - 1) with 0x7f in E. change (2 ^ (7 - 1)) with 0x40 in E.
  by rewrite E.
Qed.

Lemma roundPackToF32_spec rm sign exp sig fl :
  rounding_mode rm -> 2 ^ 30 <= sig < 2 ^ 31 -> - 2 ^ 31 < exp < 2 ^ 31 ->
  softfloat_roundPackToF32 rm sign exp sig fl = f32_round rm sign sig (exp - 156) fl.
Proof.
  intros Hrm Hsig Hexp. rewrite roundPackToF32_code. cbv zeta.
  pose proof (increment_range rm sign 7 ltac:(lia)) as Hinc.
  rewrite (wrap_small 64 (sig + _)) by lia.
  assert (Z.log2 sig = 30) as Hlog by (apply Z.log2_unique; lia).
  unfold f32_round. rewrite Hlog. cbv zeta.
  replace (30 + (exp - 156) - 23) with (exp - 149) by lia.
  replace (exp - 149 - (exp - 156)) with 7 by lia. replace (-126 - (exp - 149)) with (23 - exp) by lia.
  assert (Hm : 2 ^ 23 <= rounded rm sign sig 7 <= 2 ^ 24).
  { split; [apply rounded_ge|apply rounded_le]; lia. }
  destruct (Z.ltb_spec exp 0) as [Hneg|Hpos].
  - replace (u32 exp) with (exp + 2 ^ 32) by (unfold wrap; apply Z.mod_unique_pos with (-1); lia).
    replace (0xfd <=? exp + 2 ^ 32) with true by lia.
    rewrite (wrap_small 32 sig), (wrap_small 64 (- exp)), shiftRightJam32_jam by lia.
    rewrite Z.max_r by lia. replace (-149 - (exp - 156)) with (7 - exp) by lia.
    replace (-149 + 149) with 0 by lia. rewrite Z.mul_0_l, Z.add_0_l.
    pose proof (jam_bound sig (- exp) 31 ltac:(lia) ltac:(lia) ltac:(lia)) as Hj.
    assert (rounded rm sign (jam sig (- exp)) 7 = rounded rm sign sig (7 - exp)) as Er
      by (rewrite rounded_jam by lia; f_equal; lia).
    assert (lossy (jam sig (- exp)) 7 = lossy sig (7 - exp)) as El by (rewrite lossy_jam by lia; f_equal; lia).
    assert (rounded rm sign sig (7 - exp) <= 2 ^ 24) by (rewrite <- Er; apply rounded_le; lia).
    rewrite pack_tail_spec by (done || lia). rewrite Er, El.
    replace (0xff * 2 ^ 23 <=? rounded rm sign sig (7 - exp)) with false by lia.
    f_equal; [lia|].
    assert (z2b (jam sig (- exp) .& 0x7f) = lossy (jam sig (- exp)) 7) as ->.
    { change 0x7f with (2 ^ 7 - 1). by rewrite land_low by lia. }
    rewrite El. destruct (lossy sig (7 - exp)); [|by rewrite andb_false_r].
    rewrite andb_true_r. f_equal.
    replace ((exp <? -1) || (sig + increment rm sign 7 <? 0x80000000))
      with (rounded rm sign sig 7 <? 2 ^ (23 - exp)); [done|].
    destruct (Z.ltb_spec exp (-1)); cbn [orb].
    + apply Z.ltb_lt. assert (2 ^ 25 <= 2 ^ (23 - exp)) by (apply Z.pow_le_mono_r; lia). lia.
    + replace (23 - exp) with 24 by lia. apply (rounded_top rm sign sig 7 24); done || lia.
  - rewrite (wrap_small 32 exp), Z.max_l by lia.
    replace (exp - 149 - (exp - 156)) with 7 by lia. replace (exp - 149 + 149) with exp by lia.
    replace (rounded rm sign sig 7 <? 2 ^ (23 - exp)) with false.
    2: { symmetry. apply Z.ltb_ge. destruct (Z.le_gt_cases exp 23); [|rewrite Z.pow_neg_r; lia].
         assert (2 ^ (23 - exp) <= 2 ^ 23) by (apply Z.pow_le_mono_r; lia). lia. }
    assert (Htail : exp * 2 ^ 23 + rounded rm sign sig 7 < 0xff * 2 ^ 23 ->
      pack_tail rm sign exp sig (sig .& 0x7f) fl =
      (b2z sign * 2 ^ 31 + (exp * 2 ^ 23 + rounded rm sign sig 7),
       if lossy sig 7 then fl .| softfloat_flag_inexact else fl)).
    { intros. rewrite pack_tail_spec by (done || lia). f_equal. lia. }
    assert (Hinf : u32 (u64 (packToF32UI sign 0xff 0 - b2z (increment rm sign 7 =? 0))) =
      b2z sign * 2 ^ 31 + 0xff * 2 ^ 23 - b2z (increment rm sign 7 =? 0)).
    { rewrite packToF32UI_eq by lia. generalize (increment rm sign 7 =? 0) as z. intros z.
      rewrite (wrap_small 64) by (destruct sign, z; simpl b2z; lia).
      rewrite wrap_small; destruct sign, z; simpl b2z; lia. }
    rewrite Hinf. pose proof (rounded_top rm sign sig 7 24 Hrm ltac:(lia) ltac:(lia) ltac:(lia)) as Htop.
    change (2 ^ (24 + 7)) with 0x80000000 in Htop.
    destruct (Z.leb_spec 0xfd exp) as [Hhigh|Hlow].
    + destruct (Z.ltb_spec 0xfd exp); cbn [orb].
      * by replace (0xff * 2 ^ 23 <=? exp * 2 ^ 23 + rounded rm sign sig 7) with true by lia.
      * assert (exp = 0xfd) as -> by lia. rewrite Z.leb_antisym, <- Htop.
        destruct (Z.ltb_spec (rounded rm sign sig 7) (2 ^ 24)); cbn [negb].
        -- replace (0xff * 2 ^ 23 <=? 0xfd * 2 ^ 23 + rounded rm sign sig 7) with false by lia.
           apply Htail. lia.
        -- by replace (0xff * 2 ^ 23 <=? 0xfd * 2 ^ 23 + rounded rm sign sig 7) with true by lia.
    + replace (0xff * 2 ^ 23 <=? exp * 2 ^ 23 + rounded rm sign sig 7) with false by lia.
      apply Htail. lia.
Qed.

(** ** Rounding depends on the value only *)

Lemma f32_round_scale rm sign n j e fl :
  0 < n -> 0 <= j -> f32_round rm sign (n * 2 ^ j) e fl = f32_round rm sign n (e + j) fl.
Proof.
  intros Hn Hj. unfold f32_round. rewrite Z.log2_mul_pow2 by lia. cbv zeta.
  replace (j + Z.log2 n + e - 23) with (Z.log2 n + (e + j) - 23) by lia.
  rewrite !rounded_scale, lossy_scale by lia.
  set (q1 := Z.log2 n + (e + j) - 23). set (q := Z.max q1 (-149)).
  by replace (q - e - j) with (q - (e + j)) by lia; replace (q1 - e - j) with (q1 - (e + j)) by lia.
Qed.

Lemma log2_jam x d : 0 <= d -> 0 < x -> d < Z.log2 x -> Z.log2 (jam x d) = Z.log2 x - d.
Proof.
  intros Hd Hx Hl. pose proof (Z.log2_spec x Hx) as [Hlo Hhi].
  assert (2 ^ (Z.log2 x - d) <= x / 2 ^ d).
  { apply Z.div_le_lower_bound; [lia|]. rewrite <- Z.pow_add_r by lia. by replace (d + (Z.log2 x - d)) with (Z.log2 x) by lia. }
  apply Z.log2_unique; [lia|]. split.
  - rewrite jam_cases. pose proof (Z.mod_pos_bound (x / 2 ^ d) 2). case_match; lia.
  - apply jam_range; [lia..|]. replace (Z.succ (Z.log2 x - d) + d) with (Z.succ (Z.log2 x)) by lia. lia.
Qed.

Lemma f32_round_jam rm sign n d e fl :
  0 <= d -> 0 < n -> d + 25 <= Z.log2 n ->
  f32_round rm sign (jam n d) e fl = f32_round rm sign n (e - d) fl.
Proof.
  intros Hd Hn Hl. unfold f32_round. rewrite log2_jam by lia. cbv zeta.
  replace (Z.log2 n - d + e - 23) with (Z.log2 n + (e - d) - 23) by lia.
  set (q1 := Z.log2 n + (e - d) - 23). set (q := Z.max q1 (-149)).
  rewrite !rounded_jam, lossy_jam by lia.
  by replace (q - e + d) with (q - (e - d)) by lia; replace (q1 - e + d) with (q1 - (e - d)) by lia.
Qed.

(** ** Normalised significands *)

Lemma normSubnormalF32_spec f :
  0 < f < 2 ^ 23 ->
  let '(e, s) := softfloat_normSubnormalF32Sig f in
  2 ^ 23 <= s < 2 ^ 24 /\ -22 <= e <= 0 /\ s = f * 2 ^ (1 - e).
Proof.
  intros Hf. unfold softfloat_normSubnormalF32Sig. rewrite (wrap_small 32), clz32_spec by lia.
  pose proof (Z.log2_spec f ltac:(lia)) as Hlog. pose proof (Z.log2_nonneg f).
  assert (Z.log2 f < 23) by (apply Z.log2_lt_pow2; lia).
  set (l := Z.log2 f) in *. rewrite (swrap_small 8) by lia. replace (31 - l - 8) with (23 - l) by lia.
  cbv zeta. rewrite Z.shiftl_mul_pow2 by lia.
  assert (2 ^ 23 <= f * 2 ^ (23 - l) < 2 ^ 24) as Hs.
  { replace (2 ^ 23) with (2 ^ l * 2 ^ (23 - l)) by (rewrite <- Z.pow_add_r by lia; f_equal; lia).
    replace (2 ^ 24) with (2 ^ Z.succ l * 2 ^ (23 - l)) by (rewrite <- Z.pow_add_r by lia; f_equal; lia).
    pose proof (Z.pow_pos_nonneg 2 (23 - l)). nia. }
  rewrite (wrap_small 64) by lia. split_and!; [lia..|]. do 2 f_equal. lia.
Qed.

(** The exponent and significand that arithmetic works with. *)
Definition norm32 (a : Z) : Z * Z :=
  let '(e, s) := if expF32UI a =? 0 then softfloat_normSubnormalF32Sig (fracF32UI a)
                 else (expF32UI a, fracF32UI a) in (e, s .| 0x00800000).

Lemma norm32_spec a :
  0 <= a < 2 ^ 32 -> expF32UI a <> 0xff -> f32_mag a <> 0 ->
  let '(e, s) := norm32 a in
  2 ^ 23 <= s < 2 ^ 24 /\ -22 <= e < 0xff /\ f32_mag a * 2 ^ 23 = s * 2 ^ (e + 22).
Proof.
  intros Ha He Hm. unfold norm32, f32_mag, float_mag in *.
  assert (0 <= fracF32UI a < 2 ^ 23) as Hf by (rewrite fracF32_eq; apply Z.mod_pos_bound; lia).
  assert (0 <= expF32UI a < 2 ^ 8) as Hr by (rewrite expF32_eq by lia; apply Z.mod_pos_bound; lia).
  set (f := fracF32UI a) in *. set (e := expF32UI a) in *. clearbody e f.
  change 0x00800000 with (2 ^ 23). destruct (Z.eqb_spec e 0) as [->|].
  - pose proof (normSubnormalF32_spec f ltac:(lia)) as Hn.
    destruct (softfloat_normSubnormalF32Sig f) as [e s]. destruct Hn as (Hs & Hre & Es).
    replace (s .| 2 ^ 23) with s.
    + split_and!; [lia..|]. rewrite Es, <- Z.mul_assoc, <- Z.pow_add_r by lia. do 2 f_equal. lia.
    + replace s with (s - 2 ^ 23 + 2 ^ 23) at 2 by lia.
      rewrite Z.add_comm, <- implicit_bit, <- Z.lor_assoc, Z.lor_diag, implicit_bit by lia. lia.
  - rewrite implicit_bit by lia. split_and!; [lia..|].
    rewrite <- Z.mul_assoc, <- Z.pow_add_r by lia. do 2 f_equal. lia.
Qed.

(** ** Tiny and representable values *)

Lemma rounded_leading rm sign n : 0 < n -> 0 <= rounded rm sign n (Z.log2 n - 23) <= 2 ^ 24.
Proof.
  intros Hn. pose proof (Z.log2_spec n Hn) as [_ Hhi].
  destruct (Z.le_gt_cases (Z.log2 n) 23).
  - unfold rounded. replace (Z.log2 n - 23 <=? 0) with true by lia.
    pose proof (Z.pow_pos_nonneg 2 (- (Z.log2 n - 23))).
    replace (2 ^ 24) with (2 ^ Z.succ (Z.log2 n) * 2 ^ (- (Z.log2 n - 23))); [nia|].
    rewrite <- Z.pow_add_r by (pose proof (Z.log2_nonneg n); lia). f_equal. lia.
  - split; [apply rounded_ge; lia|]. apply rounded_le; [lia..|].
    rewrite <- Z.pow_add_r by lia. replace (24 + (Z.log2 n - 23)) with (Z.succ (Z.log2 n)) by lia. lia.
Qed.

(** Below a quarter of the least subnormal only the sign and the mode matter. *)
Lemma f32_round_tiny rm sign n n' e e' fl :
  0 < n -> 0 < n' -> Z.log2 n + e < -151 -> Z.log2 n' + e' < -151 ->
  f32_round rm sign n e fl = f32_round rm sign n' e' fl.
Proof.
  enough (forall n e, 0 < n -> Z.log2 n + e < -151 ->
    f32_round rm sign n e fl =
    (b2z sign * 2 ^ 31 + rounded rm sign 1 2,
     (fl .| softfloat_flag_underflow) .| softfloat_flag_inexact)) as H by (intros; by rewrite !H).
  clear n n' e e'. intros n e Hn He. unfold f32_round. cbv zeta.
  set (q1 := Z.log2 n + e - 23). rewrite !Z.max_r by lia.
  pose proof (Z.log2_spec n Hn) as [Hlo Hhi]. pose proof (Z.log2_nonneg n).
  assert (Hk : n < 2 ^ (-149 - e - 1)).
  { apply Z.lt_le_trans with (2 ^ Z.succ (Z.log2 n)); [done|]. apply Z.pow_le_mono_r; lia. }
  rewrite (rounded_small rm sign n (-149 - e) 1 2) by lia.
  assert (0 <= rounded rm sign 1 2 <= 1) by (split; [apply rounded_ge|apply rounded_le]; lia).
  replace (0xff * 2 ^ 23 <=? _) with false by lia.
  replace (lossy n (-149 - e)) with true.
  2: { unfold lossy. rewrite Z.mod_small by (pose proof (pow2_split (-149 - e) ltac:(lia)); lia).
       replace (0 <? -149 - e) with true by lia. by replace (n =? 0) with false by lia. }
  pose proof (rounded_leading rm sign n Hn) as [_ Hlead]. replace (q1 - e) with (Z.log2 n - 23) by lia.
  assert (2 ^ 25 <= 2 ^ (-126 - q1)) by (apply Z.pow_le_mono_r; lia).
  replace (_ <? 2 ^ (-126 - q1)) with true by lia. done.
Qed.

(** A representable value is its own rounding. *)
(** A word from its fields. *)
Lemma f32_fields a :
  0 <= a < 2 ^ 32 -> a = b2z (signF32UI a) * 2 ^ 31 + expF32UI a * 2 ^ 23 + fracF32UI a.
Proof.
  intros Ha. rewrite expF32_eq, fracF32_eq by lia. unfold signF32UI, z2b.
  rewrite wrap_small, Z.shiftr_div_pow2 by lia.
  pose proof (Z.div_mod a (2 ^ 23)). pose proof (Z.div_mod (a / 2 ^ 23) (2 ^ 8)).
  replace (a / 2 ^ 31) with (a / 2 ^ 23 / 2 ^ 8) by (by rewrite Z.div_div by lia).
  assert (0 <= a / 2 ^ 23 / 2 ^ 8 < 2).
  { rewrite Z.div_div by lia. split; [apply Z.div_pos|apply Z.div_lt_upper_bound]; lia. }
  assert (b2z (negb (a / 2 ^ 23 / 2 ^ 8 =? 0)) = a / 2 ^ 23 / 2 ^ 8) as -> by (cmp_cases; simpl; lia). lia.
Qed.

Lemma f32_round_exact rm a fl :
  0 <= a < 2 ^ 32 -> expF32UI a <> 0xff -> f32_mag a <> 0 ->
  f32_round rm (signF32UI a) (f32_mag a) (-149) fl = (a, fl).
Proof.
  intros Ha He Hm.
  pose proof (f32_fields a Ha) as Ea.
  assert (0 <= fracF32UI a < 2 ^ 23) as Hf by (rewrite fracF32_eq; apply Z.mod_pos_bound; lia).
  assert (0 <= expF32UI a < 2 ^ 8) as Hr by (rewrite expF32_eq by lia; apply Z.mod_pos_bound; lia).
  replace (a, fl) with (b2z (signF32UI a) * 2 ^ 31 + expF32UI a * 2 ^ 23 + fracF32UI a, fl) by (by rewrite <- Ea).
  clear Ea. unfold f32_mag, float_mag in *. set (s := signF32UI a) in *.
  set (e := expF32UI a) in *. set (f := fracF32UI a) in *. clearbody e f s.
  assert (Hex : forall n k, k <= 0 -> rounded rm s n k = n * 2 ^ (- k) /\ lossy n k = false).
  { intros n k Hk. unfold rounded, lossy. by replace (k <=? 0) with true by lia; replace (0 <? k) with false by lia. }
  unfold f32_round. cbv zeta. destruct (Z.eqb_spec e 0) as [->|He0].
  - assert (Z.log2 f < 23) by (apply Z.log2_lt_pow2; lia).
    rewrite Z.max_r by lia. replace (-149 - -149) with 0 by lia.
    destruct (Hex f 0) as [-> ->]; [lia|]. rewrite Z.opp_0, Z.pow_0_r.
    replace (0xff * 2 ^ 23 <=? _) with false by lia. f_equal. lia.
  - set (S := 2 ^ 23 + f). assert (Z.log2 S = 23) by (apply Z.log2_unique; lia).
    rewrite Z.log2_mul_pow2 by lia. rewrite Z.max_l by lia.
    rewrite rounded_scale, lossy_scale by lia.
    replace (e - 1 + Z.log2 S + -149 - 23 - -149 - (e - 1)) with 0 by lia.
    destruct (Hex S 0) as [-> ->]; [lia|]. rewrite Z.opp_0, Z.pow_0_r.
    replace (0xff * 2 ^ 23 <=? _) with false by lia. f_equal. lia.
Qed.
