(* ===== verification/FloatFacts.v ===== *)
(** SoftFloat operations against IEEE 754.

    The products, narrowings, integer conversions and comparisons of
    [softfloat/f32_*.c] and [f64_*.c] are those of the numbers the words stand
    for, in every rounding mode, with the flags of the standard. *)

From S2P Require Import Prelude IntArith SoftPrim SoftRound SoftF32 SoftF64 SoftConv SoftFacts.

(** * Multiplication *)

Definition f32_is_inf (a : Z) : bool := (expF32UI a =? 0xff) && (fracF32UI a =? 0).
Definition f32_is_zero (a : Z) : bool := (expF32UI a =? 0) && (fracF32UI a =? 0).
Definition f32_inf (sign : bool) : Z := b2z sign * 2 ^ 31 + 0xff * 2 ^ 23.

(** The product IEEE 754 prescribes, NaNs being the default one. *)
Definition f32_product (rm a b fl : Z) : Z * Z :=
  let sign := xorb (signF32UI a) (signF32UI b) in
  if isNaNF32UI a || isNaNF32UI b then
    (defaultNaNF32UI,
     if softfloat_isSigNaNF32UI a || softfloat_isSigNaNF32UI b then fl .| softfloat_flag_invalid else fl)
  else if f32_is_inf a && f32_is_zero b || f32_is_inf b && f32_is_zero a then
    (defaultNaNF32UI, fl .| softfloat_flag_invalid)
  else if f32_is_inf a || f32_is_inf b then (f32_inf sign, fl)
  else if f32_is_zero a || f32_is_zero b then (b2z sign * 2 ^ 31, fl)
  else f32_round rm sign (f32_mag a * f32_mag b) (-298) fl.

(** The code between the normalisation and the final rounding. *)
Lemma mul_significands rm sign ea sa eb sb fl :
  rounding_mode rm -> 2 ^ 23 <= sa < 2 ^ 24 -> 2 ^ 23 <= sb < 2 ^ 24 ->
  -22 <= ea < 0xff -> -22 <= eb < 0xff ->
  (let sigZ := softfloat_shortShiftRightJam64
                 (u64 (u64 (Z.shiftl sa 7) * u64 (Z.shiftl sb 8))) 32 in
   let '(expZ, sigZ) :=
     if sigZ <? 0x40000000 then (ea + eb - 0x7f - 1, u64 (Z.shiftl sigZ 1)) else (ea + eb - 0x7f, sigZ) in
   softfloat_roundPackToF32 rm sign expZ sigZ fl)
  = f32_round rm sign (sa * sb) (ea + eb - 300) fl.
Proof.
  intros Hrm Hsa Hsb Hea Heb. cbv zeta. rewrite !Z.shiftl_mul_pow2 by lia.
  rewrite (wrap_small 64 (sa * 2 ^ 7)), (wrap_small 64 (sb * 2 ^ 8)) by lia.
  replace (sa * 2 ^ 7 * (sb * 2 ^ 8)) with (sa * sb * 2 ^ 15) by lia.
  assert (2 ^ 46 <= sa * sb < 2 ^ 48) as Hp by nia.
  set (p := sa * sb) in *. clearbody p.
  rewrite (wrap_small 64), shortShiftRightJam64_jam by lia.
  pose proof (jam_range (p * 2 ^ 15) 32 31 ltac:(lia) ltac:(lia) ltac:(lia)) as Hj.
  assert (46 <= Z.log2 p) as Hlp by (apply Z.log2_le_pow2; lia).
  assert (Hl : Z.log2 (jam (p * 2 ^ 15) 32) = Z.log2 (p * 2 ^ 15) - 32)
    by (apply log2_jam; rewrite ?Z.log2_mul_pow2; lia).
  rewrite Z.log2_mul_pow2 in Hl by lia.
  assert (2 ^ 29 <= jam (p * 2 ^ 15) 32).
  { pose proof (Z.log2_spec (jam (p * 2 ^ 15) 32)) as [Hlo _].
    - destruct (Z.eq_dec (jam (p * 2 ^ 15) 32) 0) as [E|]; [rewrite E in Hl; simpl in Hl; lia|lia].
    - rewrite Hl in Hlo. assert (2 ^ 29 <= 2 ^ (15 + Z.log2 p - 32)) by (apply Z.pow_le_mono_r; lia). lia. }
  assert (Hr : f32_round rm sign (jam (p * 2 ^ 15) 32) (ea + eb - 0x7f - 156) fl = f32_round rm sign p (ea + eb - 300) fl).
  { rewrite f32_round_jam by (rewrite ?Z.log2_mul_pow2 by lia; lia).
    rewrite f32_round_scale by lia. f_equal. lia. }
  destruct (Z.ltb_spec (jam (p * 2 ^ 15) 32) 0x40000000).
  - rewrite (wrap_small 64) by lia. rewrite roundPackToF32_spec by (done || lia).
    rewrite f32_round_scale, <- Hr by lia. f_equal. lia.
  - by rewrite roundPackToF32_spec, Hr by (done || lia).
Qed.

Lemma f32_mul_normal rm a b fl :
  expF32UI a <> 0xff -> expF32UI b <> 0xff -> f32_is_zero a = false -> f32_is_zero b = false ->
  f32_mul rm a b fl =
  let '(ea, sa) := norm32 a in let '(eb, sb) := norm32 b in
  let sigZ := softfloat_shortShiftRightJam64
                (u64 (u64 (Z.shiftl sa 7) * u64 (Z.shiftl sb 8))) 32 in
  let '(expZ, sigZ) :=
    if sigZ <? 0x40000000 then (ea + eb - 0x7f - 1, u64 (Z.shiftl sigZ 1)) else (ea + eb - 0x7f, sigZ) in
  softfloat_roundPackToF32 rm (xorb (signF32UI a) (signF32UI b)) expZ sigZ fl.
Proof.
  unfold f32_is_zero, f32_mul, norm32. intros Ha Hb Hza Hzb.
  replace (expF32UI a =? 0xff) with false by lia. replace (expF32UI b =? 0xff) with false by lia.
  destruct (expF32UI a =? 0), (expF32UI b =? 0); cbn [andb] in Hza, Hzb; rewrite ?Hza, ?Hzb; done.
Qed.

Lemma f32_zero_mag a : 0 <= a < 2 ^ 32 -> (f32_mag a =? 0) = f32_is_zero a.
Proof.
  intros Ha. unfold f32_mag, float_mag, f32_is_zero.
  assert (0 <= fracF32UI a < 2 ^ 23) by (rewrite fracF32_eq; apply Z.mod_pos_bound; lia).
  assert (0 <= expF32UI a < 2 ^ 8) by (rewrite expF32_eq by lia; apply Z.mod_pos_bound; lia).
  destruct (Z.eqb_spec (expF32UI a) 0); [done|].
  pose proof (Z.pow_pos_nonneg 2 (expF32UI a - 1)). apply Z.eqb_neq. nia.
Qed.

Lemma f32_mul_finite rm a b fl :
  0 <= a < 2 ^ 32 -> 0 <= b < 2 ^ 32 -> rounding_mode rm ->
  expF32UI a <> 0xff -> expF32UI b <> 0xff -> f32_is_zero a = false -> f32_is_zero b = false ->
  f32_mul rm a b fl =
  f32_round rm (xorb (signF32UI a) (signF32UI b)) (f32_mag a * f32_mag b) (-298) fl.
Proof.
  intros Ha Hb Hrm Hea Heb Hza Hzb. rewrite f32_mul_normal by done.
  rewrite <- f32_zero_mag in Hza, Hzb by done.
  pose proof (norm32_spec a Ha Hea ltac:(lia)) as HA. pose proof (norm32_spec b Hb Heb ltac:(lia)) as HB.
  destruct (norm32 a) as [ea sa], (norm32 b) as [eb sb].
  destruct HA as (Hsa & Hra & Hma), HB as (Hsb & Hrb & Hmb).
  rewrite (mul_significands rm _ ea sa eb sb fl) by done.
  assert (0 < f32_mag a) by (pose proof (Z.pow_pos_nonneg 2 (ea + 22)); nia).
  assert (0 < f32_mag b) by (pose proof (Z.pow_pos_nonneg 2 (eb + 22)); nia).
  replace (-298) with (-344 + 46) by lia. rewrite <- f32_round_scale by nia.
  replace (f32_mag a * f32_mag b * 2 ^ 46) with (f32_mag a * 2 ^ 23 * (f32_mag b * 2 ^ 23)) by lia.
  rewrite Hma, Hmb. replace (sa * 2 ^ (ea + 22) * (sb * 2 ^ (eb + 22))) with (sa * sb * 2 ^ (ea + 22 + (eb + 22)))
    by (rewrite Z.pow_add_r by lia; lia).
  rewrite f32_round_scale by nia. f_equal. lia.
Qed.

(** * Narrowing and widening *)

Lemma f64_field_ranges a :
  0 <= a < 2 ^ 64 -> 0 <= fracF64UI a < 2 ^ 52 /\ 0 <= expF64UI a < 2 ^ 11.
Proof.
  intros. rewrite fracF64_eq, expF64_eq by done. split; apply Z.mod_pos_bound; lia.
Qed.

Lemma f32_field_ranges a :
  0 <= a < 2 ^ 32 -> 0 <= fracF32UI a < 2 ^ 23 /\ 0 <= expF32UI a < 2 ^ 8.
Proof.
  intros. rewrite fracF32_eq, expF32_eq by lia. split; apply Z.mod_pos_bound; lia.
Qed.

Lemma f64_to_f32_finite rm a fl :
  0 <= a < 2 ^ 64 -> rounding_mode rm -> expF64UI a <> 0x7ff -> f64_mag a <> 0 ->
  f64_to_f32 rm a fl = f32_round rm (signF64UI a) (f64_mag a) (-1074) fl.
Proof.
  intros Ha Hrm He Hm. destruct (f64_field_ranges a Ha) as [Hf Hr].
  unfold f64_to_f32, f64_mag, float_mag in *. cbv zeta.
  set (e := expF64UI a) in *. set (f := fracF64UI a) in *. clearbody e f.
  replace (e =? 0x7ff) with false by lia. rewrite shortShiftRightJam64_jam, (wrap_small 64 e) by lia.
  pose proof (jam_range f 22 30 ltac:(lia) ltac:(lia) ltac:(lia)) as Hj.
  change 0x40000000 with (2 ^ 30). rewrite implicit_bit by lia.
  replace (e .| jam f 22 =? 0) with false.
  2: { symmetry. apply Z.eqb_neq. rewrite Z.lor_eq_0_iff. intros [-> Ej]. simpl in Hm.
       rewrite jam_cases in Ej. pose proof (Z.div_mod f (2 ^ 22)). pose proof (Z.mod_pos_bound (f / 2 ^ 22) 2).
       pose proof (Z.div_pos f (2 ^ 22)). destruct (Z.eqb_spec (f mod 2 ^ 22) 0); [lia|].
       assert (f / 2 ^ 22 = 0) as E0 by lia. rewrite E0 in Ej. done. }
  rewrite roundPackToF32_spec by (done || lia).
  destruct (Z.eqb_spec e 0) as [->|He0].
  - assert (Z.log2 (2 ^ 30 + jam f 22) = 30) as Hl by (apply Z.log2_unique; lia).
    assert (Z.log2 f < 52) by (apply Z.log2_lt_pow2; lia).
    apply f32_round_tiny; lia.
  - assert (2 ^ 30 + jam f 22 = jam (2 ^ 52 + f) 22) as ->.
    { rewrite !jam_cases. replace (2 ^ 52 + f) with (f + 2 ^ 30 * 2 ^ 22) by lia.
      rewrite Z_mod_plus_full, Z.div_add by lia.
      replace ((f / 2 ^ 22 + 2 ^ 30) mod 2) with ((f / 2 ^ 22) mod 2); [lia|].
      replace (2 ^ 30) with (2 ^ 29 * 2) by lia. by rewrite Z_mod_plus_full. }
    assert (Z.log2 (2 ^ 52 + f) = 52) as Hl by (apply Z.log2_unique; lia).
    rewrite f32_round_jam, f32_round_scale by lia. f_equal. lia.
Qed.

(** The double a single denotes has the same sign and value. *)
Lemma f32_to_f64_finite a fl :
  0 <= a < 2 ^ 32 -> expF32UI a <> 0xff ->
  let r := fst (f32_to_f64 a fl) in
  snd (f32_to_f64 a fl) = fl /\ 0 <= r < 2 ^ 64 /\ expF64UI r < 0x7ff /\
  signF64UI r = signF32UI a /\ f64_mag r = f32_mag a * 2 ^ 925.
Proof.
  intros Ha He. destruct (f32_field_ranges a Ha) as [Hf Hr].
  unfold f32_to_f64, f32_mag, float_mag in *. cbv zeta.
  set (e := expF32UI a) in *. set (f := fracF32UI a) in *. set (sign := signF32UI a). clearbody e f sign.
  replace (e =? 0xff) with false by lia.
  assert (Hpack : forall E S, 0 <= E -> 1 <= E + S / 2 ^ 52 < 0x7ff -> 0 <= S < 2 ^ 53 ->
    let r := packToF64UI sign E S in
    0 <= r < 2 ^ 64 /\ expF64UI r < 0x7ff /\ signF64UI r = sign /\
    f64_mag r = (2 ^ 52 + S mod 2 ^ 52) * 2 ^ (E + S / 2 ^ 52 - 1)).
  { intros E S HE Hexp HS r. pose proof (Z.div_mod S (2 ^ 52)). pose proof (Z.mod_pos_bound S (2 ^ 52)).
    destruct (pack64_fields sign (E + S / 2 ^ 52) (S mod 2 ^ 52)) as (H1 & H2 & H3 & H4); [lia..|].
    assert (r = b2z sign * 2 ^ 63 + (E + S / 2 ^ 52) * 2 ^ 52 + S mod 2 ^ 52) as ->
      by (unfold r; rewrite packToF64UI_eq; lia).
    split_and!; [lia..|done|]. unfold f64_mag, float_mag. rewrite H3, H4.
    by replace (E + S / 2 ^ 52 =? 0) with false by lia. }
  destruct (Z.eqb_spec e 0) as [->|He0].
  - destruct (Z.eqb_spec f 0) as [->|Hf0]; [by destruct sign|].
    pose proof (normSubnormalF32_spec f ltac:(lia)) as Hn.
    destruct (softfloat_normSubnormalF32Sig f) as [en s]. destruct Hn as (Hs & Hre & Es). cbn [fst snd].
    split; [done|]. rewrite Z.shiftl_mul_pow2, (wrap_small 64) by lia.
    assert (s * 2 ^ 29 / 2 ^ 52 = 1) as Ed by (symmetry; apply Z.div_unique with (s * 2 ^ 29 - 2 ^ 52); lia).
    destruct (Hpack (en - 1 + 0x380) (s * 2 ^ 29)) as (H1 & H2 & H3 & ->); [lia..|].
    do 3 (split; [done|]). rewrite Ed. pose proof (Z.div_mod (s * 2 ^ 29) (2 ^ 52)) as Hdm.
    rewrite Ed in Hdm. replace (2 ^ 52 + (s * 2 ^ 29) mod 2 ^ 52) with (s * 2 ^ 29) by lia.
    rewrite Es, <- !Z.mul_assoc, <- !Z.pow_add_r by lia. do 2 f_equal. lia.
  - cbn [fst snd]. split; [done|]. rewrite Z.shiftl_mul_pow2, (wrap_small 64) by lia.
    assert (f * 2 ^ 29 / 2 ^ 52 = 0) as Ed by (apply Z.div_small; lia).
    destruct (Hpack (e + 0x380) (f * 2 ^ 29)) as (H1 & H2 & H3 & ->); [lia..|].
    do 3 (split; [done|]). rewrite Ed, Z.mod_small by lia.
    replace (2 ^ 52 + f * 2 ^ 29) with ((2 ^ 23 + f) * 2 ^ 29) by lia.
    rewrite <- !Z.mul_assoc, <- !Z.pow_add_r by lia. do 2 f_equal. lia.
Qed.

(** * Comparisons *)

(** The number a word stands for, in units of the least subnormal; infinity is
    above every finite number. *)
Definition f32_value (a : Z) : Z := signed (signF32UI a) (f32_mag a).

(** The magnitude grows with the bits below the sign. *)
Lemma float_mag_mono x y :
  0 <= x < y -> float_mag 23 (x / 2 ^ 23) (x mod 2 ^ 23) < float_mag 23 (y / 2 ^ 23) (y mod 2 ^ 23).
Proof.
  intros Hxy. pose proof (Z.div_mod x (2 ^ 23)). pose proof (Z.div_mod y (2 ^ 23)).
  pose proof (Z.mod_pos_bound x (2 ^ 23)). pose proof (Z.mod_pos_bound y (2 ^ 23)).
  pose proof (Z.div_pos x (2 ^ 23)). unfold float_mag.
  set (ex := x / 2 ^ 23) in *. set (fx := x mod 2 ^ 23) in *.
  set (ey := y / 2 ^ 23) in *. set (fy := y mod 2 ^ 23) in *. clearbody ex fx ey fy.
  destruct (Z.lt_trichotomy ex ey) as [Hlt|[->|]]; [| |lia].
  - replace (ey =? 0) with false by lia. pose proof (Z.pow_pos_nonneg 2 (ey - 1)).
    destruct (Z.eqb_spec ex 0); [nia|].
    assert (2 * 2 ^ (ex - 1) <= 2 ^ (ey - 1)).
    { rewrite <- Z.pow_succ_r by lia. apply Z.pow_le_mono_r; lia. }
    pose proof (Z.pow_pos_nonneg 2 (ex - 1)). nia.
  - assert (fx < fy) by lia. destruct (Z.eqb_spec ey 0); [done|].
    pose proof (Z.pow_pos_nonneg 2 (ey - 1)). nia.
Qed.

(** A word is its sign and the bits that order magnitudes. *)
Lemma f32_split a :
  0 <= a < 2 ^ 32 ->
  let x := a mod 2 ^ 31 in
  a = b2z (signF32UI a) * 2 ^ 31 + x /\ f32_mag a = float_mag 23 (x / 2 ^ 23) (x mod 2 ^ 23).
Proof.
  intros Ha x. pose proof (Z.div_mod a (2 ^ 31)). split.
  - unfold signF32UI, z2b. rewrite wrap_small, Z.shiftr_div_pow2 by lia. fold x.
    assert (0 <= a / 2 ^ 31 < 2) by (split; [apply Z.div_pos|apply Z.div_lt_upper_bound]; lia).
    assert (a / 2 ^ 31 = 0 \/ a / 2 ^ 31 = 1) as [E|E] by lia; rewrite E in *; simpl b2z; lia.
  - unfold f32_mag. rewrite expF32_eq, fracF32_eq by lia. f_equal; unfold x.
    + replace (2 ^ 31) with (2 ^ 23 * 2 ^ 8) by done.
      by rewrite Z.rem_mul_r, Z.add_comm, Z.mul_comm, Z.div_add_l, (Z.div_small (a mod _)), Z.add_0_r
        by (lia || apply Z.mod_pos_bound; lia).
    + symmetry. apply Z.mod_mod_divide. by exists (2 ^ 8).
Qed.

Lemma f32_mag_order a b :
  0 <= a < 2 ^ 32 -> 0 <= b < 2 ^ 32 ->
  let x := a mod 2 ^ 31 in let y := b mod 2 ^ 31 in
  (x < y -> f32_mag a < f32_mag b) /\ (x = y -> f32_mag a = f32_mag b) /\
  (x = 0 -> f32_mag a = 0) /\ (0 < x -> 0 < f32_mag a).
Proof.
  intros Ha Hb x y. destruct (f32_split a Ha) as [_ ->], (f32_split b Hb) as [_ ->]. fold x y.
  pose proof (Z.mod_pos_bound a (2 ^ 31) ltac:(lia)) as Hx. fold x in Hx.
  split_and!; [intros; apply float_mag_mono; lia|by intros ->|by intros ->|].
  intros. by apply (float_mag_mono 0 x).
Qed.

Lemma doubled_or a b :
  0 <= a < 2 ^ 32 -> 0 <= b < 2 ^ 32 ->
  (u32 (Z.shiftl (a .| b) 1) =? 0) = (a mod 2 ^ 31 =? 0) && (b mod 2 ^ 31 =? 0).
Proof.
  intros Ha Hb. change 1 with (32 - 31) at 1. rewrite shifted_out by lia.
  rewrite <- !Z.land_ones, Z.land_lor_distr_l by lia.
  destruct (Z.eqb_spec (a .& Z.ones 31) 0) as [E|E], (Z.eqb_spec (b .& Z.ones 31) 0) as [E'|E'];
    cbn [andb]; apply Z.eqb_eq || apply Z.eqb_neq; rewrite Z.lor_eq_0_iff; tauto.
Qed.

Lemma f32_compare a b :
  0 <= a < 2 ^ 32 -> 0 <= b < 2 ^ 32 ->
  let zero := u32 (Z.shiftl (a .| b) 1) =? 0 in
  let sa := signF32UI a in let sb := signF32UI b in
  ((a =? b) || zero = (f32_value a =? f32_value b)) /\
  ((if negb (Bool.eqb sa sb) then sa && negb zero else negb (a =? b) && xorb sa (a <? b))
    = (f32_value a <? f32_value b)) /\
  ((if negb (Bool.eqb sa sb) then sa || zero else (a =? b) || xorb sa (a <? b))
    = (f32_value a <=? f32_value b)).
Proof.
  intros Ha Hb zero sa sb. unfold zero. rewrite doubled_or by done.
  destruct (f32_split a Ha) as [Ea _], (f32_split b Hb) as [Eb _].
  destruct (f32_mag_order a b Ha Hb) as (O1 & O2 & O3 & O4).
  destruct (f32_mag_order b a Hb Ha) as (P1 & _ & P3 & P4).
  pose proof (Z.mod_pos_bound a (2 ^ 31) ltac:(lia)) as Hx.
  pose proof (Z.mod_pos_bound b (2 ^ 31) ltac:(lia)) as Hy.
  unfold f32_value, signed. fold sa sb in Ea, Eb |- *.
  set (x := a mod 2 ^ 31) in *. set (y := b mod 2 ^ 31) in *.
  set (ma := f32_mag a) in *. set (mb := f32_mag b) in *.
  clearbody x y ma mb sa sb. subst a b.
  destruct sa, sb; cbn [Bool.eqb negb b2z andb orb xorb];
    destruct (Z.lt_trichotomy x y) as [Hxy|[Hxy|Hxy]], (Z.eq_dec x 0), (Z.eq_dec y 0);
    try lia; split_and!; cmp_cases; done.
Qed.

Lemma mag_bits_zero e f :
  0 <= e < 2 ^ 8 -> 0 <= f -> (u64 e .| f =? 0) = (e =? 0) && (f =? 0).
Proof.
  intros. rewrite (wrap_small 64) by lia.
  destruct (Z.eqb_spec e 0), (Z.eqb_spec f 0); cbn [andb]; apply Z.eqb_eq || apply Z.eqb_neq;
    rewrite Z.lor_eq_0_iff; tauto.
Qed.

Lemma propagateNaNF32 a b fl :
  (let '(uiZ, fl) := softfloat_propagateNaNF32UI a b fl in (u32 uiZ, fl))
  = (defaultNaNF32UI,
     if softfloat_isSigNaNF32UI a || softfloat_isSigNaNF32UI b then fl .| softfloat_flag_invalid else fl).
Proof. reflexivity. Qed.

Lemma z2b_negb x : z2b x = negb (x =? 0).
Proof. by unfold z2b; destruct x. Qed.

Lemma f32_pack_inf (sg : bool) (fl : Z) : (u32 (packToF32UI sg 0xff 0), fl) = (f32_inf sg, fl).
Proof. by destruct sg. Qed.

Lemma f32_pack_zero (sg : bool) (fl : Z) : (u32 (packToF32UI sg 0 0), fl) = (b2z sg * 2 ^ 31, fl).
Proof. by destruct sg. Qed.

(** The operands [f32_mul] treats before the general case. *)
Lemma f32_mul_special rm a b fl :
  0 <= a < 2 ^ 32 -> 0 <= b < 2 ^ 32 -> 
  expF32UI a = 0xff \/ expF32UI b = 0xff \/ f32_is_zero a = true \/ f32_is_zero b = true ->
  f32_mul rm a b fl = f32_product rm a b fl.
Proof.
  intros Ha Hb Hs. unfold f32_product. rewrite !isNaNF32_eq by done.
  destruct (f32_field_ranges a Ha) as [Hfa Hea], (f32_field_ranges b Hb) as [Hfb Heb].
  revert Hs. unfold f32_mul, f32_is_inf, f32_is_zero. cbv zeta.
  rewrite !propagateNaNF32, !z2b_negb, !mag_bits_zero by lia.
  set (sg := xorb _ _). clearbody sg.
  set (ea := expF32UI a) in *. set (fa := fracF32UI a) in *.
  set (eb := expF32UI b) in *. set (fb := fracF32UI b) in *.
  set (nan := (defaultNaNF32UI, _)). clearbody ea eb fa fb nan.
  intros Hs.
  destruct (Z.eqb_spec ea 0xff) as [->|], (Z.eqb_spec eb 0xff) as [->|],
    (Z.eqb_spec fa 0) as [->|], (Z.eqb_spec fb 0) as [->|]; cbn [andb orb negb Z.eqb] in *;
    rewrite ?andb_false_r, ?andb_true_r in *; cbn [orb]; try done;
    rewrite ?f32_pack_inf, ?f32_pack_zero; try done;
    try destruct (Z.eqb_spec ea 0) as [->|]; try destruct (Z.eqb_spec eb 0) as [->|];
    cbn [andb orb Z.eqb] in *; try done; rewrite ?f32_pack_inf; done || (exfalso; lia).
Qed.

Lemma isSigNaNF32_nan a : 0 <= a < 2 ^ 32 -> softfloat_isSigNaNF32UI a = true -> isNaNF32UI a = true.
Proof.
  intros Ha. rewrite isNaNF32_eq, expF32_eq, fracF32_eq by lia. unfold softfloat_isSigNaNF32UI.
  rewrite z2b_negb, !andb_true_iff, !negb_true_iff, !Z.eqb_eq, !Z.eqb_neq.
  change 0x7fc00000 with (2 ^ (22 + 9) - 2 ^ 22). rewrite land_field by lia.
  change 0x003fffff with (2 ^ 22 - 1). rewrite land_low by lia. intros [He Hf].
  assert (a / 2 ^ 22 mod 2 ^ 9 = 0x1fe) by lia.
  pose proof (Z.div_mod a (2 ^ 22)). pose proof (Z.div_mod (a / 2 ^ 22) (2 ^ 9)).
  pose proof (Z.mod_pos_bound a (2 ^ 22)). pose proof (Z.div_pos a (2 ^ 22)).
  pose proof (Z.div_pos (a / 2 ^ 22) (2 ^ 9)). set (h := a / 2 ^ 22 / 2 ^ 9) in *.
  assert (a = (h * 2 ^ 8 + 0xff) * 2 ^ 23 + a mod 2 ^ 22) as Ea by lia.
  rewrite <- (Z.div_unique a (2 ^ 23) (h * 2 ^ 8 + 0xff) (a mod 2 ^ 22)) by lia.
  rewrite <- (Z.mod_unique a (2 ^ 23) (h * 2 ^ 8 + 0xff) (a mod 2 ^ 22)) by lia.
  split; [|done]. symmetry. apply Z.mod_unique_pos with h; lia.
Qed.

Lemma sig_nan_nan a b :
  0 <= a < 2 ^ 32 -> 0 <= b < 2 ^ 32 -> isNaNF32UI a || isNaNF32UI b = false ->
  softfloat_isSigNaNF32UI a || softfloat_isSigNaNF32UI b = false.
Proof.
  intros Ha Hb [HA HB]%orb_false_iff. apply orb_false_iff. split; apply not_true_iff_false.
  - intros ?%isSigNaNF32_nan; congruence.
  - intros ?%isSigNaNF32_nan; congruence.
Qed.

(** The words the finite case leaves out of the round trip. *)
Lemma f32_inf_roundtrip rm a fl :
  0 <= a < 2 ^ 32 -> isNaNF32UI a = false -> expF32UI a = 0xff ->
  let '(r, fl') := f32_to_f64 a fl in f64_to_f32 rm r fl' = (a, fl).
Proof.
  intros Ha Hn He. rewrite isNaNF32_eq, He in Hn by done. apply negb_false_iff, Z.eqb_eq in Hn.
  assert (a = f32_inf (signF32UI a)) as ->.
  { pose proof (f32_fields a Ha) as Ea. rewrite He, Hn in Ea. unfold f32_inf. lia. }
  by destruct (signF32UI a).
Qed.

Lemma f32_zero_roundtrip rm a fl :
  0 <= a < 2 ^ 32 -> f32_mag a = 0 ->
  let '(r, fl') := f32_to_f64 a fl in f64_to_f32 rm r fl' = (a, fl).
Proof.
  intros Ha Hm. destruct (f32_split a Ha) as [Ea _].
  pose proof (f32_mag_order a a Ha Ha) as (_ & _ & _ & H1).
  pose proof (Z.mod_pos_bound a (2 ^ 31)). replace (a mod 2 ^ 31) with 0 in Ea by lia.
  rewrite Ea. by destruct (signF32UI a).
Qed.

(** * The operations *)

(** C7. [f32_mul] is IEEE 754 multiplication: for all operands, subnormal,
    infinite and NaN ones included, and in every rounding mode it gives the
    rounded product and the flags of the standard. *)
Theorem f32_mul_correct rm a b fl :
  0 <= a < 2 ^ 32 -> 0 <= b < 2 ^ 32 -> rounding_mode rm ->
  f32_mul rm a b fl = f32_product rm a b fl.
Proof.
  intros Ha Hb Hrm.
  destruct (Z.eqb_spec (expF32UI a) 0xff) as [|Hea], (Z.eqb_spec (expF32UI b) 0xff) as [|Heb],
    (f32_is_zero a) eqn:Hza, (f32_is_zero b) eqn:Hzb; try (apply f32_mul_special; tauto).
  rewrite f32_mul_finite by done. unfold f32_product, f32_is_inf. rewrite !isNaNF32_eq by done.
  replace (expF32UI a =? 0xff) with false by lia. replace (expF32UI b =? 0xff) with false by lia.
  by rewrite Hza, Hzb.
Qed.

Lemma f32_mul_correct_witness :
  (0 <= 0x40400000 < 2 ^ 32 /\ 0 <= 0x00000003 < 2 ^ 32 /\ rounding_mode 0) /\
  f32_mul 0 0x40400000 0x00000003 0 = f32_product 0 0x40400000 0x00000003 0 /\
  f32_mul 0 0x40400000 0x00000003 0 = (9, 0) /\
  f32_mul 0 0x7f000000 0x7f000000 0 = (0x7f800000, softfloat_flag_overflow .| softfloat_flag_inexact).
Proof.
  split; [unfold rounding_mode; lia|].
  split; [apply f32_mul_correct; unfold rounding_mode; lia|].
  split; vm_compute; reflexivity.
Defined.

(** The 32-bit integer IEEE 754 and the RISC-V tables prescribe for a double:
    rounded in the given mode, clamped, with NaNs and infinities invalid. *)
Definition f64_integer (lo hi : Z) (a rm : Z) (exact : bool) (fl : Z) : Z * Z :=
  let sign := signF64UI a in
  if expF64UI a =? 0x7ff
  then (if sign && negb (isNaNF64UI a) then lo else hi, fl .| softfloat_flag_invalid)
  else to_int_spec lo hi (signed sign (rounded rm sign (f64_mag a) 1074))
         (exact && lossy (f64_mag a) 1074) fl.

(** C11. [f64_to_i32] rounds every double to the nearest integer in the given
    mode, raises inexact only when bits were lost, and clamps with the invalid
    flag what does not fit; NaNs and infinities become the bounds. *)
Theorem f64_to_i32_correct a rm exact fl :
  0 <= a < 2 ^ 64 -> ieee_mode rm ->
  f64_to_i32 a rm exact fl = f64_integer (- 2 ^ 31) (2 ^ 31 - 1) a rm exact fl.
Proof.
  intros Ha Hrm. unfold f64_integer. destruct (Z.eqb_spec (expF64UI a) 0x7ff).
  - by rewrite f64_to_i32_special, andb_comm by done.
  - by apply f64_to_i32_finite.
Qed.

Lemma f64_to_i32_correct_witness :
  (0 <= 0xc004000000000000 < 2 ^ 64 /\ ieee_mode 2) /\
  f64_to_i32 0xc004000000000000 2 true 0
    = f64_integer (- 2 ^ 31) (2 ^ 31 - 1) 0xc004000000000000 2 true 0 /\
  f64_to_i32 0xc004000000000000 2 true 0 = (-3, softfloat_flag_inexact).
Proof.
  split; [unfold ieee_mode; lia|].
  split; [apply f64_to_i32_correct; unfold ieee_mode; lia|vm_compute; reflexivity].
Defined.

(** Conversions that lose nothing come back: a 32-bit integer through a
    double in any rounding mode, and a single other than a NaN through a
    double, with no flag raised. *)
Theorem widening_roundtrip rm exact fl :
  (forall x, - 2 ^ 31 <= x < 2 ^ 31 -> ieee_mode rm -> f64_to_i32 (i32_to_f64 x) rm exact fl = (x, fl)) /\
  (forall a, 0 <= a < 2 ^ 32 -> isNaNF32UI a = false -> rounding_mode rm ->
     let '(r, fl') := f32_to_f64 a fl in f64_to_f32 rm r fl' = (a, fl)).
Proof.
  split.
  - intros x Hx Hrm. destruct (i32_to_f64_exact x Hx) as (Ha & He & Hs & Hm).
    rewrite f64_to_i32_finite, Hs, Hm by (done || lia).
    unfold lossy. rewrite rounded_scale by lia. replace (1074 - 1074) with 0 by lia.
    unfold rounded, to_int_spec, signed. rewrite Z.mod_mul by lia. cbn [Z.leb Z.compare Z.opp].
    assert ((if x <? 0 then - (Z.abs x * 2 ^ (- 0)) else Z.abs x * 2 ^ (- 0)) = x) as ->
      by (change (2 ^ (- 0)) with 1; cmp_cases; lia).
    change (negb (0 =? 0)) with false. rewrite !andb_false_r. by cmp_cases; try lia.
  - intros a Ha Hn Hrm. destruct (Z.eq_dec (expF32UI a) 0xff) as [He|He].
    + by apply f32_inf_roundtrip.
    + destruct (Z.eq_dec (f32_mag a) 0) as [Hm|Hm]; [by apply f32_zero_roundtrip|].
      destruct (f32_to_f64_finite a fl Ha He) as (Hfl & Hr & Her & Hs & Hmr).
      destruct (f32_to_f64 a fl) as [r fl']. cbn [fst snd] in *. subst fl'.
      assert (0 < f32_mag a) by (pose proof (f32_mag_order a a Ha Ha) as (_ & _ & H0 & H1);
        pose proof (Z.mod_pos_bound a (2 ^ 31)); lia).
      rewrite f64_to_f32_finite, Hs, Hmr, f32_round_scale by (done || lia).
      by apply (f32_round_exact rm a fl Ha He Hm).
Qed.

Lemma widening_roundtrip_witness :
  (- 2 ^ 31 <= -7 < 2 ^ 31 /\ ieee_mode 1 /\ f64_to_i32 (i32_to_f64 (-7)) 1 true 0 = (-7, 0)) /\
  (isNaNF32UI 0x00000001 = false /\ f32_to_f64 0x00000001 0 = (0x36a0000000000000, 0) /\
   let '(r, fl') := f32_to_f64 0x00000001 0 in f64_to_f32 4 r fl' = (0x00000001, 0)).
Proof.
  split.
  - do 2 (split; [unfold ieee_mode; lia|]). apply (proj1 (widening_roundtrip 1 true 0) (-7)); unfold ieee_mode; lia.
  - do 2 (split; [reflexivity|]). apply (proj2 (widening_roundtrip 4 true 0) 1);
    [lia|reflexivity|unfold rounding_mode; lia].
Defined.

(** C12. The comparisons decide the order of the numbers the words stand for
    (infinities as the largest ones, both zeros equal); with a NaN they answer
    false, and raise invalid for [f32_lt] and [f32_le], for a signaling NaN
    only in the quiet ones. *)
Theorem f32_comparisons a b fl :
  0 <= a < 2 ^ 32 -> 0 <= b < 2 ^ 32 ->
  let nan := isNaNF32UI a || isNaNF32UI b in
  let signaling := if nan then fl .| softfloat_flag_invalid else fl in
  let quiet := if softfloat_isSigNaNF32UI a || softfloat_isSigNaNF32UI b
               then fl .| softfloat_flag_invalid else fl in
  f32_eq a b fl = (negb nan && (f32_value a =? f32_value b), quiet) /\
  f32_lt a b fl = (negb nan && (f32_value a <? f32_value b), signaling) /\
  f32_le a b fl = (negb nan && (f32_value a <=? f32_value b), signaling) /\
  f32_lt_quiet a b fl = (negb nan && (f32_value a <? f32_value b), quiet) /\
  f32_le_quiet a b fl = (negb nan && (f32_value a <=? f32_value b), quiet).
Proof.
  intros Ha Hb nan signaling quiet. subst signaling quiet.
  destruct (f32_compare a b Ha Hb) as (Heq & Hlt & Hle).
  pose proof (sig_nan_nan a b Ha Hb) as Hsig. fold nan in Hsig.
  unfold f32_eq, f32_lt, f32_le, f32_lt_quiet, f32_le_quiet. cbv zeta. fold nan.
  rewrite Heq, Hlt, Hle. destruct nan; [done|]. by rewrite Hsig.
Qed.

Lemma f32_comparisons_witness :
  (0 <= 0x80000000 < 2 ^ 32 /\ 0 <= 0x00000001 < 2 ^ 32) /\
  f32_lt 0x80000000 0x00000001 0 = (true, 0) /\ f32_eq 0x80000000 0 0 = (true, 0) /\
  f32_lt_quiet 0x80000000 0x00000001 0
    = (negb (isNaNF32UI 0x80000000 || isNaNF32UI 0x00000001)
         && (f32_value 0x80000000 <? f32_value 0x00000001), 0).
Proof.
  split; [lia|]. do 2 (split; [reflexivity|]).
  refine (proj1 (proj2 (proj2 (proj2 (f32_comparisons 0x80000000 0x00000001 0 _ _))))); lia.
Defined.
