(* ===== verification/HartFacts.v ===== *)
(** Lemmas on the vocabulary the components share: bit fields, the stored CSR
    values, and running the monad. *)

From S2P Require Import Prelude IntArith Decode Encoding IsaExt Trap Hart Pmp Csr CsrFile.

(** * Fields

    A field mask is [w] ones from bit [l] on. *)

Definition is_field (mask w l : Z) : Prop := mask = Z.shiftl (Z.ones w) l /\ 0 <= l /\ 0 < w /\ l + w <= 64.

Lemma tb_opt c x i : Z.testbit (opt c x) i = c && Z.testbit x i.
Proof. unfold opt. destruct c; [done|apply Z.bits_0]. Qed.
#[export] Hint Rewrite tb_opt : zbits.

Lemma field_bit mask w l i : is_field mask w l -> 0 <= i -> Z.testbit mask i = (l <=? i) && (i <? l + w).
Proof.
  intros (-> & Hl & Hw & _) Hi. rewrite tb_shiftl by lia.
  destruct (Z.leb_spec l i).
  - rewrite tb_ones by lia. by cmp_cases.
  - by rewrite tb_neg by lia.
Qed.

Lemma field_lsb_eq mask w l : is_field mask w l -> field_lsb mask = 2 ^ l.
Proof.
  intros Hf. pose proof Hf as (_ & Hl & Hw & _). unfold field_lsb.
  apply Z.bits_inj'. intros i Hi. rewrite Z.ldiff_spec, tb_shiftl, Z.pow2_bits_eqb by lia.
  rewrite (field_bit mask w l) by done.
  destruct (Z.eq_dec i 0) as [->|].
  - rewrite (tb_neg mask (0 - 1)) by lia. by cmp_cases.
  - rewrite (field_bit mask w l) by (done || lia). by cmp_cases.
Qed.

Lemma get_field_bit reg mask w l i :
  is_field mask w l -> 0 <= i -> Z.testbit (get_field reg mask) i = (i <? w) && Z.testbit reg (i + l).
Proof.
  intros Hf Hi. pose proof Hf as (_ & Hl & Hw & _).
  unfold get_field. rewrite (field_lsb_eq mask w l Hf), Z.div_pow2_bits, Z.land_spec by lia.
  rewrite (field_bit mask w l) by (done || lia). cmp_cases; btauto.
Qed.

Lemma set_field_spec reg mask w l v i :
  is_field mask w l -> 0 <= i ->
  Z.testbit (set_field reg mask v) i =
  if (l <=? i) && (i <? l + w) then Z.testbit v (i - l) else Z.testbit reg i.
Proof.
  intros Hf Hi. pose proof Hf as (_ & Hl & Hw & Hh).
  unfold set_field. rewrite (field_lsb_eq mask w l Hf), <- Z.shiftl_mul_pow2 by lia.
  rewrite Z.lor_spec, Z.ldiff_spec, Z.land_spec, tb_wrap, tb_shiftl, (field_bit mask w l) by (done || lia).
  cmp_cases; btauto.
Qed.

Lemma set_field_bit reg mask val i :
  0 <= i -> Z.testbit mask i = false -> Z.testbit (set_field reg mask val) i = Z.testbit reg i.
Proof.
  intros Hi Hm. unfold set_field. autorewrite with zbits. rewrite Hm. btauto.
Qed.

Lemma get_set_field reg mask w l v :
  is_field mask w l -> 0 <= v < 2 ^ w -> get_field (set_field reg mask v) mask = v.
Proof.
  intros Hf Hv. pose proof Hf as (_ & Hl & Hw & Hh).
  apply Z.bits_inj'. intros i Hi.
  rewrite (get_field_bit _ mask w l), (set_field_spec _ mask w l) by (done || lia).
  destruct (Z.ltb_spec i w).
  - replace ((l <=? i + l) && (i + l <? l + w)) with true by lia. by rewrite Z.add_simpl_r.
  - by rewrite (tb_high w v i) by lia.
Qed.

Lemma get_field_ext x y mask :
  x .& mask = y .& mask -> get_field x mask = get_field y mask.
Proof. unfold get_field. by intros ->. Qed.

Lemma get_set_other reg m1 m2 v : m1 .& m2 = 0 -> get_field (set_field reg m1 v) m2 = get_field reg m2.
Proof.
  intros Hd. apply get_field_ext, Z.bits_inj'. intros i Hi. rewrite !Z.land_spec.
  destruct (Z.testbit m2 i) eqn:E; [|by rewrite !andb_false_r].
  rewrite set_field_bit; [done|done|].
  apply (f_equal (fun z => Z.testbit z i)) in Hd. revert Hd. by rewrite Z.land_spec, Z.bits_0, E, andb_true_r.
Qed.

Lemma get_field_range reg mask w l : is_field mask w l -> 0 <= get_field reg mask < 2 ^ w.
Proof.
  intros Hf. pose proof Hf as (_ & Hl & Hw & _).
  assert (get_field reg mask = wrap w (get_field reg mask)) as ->; [|by apply wrap_range; lia].
  apply Z.bits_inj'. intros i Hi. rewrite tb_wrap, (get_field_bit _ mask w l) by (done || lia). btauto.
Qed.

(** A one-bit field is the bit. *)
Lemma get_field_1 reg l : 0 <= l < 64 -> get_field reg (2 ^ l) = b2z (Z.testbit reg l).
Proof.
  intros Hl. assert (is_field (2 ^ l) 1 l) as Hf.
  { split; [|lia]. change (Z.ones 1) with 1. rewrite Z.shiftl_mul_pow2 by lia. lia. }
  apply Z.bits_inj'. intros i Hi. rewrite (get_field_bit _ _ 1 l) by done.
  destruct (Z.ltb_spec i 1).
  - replace i with 0 by lia. rewrite Z.add_0_l. by destruct (Z.testbit reg l).
  - destruct (Z.testbit reg l); cbn [b2z andb]; [|by rewrite Z.bits_0].
    by rewrite (tb_high 1 1) by lia.
Qed.

Lemma z2b_b2z b : z2b (b2z b) = b.
Proof. by destruct b. Qed.

(** * Stored CSR values *)

Section hart.
Context `{cfg : !config, sim : !simif, trg : !trigger_module}.

Lemma csr_raw_set_eq a x h : csr_raw (set_csr_raw a x h) a = x.
Proof. unfold csr_raw, set_csr_raw. cbn [csr_val set_csr_val]. by rewrite lookup_insert_eq. Qed.

Lemma csr_raw_set_ne a b x h : a <> b -> csr_raw (set_csr_raw a x h) b = csr_raw h b.
Proof. intros. unfold csr_raw, set_csr_raw. cbn [csr_val set_csr_val]. by rewrite lookup_insert_ne. Qed.

(** Extensions depend on [misa] and the table only. *)
Lemma extension_enabled_ext h1 h2 e :
  csr_raw h1 CSR_MISA = csr_raw h2 CSR_MISA -> extension_enable_table h1 = extension_enable_table h2 ->
  extension_enabled h1 e = extension_enabled h2 e.
Proof. unfold extension_enabled, misa_extension_enabled. by intros -> ->. Qed.

Lemma legalize_ext h1 h2 p :
  csr_raw h1 CSR_MISA = csr_raw h2 CSR_MISA -> extension_enable_table h1 = extension_enable_table h2 ->
  legalize_privilege h1 p = legalize_privilege h2 p.
Proof.
  intros H1 H2. unfold legalize_privilege.
  by rewrite (extension_enabled_ext h1 h2 ext_U), (extension_enabled_ext h1 h2 ext_S).
Qed.

(** Running a sequence whose first part returns. *)
Lemma bind_val {A B} (m : M A) (k : A -> M B) h a h' : m h = (Val a, h') -> bind m k h = k a h'.
Proof. unfold bind. by intros ->. Qed.

Lemma run_fst {A} (m : M A) h o : fst (m h) = o -> m h = (o, snd (m h)).
Proof. intros <-. apply surjective_pairing. Qed.

Lemma bind_modify {B} (f : hart -> hart) (k : unit -> M B) h : bind (modify f) k h = k tt (f h).
Proof. reflexivity. Qed.

Lemma bind_get_hart {B} (k : hart -> M B) h : bind get_hart k h = k h h.
Proof. reflexivity. Qed.

Lemma bind_gets {A B} (f : hart -> A) (k : A -> M B) h : bind (gets f) k h = k (f h) h.
Proof. reflexivity. Qed.

Lemma bind_ret {A B} (a : A) (k : A -> M B) h : bind (ret a) k h = k a h.
Proof. reflexivity. Qed.

Lemma bind_assoc {A B C} (m : M A) (f : A -> M B) (g : B -> M C) h :
  bind (bind m f) g h = bind m (fun a => bind (f a) g) h.
Proof. unfold bind. by destruct (m h) as [[a|e] h']. Qed.

Lemma bind_when {B} (b : bool) (m : M unit) (k : unit -> M B) h :
  bind (when b m) k h = if b then bind m k h else k tt h.
Proof. by destruct b. Qed.

Lemma bind_assert {B} (b : bool) (k : unit -> M B) h :
  bind (assert b) k h = if b then k tt h else (Exc Abort, h).
Proof. by destruct b. Qed.

End hart.

#[export] Hint Rewrite @bind_modify @bind_get_hart @bind_gets @bind_ret @bind_assoc @bind_when @bind_assert : run.

#[export] Hint Rewrite @csr_raw_set_eq : hart.
#[export] Hint Rewrite @csr_raw_set_ne using (vm_compute; discriminate) : hart.

(** Reading a CSR value under an update of another part of the hart. *)
Ltac csr_frame :=
  repeat match goal with
  | |- context [csr_raw (?f ?x ?h) ?a] =>
      lazymatch f with
      | set_csr_raw _ => fail
      | set_csr_val => fail
      | _ => change (csr_raw (f x h) a) with (csr_raw h a)
      end
  | |- context [csr_raw (flush_tlb ?h) ?a] => change (csr_raw (flush_tlb h) a) with (csr_raw h a)
  end.
Ltac csr_simpl := repeat progress (csr_frame; autorewrite with hart).
