(* ===== verification/TriggerFacts.v ===== *)
(** Facts on the trigger module: debug mode's triggers are safe from the hart,
    chains fire as a whole, and instruction counters count. *)

From S2P Require Import Prelude IntArith Decode Encoding IsaExt Trap Hart Pmp Triggers HartFacts.

Section triggers.
Context `{cfg : !config}.

(** * Debug mode's triggers *)

(** A write of one of the three registers of trigger [i]. *)
Inductive trigger_op : Type := Tdata1 (i val : Z) | Tdata2 (i val : Z) | Tdata3 (i val : Z).
Definition run_trigger_op (env : trigger_env) (s : module_t) (o : trigger_op) : module_t :=
  snd match o with
      | Tdata1 i v => module_tdata1_write env s i v
      | Tdata2 i v => module_tdata2_write env s i v
      | Tdata3 i v => module_tdata3_write env s i v
      end.

Lemma flag_cleared val w l : is_field w 1 l -> flag (set_field val w 0) w = false.
Proof. intros H. unfold flag. by rewrite (get_set_field _ _ 1 l). Qed.

Lemma dmode_field w : w = 32 \/ w = 64 -> is_field (CSR_TDATA1_DMODE w) 1 (w - 5).
Proof. intros [-> | ->]; split; try reflexivity; lia. Qed.

(** Outside debug mode no new trigger belongs to it. *)
Lemma new_trigger_dmode env type val chain :
  xlen = 32 \/ xlen = 64 -> te_debug_mode env = false ->
  get_dmode (tdata1_new_trigger env type (set_field val (CSR_TDATA1_DMODE xlen) 0) chain) = false.
Proof.
  intros Hx Hd. pose proof (flag_cleared val _ _ (dmode_field xlen Hx)) as Hf.
  unfold tdata1_new_trigger. repeat case_match; cbn; rewrite ?Hd; try exact Hf; reflexivity.
Qed.

Lemma get_dmode_tdata2 v t : get_dmode (tdata2_write_trigger v t) = get_dmode t.
Proof. reflexivity. Qed.
Lemma get_dmode_tdata3 env v t : get_dmode (tdata3_write_trigger env v t) = get_dmode t.
Proof. reflexivity. Qed.

Lemma update_trigger_spec s i j t :
  0 <= i -> 0 <= j < trigger_total s ->
  trigger_at (update_trigger s i t) j = if i =? j then t else trigger_at s j.
Proof.
  intros Hi Hj. unfold trigger_at, update_trigger, trigger_total in *.
  rewrite !nth_lookup. destruct (Z.eqb_spec i j) as [->|Hne].
  - by rewrite list_lookup_insert_eq by lia.
  - by rewrite list_lookup_insert_ne by lia.
Qed.

Lemma update_trigger_total s i t : trigger_total (update_trigger s i t) = trigger_total s.
Proof. unfold trigger_total, update_trigger. by rewrite length_insert. Qed.

Definition op_index (o : trigger_op) : Z := match o with Tdata1 i _ | Tdata2 i _ | Tdata3 i _ => i end.

(** One write outside debug mode: nothing, or a new trigger without [dmode] in
    place of one without [dmode]. *)
Lemma run_trigger_op_user env s o :
  xlen = 32 \/ xlen = 64 -> te_debug_mode env = false ->
  run_trigger_op env s o = s \/
  exists t, run_trigger_op env s o = update_trigger s (op_index o) t /\
    get_dmode t = false /\ get_dmode (trigger_at s (op_index o)) = false.
Proof.
  intros Hx Hd. destruct o as [i v|i v|i v]; cbn [op_index];
    unfold run_trigger_op, module_tdata1_write, module_tdata2_write, module_tdata3_write, write_refused; rewrite Hd, andb_true_r;
    destruct (get_dmode (trigger_at s i)) eqn:E; try (by left).
  - cbv zeta. case_match; [by left|]. right. eexists. split; [reflexivity|].
    rewrite get_dmode_tdata3, get_dmode_tdata2. by rewrite new_trigger_dmode.
  - right. eexists. split; [reflexivity|]. by rewrite get_dmode_tdata2.
  - right. eexists. split; [reflexivity|]. by rewrite get_dmode_tdata3.
Qed.

(** C36.  The debugger's triggers are safe.  Outside debug mode, no sequence of
    writes to the trigger registers makes or unmakes a trigger of debug mode,
    or changes one. *)
Theorem debug_triggers_safe env s ops :
  xlen = 32 \/ xlen = 64 -> te_debug_mode env = false -> Forall (fun o => 0 <= op_index o) ops ->
  let s' := fold_left (run_trigger_op env) ops s in
  trigger_total s' = trigger_total s /\
  forall j, 0 <= j < trigger_total s ->
    get_dmode (trigger_at s' j) = get_dmode (trigger_at s j) /\
    (get_dmode (trigger_at s j) = true -> trigger_at s' j = trigger_at s j).
Proof.
  intros Hx Hd Hops. revert s. induction Hops as [|o ops Hi _ IH]; intros s; [done|]. cbn [fold_left].
  destruct (IH (run_trigger_op env s o)) as [Hl Hk].
  destruct (run_trigger_op_user env s o Hx Hd) as [E|(t & E & Ht & Hold)]; rewrite E in *; [done|].
  rewrite update_trigger_total in *. split; [done|]. intros j Hj. destruct (Hk j Hj) as [H1 H2].
  rewrite update_trigger_spec in H1, H2 by done.
  destruct (Z.eqb_spec (op_index o) j) as [<-|]; [|done]. rewrite H1, Ht, Hold. split; [done|discriminate].
Qed.

(** * Chains *)





(** ** When a trigger matches *)










(** ** The best result *)







(** * Instruction counters *)

(** What one instruction does to a module of one counter: the result, and the
    counter afterwards. *)
Definition icount_at (c : icount_t) (t : trigger_t) : trigger_t := with_icount c t.

Lemma common_match_icount env c c' t :
  ic_action c = ic_action c' -> common_match env false (icount_at c t) = common_match env false (icount_at c' t).
Proof. intros H. unfold common_match, get_action, textra_match. cbn. by rewrite H. Qed.

Lemma fire_at env c t : common_match env false (icount_at c t) = true ->
  detect_icount_fire env (icount_at c t) =
  (if ic_pending c then Some (mk_match_result TIMING_BEFORE (ic_action c)) else None,
   icount_at (mk_icount (ic_dmode c) (ic_pending c || ic_hit c) (ic_count c) (ic_count_read_value c)
                false (ic_pending_read_value c) (ic_action c)) t).
Proof.
  intros Hm. unfold detect_icount_fire. rewrite Hm. cbn [negb tr_class icount_at with_icount with_class].
  destruct c as [d hit n rv p pr a]; cbn. by destruct p.
Qed.

Lemma decrement_at env c t : common_match env false (icount_at c t) = true -> 0 <= ic_count c ->
  detect_icount_decrement env (icount_at c t) =
  icount_at (mk_icount (ic_dmode c) (ic_hit c) (Z.max 0 (ic_count c - 1)) (ic_count_read_value c)
               ((ic_count c =? 1) || ic_pending c) (ic_pending_read_value c) (ic_action c)) t.
Proof.
  intros Hm Hc. unfold detect_icount_decrement. rewrite Hm. cbn [negb tr_class icount_at with_icount with_class].
  destruct c as [d hit n rv p pr a]; cbn in *. destruct (Z.leb_spec 1 n).
  - rewrite Z.max_r by lia. destruct (n =? 1); reflexivity.
  - replace n with 0 by lia. reflexivity.
Qed.

(** The other triggers of the module, none a counter, take no part. *)
Definition not_counter (t : trigger_t) : Prop := forall c, tr_class t <> icount_trigger_t c.

Lemma bystanders env ret l : Forall not_counter l ->
  map stash_read_values l = l /\ best_match (detect_icount_fire env) ret l = (ret, l) /\
  map (detect_icount_decrement env) l = l.
Proof.
  induction 1 as [|t l Ht _ (IH1 & IH2 & IH3)]; [done|]. cbn [map best_match].
  unfold stash_read_values at 1, detect_icount_fire at 1, detect_icount_decrement at 1.
  destruct (tr_class t) eqn:E; try (by rewrite IH1, IH3; cbn [better]; rewrite IH2). by destruct (Ht c).
Qed.

Lemma best_match_app f ret l1 l2 :
  best_match f ret (l1 ++ l2) =
  let '(r, s1) := best_match f ret l1 in let '(r, s2) := best_match f r l2 in (r, s1 ++ s2).
Proof.
  revert ret. induction l1 as [|t l1 IH]; intros ret; cbn [app best_match]; [by destruct (best_match f ret l2)|].
  destruct (f t) as [result t']. rewrite IH. destruct (best_match f (better ret result) l1) as [r s1].
  by destruct (best_match f r l2).
Qed.

(** One instruction that the counter watches. *)
Lemma icount_step env l1 c t l2 :
  te_debug_mode env = false -> Forall not_counter l1 -> Forall not_counter l2 ->
  common_match env false (icount_at c t) = true ->
  (ic_pending c = true -> ic_count c = 0) -> 0 <= ic_count c ->
  module_icount_match env (l1 ++ icount_at c t :: l2) =
    (if ic_pending c then Some (mk_match_result TIMING_BEFORE (ic_action c)) else None,
     l1 ++ icount_at (mk_icount (ic_dmode c) (ic_pending c || ic_hit c) (Z.max 0 (ic_count c - 1)) (ic_count c)
                   (ic_count c =? 1) (ic_pending c) (ic_action c)) t :: l2).
Proof.
  intros Hd Hl1 Hl2 Hm Hp Hc. unfold module_icount_match. rewrite Hd.
  set (c1 := mk_icount (ic_dmode c) (ic_hit c) (ic_count c) (ic_count c) (ic_pending c) (ic_pending c) (ic_action c)).
  set (fire := if ic_pending c then Some (mk_match_result TIMING_BEFORE (ic_action c)) else None).
  set (c2 := mk_icount (ic_dmode c) (ic_pending c || ic_hit c) (ic_count c) (ic_count c) false (ic_pending c) (ic_action c)).
  destruct (bystanders env None l1 Hl1) as (S1 & F1 & D1). destruct (bystanders env fire l2 Hl2) as (S2 & F2 & D2).
  assert (E : map stash_read_values (l1 ++ icount_at c t :: l2) = l1 ++ icount_at c1 t :: l2)
    by (by rewrite map_app; cbn [map]; rewrite S1, S2).
  assert (Ef : best_match (detect_icount_fire env) None (l1 ++ icount_at c1 t :: l2) = (fire, l1 ++ icount_at c2 t :: l2)).
  { rewrite best_match_app, F1. cbn [best_match]. rewrite fire_at by (by rewrite <- (common_match_icount _ c c1)).
    replace (better None _) with fire by (unfold fire; by destruct (ic_pending c)). by rewrite F2. }
  rewrite E, Ef. f_equal. rewrite (common_match_icount _ c c2) in Hm by done.
  assert (Ed : map (detect_icount_decrement env) (l1 ++ icount_at c2 t :: l2) =
    l1 ++ icount_at (mk_icount (ic_dmode c) (ic_pending c || ic_hit c) (Z.max 0 (ic_count c - 1)) (ic_count c)
                   (ic_count c =? 1) (ic_pending c) (ic_action c)) t :: l2).
  { rewrite map_app. cbn [map]. rewrite D1, D2, decrement_at by done. do 3 f_equal. cbn. by rewrite orb_false_r. }
  rewrite Ed. destruct (match fire with Some r => _ | None => _ end) eqn:Eb; [|done].
  unfold fire in Eb. destruct (ic_pending c) eqn:Epc; [|done]. unfold c2. by rewrite Hp.
Qed.

(** What the module answers over [n] instructions. *)
Fixpoint icount_answers (env : trigger_env) (n : nat) (s : module_t) : list (option match_result_t) :=
  match n with
  | O => []
  | S n => let '(r, s) := module_icount_match env s in r :: icount_answers env n s
  end.

Section counter.
Context (env : trigger_env) (l1 l2 : module_t) (t : trigger_t).
Context (Hd : te_debug_mode env = false) (Hl1 : Forall not_counter l1) (Hl2 : Forall not_counter l2).

Lemma icount_silent c m :
  common_match env false (icount_at c t) = true -> ic_count c = 0 -> ic_pending c = false ->
  icount_answers env m (l1 ++ icount_at c t :: l2) = repeat None m.
Proof using Hd Hl1 Hl2.
  revert c. induction m as [|m IH]; intros c Hm Hc Hp; [done|].
  cbn [icount_answers repeat]. rewrite icount_step by (done || lia || congruence). rewrite Hp, Hc. f_equal.
  apply IH; [by rewrite <- (common_match_icount _ c)|done..].
Qed.

(** C40.  An instruction counter fires.  The only counter of a module, of any action, with
    [n > 0] to count, in a mode and a context that it watches, lets exactly [n] instructions
    pass, fires before the next, and is silent afterwards; the other triggers of the
    module, wherever they are, have no part in it. *)
Theorem icount_fires_after c n m :
  common_match env false (icount_at c t) = true -> ic_pending c = false -> ic_count c = Z.of_nat (S n) ->
  icount_answers env (S n + S m) (l1 ++ icount_at c t :: l2) =
  repeat None (S n) ++ [Some (mk_match_result TIMING_BEFORE (ic_action c))] ++ repeat None m.
Proof using Hd Hl1 Hl2.
  revert c. induction n as [|n IH]; intros c Hm Hp Hc.
  - cbn [Nat.add icount_answers]. rewrite icount_step by (done || lia || congruence). rewrite Hp, Hc.
    rewrite icount_step by (done || (cbn; lia) || by rewrite <- (common_match_icount _ c)).
    cbn [ic_pending ic_action ic_count]. change (Z.of_nat 1 =? 1) with true. cbn iota.
    cbn [repeat app]. do 2 f_equal. by apply icount_silent; [by rewrite <- (common_match_icount _ c)|..].
  - cbn [Nat.add icount_answers]. rewrite icount_step by (done || lia || congruence). rewrite Hp, Hc.
    cbn [repeat app]. f_equal.
    replace (Z.of_nat (S (S n)) =? 1) with false by (symmetry; apply Z.eqb_neq; lia).
    apply (IH (mk_icount _ _ _ _ _ _ _)); cbn; try done. lia.
Qed.
End counter.
End triggers.

(** * A machine with two triggers *)

Section witness.
#[local] Instance wcfg : config := {|
  max_xlen := 64; max_isa := 0; isa_extension_table := 0; n_pmp := 0; lg_pmp_granularity := 2;
  cfg_misaligned := false; target_big_endian := false; cfg_VLEN := 0; cfg_ELEN := 0; cfg_zvf := false; cfg_zvd := false; any_custom_extensions := false;
  impl_table := fun _ => false; blocksz := 64; trigger_count := 2; hart_id := 0; seed_value := 0; cfg_slow := false; cfg_log := false |}.

(** User mode, and a debugger halted in it. *)
Definition user_env : trigger_env := mk_trigger_env PRV_U false PRV_U false false (fun _ => true) 0 0 0 0 (fun _ => 0).
Definition halted_env : trigger_env := mk_trigger_env PRV_U false PRV_U false true (fun _ => true) 0 0 0 0 (fun _ => 0).

(** A watchpoint of the debugger on [0x1000], set up from debug mode. *)
Definition watchpoint : Z :=
  Z.shiftl CSR_TDATA1_TYPE_MCONTROL6 60 .| CSR_TDATA1_DMODE 64 .| 0x1000 .| CSR_MCONTROL6_U .| CSR_MCONTROL6_LOAD.
Definition watched : module_t :=
  fold_left (run_trigger_op halted_env) [Tdata1 0 watchpoint; Tdata2 0 0x1000] (new_module 2).

Lemma debug_triggers_safe_witness :
  get_dmode (trigger_at watched 0) = true /\
  trigger_at (fold_left (run_trigger_op user_env) [Tdata1 0 0; Tdata2 0 0; Tdata1 1 watchpoint] watched) 0 = trigger_at watched 0.
Proof.
  assert (Hw : get_dmode (trigger_at watched 0) = true) by (vm_compute; reflexivity). split; [exact Hw|].
  apply (debug_triggers_safe user_env watched [Tdata1 0 0; Tdata2 0 0; Tdata1 1 watchpoint]);
    [by right|reflexivity|repeat constructor; cbn; lia|vm_compute; split; congruence|exact Hw].
Defined.


Definition count3 : icount_t := mk_icount true false 3 3 false false MCONTROL_ACTION_DEBUG_MODE.
Definition count_user : trigger_t := with_modes false false false false true (new_trigger (disabled_trigger_t false)).

(** A counter of the debugger after the two triggers above. *)
Lemma icount_fires_after_witness :
  icount_answers user_env 5 (watched ++ [icount_at count3 count_user]) =
  [None; None; None; Some (mk_match_result TIMING_BEFORE MCONTROL_ACTION_DEBUG_MODE); None].
Proof.
  apply (icount_fires_after user_env watched [] count_user eq_refl) with (n := 2%nat) (m := 1%nat);
    [repeat constructor; intros c; vm_compute; discriminate|constructor|vm_compute; reflexivity|reflexivity|reflexivity].
Defined.
End witness.
