(* ===== verification/DeviceFacts.v ===== *)
(** Facts on the devices: sparse memory is a flat array and survives a
    checkpoint; the bus keeps its devices apart and an access reaches the one
    that owns its bytes; the interrupt controllers and the serial port do what
    their manuals say. *)

From stdpp Require Import sorting.
From S2P Require Import Prelude IntArith Decode Encoding Trap Hart Pmp Devices Clint Plic Uart.

(** * Memory *)

(** The byte at an offset of the device, and the bytes from an offset on. *)
Definition mem_at (m : mem_t) (a : Z) : Z := page_byte m (Z.shiftr a PGSHIFT) (a mod PGSIZE).
Definition mem_range (m : mem_t) (a len : Z) : list Z := map (fun i => mem_at m (a + i)) (zseq len).

(** A store on a flat array of bytes. *)
Definition flat_store (f : Z -> Z) (addr : Z) (bytes : list Z) (a : Z) : Z :=
  if (addr <=? a) && (a <? addr + Z.of_nat (length bytes)) then nth (Z.to_nat (a - addr)) bytes 0 else f a.

Lemma mem_range_split m a n k : 0 <= n -> 0 <= k -> mem_range m a (n + k) = mem_range m a n ++ mem_range m (a + n) k.
Proof.
  intros Hn Hk. unfold mem_range. rewrite zseq_app, map_app, map_map by lia. f_equal.
  apply map_ext. intros i. f_equal. lia.
Qed.

Lemma page_split a : a = PGSIZE * Z.shiftr a PGSHIFT + a mod PGSIZE.
Proof.
  rewrite Z.shiftr_div_pow2 by (unfold PGSHIFT; lia). change (2 ^ PGSHIFT) with PGSIZE.
  apply Z.div_mod. discriminate.
Qed.

Lemma page_of_offset ppn off : 0 <= off < PGSIZE -> Z.shiftr (PGSIZE * ppn + off) PGSHIFT = ppn /\ (PGSIZE * ppn + off) mod PGSIZE = off.
Proof.
  intros H. rewrite Z.shiftr_div_pow2 by (unfold PGSHIFT; lia). change (2 ^ PGSHIFT) with PGSIZE.
  rewrite (Z.mul_comm PGSIZE), (Z.add_comm _ off), Z.div_add, Z_mod_plus_full, Z.div_small, Z.mod_small by done.
  lia.
Qed.

Lemma page_byte_touch m q p o : page_byte (touch_page q m) p o = page_byte m p o.
Proof.
  unfold page_byte, touch_page. destruct (sparse_memory_map m !! q) eqn:E; [done|]. cbn.
  destruct (decide (q = p)) as [->|Hn]; [rewrite lookup_insert_eq, E; done | now rewrite lookup_insert_ne].
Qed.

Lemma page_byte_set m p q o r b :
  page_byte (set_page_byte p o b m) q r = if (q =? p) && (r =? o) then b else page_byte m q r.
Proof.
  unfold page_byte, set_page_byte. cbn. destruct (Z.eqb_spec q p) as [->|Hq].
  - rewrite lookup_insert_eq. cbn. destruct (Z.eqb_spec r o) as [->|Hr]; cbn.
    + now rewrite lookup_insert_eq.
    + now rewrite lookup_insert_ne by congruence.
  - now rewrite lookup_insert_ne by congruence.
Qed.

Lemma page_byte_copy_in bytes : forall p o m q r,
  page_byte (copy_in p o bytes m) q r =
  if (q =? p) && (o <=? r) && (r <? o + Z.of_nat (length bytes)) then nth (Z.to_nat (r - o)) bytes 0 else page_byte m q r.
Proof.
  induction bytes as [|b bytes IH]; intros p o m q r; cbn [copy_in length].
  - destruct (Z.eqb_spec q p), (Z.leb_spec o r), (Z.ltb_spec r (o + Z.of_nat 0)); cbn; try done; lia.
  - rewrite IH, page_byte_set, Nat2Z.inj_succ.
    destruct (Z.eqb_spec q p), (Z.leb_spec (o + 1) r), (Z.leb_spec o r), (Z.eqb_spec r o),
      (Z.ltb_spec r (o + 1 + Z.of_nat (length bytes))), (Z.ltb_spec r (o + Z.succ (Z.of_nat (length bytes))));
      cbn [andb]; try done; try lia; subst.
    + replace (Z.to_nat (r - o)) with (S (Z.to_nat (r - (o + 1)))) by lia. done.
    + replace (Z.to_nat (o - o)) with 0%nat by lia. done.
Qed.

Lemma copy_in_sz bytes : forall p o m, sz (copy_in p o bytes m) = sz m.
Proof. induction bytes as [|b bytes IH]; intros; cbn; [done | now rewrite IH]. Qed.
Lemma touch_page_sz p m : sz (touch_page p m) = sz m.
Proof. unfold touch_page. now destruct (_ !! p). Qed.

Lemma nth_firstn_lt {A} (d : A) n k l : (k < n)%nat -> nth k (firstn n l) d = nth k l d.
Proof. revert k l. induction n as [|n IH]; intros [|k] [|x l] H; cbn; try lia; try done. apply IH. lia. Qed.

Lemma nth_skipn_add {A} (d : A) n k l : nth k (skipn n l) d = nth (n + k) l d.
Proof. revert l. induction n as [|n IH]; intros [|x l]; cbn; try done. now destruct k. Qed.

Lemma mem_at_copy_in m addr bytes a :
  addr mod PGSIZE + Z.of_nat (length bytes) <= PGSIZE ->
  mem_at (copy_in (Z.shiftr addr PGSHIFT) (addr mod PGSIZE) bytes m) a = flat_store (mem_at m) addr bytes a.
Proof.
  intros H. unfold mem_at, flat_store. rewrite page_byte_copy_in.
  pose proof (page_split a) as Ha. pose proof (page_split addr) as Hb.
  pose proof (Z.mod_pos_bound a PGSIZE ltac:(done)). pose proof (Z.mod_pos_bound addr PGSIZE ltac:(done)).
  set (pa := Z.shiftr a PGSHIFT) in *. set (pb := Z.shiftr addr PGSHIFT) in *.
  replace ((pa =? pb) && (addr mod PGSIZE <=? a mod PGSIZE) && (a mod PGSIZE <? addr mod PGSIZE + Z.of_nat (length bytes)))
    with ((addr <=? a) && (a <? addr + Z.of_nat (length bytes))) by
    (apply eq_true_iff_eq; rewrite !andb_true_iff, !Z.eqb_eq, !Z.leb_le, !Z.ltb_lt; change PGSIZE with 4096 in *; lia).
  destruct (_ && _) eqn:E; [|done]. apply andb_true_iff in E as [E1 E2].
  apply Z.leb_le in E1. apply Z.ltb_lt in E2. f_equal. f_equal.
  change PGSIZE with 4096 in *. lia.
Qed.

Lemma mem_at_touch m q a : mem_at (touch_page q m) a = mem_at m a.
Proof. apply page_byte_touch. Qed.

Lemma flat_store_nil f addr a : flat_store f addr [] a = f a.
Proof.
  unfold flat_store. cbn [length].
  destruct (Z.leb_spec addr a), (Z.ltb_spec a (addr + Z.of_nat 0)); done || lia.
Qed.

Lemma flat_store_app f addr b1 b2 a :
  flat_store (flat_store f addr b1) (addr + Z.of_nat (length b1)) b2 a = flat_store f addr (b1 ++ b2) a.
Proof.
  unfold flat_store. rewrite length_app, Nat2Z.inj_add.
  destruct (Z.leb_spec addr a); cbn [andb].
  2: { destruct (Z.leb_spec (addr + Z.of_nat (length b1)) a); [lia | done]. }
  destruct (Z.leb_spec (addr + Z.of_nat (length b1)) a), (Z.ltb_spec a (addr + Z.of_nat (length b1) + Z.of_nat (length b2))),
    (Z.ltb_spec a (addr + (Z.of_nat (length b1) + Z.of_nat (length b2)))),
    (Z.ltb_spec a (addr + Z.of_nat (length b1))); cbn [andb]; try lia; try done.
  - rewrite app_nth2 by lia. f_equal. lia.
  - rewrite app_nth1 by lia. done.
Qed.

(** The step of the two loops: the part of an access within its first page. *)
Lemma chunk addr len : 0 < len -> 0 < Z.min (PGSIZE - addr mod PGSIZE) len <= len.
Proof. pose proof (Z.mod_pos_bound addr PGSIZE ltac:(done)). lia. Qed.

Lemma copy_out_range m addr n :
  0 <= n -> addr mod PGSIZE + n <= PGSIZE -> copy_out m (Z.shiftr addr PGSHIFT) (addr mod PGSIZE) n = mem_range m addr n.
Proof.
  intros Hn H. apply map_ext_in. intros i Hi. apply zseq_In in Hi. unfold mem_at.
  rewrite (page_split addr) at 3 4. pose proof (Z.mod_pos_bound addr PGSIZE ltac:(done)).
  rewrite <- Z.add_assoc.
  destruct (page_of_offset (Z.shiftr addr PGSHIFT) (addr mod PGSIZE + i) ltac:(lia)) as [E1 E2].
  now rewrite E1, E2.
Qed.

Lemma mem_range_ext m m' a n : (forall x, mem_at m x = mem_at m' x) -> mem_range m a n = mem_range m' a n.
Proof. intros H. apply map_ext. intros i. apply H. Qed.

Lemma mem_load_loop_spec fuel : forall addr len m, 0 <= len -> (Z.to_nat len <= fuel)%nat ->
  let '(bytes, m') := mem_load_loop fuel addr len m in
  bytes = mem_range m addr len /\ sz m' = sz m /\ (forall a, mem_at m' a = mem_at m a).
Proof.
  induction fuel as [|fuel IH]; intros addr len m Hl Hf; cbn [mem_load_loop].
  { replace len with 0 by lia. done. }
  destruct (Z.leb_spec len 0); [replace len with 0 by lia; done|].
  pose proof (chunk addr len ltac:(lia)). set (n := Z.min _ len) in *.
  specialize (IH (addr + n) (len - n) (touch_page (Z.shiftr addr PGSHIFT) m) ltac:(lia) ltac:(lia)).
  destruct (mem_load_loop _ _ _ _) as [rest m']. destruct IH as (-> & Hs & Ha). split_and!.
  - rewrite copy_out_range by lia. rewrite <- mem_range_split by lia.
    replace (n + (len - n)) with len by lia. apply mem_range_ext, mem_at_touch.
  - now rewrite Hs, touch_page_sz.
  - intros a. now rewrite Ha, mem_at_touch.
Qed.

Lemma flat_store_ext f g addr bytes a : (forall x, f x = g x) -> flat_store f addr bytes a = flat_store g addr bytes a.
Proof. intros H. unfold flat_store. now destruct (_ && _). Qed.

Lemma mem_store_loop_spec fuel : forall addr bytes m, (length bytes <= fuel)%nat ->
  let m' := mem_store_loop fuel addr bytes m in
  sz m' = sz m /\ (forall a, mem_at m' a = flat_store (mem_at m) addr bytes a).
Proof.
  induction fuel as [|fuel IH]; intros addr bytes m Hf; cbn [mem_store_loop]; cbn zeta.
  { destruct bytes; [|cbn in Hf; lia]. split; [done|]. intros a. now rewrite flat_store_nil. }
  destruct (Z.leb_spec (Z.of_nat (length bytes)) 0).
  { destruct bytes; [|cbn in *; lia]. split; [done|]. intros a. now rewrite flat_store_nil. }
  pose proof (chunk addr (Z.of_nat (length bytes)) ltac:(lia)). set (n := Z.min _ _) in *.
  destruct (IH (addr + n) (skipn (Z.to_nat n) bytes)
    (copy_in (Z.shiftr addr PGSHIFT) (addr mod PGSIZE) (firstn (Z.to_nat n) bytes) (touch_page (Z.shiftr addr PGSHIFT) m)))
    as [Hs Ha]; [rewrite length_skipn; lia|].
  split; [now rewrite Hs, copy_in_sz, touch_page_sz|]. intros a.
  assert (Hn : Z.of_nat (length (firstn (Z.to_nat n) bytes)) = n) by (rewrite length_firstn; lia).
  rewrite Ha. pose proof (flat_store_app (mem_at m) addr (firstn (Z.to_nat n) bytes) (skipn (Z.to_nat n) bytes) a) as E.
  rewrite Hn, firstn_skipn in E. rewrite <- E.
  apply flat_store_ext. intros x. rewrite mem_at_copy_in by lia. apply flat_store_ext, mem_at_touch.
Qed.

Lemma in_range_iff addr len m : 0 <= addr < 2 ^ 64 -> 0 <= len < 2 ^ 64 -> 0 <= sz m < 2 ^ 64 ->
  mem_in_range addr len m = (addr + len <=? sz m).
Proof.
  intros Ha Hl Hs. unfold mem_in_range, u64. destruct (Z.ltb_spec (addr + len) (2 ^ 64)).
  - rewrite Z.mod_small by lia. destruct (Z.ltb_spec (addr + len) addr), (Z.ltb_spec (sz m) (addr + len)),
      (Z.leb_spec (addr + len) (sz m)); done || lia.
  - replace ((addr + len) mod 2 ^ 64) with (addr + len - 2 ^ 64)
      by (apply Z.mod_unique with 1; [left|]; lia).
    destruct (Z.ltb_spec (addr + len - 2 ^ 64) addr), (Z.leb_spec (addr + len) (sz m)); done || lia.
Qed.

(** C21. The sparse memory is a flat array of [sz] bytes: a load within it gives
    the bytes and a store replaces them, whatever pages they span and whether or
    not the pages were there; an access that leaves it, or wraps around, is
    refused and changes nothing. *)
Theorem mem_refines_flat m addr len bytes :
  0 <= addr < 2 ^ 64 -> 0 <= len < 2 ^ 64 -> Z.of_nat (length bytes) = len -> 0 <= sz m < 2 ^ 64 ->
  let '(r, m1) := mem_load addr len m in
  let '(ok, m2) := mem_store addr bytes m in
  r = (if addr + len <=? sz m then Some (mem_range m addr len) else None) /\
  sz m1 = sz m /\ (forall a, mem_at m1 a = mem_at m a) /\
  ok = (addr + len <=? sz m) /\ sz m2 = sz m /\
  (forall a, mem_at m2 a = if addr + len <=? sz m then flat_store (mem_at m) addr bytes a else mem_at m a).
Proof.
  intros Ha Hl Hb Hs. unfold mem_load, mem_store. rewrite Hb, in_range_iff by done.
  destruct (addr + len <=? sz m); [|done].
  pose proof (mem_load_loop_spec (Z.to_nat len) addr len m ltac:(lia) ltac:(lia)) as H1.
  destruct (mem_load_loop _ _ _ _) as [r m1].
  destruct (mem_store_loop_spec (length bytes) addr bytes m ltac:(lia)) as [H2 H3].
  destruct H1 as (-> & H4 & H5). done.
Qed.

(** *** Checkpoints *)

Lemma mem_range_length m a n : length (mem_range m a n) = Z.to_nat n.
Proof. unfold mem_range. now rewrite length_map, zseq_length. Qed.

Lemma dump_page_range m ppn : dump_page m ppn = mem_range m (PGSIZE * ppn) PGSIZE.
Proof.
  unfold dump_page. destruct (page_of_offset ppn 0 ltac:(done)) as [E1 E2]. rewrite Z.add_0_r in E1, E2.
  pose proof (copy_out_range m (PGSIZE * ppn) PGSIZE) as H. rewrite E1, E2 in H. now apply H.
Qed.

Lemma dump_pages_range m n : 0 <= n -> concat (map (dump_page m) (zseq n)) = mem_range m 0 (PGSIZE * n).
Proof.
  revert n. apply natlike_ind; [done|]. intros n Hn IH. unfold Z.succ at 1.
  rewrite zseq_app, map_app, concat_app, IH by lia.
  change (zseq 1) with [0]. cbn [map concat]. rewrite app_nil_r, Z.add_0_r.
  rewrite dump_page_range. change (mem_range m (PGSIZE * n)) with (mem_range m (0 + PGSIZE * n)).
  rewrite <- mem_range_split by (change PGSIZE with 4096; lia). f_equal. change PGSIZE with 4096. lia.
Qed.

Lemma restore_pages_spec k : forall n input m a, 0 <= n -> length input = Z.to_nat (PGSIZE * Z.of_nat k) ->
  let m' := restore_pages (map (fun i => n + i) (zseq (Z.of_nat k))) input m in
  sz m' = sz m /\ mem_at m' a = flat_store (mem_at m) (PGSIZE * n) input a.
Proof.
  induction k as [|k IH]; intros n input m a Hn Hl; cbn zeta.
  { destruct input; [|done]. split; [done|]. now rewrite flat_store_nil. }
  rewrite Nat2Z.inj_succ, <- Z.add_1_l, zseq_app, map_app by lia. change (zseq 1) with [0].
  cbn [map app restore_pages]. rewrite map_map, Z.add_0_r.
  rewrite (map_ext _ (fun i => (n + 1) + i)) by (intros; lia).
  change PGSIZE with 4096 in *.
  assert (Hs : length (skipn (Z.to_nat 4096) input) = Z.to_nat (4096 * Z.of_nat k)) by (rewrite length_skipn; lia).
  edestruct (IH (n + 1)) as [E1 E2]; [lia | exact Hs |]. rewrite E1, E2. clear E1 E2 IH.
  rewrite copy_in_sz, touch_page_sz. split; [done|].
  assert (Hf : Z.of_nat (length (firstn (Z.to_nat 4096) input)) = 4096) by (rewrite length_firstn; lia).
  pose proof (flat_store_app (mem_at m) (4096 * n) (firstn (Z.to_nat 4096) input) (skipn (Z.to_nat 4096) input) a) as E.
  rewrite Hf, firstn_skipn in E. rewrite <- E. replace (4096 * (n + 1)) with (4096 * n + 4096) by lia.
  apply flat_store_ext. intros x.
  destruct (page_of_offset n 0 ltac:(done)) as [E1 E2]. rewrite Z.add_0_r in E1, E2.
  pose proof (fun m b => mem_at_copy_in m (PGSIZE * n) b x) as H. rewrite E1, E2 in H.
  change PGSIZE with 4096 in *. rewrite H by lia. apply flat_store_ext, mem_at_touch.
Qed.

(** A checkpoint of the memory restores it: dumped and read back into any
    memory of its size, whatever that held, every byte is what it was. *)
Theorem checkpoint_roundtrip m m0 n a :
  sz m = PGSIZE * n -> sz m0 = sz m -> 0 <= n -> 0 <= a < sz m ->
  mem_at (mem_checkpoint_restore (mem_dump m) m0) a = mem_at m a.
Proof.
  intros Hs H0 Hn Ha. unfold mem_checkpoint_restore, mem_dump, mem_pages. rewrite H0, Hs, Z.mul_comm, Z.div_mul by done.
  rewrite dump_pages_range by done.
  pose proof (restore_pages_spec (Z.to_nat n) 0 (mem_range m 0 (PGSIZE * n)) m0 a) as H.
  rewrite Z2Nat.id, mem_range_length in H by done. cbn zeta in H.
  rewrite (map_ext _ id), map_id in H by done. destruct H as [_ H]; [done | done |].
  rewrite H. unfold flat_store. rewrite mem_range_length. change PGSIZE with 4096 in *.
  replace ((4096 * 0 <=? a) && (a <? 4096 * 0 + Z.of_nat (Z.to_nat (4096 * n)))) with true
    by (symmetry; apply andb_true_iff; rewrite Z.leb_le, Z.ltb_lt; lia).
  unfold mem_range, zseq. rewrite (nth_indep _ 0 (mem_at m (0 + Z.of_nat 0))) by (rewrite !length_map, length_seq; lia).
  rewrite map_map, (map_nth (fun i => mem_at m (0 + Z.of_nat i))), seq_nth by lia. f_equal. lia.
Qed.

(** * The bus *)

(** What the bus relies on: a device keeps its size. *)
Class device_laws (D : Type) `{!abstract_device D} : Prop := {
  load_size : forall addr len d, dev_size (dev_load addr len d).1.2 = dev_size d;
  store_size : forall addr bytes d, dev_size (dev_store addr bytes d).1.2 = dev_size d }.

#[export] Instance rom_laws : device_laws rom_device_t.
Proof. split; done. Qed.
#[export] Instance clint_laws : device_laws clint_dev.
Proof. split; done. Qed.
#[export] Instance plic_laws : device_laws plic_t.
Proof. split; done. Qed.
#[export] Instance ns16550_laws : device_laws ns16550_t.
Proof. split; done. Qed.

Lemma mem_load_loop_sz fuel : forall addr len m, sz (mem_load_loop fuel addr len m).2 = sz m.
Proof.
  induction fuel as [|fuel IH]; intros addr len m; cbn [mem_load_loop]; [done|].
  destruct (len <=? 0); [done|]. specialize (IH (addr + Z.min (PGSIZE - addr mod PGSIZE) len)
    (len - Z.min (PGSIZE - addr mod PGSIZE) len) (touch_page (Z.shiftr addr PGSHIFT) m)).
  destruct (mem_load_loop _ _ _ _). cbn in *. now rewrite IH, touch_page_sz.
Qed.

#[export] Instance mem_laws : device_laws mem_t.
Proof.
  split.
  - intros addr len m. cbn. unfold mem_load. destruct (mem_in_range _ _ _); [|done].
    pose proof (mem_load_loop_sz (Z.to_nat len) addr len m). now destruct (mem_load_loop _ _ _ _).
  - intros addr bytes m. cbn. unfold mem_store. destruct (mem_in_range _ _ _); [|done].
    apply mem_store_loop_spec. lia.
Qed.

Section bus.
Context {D : Type} `{!abstract_device D}.
Implicit Types (b : bus_t D) (l : list (Z * D)).

Definition limit (e : Z * D) : Z := e.1 + dev_size e.2.
Definition placed (e : Z * D) : Prop := 0 <= e.1 /\ 0 < dev_size e.2 /\ limit e <= 2 ^ 64.
Definition disjoint_from (addr len : Z) (e : Z * D) : Prop := addr + len <= e.1 \/ limit e <= addr.

Definition before_of (x y : Z * D) : Prop := limit x <= y.1.

(** Every device within the address space, each ending before the next. *)
Definition bus_wf b : Prop := Forall placed (devices b) /\ StronglySorted before_of (devices b).

Lemma upper_bound_spec addr l : forall acc, exists l1 l2,
  upper_bound addr acc l = (rev l1 ++ acc, l2) /\ l = l1 ++ l2 /\ Forall (fun e => e.1 <= addr) l1 /\
  match l2 with e :: _ => addr < e.1 | [] => True end.
Proof.
  induction l as [|[base d] l IH]; intros acc; cbn.
  { exists [], []. done. }
  destruct (Z.leb_spec base addr).
  - destruct (IH ((base, d) :: acc)) as (l1 & l2 & E & -> & H1 & H2).
    exists ((base, d) :: l1), l2. split_and!; [|done | by constructor | done].
    rewrite E. cbn. now rewrite <- app_assoc.
  - exists [], ((base, d) :: l). done.
Qed.

(** The first device after an address decides for all of them. *)
Lemma next_spec z l : Forall placed l -> StronglySorted before_of l ->
  if (match l with (base, _) :: _ => base <=? z | [] => false end)
  then exists e, In e l /\ e.1 <= z else Forall (fun x => z < x.1) l.
Proof.
  intros Hp Hs. destruct l as [|[base d] l]; [done|]. destruct (Z.leb_spec base z) as [Hz|Hz].
  { exists (base, d). split; [by left | done]. }
  apply Forall_cons_1 in Hp as [(H1 & H2 & _) _]. apply StronglySorted_cons in Hs as [Hs _].
  constructor; [done|]. eapply Forall_impl; [exact Hs|]. unfold before_of, limit in *. cbn in *. intros y Hy. lia.
Qed.

(** The devices around an address: those wholly before the last one that starts
    at or below it, that one, and those that start above it. *)
Inductive around (addr : Z) l : list (Z * D) * list (Z * D) -> Prop :=
| Around_none : Forall (fun x => addr < x.1) l -> Forall placed l -> StronglySorted before_of l -> around addr l ([], l)
| Around_at l1 base d l2 : l = l1 ++ (base, d) :: l2 -> placed (base, d) -> base <= addr ->
    Forall (fun x => before_of x (base, d)) l1 -> Forall (before_of (base, d)) l2 ->
    Forall (fun x => addr < x.1) l2 -> Forall placed l1 -> Forall placed l2 -> StronglySorted before_of l2 ->
    around addr l ((base, d) :: rev l1, l2).

Lemma around_spec addr b : bus_wf b -> around addr (devices b) (upper_bound addr [] (devices b)).
Proof.
  intros [Hp Hs]. destruct (upper_bound_spec addr (devices b) []) as (l1 & l2 & E & El & H1 & H2).
  rewrite app_nil_r in E. rewrite E, El in *. apply Forall_app in Hp as [Hp1 Hp2].
  pose proof (StronglySorted_app_1_r _ _ _ Hs) as Hs2.
  assert (H3 : Forall (fun x => addr < x.1) l2).
  { pose proof (next_spec addr l2 Hp2 Hs2) as H. destruct l2 as [|[base d] l2]; [done|].
    cbn in H2. destruct (Z.leb_spec base addr); [lia | done]. }
  destruct l1 as [|[base d] l1 _] using rev_ind; [by constructor|].
  rewrite rev_app_distr. rewrite <- app_assoc in *. cbn in *.
  apply StronglySorted_app in Hs as (H4 & _ & Hs). apply StronglySorted_cons in Hs as [Hs _].
  apply Forall_app in H1 as [_ H1]. apply Forall_cons_1 in H1 as [H1 _].
  apply Forall_app in Hp1 as [Hp0 Hp1]. apply Forall_cons_1 in Hp1 as [Hp1 _].
  constructor; try done. apply Forall_forall. intros x Hx. apply H4; [done | by left].
Qed.

Lemma last_byte addr len : 0 <= addr < 2 ^ 64 -> 0 < len < 2 ^ 64 ->
  (u64 (addr + len - 1) <? addr) = (2 ^ 64 <? addr + len) /\ (addr + len <= 2 ^ 64 -> u64 (addr + len - 1) = addr + len - 1).
Proof.
  intros Ha Hl. unfold u64. split; [|intros; apply Z.mod_small; lia].
  destruct (Z.ltb_spec (2 ^ 64) (addr + len)).
  - replace ((addr + len - 1) mod 2 ^ 64) with (addr + len - 1 - 2 ^ 64) by (apply Z.mod_unique with 1; [left|]; lia).
    apply Z.ltb_lt. lia.
  - rewrite Z.mod_small by lia. apply Z.ltb_ge. lia.
Qed.

Lemma disjoint_after addr len l : Forall (fun x => addr + len - 1 < x.1) l -> Forall (disjoint_from addr len) l.
Proof. intros H. eapply Forall_impl; [exact H|]. cbn. intros e He. left. lia. Qed.

Lemma disjoint_before addr len base d l : base <= addr -> limit (base, d) <= addr ->
  Forall (fun x => before_of x (base, d)) l -> Forall (disjoint_from addr len) l.
Proof. intros Hb Hd H. eapply Forall_impl; [exact H|]. unfold before_of. cbn. intros e He. right. lia. Qed.

Ltac by_next H := lazymatch type of H with if ?c then _ else _ => destruct c end.
Ltac bus_bounds := unfold disjoint_from, placed, before_of, limit in *; cbn [fst snd] in *; try lia.

Lemma find_device_found b addr len :
  bus_wf b -> 0 <= addr < 2 ^ 64 -> 0 <= len < 2 ^ 64 ->
  match find_device addr len b with
  | Found base d => In (base, d) (devices b) /\ 0 < len /\ base <= addr /\ addr + len <= base + dev_size d
  | Found_fallback => 0 < len /\ addr + len <= 2 ^ 64 /\ Forall (disjoint_from addr len) (devices b)
  | Found_none => len = 0 \/ 2 ^ 64 < addr + len \/
      exists e, In e (devices b) /\ ~ disjoint_from addr len e /\ ~ (e.1 <= addr /\ addr + len <= limit e)
  end.
Proof.
  intros Hwf Ha Hl. unfold find_device. destruct (Z.eqb_spec len 0); [by left|]. cbn [orb].
  destruct (last_byte addr len Ha ltac:(lia)) as [-> Hb].
  destruct (Z.ltb_spec (2 ^ 64) (addr + len)); [right; by left|]. specialize (Hb ltac:(lia)).
  destruct (around_spec addr b Hwf) as [H1 H2 H3 | l1 base d l2 E Hp Hle H1 H2 H3 H0 H4 H5]; cbn iota beta.
  - rewrite Hb. pose proof (next_spec (addr + len - 1) (devices b) H2 H3) as H4. by_next H4.
    + right; right. destruct H4 as (e & He & H4). exists e. rewrite List.Forall_forall in H1, H2.
      specialize (H1 e He). specialize (H2 e He). split; [done|]. bus_bounds.
    + split_and!; [lia | lia | by apply disjoint_after].
  - assert (Hs : u64 (addr - base + len - 1) = addr - base + len - 1) by (apply Z.mod_small; bus_bounds).
    assert (Hs' : u64 (addr - base) = addr - base) by (apply Z.mod_small; bus_bounds). rewrite Hs, Hs', Hb, E.
    destruct (Z.ltb_spec (addr - base + len - 1) (dev_size d)) as [Hc|Hc].
    { split; [apply in_app_iff; right; by left | lia]. }
    pose proof (next_spec (addr + len - 1) l2 H4 H5) as H6. by_next H6; cbn [orb].
    { right; right. destruct H6 as (e & He & H6). exists e. rewrite List.Forall_forall in H3, H4.
      specialize (H3 e He). specialize (H4 e He). split; [apply in_app_iff; right; by right|]. bus_bounds. }
    destruct (Z.ltb_spec (addr - base) (dev_size d)).
    { right; right. exists (base, d). split; [apply in_app_iff; right; by left|]. bus_bounds. }
    split_and!; [lia | lia |]. apply Forall_app. split; [apply (disjoint_before _ _ base d); bus_bounds; done|].
    constructor; [right; bus_bounds | by apply disjoint_after].
Qed.

(** [find_device] answers the device that holds the whole access; nothing
    for an access that is empty, wraps around or is only partly on a device; and
    the fallback exactly when no device has a byte of it. *)
Theorem find_device_spec b addr len :
  bus_wf b -> 0 <= addr < 2 ^ 64 -> 0 <= len < 2 ^ 64 ->
  match find_device addr len b with
  | Found base d => In (base, d) (devices b) /\ 0 < len /\ base <= addr /\ addr + len <= base + dev_size d
  | Found_fallback => 0 < len /\ addr + len <= 2 ^ 64 /\ Forall (disjoint_from addr len) (devices b)
  | Found_none => len = 0 \/ 2 ^ 64 < addr + len \/
      exists e, In e (devices b) /\ ~ disjoint_from addr len e /\ ~ (e.1 <= addr /\ addr + len <= limit e)
  end.
Proof. apply find_device_found. Qed.

Lemma map_insert_between addr d l1 l2 : Forall (fun x => x.1 < addr) l1 -> Forall (fun x => addr < x.1) l2 ->
  map_insert addr d (l1 ++ l2) = l1 ++ (addr, d) :: l2.
Proof.
  intros H1 H2. induction H1 as [|[base d'] l1 H H1 IH]; cbn [app map_insert].
  - destruct H2 as [|[base d'] l2 H H2]; [done|]. cbn in *. destruct (Z.ltb_spec addr base); [done | lia].
  - cbn in *. destruct (Z.ltb_spec addr base), (Z.eqb_spec addr base); try lia. now rewrite IH.
Qed.

Lemma bus_wf_insert addr d l1 l2 fb : placed (addr, d) -> bus_wf (mk_bus (l1 ++ l2) fb) ->
  Forall (fun x => before_of x (addr, d)) l1 -> Forall (before_of (addr, d)) l2 ->
  bus_wf (mk_bus (l1 ++ (addr, d) :: l2) fb).
Proof.
  intros Hp [Hq Hs] H1 H2. cbn in *. apply Forall_app in Hq as [Hq1 Hq2].
  apply StronglySorted_app in Hs as (Hs & Hs1 & Hs2). split; cbn.
  - apply Forall_app. split; [done | by constructor].
  - apply StronglySorted_app. split_and!; [|done | by constructor].
    intros x y Hx [->|Hy]%elem_of_cons; [|by apply Hs]. rewrite Forall_forall in H1. by apply H1.
Qed.

(** [add_device] either puts the device in its place, keeping the devices
    within the address space, in order and apart, or aborts, which it does only
    for a device that wraps around or overlaps another. *)
Theorem add_device_spec b addr d :
  bus_wf b -> 0 <= addr < 2 ^ 64 -> 0 <= dev_size d < 2 ^ 64 ->
  match add_device addr d b with
  | Some b' => bus_wf b' /\ fallback b' = fallback b /\
      if dev_size d =? 0 then b' = b else devices b' ≡ₚ (addr, d) :: devices b
  | None => 2 ^ 64 < addr + dev_size d \/ exists e, In e (devices b) /\ ~ disjoint_from addr (dev_size d) e
  end.
Proof.
  intros Hwf Ha Hl. unfold add_device. destruct (Z.eqb_spec (dev_size d) 0); [done|].
  destruct (last_byte addr (dev_size d)) as [-> Hb]; [done | lia |].
  destruct (Z.ltb_spec (2 ^ 64) (addr + dev_size d)); [by left|]. specialize (Hb ltac:(lia)). rewrite Hb.
  destruct (around_spec addr b Hwf) as [H1 H2 H3 | l1 base d' l2 E Hp Hle H1 H2 H3 H0 H4 H5]; cbn iota beta.
  - pose proof (next_spec (addr + dev_size d - 1) (devices b) H2 H3) as H4. by_next H4; cbn [orb].
    + right. destruct H4 as (e & He & H4). exists e. rewrite List.Forall_forall in H1, H2.
      specialize (H1 e He). specialize (H2 e He). split; [done|]. bus_bounds.
    + cbn [devices fallback]. rewrite (map_insert_between _ _ [] (devices b)) by done. split_and!; [|done..].
      apply (bus_wf_insert addr d [] (devices b)); [bus_bounds | by destruct b | done |].
      eapply Forall_impl; [exact H4|]. bus_bounds.
  - assert (Hs : u64 (base + dev_size d' - 1) = base + dev_size d' - 1) by (apply Z.mod_small; bus_bounds).
    rewrite Hs. pose proof (next_spec (addr + dev_size d - 1) l2 H4 H5) as H6. by_next H6; cbn [orb].
    { right. destruct H6 as (e & He & H6). exists e. rewrite List.Forall_forall in H3, H4.
      specialize (H3 e He). specialize (H4 e He). rewrite E. split; [apply in_app_iff; right; by right|]. bus_bounds. }
    destruct (Z.leb_spec addr (base + dev_size d' - 1)).
    { right. exists (base, d'). rewrite E. split; [apply in_app_iff; right; by left|]. bus_bounds. }
    cbn [devices fallback]. rewrite E, cons_middle, app_assoc, map_insert_between.
    + split; [|split; [done | now rewrite <- Permutation_middle, <- app_assoc]]. apply bus_wf_insert; [bus_bounds | | |].
      * rewrite <- app_assoc. cbn. rewrite <- E. by destruct b.
      * apply Forall_app. split; [|constructor; [bus_bounds | done]].
        eapply Forall_impl; [exact H1|]. bus_bounds.
      * eapply Forall_impl; [exact H6|]. bus_bounds.
    + apply Forall_app. split; [|constructor; [bus_bounds | done]]. apply List.Forall_forall. intros x Hx.
      rewrite List.Forall_forall in H1, H0. specialize (H1 x Hx). specialize (H0 x Hx). bus_bounds.
    + eapply Forall_impl; [exact H6|]. bus_bounds.
Qed.

(** An access changes the state of the devices, not their places, and only of
    devices with a byte of it. *)
Definition layout b : list (Z * Z) := map (fun e => (e.1, dev_size e.2)) (devices b).
Definition access_frame (addr len : Z) b b' : Prop :=
  bus_wf b' /\ layout b' = layout b /\
  forall e, In e (devices b) -> disjoint_from addr len e -> In e (devices b').

Lemma map_insert_replace base d d' l1 l2 : Forall (fun x => x.1 < base) l1 ->
  map_insert base d' (l1 ++ (base, d) :: l2) = l1 ++ (base, d') :: l2.
Proof.
  induction 1 as [|[base' x] l1 H H1 IH]; cbn [app map_insert].
  - now rewrite Z.ltb_irrefl, Z.eqb_refl.
  - cbn in H. destruct (Z.ltb_spec base base'), (Z.eqb_spec base base'); try lia. now rewrite IH.
Qed.

Lemma update_device_frame addr len base d d' b :
  bus_wf b -> In (base, d) (devices b) -> dev_size d' = dev_size d -> 0 < len -> base <= addr -> addr + len <= base + dev_size d ->
  access_frame addr len b (update_device base d' b).
Proof.
  intros [Hp Hs] Hi Hd Hl Hb Ha. apply in_split in Hi as (l1 & l2 & E).
  unfold access_frame, bus_wf, layout, update_device. cbn [devices]. rewrite E in *.
  pose proof (proj1 (Forall_app _ _ _) Hp) as [Hp1 Hp2]. apply StronglySorted_app in Hs as (Hs & Hs1 & Hs2).
  apply Forall_cons in Hp2 as [Hp2 Hp3]. apply StronglySorted_cons in Hs2 as [Hs2 Hs3].
  rewrite map_insert_replace.
  2: { apply Forall_forall. intros x Hx. rewrite Forall_forall in Hp1. specialize (Hp1 x Hx).
       specialize (Hs x (base, d) Hx ltac:(by left)). bus_bounds. }
  assert (Hq : placed (base, d')) by (unfold placed, limit in *; cbn in *; now rewrite Hd).
  split_and!.
  - apply Forall_app. split; [done | by constructor].
  - apply StronglySorted_app. split_and!; [|done|].
    + intros x y Hx [->|Hy]%elem_of_cons; [apply (Hs x (base, d) Hx); by left | apply Hs; [done | by right]].
    + apply StronglySorted_cons. split; [|done]. eapply Forall_impl; [exact Hs2|].
      unfold before_of, limit. cbn. now rewrite Hd.
  - rewrite !map_app. cbn. now rewrite Hd.
  - intros e He Hdis. apply in_app_iff in He as [He|[<-|He]]; apply in_app_iff; [by left| | by right; right].
    bus_bounds.
Qed.

Lemma frame_refl addr len fb b : bus_wf b -> access_frame addr len b (mk_bus (devices b) fb).
Proof. intros H. by split_and!. Qed.

(** Loads and stores on the bus keep it well formed and every device where it
    is, and leave alone each device that holds no byte of the access. *)
Theorem bus_access_frame `{!device_laws D} b addr len bytes :
  bus_wf b -> 0 <= addr < 2 ^ 64 -> 0 <= len < 2 ^ 64 -> Z.of_nat (length bytes) = len ->
  access_frame addr len b (bus_load addr len b).1.2 /\ access_frame addr len b (bus_store addr bytes b).1.2.
Proof.
  intros Hwf Ha Hl Hb. unfold bus_load, bus_store. rewrite Hb.
  pose proof (find_device_found b addr len Hwf Ha Hl) as H. destruct (find_device addr len b) as [base d| |].
  - destruct H as (Hi & H1 & H2 & H3).
    pose proof (load_size (u64 (addr - base)) len d) as Hx. pose proof (store_size (u64 (addr - base)) bytes d) as Hy.
    destruct (dev_load _ _ _) as [[r1 d1] es1]. destruct (dev_store _ _ _) as [[r2 d2] es2].
    split; by apply (update_device_frame _ _ _ d).
  - destruct (dev_load _ _ _) as [[r1 d1] es1]. destruct (dev_store _ _ _) as [[r2 d2] es2].
    split; by apply frame_refl.
  - split; destruct b; by apply frame_refl.
Qed.
End bus.

(** * The core-local interruptor *)

(** The timer line of every hart, bit 7 of its [mip], is up exactly when the time has
    reached its compare register. *)
Definition timer_lines (d : clint_dev) : Prop :=
  forall id mip, In (id, mip) (cl_harts d) ->
    (Z.testbit mip 7 = true <-> default 0 (mtimecmp (cl d) !! id) <= mtime (cl d)).

(** The [mip] registers after the acts of a device. *)
Definition after_effects (es : effects) (hs : harts_t) : harts_t :=
  fold_left (fun hs e => match e with Act id e => act id e hs | _ => hs end) es hs.
Definition ids (hs : harts_t) : list Z := map fst hs.

(** What an operation leaves: the lines right, the acts it sent the harts what
    made them so, and the harts the same. *)
Definition clint_ok (d d' : clint_dev) (es : effects) : Prop :=
  timer_lines d' /\ cl_harts d' = after_effects es (cl_harts d) /\ ids (cl_harts d') = ids (cl_harts d).

Lemma backdoor_mtip v mip : mip_after (Mip_backdoor MIP_MTIP v) mip .& MIP_MTIP = v .& MIP_MTIP.
Proof.
  unfold mip_after. rewrite Z.land_lor_distr_l, <- Z.land_assoc, Z.land_diag.
  replace (Z.land (Z.ldiff mip MIP_MTIP) MIP_MTIP) with 0; [done|].
  symmetry. apply Z.bits_inj'. intros n Hn. rewrite Z.land_spec, Z.ldiff_spec, Z.bits_0.
  now destruct (Z.testbit mip n), (Z.testbit MIP_MTIP n).
Qed.

Lemma backdoor_line c id mip :
  Z.testbit (mip_after (Mip_backdoor MIP_MTIP (mtip c id)) mip) 7 = true <-> compare c id <= mtime c.
Proof.
  transitivity (Z.testbit (mip_after (Mip_backdoor MIP_MTIP (mtip c id)) mip .& MIP_MTIP) 7 = true).
  { rewrite Z.land_spec. change (Z.testbit MIP_MTIP 7) with true. by rewrite andb_true_r. }
  rewrite backdoor_mtip. unfold mtip. destruct (Z.leb_spec (compare c id) (mtime c)); cbn; split; done || lia.
Qed.

Lemma ids_act id e hs : ids (act id e hs) = ids hs.
Proof. unfold ids, act. rewrite map_map. apply map_ext. now intros [i mip]. Qed.

Lemma ids_after es : forall hs, ids (after_effects es hs) = ids hs.
Proof.
  induction es as [|e es IH]; intros hs; [done|]. unfold after_effects in *. cbn. rewrite IH.
  destruct e; [apply ids_act | done..].
Qed.

Lemma after_effects_app e1 e2 hs : after_effects (e1 ++ e2) hs = after_effects e2 (after_effects e1 hs).
Proof. apply fold_left_app. Qed.

(** The acts of a tick, on harts with distinct numbers. *)
Lemma after_tick t (f : Z -> Z) l : NoDup (ids l) -> forall hs, 
  after_effects (flat_map (fun '(id, _) => [Act id (Time_sync t); Act id (Mip_backdoor MIP_MTIP (f id))]) l) hs =
  map (fun '(id, mip) => (id, if existsb (Z.eqb id) (ids l) then mip_after (Mip_backdoor MIP_MTIP (f id)) mip else mip)) hs.
Proof.
  induction l as [|[i m] l IH]; intros Hnd hs.
  - cbn. symmetry. rewrite <- (map_id hs) at 2. apply map_ext. now intros [id mip].
  - cbn [ids map flat_map fst] in *. apply NoDup_cons in Hnd as [Hi Hnd]. rewrite after_effects_app, IH by done.
    unfold after_effects, act, ids in *. cbn [fold_left existsb]. rewrite !map_map. apply map_ext. intros [id mip].
    destruct (Z.eqb_spec id i) as [->|Hne]; cbn [orb]; [|done].
    replace (existsb (Z.eqb i) (map fst l)) with false; [done|]. symmetry. apply not_true_iff_false. intros H.
    apply existsb_exists in H as (x & Hx & ->%Z.eqb_eq). apply Hi, list_elem_of_In, Hx.
Qed.

Lemma existsb_self hs id mip : In (id, mip) hs -> existsb (Z.eqb id) (ids hs) = true.
Proof. intros H. apply existsb_exists. exists id. split; [apply (in_map fst _ _ H) | apply Z.eqb_refl]. Qed.

Lemma clint_tick_ok n d : NoDup (ids (cl_harts d)) ->
  let '(d', es) := clint_tick n d in clint_ok d d' es.
Proof.
  intros Hnd. unfold clint_tick. set (c := set_mtime _ _). split_and!.
  - intros id mip H. cbn [cl_harts cl] in *. apply in_map_iff in H as ([i m] & E & _).
    apply pair_equal_spec in E as [-> <-]. apply backdoor_line.
  - cbn [cl_harts]. rewrite after_tick by done. apply map_ext_in. intros [i m] H. now rewrite (existsb_self _ _ _ H).
  - cbn. unfold ids. rewrite map_map. apply map_ext. now intros [i m].
Qed.

(** One operation after another. *)
Lemma clint_ok_trans d d1 d2 e1 e2 : clint_ok d d1 e1 -> clint_ok d1 d2 e2 -> clint_ok d d2 (e1 ++ e2).
Proof.
  intros (H1 & H2 & H3) (H4 & H5 & H6). split_and!; [done | | congruence].
  now rewrite after_effects_app, <- H2.
Qed.

Lemma clint_ok_nodup d d' es : clint_ok d d' es -> NoDup (ids (cl_harts d)) -> NoDup (ids (cl_harts d')).
Proof. intros (_ & _ & ->). done. Qed.

(** An access that fails an assertion ends the program: it stands last in the effects. *)
Lemma clint_ok_aborts d d' es : clint_ok d d' es -> clint_ok d d' (es ++ [Aborts]).
Proof. intros (H1 & H2 & H3). split_and!; [done| |done]. by rewrite after_effects_app. Qed.

Lemma load_reg_ok size word addr len d d1 es : clint_ok d d1 es ->
  let '(r, d', es') := load_reg size word addr len d1 es in clint_ok d d' es'.
Proof. intros H. unfold load_reg. destruct (read_little_endian_reg _ _ _ _); [done|]. by apply clint_ok_aborts. Qed.

Lemma clint_load_once_ok addr len d : NoDup (ids (cl_harts d)) ->
  let '(r, d', es) := clint_load_once addr len d in clint_ok d d' es.
Proof.
  intros Hnd. pose proof (clint_tick_ok 0 d Hnd) as H. unfold clint_load_once.
  destruct (clint_tick 0 d) as [d1 es]. cbv zeta.
  destruct (addr <? MTIMECMP_BASE); [by apply load_reg_ok|]. destruct (addr <? MTIME_BASE); [by apply load_reg_ok|].
  destruct (addr <? MTIME_BASE + 8); [by apply load_reg_ok|]. by destruct (_ <=? CLINT_SIZE).
Qed.

(** A change of the registers or of the software interrupts before the tick. *)
Lemma clint_stored_ok d d0 es : NoDup (ids (cl_harts d)) ->
  cl_harts d0 = after_effects es (cl_harts d) ->
  let '(r, d', es') := clint_stored es d0 in clint_ok d d' es'.
Proof.
  intros Hnd H0. assert (Hi : ids (cl_harts d0) = ids (cl_harts d)) by (rewrite H0; apply ids_after).
  unfold clint_stored. pose proof (clint_tick_ok 0 d0 ltac:(by rewrite Hi)) as H. destruct (clint_tick 0 d0) as [d1 e1].
  destruct H as (H1 & H2 & H3). split_and!; [done | | congruence]. now rewrite after_effects_app, <- H0.
Qed.

Lemma clint_ok_refl d : timer_lines d -> clint_ok d d [].
Proof. intros H. split_and!; done. Qed.

Lemma store_reg_ok size word addr bytes d k : timer_lines d ->
  (forall x, let '(r, d', es) := k x in clint_ok d d' es) ->
  let '(r, d', es) := store_reg size word addr bytes d k in clint_ok d d' es.
Proof.
  intros Ht H. unfold store_reg. destruct (write_little_endian_reg _ _ _ _); [apply H|].
  apply (clint_ok_aborts d d []). by apply clint_ok_refl.
Qed.

Lemma clint_store_once_ok addr bytes d : NoDup (ids (cl_harts d)) -> timer_lines d ->
  let '(r, d', es) := clint_store_once addr bytes d in clint_ok d d' es.
Proof.
  intros Hnd Ht. unfold clint_store_once. cbv zeta.
  destruct (addr <? MTIMECMP_BASE); [destruct (addr mod 4 =? 0)|
    destruct (addr <? MTIME_BASE); [|destruct (addr <? MTIME_BASE + 8); [|destruct (_ <=? CLINT_SIZE)] ] ].
  - apply store_reg_ok; [done|]. intros x. destruct (hart_mip ((addr - MSIP_BASE) / 4) (cl_harts d)); by apply clint_stored_ok.
  - by apply clint_stored_ok.
  - destruct (hart_mip ((addr - MTIMECMP_BASE) / 8) (cl_harts d)); [|by apply clint_stored_ok]. apply store_reg_ok; [done|]. intros x. by apply clint_stored_ok.
  - apply store_reg_ok; [done|]. intros x. by apply clint_stored_ok.
  - by apply clint_stored_ok.
  - by apply clint_ok_refl.
Qed.

(** Which accesses fail the assertion of the byte-wise accessors. *)
Definition oversized (addr len : Z) : bool := (addr <? MTIMECMP_BASE) && (4 <? len) && (len <? 8).

Lemma tick_no_abort n d : ~ In Aborts (clint_tick n d).2.
Proof.
  unfold clint_tick. cbn. intros ([id mip] & _ & H)%in_flat_map. cbn in H. naive_solver.
Qed.

Lemma stored_no_abort es d : ~ In Aborts es -> ~ In Aborts (clint_stored es d).2.
Proof.
  intros H. unfold clint_stored. pose proof (tick_no_abort 0 d). destruct (clint_tick 0 d) as [d' es']. cbn in *.
  rewrite in_app_iff. tauto.
Qed.

Lemma load_once_aborts addr len d : len <= 8 -> (In Aborts (clint_load_once addr len d).2 <->
  (if addr <? MTIMECMP_BASE then 4 else 8) < len).
Proof.
  intros Hl. unfold clint_load_once. pose proof (tick_no_abort 0 d) as Ht. destruct (clint_tick 0 d) as [d1 es]. cbn [snd] in Ht.
  unfold load_reg, read_little_endian_reg.
  destruct (addr <? MTIMECMP_BASE); [destruct (Z.leb_spec len 4)|
    destruct (addr <? MTIME_BASE); [destruct (Z.leb_spec len 8)|
    destruct (addr <? MTIME_BASE + 8); [destruct (Z.leb_spec len 8)|destruct (_ <=? _)]]]; cbn [snd];
    rewrite ?in_app_iff; cbn; split; intros; try tauto; lia.
Qed.

Lemma store_once_aborts addr bytes d : Z.of_nat (length bytes) <= 8 -> (In Aborts (clint_store_once addr bytes d).2 <->
  addr < MTIMECMP_BASE /\ addr mod 4 = 0 /\ 4 < Z.of_nat (length bytes)).
Proof.
  intros Hl. unfold clint_store_once, store_reg, write_little_endian_reg. cbv zeta.
  assert (Hs : forall es d, ~ In Aborts es -> (In Aborts (clint_stored es d).2 <-> False))
    by (intros es d' H; pose proof (stored_no_abort es d' H); tauto).
  assert (Ha : forall id e, ~ In Aborts [Act id e]) by (intros; cbn; naive_solver).
  destruct (Z.ltb_spec addr MTIMECMP_BASE) as [H1|H1].
  - destruct (Z.eqb_spec (addr mod 4) 0) as [H2|H2]; [|rewrite Hs by (apply Ha || intros []); tauto].
    destruct (Z.leb_spec (Z.of_nat (length bytes)) 4) as [H3|H3]; [|cbn; tauto].
    case_match; rewrite Hs by (apply Ha || intros []); split; tauto || lia.
  - destruct (Z.leb_spec (Z.of_nat (length bytes)) 8); [|lia].
    repeat case_match; rewrite ?Hs by (apply Ha || intros []); cbn; split; intros; try tauto; lia.
Qed.

Lemma clint_load_ok addr len d : NoDup (ids (cl_harts d)) -> timer_lines d ->
  let '(r, d', es) := clint_load addr len d in clint_ok d d' es.
Proof.
  intros Hnd Ht. unfold clint_load. destruct (8 <? len); [by apply clint_ok_refl|].
  pose proof (clint_load_once_ok addr len d Hnd) as H0. destruct (_ && _); [|done].
  pose proof (clint_tick_ok 0 d Hnd) as H1. destruct (clint_tick 0 d) as [d0 e0].
  pose proof (clint_ok_nodup _ _ _ H1 Hnd) as Hnd0.
  pose proof (clint_load_once_ok addr 4 d0 Hnd0) as H2. destruct (clint_load_once addr 4 d0) as [[[b1|] d1] e1].
  2: by eapply clint_ok_trans.
  pose proof (clint_ok_nodup _ _ _ H2 Hnd0) as Hnd1.
  pose proof (clint_load_once_ok (addr + 4) 4 d1 Hnd1) as H3. destruct (clint_load_once (addr + 4) 4 d1) as [[r d2] e2].
  eapply clint_ok_trans; [done|]. by eapply clint_ok_trans.
Qed.

Lemma clint_store_ok addr bytes d : NoDup (ids (cl_harts d)) -> timer_lines d ->
  let '(r, d', es) := clint_store addr bytes d in clint_ok d d' es.
Proof.
  intros Hnd Ht. unfold clint_store. destruct (8 <? _); [by apply clint_ok_refl|].
  pose proof (clint_store_once_ok addr bytes d Hnd Ht) as H0. destruct (_ && _); [|done].
  pose proof (clint_store_once_ok addr (firstn 4 bytes) d Hnd Ht) as H1.
  destruct (clint_store_once addr (firstn 4 bytes) d) as [[[|] d1] e1]; [|done].
  pose proof (clint_store_once_ok (addr + 4) (skipn 4 bytes) d1 (clint_ok_nodup _ _ _ H1 Hnd) ltac:(by apply H1)) as H2.
  destruct (clint_store_once (addr + 4) (skipn 4 bytes) d1) as [[r d2] e2]. by eapply clint_ok_trans.
Qed.

Lemma clint_load_aborts addr len d : In Aborts (clint_load addr len d).2 <-> oversized addr len = true.
Proof.
  unfold clint_load, oversized. rewrite !andb_true_iff, !Z.ltb_lt.
  destruct (Z.ltb_spec 8 len); [cbn; split; [done|lia]|].
  destruct (Z.ltb_spec addr MTIMECMP_BASE) as [Ha|Ha]; cbn [andb].
  - destruct (Z.eqb_spec len 8) as [->|].
    + pose proof (tick_no_abort 0 d) as Ht. destruct (clint_tick 0 d) as [d0 e0]. cbn [snd] in Ht.
      pose proof (load_once_aborts addr 4 d0 ltac:(lia)) as H1. destruct (clint_load_once addr 4 d0) as [[[b1|] d1] e1]; cbn [snd] in *.
      * pose proof (load_once_aborts (addr + 4) 4 d1 ltac:(lia)) as H2.
        destruct (clint_load_once (addr + 4) 4 d1) as [[r d2] e2]. cbn [snd] in *. rewrite !in_app_iff.
        repeat case_match; lia || (split; [intuition lia|lia]).
      * rewrite in_app_iff. case_match; split; [intuition lia|lia|intuition lia|lia].
    + rewrite load_once_aborts by lia. rewrite (proj2 (Z.ltb_lt _ _)) by done. lia.
  - rewrite load_once_aborts by lia. rewrite (proj2 (Z.ltb_ge _ _)) by done. lia.
Qed.

Lemma clint_store_aborts addr bytes d :
  In Aborts (clint_store addr bytes d).2 <-> oversized addr (Z.of_nat (length bytes)) = true /\ addr mod 4 = 0.
Proof.
  unfold clint_store, oversized. rewrite !andb_true_iff, !Z.ltb_lt.
  destruct (Z.ltb_spec 8 (Z.of_nat (length bytes))); [cbn; split; [done|lia]|].
  destruct (Z.ltb_spec addr MTIMECMP_BASE) as [Ha|Ha]; cbn [andb]; [|rewrite store_once_aborts by lia; lia].
  destruct (Z.eqb_spec (Z.of_nat (length bytes)) 8) as [E|]; [|rewrite store_once_aborts by lia; lia].
  assert (H1 : ~ In Aborts (clint_store_once addr (firstn 4 bytes) d).2)
    by (rewrite store_once_aborts, length_firstn; [lia|rewrite length_firstn; lia]).
  destruct (clint_store_once addr (firstn 4 bytes) d) as [[[|] d1] e1]; cbn [snd] in *; [|split; [tauto|lia]].
  assert (H2 : ~ In Aborts (clint_store_once (addr + 4) (skipn 4 bytes) d1).2)
    by (rewrite store_once_aborts, length_skipn; [lia|rewrite length_skipn; lia]).
  destruct (clint_store_once (addr + 4) (skipn 4 bytes) d1) as [[r d2] e2]. cbn [snd] in *. rewrite in_app_iff.
  split; [tauto|lia].
Qed.

(** C37. The timer interrupt is level-triggered by the comparison: after a tick, with which the
    constructor ends, and every load and store, of any place and length, bit 7 of [mip] is up for exactly the harts
    whose [mtimecmp] is at most [mtime], and the acts sent to the harts are those that
    make it so.  The program ends in an assertion exactly in a load of five to seven bytes
    below [MTIMECMP_BASE], and in a store of as many at a word there. *)
Theorem clint_timer d addr len bytes n : NoDup (ids (cl_harts d)) -> timer_lines d ->
  (let '(d', es) := clint_tick n d in clint_ok d d' es /\ ~ In Aborts es) /\
  (let '(r, d', es) := clint_load addr len d in clint_ok d d' es /\ (In Aborts es <-> oversized addr len = true)) /\
  (let '(r, d', es) := clint_store addr bytes d in clint_ok d d' es /\
    (In Aborts es <-> oversized addr (Z.of_nat (length bytes)) = true /\ addr mod 4 = 0)).
Proof.
  intros Hnd Ht. split_and!.
  - pose proof (clint_tick_ok n d Hnd). pose proof (tick_no_abort n d). by destruct (clint_tick n d).
  - pose proof (clint_load_ok addr len d Hnd Ht). pose proof (clint_load_aborts addr len d).
    by destruct (clint_load addr len d) as [[r d'] es].
  - pose proof (clint_store_ok addr bytes d Hnd Ht). pose proof (clint_store_aborts addr bytes d).
    by destruct (clint_store addr bytes d) as [[r d'] es].
Qed.

(** A checkpoint of the interruptor keeps the compare register of hart 0 and
    loses those of the other harts: restored into a new device, hart 1's timer
    interrupt is up although its time has not come. *)
Theorem clint_checkpoint_loses d freq rt hs now :
  compare d 1 <> 0 ->
  let d' := clint_checkpoint_restore (clint_checkpoint d) (cl (new_clint freq rt hs now).1) in
  compare d' 0 = compare d 0 /\ mtime d' = mtime d /\ compare d' 1 = 0 /\ compare d' 1 <> compare d 1.
Proof. intros H. unfold compare in *. cbn. rewrite lookup_insert_eq, lookup_insert_ne, lookup_empty by done. split_and!; auto. Qed.

(** * Instances of the properties *)

Definition small_mem : mem_t := mk_mem ∅ 8192.

Lemma mem_refines_flat_witness :
  let '(ok, m) := mem_store 4094 [1; 2; 3; 4] small_mem in
  ok = true /\ sz m = 8192 /\ mem_at m 4097 = flat_store (mem_at small_mem) 4094 [1; 2; 3; 4] 4097.
Proof.
  pose proof (mem_refines_flat small_mem 4094 4 [1; 2; 3; 4] ltac:(lia) ltac:(lia) eq_refl ltac:(unfold small_mem; cbn; lia)) as H.
  destruct (mem_load _ _ _) as [r m1]. destruct (mem_store _ _ _) as [ok m2].
  destruct H as (_ & _ & _ & H1 & H2 & H3). split; [exact H1 | split; [exact H2 | exact (H3 4097)]].
Defined.

Lemma checkpoint_roundtrip_witness :
  mem_at (mem_checkpoint_restore (mem_dump (mem_store 4094 [1; 2; 3; 4] small_mem).2) small_mem) 4097 =
  mem_at (mem_store 4094 [1; 2; 3; 4] small_mem).2 4097.
Proof. apply (checkpoint_roundtrip _ _ 2); [reflexivity | reflexivity | lia | change (0 <= 4097 < 8192); lia]. Defined.

(** A bus with a page of memory at 0x1000 and two at 0x80000000. *)
Definition small_bus : bus_t mem_t :=
  mk_bus [(0x1000, mk_mem ∅ 4096); (0x80000000, small_mem)] (mk_mem ∅ 4096).
Lemma small_bus_wf : bus_wf small_bus.
Proof.
  split; repeat constructor; unfold before_of, limit; cbn; lia.
Qed.

Lemma find_device_spec_witness : In (0x80000000, small_mem) (devices small_bus) /\
  (match find_device 0x80001000 8 small_bus with Found base d => 0x80001000 + 8 <= base + dev_size d | _ => False end) /\
  exists e, In e (devices small_bus) /\ ~ disjoint_from 0x1ffc 8 e /\ ~ (e.1 <= 0x1ffc /\ 0x1ffc + 8 <= limit e).
Proof.
  split; [right; left; reflexivity|]. split.
  - pose proof (find_device_spec small_bus 0x80001000 8 small_bus_wf ltac:(lia) ltac:(lia)) as H.
    change (find_device 0x80001000 8 small_bus) with (@Found mem_t 0x80000000 small_mem) in *. apply H.
  - pose proof (find_device_spec small_bus 0x1ffc 8 small_bus_wf ltac:(lia) ltac:(lia)) as H.
    change (find_device 0x1ffc 8 small_bus) with (@Found_none mem_t) in H. destruct H as [H|[H|H]]; [lia | lia | exact H].
Defined.

Lemma add_device_spec_witness :
  exists e, In e (devices small_bus) /\ ~ disjoint_from 0x80001000 4096 e.
Proof.
  pose proof (add_device_spec small_bus 0x80001000 (mk_mem ∅ 4096) small_bus_wf ltac:(lia) ltac:(cbn; lia)) as H.
  change (add_device 0x80001000 (mk_mem ∅ 4096) small_bus) with (@None (bus_t mem_t)) in H.
  destruct H as [H|H]; [cbn in H; lia | exact H].
Defined.

Lemma bus_access_frame_witness : In (0x1000, mk_mem ∅ 4096) (devices (bus_store 0x80001000 [1; 2] small_bus).1.2).
Proof.
  destruct (bus_access_frame small_bus 0x80001000 2 [1; 2] small_bus_wf ltac:(lia) ltac:(lia) eq_refl) as [_ (_ & _ & H)].
  apply H; [left; reflexivity | right; unfold limit; cbn; lia].
Defined.

(** Two harts, the second with a timer interrupt pending. *)
Definition two_harts : clint_dev := mk_clint_dev (mk_clint 10000000 false 0 0 0 (<[0 := 5]> ∅)) [(0, 0); (1, MIP_MTIP)] (0, 0).

Lemma clint_timer_witness : timer_lines two_harts /\ timer_lines (clint_tick 5 two_harts).1.
Proof.
  assert (Ht : timer_lines two_harts) by (intros id mip [[= <- <-]|[[= <- <-]|[]]]; vm_compute; split; intuition discriminate).
  split; [exact Ht|].
  destruct (clint_timer two_harts 0 0 [] 5 ltac:(apply NoDup_ListNoDup; repeat constructor; cbn; intuition lia) Ht) as [H _].
  destruct (clint_tick 5 two_harts) as [d es]. apply (proj1 H).
Defined.

Lemma clint_checkpoint_loses_witness :
  compare (clint_checkpoint_restore (clint_checkpoint (mk_clint 10000000 false 0 0 3 (<[1 := 7]> ∅))) (cl (new_clint 10000000 false [] (0, 0)).1)) 1 = 0.
Proof. apply (clint_checkpoint_loses (mk_clint 10000000 false 0 0 3 (<[1 := 7]> ∅)) 10000000 false [] (0, 0)). vm_compute. discriminate. Defined.
