(* ===== verification/PlicFacts.v ===== *)
(** Facts on the platform-level interrupt controller: what it keeps, which
    interrupt it presents, and the protocol of claim and completion. *)

From S2P Require Import Prelude IntArith Decode Encoding Trap Hart Pmp Devices Plic.

(** * The arrays as sets of interrupts *)

#[local] Arguments word : simpl never.
#[local] Arguments set_bit : simpl never.
#[local] Arguments clear_bit : simpl never.

Definition irq (m : words) (id : Z) : bool := Z.testbit (word m (id / 32)) (id mod 32).

Lemma irq_parts w i : 0 <= i < 32 -> (w * 32 + i) / 32 = w /\ (w * 32 + i) mod 32 = i.
Proof. intros H. rewrite Z.div_add_l, Z.div_small, (Z.add_comm _ i), Z_mod_plus_full, Z.mod_small by lia. lia. Qed.

Lemma bit_mask i j : 0 <= i -> 0 <= j -> Z.testbit (Z.shiftl 1 i) j = (j =? i).
Proof.
  intros Hi Hj. rewrite Z.shiftl_1_l, Z.pow2_bits_eqb by done. apply Z.eqb_sym.
Qed.

Lemma same_irq id j : 0 <= id -> 0 <= j -> (j =? id) = (j / 32 =? id / 32) && (j mod 32 =? id mod 32).
Proof.
  intros Hi Hj. pose proof (Z.div_mod j 32 ltac:(done)). pose proof (Z.div_mod id 32 ltac:(done)).
  destruct (Z.eqb_spec j id), (Z.eqb_spec (j / 32) (id / 32)), (Z.eqb_spec (j mod 32) (id mod 32)); subst; done || lia.
Qed.

Lemma irq_set_bit m id j : 0 <= id -> 0 <= j ->
  irq (set_bit m (id / 32) (Z.shiftl 1 (id mod 32))) j = (j =? id) || irq m j.
Proof.
  intros Hi Hj. rewrite same_irq by done. unfold irq, set_bit, word at 1.
  pose proof (Z.mod_pos_bound j 32 ltac:(done)). pose proof (Z.mod_pos_bound id 32 ltac:(done)).
  destruct (Z.eqb_spec (j / 32) (id / 32)) as [E|E]; cbn [andb orb].
  - rewrite E, lookup_insert_eq. cbn. rewrite Z.lor_spec, bit_mask by lia. apply orb_comm.
  - now rewrite lookup_insert_ne by congruence.
Qed.

Lemma irq_clear_bit m id j : 0 <= id -> 0 <= j ->
  irq (clear_bit m (id / 32) (Z.shiftl 1 (id mod 32))) j = negb (j =? id) && irq m j.
Proof.
  intros Hi Hj. rewrite same_irq by done. unfold irq, clear_bit, word at 1.
  pose proof (Z.mod_pos_bound j 32 ltac:(done)). pose proof (Z.mod_pos_bound id 32 ltac:(done)).
  destruct (Z.eqb_spec (j / 32) (id / 32)) as [E|E]; cbn [andb negb].
  - rewrite E, lookup_insert_eq. cbn. rewrite Z.ldiff_spec, bit_mask by lia. apply andb_comm.
  - now rewrite lookup_insert_ne by congruence.
Qed.

Lemma irq_insert m w x j : 0 <= j -> irq (<[w := x]> m) j = if j / 32 =? w then Z.testbit x (j mod 32) else irq m j.
Proof.
  intros Hj. unfold irq, word at 1. destruct (Z.eqb_spec (j / 32) w) as [->|E].
  - now rewrite lookup_insert_eq.
  - now rewrite lookup_insert_ne by congruence.
Qed.

Lemma word_insert m i x j : word (<[i := x]> m) j = if j =? i then x else word m j.
Proof.
  unfold word at 1. destruct (Z.eqb_spec j i) as [->|E]; [now rewrite lookup_insert_eq | now rewrite lookup_insert_ne by congruence].
Qed.

(** * The invariant *)

Record context_ok (c : plic_context_t) : Prop := mk_context_ok {
  pending_enabled : forall id, 0 <= id -> irq (pending c) id = true -> irq (enable c) id = true;
  claimed_enabled : forall id, 0 <= id -> irq (claimed c) id = true -> irq (enable c) id = true;
  zero_disabled : irq (enable c) 0 = false;
  threshold_range : 0 <= priority_threshold c <= 15;
  prio_range : forall id, 0 <= word (pending_priority c) id <= 15 }.

Record plic_wf (p : plic_t) : Prop := mk_plic_wf {
  words_enough : 0 < num_ids p <= 32 * num_ids_word p;
  prios_range : forall id, 0 <= word (priority p) id <= 15;
  contexts_ok : Forall context_ok (contexts p) }.

(** * The search for the best interrupt *)

(** Induction on a loop over [zseq]. *)
Lemma fold_zseq_ind {A} (P : Z -> A -> Prop) f n a : 0 <= n -> P 0 a ->
  (forall i a, 0 <= i < n -> P i a -> P (i + 1) (f a i)) -> P n (fold_left f (zseq n) a).
Proof.
  intros Hn H0. revert n Hn. apply (natlike_ind (fun n => _ -> P n _)); [done|]. intros n Hn IH HS.
  unfold Z.succ in *. rewrite zseq_app, fold_left_app by lia. change (zseq 1) with [0]. cbn. rewrite Z.add_0_r.
  apply HS; [lia|]. apply IH. intros i b Hi. apply HS. lia.
Qed.

Definition candidate (p : plic_t) (c : plic_context_t) (id : Z) : Prop :=
  0 <= id < num_ids p /\ irq (pending c) id = true /\ irq (claimed c) id = false.
Definition prio (c : plic_context_t) (id : Z) : Z := word (pending_priority c) id.

(** [id] beats every candidate below [k]: by priority, then by number. *)
Definition best_below (p : plic_t) (c : plic_context_t) (k id : Z) : Prop :=
  forall j, candidate p c j -> j < k -> prio c j < prio c id \/ prio c j = prio c id /\ id <= j.

Definition best_inv (p : plic_t) (c : plic_context_t) (k : Z) (best : Z * Z) : Prop :=
  (best = (0, 0) /\ forall j, candidate p c j -> k <= j) \/
  (best.1 <> 0 /\ candidate p c best.1 /\ best.1 < k /\ best.2 = prio c best.1 /\ best_below p c k best.1).

Lemma best_step_inv p c i j best : irq (pending c) 0 = false -> 0 <= i -> 0 <= j < 32 ->
  best_inv p c (i * 32 + j) best -> best_inv p c (i * 32 + j + 1) (best_step p c i j best).
Proof.
  intros H0 Hi Hj H. unfold best_step. destruct best as [b bp]. destruct (irq_parts i j Hj) as [E1 E2].
  set (id := i * 32 + j) in *.
  destruct ((num_ids p <=? id) || negb (Z.testbit (word (pending c) i) j) || Z.testbit (word (claimed c) i) j) eqn:E.
  - assert (Hc : ~ candidate p c id).
    { intros (Hr & Hp & Hcl). unfold irq in *. rewrite E1, E2 in *. rewrite Hp, Hcl in E.
      destruct (Z.leb_spec (num_ids p) id); [lia | done]. }
    destruct H as [[H1 H2]|(H1 & H2 & H3 & H4 & H5)]; [left | right].
    + split; [done|]. intros k Hk. specialize (H2 k Hk). destruct (decide (k = id)) as [->|]; [done | lia].
    + split_and!; [done | done | lia | done |]. intros k Hk Hlt. apply H5; [done|].
      destruct (decide (k = id)) as [->|]; [done | lia].
  - apply orb_false_iff in E as [E E3]. apply orb_false_iff in E as [E4 E5]. apply negb_false_iff in E5.
    assert (Hc : candidate p c id).
    { split_and!; [lia | lia | unfold irq; by rewrite E1, E2..]. }
    assert (Hz : id <> 0) by (intros Ez; destruct Hc as (_ & Hp & _); rewrite Ez, H0 in Hp; done).
    fold (prio c id). destruct H as [[[= -> ->] H2]|(H1 & H2 & H3 & H4 & H5)]; cbn [fst snd] in *.
    + cbn [Z.eqb orb]. right. cbn. split_and!; [done | done | lia | done |]. intros k Hk Hlt.
      specialize (H2 k Hk). replace k with id by lia. by right.
    + destruct (Z.eqb_spec b 0); [done|]. cbn [orb]. subst bp. destruct (Z.ltb_spec (prio c b) (prio c id)); right; cbn.
      * split_and!; [done | done | lia | done |]. intros k Hk Hlt. destruct (decide (k = id)) as [->|]; [by right|].
        specialize (H5 k Hk ltac:(lia)). lia.
      * split_and!; [done | done | lia | done |]. intros k Hk Hlt. destruct (decide (k = id)) as [->|]; [lia|].
        apply H5; [done | lia].
Qed.

Lemma best_loop_inv p c : plic_wf p -> context_ok c -> best_inv p c (num_ids_word p * 32) (best_loop p c).
Proof.
  intros Hp Hc. destruct (words_enough p Hp) as [Hn Hw].
  assert (H0 : irq (pending c) 0 = false).
  { apply not_true_iff_false. intros H. apply pending_enabled in H; [|done..]. now rewrite zero_disabled in H. }
  unfold best_loop. apply (fold_zseq_ind (fun k => best_inv p c (k * 32))); [lia | |].
  { left. split; [done|]. intros j Hj. apply Hj. }
  intros i best Hi H. destruct (Z.eqb_spec (word (pending c) i) 0) as [E|E].
  - assert (Hnc : forall j, candidate p c j -> j < (i + 1) * 32 -> j < i * 32).
    { intros j (_ & Hj & _) Hlt. apply Z.nle_gt. intros Hge. unfold irq in Hj.
      replace (j / 32) with i in Hj by (apply Z.div_unique with (j - i * 32); lia).
      now rewrite E, Z.bits_0 in Hj. }
    destruct H as [[H1 H2]|(H1 & H2 & H3 & H4 & H5)]; [left | right].
    + split; [done|]. intros j Hj. specialize (H2 j Hj). specialize (Hnc j Hj). lia.
    + split_and!; [done | done | lia | done |]. intros j Hj Hlt. apply H5; [done | by apply Hnc].
  - replace ((i + 1) * 32) with (i * 32 + 32) by lia.
    apply (fold_zseq_ind (fun k => best_inv p c (i * 32 + k))); [done | by rewrite Z.add_0_r |].
    intros j b Hj Hb. rewrite Z.add_assoc. apply best_step_inv; [done | lia | done | done].
Qed.

(** What the context presents: no interrupt above its threshold, or the pending
    and unclaimed one of the highest priority, the lowest number first. *)
Definition best_spec (p : plic_t) (c : plic_context_t) (id : Z) : Prop :=
  if id =? 0 then forall j, candidate p c j -> prio c j <= priority_threshold c
  else candidate p c id /\ priority_threshold c < prio c id /\
       forall j, candidate p c j -> prio c j < prio c id \/ prio c j = prio c id /\ id <= j.

Lemma best_pending_spec p c : plic_wf p -> context_ok c -> best_spec p c (context_best_pending p c).
Proof.
  intros Hp Hc. pose proof (best_loop_inv p c Hp Hc) as H. destruct (words_enough p Hp) as [Hn Hw].
  pose proof (threshold_range c Hc). unfold context_best_pending, best_spec.
  assert (Hall : forall j, candidate p c j -> j < num_ids_word p * 32) by (intros j Hj; destruct Hj; lia).
  destruct (best_loop p c) as [b bp]. destruct H as [[[= -> ->] H2]|(H1 & H2 & H3 & H4 & H5)]; cbn [fst snd] in *.
  - replace (0 <=? priority_threshold c) with true by (symmetry; apply Z.leb_le; lia). cbn.
    intros j Hj. specialize (H2 j Hj). specialize (Hall j Hj). lia.
  - subst bp. destruct (Z.leb_spec (prio c b) (priority_threshold c)).
    + cbn. intros j Hj. specialize (H5 j Hj (Hall j Hj)). lia.
    + destruct (Z.eqb_spec b 0); [done|]. split_and!; [apply H2.. | done |]. intros j Hj. apply H5; [done | by apply Hall].
Qed.

(** * Operations on a context *)

Lemma raise_pending_ok c id p : 0 <= id -> context_ok c -> irq (enable c) id = true -> 0 <= p <= 15 ->
  context_ok (raise_pending (id / 32) (Z.shiftl 1 (id mod 32)) id p c).
Proof.
  intros Hi [H1 H2 H3 H4 H5] He Hp. split; cbn; try done.
  - intros j Hj. rewrite irq_set_bit by done. destruct (Z.eqb_spec j id) as [->|]; [done | by apply H1].
  - intros j. rewrite word_insert. by destruct (j =? id).
Qed.

Lemma drop_pending_ok c id : 0 <= id -> context_ok c -> context_ok (drop_pending (id / 32) (Z.shiftl 1 (id mod 32)) id c).
Proof.
  intros Hi [H1 H2 H3 H4 H5]. split; cbn; try done.
  - intros j Hj. rewrite irq_clear_bit by done. intros [_ H]%andb_true_iff. by apply H1.
  - intros j Hj. rewrite irq_clear_bit by done. intros [_ H]%andb_true_iff. by apply H2.
  - intros j. rewrite word_insert. by destruct (j =? id).
Qed.

Lemma claim_ok p c : plic_wf p -> context_ok c -> context_ok (context_claim p c).1.2.
Proof.
  intros Hp Hc. pose proof (best_pending_spec p c Hp Hc) as Hb. unfold context_claim, best_spec, z2b in *.
  set (id := context_best_pending p c) in *. cbn. destruct (Z.eqb_spec id 0); cbn; [done|].
  destruct Hb as ((Hr & Hpd & _) & _). destruct Hc as [H1 H2 H3 H4 H5]. split; cbn; try done.
  intros j Hj. rewrite irq_set_bit by lia. destruct (Z.eqb_spec j id) as [->|]; [intros _; by apply H1 | by apply H2].
Qed.

Lemma context_read_ok p c offset : plic_wf p -> context_ok c -> context_ok (context_read p c offset).1.2.
Proof. intros Hp Hc. unfold context_read. repeat case_match; [done | by apply claim_ok | done]. Qed.

Lemma land_prio val : 0 <= val .& (Z.shiftl 1 PLIC_PRIO_BITS - 1) <= 15.
Proof. change (Z.shiftl 1 PLIC_PRIO_BITS - 1) with (Z.ones 4). rewrite Z.land_ones by done. pose proof (Z.mod_pos_bound val (2 ^ 4) ltac:(done)). lia. Qed.

Lemma context_write_ok p c offset val : 0 <= val -> context_ok c -> context_ok (context_write p c offset val).1.2.
Proof.
  intros Hv Hc. pose proof Hc as [H1 H2 H3 H4 H5]. unfold context_write. repeat case_match; cbn; try done.
  - split; cbn; try done. apply land_prio.
  - split; cbn; try done. intros j Hj. rewrite irq_clear_bit by done. intros [_ Hq]%andb_true_iff. by apply H2.
Qed.

(** The loop over the bits of an enable register: what is pending or claimed is
    enabled by the new value below the bit reached, by the old one from it on. *)
Definition enable_inv (w old new k : Z) (c0 c : plic_context_t) : Prop :=
  enable c = enable c0 /\ priority_threshold c = priority_threshold c0 /\
  (forall id, 0 <= word (pending_priority c) id <= 15) /\
  forall id, 0 <= id -> irq (pending c) id || irq (claimed c) id = true ->
    if id / 32 =? w then Z.testbit (if id mod 32 <? k then new else old) (id mod 32) = true
    else irq (enable c) id = true.

Lemma enable_step_inv p old new id c0 c : (forall id, 0 <= word (priority p) id <= 15) -> 0 <= id ->
  enable_inv (id / 32) old new (id mod 32) c0 c ->
  enable_inv (id / 32) old new (id mod 32 + 1) c0 (enable_step p (id / 32) old new (id mod 32) c).
Proof.
  intros Hprio Hid (H1 & H2 & H3 & H4). unfold enable_step. rewrite Z.lxor_spec.
  replace (id / 32 * 32 + id mod 32) with id by (pose proof (Z.div_mod id 32 ltac:(done)); lia).
  assert (Hstep : forall j, 0 <= j -> j <> id -> j / 32 = id / 32 -> (j mod 32 <? id mod 32 + 1) = (j mod 32 <? id mod 32)).
  { intros j Hj Hne Hd. pose proof (Z.div_mod j 32 ltac:(done)). pose proof (Z.div_mod id 32 ltac:(done)).
    destruct (Z.ltb_spec (j mod 32) (id mod 32 + 1)), (Z.ltb_spec (j mod 32) (id mod 32)); lia. }
  assert (Hlt : (id mod 32 <? id mod 32 + 1) = true) by (apply Z.ltb_lt; lia).
  assert (Hkeep : forall j, 0 <= j -> j <> id -> irq (pending c) j || irq (claimed c) j = true ->
    if j / 32 =? id / 32 then Z.testbit (if j mod 32 <? id mod 32 + 1 then new else old) (j mod 32) = true
    else irq (enable c) j = true).
  { intros j Hj Hne Hp. specialize (H4 j Hj Hp). destruct (Z.eqb_spec (j / 32) (id / 32)); [by rewrite Hstep | done]. }
  assert (Hnew : Z.testbit old (id mod 32) = Z.testbit new (id mod 32) \/ Z.testbit new (id mod 32) = true ->
                 enable_inv (id / 32) old new (id mod 32 + 1) c0 c).
  { intros Hb. split_and!; [done..|]. intros j Hj Hp. destruct (decide (j = id)) as [->|Hne]; [|by apply Hkeep].
    specialize (H4 id Hj Hp). rewrite Z.eqb_refl, Hlt, Z.ltb_irrefl in *. destruct Hb; congruence. }
  assert (Hpr : forall v, 0 <= v <= 15 -> forall j, 0 <= word (<[id:=v]> (pending_priority c)) j <= 15).
  { intros v Hv j. rewrite word_insert. by destruct (j =? id). }
  destruct (Z.testbit old (id mod 32)) eqn:Eo, (Z.testbit new (id mod 32)) eqn:En; cbn [xorb negb andb];
    try (apply Hnew; tauto).
  - split_and!; cbn; [done | done | by apply Hpr |].
    intros j Hj. rewrite !irq_clear_bit by lia. destruct (Z.eqb_spec j id) as [|Hne]; [done|]. by apply Hkeep.
  - destruct (Z.testbit (word (level p) (id / 32)) (id mod 32)); [|apply Hnew; tauto].
    split_and!; cbn; [done | done | by apply Hpr |].
    intros j Hj. rewrite irq_set_bit by lia. destruct (Z.eqb_spec j id) as [->|Hne]; [|by apply Hkeep].
    intros _. by rewrite Z.eqb_refl, Hlt.
Qed.

Lemma context_enable_write_ok p c offset val : plic_wf p -> context_ok c -> context_ok (context_enable_write p c offset val).1.
Proof.
  intros Hp Hc. pose proof Hc as [H1 H2 H3 H4 H5]. unfold context_enable_write.
  set (w := u32 (Z.shiftr offset 2)). destruct (num_ids_word p <=? w); [done|]. cbn [fst].
  assert (Hw : 0 <= w) by (by apply wrap_range). set (new := if w =? 0 then val &~ 1 else val). set (old := word (enable c) w).
  set (c1 := set_enable _ c).
  pose proof (fold_zseq_ind (fun k => enable_inv w old new k c1) (fun c i => enable_step p w old new i c) 32 c1 ltac:(done)) as H.
  set (c2 := fold_left _ (zseq 32) c1) in *. destruct H as (E1 & E2 & E3 & E4).
  - split_and!; [done..|]. intros id Hid Hp0. pose proof (Z.mod_pos_bound id 32 ltac:(done)).
    destruct (Z.ltb_spec (id mod 32) 0); [lia|]. cbn. rewrite irq_insert by done.
    assert (He : irq (enable c) id = true) by (apply orb_true_iff in Hp0 as [Hp0|Hp0]; [by apply H1 | by apply H2]).
    destruct (Z.eqb_spec (id / 32) w) as [<-|]; [exact He | done].
  - intros i a Hi. destruct (irq_parts w i Hi) as [Ew Ei]. pose proof (enable_step_inv p old new (w * 32 + i) c1 a) as Hs.
    rewrite Ew, Ei in Hs. apply Hs; [apply Hp | lia].
  - assert (Hall : forall id, 0 <= id -> irq (pending c2) id || irq (claimed c2) id = true -> irq (enable c1) id = true).
    { intros id Hid Hp0. specialize (E4 id Hid Hp0). rewrite E1 in E4. cbn. rewrite irq_insert by done.
      pose proof (Z.mod_pos_bound id 32 ltac:(done)) as [_ Hlt]. apply Z.ltb_lt in Hlt.
      destruct (id / 32 =? w) eqn:Ew; [by rewrite Hlt in E4|]. cbn in E4. rewrite irq_insert, Ew in E4 by done. done. }
    split; try (by rewrite E2); try done.
    + intros id Hid Hq. rewrite E1. apply Hall; [done | by rewrite Hq].
    + intros id Hid Hq. rewrite E1. apply Hall; [done | by rewrite Hq, orb_true_r].
    + rewrite E1. cbn. rewrite irq_insert by done. change (0 / 32) with 0. rewrite Z.eqb_sym.
      destruct (Z.eqb_spec w 0) as [Ew|]; [|done]. unfold new. now rewrite Z.ldiff_spec, andb_false_r.
Qed.

(** * Operations of the controller *)

Lemma on_context_wf {A} p cntx (f : plic_context_t -> A * plic_context_t * effects) r p' es :
  plic_wf p -> (forall c, context_ok c -> context_ok (f c).1.2) -> on_context p cntx f = Some (r, p', es) -> plic_wf p'.
Proof.
  intros [H1 H2 H3] Hf. unfold on_context. destruct (contexts p !! Z.to_nat cntx) as [c|] eqn:E; [|done].
  specialize (Hf c ltac:(by eapply Forall_lookup_1)). destruct (f c) as [[r0 c'] es']. intros [= <- <- <-].
  split; cbn; try done. by apply Forall_insert.
Qed.

Lemma priority_write_wf p offset val : plic_wf p -> plic_wf (priority_write p offset val).
Proof.
  intros [H1 H2 H3]. unfold priority_write. destruct (_ && _); [|done]. split; cbn; try done.
  intros id. rewrite word_insert. destruct (id =? _); [apply land_prio | done].
Qed.

Lemma deliver_ok p id lvl cs : plic_wf p -> 0 <= id -> Forall context_ok cs ->
  Forall context_ok (deliver p id (word (priority p) id) lvl cs).1.
Proof.
  intros Hp Hi H. induction H as [|c cs Hc Hcs IH]; cbn [deliver]; [done|].
  destruct (Z.testbit (word (enable c) (id / 32)) (id mod 32)) eqn:E; cbn.
  - constructor; [|done]. destruct lvl; [apply raise_pending_ok; try done; apply Hp | by apply drop_pending_ok].
  - destruct (deliver p id _ lvl cs). cbn in *. by constructor.
Qed.

Lemma set_interrupt_level_wf p id lvl : plic_wf p -> plic_wf (set_interrupt_level id lvl p).1.
Proof.
  intros Hp. unfold set_interrupt_level. destruct ((id <=? 0) || (num_ids p <=? id)) eqn:E; [done|].
  apply orb_false_iff in E as [E%Z.leb_gt _].
  set (p0 := set_level _ p). assert (Hp0 : plic_wf p0) by (destruct Hp; by split).
  pose proof (deliver_ok p0 id lvl (contexts p0) Hp0 ltac:(lia) (contexts_ok p0 Hp0)) as H.
  destruct (deliver p0 id (word (priority p0) id) lvl (contexts p0)) as [cs es]. destruct Hp as [H1 H2 H3]. by split.
Qed.

Lemma plic_load_word_wf addr p : plic_wf p -> plic_wf (plic_load_word addr p).1.2.
Proof.
  intros Hp. unfold plic_load_word. repeat case_match; cbn; try done; simplify_eq.
  - eapply on_context_wf; [done | | eassumption]. by intros c Hc.
  - eapply on_context_wf; [done | | eassumption]. intros c Hc. by apply context_read_ok.
Qed.

Lemma write_reg_nonneg size bytes : forall word addr, 0 <= word -> Forall (fun b => 0 <= b) bytes ->
  0 <= put_little_endian size word addr bytes.
Proof.
  induction bytes as [|b bytes IH]; intros w addr Hw Hb; cbn; [done|]. apply Forall_cons in Hb as [Hb Hbs].
  apply IH; [|done]. apply Z.lor_nonneg. split; [apply Z.ldiff_nonneg; tauto | by apply Z.shiftl_nonneg].
Qed.

(** The word a store puts in a register. *)
Abbreviation word_written addr bytes := (put_little_endian 4 0 addr bytes).

Lemma plic_store_word_wf addr bytes p : Forall (fun b => 0 <= b) bytes -> plic_wf p ->
  plic_wf (plic_store_word addr bytes p).1.2.
Proof.
  intros Hb Hp. unfold plic_store_word, store_reg, write_little_endian_reg. destruct (_ <=? 4); [|done].
  pose proof (write_reg_nonneg 4 bytes 0 addr ltac:(lia) Hb) as Hv. revert Hv. generalize (word_written addr bytes) as val. intros val Hv.
  repeat (case_match || match goal with r : bool * plic_t * effects |- _ => destruct r as [[? ?] ?] end); cbn; try done; simplify_eq.
  - by apply priority_write_wf.
  - eapply on_context_wf; [done | | eassumption]. intros c Hc. cbv beta.
    match goal with |- context [context_enable_write p c ?o ?v] =>
      pose proof (context_enable_write_ok p c o v Hp Hc) as H'; by destruct (context_enable_write p c o v) end.
  - eapply on_context_wf; [done | | eassumption]. intros c Hc. by apply context_write_ok.
Qed.

Lemma plic_load_wf addr len p : plic_wf p -> plic_wf (plic_load addr len p).1.2.
Proof.
  intros Hp. unfold plic_load. destruct (len =? 4); [by apply plic_load_word_wf|]. destruct (len =? 8); [|done].
  pose proof (plic_load_word_wf addr p Hp) as H. destruct (plic_load_word addr p) as [[[b1|] p1] e1]; [|done].
  cbn in H. pose proof (plic_load_word_wf (addr + 4) p1 H) as H2. by destruct (plic_load_word (addr + 4) p1) as [[r p2] e2].
Qed.

Lemma plic_store_wf addr bytes p : Forall (fun b => 0 <= b) bytes -> plic_wf p -> plic_wf (plic_store addr bytes p).1.2.
Proof.
  intros Hb Hp. unfold plic_store. destruct (_ =? 4); [by apply plic_store_word_wf|]. destruct (_ =? 8); [|done].
  pose proof (plic_store_word_wf addr (firstn 4 bytes) p ltac:(by apply Forall_take) Hp) as H.
  destruct (plic_store_word addr (firstn 4 bytes) p) as [[[|] p1] e1]; [|done].
  cbn in H. pose proof (plic_store_word_wf (addr + 4) (skipn 4 bytes) p1 ltac:(by apply Forall_drop) H) as H2.
  by destruct (plic_store_word (addr + 4) (skipn 4 bytes) p1) as [[r p2] e2].
Qed.

(** The controller keeps its invariant under every load and store and every
    change of a line: what is pending or claimed in a context is enabled there,
    interrupt 0 is never enabled, and priorities and thresholds fit their four
    bits. *)
Theorem plic_invariant p addr len bytes id lvl : plic_wf p -> Forall (fun b => 0 <= b) bytes ->
  plic_wf (plic_load addr len p).1.2 /\ plic_wf (plic_store addr bytes p).1.2 /\ plic_wf (set_interrupt_level id lvl p).1.
Proof. intros Hp Hb. split_and!; [by apply plic_load_wf | by apply plic_store_wf | by apply set_interrupt_level_wf]. Qed.

(** * Claimed interrupts *)

(** What happens to the controller. *)
Inductive plic_op : Type :=
| Load (addr len : Z)
| Store (addr : Z) (bytes : list Z)
| Line (id : Z) (lvl : bool).
Definition plic_step (p : plic_t) (op : plic_op) : plic_t :=
  match op with
  | Load addr len => (plic_load addr len p).1.2
  | Store addr bytes => (plic_store addr bytes p).1.2
  | Line id lvl => (set_interrupt_level id lvl p).1
  end.
Definition plic_run (ops : list plic_op) (p : plic_t) : plic_t := fold_left plic_step ops p.

Definition claim_register (k : nat) : Z := CONTEXT_BASE + Z.of_nat k * CONTEXT_PER_HART + CONTEXT_CLAIM.
Definition enable_register (k : nat) (id : Z) : Z := ENABLE_BASE + Z.of_nat k * ENABLE_PER_HART + 4 * (id / 32).

(** A word stored completes interrupt [id] in context [k], or disables it there. *)
Definition releases_word (k : nat) (id addr val : Z) : bool :=
  (addr =? claim_register k) && (val =? id) ||
  (4 * (addr / 4) =? enable_register k id) && negb (Z.testbit val (id mod 32)).
(** What may take the claim on [id] away from context [k]: a completion, a disabling,
    the fall of the line. *)
Definition releases (k : nat) (id : Z) (op : plic_op) : bool :=
  match op with
  | Load _ _ => false
  | Store addr bytes =>
      if Nat.eqb (length bytes) 4 then releases_word k id addr (word_written addr bytes)
      else if Nat.eqb (length bytes) 8 then
        releases_word k id addr (word_written addr (firstn 4 bytes)) ||
        releases_word k id (addr + 4) (word_written (addr + 4) (skipn 4 bytes))
      else false
  | Line j lvl => (j =? id) && negb lvl
  end.
Definition op_ok (op : plic_op) : Prop :=
  match op with Store addr bytes => 0 <= addr < 2 ^ 32 /\ Forall (fun b => 0 <= b) bytes | _ => True end.

(** Context [k] is there and holds a claim on [id]. *)
Definition holds (p : plic_t) (k : nat) (id : Z) : Prop :=
  exists c, contexts p !! k = Some c /\ irq (claimed c) id = true.

Lemma on_context_holds {A} p cntx (f : plic_context_t -> A * plic_context_t * effects) r p' es k id :
  holds p k id -> on_context p cntx f = Some (r, p', es) ->
  (forall c, contexts p !! k = Some c -> Z.to_nat cntx = k -> irq (claimed c) id = true -> irq (claimed (f c).1.2) id = true) ->
  holds p' k id.
Proof.
  intros (c0 & Hc0 & Hk) E Hf. unfold on_context in E.
  destruct (contexts p !! Z.to_nat cntx) as [c|] eqn:Ec; [|done].
  destruct (f c) as [[r1 c1] es1] eqn:Ef. injection E as <- <- <-.
  destruct (decide (Z.to_nat cntx = k)) as [E|E].
  - rewrite E in *. exists c1. split; [|simplify_eq; specialize (Hf c0 Hc0 eq_refl Hk); by rewrite Ef in Hf].
    cbn. rewrite list_lookup_insert_eq; [done|]. by apply lookup_lt_Some in Hc0.
  - exists c0. split; [|done]. cbn. by rewrite list_lookup_insert_ne.
Qed.

Lemma claim_keeps p c id : plic_wf p -> context_ok c -> 0 <= id -> irq (claimed c) id = true ->
  irq (claimed (context_claim p c).1.2) id = true.
Proof.
  intros Hp Hc Hid H. pose proof (best_pending_spec p c Hp Hc) as Hb. unfold context_claim, best_spec, z2b in *.
  set (best := context_best_pending p c) in *. cbn. destruct (Z.eqb_spec best 0); [done|]. cbn.
  destruct Hb as ((Hr & _) & _). rewrite irq_set_bit by lia. by rewrite H, orb_true_r.
Qed.

Lemma complete_keeps p c offset val id : 0 <= id -> 0 <= val ->
  ~ (offset = CONTEXT_CLAIM /\ val = id) -> irq (claimed c) id = true ->
  irq (claimed (context_write p c offset val).1.2) id = true.
Proof.
  intros Hid Hv Hn H. unfold context_write. destruct (_ =? _); [by case_match|].
  destruct (Z.eqb_spec offset CONTEXT_CLAIM); [|done]. case_match; [|done]. cbn.
  rewrite irq_clear_bit by lia. destruct (Z.eqb_spec id val); [naive_solver|done].
Qed.

Lemma enable_keeps p c offset val id : 0 < id ->
  ~ (u32 (Z.shiftr offset 2) = id / 32 /\ Z.testbit val (id mod 32) = false) -> irq (claimed c) id = true ->
  irq (claimed (context_enable_write p c offset val).1) id = true.
Proof.
  intros Hid Hn H. unfold context_enable_write. set (w := u32 _) in *. assert (0 <= w) by (by apply wrap_range).
  destruct (_ <=? w); [done|]. cbn [fst].
  set (new := if w =? 0 then val &~ 1 else val). set (old := word (enable c) w).
  assert (Hnew : w = id / 32 -> Z.testbit new (id mod 32) = true).
  { intros E. assert (Z.testbit val (id mod 32) = true) by (destruct (Z.testbit val (id mod 32)) eqn:Et; [done|by exfalso; apply Hn]). unfold new.
    destruct (Z.eqb_spec w 0) as [E0|]; [|done]. change 1 with (2 ^ 0). autorewrite with zbits.
    assert (id mod 32 <> 0) by (pose proof (Z.div_mod id 32); lia). replace (0 =? id mod 32) with false by lia. by rewrite andb_true_r. }
  apply (fold_zseq_ind (fun _ c => irq (claimed c) id = true)); [done|done|].
  intros i c' Hi Hc'. unfold enable_step. destruct (negb _); [done|]. destruct (_ && _); [done|].
  destruct (Z.testbit new i) eqn:En; [done|]. cbn [negb]. destruct (irq_parts w i Hi) as [E1 E2].
  set (j := w * 32 + i) in *. rewrite <- E1, <- E2. cbn. rewrite irq_clear_bit by lia.
  destruct (Z.eqb_spec id j) as [E|]; [|done]. exfalso. rewrite E, E1, E2 in Hnew. specialize (Hnew eq_refl). congruence.
Qed.

Lemma deliver_keeps p j prio lvl id k : 0 <= id -> 0 <= j -> ~ (j = id /\ lvl = false) ->
  forall cs c, cs !! k = Some c -> irq (claimed c) id = true ->
  exists c', (deliver p j prio lvl cs).1 !! k = Some c' /\ irq (claimed c') id = true.
Proof.
  intros Hid Hj Hn cs. revert k. induction cs as [|d cs IH]; intros k c Hk Hc; [done|]. cbn [deliver].
  destruct (Z.testbit _ _).
  - cbn. destruct k as [|k]; cbn in *; [|by exists c]. injection Hk as ->. eexists. split; [done|].
    destruct lvl; cbn; [done|]. rewrite irq_clear_bit by done. destruct (Z.eqb_spec id j); [naive_solver|done].
  - destruct (deliver p j prio lvl cs) as [cs' es] eqn:E. cbn in *. destruct k as [|k]; cbn in *.
    + injection Hk as ->. by exists c.
    + by apply (IH k c).
Qed.

Lemma load_word_holds addr p k id : plic_wf p -> 0 <= id -> holds p k id -> holds (plic_load_word addr p).1.2 k id.
Proof.
  intros Hp Hid H. unfold plic_load_word, load_reg.
  repeat (case_match || match goal with r : _ * plic_t * effects |- _ => destruct r as [[? ?] ?] end); cbn; try done; simplify_eq;
    (eapply on_context_holds; [done|eassumption|]); intros c Hc _ Hcl; first [exact Hcl|
      unfold context_read; destruct (_ =? _); [exact Hcl|]; destruct (_ =? _); [|exact Hcl];
      apply claim_keeps; try done; by eapply Forall_lookup_1; [apply Hp|] ].
Qed.

Lemma store_word_holds addr bytes p k id : Forall (fun b => 0 <= b) bytes -> 0 <= addr < 2 ^ 33 -> 0 < id ->
  releases_word k id addr (word_written addr bytes) = false ->
  holds p k id -> holds (plic_store_word addr bytes p).1.2 k id.
Proof.
  intros Hb Ha Hid Hr H. unfold plic_store_word, store_reg, write_little_endian_reg. destruct (_ <=? 4); [|done].
  pose proof (write_reg_nonneg 4 bytes 0 addr ltac:(lia) Hb) as Hv. revert Hv Hr.
  generalize (word_written addr bytes) as val. intros val Hv Hr.
  unfold releases_word in Hr. rewrite orb_false_iff, !andb_false_iff, negb_false_iff, !Z.eqb_neq in Hr.
  destruct (Z.ltb_spec addr ENABLE_BASE).
  { unfold priority_write. cbn. by destruct (_ && _). }
  destruct (Z.ltb_spec addr CONTEXT_BASE); [|destruct (Z.ltb_spec addr REG_SIZE); [|done]].
  - set (cntx := (addr - ENABLE_BASE) / ENABLE_PER_HART). set (off := addr - _).
    destruct (on_context _ _ _) as [[[r p'] es]|] eqn:E; [|done]. cbn.
    eapply on_context_holds; [done|exact E|]. intros c _ Hk Hcl.
    pose proof (enable_keeps p c off val id Hid) as Hkeep.
    cbv beta. destruct (context_enable_write p c off val) as [c' es']. cbn in *. apply Hkeep; [|done]. clear Hkeep.
    intros [E1 E2]. destruct Hr as [_ [Hr|Hr]]; [|congruence]. apply Hr. clear Hr.
    unfold enable_register. rewrite <- Hk, <- E1. unfold off, cntx, ENABLE_BASE, ENABLE_PER_HART in *.
    pose proof (Z.div_mod (addr - 0x2000) 0x80 ltac:(done)). pose proof (Z.mod_pos_bound (addr - 0x2000) 0x80 ltac:(done)).
    pose proof (Z.div_pos (addr - 0x2000) 0x80 ltac:(lia) ltac:(done)).
    rewrite Z2Nat.id, Z.shiftr_div_pow2 by lia. set (q := (addr - 0x2000) / 0x80) in *.
    rewrite wrap_small by (split; [apply Z.div_pos; lia|apply Z.div_lt_upper_bound; lia]). change (2 ^ 2) with 4.
    replace (addr / 4) with ((addr - (q * 0x80 + 0x2000)) / 4 + (q * 0x20 + 0x800)); [lia|].
    rewrite <- Z.div_add by done. f_equal. lia.
  - set (cntx := (addr - CONTEXT_BASE) / CONTEXT_PER_HART). set (off := addr - _).
    destruct (on_context _ _ _) as [[[r p'] es]|] eqn:E; [|done]. cbn.
    eapply on_context_holds; [done|exact E|]. intros c _ Hk Hcl.
    apply complete_keeps; [lia|done| |done]. intros [E1 E2]. destruct Hr as [[Hr|Hr] _]; [|congruence]. apply Hr.
    unfold claim_register. rewrite <- Hk, <- E1. unfold off, cntx, CONTEXT_BASE, CONTEXT_PER_HART in *.
    pose proof (Z.div_pos (addr - 0x200000) 0x1000 ltac:(lia) ltac:(done)). rewrite Z2Nat.id by lia. lia.
Qed.

Lemma op_holds p op k id : plic_wf p -> 0 < id -> op_ok op -> releases k id op = false -> holds p k id ->
  holds (plic_step p op) k id.
Proof.
  intros Hp Hid Ho Hr H. destruct op as [addr len|addr bytes|j lvl]; cbn in *.
  - unfold plic_load. destruct (len =? 4); [apply load_word_holds; done || lia|]. destruct (len =? 8); [|done].
    pose proof (load_word_holds addr p k id Hp ltac:(lia) H) as H1. pose proof (plic_load_word_wf addr p Hp) as Hw.
    destruct (plic_load_word addr p) as [[[b1|] p1] e1]; [|done].
    pose proof (load_word_holds (addr + 4) p1 k id Hw ltac:(lia) H1) as H2. by destruct (plic_load_word (addr + 4) p1) as [[r p2] e2].
  - destruct Ho as [Ha Hb]. unfold plic_store.
    replace (Z.of_nat (length bytes) =? 4) with (Nat.eqb (length bytes) 4) by (destruct (Nat.eqb_spec (length bytes) 4); lia).
    replace (Z.of_nat (length bytes) =? 8) with (Nat.eqb (length bytes) 8) by (destruct (Nat.eqb_spec (length bytes) 8); lia).
    destruct (Nat.eqb (length bytes) 4); [apply store_word_holds; done || lia|]. destruct (Nat.eqb (length bytes) 8); [|done].
    apply orb_false_iff in Hr as [Hr1 Hr2].
    pose proof (store_word_holds addr (firstn 4 bytes) p k id ltac:(by apply Forall_take) ltac:(lia) Hid Hr1 H) as H1.
    destruct (plic_store_word addr (firstn 4 bytes) p) as [[[|] p1] e1]; [|done].
    pose proof (store_word_holds (addr + 4) (skipn 4 bytes) p1 k id ltac:(by apply Forall_drop) ltac:(lia) Hid Hr2 H1) as H2.
    by destruct (plic_store_word (addr + 4) (skipn 4 bytes) p1) as [[r p2] e2].
  - unfold set_interrupt_level. destruct ((j <=? 0) || (num_ids p <=? j)) eqn:Ej; [done|].
    apply orb_false_iff in Ej as [Ej%Z.leb_gt _]. destruct H as (c & Hc & Hcl).
    set (p0 := set_level _ p). change (contexts p) with (contexts p0) in Hc.
    destruct (deliver_keeps p0 j (word (priority p0) j) lvl id k ltac:(lia) ltac:(lia)) with (cs := contexts p0) (c := c)
      as (c' & Hc' & Hk'); [|done|done|].
    + intros [-> ->]. by rewrite Z.eqb_refl in Hr.
    + change (contexts p) with (contexts p0). destruct (deliver _ _ _ _ _) as [cs es]. by exists c'.
Qed.

Lemma plic_step_wf p op : op_ok op -> plic_wf p -> plic_wf (plic_step p op).
Proof.
  intros Ho Hp. destruct op as [addr len|addr bytes|j lvl]; cbn in *;
    [by apply plic_load_wf|apply plic_store_wf; tauto|by apply set_interrupt_level_wf].
Qed.

Lemma run_holds ops k id : 0 < id -> Forall (fun op => op_ok op /\ releases k id op = false) ops ->
  forall p, plic_wf p -> holds p k id -> plic_wf (plic_run ops p) /\ holds (plic_run ops p) k id.
Proof.
  intros Hid. induction 1 as [|op ops [Ho Hr] _ IH]; intros p Hp H; [done|]. cbn.
  apply IH; [by apply plic_step_wf|by apply op_holds].
Qed.

(** What a context claims is not what it presents. *)
Lemma claimed_not_best p c id : plic_wf p -> context_ok c -> id <> 0 -> irq (claimed c) id = true ->
  context_best_pending p c <> id.
Proof.
  intros Hp Hc Hid H E. pose proof (best_pending_spec p c Hp Hc) as Hb. unfold best_spec in Hb. rewrite E in Hb.
  rewrite (proj2 (Z.eqb_neq id 0) Hid) in Hb. destruct Hb as ((_ & _ & Hcl1) & _). congruence.
Qed.

(** The load of the claim register of a context. *)
Lemma load_claim k c p : contexts p !! k = Some c -> claim_register k < REG_SIZE ->
  plic_load (claim_register k) 4 p =
  let '(id, c1, es) := context_claim p c in
  load_reg 4 id CONTEXT_CLAIM 4 (with_contexts (<[k := c1]> (contexts p)) p) es.
Proof.
  intros Hc Hk. unfold plic_load, plic_load_word. cbn [Z.eqb Pos.eqb].
  unfold claim_register, PENDING_BASE, ENABLE_BASE, CONTEXT_BASE, CONTEXT_PER_HART, CONTEXT_CLAIM, REG_SIZE in *.
  rewrite !(proj2 (Z.ltb_ge _ _)), (proj2 (Z.ltb_lt _ _)) by lia.
  assert ((0x200000 + Z.of_nat k * 0x1000 + 4 - 0x200000) / 0x1000 = Z.of_nat k) as ->
    by (symmetry; apply Z.div_unique with 4; lia).
  replace (0x200000 + Z.of_nat k * 0x1000 + 4 - (Z.of_nat k * 0x1000 + 0x200000)) with 4 by lia.
  unfold on_context. rewrite Nat2Z.id, Hc. unfold context_read. cbn [Z.eqb CONTEXT_THRESHOLD].
  change (4 =? CONTEXT_CLAIM) with true. cbv iota. by destruct (context_claim p c) as [[id c1] es].
Qed.

(** C35. The protocol of claim and completion.  A load of the claim register of a context
    answers the pending and unclaimed interrupt of the highest priority above the
    threshold, the lowest number first, or 0 when there is none, and the line to the
    hart follows what remains.  Whatever is then loaded, stored, raised or lowered, the
    context keeps its claim and does not answer that interrupt again, until it completes
    the interrupt, disables it, or the line of that interrupt falls.  The completion
    releases that interrupt and no other. *)
Theorem plic_claim_protocol p k c : plic_wf p -> contexts p !! k = Some c -> claim_register k < REG_SIZE ->
  let '(r, p1, es) := plic_load (claim_register k) 4 p in
  exists id c1, r = read_little_endian_reg 4 id CONTEXT_CLAIM 4 /\ p1 = with_contexts (<[k := c1]> (contexts p)) p /\
  best_spec p c id /\ context_ok c1 /\ es = context_update p c1 /\
  (id <> 0 ->
    (forall ops, Forall (fun op => op_ok op /\ releases k id op = false) ops ->
      exists c', contexts (plic_run ops p1) !! k = Some c' /\ irq (claimed c') id = true /\
        (context_claim (plic_run ops p1) c').1.1 <> id) /\
    exists c2, context_write p c1 CONTEXT_CLAIM id = (true, c2, context_update p c2) /\
      forall j, 0 <= j -> irq (claimed c2) j = irq (claimed c) j /\ irq (pending c2) j = irq (pending c) j).
Proof.
  intros Hp Hk Hreg. assert (Hc : context_ok c) by (by eapply Forall_lookup_1; [apply Hp|]).
  rewrite (load_claim k c) by done.
  pose proof (claim_ok p c Hp Hc) as Hc1. pose proof (best_pending_spec p c Hp Hc) as Hb.
  revert Hc1 Hb. unfold context_claim, z2b. generalize (context_best_pending p c) as best. intros best Hc1 Hb.
  set (c1 := if negb (best =? 0) then _ else c) in *. cbn [fst snd] in Hc1. unfold load_reg, read_little_endian_reg.
  cbn [Z.leb Z.compare Pos.compare Pos.compare_cont]. exists best, c1.
  do 5 (split; [done|]). intros Hz. unfold best_spec in Hb. rewrite (proj2 (Z.eqb_neq best 0) Hz) in Hb.
  destruct Hb as ((Hr & Hpd & Hcl) & _).
  assert (Hc1e : c1 = set_claimed (set_bit (claimed c) (best / 32) (Z.shiftl 1 (best mod 32))) c).
  { subst c1. by rewrite (proj2 (Z.eqb_neq best 0) Hz). }
  assert (Hid : irq (claimed c1) best = true) by (rewrite Hc1e; cbn; rewrite irq_set_bit, Z.eqb_refl by lia; done).
  split.
  - intros ops Hops. assert (Hw : plic_wf (with_contexts (<[k := c1]> (contexts p)) p)).
    { destruct Hp. split; [done..|]. by apply Forall_insert. }
    destruct (run_holds ops k best ltac:(lia) Hops _ Hw) as (Hw' & c' & Hc' & Hcl').
    { exists c1. split; [|done]. apply list_lookup_insert_eq. by apply lookup_lt_Some in Hk. }
    exists c'. split; [done|]. split; [done|]. apply claimed_not_best; try done. by eapply Forall_lookup_1; [apply Hw'|].
  - rewrite Hc1e. unfold context_write. cbn [Z.eqb CONTEXT_CLAIM CONTEXT_THRESHOLD].
    rewrite (proj2 (Z.ltb_lt best (num_ids p))) by lia.
    change (Z.testbit (word (enable (set_claimed _ c)) (best / 32)) (best mod 32)) with (irq (enable c) best).
    rewrite (pending_enabled c Hc best ltac:(lia) Hpd). cbn [andb]. eexists. split; [done|].
    intros j Hj. cbn. rewrite irq_clear_bit, irq_set_bit by lia. split; [|done].
    destruct (Z.eqb_spec j best) as [->|]; done.
Qed.

(** * Instances of the properties *)

(** A hart with an M-mode context, three devices, the second asking. *)
Definition small_plic : plic_t := new_plic [(0, false)] 3.
Lemma small_plic_wf : plic_wf small_plic.
Proof.
  split; [vm_compute; intuition discriminate | intros id; vm_compute; intuition discriminate|].
  constructor; [|constructor].
  split; try (intros id; vm_compute; intuition discriminate); try (vm_compute; intuition discriminate);
    intros id Hid; unfold irq, word; cbn; rewrite Z.bits_0; discriminate.
Qed.

Definition asking_plic : plic_t :=
  let p := (plic_store (PRIORITY_BASE + 8) [5; 0; 0; 0] small_plic).1.2 in
  let p := (plic_store ENABLE_BASE [14; 0; 0; 0] p).1.2 in (set_interrupt_level 2 true p).1.

Lemma plic_invariant_witness : plic_wf (plic_store ENABLE_BASE [14; 0; 0; 0] small_plic).1.2.
Proof.
  apply (plic_invariant small_plic ENABLE_BASE 0 [14; 0; 0; 0] 0 false small_plic_wf). repeat constructor; lia.
Defined.

Lemma asking_plic_wf : plic_wf asking_plic.
Proof. apply set_interrupt_level_wf, plic_store_wf, plic_store_wf, small_plic_wf; repeat constructor; lia. Qed.

Definition asking_context : plic_context_t := hd (mk_context 0 true 0 ∅ ∅ ∅ ∅) (contexts asking_plic).
Lemma asking_context_ok : context_ok asking_context.
Proof. destruct asking_plic_wf as [_ _ H]. by inversion H. Qed.

(** Device 2 asks, is claimed by context 0, raises its line again; the context then claims
    nothing. *)
Lemma plic_claim_protocol_witness :
  let p1 := (plic_load (claim_register 0) 4 asking_plic).1.2 in
  (plic_load (claim_register 0) 4 asking_plic).1.1 = Some [2; 0; 0; 0] /\
  exists c', contexts (plic_run [Line 2 true; Load PENDING_BASE 4] p1) !! 0%nat = Some c' /\
    (context_claim (plic_run [Line 2 true; Load PENDING_BASE 4] p1) c').1.1 <> 2.
Proof.
  assert (E : (plic_load (claim_register 0) 4 asking_plic).1.1 = Some [2; 0; 0; 0]) by (vm_compute; reflexivity).
  assert (Eb : context_best_pending asking_plic asking_context = 2) by (vm_compute; reflexivity).
  pose proof (plic_claim_protocol asking_plic 0 asking_context asking_plic_wf ltac:(vm_compute; reflexivity)
    ltac:(vm_compute; reflexivity)) as H.
  destruct (plic_load (claim_register 0) 4 asking_plic) as [[r p1] es]. cbn in E. subst r. split; [reflexivity|].
  destruct H as (id & c1 & Er & _ & Hb & _ & _ & H).
  assert (id = 2) as ->.
  { pose proof (best_pending_spec asking_plic asking_context asking_plic_wf asking_context_ok) as Hb'. rewrite Eb in Hb'.
    unfold best_spec in *. cbn in Hb'. destruct (Z.eqb_spec id 0) as [->|].
    - destruct Hb' as (Hc2 & Hlt & _). specialize (Hb 2 Hc2). lia.
    - destruct Hb as (Hc2 & _ & Hm), Hb' as (Hc3 & _ & Hm'). specialize (Hm 2 Hc3). specialize (Hm' id Hc2). lia. }
  destruct (H ltac:(lia)) as [Hk _]. destruct (Hk [Line 2 true; Load PENDING_BASE 4]) as (c' & Hc' & _ & Hn).
  { repeat constructor. }
  exists c'. split; [exact Hc'|exact Hn].
Defined.
