(* ===== verification/UartFacts.v ===== *)
(** Facts on the serial port: its queue is bounded, in loopback it hands back
    what was sent, in order, and what it identifies when two interrupts are
    pending. *)

From S2P Require Import Prelude IntArith Decode Encoding Trap Hart Pmp Devices Uart.

(** * Flags *)

Lemma has_flag_bit r mask k : mask = 2 ^ k -> 0 <= k -> has_flag r mask = Z.testbit r k.
Proof. intros -> Hk. now apply z2b_pow2. Qed.

Lemma flag_or r m mask k : mask = 2 ^ k -> 0 <= k -> has_flag (r .| m) mask = has_flag r mask || Z.testbit m k.
Proof. intros E Hk. rewrite !(has_flag_bit _ _ k) by done. apply Z.lor_spec. Qed.

Lemma flag_clear r m mask k : mask = 2 ^ k -> 0 <= k -> has_flag (r &~ m) mask = has_flag r mask && negb (Z.testbit m k).
Proof. intros E Hk. rewrite !(has_flag_bit _ _ k) by done. apply Z.ldiff_spec. Qed.

Ltac flags := rewrite ?(flag_or _ _ UART_LSR_BI 4), ?(flag_or _ _ UART_LSR_DR 0), ?(flag_clear _ _ UART_FCR_CLEAR_RCVR 1),
  ?(flag_clear _ _ UART_LSR_BI 4), ?(flag_clear _ _ UART_LSR_DR 0), ?(flag_or _ _ UART_LSR_TEMT 6),
  ?(flag_clear _ _ UART_FCR_CLEAR_XMIT 2) by done.

(** * Bound of the queue *)

Definition queue_ok (u : ns16550_t) : Prop := Z.of_nat (length (rx_queue u)) <= UART_QUEUE_SIZE.

Lemma clear_rx_queue u : rx_queue (clear_rx u) = if has_flag (fcr u) UART_FCR_CLEAR_RCVR then [] else rx_queue u.
Proof. unfold clear_rx. by destruct (has_flag _ _). Qed.
Lemma clear_tx_queue u : rx_queue (clear_tx u) = rx_queue u.
Proof. unfold clear_tx. by destruct (has_flag _ _). Qed.

Lemma update_interrupt_queue u :
  rx_queue (update_interrupt u).1 = if has_flag (fcr u) UART_FCR_CLEAR_RCVR then [] else rx_queue u.
Proof.
  transitivity (rx_queue (clear_tx (clear_rx u))); [|by rewrite clear_tx_queue, clear_rx_queue].
  unfold update_interrupt. generalize (clear_tx (clear_rx u)). intros v.
  destruct (z2b (pending_interrupts v)); cbn; by destruct (has_flag (ier v) UART_IER_THRI).
Qed.

Lemma update_interrupt_queue_ok u : queue_ok u -> queue_ok (update_interrupt u).1.
Proof. unfold queue_ok. rewrite update_interrupt_queue. destruct (has_flag _ _); [done | auto]. Qed.

Lemma updated_queue_ok es u : queue_ok u -> queue_ok (updated es u).1.2.
Proof. intros H. apply update_interrupt_queue_ok in H. unfold updated. by destruct (update_interrupt u). Qed.

Lemma rx_byte_queue_ok u : queue_ok u -> queue_ok (rx_byte u).2.
Proof.
  unfold queue_ok, rx_byte. intros H. destruct (rx_queue u) as [|b q] eqn:E; cbn; [by rewrite E|].
  destruct (has_flag _ _); cbn; [by rewrite E|]. destruct q; cbn in *; [done|lia].
Qed.

(** The receive queue never holds more than [UART_QUEUE_SIZE] bytes, whatever
    loads, stores and ticks do. *)
Theorem uart_queue_bound u addr len bytes rc : queue_ok u ->
  queue_ok (ns16550_load addr len u).1.2 /\ queue_ok (ns16550_store addr bytes u).1.2 /\ queue_ok (ns16550_tick rc u).1.
Proof.
  intros H. split_and!.
  - unfold ns16550_load. destruct (uart_register addr len u) as [r|]; [|done].
    destruct (r =? UART_RX); [|by repeat case_match].
    assert (Hq : queue_ok (if has_flag (lcr u) UART_LCR_DLAB then (dll u, u) else rx_byte u).2)
      by (destruct (has_flag _ _); [done | by apply rx_byte_queue_ok]).
    destruct (if has_flag (lcr u) UART_LCR_DLAB then _ else _) as [val v]. apply update_interrupt_queue_ok in Hq.
    cbn [snd] in Hq. by destruct (update_interrupt v).
  - unfold ns16550_store, tx_byte. destruct (uart_register _ _ u) as [r|]; [|done].
    repeat case_match; cbn; try done; try (by apply updated_queue_ok). apply updated_queue_ok.
    unfold queue_ok in *. cbn. rewrite length_app, Nat2Z.inj_add. cbn.
    repeat match goal with E : (_ <? _) = true |- _ => apply Z.ltb_lt in E end. lia.
  - unfold ns16550_tick. destruct (_ || _ || _) eqn:E; [done|]. apply orb_false_iff in E as [_ E].
    apply Z.leb_gt in E. destruct (_ && _); [done|]. destruct (_ <? 0); [done|].
    apply update_interrupt_queue_ok. unfold queue_ok in *. cbn. rewrite length_app, Nat2Z.inj_add. cbn. lia.
Qed.

(** * Loopback *)

(** The modes in which the port hands back what it is sent. *)
Record loopback (u : ns16550_t) : Prop := mk_loopback {
  lb_width : reg_io_width (ns_config u) = 1;
  lb_dlab : has_flag (lcr u) UART_LCR_DLAB = false;
  lb_loop : has_flag (mcr u) UART_MCR_LOOP = true;
  lb_break : has_flag (lsr u) UART_LSR_BI = false;
  lb_clear : has_flag (fcr u) UART_FCR_CLEAR_RCVR = false }.

Definition send (bytes : list Z) (u : ns16550_t) : ns16550_t :=
  fold_left (fun u b => (ns16550_store UART_TX [b] u).1.2) bytes u.
Fixpoint receive (n : nat) (u : ns16550_t) : list (option Z) * ns16550_t :=
  match n with
  | O => ([], u)
  | S n => let '(b, u, _) := ns16550_load UART_RX 1 u in
           let '(bs, u) := receive n u in (b :: bs, u)
  end.

Lemma update_interrupt_loopback u : loopback u ->
  loopback (update_interrupt u).1 /\ rx_queue (update_interrupt u).1 = rx_queue u.
Proof.
  intros Hu. split; [|by rewrite update_interrupt_queue, (lb_clear u Hu)]. destruct Hu as [H1 H2 H3 H4 H5].
  assert (Hc : clear_rx u = u) by (unfold clear_rx; by rewrite H5).
  assert (Hv : loopback (clear_tx u)).
  { unfold clear_tx. destruct (has_flag (fcr u) UART_FCR_CLEAR_XMIT); split; cbn; flags; rewrite ?H4, ?H5; done. }
  unfold update_interrupt. rewrite Hc. generalize dependent (clear_tx u). intros v [G1 G2 G3 G4 G5].
  destruct (z2b (pending_interrupts v)); cbn; destruct (has_flag (ier v) UART_IER_THRI);
    split; cbn; flags; rewrite ?G4; done.
Qed.

Lemma register_zero u : reg_io_width (ns_config u) = 1 -> uart_register 0 1 u = Some 0.
Proof. intros H. unfold uart_register. rewrite H, Z.shiftr_0_l. done. Qed.

Lemma store_loopback u b : loopback u -> Z.of_nat (length (rx_queue u)) < UART_QUEUE_SIZE ->
  let u' := (ns16550_store UART_TX [b] u).1.2 in loopback u' /\ rx_queue u' = rx_queue u ++ [b].
Proof.
  intros Hu Hl. set (v := set_lsr (lsr u .| UART_LSR_DR) (set_rx_queue (rx_queue u ++ [b]) u)).
  assert (E : (ns16550_store UART_TX [b] u).1.2 = (update_interrupt v).1).
  { unfold ns16550_store. cbn [length]. change UART_TX with 0 at 1. change (Z.of_nat 1) with 1.
    rewrite register_zero by apply Hu. cbn [Z.eqb UART_TX hd].
    rewrite (lb_dlab u Hu), (lb_loop u Hu), (proj2 (Z.ltb_lt _ _) Hl). unfold updated. fold v.
    by destruct (update_interrupt v). }
  cbn zeta. rewrite E. assert (Hv : loopback v).
  { destruct Hu as [H1 H2 H3 H4 H5]. split; cbn; flags; rewrite ?H4; done. }
  by apply update_interrupt_loopback in Hv as [Hv ->].
Qed.

Lemma load_loopback u b q : loopback u -> rx_queue u = b :: q ->
  let '(r, u', _) := ns16550_load UART_RX 1 u in r = Some b /\ loopback u' /\ rx_queue u' = q.
Proof.
  intros Hu Hl. unfold ns16550_load. change UART_RX with 0 at 1. rewrite register_zero by apply Hu.
  cbn [Z.eqb UART_RX]. rewrite (lb_dlab u Hu). unfold rx_byte. rewrite Hl, (lb_break u Hu).
  set (v := match q with [] => _ | _ => _ end). assert (Hv : loopback v /\ rx_queue v = q).
  { destruct Hu as [H1 H2 H3 H4 H5]. subst v. destruct q; (split; [split; cbn; flags; rewrite ?H4; done | done]). }
  clearbody v. destruct Hv as [Hv <-]. apply update_interrupt_loopback in Hv as [Hv Hq]. by destruct (update_interrupt v).
Qed.

Lemma send_loopback bytes : forall u, loopback u ->
  Z.of_nat (length (rx_queue u) + length bytes) <= UART_QUEUE_SIZE ->
  loopback (send bytes u) /\ rx_queue (send bytes u) = rx_queue u ++ bytes.
Proof.
  induction bytes as [|b bytes IH]; intros u Hu Hl; cbn [send fold_left length] in *; [by rewrite app_nil_r|].
  destruct (store_loopback u b Hu ltac:(lia)) as [H1 H2]. rewrite cons_middle, app_assoc, <- H2.
  apply IH; [done|]. rewrite H2, length_app. cbn. lia.
Qed.

Lemma receive_loopback q : forall u, loopback u -> rx_queue u = q ->
  let '(bs, u') := receive (length q) u in bs = map Some q /\ loopback u' /\ rx_queue u' = [].
Proof.
  induction q as [|b q IH]; intros u Hu Hq; cbn [receive length]; [done|].
  pose proof (load_loopback u b q Hu Hq) as H. destruct (ns16550_load UART_RX 1 u) as [[r u1] es].
  destruct H as (-> & H1 & H2). specialize (IH u1 H1 H2). destruct (receive (length q) u1) as [bs u2].
  destruct IH as (-> & H3 & H4). done.
Qed.

(** In loopback the port is a queue: the bytes sent, as long as they fit
    behind those already there, are read back unchanged and in order, and then
    it is empty. *)
Theorem uart_loopback_roundtrip u bytes : loopback u ->
  Z.of_nat (length (rx_queue u) + length bytes) <= UART_QUEUE_SIZE ->
  let '(bs, u') := receive (length (rx_queue u) + length bytes) (send bytes u) in
  bs = map Some (rx_queue u ++ bytes) /\ rx_queue u' = [].
Proof.
  intros Hu Hl. destruct (send_loopback bytes u Hu Hl) as [H1 H2].
  pose proof (receive_loopback _ _ H1 H2) as H. rewrite length_app in H.
  destruct (receive _ _) as [bs u']. destruct H as (-> & _ & ->). done.
Qed.

(** * Identification *)

(** With both its interrupts enabled and pending, received data and an empty
    transmitter, the port identifies neither: the two codes are or-ed into the
    code of a third interrupt, the receiver line status. *)
Theorem uart_identifies_neither u :
  has_flag (ier u) UART_IER_RDI = true -> has_flag (ier u) UART_IER_THRI = true ->
  has_flag (lsr u) UART_LSR_DR = true -> has_flag (lsr u) UART_LSR_TEMT = true ->
  has_flag (fcr u) UART_FCR_CLEAR_RCVR = false ->
  let '(v, es) := update_interrupt u in
  iir v = UART_IIR_RLSI /\ iir v <> UART_IIR_RDI /\ iir v <> UART_IIR_THRI /\
  es = [Irq (interrupt_id (ns_config u)) true].
Proof.
  intros H1 H2 H3 H4 H5. unfold update_interrupt.
  assert (Hc : clear_rx u = u) by (unfold clear_rx; by rewrite H5). rewrite Hc.
  assert (Hp : pending_interrupts (clear_tx u) = UART_IIR_RLSI /\ ns_config (clear_tx u) = ns_config u /\ ier (clear_tx u) = ier u).
  { unfold pending_interrupts, clear_tx. destruct (has_flag (fcr u) UART_FCR_CLEAR_XMIT); cbn; flags; by rewrite H1, H2, H3, H4. }
  destruct Hp as (-> & Ec & Ei). cbn. by rewrite Ei, Ec, H2.
Qed.

(** * Instances of the properties *)

Definition uart0 : ns16550_t := new_ns16550 (mk_ns16550_config 1 0 1 false).
Definition uart_loop : ns16550_t := (ns16550_store UART_MCR [UART_MCR_LOOP] uart0).1.2.

Lemma uart_queue_bound_witness : queue_ok (ns16550_tick 65 (ns16550_store UART_FCR [UART_FCR_ENABLE_FIFO] uart0).1.2).1.
Proof. apply (uart_queue_bound _ 0 0 [] 65). vm_compute. discriminate. Defined.

Lemma uart_loopback_roundtrip_witness :
  let '(bs, u) := receive 3 (send [72; 105; 33] uart_loop) in bs = map Some [72; 105; 33] /\ rx_queue u = [].
Proof.
  apply (uart_loopback_roundtrip uart_loop [72; 105; 33]); [split; reflexivity | vm_compute; discriminate].
Defined.

Lemma uart_identifies_neither_witness :
  iir (update_interrupt (set_lsr 0x61 (set_ier 3 uart0))).1 = UART_IIR_RLSI.
Proof.
  pose proof (uart_identifies_neither (set_lsr 0x61 (set_ier 3 uart0)) eq_refl eq_refl eq_refl eq_refl eq_refl) as H.
  destruct (update_interrupt _) as [v es]. apply H.
Defined.
