(* ===== verification/SimFacts.v ===== *)
(** Facts on the simulator: its loop ends, and runs the harts in turn, each for
    a slice of instructions, with a tick of the devices after each round; what
    is memory does not change while it runs. *)

From stdpp Require Import sorting.
From S2P Require Import Prelude IntArith Decode Encoding IsaExt Trap Hart Pmp Triggers Csr CsrFile Mmu.
From S2P Require Import Devices Clint Plic Uart Macros InsnList InsnTable Processor Sim DeviceFacts.

(** * The round robin *)

(** What the loop does, as a list of events. *)
Inductive event : Type := Run (p n : Z) | Yield (p : Z) | Tick (t : Z).

Section events.
Context {S : Type} (proc_step : Z -> Z -> S -> option S) (yield : Z -> S -> S) (tick : Z -> S -> S).
Definition run_event (e : event) (s : S) : option S :=
  match e with Run p n => proc_step p n s | Yield p => Some (yield p s) | Tick t => Some (tick t s) end.
Fixpoint run_events (es : list event) (s : S) : option S :=
  match es with [] => Some s | e :: es => s ← run_event e s; run_events es s end.
End events.

(** A run of [n] instructions as [n] runs of one. *)
Definition expand (e : event) : list event :=
  match e with Run p n => repeat (Run p 1) (Z.to_nat n) | e => [e] end.

(** The schedule: the instruction at position [q], counted from the beginning of
    a round, belongs to hart [q / INTERLEAVE] modulo the number of harts; after
    the last one of a slice the hart yields, and after the last slice of a round
    the devices tick. *)
Definition position_events (nprocs q : Z) : list event :=
  let p := (q / INTERLEAVE) mod nprocs in
  Run p 1 ::
  (if (q + 1) mod INTERLEAVE =? 0 then
     Yield p :: (if p =? nprocs - 1 then [Tick (INTERLEAVE / INSNS_PER_RTC_TICK)] else [])
   else []).
Definition schedule (nprocs q n : Z) : list event := flat_map (fun k => position_events nprocs (q + k)) (zseq n).

Lemma schedule_app N q n k : 0 <= n -> 0 <= k -> schedule N q (n + k) = schedule N q n ++ schedule N (q + n) k.
Proof.
  intros Hn Hk. unfold schedule. rewrite zseq_app, flat_map_app by done. f_equal.
  rewrite !flat_map_concat_map, map_map. f_equal. apply map_ext. intros i. f_equal. lia.
Qed.

Lemma schedule_S N q n : 0 <= n -> schedule N q (n + 1) = schedule N q n ++ position_events N (q + n).
Proof.
  intros Hn. rewrite schedule_app by lia. f_equal. unfold schedule. change (zseq 1) with [0]. cbn [flat_map].
  now rewrite app_nil_r, Z.add_0_r.
Qed.

(** Hart and step of a position. *)
Lemma position p c : 0 <= c < INTERLEAVE -> (p * INTERLEAVE + c) / INTERLEAVE = p /\ (p * INTERLEAVE + c) mod INTERLEAVE = c.
Proof.
  intros Hc. rewrite Z.div_add_l, Z.div_small, (Z.add_comm _ c), Z_mod_plus_full, Z.mod_small by (done || lia). lia.
Qed.

(** The events of a slice, before its end and to its end. *)
Lemma schedule_slice N p c n : 0 <= p < N -> 0 <= c -> 0 <= n -> c + n < INTERLEAVE ->
  schedule N (p * INTERLEAVE + c) n = expand (Run p n).
Proof.
  intros Hp Hc Hn. revert n Hn. apply (natlike_ind (fun n => c + n < INTERLEAVE -> schedule N _ n = _)); [done|].
  intros n Hn IH Hlt. unfold Z.succ in *. rewrite schedule_S, IH by lia. unfold position_events, expand.
  rewrite <- !Z.add_assoc. destruct (position p (c + n) ltac:(lia)) as [-> _]. rewrite Z.mod_small by lia.
  destruct (position p (c + (n + 1)) ltac:(lia)) as [_ ->]. rewrite (proj2 (Z.eqb_neq (c + (n + 1)) 0)) by lia.
  rewrite Z2Nat.inj_add, repeat_app by lia. done.
Qed.

Definition slice_end (N p : Z) : list event :=
  Yield p :: (if p =? N - 1 then [Tick (INTERLEAVE / INSNS_PER_RTC_TICK)] else []).

Lemma schedule_slice_end N p c n : 0 <= p < N -> 0 <= c -> 0 < n -> c + n = INTERLEAVE ->
  schedule N (p * INTERLEAVE + c) n = expand (Run p n) ++ slice_end N p.
Proof.
  intros Hp Hc Hn Hlt. replace n with (n - 1 + 1) at 1 by lia. rewrite schedule_S, schedule_slice by lia.
  unfold position_events, expand. rewrite <- !Z.add_assoc. destruct (position p (c + (n - 1)) ltac:(lia)) as [-> _].
  rewrite Z.mod_small by lia. replace (p * INTERLEAVE + (c + (n - 1 + 1))) with ((p + 1) * INTERLEAVE) by lia.
  rewrite Z_mod_mult. cbn [Z.eqb]. replace n with (n - 1 + 1) at 2 by lia. rewrite Z2Nat.inj_add, repeat_app, <- app_assoc by lia.
  done.
Qed.

(** The schedule repeats with every round. *)
Lemma schedule_round N q n : 0 < N -> schedule N (N * INTERLEAVE + q) n = schedule N q n.
Proof.
  intros HN. unfold schedule. rewrite !flat_map_concat_map. f_equal. apply map_ext. intros k. unfold position_events.
  replace ((N * INTERLEAVE + q + k) / INTERLEAVE) with (N + (q + k) / INTERLEAVE)
    by (rewrite <- Z.add_assoc, Z.div_add_l; done).
  replace ((N * INTERLEAVE + q + k + 1) mod INTERLEAVE) with ((q + k + 1) mod INTERLEAVE)
    by (rewrite <- (Z_mod_plus_full (q + k + 1) N INTERLEAVE); f_equal; lia).
  replace ((N + (q + k) / INTERLEAVE) mod N) with (((q + k) / INTERLEAVE) mod N); [done|].
  rewrite <- (Z_mod_plus_full ((q + k) / INTERLEAVE) 1 N). f_equal. lia.
Qed.

Definition follows (N q n : Z) (fuel : nat) (i p c n' : Z) : Prop :=
  exists es p' c',
    (forall S proc_step yield tick (s : S),
       sim_step_loop proc_step yield tick N fuel n' i p c s = option_map (pair (p', c')) (run_events proc_step yield tick es s)) /\
    flat_map expand es = schedule N q n /\ 0 <= p' < N /\ 0 <= c' < INTERLEAVE /\
    p' * INTERLEAVE + c' = (q + n) mod (N * INTERLEAVE).

(** One turn, then the rest. *)
Lemma follows_cons N q n fuel i p c n' turn i2 p2 c2 steps q2 :
  0 < N -> 0 <= steps -> 0 <= n - steps ->
  (forall S proc_step yield tick (s : S), sim_step_loop proc_step yield tick N (Datatypes.S fuel) n' i p c s =
    s ← run_events proc_step yield tick turn s; sim_step_loop proc_step yield tick N fuel n' i2 p2 c2 s) ->
  flat_map expand turn = schedule N q steps ->
  (q2 = q + steps \/ q + steps = N * INTERLEAVE + q2) ->
  follows N q2 (n - steps) fuel i2 p2 c2 n' -> follows N q n (Datatypes.S fuel) i p c n'.
Proof.
  intros HN Hs Hn Hrun Hturn Hq (es & p' & c' & H1 & H2 & H3 & H4 & H5). exists (turn ++ es), p', c'. split_and!; try lia.
  - intros S ps y t s. rewrite Hrun. clear Hrun Hturn. revert s. induction turn as [|e turn IH]; intros s; cbn; [apply H1|].
    destruct (run_event ps y t e s); [apply IH | done].
  - rewrite flat_map_app, Hturn, H2. replace n with (steps + (n - steps)) at 2 by lia. rewrite schedule_app by lia.
    f_equal. destruct Hq as [->|E]; [done|]. rewrite E. now rewrite schedule_round.
  - rewrite H5. destruct Hq as [->|E]; [f_equal; lia|].
    replace (q + n) with (q2 + (n - steps) + 1 * (N * INTERLEAVE)) by lia. now rewrite Z_mod_plus_full.
Qed.

Lemma sim_step_loop_follows fuel : forall N n i p c,
  0 <= p < N -> 0 <= c < INTERLEAVE -> 0 <= i -> 1 + Z.max 0 (n - i) <= Z.of_nat fuel ->
  follows N (p * INTERLEAVE + c) (Z.max 0 (n - i)) fuel i p c n.
Proof.
  induction fuel as [|fuel IH]; intros N n i p c Hp Hc Hi Hf; [lia|].
  destruct (Z.leb_spec n i) as [Hle|Hlt].
  { exists [], p, c. rewrite Z.max_l by lia. split_and!; try done; try lia.
    - intros S ps y t s. cbn [sim_step_loop]. now rewrite (proj2 (Z.leb_le n i)).
    - rewrite Z.add_0_r, Z.mod_small; [done|]. split; [unfold INTERLEAVE in *; lia|]. nia. }
  set (steps := Z.min (n - i) (INTERLEAVE - c)). assert (Hs : 0 < steps) by lia.
  assert (Hturn : forall S ps y t (s : S), sim_step_loop ps y t N (Datatypes.S fuel) n i p c s =
    s ← ps p steps s;
    if c + steps =? INTERLEAVE
    then if p + 1 =? N then sim_step_loop ps y t N fuel n (i + steps) 0 0 (t (INTERLEAVE / INSNS_PER_RTC_TICK) (y p s))
         else sim_step_loop ps y t N fuel n (i + steps) (p + 1) 0 (y p s)
    else sim_step_loop ps y t N fuel n (i + steps) p (c + steps) s).
  { intros S ps y t s. cbn [sim_step_loop]. rewrite (proj2 (Z.leb_gt n i)) by done. fold steps.
    by destruct (ps p steps s). }
  assert (Hn : Z.max 0 (n - i) - steps = Z.max 0 (n - (i + steps))) by lia.
  destruct (Z.eqb_spec (c + steps) INTERLEAVE) as [He|He].
  - pose proof (schedule_slice_end N p c steps Hp ltac:(lia) Hs He) as Hsched. unfold slice_end in Hsched.
    destruct (Z.eqb_spec (p + 1) N) as [Hr|Hr].
    + rewrite (proj2 (Z.eqb_eq p (N - 1))) in Hsched by lia.
      eapply (follows_cons N _ _ fuel i p c n [Run p steps; Yield p; Tick _] (i + steps) 0 0 steps 0); try lia.
      * intros S ps y t s. rewrite Hturn. cbn. by destruct (ps p steps s).
      * rewrite Hsched. cbn [flat_map expand]. now rewrite app_nil_r.
      * rewrite Hn. apply (IH N n (i + steps) 0 0); unfold INTERLEAVE in *; lia.
    + rewrite (proj2 (Z.eqb_neq p (N - 1))) in Hsched by lia.
      eapply (follows_cons N _ _ fuel i p c n [Run p steps; Yield p] (i + steps) (p + 1) 0 steps ((p + 1) * INTERLEAVE + 0)); try lia.
      * intros S ps y t s. rewrite Hturn. cbn. by destruct (ps p steps s).
      * rewrite Hsched. cbn [flat_map expand]. now rewrite ?app_nil_r.
      * rewrite Hn. apply IH; unfold INTERLEAVE in *; lia.
  - eapply (follows_cons N _ _ fuel i p c n [Run p steps] (i + steps) p (c + steps) steps (p * INTERLEAVE + (c + steps))); try lia.
    + intros S ps y t s. rewrite Hturn. cbn. by destruct (ps p steps s).
    + rewrite schedule_slice by lia. cbn [flat_map]. now rewrite app_nil_r.
    + rewrite Hn. apply IH; lia.
Qed.

(** C22. The loop of [sim_t::step] ends, for every number of instructions, and
    whatever the harts do it runs them by the schedule: hart after hart, each for
    [INTERLEAVE] instructions before it yields, a tick of the devices after the
    last; it leaves off where the schedule continues. *)
Theorem round_robin N n p c : 0 <= p < N -> 0 <= c < INTERLEAVE -> 0 <= n ->
  exists es p' c',
    (forall S proc_step yield tick (s : S),
       sim_step proc_step yield tick N n p c s = option_map (pair (p', c')) (run_events proc_step yield tick es s)) /\
    flat_map expand es = schedule N (p * INTERLEAVE + c) n /\ 0 <= p' < N /\ 0 <= c' < INTERLEAVE /\
    p' * INTERLEAVE + c' = (p * INTERLEAVE + c + n) mod (N * INTERLEAVE).
Proof.
  intros Hp Hc Hn. pose proof (sim_step_loop_follows (2 + Z.to_nat n) N n 0 p c Hp Hc ltac:(lia) ltac:(lia)) as H.
  rewrite Z.sub_0_r, Z.max_r in H by lia. exact H.
Qed.

(** * What is memory *)

(** A device by its place, its size and whether it is memory. *)
Definition is_mem (d : device) : bool := match d with Dev_mem _ => true | _ => false end.
Definition kind (d : device) : Z * bool := (device_size d, is_mem d).
Definition shape (b : bus_t device) : list (Z * (Z * bool)) := map (fun e => (e.1, kind e.2)) (devices b).

#[export] Instance device_ops_laws : device_laws device.
Proof.
  split; intros addr x d; destruct d as [r|m|c|p|u]; unfold dev_load, dev_store, device_ops, device_load, device_store.
  - by destruct (dev_load addr x r) as [[? ?] ?] eqn:E; injection E as <- <- <-.
  - pose proof (load_size addr x m). by destruct (dev_load addr x m) as [[? ?] ?].
  - by destruct (dev_load addr x c) as [[? ?] ?].
  - by destruct (dev_load addr x p) as [[? ?] ?].
  - by destruct (dev_load addr x u) as [[? ?] ?].
  - by destruct (dev_store addr x r) as [[? ?] ?] eqn:E; injection E as <- <- <-.
  - pose proof (store_size addr x m). by destruct (dev_store addr x m) as [[? ?] ?].
  - by destruct (dev_store addr x c) as [[? ?] ?].
  - by destruct (dev_store addr x p) as [[? ?] ?].
  - by destruct (dev_store addr x u) as [[? ?] ?].
Qed.

Lemma load_kind addr len d : kind (dev_load addr len d).1.2 = kind d.
Proof.
  unfold kind. f_equal; [exact (@load_size device device_ops device_ops_laws addr len d)|].
  destruct d; cbn; repeat case_match; simplify_eq; done.
Qed.
Lemma store_kind addr bytes d : kind (dev_store addr bytes d).1.2 = kind d.
Proof.
  unfold kind. f_equal; [exact (@store_size device device_ops device_ops_laws addr bytes d)|].
  destruct d; cbn; repeat case_match; simplify_eq; done.
Qed.
Lemma tick_kind t rc d : kind (device_tick t rc d).1.1 = kind d.
Proof. unfold device_tick. destruct d; cbn; repeat case_match; simplify_eq; done. Qed.

(** Well-formedness and the answer of [is_memory] are about the shape. *)
Lemma placed_shape (l1 l2 : list (Z * device)) :
  map (fun e => (e.1, kind e.2)) l1 = map (fun e => (e.1, kind e.2)) l2 -> Forall placed l1 -> Forall placed l2.
Proof.
  revert l2. induction l1 as [|[a d] l1 IH]; intros [|[a' d'] l2] E H; try done. injection E as -> E1 E2 E3.
  apply Forall_cons in H as [H H']. constructor; [|by apply IH].
  unfold placed, limit in *. cbn in *. by rewrite <- E1.
Qed.

Lemma sorted_shape (l1 l2 : list (Z * device)) :
  map (fun e => (e.1, kind e.2)) l1 = map (fun e => (e.1, kind e.2)) l2 ->
  StronglySorted before_of l1 -> StronglySorted before_of l2.
Proof.
  revert l2. induction l1 as [|[a d] l1 IH]; intros [|[a' d'] l2] E H; try done. injection E as -> E1 E2 E3.
  apply StronglySorted_cons in H as [H H']. apply StronglySorted_cons. split; [|by apply IH].
  clear IH H' E2. revert l2 E3. induction l1 as [|[b e] l1 IH]; intros [|[b' e'] l2] E; try done.
  injection E as -> _ _ E. apply Forall_cons in H as [H H']. constructor; [|by apply IH].
  unfold before_of, limit in *. cbn in *. by rewrite <- E1.
Qed.

Lemma bus_wf_shape b1 b2 : shape b1 = shape b2 -> bus_wf b1 -> bus_wf b2.
Proof. intros E [H1 H2]. split; [by eapply placed_shape | by eapply sorted_shape]. Qed.

Lemma upper_bound_shape addr l1 : forall l2 a1 a2,
  map (fun e => (e.1, kind e.2)) l1 = map (fun e => (e.1, kind e.2)) l2 ->
  map (fun e => (e.1, kind e.2)) a1 = map (fun e => (e.1, kind e.2)) a2 ->
  let r1 := upper_bound addr a1 l1 in let r2 := upper_bound addr a2 l2 in
  map (fun e => (e.1, kind e.2)) r1.1 = map (fun e => (e.1, kind e.2)) r2.1 /\
  map (fun e => (e.1, kind e.2)) r1.2 = map (fun e => (e.1, kind e.2)) r2.2.
Proof.
  induction l1 as [|[a d] l1 IH]; intros [|[a' d'] l2] a1 a2 E H; try done. injection E as -> E1 E2 E3. cbn.
  destruct (a' <=? addr).
  - apply IH; [done|]. cbn. unfold kind in *. congruence.
  - cbn. unfold kind in *. split; congruence.
Qed.

Lemma is_memory_shape b1 b2 a : shape b1 = shape b2 -> is_memory b1 a = is_memory b2 a.
Proof.
  intros E. unfold is_memory, find_device. set (x := u64 (Z.shiftl (Z.shiftr a PGSHIFT) PGSHIFT)).
  destruct ((PGSIZE =? 0) || _); [done|].
  destruct (upper_bound_shape x (devices b1) (devices b2) [] [] E eq_refl) as [H1 H2].
  destruct (upper_bound x [] (devices b1)) as [l1 r1]. destruct (upper_bound x [] (devices b2)) as [l2 r2].
  cbn [fst snd] in *.
  assert (Hr : (match r1 with (base, _) :: _ => base <=? u64 (x + PGSIZE - 1) | [] => false end) =
               (match r2 with (base, _) :: _ => base <=? u64 (x + PGSIZE - 1) | [] => false end)).
  { destruct r1 as [|[q e] r1], r2 as [|[q' e'] r2]; try done. by injection H2 as -> _ _ _. }
  rewrite Hr. set (next := match r2 with [] => false | _ => _ end). clearbody next.
  destruct l1 as [|[p d] l1], l2 as [|[p' d'] l2]; [by destruct next | discriminate H1 | discriminate H1 |].
  injection H1 as -> Es Em _. change (dev_size d) with (device_size d). change (dev_size d') with (device_size d').
  rewrite Es. destruct (_ <? device_size d'); [by destruct d, d'|]. by destruct (_ || _).
Qed.

(** Replacing a device by one of its kind keeps the shape. *)
Lemma update_device_shape base d d' b : bus_wf b -> In (base, d) (devices b) -> kind d' = kind d ->
  shape (update_device base d' b) = shape b.
Proof.
  intros [Hp Hs] Hi Hk. apply in_split in Hi as (l1 & l2 & E). unfold shape, update_device. cbn [devices]. rewrite E in *.
  apply Forall_app in Hp as [Hp _]. apply StronglySorted_app in Hs as (Hs & _ & _). rewrite map_insert_replace.
  - rewrite !map_app. cbn. by rewrite Hk.
  - apply Forall_forall. intros x Hx. rewrite Forall_forall in Hp. specialize (Hp x Hx).
    specialize (Hs x (base, d) Hx ltac:(by left)). unfold placed, before_of, limit in *; cbn [fst snd] in *; lia.
Qed.

Lemma deliver_effects_shape es : forall p, shape (pf_bus (deliver_effects es p)) = shape (pf_bus p).
Proof.
  assert (Hl : forall id lvl l, map (fun e => (e.1, kind e.2)) (set_line id lvl l).1 = map (fun e => (e.1, kind e.2)) l).
  { intros id lvl. induction l as [|[base d] l IH]; [done|]. cbn.
    destruct d as [r|m|c|q|u]; try (destruct (set_line id lvl l); cbn in *; by rewrite IH).
    by destruct (set_interrupt_level id lvl q). }
  induction es as [|e es IH]; intros p; [done|]. unfold deliver_effects in *. cbn [fold_left]. rewrite IH.
  destruct e as [i e|i lvl|c|]; [done | | done | done]. cbn. specialize (Hl i lvl (devices (pf_bus p))).
  destruct (set_line i lvl (devices (pf_bus p))). exact Hl.
Qed.

Lemma see_mip_shape i m p : shape (pf_bus (see_mip i m p)) = shape (pf_bus p).
Proof. unfold shape, see_mip. cbn. rewrite map_map. apply map_ext. intros [base d]. by destruct d. Qed.

Lemma acts_on_bus i p : pf_bus (acts_on i p).2 = pf_bus p.
Proof. done. Qed.

Lemma bus_access_shape b addr len bytes : bus_wf b -> 0 <= addr < 2 ^ 64 -> 0 <= len < 2 ^ 64 -> Z.of_nat (length bytes) = len ->
  shape (bus_load addr len b).1.2 = shape b /\ shape (bus_store addr bytes b).1.2 = shape b.
Proof.
  intros Hwf Ha Hl Hb. unfold bus_load, bus_store. rewrite Hb.
  pose proof (find_device_found b addr len Hwf Ha Hl) as H. destruct (find_device addr len b) as [base d| |]; [|split..].
  - destruct H as (Hi & _). pose proof (load_kind (u64 (addr - base)) len d) as Hx.
    pose proof (store_kind (u64 (addr - base)) bytes d) as Hy.
    destruct (dev_load _ _ _) as [[r1 d1] es1]. destruct (dev_store _ _ _) as [[r2 d2] es2].
    split; by apply (update_device_shape _ d).
  - by destruct (dev_load _ _ _) as [[r1 d1] es1].
  - by destruct (dev_store _ _ _) as [[r2 d2] es2].
  - done.
  - done.
Qed.

Lemma tick_device_shape t p base : bus_wf (pf_bus p) -> shape (pf_bus (tick_device t p base)) = shape (pf_bus p).
Proof.
  intros Hwf. unfold tick_device. destruct (list_find _ _) as [[i [base' d]]|] eqn:E; [|done].
  apply list_find_Some in E as (Hi & He & _). cbn in He. subst base'.
  pose proof (tick_kind t (hd (-1) (pf_input p)) d) as Hk. destruct (device_tick _ _ d) as [[d' es] polled].
  rewrite deliver_effects_shape. cbn. apply (update_device_shape _ d); [done | | done].
  apply list_elem_of_In. by eapply list_elem_of_lookup_2.
Qed.

(** What is memory stays memory: an access of any hart to the devices and a
    tick of the devices leave every device in its place, so [addr_to_mem] of the
    platform as it is answers what it did when the bus was built. *)
Theorem addr_to_mem_stable topology p id mip addr len bytes t a :
  bus_wf topology -> shape (pf_bus p) = shape topology -> 0 <= addr < 2 ^ 64 -> 0 <= len < 2 ^ 64 -> Z.of_nat (length bytes) = len ->
  let ok p' := shape (pf_bus p') = shape topology /\ is_memory (pf_bus p') a = is_memory topology a in
  ok (sim_t_mmio_load id mip addr len p).1.2 /\ ok (sim_t_mmio_store id mip addr bytes p).1.2 /\ ok (tick_devices t p).
Proof.
  intros Hwf Hs Ha Hl Hb ok.
  assert (Hok : forall p', shape (pf_bus p') = shape topology -> ok p') by (intros p' E; split; [done | by apply is_memory_shape]).
  assert (Hb0 : bus_wf (pf_bus (see_mip id mip p))).
  { apply (bus_wf_shape topology); [|done]. by rewrite see_mip_shape. }
  destruct (bus_access_shape _ addr len bytes Hb0 Ha Hl Hb) as [E1 E2]. rewrite see_mip_shape in E1, E2.
  split_and!; apply Hok; clear ok Hok.
  - unfold sim_t_mmio_load. destruct (_ <? _); [done|]. destruct (bus_load _ _ _) as [[r b] es].
    cbn [fst snd]. unfold acts_on. cbn. rewrite deliver_effects_shape. cbn in *. by rewrite E1.
  - unfold sim_t_mmio_store. destruct (_ <? _); [done|]. destruct (bus_store _ _ _) as [[r b] es].
    cbn [fst snd]. unfold acts_on. cbn. rewrite deliver_effects_shape. cbn in *. by rewrite E2.
  - unfold tick_devices. clear E1 E2 Hb0. generalize (pf_order p) as l. intros l. revert p Hs.
    induction l as [|base l IH]; intros p Hs; [done|]. cbn [fold_left]. apply IH. rewrite tick_device_shape; [done|].
    by apply (bus_wf_shape topology).
Qed.

(** * Instances of the properties *)

Lemma round_robin_witness : exists p' c',
  (forall s : list Z, option_map fst (sim_step (fun p n l => Some (l ++ [p; n])) (fun _ l => l) (fun t l => l ++ [- t]) 2 12000 0 4000 s) = Some (p', c')) /\
  p' * INTERLEAVE + c' = 6000.
Proof.
  destruct (round_robin 2 12000 0 4000) as (es & p' & c' & H1 & _ & _ & _ & H2);
    [lia | unfold INTERLEAVE; lia | lia |].
  exists p', c'. split; [|rewrite H2; reflexivity]. intros s. rewrite H1.
  assert (E : forall l, is_Some (run_events (fun p n l => Some (l ++ [p; n])) (fun _ l => l) (fun t l => l ++ [- t]) es l)).
  { clear. induction es as [|e es IH]; intros l; [by eexists|]. destruct e; cbn; apply IH. }
  destruct (E s) as [x ->]. done.
Defined.

(** The boot ROM at 0x1000, a serial port and memory at 0x80000000. *)
Definition small_platform : platform :=
  mk_platform (mk_bus [(0x1000, Dev_rom (mk_rom (boot_rom false false 0x80000000 [])));
                       (0x10000000, Dev_uart (new_ns16550 (mk_ns16550_config 1 0 1 false)));
                       (0x80000000, Dev_mem (mk_mem ∅ 0x10000))] (Dev_rom (mk_rom []))) [0x1000; 0x10000000; 0x80000000] [] [] [] false.

Lemma addr_to_mem_stable_witness :
  is_memory (pf_bus (sim_t_mmio_store 0 0 0x10000003 [3] small_platform).1.2) 0x80001234 = true /\
  is_memory (pf_bus (sim_t_mmio_store 0 0 0x10000003 [3] small_platform).1.2) 0x10000000 = false.
Proof.
  assert (Hwf : bus_wf (pf_bus small_platform)).
  { split; repeat constructor; try (vm_compute; intuition discriminate). }
  split.
  - destruct (addr_to_mem_stable (pf_bus small_platform) small_platform 0 0 0x10000003 1 [3] 50 0x80001234 Hwf eq_refl
      ltac:(lia) ltac:(lia) eq_refl) as (_ & [_ ->] & _). vm_compute. reflexivity.
  - destruct (addr_to_mem_stable (pf_bus small_platform) small_platform 0 0 0x10000003 1 [3] 50 0x10000000 Hwf eq_refl
      ltac:(lia) ltac:(lia) eq_refl) as (_ & [_ ->] & _). vm_compute. reflexivity.
Defined.
