(* ===== verification/Machine.v ===== *)
(** A concrete machine: a hart with the integer, compressed, bit-manipulation,
    cryptography, supervisor and hypervisor extensions, 64 KiB of RAM at
    [0x80000000], no devices and no triggers.  The witnesses of the theorems run on it. *)

From S2P Require Import Prelude Decode Encoding IsaExt Trap Hart InsnTable Processor.

Definition ext_set (l : list Z) : Z := fold_left (fun s e => bitset_set s e true) l 0.

Definition demo_letters : list Z := map ext_letter ["A"; "C"; "H"; "I"; "M"; "S"; "U"]%char.
Definition demo_extensions : list Z := [
  EXT_ZFH; EXT_ZFHMIN; EXT_ZBA; EXT_ZBB; EXT_ZBC; EXT_ZBS; EXT_ZBKB; EXT_ZBKC; EXT_ZBKX;
  EXT_ZCA; EXT_ZCB; EXT_ZKND; EXT_ZKNE; EXT_ZKNH; EXT_ZKSED; EXT_ZKSH; EXT_ZKR; EXT_ZMMUL;
  EXT_SMEPMP; EXT_SMSTATEEN; EXT_SSCOFPMF; EXT_SVADU; EXT_SVADE; EXT_SVNAPOT; EXT_SVPBMT;
  EXT_SVINVAL; EXT_ZFA; EXT_ZFBFMIN; EXT_ZICCID; EXT_ZICBOM; EXT_ZICBOZ; EXT_ZICNTR; EXT_ZICOND;
  EXT_ZIHPM; EXT_SSTC; EXT_ZAAMO; EXT_ZALRSC; EXT_ZACAS; EXT_ZABHA; EXT_ZAWRS; EXT_SMCSRIND;
  EXT_SSCSRIND; EXT_SMCNTRPMF; EXT_ZIMOP; EXT_ZCMOP; EXT_ZALASR; EXT_SSQOSID].

Definition demo_misa : Z := fold_left (fun s e => Z.lor s (Z.shiftl 1 (e - 65))) demo_letters (Z.shiftl 2 62).

Definition machine (xl table misa npmp : Z) : config := {|
  max_xlen := xl; max_isa := misa;
  isa_extension_table := table;
  n_pmp := npmp; lg_pmp_granularity := 2; cfg_misaligned := false; target_big_endian := false;
  cfg_VLEN := 0; cfg_ELEN := 0; cfg_zvf := false; cfg_zvd := false; any_custom_extensions := false; impl_table := fun s => s <=? IMPL_MMU_ASID;
  blocksz := 64; trigger_count := 0; hart_id := 0; seed_value := 0; cfg_slow := false; cfg_log := false |}.

Definition demo_config : config := machine 64 (ext_set (demo_letters ++ demo_extensions)) demo_misa 16.
Definition demo_config32 : config :=
  machine 32 (ext_set (demo_letters ++ demo_extensions)) (Z.lor (Z.land demo_misa 0x3ffffff) (Z.shiftl 1 30)) 16.

Definition demo_simif : simif := {|
  device_state := unit;
  addr_to_mem := fun a => (0x80000000 <=? a) && (a <? 0x80010000);
  reservable := fun a => (0x80000000 <=? a) && (a <? 0x80010000);
  sim_mmio_fetch := fun _ _ _ _ d => (None, d, []);
  sim_mmio_load := fun _ _ _ _ d => (None, d, []);
  sim_mmio_store := fun _ _ _ _ d => (false, d, []);
  tracer_interested := fun _ _ _ => false |}.

Definition no_triggers : trigger_module := {|
  trigger_state := unit;
  tdata1_read := fun _ _ _ => 0; tdata1_write := fun _ s _ _ => (false, s);
  tdata2_read := fun _ _ _ => 0; tdata2_write := fun _ s _ _ => (false, s);
  tdata3_read := fun _ _ _ => 0; tdata3_write := fun _ s _ _ => (false, s);
  tinfo_read := fun _ _ _ => 0;
  any_execute := fun _ => false; any_load := fun _ => false; any_store := fun _ => false; any_icount := fun _ => false;
  detect_memory_access_match := fun _ _ _ _ s => (None, s);
  detect_icount_match := fun _ s => (None, s);
  detect_trap_match := fun _ _ s => Some (None, s) |}.

(** The instructions outside the development raise an illegal instruction. *)
Definition no_other_insns `{!config, !simif, !trigger_module} : other_insns :=
  fun _ _ => throw (trap_illegal_instruction 0).

(** A hart just constructed and reset: every field is that of
    [processor_t]'s constructor, then [reset] runs. *)
Section boot.
Context `{!config, !simif, !trigger_module}.

Definition blank_mmu : mmu_t := mk_mmu ∅ ∅ ∅ ∅ UINT64_MAX false false false None.
Definition blank_hart (d : device_state) (t : trigger_state) : hart :=
  mk_hart 0 0 (regfile_reset 0 NXPR) (regfile_reset (0, 0) 32) ∅ [] dcsr_init ∅ ∅
    PRV_M PRV_M false false false false false false STEP_NONE NO_LP_EXPECTED false false
    isa_extension_table false HR_NONE false 0 false ∅ 0 vu_init blank_mmu ∅ d t.
Definition boot (d : device_state) (t : trigger_state) : hart := snd (reset (blank_hart d t)).

End boot.

Definition boot64 : @hart demo_simif no_triggers :=
  @boot demo_config demo_simif no_triggers tt tt.
Definition boot32 : @hart demo_simif no_triggers :=
  @boot demo_config32 demo_simif no_triggers tt tt.
