(* ===== verification/DecoderFacts.v ===== *)
(** Facts on decoding: the instruction table is unambiguous, the linear
    search picks the one instruction a word is an encoding of, and the opcode
    cache is invisible. *)

From S2P Require Import Prelude IntArith Decode Encoding IsaExt Trap Hart Pmp Csr CsrFile CsrInit Mmu Macros.
From S2P Require Import InsnsC InsnList InsnTable Processor Machine.

(** * The table *)

(** [overlaps] of [check-opcode-overlap.t.cc]. *)
Definition overlaps (a b : opcode_row) : bool :=
  row_mask a .& row_mask b .& Z.lxor (row_match a) (row_match b) =? 0.
Definition base_rows : list opcode_row := List.filter (fun r => negb (is_overlapping (row_name r))) insn_list.
Fixpoint pairwise {A} (f : A -> A -> bool) (l : list A) : bool :=
  match l with [] => true | a :: l => forallb (f a) l && pairwise f l end.

Lemma pairwise_In {A} (f : A -> A -> bool) l x y :
  pairwise f l = true -> In x l -> In y l -> x = y \/ f x y = true \/ f y x = true.
Proof.
  induction l as [|a l IH]; [easy|]. cbn [pairwise]. rewrite andb_true_iff, forallb_forall.
  intros [Ha Hl] [->|Hx] [->|Hy]; auto.
Qed.

Lemma base_rows_distinct : pairwise (fun a b => negb (overlaps a b)) base_rows = true.
Proof. vm_compute. reflexivity. Qed.

Lemma overlaps_of_match r1 r2 bits :
  bits .& row_mask r1 = row_match r1 -> bits .& row_mask r2 = row_match r2 -> overlaps r1 r2 = true.
Proof.
  intros H1 H2. unfold overlaps. apply Z.eqb_eq. rewrite <- H1, <- H2. bitwise.
Qed.

Lemma base_rows_In r : In r base_rows <-> In r insn_list /\ is_overlapping (row_name r) = false.
Proof. unfold base_rows. by rewrite filter_In, negb_true_iff. Qed.

Lemma unambiguous bits r1 r2 :
  In r1 base_rows -> In r2 base_rows ->
  desc_matches bits (desc_of r1) = true -> desc_matches bits (desc_of r2) = true -> r1 = r2.
Proof.
  intros H1 H2 M1 M2. apply Z.eqb_eq in M1, M2.
  destruct (pairwise_In _ _ r1 r2 base_rows_distinct) as [?|[H|H]]; auto.
  - by rewrite (overlaps_of_match r1 r2 bits) in H.
  - by rewrite (overlaps_of_match r2 r1 bits) in H.
Qed.

(** C19. The opcodes registered outside [overlap_list.h] are unambiguous: an
    instruction word is an encoding of at most one of them.  The program checks
    it at build time by [check-opcode-overlap.t.cc]. *)
Theorem decode_unambiguous r1 r2 bits :
  In r1 insn_list -> In r2 insn_list ->
  is_overlapping (row_name r1) = false -> is_overlapping (row_name r2) = false ->
  desc_matches bits (desc_of r1) = true -> desc_matches bits (desc_of r2) = true ->
  r1 = r2.
Proof.
  intros H1 H2 O1 O2. apply unambiguous; by apply base_rows_In.
Qed.

(** * The linear search *)

Lemma find_index_app {A} (f : A -> bool) l1 l2 i :
  find_index f (l1 ++ l2) i =
  match find_index f l1 i with Some j => Some j | None => find_index f l2 (i + Z.of_nat (List.length l1)) end.
Proof.
  revert i. induction l1 as [|a l1 IH]; intros i; cbn [find_index app List.length].
  - f_equal. lia.
  - destruct (f a); [done|]. rewrite IH. destruct (find_index f l1 (i + 1)); [done|]. f_equal. lia.
Qed.

Lemma find_index_some {A} (f : A -> bool) l i j :
  find_index f l i = Some j ->
  exists a l1 l2, l = l1 ++ a :: l2 /\ j = i + Z.of_nat (List.length l1) /\ f a = true /\ (forall b, In b l1 -> f b = false).
Proof.
  revert i. induction l as [|a l IH]; intros i; cbn [find_index]; [done|].
  destruct (f a) eqn:Ha.
  - intros [= <-]. exists a, [], l. repeat split; [cbn; lia|done|easy].
  - intros H. destruct (IH _ H) as (b & l1 & l2 & -> & -> & Hb & Hf).
    exists b, (a :: l1), l2. repeat split; [cbn [List.length]; lia|done|].
    intros c [<-|Hc]; auto.
Qed.

Lemma find_index_none {A} (f : A -> bool) l i :
  find_index f l i = None <-> (forall a, In a l -> f a = false).
Proof.
  revert i. induction l as [|a l IH]; intros i; cbn [find_index]; [easy|].
  destruct (f a) eqn:Ha.
  - split; [done|]. intros H. rewrite (H a) in Ha by (by left). done.
  - rewrite IH. split; [intros H b [<-|Hb]; auto|]. intros H b Hb. apply H. by right.
Qed.

(** The only opcode of the table with match word 0 is [c.addi4spn]. *)
Lemma match_zero r : In r insn_list -> row_match r = 0 -> row_name r = "c_addi4spn"%string.
Proof.
  intros Hr H0.
  assert (Hc : forallb (fun r => negb (row_match r =? 0) || String.eqb (row_name r) "c_addi4spn") insn_list = true)
    by (vm_compute; reflexivity).
  rewrite forallb_forall in Hc. specialize (Hc r Hr). rewrite H0 in Hc.
  by apply String.eqb_eq.
Qed.

Local Opaque insn_list overlap_list.

Section decoder.
Context `{cfg : !config, sim : !simif, trg : !trigger_module, oth : !other_insns}.

Definition overlapping_descs : list insn_desc_t :=
  flat_map (fun p =>
      if isa_extension_enabled (snd p)
      then map desc_of (List.filter (fun r => String.eqb (row_name r) (fst p)) insn_list) else [])
    overlap_list.

Lemma instructions_eq : instructions = overlapping_descs ++ map desc_of base_rows ++ [illegal_desc].
Proof. unfold instructions, overlapping_descs, base_rows. reflexivity. Qed.
Local Opaque base_rows.

Lemma overlapping_descs_In d :
  In d overlapping_descs -> exists r, In r insn_list /\ d = desc_of r /\ is_overlapping (row_name r) = true.
Proof.
  unfold overlapping_descs. rewrite in_flat_map. intros ([n x] & Hp & Hd). cbn [fst snd] in Hd.
  destruct (isa_extension_enabled x); [|easy].
  apply in_map_iff in Hd as (r & <- & Hr). apply filter_In in Hr as [Hr Hn].
  apply String.eqb_eq in Hn. exists r. repeat split; [done|].
  unfold is_overlapping. apply existsb_exists. exists (n, x). split; [done|].
  cbn [fst]. by rewrite Hn, String.eqb_refl.
Qed.

Lemma instructions_In d :
  In d instructions -> d = illegal_desc \/ exists r, In r insn_list /\ d = desc_of r.
Proof.
  rewrite instructions_eq, !in_app_iff, in_map_iff. intros [Hd|[(r & <- & Hr)|[Hd|Hd]]].
  - right. destruct (overlapping_descs_In d Hd) as (r & ? & ? & _). eauto.
  - right. exists r. split; [|done]. by apply base_rows_In in Hr as [? _].
  - by left.
  - easy.
Qed.

(** The search for a word that no registered overlapping opcode encodes finds
    the one opcode outside the list that it encodes. *)
Lemma search_base bits r :
  In r base_rows -> desc_matches bits (desc_of r) = true ->
  (forall d, In d overlapping_descs -> desc_matches bits d = false) ->
  exists d, find_index (desc_matches bits) instructions 0 = Some d /\ desc_at d = desc_of r.
Proof.
  intros Hr Hm Ho. rewrite instructions_eq, find_index_app.
  rewrite (proj2 (find_index_none _ overlapping_descs 0) Ho), find_index_app.
  destruct (find_index _ (map desc_of base_rows) _) as [j|] eqn:E.
  2: { rewrite find_index_none in E. rewrite E in Hm by by apply in_map. done. }
  exists j. split; [done|].
  apply find_index_some in E as (a & l1 & l2 & Hl & -> & Ha & _).
  assert (desc_at (0 + Z.of_nat (List.length overlapping_descs) + Z.of_nat (List.length l1)) = a) as ->.
  { unfold desc_at. rewrite instructions_eq, Hl.
    replace (Z.to_nat _) with (List.length (overlapping_descs ++ l1)) by (rewrite length_app; lia).
    rewrite <- (app_assoc l1), app_assoc. apply (nth_middle (overlapping_descs ++ l1)). }
  assert (In a (map desc_of base_rows)) as Hin by (rewrite Hl; apply in_or_app; right; by left).
  apply in_map_iff in Hin as (r' & <- & Hr').
  f_equal. by apply (unambiguous bits).
Qed.

(** The search always succeeds: the illegal instruction matches every word. *)
Lemma search_total bits : 0 <= bits -> exists d, find_index (desc_matches bits) instructions 0 = Some d.
Proof.
  intros Hb. destruct (find_index (desc_matches bits) instructions 0) eqn:E; [eauto|].
  rewrite find_index_none in E.
  assert (desc_matches bits illegal_desc = false) as H.
  { apply E. rewrite instructions_eq, !in_app_iff. right. right. by left. }
  unfold desc_matches in H. by rewrite Z.land_0_r in H.
Qed.

Lemma desc_at_found bits d :
  find_index (desc_matches bits) instructions 0 = Some d ->
  In (desc_at d) instructions /\ desc_matches bits (desc_at d) = true.
Proof.
  intros H. apply find_index_some in H as (a & l1 & l2 & Hl & -> & Ha & _).
  assert (desc_at (0 + Z.of_nat (List.length l1)) = a) as ->.
  { unfold desc_at. rewrite Hl, Z.add_0_l, Nat2Z.id. by rewrite nth_middle. }
  split; [|done]. rewrite Hl. apply in_or_app. right. by left.
Qed.

(** Decoding selects by opcode: a word that encodes an opcode outside
    [overlap_list.h], and none of the enabled overlapping ones, is decoded to
    that opcode wherever it stands in the table. *)
Theorem search_selects bits r :
  In r insn_list -> is_overlapping (row_name r) = false ->
  desc_matches bits (desc_of r) = true ->
  (forall p o, In p overlap_list -> isa_extension_enabled (snd p) = true ->
     In o insn_list -> row_name o = fst p -> desc_matches bits (desc_of o) = false) ->
  exists d, find_index (desc_matches bits) instructions 0 = Some d /\ desc_at d = desc_of r.
Proof.
  intros Hr Hno Hm Ho. apply search_base; [by apply base_rows_In|done|].
  intros d Hd. apply in_flat_map in Hd as (p & Hp & Hd).
  destruct (isa_extension_enabled (snd p)) eqn:E; [|easy].
  apply in_map_iff in Hd as (o & <- & Hoin). apply filter_In in Hoin as [Hoin Hn].
  apply String.eqb_eq in Hn. by apply (Ho p o).
Qed.

(** * The opcode cache *)

(** A tag of the cache stands for the search of its word; the tag 0 may be the
    one [reset] wrote, which stands for the illegal instruction. *)
Definition illegal_index : Z := Z.of_nat (List.length instructions) - 1.
Definition tag_ok (p : Z * Z) : Prop :=
  find_index (desc_matches (fst p)) instructions 0 = Some (snd p) \/ p = (0, illegal_index).
Definition cache_ok (h : hart) : Prop := forall idx, Forall tag_ok (cache_entry h idx).

Lemma cache_ok_empty h : opcode_cache h = ∅ -> cache_ok h.
Proof.
  intros He idx. unfold cache_entry. rewrite He, lookup_empty. cbn [default].
  apply Forall_replicate. by right.
Qed.

Lemma lookup_In entry bits d : opcode_cache_lookup entry bits = Some d -> In (bits, d) entry.
Proof.
  induction entry as [|[tag c] l IH]; cbn [opcode_cache_lookup]; [done|].
  destruct (Z.eqb_spec tag bits) as [->|]; [intros [= ->]; by left|]. intros Hl. right. by apply IH.
Qed.

Lemma cache_ok_insert h idx bits d :
  cache_ok h -> tag_ok (bits, d) ->
  cache_ok (set_opcode_cache (<[idx := opcode_cache_replace (cache_entry h idx) bits d]> (opcode_cache h)) h).
Proof.
  intros Hc Ht i. unfold cache_entry. cbn [opcode_cache set_opcode_cache].
  destruct (decide (idx = i)) as [->|Hne].
  - rewrite lookup_insert_eq. cbn [default]. unfold opcode_cache_replace.
    apply Forall_take. constructor; [done|apply Hc].
  - rewrite lookup_insert_ne by done. apply Hc.
Qed.

Lemma desc_at_illegal : desc_at illegal_index = illegal_desc.
Proof.
  unfold desc_at, illegal_index. rewrite instructions_eq, app_assoc, length_app. cbn [List.length].
  replace (Z.to_nat _) with (List.length (overlapping_descs ++ map desc_of base_rows)) by lia.
  apply nth_middle.
Qed.

Lemma body_c_addi4spn : body_of "c_addi4spn" = fun c => insn_c_addi4spn.
Proof. cbv [body_of insn_bodies List.find String.eqb Ascii.eqb Bool.eqb fst]. reflexivity. Qed.

(** The outcome of an instruction, without the hart it leaves. *)
Definition outcome_of (d : Z) (e : bool) (bits at_pc : Z) (h : hart) : outcome Z :=
  fst (call_func (mk_fetch d e bits) at_pc h).

Lemma zero_is_illegal d e at_pc h :
  find_index (desc_matches 0) instructions 0 = Some d \/ d = illegal_index ->
  outcome_of d e 0 at_pc h = Exc (Trap (trap_illegal_instruction 0)).
Proof.
  intros [Hd| ->]; unfold outcome_of, call_func; cbn [fetch_func fetch_insn fetch_rve].
  2: { by rewrite desc_at_illegal. }
  apply desc_at_found in Hd as [Hin Hm]. unfold desc_matches in Hm. rewrite Z.land_0_l in Hm.
  apply Z.eqb_eq in Hm. apply instructions_In in Hin as [->|(r & Hr & Hd)]; [done|].
  rewrite Hd. rewrite Hd in Hm. cbn [desc_of d_match d_name] in *.
  rewrite <- Hm, (match_zero r Hr) by done. cbn [String.eqb Ascii.eqb Bool.eqb].
  rewrite body_c_addi4spn.
  unfold run_insn, insn_c_addi4spn, zca, require_extension, require_state, catch, modify, bind, get_hart.
  cbn [fst]. unfold require at 1. by destruct (extension_enabled _ EXT_ZCA).
Qed.

(** C1. The opcode cache is invisible.  From a cache whose tags are right,
    [decode_insn] always succeeds, leaves the tags right and changes nothing
    else of the hart; the descriptor it returns is the one of the linear
    search, except that the word 0, which the tags of a reset entry seem to
    know, may come back as the illegal instruction, and the function called
    has the same outcome either way. *)
Theorem decode_insn_transparent bits h :
  cache_ok h -> 0 <= bits ->
  exists d d0 c,
    decode_insn bits h = (Val (d, extension_enabled h ext_E), set_opcode_cache c h) /\
    cache_ok (set_opcode_cache c h) /\
    find_index (desc_matches bits) instructions 0 = Some d0 /\
    (bits <> 0 -> d = d0) /\
    (forall e at_pc g, outcome_of d e bits at_pc g = outcome_of d0 e bits at_pc g).
Proof.
  intros Hc Hb. destruct (search_total bits Hb) as [d0 Hd0].
  assert (set_opcode_cache (opcode_cache h) h = h) as Hid by (by destruct h).
  unfold decode_insn, bind, get_hart, ret, modify. cbn beta iota.
  destruct (opcode_cache_lookup _ _) as [d|] eqn:El.
  - apply lookup_In in El. specialize (Hc (bits mod OPCODE_CACHE_SIZE)) as Hf.
    rewrite List.Forall_forall in Hf. destruct (Hf _ El) as [Hd|[= -> ->]]; cbn [fst snd] in *.
    + exists d0, d0, (opcode_cache h). rewrite Hid. assert (d = d0) as -> by congruence. auto.
    + exists illegal_index, d0, (opcode_cache h). rewrite Hid. repeat split; auto.
      * done.
      * intros e at_pc g. rewrite !zero_is_illegal by auto. done.
  - rewrite Hd0. exists d0, d0. eexists. split; [done|].
    split; [|auto]. by apply cache_ok_insert; [|left].
Qed.

End decoder.

(** * On the machine of [Machine] *)

#[local] Existing Instances demo_config demo_simif no_triggers no_other_insns.

(** [add a0, a0, a1] *)
Definition add_word : Z := 0x00b50533.
Definition add_row : opcode_row := ("add"%string, (MATCH_ADD, MASK_ADD)).

Lemma add_row_In : In add_row insn_list.
Proof. Local Transparent insn_list. left. reflexivity. Qed.

Lemma decode_unambiguous_witness :
  desc_matches add_word (desc_of add_row) = true /\ add_row = add_row.
Proof.
  split; [reflexivity|].
  apply (decode_unambiguous add_row add_row add_word); try reflexivity; apply add_row_In.
Defined.

Definition overlap_free (bits : Z) : bool :=
  forallb (fun p => implb (isa_extension_enabled (snd p))
    (forallb (fun o => implb (String.eqb (row_name o) (fst p)) (negb (desc_matches bits (desc_of o)))) insn_list))
    overlap_list.

Lemma overlap_free_spec bits :
  overlap_free bits = true ->
  forall p o, In p overlap_list -> isa_extension_enabled (snd p) = true ->
  In o insn_list -> row_name o = fst p -> desc_matches bits (desc_of o) = false.
Proof.
  unfold overlap_free. rewrite forallb_forall. intros Hf p o Hp He Ho Hn.
  specialize (Hf p Hp). rewrite He in Hf. cbn [implb] in Hf. rewrite forallb_forall in Hf.
  specialize (Hf o Ho). rewrite Hn, String.eqb_refl in Hf. cbn [implb] in Hf.
  by apply negb_true_iff.
Qed.

Lemma search_selects_witness :
  exists d, find_index (desc_matches add_word) instructions 0 = Some d /\ desc_at d = desc_of add_row.
Proof.
  apply (search_selects add_word add_row); [apply add_row_In|reflexivity|reflexivity|].
  apply overlap_free_spec. vm_compute. reflexivity.
Defined.

Lemma decode_insn_transparent_witness :
  exists d d0 c,
    decode_insn add_word boot64 = (Val (d, false), set_opcode_cache c boot64) /\
    cache_ok (set_opcode_cache c boot64) /\
    find_index (desc_matches add_word) instructions 0 = Some d0 /\
    (add_word <> 0 -> d = d0) /\
    (forall e at_pc g, outcome_of d e add_word at_pc g = outcome_of d0 e add_word at_pc g).
Proof.
  apply (decode_insn_transparent add_word boot64); [|unfold add_word; lia].
  apply cache_ok_empty. vm_compute. reflexivity.
Defined.
