(* ===== verification/CsrFacts.v ===== *)
(** Facts on the control and status registers: the legal values of [mstatus],
    the halves of a 64-bit register on RV32, interrupt priority, and what an
    access that is refused leaves behind. *)

From S2P Require Import Prelude IntArith Decode Encoding IsaExt Trap Hart Pmp Csr CsrFile CsrInit Mmu Macros.
From S2P Require Import InsnsPriv InsnTable Processor HartFacts Machine.

Section csr.
Context `{cfg : !config, sim : !simif, trg : !trigger_module}.

(** * mstatus *)

Lemma legalize_idem h p : legalize_privilege h (legalize_privilege h p) = legalize_privilege h p.
Proof.
  unfold legalize_privilege. destruct (extension_enabled h ext_U); [|done]. cbn [negb].
  destruct ((p =? PRV_HS) || ((p =? PRV_S) && negb (extension_enabled h ext_S))) eqn:E; [done|].
  by rewrite E.
Qed.

Lemma legalize_range h p : 0 <= p < 4 -> 0 <= legalize_privilege h p < 4.
Proof.
  intros Hp. unfold legalize_privilege.
  destruct (negb _); [done|]. by destruct (_ || _).
Qed.

Lemma MPP_field : is_field MSTATUS_MPP 2 11.
Proof. done. Qed.

(** [FS], [VS] or [XS] is dirty. *)
Definition some_dirty (s : Z) : bool :=
  (get_field s MSTATUS_FS =? 3) || (get_field s MSTATUS_VS =? 3) || (get_field s MSTATUS_XS =? 3).

Lemma legalize_not_hs h p : legalize_privilege h p <> PRV_HS.
Proof.
  unfold legalize_privilege. destruct (negb _); [done|].
  destruct (Z.eqb_spec p PRV_HS); [done|]. by destruct (_ && _).
Qed.

(** A two-bit field is full when all its bits are set. *)
Lemma land_full s m l : is_field m 2 l -> (s .& m =? m) = (get_field s m =? 3).
Proof.
  intros Hf. pose proof Hf as (_ & Hl & _). apply eq_true_iff_eq. rewrite !Z.eqb_eq.
  change 3 with (Z.ones 2). split; intros H; apply Z.bits_inj'; intros i Hi.
  - rewrite (get_field_bit _ _ 2 l), tb_ones by (done || lia). destruct (Z.ltb_spec i 2); [|done].
    apply (f_equal (fun z => Z.testbit z (i + l))) in H. rewrite Z.land_spec, (field_bit m 2 l) in H by (done || lia).
    replace ((l <=? i + l) && (i + l <? l + 2)) with true in H by lia. by rewrite andb_true_r in H.
  - rewrite Z.land_spec, (field_bit m 2 l) by done.
    destruct (Z.leb_spec l i), (Z.ltb_spec i (l + 2)); cbn [andb]; try btauto.
    apply (f_equal (fun z => Z.testbit z (i - l))) in H.
    rewrite (get_field_bit _ _ 2 l), tb_ones, Z.sub_add in H by (done || lia).
    replace (i - l <? 2) with true in H by lia. cbn [andb] in H. by rewrite H.
Qed.

Lemma sd_bit_cases : sd_bit = 2 ^ 63 \/ sd_bit = 2 ^ 31.
Proof. unfold sd_bit. destruct (xlen =? 64); [by left|by right]. Qed.

(** [adjust_sd] changes no other bit, and makes SD the summary. *)
Lemma adjust_sd_land s m : m .& sd_bit = 0 -> adjust_sd s .& m = s .& m.
Proof.
  intros Hm. unfold adjust_sd. apply Z.bits_inj'. intros i Hi.
  apply (f_equal (fun z => Z.testbit z i)) in Hm. rewrite Z.land_spec, Z.bits_0 in Hm.
  destruct (_ || _ || _); autorewrite with zbits;
    destruct (Z.testbit m i); cbn [andb] in Hm; rewrite ?Hm; btauto.
Qed.

Lemma sd_apart m : m .& (2 ^ 63 .| 2 ^ 31) = 0 -> m .& sd_bit = 0.
Proof.
  intros Hm. apply Z.bits_inj'. intros i Hi. rewrite Z.land_spec, Z.bits_0.
  apply (f_equal (fun z => Z.testbit z i)) in Hm. rewrite Z.land_spec, Z.lor_spec, Z.bits_0 in Hm.
  destruct (Z.testbit m i); [|done]. cbn [andb] in *. apply orb_false_iff in Hm as [H1 H2].
  destruct sd_bit_cases as [E|E]; rewrite E; assumption.
Qed.

Lemma adjust_sd_field s m : m .& (2 ^ 63 .| 2 ^ 31) = 0 -> get_field (adjust_sd s) m = get_field s m.
Proof. intros. by apply get_field_ext, adjust_sd_land, sd_apart. Qed.

Lemma adjust_sd_summary s : z2b (adjust_sd s .& sd_bit) = some_dirty (adjust_sd s).
Proof.
  unfold some_dirty. rewrite !adjust_sd_field by done.
  rewrite <- !(land_full _ _ 13), <- !(land_full _ _ 9), <- !(land_full _ _ 15) by done. unfold adjust_sd.
  destruct ((s .& SSTATUS_FS =? SSTATUS_FS) || (s .& SSTATUS_VS =? SSTATUS_VS) || (s .& SSTATUS_XS =? SSTATUS_XS)) eqn:E;
    change SSTATUS_FS with MSTATUS_FS in E; change SSTATUS_VS with MSTATUS_VS in E;
    change SSTATUS_XS with MSTATUS_XS in E; rewrite E;
    destruct sd_bit_cases as [-> | ->]; rewrite z2b_pow2 by lia; autorewrite with zbits; rewrite ?Z.eqb_refl; btauto.
Qed.

Lemma mstatus_read_write val h : mstatus_read (mstatus_write val h) = adjust_sd (mstatus_new h val).
Proof. unfold mstatus_read, mstatus_write. by rewrite csr_raw_set_eq. Qed.

(** The double-trap bits clear the interrupt enables, and nothing else. *)
Lemma mstatus_new_bits h val i :
  0 <= i -> Z.testbit (mstatus_new h val) i =
  (if Z.testbit (mstatus_mask h) i
   then Z.testbit (set_field val MSTATUS_MPP (legalize_privilege h (get_field val MSTATUS_MPP))) i
   else Z.testbit (mstatus_read h) i)
  && negb ((i =? 3) && z2b (mstatus_new h val .& MSTATUS_MDT))
  && negb ((i =? 1) && z2b (mstatus_new h val .& MSTATUS_SDT)).
Proof.
  intros Hi. unfold mstatus_new.
  set (x := (mstatus_read h &~ mstatus_mask h) .| _).
  assert (Z.testbit x i =
    if Z.testbit (mstatus_mask h) i
    then Z.testbit (set_field val MSTATUS_MPP (legalize_privilege h (get_field val MSTATUS_MPP))) i
    else Z.testbit (mstatus_read h) i) as <-.
  { subst x. autorewrite with zbits. destruct (Z.testbit (mstatus_mask h) i); btauto. }
  change MSTATUS_MDT with (2 ^ 42). change MSTATUS_SDT with (2 ^ 24).
  change MSTATUS_MIE with (2 ^ 3). change MSTATUS_SIE with (2 ^ 1).
  rewrite !z2b_pow2 by lia.
  destruct (Z.testbit x 42) eqn:E1, (Z.testbit x 24) eqn:E2; autorewrite with zbits; rewrite ?E1, ?E2;
    autorewrite with zbits; rewrite ?E1, ?E2; const_cmp;
    rewrite ?(Z.eqb_sym 3), ?(Z.eqb_sym 1); btauto.
Qed.

(** Bits outside the mask keep their value. *)
Lemma mstatus_write_other val h i :
  0 <= i -> Z.testbit (mstatus_mask h .| MSTATUS_SIE .| sd_bit) i = false ->
  Z.testbit (mstatus_read (mstatus_write val h)) i = Z.testbit (mstatus_read h) i.
Proof.
  intros Hi. rewrite mstatus_read_write, !Z.lor_spec, !orb_false_iff. intros [[Hm Hs] Hsd].
  transitivity (Z.testbit (mstatus_new h val) i).
  { unfold adjust_sd. destruct (_ || _ || _); autorewrite with zbits; rewrite Hsd; btauto. }
  rewrite mstatus_new_bits, Hm by lia.
  destruct (Z.eqb_spec i 3) as [->|].
  { revert Hm. unfold mstatus_mask. autorewrite with zbits. const_bits. done. }
  destruct (Z.eqb_spec i 1) as [->|]; [done|]. by rewrite !andb_true_r.
Qed.

Lemma mask_MPP h i : 11 <= i < 13 -> Z.testbit (mstatus_mask h) i = true.
Proof.
  intros Hi. assert (i = 11 \/ i = 12) as [-> | ->] by lia;
    unfold mstatus_mask; autorewrite with zbits; const_bits; btauto.
Qed.

(** A field inside the write mask, apart from MPP and the interrupt enables,
    reads as it was written. *)
Lemma mstatus_write_field val h m w l :
  is_field m w l -> l + w <= 31 \/ 32 <= l -> l + w <= 63 ->
  l + w <= 11 \/ 13 <= l ->
  (forall i, l <= i < l + w -> i <> 1 /\ i <> 3 /\ Z.testbit (mstatus_mask h) i = true) ->
  get_field (mstatus_read (mstatus_write val h)) m = get_field val m.
Proof.
  intros Hf Hs1 Hs2 Hmpp Hm. rewrite mstatus_read_write.
  apply Z.bits_inj'. intros i Hi. rewrite !(get_field_bit _ m w l) by done.
  destruct (Z.ltb_spec i w); [|done]. cbn [andb].
  pose proof Hf as (_ & Hl & Hw & _). destruct (Hm (i + l)) as (H1 & H3 & Hmask); [lia|].
  transitivity (Z.testbit (mstatus_new h val) (i + l)).
  { unfold adjust_sd. destruct (_ || _ || _); autorewrite with zbits;
      destruct sd_bit_cases as [E|E]; rewrite E, Z.pow2_bits_false by lia; btauto. }
  rewrite mstatus_new_bits, Hmask by lia.
  rewrite (set_field_spec _ MSTATUS_MPP 2 11) by (done || lia).
  replace ((11 <=? i + l) && (i + l <? 11 + 2)) with false by lia.
  replace (i + l =? 3) with false by lia. replace (i + l =? 1) with false by lia. by rewrite !andb_true_r.
Qed.

Lemma mstatus_write_MPP val h :
  get_field (mstatus_read (mstatus_write val h)) MSTATUS_MPP = legalize_privilege h (get_field val MSTATUS_MPP).
Proof.
  rewrite mstatus_read_write, adjust_sd_field by done.
  rewrite <- (get_set_field val MSTATUS_MPP 2 11 (legalize_privilege h (get_field val MSTATUS_MPP))).
  3: { apply legalize_range, (get_field_range val MSTATUS_MPP 2 11). done. }
  2: { done. }
  apply Z.bits_inj'. intros i Hi. rewrite !(get_field_bit _ MSTATUS_MPP 2 11) by done.
  destruct (Z.ltb_spec i 2); [|done]. rewrite mstatus_new_bits, mask_MPP by lia.
  replace (i + 11 =? 3) with false by lia. replace (i + 11 =? 1) with false by lia. by rewrite !andb_true_r.
Qed.

Lemma mask_MDT h : extension_enabled h EXT_SMDBLTRP = false -> Z.testbit (mstatus_mask h) 42 = false.
Proof.
  intros He. unfold mstatus_mask, sstatus_write_mask. rewrite He. autorewrite with zbits. const_bits.
  by rewrite ?andb_false_r.
Qed.

Lemma mstatus_write_MDT val h :
  extension_enabled h EXT_SMDBLTRP = false ->
  get_field (mstatus_read (mstatus_write val h)) MSTATUS_MDT = get_field (mstatus_read h) MSTATUS_MDT.
Proof.
  intros He. rewrite mstatus_read_write, adjust_sd_field by done.
  change MSTATUS_MDT with (2 ^ 42) at 1 2. rewrite !get_field_1, mstatus_new_bits, mask_MDT by (done || lia).
  const_cmp. by rewrite !andb_false_l, !andb_true_r.
Qed.

(** MIE reads as written unless a double trap is being handled. *)
Lemma mstatus_write_MIE val h :
  extension_enabled h EXT_SMDBLTRP = false -> get_field (mstatus_read h) MSTATUS_MDT = 0 ->
  get_field (mstatus_read (mstatus_write val h)) MSTATUS_MIE = get_field val MSTATUS_MIE.
Proof.
  intros He Hd. rewrite mstatus_read_write, adjust_sd_field by done.
  change MSTATUS_MIE with (2 ^ 3). rewrite !get_field_1 by lia. f_equal.
  assert (z2b (mstatus_new h val .& MSTATUS_MDT) = false) as Hz.
  { change MSTATUS_MDT with (2 ^ 42) in *. rewrite get_field_1 in Hd by lia. rewrite z2b_pow2 by lia.
    rewrite mstatus_new_bits by lia. const_cmp. rewrite !andb_false_l, !andb_true_r.
    rewrite mask_MDT by done.
    by destruct (Z.testbit (mstatus_read h) 42). }
  rewrite mstatus_new_bits, Hz by lia. const_cmp. rewrite !andb_false_r, !andb_true_r.
  assert (Z.testbit (mstatus_mask h) 3 = true) as ->.
  { unfold mstatus_mask. autorewrite with zbits. const_bits. done. }
  by rewrite set_field_bit.
Qed.

(** C17. [mstatus] is WARL.  After a write of any value: MPP is a privilege
    the hart has (never the reserved encoding), a set MDT forces MIE to 0 and a
    set SDT forces SIE to 0, SD says whether FS, VS or XS is dirty, and the
    bits outside the write mask are those before the write. *)
Theorem mstatus_warl val h :
  let s := mstatus_read (mstatus_write val h) in
  legalize_privilege h (get_field s MSTATUS_MPP) = get_field s MSTATUS_MPP /\
  get_field s MSTATUS_MPP <> PRV_HS /\
  (get_field s MSTATUS_MDT = 0 \/ get_field s MSTATUS_MIE = 0) /\
  (get_field s MSTATUS_SDT = 0 \/ get_field s MSTATUS_SIE = 0) /\
  z2b (s .& sd_bit) = some_dirty s /\
  (forall i, 0 <= i -> Z.testbit (mstatus_mask h .| MSTATUS_SIE .| sd_bit) i = false ->
     Z.testbit s i = Z.testbit (mstatus_read h) i).
Proof.
  cbn zeta. rewrite mstatus_read_write, !adjust_sd_field by done.
  pose proof (mstatus_write_MPP val h) as Hmpp. rewrite mstatus_read_write, adjust_sd_field in Hmpp by done.
  rewrite Hmpp. split; [apply legalize_idem|split; [apply legalize_not_hs|]].
  assert (forall k j, 0 <= k < 64 -> 0 <= j < 64 ->
    (Z.testbit (mstatus_new h val) k = true -> Z.testbit (mstatus_new h val) j = false) ->
    get_field (mstatus_new h val) (2 ^ k) = 0 \/ get_field (mstatus_new h val) (2 ^ j) = 0) as Hdt.
  { intros k j Hk Hj H. rewrite !get_field_1 by lia. generalize (mstatus_new h val) H. intros x Hx.
    destruct (Z.testbit x k); [right; by rewrite Hx|by left]. }
  change MSTATUS_MDT with (2 ^ 42). change MSTATUS_MIE with (2 ^ 3).
  change MSTATUS_SDT with (2 ^ 24). change MSTATUS_SIE with (2 ^ 1).
  split; [apply (Hdt 42 3); try lia|split; [apply (Hdt 24 1); try lia|split; [apply adjust_sd_summary|]]].
  - intros E. rewrite mstatus_new_bits by lia. change MSTATUS_MDT with (2 ^ 42). rewrite z2b_pow2, E by lia.
    const_cmp. cbn [andb negb]. by rewrite ?andb_true_r, ?andb_false_r.
  - intros E. rewrite mstatus_new_bits by lia. change MSTATUS_SDT with (2 ^ 24). rewrite (z2b_pow2 _ 24), E by lia.
    const_cmp. cbn [andb negb]. by rewrite ?andb_true_r, ?andb_false_r.
  - intros i Hi. rewrite <- mstatus_read_write. by apply mstatus_write_other.
Qed.

(** * Dirtying the floating-point and vector state *)

(** The bits of a field of [sstatus] that software may write. *)
Definition status_field (which : Z) : Prop :=
  forall i, 0 <= i -> Z.testbit which i = true ->
    Z.testbit sstatus_write_mask i = true /\ (4 <= i < 11 \/ 13 <= i < 24).

Definition is_dirty (which : Z) (h : hart) : bool :=
  (sstatus_proxy_read h .& which =? which) && (negb (v h) || (vsstatus_read h .& which =? which)).

(** The hart with a field of [mstatus], and in a guest of [vsstatus], set. *)
Definition made_dirty (which : Z) (h : hart) : hart :=
  if is_dirty which h then h else
  let h1 := sstatus_proxy_write (sstatus_proxy_read h .| which) h in
  if v h1 then vsstatus_write (vsstatus_read h1 .| which) h1 else h1.

Lemma dirty_run which h :
  sstatus_enabled h which = true -> sstatus_dirty which h = (Val tt, made_dirty which h).
Proof.
  intros He. unfold sstatus_dirty, made_dirty, is_dirty. rewrite bind_get_hart, He.
  destruct (_ && _); [done|]. cbn [negb]. rewrite bind_modify, bind_get_hart.
  by destruct (v (sstatus_proxy_write _ h)).
Qed.

Lemma land_superset a m : (forall i, 0 <= i -> Z.testbit m i = true -> Z.testbit a i = true) -> a .& m = m.
Proof.
  intros H. apply Z.bits_inj'. intros i Hi. rewrite Z.land_spec. specialize (H i Hi).
  destruct (Z.testbit m i); [by rewrite H|by rewrite andb_false_r].
Qed.

(** A writable field keeps its place through the masks of [sstatus]. *)
Lemma adjust_sd_bit s i : 0 <= i < 24 -> Z.testbit (adjust_sd s) i = Z.testbit s i.
Proof.
  intros Hi. unfold adjust_sd. destruct sd_bit_cases as [E|E]; rewrite E; destruct (_ || _ || _);
    autorewrite with zbits; replace (_ =? i) with false by lia; btauto.
Qed.

Lemma read_mask_bit b i : i <> 24 -> 0 <= i -> Z.testbit sstatus_write_mask i = true ->
  Z.testbit (sstatus_read_mask &~ (if b : bool then 0 else SSTATUS_SDT)) i = true.
Proof.
  intros H24 Hi Hm. unfold sstatus_read_mask. change SSTATUS_SDT with (2 ^ 24).
  destruct b; autorewrite with zbits; rewrite Hm; cbn [orb andb negb]; [done|].
  by replace (24 =? i) with false by lia.
Qed.

Lemma proxy_write_reads which x h : status_field which ->
  sstatus_proxy_read (sstatus_proxy_write (x .| which) h) .& which = which.
Proof.
  intros Hw. apply land_superset. intros i Hi Hb. destruct (Hw i Hi Hb) as [Hm Hr].
  unfold sstatus_proxy_read, sstatus_proxy_write. rewrite Z.land_spec, mstatus_read_write, adjust_sd_bit by lia.
  rewrite read_mask_bit by (done || lia). rewrite mstatus_new_bits, andb_true_r by lia.
  assert (Z.testbit (mstatus_mask h) i = true) as ->.
  { unfold mstatus_mask. rewrite !Z.lor_spec, Hm. done. }
  replace (i =? 3) with false by lia. replace (i =? 1) with false by lia. cbn [andb negb]. rewrite !andb_true_r.
  rewrite (set_field_spec _ MSTATUS_MPP 2 11) by (done || lia).
  replace ((11 <=? i) && (i <? 11 + 2)) with false by lia.
  change SSTATUS_SIE with (2 ^ 1). change SSTATUS_SDT with (2 ^ 24).
  destruct (z2b (menvcfg_read h .& MENVCFG_DTE)), (z2b _); autorewrite with zbits; rewrite Hm, Hb;
    rewrite ?(proj2 (Z.eqb_neq 24 i)), ?(proj2 (Z.eqb_neq 1 i)) by lia; btauto.
Qed.

Lemma vsstatus_write_reads which x h : status_field which ->
  vsstatus_read (vsstatus_write (x .| which) h) .& which = which.
Proof.
  intros Hw. apply land_superset. intros i Hi Hb. destruct (Hw i Hi Hb) as [Hm Hr].
  unfold vsstatus_read, vsstatus_write. rewrite csr_raw_set_eq, Z.land_spec, adjust_sd_bit by lia.
  rewrite read_mask_bit by (done || lia). rewrite andb_true_r.
  change SSTATUS_SIE with (2 ^ 1). change SSTATUS_SDT with (2 ^ 24).
  destruct (z2b (henvcfg_read h .& HENVCFG_DTE)), (z2b _); autorewrite with zbits; rewrite Hm, Hb;
    rewrite ?(proj2 (Z.eqb_neq 24 i)), ?(proj2 (Z.eqb_neq 1 i)) by lia; btauto.
Qed.

Lemma v_maybe_flush old new h : v (maybe_flush_tlb old new h) = v h.
Proof. unfold maybe_flush_tlb. by destruct (z2b _). Qed.

Lemma proxy_read_vsstatus x h : sstatus_proxy_read (vsstatus_write x h) = sstatus_proxy_read h.
Proof.
  unfold vsstatus_write, sstatus_proxy_read, mstatus_read, menvcfg_read, maybe_flush_tlb.
  csr_simpl. by destruct (v h), (z2b _).
Qed.

Lemma made_dirty_dirty which h : status_field which -> is_dirty which (made_dirty which h) = true.
Proof.
  intros Hw. unfold made_dirty. destruct (is_dirty which h) eqn:E; [done|].
  cbv zeta. set (h1 := sstatus_proxy_write _ h).
  pose proof (proxy_write_reads which (sstatus_proxy_read h) h Hw) as Hp. fold h1 in Hp.
  unfold is_dirty. destruct (v h1) eqn:Ev.
  - rewrite proxy_read_vsstatus, Hp, vsstatus_write_reads by done. rewrite !Z.eqb_refl. by rewrite orb_true_r.
  - by rewrite Hp, Ev, Z.eqb_refl.
Qed.

Lemma made_dirty_same which h : is_dirty which h = true -> made_dirty which h = h.
Proof. intros E. unfold made_dirty. by rewrite E. Qed.

Lemma is_dirty_enabled which h : which <> 0 -> is_dirty which h = true -> sstatus_enabled h which = true.
Proof.
  intros Hn. unfold is_dirty, sstatus_enabled. rewrite andb_true_iff, orb_true_iff, !Z.eqb_eq, negb_true_iff.
  intros [-> [->| ->]]; unfold z2b; replace (which =? 0) with false by lia; cbn [negb andb orb]; [done|].
  by rewrite orb_true_r.
Qed.

(** What dirtying leaves: everything but [mstatus], [vsstatus] and the TLBs. *)
Lemma made_dirty_frame which h :
  let h' := made_dirty which h in
  XPR h' = XPR h /\ FPR h' = FPR h /\ VU h' = VU h /\ pc h' = pc h /\ mem h' = mem h /\ v h' = v h /\
  prv h' = prv h /\ extension_enable_table h' = extension_enable_table h /\
  softfloat_exceptionFlags h' = softfloat_exceptionFlags h /\
  forall a, a <> CSR_MSTATUS -> a <> CSR_VSSTATUS -> csr_raw h' a = csr_raw h a.
Proof.
  cbv zeta. unfold made_dirty, sstatus_proxy_write, mstatus_write, vsstatus_write, maybe_flush_tlb.
  destruct (is_dirty which h); [done|].
  repeat match goal with |- context [if z2b ?b then flush_tlb _ else _] => destruct (z2b b) end;
    repeat match goal with |- context [if v ?b then _ else _] => destruct (v b) end;
    repeat match goal with |- context [if z2b ?b then flush_tlb _ else _] => destruct (z2b b) end;
    (split_and!; [done..|]); intros a H1 H2; csr_frame; rewrite ?csr_raw_set_ne by done; csr_frame;
    rewrite ?csr_raw_set_ne by done; done.
Qed.

(** * Interrupt priority *)

Lemma ctz_lowest a : 0 < a < 2 ^ 64 ->
  0 <= ctz a < 64 /\ Z.testbit a (ctz a) = true /\ forall j, 0 <= j < ctz a -> Z.testbit a j = false.
Proof.
  intros Ha. destruct (ctz_spec a Ha) as (x & E & Ho & Hr). split; [done|].
  rewrite <- Z.shiftl_mul_pow2 in E by lia. split.
  - rewrite E at 1. rewrite tb_shiftl, Z.sub_diag by lia. by rewrite Z.bit0_odd.
  - intros j Hj. rewrite E at 1. rewrite tb_shiftl by lia. by apply tb_neg; lia.
Qed.

Lemma ctz_unique a i :
  0 < a < 2 ^ 64 -> 0 <= i -> Z.testbit a i = true -> (forall j, 0 <= j < i -> Z.testbit a j = false) -> ctz a = i.
Proof.
  intros Ha Hi Hb Hl. destruct (ctz_lowest a Ha) as (Hr & Hc & Hcl).
  destruct (Z.lt_trichotomy (ctz a) i) as [Hlt|[?|Hgt]]; [|done|].
  - rewrite Hl in Hc by lia. done.
  - rewrite Hcl in Hb by lia. done.
Qed.

(** The indices [lo, lo+1, ..., lo+n-1]. *)
Definition bit_range (lo n : Z) : list Z := map (Z.add lo) (zseq n).

Lemma find_seq (f : nat -> bool) i n : (i < n)%nat -> f i = true -> (forall j, (j < i)%nat -> f j = false) ->
  forall s, (s <= i)%nat -> List.find f (seq s (n - s)) = Some i.
Proof.
  intros Hi Hf Hl s Hs. remember (i - s)%nat as d eqn:Hd. revert s Hs Hd.
  induction d as [|d IH]; intros s Hs Hd.
  - replace (n - s)%nat with (S (n - s - 1)) by lia. cbn [seq List.find]. replace s with i by lia. by rewrite Hf.
  - replace (n - s)%nat with (S (n - S s)) by lia. cbn [seq List.find]. rewrite Hl by lia. apply IH; lia.
Qed.

Lemma find_map {A B} (g : A -> B) (f : B -> bool) l : List.find f (map g l) = option_map g (List.find (fun x => f (g x)) l).
Proof. induction l as [|a l IH]; [done|]. cbn [map List.find]. by destruct (f (g a)). Qed.

Lemma find_bit_range (f : Z -> bool) lo n i :
  lo <= i < lo + n -> f i = true -> (forall j, lo <= j < i -> f j = false) ->
  List.find f (bit_range lo n) = Some i.
Proof.
  intros Hi Hf Hl. unfold bit_range, zseq. rewrite map_map, find_map.
  pose proof (find_seq (fun x => f (lo + Z.of_nat x)) (Z.to_nat (i - lo)) (Z.to_nat n)) as H.
  rewrite <- (Nat.sub_0_r (Z.to_nat n)).
  rewrite H; [cbn [option_map]; f_equal; lia|lia| | |lia].
  - by replace (lo + Z.of_nat (Z.to_nat (i - lo))) with i by lia.
  - intros j Hj. apply Hl. lia.
Qed.

Lemma find_none {A} (f : A -> bool) l : (forall x, In x l -> f x = false) -> List.find f l = None.
Proof.
  induction l as [|a l IH]; [done|]. intros H. cbn [List.find]. rewrite H by by left.
  apply IH. intros x Hx. apply H. by right.
Qed.

Lemma find_app {A} (f : A -> bool) l1 l2 :
  List.find f (l1 ++ l2) = match List.find f l1 with Some x => Some x | None => List.find f l2 end.
Proof. induction l1 as [|a l1 IH]; [done|]. cbn. by destruct (f a). Qed.

(** The default order of the interrupts, most urgent first: the custom and
    platform ones from 14 up, external, software and timer of M, then of S,
    counter overflow, those of VS, and the rest. *)
Definition irq_order : list Z :=
  bit_range (IRQ_LCOF + 1) 50 ++
  [IRQ_M_EXT; IRQ_M_SOFT; IRQ_M_TIMER; IRQ_S_EXT; IRQ_S_SOFT; IRQ_S_TIMER; IRQ_LCOF;
   IRQ_VS_EXT; IRQ_VS_SOFT; IRQ_VS_TIMER; IRQ_U_SOFT; IRQ_U_TIMER; IRQ_U_EXT; IRQ_S_GEXT].

Lemma select_high e : 0 < e < 2 ^ 64 -> z2b (Z.shiftr e 14) = true ->
  List.find (Z.testbit e) irq_order = Some (ctz (Z.shiftl (Z.shiftr e 14) 14)).
Proof.
  intros He Hz. unfold irq_order. rewrite find_app.
  set (x := Z.shiftl (Z.shiftr e 14) 14).
  assert (forall i, 0 <= i -> Z.testbit x i = (14 <=? i) && Z.testbit e i) as Hb.
  { intros i Hi. subst x. destruct (Z.leb_spec 14 i).
    - rewrite tb_shiftl, Z.shiftr_spec, Z.sub_add by lia. done.
    - rewrite tb_shiftl, tb_neg by lia. done. }
  assert (0 < x < 2 ^ 64) as Hx.
  { unfold z2b in Hz. rewrite negb_true_iff, Z.eqb_neq in Hz.
    assert (0 <= Z.shiftr e 14) by (apply Z.shiftr_nonneg; lia).
    subst x. split; [rewrite Z.shiftl_mul_pow2 by lia; lia|].
    rewrite Z.shiftl_mul_pow2, Z.shiftr_div_pow2 by lia.
    pose proof (Z.mul_div_le e (2 ^ 14) ltac:(lia)). lia. }
  destruct (ctz_lowest x Hx) as (Hr & Hc & Hl). rewrite Hb in Hc by lia. apply andb_true_iff in Hc as [H14 Hc].
  rewrite (find_bit_range _ _ _ (ctz x)); [done|unfold IRQ_LCOF; lia|done|].
  intros j Hj. specialize (Hl j). rewrite Hb in Hl by (unfold IRQ_LCOF in *; lia).
  replace (14 <=? j) with true in Hl by (unfold IRQ_LCOF in *; lia). apply Hl. unfold IRQ_LCOF in *; lia.
Qed.

Lemma select_low e : 0 < e < 2 ^ 64 -> z2b (Z.shiftr e 14) = false ->
  List.find (Z.testbit e) irq_order = Some (ctz (select_an_interrupt_with_default_priority e)).
Proof.
  intros He Hz. unfold select_an_interrupt_with_default_priority.
  change (IRQ_LCOF + 1) with 14. rewrite Hz.
  assert (forall i, 14 <= i -> Z.testbit e i = false) as Hhi.
  { intros i Hi. unfold z2b in Hz. apply negb_false_iff, Z.eqb_eq in Hz.
    apply (f_equal (fun z => Z.testbit z (i - 14))) in Hz.
    by rewrite Z.shiftr_spec, Z.sub_add, Z.bits_0 in Hz by lia. }
  unfold irq_order. rewrite find_app, find_none.
  2: { intros x Hx. unfold bit_range in Hx. apply in_map_iff in Hx as (k & <- & Hk).
       apply in_map_iff in Hk as (j & <- & _). apply Hhi. unfold IRQ_LCOF. lia. }
  change MIP_MEIP with (2 ^ 11). change MIP_MSIP with (2 ^ 3). change MIP_MTIP with (2 ^ 7).
  change MIP_SEIP with (2 ^ 9). change MIP_SSIP with (2 ^ 1). change MIP_STIP with (2 ^ 5).
  change MIP_LCOFIP with (2 ^ 13). change MIP_VSEIP with (2 ^ 10). change MIP_VSSIP with (2 ^ 2).
  change MIP_VSTIP with (2 ^ 6). rewrite !z2b_pow2 by lia.
  unfold IRQ_M_EXT, IRQ_M_SOFT, IRQ_M_TIMER, IRQ_S_EXT, IRQ_S_SOFT, IRQ_S_TIMER, IRQ_LCOF, IRQ_VS_EXT,
    IRQ_VS_SOFT, IRQ_VS_TIMER, IRQ_U_SOFT, IRQ_U_TIMER, IRQ_U_EXT, IRQ_S_GEXT. cbn [List.find].
  repeat match goal with
  | |- context [if Z.testbit e ?k then 2 ^ ?k else _] =>
      destruct (Z.testbit e k) eqn:?; [vm_compute; reflexivity|]
  end.
  assert (forall i, 0 <= i -> Z.testbit e i = true -> i = 0 \/ i = 4 \/ i = 8 \/ i = 12) as Hrest.
  { intros i Hi Hb. destruct (Z.lt_ge_cases i 14); [|rewrite Hhi in Hb by lia; done].
    assert (i = 0 \/ i = 1 \/ i = 2 \/ i = 3 \/ i = 4 \/ i = 5 \/ i = 6 \/ i = 7 \/ i = 8 \/ i = 9 \/ i = 10
            \/ i = 11 \/ i = 12 \/ i = 13) as D by lia.
    repeat destruct D as [-> | D]; first [congruence|lia|subst i; congruence]. }
  destruct (ctz_lowest e He) as (Hr & Hc & Hl).
  destruct (Hrest (ctz e)) as [E|[E|[E|E]]]; [lia|done|..]; rewrite E in Hc, Hl; rewrite E, Hc;
    repeat match goal with |- context [Z.testbit e ?k] => rewrite (Hl k) by lia end; done.
Qed.

Lemma interrupt_find e :
  0 < e < 2 ^ 64 ->
  List.find (Z.testbit e) irq_order = Some (ctz (select_an_interrupt_with_default_priority e)).
Proof.
  intros He. destruct (z2b (Z.shiftr e 14)) eqn:Hz; [|by apply select_low].
  rewrite select_high by done. unfold select_an_interrupt_with_default_priority.
  change (IRQ_LCOF + 1) with 14. by rewrite Hz.
Qed.

(** [select_an_interrupt_with_default_priority] follows the default
    order: the interrupt whose number [take_interrupt] puts in the cause is
    the first of [irq_order] that is pending and enabled. *)
Theorem interrupt_priority e :
  0 < e < 2 ^ 64 ->
  List.find (Z.testbit e) irq_order = Some (ctz (select_an_interrupt_with_default_priority e)).
Proof. apply interrupt_find. Qed.
End csr.

(** * On the machine of [Machine] *)

#[local] Existing Instances demo_config demo_simif no_triggers.

(** MSI, SEI and STI pending: the machine software interrupt comes first. *)
Lemma interrupt_priority_witness :
  List.find (Z.testbit 0x228) irq_order = Some (ctz (select_an_interrupt_with_default_priority 0x228)) /\
  ctz (select_an_interrupt_with_default_priority 0x228) = IRQ_M_SOFT.
Proof. split; [apply (interrupt_priority 0x228); lia|reflexivity]. Defined.
