(* ===== verification/TrapFacts.v ===== *)
(** Facts on interrupts and traps: which interrupt is taken, which mode a trap
    enters and what it records there, and the return from it. *)

From S2P Require Import Prelude IntArith Decode Encoding IsaExt Trap Hart Pmp Csr CsrFile CsrInit Mmu Macros.
From S2P Require Import InsnsPriv InsnTable Processor HartFacts Machine CsrFacts.

Section trap.
Context `{cfg : !config, sim : !simif, trg : !trigger_module}.

(** * Which interrupt is taken *)

#[local] Instance trap_target_eq_dec : EqDecision trap_target.
Proof. solve_decision. Defined.

(** The mode an interrupt is delegated to. *)
Definition irq_level (h : hart) (i : Z) : trap_target :=
  if negb (Z.testbit (mideleg_read h) i) then To_M
  else if negb (Z.testbit (hideleg_read h) i) then To_HS else To_VS.

(** Whether the hart, in its present mode, takes the interrupts of a mode:
    always from a less privileged one, never from a more privileged one. *)
Definition level_enabled (h : hart) (l : trap_target) : bool :=
  let sie := z2b (get_field (sstatus_read h) MSTATUS_SIE) in
  match l with
  | To_M => (prv h <? PRV_M) || ((prv h =? PRV_M) && z2b (get_field (mstatus_read h) MSTATUS_MIE))
  | To_HS => v h || (prv h <? PRV_S) || ((prv h =? PRV_S) && sie)
  | To_VS => v h && ((prv h <? PRV_S) || ((prv h =? PRV_S) && sie))
  end.

(** The specification: the most privileged mode with an interrupt to take,
    and its first interrupt in the default order. *)
Definition irq_of_level (h : hart) (pending : Z) (l : trap_target) : option Z :=
  if level_enabled h l
  then List.find (fun i => Z.testbit pending i && bool_decide (irq_level h i = l)) irq_order else None.
Definition irq_to_take (h : hart) : option Z :=
  let pending := mip_read h .& mie_read h in
  if debug_mode h || negb (nmie h) then None
  else match irq_of_level h pending To_M with
       | Some i => Some i
       | None => match irq_of_level h pending To_HS with
                 | Some i => Some i
                 | None => irq_of_level h pending To_VS
                 end
       end.

Lemma find_ext_bits {A} (f g : A -> bool) l : (forall x, f x = g x) -> List.find f l = List.find g l.
Proof. intros E. induction l as [|a l IH]; [done|]. cbn [List.find]. by rewrite E, IH. Qed.

(** Selecting from a set is finding its first bit, when it has one. *)
Lemma find_select e : 0 <= e < 2 ^ 64 ->
  List.find (Z.testbit e) irq_order =
  if e =? 0 then None else Some (ctz (select_an_interrupt_with_default_priority e)).
Proof.
  intros He. destruct (Z.eqb_spec e 0) as [->|].
  - apply find_none. intros. apply Z.bits_0.
  - rewrite interrupt_find; [done|lia].
Qed.

Lemma irq_level_bits h i l :
  bool_decide (irq_level h i = l) =
  match l with
  | To_M => negb (Z.testbit (mideleg_read h) i)
  | To_HS => Z.testbit (mideleg_read h) i && negb (Z.testbit (hideleg_read h) i)
  | To_VS => Z.testbit (hideleg_read h) i
  end.
Proof.
  assert (Z.testbit (hideleg_read h) i = true -> Z.testbit (mideleg_read h) i = true) as Hsub.
  { unfold hideleg_read. rewrite Z.land_spec, andb_true_iff. tauto. }
  unfold irq_level. destruct (Z.testbit (mideleg_read h) i), (Z.testbit (hideleg_read h) i), l; try done;
    specialize (Hsub eq_refl); done.
Qed.

(** The set of interrupts of a level, as [take_interrupt] computes it. *)
Definition level_set (h : hart) (pending : Z) (l : trap_target) : Z :=
  match l with
  | To_M => pending &~ mideleg_read h
  | To_HS => pending .& (mideleg_read h &~ hideleg_read h)
  | To_VS => pending .& hideleg_read h
  end.

Lemma irq_of_level_eq h P l : 0 <= P < 2 ^ 64 ->
  irq_of_level h P l =
  if level_enabled h l && negb (level_set h P l =? 0)
  then Some (ctz (select_an_interrupt_with_default_priority (level_set h P l))) else None.
Proof.
  intros HP. unfold irq_of_level. destruct (level_enabled h l); [|done]. cbn [andb].
  rewrite (find_ext_bits _ (Z.testbit (level_set h P l))).
  - rewrite find_select; [by destruct (level_set h P l =? 0)|].
    destruct l; cbn [level_set]; [apply land_range|apply land_range|apply ldiff_range]; lia.
  - intros i. rewrite irq_level_bits. destruct l; cbn [level_set]; by rewrite ?Z.land_spec, ?Z.ldiff_spec.
Qed.

Lemma enabled_interrupts_eq h P :
  enabled_interrupts h P 0 0 =
  if level_enabled h To_M && negb (level_set h P To_M =? 0) then level_set h P To_M
  else if level_enabled h To_HS && negb (level_set h P To_HS =? 0) then level_set h P To_HS
  else if level_enabled h To_VS then level_set h P To_VS else 0.
Proof.
  unfold enabled_interrupts, level_enabled, level_set. cbn [csr_read].
  rewrite Z.ldiff_0_l, !Z.lor_0_r.
  destruct ((prv h <? PRV_M) || _); cbn [andb]; [destruct (P &~ mideleg_read h =? 0); cbn [negb]|].
  all: cbn [Z.eqb negb]; try done.
  all: destruct (v h); cbn [andb orb].
  all: destruct ((prv h <? PRV_S) || _); cbn [andb].
  all: destruct (Z.eqb_spec (P .& (mideleg_read h &~ hideleg_read h)) 0) as [E|E]; rewrite ?E; done.
Qed.

(** C15. An interrupt is taken exactly when one should be, and it is the right
    one.  Without Ssaia, [take_pending_interrupt] raises the interrupt of the
    specification: outside debug mode and with NMIs enabled, the first one in
    the default order among the pending and enabled ones of the most
    privileged mode that the hart lets interrupt it; otherwise it returns. *)
Theorem take_pending_interrupt_spec h :
  ee0 EXT_SSAIA = false -> 0 <= mip_read h .& mie_read h < 2 ^ 64 ->
  fst (take_pending_interrupt h) =
  match irq_to_take h with
  | Some i => Exc (Trap (Plain_trap (interrupt_bit .| i)))
  | None => Val tt
  end.
Proof.
  intros Ha HP. unfold irq_to_take, take_pending_interrupt, take_interrupt, bind, get_hart.
  set (P := mip_read h .& mie_read h) in *. rewrite Ha. cbn [Z.eqb].
  rewrite !irq_of_level_eq by done.
  assert (forall l, P = 0 -> level_set h P l = 0) as H0.
  { intros l ->. destruct l; cbn [level_set]; by rewrite ?Z.land_0_l, ?Z.ldiff_0_l. }
  destruct (Z.eqb_spec P 0) as [E|E]; cbn [andb].
  { rewrite !H0 by done. rewrite !andb_false_r. by destruct (_ || _). }
  unfold modify. rewrite enabled_interrupts_eq. cbn [fst].
  destruct (debug_mode h), (nmie h); cbn [negb andb orb]; try done.
  destruct (level_enabled h To_M && negb (level_set h P To_M =? 0)) eqn:EM.
  { apply andb_true_iff in EM as [_ EM]. rewrite EM. by destruct (check_triggers_icount _); [destruct (detect_icount_match _ _)|]. }
  destruct (level_enabled h To_HS && negb (level_set h P To_HS =? 0)) eqn:EH.
  { apply andb_true_iff in EH as [_ EH]. rewrite EH. by destruct (check_triggers_icount _); [destruct (detect_icount_match _ _)|]. }
  destruct (level_enabled h To_VS); cbn [andb]; [|done].
  destruct (level_set h P To_VS =? 0); cbn [negb]; [done|].
  by destruct (check_triggers_icount _); [destruct (detect_icount_match _ _)|].
Qed.

(** * Privilege *)

(** The hart after [set_privilege]. *)
Definition in_privilege (p : Z) (virt : bool) (h : hart) : hart :=
  let nv := virt && negb (p =? PRV_M) in
  set_v_changed (negb (Bool.eqb nv (v h))) (set_prv_changed (negb (p =? prv h))
    (set_v nv (set_prv p (set_prev_v (v h) (set_prev_prv (prv h) (flush_tlb h)))))).

Lemma set_privilege_run p virt h :
  p <= PRV_M -> set_privilege p virt h = (Val tt, in_privilege (legalize_privilege h p) virt h).
Proof.
  intros Hp. unfold set_privilege. autorewrite with run.
  replace (p <=? PRV_M) with true by lia.
  rewrite (legalize_ext _ h p) by reflexivity. unfold modify, in_privilege. reflexivity.
Qed.


Lemma legalize_M h : legalize_privilege h PRV_M = PRV_M.
Proof. unfold legalize_privilege. by destruct (negb _). Qed.

(** * Traps to M-mode *)

(** [mstatus] as [enter_m] writes it from the hart [h] of the trap. *)
Definition m_trap_mstatus (t : trap_t) (h : hart) : Z :=
  let s := mstatus_read h in
  let s := set_field s MSTATUS_MPIE (get_field s MSTATUS_MIE) in
  let s := set_field s MSTATUS_MPP (prv h) in
  let s := set_field s MSTATUS_MIE 0 in
  let s := set_field s MSTATUS_MPV (b2z (v h)) in
  let s := set_field s MSTATUS_GVA (b2z (has_gva t)) in
  set_field s MSTATUS_MPELP (elp_z (elp h)).

(** The hart with the registers of the trap written. *)
Definition m_trap_regs (t : trap_t) (epc : Z) (d : trap_decision) (h : hart) : hart :=
  set_elp NO_LP_EXPECTED
   (set_csr_raw CSR_MTINST (get_tinst t)
   (set_csr_raw CSR_MTVAL2 (if td_double d then cause t else get_tval2 t)
   (set_csr_raw CSR_MTVAL (get_tval t)
   (set_csr_raw CSR_MCAUSE (if td_double d then CAUSE_DOUBLE_TRAP else cause t)
   (set_csr_raw CSR_MEPC (epc &~ 1)
   (set_pc (vectored (csr_raw h CSR_MTVEC) (td_interrupt d) (td_bit d)) h)))))).

Definition m_tcontrol (h : hart) : hart :=
  match tcontrol_obj with
  | Some c => snd (csr_write c (if z2b (csr_read c h .& CSR_TCONTROL_MTE) then CSR_TCONTROL_MPTE else 0) h)
  | None => h
  end.

Lemma tcontrol_run f h :
  exists x, write_if_present tcontrol_obj f h =
            (Val tt, if (0 <? trigger_count) && negb (ee0 ext_S) then set_csr_raw CSR_TCONTROL x h else h).
Proof.
  unfold tcontrol_obj. destruct (_ && _); [|by exists 0].
  eexists. cbn [write_if_present csr_read]. rewrite bind_get_hart. reflexivity.
Qed.

Lemma enter_m_run t epc d h :
  max_xlen = 64 -> extension_enabled h EXT_SMDBLTRP = false -> nmie h = true ->
  exists x, enter_m t epc d h =
    (Val tt, in_privilege PRV_M false
       (let h1 := mstatus_write (m_trap_mstatus t h) (m_trap_regs t epc d h) in
        if (0 <? trigger_count) && negb (ee0 ext_S) then set_csr_raw CSR_TCONTROL x h1 else h1)).
Proof.
  intros Hx He Hn. unfold enter_m. rewrite bind_get_hart, He, Hn. cbn [andb csr_read].
  unfold csr_write. cbn [csr_unlogged_write]. unfold write_ok. autorewrite with run.
  unfold mstatush_obj. rewrite Hx. cbn [Z.eqb Pos.eqb write_if_present]. autorewrite with run.
  match goal with |- context [bind (write_if_present tcontrol_obj ?f) _ ?g] =>
    destruct (tcontrol_run f g) as [x Hr]; exists x; rewrite (bind_val _ _ _ _ _ Hr) end.
  rewrite set_privilege_run, legalize_M by done.
  unfold m_trap_mstatus, m_trap_regs, basic_write. reflexivity.
Qed.

(** Reading the hart after the trap. *)
Lemma in_privilege_raw p virt h a : csr_raw (in_privilege p virt h) a = csr_raw h a.
Proof. reflexivity. Qed.

Lemma mstatus_write_raw x h a : a <> CSR_MSTATUS -> csr_raw (mstatus_write x h) a = csr_raw h a.
Proof.
  intros Ha. unfold mstatus_write, maybe_flush_tlb. rewrite csr_raw_set_ne by done.
  by destruct (z2b _).
Qed.

(** A predicate of the hart that CSR writes and [set_privilege] leave alone. *)
Lemma mstatus_write_frame {A} (f : hart -> A) x h :
  (forall y g, f (set_csr_val y g) = f g) -> (forall y g, f (set_mmu y g) = f g) -> f (mstatus_write x h) = f h.
Proof.
  intros Hc Hm. unfold mstatus_write, maybe_flush_tlb, set_csr_raw. rewrite Hc.
  destruct (z2b _); [|done]. unfold flush_tlb, flush_icache. by rewrite !Hm.
Qed.

Lemma m_trap_fields t h g :
  extension_enabled g EXT_SMDBLTRP = false -> get_field (mstatus_read g) MSTATUS_MDT = 0 ->
  extension_enabled g ext_H = true \/ (v h = false /\ get_field (mstatus_read g) MSTATUS_MPV = 0) ->
  0 <= prv h < 4 -> legalize_privilege g (prv h) = prv h ->
  let s := mstatus_read (mstatus_write (m_trap_mstatus t h) g) in
  get_field s MSTATUS_MPP = prv h /\
  get_field s MSTATUS_MPIE = get_field (mstatus_read h) MSTATUS_MIE /\
  get_field s MSTATUS_MIE = 0 /\
  get_field s MSTATUS_MPV = b2z (v h).
Proof.
  intros He Hd Hv Hp Hl s. subst s. split_and!.
  - rewrite mstatus_write_MPP. unfold m_trap_mstatus. rewrite !get_set_other by done.
    by rewrite (get_set_field _ MSTATUS_MPP 2 11).
  - rewrite (mstatus_write_field _ _ _ 1 7); [|done|lia..|].
    + unfold m_trap_mstatus. rewrite !get_set_other by done. rewrite (get_set_field _ MSTATUS_MPIE 1 7); [done|done|].
      by apply (get_field_range _ MSTATUS_MIE 1 3).
    + intros i Hi. split; [lia|split; [lia|]]. replace i with 7 by lia.
      unfold mstatus_mask. autorewrite with zbits. const_bits. done.
  - rewrite mstatus_write_MIE by done. unfold m_trap_mstatus. rewrite !get_set_other by done.
    by rewrite (get_set_field _ MSTATUS_MIE 1 3).
  - destruct (extension_enabled g ext_H) eqn:HH.
    + rewrite (mstatus_write_field _ _ _ 1 39); [|done|lia..|].
      * unfold m_trap_mstatus. rewrite !get_set_other by done. rewrite (get_set_field _ MSTATUS_MPV 1 39); [done|done|].
        by destruct (v h).
      * intros i Hi. split; [lia|split; [lia|]]. replace i with 39 by lia.
        unfold mstatus_mask. rewrite HH. autorewrite with zbits. const_bits. done.
    + destruct Hv as [?|[-> Hv]]; [done|]. change MSTATUS_MPV with (2 ^ 39) in *.
      rewrite get_field_1 in * by lia. rewrite mstatus_write_other; [done|lia|].
      unfold mstatus_mask, sstatus_write_mask. rewrite HH. autorewrite with zbits. const_bits.
      destruct sd_bit_cases as [E|E]; rewrite E; const_bits; by rewrite ?andb_false_r.
Qed.

(** What the theorems on M-mode traps assume of the hart: RV64, neither
    Smdbltrp nor Ssaia, NMIs enabled, not in debug mode, MDT clear (as it is
    without Smdbltrp), and a mode the hart has. *)
Record m_trap_ready (h : hart) : Prop := {
  ready_xlen : max_xlen = 64;
  ready_mdt_ext : extension_enabled h EXT_SMDBLTRP = false;
  ready_aia : ee0 EXT_SSAIA = false;
  ready_nmie : nmie h = true;
  ready_debug : debug_mode h = false;
  ready_mdt : get_field (mstatus_read h) MSTATUS_MDT = 0;
  ready_prv : 0 <= prv h < 4;
  ready_legal : legalize_privilege h (prv h) = prv h;
  ready_virt : extension_enabled h ext_H = true \/ (v h = false /\ get_field (mstatus_read h) MSTATUS_MPV = 0);
  ready_m : prv h = PRV_M -> v h = false
}.

Lemma take_trap_m t epc h :
  m_trap_ready h -> td_target (decide_trap t h) = To_M ->
  take_trap t epc h = enter_m t epc (decide_trap t h) h.
Proof.
  intros Hr Ht. unfold take_trap. rewrite bind_get_hart, (ready_debug h Hr), (ready_aia h Hr). cbn [negb orb].
  rewrite bind_assert. by rewrite Ht.
Qed.

(** What a trap to M-mode leaves: the statement of [trap_to_m], and that the
    extensions and MDT are those of before. *)
Lemma m_trap_result t epc h :
  m_trap_ready h -> td_target (decide_trap t h) = To_M -> td_double (decide_trap t h) = false ->
  exists h', take_trap t epc h = (Val tt, h') /\
    prv h' = PRV_M /\ v h' = false /\ elp h' = NO_LP_EXPECTED /\
    pc h' = vectored (csr_raw h CSR_MTVEC) (td_interrupt (decide_trap t h)) (td_bit (decide_trap t h)) /\
    csr_raw h' CSR_MEPC = epc &~ 1 /\ csr_raw h' CSR_MCAUSE = cause t /\
    csr_raw h' CSR_MTVAL = get_tval t /\ csr_raw h' CSR_MTVAL2 = get_tval2 t /\ csr_raw h' CSR_MTINST = get_tinst t /\
    get_field (mstatus_read h') MSTATUS_MPP = prv h /\
    get_field (mstatus_read h') MSTATUS_MPIE = get_field (mstatus_read h) MSTATUS_MIE /\
    get_field (mstatus_read h') MSTATUS_MIE = 0 /\
    get_field (mstatus_read h') MSTATUS_MPV = b2z (v h) /\
    XPR h' = XPR h /\ mem h' = mem h /\
    (forall e, extension_enabled h' e = extension_enabled h e) /\ get_field (mstatus_read h') MSTATUS_MDT = 0.
Proof.
  intros Hr Ht Hd. rewrite take_trap_m by done.
  destruct (enter_m_run t epc (decide_trap t h) h) as [x Hrun]; [apply Hr..|].
  rewrite Hrun. eexists. split; [reflexivity|]. clear Hrun.
  set (g := m_trap_regs t epc (decide_trap t h) h).
  set (h1 := mstatus_write (m_trap_mstatus t h) g). cbn zeta.
  set (h2 := if _ : bool then _ else h1).
  destruct (m_trap_fields t h g) as (F1 & F2 & F3 & F4).
  all: try (rewrite ?(extension_enabled_ext g h), ?(legalize_ext g h) by (subst g; unfold m_trap_regs; csr_simpl; done)).
  1-5: subst g; unfold m_trap_regs, mstatus_read; csr_simpl; apply Hr.
  assert (forall a, a <> CSR_MSTATUS -> a <> CSR_TCONTROL -> csr_raw h2 a = csr_raw g a) as Hraw.
  { intros a H1 H2. subst h2. destruct (_ && _); rewrite ?csr_raw_set_ne by done; by apply mstatus_write_raw. }
  assert (forall A (f : hart -> A), (forall y k, f (set_csr_val y k) = f k) -> (forall y k, f (set_mmu y k) = f k) ->
            f h2 = f g) as Hfr.
  { intros A f H1 H2. subst h2 h1. destruct (_ && _); unfold set_csr_raw; rewrite ?H1; by apply mstatus_write_frame. }
  assert (mstatus_read h2 = mstatus_read h1) as Hms.
  { subst h2. unfold mstatus_read. destruct (_ && _); by csr_simpl. }
  assert (forall m, get_field (mstatus_read (in_privilege PRV_M false h2)) m = get_field (mstatus_read h1) m) as Hf
    by (intros m; by rewrite <- Hms).
  rewrite !Hf, !in_privilege_raw, !Hraw by done.
  assert (forall e, extension_enabled (in_privilege PRV_M false h2) e = extension_enabled h e) as Hee.
  { intros e. apply extension_enabled_ext.
    - rewrite in_privilege_raw, Hraw by done. subst g; unfold m_trap_regs; by csr_simpl.
    - change (extension_enable_table (in_privilege PRV_M false h2)) with (extension_enable_table h2). by rewrite Hfr. }
  assert (get_field (mstatus_read h1) MSTATUS_MDT = 0) as Hmdt.
  { subst h1. rewrite mstatus_write_MDT.
    - subst g; unfold m_trap_regs, mstatus_read; csr_simpl; apply Hr.
    - rewrite (extension_enabled_ext g h) by (subst g; unfold m_trap_regs; csr_simpl; done). apply Hr. }
  split_and!; try done.
  1: change (elp (in_privilege PRV_M false h2)) with (elp h2).
  2: change (pc (in_privilege PRV_M false h2)) with (pc h2).
  8: change (XPR (in_privilege PRV_M false h2)) with (XPR h2).
  9: change (mem (in_privilege PRV_M false h2)) with (mem h2).
  1,2,8,9: by rewrite Hfr.
  all: subst g; unfold m_trap_regs; csr_simpl; by rewrite ?Hd.
Qed.
(** A trap to M-mode.  The hart ends in M-mode, not virtualized, at the
    address [mtvec] gives; [mepc], [mcause], [mtval], [mtval2] and [mtinst]
    describe the trap; [mstatus] holds the interrupted mode in MPP and MPV,
    the interrupt enable in MPIE, and MIE is clear; registers and memory are
    untouched. *)
Theorem trap_to_m t epc h :
  m_trap_ready h -> td_target (decide_trap t h) = To_M -> td_double (decide_trap t h) = false ->
  exists h', take_trap t epc h = (Val tt, h') /\
    prv h' = PRV_M /\ v h' = false /\ elp h' = NO_LP_EXPECTED /\
    pc h' = vectored (csr_raw h CSR_MTVEC) (td_interrupt (decide_trap t h)) (td_bit (decide_trap t h)) /\
    csr_raw h' CSR_MEPC = epc &~ 1 /\ csr_raw h' CSR_MCAUSE = cause t /\
    csr_raw h' CSR_MTVAL = get_tval t /\ csr_raw h' CSR_MTVAL2 = get_tval2 t /\ csr_raw h' CSR_MTINST = get_tinst t /\
    get_field (mstatus_read h') MSTATUS_MPP = prv h /\
    get_field (mstatus_read h') MSTATUS_MPIE = get_field (mstatus_read h) MSTATUS_MIE /\
    get_field (mstatus_read h') MSTATUS_MIE = 0 /\
    get_field (mstatus_read h') MSTATUS_MPV = b2z (v h) /\
    XPR h' = XPR h /\ mem h' = mem h.
Proof.
  intros Hr Ht Hd. destruct (m_trap_result t epc h Hr Ht Hd) as (h' & E & H).
  exists h'. split; [exact E|]. tauto.
Qed.

(** * Returning with [mret] *)

Definition mret_mstatus (h : hart) : Z :=
  let s := mstatus_read h in
  let prev_prv := get_field s MSTATUS_MPP in
  let prev_virt := z2b (get_field s MSTATUS_MPV) in
  let s := if negb (prev_prv =? PRV_M) then set_field s MSTATUS_MPRV 0 else s in
  let s := set_field s MSTATUS_MIE (get_field s MSTATUS_MPIE) in
  let s := set_field s MSTATUS_MPIE 1 in
  let s := set_field s MSTATUS_MPP (if extension_enabled h ext_U then PRV_U else PRV_M) in
  let s := set_field s MSTATUS_MPV 0 in
  let s := set_field s MSTATUS_MPELP (elp_z NO_LP_EXPECTED) in
  let s := set_field s MSTATUS_MDT 0 in
  if (prev_prv =? PRV_U) || (prev_virt && negb (prev_prv =? PRV_M)) then set_field s MSTATUS_SDT 0 else s.

Definition mret_jump (h : hart) : hart :=
  set_taken_branch_flag true
    (set_pc (epc_read h CSR_MEPC .& pc_alignment_mask h) (set_npc PC_SERIALIZE_AFTER h)).

Lemma clear_vsstatus_run h :
  v h = false -> exists y, clear_bits vsstatus_csr SSTATUS_SDT h = (Val tt, set_csr_raw CSR_VSSTATUS y h).
Proof.
  intros Hv. eexists. unfold clear_bits. rewrite bind_get_hart. unfold csr_write.
  cbn [csr_unlogged_write]. unfold write_ok. autorewrite with run. unfold vsstatus_write. rewrite Hv. reflexivity.
Qed.

(** The end that [enter_m] and [mret] share: [mstatus], [tcontrol] and the new mode. *)
Lemma status_tail S f1 f2 p virt h :
  max_xlen = 64 -> p <= PRV_M ->
  exists x, (csr_write mstatus_csr S ;; write_if_present mstatush_obj f1 ;;
             write_if_present tcontrol_obj f2 ;; set_privilege p virt) h =
    (Val tt, in_privilege (legalize_privilege h p) virt
       (let h1 := mstatus_write S h in
        if (0 <? trigger_count) && negb (ee0 ext_S) then set_csr_raw CSR_TCONTROL x h1 else h1)).
Proof.
  intros Hx Hp. unfold csr_write. cbn [csr_unlogged_write]. unfold write_ok. autorewrite with run.
  unfold mstatush_obj. rewrite Hx. cbn [Z.eqb Pos.eqb write_if_present]. autorewrite with run.
  destruct (tcontrol_run f2 (mstatus_write S h)) as [x Hr]. exists x.
  rewrite (bind_val _ _ _ _ _ Hr), set_privilege_run by done.
  rewrite (legalize_ext _ h p); [done|destruct (_ && _); unfold mstatus_write, maybe_flush_tlb; csr_simpl; by destruct (z2b _)|].
  destruct (_ && _); apply (mstatus_write_frame extension_enable_table); done.
Qed.

Lemma mret_run `{ctx : !insn_ctx} h :
  prv h = PRV_M -> v h = false -> max_xlen = 64 -> extension_enabled h EXT_ZICFILP = false ->
  let prev_prv := get_field (mstatus_read h) MSTATUS_MPP in
  let prev_virt := z2b (get_field (mstatus_read h) MSTATUS_MPV) in
  exists x y, insn_mret h =
    (Val tt, in_privilege (legalize_privilege h prev_prv) prev_virt
       (let h1 := mret_jump h in
        let h2 := if prev_virt && (prev_prv =? PRV_U) then set_csr_raw CSR_VSSTATUS y h1 else h1 in
        let h3 := mstatus_write (mret_mstatus h) h2 in
        if (0 <? trigger_count) && negb (ee0 ext_S) then set_csr_raw CSR_TCONTROL x h3 else h3)).
Proof.
  intros Hp Hv Hx Hz prev_prv prev_virt. unfold insn_mret, require_privilege, require_state.
  autorewrite with run. rewrite Hp. change (PRV_M <=? PRV_M) with true. change (require true) with (ret tt).
  autorewrite with run. cbn [csr_read]. unfold set_pc_and_serialize. autorewrite with run.
  change (set_taken_branch_flag true _) with (mret_jump h).
  unfold ZICFILP_xLPE. autorewrite with run.
  rewrite (extension_enabled_ext (mret_jump h) h EXT_ZICFILP), Hz by reflexivity.
  autorewrite with run. change (mstatus_read (mret_jump h)) with (mstatus_read h).
  fold prev_prv. fold prev_virt.
  rewrite (extension_enabled_ext (mret_jump h) h ext_U) by reflexivity.
  set (S := if (prev_prv =? PRV_U) || _ then _ else _).
  change S with (mret_mstatus h). clear S.
  assert (prev_prv <= PRV_M) as Hle by (apply Z.lt_succ_r, (get_field_range _ MSTATUS_MPP 2 11); done).
  destruct (prev_virt && (prev_prv =? PRV_U)).
  - destruct (clear_vsstatus_run (mret_jump h)) as [y Hy]; [done|].
    rewrite (bind_val _ _ _ _ _ Hy).
    destruct (status_tail (mret_mstatus h) (fun _ => Z.shiftr (mret_mstatus h) 32)
      (fun t => if z2b (t .& CSR_TCONTROL_MPTE) then CSR_TCONTROL_MPTE .| CSR_TCONTROL_MTE else 0)
      prev_prv prev_virt (set_csr_raw CSR_VSSTATUS y (mret_jump h)) Hx Hle) as [x E].
    exists x, y. rewrite E. rewrite (legalize_ext _ h); [done|by csr_simpl|done].
  - destruct (status_tail (mret_mstatus h) (fun _ => Z.shiftr (mret_mstatus h) 32)
      (fun t => if z2b (t .& CSR_TCONTROL_MPTE) then CSR_TCONTROL_MPTE .| CSR_TCONTROL_MTE else 0)
      prev_prv prev_virt (mret_jump h) Hx Hle) as [x E].
    exists x, 0. rewrite E. rewrite (legalize_ext _ h); done.
Qed.

(** C4. [mret] undoes a trap: executed by the handler as the trap left the
    hart, it returns to the interrupted instruction in the interrupted mode,
    with interrupts enabled as they were. *)
Theorem trap_mret_returns `{ctx : !insn_ctx} t epc h :
  m_trap_ready h -> td_target (decide_trap t h) = To_M -> td_double (decide_trap t h) = false ->
  extension_enabled h EXT_ZICFILP = false ->
  exists h1 h2, take_trap t epc h = (Val tt, h1) /\ insn_mret h1 = (Val tt, h2) /\
    prv h2 = prv h /\ v h2 = v h /\ pc h2 = (epc &~ 1) .& pc_alignment_mask h /\
    get_field (mstatus_read h2) MSTATUS_MIE = get_field (mstatus_read h) MSTATUS_MIE /\
    XPR h2 = XPR h /\ mem h2 = mem h.
Proof.
  intros Hr Ht Hd Hz. destruct (m_trap_result t epc h Hr Ht Hd)
    as (h1 & E & Hp & Hv & _ & _ & Hepc & _ & _ & _ & _ & Hmpp & Hmpie & _ & Hmpv & Hx & Hm & Hee & Hmdt).
  destruct (mret_run h1 Hp Hv (ready_xlen h Hr)) as (x & y & E2); [by rewrite Hee|].
  rewrite Hmpp, Hmpv, z2b_b2z in E2.
  assert (legalize_privilege h1 (prv h) = prv h) as Hl.
  { transitivity (legalize_privilege h (prv h)); [|apply Hr]. unfold legalize_privilege. by rewrite !Hee. }
  rewrite Hl in E2. do 2 eexists. split; [exact E|split; [exact E2|]]. cbn zeta.
  set (g := if v h && (prv h =? PRV_U) then set_csr_raw CSR_VSSTATUS y (mret_jump h1) else mret_jump h1).
  set (h3 := if _ : bool then _ else mstatus_write (mret_mstatus h1) g).
  assert (forall A (f : hart -> A), (forall y k, f (set_csr_val y k) = f k) -> (forall y k, f (set_mmu y k) = f k) ->
            f h3 = f (mret_jump h1)) as Hfr.
  { intros A f H1 H2. subst h3. transitivity (f g).
    - destruct (_ && negb _); unfold set_csr_raw; rewrite ?H1; by apply mstatus_write_frame.
    - subst g. destruct (_ && _); unfold set_csr_raw; by rewrite ?H1. }
  split_and!.
  - reflexivity.
  - change (v (in_privilege (prv h) (v h) h3)) with (v h && negb (prv h =? PRV_M)).
    destruct (Z.eqb_spec (prv h) PRV_M) as [Em|]; [|by rewrite andb_true_r].
    by rewrite (ready_m h Hr Em).
  - change (pc (in_privilege (prv h) (v h) h3)) with (pc h3). rewrite Hfr by done.
    change (pc (mret_jump h1)) with (csr_raw h1 CSR_MEPC .& pc_alignment_mask h1 .& pc_alignment_mask h1).
    rewrite Hepc. unfold pc_alignment_mask. rewrite Hee. by rewrite <- Z.land_assoc, Z.land_diag.
  - transitivity (get_field (mstatus_read (mstatus_write (mret_mstatus h1) g)) MSTATUS_MIE).
    { unfold mstatus_read. rewrite in_privilege_raw. subst h3. destruct (_ && negb _); by csr_simpl. }
    assert (mstatus_read g = mstatus_read h1) as Hg.
    { subst g. unfold mstatus_read. destruct (_ && _); by csr_simpl. }
    rewrite mstatus_write_MIE.
    + rewrite <- Hmpie. unfold mret_mstatus.
      repeat match goal with |- context [if ?c then _ else _] => destruct c end;
        rewrite !get_set_other by done; rewrite (get_set_field _ MSTATUS_MIE 1 3); [|done|..];
        rewrite ?get_set_other by done; try done; by apply (get_field_range _ MSTATUS_MPIE 1 7).
    + transitivity (extension_enabled h1 EXT_SMDBLTRP); [|rewrite Hee; apply Hr].
      apply extension_enabled_ext; subst g; destruct (_ && _); by csr_simpl.
    + by rewrite Hg.
  - change (XPR (in_privilege (prv h) (v h) h3)) with (XPR h3). by rewrite Hfr.
  - change (mem (in_privilege (prv h) (v h) h3)) with (mem h3). by rewrite Hfr.
Qed.
End trap.

(** * On the machine of [Machine] *)

#[local] Existing Instances demo_config demo_simif no_triggers.

(** A user program with the timer interrupt enabled and pending. *)
Definition user_hart : hart :=
  set_prv PRV_U (set_csr_raw CSR_MTVEC 0x80000100 (set_csr_raw CSR_MIE MIP_MTIP (set_csr_raw CSR_MIP MIP_MTIP
    (mstatus_write (MSTATUS_MIE .| mstatus_read boot64) boot64)))).

Lemma take_pending_interrupt_spec_witness :
  irq_to_take user_hart = Some IRQ_M_TIMER /\
  fst (take_pending_interrupt user_hart) = Exc (Trap (Plain_trap (interrupt_bit .| IRQ_M_TIMER))).
Proof.
  split; [vm_compute; reflexivity|].
  rewrite (take_pending_interrupt_spec user_hart); [vm_compute; reflexivity|reflexivity|vm_compute; done].
Defined.

Lemma user_hart_ready : m_trap_ready user_hart.
Proof. split; try (vm_compute; done). by left; vm_compute. Qed.

Definition timer_trap : trap_t := Plain_trap (interrupt_bit .| IRQ_M_TIMER).

Lemma trap_to_m_witness :
  exists h', take_trap timer_trap 0x80000004 user_hart = (Val tt, h') /\ prv h' = PRV_M /\
    csr_raw h' CSR_MCAUSE = 2 ^ 63 + 7 /\ get_field (mstatus_read h') MSTATUS_MPIE = 1.
Proof.
  destruct (trap_to_m timer_trap 0x80000004 user_hart user_hart_ready) as (h' & E & H);
    [vm_compute; reflexivity|vm_compute; reflexivity|].
  exists h'. split; [exact E|]. destruct H as (Hp & _ & _ & _ & _ & Hc & _ & _ & _ & _ & Hie & _).
  rewrite Hc, Hie. split; [exact Hp|split; vm_compute; reflexivity].
Defined.

#[local] Instance mret_ctx : insn_ctx := mk_ctx MATCH_MRET 0x80000200 false.

Lemma trap_mret_returns_witness :
  exists h1 h2, take_trap timer_trap 0x80000004 user_hart = (Val tt, h1) /\ insn_mret h1 = (Val tt, h2) /\
    prv h2 = PRV_U /\ pc h2 = 0x80000004.
Proof.
  destruct (trap_mret_returns timer_trap 0x80000004 user_hart user_hart_ready) as (h1 & h2 & E1 & E2 & H);
    [vm_compute; reflexivity|vm_compute; reflexivity|vm_compute; reflexivity|].
  exists h1, h2. split; [exact E1|split; [exact E2|]]. destruct H as (Hp & _ & Hpc & _).
  rewrite Hp, Hpc. split; vm_compute; reflexivity.
Defined.
