(* ===== verification/PmpFacts.v ===== *)
(** Facts on physical memory protection: locked entries survive every write,
    the regions an entry matches, the permission table of Smepmp, and the
    soundness of checking a page once. *)

From S2P Require Import Prelude IntArith Decode Encoding IsaExt Trap Hart Pmp Mmu InsnTable Processor HartFacts Machine.

Section pmp.
Context `{cfg : !config, sim : !simif, trg : !trigger_module}.

(** * Locks *)

(** Entry [i] is locked: its L bit is set and no rule-locking bypass. *)
Definition pmp_locked (h : hart) (i : Z) : Prop :=
  0 <= i < n_pmp /\ i < max_pmp /\ get_rlb h = false /\ is_locked (pmp_at h i) = true.

(** A write to one of the PMP CSRs. *)
Inductive pmp_write : hart -> hart -> Prop :=
| write_pmpaddr idx val h : 0 <= idx -> pmp_write h (snd (pmpaddr_unlogged_write idx val h))
| write_pmpcfg addr val h : CSR_PMPCFG0 <= addr -> pmp_write h (snd (pmpcfg_unlogged_write addr val h))
| write_mseccfg val h : pmp_write h (snd (mseccfg_unlogged_write val h)).

Inductive pmp_writes : hart -> hart -> Prop :=
| writes_none h : pmp_writes h h
| writes_more h1 h2 h3 : pmp_writes h1 h2 -> pmp_write h2 h3 -> pmp_writes h1 h3.

(** What a sequence of writes keeps of a locked entry. *)
Definition pmp_kept (i : Z) (h h' : hart) : Prop :=
  pmp_locked h' i /\ pmp_at h' i = pmp_at h i /\
  (pmp_cfg (pmp_at h i) .& PMP_A = PMP_TOR -> 0 < i ->
   pmp_val (pmp_at h' (i - 1)) = pmp_val (pmp_at h (i - 1))).

Lemma pmp_at_set_ne h i j e : 0 <= i -> 0 <= j -> i <> j -> pmp_at (set_pmp_at i e h) j = pmp_at h j.
Proof.
  intros Hi Hj Hne. unfold pmp_at, set_pmp_at. cbn [pmpaddr set_pmpaddr].
  rewrite !nth_lookup, list_lookup_insert_ne by lia. done.
Qed.

Lemma pmp_at_set_val h i j e :
  0 <= i -> 0 <= j -> pmp_val e = pmp_val (pmp_at h i) ->
  pmp_val (pmp_at (set_pmp_at i e h) j) = pmp_val (pmp_at h j).
Proof.
  intros Hi Hj He. destruct (decide (i = j)) as [->|]; [|by rewrite pmp_at_set_ne].
  revert He. unfold pmp_at, set_pmp_at. cbn [pmpaddr set_pmpaddr]. rewrite !nth_lookup.
  destruct (decide (Z.to_nat j < List.length (pmpaddr h))%nat).
  - by rewrite list_lookup_insert_eq by lia.
  - by rewrite list_insert_ge by lia.
Qed.

Lemma pmpcfg_step_kept rlb mml i0 val st k i :
  0 <= i0 -> 0 <= k -> rlb = false -> 0 <= i -> is_locked (pmp_at (snd st) i) = true ->
  let h' := snd (pmpcfg_step rlb mml i0 val st k) in
  pmp_at h' i = pmp_at (snd st) i /\
  (0 < i -> pmp_val (pmp_at h' (i - 1)) = pmp_val (pmp_at (snd st) (i - 1))) /\
  csr_val h' = csr_val (snd st).
Proof.
  destruct st as [ok h]. cbn [snd]. intros Hi0 Hk -> Hi Hl. unfold pmpcfg_step. cbn beta iota.
  destruct (i0 + k <? n_pmp); cbn [snd orb]; [|done].
  unfold is_locked in Hl.
  destruct (z2b (pmp_cfg (pmp_at h (i0 + k)) .& PMP_L)) eqn:E; cbn [negb]; [done|].
  destruct (pmpcfg_legalize _ _ _) as [c|]; [|done].
  assert (i0 + k <> i) by (intros <-; congruence).
  rewrite pmp_at_set_ne by lia. split; [done|split; [|done]].
  intros. apply pmp_at_set_val; [lia..|done].
Qed.

Lemma pmpcfg_loop_kept rlb mml i0 val l st i :
  0 <= i0 -> Forall (fun k => 0 <= k) l -> rlb = false -> 0 <= i -> is_locked (pmp_at (snd st) i) = true ->
  let h' := snd (fold_left (pmpcfg_step rlb mml i0 val) l st) in
  pmp_at h' i = pmp_at (snd st) i /\
  (0 < i -> pmp_val (pmp_at h' (i - 1)) = pmp_val (pmp_at (snd st) (i - 1))) /\
  csr_val h' = csr_val (snd st).
Proof.
  intros Hi0 Hl Hr Hi. revert st. induction Hl as [|k l Hk _ IH]; intros st Hlk; [done|].
  cbn [fold_left]. destruct (pmpcfg_step_kept rlb mml i0 val st k i) as (E1 & E2 & E3); [done..|].
  rewrite <- E1, <- E3. destruct (IH (pmpcfg_step rlb mml i0 val st k)) as (F1 & F2 & F3).
  { by rewrite E1. }
  split; [done|split; [|done]]. intros Hp. by rewrite F2, E2.
Qed.

Lemma zseq_nonneg n : Forall (fun k => 0 <= k) (zseq n).
Proof. unfold zseq. apply Forall_map, Forall_forall. intros. cbn. lia. Qed.

(** Only bit [RLB] of [mseccfg] matters to a lock. *)
Lemma get_rlb_bit h : get_rlb h = Z.testbit (mseccfg_read h) 2.
Proof. by apply (z2b_pow2 _ 2). Qed.

Lemma mseccfg_write_rlb val h i :
  0 <= i < n_pmp -> get_rlb h = false -> is_locked (pmp_at h i) = true ->
  get_rlb (snd (mseccfg_unlogged_write val h)) = false.
Proof.
  intros Hi Hr Hl. rewrite get_rlb_bit in Hr. rewrite get_rlb_bit.
  unfold mseccfg_unlogged_write.
  replace (n_pmp =? 0) with false by lia. cbn [negb].
  assert (existsb (fun i => is_locked (pmp_at h i)) (zseq n_pmp) = true) as ->.
  { apply existsb_exists. exists i. by rewrite zseq_In. }
  change MSECCFG_RLB with (2 ^ 2). rewrite eqb_land_pow2, Hr by lia.
  cbn [andb negb snd]. unfold mseccfg_read at 1, csr_raw at 1, set_csr_raw. cbn [csr_val set_csr_val].
  rewrite lookup_insert_eq. unfold default, id.
  repeat match goal with |- context [if ?c then set_field _ _ _ else _] => destruct c end;
  rewrite ?set_field_bit by (done || lia);
  repeat match goal with |- context [if ?c then _ else _] => destruct c end;
  autorewrite with zbits; rewrite ?Hr; const_bits; done.
Qed.

Lemma pmp_write_kept i h h' : pmp_locked h i -> pmp_write h h' -> pmp_kept i h h'.
Proof.
  intros (Hi & Hm & Hr & Hl) Hw. unfold pmp_kept, pmp_locked.
  destruct Hw as [idx val h Hidx|addr val h Ha|val h].
  - unfold pmpaddr_unlogged_write. replace (n_pmp =? 0) with false by lia.
    rewrite Hr. cbn [negb andb].
    destruct (idx <? n_pmp) eqn:E1; cbn [andb snd]; [|done].
    destruct (z2b (pmp_cfg (pmp_at h idx) .& PMP_L)) eqn:E2; cbn [andb negb snd]; [done|].
    destruct (next_locked_and_tor h idx) eqn:E3; cbn [andb negb snd]; [done|].
    assert (idx <> i) by (intros ->; unfold is_locked in Hl; congruence).
    change (pmp_at (flush_tlb ?g)) with (pmp_at g).
    rewrite pmp_at_set_ne by lia. split; [done|split; [done|]].
    intros Ht Hp. change (pmp_at (flush_tlb ?g)) with (pmp_at g).
    rewrite pmp_at_set_ne; [done|lia..|].
    intros ->. revert E3. unfold next_locked_and_tor. rewrite Hr, Z.sub_add.
    unfold is_locked in Hl. rewrite Hl, Ht. cbn.
    by replace (max_pmp <=? i) with false by lia.
  - unfold pmpcfg_unlogged_write. replace (n_pmp =? 0) with false by lia. rewrite Hr.
    destruct (pmpcfg_loop_kept false (get_mml h) ((addr - CSR_PMPCFG0) * 4) val (zseq (xlen / 8)) (false, h) i)
      as (E1 & E2 & E3); [lia|apply zseq_nonneg|done|lia|done|].
    destruct (fold_left _ _ _) as [ok h']. cbn [snd] in *.
    change (pmp_at (flush_tlb h')) with (pmp_at h'). rewrite E1. split; [|auto].
    split; [done|split; [done|split; [|done]]]. rewrite <- Hr, !get_rlb_bit.
    unfold mseccfg_read, csr_raw. change (csr_val (flush_tlb h')) with (csr_val h'). by rewrite E3.
  - pose proof (mseccfg_write_rlb val h i Hi Hr Hl) as Hr'.
    assert (forall j, pmp_at (snd (mseccfg_unlogged_write val h)) j = pmp_at h j) as Hp.
    { intros j. unfold mseccfg_unlogged_write. by destruct (negb (n_pmp =? 0)). }
    rewrite !Hp. auto.
Qed.

(** C3. A locked PMP entry stays locked and keeps its configuration and its
    address through every sequence of writes to [pmpaddr], [pmpcfg] and
    [mseccfg]; when the entry is TOR, so does the address of the entry below,
    which is the base of its region. *)
Theorem pmp_lock_holds i h h' : pmp_locked h i -> pmp_writes h h' -> pmp_kept i h h'.
Proof.
  intros Hl Hw. induction Hw as [h|h1 h2 h3 _ IH Hw]; [by unfold pmp_kept|].
  destruct (IH Hl) as (Hl2 & E & Ht).
  destruct (pmp_write_kept i h2 h3 Hl2 Hw) as (Hl3 & E' & Ht').
  split; [done|split; [congruence|]]. rewrite E in Ht'. intros Hc Hi. rewrite Ht', Ht by done. done.
Qed.

(** * Regions *)

(** [m & ~(m+1)] keeps the trailing ones. *)
Lemma trailing_ones_nat (n : nat) : forall m, 0 <= m < 2 ^ Z.of_nat n ->
  exists t, 0 <= t <= Z.of_nat n /\ m &~ (m + 1) = Z.ones t.
Proof.
  induction n as [|n IH]; intros m Hm.
  - exists 0. assert (m = 0) as -> by (cbn in Hm; lia). done.
  - rewrite Nat2Z.inj_succ, Z.pow_succ_r in Hm by lia.
    destruct (Z.Even_or_Odd m) as [[k ->]|[k ->]].
    + exists 0. split; [lia|].
      apply Z.bits_inj'. intros i Hi. rewrite Z.ldiff_spec, Z.bits_0.
      destruct (Z.eq_dec i 0) as [->|]; [by rewrite Z.testbit_even_0|].
      replace i with (Z.succ (i - 1)) by lia.
      rewrite Z.testbit_even_succ, Z.testbit_odd_succ by lia. btauto.
    + destruct (IH k) as (t & Ht & E); [lia|]. exists (Z.succ t). split; [lia|].
      replace (2 * k + 1 + 1) with (2 * (k + 1)) by lia.
      apply Z.bits_inj'. intros i Hi. rewrite Z.ldiff_spec, tb_ones by lia.
      destruct (Z.eq_dec i 0) as [->|].
      { rewrite Z.testbit_odd_0, Z.testbit_even_0. by cmp_cases. }
      replace i with (Z.succ (i - 1)) by lia.
      rewrite Z.testbit_even_succ, Z.testbit_odd_succ by lia.
      rewrite <- Z.ldiff_spec, E, tb_ones by lia. by cmp_cases.
Qed.

Lemma trailing_ones m : 0 <= m < 2 ^ 64 ->
  exists t, 0 <= t <= 64 /\ m &~ u64 (m + 1) = Z.ones t.
Proof.
  intros Hm. destruct (decide (m = 2 ^ 64 - 1)) as [->|].
  - exists 64. split; [lia|reflexivity].
  - unfold wrap. rewrite Z.mod_small by lia. apply (trailing_ones_nat 64). done.
Qed.

(** The mask of a power-of-two region: all address bits above its size. *)
Lemma napot_mask_shape h idx :
  exists s, 2 <= s <= 66 /\ forall i, 0 <= i -> Z.testbit (napot_mask h idx) i = (s <=? i) && (i <? 64).
Proof.
  unfold napot_mask.
  match goal with |- context [?m &~ u64 (?m + 1)] => set (mask := m) end.
  assert (0 <= mask < 2 ^ 64) as Hm.
  { apply lor_range; [lia|apply lor_range; [lia|by apply wrap_range|]|by apply wrap_range].
    destruct (negb _); cbn; lia. }
  destruct (trailing_ones mask Hm) as (t & Ht & ->).
  exists (t + 2). split; [lia|]. intros i Hi. unfold PMP_SHIFT, unot.
  destruct (Z.lt_ge_cases i 2); autorewrite with zbits; by cmp_cases.
Qed.

Lemma land_high_mask mask s x :
  0 <= s -> 0 <= x < 2 ^ 64 ->
  (forall i, 0 <= i -> Z.testbit mask i = (s <=? i) && (i <? 64)) ->
  (x .& mask =? 0) = (Z.shiftr x s =? 0).
Proof.
  intros Hs Hx Hb. apply eq_true_iff_eq. rewrite !Z.eqb_eq.
  split; intros H0; apply Z.bits_inj'; intros i Hi.
  - rewrite Z.bits_0, Z.shiftr_spec by lia.
    destruct (Z.lt_ge_cases (i + s) 64); [|by apply (tb_high 64); lia].
    apply (f_equal (fun y => Z.testbit y (i + s))) in H0. rewrite Z.land_spec, Hb, Z.bits_0 in H0 by lia.
    replace (s <=? i + s) with true in H0 by lia. replace (i + s <? 64) with true in H0 by lia.
    by rewrite andb_true_r in H0.
  - rewrite Z.bits_0, Z.land_spec, Hb by lia.
    destruct (Z.leb_spec s i); [|by rewrite andb_false_r].
    apply (f_equal (fun y => Z.testbit y (i - s))) in H0. rewrite Z.shiftr_spec, Z.bits_0, Z.sub_add in H0 by lia.
    by rewrite H0.
Qed.

(** Rounding down to a multiple of a power of two. *)
Lemma land_align x j :
  0 <= j <= 63 -> 0 <= x < 2 ^ 64 -> x .& u64 (- 2 ^ j) = 2 ^ j * (x / 2 ^ j).
Proof.
  intros Hj Hx. replace (- 2 ^ j) with (Z.lnot (Z.ones j)) by (unfold Z.lnot; rewrite Z.ones_equiv; lia).
  rewrite (Z.mul_comm (2 ^ j)), <- Z.shiftl_mul_pow2, <- Z.shiftr_div_pow2 by lia.
  apply Z.bits_inj'. intros i Hi.
  rewrite Z.land_spec, tb_shiftl by lia.
  destruct (Z.lt_ge_cases i j).
  - rewrite (tb_neg _ (i - j)) by lia. autorewrite with zbits. cmp_cases; btauto.
  - rewrite Z.shiftr_spec, Z.sub_add by lia. autorewrite with zbits. cmp_cases; [btauto|].
    by rewrite (tb_high 64 x) by lia.
Qed.

Lemma tor_range h i : 0 <= tor_paddr h i < 2 ^ 64.
Proof. by apply wrap_range. Qed.

Lemma tor_base_range h i : 0 <= tor_base_paddr h i < 2 ^ 64.
Proof. unfold tor_base_paddr. destruct (i =? 0); [lia|apply tor_range]. Qed.

Lemma aligned_of_mask addr j : 0 <= j -> 0 <= addr -> (addr .| 2 ^ j) .& (2 ^ j - 1) = 0 -> addr = 2 ^ j * (addr / 2 ^ j).
Proof.
  intros Hj Ha H0. rewrite Z.sub_1_r, <- Z.ones_equiv, Z.land_ones in H0 by lia.
  assert (addr mod 2 ^ j = 0) as Hm; [|pose proof (Z.div_mod addr (2 ^ j)); lia].
  apply Z.bits_inj'. intros i Hi. apply (f_equal (fun y => Z.testbit y i)) in H0. revert H0.
  autorewrite with zbits. cmp_cases; rewrite ?orb_false_r; auto.
Qed.

Lemma page_of j addr a :
  0 <= j -> addr = 2 ^ j * (addr / 2 ^ j) -> addr <= a < addr + 2 ^ j -> a / 2 ^ j = addr / 2 ^ j.
Proof.
  intros Hj He Ha. symmetry. apply (Z.div_unique_pos _ _ _ (a - addr)); lia.
Qed.

(** Bits of an address above the size of its page do not depend on the place in it. *)
Lemma page_bits j addr a i :
  0 <= j -> a / 2 ^ j = addr / 2 ^ j -> j <= i -> Z.testbit a i = Z.testbit addr i.
Proof.
  intros Hj E Hi. replace i with (i - j + j) by lia.
  by rewrite <- !Z.div_pow2_bits, E by lia.
Qed.

Lemma napot_uniform h idx addr a j :
  0 <= j <= 63 -> 0 <= addr < 2 ^ 64 -> 0 <= a < 2 ^ 64 -> a / 2 ^ j = addr / 2 ^ j ->
  z2b (2 ^ j &~ u64 (Z.shiftl (napot_mask h idx) 1)) || z2b ((addr .^ tor_paddr h idx) / 2 ^ j) = true ->
  ((a .^ tor_paddr h idx) .& napot_mask h idx =? 0) = ((addr .^ tor_paddr h idx) .& napot_mask h idx =? 0).
Proof.
  intros Hj Haddr Ha Hp Hom. pose proof (tor_range h idx) as Ht.
  destruct (napot_mask_shape h idx) as (s & Hs & Hb).
  destruct (Z.leb_spec j s).
  - (* the region is larger than the page *)
    f_equal. apply Z.bits_inj'. intros i Hi. rewrite !Z.land_spec, !Hb, !Z.lxor_spec by lia.
    destruct (Z.leb_spec s i); [|by rewrite !andb_false_r].
    by rewrite (page_bits j addr a i) by lia.
  - (* the page is larger, and it is not the region's *)
    apply orb_true_iff in Hom as [Hom|Hom].
    + exfalso. revert Hom. unfold z2b. rewrite negb_true_iff, Z.eqb_neq. intros Hne. apply Hne.
      apply Z.bits_inj'. intros i Hi. rewrite Z.bits_0, Z.ldiff_spec, Z.pow2_bits_eqb by lia.
      destruct (Z.eqb_spec j i) as [<-|]; [|done].
      autorewrite with zbits. rewrite Hb by lia. by cmp_cases.
    + assert (exists i, j <= i < 64 /\ Z.testbit (addr .^ tor_paddr h idx) i = true) as (i & Hi & Hbit).
      { set (x := addr .^ tor_paddr h idx) in *.
        assert (0 <= x < 2 ^ 64) as Hx by (by apply lxor_range).
        unfold z2b in Hom. rewrite negb_true_iff, Z.eqb_neq in Hom.
        assert (0 < x / 2 ^ j) by (pose proof (Z.div_pos x (2 ^ j)); lia).
        pose proof (Z.log2_nonneg (x / 2 ^ j)). exists (Z.log2 (x / 2 ^ j) + j).
        assert (Z.testbit x (Z.log2 (x / 2 ^ j) + j) = true) as Hb2.
        { rewrite <- Z.div_pow2_bits by lia. by apply Z.bit_log2. }
        split; [|done]. split; [lia|].
        destruct (Z.lt_ge_cases (Z.log2 (x / 2 ^ j) + j) 64); [done|].
        rewrite (tb_high 64 x) in Hb2 by lia. done. }
      assert (forall y, Z.testbit y i = Z.testbit addr i ->
                ((y .^ tor_paddr h idx) .& napot_mask h idx =? 0) = false) as Hno.
      { intros y Hy. apply Z.eqb_neq. intros H0. apply (f_equal (fun z => Z.testbit z i)) in H0.
        revert H0. rewrite Z.land_spec, Z.lxor_spec, Hb, Z.bits_0, Hy, <- Z.lxor_spec, Hbit by lia.
        by replace ((s <=? i) && (i <? 64)) with true by lia. }
      rewrite !Hno; [done|done|]. apply (page_bits j); lia.
Qed.
Lemma match4_off h idx addr : pmp_cfg (pmp_at h idx) .& PMP_A = 0 -> match4 h idx addr = false.
Proof. unfold match4. by intros ->. Qed.

Lemma tor_uniform base tor addr a j :
  0 <= j -> 0 <= base -> 0 <= tor -> addr = 2 ^ j * (addr / 2 ^ j) -> addr <= a < addr + 2 ^ j ->
  (2 ^ j * (addr / 2 ^ j) <? 2 ^ j * (base / 2 ^ j)) || (tor <=? addr) ||
  ((base <=? addr) && (2 ^ j * (addr / 2 ^ j) <? 2 ^ j * (tor / 2 ^ j))) = true ->
  ((base <=? a) && (a <? tor)) = ((base <=? addr) && (addr <? tor)).
Proof.
  intros Hj Hb Ht He Ha. rewrite <- He.
  pose proof (Z.mul_div_le base (2 ^ j)). pose proof (Z.mul_div_le tor (2 ^ j)).
  assert (0 < 2 ^ j) by lia.
  assert (forall x, addr < 2 ^ j * (x / 2 ^ j) -> addr + 2 ^ j <= 2 ^ j * (x / 2 ^ j)) as Hstep by (intros x Hx; assert (addr / 2 ^ j + 1 <= x / 2 ^ j) by nia; nia).
  pose proof (Hstep base). pose proof (Hstep tor).
  destruct (Z.ltb_spec addr (2 ^ j * (base / 2 ^ j))), (Z.leb_spec tor addr), (Z.leb_spec base addr),
    (Z.ltb_spec addr (2 ^ j * (tor / 2 ^ j))); cbn [orb andb]; intros Hom; try done; cmp_cases; done.
Qed.

(** Inside a naturally aligned range that [subset_match] does not report as
    cut by entry [idx], the entry matches everywhere or nowhere. *)
Lemma subset_match_uniform h idx addr a j :
  0 <= j <= 63 -> 0 <= addr -> addr + 2 ^ j <= 2 ^ 64 -> addr <= a < addr + 2 ^ j ->
  subset_match h idx addr (2 ^ j) = Some false -> match4 h idx a = match4 h idx addr.
Proof.
  intros Hj H0 Hhi Ha. unfold subset_match.
  destruct (z2b _) eqn:Ez; [done|]. unfold z2b in Ez. apply negb_false_iff, Z.eqb_eq in Ez.
  apply aligned_of_mask in Ez; [|lia..].
  destruct (Z.eqb_spec (pmp_cfg (pmp_at h idx) .& PMP_A) 0) as [E|E].
  { intros _. by rewrite !match4_off. }
  unfold match4. rewrite (proj2 (Z.eqb_neq _ _) E).
  pose proof (tor_range h idx). pose proof (tor_base_range h idx).
  destruct (pmp_cfg (pmp_at h idx) .& PMP_A =? PMP_TOR).
  - intros [= Hom]. apply negb_false_iff in Hom. rewrite !land_align in Hom by lia.
    by apply (tor_uniform _ _ addr a j); try lia.
  - intros [= Hom]. apply negb_false_iff in Hom.
    apply (napot_uniform h idx addr a j); [lia..| |done]. by apply page_of; try lia.
Qed.

Lemma homogeneous_fold h addr len l r :
  fold_left (fun r i => match r, subset_match h i addr len with
                        | Some r, Some s => Some (r && negb s) | _, _ => None end) l r = Some true ->
  r = Some true /\ Forall (fun i => subset_match h i addr len = Some false) l.
Proof.
  revert r. induction l as [|i l IH]; intros r; cbn [fold_left]; [auto|].
  intros H. apply IH in H as [H Hl].
  destruct r as [r|]; [|done]. destruct (subset_match h i addr len) as [[]|] eqn:E; [| |done].
  - by rewrite andb_false_r in H.
  - rewrite andb_true_r in H. auto.
Qed.

(** The sectors of an access inside a homogeneous page agree. *)
Lemma sectors_uniform h i addr a len j :
  0 <= j <= 63 -> 0 <= addr -> addr + 2 ^ j <= 2 ^ 64 ->
  addr <= a -> 0 < len -> a + len <= addr + 2 ^ j ->
  subset_match h i addr (2 ^ j) = Some false ->
  pmp_sectors h i a len = (match4 h i addr, match4 h i addr).
Proof.
  intros Hj H0 Hhi Ha Hl Hal Hs. unfold pmp_sectors.
  assert (Forall (fun k => match4 h i (u64 (a + 4 * k)) = match4 h i addr) (zseq ((len + 3) / 4))) as HF.
  { apply List.Forall_forall. intros k Hk. apply zseq_In in Hk.
    assert (4 * k < len) by (pose proof (Z.mul_div_le (len + 3) 4 ltac:(lia)); lia).
    rewrite wrap_small by lia. by apply (subset_match_uniform h i addr _ j); try lia. }
  assert (zseq ((len + 3) / 4) <> []) as Hne.
  { assert (1 <= (len + 3) / 4) by (apply Z.div_le_lower_bound; lia).
    intros E. assert (In 0 (zseq ((len + 3) / 4))) as Hin by (apply zseq_In; lia). by rewrite E in Hin. }
  revert HF Hne. generalize (zseq ((len + 3) / 4)). intros l HF Hne.
  assert (forall l st, Forall (fun k => match4 h i (u64 (a + 4 * k)) = match4 h i addr) l ->
    fold_left (fun st k => let '(any_match, all_match) := st in
        let m := match4 h i (u64 (a + 4 * k)) in (any_match || m, all_match && m)) l st =
    match l with [] => st | _ => (fst st || match4 h i addr, snd st && match4 h i addr) end) as Hfold.
  { clear. intros l. induction l as [|k l IH]; intros [x y] HF; [done|]. cbn [fold_left fst snd].
    inversion_clear HF as [|? ? E HF']. rewrite IH by done. rewrite E. destruct l; cbn [fst snd]; [done|].
    by rewrite <- orb_assoc, orb_diag, <- andb_assoc, andb_diag. }
  rewrite Hfold by done. by destruct l.
Qed.

Lemma pmp_ok_from_uniform h addr a len j t mode hx n i :
  0 <= j <= 63 -> 0 <= addr -> addr + 2 ^ j <= 2 ^ 64 ->
  addr <= a -> 0 < len -> a + len <= addr + 2 ^ j ->
  (forall k, i <= k < i + Z.of_nat n -> subset_match h k addr (2 ^ j) = Some false) ->
  pmp_ok_from h i n a len t mode hx = pmp_ok_from h i n addr 1 t mode hx.
Proof.
  intros Hj H0 Hhi Ha Hl Hal. revert i. induction n as [|n IH]; intros i Hs; [done|].
  cbn [pmp_ok_from].
  rewrite (sectors_uniform h i addr a len j) by (try apply Hs; lia).
  rewrite (sectors_uniform h i addr addr 1 j) by (try apply Hs; lia).
  rewrite IH; [done|]. intros k Hk. apply Hs. lia.
Qed.

(** C16. Checking a page once is enough: when [pmp_homogeneous] accepts a page,
    every access inside it gets the answer of the page's first byte, whatever
    its size, kind and mode.  This is what lets [refill_tlb] keep the answer. *)
Theorem pmp_homogeneous_sound h base a len t mode hx :
  0 <= base -> base + PGSIZE <= 2 ^ 64 -> base <= a -> 0 < len -> a + len <= base + PGSIZE ->
  pmp_homogeneous h base PGSIZE = Some true ->
  pmp_ok h a len t mode hx = pmp_ok h base 1 t mode hx.
Proof.
  change PGSIZE with (2 ^ 12). intros H0 Hhi Ha Hl Hal. unfold pmp_homogeneous, pmp_ok.
  destruct (z2b _); [done|]. intros H. apply homogeneous_fold in H as [_ HF].
  destruct (n_pmp =? 0); [done|].
  apply (pmp_ok_from_uniform h base a len 12); try lia.
  intros k Hk. rewrite List.Forall_forall in HF. apply HF, zseq_In. lia.
Qed.

(** The trailing ones of a word given as [q], a zero, and [t] ones. *)
Lemma trailing_ones_of q t :
  0 <= t -> 0 <= q ->
  (2 ^ (t + 1) * q + 2 ^ t - 1) &~ (2 ^ (t + 1) * q + 2 ^ t - 1 + 1) = Z.ones t.
Proof.
  intros Ht Hq.
  assert (2 ^ (t + 1) * q + 2 ^ t - 1 = Z.shiftl q (t + 1) .| Z.ones t) as ->.
  { rewrite lor_add, Z.shiftl_mul_pow2, Z.ones_equiv by (lia || bitwise). lia. }
  assert (Z.shiftl q (t + 1) .| Z.ones t + 1 = Z.shiftl q (t + 1) .| 2 ^ t) as ->.
  { rewrite !lor_add, Z.ones_equiv by (lia || bitwise). lia. }
  bitwise.
Qed.

Lemma pmp_tor_mask_2 : lg_pmp_granularity = 2 -> pmp_tor_mask = 2 ^ 64 - 1.
Proof. unfold pmp_tor_mask. by intros ->. Qed.

Lemma tor_paddr_2 h idx :
  lg_pmp_granularity = 2 -> 0 <= pmp_val (pmp_at h idx) < 2 ^ 54 ->
  tor_paddr h idx = 4 * pmp_val (pmp_at h idx).
Proof.
  intros Hg Hv. unfold tor_paddr. rewrite pmp_tor_mask_2 by done.
  replace (2 ^ 64 - 1) with (Z.ones 64) by done. rewrite Z.land_ones, (Z.mod_small _ (2 ^ 64)) by lia.
  unfold PMP_SHIFT. rewrite Z.shiftl_mul_pow2, wrap_small by lia. lia.
Qed.

Lemma shiftr_lxor_zero x y s : 0 <= s -> (Z.shiftr (x .^ y) s =? 0) = (x / 2 ^ s =? y / 2 ^ s).
Proof.
  intros Hs. rewrite <- !Z.shiftr_div_pow2, Z.shiftr_lxor by lia.
  apply eq_true_iff_eq. rewrite !Z.eqb_eq. split; [apply Z.lxor_eq|intros ->; apply Z.lxor_nilpotent].
Qed.

Lemma napot_mask_2 h idx b k :
  lg_pmp_granularity = 2 -> 0 <= b -> -1 <= k <= 53 ->
  let e := pmp_at h idx in
  (if pmp_cfg e .& PMP_A =? PMP_NA4 then k = -1 /\ pmp_val e = b
   else 0 <= k /\ pmp_val e = 2 ^ (k + 1) * b + (2 ^ k - 1)) ->
  pmp_val e < 2 ^ 54 ->
  forall i, 0 <= i -> Z.testbit (napot_mask h idx) i = (k + 3 <=? i) && (i <? 64).
Proof.
  intros Hg Hb Hk e He Hv i Hi. unfold napot_mask. fold e. rewrite pmp_tor_mask_2 by done.
  change (unot64 (2 ^ 64 - 1)) with 0. rewrite Z.lor_0_r.
  assert (u64 (Z.shiftl (pmp_val e) 1) .| b2z (negb (pmp_cfg e .& PMP_A =? PMP_NA4))
          = 2 ^ (k + 1 + 1) * b + 2 ^ (k + 1) - 1) as ->.
  { rewrite Z.shiftl_mul_pow2 by lia.
    destruct (pmp_cfg e .& PMP_A =? PMP_NA4); destruct He as [Hk0 Hval]; cbn [negb b2z].
    - subst k. rewrite Z.lor_0_r, wrap_small by lia. change (2 ^ (-1 + 1 + 1)) with 2. change (2 ^ (-1 + 1)) with 1. lia.
    - pose proof (Z.pow_pos_nonneg 2 k).
      replace (2 ^ (k + 1 + 1)) with (4 * 2 ^ k) by (rewrite !Z.pow_add_r by lia; lia).
      replace (2 ^ (k + 1)) with (2 * 2 ^ k) in * by (rewrite !Z.pow_add_r by lia; lia).
      rewrite wrap_small by nia.
      rewrite lor_add; [rewrite Hval; lia|].
      apply Z.bits_inj'. intros j Hj. rewrite Z.land_spec, Z.bits_0.
      destruct (Z.eq_dec j 0) as [->|].
      + rewrite Z.mul_comm. change (2 ^ 1) with 2. by rewrite Z.testbit_even_0.
      + change 1 with (2 ^ 0) at 2. rewrite Z.pow2_bits_false by lia. btauto. }
  assert (2 ^ (k + 1 + 1) * b + 2 ^ (k + 1) < 2 ^ 64) as Hlt.
  { destruct (pmp_cfg e .& PMP_A =? PMP_NA4); destruct He as [Hk0 Hval].
    - subst k. change (2 ^ (-1 + 1 + 1)) with 2. change (2 ^ (-1 + 1)) with 1. lia.
    - replace (2 ^ (k + 1 + 1)) with (2 * 2 ^ (k + 1)) by (rewrite !Z.pow_add_r by lia; lia).
      replace (2 ^ (k + 1)) with (2 * 2 ^ k) in * by (rewrite !Z.pow_add_r by lia; lia). lia. }
  pose proof (Z.pow_pos_nonneg 2 (k + 1)). pose proof (Z.pow_pos_nonneg 2 (k + 1 + 1)).
  rewrite (wrap_small 64 (_ + 1)) by nia.
  rewrite trailing_ones_of by lia. unfold PMP_SHIFT, unot.
  destruct (Z.lt_ge_cases i 2); autorewrite with zbits; by cmp_cases.
Qed.

(** What an entry matches, at the 4-byte granularity.  OFF matches
    nothing; TOR matches from the address of the entry below (0 for the first)
    up to its own; NA4 matches its 4 bytes; NAPOT whose address ends in a zero
    and [k] ones matches the aligned region of [2^(k+3)] bytes. *)
Theorem pmp_region h idx addr b k :
  lg_pmp_granularity = 2 -> 0 <= idx -> 0 <= addr < 2 ^ 64 -> 0 <= b -> 0 <= k <= 53 ->
  (forall i, 0 <= pmp_val (pmp_at h i) < 2 ^ 54) ->
  let val := pmp_val (pmp_at h idx) in
  let A := pmp_cfg (pmp_at h idx) .& PMP_A in
  (A = 0 -> match4 h idx addr = false) /\
  (A = PMP_TOR -> match4 h idx addr =
     (((if idx =? 0 then 0 else 4 * pmp_val (pmp_at h (idx - 1))) <=? addr) && (addr <? 4 * val))) /\
  (A = PMP_NA4 -> match4 h idx addr = (addr / 4 =? val)) /\
  (A = PMP_NAPOT -> val = 2 ^ (k + 1) * b + (2 ^ k - 1) -> match4 h idx addr = (addr / 2 ^ (k + 3) =? b)).
Proof.
  intros Hg Hi Ha Hb Hk Hv val A. subst val A.
  pose proof (tor_paddr_2 h idx Hg (Hv idx)) as Ht.
  pose proof (Hv idx) as Hvi.
  repeat split.
  - apply match4_off.
  - intros E. unfold match4, tor_base_paddr. rewrite E, Ht. cbn [Z.eqb PMP_TOR].
    destruct (idx =? 0); [done|]. by rewrite tor_paddr_2.
  - intros E. unfold match4. rewrite E, Ht. cbn [Z.eqb PMP_TOR PMP_NA4].
    rewrite (land_high_mask _ 2); [|lia|by apply lxor_range; lia|].
    2: { apply (napot_mask_2 h idx (pmp_val (pmp_at h idx)) (-1)); [done|lia..| |lia]. by rewrite E. }
    rewrite shiftr_lxor_zero by lia. change (2 ^ 2) with 4. by rewrite (Z.mul_comm 4), Z.div_mul.
  - intros E Hval. unfold match4. rewrite E, Ht. cbn [Z.eqb PMP_TOR PMP_NAPOT].
    rewrite (land_high_mask _ (k + 3)); [|lia|by apply lxor_range; lia|].
    2: { apply (napot_mask_2 h idx b k); [done|lia..| |lia]. rewrite E. cbn. lia. }
    rewrite shiftr_lxor_zero by lia. f_equal.
    pose proof (Z.pow_pos_nonneg 2 k).
    replace (2 ^ (k + 3)) with (8 * 2 ^ k) by (rewrite !Z.pow_add_r by lia; lia).
    replace (2 ^ (k + 1)) with (2 * 2 ^ k) in * by (rewrite !Z.pow_add_r by lia; lia).
    symmetry. apply (Z.div_unique_pos _ _ _ (4 * 2 ^ k - 4)); lia.
Qed.

(** * Permissions *)

(** The table of the Smepmp extension: (read, write, execute) of an entry
    whose bits are [l], [r], [w], [x], for M-mode ([m]) and the other modes. *)
Definition smepmp_table (l r w x m : bool) : bool * bool * bool :=
  match l, r, w, x with
  | false, false, true, false => (true, m, false)          (* shared data: M may write *)
  | false, false, true, true => (true, true, false)        (* shared data *)
  | true, false, true, false => (false, false, true)       (* shared code *)
  | true, false, true, true => (m, false, true)            (* shared code: M may read *)
  | true, true, true, true => (true, false, false)         (* shared read-only *)
  | _, _, _, _ => if Bool.eqb l m then (r, w, x) else (false, false, false)
  end.

Definition allows (p : bool * bool * bool) (t : access_type) : bool :=
  let '(r, w, x) := p in match t with LOAD => r | STORE => w | FETCH => x end.

(** The permission of a matching entry: with [mseccfg.MML] set it is the
    Smepmp table, otherwise M-mode bypasses unlocked entries and every other
    access needs its R, W or X bit. *)
Theorem access_ok_table h idx t mode :
  let cfg := pmp_cfg (pmp_at h idx) in
  let l := Z.testbit cfg 7 in let x := Z.testbit cfg 2 in
  let w := Z.testbit cfg 1 in let r := Z.testbit cfg 0 in
  access_ok h idx t mode false =
  if get_mml h then allows (smepmp_table l r w x (mode =? PRV_M)) t
  else ((mode =? PRV_M) && negb l) || allows (r, w, x) t.
Proof.
  cbn zeta. unfold access_ok.
  change PMP_X with (2 ^ 2). change PMP_W with (2 ^ 1). change PMP_R with (2 ^ 0). change PMP_L with (2 ^ 7).
  rewrite !z2b_pow2 by lia. cbn zeta.
  destruct (get_mml h), (Z.testbit _ 7), (Z.testbit _ 2), (Z.testbit _ 1), (Z.testbit _ 0), (mode =? PRV_M), t;
    reflexivity.
Qed.

Lemma pmp_vals_below h n :
  0 < n -> forallb (fun e => (0 <=? pmp_val e) && (pmp_val e <? n)) (pmpaddr h) = true ->
  forall i, 0 <= pmp_val (pmp_at h i) < n.
Proof.
  intros Hn Hf i. rewrite forallb_forall in Hf. unfold pmp_at.
  destruct (nth_in_or_default (Z.to_nat i) (pmpaddr h) (mk_pmp 0 0)) as [Hin| ->].
  - apply Hf, andb_true_iff in Hin. lia.
  - cbn. lia.
Qed.

End pmp.

(** * On the machine of [Machine] *)

#[local] Existing Instances demo_config demo_simif no_triggers.

(** Entry 1 is TOR and locked; entry 0 is its base. *)
Definition locked_hart : hart :=
  set_pmp_at 1 (mk_pmp 0x20004000 0x8f) (set_pmp_at 0 (mk_pmp 0x20000000 0) boot64).

Lemma pmp_lock_holds_witness :
  let h := snd (pmpaddr_unlogged_write 0 0 locked_hart) in
  pmp_locked locked_hart 1 /\ pmp_kept 1 locked_hart (snd (mseccfg_unlogged_write MSECCFG_RLB h)).
Proof.
  assert (pmp_locked locked_hart 1) as Hl by (vm_compute; done).
  split; [done|]. apply pmp_lock_holds; [done|].
  eapply writes_more; [eapply writes_more; [apply writes_none|]|].
  - by apply write_pmpaddr.
  - apply write_mseccfg.
Defined.

Lemma pmp_homogeneous_sound_witness :
  pmp_ok boot64 0x80000008 8 LOAD PRV_U false = pmp_ok boot64 0x80000000 1 LOAD PRV_U false.
Proof.
  apply pmp_homogeneous_sound; vm_compute; done.
Defined.

(** Entry 2 is NAPOT over the 4 KiB at [0x80000000]. *)
Definition napot_hart : hart := set_pmp_at 2 (mk_pmp 0x200001ff 0x1f) boot64.

Lemma pmp_region_witness :
  match4 napot_hart 2 0x80000ffc = true /\ match4 napot_hart 2 0x80001000 = false.
Proof.
  assert (forall i, 0 <= pmp_val (pmp_at napot_hart i) < 2 ^ 54) as Hv
    by (apply pmp_vals_below; [lia|vm_compute; reflexivity]).
  split.
  - destruct (pmp_region napot_hart 2 0x80000ffc 0x80000 9) as (_ & _ & _ & H); try lia; [reflexivity|exact Hv|].
    rewrite H by (vm_compute; reflexivity). reflexivity.
  - destruct (pmp_region napot_hart 2 0x80001000 0x80000 9) as (_ & _ & _ & H); try lia; [reflexivity|exact Hv|].
    rewrite H by (vm_compute; reflexivity). reflexivity.
Defined.
