(* ===== verification/MmuFacts.v ===== *)
(** Facts on memory: bytes and words, the TLBs, machine-mode memory as a flat
    array of bytes, and the permissions of page walks. *)

From S2P Require Import Prelude IntArith Decode Encoding IsaExt Trap Hart Pmp Csr CsrFile Mmu HartFacts.
From S2P Require Import InsnTable Processor Machine.

(** * Bytes and words *)

Lemma le_bytes_length n z : length (le_bytes n z) = n.
Proof. revert z. induction n as [|n IH]; intros z; [done|]. cbn [le_bytes length]. by rewrite IH. Qed.

Lemma le_value_bytes n z : le_value (le_bytes n z) = wrap (8 * Z.of_nat n) z.
Proof.
  revert z. induction n as [|n IH]; intros z.
  - cbn. unfold wrap. by rewrite Z.mod_1_r.
  - cbn [le_bytes le_value]. rewrite IH.
    apply Z.bits_inj'. intros i Hi. autorewrite with zbits. rewrite Nat2Z.inj_succ.
    destruct (Z.lt_ge_cases i 8).
    + rewrite (tb_neg _ (i - 8)) by lia. cmp_cases; btauto.
    + autorewrite with zbits. rewrite Z.sub_add. cmp_cases; btauto.
Qed.

(** A number of bytes fits in as many. *)
Lemma le_value_range l : Forall (fun b => 0 <= b < 2 ^ 8) l -> 0 <= le_value l < 2 ^ (8 * Z.of_nat (length l)).
Proof.
  induction 1 as [|b l Hbr _ IH]; [cbn; lia|]. cbn [le_value length].
  rewrite Nat2Z.inj_succ. set (m := 8 * Z.of_nat (length l)) in *.
  replace (8 * Z.succ (Z.of_nat (length l))) with (m + 8) by lia. assert (0 <= m) by lia. clearbody m.
  rewrite Z.pow_add_r by lia. rewrite Z.shiftl_mul_pow2 by lia.
  assert (Z.lor b (le_value l * 2 ^ 8) = b + le_value l * 2 ^ 8) as ->.
  { apply lor_add. rewrite <- Z.shiftl_mul_pow2 by lia. apply Z.bits_inj'. intros i Hi.
    rewrite Z.land_spec, Z.bits_0. destruct (Z.lt_ge_cases i 8).
    - rewrite Z.shiftl_spec_low by lia. btauto.
    - rewrite (tb_high 8 b i) by lia. btauto. }
  nia.
Qed.

Section mmu.
Context `{cfg : !config, sim : !simif, trg : !trigger_module}.

Lemma from_to_target n z : 0 <= n -> from_target (to_target n z) = wrap (8 * n) z.
Proof.
  intros Hn. unfold from_target, to_target.
  destruct target_big_endian; rewrite ?rev_involutive, le_value_bytes, Z2Nat.id by lia; done.
Qed.

Lemma to_target_length n z : 0 <= n -> Z.of_nat (length (to_target n z)) = n.
Proof.
  intros Hn. unfold to_target. destruct target_big_endian; rewrite ?length_rev, le_bytes_length; lia.
Qed.

Lemma write_bytes_lookup a l m k :
  write_bytes a l m !! k =
  if (a <=? k) && (k <? a + Z.of_nat (length l)) then l !! Z.to_nat (k - a) else m !! k.
Proof.
  revert a. induction l as [|b l IH]; intros a; cbn [write_bytes length].
  - rewrite Z.add_0_r. destruct (Z.leb_spec a k), (Z.ltb_spec k a); cbn [andb]; (lia || done).
  - destruct (decide (a = k)) as [->|Hne].
    + rewrite lookup_insert_eq, Z.leb_refl, Z.sub_diag. by destruct (Z.ltb_spec k (k + Z.of_nat (S (length l)))); [|lia].
    + rewrite lookup_insert_ne, IH by done.
      destruct (Z.leb_spec a k).
      * destruct (Z.leb_spec (a + 1) k); [|lia].
        replace (a + 1 + Z.of_nat (length l)) with (a + Z.of_nat (S (length l))) by lia.
        cbn [andb]. replace (Z.to_nat (k - a)) with (S (Z.to_nat (k - (a + 1)))) by lia. done.
      * by destruct (Z.leb_spec (a + 1) k); [lia|].
Qed.

Lemma read_write_bytes h a l :
  read_bytes (set_mem (write_bytes a l (mem h)) h) a (Z.of_nat (length l)) = l.
Proof.
  unfold read_bytes, zseq. rewrite Nat2Z.id, map_map.
  apply nth_ext with (d := 0) (d' := 0); rewrite length_map, length_seq; [done|].
  intros i Hi. rewrite (nth_indep _ 0 (mem_byte (set_mem (write_bytes a l (mem h)) h) (a + Z.of_nat 0)))
    by (rewrite length_map, length_seq; done).
  rewrite (map_nth (fun x => mem_byte (set_mem (write_bytes a l (mem h)) h) (a + Z.of_nat x)) _ O).
  rewrite seq_nth, Nat.add_0_l by done. unfold mem_byte. cbn [mem set_mem]. rewrite write_bytes_lookup.
  destruct (Z.leb_spec a (a + Z.of_nat i)), (Z.ltb_spec (a + Z.of_nat i) (a + Z.of_nat (length l))); try lia.
  cbn [andb]. replace (Z.to_nat _) with i by lia.
  rewrite nth_lookup. done.
Qed.

(** * The TLBs *)

Definition tlb_of (t : access_type) (m : mmu_t) : gmap Z dtlb_entry_t :=
  match t with FETCH => tlb_insn m | LOAD => tlb_load m | STORE => tlb_store m end.

Lemma PGSIZE_eq : PGSIZE = 2 ^ 12.
Proof. reflexivity. Qed.

Lemma vpn_range va : 0 <= va < 2 ^ 64 -> 0 <= va / PGSIZE < 2 ^ 52.
Proof.
  intros Hva. rewrite PGSIZE_eq. split; [apply Z.div_pos; lia|].
  apply Z.div_lt_upper_bound; lia.
Qed.

(** The flag bits of a tag. *)
Definition tag_flags (trig trace mmio : bool) : Z :=
  opt trig TLB_CHECK_TRIGGERS .| opt trace TLB_CHECK_TRACER .| opt mmio TLB_MMIO.

Lemma tag_flags_bit trig trace mmio i :
  0 <= i -> Z.testbit (tag_flags trig trace mmio) i =
  (trig && (i =? 63)) || (trace && (i =? 62)) || (mmio && (i =? 61)).
Proof.
  intros Hi. unfold tag_flags, TLB_CHECK_TRIGGERS, TLB_CHECK_TRACER, TLB_MMIO.
  autorewrite with zbits. by rewrite !(Z.eqb_sym i).
Qed.

(** Which flags of a tag [access_tlb] lets pass. *)
Definition flags_allowed (allowed : Z) (trig trace mmio : bool) : bool :=
  (negb trig || Z.testbit allowed 63) && (negb trace || Z.testbit allowed 62) && (negb mmio || Z.testbit allowed 61).

Lemma vpn_bit p i : 0 <= p < 2 ^ 52 -> 52 <= i -> Z.testbit p i = false.
Proof. intros. by apply (tb_high 52); lia. Qed.

Lemma tag_hit p q allowed trig trace mmio :
  0 <= p < 2 ^ 52 -> 0 <= q < 2 ^ 52 -> 0 <= allowed < 2 ^ 64 -> allowed .& Z.ones 61 = 0 ->
  ((q .| tag_flags trig trace mmio) .& (unot64 allowed .| 0) =? p .| 0) =
  (q =? p) && flags_allowed allowed trig trace mmio.
Proof.
  intros Hp Hq Ha Hlow. rewrite !Z.lor_0_r.
  assert (forall i, 0 <= i < 61 -> Z.testbit allowed i = false) as Hal.
  { intros i Hi. apply (f_equal (fun z => Z.testbit z i)) in Hlow. revert Hlow.
    rewrite Z.land_spec, Z.bits_0, Z.testbit_ones_nonneg by lia. replace (i <? 61) with true by lia. by rewrite andb_true_r. }
  assert (forall i, 0 <= i -> Z.testbit ((q .| tag_flags trig trace mmio) .& unot64 allowed) i =
    (Z.testbit q i || (trig && (i =? 63)) || (trace && (i =? 62)) || (mmio && (i =? 61)))
      && (i <? 64) && negb (Z.testbit allowed i)) as Hb.
  { intros i Hi. unfold unot. rewrite Z.land_spec, Z.lor_spec, tag_flags_bit, tb_wrap, Z.lnot_spec by lia. btauto. }
  apply eq_true_iff_eq. rewrite andb_true_iff, !Z.eqb_eq. unfold flags_allowed. rewrite !andb_true_iff. split.
  - intros E.
    assert (forall i, 0 <= i -> Z.testbit p i = (Z.testbit q i || (trig && (i =? 63)) || (trace && (i =? 62)) || (mmio && (i =? 61)))
      && (i <? 64) && negb (Z.testbit allowed i)) as Hpb by (intros i Hi; by rewrite <- Hb, E by lia).
    split.
    + apply Z.bits_inj'. intros i Hi. destruct (Z.lt_ge_cases i 52); [|by rewrite !vpn_bit by lia].
      rewrite Hpb, Hal by lia. replace (i =? 63) with false by lia. replace (i =? 62) with false by lia.
      replace (i =? 61) with false by lia. replace (i <? 64) with true by lia. btauto.
    + pose proof (Hpb 63 ltac:(lia)) as H3. pose proof (Hpb 62 ltac:(lia)) as H2. pose proof (Hpb 61 ltac:(lia)) as H1.
      rewrite !vpn_bit in H3, H2, H1 by lia. revert H1 H2 H3. const_cmp.
      destruct trig, trace, mmio, (Z.testbit allowed 63), (Z.testbit allowed 62), (Z.testbit allowed 61);
        cbn; intros H1 H2 H3; done.
  - intros [-> [[H3 H2] H1]]. apply Z.bits_inj'. intros i Hi. rewrite Hb by lia.
    destruct (Z.lt_ge_cases i 52).
    + rewrite Hal by lia. replace (i =? 63) with false by lia. replace (i =? 62) with false by lia.
      replace (i =? 61) with false by lia. replace (i <? 64) with true by lia. btauto.
    + rewrite vpn_bit by lia.
      destruct (Z.eqb_spec i 63) as [->|]; [|destruct (Z.eqb_spec i 62) as [->|]; [|destruct (Z.eqb_spec i 61) as [->|]]];
        const_cmp; destruct trig, trace, mmio; cbn in *; rewrite ?H1, ?H2, ?H3; done.
Qed.

(** [access_tlb] in an array where one entry was just written. *)
Lemma access_tlb_insert tlb q trig trace mmio ent va allowed :
  0 <= q < 2 ^ 52 -> 0 <= va < 2 ^ 64 -> 0 <= allowed < 2 ^ 64 -> allowed .& Z.ones 61 = 0 ->
  access_tlb (<[q mod TLB_ENTRIES := mk_dtlb ent (q .| tag_flags trig trace mmio)]> tlb) va allowed 0 =
  if (va / PGSIZE) mod TLB_ENTRIES =? q mod TLB_ENTRIES
  then ((q =? va / PGSIZE) && flags_allowed allowed trig trace mmio,
        if Z.testbit allowed 61 && mmio then None
        else match host_addr ent with Some a => Some (u64 (a + va mod PGSIZE)) | None => None end,
        u64 (target_addr ent + va mod PGSIZE))
  else access_tlb tlb va allowed 0.
Proof.
  intros Hq Hva Ha Hlow. unfold access_tlb.
  destruct (Z.eqb_spec ((va / PGSIZE) mod TLB_ENTRIES) (q mod TLB_ENTRIES)) as [->|Hne].
  2: { by rewrite lookup_insert_ne by done. }
  rewrite lookup_insert_eq. cbn [default dtlb_tag dtlb_data]. unfold id. cbn [dtlb_tag dtlb_data].
  rewrite tag_hit by (done || by apply vpn_range).
  assert (z2b (allowed .& TLB_MMIO .& (q .| tag_flags trig trace mmio)) = Z.testbit allowed 61 && mmio) as ->; [|done].
  unfold TLB_MMIO. rewrite land_pow2 by lia. destruct (Z.testbit allowed 61); [|by rewrite Z.land_0_l].
  rewrite Z.land_comm, z2b_pow2, Z.lor_spec, tag_flags_bit, vpn_bit by lia. const_cmp. btauto.
Qed.

Lemma access_tlb_flushed va allowed :
  0 <= va < 2 ^ 64 -> 0 <= allowed < 2 ^ 64 -> allowed .& Z.ones 61 = 0 ->
  fst (fst (access_tlb ∅ va allowed 0)) = false.
Proof.
  intros Hva Ha Hlow. unfold access_tlb. rewrite lookup_empty. cbn [default fst dtlb_tag flushed_entry].
  rewrite !Z.lor_0_r. apply Z.eqb_neq. intros E. apply (f_equal (fun z => Z.testbit z 60)) in E.
  rewrite (vpn_bit (va / PGSIZE)) in E by (try apply vpn_range; lia).
  apply (f_equal (fun z => Z.testbit z 60)) in Hlow. revert E Hlow.
  unfold unot. rewrite !Z.land_spec, tb_wrap, Z.lnot_spec, Z.bits_0 by lia. const_bits. const_cmp.
  destruct (Z.testbit allowed 60); done.
Qed.

Lemma refill_tlb_run va paddr host t h b :
  0 <= va < 2 ^ 64 -> in_mprv h = false ->
  pmp_homogeneous h (paddr &~ (PGSIZE - 1)) PGSIZE = Some b ->
  exists trig trace,
  refill_tlb va paddr host t h =
  (Val tt,
   if b && negb cfg_log then
     let q := va / PGSIZE in
     let off := va mod PGSIZE in
     let ent := mk_tlb (match host with Some a => Some (u64 (a - off)) | None => None end) (u64 (paddr - off)) in
     let e := mk_dtlb ent (q .| tag_flags trig trace (match host with Some _ => false | None => true end)) in
     let m := mmu h in
     match t with
     | FETCH => set_mmu (set_tlb_insn (<[q mod TLB_ENTRIES := e]> (tlb_insn m)) m) h
     | LOAD => set_mmu (set_tlb_load (<[q mod TLB_ENTRIES := e]> (tlb_load m)) m) h
     | STORE => set_mmu (set_tlb_store (<[q mod TLB_ENTRIES := e]> (tlb_store m)) m) h
     end
   else h).
Proof.
  intros Hva Hm Hp. unfold refill_tlb. rewrite bind_get_hart, Hp, Hm.
  destruct b; cbn [orb negb andb]; [|by exists false, false].
  destruct cfg_log; cbn [negb]; [by exists false, false|].
  exists (match t with FETCH => check_triggers_fetch (mmu h) | LOAD => check_triggers_load (mmu h)
          | STORE => check_triggers_store (mmu h) end),
    (tracer_interested (paddr &~ (PGSIZE - 1)) (paddr &~ (PGSIZE - 1) + PGSIZE) t).
  unfold modify, tag_flags. rewrite Z.shiftr_div_pow2 by done. change (2 ^ PGSHIFT) with PGSIZE.
  destruct t, host, (tracer_interested _ _ _); cbn [opt]; rewrite ?Z.lor_0_r, ?Z.lor_assoc, ?Z.lor_0_r; reflexivity.
Qed.

Lemma homogeneous_total h x :
  exists b, pmp_homogeneous h (x &~ (PGSIZE - 1)) PGSIZE = Some b.
Proof.
  unfold pmp_homogeneous.
  assert (z2b (((x &~ (PGSIZE - 1)) .| PGSIZE) .& (PGSIZE - 1)) = false) as Hz.
  { unfold z2b. apply negb_false_iff, Z.eqb_eq. rewrite Z.land_lor_distr_l.
    change (PGSIZE .& (PGSIZE - 1)) with 0. rewrite Z.lor_0_r. bitwise. }
  rewrite Hz.
  assert (forall l r, exists b, fold_left (fun r i => match r, subset_match h i (x &~ (PGSIZE - 1)) PGSIZE with
    | Some r, Some s => Some (r && negb s) | _, _ => None end) l (Some r) = Some b) as Hl.
  { induction l as [|i l IH]; intros r; [by exists r|]. cbn [fold_left].
    unfold subset_match at 2. rewrite Hz. apply IH. }
  apply Hl.
Qed.

(** C18. The TLBs cache translations correctly.  [refill_tlb] of any page returns.
    Under MPRV, with a log of commits, or for a page that PMP does not treat
    uniformly, nothing changes.  Otherwise every address of the page hits then and
    yields the same offset from the host page and the physical page; an address of
    another page that shares the entry misses; every other address is looked up as
    before.  After a flush everything misses. *)
Theorem tlb_refill_correct va paddr host t h va' :
  0 <= va < 2 ^ 64 -> 0 <= va' < 2 ^ 64 ->
  exists h', refill_tlb va paddr host t h = (Val tt, h') /\
    (if in_mprv h || cfg_log || negb (bool_decide (pmp_homogeneous h (paddr &~ (PGSIZE - 1)) PGSIZE = Some true)) then h' = h else
     access_tlb (tlb_of t (mmu h')) va' TLB_FLAGS 0 =
     (if (va' / PGSIZE) mod TLB_ENTRIES =? (va / PGSIZE) mod TLB_ENTRIES
      then (va / PGSIZE =? va' / PGSIZE,
            match host with Some a => Some (u64 (a + (va' mod PGSIZE - va mod PGSIZE))) | None => None end,
            u64 (paddr + (va' mod PGSIZE - va mod PGSIZE)))
      else access_tlb (tlb_of t (mmu h)) va' TLB_FLAGS 0)) /\
    fst (fst (access_tlb (tlb_of t (mmu (flush_tlb h'))) va' TLB_FLAGS 0)) = false.
Proof.
  intros Hva Hva'. assert (forall h' : hart, fst (fst (access_tlb (tlb_of t (mmu (flush_tlb h'))) va' TLB_FLAGS 0)) = false) as FL.
  { intros h'. assert (tlb_of t (mmu (flush_tlb h')) = ∅) as -> by (by destruct t). by apply access_tlb_flushed. }
  destruct (in_mprv h) eqn:Hm; cbn [orb].
  { exists h. split; [|by split]. unfold refill_tlb. by rewrite bind_get_hart, Hm. }
  destruct (homogeneous_total h paddr) as [b Hp]. destruct (refill_tlb_run va paddr host t h b Hva Hm Hp) as (trig & trace & E).
  rewrite E, Hp. destruct cfg_log; cbn [orb negb].
  { rewrite andb_false_r. by exists h. }
  destruct b; [|rewrite bool_decide_eq_false_2 by done; by exists h]. rewrite bool_decide_eq_true_2 by done. cbn [andb negb].
  eexists. split; [reflexivity|]. split; [|apply FL]. clear FL E.
  match goal with |- access_tlb (tlb_of t (mmu ?g)) _ _ _ = _ =>
    assert (tlb_of t (mmu g) = <[(va / PGSIZE) mod TLB_ENTRIES :=
      mk_dtlb (mk_tlb (match host with Some a => Some (u64 (a - va mod PGSIZE)) | None => None end) (u64 (paddr - va mod PGSIZE)))
        (va / PGSIZE .| tag_flags trig trace (match host with Some _ => false | None => true end))]> (tlb_of t (mmu h)))
      as -> by (by destruct t) end.
  rewrite access_tlb_insert by (done || by apply vpn_range). cbn [host_addr target_addr].
  destruct (_ =? _); [|done].
  assert (flags_allowed TLB_FLAGS trig trace (match host with Some _ => false | None => true end) = true) as ->
    by (unfold flags_allowed; const_bits; done).
  rewrite andb_true_r. change (Z.testbit TLB_FLAGS 61) with true.
  assert (forall a, u64 (u64 (a - va mod PGSIZE) + va' mod PGSIZE) = u64 (a + (va' mod PGSIZE - va mod PGSIZE))) as Hu.
  { intros a. unfold wrap. rewrite Zplus_mod_idemp_l. f_equal. lia. }
  rewrite Hu. destruct host; [by rewrite Hu|done].
Qed.

(** * Machine-mode memory is a flat array of bytes *)

(** Every entry of an array maps its page to itself. *)
Definition tlb_flat (tlb : gmap Z dtlb_entry_t) : Prop :=
  forall i e, tlb !! i = Some e -> exists q trig trace,
    0 <= q < 2 ^ 52 /\ i = q mod TLB_ENTRIES /\
    e = mk_dtlb (mk_tlb (host_of (PGSIZE * q)) (PGSIZE * q))
          (q .| tag_flags trig trace (negb (addr_to_mem (PGSIZE * q)))).

(** Machine mode without MPRV, pointer masking or triggers, RAM in whole
    pages, and TLBs filled in this mode. *)
Record flat (h : hart) : Prop := {
  flat_xlen : max_xlen = 64;
  flat_prv : prv h = PRV_M;
  flat_v : v h = false;
  flat_mprv : in_mprv h = false;
  flat_pmm : get_field (mseccfg_read h) MSECCFG_PMM = 0;
  flat_triggers : forall env op a d s, detect_memory_access_match env op a d s = (None, s);
  flat_ram : forall a, 0 <= a < 2 ^ 64 -> addr_to_mem a = addr_to_mem (PGSIZE * (a / PGSIZE));
  flat_load : tlb_flat (tlb_load (mmu h));
  flat_store : tlb_flat (tlb_store (mmu h))
}.

(** The hart with other data TLBs. *)
Definition with_tlbs (l s : gmap Z dtlb_entry_t) (h : hart) : hart :=
  set_mmu (set_tlb_load l (set_tlb_store s (mmu h))) h.

Lemma with_tlbs_id h : with_tlbs (tlb_load (mmu h)) (tlb_store (mmu h)) h = h.
Proof. destruct h as [? ? ? ? ? ? ? ? ? ? ? ? ? ? ? ? ? ? ? ? ? ? ? ? ? ? ? ? ? ? m ? ? ?]. by destruct m. Qed.

Lemma with_tlbs_flat l s h : flat h -> tlb_flat l -> tlb_flat s -> flat (with_tlbs l s h).
Proof. intros Hf Hl Hs. split; try apply Hf; done. Qed.

Lemma access_flat tlb va allowed :
  tlb_flat tlb -> (forall a, 0 <= a < 2 ^ 64 -> addr_to_mem a = addr_to_mem (PGSIZE * (a / PGSIZE))) ->
  0 <= va < 2 ^ 64 -> 0 <= allowed < 2 ^ 64 -> allowed .& Z.ones 61 = 0 ->
  let '(hit, host, paddr) := access_tlb tlb va allowed 0 in
  hit = true -> host = host_of va /\ paddr = va /\ (Z.testbit allowed 61 = false -> addr_to_mem va = true).
Proof.
  intros Ht Hram Hva Ha Hlow.
  destruct (tlb !! ((va / PGSIZE) mod TLB_ENTRIES)) as [e|] eqn:E.
  - destruct (Ht _ _ E) as (q & trig & trace & Hq & Hi & He).
    rewrite <- (insert_id tlb _ e E), Hi, He, access_tlb_insert by done.
    rewrite Hi, Z.eqb_refl. cbn [host_addr target_addr]. intros Hit.
    apply andb_true_iff in Hit as [Hq1 Hfl]. apply Z.eqb_eq in Hq1.
    assert (PGSIZE * q + va mod PGSIZE = va) as Hadd.
    { rewrite Hq1. symmetry. apply Z.div_mod. done. }
    rewrite Hadd. rewrite wrap_small by lia.
    unfold flags_allowed in Hfl. rewrite !andb_true_iff, negb_involutive in Hfl. destruct Hfl as [_ Hfl].
    rewrite (Hram va Hva), <- Hq1. unfold host_of. rewrite (Hram va Hva), <- Hq1.
    destruct (addr_to_mem (PGSIZE * q)); cbn [negb orb] in *; rewrite ?andb_false_r, ?andb_true_r.
    + rewrite Hadd, wrap_small by lia. done.
    + rewrite Hfl. done.
  - pose proof (access_tlb_flushed va allowed Hva Ha Hlow) as Hm.
    unfold access_tlb in *. rewrite E. rewrite lookup_empty in Hm. cbn [default fst] in *. by rewrite Hm.
Qed.

Definition plain_flags (f : xlate_flags_t) : Prop :=
  forced_virt f = false /\ hlvx f = false /\ ss_access f = false.

Lemma access_info_flat_f addr t f h :
  flat h -> 0 <= addr < 2 ^ 64 -> t <> FETCH -> plain_flags f ->
  generate_access_info addr t f h = (Val (mk_access_info addr addr PRV_M false f t), h).
Proof.
  intros Hf Ha Ht (F1 & F2 & F3). unfold generate_access_info. rewrite bind_get_hart.
  replace (bool_decide (t = FETCH)) with false by (symmetry; by apply bool_decide_eq_false).
  rewrite (flat_mprv h Hf), (flat_prv h Hf), (flat_v h Hf), F1.
  unfold get_pmlen, xlen. rewrite (flat_xlen h Hf), (flat_pmm h Hf), F2. cbn [Z.eqb Pos.eqb negb orb PRV_M].
  change (64 - 0) with 64. unfold zext. rewrite Z.sub_diag, Z.shiftl_0_r, Z.shiftr_0_r, wrap_small by done.
  reflexivity.
Qed.

Lemma access_info_flat addr t h :
  flat h -> 0 <= addr < 2 ^ 64 -> t <> FETCH ->
  generate_access_info addr t no_flags h = (Val (mk_access_info addr addr PRV_M false no_flags t), h).
Proof. intros. by apply access_info_flat_f. Qed.

Lemma check_triggers_flat op a virt tval d h : flat h -> check_triggers op a virt tval d h = (Val tt, h).
Proof.
  intros Hf. unfold check_triggers. rewrite bind_get_hart.
  destruct (matched_trigger (mmu h)); [done|].
  rewrite (flat_triggers h Hf), bind_modify. unfold ret. by destruct h.
Qed.

Lemma check_triggers_data_flat op a virt l h : flat h -> check_triggers_data op a virt l h = (Val tt, h).
Proof.
  intros Hf. induction l as [|d l IH]; [done|]. cbn [check_triggers_data].
  by rewrite (bind_val _ _ _ _ _ (check_triggers_flat op a virt a (Some d) h Hf)).
Qed.

Lemma translate_flat_f addr t f n h :
  flat h -> 0 <= addr < 2 ^ 64 -> plain_flags f -> pmp_ok h addr n t PRV_M false = true ->
  translate (mk_access_info addr addr PRV_M false f t) n h = (Val addr, h).
Proof.
  intros Hf Ha (F1 & F2 & F3) Hp. unfold translate, walk.
  cbn [transformed_vaddr effective_virt effective_priv flags type].
  rewrite F2, F3. autorewrite with run. unfold decode_vm_info. cbn [Z.eqb Pos.eqb PRV_M levels vm_off andb].
  unfold s2xlate. cbn [negb]. autorewrite with run. unfold xlen. rewrite (flat_xlen h Hf).
  change (u64 (Z.shiftl 2 (64 - 1)) - 1) with (-1). rewrite Z.land_m1_r.
  assert ((addr &~ low_mask PGSHIFT) .| (addr .& (PGSIZE - 1)) = addr) as E.
  { change (PGSIZE - 1) with (low_mask PGSHIFT). apply Z.bits_inj'. intros i Hi. autorewrite with zbits. btauto. }
  rewrite E, Hp. reflexivity.
Qed.

Lemma translate_flat addr t n h :
  flat h -> 0 <= addr < 2 ^ 64 -> pmp_ok h addr n t PRV_M false = true ->
  translate (mk_access_info addr addr PRV_M false no_flags t) n h = (Val addr, h).
Proof. intros. by apply translate_flat_f. Qed.

Lemma refill_flat addr t h :
  flat h -> 0 <= addr < 2 ^ 64 -> t <> FETCH ->
  exists l s, refill_tlb addr addr (host_of addr) t h = (Val tt, with_tlbs l s h) /\ tlb_flat l /\ tlb_flat s.
Proof.
  intros Hf Ha Ht. destruct (homogeneous_total h addr) as [b Hb].
  destruct (refill_tlb_run addr addr (host_of addr) t h b Ha (flat_mprv h Hf) Hb) as (trig & trace & E).
  destruct (b && negb cfg_log).
  2: { exists (tlb_load (mmu h)), (tlb_store (mmu h)). rewrite with_tlbs_id. split; [done|split; apply Hf]. }
  cbn zeta in E.
  set (ent := mk_tlb _ (u64 (addr - addr mod PGSIZE))) in E.
  assert (ent = mk_tlb (host_of (PGSIZE * (addr / PGSIZE))) (PGSIZE * (addr / PGSIZE))) as Hent.
  { subst ent. pose proof (Z.div_mod addr PGSIZE ltac:(done)) as Hd. pose proof (Z.mod_pos_bound addr PGSIZE ltac:(done)).
    assert (addr - addr mod PGSIZE = PGSIZE * (addr / PGSIZE)) as Hs by lia.
    assert (0 <= PGSIZE * (addr / PGSIZE)) by (apply Z.mul_nonneg_nonneg; [done|]; apply Z.div_pos; [lia|done]).
    rewrite Hs. rewrite wrap_small by lia.
    unfold host_of. rewrite <- (flat_ram h Hf addr Ha). destruct (addr_to_mem addr); [|done].
    rewrite Hs. rewrite wrap_small by lia. done. }
  rewrite Hent in E. clear ent Hent.
  set (e := mk_dtlb _ _) in E.
  assert (forall tlb, tlb_flat tlb -> tlb_flat (<[(addr / PGSIZE) mod TLB_ENTRIES := e]> tlb)) as Hins.
  { intros tlb Htlb i x Hx. destruct (decide ((addr / PGSIZE) mod TLB_ENTRIES = i)) as [<-|Hne].
    - rewrite lookup_insert_eq in Hx. injection Hx as <-. exists (addr / PGSIZE), trig, trace.
      split; [by apply vpn_range|split; [done|]]. subst e. do 2 f_equal.
      unfold host_of. rewrite (flat_ram h Hf addr Ha). by destruct (addr_to_mem (PGSIZE * (addr / PGSIZE))).
    - rewrite lookup_insert_ne in Hx by done. by apply Htlb. }
  destruct t; [| |done].
  - exists (<[(addr / PGSIZE) mod TLB_ENTRIES := e]> (tlb_load (mmu h))), (tlb_store (mmu h)).
    split; [|split; [apply Hins, Hf|apply Hf]]. rewrite E. reflexivity.
  - exists (tlb_load (mmu h)), (<[(addr / PGSIZE) mod TLB_ENTRIES := e]> (tlb_store (mmu h))).
    split; [|split; [apply Hf|apply Hins, Hf]]. rewrite E. reflexivity.
Qed.

Lemma aligned_land addr k : 0 <= k -> addr mod 2 ^ k = 0 -> (addr .& (2 ^ k - 1) =? 0) = true.
Proof. intros Hk Ha. rewrite Z.sub_1_r, <- Z.ones_equiv, Z.land_ones, Ha by done. done. Qed.

(** The access the theorems are about: [2^k] bytes of RAM, aligned, allowed by PMP. *)
Definition ram_access (h : hart) (t : access_type) (addr k : Z) : Prop :=
  0 <= k <= 3 /\ 0 <= addr /\ addr + 2 ^ k <= 2 ^ 64 /\ addr mod 2 ^ k = 0 /\
  addr_to_mem addr = true /\ pmp_ok h addr (2 ^ k) t PRV_M false = true.

Lemma load_intrapage_flat addr k h :
  flat h -> ram_access h LOAD addr k ->
  exists l s, load_slow_path_intrapage (2 ^ k) (mk_access_info addr addr PRV_M false no_flags LOAD) h =
    (Val (read_bytes h addr (2 ^ k)), with_tlbs l s h) /\ tlb_flat l /\ tlb_flat s.
Proof.
  intros Hf (Hk & H0 & Hhi & Hal & Hram & Hp). assert (0 <= addr < 2 ^ 64) as Ha by lia.
  unfold load_slow_path_intrapage. cbn [vaddr flags]. rewrite bind_get_hart.
  pose proof (access_flat (tlb_load (mmu h)) addr TLB_FLAGS (flat_load h Hf) (flat_ram h Hf) Ha ltac:(done) ltac:(done)) as Hacc.
  destruct (access_tlb (tlb_load (mmu h)) addr TLB_FLAGS 0) as [[hit host] paddr].
  change (is_special_access no_flags) with false. rewrite orb_false_r.
  destruct hit; cbn [negb].
  - destruct (Hacc eq_refl) as (-> & -> & _). unfold host_of. rewrite Hram.
    exists (tlb_load (mmu h)), (tlb_store (mmu h)). rewrite with_tlbs_id. split; [reflexivity|split; apply Hf].
  - rewrite bind_assoc, (bind_val _ _ _ _ _ (translate_flat addr LOAD (2 ^ k) h Hf Ha Hp)).
    destruct (refill_flat addr LOAD h Hf Ha ltac:(done)) as (l & s & E & Hl & Hs).
    exists l, s. split; [|done]. cbn [when].
    rewrite bind_assoc, (bind_val _ _ _ _ _ E). cbn [lr no_flags andb when].
    unfold host_of. rewrite Hram. reflexivity.
Qed.

Lemma load_slow_flat addr k h :
  flat h -> ram_access h LOAD addr k ->
  exists l s, load_slow_path addr (2 ^ k) no_flags h =
    (Val (read_bytes h addr (2 ^ k)), with_tlbs l s h) /\ tlb_flat l /\ tlb_flat s.
Proof.
  intros Hf Hacc. pose proof Hacc as (Hk & H0 & Hhi & Hal & Hram & Hp). assert (0 <= addr < 2 ^ 64) as Ha by lia.
  unfold load_slow_path. rewrite bind_get_hart, aligned_land by lia.
  pose proof (access_flat (tlb_load (mmu h)) addr (TLB_FLAGS &~ TLB_CHECK_TRIGGERS)
    (flat_load h Hf) (flat_ram h Hf) Ha ltac:(done) ltac:(done)) as Hit.
  destruct (access_tlb (tlb_load (mmu h)) addr (TLB_FLAGS &~ TLB_CHECK_TRIGGERS) 0) as [[hit host] paddr].
  change (is_special_access no_flags) with false. cbn [negb andb orb]. rewrite andb_true_r.
  destruct hit.
  - destruct (Hit eq_refl) as (-> & -> & _). unfold host_of. rewrite Hram.
    exists (tlb_load (mmu h)), (tlb_store (mmu h)). rewrite with_tlbs_id. split; [reflexivity|split; apply Hf].
  - rewrite (bind_val _ _ _ _ _ (access_info_flat addr LOAD h Hf Ha ltac:(done))).
    cbn [transformed_vaddr effective_virt].
    rewrite (bind_val _ _ _ _ _ (check_triggers_flat OPERATION_LOAD addr false addr None h Hf)).
    rewrite aligned_land by lia.
    destruct (load_intrapage_flat addr k h Hf Hacc) as (l & s & E & Hl & Hs).
    exists l, s. split; [|done]. rewrite (bind_val _ _ _ _ _ E).
    by rewrite (bind_val _ _ _ _ _ (check_triggers_data_flat _ _ _ _ _ (with_tlbs_flat l s h Hf Hl Hs))).
Qed.

(** In machine mode a naturally aligned load of
    1, 2, 4 or 8 bytes of RAM that PMP allows succeeds, whether the TLB hits or
    misses, and returns the word of target endianness made of the bytes in
    memory; nothing but the data TLBs changes, and they stay right. *)
Lemma load_ram addr k h :
  flat h -> ram_access h LOAD addr k ->
  exists l s, load (2 ^ k) addr no_flags h =
    (Val (from_target (read_bytes h addr (2 ^ k))), with_tlbs l s h) /\ flat (with_tlbs l s h).
Proof.
  intros Hf Hacc. pose proof Hacc as (Hk & H0 & Hhi & Hal & Hram & Hp). assert (0 <= addr < 2 ^ 64) as Ha by lia.
  unfold load. rewrite bind_get_hart, aligned_land by lia.
  pose proof (access_flat (tlb_load (mmu h)) addr 0 (flat_load h Hf) (flat_ram h Hf) Ha ltac:(done) ltac:(done)) as Hit.
  destruct (access_tlb (tlb_load (mmu h)) addr 0 0) as [[hit host] paddr].
  change (is_special_access no_flags) with false. cbn [negb andb].
  destruct hit.
  - destruct (Hit eq_refl) as (-> & -> & _). unfold host_of. rewrite Hram.
    exists (tlb_load (mmu h)), (tlb_store (mmu h)). by rewrite with_tlbs_id.
  - destruct (load_slow_flat addr k h Hf Hacc) as (l & s & E & Hl & Hs).
    exists l, s. rewrite (bind_val _ _ _ _ _ E). split; [done|by apply with_tlbs_flat].
Qed.

Lemma perform_store_ram va a bytes f h :
  addr_to_mem a = true ->
  perform_intrapage_store va (host_of a) a bytes f h = (Val tt, set_mem (write_bytes a bytes (mem h)) h).
Proof. intros Ha. unfold perform_intrapage_store, host_of. by rewrite Ha. Qed.

Lemma store_intrapage_flat addr k bytes h :
  flat h -> ram_access h STORE addr k ->
  exists l s, store_slow_path_intrapage (2 ^ k) bytes (mk_access_info addr addr PRV_M false no_flags STORE) true h =
    (Val tt, set_mem (write_bytes addr bytes (mem h)) (with_tlbs l s h)) /\ tlb_flat l /\ tlb_flat s.
Proof.
  intros Hf (Hk & H0 & Hhi & Hal & Hram & Hp). assert (0 <= addr < 2 ^ 64) as Ha by lia.
  unfold store_slow_path_intrapage. cbn [vaddr flags]. rewrite bind_get_hart.
  pose proof (access_flat (tlb_store (mmu h)) addr TLB_FLAGS (flat_store h Hf) (flat_ram h Hf) Ha ltac:(done) ltac:(done)) as Hacc.
  destruct (access_tlb (tlb_store (mmu h)) addr TLB_FLAGS 0) as [[hit host] paddr].
  change (is_special_access no_flags) with false. rewrite orb_false_r.
  destruct hit; cbn [negb].
  - destruct (Hacc eq_refl) as (-> & -> & _). rewrite bind_ret. cbn [when].
    exists (tlb_load (mmu h)), (tlb_store (mmu h)). rewrite with_tlbs_id, perform_store_ram by done.
    split; [reflexivity|split; apply Hf].
  - rewrite bind_assoc, (bind_val _ _ _ _ _ (translate_flat addr STORE (2 ^ k) h Hf Ha Hp)).
    destruct (refill_flat addr STORE h Hf Ha ltac:(done)) as (l & s & E & Hl & Hs).
    exists l, s. split; [|done]. cbn [when].
    rewrite bind_assoc, (bind_val _ _ _ _ _ E), bind_ret. by rewrite perform_store_ram.
Qed.

Lemma set_mem_flat x h : flat h -> flat (set_mem x h).
Proof. intros Hf. split; apply Hf. Qed.

Lemma store_ram addr k val h :
  flat h -> ram_access h STORE addr k ->
  exists l s, store (2 ^ k) addr val no_flags h =
    (Val tt, set_mem (write_bytes addr (to_target (2 ^ k) val) (mem h)) (with_tlbs l s h)) /\ flat (with_tlbs l s h).
Proof.
  intros Hf Hacc. pose proof Hacc as (Hk & H0 & Hhi & Hal & Hram & Hp). assert (0 <= addr < 2 ^ 64) as Ha by lia.
  unfold store. rewrite bind_get_hart, aligned_land by lia.
  pose proof (access_flat (tlb_store (mmu h)) addr 0 (flat_store h Hf) (flat_ram h Hf) Ha ltac:(done) ltac:(done)) as Hit.
  destruct (access_tlb (tlb_store (mmu h)) addr 0 0) as [[hit host] paddr].
  change (is_special_access no_flags) with false. cbn [negb andb].
  destruct hit.
  { destruct (Hit eq_refl) as (-> & -> & _). unfold host_of. rewrite Hram.
    exists (tlb_load (mmu h)), (tlb_store (mmu h)). by rewrite with_tlbs_id. }
  unfold store_slow_path. rewrite bind_get_hart, aligned_land by lia. clear Hit host paddr.
  pose proof (access_flat (tlb_store (mmu h)) addr (TLB_FLAGS &~ TLB_CHECK_TRIGGERS)
    (flat_store h Hf) (flat_ram h Hf) Ha ltac:(done) ltac:(done)) as Hit.
  destruct (access_tlb (tlb_store (mmu h)) addr (TLB_FLAGS &~ TLB_CHECK_TRIGGERS) 0) as [[hit host] paddr].
  change (is_special_access no_flags) with false. cbn [negb andb orb]. rewrite andb_true_r. cbn [when].
  destruct hit.
  - destruct (Hit eq_refl) as (-> & -> & _). rewrite perform_store_ram by done.
    exists (tlb_load (mmu h)), (tlb_store (mmu h)). by rewrite with_tlbs_id.
  - rewrite (bind_val _ _ _ _ _ (access_info_flat addr STORE h Hf Ha ltac:(done))).
    cbn [transformed_vaddr effective_virt].
    rewrite (bind_val _ _ _ _ _ (check_triggers_data_flat _ _ _ _ _ Hf)).
    rewrite aligned_land by lia. cbn [negb].
    destruct (store_intrapage_flat addr k (to_target (2 ^ k) val) h Hf Hacc) as (l & s & E & Hl & Hs).
    exists l, s. split; [done|by apply with_tlbs_flat].
Qed.

(** PMP depends on its registers only. *)
Lemma pmp_ok_ext h1 h2 a n t m x :
  pmpaddr h1 = pmpaddr h2 -> csr_val h1 = csr_val h2 -> pmp_ok h1 a n t m x = pmp_ok h2 a n t m x.
Proof.
  intros Hp Hc. unfold pmp_ok. destruct (n_pmp =? 0); [done|].
  assert (forall i, pmp_at h1 i = pmp_at h2 i) as Ha by (intros i; unfold pmp_at; by rewrite Hp).
  assert (mseccfg_read h1 = mseccfg_read h2) as Hm by (unfold mseccfg_read, csr_raw; by rewrite Hc).
  generalize 0 at 1 2. induction (Z.to_nat n_pmp) as [|k IH]; intros i; cbn [pmp_ok_from].
  - unfold get_mmwp, get_mml. by rewrite Hm.
  - assert (forall y, match4 h1 i y = match4 h2 i y) as H4.
    { intros y. unfold match4, tor_base_paddr, tor_paddr, napot_mask. by rewrite !Ha. }
    assert (pmp_sectors h1 i a n = pmp_sectors h2 i a n) as ->.
    { unfold pmp_sectors. generalize (false, true). induction (zseq _) as [|z l IHl]; intros st; [done|].
      cbn [fold_left]. rewrite H4. apply IHl. }
    rewrite IH. destruct (pmp_sectors h2 i a n) as [[] []]; try done.
    unfold access_ok, get_mml. by rewrite Ha, Hm.
Qed.

Lemma ram_access_ext h1 h2 t a k :
  pmpaddr h1 = pmpaddr h2 -> csr_val h1 = csr_val h2 -> ram_access h1 t a k -> ram_access h2 t a k.
Proof. intros Hp Hc. unfold ram_access. by rewrite (pmp_ok_ext h1 h2) by done. Qed.

(** C9. Machine-mode memory is an array of bytes.  In machine mode, without MPRV,
    pointer masking and triggers, and with any data TLBs that machine mode may have
    filled, whose entries map pages to themselves, a naturally
    aligned store of 1, 2, 4 or 8 bytes to RAM that PMP allows succeeds, whether
    the TLB hits or misses, and writes exactly the bytes of the value in target
    endianness; a load of the same address then returns the value, modulo its
    width; neither changes anything else but the data TLBs, and their entries still
    map pages to themselves. *)
Theorem store_then_load addr k val h :
  flat h -> ram_access h STORE addr k -> ram_access h LOAD addr k ->
  exists h1 h2,
    store (2 ^ k) addr val no_flags h = (Val tt, h1) /\
    load (2 ^ k) addr no_flags h1 = (Val (wrap (8 * 2 ^ k) val), h2) /\
    mem h1 = write_bytes addr (to_target (2 ^ k) val) (mem h) /\ mem h2 = mem h1 /\
    (exists l s, h2 = set_mem (mem h1) (with_tlbs l s h)) /\ flat h2.
Proof.
  intros Hf Hst Hld. destruct (store_ram addr k val h Hf Hst) as (l & s & E & Hf1).
  set (h1 := set_mem (write_bytes addr (to_target (2 ^ k) val) (mem h)) (with_tlbs l s h)) in *.
  assert (flat h1) as Hf2 by (by apply set_mem_flat).
  destruct (load_ram addr k h1 Hf2) as (l2 & s2 & E2 & Hf3); [by apply (ram_access_ext h)|].
  exists h1, (with_tlbs l2 s2 h1). split; [done|]. split.
  { rewrite E2. do 2 f_equal. rewrite <- from_to_target by lia. f_equal.
    assert (0 <= 2 ^ k) as Hn by lia.
    pose proof (read_write_bytes (with_tlbs l s h) addr (to_target (2 ^ k) val)) as R.
    rewrite to_target_length in R by done. exact R. }
  split; [done|split; [done|split; [|done]]]. exists l2, s2. reflexivity.
Qed.

(** * Atomics *)

(** The probe that begins an AMO: a store that does not store. *)
Lemma probe_flat addr k h :
  flat h -> ram_access h STORE addr k ->
  exists l s, store_slow_path addr (2 ^ k) [] no_flags false true h = (Val tt, with_tlbs l s h) /\ flat (with_tlbs l s h).
Proof.
  intros Hf Hacc. pose proof Hacc as (Hk & H0 & Hhi & Hal & Hram & Hp). assert (0 <= addr < 2 ^ 64) as Ha by lia.
  unfold store_slow_path. rewrite bind_get_hart, aligned_land by lia.
  destruct (access_tlb (tlb_store (mmu h)) addr (TLB_FLAGS &~ TLB_CHECK_TRIGGERS) 0) as [[hit host] paddr].
  change (is_special_access no_flags) with false. cbn [negb andb orb when]. rewrite andb_true_r.
  destruct hit.
  { exists (tlb_load (mmu h)), (tlb_store (mmu h)). by rewrite with_tlbs_id. }
  rewrite (bind_val _ _ _ _ _ (access_info_flat addr STORE h Hf Ha ltac:(done))).
  rewrite bind_ret. cbn [transformed_vaddr]. rewrite aligned_land by lia. cbn [negb].
  unfold store_slow_path_intrapage. cbn [vaddr flags]. rewrite bind_get_hart.
  destruct (access_tlb (tlb_store (mmu h)) addr TLB_FLAGS 0) as [[hit host'] paddr'].
  change (is_special_access no_flags) with false. rewrite orb_false_r. cbn [when].
  destruct hit; cbn [negb].
  { exists (tlb_load (mmu h)), (tlb_store (mmu h)). by rewrite with_tlbs_id. }
  rewrite bind_assoc, (bind_val _ _ _ _ _ (translate_flat addr STORE (2 ^ k) h Hf Ha Hp)).
  destruct (refill_flat addr STORE h Hf Ha ltac:(done)) as (l & s & E & Hl & Hs).
  exists l, s. rewrite bind_assoc, (bind_val _ _ _ _ _ E). split; [done|by apply with_tlbs_flat].
Qed.

Lemma catch_val {A} (m : M A) k h a h' : m h = (Val a, h') -> catch m k h = (Val a, h').
Proof. unfold catch. by intros ->. Qed.

Lemma with_tlbs_access l s h t a k : ram_access h t a k -> ram_access (with_tlbs l s h) t a k.
Proof. by apply ram_access_ext. Qed.

(** An AMO is a read, a computation and a write, with no other effect on
    memory: in machine mode an aligned [amo] on RAM returns the word at the
    address and leaves there [g] of it. *)
Theorem amo_correct addr k g h :
  flat h -> ram_access h STORE addr k -> ram_access h LOAD addr k ->
  let old := from_target (read_bytes h addr (2 ^ k)) in
  exists l s, amo (2 ^ k) addr (fun lhs => ret (g lhs)) h =
    (Val old, set_mem (write_bytes addr (to_target (2 ^ k) (g old)) (mem h)) (with_tlbs l s h)) /\
    flat (with_tlbs l s h).
Proof.
  intros Hf Hst Hld old.
  destruct (probe_flat addr k h Hf Hst) as (l1 & s1 & E1 & F1).
  destruct (load_ram addr k (with_tlbs l1 s1 h) F1 (with_tlbs_access _ _ _ _ _ _ Hld)) as (l2 & s2 & E2 & F2).
  change (with_tlbs l2 s2 (with_tlbs l1 s1 h)) with (with_tlbs l2 s2 h) in *.
  change (read_bytes (with_tlbs l1 s1 h) addr (2 ^ k)) with (read_bytes h addr (2 ^ k)) in E2.
  destruct (store_ram addr k (g old) (with_tlbs l2 s2 h) F2 (with_tlbs_access _ _ _ _ _ _ Hst)) as (l3 & s3 & E3 & F3).
  exists l3, s3. split; [|exact F3]. unfold amo, convert_load_traps_to_store_traps. apply catch_val.
  rewrite (bind_val _ _ _ _ _ E1), (bind_val _ _ _ _ _ E2), bind_ret. fold old.
  rewrite (bind_val _ _ _ _ _ E3). reflexivity.
Qed.

Definition reservation (h : hart) : Z := load_reservation_address (mmu h).
Definition set_reservation (a : Z) (h : hart) : hart := set_mmu (set_load_reservation_address a (mmu h)) h.
Definition lr_flags : xlate_flags_t := mk_flags false false true false false.

Lemma set_reservation_flat a h : flat h -> flat (set_reservation a h).
Proof. intros Hf. split; apply Hf. Qed.

Lemma set_reservation_access r h t a k : ram_access h t a k -> ram_access (set_reservation r h) t a k.
Proof. by apply ram_access_ext. Qed.

Lemma load_reserved_ram addr k h :
  flat h -> ram_access h LOAD addr k -> reservable addr = true ->
  load_reserved (2 ^ k) addr h = (Val (from_target (read_bytes h addr (2 ^ k))), set_reservation addr h).
Proof.
  intros Hf Hacc Hres. pose proof Hacc as (Hk & H0 & Hhi & Hal & Hram & Hp). assert (0 <= addr < 2 ^ 64) as Ha by lia.
  unfold load_reserved. fold lr_flags. unfold load. rewrite bind_get_hart.
  change (is_special_access lr_flags) with true. cbn [negb andb].
  destruct (access_tlb (tlb_load (mmu h)) addr 0 0) as [[_ _] _].
  unfold load_slow_path. rewrite bind_assoc, bind_get_hart.
  change (is_special_access lr_flags) with true. cbn [negb andb].
  destruct (access_tlb (tlb_load (mmu h)) addr (TLB_FLAGS &~ TLB_CHECK_TRIGGERS) 0) as [[_ _] _].
  rewrite bind_assoc, (bind_val _ _ _ _ _ (access_info_flat_f addr LOAD lr_flags h Hf Ha ltac:(done) ltac:(done))).
  cbn [transformed_vaddr effective_virt].
  rewrite bind_assoc, (bind_val _ _ _ _ _ (check_triggers_flat OPERATION_LOAD addr false addr None h Hf)).
  rewrite aligned_land by lia.
  unfold load_slow_path_intrapage. cbn [vaddr flags]. rewrite !bind_assoc, bind_get_hart.
  change (is_special_access lr_flags) with true.
  destruct (access_tlb (tlb_load (mmu h)) addr TLB_FLAGS 0) as [[hit host] paddr]. rewrite orb_true_r.
  rewrite !bind_assoc, (bind_val _ _ _ _ _ (translate_flat_f addr LOAD lr_flags (2 ^ k) h Hf Ha ltac:(done) Hp)).
  cbn [negb when lr lr_flags andb]. rewrite Hres. cbn [negb]. autorewrite with run.
  unfold host_of. rewrite Hram. unfold perform_intrapage_load. autorewrite with run. fold (set_reservation addr h).
  by rewrite (bind_val _ _ _ _ _ (check_triggers_data_flat _ _ _ _ _ (set_reservation_flat addr h Hf))).
Qed.

(** [store_conditional] stores exactly when the reservation is the address. *)
Lemma store_conditional_ram addr k val h :
  flat h -> ram_access h STORE addr k -> pmp_ok h addr 1 STORE PRV_M false = true -> reservable addr = true ->
  exists l s, store_conditional (2 ^ k) addr val h =
    (Val (reservation h =? addr),
     set_reservation UINT64_MAX
       (if reservation h =? addr
        then set_mem (write_bytes addr (to_target (2 ^ k) val) (mem h)) (with_tlbs l s h) else with_tlbs l s h)) /\
    flat (with_tlbs l s h).
Proof.
  intros Hf Hacc Hp1 Hres. pose proof Hacc as (Hk & H0 & Hhi & Hal & Hram & Hp). assert (0 <= addr < 2 ^ 64) as Ha by lia.
  assert (check_load_reservation addr (2 ^ k) h = (Val (reservation h =? addr), h)) as Hc.
  { unfold check_load_reservation. rewrite aligned_land by lia. cbn [negb when]. rewrite bind_ret.
    rewrite (bind_val _ _ _ _ _ (access_info_flat addr STORE h Hf Ha ltac:(done))).
    rewrite (bind_val _ _ _ _ _ (translate_flat addr STORE 1 h Hf Ha Hp1)), bind_get_hart. by rewrite Hres. }
  unfold store_conditional. rewrite (bind_val _ _ _ _ _ Hc).
  destruct (reservation h =? addr); cbn [when].
  - destruct (store_ram addr k val h Hf Hacc) as (l & s & E & F). exists l, s.
    rewrite (bind_val _ _ _ _ _ E). split; [reflexivity|exact F].
  - exists (tlb_load (mmu h)), (tlb_store (mmu h)). rewrite with_tlbs_id. split; [reflexivity|exact Hf].
Qed.

(** C10. Load-reserved and store-conditional.  In machine mode, on aligned words
    and doublewords of reservable RAM: a store-conditional after a load-reserved of the same
    address succeeds and stores; it gives the reservation up, so a second one
    fails and leaves memory alone; and one after a load-reserved of another
    address fails too. *)
Theorem lr_sc addr other k val h :
  flat h -> 2 <= k -> ram_access h LOAD addr k -> ram_access h STORE addr k -> pmp_ok h addr 1 STORE PRV_M false = true ->
  reservable addr = true -> ram_access h LOAD other k -> reservable other = true -> other <> addr ->
  exists x h1 h2 h3 y h4 h5,
    load_reserved (2 ^ k) addr h = (Val x, h1) /\ x = from_target (read_bytes h addr (2 ^ k)) /\ mem h1 = mem h /\
    store_conditional (2 ^ k) addr val h1 = (Val true, h2) /\
    mem h2 = write_bytes addr (to_target (2 ^ k) val) (mem h) /\
    store_conditional (2 ^ k) addr val h2 = (Val false, h3) /\ mem h3 = mem h2 /\
    load_reserved (2 ^ k) other h = (Val y, h4) /\
    store_conditional (2 ^ k) addr val h4 = (Val false, h5) /\ mem h5 = mem h.
Proof.
  intros Hf Hk2 Hld Hst Hp1 Hres Hldo Hreso Hne.
  assert (addr <> UINT64_MAX) as Hmax.
  { destruct Hst as (Hk & _ & Hhi & _). unfold UINT64_MAX. intros ->.
    assert (k = 2 \/ k = 3) as [-> | ->] by lia; lia. }
  set (h1 := set_reservation addr h). set (h4 := set_reservation other h).
  destruct (store_conditional_ram addr k val h1) as (l & s & E & F);
    [by apply set_reservation_flat|by apply set_reservation_access|by rewrite (pmp_ok_ext h1 h)|done|].
  change (reservation h1) with addr in E. rewrite Z.eqb_refl in E.
  set (h2 := set_reservation UINT64_MAX _) in E.
  destruct (store_conditional_ram addr k val h2) as (l2 & s2 & E2 & F2);
    [by apply set_reservation_flat, set_mem_flat|by apply (ram_access_ext h)|by rewrite (pmp_ok_ext h2 h)|done|].
  change (reservation h2) with UINT64_MAX in E2. rewrite (proj2 (Z.eqb_neq _ _) (not_eq_sym Hmax)) in E2.
  destruct (store_conditional_ram addr k val h4) as (l3 & s3 & E3 & F3);
    [by apply set_reservation_flat|by apply set_reservation_access|by rewrite (pmp_ok_ext h4 h)|done|].
  change (reservation h4) with other in E3. rewrite (proj2 (Z.eqb_neq _ _) Hne) in E3.
  do 7 eexists. split; [apply load_reserved_ram; done|]. split; [done|split; [done|]].
  split; [exact E|split; [reflexivity|]]. split; [exact E2|split; [reflexivity|]].
  split; [apply load_reserved_ram; done|]. split; [exact E3|reflexivity].
Qed.
End mmu.

(** * On the machine of [Machine] *)

#[local] Existing Instances demo_config demo_simif no_triggers.

Lemma demo_ram_pages a : 0 <= a < 2 ^ 64 -> @addr_to_mem demo_simif a = @addr_to_mem demo_simif (PGSIZE * (a / PGSIZE)).
Proof.
  intros Ha. cbn [addr_to_mem demo_simif]. change PGSIZE with 4096.
  pose proof (Z.div_mod a 4096 ltac:(lia)). pose proof (Z.mod_pos_bound a 4096 ltac:(lia)).
  f_equal; [destruct (Z.leb_spec 0x80000000 a), (Z.leb_spec 0x80000000 (4096 * (a / 4096)))
           |destruct (Z.ltb_spec a 0x80010000), (Z.ltb_spec (4096 * (a / 4096)) 0x80010000)]; lia.
Qed.

Lemma tlb_flat_empty : tlb_flat (sim := demo_simif) ∅.
Proof. intros i e. rewrite lookup_empty. discriminate. Qed.

Lemma boot64_tlbs : tlb_load (mmu boot64) = ∅ /\ tlb_store (mmu boot64) = ∅.
Proof. split; vm_compute; reflexivity. Qed.

Lemma boot64_flat : flat boot64.
Proof.
  destruct boot64_tlbs as [Hl Hs]. split.
  1-5: vm_compute; reflexivity.
  - intros. reflexivity.
  - exact demo_ram_pages.
  - rewrite Hl. apply tlb_flat_empty.
  - rewrite Hs. apply tlb_flat_empty.
Qed.

Lemma boot64_ram t a : In t [LOAD; STORE] -> In a [0x80000000; 0x80000010] -> ram_access boot64 t a 3.
Proof.
  intros Ht Ha. cbn in Ht, Ha.
  destruct Ht as [<-|[<-|[]]], Ha as [<-|[<-|[]]]; (split; [lia|]); vm_compute; intuition discriminate.
Qed.
#[local] Hint Resolve boot64_flat : boot.
#[local] Hint Extern 1 (ram_access boot64 _ _ _) => (apply boot64_ram; cbn; tauto) : boot.

Lemma tlb_refill_correct_witness :
  exists h', refill_tlb 0x1234 0x80005234 (Some 0x80005234) LOAD boot64 = (Val tt, h') /\
    access_tlb (tlb_load (mmu h')) 0x1238 TLB_FLAGS 0 = (true, Some 0x80005238, 0x80005238).
Proof.
  destruct (tlb_refill_correct 0x1234 0x80005234 (Some 0x80005234) LOAD boot64 0x1238) as (h' & E & Hh & _);
    [lia|lia|].
  exists h'. split; [exact E|]. change (tlb_load (mmu h')) with (tlb_of LOAD (mmu h')).
  match type of Hh with if ?b then _ else _ => assert (b = false) as Hb by (vm_compute; reflexivity) end. rewrite Hb in Hh. rewrite Hh. vm_compute. reflexivity.
Defined.

Lemma store_then_load_witness :
  exists h1 h2, store 8 0x80000000 0xdeadbeef no_flags boot64 = (Val tt, h1) /\
    load 8 0x80000000 no_flags h1 = (Val 0xdeadbeef, h2).
Proof.
  destruct (store_then_load 0x80000000 3 0xdeadbeef boot64) as (h1 & h2 & E1 & E2 & _); [auto with boot..|].
  exists h1, h2. split; [exact E1|]. exact E2.
Defined.

Lemma amo_correct_witness :
  exists l s, amo 8 0x80000000 (fun lhs => ret (lhs + 1)) boot64 =
    (Val 0, set_mem (write_bytes 0x80000000 [1; 0; 0; 0; 0; 0; 0; 0] (mem boot64)) (with_tlbs l s boot64)).
Proof.
  destruct (amo_correct 0x80000000 3 (fun x => x + 1) boot64) as (l & s & E & _); [auto with boot..|].
  exists l, s. refine (eq_trans E _). f_equal.
Defined.

Lemma lr_sc_witness :
  exists x h1 h2 h3, load_reserved 8 0x80000000 boot64 = (Val x, h1) /\
    store_conditional 8 0x80000000 7 h1 = (Val true, h2) /\ store_conditional 8 0x80000000 7 h2 = (Val false, h3).
Proof.
  destruct (lr_sc 0x80000000 0x80000010 3 7 boot64) as (x & h1 & h2 & h3 & y & h4 & h5 & E1 & _ & _ & E2 & _ & E3 & _);
    [auto with boot|lia|auto with boot|auto with boot|vm_compute; reflexivity|vm_compute; reflexivity|auto with boot|
     vm_compute; reflexivity|lia|].
  exists x, h1, h2, h3. split; [exact E1|split; [exact E2|exact E3]].
Defined.
