(* ===== verification/MemifFacts.v ===== *)
(** The memory interface of the host: over any memory that behaves as a flat array
    in aligned chunks, it reads and writes any array of bytes. *)

From S2P Require Import Prelude Mmu Memif.
Local Open Scope host_scope.

(** * Flat memory *)

(** The [n] bytes at [a], and a memory with [l] in the place of those at [a]. *)
Definition slice (f : Z -> Z) (a : Z) (n : nat) : list Z := map (fun i => f (a + Z.of_nat i)) (seq 0 n).
Definition splice (a : Z) (l : list Z) (f : Z -> Z) (i : Z) : Z :=
  if (a <=? i) && (i <? a + Z.of_nat (length l)) then nth (Z.to_nat (i - a)) l 0 else f i.

Lemma slice_length f a n : length (slice f a n) = n.
Proof. unfold slice. by rewrite length_map, length_seq. Qed.

Lemma slice_nth f a n i : (i < n)%nat -> nth i (slice f a n) 0 = f (a + Z.of_nat i).
Proof.
  intros I. unfold slice. rewrite (nth_indep _ 0 (f (a + Z.of_nat 0))) by (by rewrite length_map, length_seq).
  rewrite (map_nth (fun i => f (a + Z.of_nat i))), seq_nth by done. done.
Qed.

Lemma slice_ext f g a n : (forall i, a <= i < a + Z.of_nat n -> f i = g i) -> slice f a n = slice g a n.
Proof. intros E. apply map_ext_in. intros i I%in_seq. apply E. lia. Qed.

Lemma slice_S f a n : slice f a (S n) = f a :: slice f (a + 1) n.
Proof.
  unfold slice. cbn [seq map]. rewrite Z.add_0_r. f_equal. rewrite <- seq_shift, map_map. apply map_ext. intros i. f_equal. lia.
Qed.

Lemma slice_app f a n m : slice f a (n + m) = slice f a n ++ slice f (a + Z.of_nat n) m.
Proof.
  revert a. induction n as [|n IH]; intros a; [by rewrite Z.add_0_r|]. cbn [Nat.add]. rewrite !slice_S, IH. cbn.
  by replace (a + 1 + Z.of_nat n) with (a + Z.of_nat (S n)) by lia.
Qed.

Lemma slice_firstn f a n k : (k <= n)%nat -> firstn k (slice f a n) = slice f a k.
Proof. intros L. replace n with (k + (n - k))%nat by lia. rewrite slice_app. apply take_app_length'. by rewrite slice_length. Qed.

Lemma slice_skipn f a n k : (k <= n)%nat -> skipn k (slice f a n) = slice f (a + Z.of_nat k) (n - k).
Proof. intros L. replace n with (k + (n - k))%nat at 1 by lia. rewrite slice_app. apply drop_app_length'. by rewrite slice_length. Qed.

(** Bytes written over some just written. *)
Lemma splice_app a l1 l2 f i : splice (a + Z.of_nat (length l1)) l2 (splice a l1 f) i = splice a (l1 ++ l2) f i.
Proof.
  unfold splice. rewrite length_app, Nat2Z.inj_add. destruct (Z.leb_spec a i) as [A|A]; cbn [andb].
  - destruct (Z.leb_spec (a + Z.of_nat (length l1)) i) as [B|B]; cbn [andb].
    + rewrite Z.add_assoc. destruct (Z.ltb_spec i (a + Z.of_nat (length l1) + Z.of_nat (length l2))).
      * rewrite app_nth2 by lia. f_equal. lia.
      * by rewrite (proj2 (Z.ltb_ge _ _)) by lia.
    + rewrite !(proj2 (Z.ltb_lt _ _)) by lia. by rewrite app_nth1 by lia.
  - by rewrite (proj2 (Z.leb_gt _ _)) by lia.
Qed.

Lemma splice_nil a f i : splice a [] f i = f i.
Proof. unfold splice. change (Z.of_nat (length [])) with 0. destruct (Z.leb_spec a i), (Z.ltb_spec i (a + 0)); try done. lia. Qed.

Lemma splice_ext a l f g i : f i = g i -> splice a l f i = splice a l g i.
Proof. unfold splice. by case_match. Qed.

(** A slice around [l], with [l] patched in. *)
Lemma splice_slice a o l f n i : (length o + length l <= n)%nat -> o = slice f a (length o) ->
  splice a (o ++ l ++ slice f (a + Z.of_nat (length o) + Z.of_nat (length l)) (n - length o - length l)) f i =
  splice (a + Z.of_nat (length o)) l f i.
Proof.
  intros N O. unfold splice. rewrite !length_app, slice_length.
  destruct (Z.leb_spec a i) as [A|A]; cbn [andb]; [|by rewrite (proj2 (Z.leb_gt _ _)) by lia].
  destruct (Z.ltb_spec i (a + Z.of_nat (length o + (length l + (n - length o - length l))))) as [B|B].
  2:{ rewrite (proj2 (Z.ltb_ge i (a + _ + _))) by lia. by rewrite andb_false_r. }
  destruct (Z.leb_spec (a + Z.of_nat (length o)) i) as [C|C]; cbn [andb].
  - rewrite app_nth2 by lia. destruct (Z.ltb_spec i (a + Z.of_nat (length o) + Z.of_nat (length l))).
    + rewrite app_nth1 by lia. f_equal. lia.
    + rewrite app_nth2, slice_nth by lia. f_equal. lia.
  - rewrite app_nth1 by lia. rewrite O, slice_nth by lia. f_equal. lia.
Qed.

Lemma bind_done {S A B} (m : host S A) (f : A -> host S B) a s s' : m s = (Done a, s') -> host_bind m f s = f a s'.
Proof. intros E. unfold host_bind. by rewrite E. Qed.

(** * The interface *)

(** A memory with chunks is flat on a region when it reads and writes there as an array
    of bytes; other addresses may be devices, or fail. *)
Class flat_memif (S : Type) `{!chunked_memif S} : Type := {
  flat_ok : S -> Prop;
  flat_bytes : S -> Z -> Z;
  flat_lo : Z;
  flat_hi : Z;
  flat_align : exists k, 0 <= k < 64 /\ chunk_align = 2 ^ k;
  flat_max : 0 < chunk_max_size /\ (chunk_align | chunk_max_size);
  flat_bounds : 0 <= flat_lo /\ flat_hi <= 2 ^ 64 /\ (chunk_align | flat_lo) /\ (chunk_align | flat_hi);
  flat_read a n s : flat_ok s -> 0 < n <= chunk_max_size -> flat_lo <= a -> a + n <= flat_hi -> (chunk_align | a) -> (chunk_align | n) ->
    exists s', read_chunk a n s = (Done (slice (flat_bytes s) a (Z.to_nat n)), s') /\ flat_ok s' /\
      forall i, flat_bytes s' i = flat_bytes s i;
  flat_write a l s : flat_ok s -> 0 < Z.of_nat (length l) <= chunk_max_size -> flat_lo <= a -> a + Z.of_nat (length l) <= flat_hi ->
    (chunk_align | a) -> (chunk_align | Z.of_nat (length l)) -> Forall (fun b => 0 <= b < 256) l ->
    exists s', write_chunk a l s = (Done tt, s') /\ flat_ok s' /\ forall i, flat_bytes s' i = splice a l (flat_bytes s) i;
  flat_clear a n s : flat_ok s -> (0 < n)%nat -> flat_lo <= a -> a + Z.of_nat n <= flat_hi -> (chunk_align | a) -> (chunk_align | Z.of_nat n) ->
    exists s', clear_chunk a (Z.of_nat n) s = (Done tt, s') /\ flat_ok s' /\
      forall i, flat_bytes s' i = splice a (replicate n 0) (flat_bytes s) i;
  flat_byte s i : flat_ok s -> 0 <= flat_bytes s i < 256
}.

Section flat.
Context {S : Type} `{!chunked_memif S, !flat_memif S}.

Definition in_region (a n : Z) : Prop := flat_lo <= a /\ a + n <= flat_hi.

Lemma align_pos : 0 < chunk_align.
Proof. destruct flat_align as (k & K & ->). lia. Qed.

(** The address of a chunk, and the place in it. *)
Lemma chunk_off a : a .& (chunk_align - 1) = a mod chunk_align.
Proof.
  destruct flat_align as (k & K & ->). replace (2 ^ k - 1) with (Z.ones k) by (rewrite Z.ones_equiv; lia). apply Z.land_ones. lia.
Qed.
Lemma chunk_base a : a &~ (chunk_align - 1) = a - a mod chunk_align.
Proof.
  destruct flat_align as (k & K & ->). replace (2 ^ k - 1) with (Z.ones k) by (rewrite Z.ones_equiv; lia).
  rewrite Z.ldiff_ones_r, Z.shiftl_mul_pow2, Z.shiftr_div_pow2 by lia. pose proof (Z.div_mod a (2 ^ k)). lia.
Qed.

(** An unaligned address is inside of a chunk of the region. *)
Lemma chunk_region a n : 0 < n -> n <= chunk_align - a mod chunk_align -> in_region a n -> in_region (a - a mod chunk_align) chunk_align.
Proof.
  unfold in_region. destruct flat_bounds as (L & H & [x X] & [y Y]). pose proof align_pos as P.
  pose proof (Z.div_mod a chunk_align) as D. pose proof (Z.mod_pos_bound a chunk_align P).
  intros N M [A B]. set (q := a / chunk_align) in *. set (r := a mod chunk_align) in *.
  assert (x <= q) by (apply Z.lt_succ_r, (Z.mul_lt_mono_pos_r chunk_align); [done|lia]).
  assert (q < y) by (apply (Z.mul_lt_mono_pos_r chunk_align); [done|lia]).
  assert (x * chunk_align <= q * chunk_align) by (apply Z.mul_le_mono_nonneg_r; lia).
  assert ((q + 1) * chunk_align <= y * chunk_align) by (apply Z.mul_le_mono_nonneg_r; lia). lia.
Qed.

Lemma chunk_aligned a : (chunk_align | a - a mod chunk_align).
Proof. pose proof align_pos. exists (a / chunk_align). pose proof (Z.div_mod a chunk_align). lia. Qed.

Lemma head_len_spec addr len : 0 <= len ->
  let h := head_len addr len in
  0 <= h <= len /\ (h = len \/ (chunk_align | addr + h)) /\ (0 < h -> h <= chunk_align - addr mod chunk_align).
Proof.
  intros L. unfold head_len. rewrite chunk_off. pose proof align_pos as P. pose proof (Z.mod_pos_bound addr chunk_align P).
  destruct (Z.eqb_spec len 0) as [->|N]; cbn [orb]; [lia|].
  destruct (Z.eqb_spec (addr mod chunk_align) 0) as [E|E].
  - split; [lia|]. split; [|lia]. right. rewrite Z.add_0_r. by apply Z.mod_divide; [lia|].
  - split; [lia|]. split; [|lia]. destruct (Z.min_spec len (chunk_align - addr mod chunk_align)) as [[? ->]|[? ->]]; [by left|right].
    exists (addr / chunk_align + 1). pose proof (Z.div_mod addr chunk_align). lia.
Qed.

(** The last part of an aligned range. *)
Lemma tail_len_spec addr len : 0 <= len -> (len = 0 \/ (chunk_align | addr)) ->
  let t := len .& (chunk_align - 1) in
  0 <= t <= len /\ t < chunk_align /\ (chunk_align | len - t) /\ (len = 0 \/ (chunk_align | addr + (len - t))).
Proof.
  intros L A. rewrite chunk_off. pose proof align_pos as P. pose proof (Z.mod_pos_bound len chunk_align P).
  pose proof (Z.mod_le len chunk_align). split; [lia|]. split; [lia|]. split; [apply chunk_aligned|].
  destruct A as [->|A]; [by left|right]. apply Z.divide_add_r; [done|apply chunk_aligned].
Qed.

(** ** Reading *)

Lemma u64_region a n : in_region a n -> 0 < n -> u64 a = a.
Proof. destruct flat_bounds as (L & H & _). intros [A B] N. apply wrap_small. lia. Qed.

Lemma divide_min a b : (chunk_align | a) -> (chunk_align | b) -> (chunk_align | Z.min a b).
Proof. intros A B. by destruct (Z.min_spec a b) as [[_ ->]|[_ ->]]. Qed.

Definition reads (m : host S (list Z)) (s : S) (a : Z) (n : nat) : Prop :=
  exists s', m s = (Done (slice (flat_bytes s) a n), s') /\ flat_ok s' /\ forall i, flat_bytes s' i = flat_bytes s i.

Lemma read_chunks_flat fuel : forall addr len pos s,
  flat_ok s -> 0 <= pos -> len - pos <= Z.of_nat fuel -> in_region addr len -> (chunk_align | addr) -> (chunk_align | len) -> (chunk_align | pos) ->
  reads (read_chunks fuel addr len pos) s (addr + pos) (Z.to_nat (len - pos)).
Proof.
  destruct flat_max as [MP MD].
  induction fuel as [|fuel IH]; intros addr len pos s OK P F R A L D; unfold reads; cbn [read_chunks].
  { rewrite (proj2 (Z.ltb_ge _ _)) by lia. exists s. by replace (Z.to_nat (len - pos)) with 0%nat by lia. }
  destruct (Z.ltb_spec pos len) as [LT|GE].
  2:{ exists s. by replace (Z.to_nat (len - pos)) with 0%nat by lia. }
  set (n := Z.min chunk_max_size (len - pos)). destruct R as [R1 R2].
  rewrite (u64_region (addr + pos) (len - pos)) by (try split; lia).
  destruct (flat_read (addr + pos) n s OK) as (s1 & E1 & OK1 & B1); [lia|lia|lia|by apply Z.divide_add_r| |].
  { apply divide_min; [done|]. by apply Z.divide_sub_r. }
  rewrite (bind_done _ _ _ _ _ E1).
  destruct (IH addr len (pos + chunk_max_size) s1 OK1) as (s2 & E2 & OK2 & B2); [lia|lia|done|done|done|by apply Z.divide_add_r|].
  rewrite (bind_done _ _ _ _ _ E2). exists s2. split; [|split; [done|]; intros i; by rewrite B2]. unfold give. f_equal. f_equal.
  destruct (Z.le_gt_cases chunk_max_size (len - pos)) as [M|M].
  - replace (Z.to_nat (len - pos)) with (Z.to_nat n + Z.to_nat (len - (pos + chunk_max_size)))%nat by lia.
    rewrite slice_app. f_equal. replace (addr + pos + Z.of_nat (Z.to_nat n)) with (addr + (pos + chunk_max_size)) by lia. by apply slice_ext.
  - replace (Z.to_nat (len - (pos + chunk_max_size))) with 0%nat by lia. unfold n. rewrite Z.min_r by lia. apply app_nil_r.
Qed.

(** The chunk around an unaligned part. *)
Lemma part_chunk addr n : 0 < n -> n <= chunk_align - addr mod chunk_align -> in_region addr n ->
  let base := addr &~ (chunk_align - 1) in let off := Z.to_nat (addr .& (chunk_align - 1)) in
  in_region base chunk_align /\ (chunk_align | base) /\ base + Z.of_nat off = addr /\ (off + Z.to_nat n <= Z.to_nat chunk_align)%nat.
Proof.
  intros N M R. cbv zeta. rewrite chunk_base, chunk_off. pose proof align_pos as P. pose proof (Z.mod_pos_bound addr chunk_align P).
  split; [by apply (chunk_region addr n)|]. split; [apply chunk_aligned|]. lia.
Qed.

Lemma align_le_max : chunk_align <= chunk_max_size.
Proof. destruct flat_max as [P D]. by apply Z.divide_pos_le. Qed.

Lemma read_align a s : flat_ok s -> in_region a chunk_align -> (chunk_align | a) -> reads (read_chunk a chunk_align) s a (Z.to_nat chunk_align).
Proof. intros OK [R1 R2] A. pose proof align_pos. pose proof align_le_max. by apply flat_read. Qed.

Lemma read_part addr n s : flat_ok s -> 0 < n -> n <= chunk_align - addr mod chunk_align -> in_region addr n ->
  reads (let? chunk := read_chunk (addr &~ (chunk_align - 1)) chunk_align in
         give (firstn (Z.to_nat n) (skipn (Z.to_nat (addr .& (chunk_align - 1))) chunk))) s addr (Z.to_nat n).
Proof.
  intros OK N M R. destruct (part_chunk addr n N M R) as (R' & A & E & L).
  unfold reads. destruct (read_align _ s OK R' A) as (s' & C & OK' & B). exists s'. rewrite (bind_done _ _ _ _ _ C). split; [|done]. unfold give. f_equal. f_equal.
  rewrite slice_skipn by lia. rewrite slice_firstn by lia. by rewrite E.
Qed.

Lemma memif_read_flat addr len s : flat_ok s -> 0 <= len -> in_region addr len -> reads (memif_read addr len) s addr (Z.to_nat len).
Proof.
  intros OK L R. unfold reads, memif_read. cbv zeta. destruct (head_len_spec addr len L) as (H1 & H2 & H3).
  set (h := head_len addr len) in *.
  assert (exists s1, (if h =? 0 then give [] else
     let? chunk := read_chunk (addr &~ (chunk_align - 1)) chunk_align in
     give (firstn (Z.to_nat h) (skipn (Z.to_nat (addr .& (chunk_align - 1))) chunk))) s = (Done (slice (flat_bytes s) addr (Z.to_nat h)), s1) /\
     flat_ok s1 /\ forall i, flat_bytes s1 i = flat_bytes s i) as (s1 & E1 & OK1 & B1).
  { destruct (Z.eqb_spec h 0) as [->|N]; [by exists s|]. apply (read_part addr h); [done|lia|lia|]. destruct R. split; lia. }
  rewrite (bind_done _ _ _ _ _ E1). clear E1. destruct (tail_len_spec (addr + h) (len - h)) as (T1 & T2 & T3 & T4); [lia|destruct H2; [left; lia|by right]|].
  assert (len - h = 0 \/ u64 (addr + h) = addr + h) as W.
  { destruct (Z.eq_dec (len - h) 0); [by left|right]. apply (u64_region _ (len - h)); [destruct R; split|]; lia. }
  set (t := (len - h) .& (chunk_align - 1)) in *. set (a1 := u64 (addr + h)) in *.
  assert (exists s2, (if t =? 0 then give [] else
      let? chunk := read_chunk (u64 (a1 + (len - h - t))) chunk_align in give (firstn (Z.to_nat t) chunk)) s1 =
      (Done (slice (flat_bytes s) (addr + h + (len - h - t)) (Z.to_nat t)), s2) /\ flat_ok s2 /\ forall i, flat_bytes s2 i = flat_bytes s i)
    as (s2 & E2 & OK2 & B2).
  { destruct (Z.eqb_spec t 0) as [->|N]; [by exists s1|]. destruct W as [W|W]; [lia|]. destruct T4 as [T4|T4]; [lia|]. rewrite W.
    assert (in_region (addr + h + (len - h - t)) t) as R' by (destruct R; split; lia).
    rewrite (u64_region _ t R') by lia. pose proof align_pos as AP.
    assert ((addr + h + (len - h - t)) mod chunk_align = 0) as Z0 by (by apply Z.mod_divide; [lia|]).
    destruct (read_align (addr + h + (len - h - t)) s1 OK1) as (s2 & E & OK2 & B); [|done|].
    { pose proof (chunk_region (addr + h + (len - h - t)) t ltac:(lia) ltac:(rewrite Z0; lia) R') as G. by rewrite Z0, Z.sub_0_r in G. }
    exists s2. rewrite (bind_done _ _ _ _ _ E). split; [|split; [done|]; intros i; by rewrite B]. unfold give. f_equal. f_equal.
    rewrite slice_firstn by lia. by apply slice_ext. }
  rewrite (bind_done _ _ _ _ _ E2). clear E2.
  assert (reads (read_chunks (Z.to_nat (len - h - t)) a1 (len - h - t) 0) s2 (addr + h) (Z.to_nat (len - h - t))) as (s3 & E3 & OK3 & B3).
  { destruct (Z.eq_dec (len - h - t) 0) as [->|N].
    - exists s2. split; [done|by split].
    - destruct W as [W|W]; [lia|]. destruct T4 as [T4|T4]; [lia|]. rewrite W. destruct H2 as [H2|H2]; [lia|].
      pose proof (read_chunks_flat (Z.to_nat (len - h - t)) (addr + h) (len - h - t) 0 s2 OK2) as G.
      rewrite Z.add_0_r, Z.sub_0_r in G. apply G; [lia|lia|destruct R; split; lia|done|done|apply Z.divide_0_r]. }
  rewrite (bind_done _ _ _ _ _ E3). exists s3. split; [|split; [done|]; intros i; by rewrite B3, B2]. unfold give. f_equal. f_equal.
  replace (Z.to_nat len) with (Z.to_nat h + (Z.to_nat (len - h - t) + Z.to_nat t))%nat by lia. rewrite !slice_app. f_equal.
  replace (addr + Z.of_nat (Z.to_nat h)) with (addr + h) by lia. f_equal; [by apply slice_ext|].
  by replace (addr + h + Z.of_nat (Z.to_nat (len - h - t))) with (addr + h + (len - h - t)) by lia.
Qed.

(** ** Writing *)

Definition writes (m : host S unit) (s : S) (a : Z) (l : list Z) : Prop :=
  exists s', m s = (Done tt, s') /\ flat_ok s' /\ forall i, flat_bytes s' i = splice a l (flat_bytes s) i.

Lemma splice_commute a1 l1 a2 l2 f i : a1 + Z.of_nat (length l1) <= a2 ->
  splice a1 l1 (splice a2 l2 f) i = splice a2 l2 (splice a1 l1 f) i.
Proof.
  intros L. unfold splice. destruct (Z.leb_spec a2 i); cbn [andb]; [|done].
  rewrite (proj2 (Z.ltb_ge i (a1 + _))) by lia. by rewrite andb_false_r.
Qed.

Lemma writes_nil s a : flat_ok s -> writes (give tt) s a [].
Proof. intros OK. exists s. split; [done|]. split; [done|]. intros i. by rewrite splice_nil. Qed.

(** The bytes of a part of a chunk, read and written back. *)
Lemma patch_chunk base off l s : flat_ok s -> in_region base chunk_align -> (chunk_align | base) -> 0 <= off ->
  off + Z.of_nat (length l) <= chunk_align -> Forall (fun b => 0 <= b < 256) l ->
  writes (let? chunk := read_chunk base chunk_align in write_chunk base (patch off l chunk)) s (base + off) l.
Proof.
  intros OK R A O L B. unfold writes. destruct (read_align base s OK R A) as (s1 & E1 & OK1 & B1). rewrite (bind_done _ _ _ _ _ E1).
  pose proof align_pos as AP. pose proof align_le_max as AM. unfold patch. rewrite slice_firstn, slice_skipn by lia.
  set (o := slice (flat_bytes s) base (Z.to_nat off)). assert (length o = Z.to_nat off) as LO by apply slice_length.
  set (w := o ++ l ++ _). assert (Z.of_nat (length w) = chunk_align) as LW.
  { unfold w. rewrite !length_app, slice_length. lia. }
  destruct (flat_write base w s1 OK1) as (s2 & E2 & OK2 & B2); [lia|apply R|rewrite LW; apply R|done|rewrite LW; apply Z.divide_refl| |].
  { unfold w, o. rewrite !Forall_app. split; [|split; [done|]].
    - unfold slice. apply Forall_map, Forall_forall. intros i _. by apply flat_byte.
    - unfold slice. apply Forall_map, Forall_forall. intros i _. by apply flat_byte. }
  exists s2. split; [done|]. split; [done|]. intros i. rewrite B2. rewrite (splice_ext _ _ _ (flat_bytes s)) by apply B1.
  unfold w. pose proof (splice_slice base o l (flat_bytes s) (Z.to_nat chunk_align) i) as G. rewrite LO in G.
  replace (base + Z.of_nat (Z.to_nat off)) with (base + off) in G by lia.
  replace (base + Z.of_nat (Z.to_nat off + length l)) with (base + off + Z.of_nat (length l)) by lia.
  replace (Z.to_nat chunk_align - (Z.to_nat off + length l))%nat with (Z.to_nat chunk_align - Z.to_nat off - length l)%nat by lia.
  apply G; [lia|done].
Qed.

Lemma write_chunks_flat fuel : forall addr bytes pos s,
  flat_ok s -> 0 <= pos -> Z.of_nat (length bytes) - pos <= Z.of_nat fuel -> in_region addr (Z.of_nat (length bytes)) ->
  (chunk_align | addr) -> (chunk_align | Z.of_nat (length bytes)) -> (chunk_align | pos) -> Forall (fun b => 0 <= b < 256) bytes ->
  writes (write_chunks fuel addr bytes pos) s (addr + pos) (skipn (Z.to_nat pos) bytes).
Proof.
  destruct flat_max as [MP MD].
  induction fuel as [|fuel IH]; intros addr bytes pos s OK P F R A L D B; cbn [write_chunks].
  { rewrite (proj2 (Z.ltb_ge _ _)) by lia. rewrite skipn_all2 by lia. by apply writes_nil. }
  destruct (Z.ltb_spec pos (Z.of_nat (length bytes))) as [LT|GE]; [|rewrite skipn_all2 by lia; by apply writes_nil].
  set (n := Z.min chunk_max_size (Z.of_nat (length bytes) - pos)). destruct R as [R1 R2].
  rewrite (u64_region (addr + pos) (Z.of_nat (length bytes) - pos)) by (try split; lia).
  set (l := firstn (Z.to_nat n) (skipn (Z.to_nat pos) bytes)).
  assert (Z.of_nat (length l) = n) as LL by (unfold l; rewrite length_firstn, length_skipn; lia).
  destruct (flat_write (addr + pos) l s OK) as (s1 & E1 & OK1 & B1); [lia|lia|lia|by apply Z.divide_add_r| | |].
  { rewrite LL. apply divide_min; [done|]. by apply Z.divide_sub_r. }
  { unfold l. by apply Forall_take, Forall_drop. }
  unfold writes. rewrite (bind_done _ _ _ _ _ E1).
  destruct (IH addr bytes (pos + chunk_max_size) s1 OK1) as (s2 & E2 & OK2 & B2); [lia|lia|done|done|done|by apply Z.divide_add_r|done|].
  exists s2. split; [done|]. split; [done|]. intros i. rewrite B2. rewrite (splice_ext _ _ _ _ _ (B1 i)).
  rewrite <- (take_drop (Z.to_nat n) (skipn (Z.to_nat pos) bytes)). fold l. rewrite drop_drop.
  destruct (Z.le_gt_cases chunk_max_size (Z.of_nat (length bytes) - pos)) as [M|M].
  - replace (Z.to_nat (pos + chunk_max_size)) with (Z.to_nat pos + Z.to_nat n)%nat by lia.
    replace (addr + (pos + chunk_max_size)) with (addr + pos + Z.of_nat (length l)) by lia. apply splice_app.
  - rewrite !skipn_all2 by lia. by rewrite splice_nil, app_nil_r.
Qed.

Lemma middle_flat addr bytes s : flat_ok s -> (bytes = [] \/ in_region addr (Z.of_nat (length bytes)) /\ (chunk_align | addr)) ->
  (chunk_align | Z.of_nat (length bytes)) -> Forall (fun b => 0 <= b < 256) bytes ->
  writes (if negb (Z.of_nat (length bytes) =? 0) && forallb (fun b => b =? 0) bytes
          then clear_chunk addr (Z.of_nat (length bytes)) else write_chunks (Z.to_nat (Z.of_nat (length bytes))) addr bytes 0) s addr bytes.
Proof.
  intros OK [->|[R A]] L B; [by apply writes_nil|].
  destruct (Z.eqb_spec (Z.of_nat (length bytes)) 0) as [Z0|NZ]; cbn [negb andb]; [destruct bytes; [by apply writes_nil|done]|].
  destruct (forallb _ bytes) eqn:ZERO.
  - assert (bytes = replicate (length bytes) 0) as E.
    { clear -ZERO. induction bytes as [|b bytes IH]; [done|]. cbn in ZERO. apply andb_true_iff in ZERO as [->%Z.eqb_eq ZERO].
      cbn. f_equal. by apply IH. }
    destruct (flat_clear addr (length bytes) s OK) as (s' & C); [lia|apply R|apply R|done|done|]. exists s'. by rewrite <- E in C.
  - pose proof (write_chunks_flat (Z.to_nat (Z.of_nat (length bytes))) addr bytes 0 s OK) as G. rewrite Z.add_0_r in G.
    apply G; first [done|lia|apply Z.divide_0_r].
Qed.

Lemma writes_bind (m : host S unit) (k : host S unit) s a1 l1 a l :
  writes m s a1 l1 ->
  (forall s1, flat_ok s1 -> (forall i, flat_bytes s1 i = splice a1 l1 (flat_bytes s) i) ->
    exists s', k s1 = (Done tt, s') /\ flat_ok s' /\ forall i, flat_bytes s' i = splice a l (flat_bytes s) i) ->
  writes (run m in k) s a l.
Proof. intros (s1 & E1 & OK1 & B1) K. unfold writes. rewrite (bind_done _ _ _ _ _ E1). by apply K. Qed.

Lemma memif_write_flat addr bytes s : flat_ok s -> in_region addr (Z.of_nat (length bytes)) -> Forall (fun b => 0 <= b < 256) bytes ->
  writes (memif_write addr bytes) s addr bytes.
Proof.
  intros OK R B. unfold memif_write. cbv zeta. set (len := Z.of_nat (length bytes)) in *.
  destruct (head_len_spec addr len ltac:(lia)) as (H1 & H2 & H3). set (h := head_len addr len) in *.
  set (l1 := firstn (Z.to_nat h) bytes). set (rest := skipn (Z.to_nat h) bytes).
  assert (Z.of_nat (length l1) = h) as L1 by (unfold l1; rewrite length_firstn; lia).
  assert (Z.of_nat (length rest) = len - h) as LR by (unfold rest; rewrite length_skipn; lia).
  assert (Forall (fun b => 0 <= b < 256) l1 /\ Forall (fun b => 0 <= b < 256) rest) as [BF BR] by (by split; [apply Forall_take|apply Forall_drop]).
  apply (writes_bind _ _ s addr l1).
  { destruct (Z.eqb_spec h 0) as [E|N].
    - replace l1 with ([] : list Z) by (unfold l1; by rewrite E). by apply writes_nil.
    - destruct (part_chunk addr h) as (R' & A & E & L); [lia|lia|destruct R; split; lia|]. rewrite chunk_off in E, L |- *.
      pose proof (Z.mod_pos_bound addr chunk_align align_pos). rewrite Z2Nat.id in E by lia. rewrite <- E at 2. apply patch_chunk; try done; lia. }
  intros s1 OK1 B1. destruct (tail_len_spec (addr + h) (len - h)) as (T1 & T2 & T3 & T4); [lia|destruct H2; [left; lia|by right]|].
  assert (len - h = 0 \/ u64 (addr + h) = addr + h) as W.
  { destruct (Z.eq_dec (len - h) 0); [by left|right]. apply (u64_region _ (len - h)); [destruct R; split|]; lia. }
  set (t := (len - h) .& (chunk_align - 1)) in *. set (a1 := u64 (addr + h)) in *. set (st := len - h - t) in *.
  set (mid := firstn (Z.to_nat st) rest). set (l2 := skipn (Z.to_nat st) rest).
  assert (Z.of_nat (length mid) = st) as LM by (unfold mid; rewrite length_firstn; lia).
  assert (Z.of_nat (length l2) = t) as L2 by (unfold l2; rewrite length_skipn; lia).
  assert (Forall (fun b => 0 <= b < 256) mid /\ Forall (fun b => 0 <= b < 256) l2) as [BM B2'] by (by split; [apply Forall_take|apply Forall_drop]).
  assert (writes (if t =? 0 then give tt else
      let? chunk := read_chunk (u64 (a1 + st)) chunk_align in write_chunk (u64 (a1 + st)) (patch 0 l2 chunk)) s1 (addr + h + st) l2)
    as (s2 & E2 & OK2 & B2).
  { destruct (Z.eqb_spec t 0) as [E|N].
    - replace l2 with ([] : list Z) by (destruct l2; [done|cbn in L2; lia]). by apply writes_nil.
    - destruct W as [W|W]; [lia|]. destruct T4 as [T4|T4]; [lia|]. rewrite W.
      assert (in_region (addr + h + st) t) as R' by (destruct R; split; lia). rewrite (u64_region _ t R') by lia. pose proof align_pos as AP.
      assert ((addr + h + st) mod chunk_align = 0) as Z0 by (by apply Z.mod_divide; [lia|]).
      pose proof (chunk_region (addr + h + st) t ltac:(lia) ltac:(rewrite Z0; lia) R') as G. rewrite Z0, Z.sub_0_r in G.
      pose proof (patch_chunk (addr + h + st) 0 l2 s1) as P. rewrite Z.add_0_r in P. apply P; try done; lia. }
  rewrite (bind_done _ _ _ _ _ E2).
  assert (writes (if negb (st =? 0) && forallb (fun b => b =? 0) mid then clear_chunk a1 st else write_chunks (Z.to_nat st) a1 mid 0) s2 (addr + h) mid)
    as (s3 & E3 & OK3 & B3).
  { pose proof (middle_flat (addr + h) mid s2 OK2) as G. rewrite LM in G. destruct (Z.eq_dec st 0) as [E|N].
    - assert (mid = []) as -> by (destruct mid; [done|cbn in LM; lia]). rewrite E in *. by apply writes_nil.
    - destruct W as [W|W]; [lia|]. destruct H2 as [H2|H2]; [lia|]. rewrite W. apply G; [right|done|done]. split; [destruct R; split; lia|done]. }
  exists s3. split; [exact E3|]. split; [done|]. intros i. rewrite B3.
  rewrite splice_ext with (g := splice (addr + h + st) l2 (flat_bytes s1)) by apply B2. rewrite splice_commute by lia.
  replace (addr + h + st) with (addr + Z.of_nat (length (l1 ++ mid))) by (rewrite length_app; lia).
  rewrite splice_ext with (g := splice addr (l1 ++ mid) (flat_bytes s)).
  - rewrite splice_app, <- app_assoc. unfold mid, l2. rewrite take_drop. unfold l1, rest. by rewrite take_drop.
  - rewrite splice_ext with (g := splice addr l1 (flat_bytes s)) by apply B1. rewrite <- L1. apply splice_app.
Qed.

End flat.
