(* ===== verification/SimHostFacts.v ===== *)
(** The simulator keeps the promise of the memory interface of the host: where its
    memory is, it is flat. *)

From S2P Require Import Prelude IntArith Hart Pmp Mmu MmuFacts Devices InsnTable Sim SimFacts Machine Memif MemifFacts SimHost.
Local Open Scope host_scope.

Section sim_flat.
Context (cfg : config) (topology : bus_t device) (lo hi : Z).
#[local] Existing Instance cfg.
Context (LO : 0 <= lo) (HI : hi <= 2 ^ 64) (LO8 : (8 | lo)) (HI8 : (8 | hi)).
Context (MEM : forall a, lo <= a < hi -> is_memory topology a = true).

Notation sim := (sim_t cfg topology).

Definition sim_ok (s : sim) : Prop := forall a v, s_mem cfg topology s !! a = Some v -> 0 <= v < 256.
Definition sim_byte (s : sim) (i : Z) : Z := default 0 (s_mem cfg topology s !! i).

Lemma aligned8 a : (8 | a) -> a .& 7 =? 0 = true.
Proof. intros [k ->]. apply Z.eqb_eq. change 7 with (Z.ones 3). rewrite Z.land_ones by lia. apply Z.mod_mul. lia. Qed.

Lemma eight n : 0 < n <= 8 -> (8 | n) -> n = 8.
Proof. intros N [k ->]. lia. Qed.

Lemma sim_read_flat a s : lo <= a -> a + 8 <= hi -> (8 | a) -> sim_read_chunk cfg topology a 8 s = (Done (slice (sim_byte s) a 8), s).
Proof.
  intros L H A. unfold sim_read_chunk, debug_load. cbn [Z.eqb Pos.eqb]. rewrite aligned8, MEM by (done || lia). reflexivity.
Qed.

Lemma sim_write_flat a l s : sim_ok s -> Z.of_nat (length l) = 8 -> lo <= a -> a + 8 <= hi -> (8 | a) -> Forall (fun b => 0 <= b < 256) l ->
  exists s', sim_write_chunk cfg topology a l s = (Done tt, s') /\ sim_ok s' /\ forall i, sim_byte s' i = splice a l (sim_byte s) i.
Proof.
  intros OK L A1 A2 A B. unfold sim_write_chunk, debug_store. rewrite L. cbn [Z.eqb Pos.eqb]. rewrite aligned8, MEM by (done || lia). cbn [negb].
  eexists. split; [done|]. split.
  - intros k v. cbn. rewrite write_bytes_lookup. destruct (_ && _); [|apply OK]. intros E. rewrite Forall_forall in B.
    apply B. by eapply list_elem_of_lookup_2.
  - intros i. unfold sim_byte, splice. cbn. rewrite write_bytes_lookup. destruct (_ && _) eqn:C; [|done].
    rewrite andb_true_iff, Z.leb_le, Z.ltb_lt in C. rewrite nth_lookup. done.
Qed.

Lemma sim_clear_flat n : forall a pos s, sim_ok s -> 0 <= pos -> lo <= a + pos -> a + (pos + 8 * Z.of_nat n) <= hi -> (8 | a) -> (8 | pos) ->
  forall fuel, (n <= fuel)%nat ->
  exists s', clear_chunks (sim_write_chunk cfg topology) 8 fuel a (pos + 8 * Z.of_nat n) pos s = (Done tt, s') /\ sim_ok s' /\
    forall i, sim_byte s' i = splice (a + pos) (replicate (8 * n) 0) (sim_byte s) i.
Proof.
  induction n as [|n IH]; intros a pos s OK P L H A D fuel F.
  { exists s. split; [|split; [done|]; intros i; by rewrite splice_nil].
    destruct fuel; cbn [clear_chunks]; by rewrite (proj2 (Z.ltb_ge _ _)) by lia. }
  destruct fuel as [|fuel]; [lia|]. cbn [clear_chunks]. rewrite (proj2 (Z.ltb_lt _ _)) by lia. rewrite Z.min_r by lia.
  rewrite wrap_small by lia. destruct (sim_write_flat (a + pos) (replicate 8 0) s) as (s1 & E1 & OK1 & B1); [done|done|lia|lia|by apply Z.divide_add_r|apply Forall_replicate; lia|].
  change (Z.to_nat 8) with 8%nat. rewrite (bind_done _ _ _ _ _ E1).
  destruct (IH a (pos + 8) s1 OK1) with (fuel := fuel) as (s2 & E2 & OK2 & B2); [lia|lia|lia|done|by apply Z.divide_add_r; [|apply Z.divide_refl]|lia|].
  replace (pos + 8 * Z.of_nat (S n)) with (pos + 8 + 8 * Z.of_nat n) by lia. exists s2. split; [done|]. split; [done|].
  intros i. rewrite B2, (splice_ext _ _ _ _ _ (B1 i)). replace (8 * S n)%nat with (8 + 8 * n)%nat by lia. rewrite replicate_add.
  replace (a + (pos + 8)) with (a + pos + Z.of_nat (length (replicate 8 0))) by (cbn; lia). apply splice_app.
Qed.

(** The simulator implements the interface on the region. *)
Program Definition sim_flat : flat_memif sim := {|
  flat_ok := sim_ok; flat_bytes := sim_byte; flat_lo := lo; flat_hi := hi |}.
Next Obligation. exists 3. split; [lia|done]. Qed.
Next Obligation. cbn. split; [lia|apply Z.divide_refl]. Qed.
Next Obligation. done. Qed.
Next Obligation.
  intros a n s OK N A1 A2 A D. cbn in *. rewrite (eight n N D) in *. exists s. rewrite sim_read_flat by done. done.
Qed.
Next Obligation.
  intros a l s OK N A1 A2 A D B. cbn in *. pose proof (eight _ N D) as E. apply sim_write_flat; try done. lia.
Qed.
Next Obligation.
  intros a n s OK N A1 A2 A [k K]. cbn in *. destruct (sim_clear_flat (Z.to_nat k) a 0 s OK) with (fuel := Z.to_nat (Z.of_nat n)) as (s' & E & OK' & B); [lia|lia|lia|done|apply Z.divide_0_r|lia|].
  replace (0 + 8 * Z.of_nat (Z.to_nat k)) with (Z.of_nat n) in E by lia. exists s'. split; [exact E|]. split; [done|].
  intros i. rewrite B, Z.add_0_r. by replace (8 * Z.to_nat k)%nat with n by lia.
Qed.
Next Obligation.
  intros s i OK. cbn. unfold sim_byte. destruct (s_mem cfg topology s !! i) as [v|] eqn:E; [by apply (OK i)|cbn; lia].
Qed.
End sim_flat.

(** * Instances of the properties *)

(** C25. The host reads and writes the memory of the target as an array: over every
    memory that is flat in aligned chunks, writing any bytes at any address returns and
    changes those bytes and no other, zeros that are cleared instead of written
    included, and a read of any length at any address then returns what is there. *)
Theorem memif_refines_flat {S} `{!chunked_memif S, !flat_memif S} addr bytes s :
  flat_ok s -> in_region addr (Z.of_nat (length bytes)) -> Forall (fun b => 0 <= b < 256) bytes ->
  exists s', memif_write addr bytes s = (Done tt, s') /\ flat_ok s' /\
    (forall i, flat_bytes s' i = splice addr bytes (flat_bytes s) i) /\
    forall a n, 0 <= n -> in_region a n -> exists s'',
      memif_read a n s' = (Done (slice (splice addr bytes (flat_bytes s)) a (Z.to_nat n)), s'') /\ flat_ok s'' /\
      forall i, flat_bytes s'' i = splice addr bytes (flat_bytes s) i.
Proof.
  intros OK R B. destruct (memif_write_flat addr bytes s OK R B) as (s' & E & OK' & B'). exists s'. split; [done|]. split; [done|]. split; [done|].
  intros a n N Ra. destruct (memif_read_flat a n s' OK' N Ra) as (s2 & E2 & OK2 & B2). exists s2. rewrite E2.
  split; [|split; [done|]; intros i; by rewrite B2, B']. do 2 f_equal. apply slice_ext. intros i _. apply B'.
Qed.

(** The memory of a small platform, without harts. *)
Definition small_topology : bus_t device := pf_bus small_platform.
Definition small_sim : sim_t demo_config small_topology := mk_sim demo_config small_topology [] ∅ small_platform 0 0.

Lemma small_memory a : 0x80000000 <= a < 0x80010000 -> is_memory small_topology a = true.
Proof.
  intros A. assert (0x80000 <= Z.shiftr a PGSHIFT < 0x80010) as R.
  { unfold PGSHIFT. rewrite Z.shiftr_div_pow2 by lia. change (2 ^ 12) with 4096.
    split; [apply Z.div_le_lower_bound|apply Z.div_lt_upper_bound]; lia. }
  unfold is_memory. remember (Z.to_nat (Z.shiftr a PGSHIFT - 0x80000)) as k eqn:K.
  replace (Z.shiftr a PGSHIFT) with (0x80000 + Z.of_nat k) by lia. assert (k < 16)%nat as L by lia. clear - L.
  do 16 (destruct k as [|k]; [vm_compute; reflexivity|]). lia.
Qed.

#[local] Instance small_chunks : chunked_memif (sim_t demo_config small_topology) := sim_memif demo_config small_topology.
Definition small_flat : flat_memif (sim_t demo_config small_topology).
Proof. apply (sim_flat demo_config small_topology 0x80000000 0x80010000); [lia|lia|by exists 0x10000000|by exists 0x10002000|exact small_memory]. Defined.
#[local] Existing Instance small_flat.

(** Eleven bytes from an odd address, and the doubleword around the last of them. *)
Lemma memif_refines_flat_witness : exists s',
  memif_write 0x80000ffd [1; 2; 3; 4; 5; 6; 7; 8; 9; 10; 11] small_sim = (Done tt, s') /\
  exists s'', memif_read 0x80001006 6 s' = (Done [10; 11; 0; 0; 0; 0], s'').
Proof.
  destruct (memif_refines_flat 0x80000ffd [1; 2; 3; 4; 5; 6; 7; 8; 9; 10; 11] small_sim) as (s' & E & _ & _ & F).
  - intros a v. cbn. by rewrite lookup_empty.
  - split; cbn; lia.
  - repeat constructor; lia.
  - exists s'. split; [exact E|]. destruct (F 0x80001006 6) as (s'' & G & _); [lia|split; cbn; lia|]. exists s''. exact G.
Defined.
