(* ===== verification/ElfFacts.v ===== *)
(** The ELF loader: it stays inside of the file when offsets and sizes do not wrap
    around, and memory ends up with the image the program headers describe. *)

From S2P Require Import Prelude Mmu MmuFacts Memif MemifFacts ElfLoader SimHostFacts.
Local Open Scope host_scope.

(** * Operations that stay inside of the file

    A value satisfies [P], and no access is [Wild]. *)
Definition tame {S A} (m : host S A) (P : A -> Prop) : Prop :=
  forall s, match fst (m s) with Done a => P a | Wild => False | _ => True end.

Lemma tame_give {S A} (a : A) (P : A -> Prop) : P a -> tame (@give S A a) P.
Proof. by intros H s. Qed.

Lemma tame_bind {S A B} (m : host S A) (f : A -> host S B) P Q :
  tame m P -> (forall a, P a -> tame (f a) Q) -> tame (host_bind m f) Q.
Proof.
  intros M F s. unfold host_bind. specialize (M s). destruct (m s) as [o s']. cbn in M.
  destruct o; cbn; try done. by apply F.
Qed.

Lemma tame_weaken {S A} (m : host S A) (P Q : A -> Prop) : tame m P -> (forall a, P a -> Q a) -> tame m Q.
Proof. intros M W s. specialize (M s). destruct (fst (m s)); auto. Qed.

Lemma tame_assert {S} b : tame (@assert S b) (fun _ => b = true).
Proof. intros s. by destruct b. Qed.

Lemma tame_fails {S A} (o : outcome A) P : o <> Wild -> (forall a, o <> Done a) -> tame (@fails S A o) P.
Proof. intros W D s. cbn. destruct o; try done. by destruct (D a). Qed.

Lemma tame_if {S A} (b : bool) (m n : host S A) P : (b = true -> tame m P) -> (b = false -> tame n P) -> tame (if b then m else n) P.
Proof. destruct b; auto. Qed.

(** * Fields *)

Section file.
Context (buf : list Z) (BUF : Forall (fun b => 0 <= b < 2 ^ 8) buf).

Lemma bytes_at_some off n : 0 <= off -> 0 <= n -> off + n <= size buf ->
  exists l, bytes_at buf off n = Some l /\ l = firstn (Z.to_nat n) (skipn (Z.to_nat off) buf) /\ Z.of_nat (length l) = n /\ Forall (fun b => 0 <= b < 2 ^ 8) l.
Proof.
  intros O N E. unfold bytes_at. rewrite !(proj2 (Z.leb_le _ _)) by lia. cbn [andb]. eexists. split; [done|]. split; [done|].
  split; [|by apply Forall_take, Forall_drop]. unfold size in E. rewrite length_firstn, length_skipn. lia.
Qed.

Lemma bytes_at_inv off n l : bytes_at buf off n = Some l ->
  0 <= off /\ 0 <= n /\ off + n <= size buf /\ l = firstn (Z.to_nat n) (skipn (Z.to_nat off) buf) /\ Z.of_nat (length l) = n /\ Forall (fun b => 0 <= b < 2 ^ 8) l.
Proof.
  unfold bytes_at. destruct (_ && _) eqn:C; [|discriminate]. intros [= <-]. rewrite !andb_true_iff, !Z.leb_le in C.
  destruct (bytes_at_some off n) as (l & _ & -> & ?); [lia..|]. split; [lia|]. split; [lia|]. split; [lia|]. done.
Qed.

Definition field_in (n : Z) (f : field) : Prop := 0 <= fst f /\ 0 <= snd f /\ fst f + snd f <= n.

(** The fields of a structure of [n] bytes inside of the file. *)
Lemma get_field_some big base n f : 0 <= base -> base + n <= size buf -> field_in n f ->
  exists v, get_field_at buf big base f = Some v /\ 0 <= v < 2 ^ (8 * snd f).
Proof.
  intros B N (F1 & F2 & F3). unfold get_field_at. destruct (bytes_at_some (base + fst f) (snd f)) as (l & -> & _ & L & R); [lia..|].
  cbn [mbind option_bind]. eexists. split; [done|]. rewrite <- L. destruct big; [rewrite <- (length_rev l)|]; apply le_value_range; [by apply Forall_rev|done].
Qed.

Lemma file_field_range big base f v : get_field_at buf big base f = Some v -> 0 <= v < 2 ^ (8 * snd f).
Proof.
  unfold get_field_at. destruct (bytes_at buf _ _) as [l|] eqn:E; [|discriminate]. cbn. intros [= <-].
  apply bytes_at_inv in E as (_ & _ & _ & _ & L & R). rewrite <- L.
  destruct big; [rewrite <- (length_rev l)|]; apply le_value_range; [by apply Forall_rev|done].
Qed.

(** What both layouts have in common. *)
Record layout_ok (l : layout) : Prop := {
  lo_word : word l = 32 \/ word l = 64;
  lo_header : Forall (field_in 64) [e_entry l; e_phoff l; e_shoff l; e_phnum l; e_shnum l; e_shstrndx l];
  lo_phdr : Forall (field_in (sizeof_phdr l)) [p_type l; p_offset l; p_paddr l; p_filesz l; p_memsz l];
  lo_shdr : Forall (field_in (sizeof_shdr l)) [sh_name l; sh_type l; sh_offset l; sh_size l];
  lo_sym : Forall (field_in (sizeof_sym l)) [st_name l; st_value l];
  lo_sizes : 0 < sizeof_phdr l /\ 0 < sizeof_shdr l /\ 0 < sizeof_sym l;
  lo_words : Forall (fun f => 8 * snd f = word l) [e_entry l; e_phoff l; e_shoff l; p_offset l; p_filesz l; p_memsz l; sh_offset l; sh_size l] }.

Lemma Elf32_ok : layout_ok Elf32.
Proof. split; cbn; [by left|..]; try lia; repeat constructor; cbn; lia. Qed.
Lemma Elf64_ok : layout_ok Elf64.
Proof. split; cbn; [by right|..]; try lia; repeat constructor; cbn; lia. Qed.

(** [strnlen] inside of the file: it stops at a NUL or at the bound. *)
Lemma strnlen_some n : forall off, 0 <= off -> off + Z.of_nat n <= size buf -> exists k, strnlen buf off n = Some k /\ 0 <= k <= Z.of_nat n.
Proof.
  induction n as [|n IH]; intros off O E; cbn [strnlen]; [exists 0; split; [done|lia]|].
  destruct (bytes_at_some off 1) as (b & -> & _); [lia..|]. cbn [mbind option_bind].
  case_bool_decide; [exists 0; split; [done|lia]|]. destruct (IH (off + 1)) as (k & -> & K); [lia..|]. exists (k + 1). split; [done|lia].
Qed.

(** * The loader stays inside of the file *)

Section load.
Context {S : Type} (write : Z -> list Z -> host S unit) (WRITE : forall a bs, tame (write a bs) (fun _ => True)).
Context (l : layout) (LO : layout_ok l) (big : bool) (load_offset : Z).

Notation at_field base f v := (get_field_at buf big base f = Some v).

(** No sum of an offset and a size leaves the width in which it is computed. *)
Record no_wrap : Prop := {
  nw_phdrs phoff phnum : at_field 0 (e_phoff l) phoff -> at_field 0 (e_phnum l) phnum -> phoff + phnum * sizeof_phdr l < 2 ^ 64;
  nw_shdrs shoff shnum : at_field 0 (e_shoff l) shoff -> at_field 0 (e_shnum l) shnum -> shoff + shnum * sizeof_shdr l < 2 ^ 64;
  nw_segment phoff phnum i offset filesz : at_field 0 (e_phoff l) phoff -> at_field 0 (e_phnum l) phnum -> 0 <= i < phnum ->
    at_field (phoff + i * sizeof_phdr l) (p_offset l) offset -> at_field (phoff + i * sizeof_phdr l) (p_filesz l) filesz ->
    offset + filesz < 2 ^ word l;
  nw_section shoff shnum i offset sz : at_field 0 (e_shoff l) shoff -> at_field 0 (e_shnum l) shnum -> 0 <= i < shnum ->
    at_field (shoff + i * sizeof_shdr l) (sh_offset l) offset -> at_field (shoff + i * sizeof_shdr l) (sh_size l) sz ->
    offset + sz < 2 ^ word l }.

Lemma tame_get base n f : 0 <= base -> base + n <= size buf -> field_in n f ->
  tame (get (S := S) buf big base f) (fun v => at_field base f v /\ 0 <= v < 2 ^ (8 * snd f)).
Proof. intros B N F s. unfold get. destruct (get_field_some big base n f B N F) as (v & -> & R). done. Qed.

Lemma end_of_small off n : off + n < 2 ^ word l -> 0 <= off -> 0 <= n -> end_of l off n = off + n.
Proof. intros W O N. unfold end_of. apply wrap_small. lia. Qed.

(** A segment whose header is in the file. *)
Lemma load_segment_tame ph : 0 <= ph -> ph + sizeof_phdr l <= size buf ->
  (forall offset filesz, at_field ph (p_offset l) offset -> at_field ph (p_filesz l) filesz -> offset + filesz < 2 ^ word l) ->
  tame (load_segment buf write l big load_offset ph) (fun _ => True).
Proof.
  intros P IN NW. pose proof (lo_phdr l LO) as F. rewrite !Forall_cons in F. destruct F as (F1 & F2 & F3 & F4 & F5 & _).
  unfold load_segment. eapply tame_bind; [by apply (tame_get ph (sizeof_phdr l))|]. intros type _.
  apply tame_if; intros _; [by apply tame_give|]. eapply tame_bind; [by apply (tame_get ph (sizeof_phdr l))|]. intros memsz _.
  apply tame_if; intros _; [by apply tame_give|]. eapply tame_bind; [by apply (tame_get ph (sizeof_phdr l))|]. intros paddr _.
  eapply tame_bind; [by apply (tame_get ph (sizeof_phdr l))|]. intros filesz [Efs Rfs]. eapply (tame_bind _ _ (fun _ => True)).
  - apply tame_if; intros _; [by apply tame_give|]. eapply tame_bind; [by apply (tame_get ph (sizeof_phdr l))|]. intros offset [Eo Ro].
    eapply tame_bind; [apply tame_assert|]. cbv beta. intros _ L%Z.leb_le.
    rewrite end_of_small in L by (try lia; by apply NW). destruct (bytes_at_some offset filesz) as (bs & -> & _); [lia..|].
    intros s. apply WRITE.
  - intros _ _. apply tame_if; intros _; [by apply tame_give|]. apply tame_if; intros _; [by apply tame_fails|]. apply WRITE.
Qed.

Lemma load_segments_tame n : forall ph, 0 <= ph -> ph + Z.of_nat n * sizeof_phdr l <= size buf ->
  (forall i offset filesz, 0 <= i < Z.of_nat n -> at_field (ph + i * sizeof_phdr l) (p_offset l) offset ->
    at_field (ph + i * sizeof_phdr l) (p_filesz l) filesz -> offset + filesz < 2 ^ word l) ->
  tame (load_segments buf write l big load_offset n ph) (fun _ => True).
Proof.
  pose proof (lo_sizes l LO) as (SP & _). induction n as [|n IH]; intros ph P IN NW; cbn [load_segments]; [by apply tame_give|].
  eapply tame_bind; [apply load_segment_tame; [done|nia|]|].
  - intros offset filesz. specialize (NW 0 offset filesz). rewrite Z.mul_0_l, Z.add_0_r in NW. apply NW. lia.
  - intros _ _. apply IH; [lia|lia|]. intros i offset filesz I. specialize (NW (i + 1) offset filesz).
    replace (ph + (i + 1) * sizeof_phdr l) with (ph + sizeof_phdr l + i * sizeof_phdr l) in NW by lia. apply NW. lia.
Qed.

(** A name in a string table that is in the file. *)
Lemma check_name_tame strtab strsize name : 0 <= strtab -> strtab + strsize <= size buf -> 0 <= name ->
  tame (check_name (S := S) buf strtab strsize name) (fun _ => True).
Proof.
  intros T E N. unfold check_name. eapply tame_bind; [apply tame_assert|]. cbv beta. intros _ L%Z.ltb_lt.
  set (max_len := u32 (strsize - name)).
  assert (0 <= max_len <= strsize - name) by (split; [apply wrap_range; lia|apply Z.mod_le; lia]).
  destruct (strnlen_some (Z.to_nat max_len) (strtab + name)) as (k & E' & K); [lia..|]. unfold fetch. rewrite E'.
  intros s. unfold host_bind, give. by apply (tame_weaken _ _ _ (tame_assert _)).
Qed.

(** The index of a section whose bytes are in the file, or 0. *)
Definition good_index (sh : Z) (shnum i : Z) : Prop := i = 0 \/ 0 <= i < shnum /\
  (forall off sz, at_field (sh + i * sizeof_shdr l) (sh_offset l) off -> at_field (sh + i * sizeof_shdr l) (sh_size l) sz -> off + sz <= size buf).

Lemma find_tables_tame sh0 shnum shstrtab strsize : 0 <= shstrtab -> shstrtab + strsize <= size buf ->
  0 <= sh0 -> sh0 + shnum * sizeof_shdr l <= size buf ->
  (forall i offset sz, 0 <= i < shnum -> at_field (sh0 + i * sizeof_shdr l) (sh_offset l) offset ->
    at_field (sh0 + i * sizeof_shdr l) (sh_size l) sz -> offset + sz < 2 ^ word l) ->
  forall n i found, 0 <= i -> i + Z.of_nat n = shnum -> good_index sh0 shnum (fst found) -> good_index sh0 shnum (snd found) ->
  tame (find_tables (S := S) buf l big n (sh0 + i * sizeof_shdr l) i shstrtab strsize found)
    (fun r => good_index sh0 shnum (fst r) /\ good_index sh0 shnum (snd r)).
Proof.
  intros T TE P IN NW. pose proof (lo_sizes l LO) as (_ & SP & _). pose proof (lo_shdr l LO) as F. rewrite !Forall_cons in F.
  destruct F as (F1 & F2 & F3 & F4 & _).
  induction n as [|n IH]; intros i found I E G1 G2; cbn [find_tables]; [by apply tame_give|].
  set (sh := sh0 + i * sizeof_shdr l). assert (0 <= sh) by (unfold sh; nia).
  assert (sh + sizeof_shdr l <= size buf) by (unfold sh; nia).
  assert (NEXT : forall f, good_index sh0 shnum (fst f) -> good_index sh0 shnum (snd f) ->
    tame (find_tables (S := S) buf l big n (sh + sizeof_shdr l) (i + 1) shstrtab strsize f)
      (fun r => good_index sh0 shnum (fst r) /\ good_index sh0 shnum (snd r))).
  { intros f. unfold sh. replace (sh0 + i * sizeof_shdr l + sizeof_shdr l) with (sh0 + (i + 1) * sizeof_shdr l) by lia. apply IH; lia. }
  eapply tame_bind; [by apply (tame_get sh (sizeof_shdr l))|]. intros name [_ Rn].
  eapply tame_bind; [apply check_name_tame; [done|done|lia]|]. intros _ _.
  eapply tame_bind; [by apply (tame_get sh (sizeof_shdr l))|]. intros type _.
  apply tame_if; intros _; [by apply NEXT|].
  eapply tame_bind; [by apply (tame_get sh (sizeof_shdr l))|]. intros offset [Eo Ro].
  eapply tame_bind; [by apply (tame_get sh (sizeof_shdr l))|]. intros sz [Es Rs].
  eapply tame_bind; [apply tame_assert|]. cbv beta. intros _ L%Z.leb_le.
  rewrite end_of_small in L by first [lia|by apply (NW i); first [lia|done]].
  assert (good_index sh0 shnum i) as GI.
  { right. split; [lia|]. intros off' sz' A B. fold sh in A, B. congruence. }
  destruct found as [a b]. cbn in G1, G2. apply NEXT; cbn; by case_match.
Qed.

Lemma load_symbols_tame n : forall sym strtab strsize symbols, 0 <= strtab -> strtab + strsize <= size buf ->
  0 <= sym -> sym + Z.of_nat n * sizeof_sym l <= size buf ->
  tame (load_symbols (S := S) buf l big load_offset n sym strtab strsize symbols) (fun _ => True).
Proof.
  pose proof (lo_sizes l LO) as (_ & _ & SP). pose proof (lo_sym l LO) as F. rewrite !Forall_cons in F. destruct F as (F1 & F2 & _).
  induction n as [|n IH]; intros sym strtab strsize symbols T TE P IN; cbn [load_symbols]; [by apply tame_give|].
  eapply tame_bind; [apply (tame_get sym (sizeof_sym l)); [done|nia|done]|]. intros name [_ Rn].
  eapply tame_bind; [apply check_name_tame; [done|done|lia]|]. intros _ _.
  eapply tame_bind; [apply (tame_get sym (sizeof_sym l)); [done|nia|done]|]. intros value _. apply IH; [done|done|lia|lia].
Qed.

Lemma section_in i shoff shnum : 0 <= shoff -> shoff + shnum * sizeof_shdr l <= size buf -> 0 <= i < shnum ->
  0 <= shoff + i * sizeof_shdr l /\ shoff + i * sizeof_shdr l + sizeof_shdr l <= size buf.
Proof. pose proof (lo_sizes l LO) as (_ & SP & _). nia. Qed.

Lemma LOAD_ELF_tame : 64 <= size buf -> no_wrap -> tame (LOAD_ELF buf write l big load_offset) (fun _ => True).
Proof.
  intros SZ [NP NS NG NC]. pose proof (lo_header l LO) as F. rewrite !Forall_cons in F. destruct F as (F1 & F2 & F3 & F4 & F5 & F6 & _).
  pose proof (lo_shdr l LO) as SF. rewrite !Forall_cons in SF. destruct SF as (S1 & S2 & S3 & S4 & _).
  pose proof (lo_sizes l LO) as (SP1 & SP2 & SP3).
  unfold LOAD_ELF. eapply tame_bind; [by apply (tame_get 0 64)|]. intros phoff [Ep Rp].
  eapply tame_bind; [by apply (tame_get 0 64)|]. intros entry _.
  eapply tame_bind; [by apply (tame_get 0 64)|]. intros phnum [En Rn].
  eapply tame_bind; [apply tame_assert|]. cbv beta. intros _ LP%Z.leb_le.
  rewrite wrap_small in LP by (split; [nia|by apply NP]).
  eapply tame_bind; [apply load_segments_tame; [lia|lia|]|].
  { intros i offset filesz I. apply (NG phoff phnum i); [done|done|lia]. }
  intros _ _. eapply tame_bind; [by apply (tame_get 0 64)|]. intros shoff [Es Rs].
  eapply tame_bind; [by apply (tame_get 0 64)|]. intros shnum [Em Rm].
  eapply tame_bind; [apply tame_assert|]. cbv beta. intros _ LS%Z.leb_le.
  rewrite wrap_small in LS by (split; [nia|by apply NS]).
  eapply tame_bind; [by apply (tame_get 0 64)|]. intros shstrndx [_ Rx].
  eapply tame_bind; [apply tame_assert|]. cbv beta. intros _ LX%Z.ltb_lt.
  destruct (section_in shstrndx shoff shnum) as [X1 X2]; [lia..|].
  eapply tame_bind; [by apply (tame_get _ (sizeof_shdr l))|]. intros shstrtab [Et Rt].
  eapply tame_bind; [by apply (tame_get _ (sizeof_shdr l))|]. intros shstrsize [Ez Rz].
  eapply tame_bind; [apply tame_assert|]. cbv beta. intros _ LT%Z.leb_le.
  rewrite end_of_small in LT by first [lia|by apply (NC shoff shnum shstrndx); first [lia|done]].
  eapply tame_bind.
  { rewrite <- (Z.add_0_r shoff) at 1. rewrite <- (Z.mul_0_l (sizeof_shdr l)). apply (find_tables_tame shoff shnum); try done; try lia; try (by left).
    intros i offset sz I. by apply (NC shoff shnum i). }
  intros [strtabidx symtabidx] [G1 G2]. cbn in G1, G2.
  apply tame_if; [intros _; by apply tame_give|]. intros NZ. rewrite orb_false_iff, !Z.eqb_neq in NZ.
  destruct G1 as [?|[I1 G1]]; [lia|]. destruct G2 as [?|[I2 G2]]; [lia|].
  destruct (section_in strtabidx shoff shnum) as [A1 A2]; [lia..|]. destruct (section_in symtabidx shoff shnum) as [B1 B2]; [lia..|].
  eapply tame_bind; [by apply (tame_get _ (sizeof_shdr l))|]. intros strtab [Ea Ra].
  eapply tame_bind; [by apply (tame_get _ (sizeof_shdr l))|]. intros strsize [Eb Rb].
  eapply tame_bind; [by apply (tame_get _ (sizeof_shdr l))|]. intros symtab [Ec Rc].
  eapply tame_bind; [by apply (tame_get _ (sizeof_shdr l))|]. intros symsize [Ed Rd].
  eapply tame_bind; [|intros; by apply tame_give].
  apply load_symbols_tame; [lia|by apply G1|lia|]. specialize (G2 _ _ Ec Ed).
  pose proof (Z.mul_div_le symsize (sizeof_sym l) SP3). assert (0 <= symsize / sizeof_sym l) by (apply Z.div_pos; lia). nia.
Qed.
End load.

(** C27. The loader reads only inside of the file: for every file, if no sum of an
    offset and a size in its headers wraps around, then nothing outside of the file
    is accessed, whatever else is wrong with it; a failed assertion stops the loader. *)
Theorem elf_in_file {S} dual_endian (write : Z -> list Z -> host S unit) target_big load_offset required_xlen s :
  (forall a bs, tame (write a bs) (fun _ => True)) ->
  no_wrap (if IS_ELF32 buf then Elf32 else Elf64) (negb (IS_ELFLE buf)) ->
  fst (load_elf buf dual_endian write target_big load_offset required_xlen s) <> Wild.
Proof.
  intros W NW. enough (tame (load_elf buf dual_endian write target_big load_offset required_xlen) (fun _ => True)) as T.
  { specialize (T s). intros E. by rewrite E in T. }
  assert (layout_ok (if IS_ELF32 buf then Elf32 else Elf64)) as LO by (destruct (IS_ELF32 buf); [apply Elf32_ok|apply Elf64_ok]).
  unfold load_elf. eapply tame_bind; [apply tame_assert|]. cbv beta. intros _ SZ%Z.leb_le. change sizeof_Elf64_Ehdr with 64 in SZ.
  eapply tame_bind; [apply tame_assert|]. intros _ _. apply tame_if; intros _; [by apply tame_fails|].
  do 4 (eapply tame_bind; [apply tame_assert|]; intros _ _).
  apply tame_if; intros LE; rewrite LE in NW.
  - apply tame_if; intros _; [by apply tame_fails|by apply LOAD_ELF_tame].
  - apply tame_if; intros _; [by apply tame_fails|]. apply tame_if; intros _; [by apply tame_fails|by apply LOAD_ELF_tame].
Qed.

(** * The image in memory *)

Section image.
Context {S : Type} `{!chunked_memif S, !flat_memif S} (l : layout) (LO : layout_ok l) (big : bool) (load_offset : Z).

Notation field_or_0 base f := (default 0 (get_field_at buf big base f)).

(** What a program header puts in memory: its bytes of the file, then zeros. *)
Definition segment (ph : Z) : option (Z * list Z) :=
  if (field_or_0 ph (p_type l) =? PT_LOAD) && negb (field_or_0 ph (p_memsz l) =? 0) then
    let filesz := field_or_0 ph (p_filesz l) in
    Some (u64 (field_or_0 ph (p_paddr l) + load_offset),
          firstn (Z.to_nat filesz) (skipn (Z.to_nat (field_or_0 ph (p_offset l))) buf) ++
          replicate (Z.to_nat (field_or_0 ph (p_memsz l) - filesz)) 0)
  else None.

(** The byte at an address: that of the last segment that covers it. *)
Fixpoint image_byte (n : nat) (ph i : Z) : option Z :=
  match n with
  | O => None
  | Datatypes.S n =>
      match image_byte n (ph + sizeof_phdr l) i with
      | Some b => Some b
      | None => '(a, bs) ← segment ph; if a <=? i then bs !! Z.to_nat (i - a) else None
      end
  end.

(** Segments are in the region, and are no smaller in memory than in the file. *)
Definition segment_fits (ph : Z) : Prop :=
  field_or_0 ph (p_filesz l) <= field_or_0 ph (p_memsz l) /\
  match segment ph with Some (a, _) => in_region a (field_or_0 ph (p_memsz l)) | None => True end.

Lemma bind_inv {T A B} (m : host T A) (f : A -> host T B) s b s' : host_bind m f s = (Done b, s') ->
  exists a s1, m s = (Done a, s1) /\ f a s1 = (Done b, s').
Proof. unfold host_bind. destruct (m s) as [[]]; intros H; try discriminate. by eauto. Qed.

Lemma get_inv {T} base f s v (s' : T) : get buf big base f s = (Done v, s') -> get_field_at buf big base f = Some v /\ s' = s.
Proof. unfold get, fetch. destruct (get_field_at buf big base f); [|discriminate]. by intros [= -> ->]. Qed.

Lemma assert_inv {T} b s u (s' : T) : assert b s = (Done u, s') -> b = true /\ s' = s.
Proof. destruct b; [|discriminate]. by intros [= _ ->]. Qed.

Lemma splice_lookup a bs (f : Z -> Z) i : splice a bs f i = default (f i) (if a <=? i then bs !! Z.to_nat (i - a) else None).
Proof.
  unfold splice. destruct (Z.leb_spec a i) as [A|A]; cbn [andb]; [|done].
  destruct (Z.ltb_spec i (a + Z.of_nat (length bs))).
  - rewrite nth_lookup. by destruct (lookup_lt_is_Some_2 bs (Z.to_nat (i - a))) as [x ->]; [lia|].
  - by rewrite lookup_ge_None_2 by lia.
Qed.

Lemma load_segment_flat ph s s' u : flat_ok s -> segment_fits ph ->
  load_segment buf memif_write l big load_offset ph s = (Done u, s') ->
  flat_ok s' /\ forall i, flat_bytes s' i = default (flat_bytes s i) ('(a, bs) ← segment ph; if a <=? i then bs !! Z.to_nat (i - a) else None).
Proof.
  intros OK [LE R] H. unfold load_segment in H. apply bind_inv in H as (type & s1 & [E1 ->]%get_inv & H).
  unfold segment in *. rewrite E1 in *. cbn [from_option id] in *. destruct (type =? PT_LOAD) eqn:ET; cbn [negb andb] in *.
  2:{ injection H as _ <-. by split. }
  apply bind_inv in H as (memsz & s1 & [E2 ->]%get_inv & H). rewrite E2 in *. cbn [from_option id] in *.
  destruct (memsz =? 0); cbn [negb] in *; [injection H as _ <-; by split|].
  apply bind_inv in H as (paddr & s1 & [E3 ->]%get_inv & H). apply bind_inv in H as (filesz & s1 & [E4 ->]%get_inv & H).
  rewrite E3, E4 in *. cbn [from_option id] in *. set (a := u64 (paddr + load_offset)) in *.
  pose proof (file_field_range _ _ _ _ E4) as R4. pose proof (file_field_range _ _ _ _ E2) as R2.
  pose proof (lo_words l LO) as W. rewrite !Forall_cons in W. destruct W as (_ & _ & _ & _ & W4 & W5 & _). rewrite W5 in R2. rewrite W4 in R4.
  apply bind_inv in H as (u1 & s1 & H1 & H2). set (bs := firstn _ _).
  assert (flat_ok s1 /\ (forall i, flat_bytes s1 i = splice a bs (flat_bytes s) i) /\ Z.of_nat (length bs) = filesz) as (OK1 & B1 & LB).
  { destruct (filesz =? 0) eqn:EZ.
    - apply Z.eqb_eq in EZ. injection H1 as _ <-. unfold bs. rewrite EZ. split; [done|]. split; [|done]. intros i. by rewrite splice_nil.
    - apply bind_inv in H1 as (offset & s0 & [E5 ->]%get_inv & H1). apply bind_inv in H1 as (u0 & s0 & [_ ->]%assert_inv & H1).
      apply bind_inv in H1 as (bytes & s0 & E6 & H1). unfold fetch in E6. destruct (bytes_at buf offset filesz) as [l0|] eqn:E7; [|discriminate].
      injection E6 as -> ->. apply bytes_at_inv in E7 as (_ & _ & _ & -> & L7 & R7). unfold bs in *. rewrite E5 in *. cbn [from_option id] in *.
      destruct (memif_write_flat a (firstn (Z.to_nat filesz) (skipn (Z.to_nat offset) buf)) s0 OK) as (s2 & E8 & OK2 & B2); [|exact R7|].
      { rewrite L7. destruct R. split; lia. }
      rewrite E8 in H1. injection H1 as _ <-. done. }
  assert (wrap (word l) (memsz - filesz) = memsz - filesz) as EW by (apply wrap_small; lia). rewrite EW in H2.
  assert (flat_ok s' /\ forall i, flat_bytes s' i = splice a (bs ++ replicate (Z.to_nat (memsz - filesz)) 0) (flat_bytes s) i) as [OK' B'].
  { destruct (memsz - filesz =? 0) eqn:EP.
    - apply Z.eqb_eq in EP. injection H2 as _ <-. rewrite EP. cbn [Z.to_nat replicate]. by rewrite app_nil_r.
    - destruct (2 ^ 63 <=? memsz - filesz); [discriminate|]. destruct R as [Ra Rb]. apply Z.eqb_neq in EP.
      rewrite (u64_region (a + filesz) (memsz - filesz)) in H2 by (try split; lia).
      destruct (memif_write_flat (a + filesz) (replicate (Z.to_nat (memsz - filesz)) 0) s1 OK1) as (s2 & E8 & OK2 & B2).
      + rewrite length_replicate. split; lia.
      + apply Forall_replicate. lia.
      + rewrite E8 in H2. injection H2 as _ <-. split; [done|]. intros i. rewrite B2. rewrite (splice_ext _ _ _ _ _ (B1 i)), <- LB. apply splice_app. }
  split; [done|]. intros i. rewrite B'. cbn [mbind option_bind]. apply splice_lookup.
Qed.

Lemma load_segments_flat n : forall ph s s' u, flat_ok s -> (forall i, 0 <= i < Z.of_nat n -> segment_fits (ph + i * sizeof_phdr l)) ->
  load_segments buf memif_write l big load_offset n ph s = (Done u, s') ->
  flat_ok s' /\ forall i, flat_bytes s' i = default (flat_bytes s i) (image_byte n ph i).
Proof.
  induction n as [|n IH]; intros ph s s' u OK F H; cbn [load_segments image_byte] in *; [injection H as _ <-; by split|].
  apply bind_inv in H as (u1 & s1 & H1 & H2). pose proof (F 0 ltac:(lia)) as F0. rewrite Z.mul_0_l, Z.add_0_r in F0.
  destruct (load_segment_flat ph s s1 u1 OK F0 H1) as [OK1 B1].
  destruct (IH (ph + sizeof_phdr l) s1 s' u OK1) as [OK' B']; [|done|].
  - intros i I. replace (ph + sizeof_phdr l + i * sizeof_phdr l) with (ph + (i + 1) * sizeof_phdr l) by lia. apply F. lia.
  - split; [done|]. intros i. rewrite B'. destruct (image_byte n (ph + sizeof_phdr l) i); [done|]. cbn [from_option id]. apply B1.
Qed.

(** The tables of names leave the memory alone. *)
Definition still {T A} (m : host T A) : Prop := forall s a s', m s = (Done a, s') -> s' = s.

Lemma still_bind {T A B} (m : host T A) (f : A -> host T B) : still m -> (forall a, still (f a)) -> still (host_bind m f).
Proof. intros M F s b s' H. apply bind_inv in H as (a & s1 & ->%M & H). by eapply F. Qed.
Lemma still_give {T A} (a : A) : still (@give T A a).
Proof. by intros s b s' [= _ ->]. Qed.
Lemma still_get {T} base f : still (@get buf T big base f).
Proof. intros s v s' H. by apply get_inv in H as [_ ?]. Qed.
Lemma still_assert {T} b : still (@assert T b).
Proof. intros s v s' H. by apply assert_inv in H as [_ ?]. Qed.
Lemma still_fetch {T A} (o : option A) : still (@fetch T A o).
Proof. intros s v s'. unfold fetch. by destruct o; intros [= _ ->]. Qed.

Lemma still_check_name {T} strtab strsize name : still (check_name (S := T) buf strtab strsize name).
Proof. repeat (apply still_bind; [first [apply still_assert|apply still_fetch]|intros ?]). apply still_assert. Qed.

Lemma still_find_tables {T} n : forall sh i a b found, still (find_tables (S := T) buf l big n sh i a b found).
Proof.
  induction n as [|n IH]; intros sh i a b [x y]; cbn [find_tables]; [apply still_give|].
  apply still_bind; [apply still_get|intros name]. apply still_bind; [apply still_check_name|intros _].
  apply still_bind; [apply still_get|intros type]. destruct (z2b _); [apply IH|].
  do 2 (apply still_bind; [apply still_get|intros ?]). apply still_bind; [apply still_assert|intros _]. apply IH.
Qed.

Lemma still_load_symbols {T} n : forall sym a b m, still (load_symbols (S := T) buf l big load_offset n sym a b m).
Proof.
  induction n as [|n IH]; intros sym a b m; cbn [load_symbols]; [apply still_give|].
  apply still_bind; [apply still_get|intros name]. apply still_bind; [apply still_check_name|intros _].
  apply still_bind; [apply still_get|intros value]. apply IH.
Qed.

Definition image_fits : Prop :=
  forall i, 0 <= i < field_or_0 0 (e_phnum l) -> segment_fits (field_or_0 0 (e_phoff l) + i * sizeof_phdr l).
Definition image (i : Z) : option Z := image_byte (Z.to_nat (field_or_0 0 (e_phnum l))) (field_or_0 0 (e_phoff l)) i.

Lemma LOAD_ELF_image s entry symbols s' : flat_ok s -> image_fits ->
  LOAD_ELF buf memif_write l big load_offset s = (Done (entry, symbols), s') ->
  flat_ok s' /\ (forall i, flat_bytes s' i = default (flat_bytes s i) (image i)) /\ entry = u64 (field_or_0 0 (e_entry l) + load_offset).
Proof.
  unfold image_fits, image, LOAD_ELF. intros OK F H. apply bind_inv in H as (phoff & s1 & [E1 ->]%get_inv & H).
  apply bind_inv in H as (e & s1 & [E2 ->]%get_inv & H). apply bind_inv in H as (phnum & s1 & [E3 ->]%get_inv & H).
  rewrite E1, E2, E3 in *. cbn [from_option id] in *. pose proof (file_field_range _ _ _ _ E3) as R3.
  apply bind_inv in H as (u0 & s1 & [_ ->]%assert_inv & H). apply bind_inv in H as (u1 & s2 & H1 & H).
  destruct (load_segments_flat (Z.to_nat phnum) phoff s s2 u1 OK) as [OK2 B2]; [|done|].
  { intros i I. apply F. lia. }
  match type of H with ?m _ = _ => assert (still m /\ forall t p t', m t = (Done p, t') -> fst p = u64 (e + load_offset)) as [ST EN] end.
  2:{ rewrite (ST _ _ _ H). split; [done|]. split; [done|]. exact (EN _ _ _ H). }
  clear. split.
  - do 2 (apply still_bind; [apply still_get|intros ?]). apply still_bind; [apply still_assert|intros _].
    apply still_bind; [apply still_get|intros ?]. apply still_bind; [apply still_assert|intros _].
    do 2 (apply still_bind; [apply still_get|intros ?]). apply still_bind; [apply still_assert|intros _].
    apply still_bind; [apply still_find_tables|intros [x y]]. destruct (_ || _); [apply still_give|].
    do 4 (apply still_bind; [apply still_get|intros ?]). apply still_bind; [apply still_load_symbols|intros ?; apply still_give].
  - intros t p t' H. do 9 apply bind_inv in H as (? & ? & _ & H). match type of H with (let '(_, _) := ?q in _) _ = _ => destruct q end.
    destruct (_ || _); [by injection H as <- _|]. do 5 apply bind_inv in H as (? & ? & _ & H). by injection H as <- _.
Qed.
End image.

(** C26. A file that loads puts its image in memory: every address holds the byte that
    the last of the loadable segments covering it has there, from the file or a zero,
    other addresses keep theirs, and the entry point is that of the header, moved by
    the offset for files that can be moved. *)
Theorem elf_image {S} `{!chunked_memif S, !flat_memif S} dual_endian load_offset required_xlen s entry symbols s' :
  let l := if IS_ELF32 buf then Elf32 else Elf64 in
  let big := negb (IS_ELFLE buf) in
  let offset := if IS_ELF_EXEC buf then 0 else load_offset in
  flat_ok s -> image_fits l big offset ->
  load_elf buf dual_endian memif_write big_endian load_offset required_xlen s = (Done (entry, symbols), s') ->
  flat_ok s' /\ (forall i, flat_bytes s' i = default (flat_bytes s i) (image l big offset i)) /\
  Some entry = (e ← get_field_at buf big 0 (e_entry l); Some (u64 (e + offset))).
Proof.
  intros l big offset OK F H.
  assert (layout_ok l) as LO by (unfold l; destruct (IS_ELF32 buf); [apply Elf32_ok|apply Elf64_ok]).
  unfold load_elf in H. apply bind_inv in H as (u0 & s1 & [SZ ->]%assert_inv & H). apply bind_inv in H as (u1 & s1 & [_ ->]%assert_inv & H).
  destruct (negb (required_xlen =? 0) && _); [discriminate|].
  do 4 apply bind_inv in H as (? & ? & [_ ->]%assert_inv & H). fold l offset in H.
  assert (LOAD_ELF buf memif_write l big offset s = (Done (entry, symbols), s')) as G.
  { unfold big. destruct (IS_ELFLE buf); cbn [negb].
    - by destruct big_endian.
    - destruct dual_endian; [|done]. cbn [negb] in H. by destruct big_endian. }
  destruct (LOAD_ELF_image l LO big offset s entry symbols s' OK F G) as (OK' & B & E). split; [done|]. split; [done|].
  apply Z.leb_le in SZ. pose proof (lo_header l LO) as HF. rewrite !Forall_cons in HF. destruct HF as (HF & _).
  destruct (get_field_some big 0 64 (e_entry l)) as (e & E0 & _); [lia|exact SZ|done|]. rewrite E0 in *. cbn in E |- *. by rewrite E.
Qed.
End file.

(** * Instances of the properties *)

(** A 32-bit executable: its header, one segment of four bytes from the file and four
    zeros, and a section for the names of sections. *)
Definition half (n : Z) : list Z := le_bytes 2 n.
Definition dword (n : Z) : list Z := le_bytes 4 n.
Definition demo_elf (offset filesz : Z) : list Z :=
  [0x7f; 69; 76; 70; 1; 1; 1; 0; 0; 0; 0; 0; 0; 0; 0; 0] ++
  half 2 ++ half 243 ++ dword 1 ++ dword 0x80000100 ++ dword 64 ++ dword 100 ++ dword 0 ++ half 52 ++ half 32 ++ half 1 ++ half 40 ++ half 1 ++ half 0 ++
  replicate 12 0 ++
  dword 1 ++ dword offset ++ dword 0x80000100 ++ dword 0x80000100 ++ dword filesz ++ dword 8 ++ dword 5 ++ dword 4 ++
  [0x13; 0x05; 0x10; 0x00] ++
  dword 0 ++ dword 3 ++ dword 0 ++ dword 0 ++ dword 140 ++ dword 1 ++ replicate 16 0 ++ [0].

Lemma demo_elf_bytes : Forall (fun b => 0 <= b < 2 ^ 8) (demo_elf 96 4).
Proof. vm_compute. repeat constructor; discriminate. Qed.

Lemma demo_elf_no_wrap : no_wrap (demo_elf 96 4) Elf32 false.
Proof.
  split; [intros ? ? H1 H2|intros ? ? H1 H2|intros ? ? i ? ? H1 H2 I H3 H4|intros ? ? i ? ? H1 H2 I H3 H4]; vm_compute in H1, H2; injection H1 as <-; injection H2 as <-; [done|done| |];
    (assert (i = 0) as -> by lia; vm_compute in H3, H4; injection H3 as <-; injection H4 as <-; done).
Qed.

Lemma elf_in_file_witness :
  fst (load_elf (demo_elf 96 4) false (fun _ _ => give tt) false 0 64 tt) <> Wild /\
  fst (load_elf (demo_elf 96 4) false (fun _ _ => give tt) false 0 64 tt) = Incompat_xlen 64 32.
Proof.
  split; [|vm_compute; reflexivity].
  apply (elf_in_file (demo_elf 96 4) demo_elf_bytes); [intros a bs; by apply tame_give|exact demo_elf_no_wrap].
Defined.

(** Four bytes of a segment at 2^32 - 2 are said to end at 2. *)
Example elf_wraps : fst (load_elf (demo_elf 0xfffffffe 4) false (fun _ _ => give tt) false 0 0 tt) = Wild.
Proof. vm_compute. reflexivity. Qed.

#[local] Existing Instances small_chunks small_flat.

Lemma elf_image_witness : exists s' symbols,
  load_elf (demo_elf 96 4) false memif_write false 0 32 small_sim = (Done (0x80000100, symbols), s') /\
  map (flat_bytes s') [0x800000ff; 0x80000100; 0x80000101; 0x80000102; 0x80000103; 0x80000104] = [0; 0x13; 0x05; 0x10; 0; 0].
Proof.
  assert (exists s' symbols, load_elf (demo_elf 96 4) false memif_write false 0 32 small_sim = (Done (0x80000100, symbols), s')) as (s' & symbols & E)
    by (eexists; eexists; vm_compute; reflexivity).
  exists s', symbols. split; [exact E|].
  destruct (elf_image (demo_elf 96 4) demo_elf_bytes false 0 32 small_sim 0x80000100 symbols s') as (_ & B & _).
  - intros a v. cbn. by rewrite lookup_empty.
  - intros i I. change (default 0 _) with 1 in I. assert (i = 0) as -> by lia. vm_compute. repeat split; discriminate.
  - exact E.
  - cbn [map]. rewrite !B. vm_compute. reflexivity.
Defined.
