(* ===== verification/WalkFacts.v ===== *)
(** Facts on page-table walks: an address is translated only through a leaf
    that grants the access, to the page the leaf names. *)

From S2P Require Import Prelude IntArith Decode Encoding IsaExt Trap Hart Pmp Csr CsrFile Mmu HartFacts.
From S2P Require Import InsnTable Processor Machine.

Section walk.
Context `{cfg : !config, sim : !simif, trg : !trigger_module}.

(** What the privileged architecture asks of a leaf PTE: [sse] is the shadow
    stack enable. *)
Definition shadow_stack_page (pte : Z) : bool := negb (has pte PTE_R) && has pte PTE_W && negb (has pte PTE_X).

Definition leaf_allows (w : walk_env) (sse : bool) (pte : Z) : Prop :=
  has pte PTE_V = true /\ has pte PTE_RSVD = false /\
  (* user pages for user mode; for supervisor mode only data and only with SUM *)
  (if has pte PTE_U then w_s_mode w = true -> w_sum w = true /\ w_type w <> FETCH else w_s_mode w = true) /\
  (* the rights *)
  match w_type w with
  | FETCH => has pte PTE_X = true
  | LOAD => if w_hlvx w then has pte PTE_X = true
            else has pte PTE_R = true \/ (w_mxr w = true /\ has pte PTE_X = true)
                 \/ (sse = true /\ shadow_stack_page pte = true)
  | STORE => if w_hlvx w then has pte PTE_X = true else has pte PTE_W = true
  end /\
  (* shadow-stack pages: written by shadow-stack instructions only, and those write nothing else *)
  (shadow_stack_page pte = true -> sse = true /\ w_type w <> FETCH /\ (w_type w = STORE -> w_ss_access w = true)) /\
  (w_ss_access w = true -> w_hlvx w = false -> w_type w = STORE -> shadow_stack_page pte = true).

(** The first-stage table access of a level. *)
Definition pte_address (w : walk_env) (i base : Z) : Z :=
  u64 (base + (Z.shiftr (w_addr w) (PGSHIFT + i * idxbits (w_vm w)) .& low_mask (idxbits (w_vm w))) * ptesize (w_vm w)).
Definition read_pte (w : walk_env) (i base : Z) : M Z :=
  pte_load (pte_address w i base) (w_addr w) false (w_type w) (ptesize (w_vm w)).

(** Follows the tests of a level that is done: each was passed. *)
Ltac split_ifs H :=
  repeat match type of H with
  | (if ?c then _ else _) _ = _ =>
      lazymatch c with context [PTE_A .| _] => fail | _ => idtac end;
      let E := fresh "C" in destruct c eqn:E;
      [solve [unfold ret, throw, raise in H; repeat match type of H with
              | (if ?d then _ else _) _ = _ => destruct d end; cbn in H; discriminate H]|]
  end.

(** The A bit, and for a store the D bit. *)
Definition ad_bits (w : walk_env) : Z := PTE_A .| (b2z (bool_decide (w_type w = STORE)) * PTE_D).

(** The tests that a leaf passes amount to [leaf_allows]. *)
Lemma leaf_tests w sse pte :
  has pte PTE_RSVD = false ->
  (if has pte PTE_U then w_s_mode w && (bool_decide (w_type w = FETCH) || negb (w_sum w))
   else negb (w_s_mode w)) = false ->
  negb (has pte PTE_V) || negb (has pte PTE_R) && has pte PTE_W &&
    (negb sse && negb (has pte PTE_X) || has pte PTE_X) = false ->
  negb (has pte PTE_R) && has pte PTE_W && negb (has pte PTE_X) &&
    (bool_decide (w_type w = STORE) && negb (w_ss_access w) || w_clean_inval w) = false ->
  negb (has pte PTE_R) && has pte PTE_W && negb (has pte PTE_X) && bool_decide (w_type w = FETCH) = false ->
  (has pte PTE_R && has pte PTE_W || has pte PTE_X) && w_ss_access w = false ->
  (if bool_decide (w_type w = FETCH) || w_hlvx w then negb (has pte PTE_X)
   else if bool_decide (w_type w = LOAD)
   then negb (sse && (negb (has pte PTE_R) && has pte PTE_W && negb (has pte PTE_X))) &&
        negb (has pte PTE_R) && negb (w_mxr w && has pte PTE_X)
   else negb (has pte PTE_W)) = false ->
  leaf_allows w sse pte.
Proof.
  unfold leaf_allows, shadow_stack_page. intros Hr HU HV HS HF HA HT.
  destruct (has pte PTE_V); [|discriminate HV].
  destruct (has pte PTE_R), (has pte PTE_W), (has pte PTE_X); try discriminate HV;
    destruct (w_type w); cbn in *; try discriminate;
    destruct (has pte PTE_U), (w_s_mode w), (w_sum w); try discriminate HU;
    destruct sse, (w_hlvx w), (w_mxr w); try discriminate;
    destruct (w_ss_access w); try discriminate; intuition congruence.
Qed.

(** The end of a level: the access bits are set, or set now when the hart updates them. *)
Definition walk_end (w : walk_env) (pte_at pte phys : Z) (hade : bool) : M step_result :=
  let finish := let* p := s2xlate (w_addr w) phys (w_type w) (w_type w) false (w_hlvx w) false in
                ret (Done (p &~ low_mask PGSHIFT)) in
  if pte .& ad_bits w =? ad_bits w then finish
  else if hade then
    s2xlate (w_addr w) pte_at STORE (w_type w) false false true ;;
    pte_store pte_at (pte .| ad_bits w) (w_addr w) false (w_type w) (ptesize (w_vm w)) ;;
    finish
  else ret Break.

Lemma walk_end_run w pte_at pte phys hade h r h' :
  walk_end w pte_at pte phys hade h = (Val r, h') ->
  r = Break \/ (r = Done (phys &~ low_mask PGSHIFT) /\ (pte .& ad_bits w = ad_bits w \/ hade = true)).
Proof.
  unfold walk_end, s2xlate. cbn [negb]. cbv zeta. intros H.
  destruct (pte .& ad_bits w =? ad_bits w) eqn:Ead.
  - apply Z.eqb_eq in Ead. rewrite bind_ret in H. injection H as <- <-. auto.
  - destruct hade; [|injection H; auto]. rewrite bind_ret in H.
    unfold bind at 1 in H. destruct (pte_store _ _ _ _ _ _ h) as [[?|e] h2]; [|discriminate H].
    rewrite bind_ret in H. injection H as <- <-. auto.
Qed.

Lemma walk_level_done w i base h p h' :
  w_virt w = false -> walk_level w i base h = (Val (Done p), h') ->
  exists pte h1, read_pte w i base h = (Val pte, h1) /\
    leaf_allows w (has (menvcfg_read h1) MENVCFG_SSE) pte /\
    (pte .& ad_bits w = ad_bits w \/ has (menvcfg_read h1) MENVCFG_ADUE = true) /\
    (pte_napot_bits pte = 0 \/ pte_napot_bits pte = 4) /\
    PTE_TABLE pte = false /\ pte_ppn pte .& low_mask (i * idxbits (w_vm w)) = 0 /\
    p = (leaf_page_base pte (Z.shiftr (w_addr w) PGSHIFT) (i * idxbits (w_vm w)) .| (w_addr w .& low_mask PGSHIFT))
        &~ low_mask PGSHIFT.
Proof.
  intros Hv H. unfold walk_level in H. rewrite Hv in H.
  unfold s2xlate at 1 in H. cbn [negb] in H. rewrite bind_ret in H.
  fold (pte_address w i base) in H. fold (read_pte w i base) in H.
  unfold bind at 1 in H. destruct (read_pte w i base h) as [[pte|e] h1] eqn:Er; [|discriminate H].
  exists pte, h1. split; [done|]. rewrite bind_get_hart in H. cbn zeta in H.
  split_ifs H.
  split; [by eapply leaf_tests|]. apply negb_false_iff, Z.eqb_eq in C7.
  assert (Hn : pte_napot_bits pte = 0 \/ pte_napot_bits pte = 4).
  { apply orb_false_iff in C6 as [_ C6]. apply andb_false_iff in C6 as [C6|C6];
      apply negb_false_iff, Z.eqb_eq in C6; auto. }
  apply walk_end_run in H as [H|[H Had]]; [discriminate H|]. injection H as H. by rewrite <- H.
Qed.

(** ** The chain of table entries

    [leads_to w n base h i pte h']: from the table at [base], with [n] levels
    left, the entries of the walk lead through pointers to the leaf [pte] at
    level [i]. *)
Inductive leads_to (w : walk_env) : nat -> Z -> hart -> Z -> Z -> hart -> Prop :=
| at_leaf n base h pte h1 :
    read_pte w (Z.of_nat n) base h = (Val pte, h1) -> PTE_TABLE pte = false ->
    leads_to w (S n) base h (Z.of_nat n) pte h1
| at_pointer n base h pte h1 i leaf h2 :
    read_pte w (Z.of_nat n) base h = (Val pte, h1) -> PTE_TABLE pte = true ->
    has pte (PTE_D .| PTE_A .| PTE_U .| PTE_N .| PTE_PBMT) = false ->
    leads_to w n (u64 (Z.shiftl (pte_ppn pte) PGSHIFT)) h1 i leaf h2 ->
    leads_to w (S n) base h i leaf h2.

Lemma leads_to_level w n base h i pte h' : leads_to w n base h i pte h' -> 0 <= i < Z.of_nat n.
Proof. induction 1; lia. Qed.

Lemma walk_level_next w i base h b h' :
  w_virt w = false -> walk_level w i base h = (Val (Next b), h') ->
  exists pte, read_pte w i base h = (Val pte, h') /\ PTE_TABLE pte = true /\
    has pte (PTE_D .| PTE_A .| PTE_U .| PTE_N .| PTE_PBMT) = false /\ b = u64 (Z.shiftl (pte_ppn pte) PGSHIFT).
Proof.
  intros Hv H. unfold walk_level in H. rewrite Hv in H.
  unfold s2xlate at 1 in H. cbn [negb] in H. rewrite bind_ret in H.
  fold (pte_address w i base) in H. fold (read_pte w i base) in H.
  unfold bind at 1 in H. destruct (read_pte w i base h) as [[pte|e] h1] eqn:Er; [|discriminate H].
  rewrite bind_get_hart in H. cbn zeta in H.
  do 4 (match type of H with (if ?c then _ else _) _ = _ => destruct c; [discriminate H|] end).
  destruct (PTE_TABLE pte) eqn:Et.
  - destruct (has pte _) eqn:Ea in H; [discriminate H|].
    injection H as <- <-. by exists pte.
  - exfalso. revert H. clear. intros H.
    split_ifs H. apply walk_end_run in H as [H|[H _]]; discriminate H.
Qed.
(** A finished walk followed such a chain, and its leaf passed every test. *)
Lemma walk_loop_done w n base h p h' :
  w_virt w = false -> walk_loop n w base h = (Val (Some p), h') ->
  exists i pte h1, leads_to w n base h i pte h1 /\
    leaf_allows w (has (menvcfg_read h1) MENVCFG_SSE) pte /\
    (pte .& ad_bits w = ad_bits w \/ has (menvcfg_read h1) MENVCFG_ADUE = true) /\
    (pte_napot_bits pte = 0 \/ pte_napot_bits pte = 4) /\
    pte_ppn pte .& low_mask (i * idxbits (w_vm w)) = 0 /\
    p = (leaf_page_base pte (Z.shiftr (w_addr w) PGSHIFT) (i * idxbits (w_vm w)) .| (w_addr w .& low_mask PGSHIFT))
        &~ low_mask PGSHIFT.
Proof.
  intros Hv. revert base h. induction n as [|n IH]; intros base h H; [discriminate H|].
  cbn [walk_loop] in H. unfold bind at 1 in H.
  destruct (walk_level w (Z.of_nat n) base h) as [[[b|q|]|e] h1] eqn:El; try discriminate H.
  - destruct (walk_level_next _ _ _ _ _ _ Hv El) as (pte & Hr & Ht & Ha & ->).
    destruct (IH _ _ H) as (i & leaf & h2 & Hc & Hrest).
    exists i, leaf, h2. split; [by eapply at_pointer|done].
  - injection H as -> ->.
    destruct (walk_level_done _ _ _ _ _ _ Hv El) as (pte & h2 & Hr & Hl & Had & Hn & Ht & Hp & Hq).
    exists (Z.of_nat n), pte, h2. split; [by apply at_leaf|done].
Qed.

(** *** The address *)

Lemma low_mask_ones k : 0 <= k < 64 -> low_mask k = Z.ones k.
Proof.
  intros Hk. unfold low_mask. rewrite Z.ones_equiv, Z.shiftl_1_l, wrap_small; [done|].
  split; [apply Z.pow_nonneg; lia|]. apply Z.pow_lt_mono_r; lia.
Qed.

Lemma low_mask_bit k b : 0 <= k < 64 -> 0 <= b -> Z.testbit (low_mask k) b = (b <? k).
Proof. intros. rewrite low_mask_ones by done. apply tb_ones; lia. Qed.

(** Below the page size of the leaf the address goes through; above, the PPN decides. *)
Lemma leaf_address_bit pte addr s b :
  0 <= s < 64 -> pte_napot_bits pte = 0 \/ pte_napot_bits pte = 4 -> pte_ppn pte .& low_mask s = 0 -> 0 <= b < 64 ->
  Z.testbit ((leaf_page_base pte (Z.shiftr addr PGSHIFT) s .| (addr .& low_mask PGSHIFT)) &~ low_mask PGSHIFT) b =
  (PGSHIFT <=? b) && (if b <? PGSHIFT + Z.max s (pte_napot_bits pte) then Z.testbit addr b
                      else Z.testbit (pte_ppn pte) (b - PGSHIFT)).
Proof.
  intros Hs Hn Hz Hb. change PGSHIFT with 12 in *.
  assert (Hp : b - 12 < s -> 0 <= b - 12 -> Z.testbit (pte_ppn pte) (b - 12) = false).
  { intros Hlt H0. apply (f_equal (fun z => Z.testbit z (b - 12))) in Hz. revert Hz.
    rewrite Z.land_spec, low_mask_bit, Z.bits_0 by lia. replace (b - 12 <? s) with true by lia.
    by rewrite andb_true_r. }
  assert (Hr : 0 <= pte_napot_bits pte < 64) by lia. clear Hn.
  unfold leaf_page_base. set (nb := pte_napot_bits pte) in *. cbv zeta. change PGSHIFT with 12.
  rewrite Z.ldiff_spec, Z.lor_spec, Z.land_spec, low_mask_bit by lia.
  destruct (Z.leb_spec 12 b) as [Hge|Hlt]; cbn [andb].
  - replace (b <? 12) with false by lia. cbn [negb]. rewrite andb_false_r, orb_false_r, andb_true_r.
    rewrite tb_wrap by lia. replace (b <? 64) with true by lia. cbn [andb].
    rewrite tb_shiftl, !Z.lor_spec, Z.ldiff_spec, !Z.land_spec, !low_mask_bit by lia.
    rewrite Z.shiftr_spec by lia. replace (b - 12 + 12) with b by lia.
    destruct (Z.ltb_spec (b - 12) nb), (Z.ltb_spec (b - 12) s), (Z.ltb_spec b (12 + Z.max s nb)); try lia;
      rewrite ?Hp by lia; cbn [negb andb orb]; rewrite ?andb_false_r, ?andb_true_r, ?orb_false_r, ?orb_false_l; try done.
    by destruct (Z.testbit addr b).
  - replace (b <? 12) with true by lia. cbn [negb]. apply andb_false_r.
Qed.

Lemma vm_shift w p satp vm i :
  decode_vm_info w false p satp = Some vm -> 0 <= i < levels vm -> 0 <= i * idxbits vm < 64.
Proof.
  unfold decode_vm_info. intros H Hi.
  repeat match type of H with
  | context [if ?c then _ else _] => destruct c
  end; try discriminate H; injection H as <-; cbn [levels idxbits vm_off] in *; lia.
Qed.

(** The environment [walk] builds. *)
Definition walk_env_of (a : mem_access_info_t) (h : hart) (vm : vm_info) : walk_env :=
  mk_walk (transformed_vaddr a) (if ss_access (flags a) then STORE else type a) (effective_virt a) (hlvx (flags a))
    (ss_access (flags a)) (clean_inval (flags a)) (effective_priv a =? PRV_S)
    (has (sstatus_readvirt h (effective_virt a)) MSTATUS_SUM)
    (has (sstatus_readvirt h false .| sstatus_readvirt h (effective_virt a)) MSTATUS_MXR) vm.

(** The unused upper bits of the address repeat its top bit. *)
Definition canonical (vm : vm_info) (addr : Z) : Prop :=
  let va_bits := PGSHIFT + levels vm * idxbits vm in
  let top := Z.shiftr addr (va_bits - 1) .& low_mask (xlen - (va_bits - 1)) in
  top = 0 \/ top = low_mask (xlen - (va_bits - 1)).

Definition page_fault (t : access_type) (virt : bool) (addr : Z) : trap_t :=
  match t with
  | FETCH => trap_instruction_page_fault virt addr 0 0
  | LOAD => trap_load_page_fault virt addr 0 0
  | STORE => trap_store_page_fault virt addr 0 0
  end.

(** [walk] outside a guest: the loop from the root, for a canonical address. *)
Lemma walk_run a h vm :
  effective_virt a = false ->
  decode_vm_info xlen false (effective_priv a) (satp_readvirt h false) = Some vm -> 0 < levels vm ->
  exists lv : Z, (canonical vm (transformed_vaddr a) /\ lv = levels vm \/ ~ canonical vm (transformed_vaddr a) /\ lv = 0) /\
  walk a h = match walk_loop (Z.to_nat lv) (walk_env_of a h vm) (ptbase vm) h with
             | (Val (Some p), h') => (Val p, h')
             | (Val None, h') => (Exc (Trap (page_fault (w_type (walk_env_of a h vm)) false (transformed_vaddr a))), h')
             | (Exc e, h') => (Exc e, h')
             end.
Proof.
  intros Hv Hvm Hl. unfold walk. rewrite bind_get_hart, Hv, Hvm. cbv zeta.
  replace (levels vm =? 0) with false by lia. rewrite andb_false_r.
  assert (E : walk_env_of a h vm = mk_walk (transformed_vaddr a) (if ss_access (flags a) then STORE else type a)
    false (hlvx (flags a)) (ss_access (flags a)) (clean_inval (flags a)) (effective_priv a =? PRV_S)
    (has (sstatus_readvirt h false) MSTATUS_SUM)
    (has (sstatus_readvirt h false .| sstatus_readvirt h false) MSTATUS_MXR) vm)
    by (unfold walk_env_of; by rewrite Hv).
  rewrite <- E. unfold canonical.
  match goal with |- context [Z.to_nat ?e] => exists e end. split.
  - match goal with |- context [negb (?x =? 0) && negb (?x =? ?y)] =>
      destruct (Z.eqb_spec x 0), (Z.eqb_spec x y) end; cbn [negb andb]; tauto.
  - unfold bind at 1. destruct (walk_loop _ _ _ _) as [[[p|]|e] h1]; try done.
    rewrite E. cbn [w_type]. by destruct (if ss_access (flags a) then STORE else type a).
Qed.

(** C2.  A page-table walk outside a guest translates an address only if the
    address is canonical and its table entries lead through pointers to a leaf
    that grants the access to this privilege, with the access bits set or set
    now; and the result is the page the leaf names: below the size of the
    (super- or NAPOT) page the bits of the address, above it the leaf's page
    number. *)
Theorem walk_sound a h vm p h' :
  effective_virt a = false ->
  decode_vm_info xlen false (effective_priv a) (satp_readvirt h false) = Some vm -> 0 < levels vm ->
  walk a h = (Val p, h') ->
  canonical vm (transformed_vaddr a) /\
  exists i pte h1,
    leads_to (walk_env_of a h vm) (Z.to_nat (levels vm)) (ptbase vm) h i pte h1 /\
    leaf_allows (walk_env_of a h vm) (has (menvcfg_read h1) MENVCFG_SSE) pte /\
    (pte .& ad_bits (walk_env_of a h vm) = ad_bits (walk_env_of a h vm) \/
     has (menvcfg_read h1) MENVCFG_ADUE = true) /\
    forall b, 0 <= b < 64 ->
      Z.testbit p b = (PGSHIFT <=? b) &&
        (if b <? PGSHIFT + Z.max (i * idxbits vm) (pte_napot_bits pte) then Z.testbit (transformed_vaddr a) b
         else Z.testbit (pte_ppn pte) (b - PGSHIFT)).
Proof.
  intros Hv Hvm Hl H. destruct (walk_run a h vm Hv Hvm Hl) as (lv & Hlv & E). rewrite E in H. clear E.
  destruct Hlv as [[Hc ->]|[_ ->]]; [|discriminate H]. split; [done|].
  destruct (walk_loop _ _ _ _) as [[[q|]|e] h2] eqn:Ew; try discriminate H. injection H as -> ->.
  destruct (walk_loop_done (walk_env_of a h vm) _ _ _ _ _ Hv Ew) as (i & pte & h1 & Hlead & Hallow & Had & Hn & Hz & ->).
  exists i, pte, h1. do 3 (split; [done|]). intros b Hb. apply leaf_address_bit; [|done..].
  apply leads_to_level in Hlead. eapply vm_shift; [done|]. cbn [w_vm walk_env_of]. lia.
Qed.

(** ** What a walk may do

    [walker P m]: [m] changes only memory and the devices, with what the
    devices do to [mip] and [time], and throws only exceptions of [P]. *)
Definition mem_only (h h' : hart) : Prop := exists m d es, h' = set_mem m (apply_effects es (set_dev d h)).

Lemma apply_effect_mem e m h : apply_effect (set_mem m h) e = set_mem m (apply_effect h e).
Proof. destruct e; [done|]. cbn. unfold time_sync. change (extension_enabled (set_csr_raw ?a ?b (set_mem m h)) ?e) with
  (extension_enabled (set_csr_raw a b h) e). by destruct (extension_enabled _ _). Qed.

Lemma apply_effect_dev e d h : apply_effect (set_dev d h) e = set_dev d (apply_effect h e).
Proof. destruct e; [done|]. cbn. unfold time_sync. change (extension_enabled (set_csr_raw ?a ?b (set_dev d h)) ?e) with
  (extension_enabled (set_csr_raw a b h) e). by destruct (extension_enabled _ _). Qed.

Lemma apply_effects_mem es m h : apply_effects es (set_mem m h) = set_mem m (apply_effects es h).
Proof. revert h. induction es as [|e es IH]; intros h; [done|].
  unfold apply_effects in *. cbn [fold_left]. by rewrite apply_effect_mem, IH. Qed.

Lemma apply_effects_dev es d h : apply_effects es (set_dev d h) = set_dev d (apply_effects es h).
Proof. revert h. induction es as [|e es IH]; intros h; [done|].
  unfold apply_effects in *. cbn [fold_left]. by rewrite apply_effect_dev, IH. Qed.

#[local] Instance mem_only_preorder : PreOrder mem_only.
Proof.
  split.
  - intros h. exists (mem h), (dev h), []. by destruct h.
  - intros h1 h2 h3 (m1 & d1 & es1 & ->) (m2 & d2 & es2 & ->). exists m2, d2, (es1 ++ es2).
    unfold apply_effects at 3. rewrite fold_left_app. fold (apply_effects es1 (set_dev d2 h1)).
    fold (apply_effects es2 (apply_effects es1 (set_dev d2 h1))).
    assert (E : set_dev d2 (set_mem m1 (apply_effects es1 (set_dev d1 h1))) =
      set_mem m1 (apply_effects es1 (set_dev d2 h1))) by (rewrite !apply_effects_dev; reflexivity).
    rewrite E, apply_effects_mem. reflexivity.
Qed.

Definition walker (P : exn -> Prop) {A} (m : M A) : Prop :=
  forall h, mem_only h (snd (m h)) /\ match fst (m h) with Exc e => P e | Val _ => True end.

Lemma mem_only_device es d h : mem_only h (apply_effects es (set_dev d h)).
Proof.
  exists (mem h), d, es. rewrite <- apply_effects_mem. by destruct h.
Qed.

Section effects.
Variable P : exn -> Prop.

Lemma walker_ret {A} (x : A) : walker P (ret x).
Proof. by split; [cbn|]. Qed.

Lemma walker_raise {A} e : P e -> walker P (raise (A := A) e).
Proof. by split; [cbn|]. Qed.

Lemma walker_bind {A B} (m : M A) (k : A -> M B) :
  walker P m -> (forall x, walker P (k x)) -> walker P (bind m k).
Proof.
  intros Hm Hk h. unfold bind. destruct (Hm h) as [Hmo He].
  destruct (m h) as [[x|e] h1]; cbn in *; [|done].
  destruct (Hk x h1) as [Hko Hke]. split; [by etrans|done].
Qed.

Lemma walker_get_hart {B} (k : hart -> M B) : (forall x, walker P (k x)) -> walker P (bind get_hart k).
Proof. intros Hk h. apply Hk. Qed.

Lemma walker_if {A} (b : bool) (m1 m2 : M A) : (b = true -> walker P m1) -> (b = false -> walker P m2) -> walker P (if b then m1 else m2).
Proof. destruct b; auto. Qed.

Lemma walker_modify_mem f : walker P (modify (fun h => set_mem (f h) h)).
Proof. intros h. split; [|done]. exists (f h), (dev h), []. by destruct h. Qed.

Lemma walker_mmio_load_one a len : walker P (mmio_load_one a len).
Proof.
  intros h. unfold mmio_load_one. destruct (negb _); [by split; cbn|].
  destruct (sim_mmio_load _ _ a len (dev h)) as [[r d] es]. split; [|done]. by apply mem_only_device.
Qed.

Lemma walker_mmio_store_one a bytes : walker P (mmio_store_one a bytes).
Proof.
  intros h. unfold mmio_store_one. destruct (negb _); [by split; cbn|].
  destruct (sim_mmio_store _ _ a bytes (dev h)) as [[r d] es]. split; [|done]. by apply mem_only_device.
Qed.
End effects.

(** Follows the structure of an operation. *)
Create HintDb walker discriminated.
Ltac walker_step :=
  lazymatch goal with
  | |- walker _ (ret _) => apply walker_ret
  | |- walker _ (bind get_hart _) => apply walker_get_hart; intros
  | |- walker _ (bind _ _) => apply walker_bind; [|intros]
  | |- walker _ (modify _) => apply walker_modify_mem
  | |- walker _ (mmio_load_one _ _) => apply walker_mmio_load_one
  | |- walker _ (mmio_store_one _ _) => apply walker_mmio_store_one
  | |- walker _ (if _ then _ else _) => apply walker_if; intros
  | |- walker _ (match ?x with _ => _ end) => destruct x
  | |- walker _ (throw _) => apply walker_raise
  | |- walker _ abort => apply walker_raise
  | |- walker _ _ => solve [auto with walker nocore]
  end.
Ltac walker_all := cbv zeta; repeat walker_step.

Lemma walker_mmio_load P a len : walker P (mmio_load a len).
Proof.
  unfold mmio_load. walker_all. clear.
  revert a. induction (Z.to_nat len) as [|n IH]; intros a; cbn [mmio_load_bytes]; walker_all.
Qed.

Lemma walker_mmio_store P a bytes : walker P (mmio_store a bytes).
Proof.
  unfold mmio_store. walker_all. clear.
  revert a. induction bytes as [|b bytes IH]; intros a; cbn [mmio_store_bytes]; walker_all.
Qed.

(** The faults of an access of type [t] at [addr].  The store of an access bit
    into a second-stage entry faults with the type of the second-stage access
    ([fault_s2_update]), where every other fault has the type of the access. *)
Definition access_fault (t : access_type) (virt : bool) (addr : Z) : trap_t :=
  match t with
  | FETCH => trap_instruction_access_fault virt addr 0 0
  | LOAD => trap_load_access_fault virt addr 0 0
  | STORE => trap_store_access_fault virt addr 0 0
  end.

Inductive walk_fault (t : access_type) (virt : bool) (addr : Z) : exn -> Prop :=
| fault_page : walk_fault t virt addr (Trap (page_fault t virt addr))
| fault_access : walk_fault t virt addr (Trap (access_fault t virt addr))
| fault_shadow_stack : walk_fault t virt addr (Trap (trap_store_access_fault virt addr 0 0))
| fault_guest tval2 tinst : virt = true ->
    walk_fault t virt addr (Trap match t with
      | FETCH => trap_instruction_guest_page_fault addr tval2 tinst
      | LOAD => trap_load_guest_page_fault addr tval2 tinst
      | STORE => trap_store_guest_page_fault addr tval2 tinst
      end)
| fault_s2_update u : virt = true -> walk_fault t virt addr (Trap (access_fault u virt addr))
| fault_abort : walk_fault t virt addr Abort.

Lemma walker_access_exception {A} t virt addr : walker (walk_fault t virt addr) (throw_access_exception (A := A) virt addr t).
Proof. destruct t; apply walker_raise; apply fault_access. Qed.

#[local] Hint Resolve walker_access_exception walker_mmio_load walker_mmio_store : walker.

Lemma walker_pte_load t virt addr pa size : walker (walk_fault t virt addr) (pte_load pa addr virt t size).
Proof. unfold pte_load. walker_all. Qed.

Lemma walker_pte_store t virt addr pa pte size : walker (walk_fault t virt addr) (pte_store pa pte addr virt t size).
Proof. unfold pte_store. walker_all. Qed.

#[local] Hint Resolve walker_pte_load walker_pte_store : walker.

Lemma walker_s2_level gva gpa t tt virt hx mxr vm i base :
  virt = true -> walker (walk_fault tt virt gva) (s2_level gva gpa t tt virt hx mxr vm i base).
Proof.
  intros Hv. assert (Hs : forall pa pte, walker (walk_fault tt virt gva) (pte_store pa pte gva virt t (ptesize vm))).
  { intros pa pte. unfold pte_store. walker_all; pose proof (fault_s2_update tt virt gva t Hv); destruct t; by apply walker_raise. }
  unfold s2_level. walker_all.
Qed.

Lemma walker_s2_loop n gva gpa t tt virt hx mxr vm base :
  virt = true -> walker (walk_fault tt virt gva) (s2_loop n gva gpa t tt virt hx mxr vm base).
Proof.
  intros Hv. revert base. induction n as [|n IH]; intros base; cbn [s2_loop]; walker_all. by apply walker_s2_level.
Qed.

Lemma walker_s2xlate gva gpa t tt virt hx pt : walker (walk_fault tt virt gva) (s2xlate gva gpa t tt virt hx pt).
Proof.
  unfold s2xlate. destruct virt; cbn [negb]; [|apply walker_ret]. walker_all;
    try (by apply walker_s2_loop); try apply fault_abort.
  - by apply (fault_guest LOAD).
  - by apply (fault_guest STORE).
  - by apply (fault_guest FETCH).
Qed.

#[local] Hint Resolve walker_s2xlate : walker.

Lemma walker_walk_level w i base : walker (walk_fault (w_type w) (w_virt w) (w_addr w)) (walk_level w i base).
Proof.
  unfold walk_level. walker_all; try apply fault_shadow_stack.
  replace (w_type w) with FETCH; [apply (fault_access FETCH)|].
  match goal with H : _ && bool_decide (w_type w = FETCH) = true |- _ =>
    apply andb_true_iff in H as [_ H]; by apply bool_decide_eq_true_1 in H end.
Qed.

Lemma walker_walk_loop w n base : walker (walk_fault (w_type w) (w_virt w) (w_addr w)) (walk_loop n w base).
Proof.
  revert base. induction n as [|n IH]; intros base; cbn [walk_loop]; walker_all. apply walker_walk_level.
Qed.

(** C13.  A walk, of one or two stages and whatever its outcome, changes only
    memory (access bits) and the devices, with what they do to [mip] and
    [time]; and what it throws is a fault of
    the type of the access (a store for shadow-stack accesses) with the
    translated address as trap value, a guest-page fault only for a guest
    access, or the abort of an unsupported translation mode. *)
Theorem walk_effects a h :
  let t := if ss_access (flags a) then STORE else type a in
  mem_only h (snd (walk a h)) /\
  match fst (walk a h) with
  | Exc e => walk_fault t (effective_virt a) (transformed_vaddr a) e
  | Val _ => True
  end.
Proof.
  intros t. revert h.
  change (walker (walk_fault t (effective_virt a) (transformed_vaddr a)) (walk a)).
  unfold walk. walker_all; try (by constructor).
  apply walker_walk_loop.
Qed.

End walk.

(** * On the machine of [Machine] *)

#[local] Existing Instances demo_config demo_simif no_triggers.

(** Supervisor mode under Sv39: the second entry of the root table, at
    [0x80001000], is a 1 GiB leaf for [0x80000000]. *)
Definition sv39_hart : hart :=
  set_mem (write_bytes 0x80001008 (to_target 8 (Z.shiftl 0x80000 10 .| 0xcf)) ∅)
    (set_csr_raw CSR_SATP (Z.shiftl SATP_MODE_SV39 60 .| 0x80001) (set_prv PRV_S boot64)).
Definition sv39_load (addr : Z) : mem_access_info_t := mk_access_info addr addr PRV_S false no_flags LOAD.
Definition sv39_vm : vm_info := mk_vm 3 9 0 8 0x80001000.

Lemma walk_sound_witness :
  fst (walk (sv39_load 0x40002468) sv39_hart) = Val 0x80002000 /\
  exists i pte h1, leads_to (walk_env_of (sv39_load 0x40002468) sv39_hart sv39_vm) 3 0x80001000 sv39_hart i pte h1.
Proof.
  assert (E : fst (walk (sv39_load 0x40002468) sv39_hart) = Val 0x80002000) by (vm_compute; reflexivity).
  split; [exact E|].
  destruct (walk_sound (sv39_load 0x40002468) sv39_hart sv39_vm 0x80002000
    (snd (walk (sv39_load 0x40002468) sv39_hart))) as (_ & i & pte & h1 & Hl & _);
    [reflexivity|vm_compute; reflexivity|reflexivity|exact (run_fst _ _ _ E)|].
  exists i, pte, h1. exact Hl.
Defined.
