(* ===== verification/FpFacts.v ===== *)
(** The floating-point instructions on the state of a hart: which register and
    which flags the arithmetic instructions write, when they are illegal, and
    how a narrow float travels through the registers. *)

From S2P Require Import Prelude IntArith Decode Encoding IsaExt Trap Hart Pmp Csr CsrFile CsrInit Macros.
From S2P Require Import SoftPrim SoftF32 SoftFacts FloatFacts InsnsFp HartFacts Machine CsrFacts.

(** * Boxing *)

Lemma boxed32 x : 0 <= x < 2 ^ 32 -> freg32 x = (2 ^ 64 - 2 ^ 32 + x, 2 ^ 64 - 1).
Proof.
  intros Hx. unfold freg32. change (u64 (Z.shiftl (u64 (-1)) 32)) with ((2 ^ 32 - 1) * 2 ^ 32).
  rewrite <- Z.shiftl_mul_pow2, join_words by lia. f_equal; lia.
Qed.

Lemma unbox_box32 x : 0 <= x < 2 ^ 32 -> unboxF32 (freg32 x) = x.
Proof.
  intros Hx. rewrite boxed32 by done. unfold unboxF32, isBoxedF32, isBoxedF64. cbn [fst snd].
  rewrite Z.shiftr_div_pow2 by lia.
  replace ((2 ^ 64 - 2 ^ 32 + x) / 2 ^ 32) with (2 ^ 32 - 1)
    by (apply (Z.div_unique _ _ _ x); lia).
  change ((u64 (2 ^ 64 - 1 + 1) =? 0) && (u32 (2 ^ 32 - 1 + 1) =? 0)) with true. cbv iota.
  unfold wrap. symmetry. apply (Z.mod_unique_pos _ _ (2 ^ 32 - 1)); lia.
Qed.

Section fp.
Context `{cfg : !config, sim : !simif, trg : !trigger_module, ctx : !insn_ctx}.

(** * Arithmetic on singles *)

(** What the software of F runs with: a machine built with F and without Zfinx,
    the extension on, and [FS] not off at any level that has one. *)
Record fp_ready (h : hart) : Prop := {
  ready_built : ee0 ext_F = true /\ ee0 EXT_ZFINX = false;
  ready_f : extension_enabled h ext_F = true;
  ready_zfinx : extension_enabled h EXT_ZFINX = false;
  ready_fs : sstatus_enabled h SSTATUS_FS = true;
  ready_prv : 0 <= prv h }.

Lemma fs_writable : ee0 ext_F = true /\ ee0 EXT_ZFINX = false -> status_field SSTATUS_FS.
Proof.
  intros [HF HZ] i Hi Hb. assert (i = 13 \/ i = 14) as Hc.
  { change SSTATUS_FS with (Z.shiftl (Z.ones 2) 13) in Hb. autorewrite with zbits in Hb.
    destruct (Z.lt_ge_cases i 13); [by rewrite tb_neg in Hb by lia|]. rewrite tb_ones in Hb by lia. lia. }
  split; [|lia]. unfold sstatus_write_mask. rewrite HF, HZ, orb_true_r.
  autorewrite with zbits. destruct Hc as [-> | ->]; const_bits; btauto.
Qed.

(** The rounding mode of the instruction, [frm] for the dynamic one. *)
Definition effective_rm (h : hart) : Z :=
  if Insn.rm insn =? 7 then csr_raw h CSR_FRM else Insn.rm insn.

Definition single (h : hart) (r : Z) : Z := unboxF32 (regfile_read (0, 0) (FPR h) r).

(** The hart after a result and its flags are written: [FS] is dirty. *)
Definition fp_register (r : freg_t) (fl : Z) (h : hart) : hart :=
  set_FPR (regfile_write false (FPR h) (Insn.rd insn) r) (set_softfloat_exceptionFlags fl h).
Definition fp_written (r : freg_t) (fl : Z) (h : hart) : hart :=
  let h1 := set_softfloat_exceptionFlags 0 (made_dirty SSTATUS_FS (fp_register r fl h)) in
  if fl =? 0 then h1
  else set_csr_raw CSR_FFLAGS ((csr_raw h CSR_FFLAGS &~ FSR_AEXC) .| ((csr_raw h CSR_FFLAGS .| fl) .& FSR_AEXC)) h1.

Definition fp_op2 (op : Z -> Z -> Z -> Z -> Z * Z) : M unit :=
  require_either_extension ext_F EXT_ZFINX ;;
  require_fp ;;
  let* rm := RM in
  WRITE_FRD_F (let* a := FRS1_F in let* b := FRS2_F in soft (op rm a b)) ;;
  set_fp_exceptions.

Lemma fp_ready_FPR x h : fp_ready h -> fp_ready (set_FPR x h).
Proof. intros []. by constructor. Qed.
Lemma fp_ready_flags x h : fp_ready h -> fp_ready (set_softfloat_exceptionFlags x h).
Proof. intros []. by constructor. Qed.
Lemma fp_ready_register r fl h : fp_ready h -> fp_ready (fp_register r fl h).
Proof. intros. by apply fp_ready_FPR, fp_ready_flags. Qed.

Lemma fp_dirtied h : fp_ready h -> is_dirty SSTATUS_FS (made_dirty SSTATUS_FS h) = true.
Proof. intros []. by apply made_dirty_dirty, fs_writable. Qed.

Lemma fp_written_frame r fl h : let h' := fp_written r fl h in
  FPR h' = regfile_write false (FPR h) (Insn.rd insn) r /\ XPR h' = XPR h /\ pc h' = pc h /\ mem h' = mem h.
Proof.
  cbv zeta. unfold fp_written.
  destruct (made_dirty_frame SSTATUS_FS (fp_register r fl h)) as (? & ? & _ & ? & ? & _).
  by destruct (fl =? 0).
Qed.

Lemma require_fp_run h : fp_ready h -> require_fp h = (Val tt, h).
Proof.
  intros []. unfold require_fp, bind, get_hart. cbn [csr_verify_permissions fflags_csr csr_address].
  unfold csr_t_verify_permissions, float_checks. rewrite ready_f0, ready_zfinx0, ready_fs0.
  change (get_field CSR_FFLAGS 0x300) with 0.
  rewrite !andb_false_r. cbn [orb andb negb check Z.eqb PRV_S PRV_HS].
  replace (_ <? 0) with false by (unfold PRV_HS; case_match; lia).
  done.
Qed.

Lemma require_f_run h : fp_ready h -> require_either_extension ext_F EXT_ZFINX h = (Val tt, h).
Proof.
  intros Hr. unfold require_either_extension, require_state, bind, get_hart, require.
  by rewrite (ready_f h Hr).
Qed.

Lemma RM_run h : 0 <= effective_rm h < 5 -> RM h = (Val (effective_rm h), h).
Proof.
  unfold RM, effective_rm, VFP_RM, validate_rm, bind, get_hart. cbn [csr_read frm_csr].
  intros. destruct (Insn.rm insn =? 7); by replace (_ <? 5) with true by lia.
Qed.

Lemma RM_illegal h : 4 < effective_rm h ->
  RM h = (Exc (Trap (trap_illegal_instruction (Insn.bits insn))), h).
Proof.
  unfold RM, effective_rm, VFP_RM, validate_rm, bind, get_hart. cbn [csr_read frm_csr].
  intros. destruct (Insn.rm insn =? 7); by replace (_ <? 5) with false by lia.
Qed.

Lemma READ_FREG_F_run r h : fp_ready h -> READ_FREG_F r h = (Val (single h r), h).
Proof. intros []. unfold READ_FREG_F, zfinx, bind, gets. by rewrite ready_zfinx0. Qed.

Lemma csr_write_fflags x h :
  extension_enabled h EXT_ZFINX = false -> is_dirty SSTATUS_FS h = true ->
  csr_write fflags_csr x h =
  (Val tt, set_csr_raw CSR_FFLAGS ((csr_raw h CSR_FFLAGS &~ FSR_AEXC) .| (x .& FSR_AEXC)) h).
Proof.
  intros Hz Hd. unfold csr_write, fflags_csr. cbn [csr_unlogged_write].
  unfold bind, get_hart, when, dirty_fp_state. rewrite Hz. cbn [negb].
  by rewrite dirty_run, made_dirty_same by (done || by apply is_dirty_enabled).
Qed.

Lemma write_result_run (f : Z -> Z * Z) h :
  fp_ready h -> softfloat_exceptionFlags h = 0 ->
  (WRITE_FRD_F (soft f) ;; set_fp_exceptions) h =
  let '(r, fl) := f 0 in (Val tt, fp_written (freg32 r) fl h).
Proof.
  intros Hr H0. unfold WRITE_FRD_F, zfinx. rewrite bind_assoc.
  unfold bind at 1. unfold gets. rewrite (ready_zfinx h Hr).
  unfold WRITE_FRD, WRITE_FREG, soft, DO_WRITE_FREG, set_fp_exceptions, raise_fp_exceptions.
  unfold bind, get_hart, modify, ret. rewrite H0. destruct (f 0) as [r fl].
  fold (fp_register (freg32 r) fl h). pose proof (fp_ready_register (freg32 r) fl h Hr) as Hr1.
  unfold dirty_fp_state. rewrite dirty_run by apply Hr1. unfold fp_written.
  pose proof (fp_dirtied _ Hr1) as Hd. pose proof (made_dirty_frame SSTATUS_FS (fp_register (freg32 r) fl h)) as Hf.
  cbv zeta in Hf. destruct Hf as (_ & _ & _ & _ & _ & _ & _ & Ht & Hs & Hc).
  set (h1 := made_dirty _ _) in *. rewrite Hs. change (softfloat_exceptionFlags (fp_register _ _ _)) with fl.
  unfold when, z2b. destruct (fl =? 0); [done|]. cbn [negb]. unfold bind.
  rewrite csr_write_fflags; [|rewrite <- (ready_zfinx _ Hr1); by apply extension_enabled_ext; [apply Hc|]|done].
  change (csr_read fflags_csr h1) with (csr_raw h1 CSR_FFLAGS). by rewrite (Hc CSR_FFLAGS).
Qed.

Lemma fp_op2_run op h :
  fp_ready h -> softfloat_exceptionFlags h = 0 -> 0 <= effective_rm h < 5 ->
  fp_op2 op h =
  let '(r, fl) := op (effective_rm h) (single h (Insn.rs1 insn)) (single h (Insn.rs2 insn)) 0 in
  (Val tt, fp_written (freg32 r) fl h).
Proof.
  intros Hr H0 Hrm. unfold fp_op2.
  rewrite (bind_val _ _ _ _ _ (require_f_run h Hr)), (bind_val _ _ _ _ _ (require_fp_run h Hr)), (bind_val _ _ _ _ _ (RM_run h Hrm)).
  rewrite <- write_result_run by done.
  unfold WRITE_FRD_F, zfinx, FRS1_F, FRS2_F, WRITE_FRD, WRITE_FREG, bind, gets. rewrite (ready_zfinx h Hr).
  by rewrite !READ_FREG_F_run.
Qed.

Lemma fp_op2_bad_rm op h :
  fp_ready h -> 4 < effective_rm h ->
  fp_op2 op h = (Exc (Trap (trap_illegal_instruction (Insn.bits insn))), h).
Proof.
  intros Hr Hrm. unfold fp_op2.
  rewrite (bind_val _ _ _ _ _ (require_f_run h Hr)), (bind_val _ _ _ _ _ (require_fp_run h Hr)).
  unfold bind at 1. by rewrite RM_illegal by lia.
Qed.

Lemma fp_op2_illegal op h :
  extension_enabled h EXT_ZFINX = false ->
  extension_enabled h ext_F = false \/ sstatus_enabled h SSTATUS_FS = false ->
  0 <= prv h ->
  fp_op2 op h = (Exc (Trap (trap_illegal_instruction (Insn.bits insn))), h).
Proof.
  intros Hz Hf Hp. unfold fp_op2, require_either_extension, require_state, bind, get_hart.
  rewrite Hz, orb_false_r. destruct (extension_enabled h ext_F) eqn:HF; [|by cbn [require]].
  destruct Hf as [|Hf]; [done|].
  unfold require_fp, bind, get_hart. cbn [csr_verify_permissions fflags_csr csr_address require ret].
  unfold csr_t_verify_permissions, float_checks. rewrite HF, Hz, Hf.
  change (get_field CSR_FFLAGS 0x300) with 0.
  rewrite !andb_false_r. cbn [orb andb negb check Z.eqb PRV_S PRV_HS].
  by replace (_ <? 0) with false by (unfold PRV_HS; case_match; lia).
Qed.

Lemma is_dirty_ext w h1 h2 :
  v h1 = v h2 -> (forall a, a <> CSR_FFLAGS -> csr_raw h1 a = csr_raw h2 a) -> is_dirty w h1 = is_dirty w h2.
Proof.
  intros Hv Hc. unfold is_dirty, sstatus_proxy_read, vsstatus_read, mstatus_read, henvcfg_read, menvcfg_read.
  by rewrite Hv, !Hc.
Qed.

Lemma is_dirty_written r fl h : fp_ready h -> is_dirty SSTATUS_FS (fp_written r fl h) = true.
Proof.
  intros Hr. pose proof (fp_dirtied _ (fp_ready_register r fl h Hr)) as Hd. unfold fp_written. cbv zeta.
  destruct (fl =? 0); [exact Hd|]. rewrite <- Hd.
  apply is_dirty_ext; [done|]. intros a Ha. rewrite csr_raw_set_ne by done. by csr_frame.
Qed.

Lemma single_written r fl h :
  (Z.to_nat (Insn.rd insn) < length (FPR h))%nat -> 0 <= r < 2 ^ 32 ->
  single (fp_written (freg32 r) fl h) (Insn.rd insn) = r.
Proof.
  intros Hl Hr. unfold single, regfile_read.
  rewrite (proj1 (fp_written_frame (freg32 r) fl h)). unfold regfile_write. cbn [andb].
  rewrite (nth_lookup_Some _ _ _ (freg32 r)) by (by apply list_lookup_insert_eq).
  by apply unbox_box32.
Qed.

Lemma fflags_written r fl h :
  0 <= csr_raw h CSR_FFLAGS < 2 ^ 5 -> 0 <= fl < 2 ^ 5 ->
  csr_raw (fp_written r fl h) CSR_FFLAGS = csr_raw h CSR_FFLAGS .| fl.
Proof.
  intros Hf Hfl. unfold fp_written. destruct (Z.eqb_spec fl 0) as [->|].
  { rewrite Z.lor_0_r. cbv zeta. csr_frame.
    by apply (made_dirty_frame SSTATUS_FS (fp_register r 0 h)). }
  rewrite csr_raw_set_eq. change FSR_AEXC with (2 ^ 5 - 1).
  apply Z.bits_inj'. intros i Hi. rewrite land_low by lia.
  rewrite <- (Z.land_ones _ 5), !Z.lor_spec, Z.ldiff_spec, Z.land_spec, Z.lor_spec by lia.
  change (2 ^ 5 - 1) with (Z.ones 5). rewrite !tb_ones by lia.
  destruct (Z.ltb_spec i 5); rewrite ?(tb_high 5 fl i), ?(tb_high 5 (csr_raw h CSR_FFLAGS) i) by lia; btauto.
Qed.

(** * The arithmetic instructions *)

Definition arith_s : list (M unit * (Z -> Z -> Z -> Z -> Z * Z)) :=
  [(insn_fadd_s, f32_add); (insn_fsub_s, f32_sub); (insn_fmul_s, f32_mul); (insn_fdiv_s, f32_div)].

(** C8. On a machine without Zfinx, [fadd.s], [fsub.s], [fmul.s] and [fdiv.s] apply
    their operation, in the rounding mode of the instruction or of [frm], to the
    unboxed sources (NaN for a register that is not boxed), box the result in [rd],
    leave [FS] dirty at every level that has one, whether it was initial, clean or dirty
    before, and accrue the flags in [fflags], where none is ever cleared, while the
    integer registers, [pc] and memory keep their values; they are illegal without F
    or with [FS] off, and for a reserved rounding mode, and then change
    nothing. *)
Theorem fp_single_arith h i op :
  In (i, op) arith_s -> extension_enabled h EXT_ZFINX = false -> 0 <= prv h ->
  (extension_enabled h ext_F = false \/ sstatus_enabled h SSTATUS_FS = false ->
    i h = (Exc (Trap (trap_illegal_instruction (Insn.bits insn))), h)) /\
  (fp_ready h -> 4 < effective_rm h ->
    i h = (Exc (Trap (trap_illegal_instruction (Insn.bits insn))), h)) /\
  (fp_ready h -> softfloat_exceptionFlags h = 0 -> 0 <= effective_rm h < 5 ->
    let '(r, fl) := op (effective_rm h) (single h (Insn.rs1 insn)) (single h (Insn.rs2 insn)) 0 in
    let h' := fp_written (freg32 r) fl h in
    i h = (Val tt, h') /\
    ((Z.to_nat (Insn.rd insn) < length (FPR h))%nat -> 0 <= r < 2 ^ 32 -> single h' (Insn.rd insn) = r) /\
    (0 <= csr_raw h CSR_FFLAGS < 2 ^ 5 -> 0 <= fl < 2 ^ 5 ->
      csr_raw h' CSR_FFLAGS = csr_raw h CSR_FFLAGS .| fl) /\
    is_dirty SSTATUS_FS h' = true /\ XPR h' = XPR h /\ pc h' = pc h /\ mem h' = mem h).
Proof.
  intros Hin Hz Hp. assert (i = fp_op2 op) as ->.
  { repeat (destruct Hin as [[= <- <-]|Hin]; [reflexivity|]). destruct Hin. }
  split_and!.
  - intros. by apply fp_op2_illegal.
  - intros. by apply fp_op2_bad_rm.
  - intros Hr H0 Hrm. rewrite fp_op2_run by done.
    destruct (op _ _ _ _) as [r fl]. cbv zeta.
    pose proof (fp_written_frame (freg32 r) fl h) as (_ & ? & ? & ?).
    split_and!; [done|apply single_written|apply fflags_written| |done..].
    apply is_dirty_written, Hr.
Qed.

End fp.

(** A machine with 3.0 and the smallest subnormal in [f2] and [f3], about to
    run [fmul.s f1, f2, f3] with [FS] initial. *)
Definition fp_config : config :=
  machine 64 (ext_set (demo_letters ++ [ext_letter "F"; ext_letter "D"]%char ++ demo_extensions))
    (demo_misa .| Z.shiftl 1 5 .| Z.shiftl 1 3) 16.
Definition fmul_ctx : insn_ctx := {| insn := 0x103100d3; insn_pc := 0; rve := false |}.
Definition fp_boot : @hart demo_simif no_triggers := @boot fp_config demo_simif no_triggers tt tt.
Definition fp64 : @hart demo_simif no_triggers :=
  set_FPR (<[2%nat := freg32 0x40400000]> (<[3%nat := freg32 1]> (FPR fp_boot)))
    (@mstatus_write fp_config demo_simif no_triggers 0x2000 fp_boot).

Lemma fp_single_arith_witness :
  let r := fst (@insn_fmul_s fp_config demo_simif no_triggers fmul_ctx fp64) in
  let h' := snd (@insn_fmul_s fp_config demo_simif no_triggers fmul_ctx fp64) in
  r = Val tt /\ @single demo_simif no_triggers h' 1 = 3 /\
  @is_dirty fp_config demo_simif no_triggers SSTATUS_FS fp64 = false /\
  @is_dirty fp_config demo_simif no_triggers SSTATUS_FS h' = true /\
  @insn_fmul_s fp_config demo_simif no_triggers fmul_ctx fp64
    = (Val tt, @fp_written fp_config demo_simif no_triggers fmul_ctx (freg32 3) 0 fp64).
Proof.
  do 4 (split; [vm_compute; reflexivity|]).
  assert (@fp_ready fp_config demo_simif no_triggers fp64) as Hr.
  { split; [split| | | |]; try (vm_compute; reflexivity). vm_compute; discriminate. }
  pose proof (@fp_single_arith fp_config demo_simif no_triggers fmul_ctx fp64
    (@insn_fmul_s fp_config demo_simif no_triggers fmul_ctx) f32_mul) as H.
  destruct H as (_ & _ & H); [cbn; tauto|vm_compute; reflexivity|vm_compute; discriminate|].
  specialize (H Hr ltac:(vm_compute; reflexivity) ltac:(vm_compute; split; [discriminate|reflexivity])).
  replace (f32_mul _ _ _ 0) with (3, 0) in H by (vm_compute; reflexivity).
  exact (proj1 H).
Defined.
