(* ===== verification/VectorFacts.v ===== *)
(** Facts on the vector unit: its register file as an array of elements, the
    configuration instructions, and what the element-wise loops compute. *)

From S2P Require Import Prelude IntArith Decode Encoding IsaExt Trap Hart Pmp Csr CsrFile CsrInit Mmu Macros.
From S2P Require Import Vector VMacros InsnsV HartFacts MmuFacts Machine.

(** * The register file *)

Definition is_width (w : Z) : Prop := w = 8 \/ w = 16 \/ w = 32 \/ w = 64.

Lemma is_width_size w : is_width w -> w = 8 * (w / 8) /\ 1 <= w / 8 <= 8.
Proof. intros [->|[->|[->| ->]]]; (split; [reflexivity|split; vm_compute; discriminate]). Qed.

Section elements.
Context `{cfg : !config, sim : !simif, trg : !trigger_module}.

(** What [isa_parser_t] accepts. *)
Record vector_config : Prop := {
  vc_vlen : exists k, 5 <= k <= 16 /\ VLEN = 2 ^ k;
  vc_elen : ELEN = 32 \/ ELEN = 64;
  vc_elen_le : ELEN <= VLEN }.

Context (VC : vector_config).

(** Element [n] of [w] bits of the group at register [r]: its offset, whether it
    is in the file, its value and its replacement. *)
Definition flat (w r n : Z) : Z := r * vlenb + n * (w / 8).
Definition in_file (w r n : Z) : Prop := 0 <= r /\ 0 <= n /\ flat w r n + w / 8 <= NVPR * vlenb.
Definition get_elt (w r n : Z) (u : vu_t) : Z := le_value (reg_bytes (flat w r n) (w / 8) u).
Definition put_elt (w r n x : Z) (u : vu_t) : vu_t :=
  set_reg_bytes (flat w r n) (le_bytes (Z.to_nat (w / 8)) x) u.

Lemma width_divides w : is_width w -> w <= VLEN -> vlenb = VLEN / 8 / (w / 8) * (w / 8).
Proof.
  intros Hw Hle. destruct VC as [(k & Hk & HV) _ _]. unfold vlenb. rewrite HV in *.
  assert (2 ^ k = 2 ^ (k - 3) * 8) as -> by (change 8 with (2 ^ 3); rewrite <- Z.pow_add_r by lia; f_equal; lia).
  rewrite Z.div_mul by lia.
  assert (exists j, 0 <= j <= k - 3 /\ w / 8 = 2 ^ j) as (j & Hj & ->).
  { destruct Hw as [->|[->|[->| ->]]]; [exists 0|exists 1|exists 2|exists 3]; (split; [|reflexivity]);
      (split; [lia|]); apply Z.nlt_ge; intros Hlt;
      assert (2 ^ k <= 2 ^ 5) by (apply Z.pow_le_mono_r; lia); lia. }
  rewrite <- Z.pow_sub_r, <- Z.pow_add_r by lia. f_equal; lia.
Qed.

Lemma vlenb_pos : 4 <= vlenb.
Proof.
  destruct VC as [(k & Hk & HV) _ _]. unfold vlenb. rewrite HV.
  assert (2 ^ 5 <= 2 ^ k) by (apply Z.pow_le_mono_r; lia). change (2 ^ 5) with 32 in *.
  apply Z.div_le_lower_bound; lia.
Qed.

Lemma vlenb_bound : vlenb < 2 ^ 14.
Proof.
  destruct VC as [(k & Hk & HV) _ _]. unfold vlenb. rewrite HV.
  assert (2 ^ k <= 2 ^ 16) by (apply Z.pow_le_mono_r; lia). change (2 ^ 16) with 65536 in *.
  apply Z.div_lt_upper_bound; lia.
Qed.

Lemma elt_offset_flat w r n :
  is_width w -> w <= VLEN -> in_file w r n -> elt_offset (w / 8) r n = flat w r n.
Proof.
  intros Hw Hle (Hr & Hn & Hin). unfold flat, elt_offset, elts_per_reg in *.
  pose proof (width_divides w Hw Hle) as Hd. pose proof (is_width_size w Hw) as [_ Hs].
  pose proof vlenb_pos. pose proof vlenb_bound. set (e := VLEN / 8 / (w / 8)) in *.
  assert (0 < e) by nia. assert (0 <= n / e) by (apply Z.div_pos; lia).
  assert (n = e * (n / e) + n mod e) as Hnn by (apply Z.div_mod; lia).
  pose proof (Z.mod_pos_bound n e ltac:(lia)).
  assert (r + n / e < 2 ^ 64) by (unfold NVPR in Hin; nia).
  rewrite wrap_small by lia. nia.
Qed.

Lemma elt_ref_run w r n h :
  vsew (VU h) <> 0 -> is_width w -> w <= VLEN -> in_file w r n ->
  elt_ref (w / 8) r n h = (Val (flat w r n), h).
Proof.
  intros Hs Hw Hle Hin. unfold elt_ref, bind, gets.
  rewrite elt_offset_flat by done. pose proof (width_divides w Hw Hle) as Hd.
  pose proof vlenb_pos. pose proof (is_width_size w Hw) as [_ Hz].
  unfold assert. destruct (Z.eqb_spec (vsew (VU h)) 0); [done|]. cbn [negb].
  replace (0 <? elts_per_reg (w / 8)) with true by (unfold elts_per_reg; nia).
  destruct Hin as (Hr & Hn & Hin). replace (_ && _) with true; [done|].
  unfold flat in *. symmetry. apply andb_true_iff. split; apply Z.leb_le; nia.
Qed.

Lemma elt_run w r n h :
  vsew (VU h) <> 0 -> is_width w -> w <= VLEN -> in_file w r n ->
  elt w r n h = (Val (get_elt w r n (VU h)), h).
Proof. intros. unfold elt. by rewrite (bind_val _ _ _ _ _ (elt_ref_run w r n h ltac:(done) ltac:(done) ltac:(done) ltac:(done))). Qed.

Lemma set_elt_run w r n x h :
  vsew (VU h) <> 0 -> is_width w -> w <= VLEN -> in_file w r n ->
  set_elt w r n x h = (Val tt, set_VU (put_elt w r n x (VU h)) h).
Proof. intros. unfold set_elt. by rewrite (bind_val _ _ _ _ _ (elt_ref_run w r n h ltac:(done) ltac:(done) ltac:(done) ltac:(done))). Qed.

(** ** Reading what was written *)

Lemma reg_bytes_put o l o' n u :
  o + Z.of_nat (length l) <= o' \/ o' + n <= o ->
  reg_bytes o' n (set_reg_bytes o l u) = reg_bytes o' n u.
Proof.
  intros Hd. unfold reg_bytes, set_reg_bytes. apply map_ext_in. intros k Hk%zseq_In.
  cbn [reg_file set_reg_file]. rewrite write_bytes_lookup.
  by replace ((o <=? o' + k) && (o' + k <? o + Z.of_nat (length l))) with false by lia.
Qed.

Lemma reg_bytes_put_eq o l u : reg_bytes o (Z.of_nat (length l)) (set_reg_bytes o l u) = l.
Proof.
  unfold reg_bytes, set_reg_bytes. cbn [reg_file set_reg_file].
  apply nth_ext with (d := 0) (d' := 0); rewrite length_map, zseq_length, Nat2Z.id; [done|].
  intros i Hi. unfold zseq. rewrite Nat2Z.id, map_map.
  rewrite (nth_indep _ 0 ((fun x => default 0 (write_bytes o l (reg_file u) !! (o + Z.of_nat x))) O))
    by (rewrite length_map, length_seq; done).
  rewrite (map_nth (fun x => default 0 (write_bytes o l (reg_file u) !! (o + Z.of_nat x)))), seq_nth, Nat.add_0_l by done.
  rewrite write_bytes_lookup. replace (_ && _) with true by lia.
  replace (Z.to_nat _) with i by lia. by rewrite nth_lookup.
Qed.

Lemma get_put_eq w r n x u : is_width w -> get_elt w r n (put_elt w r n x u) = wrap w x.
Proof.
  intros Hw. pose proof (is_width_size w Hw) as [Hs Hb]. unfold get_elt, put_elt.
  pose proof (reg_bytes_put_eq (flat w r n) (le_bytes (Z.to_nat (w / 8)) x) u) as H.
  rewrite le_bytes_length, Z2Nat.id in H by lia. rewrite H, le_value_bytes, Z2Nat.id by lia.
  by rewrite <- Hs.
Qed.

Lemma get_put_ne w r n x w' r' n' u :
  is_width w -> is_width w' ->
  flat w r n + w / 8 <= flat w' r' n' \/ flat w' r' n' + w' / 8 <= flat w r n ->
  get_elt w' r' n' (put_elt w r n x u) = get_elt w' r' n' u.
Proof.
  intros Hw Hw' Hd. pose proof (is_width_size w Hw) as [_ Hs]. unfold get_elt, put_elt.
  rewrite reg_bytes_put; [done|]. rewrite le_bytes_length. lia.
Qed.

Lemma get_elt_range w r n u : is_width w -> Forall (fun b => 0 <= b < 2 ^ 8) (reg_bytes (flat w r n) (w / 8) u) ->
  0 <= get_elt w r n u < 2 ^ w.
Proof.
  intros Hw HF. pose proof (is_width_size w Hw) as [Hs Hb]. unfold get_elt.
  assert (Z.of_nat (length (reg_bytes (flat w r n) (w / 8) u)) = w / 8) as Hl.
  { unfold reg_bytes. rewrite length_map, zseq_length. lia. }
  replace (2 ^ w) with (2 ^ (8 * Z.of_nat (length (reg_bytes (flat w r n) (w / 8) u)))) by (f_equal; lia).
  by apply le_value_range.
Qed.

End elements.

(** * Configuration *)

Section configuration.
Context `{cfg : !config, sim : !simif, trg : !trigger_module}.
Context (VC : vector_config).

(** The invariant of the unit: [vl] is at most [vlmax], which is 0 under [vill]
    and else [VLEN * LMUL / SEW] exactly, at least one element. *)
Record vu_ok (h : hart) : Prop := {
  ok_vl : 0 <= vl_read h <= vlmax (VU h);
  ok_vill : vill (VU h) = true -> vlmax (VU h) = 0;
  ok_sew : vill (VU h) = false -> is_width (vsew (VU h)) /\ vsew (VU h) <= ELEN;
  ok_lmul : vill (VU h) = false -> exists m, -3 <= m <= 3 /\ vflmul (VU h) = 2 ^ (10 + m);
  ok_vlmax : vill (VU h) = false ->
    0 < vlmax (VU h) /\ vlmax (VU h) * vsew (VU h) * FL = VLEN * vflmul (VU h) }.

Lemma extract64_3 t pos : 0 <= pos <= 61 -> default 0 (extract64 t pos 3) = Z.shiftr t pos mod 8.
Proof.
  intros Hp. unfold extract64. replace (_ && _) with true by lia.
  change (Z.shiftr (unot64 0) (64 - 3)) with (Z.ones 3). cbn [default]. by rewrite Z.land_ones by lia.
Qed.

Lemma new_vlmul_range t : -4 <= new_vlmul t <= 3 /\ vflmul_of t = 2 ^ (10 + new_vlmul t).
Proof.
  unfold vflmul_of. assert (-4 <= new_vlmul t <= 3) as Hr.
  { unfold new_vlmul. rewrite extract64_3 by lia.
    pose proof (Z.mod_pos_bound (Z.shiftr t 0) 8 ltac:(lia)) as Hm.
    set (m := Z.shiftr t 0 mod 8) in *. clearbody m.
    assert (m = 0 \/ m = 1 \/ m = 2 \/ m = 3 \/ m = 4 \/ m = 5 \/ m = 6 \/ m = 7) as Hc by lia.
    repeat destruct Hc as [->|Hc]; try subst m; vm_compute; split; discriminate. }
  split; [done|]. set (m := new_vlmul t) in *. clearbody m.
  assert (m = -4 \/ m = -3 \/ m = -2 \/ m = -1 \/ m = 0 \/ m = 1 \/ m = 2 \/ m = 3) as Hc by lia.
  repeat destruct Hc as [->|Hc]; try subst m; reflexivity.
Qed.

Lemma vsew_of_pow t : exists s, 0 <= s < 8 /\ vsew_of t = 2 ^ (s + 3).
Proof.
  unfold vsew_of. rewrite extract64_3 by lia. exists (Z.shiftr t 3 mod 8).
  pose proof (Z.mod_pos_bound (Z.shiftr t 3) 8 ltac:(lia)). split; [lia|].
  by rewrite Z.shiftl_1_l.
Qed.

(** What [vill] leaves: exactly the configurations of the manual. *)
Definition legal (h : hart) (t : Z) : Prop :=
  -3 <= new_vlmul t /\ vsew_of t * FL <= Z.min (vflmul_of t) FL * ELEN /\ Z.shiftr t 9 = 0 /\
  (default 0 (extract64 t 8 1) = 0 \/ ill_altfmt h (vsew_of t) = false).

Lemma vill_of_legal h rd rs1 t :
  vill_of h rd rs1 t = false <->
  legal h t /\ (rd = 0 -> rs1 = 0 -> vlmax (VU h) = vlmax_of t).
Proof.
  pose proof (new_vlmul_range t) as [Hm Hf].
  assert (-3 <= new_vlmul t <-> FL / 8 <= vflmul_of t <= 8 * FL) as Hl.
  { rewrite Hf. change (FL / 8) with (2 ^ 7). change (8 * FL) with (2 ^ 13). split.
    - intros. split; apply Z.pow_le_mono_r; lia.
    - intros [H1 _]. apply Z.pow_le_mono_r_iff in H1; lia. }
  unfold vill_of, legal, z2b. rewrite !orb_false_iff, negb_false_iff, !andb_true_iff, !andb_false_iff, !negb_false_iff.
  rewrite !Z.leb_le, !Z.ltb_ge, !Z.eqb_eq. rewrite Hl.
  destruct (Z.eqb_spec rd 0), (Z.eqb_spec rs1 0); intuition congruence.
Qed.

Lemma legal_vlmax h t : legal h t ->
  is_width (vsew_of t) /\ vsew_of t <= ELEN /\ 0 < vlmax_of t /\
  vlmax_of t * vsew_of t * FL = VLEN * vflmul_of t.
Proof.
  intros (Hm & Hs & _). destruct VC as [(k & Hk & HV) He Hle].
  pose proof (new_vlmul_range t) as [Hmr Hf]. destruct (vsew_of_pow t) as (s & Hs8 & Hsew).
  assert (exists e, 5 <= e <= 6 /\ ELEN = 2 ^ e) as (e & Hee & HE).
  { destruct He as [->| ->]; [exists 5|exists 6]; (split; [lia|reflexivity]). }
  assert (e <= k) by (rewrite HV, HE in Hle; apply Z.pow_le_mono_r_iff in Hle; lia).
  unfold vlmax_of, fl_int. rewrite Hf, Hsew, HE, HV in *. set (m := new_vlmul t) in *. clearbody m.
  assert (s + 3 <= e /\ s + 3 <= e + m) as [Hse Hsm].
  { change FL with (2 ^ 10) in *. rewrite <- Z.pow_add_r in Hs by lia. 
    destruct (Z.le_ge_cases m 0).
    - rewrite Z.min_l in Hs by (apply Z.pow_le_mono_r; lia). rewrite <- Z.pow_add_r in Hs by lia.
      apply Z.pow_le_mono_r_iff in Hs; lia.
    - rewrite Z.min_r in Hs by (apply Z.pow_le_mono_r; lia). rewrite <- Z.pow_add_r in Hs by lia.
      apply Z.pow_le_mono_r_iff in Hs; lia. }
  change FL with (2 ^ 10).
  rewrite <- Z.pow_sub_r, <- Z.pow_add_r, <- Z.pow_sub_r by lia.
  split_and!.
  - assert (s = 0 \/ s = 1 \/ s = 2 \/ s = 3) as Hc by lia. unfold is_width.
    destruct Hc as [->|[->|[->| ->]]]; vm_compute; tauto.
  - apply Z.pow_le_mono_r; lia.
  - apply Z.pow_pos_nonneg; lia.
  - rewrite <- !Z.pow_add_r by lia. f_equal. lia.
Qed.

(** The unit after [vsetvl] asked for [t], and the [vl] it sets. *)
Definition unit_after (rd rs1 t : Z) (h : hart) : vu_t :=
  if vtype_read h =? t then VU h
  else mk_vu (reg_file (VU h)) (if vill_of h rd rs1 t then 0 else vlmax_of t) (vsew_of t) (vflmul_of t)
         (default 0 (extract64 t 6 1)) (default 0 (extract64 t 7 1)) (default 0 (extract64 t 8 1))
         (vill_of h rd rs1 t).
Definition vl_after (rd rs1 reqVL : Z) (h : hart) (max : Z) : Z :=
  if max =? 0 then 0 else
  if rs1 =? 0 then if rd =? 0 then vl_read h else max else Z.min reqVL max.

Lemma set_vl_run rd rs1 reqVL t h :
  exists h', set_vl rd rs1 reqVL t h = (Val (vl_read h'), h') /\
    VU h' = unit_after rd rs1 t h /\
    vl_read h' = vl_after rd rs1 reqVL h (vlmax (unit_after rd rs1 t h)) /\
    vstart_read h' = 0 /\
    vtype_read h' = (if (vtype_read h =? t) then t
                     else if vill_of h rd rs1 t then u64 (Z.shiftl UINT64_MAX (xlen - 1)) else t) /\
    XPR h' = XPR h /\ pc h' = pc h /\ mem h' = mem h.
Proof.
  unfold set_vl, set_vtype, VU_modify, write_raw, unit_after, vl_after, vl_read, vstart_read, vtype_read.
  rewrite bind_get_hart, bind_when.
  destruct (Z.eqb_spec (csr_raw h CSR_VTYPE) t) as [Ht|Ht]; cbn [negb].
  - rewrite bind_gets. unfold bind, modify, gets, ret. cbv beta.
    destruct (vlmax (VU h) =? 0); [|destruct (rd =? 0), (rs1 =? 0)]; cbn [andb negb]; eexists; split; try reflexivity;
      (split; [reflexivity|]); unfold basic_write; csr_simpl; rewrite ?Ht; done.
  - autorewrite with run. cbn [VU set_VU]. set (u := mk_vu _ _ _ _ _ _ _ _).
    unfold bind, modify, gets, ret. cbv beta. cbn [VU set_VU vlmax basic_write set_csr_raw set_csr_val].
    destruct (vlmax u =? 0) eqn:E; [|destruct (rd =? 0), (rs1 =? 0)]; cbn [andb negb]; eexists; (split; [reflexivity|]);
      (split; [reflexivity|]); unfold basic_write; csr_simpl; done.
Qed.

Lemma unit_after_ok rd rs1 reqVL t h h' :
  vu_ok h -> 0 <= reqVL -> VU h' = unit_after rd rs1 t h ->
  vl_read h' = vl_after rd rs1 reqVL h (vlmax (unit_after rd rs1 t h)) -> vu_ok h'.
Proof.
  intros Hok Hr Hu Hv. assert (forall u, 0 <= vlmax u ->
    (rd = 0 -> rs1 = 0 -> vlmax u = 0 \/ vl_read h <= vlmax u) ->
    0 <= vl_after rd rs1 reqVL h (vlmax u) <= vlmax u) as Hvl.
  { intros u H0 H1. unfold vl_after. pose proof (ok_vl h Hok).
    destruct (Z.eqb_spec (vlmax u) 0), (Z.eqb_spec rs1 0), (Z.eqb_spec rd 0); lia. }
  unfold unit_after in *. destruct (vtype_read h =? t).
  - pose proof (ok_vl h Hok). destruct Hok. split; rewrite ?Hu; try done. rewrite Hv. apply Hvl; lia.
  - pose proof (vill_of_legal h rd rs1 t) as Hl. destruct (vill_of h rd rs1 t).
    + split; rewrite ?Hu, ?Hv; cbn [vlmax vill]; done.
    + destruct (proj1 Hl eq_refl) as [Hleg Hkeep]. destruct (legal_vlmax h t Hleg) as (Hw & He & Hp & Hx).
      pose proof (ok_vl h Hok). pose proof (new_vlmul_range t) as [Hm Hf]. destruct Hleg as [Hm3 _].
      split; rewrite ?Hu, ?Hv; cbn [vlmax vill vsew vflmul]; try done.
      * apply (Hvl (mk_vu ∅ (vlmax_of t) 0 0 0 0 0 false)); cbn [vlmax]; [lia|]. intros H1 H2. specialize (Hkeep H1 H2). lia.
      * intros _. exists (new_vlmul t). split; [lia|done].
Qed.

(** C6. [vsetvl] keeps the unit's invariant ([vl] at most [VLMAX], which is
    [VLEN * LMUL / SEW] exactly and at least one, or 0 under [vill]).  A new
    [vtype] is taken exactly when the manual allows it ([SEW] within
    [min(LMUL, 1) * ELEN], no reserved [vlmul] or bit, [VLMAX] kept when both
    registers are [x0]); else [vill] is set and [vl] is 0.  [vl] is the smaller
    of the requested length and [VLMAX], [vstart] is cleared, and neither the
    vector registers nor the rest of the state change. *)
Theorem set_vl_correct rd rs1 reqVL t h :
  vu_ok h -> 0 <= reqVL ->
  exists h', set_vl rd rs1 reqVL t h = (Val (vl_read h'), h') /\ vu_ok h' /\
    vstart_read h' = 0 /\ reg_file (VU h') = reg_file (VU h) /\
    XPR h' = XPR h /\ pc h' = pc h /\ mem h' = mem h /\
    (vtype_read h = t -> VU h' = VU h /\ vtype_read h' = t) /\
    (vtype_read h <> t ->
      (vill (VU h') = false <-> legal h t /\ (rd = 0 -> rs1 = 0 -> vlmax (VU h) = vlmax_of t)) /\
      (vill (VU h') = false ->
        vtype_read h' = t /\ vsew (VU h') = vsew_of t /\ vflmul (VU h') = vflmul_of t /\
        vlmax (VU h') = vlmax_of t)) /\
    (vlmax (VU h') = 0 -> vl_read h' = 0) /\
    (vlmax (VU h') <> 0 -> vl_read h' =
      if rs1 =? 0 then if rd =? 0 then vl_read h else vlmax (VU h') else Z.min reqVL (vlmax (VU h'))).
Proof.
  intros Hok Hr. destruct (set_vl_run rd rs1 reqVL t h) as (h' & He & Hu & Hv & Hs & Ht & Hrest).
  exists h'. pose proof (unit_after_ok rd rs1 reqVL t h h' Hok Hr Hu Hv) as Hok'.
  rewrite <- Hu in Hv. unfold unit_after in Hu. split_and!; try done; try apply Hrest.
  - rewrite Hu. by destruct (vtype_read h =? t).
  - intros E. rewrite E, Z.eqb_refl in Hu, Ht. by split.
  - intros E%Z.eqb_neq. rewrite E in Hu, Ht. rewrite Hu. cbn [vill vsew vflmul vlmax].
    split; [apply vill_of_legal|]. intros E2. rewrite E2 in Ht. by rewrite E2.
  - intros E. rewrite Hv, E. done.
  - intros E%Z.eqb_neq. rewrite Hv. unfold vl_after. by rewrite E.
Qed.

End configuration.

(** A machine with a vector unit, of 128-bit registers and 64-bit elements, just
    reset; its unit is on, and then configured for 32-bit elements. *)
Definition vector_machine : config := {|
  max_xlen := 64; max_isa := demo_misa .| Z.shiftl 1 21;
  isa_extension_table := ext_set (demo_letters ++ [ext_letter "V"]%char ++ demo_extensions);
  n_pmp := 16; lg_pmp_granularity := 2; cfg_misaligned := false; target_big_endian := false;
  cfg_VLEN := 128; cfg_ELEN := 64; cfg_zvf := false; cfg_zvd := false; any_custom_extensions := false;
  impl_table := fun s => s <=? IMPL_MMU_ASID;
  blocksz := 64; trigger_count := 0; hart_id := 0; seed_value := 0; cfg_slow := false; cfg_log := false |}.
Definition vector_boot : @hart demo_simif no_triggers :=
  @mstatus_write vector_machine demo_simif no_triggers MSTATUS_VS (@boot vector_machine demo_simif no_triggers tt tt).
Definition vector64 : @hart demo_simif no_triggers :=
  snd (@set_vl vector_machine demo_simif no_triggers 1 2 7 0xd0 vector_boot).

Lemma vector_machine_config : @vector_config vector_machine.
Proof. split; [exists 7; split; [lia|reflexivity]|by right|vm_compute; discriminate]. Qed.

Lemma vector_boot_ok : @vu_ok vector_machine demo_simif no_triggers vector_boot.
Proof.
  split; try (vm_compute; reflexivity).
  - split; vm_compute; discriminate.
  - intros E. exfalso. revert E. vm_compute. discriminate.
  - intros E. exfalso. revert E. vm_compute. discriminate.
  - intros E. exfalso. revert E. vm_compute. discriminate.
Qed.

Lemma set_vl_correct_witness :
  let h' := snd (@set_vl vector_machine demo_simif no_triggers 1 2 7 0xd0 vector_boot) in
  @vu_ok vector_machine demo_simif no_triggers h' /\
  vill (VU h') = false /\ vsew (VU h') = 32 /\ @vl_read demo_simif no_triggers h' = 4.
Proof.
  pose proof (@set_vl_correct vector_machine demo_simif no_triggers vector_machine_config
    1 2 7 0xd0 vector_boot vector_boot_ok ltac:(done)) as H.
  intros h'. destruct H as (h1 & He & Hok & _).
  assert (h' = h1) as -> by (unfold h'; by rewrite He).
  split; [exact Hok|].
  assert (h1 = snd (@set_vl vector_machine demo_simif no_triggers 1 2 7 0xd0 vector_boot)) as -> by (by rewrite He).
  split; [vm_compute; reflexivity|]. split; vm_compute; reflexivity.
Defined.
