(* ===== verification/VLoopFacts.v ===== *)
(** What the element-wise loops of the vector unit compute: each active element
    of the destination is the operation on the elements of the sources before
    the instruction, even where the groups coincide; nothing else changes. *)

From S2P Require Import Prelude IntArith Decode Encoding IsaExt Trap Hart Pmp Csr CsrFile CsrInit Mmu Macros.
From S2P Require Import Vector VMacros InsnsV HartFacts CsrFacts MmuFacts VectorFacts Machine.

Section loops.
Context `{cfg : !config, sim : !simif, trg : !trigger_module, ctx : !insn_ctx}.
Context (VC : vector_config).

(** * States that differ in the register file *)

Definition same_unit (u u0 : vu_t) : Prop := u = set_reg_file (reg_file u) u0.
Definition byte_at (a : Z) (u : vu_t) : Z := default 0 (reg_file u !! a).
(** [u] is [u0] but for the bytes [lo .. hi). *)
Definition agree (lo hi : Z) (u u0 : vu_t) : Prop := forall a, ~ lo <= a < hi -> byte_at a u = byte_at a u0.

Lemma same_unit_refl u : same_unit u u.
Proof. by destruct u. Qed.
Lemma same_unit_put w r n x u u0 : same_unit u u0 -> same_unit (put_elt w r n x u) u0.
Proof. unfold same_unit. by intros ->. Qed.
Lemma same_unit_fields u u0 : same_unit u u0 ->
  vlmax u = vlmax u0 /\ vsew u = vsew u0 /\ vflmul u = vflmul u0 /\ vill u = vill u0.
Proof. unfold same_unit. by intros ->. Qed.

Lemma get_elt_agree w r n lo hi u u0 :
  agree lo hi u u0 -> flat w r n + w / 8 <= lo \/ hi <= flat w r n ->
  get_elt w r n u = get_elt w r n u0.
Proof.
  intros Ha Hd. unfold get_elt, reg_bytes. f_equal. apply map_ext_in. intros k Hk%zseq_In.
  apply Ha. lia.
Qed.

Lemma agree_put w r n x lo u u0 :
  is_width w -> lo <= flat w r n -> agree lo (flat w r n) u u0 ->
  agree lo (flat w r (n + 1)) (put_elt w r n x u) u0.
Proof.
  intros Hw Hlo Ha a Hn. pose proof (is_width_size w Hw) as [_ Hs].
  assert (flat w r (n + 1) = flat w r n + w / 8) as Hf by (unfold flat; lia). rewrite Hf in Hn.
  unfold byte_at, put_elt, set_reg_bytes. cbn [reg_file set_reg_file].
  rewrite write_bytes_lookup, le_bytes_length, Z2Nat.id by lia.
  replace ((flat w r n <=? a) && (a <? flat w r n + w / 8)) with false by lia. apply Ha. lia.
Qed.

Lemma agree_skip w r n lo u u0 :
  is_width w -> agree lo (flat w r n) u u0 -> agree lo (flat w r (n + 1)) u u0.
Proof.
  intros Hw Ha a Hn. pose proof (is_width_size w Hw) as [_ Hs]. apply Ha. unfold flat in *. lia.
Qed.

Lemma set_VU_id h : set_VU (VU h) h = h.
Proof. by destruct h. Qed.

(** * The loop *)

Lemma for_loop_run (I : Z -> hart -> Prop) body lo hi h :
  lo <= hi -> I lo h ->
  (forall i h, lo <= i < hi -> I i h -> exists h', body i h = (Val tt, h') /\ I (i + 1) h') ->
  exists h', for_loop lo hi body h = (Val tt, h') /\ I hi h'.
Proof.
  intros Hle H0 Hstep. unfold for_loop, for_acc.
  remember (Z.to_nat (hi - lo)) as n eqn:Hn. revert lo h Hle H0 Hstep Hn.
  induction n as [|n IH]; intros lo h Hle H0 Hstep Hn; cbn [loop_from].
  - exists h. split; [done|]. by replace hi with lo by lia.
  - destruct (Hstep lo h ltac:(lia) H0) as (h1 & He & H1). rewrite (bind_val _ _ _ _ _ He).
    apply IH; [lia|done|intros; apply Hstep; [lia|done]|lia].
Qed.

Lemma elementwise_loop (w r n : Z) (act : Z -> bool) (g : Z -> Z) (body : Z -> M unit) u0 h :
  is_width w -> 0 <= n ->
  (forall i u, 0 <= i < n -> same_unit u u0 -> agree (flat w r 0) (flat w r i) u u0 ->
    body i (set_VU u h) = (Val tt, set_VU (if act i then put_elt w r i (g i) u else u) h)) ->
  exists u, for_loop 0 n body (set_VU u0 h) = (Val tt, set_VU u h) /\ same_unit u u0 /\
    agree (flat w r 0) (flat w r n) u u0 /\
    forall j, 0 <= j < n -> get_elt w r j u = if act j then wrap w (g j) else get_elt w r j u0.
Proof.
  intros Hw Hn Hbody. pose proof (is_width_size w Hw) as [_ Hs].
  assert (forall i j, j < i -> flat w r j + w / 8 <= flat w r i) as Hlt by (intros; unfold flat; nia).
  destruct (for_loop_run (fun i h' => exists u, h' = set_VU u h /\ same_unit u u0 /\
      agree (flat w r 0) (flat w r i) u u0 /\
      (forall j, 0 <= j < i -> get_elt w r j u = if act j then wrap w (g j) else get_elt w r j u0))
    body 0 n (set_VU u0 h)) as (h' & He & u & -> & Hinv).
  - done.
  - exists u0. split_and!; [done|apply same_unit_refl|done|lia].
  - intros i _ Hi (u & -> & Hsame & Ha & Hd). rewrite Hbody by done. eexists. split; [done|].
    exists (if act i then put_elt w r i (g i) u else u). split; [done|].
    assert (flat w r 0 <= flat w r i) by (unfold flat; nia).
    destruct (act i) eqn:E.
    + split_and!; [by apply same_unit_put|by apply agree_put|].
      intros j Hj. destruct (Z.eq_dec j i) as [->|].
      * by rewrite get_put_eq, E.
      * rewrite get_put_ne by (done || (right; apply Hlt; lia)). apply Hd. lia.
    + split_and!; [done|by apply agree_skip|]. intros j Hj. destruct (Z.eq_dec j i) as [->|].
      * rewrite E. apply (get_elt_agree w r i _ _ u u0 Ha). right. lia.
      * apply Hd. lia.
  - exists u. split; [done|]. tauto.
Qed.

(** * The checks *)

Record vs_ready (h : hart) : Prop := {
  vr_any : any_vector_extensions = true;
  vr_vs : sstatus_proxy_read h .& SSTATUS_VS = SSTATUS_VS;
  vr_vvs : v h = true -> vsstatus_read h .& SSTATUS_VS = SSTATUS_VS }.

Lemma vs_ready_VU u h : vs_ready h -> vs_ready (set_VU u h).
Proof. intros []. by constructor. Qed.

Lemma vs_enabled h : vs_ready h -> sstatus_enabled h SSTATUS_VS = true.
Proof.
  intros []. unfold sstatus_enabled. rewrite vr_vs0. destruct (v h); [by rewrite vr_vvs0|done].
Qed.

Lemma dirty_vs_noop h : vs_ready h -> dirty_vs_state h = (Val tt, h).
Proof.
  intros []. unfold dirty_vs_state, sstatus_dirty, bind, get_hart. rewrite vr_vs0.
  destruct (v h); [rewrite vr_vvs0 by done|]; by rewrite Z.eqb_refl.
Qed.

Definition illegal_result (h : hart) : outcome unit * hart :=
  (Exc (Trap (trap_illegal_instruction (Insn.bits insn))), h).

Lemma require_vector_vs_run h : vs_ready h -> require_vector_vs h = (Val tt, h).
Proof.
  intros Hr. unfold require_vector_vs, require_state, bind, get_hart, require.
  by rewrite (vr_any h Hr), (vs_enabled h Hr).
Qed.

Lemma require_vector_run h :
  vs_ready h -> vill (VU h) = false -> vstart_read h = 0 -> require_vector true h = (Val tt, h).
Proof.
  intros Hr Hv Hs. unfold require_vector. rewrite (bind_val _ _ _ _ _ (require_vector_vs_run h Hr)).
  unfold require_state, vstart_alu. cbn [andb negb]. unfold bind, get_hart, require.
  unfold ret. rewrite Hv. cbn [negb]. rewrite Hs. cbn [Z.eqb]. apply (dirty_vs_noop h Hr).
Qed.

(** The conditions of [require_vector(true)]. *)
Definition vector_on (h : hart) : bool :=
  any_vector_extensions && sstatus_enabled h SSTATUS_VS && negb (vill (VU h)) && (vstart_read h =? 0).

Lemma require_vector_illegal h :
  vector_on h = false ->
  require_vector true h = illegal_result h.
Proof.
  unfold vector_on. intros Hf. unfold require_vector, require_vector_vs, require_state, vstart_alu, bind, get_hart, require, illegal_insn, throw, raise, ret.
  cbn [andb negb]. destruct (any_vector_extensions && sstatus_enabled h SSTATUS_VS); [|done].
  destruct (vill (VU h)); [done|]. cbn [negb andb] in *. cbv beta iota.
  by destruct (vstart_read h =? 0).
Qed.

Lemma vstart_write_run h : vs_ready h -> vstart_write 0 h = (Val tt, set_csr_raw CSR_VSTART 0 h).
Proof.
  intros Hr. unfold vstart_write, csr_write, vstart_csr. cbn [csr_unlogged_write].
  assert (0 < cfg_VLEN - 1 < 2 ^ 64).
  { destruct VC as [(k & Hk & HV) _ _]. unfold VLEN in HV. rewrite HV.
    assert (2 ^ 5 <= 2 ^ k <= 2 ^ 16) by (split; apply Z.pow_le_mono_r; lia). lia. }
  rewrite wrap_small by lia. destruct (Z.eqb_spec (cfg_VLEN - 1) 0) as [E|E]; [lia|].
  unfold bind. rewrite (dirty_vs_noop h Hr). by rewrite Z.land_0_l.
Qed.

(** *** With [VS] not off *)

Lemma vs_writable : any_vector_extensions = true -> status_field SSTATUS_VS.
Proof.
  intros Ha i Hi Hb. assert (i = 9 \/ i = 10) as Hc.
  { change SSTATUS_VS with (Z.shiftl (Z.ones 2) 9) in Hb. autorewrite with zbits in Hb.
    destruct (Z.lt_ge_cases i 9); [by rewrite tb_neg in Hb by lia|]. rewrite tb_ones in Hb by lia. lia. }
  split; [|lia]. unfold sstatus_write_mask. rewrite Ha.
  autorewrite with zbits. destruct Hc as [-> | ->]; const_bits; btauto.
Qed.

Lemma vs_ready_dirtied h : any_vector_extensions = true -> vs_ready (made_dirty SSTATUS_VS h).
Proof.
  intros Ha. pose proof (made_dirty_dirty SSTATUS_VS h (vs_writable Ha)) as Hd. unfold is_dirty in Hd.
  rewrite andb_true_iff, orb_true_iff, negb_true_iff, !Z.eqb_eq in Hd.
  split; [done|tauto|]. intros Hv. destruct Hd as [_ [E|]]; [congruence|done].
Qed.

Lemma require_vector_dirties h :
  vector_on h = true -> require_vector true h = (Val tt, made_dirty SSTATUS_VS h).
Proof.
  unfold vector_on. rewrite !andb_true_iff. intros [[[Ha He] Hv] Hs].
  unfold require_vector, require_vector_vs, require_state, vstart_alu, bind, get_hart, require.
  rewrite Ha, He. cbn [andb negb]. unfold ret. rewrite Hv, Hs. by apply dirty_run.
Qed.

(** [VI_CHECK_SSS]. *)
Definition sss_ok (is_vs1 : bool) (h : hart) : bool :=
  (negb (Insn.v_vm insn =? 0) || negb (rd_num =? 0)) &&
  (negb (FL <? vflmul (VU h)) ||
   is_aligned rd_num (fl_int (vflmul (VU h))) && is_aligned rs2_num (fl_int (vflmul (VU h))) &&
   (negb is_vs1 || is_aligned rs1_num (fl_int (vflmul (VU h))))).

Lemma VI_CHECK_SSS_run is_vs1 h :
  VI_CHECK_SSS is_vs1 h = if sss_ok is_vs1 h then (Val tt, h) else illegal_result h.
Proof.
  unfold VI_CHECK_SSS, sss_ok, require_vm, get_flmul, require_align, require, illegal_insn, throw, raise, bind, gets, when, ret, illegal_result, rd_num.
  destruct (Insn.v_vm insn =? 0), (Insn.rd insn =? 0); cbn [negb orb andb]; try done;
    destruct (FL <? vflmul (VU h)); cbn [negb orb andb]; try done;
    destruct (is_aligned (Insn.rd insn) _); cbn [andb]; try done;
    destruct (is_aligned rs2_num _); cbn [andb]; try done;
    destruct is_vs1; cbn [negb orb]; try done; by destruct (is_aligned rs1_num _).
Qed.

(** ** The groups the checks leave *)

Lemma VLEN_bytes : VLEN = 8 * vlenb.
Proof.
  unfold vlenb. destruct VC as [(k & Hk & ->) _ _].
  assert (2 ^ k = 2 ^ (k - 3) * 8) as -> by (change 8 with (2 ^ 3); rewrite <- Z.pow_add_r by lia; f_equal; lia).
  rewrite Z.div_mul by lia. lia.
Qed.

Lemma is_aligned_mod r m : 0 <= m -> is_aligned r (2 ^ m) = true -> (r mod (2 ^ m)) = 0.
Proof.
  intros Hm. unfold is_aligned. pose proof (Z.pow_pos_nonneg 2 m ltac:(lia) ltac:(lia)).
  destruct (Z.eqb_spec (2 ^ m) 0); [lia|]. replace (2 ^ m - 1) with (Z.ones m) by (rewrite Z.ones_equiv; lia).
  rewrite Z.land_ones by lia. lia.
Qed.

(** A register that may start a group under the [vflmul] of [u]. *)
Definition starts_group (u : vu_t) (r : Z) : Prop :=
  0 <= r < 32 /\ ((FL <? vflmul u) = true -> is_aligned r (fl_int (vflmul u)) = true).

(** The bytes of a group of [vlmax] elements: whole registers from [LMUL] 1 on. *)
Lemma group_bytes h : vu_ok h -> vill (VU h) = false ->
  exists L, 0 < L /\ vlmax (VU h) * (vsew (VU h) / 8) <= L * vlenb /\
    forall r, starts_group (VU h) r -> exists q, r = L * q /\ 0 <= q /\ L * (q + 1) <= 32.
Proof.
  intros Hok Hv. destruct (ok_sew h Hok Hv) as [Hw _]. destruct (is_width_size _ Hw) as [Hs Hb].
  destruct (ok_lmul h Hok Hv) as (m & Hm & Hl). destruct (ok_vlmax h Hok Hv) as [_ Hx].
  pose proof (vlenb_pos VC) as Hp. rewrite VLEN_bytes, Hs in Hx. set (s := vsew (VU h) / 8) in *. clearbody s.
  change FL with 1024 in *. set (x := vlmax (VU h)) in *. clearbody x. unfold starts_group. rewrite Hl in *.
  assert (x * s * 1024 = vlenb * 2 ^ (10 + m)) as Hx' by lia.
  destruct (Z.le_gt_cases m 0) as [Hm0|Hm0].
  - exists 1. split_and!; [lia| |intros r [Hr _]; exists r; lia].
    assert (2 ^ (10 + m) <= 2 ^ 10) by (apply Z.pow_le_mono_r; lia). change (2 ^ 10) with 1024 in *. nia.
  - exists (2 ^ m). assert (0 < 2 ^ m) by (apply Z.pow_pos_nonneg; lia).
    assert (2 ^ (10 + m) = 1024 * 2 ^ m) as E by (rewrite Z.pow_add_r by lia; done).
    split_and!; [done|nia|]. intros r [Hr Ha]. rewrite E in Ha. unfold fl_int in Ha. change FL with 1024 in Ha.
    rewrite (Z.mul_comm 1024), Z.div_mul in Ha by lia.
    assert (2 ^ 1 <= 2 ^ m) by (apply Z.pow_le_mono_r; lia).
    assert ((r mod (2 ^ m)) = 0) as Hr0 by (apply is_aligned_mod; [lia|apply Ha; lia]).
    exists (r / 2 ^ m). pose proof (Z.div_mod r (2 ^ m) ltac:(lia)). split; [lia|].
    split; [apply Z.div_pos; lia|].
    assert (2 ^ m * 2 ^ (5 - m) = 32) as E5 by (rewrite <- Z.pow_add_r by lia; by replace (m + (5 - m)) with 5 by lia).
    assert (r / 2 ^ m < 2 ^ (5 - m)) by nia. nia.
Qed.

Lemma group_in_file h r i : vu_ok h -> vill (VU h) = false ->
  starts_group (VU h) r -> 0 <= i < vlmax (VU h) -> in_file (vsew (VU h)) r i.
Proof.
  intros Hok Hv Hr Hi. destruct (group_bytes h Hok Hv) as (L & HL & Hb & Hg).
  destruct (Hg r Hr) as (q & -> & Hq & Hq32). pose proof (vlenb_pos VC).
  destruct (ok_sew h Hok Hv) as [Hw _]. destruct (is_width_size _ Hw) as [_ Hs].
  unfold in_file, flat, NVPR. split_and!; [nia|lia|].
  assert ((i + 1) * (vsew (VU h) / 8) <= vlmax (VU h) * (vsew (VU h) / 8)) by (apply Z.mul_le_mono_nonneg_r; lia).
  assert (L * (q + 1) * vlenb <= 32 * vlenb) by (apply Z.mul_le_mono_nonneg_r; lia). lia.
Qed.

(** Two groups are the same or do not meet. *)
Lemma groups_apart h r r' : vu_ok h -> vill (VU h) = false ->
  starts_group (VU h) r -> starts_group (VU h) r' -> r <> r' ->
  let w := vsew (VU h) in
  flat w r (vlmax (VU h)) <= flat w r' 0 \/ flat w r' (vlmax (VU h)) <= flat w r 0.
Proof.
  intros Hok Hv Hr Hr' Hne w. destruct (group_bytes h Hok Hv) as (L & HL & Hb & Hg).
  destruct (Hg r Hr) as (q & -> & Hq & Hq32), (Hg r' Hr') as (q' & -> & Hq' & Hq32').
  pose proof (vlenb_pos VC). unfold flat. subst w. set (g := vlmax (VU h) * (vsew (VU h) / 8)) in *. clearbody g.
  destruct (Z.lt_ge_cases q q').
  - left. assert (L * (q + 1) <= L * q') by (apply Z.mul_le_mono_nonneg_l; lia).
    assert (L * (q + 1) * vlenb <= L * q' * vlenb) by (apply Z.mul_le_mono_nonneg_r; lia). lia.
  - right. assert (q' < q) by (destruct (Z.eq_dec q q') as [->|]; lia).
    assert (L * (q' + 1) <= L * q) by (apply Z.mul_le_mono_nonneg_l; lia).
    assert (L * (q' + 1) * vlenb <= L * q * vlenb) by (apply Z.mul_le_mono_nonneg_r; lia). lia.
Qed.

Lemma vlmax_bound h : vu_ok h -> vill (VU h) = false -> vlmax (VU h) <= 8 * vlenb.
Proof.
  intros Hok Hv. destruct (group_bytes h Hok Hv) as (L & HL & Hb & Hg).
  destruct (ok_sew h Hok Hv) as [Hw _]. destruct (ok_lmul h Hok Hv) as (m & Hm & Hl).
  destruct (ok_vlmax h Hok Hv) as [Hp Hx]. pose proof (vlenb_pos VC). rewrite VLEN_bytes in Hx.
  assert (vflmul (VU h) <= 2 ^ 13) by (rewrite Hl; apply Z.pow_le_mono_r; lia).
  assert (8 <= vsew (VU h)) by (destruct Hw as [->|[->|[->| ->]]]; lia).
  change FL with 1024 in *. change (2 ^ 13) with 8192 in *. nia.
Qed.

(** ** Element-wise semantics *)

Definition mask_at (i : Z) (u : vu_t) : bool := Z.testbit (get_elt 8 0 (i / 8) u) (i mod 8).
(** The elements the instruction operates on: all, or those of the mask in [v0]. *)
Definition active (i : Z) (u : vu_t) : bool := if Insn.v_vm insn =? 0 then mask_at i u else true.

Record vector_ready (h : hart) : Prop := {
  vy_vs : vs_ready h;
  vy_ok : vu_ok h;
  vy_vill : vill (VU h) = false;
  vy_vstart : vstart_read h = 0 }.

Lemma vector_ready_VU u h : same_unit u (VU h) -> vector_ready h -> vector_ready (set_VU u h).
Proof.
  intros (H1 & H2 & H3 & H4)%same_unit_fields [].
  split; [by apply vs_ready_VU| |by cbn [VU set_VU]; rewrite H4|done].
  destruct vy_ok0. split; cbn [VU set_VU]; rewrite ?H1, ?H2, ?H3, ?H4; done.
Qed.

Lemma width8 : is_width 8.
Proof. by left. Qed.

Lemma sew_fits h : vu_ok h -> vill (VU h) = false -> vsew (VU h) <= VLEN.
Proof. intros Hok Hv. destruct (ok_sew h Hok Hv). destruct VC. lia. Qed.

Lemma mask_elt_run i h : vector_ready h -> 0 <= i < 8 * vlenb ->
  mask_elt 0 i h = (Val (mask_at i (VU h)), h).
Proof.
  intros [] Hi. unfold mask_elt. destruct (ok_sew h vy_ok0 vy_vill0) as [Hw _].
  assert (vsew (VU h) <> 0) by (destruct Hw as [->|[->|[->| ->]]]; lia).
  pose proof (sew_fits h vy_ok0 vy_vill0). pose proof (vlenb_pos VC).
  assert (0 <= i / 8 < vlenb) by (split; [apply Z.div_pos; lia|apply Z.div_lt_upper_bound; lia]).
  rewrite (bind_val _ _ _ _ _ (elt_run VC 8 0 (i / 8) h ltac:(done) width8
    ltac:(rewrite VLEN_bytes; lia) ltac:(unfold in_file, flat, NVPR; change (8 / 8) with 1; lia))).
  unfold ret, mask_at. do 2 f_equal. change 1 with (2 ^ 0). rewrite z2b_pow2, Z.shiftr_spec by lia.
  by rewrite Z.add_0_l.
Qed.

Lemma VI_LOOP_elementwise body r g h :
  vector_ready h -> starts_group (VU h) r -> (Insn.v_vm insn = 0 -> r <> 0) ->
  (forall i u, 0 <= i < vl_read h -> same_unit u (VU h) ->
    agree (flat (vsew (VU h)) r 0) (flat (vsew (VU h)) r i) u (VU h) ->
    body (vsew (VU h)) (vl_read h) i (set_VU u h) = (Val tt, set_VU (put_elt (vsew (VU h)) r i (g i) u) h)) ->
  exists u, VI_LOOP body h = (Val tt, set_csr_raw CSR_VSTART 0 (set_VU u h)) /\ same_unit u (VU h) /\
    agree (flat (vsew (VU h)) r 0) (flat (vsew (VU h)) r (vl_read h)) u (VU h) /\
    forall j, 0 <= j < vl_read h -> get_elt (vsew (VU h)) r j u =
      if active j (VU h) then wrap (vsew (VU h)) (g j) else get_elt (vsew (VU h)) r j (VU h).
Proof.
  intros Hy Hr Hr0 Hbody. pose proof Hy as [Hvs Hok Hvill Hstart].
  destruct (ok_sew h Hok Hvill) as [Hw _]. pose proof (ok_vl h Hok). pose proof (vlmax_bound h Hok Hvill).
  pose proof (vlenb_pos VC).
  set (w := vsew (VU h)) in *. set (vl := vl_read h) in *.
  destruct (elementwise_loop w r vl (fun i => active i (VU h)) g
    (fun i => VI_LOOP_ELEMENT_SKIP i tt (body w vl i)) (VU h) h Hw ltac:(lia)) as (u & He & Hsame & Ha & Hd).
  { intros i u Hi Hsame Ha. unfold VI_LOOP_ELEMENT_SKIP, active.
    destruct (Z.eqb_spec (Insn.v_vm insn) 0) as [Hvm|Hvm]; [|by apply Hbody].
    rewrite (bind_val _ _ _ _ _ (mask_elt_run i _ (vector_ready_VU u h Hsame Hy) ltac:(lia))).
    assert (mask_at i (VU (set_VU u h)) = mask_at i (VU h)) as ->.
    { cbn [VU set_VU]. unfold mask_at. f_equal. apply (get_elt_agree _ _ _ _ _ _ _ Ha). left.
      destruct Hr as [Hr _]. specialize (Hr0 Hvm).
      assert (i / 8 < vlenb) by (apply Z.div_lt_upper_bound; lia).
      unfold flat. change (8 / 8) with 1. nia. }
    destruct (mask_at i (VU h)); [by apply Hbody|done]. }
  rewrite set_VU_id in He. exists u. split; [|done].
  unfold VI_LOOP, VI_GENERAL_LOOP, VI_GENERAL_LOOP_ACC, get_sew, get_vl, get_vstart.
  rewrite bind_assoc, bind_gets. fold w.
  assert ((e8 <=? w) && (w <=? e64) = true) as -> by (destruct Hw as [->|[->|[->| ->]]]; done).
  cbn [require]. rewrite !bind_assoc, bind_ret, bind_assoc, (bind_val _ _ _ _ _ (require_vector_run h Hvs Hvill Hstart)).
  rewrite bind_assoc, bind_gets, bind_assoc, bind_gets, Hstart. fold vl.
  change (for_acc 0 vl tt _) with (for_loop 0 vl (fun i => VI_LOOP_ELEMENT_SKIP i tt (body w vl i))).
  rewrite (bind_val _ _ _ _ _ He). apply vstart_write_run. by apply vs_ready_VU.
Qed.

(** * The integer arithmetic instructions *)

(** The first operand: [vs1], [rs1] or an immediate. *)
Inductive first_operand : Type := Vs1 | Rs1 | Imm.

Definition operands_of (k : first_operand) : bool -> bool -> bool -> Z -> Z -> (Z -> Z -> Z -> M Z) -> M unit :=
  match k with Vs1 => VV_operands | Rs1 => VX_operands | Imm => VI_operands end.
Definition is_vs1 (k : first_operand) : bool := match k with Vs1 => true | _ => false end.

(** The value of an element of [w] bits as an operand, signed or not. *)
Definition operand (signed : bool) (w x : Z) : Z := if signed then swrap w x else x.
Definition first_at (k : first_operand) (signed : bool) (w j : Z) (h : hart) : Z :=
  match k with
  | Vs1 => operand signed w (get_elt w rs1_num j (VU h))
  | Rs1 => cast signed w (regfile_read 0 (XPR h) rs1_num)
  | Imm => if signed then swrap w (Insn.v_simm5 insn) else wrap w (Insn.v_zimm5 insn)
  end.

Lemma elt_t_run s w r n h :
  vsew (VU h) <> 0 -> is_width w -> w <= VLEN -> in_file w r n ->
  elt_t s w r n h = (Val (operand s w (get_elt w r n (VU h))), h).
Proof.
  intros. unfold elt_t, elt_s. destruct s; [|by apply elt_run].
  by rewrite (bind_val _ _ _ _ _ (elt_run VC w r n h ltac:(done) ltac:(done) ltac:(done) ltac:(done))).
Qed.

Lemma reg_range : 0 <= rd_num < 32 /\ 0 <= rs1_num < 32 /\ 0 <= rs2_num < 32.
Proof. unfold rd_num, rs1_num, rs2_num, Insn.rd, Insn.rs1, Insn.rs2. split_and!; apply (x_range _ _ 5); lia. Qed.

Lemma sss_groups b h : sss_ok b h = true ->
  starts_group (VU h) rd_num /\ starts_group (VU h) rs2_num /\ (b = true -> starts_group (VU h) rs1_num) /\
  (Insn.v_vm insn = 0 -> rd_num <> 0).
Proof.
  unfold sss_ok. intros [H1 H2]%andb_true_iff. pose proof reg_range.
  assert ((FL <? vflmul (VU h)) = true ->
    is_aligned rd_num (fl_int (vflmul (VU h))) = true /\ is_aligned rs2_num (fl_int (vflmul (VU h))) = true /\
    (b = true -> is_aligned rs1_num (fl_int (vflmul (VU h))) = true)) as H3.
  { intros E. rewrite E in H2. cbn [negb orb] in H2. rewrite !andb_true_iff in H2.
    destruct H2 as [[Ha Hb] Hc]. split_and!; try done. by intros ->. }
  unfold starts_group. split_and!; try tauto.
  intros E1 E2. by rewrite E1, E2 in H1.
Qed.

Definition rs1_readable (k : first_operand) : Prop := k = Rs1 -> rve = true -> rs1_num < 16.

Lemma RS1_run k h : k = Rs1 -> rs1_readable k -> RS1 h = (Val (regfile_read 0 (XPR h) rs1_num), h).
Proof.
  intros Hk Hr. unfold RS1, READ_REG, CHECK_REG. specialize (Hr Hk).
  destruct rve; [|done]. unfold require. fold rs1_num. by replace (rs1_num <? 16) with true by (specialize (Hr eq_refl); lia).
Qed.

Lemma operands_run k sd s1 s2 i f h :
  vector_ready h -> sss_ok (is_vs1 k) h = true -> rs1_readable k ->
  0 <= i < vl_read h ->
  let w := vsew (VU h) in
  operands_of k sd s1 s2 w i (fun vd a vs2 => ret (f vd a vs2)) h =
  (Val tt, set_VU (put_elt w rd_num i
     (f (operand sd w (get_elt w rd_num i (VU h))) (first_at k s1 w i h)
        (operand s2 w (get_elt w rs2_num i (VU h)))) (VU h)) h).
Proof.
  intros [Hvs Hok Hvill _] Hsss Hrs1 Hi w. destruct (sss_groups _ _ Hsss) as (Hd & H2 & H1 & _).
  destruct (ok_sew h Hok Hvill) as [Hw _]. pose proof (ok_vl h Hok). pose proof (sew_fits h Hok Hvill).
  assert (vsew (VU h) <> 0) by (destruct Hw as [->|[->|[->| ->]]]; lia).
  assert (forall r, starts_group (VU h) r -> in_file w r i) as Hin by (intros; apply group_in_file; (done || lia)).
  destruct k; cbn [operands_of first_at is_vs1] in *; unfold VV_operands, VX_operands, VI_operands;
    rewrite (bind_val _ _ _ _ _ (elt_t_run sd w rd_num i h ltac:(done) Hw ltac:(done) (Hin _ Hd))).
  - rewrite (bind_val _ _ _ _ _ (elt_t_run s1 w rs1_num i h ltac:(done) Hw ltac:(done) (Hin _ (H1 eq_refl)))).
    rewrite (bind_val _ _ _ _ _ (elt_t_run s2 w rs2_num i h ltac:(done) Hw ltac:(done) (Hin _ H2))), bind_ret.
    by apply set_elt_run; [|done|exact Hw|done|apply Hin].
  - rewrite (bind_val _ _ _ _ _ (RS1_run Rs1 h eq_refl Hrs1)).
    rewrite (bind_val _ _ _ _ _ (elt_t_run s2 w rs2_num i h ltac:(done) Hw ltac:(done) (Hin _ H2))), bind_ret.
    by apply set_elt_run; [|done|exact Hw|done|apply Hin].
  - rewrite (bind_val _ _ _ _ _ (elt_t_run s2 w rs2_num i h ltac:(done) Hw ltac:(done) (Hin _ H2))), bind_ret.
    by apply set_elt_run; [|done|exact Hw|done|apply Hin].
Qed.

(** An instruction: its first operand, whether the destination, the first operand
    and [vs2] are signed, and the operation, of the width, the old destination,
    the first operand and [vs2]. *)
Record varith : Type := mk_varith {
  va_insn : M unit;
  va_first : first_operand;
  va_sd : bool;
  va_s1 : bool;
  va_s2 : bool;
  va_op : Z -> Z -> Z -> Z -> Z }.

(** Signed division rounds towards zero; by zero it gives -1, and the dividend as the
    remainder.  The overflow needs no case: its quotient is the dividend after truncation. *)
Definition vdiv_spec (_ _ a b : Z) : Z := if a =? 0 then -1 else Z.quot b a.
Definition vrem_spec (_ _ a b : Z) : Z := if a =? 0 then b else Z.rem b a.

(** The single-width integer arithmetic of the base vector extension: addition and
    subtraction, logic, shifts, minimum and maximum, multiplication, division,
    multiply-add. *)
Definition arith_v : list varith := [
   mk_varith insn_vadd_vv Vs1 true true true (fun _ _ a b => a + b);
   mk_varith insn_vadd_vx Rs1 true true true (fun _ _ a b => a + b);
   mk_varith insn_vadd_vi Imm true true true (fun _ _ a b => a + b);
   mk_varith insn_vsub_vv Vs1 true true true (fun _ _ a b => b - a);
   mk_varith insn_vsub_vx Rs1 true true true (fun _ _ a b => b - a);
   mk_varith insn_vrsub_vx Rs1 true true true (fun _ _ a b => a - b);
   mk_varith insn_vrsub_vi Imm true true true (fun _ _ a b => a - b);
   mk_varith insn_vand_vv Vs1 true true true (fun _ _ a b => a .& b);
   mk_varith insn_vand_vx Rs1 true true true (fun _ _ a b => a .& b);
   mk_varith insn_vand_vi Imm true true true (fun _ _ a b => a .& b);
   mk_varith insn_vor_vv Vs1 true true true (fun _ _ a b => a .| b);
   mk_varith insn_vor_vx Rs1 true true true (fun _ _ a b => a .| b);
   mk_varith insn_vor_vi Imm true true true (fun _ _ a b => a .| b);
   mk_varith insn_vxor_vv Vs1 true true true (fun _ _ a b => a .^ b);
   mk_varith insn_vxor_vx Rs1 true true true (fun _ _ a b => a .^ b);
   mk_varith insn_vxor_vi Imm true true true (fun _ _ a b => a .^ b);
   mk_varith insn_vsll_vv Vs1 false false false (fun w _ a b => Z.shiftl b (a .& (w - 1)));
   mk_varith insn_vsll_vx Rs1 false false false (fun w _ a b => Z.shiftl b (a .& (w - 1)));
   mk_varith insn_vsll_vi Imm false false false (fun w _ a b => Z.shiftl b (a .& (w - 1)));
   mk_varith insn_vsrl_vv Vs1 false false false (fun w _ a b => Z.shiftr b (a .& (w - 1)));
   mk_varith insn_vsrl_vx Rs1 false false false (fun w _ a b => Z.shiftr b (a .& (w - 1)));
   mk_varith insn_vsrl_vi Imm false false false (fun w _ a b => Z.shiftr b (a .& (w - 1)));
   mk_varith insn_vsra_vv Vs1 true true true (fun w _ a b => Z.shiftr b (a .& (w - 1)));
   mk_varith insn_vsra_vi Imm true true true (fun w _ _ b => Z.shiftr b (Insn.v_zimm5 insn .& (w - 1)));
   mk_varith insn_vsra_vx Rs1 true true true (fun w _ a b => Z.shiftr b (a .& (w - 1)));
   mk_varith insn_vmul_vv Vs1 true true true (fun _ _ a b => b * a);
   mk_varith insn_vmul_vx Rs1 true true true (fun _ _ a b => b * a);
   mk_varith insn_vmulh_vv Vs1 true true true (fun w _ a b => Z.shiftr (b * a) w);
   mk_varith insn_vmulh_vx Rs1 true true true (fun w _ a b => Z.shiftr (b * a) w);
   mk_varith insn_vmulhu_vv Vs1 false false false (fun w _ a b => Z.shiftr (b * a) w);
   mk_varith insn_vmulhu_vx Rs1 false false false (fun w _ a b => Z.shiftr (b * a) w);
   mk_varith insn_vmulhsu_vv Vs1 true false true (fun w _ a b => Z.shiftr (b * a) w);
   mk_varith insn_vmulhsu_vx Rs1 true false true (fun w _ a b => Z.shiftr (b * a) w);
   mk_varith insn_vdivu_vv Vs1 false false false (fun _ _ a b => if a =? 0 then -1 else b / a);
   mk_varith insn_vdivu_vx Rs1 false false false (fun _ _ a b => if a =? 0 then -1 else b / a);
   mk_varith insn_vremu_vv Vs1 false false false (fun _ _ a b => if a =? 0 then b else b mod a);
   mk_varith insn_vremu_vx Rs1 false false false (fun _ _ a b => if a =? 0 then b else b mod a);
   mk_varith insn_vdiv_vv Vs1 true true true vdiv_spec;
   mk_varith insn_vdiv_vx Rs1 true true true vdiv_spec;
   mk_varith insn_vrem_vv Vs1 true true true vrem_spec;
   mk_varith insn_vrem_vx Rs1 true true true vrem_spec;
   mk_varith insn_vmin_vv Vs1 true true true (fun _ _ a b => if a <=? b then a else b);
   mk_varith insn_vmin_vx Rs1 true true true (fun _ _ a b => if a <=? b then a else b);
   mk_varith insn_vmax_vv Vs1 true true true (fun _ _ a b => if b <=? a then a else b);
   mk_varith insn_vmax_vx Rs1 true true true (fun _ _ a b => if b <=? a then a else b);
   mk_varith insn_vminu_vv Vs1 false false false (fun _ _ a b => if a <=? b then a else b);
   mk_varith insn_vminu_vx Rs1 false false false (fun _ _ a b => if a <=? b then a else b);
   mk_varith insn_vmaxu_vv Vs1 false false false (fun _ _ a b => if b <=? a then a else b);
   mk_varith insn_vmaxu_vx Rs1 false false false (fun _ _ a b => if b <=? a then a else b);
   mk_varith insn_vmacc_vv Vs1 true true true (fun _ d a b => a * b + d);
   mk_varith insn_vmacc_vx Rs1 true true true (fun _ d a b => a * b + d);
   mk_varith insn_vmadd_vv Vs1 true true true (fun _ d a b => d * a + b);
   mk_varith insn_vmadd_vx Rs1 true true true (fun _ d a b => d * a + b);
   mk_varith insn_vnmsac_vv Vs1 true true true (fun _ d a b => - (a * b) + d);
   mk_varith insn_vnmsac_vx Rs1 true true true (fun _ d a b => - (a * b) + d);
   mk_varith insn_vnmsub_vv Vs1 true true true (fun _ d a b => - (d * a) + b);
   mk_varith insn_vnmsub_vx Rs1 true true true (fun _ d a b => - (d * a) + b)].

(** The conditions under which such an instruction is legal. *)
Definition arith_legal (k : first_operand) (h : hart) : bool :=
  sss_ok (is_vs1 k) h && vector_on h.

(** The loop an instruction runs with the operation [f]. *)
Definition arith_loop (a : varith) (f : Z -> Z -> Z -> Z -> Z) : M unit :=
  VI_CHECK_SSS (is_vs1 (va_first a)) ;;
  VI_LOOP (fun sew _ i => operands_of (va_first a) (va_sd a) (va_s1 a) (va_s2 a) sew i
    (fun vd x vs2 => ret (f sew vd x vs2))).

Lemma vdiv_truncated w d a b : is_width w ->
  wrap w (if a =? 0 then -1
    else if (b =? Z.shiftr INT64_MIN (64 - w)) && (a =? -1) then b else Z.quot b a) = wrap w (vdiv_spec w d a b).
Proof.
  intros Hw. unfold vdiv_spec. destruct (a =? 0); [done|].
  destruct (Z.eqb_spec b (Z.shiftr INT64_MIN (64 - w))) as [->|], (Z.eqb_spec a (-1)) as [->|]; cbn [andb]; try done.
  by destruct Hw as [->|[->|[->| ->]]].
Qed.

Lemma vrem_truncated w d a b : is_width w ->
  wrap w (if a =? 0 then b
    else if (b =? - Z.shiftl 1 (w - 1)) && (a =? -1) then 0 else Z.rem b a) = wrap w (vrem_spec w d a b).
Proof.
  intros Hw. unfold vrem_spec. destruct (a =? 0); [done|].
  destruct (Z.eqb_spec b (- Z.shiftl 1 (w - 1))) as [->|], (Z.eqb_spec a (-1)) as [->|]; cbn [andb]; try done.
  by destruct Hw as [->|[->|[->| ->]]].
Qed.

Lemma arith_v_loop a : In a arith_v -> exists f, va_insn a = arith_loop a f /\
  forall w d x b, is_width w -> wrap w (f w d x b) = wrap w (va_op a w d x b).
Proof.
  intros Hin. revert a Hin. apply List.Forall_forall. unfold arith_v.
  repeat (apply List.Forall_cons; [eexists; split;
    [exact eq_refl|intros; first [reflexivity|by apply vdiv_truncated|by apply vrem_truncated]]|]).
  constructor.
Qed.

Lemma source_unchanged h r i u :
  vu_ok h -> vill (VU h) = false -> starts_group (VU h) rd_num -> starts_group (VU h) r ->
  0 <= i < vlmax (VU h) ->
  agree (flat (vsew (VU h)) rd_num 0) (flat (vsew (VU h)) rd_num i) u (VU h) ->
  get_elt (vsew (VU h)) r i u = get_elt (vsew (VU h)) r i (VU h).
Proof.
  intros Hok Hv Hd Hr Hi Ha. apply (get_elt_agree _ _ _ _ _ _ _ Ha).
  destruct (ok_sew h Hok Hv) as [Hw _]. destruct (is_width_size _ Hw) as [_ Hs].
  destruct (Z.eq_dec rd_num r) as [<-|Hne]; [right; lia|].
  destruct (groups_apart h rd_num r Hok Hv Hd Hr Hne) as [Hx|Hx]; unfold flat in *; [right|left]; nia.
Qed.

Lemma VI_LOOP_illegal body h : vector_on h = false -> VI_LOOP body h = illegal_result h.
Proof.
  intros Hf. unfold VI_LOOP, VI_GENERAL_LOOP, VI_GENERAL_LOOP_ACC, get_sew.
  rewrite bind_assoc, bind_gets. unfold require at 1.
  destruct ((e8 <=? vsew (VU h)) && (vsew (VU h) <=? e64)); [|done].
  rewrite bind_assoc, bind_ret, bind_assoc. unfold bind at 1. by rewrite require_vector_illegal.
Qed.

Lemma VU_dirtied h : VU (made_dirty SSTATUS_VS h) = VU h.
Proof. apply (made_dirty_frame SSTATUS_VS h). Qed.
Lemma csr_dirtied h a : a <> CSR_MSTATUS -> a <> CSR_VSSTATUS -> csr_raw (made_dirty SSTATUS_VS h) a = csr_raw h a.
Proof. apply (made_dirty_frame SSTATUS_VS h). Qed.

(** The first thing a loop does is to make [VS] dirty. *)
Lemma VI_LOOP_dirtied body h :
  vu_ok h -> vector_on h = true -> VI_LOOP body h = VI_LOOP body (made_dirty SSTATUS_VS h).
Proof.
  intros Hok Hf. pose proof Hf as Ha. unfold vector_on in Ha. rewrite !andb_true_iff, negb_true_iff, Z.eqb_eq in Ha.
  destruct Ha as [[[Ha _] Hv] Hs]. destruct (ok_sew h Hok Hv) as [Hw _].
  unfold VI_LOOP, VI_GENERAL_LOOP, VI_GENERAL_LOOP_ACC, get_sew.
  rewrite !bind_assoc, !bind_gets, VU_dirtied.
  assert ((e8 <=? vsew (VU h)) && (vsew (VU h) <=? e64) = true) as -> by (destruct Hw as [->|[->|[->| ->]]]; done).
  cbn [require]. rewrite !bind_assoc, !bind_ret, !bind_assoc.
  rewrite (bind_val _ _ _ _ _ (require_vector_dirties h Hf)).
  rewrite (bind_val _ _ _ _ _ (require_vector_run _ (vs_ready_dirtied h Ha) ltac:(by rewrite VU_dirtied)
    ltac:(unfold vstart_read; by rewrite csr_dirtied))).
  done.
Qed.

Lemma vector_ready_dirtied h : vu_ok h -> vector_on h = true -> vector_ready (made_dirty SSTATUS_VS h).
Proof.
  intros [] Hf. unfold vector_on in Hf. rewrite !andb_true_iff, negb_true_iff, Z.eqb_eq in Hf.
  destruct Hf as [[[Ha _] Hv] Hs].
  split; [by apply vs_ready_dirtied| |by rewrite VU_dirtied|unfold vstart_read; by rewrite csr_dirtied].
  split; unfold vl_read; rewrite ?VU_dirtied, ?csr_dirtied by done; done.
Qed.

(** The instructions once [VS] is dirty. *)
Lemma arith_loop_ready a f h :
  vector_ready h -> sss_ok (is_vs1 (va_first a)) h = true -> rs1_readable (va_first a) ->
  let w := vsew (VU h) in
  exists u, arith_loop a f h = (Val tt, set_csr_raw CSR_VSTART 0 (set_VU u h)) /\
    same_unit u (VU h) /\
    (forall j, 0 <= j < vl_read h -> get_elt w rd_num j u =
      if active j (VU h) then
        wrap w (f w (operand (va_sd a) w (get_elt w rd_num j (VU h))) (first_at (va_first a) (va_s1 a) w j h)
                  (operand (va_s2 a) w (get_elt w rs2_num j (VU h))))
      else get_elt w rd_num j (VU h)) /\
    (forall b, ~ flat w rd_num 0 <= b < flat w rd_num (vl_read h) -> byte_at b u = byte_at b (VU h)).
Proof.
  intros Hy Hsss Hrs1 w. pose proof Hy as [Hvs Hok Hvill _].
  destruct (sss_groups _ _ Hsss) as (Hd & H2 & H1 & Hm). pose proof (ok_vl h Hok).
  unfold arith_loop. rewrite (bind_val _ _ h tt h) by (by rewrite VI_CHECK_SSS_run, Hsss).
  destruct (VI_LOOP_elementwise (fun sew _ i => operands_of (va_first a) (va_sd a) (va_s1 a) (va_s2 a) sew i
      (fun vd x vs2 => ret (f sew vd x vs2))) rd_num
    (fun i => f w (operand (va_sd a) w (get_elt w rd_num i (VU h))) (first_at (va_first a) (va_s1 a) w i h)
       (operand (va_s2 a) w (get_elt w rs2_num i (VU h)))) h Hy Hd Hm) as (u & He & Hs & Ha & Hj).
  2: { exists u. tauto. }
  intros i u Hi Hsame Ha. pose proof (same_unit_fields _ _ Hsame) as (E1 & E2 & E3 & E4).
  assert (Hsrc : forall r, starts_group (VU h) r -> get_elt w r i u = get_elt w r i (VU h))
    by (intros r Hr; apply source_unchanged; try done; lia).
  assert (Hfirst : first_at (va_first a) (va_s1 a) w i (set_VU u h) = first_at (va_first a) (va_s1 a) w i h).
  { unfold first_at. destruct (va_first a); [|done..]. cbn [VU set_VU]. by rewrite Hsrc by (by apply H1). }
  pose proof (operands_run (va_first a) (va_sd a) (va_s1 a) (va_s2 a) i (f w) (set_VU u h)
    (vector_ready_VU u h Hsame Hy)) as Hrun.
  cbn [VU set_VU] in Hrun. rewrite E2 in Hrun. fold w in Hrun |- *. rewrite Hrun, Hfirst, !Hsrc; try done.
  unfold sss_ok in *. cbn [VU set_VU]. by rewrite E3.
Qed.

Lemma first_dirtied k s w j h : first_at k s w j (made_dirty SSTATUS_VS h) = first_at k s w j h.
Proof.
  unfold first_at. rewrite VU_dirtied. destruct k; [done| |done].
  by rewrite (proj1 (made_dirty_frame SSTATUS_VS h)).
Qed.

(** C5. The single-width integer arithmetic instructions of the vector extension
    (addition and subtraction, logic, shifts, minimum and maximum, multiplication,
    division and remainder, multiply-add), in their vector-vector, vector-scalar and
    vector-immediate forms: each active element
    of the destination becomes the operation on the elements its operands had
    before the instruction, truncated to [SEW], even when the destination is one
    of the sources; inactive elements, the tail and every other register
    keep their values, [VS] is dirty and [vstart] is 0 after, and nothing else changes.
    The instruction is illegal, and changes nothing, exactly with the unit off, under
    [vill], from a non-zero [vstart], on misaligned groups, and when it is masked
    and overwrites the mask; on the E base a scalar operand is one of the registers there are. *)
Theorem vector_arith a h :
  In a arith_v ->
  (arith_legal (va_first a) h = false -> va_insn a h = illegal_result h) /\
  (arith_legal (va_first a) h = true -> vu_ok h -> rs1_readable (va_first a) ->
    let w := vsew (VU h) in
    exists u, va_insn a h = (Val tt, set_csr_raw CSR_VSTART 0 (set_VU u (made_dirty SSTATUS_VS h))) /\
      is_dirty SSTATUS_VS (made_dirty SSTATUS_VS h) = true /\
      same_unit u (VU h) /\
      (forall j, 0 <= j < vl_read h -> get_elt w rd_num j u =
        if active j (VU h) then
          wrap w (va_op a w (operand (va_sd a) w (get_elt w rd_num j (VU h))) (first_at (va_first a) (va_s1 a) w j h)
                    (operand (va_s2 a) w (get_elt w rs2_num j (VU h))))
        else get_elt w rd_num j (VU h)) /\
      (forall b, ~ flat w rd_num 0 <= b < flat w rd_num (vl_read h) -> byte_at b u = byte_at b (VU h))).
Proof.
  intros Hin. destruct (arith_v_loop a Hin) as (f & -> & Hf). split.
  - unfold arith_legal. intros Hl. unfold arith_loop, bind. rewrite VI_CHECK_SSS_run.
    destruct (sss_ok _ h); [|done]. cbn [andb] in Hl. by rewrite VI_LOOP_illegal.
  - intros Hl Hok Hrs1 w. apply andb_true_iff in Hl as [Hsss Hon]. set (h1 := made_dirty SSTATUS_VS h).
    pose proof (vector_ready_dirtied h Hok Hon) as Hy. fold h1 in Hy.
    assert (Hsss1 : sss_ok (is_vs1 (va_first a)) h1 = true) by (unfold sss_ok, h1; by rewrite VU_dirtied).
    destruct (arith_loop_ready a f h1 Hy Hsss1 Hrs1) as (u & He & Hs & Hj & Hb).
    unfold vl_read in *. subst h1. rewrite VU_dirtied, csr_dirtied in * by done.
    assert (Hw : is_width w).
    { apply (ok_sew h Hok). unfold vector_on in Hon. rewrite !andb_true_iff, negb_true_iff in Hon. tauto. }
    exists u. split; [|split; [|split; [done|split; [|done]]]].
    + rewrite <- He. unfold arith_loop. rewrite !(bind_val (VI_CHECK_SSS _) _ _ tt _)
        by (rewrite VI_CHECK_SSS_run; by rewrite ?Hsss1, ?Hsss).
      by apply VI_LOOP_dirtied.
    + apply made_dirty_dirty, vs_writable. unfold vector_on in Hon. rewrite !andb_true_iff in Hon. tauto.
    + intros j Hr. rewrite Hj by done. destruct (active j (VU h)); [|done].
      by rewrite first_dirtied, Hf.
Qed.

End loops.

(** [vmacc.vv v1, v2, v3] with [v1] = (10, 20, 30, 40), [v2] = (1, 2, 3, 4)
    and [v3] = (5, 6, 7, -1), with [VS] initial. *)
Definition vmacc_ctx : insn_ctx := {| insn := 0xb63120d7; insn_pc := 0; rve := false |}.
Definition put_words (r : Z) (l : list Z) (u : vu_t) : vu_t :=
  fold_left (fun u '(i, x) => @put_elt vector_machine 32 r i x u) (zip (seqZ 0 (Z.of_nat (length l))) l) u.
Definition vector_operands : @hart demo_simif no_triggers :=
  set_VU (put_words 1 [10; 20; 30; 40] (put_words 2 [1; 2; 3; 4] (put_words 3 [5; 6; 7; -1] (VU vector64))))
    (@mstatus_write vector_machine demo_simif no_triggers 0x200 vector64).

Definition vmacc_vv : @varith demo_simif no_triggers :=
  mk_varith (@insn_vmacc_vv vector_machine demo_simif no_triggers vmacc_ctx) Vs1 true true true (fun _ d x y => x * y + d).

Lemma vmacc_arith : In vmacc_vv (@arith_v vector_machine demo_simif no_triggers vmacc_ctx).
Proof. unfold arith_v, vmacc_vv. repeat (left; reflexivity) || right. Qed.

Lemma vector_operands_ok : @vu_ok vector_machine demo_simif no_triggers vector_operands.
Proof.
  split; try (vm_compute; reflexivity).
  - split; vm_compute; discriminate.
  - intros E. exfalso. revert E. vm_compute. discriminate.
  - intros _. split; [right; right; left; vm_compute; reflexivity|vm_compute; discriminate].
  - intros _. exists 0. split; [lia|vm_compute; reflexivity].
  - intros _. split; vm_compute; reflexivity.
Qed.

Lemma run_state `{simif, trigger_module} (m : M unit) h r h' : m h = (r, h') -> snd (m h) = h'.
Proof. by intros ->. Qed.
Lemma pc_done `{simif, trigger_module} u h : pc (set_csr_raw CSR_VSTART 0 (set_VU u h)) = pc h.
Proof. done. Qed.
Lemma VU_done `{simif, trigger_module} u h : VU (set_csr_raw CSR_VSTART 0 (set_VU u h)) = u.
Proof. done. Qed.

Lemma vector_arith_witness :
  let h' := snd (va_insn vmacc_vv vector_operands) in
  pc h' = pc vector_operands /\ map (fun j => @get_elt vector_machine 32 1 j (VU h')) [0; 1; 2; 3] = [15; 32; 51; 36].
Proof.
  destruct (proj2 (@vector_arith vector_machine demo_simif no_triggers vmacc_ctx vector_machine_config
      vmacc_vv vector_operands vmacc_arith)
    ltac:(vm_compute; reflexivity) vector_operands_ok ltac:(intros E; discriminate E)) as (u & He & _ & _ & Hj & _).
  assert (@vl_read demo_simif no_triggers vector_operands = 4) as E4 by (vm_compute; reflexivity).
  assert (vsew (VU vector_operands) = 32) as E32 by (vm_compute; reflexivity).
  assert (@rd_num vmacc_ctx = 1) as E1 by (vm_compute; reflexivity).
  rewrite E4, E32, E1 in Hj.
  intros h'. pose proof (run_state _ _ _ _ He : h' = _) as E.
  rewrite E, pc_done, VU_done. cbn [map]. split; [vm_compute; reflexivity|].
  rewrite !Hj by lia.
  vm_compute. reflexivity.
Defined.
