(* ===== verification/IsaParserFacts.v ===== *)
(** The parser of ISA strings: what it accepts is consistent, the order of the
    names does not matter, and where it reads behind its string. *)

From stdpp Require Import strings.
From S2P Require Import Prelude IsaExt Hart Vector VectorFacts Machine IsaParser.
Local Open Scope isa_scope.

(** * Bits of the extension table *)

Definition bit_of (e : Z) : Z := Z.shiftl 1 e.
Definition mask_of (es : list Z) : Z := fold_left (fun m e => m .| bit_of e) es 0.

Lemma put_lor e i : put e true i = set_table (extension_table i .| bit_of e) i.
Proof. unfold put, bitset_set, Z.setbit, bit_of. done. Qed.

Lemma fold_lor es m : fold_left (fun m e => m .| bit_of e) es m = m .| mask_of es.
Proof.
  unfold mask_of. revert m. induction es as [|e es IH]; intros m; cbn [fold_left]; [by rewrite Z.lor_0_r|].
  by rewrite (IH (m .| _)), (IH (0 .| _)), Z.lor_0_l, Z.lor_assoc.
Qed.

Lemma enable_mask es i : enable es i = set_table (extension_table i .| mask_of es) i.
Proof.
  rewrite <- fold_lor. unfold enable. revert i. induction es as [|e es IH]; intros i; cbn; [by destruct i|].
  rewrite IH, put_lor. by destruct i.
Qed.

Lemma has_set_table x i e : has e (set_table x i) = Z.testbit x e.
Proof. done. Qed.

Lemma has_put a b e i : 0 <= e -> 0 <= a -> has e (put a b i) = if e =? a then b else has e i.
Proof.
  intros He Ha. unfold has, put, bitset_test, bitset_set. cbn. destruct (Z.eqb_spec e a) as [->|N], b.
  - by rewrite Z.setbit_eq.
  - by rewrite Z.clearbit_eq.
  - rewrite Z.setbit_neq by lia. done.
  - rewrite Z.clearbit_neq by lia. done.
Qed.

(** * What a name does *)

(** A name adds to the table, to the vector parameters and to the set of custom
    extensions, or is an error.  What it adds depends on the name, the width and
    [F] only, and none adds [F]: that is why the order does not matter. *)
Record effect : Type := mk_effect {
  ef_mask : Z; ef_vlen : Z; ef_elen : Z; ef_zvf : bool; ef_zvd : bool; ef_ext : gset string }.

Definition bits (m : Z) : effect := mk_effect m 0 0 false false ∅.
Definition apply (e : effect) (i : isa_parser_t) : isa_parser_t :=
  mk_isa (isa_max_xlen i) (isa_max_isa i) (Z.max (isa_vlen i) (ef_vlen e)) (Z.max (isa_elen i) (ef_elen e))
    (isa_zvf i || ef_zvf e) (isa_zvd i || ef_zvd e) (extension_table i .| ef_mask e) (isa_string i)
    (ef_ext e ∪ extensions i).

Definition number (ext : string) : Z := default 0 (safe_stoul (strtake (String.length ext - 4) (strdrop 3 ext))).

Definition effect_of (ext : string) (xlen : Z) (f : bool) : option effect :=
  if String.eqb ext "zfh" || String.eqb ext "zfhmin" then
    if f then Some (bits (mask_of (EXT_ZFHMIN :: if String.eqb ext "zfh" then [EXT_ZFH] else []))) else None
  else if String.eqb ext "zce" then
    Some (bits (mask_of ([EXT_ZCA; EXT_ZCB; EXT_ZCMT; EXT_ZCMP] ++ if f && (xlen =? 32) then [EXT_ZCF] else [])))
  else if String.eqb ext "zcf" then if xlen =? 32 then Some (bits (bit_of EXT_ZCF)) else None
  else if String.eqb ext "zilsd" then if xlen =? 32 then Some (bits (bit_of EXT_ZILSD)) else None
  else match assoc ext assigned with
  | Some es => Some (bits (mask_of es))
  | None =>
      if prefixed "zvl" ext then
        let n := number ext in
        if negb (n .& u64 (n - 1) =? 0) || (n <? 32) || negb (Ascii.eqb (back ext) "b") then None
        else Some (mk_effect 0 n 0 false false ∅)
      else if prefixed "zve" ext then
        let n := number ext in let s := strdrop 5 ext in
        let d := String.eqb s "d" in let f := d || String.eqb s "f" in let x := f || String.eqb s "x" in
        if Nat.eqb (String.length ext) 6 && x && ((n =? 32) || (n =? 64)) then Some (mk_effect 0 n n f d ∅) else None
      else if prefixed "x" ext then
        if Nat.eqb (String.length ext) 1 then None
        else Some (mk_effect (bit_of (ext_letter "X")) 0 0 false false
                     (if String.eqb ext "xdummy" then ∅ else {[strdrop 1 ext]}))
      else None
  end.

Lemma apply_bits m i : 0 <= isa_vlen i -> 0 <= isa_elen i -> apply (bits m) i = set_table (extension_table i .| m) i.
Proof.
  intros. destruct i; unfold apply, set_table; cbn in *. by rewrite !Z.max_l, !orb_false_r, (left_id_L ∅ (∪)) by lia.
Qed.

Ltac record := unfold apply, set_table, set_vector, add_extension, put, bitset_set, Z.setbit; cbn;
  rewrite ?(Z.max_l _ 0), ?orb_false_r, ?orb_true_r, ?Z.lor_0_r, ?(left_id_L ∅ (∪)) by lia; reflexivity.

Lemma vector_elements_effect ext i :
  0 <= isa_vlen i -> 0 <= isa_elen i -> let n := number ext in let s := strdrop 5 ext in
  let d := String.eqb s "d" in let f := d || String.eqb s "f" in let x := f || String.eqb s "x" in
  if Nat.eqb (String.length ext) 6 && x && ((n =? 32) || (n =? 64))
  then vector_elements ext i = Parsed (apply (mk_effect 0 n n f d ∅) i)
  else exists t, vector_elements ext i = Bad_isa t.
Proof.
  intros Hv He. cbv zeta. unfold vector_elements. destruct (Nat.eqb _ 6); cbn -[strdrop strtake u64]; [|eauto].
  replace (match safe_stoul _ with Some n => n | None => 0 end) with (number ext)
    by (unfold number; by destruct (safe_stoul _)).
  generalize (number ext) (strdrop 5 ext). intros n s. destruct i as [xl mi vl el zf zd t st es]; cbn in Hv, He.
  destruct (String.eqb s "d"); [|destruct (String.eqb s "f"); [|destruct (String.eqb s "x")]]; cbn;
    destruct (n =? 32), (n =? 64); cbn; eauto; f_equal; record.
Qed.

Lemma extension_effect ext i :
  0 <= isa_vlen i -> 0 <= isa_elen i ->
  match effect_of ext (isa_max_xlen i) (has (ext_letter "F") i) with
  | Some e => extension ext i = Parsed (apply e i)
  | None => exists t, extension ext i = Bad_isa t
  end.
Proof.
  intros Hv He. unfold effect_of, extension, half_precision, code_size.
  destruct (String.eqb ext "zfh" || String.eqb ext "zfhmin").
  { destruct (has _ i); cbn -[enable mask_of]; [|eauto]. by rewrite apply_bits, enable_mask. }
  destruct (String.eqb ext "zce"); [by rewrite apply_bits, enable_mask|].
  destruct (String.eqb ext "zcf"); [destruct (_ =? 32); cbn; [by rewrite apply_bits, put_lor|eauto]|].
  destruct (String.eqb ext "zilsd"); [destruct (_ =? 32); cbn; [by rewrite apply_bits, put_lor|eauto]|].
  destruct (assoc _ _); [by rewrite apply_bits, enable_mask|].
  destruct (prefixed "zvl" ext).
  { unfold vector_length.
    replace (match safe_stoul _ with Some n => n | None => 0 end) with (number ext)
      by (unfold number; by destruct (safe_stoul _)).
    destruct (_ || _); [eauto|]. f_equal. destruct i; cbn in *. record. }
  destruct (prefixed "zve" ext).
  { pose proof (vector_elements_effect ext i Hv He) as V. cbv zeta in *. by destruct (_ && _). }
  destruct (prefixed "x" ext); [|eauto]. unfold custom_extension. destruct (Nat.eqb _ 1); [eauto|].
  destruct (String.eqb ext "xdummy"); f_equal; destruct i; cbn in *; record.
Qed.

(** * What every effect has *)

(** Extensions that come with others. *)
Definition implied : list (Z * Z) := [
  (EXT_ZFH, EXT_ZFHMIN); (EXT_ZVFH, EXT_ZVFHMIN); (EXT_ZVFH, EXT_ZFHMIN);
  (EXT_ZDINX, EXT_ZFINX); (EXT_ZHINX, EXT_ZFINX); (EXT_ZHINX, EXT_ZHINXMIN); (EXT_ZHINXMIN, EXT_ZFINX);
  (EXT_SMAIA, EXT_SSAIA); (EXT_SMAIA, EXT_SMCSRIND); (EXT_SSAIA, EXT_SSCSRIND)].

(** The part of it that only looks at the mask; names set no letter but [X]. *)
Definition mask_ok (xlen : Z) (f : bool) (m : Z) : bool :=
  let implies a b := negb (Z.testbit m a) || b in
  forallb (fun '(a, b) => implies a (Z.testbit m b)) implied &&
  implies EXT_ZCF (xlen =? 32) && implies EXT_ZILSD (xlen =? 32) &&
  implies EXT_ZFHMIN (f || Z.testbit m EXT_ZVFH) &&
  forallb (fun k => negb (Z.testbit m (ext_letter "A" + k)) || (k =? 23)) (seqZ 0 26) &&
  negb (Z.testbit m EXT_INTERNAL_ZFH_MOVE) && (0 <=? m).

Definition is_pow2 (n lo hi : Z) : Prop := exists k, lo <= k <= hi /\ n = 2 ^ k.

Record vector_ok (vlen elen : Z) (zvf zvd : bool) : Prop := {
  vo_vlen : vlen = 0 \/ is_pow2 vlen 5 63;
  vo_elen : elen = 0 \/ elen = 32 \/ elen = 64;
  vo_le : elen <= vlen;
  vo_zvf : zvf = true -> elen <> 0;
  vo_zvd : zvd = true -> zvf = true }.

Lemma vector_none : vector_ok 0 0 false false.
Proof. split; auto; lia || discriminate. Qed.

Lemma max_pow2 a b : (a = 0 \/ is_pow2 a 5 63) -> (b = 0 \/ is_pow2 b 5 63) -> Z.max a b = 0 \/ is_pow2 (Z.max a b) 5 63.
Proof.
  intros [->|(j & J & ->)] [->|(k & K & ->)]; [by left|..];
    rewrite ?Z.max_l, ?(Z.max_r 0) by lia; right; [exists k|exists j|]; auto.
  exists (Z.max j k). split; [lia|]. destruct (Z.max_spec j k) as [[L ->]|[L ->]]; [apply Z.max_r|apply Z.max_l];
    apply Z.pow_le_mono_r; lia.
Qed.

Lemma vector_join v1 e1 f1 d1 v2 e2 f2 d2 :
  vector_ok v1 e1 f1 d1 -> vector_ok v2 e2 f2 d2 -> vector_ok (Z.max v1 v2) (Z.max e1 e2) (f1 || f2) (d1 || d2).
Proof.
  intros [V1 E1 L1 F1 D1] [V2 E2 L2 F2 D2]. split.
  - by apply max_pow2.
  - destruct E1 as [->|[->| ->]], E2 as [->|[->| ->]]; cbn; auto.
  - lia.
  - intros [H|H]%orb_true_iff; [specialize (F1 H)|specialize (F2 H)]; destruct E1 as [->|[->| ->]], E2 as [->|[->| ->]]; cbn in *; lia.
  - rewrite !orb_true_iff. naive_solver.
Qed.

Lemma pow2_test n : 32 <= n < 2 ^ 64 -> n .& u64 (n - 1) = 0 -> is_pow2 n 5 63.
Proof.
  intros [L U] H. destruct (pow2_of_land 64 n) as (k & K & ->); [lia|lia|done|]. exists k. split; [|done]. split; [|lia].
  destruct (Z.le_gt_cases 5 k) as [?|G]; [done|]. assert (2 ^ k < 2 ^ 5) by (apply Z.pow_lt_mono_r; lia). lia.
Qed.

Lemma number_range ext : 0 <= number ext < 2 ^ 64.
Proof.
  unfold number, safe_stoul. destruct (match skip_space _ with String _ _ => _ | EmptyString => _ end) as [neg s].
  destruct (String.eqb s EmptyString); cbn; [lia|]. assert (forall s a, 0 <= a -> forall n, digits s a = Some n -> 0 <= n) as D.
  { clear. induction s as [|c s IH]; intros a A n; cbn [digits]; [congruence|].
    destruct (isdigit c) eqn:E; [|discriminate]. apply IH. unfold isdigit in E. lia. }
  destruct (digits s 0) as [n|] eqn:E; cbn; [|lia]. apply D in E; [|lia].
  destruct (Z.ltb_spec n (2 ^ 64)); cbn; [|lia]. destruct neg; [|lia]. apply wrap_range. lia.
Qed.

Lemma assoc_in s l es : assoc s l = Some es -> In (s, es) l.
Proof.
  induction l as [|[t x] l IH]; cbn; [discriminate|]. destruct (String.eqb_spec s t) as [->|]; [|auto].
  injection 1 as ->. auto.
Qed.

Lemma assigned_ok xlen f es : In es (map snd assigned) -> mask_ok xlen f (mask_of es) = true.
Proof.
  assert (forallb (fun es => mask_ok 64 false (mask_of es)) (map snd assigned) = true) as H by (vm_compute; reflexivity).
  rewrite forallb_forall in H. intros I. apply H in I. revert I. unfold mask_ok. generalize (mask_of es). intros m.
  rewrite !andb_true_iff. intros [[[[[[A B] C] D] E] F] G].
  replace (64 =? 32) with false in B, C by reflexivity. rewrite orb_false_r in B, C. rewrite B, C.
  repeat split; auto. rewrite !orb_true_iff in *. naive_solver.
Qed.

Record effect_ok (xlen : Z) (f : bool) (e : effect) : Prop := {
  eo_mask : mask_ok xlen f (ef_mask e) = true;
  eo_vector : vector_ok (ef_vlen e) (ef_elen e) (ef_zvf e) (ef_zvd e) }.

Lemma effect_of_ok ext xlen f e : effect_of ext xlen f = Some e -> effect_ok xlen f e.
Proof.
  unfold effect_of. destruct (String.eqb ext "zfh" || String.eqb ext "zfhmin").
  { destruct f; [|discriminate]. injection 1 as <-. split; [|apply vector_none].
    destruct (String.eqb ext "zfh"); vm_compute; reflexivity. }
  destruct (String.eqb ext "zce").
  { injection 1 as <-. split; [|apply vector_none]. cbn [ef_mask bits]. unfold mask_ok.
    destruct f, (xlen =? 32); vm_compute; reflexivity. }
  destruct (String.eqb ext "zcf").
  { destruct (xlen =? 32) eqn:E; [|discriminate]. injection 1 as <-. split; [|apply vector_none]. unfold mask_ok. rewrite E. vm_compute; reflexivity. }
  destruct (String.eqb ext "zilsd").
  { destruct (xlen =? 32) eqn:E; [|discriminate]. injection 1 as <-. split; [|apply vector_none]. unfold mask_ok. rewrite E. vm_compute; reflexivity. }
  destruct (assoc ext assigned) as [es|] eqn:A.
  { injection 1 as <-. split; [|apply vector_none]. apply assigned_ok, in_map_iff. exists (ext, es). split; [done|].
    by apply assoc_in. }
  pose proof (number_range ext). destruct (prefixed "zvl" ext).
  { destruct (_ || _) eqn:B; [discriminate|]. injection 1 as <-. rewrite !orb_false_iff in B. destruct B as [[B1 B2] _].
    split; [vm_compute; reflexivity|]. cbn. split; auto; [|lia|discriminate..]. right. apply pow2_test; lia. }
  destruct (prefixed "zve" ext).
  { destruct (_ && _) eqn:B; [|discriminate]. injection 1 as <-. split; [vm_compute; reflexivity|]. cbn.
    rewrite !andb_true_iff, !orb_true_iff, !Z.eqb_eq in B. destruct B as [_ B].
    split; [| |lia| |].
    - destruct B as [->| ->]; right; [exists 5|exists 6]; (split; [lia|reflexivity]).
    - auto.
    - lia.
    - by intros ->. }
  destruct (prefixed "x" ext); [|discriminate]. destruct (Nat.eqb _ 1); [discriminate|]. injection 1 as <-.
  split; [vm_compute; reflexivity|apply vector_none].
Qed.

(** * The order of the names *)

Lemma mask_no_letter xlen f m k : mask_ok xlen f m = true -> 0 <= k < 26 -> k <> 23 -> Z.testbit m (ext_letter "A" + k) = false.
Proof.
  unfold mask_ok. rewrite !andb_true_iff, !forallb_forall. intros [[[_ L] _] _] K N.
  assert (In k (seqZ 0 26)) as I by (apply list_elem_of_In, elem_of_seqZ; lia). specialize (L k I). destruct (Z.testbit _ _); [|done]. cbn in L. lia.
Qed.

Lemma effect_F ext xlen f e : effect_of ext xlen f = Some e -> Z.testbit (ef_mask e) (ext_letter "F") = false.
Proof. intros H. apply effect_of_ok in H as [M _]. by apply (mask_no_letter _ _ _ 5 M). Qed.

Lemma apply_commute e1 e2 i : apply e1 (apply e2 i) = apply e2 (apply e1 i).
Proof.
  unfold apply; cbn. f_equal; try lia.
  - by rewrite <- !orb_assoc, (orb_comm (ef_zvf e2)).
  - by rewrite <- !orb_assoc, (orb_comm (ef_zvd e2)).
  - by rewrite <- !Z.lor_assoc, (Z.lor_comm (ef_mask e2)).
  - set_solver.
Qed.

(** Applying a list of names one after the other. *)
Fixpoint extend (l : list string) (i : isa_parser_t) : isa_result isa_parser_t :=
  match l with [] => Parsed i | n :: l => let! i := extension n i in extend l i end.

(** Two results agree when both are the same object but for the string it was
    parsed from, or both are errors. *)
Definition with_string (s : string) (i : isa_parser_t) : isa_parser_t :=
  mk_isa (isa_max_xlen i) (isa_max_isa i) (isa_vlen i) (isa_elen i) (isa_zvf i) (isa_zvd i) (extension_table i) s (extensions i).
Definition agree (r1 r2 : isa_result isa_parser_t) : Prop :=
  match r1, r2 with
  | Parsed i, Parsed j => with_string EmptyString i = with_string EmptyString j
  | Parsed _, _ | _, Parsed _ => False
  | _, _ => True
  end.

#[export] Instance agree_equiv : Equivalence agree.
Proof.
  split.
  - intros []; cbn; auto.
  - intros [] []; cbn; auto.
  - intros [] [] []; cbn; try tauto. congruence.
Qed.

Definition positive (i : isa_parser_t) : Prop := 0 <= isa_vlen i /\ 0 <= isa_elen i.

Lemma apply_positive e i : positive i -> positive (apply e i).
Proof. unfold positive. cbn. lia. Qed.

Lemma extend_apply l : forall i, positive i ->
  match foldr (fun n r => match r, effect_of n (isa_max_xlen i) (has (ext_letter "F") i) with
                         | Some es, Some e => Some (e :: es) | _, _ => None end) (Some []) l with
  | Some es => extend l i = Parsed (fold_left (fun i e => apply e i) es i)
  | None => exists t, extend l i = Bad_isa t
  end.
Proof.
  induction l as [|n l IH]; intros i P; [done|]. cbn [foldr extend].
  pose proof (extension_effect n i (proj1 P) (proj2 P)) as E.
  destruct (effect_of n _ _) as [e|] eqn:F.
  - rewrite E. cbn [isa_bind]. specialize (IH (apply e i) (apply_positive e i P)). cbn [isa_max_xlen apply] in IH.
    replace (has (ext_letter "F") (apply e i)) with (has (ext_letter "F") i) in IH.
    + destruct (foldr _ _ _); auto.
    + unfold has, bitset_test. cbn [extension_table apply]. by rewrite Z.lor_spec, (effect_F _ _ _ _ F), orb_false_r.
  - destruct E as [t ->]. destruct (foldr _ _ _); cbn; eauto.
Qed.

Lemma extend_permutation l1 l2 i : positive i -> l1 ≡ₚ l2 ->
  extend l1 i = extend l2 i \/ exists t1 t2, extend l1 i = Bad_isa t1 /\ extend l2 i = Bad_isa t2.
Proof.
  intros P H. pose proof (extend_apply l1 i P) as E1. pose proof (extend_apply l2 i P) as E2.
  set (f := fun n r => _) in E1, E2.
  assert (match foldr f (Some []) l1, foldr f (Some []) l2 with Some a, Some b => a ≡ₚ b | None, None => True | _, _ => False end) as R.
  { clear E1 E2. induction H as [|n l1 l2 _ IH|m n l|l1 l2 l3 _ IH1 _ IH2]; cbn.
    - done.
    - destruct (foldr f (Some []) l1), (foldr f (Some []) l2); try done; unfold f.
      destruct (effect_of n _ _); [|done]. by apply Permutation_cons.
    - destruct (foldr f (Some []) l); [|done]. unfold f. destruct (effect_of n _ _), (effect_of m _ _); try done. apply Permutation_swap.
    - destruct (foldr f (Some []) l1), (foldr f (Some []) l2), (foldr f (Some []) l3); try done. by etrans. }
  destruct (foldr f (Some []) l1) as [a|], (foldr f (Some []) l2) as [b|]; try done.
  - left. rewrite E1, E2. f_equal. clear -R. revert i. induction R as [|e a b _ IH|e g a|a b c _ IH1 _ IH2]; intros i; cbn; auto.
    + by rewrite apply_commute.
    + by rewrite IH1.
  - right. destruct E1 as [t1 ->], E2 as [t2 ->]. eauto.
Qed.

(** * Strings of names *)

#[local] Arguments String.append : simpl nomatch.

(** A custom or standard extension, as it is written behind an underscore. *)
Definition name_ok (n : string) : Prop :=
  (exists c n', n = String c n' /\ strchr "zsx" c = true) /\ strchr n underscore = false /\ strtolower n = n.

Definition joined (l : list string) : string := foldr (fun n s => String underscore (n +:+ s)) EmptyString l.

(** What may follow a name: nothing or an underscore. *)
Definition ends (t : string) : Prop := t = EmptyString \/ exists y, t = String underscore y.

Lemma app_nil s : s +:+ EmptyString = s.
Proof. induction s as [|c s IH]; cbn; [done|by rewrite IH]. Qed.

Lemma app_assoc' a b c : (a +:+ b) +:+ c = a +:+ (b +:+ c).
Proof. induction a as [|x a IH]; cbn; [done|by rewrite IH]. Qed.

Lemma strchr_app a b c : strchr (a +:+ b) c = strchr a c || strchr b c.
Proof. induction a as [|x a IH]; cbn; [done|]. by rewrite IH, orb_assoc. Qed.

Lemma strtolower_app a b : strtolower (a +:+ b) = strtolower a +:+ strtolower b.
Proof. induction a as [|x a IH]; cbn; [done|by rewrite IH]. Qed.

Lemma tolower_underscore c : Ascii.eqb (tolower c) underscore = Ascii.eqb c underscore.
Proof. destruct c as [[] [] [] [] [] [] [] []]; reflexivity. Qed.

Lemma strchr_lower s : strchr (strtolower s) underscore = strchr s underscore.
Proof. induction s as [|c s IH]; cbn [strtolower strchr]; [done|]. by rewrite tolower_underscore, IH. Qed.

Lemma joined_cons n l t : joined (n :: l) +:+ t = String underscore (n +:+ (joined l +:+ t)).
Proof. cbn. by rewrite app_assoc'. Qed.

Lemma ends_joined l t : ends t -> ends (joined l +:+ t).
Proof. destruct l; cbn; [done|]. intros _. right. eauto. Qed.

Lemma take_name_app s t : strchr s underscore = false -> ends t -> take_name (s +:+ t) = s /\ skip_name (s +:+ t) = t.
Proof.
  intros S T. induction s as [|c s IH]; cbn in *.
  - destruct T as [->|[y ->]]; done.
  - apply orb_false_iff in S as [-> S]. destruct (IH S) as [-> ->]. done.
Qed.

(** A word at the start of the string, or behind an underscore, is a name. *)
Lemma names_word c w t i :
  strchr (String c w) underscore = false -> ends t ->
  names (String underscore (String c w +:+ t)) i = (let! j := extension (String c w) i in names t j) /\
  (islower c = true -> names (String c w +:+ t) i = (let! j := extension (String c w) i in names t j)).
Proof.
  intros S T. cbn in S. apply orb_false_iff in S as [C S]. destruct (take_name_app w t S T) as [A B].
  split; [|intros L]; cbn.
  - by rewrite A, B.
  - by rewrite L, C, A, B.
Qed.

Lemma names_joined l t i : Forall name_ok l -> ends t ->
  names (joined l +:+ t) i = (let! j := extend l i in names t j).
Proof.
  intros L T. revert i. induction L as [|n l N L IH]; intros i; [done|].
  destruct N as ((c & n' & -> & _) & U & _). cbn [extend]. rewrite joined_cons.
  rewrite (proj1 (names_word c n' _ i U (ends_joined l t T))).
  destruct (extension _ i); cbn; auto.
Qed.

Lemma zsx_lower c : strchr "zsx" c = true -> islower c = true.
Proof.
  cbn [strchr]. rewrite !orb_true_iff, !Ascii.eqb_eq. intros [<-|[<-|[<-|]]]; [vm_compute; reflexivity..|discriminate].
Qed.

(** What may follow the word with the letters: names, and an underscore behind them. *)
Definition tail_ok (l : list string) (t : string) : Prop :=
  Forall name_ok l /\ (t = EmptyString \/ t = String underscore EmptyString /\ l <> []).

Lemma tail_ends l t : tail_ok l t -> ends (joined l +:+ t).
Proof. intros [_ [->|[-> _]]]; apply ends_joined; [by left|right; eauto]. Qed.

Lemma names_skip_underscore l t i :
  tail_ok l t -> names (skip_underscore (joined l +:+ t)) i = names (joined l +:+ t) i.
Proof.
  intros [L T]. destruct L as [|n l N L].
  { destruct T as [->|[_ []]]; done. }
  destruct N as ((c & n' & -> & Z) & U & _). rewrite joined_cons. cbn [skip_underscore].
  rewrite Ascii.eqb_refl.
  assert (ends (joined l +:+ t)) as E.
  { apply ends_joined. destruct T as [->|[-> _]]; [by left|right; eauto]. }
  destruct (names_word c n' _ i U E) as [-> W]. apply W. by apply zsx_lower.
Qed.

Lemma skip_version_app w t : ends t -> skip_version (w +:+ t) = skip_version w +:+ t.
Proof.
  intros T. assert (forall k w, (String.length w <= k)%nat -> skip_version (w +:+ t) = skip_version w +:+ t) as H; [|by apply (H _ _ (le_n _))].
  induction k as [|k IH]; intros [|c s] K; cbn in K; try lia.
  1,2: destruct T as [->|[y ->]]; done.
  cbn. destruct (isdigit c); [|done]. destruct s as [|d s]; cbn.
  - destruct T as [->|[y ->]]; done.
  - cbn in K. destruct (Ascii.eqb d "p"); [apply IH; lia|]. apply (IH (String d s)). cbn; lia.
Qed.

Lemma skip_version_part w : strchr w underscore = false ->
  (String.length (skip_version w) <= String.length w)%nat /\ strchr (skip_version w) underscore = false.
Proof.
  assert (forall k w, (String.length w <= k)%nat -> strchr w underscore = false ->
    (String.length (skip_version w) <= String.length w)%nat /\ strchr (skip_version w) underscore = false) as H;
    [|by apply (H _ _ (le_n _))].
  induction k as [|k IH]; intros [|c s] K S; cbn in K; try lia; [split; done..|].
  cbn [skip_version]. destruct (isdigit c); [|done]. cbn in S. apply orb_false_iff in S as [_ S].
  destruct s as [|d s]; cbn; [split; [lia|done]|]. cbn in K.
  destruct (Ascii.eqb d "p").
  - cbn in S. apply orb_false_iff in S as [_ S]. destruct (IH s ltac:(lia) S). split; [lia|done].
  - destruct (IH (String d s) ltac:(cbn; lia) S) as [A B]. cbn in A |- *. split; [lia|done].
Qed.

(** The loop over the letters of a word [w] does the same whatever names follow. *)
Lemma letters_word w subset i : strchr w underscore = false -> positive i ->
  (exists m, forall l t z, tail_ok l t -> letters (w +:+ joined l +:+ t) subset (with_string z i) = Bad_isa m) \/
  (exists w2 j, strchr w2 underscore = false /\ positive j /\
    forall l t z, tail_ok l t -> exists rest, letters (w +:+ joined l +:+ t) subset (with_string z i) = Parsed (with_string z j, rest) /\
      forall i', names rest i' = names (w2 +:+ joined l +:+ t) i').
Proof.
  remember (String.length w) as k eqn:K. assert (String.length w <= k)%nat as LE by lia. clear K.
  revert w subset i LE. induction k as [|k IH]; intros [|c w] subset i LE S P; cbn in LE; try lia.
  1,2: right; exists EmptyString, i; repeat split; try apply P; intros l t z T; cbn; destruct (tail_ends l t T) as [->|[y ->]]; cbn; eauto.
  change (String c w +:+ ?x) with (String c (w +:+ x)). cbn [letters].
  destruct (islower c && negb (strchr "zsx" c)) eqn:E.
  2:{ right. exists (String c w), i. split; [done|]. split; [done|]. intros l t z T. eauto. }
  cbn in S. apply orb_false_iff in S as [_ S]. destruct (skip_version_part w S) as [V1 V2].
  set (sub := find_subset c subset). destruct (String.eqb sub EmptyString); [left; eauto|].
  assert (positive (single_letter c i)) as P'.
  { unfold single_letter, positive in *. destruct (Ascii.eqb c "v"), (Ascii.eqb c "q"), (Ascii.eqb c "d"); cbn; lia. }
  assert (forall z, single_letter c (with_string z i) = with_string z (single_letter c i)) as W.
  { intros z. unfold single_letter. by destruct (Ascii.eqb c "v"), (Ascii.eqb c "q"), (Ascii.eqb c "d"). }
  destruct (skip_version w) as [|d w3] eqn:D.
  - right. exists EmptyString, (single_letter c i). split; [done|]. split; [done|]. intros l t z T. exists (skip_underscore (joined l +:+ t)).
    rewrite skip_version_app, D by (by apply tail_ends). rewrite W. change (EmptyString +:+ ?x) with x. split; [|intros; by apply names_skip_underscore].
    destruct T as [[|n l' N L] T].
    + destruct T as [->|[_ []]]; done.
    + destruct N as ((c' & n' & -> & Z) & _). rewrite joined_cons. cbn [skip_underscore]. rewrite Ascii.eqb_refl.
      change (String c' n' +:+ ?x) with (String c' (n' +:+ x)). cbn [letters]. by rewrite Z, andb_false_r.
  - cbn in V2. apply orb_false_iff in V2 as [V2 V3]. cbn in V1.
    destruct (IH (String d w3) sub (single_letter c i)) as [[m B]|(w2 & j & S2 & Pj & B)];
      [cbn; lia|cbn; by rewrite V2, V3|done|left; exists m|right; exists w2, j; do 2 (split; [done|])];
      intros l t z T; specialize (B l t z T); rewrite skip_version_app, D by (by apply tail_ends);
      cbn [String.append skip_underscore]; rewrite V2, W; done.
Qed.

(** * What follows the loops does not look at the string *)

Lemma has_ws e z i : has e (with_string z i) = has e i.
Proof. done. Qed.
Lemma put_ws e b z i : put e b (with_string z i) = with_string z (put e b i).
Proof. done. Qed.
Lemma enable_ws es z i : enable es (with_string z i) = with_string z (enable es i).
Proof. by rewrite !enable_mask. Qed.
Lemma xlen_ws z i : isa_max_xlen (with_string z i) = isa_max_xlen i.
Proof. done. Qed.
Lemma if_ws (b : bool) z i j : (if b then with_string z i else with_string z j) = with_string z (if b then i else j).
Proof. by destruct b. Qed.

Create HintDb ws.
#[export] Hint Rewrite has_ws put_ws enable_ws xlen_ws if_ws : ws.

Lemma groups_ws z i : groups (with_string z i) = with_string z (groups i).
Proof. unfold groups. cbv zeta. by autorewrite with ws. Qed.

Lemma half_moves_ws z i : half_moves (with_string z i) = with_string z (half_moves i).
Proof. unfold half_moves. by autorewrite with ws. Qed.

Definition blind (rules : list ((isa_parser_t -> bool) * string)) : Prop :=
  Forall (fun r => forall z i, fst r (with_string z i) = fst r i) rules.

Lemma rules_blind : blind rules_before /\ blind rules_after.
Proof. split; repeat constructor. Qed.

Lemma check_ws rules z i : blind rules -> check rules (with_string z i) = (let! j := check rules i in Parsed (with_string z j)).
Proof.
  induction 1 as [|[b t] rules B _ IH]; [done|]. cbn in *. rewrite B. destruct (b i); [done|]. apply IH.
Qed.

Lemma isa_bind_assoc {A B C} (m : isa_result A) (f : A -> isa_result B) (g : B -> isa_result C) :
  isa_bind (isa_bind m f) g = isa_bind m (fun a => isa_bind (f a) g).
Proof. by destruct m. Qed.

Lemma finish_ws priv z i : finish priv (with_string z i) = (let! j := finish priv i in Parsed (with_string z j)).
Proof.
  unfold finish. rewrite groups_ws, check_ws, !isa_bind_assoc by apply rules_blind.
  destruct (check rules_before _) as [j| | |]; [|done..]. cbn [isa_bind].
  rewrite half_moves_ws, check_ws, !isa_bind_assoc by apply rules_blind.
  destruct (check rules_after _) as [j'| | |]; [|done..]. cbn [isa_bind].
  destruct (priv_modes priv) as [[u s]| | |]; [|done..]. cbn [isa_bind].
  cbv zeta. cbn [fst snd]. 
  change (put (ext_letter "S") s (put (ext_letter "U") u (with_string z j')))
    with (with_string z (put (ext_letter "S") s (put (ext_letter "U") u j'))).
  generalize (put (ext_letter "S") s (put (ext_letter "U") u j')). intros q. rewrite has_ws, xlen_ws.
  change (extension_table (with_string z q)) with (extension_table q). generalize (misa_letters (extension_table q)).
  intros misa. by destruct (has (ext_letter "H") q), s.
Qed.

Lemma extension_ws n z i : positive i ->
  (exists e, extension n i = Parsed (apply e i) /\ extension n (with_string z i) = Parsed (with_string z (apply e i))) \/
  (exists m m', extension n i = Bad_isa m /\ extension n (with_string z i) = Bad_isa m').
Proof.
  intros [V E]. pose proof (extension_effect n i V E) as X. pose proof (extension_effect n (with_string z i) V E) as Y.
  rewrite xlen_ws, has_ws in Y. destruct (effect_of _ _ _) as [e|]; [left; eauto|right].
  destruct X as [m X], Y as [m' Y]. eauto.
Qed.

(** * The whole parser on a word and names *)

Lemma length_strtake k s : (String.length (strtake k s) <= String.length s)%nat.
Proof. revert s. induction k as [|k IH]; intros [|c s]; cbn; try lia. specialize (IH s). lia. Qed.

Lemma strtake_underscore k b y : (String.length b < k)%nat -> strchr (strtake k (b +:+ String underscore y)) underscore = true.
Proof.
  revert k. induction b as [|c b IH]; intros [|k] L; cbn in L; try lia.
  - change (EmptyString +:+ ?x) with x. cbn [strtake strchr]. by rewrite Ascii.eqb_refl.
  - change (String c b +:+ ?x) with (String c (b +:+ x)). cbn [strtake strchr]. rewrite IH by lia. apply orb_true_r.
Qed.

Lemma xlen_word b T : (String.length b < 4)%nat -> ends T -> xlen_of (b +:+ T) = None.
Proof.
  intros L T'. assert (forall p, String.length p = 4%nat -> strchr p underscore = false -> prefixed p (b +:+ T) = false) as H.
  { intros p P U. unfold prefixed. rewrite P. apply String.eqb_neq. intros <-. destruct T' as [->|[y ->]].
    - rewrite app_nil in P. pose proof (length_strtake 4 b). lia.
    - rewrite strtake_underscore in U by done. done. }
  unfold xlen_of. by rewrite !H.
Qed.

Lemma start_word b : strchr b underscore = false ->
  (forall str T, strtolower str = b +:+ T -> ends T -> exists m, start str = Bad_isa m) \/
  (exists s w i, strchr w underscore = false /\ positive i /\
    forall str T, strtolower str = b +:+ T -> ends T ->
      start str = Parsed (with_string (s +:+ T) i) /\ strdrop 5 (s +:+ T) = w +:+ T).
Proof.
  intros S. destruct (decide (String.length b < 4)%nat) as [L|L].
  { left. intros str T E T'. unfold start. rewrite E, xlen_word by done. eauto. }
  destruct b as [|c0 [|c1 [|c2 [|c3 b]]]]; cbn in L; try lia. clear L.
  change (String c0 (String c1 (String c2 (String c3 b))) +:+ ?x) with (String c0 (String c1 (String c2 (String c3 (b +:+ x))))).
  assert (forall x, xlen_of (String c0 (String c1 (String c2 (String c3 x)))) = xlen_of (String c0 (String c1 (String c2 (String c3 b))))) as X.
  { intros x. unfold xlen_of, prefixed. done. }
  destruct (xlen_of (String c0 (String c1 (String c2 (String c3 b))))) as [xlen|].
  2:{ left. intros str T E T'. unfold start. rewrite E, X. eauto. }
  unfold start. destruct b as [|c w].
  { left. intros str T E T'. rewrite E, X. unfold base_isa. cbn [strdrop]. destruct T' as [->|[y ->]]; cbn; eauto. }
  cbn [strchr] in S. rewrite !orb_false_iff in S. destruct S as (_ & _ & _ & _ & C & S).
  change (String c w +:+ ?x) with (String c (w +:+ x)) in *.
  pose (four := String c0 (String c1 (String c2 (String c3 EmptyString)))).
  destruct (Ascii.eqb c "g") eqn:G; [|destruct (Ascii.eqb c "i") eqn:I; [|destruct (Ascii.eqb c "e") eqn:E']].
  - right. exists (four +:+ "imafd" +:+ w), ("mafd" +:+ w), (put (ext_letter "I") true (mk_isa xlen 0 0 0 false false 0 EmptyString ∅)).
    split; [by rewrite strchr_app, S|]. split; [split; reflexivity|].
    intros str T E T'. rewrite E, X. unfold base_isa. cbn [strdrop]. rewrite G. done.
  - right. exists (four +:+ String c w), w, (put (ext_letter "I") true (mk_isa xlen 0 0 0 false false 0 EmptyString ∅)).
    split; [done|]. split; [split; reflexivity|].
    intros str T E T'. rewrite E, X. unfold base_isa. cbn [strdrop]. rewrite G, I. done.
  - right. exists (four +:+ String c w), w, (put (ext_letter "E") true (mk_isa xlen 0 0 0 false false 0 EmptyString ∅)).
    split; [done|]. split; [split; reflexivity|].
    intros str T E T'. rewrite E, X. unfold base_isa. cbn [strdrop]. rewrite G, I, E'. done.
  - left. intros str T E T'. rewrite E, X. unfold base_isa. cbn [strdrop]. rewrite G, I, E'. eauto.
Qed.

Lemma joined_lower l t : Forall name_ok l -> strtolower t = t -> strtolower (joined l +:+ t) = joined l +:+ t.
Proof.
  intros L T. induction L as [|n l (_ & _ & N) L IH]; [done|]. rewrite joined_cons. cbn [strtolower].
  by rewrite strtolower_app, N, IH.
Qed.

(** Behind the word, the parser extends one object by the names, whatever they are. *)
Lemma parse_word base : strchr base underscore = false ->
  (forall l t priv, tail_ok l t -> exists m, new_isa_parser (base +:+ joined l +:+ t) priv = Bad_isa m) \/
  (exists i, positive i /\ forall l t priv, tail_ok l t -> exists z,
    new_isa_parser (base +:+ joined l +:+ t) priv =
      let! j := extend l (with_string z i) in if String.eqb t EmptyString then finish priv j else Overread).
Proof.
  intros S. assert (strchr (strtolower base) underscore = false) as S' by (by rewrite strchr_lower).
  assert (forall l t, tail_ok l t -> strtolower (base +:+ joined l +:+ t) = strtolower base +:+ joined l +:+ t) as LOW.
  { intros l t T. rewrite strtolower_app. f_equal. apply joined_lower; [apply T|]. by destruct T as [_ [->|[-> _]]]. }
  destruct (start_word _ S') as [B|(s & w & i & Sw & P & B)].
  { left. intros l t priv T. destruct (B _ _ (LOW l t T) (tail_ends l t T)) as [m E].
    exists m. unfold new_isa_parser. by rewrite E. }
  destruct (letters_word w all_subsets i Sw P) as [[m W]|(w2 & j & S2 & Pj & W)].
  { left. intros l t priv T. destruct (B _ _ (LOW l t T) (tail_ends l t T)) as [E D]. exists m. unfold new_isa_parser.
    rewrite E. cbn [isa_bind isa_string with_string]. by rewrite D, W. }
  assert (forall l t priv, tail_ok l t -> exists z, new_isa_parser (base +:+ joined l +:+ t) priv =
    (let! r := names (w2 +:+ joined l +:+ t) (with_string z j) in
     bad_if negb (String.eqb (snd r) EmptyString) msg ("can't parse: " ++ snd r)%string in finish priv (fst r))) as N.
  { intros l t priv T. destruct (B _ _ (LOW l t T) (tail_ends l t T)) as [E D]. exists (s +:+ joined l +:+ t).
    unfold new_isa_parser. rewrite E. cbn [isa_bind isa_string with_string]. rewrite D.
    destruct (W l t (s +:+ joined l +:+ t) T) as (rest & -> & R). cbn [isa_bind fst snd]. by rewrite R. }
  assert (forall l t priv i', tail_ok l t ->
    (let! r := names (joined l +:+ t) i' in
     bad_if negb (String.eqb (snd r) EmptyString) msg ("can't parse: " ++ snd r)%string in finish priv (fst r)) =
    (let! j := extend l i' in if String.eqb t EmptyString then finish priv j else Overread)) as M.
  { intros l t priv i' [L T]. rewrite names_joined; [|done|destruct T as [->|[-> _]]; [by left|right; eauto]].
    destruct (extend l i') as [k| | |]; [|done..]. cbn [isa_bind]. by destruct T as [->|[-> _]]. }
  destruct w2 as [|c w2].
  { right. exists j. split; [done|]. intros l t priv T. destruct (N l t priv T) as [z ->]. exists z. by apply M. }
  destruct (islower c) eqn:LC.
  - assert (forall l t, tail_ok l t -> ends (joined l +:+ t)) as EN by (intros; by apply tail_ends).
    pose proof (fun l t z T => proj2 (names_word c w2 (joined l +:+ t) (with_string z j) S2 (EN l t T)) LC) as NW.
    destruct (effect_of (String c w2) (isa_max_xlen j) (has (ext_letter "F") j)) as [e|] eqn:F.
    + right. exists (apply e j). split; [by apply apply_positive|]. intros l t priv T. destruct (N l t priv T) as [z ->]. exists z.
      rewrite NW by done. pose proof (extension_effect (String c w2) (with_string z j) (proj1 Pj) (proj2 Pj)) as X.
      rewrite xlen_ws, has_ws, F in X. rewrite X. cbn [isa_bind]. by apply M.
    + left. intros l t priv T. destruct (N l t priv T) as [z ->]. rewrite NW by done.
      pose proof (extension_effect (String c w2) (with_string z j) (proj1 Pj) (proj2 Pj)) as X.
      rewrite xlen_ws, has_ws, F in X. destruct X as [m ->]. by exists m.
  - left. intros l t priv T. destruct (N l t priv T) as [z ->].
    cbn [strchr] in S2. apply orb_false_iff in S2 as [S2 _].
    change (String c w2 +:+ ?x) with (String c (w2 +:+ x)). cbn [names]. rewrite LC, S2. cbn. eauto.
Qed.

Lemma extend_ws l z i : positive i ->
  (exists j, positive j /\ extend l i = Parsed j /\ extend l (with_string z i) = Parsed (with_string z j)) \/
  (exists m m', extend l i = Bad_isa m /\ extend l (with_string z i) = Bad_isa m').
Proof.
  revert i. induction l as [|n l IH]; intros i P; [left; eauto|]. cbn [extend].
  destruct (extension_ws n z i P) as [(e & -> & ->)|(m & m' & -> & ->)]; cbn [isa_bind]; [|right; eauto].
  apply IH. by apply apply_positive.
Qed.

Lemma finish_agree priv z1 z2 i : agree (finish priv (with_string z1 i)) (finish priv (with_string z2 i)).
Proof. rewrite !finish_ws. by destruct (finish priv i). Qed.

(** C24. The order of the extensions with longer names does not matter: behind the
    same word, two strings with the same names in different orders give objects
    that differ in [isa_string] only, or are both refused. *)
Theorem isa_order_irrelevant base l1 l2 priv :
  strchr base underscore = false -> Forall name_ok l1 -> l1 ≡ₚ l2 ->
  agree (new_isa_parser (base +:+ joined l1) priv) (new_isa_parser (base +:+ joined l2) priv).
Proof.
  intros S N1 E. assert (Forall name_ok l2) as N2 by (by rewrite <- E).
  assert (forall l, Forall name_ok l -> tail_ok l EmptyString) as T by (split; [done|by left]).
  rewrite <- (app_nil (joined l1)), <- (app_nil (joined l2)).
  destruct (parse_word base S) as [B|(i & P & B)].
  { destruct (B l1 EmptyString priv (T _ N1)) as [m1 ->], (B l2 EmptyString priv (T _ N2)) as [m2 ->]. done. }
  destruct (B l1 EmptyString priv (T _ N1)) as [z1 ->], (B l2 EmptyString priv (T _ N2)) as [z2 ->]. cbn [String.eqb].
  destruct (extend_permutation l1 l2 i P E) as [X|(m1 & m2 & X1 & X2)].
  - destruct (extend_ws l1 z1 i P) as [(j & _ & E1 & ->)|(m & m' & E1 & ->)],
      (extend_ws l2 z2 i P) as [(k & _ & E2 & ->)|(n & n' & E2 & ->)]; cbn [isa_bind]; try congruence; [|done].
    replace k with j by congruence. apply finish_agree.
  - destruct (extend_ws l1 z1 i P) as [(j & _ & E1 & ->)|(m & m' & E1 & ->)]; [congruence|].
    destruct (extend_ws l2 z2 i P) as [(k & _ & E2 & ->)|(n & n' & E2 & ->)]; [congruence|done].
Qed.

(** ** Reads behind the string *)

Definition ends_underscore (s : string) : Prop := exists q, s = q +:+ String underscore EmptyString.

Lemma suffix_underscore q s : ends_underscore s -> ends_underscore (q +:+ s).
Proof. intros [p ->]. exists (q +:+ p). by rewrite app_assoc'. Qed.

Lemma drop_word a r : strchr a underscore = false -> ends_underscore (a +:+ r) -> ends_underscore r.
Proof.
  induction a as [|c a IH]; cbn [strchr]; [done|]. intros [C S]%orb_false_iff [[|d q] E].
  - injection E as -> _. by rewrite Ascii.eqb_refl in C.
  - apply IH; [done|]. exists q. by injection E.
Qed.

Lemma lower_underscore s : ends_underscore (strtolower s) -> ends_underscore s.
Proof.
  induction s as [|c s IH]; intros [[|d q] E]; try discriminate; cbn in E.
  - injection E as C E. destruct s; [|discriminate]. exists EmptyString. cbn. f_equal.
    apply Ascii.eqb_eq. rewrite <- tolower_underscore, C. apply Ascii.eqb_refl.
  - injection E as _ E. destruct IH as [p ->]; [by exists q|]. exists (String c p). done.
Qed.

Definition suffix_of (r s : string) : Prop := exists q, s = q +:+ r.

Lemma suffix_ends r s : suffix_of r s -> ends_underscore r -> ends_underscore s.
Proof. intros [q ->]. apply suffix_underscore. Qed.

#[export] Instance suffix_preorder : PreOrder suffix_of.
Proof.
  split; [intros s; by exists EmptyString|]. intros a b c [p ->] [q ->]. exists (q +:+ p). by rewrite app_assoc'.
Qed.

Lemma suffix_cons c s : suffix_of s (String c s).
Proof. by exists (String c EmptyString). Qed.

Lemma strdrop_suffix k s : suffix_of (strdrop k s) s.
Proof.
  revert s. induction k as [|k IH]; intros [|c s]; cbn; try reflexivity. etrans; [apply IH|apply suffix_cons].
Qed.

Lemma skip_name_suffix s : suffix_of (skip_name s) s.
Proof.
  induction s as [|c s IH]; cbn; [reflexivity|]. destruct (Ascii.eqb c underscore); [reflexivity|].
  etrans; [apply IH|apply suffix_cons].
Qed.

Lemma skip_underscore_suffix s : suffix_of (skip_underscore s) s.
Proof. destruct s as [|c s]; cbn; [reflexivity|]. destruct (Ascii.eqb c underscore); [apply suffix_cons|reflexivity]. Qed.

Lemma skip_version_suffix s : suffix_of (skip_version s) s.
Proof.
  assert (forall k s, (String.length s <= k)%nat -> suffix_of (skip_version s) s) as H; [|by apply (H _ _ (le_n _))].
  clear s. induction k as [|k IH]; intros [|c s] K; cbn in K; try lia; try reflexivity.
  cbn [skip_version]. destruct (isdigit c); [|reflexivity]. destruct s as [|d s]; [apply suffix_cons|].
  cbn in K. transitivity (String d s); [|apply suffix_cons].
  destruct (Ascii.eqb d "p"); [etrans; [apply IH; lia|apply suffix_cons]|apply IH; cbn; lia].
Qed.

Lemma suffix_length r s : suffix_of r s -> (String.length r <= String.length s)%nat.
Proof. intros [q ->]. induction q as [|c q IH]; cbn; lia. Qed.

(** Induction on the length, for the loops that skip. *)
Lemma string_length_ind (P : string -> Prop) :
  (forall s, (forall r, (String.length r < String.length s)%nat -> P r) -> P s) -> forall s, P s.
Proof. intros H. apply (Nat.measure_induction string String.length P H). Qed.

(** What the loop over the names keeps, when an extension does. *)
Lemma names_ind (I : isa_parser_t -> Prop) :
  (forall n i j, I i -> extension n i = Parsed j -> I j) ->
  forall p i, I i -> match names p i with
                     | Parsed (j, r) => I j /\ suffix_of r p
                     | Overread => ends_underscore p
                     | _ => True
                     end.
Proof.
  intros STEP. apply (string_length_ind (fun p => forall i, I i -> match names p i with
    Parsed (j, r) => I j /\ suffix_of r p | Overread => ends_underscore p | _ => True end)).
  intros [|c p'] IH i Hi; [by split|]. cbn [names].
  destruct (islower c || Ascii.eqb c underscore) eqn:L; [|by split].
  set (p := if Ascii.eqb c underscore then p' else String c p').
  assert (suffix_of p (String c p')) as SP by (unfold p; destruct (Ascii.eqb c underscore); [apply suffix_cons|reflexivity]).
  assert (p = EmptyString -> ends_underscore (String c p')) as NUL.
  { unfold p. destruct (Ascii.eqb_spec c underscore) as [->|]; [intros ->; by exists EmptyString|discriminate]. }
  destruct p as [|d q]; [by apply NUL|]. destruct (extension _ i) as [j| | |] eqn:E; cbn [isa_bind]; try done.
  2:{ exfalso. clear -E. unfold extension, half_precision, vector_length, vector_elements, custom_extension in E.
      repeat case_match; discriminate. }
  assert (suffix_of (skip_name q) (String c p')) as SQ.
  { etrans; [apply skip_name_suffix|]. etrans; [apply suffix_cons|exact SP]. }
  specialize (IH (skip_name q)). cbv beta in IH.
  assert (String.length (skip_name q) < String.length (String c p'))%nat as LT.
  { pose proof (suffix_length _ _ SP). pose proof (suffix_length _ _ (skip_name_suffix q)). cbn in *. lia. }
  specialize (IH LT j (STEP _ _ _ Hi E)). destruct (names (skip_name q) j) as [[k r]| | |]; try done.
  - destruct IH as [? ?]. split; [done|]. by etrans.
  - by apply (suffix_ends _ _ SQ).
Qed.

Lemma find_subset_suffix c s : suffix_of (find_subset c s) s.
Proof.
  induction s as [|d s IH]; cbn; [reflexivity|]. destruct (Ascii.eqb d c); [reflexivity|].
  etrans; [apply IH|apply suffix_cons].
Qed.

Lemma find_subset_found c s : find_subset c s <> EmptyString -> strchr s c = true.
Proof.
  induction s as [|d s IH]; cbn [find_subset strchr]; [done|]. destruct (Ascii.eqb d c); [done|]. auto.
Qed.

Lemma strchr_suffix r s c : suffix_of r s -> strchr r c = true -> strchr s c = true.
Proof. intros [q ->]. rewrite strchr_app. intros ->. apply orb_true_r. Qed.

Lemma letters_ind (I : isa_parser_t -> Prop) :
  (forall c i, strchr all_subsets c = true -> I i -> I (single_letter c i)) ->
  forall p subset i, suffix_of subset all_subsets -> I i ->
    match letters p subset i with
    | Parsed (j, r) => I j /\ suffix_of r p
    | Bad_isa _ => True
    | _ => False
    end.
Proof.
  intros STEP. apply (string_length_ind (fun p => forall subset i, suffix_of subset all_subsets -> I i ->
    match letters p subset i with Parsed (j, r) => I j /\ suffix_of r p | Bad_isa _ => True | _ => False end)).
  intros [|c p] IH subset i S Hi; [by split|]. cbn [letters].
  destruct (islower c && _); [|by split]. destruct (String.eqb_spec (find_subset c subset) EmptyString) as [|N]; [done|].
  assert (suffix_of (skip_underscore (skip_version p)) p) as SP.
  { etrans; [apply skip_underscore_suffix|apply skip_version_suffix]. }
  specialize (IH (skip_underscore (skip_version p))). cbv beta in IH.
  assert (String.length (skip_underscore (skip_version p)) < String.length (String c p))%nat as LT.
  { pose proof (suffix_length _ _ SP). cbn. lia. }
  assert (strchr all_subsets c = true) as C by (apply (strchr_suffix _ _ _ S), find_subset_found, N).
  specialize (IH LT (find_subset c subset) (single_letter c i)).
  destruct (letters _ _ (single_letter c i)) as [[j r]| | |]; try (apply IH; [etrans; [apply find_subset_suffix|done]|auto]).
  destruct IH as [? R]; [etrans; [apply find_subset_suffix|done]|auto|]. split; [done|].
  etrans; [apply R|]. etrans; [apply SP|apply suffix_cons].
Qed.

(** The string behind the base is behind a word without underscores in [str]. *)
Lemma start_tail str i : start str = Parsed i ->
  exists a r, strdrop 5 (isa_string i) = a +:+ r /\ strchr a underscore = false /\ suffix_of r (strtolower str).
Proof.
  unfold start. destruct (xlen_of _) as [x|]; [|discriminate]. unfold base_isa. set (s := strtolower str). clearbody s.
  destruct (strdrop 4 s) as [|c r] eqn:D; [discriminate|].
  assert (suffix_of r s) as R.
  { etrans; [apply suffix_cons|]. rewrite <- D. apply strdrop_suffix. }
  do 4 (destruct s as [|? s]; [discriminate|]). cbn in D. subst s.
  destruct (Ascii.eqb c "g"); [|destruct (Ascii.eqb c "i"); [|destruct (Ascii.eqb c "e"); [|discriminate]]];
    injection 1 as <-; [exists "mafd"%string, r|exists EmptyString, r..]; done.
Qed.

Lemma finish_no_overread priv i : finish priv i <> Overread.
Proof.
  unfold finish. assert (forall rules k, check rules k <> Overread /\ check rules k <> Bad_priv) as C.
  { induction rules as [|[b t] rules IH]; intros k; [done|]. cbn. by destruct (b k). }
  pose proof (proj1 (C rules_before (groups i))). destruct (check rules_before _) as [j| | |]; cbn [isa_bind]; try done.
  pose proof (proj1 (C rules_after (half_moves j))). destruct (check rules_after _) as [k| | |]; cbn [isa_bind]; try done.
  assert (forall s b (r : isa_parser_t), (if b : bool then Bad_isa s else Parsed r) <> Overread) as F by (by intros ? []).
  unfold priv_modes. set (p := strtolower priv). destruct (String.eqb p "m"), (String.eqb p "mu"), (String.eqb p "msu"); cbn [isa_bind]; try apply F; done.
Qed.

(** C14. The parser reads behind the end of its string only when the string ends
    with an underscore; and it does so whenever an underscore follows a string with
    extensions of longer names that it accepts. *)
Theorem isa_overread str priv :
  (new_isa_parser str priv = Overread -> ends_underscore str) /\
  (forall base l i, str = base +:+ joined l -> strchr base underscore = false -> Forall name_ok l -> l <> [] ->
    new_isa_parser str priv = Parsed i -> new_isa_parser (str +:+ "_") priv = Overread).
Proof.
  split.
  - unfold new_isa_parser. destruct (start str) as [i| | |] eqn:S; cbn [isa_bind]; try done.
    2:{ unfold start in S. repeat case_match; discriminate. }
    destruct (start_tail str i S) as (a & r & D & A & R).
    pose proof (letters_ind (fun _ => True) ltac:(done) (strdrop 5 (isa_string i)) all_subsets i ltac:(reflexivity) ltac:(done)) as L.
    destruct (letters _ _ _) as [[j p]| | |]; try done. cbn [isa_bind fst snd]. destruct L as [_ L].
    pose proof (names_ind (fun _ => True) ltac:(done) p j ltac:(done)) as N.
    destruct (names p j) as [[k q]| | |]; try done; cbn [isa_bind fst snd].
    + destruct (negb _); [done|]. intros F. by apply finish_no_overread in F.
    + intros _. apply lower_underscore, (suffix_ends _ _ R), (drop_word _ _ A). rewrite <- D. by apply (suffix_ends _ _ L).
  - intros base l i -> B N NE E.
    assert (tail_ok l EmptyString) as T1 by (split; [done|by left]).
    assert (tail_ok l (String underscore EmptyString)) as T2 by (split; [done|by right]).
    rewrite app_assoc'. rewrite <- (app_nil (joined l)) in E. destruct (parse_word base B) as [F|(j & P & F)].
    + destruct (F l EmptyString priv T1) as [m E']. rewrite E' in E. discriminate.
    + destruct (F l _ priv T1) as [z1 E1], (F l _ priv T2) as [z2 E2].
      change "_"%string with (String underscore EmptyString). rewrite E2. rewrite E1 in E.
      destruct (extend_ws l z1 j P) as [(k & _ & X & Y)|(m & m' & X & Y)]; rewrite Y in E; [|discriminate].
      destruct (extend_ws l z2 j P) as [(k2 & _ & X2 & ->)|(m & m' & X2 & _)]; [done|congruence].
Qed.

(** * What an accepted string gives *)

Definition A_ := ext_letter "A".
Definition B_ := ext_letter "B".
Definition C_ := ext_letter "C".
Definition D_ := ext_letter "D".
Definition E_ := ext_letter "E".
Definition F_ := ext_letter "F".
Definition H_ := ext_letter "H".
Definition I_ := ext_letter "I".
Definition Q_ := ext_letter "Q".
Definition S_ := ext_letter "S".
Definition U_ := ext_letter "U".
Definition V_ := ext_letter "V".

(** Extensions that need others, and extensions that exclude each other. *)
Definition requires : list (Z * Z) := implied ++ [
  (D_, F_); (Q_, D_); (V_, D_); (H_, S_); (S_, U_);
  (A_, EXT_ZAAMO); (A_, EXT_ZALRSC); (B_, EXT_ZBA); (B_, EXT_ZBB); (B_, EXT_ZBS); (C_, EXT_ZCA);
  (EXT_ZCF, EXT_ZCA); (EXT_ZCD, EXT_ZCA); (EXT_ZCB, EXT_ZCA); (EXT_ZCMP, EXT_ZCA); (EXT_ZCMT, EXT_ZCA); (EXT_ZCLSD, EXT_ZCA);
  (EXT_ZCF, F_); (EXT_ZCD, D_); (EXT_ZCLSD, EXT_ZILSD);
  (EXT_ZFHMIN, F_); (EXT_ZFBFMIN, F_); (EXT_INTERNAL_ZFH_MOVE, F_); (EXT_ZVFBFWMA, EXT_ZFBFMIN); (EXT_ZVFBFWMA, EXT_ZVFBFMIN);
  (EXT_ZACAS, EXT_ZAAMO); (EXT_ZABHA, EXT_ZAAMO); (EXT_ZAWRS, EXT_ZALRSC); (EXT_ZICFISS, EXT_ZIMOP)].
Definition excludes : list (Z * Z) := [
  (I_, E_); (EXT_ZFINX, F_); (EXT_ZCLSD, EXT_ZCF); (EXT_ZCMP, EXT_ZCD); (EXT_ZCMT, EXT_ZCD)].
Definition rv32_only : list Z := [EXT_ZCF; EXT_ZILSD; EXT_ZCLSD].

Definition needs (i : isa_parser_t) '(a, b) : Prop := has a i = true -> has b i = true.
Definition apart (i : isa_parser_t) '(a, b) : Prop := has a i = true -> has b i = false.

Record isa_ok (i : isa_parser_t) : Prop := {
  ok_xlen : isa_max_xlen i = 32 \/ isa_max_xlen i = 64;
  ok_base : has I_ i = negb (has E_ i);
  ok_requires : Forall (needs i) requires;
  ok_excludes : Forall (apart i) excludes;
  ok_groups : has A_ i = has EXT_ZAAMO i && has EXT_ZALRSC i /\
    has B_ i = has EXT_ZBA i && has EXT_ZBB i && has EXT_ZBS i;
  ok_rv32 : Forall (fun a => has a i = true -> isa_max_xlen i = 32) rv32_only;
  ok_vlen : isa_vlen i = 0 \/ is_pow2 (isa_vlen i) 5 12;
  ok_elen : isa_elen i = 0 \/ isa_elen i = 32 \/ isa_elen i = 64;
  ok_elen_vlen : isa_elen i <= isa_vlen i;
  ok_v : has V_ i = true -> isa_zvd i = true /\ isa_elen i = 64 /\ 128 <= isa_vlen i;
  ok_zvf : isa_zvf i = true -> isa_elen i <> 0 /\ has F_ i = true;
  ok_zvd : isa_zvd i = true -> isa_zvf i = true;
  ok_zvfh : has EXT_ZVFHMIN i = true \/ has EXT_ZVFBFMIN i = true -> isa_zvf i = true;
  ok_misa : forall k, 0 <= k < 26 -> Z.testbit (isa_max_isa i) k = has (A_ + k) i;
  ok_mxl : Z.shiftr (isa_max_isa i) 26 = Z.shiftl (isa_max_xlen i / 32) (isa_max_xlen i - 28) }.

(** ** The loops keep an invariant *)

Record inv (i : isa_parser_t) : Prop := {
  inv_xlen : isa_max_xlen i = 32 \/ isa_max_xlen i = 64;
  inv_base : has I_ i = negb (has E_ i);
  inv_letters : needs i (D_, F_) /\ needs i (Q_, D_) /\ needs i (V_, D_);
  inv_implied : Forall (needs i) implied;
  inv_rv32 : has EXT_ZCF i = true \/ has EXT_ZILSD i = true -> isa_max_xlen i = 32;
  inv_zfhmin : has EXT_ZFHMIN i = true -> has F_ i = true \/ has EXT_ZVFH i = true;
  inv_move : has EXT_INTERNAL_ZFH_MOVE i = false;
  inv_v : has V_ i = true -> isa_zvd i = true /\ 64 <= isa_elen i /\ 128 <= isa_vlen i;
  inv_vector : vector_ok (isa_vlen i) (isa_elen i) (isa_zvf i) (isa_zvd i) }.

Lemma has_apply a e i : has a (apply e i) = has a i || Z.testbit (ef_mask e) a.
Proof. apply Z.lor_spec. Qed.

Lemma inv_extension n i j : inv i -> extension n i = Parsed j -> inv j.
Proof.
  intros [X B L M R Z G V VO] E. assert (positive i) as P.
  { destruct VO as [A1 A2 _ _ _]. split; [destruct A1 as [->|(k & K & ->)]; lia|lia]. }
  pose proof (extension_effect n i (proj1 P) (proj2 P)) as EF.
  destruct (effect_of _ _ _) as [e|] eqn:EO; [|destruct EF as [? ?]; congruence].
  assert (j = apply e i) as -> by congruence. clear E EF. pose proof (effect_of_ok _ _ _ _ EO) as [MO VE].
  assert (forall k, 0 <= k < 26 -> k <> 23 -> has (A_ + k) (apply e i) = has (A_ + k) i) as KEEP.
  { intros k K N. rewrite has_apply. unfold A_. rewrite (mask_no_letter _ _ _ k MO K N). apply orb_false_r. }
  pose proof (KEEP 8 ltac:(lia) ltac:(lia) : has I_ (apply e i) = has I_ i) as KI.
  pose proof (KEEP 4 ltac:(lia) ltac:(lia) : has E_ (apply e i) = has E_ i) as KE.
  pose proof (KEEP 3 ltac:(lia) ltac:(lia) : has D_ (apply e i) = has D_ i) as KD.
  pose proof (KEEP 5 ltac:(lia) ltac:(lia) : has F_ (apply e i) = has F_ i) as KF.
  pose proof (KEEP 16 ltac:(lia) ltac:(lia) : has Q_ (apply e i) = has Q_ i) as KQ.
  pose proof (KEEP 21 ltac:(lia) ltac:(lia) : has V_ (apply e i) = has V_ i) as KV.
  unfold mask_ok in MO. rewrite !andb_true_iff in MO. destruct MO as [[[[[[M1 M2] M3] M4] _] M5] _].
  split; unfold needs in *; rewrite ?KI, ?KE, ?KD, ?KF, ?KQ, ?KV; auto.
  - apply Forall_forall. intros [a b] I. rewrite forallb_forall in M1. specialize (M1 (a, b) (proj1 (list_elem_of_In _ _) I)).
    rewrite Forall_forall in M. specialize (M (a, b) I). cbn in M, M1 |- *. rewrite !has_apply, !orb_true_iff.
    destruct (Z.testbit (ef_mask e) a); cbn in M1; [auto|]. intros [H|?]; [auto|done].
  - rewrite !has_apply, !orb_true_iff. change (isa_max_xlen (apply e i)) with (isa_max_xlen i).
    destruct (Z.testbit (ef_mask e) EXT_ZCF), (Z.testbit (ef_mask e) EXT_ZILSD); cbn in M2, M3; try (intros; lia). naive_solver.
  - rewrite !has_apply, !orb_true_iff. destruct (Z.testbit (ef_mask e) EXT_ZFHMIN); cbn in M4; [|naive_solver].
    apply orb_true_iff in M4. change (ext_letter "F") with F_ in M4. naive_solver.
  - rewrite has_apply, G. by apply negb_true_iff.
  - intros H. destruct (V H) as (VD & ? & ?). cbn. rewrite VD. split; [done|]. lia.
  - by apply vector_join.
Qed.

Record letters_inv (i : isa_parser_t) : Prop := {
  li_xlen : isa_max_xlen i = 32 \/ isa_max_xlen i = 64;
  li_base : has I_ i = negb (has E_ i);
  li_letters : needs i (D_, F_) /\ needs i (Q_, D_) /\ needs i (V_, D_);
  li_long : forall e, 91 <= e -> has e i = false;
  li_v : has V_ i = true -> isa_zvd i = true /\ 64 <= isa_elen i /\ 128 <= isa_vlen i;
  li_vector : vector_ok (isa_vlen i) (isa_elen i) (isa_zvf i) (isa_zvd i) }.

Lemma full_vector : vector_ok 128 64 true true.
Proof. split; auto; [|lia..]. right. exists 7. split; [lia|reflexivity]. Qed.

Definition letter_bits (c : ascii) : list Z :=
  (if Ascii.eqb c "v" || Ascii.eqb c "q" then [D_] else []) ++
  (if Ascii.eqb c "v" || Ascii.eqb c "q" || Ascii.eqb c "d" then [F_] else []) ++ [ext_letter (toupper c)].

Lemma code_range c : 0 <= ext_letter c.
Proof. unfold ext_letter. lia. Qed.

Lemma has_single c e i : 0 <= e -> has e (single_letter c i) = has e i || existsb (Z.eqb e) (letter_bits c).
Proof.
  intros E. unfold single_letter, letter_bits. pose proof (code_range (toupper c)).
  change D_ with (ext_letter "D"). change F_ with (ext_letter "F").
  pose proof (code_range "D"). pose proof (code_range "F").
  destruct (Ascii.eqb c "v"), (Ascii.eqb c "q"), (Ascii.eqb c "d"); cbn [orb app existsb]; rewrite !has_put by done;
    repeat match goal with |- context [?a =? ?b] => destruct (a =? b) end; rewrite ?orb_true_r, ?orb_false_r; done.
Qed.

Lemma vector_single c i :
  let j := single_letter c i in
  isa_max_xlen j = isa_max_xlen i /\
  if Ascii.eqb c "v" then isa_vlen j = 128 /\ isa_elen j = 64 /\ isa_zvf j = true /\ isa_zvd j = true
  else isa_vlen j = isa_vlen i /\ isa_elen j = isa_elen i /\ isa_zvf j = isa_zvf i /\ isa_zvd j = isa_zvd i.
Proof. unfold single_letter. by destruct (Ascii.eqb c "v"), (Ascii.eqb c "q"), (Ascii.eqb c "d"). Qed.

Lemma letters_step c i : strchr all_subsets c = true -> letters_inv i -> letters_inv (single_letter c i).
Proof.
  intros C [X B (L1 & L2 & L3) G V VO]. unfold needs in *.
  assert (In c ["m"; "a"; "f"; "d"; "q"; "c"; "b"; "p"; "v"; "h"]%char) as IN.
  { revert C. cbn [strchr all_subsets]. rewrite !orb_true_iff, !Ascii.eqb_eq. cbn [In]. intuition congruence. }
  clear C. destruct (vector_single c i) as [VX VS].
  assert (forall e, 91 <= e -> existsb (Z.eqb e) (letter_bits c) = false) as LONG.
  { intros e E. apply not_true_iff_false. rewrite existsb_exists. intros (k & K & ->%Z.eqb_eq).
    repeat (destruct IN as [<-|IN]; [vm_compute in K; intuition lia|]). done. }
  split; unfold needs; rewrite ?has_single by (vm_compute; discriminate).
  - by rewrite VX.
  - repeat (destruct IN as [<-|IN]; [vm_compute existsb; by rewrite !orb_false_r|]). done.
  - repeat (destruct IN as [<-|IN]; [vm_compute existsb; rewrite ?orb_false_r, ?orb_true_r; auto|]). done.
  - intros e E. rewrite has_single, G, LONG by lia. done.
  - destruct (Ascii.eqb_spec c "v") as [->|N].
    + destruct VS as (-> & -> & _ & ->). lia.
    + destruct VS as (-> & -> & _ & ->).
      repeat (destruct IN as [<-|IN]; [vm_compute existsb; rewrite ?orb_false_r; auto; done|]). done.
  - destruct (Ascii.eqb c "v"); destruct VS as (-> & -> & -> & ->); [apply full_vector|done].
Qed.

Lemma start_inv str i : start str = Parsed i -> letters_inv i.
Proof.
  unfold start. destruct (xlen_of _) as [x|] eqn:X; [|discriminate].
  assert (x = 32 \/ x = 64) as XX by (unfold xlen_of in X; repeat case_match; naive_solver).
  unfold base_isa. destruct (strdrop 4 _) as [|c r]; [discriminate|].
  assert (forall (b : bool) s, letters_inv (put (if b then I_ else E_) true (mk_isa x 0 0 0 false false 0 s ∅))) as K.
  { intros b s. split; [done|by destruct b|repeat split; destruct b; vm_compute; congruence| |destruct b; vm_compute; congruence|apply vector_none].
    intros e E. rewrite has_put by (try lia; by destruct b). rewrite (proj2 (Z.eqb_neq _ _)); [apply Z.bits_0|].
    destruct b; [change I_ with 73|change E_ with 69]; lia. }
  destruct (Ascii.eqb c "g"); [|destruct (Ascii.eqb c "i"); [|destruct (Ascii.eqb c "e"); [|discriminate]]];
    injection 1 as <-; [apply (K true)|apply (K true)|apply (K false)].
Qed.

Lemma letters_inv_inv i : letters_inv i -> inv i.
Proof.
  intros [X B L G V VO]. split; auto.
  - apply Forall_forall. intros [a b] I H. exfalso. cbn in H. enough (91 <= a) as K by (rewrite G in H; done).
    assert (forallb (fun '(a, b) => 91 <=? a) implied = true) as F by reflexivity.
    rewrite forallb_forall in F. specialize (F (a, b) (proj1 (list_elem_of_In _ _) I)). cbn in F. lia.
  - rewrite !G by (vm_compute; discriminate). intros []; done.
  - rewrite G by (vm_compute; discriminate). done.
  - by apply G.
Qed.

Lemma parser_inv str priv i : new_isa_parser str priv = Parsed i -> exists j, inv j /\ finish priv j = Parsed i.
Proof.
  unfold new_isa_parser. destruct (start str) as [a| | |] eqn:S; cbn [isa_bind]; try done.
  pose proof (letters_ind letters_inv letters_step (strdrop 5 (isa_string a)) all_subsets a ltac:(reflexivity) (start_inv _ _ S)) as L.
  destruct (letters _ _ _) as [[b p]| | |]; try done. cbn [isa_bind fst snd]. destruct L as [L _].
  pose proof (names_ind inv inv_extension p b (letters_inv_inv _ L)) as N.
  destruct (names p b) as [[j q]| | |]; try done; cbn [isa_bind fst snd]. destruct (negb _); [done|].
  exists j. split; [apply N|done].
Qed.

(** ** The rules make it consistent *)

Lemma has_enable e es i : 0 <= e -> has e (enable es i) = has e i || existsb (Z.eqb e) es.
Proof.
  intros E. rewrite enable_mask. unfold has, bitset_test. cbn. rewrite Z.lor_spec. f_equal.
  induction es as [|a es IH]; [by rewrite Z.bits_0|]. unfold mask_of. cbn [fold_left existsb].
  rewrite fold_lor, !Z.lor_spec, IH, Z.bits_0. cbn. f_equal. unfold bit_of. rewrite Z.shiftl_spec by done.
  destruct (Z.eqb_spec e a) as [->|N]; [by rewrite Z.sub_diag|].
  change 1 with (2 ^ 0). apply Z.pow2_bits_false. lia.
Qed.

Definition a_bits (i : isa_parser_t) : list Z :=
  if has A_ i then [EXT_ZAAMO; EXT_ZALRSC] else if has EXT_ZAAMO i && has EXT_ZALRSC i then [A_] else [].
Definition b_bits (i : isa_parser_t) : list Z :=
  if has B_ i then [EXT_ZBA; EXT_ZBB; EXT_ZBS] else if has EXT_ZBA i && has EXT_ZBB i && has EXT_ZBS i then [B_] else [].
Definition c_bits (i : isa_parser_t) : list Z :=
  if has C_ i then EXT_ZCA :: (if has F_ i && (isa_max_xlen i =? 32) then [EXT_ZCF] else []) ++ (if has D_ i then [EXT_ZCD] else [])
  else [].

Lemma groups_enable i : groups i = enable (a_bits i ++ b_bits i ++ c_bits i) i.
Proof.
  unfold enable. rewrite !fold_left_app. fold (enable (a_bits i) i). unfold groups.
  assert (forall k, (if has A_ k then enable [EXT_ZAAMO; EXT_ZALRSC] k
    else if has EXT_ZAAMO k && has EXT_ZALRSC k then put A_ true k else k) = enable (a_bits k) k) as GA.
  { intros k. unfold a_bits. destruct (has A_ k); [done|by destruct (_ && _)]. }
  assert (forall k, (if has B_ k then enable [EXT_ZBA; EXT_ZBB; EXT_ZBS] k
    else if has EXT_ZBA k && has EXT_ZBB k && has EXT_ZBS k then put B_ true k else k) = enable (b_bits k) k) as GB.
  { intros k. unfold b_bits. destruct (has B_ k); [done|by destruct (_ && _)]. }
  cbv zeta. change (ext_letter "A") with A_. change (ext_letter "B") with B_. change (ext_letter "C") with C_.
  change (ext_letter "D") with D_. change (ext_letter "F") with F_. rewrite GA, GB.
  assert (forall e, In e [B_; EXT_ZBA; EXT_ZBB; EXT_ZBS; C_; F_; D_] -> has e (enable (a_bits i) i) = has e i) as KA.
  { intros e I. rewrite has_enable by (repeat (destruct I as [<-|I]; [done|]); done).
    unfold a_bits. repeat (destruct I as [<-|I]; [destruct (has A_ i); [|destruct (_ && _)]; apply orb_false_r|]). done. }
  assert (b_bits (enable (a_bits i) i) = b_bits i) as -> by (unfold b_bits; by rewrite !KA by (cbn; tauto)).
  set (k := enable (b_bits i) (enable (a_bits i) i)).
  assert (forall e, In e [C_; F_; D_] -> has e k = has e i) as KB.
  { intros e I. unfold k. rewrite has_enable by (repeat (destruct I as [<-|I]; [done|]); done). rewrite KA by (cbn in *; tauto).
    unfold b_bits. repeat (destruct I as [<-|I]; [destruct (has B_ i); [|destruct (_ && _)]; apply orb_false_r|]). done. }
  assert (isa_max_xlen k = isa_max_xlen i) as KX by (unfold k; by rewrite !enable_mask).
  change (fold_left _ (b_bits i) (enable (a_bits i) i)) with k. unfold c_bits. rewrite (KB C_) by (cbn; tauto).
  destruct (has C_ i); [|done].
  assert (has F_ (put EXT_ZCA true k) = has F_ i) as -> by (rewrite has_put by done; apply KB; cbn; tauto).
  change (isa_max_xlen (put EXT_ZCA true k)) with (isa_max_xlen k). rewrite KX.
  assert (forall b : bool, has D_ (if b then put EXT_ZCF true (put EXT_ZCA true k) else put EXT_ZCA true k) = has D_ i) as KD.
  { intros []; rewrite !has_put by done; apply KB; cbn; tauto. }
  rewrite KD. by destruct (has F_ i && _), (has D_ i).
Qed.

Lemma check_passed rules i j : check rules i = Parsed j -> j = i /\ Forall (fun r => fst r i = false) rules.
Proof.
  induction rules as [|[b t] rules IH]; cbn; [injection 1 as ->; auto|]. destruct (b i) eqn:E; [discriminate|].
  intros H. destruct (IH H) as [-> F]. auto.
Qed.

(** What [finish] makes of an object: the bits it adds, and the tests it passed. *)
Record finished (priv : string) (j i : isa_parser_t) : Prop := {
  fi_same : isa_max_xlen i = isa_max_xlen j /\ isa_vlen i = isa_vlen j /\ isa_elen i = isa_elen j /\
    isa_zvf i = isa_zvf j /\ isa_zvd i = isa_zvd j;
  fi_bits : forall e, 0 <= e -> e <> U_ -> e <> S_ -> e <> EXT_INTERNAL_ZFH_MOVE ->
    has e i = has e j || existsb (Z.eqb e) (a_bits j ++ b_bits j ++ c_bits j);
  fi_move : has EXT_INTERNAL_ZFH_MOVE i = has EXT_INTERNAL_ZFH_MOVE j || (has EXT_ZFBFMIN i || has EXT_ZFHMIN i);
  fi_modes : (has S_ i = true -> has U_ i = true) /\ (has H_ i = true -> has S_ i = true);
  fi_before : Forall (fun r => fst r i = false) rules_before;
  fi_after : Forall (fun r => fst r i = false) rules_after;
  fi_misa : isa_max_isa i = misa_letters (extension_table i) (if isa_max_xlen i =? 32 then Z.shiftl 1 30 else Z.shiftl 2 62) }.

(** The rules look at neither the modes nor the moves. *)
Lemma rules_same i k :
  isa_max_xlen i = isa_max_xlen k -> isa_vlen i = isa_vlen k -> isa_elen i = isa_elen k -> isa_zvf i = isa_zvf k -> isa_zvd i = isa_zvd k ->
  (forall e, 0 <= e -> e <> U_ -> e <> S_ -> e <> EXT_INTERNAL_ZFH_MOVE -> has e i = has e k) ->
  Forall (fun r => fst r i = fst r k) (rules_before ++ rules_after).
Proof.
  intros X V E ZF ZD H. unfold rules_before, rules_after. cbn [app].
  repeat first [apply Forall_nil_2 | apply Forall_cons_2]; cbn [fst]; rewrite ?H, ?V, ?E, ?ZF, ?ZD by (vm_compute; congruence); done.
Qed.

Lemma finish_finished priv j i : finish priv j = Parsed i -> finished priv j i.
Proof.
  unfold finish. rewrite groups_enable. set (g := enable _ j).
  destruct (check rules_before g) as [g'| | |] eqn:B; cbn [isa_bind]; try done. apply check_passed in B as [-> B].
  set (h := half_moves g). destruct (check rules_after h) as [h'| | |] eqn:A; cbn [isa_bind]; try done.
  apply check_passed in A as [-> A]. destruct (priv_modes priv) as [[u s]| | |] eqn:P; cbn [isa_bind fst snd]; try done.
  set (l := put (ext_letter "S") s (put (ext_letter "U") u h)).
  destruct (has (ext_letter "H") l && negb s) eqn:HS; [discriminate|]. injection 1 as <-.
  assert (forall x e, has e (set_max_isa x l) = has e l) as SM by done.
  assert (forall e, 0 <= e -> e <> U_ -> e <> S_ -> has e l = has e h) as LH.
  { intros e E N1 N2. unfold l. rewrite !has_put by done. fold S_ U_.
    by rewrite (proj2 (Z.eqb_neq _ _) N2), (proj2 (Z.eqb_neq _ _) N1). }
  assert (forall e, 0 <= e -> e <> EXT_INTERNAL_ZFH_MOVE -> has e h = has e g) as HG.
  { intros e E N. unfold h, half_moves. destruct (_ || _); [|done]. rewrite has_put by done. by rewrite (proj2 (Z.eqb_neq _ _) N). }
  assert (forall k, k = h \/ k = g -> isa_max_xlen l = isa_max_xlen k /\ isa_vlen l = isa_vlen k /\ isa_elen l = isa_elen k /\
    isa_zvf l = isa_zvf k /\ isa_zvd l = isa_zvd k) as SAME.
  { intros k [->| ->]; [done|]. unfold l, h, half_moves. by destruct (_ || _). }
  assert (forall k x, k = h \/ k = g -> Forall (fun r => fst r (set_max_isa x l) = fst r k) (rules_before ++ rules_after)) as RS.
  { intros k x K. destruct (SAME k K) as (? & ? & ? & ? & ?). apply rules_same; auto.
    intros e E N1 N2 N3. rewrite SM, LH by done. destruct K as [->| ->]; auto. }
  split.
  - pose proof (SAME g (or_intror eq_refl)) as SG. assert (g = set_table (extension_table g) j) as GJ.
    { unfold g. by rewrite enable_mask. }
    rewrite GJ in SG. exact SG.
  - intros e E N1 N2 N3. rewrite SM, LH, HG by done. by apply has_enable.
  - rewrite !SM, !LH by (vm_compute; congruence). rewrite (HG EXT_ZFBFMIN), (HG EXT_ZFHMIN) by (vm_compute; congruence).
    unfold h, half_moves. assert (has EXT_INTERNAL_ZFH_MOVE g = has EXT_INTERNAL_ZFH_MOVE j) as GJ.
    { unfold g. rewrite has_enable by done. unfold a_bits, b_bits, c_bits. by repeat case_match; rewrite orb_false_r. }
    destruct (_ || _); [rewrite has_put by done; by rewrite orb_true_r|by rewrite orb_false_r].
  - rewrite !SM. assert (has S_ l = s) as HSS by (unfold l; by rewrite has_put by done).
    assert (has U_ l = u) as HUU by (unfold l; by rewrite !has_put by done). rewrite HSS, HUU. split.
    + intros ->. unfold priv_modes in P. repeat case_match; naive_solver.
    + change (ext_letter "H") with H_ in HS. intros X. rewrite X in HS. by destruct s.
  - pose proof (RS g (misa_letters (extension_table l) (if isa_max_xlen l =? 32 then Z.shiftl 1 30 else Z.shiftl 2 62)) (or_intror eq_refl)) as R.
    apply Forall_app in R as [R _]. clear -R B. revert R B. rewrite !Forall_forall. intros R B r I. by rewrite R, B.
  - pose proof (RS h (misa_letters (extension_table l) (if isa_max_xlen l =? 32 then Z.shiftl 1 30 else Z.shiftl 2 62)) (or_introl eq_refl)) as R.
    apply Forall_app in R as [_ R]. clear -R A. revert R A. rewrite !Forall_forall. intros R A r I. by rewrite R, A.
  - done.
Qed.

Lemma misa_bit table m n : 0 <= n ->
  Z.testbit (misa_letters table m) n = Z.testbit m n || ((n <? 26) && bitset_test table (A_ + n)).
Proof.
  intros N. unfold misa_letters.
  assert (forall l m, Forall (fun k => 0 <= k) l ->
    Z.testbit (fold_left (fun m k => if bitset_test table (ext_letter "A" + k) then m .| Z.shiftl 1 k else m) l m) n =
    Z.testbit m n || existsb (fun k => bitset_test table (A_ + k) && (n =? k)) l) as F.
  { clear m. induction l as [|k l IH]; intros m P; cbn; [by rewrite orb_false_r|]. apply Forall_cons in P as [K P].
    rewrite IH by done. change (ext_letter "A") with A_. destruct (bitset_test table (A_ + k)); [|done].
    cbn. rewrite Z.lor_spec, <- orb_assoc. f_equal. f_equal. destruct (Z.eqb_spec n k) as [->|D].
    - rewrite Z.shiftl_spec, Z.sub_diag by done. done.
    - rewrite Z.shiftl_spec by done. change 1 with (2 ^ 0). apply Z.pow2_bits_false. lia. }
  rewrite F by (apply Forall_forall; intros k K; apply elem_of_seqZ in K; lia). f_equal.
  destruct (Z.ltb_spec n 26); cbn [andb].
  - destruct (bitset_test table (A_ + n)) eqn:B.
    + apply existsb_exists. exists n. rewrite B, Z.eqb_refl. split; [|done]. apply list_elem_of_In, elem_of_seqZ. lia.
    + apply not_true_iff_false. rewrite existsb_exists. intros (k & _ & [K ->%Z.eqb_eq]%andb_true_iff). congruence.
  - apply not_true_iff_false. rewrite existsb_exists. intros (k & I%list_elem_of_In%elem_of_seqZ & [K ->%Z.eqb_eq]%andb_true_iff). lia.
Qed.

(** Unit propagation of what is known of single extensions through the tests. *)
Ltac propagate := repeat match goal with
  | R : Forall _ (_ :: _) |- _ => apply Forall_cons in R as [? R]; cbn [fst] in *
  | R : (_ || _) = false |- _ => apply orb_false_iff in R as [? R]
  | R : negb _ = false |- _ => apply negb_false_iff in R
  | H : ?b = true, R : context [?b] |- _ => lazymatch type of R with b = true => fail | _ => rewrite H in R; cbn [andb orb negb] in R end
  | R : context [_ || true] |- _ => rewrite orb_true_r in R; cbn [andb orb] in R
  end.

(** The bits of the groups, from those before. *)
Lemma group_bits priv j i : finished priv j i ->
  (has A_ i = has A_ j || (has EXT_ZAAMO j && has EXT_ZALRSC j) /\
   has EXT_ZAAMO i = has EXT_ZAAMO j || has A_ j /\ has EXT_ZALRSC i = has EXT_ZALRSC j || has A_ j) /\
  (has B_ i = has B_ j || (has EXT_ZBA j && has EXT_ZBB j && has EXT_ZBS j) /\
   has EXT_ZBA i = has EXT_ZBA j || has B_ j /\ has EXT_ZBB i = has EXT_ZBB j || has B_ j /\ has EXT_ZBS i = has EXT_ZBS j || has B_ j) /\
  (has EXT_ZCA i = has EXT_ZCA j || has C_ j /\
   has EXT_ZCF i = has EXT_ZCF j || (has C_ j && has F_ j && (isa_max_xlen j =? 32)) /\
   has EXT_ZCD i = has EXT_ZCD j || (has C_ j && has D_ j)).
Proof.
  intros [_ BITS _ _ _ _ _].
  assert (forall e, 0 <= e -> e <> U_ -> e <> S_ -> e <> EXT_INTERNAL_ZFH_MOVE ->
    has e i = has e j || (existsb (Z.eqb e) (a_bits j) || (existsb (Z.eqb e) (b_bits j) || existsb (Z.eqb e) (c_bits j)))) as H.
  { intros. by rewrite BITS, !existsb_app. }
  assert (forall e, In e [A_; EXT_ZAAMO; EXT_ZALRSC; EXT_ZCA; EXT_ZCF; EXT_ZCD] -> existsb (Z.eqb e) (b_bits j) = false) as NB.
  { intros e I. unfold b_bits. repeat (destruct I as [<-|I]; [by repeat case_match|]). done. }
  assert (forall e, In e [B_; EXT_ZBA; EXT_ZBB; EXT_ZBS; EXT_ZCA; EXT_ZCF; EXT_ZCD] -> existsb (Z.eqb e) (a_bits j) = false) as NA.
  { intros e I. unfold a_bits. repeat (destruct I as [<-|I]; [by repeat case_match|]). done. }
  assert (forall e, In e [A_; EXT_ZAAMO; EXT_ZALRSC; B_; EXT_ZBA; EXT_ZBB; EXT_ZBS] -> existsb (Z.eqb e) (c_bits j) = false) as NC.
  { intros e I. unfold c_bits. repeat (destruct I as [<-|I]; [by repeat case_match|]). done. }
  repeat split; rewrite H by (vm_compute; congruence); rewrite ?NA, ?NB, ?NC by (cbn; tauto); cbn [orb]; rewrite ?orb_false_r;
    unfold a_bits, b_bits, c_bits.
  1-3: by destruct (has A_ j), (has EXT_ZAAMO j), (has EXT_ZALRSC j).
  1-4: by destruct (has B_ j), (has EXT_ZBA j), (has EXT_ZBB j), (has EXT_ZBS j).
  all: f_equal; by destruct (has C_ j), (has F_ j), (isa_max_xlen j =? 32), (has D_ j).
Qed.

Section accepted.
Context (priv : string) (j i : isa_parser_t) (J : inv j) (FI : finished priv j i).

(** No group, mode or move: the bit is as the loops left it. *)
Lemma same_bit e : 0 <= e ->
  existsb (Z.eqb e) [A_; EXT_ZAAMO; EXT_ZALRSC; B_; EXT_ZBA; EXT_ZBB; EXT_ZBS; EXT_ZCA; EXT_ZCF; EXT_ZCD; U_; S_; EXT_INTERNAL_ZFH_MOVE] = false ->
  has e i = has e j.
Proof.
  intros E O. cbn in O. rewrite !orb_false_iff, !Z.eqb_neq in O. rewrite (fi_bits _ _ _ FI) by tauto.
  assert (existsb (Z.eqb e) (a_bits j ++ b_bits j ++ c_bits j) = false) as ->; [|apply orb_false_r].
  apply not_true_iff_false. rewrite existsb_exists. intros (k & K & ->%Z.eqb_eq). rewrite !in_app_iff in K.
  unfold a_bits, b_bits, c_bits in K. repeat case_match; cbn in K; intuition congruence.
Qed.

Ltac same := rewrite !same_bit by (vm_compute; congruence).

Lemma accepted_groups :
  has A_ i = has EXT_ZAAMO i && has EXT_ZALRSC i /\ has B_ i = has EXT_ZBA i && has EXT_ZBB i && has EXT_ZBS i /\
  needs i (C_, EXT_ZCA).
Proof.
  destruct (group_bits _ _ _ FI) as ((-> & -> & ->) & (-> & -> & -> & ->) & (Ca & _)). unfold needs. rewrite Ca. same.
  split; [|split]; [..|intros ->; apply orb_true_r].
  - by destruct (has A_ j), (has EXT_ZAAMO j), (has EXT_ZALRSC j).
  - by destruct (has B_ j), (has EXT_ZBA j), (has EXT_ZBB j), (has EXT_ZBS j).
Qed.

(** What the tests say. *)
Lemma accepted_rules :
  Forall (needs i) [(EXT_ZCF, EXT_ZCA); (EXT_ZCD, EXT_ZCA); (EXT_ZCB, EXT_ZCA); (EXT_ZCMP, EXT_ZCA); (EXT_ZCMT, EXT_ZCA);
    (EXT_ZCLSD, EXT_ZCA); (EXT_ZCF, F_); (EXT_ZCD, D_); (EXT_ZCLSD, EXT_ZILSD); (EXT_ZFBFMIN, F_);
    (EXT_ZVFBFWMA, EXT_ZFBFMIN); (EXT_ZVFBFWMA, EXT_ZVFBFMIN); (EXT_ZACAS, EXT_ZAAMO); (EXT_ZABHA, EXT_ZAAMO);
    (EXT_ZAWRS, EXT_ZALRSC); (EXT_ZICFISS, EXT_ZIMOP)] /\
  Forall (apart i) [(EXT_ZFINX, F_); (EXT_ZCLSD, EXT_ZCF); (EXT_ZCMP, EXT_ZCD); (EXT_ZCMT, EXT_ZCD)] /\
  (has EXT_ZVFHMIN i = true \/ has EXT_ZVFBFMIN i = true -> isa_zvf i = true) /\
  (has EXT_ZVFH i = true -> isa_zvf i = true) /\ (isa_zvf i = true -> has F_ i = true) /\
  (isa_zvd i = true -> has D_ i = true \/ 64 <= isa_elen i) /\ isa_vlen i <= 4096.
Proof.
  destruct FI as [_ _ _ _ RB RA _]. clear FI. unfold rules_before, rules_after in *. propagate.
  change (ext_letter "D") with D_ in *. change (ext_letter "F") with F_ in *.
  repeat first [apply Forall_nil_2 | apply Forall_cons_2 | split]; unfold needs, apart;
    try (intros ?; propagate; first [done | by apply not_true_iff_false; intros ?; propagate]).
  - intros []; propagate; done.
  - intros ?. propagate. destruct (has D_ i); [by left|right]. propagate. cbn in *. lia.
  - lia.
Qed.
End accepted.

Lemma needs_weaken i k l : (forall e, In e (map fst l ++ map snd l) -> has e i = has e k) -> Forall (needs k) l -> Forall (needs i) l.
Proof.
  intros S. rewrite !Forall_forall. intros F [a b] I. unfold needs. apply list_elem_of_In in I as I'.
  rewrite !S by (apply in_app_iff; (left; by apply (in_map fst _ (a, b))) || (right; by apply (in_map snd _ (a, b)))).
  apply (F (a, b) I).
Qed.

Lemma accepted_ok priv j i : inv j -> finished priv j i -> isa_ok i.
Proof.
  intros J FI. destruct (accepted_groups priv j i FI) as (GA & GB & GC).
  destruct (accepted_rules priv j i FI) as (RN & RX & RV & RH & RF & _ & RL).
  pose proof (same_bit priv j i FI) as SAME.
  destruct J as [X B (L1 & L2 & L3) M R Z G V VO]. destruct VO as [V1 V2 V3 V4 V5].
  pose proof (fi_same _ _ _ FI) as (SX & SV & SE & SF & SD). rewrite <- SV, <- SE, <- SF, <- SD in *. rewrite <- SX in *.
  assert (Forall (needs i) implied) as IM.
  { apply (needs_weaken i j); [|done]. intros e I. apply SAME.
    all: unfold implied in I; cbn in I; repeat (destruct I as [<-|I]; [done|]); done. }
  assert (forall a b, In (a, b) implied -> has a i = true -> has b i = true) as IMP.
  { intros a b I. rewrite Forall_forall in IM. apply (IM (a, b)). by apply list_elem_of_In. }
  assert (forall e, In e [D_; F_; Q_; V_; I_; E_; EXT_ZILSD; EXT_ZCLSD; EXT_ZFHMIN; EXT_ZVFH; H_] -> has e i = has e j) as KEEP.
  { intros e I. apply SAME; cbn in I; repeat (destruct I as [<-|I]; [done|]); done. }
  unfold needs in L1, L2, L3. 
  repeat match goal with H : context [has ?e j] |- _ => rewrite <- (KEEP e) in H by (cbn; repeat first [by left | right]) end.
  assert (has EXT_ZFHMIN i = true -> has F_ i = true) as HALF.
  { intros H. destruct (Z H) as [?|Y]; [done|]. by apply RF, RH. }
  assert (has EXT_ZFBFMIN i = true -> has F_ i = true) as BF.
  { rewrite Forall_forall in RN. apply (RN (EXT_ZFBFMIN, F_)). apply list_elem_of_In. cbn. tauto. }
  destruct (group_bits _ _ _ FI) as (_ & _ & (_ & ZCF & _)).
  assert (has EXT_ZCF i = true -> isa_max_xlen i = 32) as RV32.
  { rewrite ZCF, orb_true_iff, !andb_true_iff, <- SX. intros [?|[_ ?%Z.eqb_eq]]; auto. }
  assert (has EXT_ZILSD i = true -> isa_max_xlen i = 32) as RVL by auto.
  destruct (fi_modes _ _ _ FI) as [SU HS]. pose proof (fi_move _ _ _ FI) as MV. rewrite G in MV. cbn [orb] in MV.
  repeat match goal with H : Forall _ (_ :: _) |- _ => apply Forall_cons in H as [? H] end.
  unfold needs, apart in *. split; auto.
  - unfold requires. rewrite Forall_app. split; [done|].
    repeat first [apply Forall_nil_2 | apply Forall_cons_2]; unfold needs; auto.
    1,2: rewrite GA; by intros [? ?]%andb_true_iff.
    1-3: rewrite GB; by intros [[? ?]%andb_true_iff ?]%andb_true_iff.
    rewrite MV, orb_true_iff. intros []; auto.
  - repeat first [apply Forall_nil_2 | apply Forall_cons_2]; auto.
    unfold apart. rewrite B. by destruct (has E_ i).
  - repeat first [apply Forall_nil_2 | apply Forall_cons_2]; auto.
  - destruct V1 as [?|(k & K & E)]; [by left|right]. exists k. split; [|done]. split; [lia|].
    destruct (Z.le_gt_cases k 12) as [?|L]; [done|]. exfalso. assert (2 ^ 13 <= 2 ^ k) by (apply Z.pow_le_mono_r; lia). lia.
  - intros Y. destruct (V Y) as (? & ? & ?). split; [done|]. lia.
  - intros k K. rewrite (fi_misa _ _ _ FI), misa_bit by lia. rewrite (proj2 (Z.ltb_lt _ _)) by lia. cbn [andb].
    change (Z.shiftl 1 30) with (2 ^ 30). change (Z.shiftl 2 62) with (2 ^ 63).
    by destruct X as [->| ->]; cbn [Z.eqb Pos.eqb]; rewrite Z.pow2_bits_false by lia.
  - rewrite (fi_misa _ _ _ FI). apply Z.bits_inj'. intros k K. rewrite Z.shiftr_spec, misa_bit by lia.
    rewrite (proj2 (Z.ltb_ge _ _)) by lia. cbn [andb]. rewrite orb_false_r, <- Z.shiftr_spec by lia. f_equal.
    by destruct X as [->| ->].
Qed.


(** The vector unit of a machine configured by an accepted string with vector
    elements is one for which the theorems on the vector unit hold. *)
Theorem isa_vector_unit str priv i c :
  new_isa_parser str priv = Parsed i -> isa_elen i <> 0 -> @vector_config (configure i c).
Proof.
  intros (j & J & F)%parser_inv N. apply finish_finished in F.
  destruct (accepted_ok priv j i J F) as [_ _ _ _ _ _ V E L _ _ _ _ _ _]. split; unfold VLEN, ELEN; cbn.
  - destruct V as [V|(k & K & ->)]; [lia|]. exists k. split; [lia|done].
  - destruct E as [E|E]; [done|done].
  - done.
Qed.

(** * Witnesses *)

Definition base_string : string := "rv64gcv".

Lemma isa_order_irrelevant_witness :
  agree (new_isa_parser "rv64gcv_zba_zvl256b_zce_xfoo" "MSU") (new_isa_parser "rv64gcv_xfoo_zce_zvl256b_zba" "MSU").
Proof.
  apply (isa_order_irrelevant base_string ["zba"; "zvl256b"; "zce"; "xfoo"]%string ["xfoo"; "zce"; "zvl256b"; "zba"]%string "MSU").
  - reflexivity.
  - repeat constructor; eauto.
  - apply (Permutation_rev ["zba"; "zvl256b"; "zce"; "xfoo"]%string).
Defined.

Definition parsed (str priv : string) : isa_parser_t :=
  match new_isa_parser str priv with Parsed i => i | _ => mk_isa 0 0 0 0 false false 0 EmptyString ∅ end.

Lemma isa_overread_witness : new_isa_parser "rv64im_zba_" "MU" = Overread /\ ends_underscore "rv64im_zba_".
Proof.
  split.
  - destruct (isa_overread "rv64im_zba" "MU") as [_ H].
    apply (H "rv64im" ["zba"]%string (parsed "rv64im_zba" "MU")); [reflexivity|reflexivity|repeat constructor; eauto|done|vm_compute; reflexivity].
  - destruct (isa_overread "rv64im_zba_" "MU") as [H _]. apply H. vm_compute. reflexivity.
Defined.


(** The test that vectors of doubles require [D] asks for [elen < 64] too, so that
    [Zve64d] is accepted without [D]; and [zve32d], doubles in elements of 32 bits, is a
    name the parser knows. *)
Lemma zvd_without_D :
  (exists i, new_isa_parser "RV64IF_zve64d" "msu" = Parsed i /\ isa_zvd i = true /\ has D_ i = false) /\
  (exists i, new_isa_parser "RV64GC_zve32d" "msu" = Parsed i /\ isa_zvd i = true /\ isa_elen i = 32).
Proof.
  split; [exists (parsed "RV64IF_zve64d" "msu")|exists (parsed "RV64GC_zve32d" "msu")];
    (split; [vm_compute; reflexivity|split; vm_compute; reflexivity]).
Qed.

Lemma isa_vector_unit_witness : @vector_config (configure (parsed "RV64GCV_zvl256b" "msu") demo_config).
Proof. apply (isa_vector_unit "RV64GCV_zvl256b" "msu"); [vm_compute; reflexivity|vm_compute; discriminate]. Defined.
