(* ===== verification/CacheFacts.v ===== *)
(** The cache simulator: what a level answers and asks of the next, as an abstract
    map from lines to dirty bits; its counters; and two levels together. *)

From S2P Require Import Prelude CacheSim.

(** * Words of the tag store *)

Definition word (line : Z) (d : bool) : Z := line .| VALID .| (if d then DIRTY else 0).

(** The line and the dirty bit of a valid word. *)
Definition entry_of (w : Z) : option (Z * bool) :=
  if Z.testbit w 63 then Some (w .& Z.ones 62, Z.testbit w 62) else None.

Definition words (c : cache_sim_t) : list Z := match tags c with Array ws => ws | Map es => map snd es end.
Definition contents (c : cache_sim_t) : gmap Z bool := list_to_map (omap entry_of (words c)).

Definition is_line (c : cache_sim_t) (line : Z) : Prop := 0 <= line < 2 ^ (64 - idx_shift c).

Lemma valid_bit i : Z.testbit VALID i = (i =? 63).
Proof. change VALID with (2 ^ 63). rewrite Z.pow2_bits_eqb by lia. lia. Qed.
Lemma dirty_bit i : Z.testbit DIRTY i = (i =? 62).
Proof. change DIRTY with (2 ^ 62). rewrite Z.pow2_bits_eqb by lia. lia. Qed.

#[local] Hint Rewrite valid_bit dirty_bit : zbits.

Lemma word_bit line d i : 0 <= line < 2 ^ 61 -> 0 <= i ->
  Z.testbit (word line d) i = (if i <? 61 then Z.testbit line i else (i =? 63) || (d && (i =? 62))).
Proof.
  intros L I. unfold word. autorewrite with zbits. destruct (Z.ltb_spec i 61).
  - rewrite (proj2 (Z.eqb_neq i 63)), (proj2 (Z.eqb_neq i 62)) by lia. destruct d; by rewrite ?Z.bits_0, !orb_false_r.
  - rewrite (tb_high 61 line i) by lia. destruct d; rewrite ?Z.bits_0; cbn; by rewrite ?orb_false_r.
Qed.

Lemma entry_of_word line d : 0 <= line < 2 ^ 61 -> entry_of (word line d) = Some (line, d).
Proof.
  intros L. unfold entry_of. rewrite !word_bit by lia. cbn. f_equal. f_equal; [|by destruct d].
  apply Z.bits_inj'. intros i I. rewrite Z.land_spec, word_bit, Z.testbit_ones_nonneg by lia.
  destruct (Z.ltb_spec i 61), (Z.ltb_spec i 62); try lia; rewrite ?andb_true_r, ?andb_false_r; try done.
  - rewrite (tb_high 61 line i) by lia. replace (i =? 63) with false by lia. replace (i =? 62) with false by lia. by destruct d.
  - by rewrite (tb_high 61 line i) by lia.
Qed.

Lemma word_inj l1 d1 l2 d2 : 0 <= l1 < 2 ^ 61 -> 0 <= l2 < 2 ^ 61 -> word l1 d1 = word l2 d2 -> l1 = l2 /\ d1 = d2.
Proof. intros L1 L2 E. apply (f_equal entry_of) in E. rewrite !entry_of_word in E by done. by injection E. Qed.

Lemma word_clean line d : 0 <= line < 2 ^ 61 -> word line d &~ DIRTY = line .| VALID.
Proof.
  intros L. apply Z.bits_inj'. intros i I. rewrite Z.ldiff_spec, word_bit, Z.lor_spec, valid_bit, dirty_bit by lia.
  destruct (Z.ltb_spec i 61).
  - replace (i =? 62) with false by lia. replace (i =? 63) with false by lia. by rewrite andb_true_r, orb_false_r.
  - rewrite (tb_high 61 line i) by lia. destruct (Z.eqb_spec i 62) as [->|]; [by rewrite andb_false_r|].
    by rewrite andb_false_r, orb_false_r, andb_true_r.
Qed.

Lemma word_dirty line d : 0 <= line < 2 ^ 61 -> word line d .| DIRTY = word line true.
Proof.
  intros L. apply Z.bits_inj'. intros i I. rewrite Z.lor_spec, !word_bit, dirty_bit by lia.
  destruct (Z.ltb_spec i 61); [replace (i =? 62) with false by lia; apply orb_false_r|].
  destruct (i =? 63), d, (i =? 62); reflexivity.
Qed.

Lemma word_cleaned line d : 0 <= line < 2 ^ 61 -> word line d &~ DIRTY = word line false.
Proof. intros L. rewrite word_clean by done. unfold word. by rewrite Z.lor_0_r. Qed.

Lemma word_line line d : 0 <= line < 2 ^ 61 -> word line d &~ (VALID .| DIRTY) = line.
Proof.
  intros L. apply Z.bits_inj'. intros i I. rewrite Z.ldiff_spec, word_bit, Z.lor_spec, valid_bit, dirty_bit by lia.
  destruct (Z.ltb_spec i 61).
  - replace (i =? 62) with false by lia. replace (i =? 63) with false by lia. by rewrite andb_true_r.
  - rewrite (tb_high 61 line i) by lia. by destruct (i =? 63), d, (i =? 62).
Qed.

(** A victim is written back when it is valid and dirty. *)
Lemma dirty_victim_entry w : dirty_victim w = match entry_of w with Some (_, d) => d | None => false end.
Proof.
  unfold dirty_victim, entry_of.
  assert (w .& (VALID .| DIRTY) = (if Z.testbit w 63 then VALID else 0) .| (if Z.testbit w 62 then DIRTY else 0)) as ->.
  { apply Z.bits_inj'. intros i I. autorewrite with zbits.
    destruct (Z.eqb_spec i 63) as [->|N]; [|destruct (Z.eqb_spec i 62) as [->|N']].
    - destruct (Z.testbit w 63), (Z.testbit w 62); autorewrite with zbits; reflexivity.
    - destruct (Z.testbit w 63), (Z.testbit w 62); autorewrite with zbits; reflexivity.
    - rewrite andb_false_r. destruct (Z.testbit w 63), (Z.testbit w 62); autorewrite with zbits; lia. }
  by destruct (Z.testbit w 63), (Z.testbit w 62).
Qed.

(** * Well-formed caches *)

Record cache_ok (c : cache_sim_t) : Prop := {
  co_sets : exists a, 0 <= a <= 63 /\ sets c = 2 ^ a;
  co_linesz : 3 <= idx_shift c < 64 /\ linesz c = 2 ^ idx_shift c;
  co_ways : 0 < ways c;
  co_words : forall w, w ∈ words c -> Z.testbit w 63 = false \/ exists l d, is_line c l /\ w = word l d;
  co_unique : forall j k l d e, is_line c l -> words c !! j = Some (word l d) -> words c !! k = Some (word l e) -> j = k;
  co_tags : match tags c with
            | Array ws => Z.of_nat (length ws) = sets c * ways c /\
                forall k l d, is_line c l -> ws !! k = Some (word l d) -> Z.of_nat k / ways c = l mod sets c
            | Map es => sets c = 1 /\ Z.of_nat (length es) <= ways c /\
                forall k w, (k, w) ∈ es -> is_line c k /\ exists d, w = word k d
            end }.

Section cache.
Context (c : cache_sim_t) (OK : cache_ok c).

Lemma line_small l : is_line c l -> 0 <= l < 2 ^ 61.
Proof.
  destruct (co_linesz c OK) as [B _]. unfold is_line. intros [L U]. split; [done|].
  eapply Z.lt_le_trans; [exact U|]. apply Z.pow_le_mono_r; lia.
Qed.

Lemma line_of_range addr : 0 <= addr < 2 ^ 64 -> is_line c (line_of c addr).
Proof.
  intros A. destruct (co_linesz c OK) as [B _]. unfold is_line, line_of. rewrite Z.shiftr_div_pow2 by lia.
  split; [apply Z.div_pos; lia|]. apply Z.div_lt_upper_bound; [lia|]. rewrite <- Z.pow_add_r by lia.
  replace (idx_shift c + (64 - idx_shift c)) with 64 by lia. lia.
Qed.

Lemma line_addr_shift addr : line_addr addr c = Z.shiftl (line_of c addr) (idx_shift c).
Proof.
  destruct (co_linesz c OK) as [B E]. unfold line_addr, line_of. rewrite E.
  replace (2 ^ idx_shift c - 1) with (Z.ones (idx_shift c)) by (rewrite Z.ones_equiv; lia).
  by rewrite Z.ldiff_ones_r by lia.
Qed.

Lemma dirty_addr_shift l d : is_line c l -> dirty_addr (word l d) c = Z.shiftl l (idx_shift c).
Proof.
  intros L. unfold dirty_addr. rewrite word_line by (by apply line_small). apply wrap_small.
  destruct (co_linesz c OK) as [B _]. rewrite Z.shiftl_mul_pow2 by lia. unfold is_line in L.
  replace 64 with ((64 - idx_shift c) + idx_shift c) by lia. rewrite Z.pow_add_r by lia. nia.
Qed.

Lemma index_of_mod addr : index_of c addr = line_of c addr mod sets c.
Proof.
  unfold index_of. destruct (co_sets c OK) as (a & A & ->).
  replace (2 ^ a - 1) with (Z.ones a) by (rewrite Z.ones_equiv; lia). by rewrite Z.land_ones by lia.
Qed.

Lemma sets_pos : 0 < sets c.
Proof. destruct (co_sets c OK) as (a & A & ->). lia. Qed.

(** ** The abstract contents *)

Lemma contents_spec l d : contents c !! l = Some d <-> is_line c l /\ word l d ∈ words c.
Proof.
  unfold contents. split.
  - intros E%elem_of_list_to_map_2. apply list_elem_of_omap in E as (w & W & E).
    destruct (co_words c OK w W) as [N|(l' & d' & L & ->)]; [unfold entry_of in E; by rewrite N in E|].
    rewrite entry_of_word in E by (by apply line_small). injection E as -> ->. done.
  - intros [L W]. apply elem_of_list_to_map_1'.
    + intros e E. apply list_elem_of_omap in E as (w & W' & E).
      destruct (co_words c OK w W') as [N|(l' & d' & L' & ->)]; [unfold entry_of in E; by rewrite N in E|].
      rewrite entry_of_word in E by (by apply line_small). injection E as -> ->.
      apply list_elem_of_lookup in W as [j J], W' as [k K]. assert (j = k) as -> by (by eapply (co_unique c OK)).
      assert (word l d = word l e) as E by congruence. apply word_inj in E; [tauto|by apply line_small..].
    + apply list_elem_of_omap. exists (word l d). split; [done|]. by apply entry_of_word, line_small.
Qed.

Lemma contents_none l : is_line c l -> contents c !! l = None -> forall d, word l d ∉ words c.
Proof. intros L N d W. assert (contents c !! l = Some d) by (by apply contents_spec). congruence. Qed.

(** ** Finding a tag *)

Lemma find_way_spec ws base tag n : forall i,
  match find_way ws base tag i n with
  | Some k => exists t, ws !! k = Some t /\ tag = t &~ DIRTY /\ (Z.to_nat base + i <= k < Z.to_nat base + i + n)%nat
  | None => (Z.to_nat base + i + n <= length ws)%nat ->
      forall k t, (Z.to_nat base + i <= k < Z.to_nat base + i + n)%nat -> ws !! k = Some t -> tag <> t &~ DIRTY
  end.
Proof.
  induction n as [|n IH]; intros i; cbn [find_way]; [lia|].
  destruct (ws !! _) as [t|] eqn:W.
  - destruct (Z.eqb_spec tag (t &~ DIRTY)) as [E|N]; [exists t; split; [done|]; split; [done|lia]|].
    specialize (IH (S i)). destruct (find_way _ _ _ _ _) as [k|].
    + destruct IH as (t' & ? & ? & ?). exists t'. split; [done|]. split; [done|lia].
    + intros L k t' K E. destruct (decide (k = Z.to_nat base + i)%nat) as [->|]; [congruence|]. eapply IH; [lia| |done]. lia.
  - intros L. apply lookup_ge_None in W. lia.
Qed.

Lemma find_key_spec es key : forall i,
  match find_key es key i with
  | Some k => exists w, es !! (k - i)%nat = Some (key, w) /\ (i <= k)%nat
  | None => forall w, (key, w) ∉ es
  end.
Proof.
  induction es as [|[k w] es IH]; intros i; cbn [find_key]; [set_solver|].
  destruct (Z.eqb_spec k key) as [->|N]; [exists w; by rewrite Nat.sub_diag|].
  specialize (IH (S i)). destruct (find_key es key (S i)) as [p|].
  - destruct IH as (w' & E & L). exists w'. split; [|lia]. by replace (p - i)%nat with (S (p - S i)) by lia.
  - intros w' E. apply elem_of_cons in E as [E|E]; [congruence|]. by apply (IH w').
Qed.

(** The ways of a set are within the array. *)
Lemma set_in_array l ws : tags c = Array ws ->
  0 <= (l mod sets c) * ways c /\ (Z.to_nat ((l mod sets c) * ways c) + Z.to_nat (ways c) <= length ws)%nat.
Proof.
  intros T. pose proof (co_tags c OK) as H. rewrite T in H. destruct H as [L _]. pose proof sets_pos. pose proof (co_ways c OK).
  pose proof (Z.mod_pos_bound l (sets c)). split; [nia|]. rewrite <- Z2Nat.inj_add by nia. apply Nat2Z.inj_le. rewrite Z2Nat.id by nia.
  rewrite L. nia.
Qed.

Lemma check_tag_spec addr : 0 <= addr < 2 ^ 64 ->
  match check_tag addr c with
  | Some k => exists d, words c !! k = Some (word (line_of c addr) d)
  | None => forall d, word (line_of c addr) d ∉ words c
  end.
Proof.
  intros A. pose proof (line_of_range addr A) as L. pose proof (line_small _ L) as S.
  pose proof (co_words c OK) as W. pose proof (co_tags c OK) as T. unfold check_tag, words in *.
  destruct (tags c) as [ws|es] eqn:TG.
  - rewrite index_of_mod. set (l := line_of c addr) in *.
    pose proof (find_way_spec ws (l mod sets c * ways c) (l .| VALID) (Z.to_nat (ways c)) 0) as F.
    destruct (set_in_array l ws TG) as [P IN]. destruct (find_way _ _ _ _ _) as [k|].
    + destruct F as (t & E & X & _). destruct (W t) as [N|(l' & d & L' & ->)]; [by eapply list_elem_of_lookup_2| |].
      * exfalso. apply (f_equal (fun x => Z.testbit x 63)) in X. rewrite Z.lor_spec, Z.ldiff_spec, valid_bit, dirty_bit, N in X.
        rewrite orb_true_r in X. done.
      * rewrite word_clean in X by (by apply line_small). exists d. rewrite E. f_equal.
        assert (word l false = word l' false) as Y by (unfold word; by rewrite X).
        apply word_inj in Y as [-> _]; [done|done|by apply line_small].
    + intros d I. apply list_elem_of_lookup in I as [k K]. destruct T as [LEN HOME].
      apply (F ltac:(lia) k (word l d)); [|done|by rewrite word_clean]. pose proof (HOME k l d L K) as D.
      pose proof (co_ways c OK). pose proof (Z.div_mod (Z.of_nat k) (ways c)). pose proof (Z.mod_pos_bound (Z.of_nat k) (ways c)). nia.
  - pose proof (find_key_spec es (line_of c addr) 0) as F. destruct (find_key _ _ _) as [k|].
    + destruct F as (w & E & _). rewrite Nat.sub_0_r in E. destruct T as (_ & _ & T).
      destruct (T _ _ (list_elem_of_lookup_2 _ _ _ E)) as (_ & d & ->). exists d. by rewrite list_lookup_fmap, E.
    + intros d I. apply list_elem_of_fmap in I as ((k, w) & E & I). cbn in E. destruct T as (_ & _ & T).
      destruct (T _ _ I) as (K & e & ->). apply word_inj in E as [<- _]; [|done|by apply line_small]. by eapply F.
Qed.
End cache.

(** ** Replacing a word *)

Definition remove (w : Z) (m : gmap Z bool) : gmap Z bool :=
  match entry_of w with Some (v, _) => delete v m | None => m end.

Lemma contents_replace c c' line d w :
  cache_ok c -> cache_ok c' -> idx_shift c' = idx_shift c -> is_line c line -> entry_of w = None \/ w ∈ words c ->
  (forall l e, is_line c l -> word l e ∈ words c' <-> l = line /\ e = d \/ l <> line /\ word l e ∈ words c /\ word l e <> w) ->
  contents c' = <[line := d]> (remove w (contents c)).
Proof.
  intros OK OK' S L W H. assert (forall l, is_line c' l <-> is_line c l) as IL by (intros; unfold is_line; by rewrite S).
  assert (forall l e, contents c' !! l = Some e <-> is_line c l /\ word l e ∈ words c') as C'.
  { intros l e. by rewrite contents_spec, IL. }
  apply map_eq. intros l. apply option_eq. intros e. rewrite C'. destruct (decide (l = line)) as [->|N].
  { rewrite lookup_insert_eq. split.
    - intros [_ I]. apply (H line e L) in I. naive_solver.
    - injection 1 as <-. split; [done|]. apply H; auto. }
  rewrite lookup_insert_ne by done. unfold remove.
  assert (is_line c l /\ word l e ∈ words c' <-> contents c !! l = Some e /\ word l e <> w) as ->.
  { rewrite (contents_spec c OK). split; [intros [I X]; apply (H l e I) in X; naive_solver|]. intros [[I X] Y]. split; [done|]. apply H; auto. }
  destruct W as [W|W].
  - rewrite W. split; [tauto|]. intros E. split; [done|]. intros <-. apply (contents_spec c OK) in E as [I _].
    rewrite entry_of_word in W by (by apply (line_small c OK)). discriminate.
  - destruct (co_words c OK w W) as [Z|(v & dv & V & ->)].
    { unfold entry_of. rewrite Z. split; [tauto|]. intros E. split; [done|]. intros <-. apply (contents_spec c OK) in E as [I _].
      rewrite word_bit in Z by (try lia; by apply (line_small c OK)). done. }
    rewrite entry_of_word by (by apply (line_small c OK)). rewrite lookup_delete_Some.
    split; [intros [E X]; split; [|done]|intros [X E]; split; [done|]].
    + intros ->. apply X. assert (contents c !! l = Some dv) by (by apply (contents_spec c OK)). congruence.
    + intros Y. apply (contents_spec c OK) in E as [I _]. apply word_inj in Y as [-> _]; [done|by apply (line_small c OK)..].
Qed.

Lemma words_set_tag slot t c : words (set_tag slot t c) = <[slot := t]> (words c).
Proof.
  unfold words, set_tag. cbn. destruct (tags c) as [ws|es]; [done|]. revert slot.
  induction es as [|e es IH]; intros [|slot]; cbn; auto. f_equal. apply IH.
Qed.

Lemma tag_at_words slot c : tag_at c slot = words c !! slot.
Proof. unfold tag_at, words. destruct (tags c); [done|]. by rewrite list_lookup_fmap. Qed.

Lemma insert_words (ws : list Z) slot w t x : ws !! slot = Some w ->
  x ∈ <[slot := t]> ws <-> x = t \/ exists j, j <> slot /\ ws !! j = Some x.
Proof.
  intros S. pose proof (lookup_lt_Some _ _ _ S). rewrite list_elem_of_lookup. split.
  - intros [j J]. destruct (decide (j = slot)) as [->|N].
    + rewrite list_lookup_insert_eq in J by done. left. congruence.
    + rewrite list_lookup_insert_ne in J by done. eauto.
  - intros [->|(j & N & J)]; [exists slot; by rewrite list_lookup_insert_eq|exists j]. by rewrite list_lookup_insert_ne.
Qed.

(** What is behind a slot besides the word in it: the words that are not it, as
    valid words are unique. *)
Lemma other_words c slot w l e : cache_ok c -> words c !! slot = Some w -> is_line c l ->
  (exists j, j <> slot /\ words c !! j = Some (word l e)) <-> word l e ∈ words c /\ word l e <> w.
Proof.
  intros OK S L. split.
  - intros (j & N & J). split; [by eapply list_elem_of_lookup_2|]. intros <-. apply N. by eapply (co_unique c OK).
  - intros [(j & J)%list_elem_of_lookup N]. exists j. split; [congruence|done].
Qed.

(** The contents after a word of line [line] takes the place of the word [w]. *)
Lemma contents_set_tag c slot w line d :
  cache_ok c -> cache_ok (set_tag slot (word line d) c) -> words c !! slot = Some w -> is_line c line ->
  (forall j e, j <> slot -> words c !! j <> Some (word line e)) ->
  contents (set_tag slot (word line d) c) = <[line := d]> (remove w (contents c)).
Proof.
  intros OK OK' S L A. apply contents_replace; auto; [right; by eapply list_elem_of_lookup_2|].
  intros l e I. rewrite words_set_tag, (insert_words _ _ w) by done. rewrite (other_words c slot w l e OK S I).
  split.
  - intros [E|[X Y]].
    + apply word_inj in E; [tauto|by apply (line_small c OK)..].
    + right. split; [|done]. intros ->. destruct (proj2 (other_words c slot w line e OK S I) (conj X Y)) as (j & J & K).
      by apply (A j e).
  - intros [[-> ->]|(N & X & Y)]; auto.
Qed.

Lemma set_word_ok c slot w t :
  cache_ok c -> words c !! slot = Some w ->
  (match tags c with
   | Array _ => Z.testbit t 63 = false \/ exists line d, is_line c line /\ t = word line d /\
       Z.of_nat slot / ways c = line mod sets c /\ forall j e, j <> slot -> words c !! j <> Some (word line e)
   | Map _ => exists line d e, is_line c line /\ t = word line d /\ w = word line e
   end) -> cache_ok (set_tag slot t c).
Proof.
  intros OK S T. assert (NEW : Z.testbit t 63 = false \/ exists line d, is_line c line /\ t = word line d /\
    forall j e, j <> slot -> words c !! j <> Some (word line e)).
  { destruct (tags c) as [ws|es]; [destruct T as [T|(line & d & L & -> & _ & A)]; eauto 10|].
    destruct T as (line & d & e & L & -> & ->). right. exists line, d. split; [done|]. split; [done|].
    intros j f N J. apply N. by eapply (co_unique c OK). }
  split.
  - apply OK.
  - apply OK.
  - apply OK.
  - intros x. rewrite words_set_tag, (insert_words _ _ w) by done. intros [->|(j & N & J)].
    + destruct NEW as [?|(line & d & L & -> & _)]; [by left|right; eauto].
    + apply (co_words c OK). by eapply list_elem_of_lookup_2.
  - intros j k l d e L. rewrite words_set_tag. rewrite !list_lookup_insert_Some.
    intros [(<- & J & _)|[N1 J]] [(<- & K & _)|[N2 K]]; auto; try by eapply (co_unique c OK).
    + exfalso. destruct NEW as [F|(line & f & L' & -> & A)].
      * rewrite J, word_bit in F by (try lia; by apply (line_small c OK)). done.
      * apply word_inj in J as [-> _]; [|by apply (line_small c OK)..]. by apply (A k e).
    + exfalso. destruct NEW as [F|(line & f & L' & -> & A)].
      * rewrite K, word_bit in F by (try lia; by apply (line_small c OK)). done.
      * apply word_inj in K as [-> _]; [|by apply (line_small c OK)..]. by apply (A j d).
  - pose proof (co_tags c OK) as TG. unfold set_tag, words in *. cbn. destruct (tags c) as [ws|es].
    + destruct TG as [LEN HOME]. split; [by rewrite length_insert|]. intros k l d L.
      rewrite list_lookup_insert_Some. intros [(<- & E & _)|[N K]]; [|by eapply HOME].
      destruct T as [F|(line & f & L' & -> & HM & _)].
      * rewrite E, word_bit in F by (try lia; by apply (line_small c OK)). done.
      * apply word_inj in E as [<- _]; [done|by apply (line_small c OK)..].
    + destruct TG as (ST & LEN & KEYS). split; [done|]. split; [by rewrite length_alter|]. intros k x K.
      apply list_elem_of_lookup in K as [j J]. destruct (decide (j = slot)) as [->|N].
      * rewrite list_lookup_alter_eq in J. apply fmap_Some in J as ((k' & w') & E & X). injection X as -> ->.
        rewrite list_lookup_fmap, E in S. injection S as <-.
        destruct (KEYS _ _ (list_elem_of_lookup_2 _ _ _ E)) as (K & f & ->). split; [done|].
        destruct T as (line & d & e & L & -> & E'). exists d. apply word_inj in E' as [-> _]; [done|by apply (line_small c OK)..].
      * rewrite list_lookup_alter_ne in J by done. eapply KEYS. by eapply list_elem_of_lookup_2.
Qed.

(** ** The operations on one cache *)

Definition is_array (c : cache_sim_t) : bool := match tags c with Array _ => true | Map _ => false end.
Definition same_shape (c c' : cache_sim_t) : Prop :=
  sets c' = sets c /\ ways c' = ways c /\ linesz c' = linesz c /\ idx_shift c' = idx_shift c /\ is_array c' = is_array c.

Lemma same_shape_tags c slot t : same_shape c (set_tag slot t c).
Proof. repeat split. unfold is_array. cbn. by destruct (tags c). Qed.

(** The counters and the random numbers are no part of the well-formedness. *)
Lemma ok_tags c c' : same_shape c c' -> tags c' = tags c -> cache_ok c -> cache_ok c'.
Proof.
  intros (S & W & L & I & _) T [A B C D E F]. assert (words c' = words c) as X by (unfold words; by rewrite T).
  split; rewrite ?S, ?W, ?L, ?I, ?X; auto.
  - intros w. unfold is_line. rewrite I. apply D.
  - intros j k l d e. unfold is_line. rewrite I. apply E.
  - rewrite T. unfold is_line. rewrite I. exact F.
Qed.

Lemma set_dirty_spec c slot line d :
  cache_ok c -> words c !! slot = Some (word line d) -> is_line c line ->
  cache_ok (set_dirty slot c) /\ contents (set_dirty slot c) = <[line := true]> (contents c) /\
  same_shape c (set_dirty slot c) /\ stats (set_dirty slot c) = stats c.
Proof.
  intros OK S L. unfold set_dirty. rewrite tag_at_words, S, word_dirty by (by apply (line_small c OK)).
  assert (forall j e, j <> slot -> words c !! j <> Some (word line e)) as A.
  { intros j e N J. apply N. by eapply (co_unique c OK). }
  assert (cache_ok (set_tag slot (word line true) c)) as OK'.
  { apply (set_word_ok c slot (word line d)); auto. pose proof (co_tags c OK) as T. unfold words in S, A.
    destruct (tags c) as [ws|es] eqn:TG; [right; exists line, true|exists line, true, d; auto].
    split; [done|]. split; [done|]. split; [by eapply T|]. unfold words. by rewrite TG. }
  split; [done|]. split; [|split; [apply same_shape_tags|done]]. rewrite (contents_set_tag c slot (word line d)) by auto.
  unfold remove. rewrite entry_of_word by (by apply (line_small c OK)). apply insert_delete_eq.
Qed.

Lemma map_assign_perm k v es : k ∉ map fst es -> map_assign k v es ≡ₚ (k, v) :: es.
Proof.
  induction es as [|[k' v'] es IH]; cbn [map_assign map fst]; [done|]. intros N. apply not_elem_of_cons in N as [N1 N2].
  destruct (k <? k'); [done|]. destruct (Z.eqb_spec k k'); [done|]. rewrite IH by done. apply Permutation_swap.
Qed.

(** In the map, valid words are unique because the keys are. *)
Lemma map_unique c es : tags c = Map es -> 3 <= idx_shift c < 64 ->
  (forall k w, (k, w) ∈ es -> is_line c k /\ exists d, w = word k d) ->
  (forall j k l d e, is_line c l -> words c !! j = Some (word l d) -> words c !! k = Some (word l e) -> j = k) <-> NoDup (map fst es).
Proof.
  intros T B KEYS. assert (forall l, is_line c l -> 0 <= l < 2 ^ 61) as SM.
  { intros l [L1 L2]. split; [done|]. eapply Z.lt_le_trans; [exact L2|]. apply Z.pow_le_mono_r; lia. }
  unfold words. rewrite T. assert (forall j l d, is_line c l -> map snd es !! j = Some (word l d) <-> es !! j = Some (l, word l d)) as X.
  { intros j l d L. rewrite list_lookup_fmap. destruct (es !! j) as [[k w]|] eqn:J; cbn; [|split; discriminate].
    destruct (KEYS _ _ (list_elem_of_lookup_2 _ _ _ J)) as (K & f & ->). split; [|congruence].
    intros E. assert (word k f = word l d) as Y by congruence. apply word_inj in Y as [-> ->]; auto. }
  rewrite NoDup_alt. split.
  - intros U i j k. rewrite !list_lookup_fmap. intros I J. apply fmap_Some in I as ((k1 & w1) & I & ->).
    apply fmap_Some in J as ((k2 & w2) & J & E). cbn in E. subst k2.
    destruct (KEYS _ _ (list_elem_of_lookup_2 _ _ _ I)) as (K & d & ->), (KEYS _ _ (list_elem_of_lookup_2 _ _ _ J)) as (_ & e & ->).
    apply (U i j k1 d e K); by apply X.
  - intros U i j l d e L I J. apply X in I, J; auto. apply (U i j l); rewrite list_lookup_fmap; [by rewrite I|by rewrite J].
Qed.

(** What replacing a victim does. *)
Definition replaced (c c' : cache_sim_t) (line w : Z) : Prop :=
  cache_ok c' /\ same_shape c c' /\ stats c' = stats c /\ contents c' = <[line := false]> (remove w (contents c)) /\
  match entry_of w with
  | Some (v, d) => w = word v d /\ contents c !! v = Some d /\ v mod sets c = line mod sets c
  | None => True
  end.

Lemma word_false line : line .| VALID = word line false.
Proof. unfold word. by rewrite Z.lor_0_r. Qed.

Lemma victimize_array c ws addr : cache_ok c -> tags c = Array ws -> 0 <= addr < 2 ^ 64 ->
  (forall d, word (line_of c addr) d ∉ words c) ->
  exists w c', victimize addr c = Some (w, c') /\ replaced c c' (line_of c addr) w.
Proof.
  intros OK T A N. pose proof (line_of_range c OK addr A) as L. set (line := line_of c addr) in *.
  pose proof (co_ways c OK) as W. pose proof (Z.mod_pos_bound (lfsr_next (lfsr c)) (ways c) W) as M.
  destruct (set_in_array c OK line ws T) as [P IN]. unfold victimize. rewrite T, (proj2 (Z.eqb_neq _ _)) by lia.
  change (index_of (set_lfsr ?x c) addr) with (index_of c addr). rewrite (index_of_mod c OK). fold line. rewrite word_false.
  change (ways (set_lfsr (lfsr_next (lfsr c)) c)) with (ways c). change (lfsr (set_lfsr ?x c)) with x.
  set (slot := Z.to_nat _). set (c1 := set_lfsr _ c).
  assert (OK1 : cache_ok c1) by (by apply (ok_tags c)).
  assert (slot < length ws)%nat as SL by (unfold slot; lia). apply lookup_lt_is_Some_2 in SL as [w SW].
  rewrite SW. cbn.
  exists w, (set_tag slot (word line false) c1). split; [done|].
  assert (words c1 = ws) as WS by (unfold words; cbn; by rewrite T).
  assert (Z.of_nat slot / ways c = line mod sets c) as HOME.
  { unfold slot. rewrite Z2Nat.id by nia. rewrite Z.div_add_l, Z.div_small by lia. lia. }
  assert (ABS : forall j e, j <> slot -> words c1 !! j <> Some (word line e)).
  { intros j e _ J. apply (N e). unfold words. rewrite T. rewrite WS in J. by eapply list_elem_of_lookup_2. }
  assert (OK2 : cache_ok (set_tag slot (word line false) c1)).
  { apply (set_word_ok c1 slot w); [done|by rewrite WS|]. cbn. rewrite T. right. exists line, false. auto. }
  split; [done|]. split; [apply (same_shape_tags c1)|]. split; [done|]. split.
  - rewrite (contents_set_tag c1 slot w) by (auto; by rewrite WS). done.
  - destruct (entry_of w) as [[v d]|] eqn:E; [|done].
    assert (w ∈ words c) as WI by (unfold words; rewrite T; by eapply list_elem_of_lookup_2).
    destruct (co_words c OK w WI) as [Z|(l & d' & L' & ->)]; [unfold entry_of in E; by rewrite Z in E|].
    rewrite entry_of_word in E by (by apply (line_small c OK)). injection E as -> ->. split; [done|].
    split; [by apply contents_spec|]. rewrite <- HOME. pose proof (co_tags c OK) as TG. rewrite T in TG. symmetry. by eapply TG.
Qed.

Lemma map_insert_replaced c c' es es' line w :
  cache_ok c -> tags c = Map es -> is_line c line -> (forall d, word line d ∉ words c) ->
  same_shape c c' -> stats c' = stats c -> tags c' = Map (map_assign line (word line false) es') ->
  Z.of_nat (length es') < ways c ->
  (es = es' /\ entry_of w = None \/ exists v d, w = word v d /\ es ≡ₚ (v, w) :: es') ->
  replaced c c' line w.
Proof.
  intros OK T L N SH ST T' LEN W. pose proof (co_tags c OK) as TG. rewrite T in TG. destruct TG as (S1 & LE & KEYS).
  destruct (co_linesz c OK) as [B _]. pose proof (proj1 (map_unique c es T B KEYS) (co_unique c OK)) as ND.
  assert (SUB : forall k x, (k, x) ∈ es' -> (k, x) ∈ es).
  { destruct W as [[-> _]|(v & d & _ & P)]; [done|]. intros k x K. rewrite P. by apply list_elem_of_further. }
  assert (FR : line ∉ map fst es).
  { intros I. apply list_elem_of_fmap in I as ((k & x) & E & I). cbn in E. subst k. destruct (KEYS _ _ I) as (_ & d & ->).
    apply (N d). unfold words. rewrite T. apply list_elem_of_fmap. by exists (line, word line d). }
  assert (FR' : line ∉ map fst es').
  { intros I. apply list_elem_of_fmap in I as ((k & x) & E & I). cbn in E. subst k. apply FR, list_elem_of_fmap. exists (line, x). auto. }
  pose proof (map_assign_perm line (word line false) es' FR') as PERM. destruct SH as (SS & SW & SZ & SI & SA).
  assert (IL : forall l, is_line c' l <-> is_line c l) by (intros; unfold is_line; by rewrite SI).
  assert (KEYS' : forall k x, (k, x) ∈ map_assign line (word line false) es' -> is_line c' k /\ exists d, x = word k d).
  { intros k x. rewrite PERM, elem_of_cons, IL. intros [E|I]; [injection E as -> ->; eauto|by apply KEYS, SUB]. }
  assert (WORDS' : forall x, x ∈ words c' <-> x = word line false \/ x ∈ map snd es').
  { intros x. unfold words. rewrite T', PERM. cbn. by rewrite elem_of_cons. }
  assert (NoDup (map fst es')) as ND'.
  { destruct W as [[-> _]|(v & d & _ & P)]; [done|]. rewrite P in ND. cbn in ND. by apply NoDup_cons in ND as [_ ?]. }
  assert (OK' : cache_ok c').
  { split; rewrite ?SS, ?SW, ?SZ, ?SI; try apply OK.
    - intros x [->|I]%WORDS'; right; [exists line, false; by rewrite IL|]. apply list_elem_of_fmap in I as ((k & y) & -> & I).
      destruct (KEYS _ _ (SUB _ _ I)) as (K & d & ->). exists k, d. by rewrite IL.
    - apply (map_unique c' _ T'); [by rewrite SI|done|]. rewrite PERM. cbn. apply NoDup_cons. done.
    - rewrite T'. split; [done|]. split; [|done]. rewrite (Permutation_length PERM). cbn. lia. }
  split; [done|]. split; [done|]. split; [done|].
  assert (IN : forall l e, is_line c l -> word l e ∈ map snd es' <-> word l e ∈ words c /\ word l e <> w).
  { intros l e LL. unfold words. rewrite T. destruct W as [[-> WN]|(v & d & -> & P)].
    - split; [|tauto]. intros I. split; [done|]. intros <-. rewrite entry_of_word in WN by (by apply (line_small c OK)). done.
    - rewrite P. cbn. rewrite elem_of_cons. split; [|naive_solver]. intros I. split; [by right|]. intros E.
      apply list_elem_of_fmap in I as ((k & x) & X & I). cbn in X. subst x. destruct (KEYS _ _ (SUB _ _ I)) as (K & f & E2).
      assert ((v, word v d) ∈ es) as V by (rewrite P; by apply list_elem_of_here).
      destruct (KEYS _ _ V) as (KV & _). apply word_inj in E2 as [-> _]; [|by apply (line_small c OK)..].
      apply word_inj in E as [-> _]; [|by apply (line_small c OK)..]. rewrite P in ND. cbn in ND. apply NoDup_cons in ND as [X _].
      apply X, list_elem_of_fmap. eexists; split; [|exact I]. done. }
  split.
  - apply contents_replace; auto.
    + destruct W as [[_ WN]|(v & d & -> & P)]; [by left|right]. unfold words. rewrite T, P. by apply list_elem_of_here.
    + intros l e LL. rewrite WORDS', IN by done. split.
      * intros [E|[X Y]]; [apply word_inj in E; [tauto|by apply (line_small c OK)..]|].
        right. split; [|done]. intros ->. by apply (N e).
      * intros [[-> ->]|(NE & X & Y)]; auto.
  - destruct W as [[_ ->]|(v & d & -> & P)]; [done|].
    assert ((v, word v d) ∈ es) as V by (rewrite P; by apply list_elem_of_here). destruct (KEYS _ _ V) as (KV & _).
    rewrite entry_of_word by (by apply (line_small c OK)). split; [done|]. split.
    + apply contents_spec; [done|]. split; [done|]. unfold words. rewrite T. apply list_elem_of_fmap. by exists (v, word v d).
    + by rewrite S1, !Z.mod_1_r.
Qed.

Lemma victimize_spec c addr : cache_ok c -> 0 <= addr < 2 ^ 64 -> (forall d, word (line_of c addr) d ∉ words c) ->
  exists w c', victimize addr c = Some (w, c') /\ replaced c c' (line_of c addr) w.
Proof.
  intros OK A N. destruct (tags c) as [ws|es] eqn:T; [by eapply victimize_array|].
  pose proof (line_of_range c OK addr A) as L. pose proof (co_ways c OK) as W. pose proof (co_tags c OK) as TG.
  rewrite T in TG. destruct TG as (S1 & LE & KEYS). unfold victimize. rewrite T, word_false.
  destruct (Z.eqb_spec (Z.of_nat (length es)) (ways c)) as [F|F].
  - rewrite (proj2 (Z.eqb_neq _ _)) by lia. pose proof (Z.mod_pos_bound (lfsr_next (lfsr c)) (ways c) W) as M.
    change (lfsr (set_lfsr ?x c)) with x. change (ways (set_lfsr ?x c)) with (ways c). set (slot := Z.to_nat _).
    assert (slot < length es)%nat as SL by (unfold slot; lia). apply lookup_lt_is_Some_2 in SL as [[v w] SW]. rewrite SW. cbn.
    eexists w, _. split; [done|]. destruct (KEYS v w (list_elem_of_lookup_2 _ _ _ SW)) as (V & d & ->).
    eapply (map_insert_replaced c _ es (delete slot es)); try done.
    + repeat split. unfold is_array. cbn. by rewrite T.
    + pose proof (lookup_lt_Some _ _ _ SW). rewrite length_delete by (by rewrite SW). lia.
    + right. exists v, d. split; [done|]. by apply delete_Permutation.
  - eexists 0, _. split; [done|]. eapply (map_insert_replaced c _ es es); try done; [|lia|by left]. repeat split. unfold is_array. cbn. by rewrite T.
Qed.

(** * An access *)

(** Accesses that a level asks of the next: address, bytes, whether it is a write. *)
Fixpoint serve (reqs : list (Z * Z * bool)) (cs : list cache_sim_t) : option (list cache_sim_t) :=
  match reqs with
  | [] => Some cs
  | (addr, bytes, store) :: reqs => cs ← access addr bytes store cs; serve reqs cs
  end.

Lemma access_length n : forall addr bytes store cs cs', access_levels n addr bytes store cs = Some cs' -> length cs' = length cs.
Proof.
  induction n as [|n IH]; intros addr bytes store [|c cs] cs'; cbn; try (injection 1 as <-; done).
  destruct (check_tag addr _); [injection 1 as <-; done|]. destruct (victimize addr _) as [[w c2]|]; [|discriminate]. cbn.
  intros H. apply bind_Some in H as ([c3 b] & H1 & H2).
  assert (length b = length cs) as L.
  { destruct (dirty_victim w); [|injection H1 as <- <-; done]. apply bind_Some in H1 as (b' & H1 & E). injection E as <- <-. by eapply IH. }
  apply bind_Some in H2 as (b2 & H2 & E). apply IH in H2.
  destruct store; [apply bind_Some in E as (s & _ & E)|]; injection E as <-; cbn; lia.
Qed.

#[export] Instance same_shape_preorder : PreOrder same_shape.
Proof. split; [done|]. intros a b c (? & ? & ? & ? & ?) (? & ? & ? & ? & ?). repeat split; congruence. Qed.

(** What an access makes of the contents and the counters, and what it asks of the
    next level: the abstract cache. *)
Inductive abstract_access (c : cache_sim_t) (line bytes : Z) (store : bool) :
  gmap Z bool -> stats_t -> list (Z * Z * bool) -> Prop :=
| Hit d : contents c !! line = Some d ->
    abstract_access c line bytes store (<[line := d || store]> (contents c)) (count_access bytes store (stats c)) []
| Miss (victim : option (Z * bool)) : contents c !! line = None ->
    match victim with Some (v, d) => contents c !! v = Some d /\ v mod sets c = line mod sets c | None => True end ->
    let written := match victim with Some (_, d) => d | None => false end in
    let s := count_miss store (count_access bytes store (stats c)) in
    abstract_access c line bytes store
      (<[line := store]> (match victim with Some (v, _) => delete v (contents c) | None => contents c end))
      (if written then count_writeback s else s)
      ((match victim with Some (v, true) => [(Z.shiftl v (idx_shift c), linesz c, true)] | _ => [] end) ++
       [(Z.shiftl line (idx_shift c), linesz c, false)]).

Lemma access_refines c addr bytes store below : cache_ok c -> 0 <= addr < 2 ^ 64 ->
  exists c' reqs,
    access addr bytes store (c :: below) = (b ← serve reqs below; Some (c' :: b)) /\
    cache_ok c' /\ same_shape c c' /\ abstract_access c (line_of c addr) bytes store (contents c') (stats c') reqs.
Proof.
  intros OK A. pose proof (line_of_range c OK addr A) as L. set (line := line_of c addr) in *.
  unfold access. cbn [length access_levels]. set (c1 := set_stats _ c).
  assert (OK1 : cache_ok c1) by (by apply (ok_tags c)).
  pose proof (check_tag_spec c1 OK1 addr A) as F. change (line_of c1 addr) with line in F. change (words c1) with (words c) in F.
  destruct (check_tag addr c1) as [slot|].
  - destruct F as [d F]. assert (contents c !! line = Some d) as C.
    { apply contents_spec; [done|]. split; [done|]. by eapply list_elem_of_lookup_2. }
    destruct (set_dirty_spec c1 slot line d OK1 F L) as (OK2 & C2 & SH & ST).
    destruct store; [exists (set_dirty slot c1), []|exists c1, []].
    + split; [done|]. split; [done|]. split; [done|]. rewrite C2, ST.
      pose proof (Hit c line bytes true d C) as H. by rewrite orb_true_r in H.
    + split; [done|]. split; [done|]. split; [done|].
      pose proof (Hit c line bytes false d C) as H. rewrite orb_false_r, insert_id in H by done. exact H.
  - assert (contents c !! line = None) as C.
    { destruct (contents c !! line) as [d|] eqn:E; [|done]. apply (contents_spec c OK) in E as [_ E]. by apply F in E. }
    set (c2 := set_stats _ c1). assert (OK2 : cache_ok c2) by (by apply (ok_tags c)).
    destruct (victimize_spec c2 addr OK2 A F) as (w & c3 & -> & OK3 & SH & ST & C3 & V). cbn [mbind option_bind].
    change (line_of c2 addr) with line in C3, V. change (contents c2) with (contents c) in C3, V.
    set (c4 := if dirty_victim w then set_stats (count_writeback (stats c3)) c3 else c3).
    set (reqs1 := if dirty_victim w then [(dirty_addr w c3, linesz c3, true)] else []).
    set (reqs := reqs1 ++ [(line_addr addr c4, linesz c4, false)]).
    assert (OK4 : cache_ok c4) by (unfold c4; destruct (dirty_victim w); [by apply (ok_tags c3)|done]).
    assert (C4 : contents c4 = contents c3) by (unfold c4; by destruct (dirty_victim w)).
    assert (T4 : forall slot, check_tag addr c4 = Some slot -> words c4 !! slot = Some (word line false)).
    { intros slot T. pose proof (check_tag_spec c4 OK4 addr A) as G. rewrite T in G. destruct G as [d G].
      assert (line_of c4 addr = line) as LE.
      { unfold line, line_of, c4. destruct SH as (_ & _ & _ & SI & _). by destruct (dirty_victim w); cbn; rewrite SI. }
      rewrite LE in G. assert (contents c4 !! line = Some d) as X.
      { apply contents_spec; [done|]. split; [|by eapply list_elem_of_lookup_2]. rewrite <- LE. by apply line_of_range. }
      rewrite C4, C3, lookup_insert_eq in X. congruence. }
    assert (T5 : is_Some (check_tag addr c4)).
    { pose proof (check_tag_spec c4 OK4 addr A) as G. destruct (check_tag addr c4) as [slot|]; [eauto|]. exfalso.
      assert (line_of c4 addr = line) as LE.
      { unfold line, line_of, c4. destruct SH as (_ & _ & _ & SI & _). by destruct (dirty_victim w); cbn; rewrite SI. }
      assert (contents c4 !! line = Some false) as X by (by rewrite C4, C3, lookup_insert_eq).
      apply (contents_spec c4 OK4) in X as [_ X]. rewrite LE in G. by apply (G false). }
    destruct T5 as [slot T5]. pose proof (T4 slot T5) as W4.
    assert (L4 : is_line c4 line).
    { unfold is_line, c4. destruct SH as (_ & _ & _ & SI & _). destruct (dirty_victim w); cbn; rewrite SI; exact L. }
    destruct (set_dirty_spec c4 slot line false OK4 W4 L4) as (OK5 & C5 & SH5 & ST5).
    assert (SH4 : same_shape c c4) by (unfold c4; by destruct (dirty_victim w)).
    exists (if store then set_dirty slot c4 else c4), reqs. split.
    { transitivity (b ← serve reqs below; if store then (slot ← check_tag addr c4; Some (set_dirty slot c4 :: b)) else Some (c4 :: b)).
      2:{ destruct (serve reqs below); cbn; [|done]. rewrite T5. by destruct store. }
      unfold reqs, reqs1, c4, access. destruct (dirty_victim w); cbn [mbind option_bind app serve]; unfold access.
      - destruct (access_levels _ _ _ true below) as [b1|] eqn:E; [|done]. cbn [mbind option_bind].
        apply access_length in E. rewrite E. by destruct (access_levels _ _ _ false b1).
      - by destruct (access_levels _ _ _ false below). }
    split; [by destruct store|]. split; [destruct store; [etrans; [exact SH4|exact SH5]|done]|].
    destruct SH as (SS & SW & SZ & SI & SA).
    assert (contents (if store then set_dirty slot c4 else c4) = <[line := store]> (remove w (contents c))) as ->.
    { destruct store; [rewrite C5|]; rewrite C4, C3; [apply insert_insert_eq|done]. }
    assert (stats (if store then set_dirty slot c4 else c4) = if dirty_victim w then count_writeback (stats c2) else stats c2) as ->.
    { destruct store; [rewrite ST5|]; unfold c4; destruct (dirty_victim w); cbn; by rewrite ST. }
    assert (line_addr addr c4 = Z.shiftl line (idx_shift c)) as LA.
    { rewrite (line_addr_shift c4 OK4). unfold line, line_of, c4. by destruct (dirty_victim w); cbn; rewrite SI. }
    assert (linesz c4 = linesz c) as LZ by apply SH4.
    unfold reqs, reqs1. rewrite LA, LZ, SZ. unfold remove. rewrite dirty_victim_entry.
    change (stats c2) with (count_miss store (count_access bytes store (stats c))). change (linesz c2) with (linesz c).
    destruct (entry_of w) as [[v d]|] eqn:E; [|by apply (Miss c line bytes store None)].
    destruct V as (-> & CV & MOD). pose proof (Miss c line bytes store (Some (v, d)) C (conj CV MOD)) as M. cbv zeta in M.
    assert (is_line c3 v) as LV.
    { apply (contents_spec c OK) in CV as [LV _]. unfold is_line. by rewrite SI. }
    rewrite (dirty_addr_shift c3 OK3 v d LV), SI. by destruct d.
Qed.

(** ** All levels *)

Lemma shifted_line c l : cache_ok c -> is_line c l -> 0 <= Z.shiftl l (idx_shift c) < 2 ^ 64.
Proof.
  intros OK [L1 L2]. destruct (co_linesz c OK) as [B _]. rewrite Z.shiftl_mul_pow2 by lia.
  replace 64 with ((64 - idx_shift c) + idx_shift c) by lia. rewrite Z.pow_add_r by lia. nia.
Qed.

(** What a level asks for is in the address space. *)
Lemma requests_range c line bytes store m s reqs : cache_ok c -> is_line c line -> abstract_access c line bytes store m s reqs ->
  Forall (fun '(a, _, _) => 0 <= a < 2 ^ 64) reqs.
Proof.
  intros OK L H. destruct H as [|victim N V]; [constructor|]. apply Forall_app. split.
  - destruct victim as [[v []]|]; [|constructor..]. apply Forall_cons. split; [|constructor].
    apply (shifted_line c v OK). by destruct V as [[? _]%(contents_spec c OK) _].
  - apply Forall_cons. split; [by apply (shifted_line c line OK)|constructor].
Qed.

Definition level_ok (c c' : cache_sim_t) : Prop := cache_ok c' /\ same_shape c c'.

Lemma level_ok_trans a b c : Forall2 level_ok a b -> Forall2 level_ok b c -> Forall2 level_ok a c.
Proof.
  intros AB. revert c. induction AB as [|x y a b [_ XY] _ IH]; intros c BC; inversion BC as [|? z ? c' [OK YZ]]; subst; constructor; auto.
  split; [done|]. by etrans.
Qed.

Lemma level_ok_all a b : Forall2 level_ok a b -> Forall cache_ok b.
Proof. induction 1 as [|x y a b [OK _] _ IH]; constructor; auto. Qed.

(** One access, with what it asks of the levels below, which serve it in order. *)
Definition accessed (addr bytes : Z) (store : bool) (cs cs' : list cache_sim_t) : Prop :=
  Forall2 level_ok cs cs' /\
  match cs, cs' with
  | c :: below, c' :: below' =>
      exists reqs, abstract_access c (line_of c addr) bytes store (contents c') (stats c') reqs /\ serve reqs below = Some below'
  | _, _ => True
  end.

Lemma access_total n : forall cs addr bytes store, length cs = n -> Forall cache_ok cs -> 0 <= addr < 2 ^ 64 ->
  exists cs', access addr bytes store cs = Some cs' /\ accessed addr bytes store cs cs'.
Proof.
  induction n as [|n IH]; intros [|c below] addr bytes store LEN OKS A; try discriminate.
  { exists []. split; [done|]. split; [constructor|done]. }
  injection LEN as LEN. apply Forall_cons in OKS as [OK OKS].
  destruct (access_refines c addr bytes store below OK A) as (c' & reqs & E & OK' & SH & AB).
  pose proof (requests_range _ _ _ _ _ _ _ OK (line_of_range c OK addr A) AB) as R.
  assert (forall k, length k = n -> Forall cache_ok k -> exists below', serve reqs k = Some below' /\ Forall2 level_ok k below') as G.
  { clear -IH R. induction R as [|[[a b] s] reqs RA R IHR]; intros k LEN OKS.
    - exists k. split; [done|]. clear -OKS. induction OKS; constructor; auto. split; [done|]. reflexivity.
    - cbn [serve]. destruct (IH k a b s LEN OKS RA) as (k' & -> & LV & _). cbn [mbind option_bind].
      destruct (IHR k') as (below' & -> & LV'); [by rewrite <- (Forall2_length _ _ _ LV)|by eapply level_ok_all|].
      eexists. split; [done|]. by eapply level_ok_trans. }
  destruct (G below LEN OKS) as (below' & S & LV).
  exists (c' :: below'). rewrite E, S. split; [done|]. split; [by constructor|]. eauto.
Qed.

(** C28. Caches as maps from lines to dirty bits.  An access to well-formed caches,
    of any associativity, never divides by zero or follows a null pointer, and keeps
    them well formed.  A hit sets the dirty bit for a write and asks nothing of the
    next level.  A miss counts, takes the place of at most one line, of the same set,
    which is written back when it was dirty, and reads the line from the next level;
    all other lines stay. *)
Theorem cache_access cs addr bytes store : Forall cache_ok cs -> 0 <= addr < 2 ^ 64 ->
  exists cs', access addr bytes store cs = Some cs' /\ accessed addr bytes store cs cs'.
Proof. intros OK A. by apply (access_total (length cs)). Qed.

(** ** Cleaning *)

(** Invalidation is right in the array; in the map, it leaves a line that still hits. *)
Lemma clean_line_spec c addr clean inval :
  cache_ok c -> 0 <= addr < 2 ^ 64 -> (inval = true -> is_array c = true) ->
  let c' := clean_line clean inval addr c in let line := line_of c addr in
  cache_ok c' /\ same_shape c c' /\
  match contents c !! line with
  | Some d =>
      contents c' = (if inval then delete line (contents c) else if clean then <[line := false]> (contents c) else contents c) /\
      stats c' = if clean && d then count_writeback (stats c) else stats c
  | None => c' = c
  end.
Proof.
  intros OK A IV c' line. pose proof (line_of_range c OK addr A) as L. fold line in L. pose proof (line_small c OK line L) as SM.
  pose proof (check_tag_spec c OK addr A) as F. fold line in F. unfold clean_line in c'.
  destruct (check_tag addr c) as [slot|].
  2:{ destruct (contents c !! line) as [d|] eqn:E; [|done]. apply (contents_spec c OK) in E as [_ E]. by apply F in E. }
  destruct F as [d F]. assert (C : contents c !! line = Some d).
  { apply contents_spec; [done|]. split; [done|]. by eapply list_elem_of_lookup_2. }
  rewrite C. unfold c'. clear c'. rewrite (tag_at_words slot c), F.
  assert (z2b (word line d .& DIRTY) = d) as ->.
  { assert (word line d .& DIRTY = if d then DIRTY else 0) as ->; [|by destruct d].
    apply Z.bits_inj'. intros i I. rewrite Z.land_spec, word_bit, dirty_bit, tb_if, dirty_bit, Z.bits_0 by lia.
    destruct (Z.eqb_spec i 62) as [->|]; [by destruct d|]. rewrite andb_false_r. by destruct d. }
  rewrite word_cleaned by done.
  set (c1 := if clean && d then _ else c).
  set (s1 := if clean && d then count_writeback (stats c) else stats c).
  set (d1 := if clean && d then false else d).
  assert (ABS : forall j e, j <> slot -> words c !! j <> Some (word line e)).
  { intros j e N J. apply N. by eapply (co_unique c OK). }
  assert (OK1 : cache_ok c1 /\ same_shape c c1 /\ contents c1 = (if clean then <[line := false]> (contents c) else contents c) /\ stats c1 = s1 /\
    words c1 !! slot = Some (word line d1)).
  { unfold c1, s1, d1. destruct clean; cbn [andb]; [|split; [done|]; split; [reflexivity|]; by eauto 10]. destruct d.
    2:{ rewrite insert_id by done. split; [done|]. split; [reflexivity|]. by eauto 10. }
    set (c2 := set_stats _ c). assert (OK2 : cache_ok c2) by (by apply (ok_tags c)).
    assert (OK3 : cache_ok (set_tag slot (word line false) c2)).
    { apply (set_word_ok c2 slot (word line true)); [done|done|]. pose proof (co_tags c OK) as T. cbn. unfold words in F.
      destruct (tags c) as [ws|es] eqn:TG; [right; exists line, false|exists line, false, true; auto].
      split; [done|]. split; [done|]. split; [by eapply T|]. exact ABS. }
    split; [done|]. split; [apply (same_shape_tags c2)|]. split; [|split; [done|]].
    - rewrite (contents_set_tag c2 slot (word line true)) by auto. unfold remove. rewrite entry_of_word by done.
      apply insert_delete_eq.
    - rewrite words_set_tag. apply list_lookup_insert_eq. by eapply lookup_lt_Some. }
  clearbody c1. destruct OK1 as (OK1 & SH1 & C1 & ST1 & W1). rewrite tag_at_words, W1.
  destruct inval; [|by rewrite <- C1, <- ST1].
  specialize (IV eq_refl).
  assert (NV : Z.testbit (word line d1 &~ VALID) 63 = false) by (rewrite Z.ldiff_spec, valid_bit; apply andb_false_r).
  assert (OK2 : cache_ok (set_tag slot (word line d1 &~ VALID) c1)).
  { apply (set_word_ok c1 slot (word line d1)); [done|done|]. destruct SH1 as (_ & _ & _ & _ & SA). rewrite <- SA in IV.
    unfold is_array in IV. destruct (tags c1); [by left|done]. }
  split; [done|]. split; [etrans; [exact SH1|apply same_shape_tags]|]. split; [|exact ST1].
  destruct SH1 as (_ & _ & _ & SI & _).
  assert (IL : forall l, is_line (set_tag slot (word line d1 &~ VALID) c1) l <-> is_line c l) by (intros; unfold is_line; cbn; by rewrite SI).
  assert (IL1 : forall l, is_line c1 l <-> is_line c l) by (intros; unfold is_line; by rewrite SI).
  apply map_eq. intros l. apply option_eq. intros e. rewrite contents_spec, IL, words_set_tag, (insert_words _ _ _ _ _ W1) by done.
  rewrite lookup_delete_Some. split.
  - intros [I [E|X]].
    + exfalso. apply (f_equal (fun x => Z.testbit x 63)) in E. rewrite NV, word_bit in E by (try lia; by apply (line_small c OK)). done.
    + apply (other_words c1 slot _ l e OK1 W1) in X as [X N]; [|by apply IL1].
      assert (contents c1 !! l = Some e) as Y by (apply contents_spec; [done|]; by rewrite IL1).
      assert (line <> l) as NE.
      { intros <-. apply N. assert (contents c1 !! line = Some d1) as Y'.
        { apply contents_spec; [done|]. rewrite IL1. split; [done|]. by eapply list_elem_of_lookup_2. }
        congruence. }
      split; [done|]. rewrite C1 in Y. destruct clean; [by rewrite lookup_insert_ne in Y|done].
  - intros [NE Y]. assert (contents c1 !! l = Some e) as Y1 by (rewrite C1; destruct clean; [by rewrite lookup_insert_ne|done]).
    apply (contents_spec c1 OK1) in Y1 as [I X]. split; [by apply IL1|]. right. apply (other_words c1 slot _ l e OK1 W1 I). split; [done|].
    intros E. apply word_inj in E as [-> _]; [done|by apply (line_small c OK), IL1|done].
Qed.

(** * Counters *)

Definition dirty (m : gmap Z bool) : gset Z := dom (filter (fun kv => snd kv = true) m).

Lemma elem_dirty (m : gmap Z bool) l : l ∈ dirty m <-> m !! l = Some true.
Proof.
  unfold dirty. rewrite elem_of_dom. split.
  - intros [d D]. apply map_lookup_filter_Some in D as [? E]. cbn in E. congruence.
  - intros D. exists true. by apply map_lookup_filter_Some.
Qed.

Lemma dirty_delete (m : gmap Z bool) l : dirty (delete l m) = dirty m ∖ {[l]}.
Proof.
  apply set_eq. intros k. rewrite elem_of_difference, !elem_dirty, lookup_delete_Some, elem_of_singleton. naive_solver.
Qed.

Lemma dirty_insert (m : gmap Z bool) l (d : bool) : dirty (<[l := d]> m) = (if d then {[l]} else ∅ : gset Z) ∪ dirty m ∖ {[l]}.
Proof.
  apply set_eq. intros k. rewrite elem_of_union, elem_of_difference, !elem_dirty, lookup_insert_Some, elem_of_singleton.
  destruct d; rewrite ?elem_of_singleton, ?elem_of_empty; [|naive_solver].
  destruct (decide (k = l)) as [->|]; naive_solver.
Qed.

Definition dirties (c : cache_sim_t) : Z := Z.of_nat (size (dirty (contents c))).

Lemma size_without (s : gset Z) l : (size (s ∖ {[l]}) <= size s)%nat.
Proof. apply subseteq_size. set_solver. Qed.

Lemma size_insert (m : gmap Z bool) l (d : bool) : Z.of_nat (size (dirty (<[l := d]> m))) <= Z.of_nat (size (dirty m)) + b2z d.
Proof.
  rewrite dirty_insert. pose proof (size_without (dirty m) l). destruct d.
  - rewrite size_union, size_singleton by set_solver. cbn. lia.
  - rewrite (left_id_L ∅ (∪)). cbn. lia.
Qed.

Lemma size_delete (m : gmap Z bool) l d : m !! l = Some d -> Z.of_nat (size (dirty (delete l m))) <= Z.of_nat (size (dirty m)) - b2z d.
Proof.
  intros L. rewrite dirty_delete. destruct d; cbn; [|pose proof (size_without (dirty m) l); lia].
  assert ({[l]} ⊆ dirty m) as S by (apply singleton_subseteq_l, elem_dirty, L).
  rewrite size_difference by done. rewrite size_singleton. apply subseteq_size in S. rewrite size_singleton in S. lia.
Qed.

(** The counters of a cache after [n] accesses: misses are accesses, and every line
    that is dirty or was written back had a write. *)
Record balanced (n : Z) (c : cache_sim_t) : Prop := {
  ba_accesses : read_accesses (stats c) + write_accesses (stats c) = n;
  ba_reads : 0 <= read_misses (stats c) <= read_accesses (stats c);
  ba_writes : 0 <= write_misses (stats c) <= write_accesses (stats c);
  ba_writebacks : 0 <= writebacks (stats c) /\ writebacks (stats c) + dirties c <= write_accesses (stats c) }.

Lemma balanced_access n c c' line bytes store reqs :
  balanced n c -> n + 1 < 2 ^ 64 -> abstract_access c line bytes store (contents c') (stats c') reqs -> balanced (n + 1) c'.
Proof.
  intros [A R W [B0 B]] N H. unfold dirties in B.
  inversion H as [d L CE SE|victim L V written s CE SE]; clear H.
  - pose proof (size_insert (contents c) line (d || store)) as S. rewrite CE in S.
    assert (store = false -> size (dirty (contents c')) = size (dirty (contents c))) as ID.
    { intros ->. rewrite <- CE, orb_false_r, insert_id by done. done. }
    assert (b2z (d || store) <= 1) by (by destruct (d || store)).
    split; rewrite <- SE; unfold dirties, count_access; destruct store; cbn; rewrite ?wrap_small by lia; try lia.
  - set (m1 := match victim with Some (v, _) => _ | None => _ end) in CE.
    assert (Z.of_nat (size (dirty m1)) <= Z.of_nat (size (dirty (contents c))) - b2z written) as S1.
    { unfold m1, written. destruct victim as [[v d]|]; [|cbn; lia]. apply size_delete, V. }
    pose proof (size_insert m1 line store) as S2. rewrite CE in S2.
    split; rewrite <- SE; unfold s, dirties; destruct written, store; cbn in S1, S2 |- *; rewrite ?wrap_small by lia; lia.
Qed.

Lemma balanced_clean n c addr clean inval :
  cache_ok c -> 0 <= addr < 2 ^ 64 -> (inval = true -> is_array c = true) -> n < 2 ^ 64 -> balanced n c -> balanced n (clean_line clean inval addr c).
Proof.
  intros OK A IV N [BA R W [B0 B]]. destruct (clean_line_spec c addr clean inval OK A IV) as (_ & _ & H). unfold dirties in B.
  destruct (contents c !! _) as [d|] eqn:L; [|rewrite H; by split]. destruct H as [C S].
  assert (Z.of_nat (size (dirty (contents (clean_line clean inval addr c)))) <= Z.of_nat (size (dirty (contents c))) - b2z (clean && d)) as D.
  { rewrite C. pose proof (size_delete (contents c) (line_of c addr) d L) as SD. destruct inval; [by destruct clean, d; cbn in *; lia|].
    destruct clean; cbn; [|lia]. rewrite <- insert_delete_eq. etrans; [apply size_insert|]. cbn. lia. }
  split; rewrite S; unfold dirties; destruct (clean && d); cbn in D |- *; rewrite ?wrap_small by lia; lia.
Qed.

(** ** From an empty cache *)

Inductive cache_op : Type :=
| Access (addr bytes : Z) (store : bool)
| Clean (addr bytes : Z) (clean inval : bool).

Definition run_op (op : cache_op) (cs : list cache_sim_t) : option (list cache_sim_t) :=
  match op with
  | Access addr bytes store => access addr bytes store cs
  | Clean addr bytes clean inval => Some (clean_invalidate addr bytes clean inval cs)
  end.
Fixpoint run_ops (ops : list cache_op) (cs : list cache_sim_t) : option (list cache_sim_t) :=
  match ops with [] => Some cs | op :: ops => cs ← run_op op cs; run_ops ops cs end.

Definition op_ok (arrays : bool) (op : cache_op) : Prop :=
  match op with
  | Access addr _ _ => 0 <= addr < 2 ^ 64
  | Clean addr bytes _ inval => 0 <= addr < 2 ^ 64 /\ (inval = true -> arrays = true)
  end.
Definition is_access (op : cache_op) : bool := match op with Access _ _ _ => true | _ => false end.
Definition accesses (ops : list cache_op) : Z := Z.of_nat (length (List.filter is_access ops)).

(** Cleaning a range is cleaning lines at addresses of 64 bits. *)
Lemma clean_lines_ind (P : cache_sim_t -> Prop) clean inval k :
  (forall addr c, 0 <= addr < 2 ^ 64 -> P c -> linesz c = k -> P (clean_line clean inval addr c) /\ linesz (clean_line clean inval addr c) = k) ->
  forall n cur c, 0 <= k -> 0 <= cur -> (n = 0%nat \/ cur + Z.of_nat (n - 1) * k < 2 ^ 64) -> P c -> linesz c = k -> P (clean_lines clean inval cur n c).
Proof.
  intros STEP. induction n as [|n IH]; intros cur c K C B H L; cbn [clean_lines]; [done|].
  destruct B as [B|B]; [done|]. destruct (STEP cur c) as [H1 L1]; [split; [done|nia]|done|done|]. rewrite L.
  apply IH; [done|lia| |done|done]. destruct n as [|n]; [by left|right]. replace (S n - 1)%nat with n by lia.
  replace (S (S n) - 1)%nat with (S n) in B by lia. nia.
Qed.

Lemma mask_range a k : 0 <= a -> 0 <= a &~ k <= a.
Proof.
  intros A. split; [apply Z.ldiff_nonneg; by left|]. rewrite <- (Z.lor_ldiff_and a k) at 2.
  rewrite lor_add; [|apply Z.bits_inj'; intros i I; autorewrite with zbits; by destruct (Z.testbit a i), (Z.testbit k i)].
  pose proof (proj2 (Z.land_nonneg a k) (or_introl A)). lia.
Qed.

Lemma clean_range_ind (P : cache_sim_t -> Prop) addr bytes clean inval c :
  (forall a c', 0 <= a < 2 ^ 64 -> P c' -> linesz c' = linesz c ->
    P (clean_line clean inval a c') /\ linesz (clean_line clean inval a c') = linesz c) ->
  0 < linesz c -> 0 <= addr < 2 ^ 64 -> P c -> P (clean_range addr bytes clean inval c).
Proof.
  intros STEP L A H. unfold clean_range. set (s := addr &~ _). set (e := _ &~ _).
  pose proof (mask_range addr (linesz c - 1) (proj1 A)) as SR. fold s in SR. assert (e < 2 ^ 64).
  { pose proof (wrap_range 64 (addr + bytes + linesz c - 1) ltac:(lia)). unfold e. pose proof (mask_range (u64 (addr + bytes + linesz c - 1)) (linesz c - 1)). lia. }
  apply (clean_lines_ind P clean inval (linesz c)); [exact STEP|lia|lia| |done|done].
  destruct (Z.le_gt_cases e s) as [ES|ES].
  - left. assert ((e - s) / linesz c <= 0) by (apply Z.div_le_upper_bound; lia). lia.
  - destruct (Z.to_nat ((e - s) / linesz c)) as [|n] eqn:N; [by left|right].
    replace (S n - 1)%nat with n by lia. pose proof (Z.div_mod (e - s) (linesz c) ltac:(lia)).
    pose proof (Z.mod_pos_bound (e - s) (linesz c) L). nia.
Qed.

Lemma clean_range_ok n c addr bytes clean inval :
  cache_ok c -> 0 <= addr < 2 ^ 64 -> (inval = true -> is_array c = true) -> n < 2 ^ 64 ->
  cache_ok (clean_range addr bytes clean inval c) /\ same_shape c (clean_range addr bytes clean inval c) /\
  (balanced n c -> balanced n (clean_range addr bytes clean inval c)).
Proof.
  intros OK A IV N. apply (clean_range_ind (fun c' => cache_ok c' /\ same_shape c c' /\ (balanced n c -> balanced n c'))).
  - intros a c' A' (OK' & SH & B) LZ. assert (inval = true -> is_array c' = true) as IV' by (intros I; destruct SH as (_ & _ & _ & _ & ->); auto).
    destruct (clean_line_spec c' a clean inval OK' A' IV') as (OK2 & SH2 & _).
    split; [|by rewrite <- LZ; apply SH2]. split; [done|]. split; [by etrans|]. intros B0. by apply balanced_clean; auto.
  - destruct (co_linesz c OK) as [? ->]. lia.
  - done.
  - split; [done|]. split; [reflexivity|done].
Qed.

Lemma shift_loop_pow2 fuel : forall k n, 0 <= k < Z.of_nat fuel -> shift_loop fuel (2 ^ k) n = n + k.
Proof.
  induction fuel as [|fuel IH]; intros k n K; [lia|]. cbn [shift_loop].
  destruct (Z.eq_dec k 0) as [->|N]; [rewrite Z.add_0_r; reflexivity|].
  assert (2 ^ k = 2 * 2 ^ (k - 1)) as E by (rewrite <- Z.pow_succ_r by lia; f_equal; lia).
  rewrite (proj2 (Z.ltb_lt _ _)) by lia. rewrite Z.shiftr_div_pow2 by lia.
  change (2 ^ 1) with 2. replace (2 ^ k / 2) with (2 ^ (k - 1)) by (rewrite E, Z.mul_comm, Z.div_mul by lia; done).
  rewrite IH by lia. lia.
Qed.

Lemma contents_empty c : (forall w, w ∈ words c -> w = 0) -> contents c = ∅.
Proof.
  unfold contents. generalize (words c). intros l Z0. replace (omap entry_of l) with ([] : list (Z * bool)); [done|].
  induction l as [|w l IH]; [done|]. cbn. rewrite (Z0 w) by apply list_elem_of_here. cbn.
  apply IH. intros x X. apply Z0. by apply list_elem_of_further.
Qed.

(** What [init] accepts, as [construct] calls it. *)
Lemma init_ok fa sets ways linesz c :
  init fa sets ways linesz = Some c -> 0 <= sets < 2 ^ 64 -> 0 < ways -> sets * ways < 2 ^ 64 -> 0 <= linesz < 2 ^ 64 ->
  (fa = true -> sets = 1) -> cache_ok c /\ stats c = no_stats /\ contents c = ∅ /\ is_array c = negb fa.
Proof.
  unfold init. intros H S W SW L F. destruct ((sets =? 0) || _) eqn:ES; [discriminate|].
  destruct ((linesz <? 8) || _) eqn:EL; [discriminate|]. apply Some_inj in H. symmetry in H. subst c.
  unfold z2b in *. rewrite orb_false_iff, negb_false_iff in ES, EL.
  destruct (pow2_of_land 64 sets) as (a & A & ->); [lia|lia|lia|]. destruct (pow2_of_land 64 linesz) as (b & B & ->); [lia|lia|lia|].
  assert (3 <= b). { destruct (Z.le_gt_cases 3 b) as [?|G]; [done|]. assert (2 ^ b < 2 ^ 3) by (apply Z.pow_lt_mono_r; lia). lia. }
  rewrite shift_loop_pow2 by lia. cbn [Z.add].
  set (ts := if fa then _ else _).
  assert (ZERO : forall w, w ∈ words (mk_cache (2 ^ a) ways (2 ^ b) b ts 1 no_stats) -> w = 0).
  { intros w. unfold words, ts. cbn. destruct fa; cbn; [set_solver|]. by intros [? _]%elem_of_replicate. }
  split; [split; cbn|split; [done|split]].
  - exists a. split; [lia|done].
  - split; [lia|done].
  - done.
  - intros w E. left. by rewrite (ZERO w E).
  - intros j k l d e Ll J K. exfalso. assert (word l d = 0) as Z0 by (apply ZERO; by eapply list_elem_of_lookup_2).
    apply (f_equal (fun x => Z.testbit x 63)) in Z0. rewrite word_bit in Z0; [done| |lia].
    destruct Ll as [L1 L2]. cbn in L2. split; [done|]. eapply Z.lt_le_trans; [exact L2|]. apply Z.pow_le_mono_r; lia.
  - unfold ts. destruct fa; cbn.
    + split; [by apply F|]. split; [lia|set_solver].
    + rewrite length_replicate, wrap_small by nia. split; [lia|]. intros k l d Ll K. exfalso.
      apply lookup_replicate in K as [Z0 _]. apply (f_equal (fun x => Z.testbit x 63)) in Z0. rewrite word_bit in Z0; [done| |lia].
      destruct Ll as [L1 L2]. cbn in L2. split; [done|]. eapply Z.lt_le_trans; [exact L2|]. apply Z.pow_le_mono_r; lia.
  - by apply contents_empty.
  - unfold is_array, ts. by destruct fa.
Qed.

Lemma level_arrays cs cs' : Forall2 level_ok cs cs' -> forallb is_array cs' = forallb is_array cs.
Proof. induction 1 as [|x y a b [_ (_ & _ & _ & _ & E)] _ IH]; cbn; [done|]. by rewrite E, IH. Qed.

Lemma run_ops_balanced ops : forall n c below,
  0 <= n -> n + accesses ops < 2 ^ 64 -> Forall cache_ok (c :: below) -> Forall (op_ok (forallb is_array (c :: below))) ops ->
  balanced n c ->
  exists c' below', run_ops ops (c :: below) = Some (c' :: below') /\ Forall2 level_ok (c :: below) (c' :: below') /\ balanced (n + accesses ops) c'.
Proof.
  assert (forall cs, Forall cache_ok cs -> Forall2 level_ok cs cs) as REFL.
  { intros cs H. induction H; constructor; auto. split; [done|reflexivity]. }
  induction ops as [|op ops IH]; intros n c below N B OKS OPS BAL.
  { exists c, below. split; [done|]. split; [by apply REFL|]. unfold accesses. cbn. by rewrite Z.add_0_r. }
  apply Forall_cons in OPS as [OP OPS]. cbn [run_ops].
  assert (accesses (op :: ops) = b2z (is_access op) + accesses ops) as AC.
  { unfold accesses. cbn. destruct (is_access op); cbn [length b2z]; lia. }
  assert (0 <= accesses ops) by (unfold accesses; lia).
  assert (exists c1 b1, run_op op (c :: below) = Some (c1 :: b1) /\ Forall2 level_ok (c :: below) (c1 :: b1) /\ balanced (n + b2z (is_access op)) c1)
    as (c1 & b1 & -> & LV & B1).
  { destruct op as [addr bytes store|addr bytes clean inval]; cbn [run_op is_access b2z] in *.
    - destruct (access_total _ (c :: below) addr bytes store eq_refl OKS OP) as (cs' & E & LV & AB).
      destruct cs' as [|c1 b1]; [by inversion LV|]. exists c1, b1. split; [done|]. split; [done|].
      destruct AB as (reqs & AB & _). eapply balanced_access; [done|lia|done].
    - destruct OP as [A IV]. cbn [clean_invalidate map].
      assert (forall x, cache_ok x -> (inval = true -> is_array x = true) -> level_ok x (clean_range addr bytes clean inval x)) as LVX.
      { intros x OK I. destruct (clean_range_ok 0 x addr bytes clean inval OK A I ltac:(lia)) as (? & ? & _). by split. }
      assert (forall x, x ∈ (c :: below) -> inval = true -> is_array x = true) as ARR.
      { intros x X I. specialize (IV I). rewrite forallb_forall in IV. apply IV. by apply list_elem_of_In. }
      eexists _, _. split; [done|]. split.
      + change (clean_range addr bytes clean inval c :: map (clean_range addr bytes clean inval) below) with (map (clean_range addr bytes clean inval) (c :: below)).
        clear -LVX ARR OKS. induction OKS as [|x cs OK OKS IH]; cbn; constructor.
        * apply LVX; [done|]. apply ARR, list_elem_of_here.
        * apply IH. intros y Y. apply ARR. by apply list_elem_of_further.
      + rewrite Z.add_0_r. apply Forall_cons in OKS as [OK _].
        apply (clean_range_ok n c addr bytes clean inval OK A); [|lia|done]. apply ARR, list_elem_of_here. }
  cbn [mbind option_bind]. destruct (IH (n + b2z (is_access op)) c1 b1) as (c2 & b2 & E & LV2 & B2); [destruct (is_access op); cbn; lia|lia| | |done|].
  - by eapply level_ok_all.
  - by rewrite (level_arrays _ _ LV).
  - exists c2, b2. split; [done|]. split; [by eapply level_ok_trans|]. by replace (n + accesses (op :: ops)) with (n + b2z (is_access op) + accesses ops) by lia.
Qed.

(** C29. The counters of a cache that [init] made, whatever accesses, cleans and
    invalidations follow and whatever caches are below: the accesses are counted, no
    more of them miss than there are, and a line is written back at most once for
    every write: write-backs and dirty lines together are at most the writes.
    Invalidations are asked of arrays only, see [fa_invalidate_hits]. *)
Theorem cache_counters fa sets ways linesz c below ops :
  init fa sets ways linesz = Some c -> 0 <= sets < 2 ^ 64 -> 0 < ways -> sets * ways < 2 ^ 64 -> 0 <= linesz < 2 ^ 64 ->
  (fa = true -> sets = 1) -> Forall cache_ok below -> Forall (op_ok (forallb is_array (c :: below))) ops -> accesses ops < 2 ^ 64 ->
  exists c' below', run_ops ops (c :: below) = Some (c' :: below') /\
    read_accesses (stats c') + write_accesses (stats c') = accesses ops /\
    0 <= read_misses (stats c') <= read_accesses (stats c') /\
    0 <= write_misses (stats c') <= write_accesses (stats c') /\
    0 <= writebacks (stats c') /\ writebacks (stats c') + dirties c' <= write_accesses (stats c').
Proof.
  intros I S W SW L F OKS OPS N. destruct (init_ok _ _ _ _ _ I S W SW L F) as (OK & ST & CT & _).
  assert (B0 : balanced 0 c).
  { assert (dirties c = 0) as D.
    { unfold dirties. rewrite CT. replace (dirty ∅) with (∅ : gset Z); [by rewrite size_empty|].
      symmetry. apply set_eq. intros x. rewrite elem_dirty. set_solver. }
    split; rewrite ST, ?D; cbn; lia. }
  destruct (run_ops_balanced ops 0 c below) as (c' & b' & E & _ & [B1 B2 B3 B4]); [lia|lia|by constructor|done|done|].
  exists c', b'. auto.
Qed.

(** ** Two levels *)

Definition misses (s : stats_t) : Z := read_misses s + write_misses s.
Definition requests (store : bool) (reqs : list (Z * Z * bool)) : Z :=
  Z.of_nat (length (List.filter (fun r => Bool.eqb (snd r) store) reqs)).

(** Equality of counters, which wrap around. *)
Definition same_count (a b : Z) : Prop := u64 a = u64 b.
#[local] Infix "≈" := same_count (at level 70).

#[local] Instance same_count_equiv : Equivalence same_count.
Proof. split; [done|by intros ? ? ?|intros a b c H1 H2; unfold same_count in *; congruence]. Qed.
#[local] Instance same_count_add : Proper (same_count ==> same_count ==> same_count) Z.add.
Proof. intros a b H c d K. unfold same_count, wrap in *. rewrite Z.add_mod, H, K, <- Z.add_mod by lia. done. Qed.

Lemma same_eq a b : a = b -> a ≈ b.
Proof. by intros ->. Qed.
Lemma count_wrap a : u64 a ≈ a.
Proof. unfold same_count. apply wrap_wrap. lia. Qed.

(** A level asks for a line at every miss, and for a write at every write-back. *)
Lemma abstract_requests c line bytes store m s reqs : abstract_access c line bytes store m s reqs ->
  misses s ≈ misses (stats c) + requests false reqs /\ writebacks s ≈ writebacks (stats c) + requests true reqs.
Proof.
  unfold misses, requests. intros [d D|victim N V].
  - destruct store; cbn; by rewrite !Z.add_0_r.
  - destruct victim as [[v []]|], store; cbn; rewrite ?count_wrap, ?Z.add_0_r; split; try done; apply same_eq; lia.
Qed.

Lemma abstract_accesses c line bytes store m s reqs : abstract_access c line bytes store m s reqs ->
  read_accesses s ≈ read_accesses (stats c) + b2z (negb store) /\ write_accesses s ≈ write_accesses (stats c) + b2z store.
Proof.
  intros [d D|victim N V].
  - destruct store; cbn; by rewrite count_wrap, Z.add_0_r.
  - destruct victim as [[v []]|], store; cbn; by rewrite count_wrap, Z.add_0_r.
Qed.

(** What a level serves, it counts. *)
Lemma serve_counts reqs : forall l, cache_ok l -> Forall (fun '(a, _, _) => 0 <= a < 2 ^ 64) reqs ->
  exists l', serve reqs [l] = Some [l'] /\ cache_ok l' /\
    read_accesses (stats l') ≈ read_accesses (stats l) + requests false reqs /\
    write_accesses (stats l') ≈ write_accesses (stats l) + requests true reqs.
Proof.
  induction reqs as [|[[a b] st] reqs IH]; intros l OK R.
  { exists l. split; [done|]. split; [done|]. cbn. by rewrite !Z.add_0_r. }
  apply Forall_cons in R as [A R]. destruct (access_total 1 [l] a b st eq_refl) as (cs & E & LV & AB); [by constructor|done|].
  destruct cs as [|l1 [|? ?]]; [inversion LV| |inversion LV as [|? ? ? ? ? X]; inversion X]. destruct AB as (rs & AB & _).
  apply level_ok_all in LV as OK1. apply Forall_cons in OK1 as [OK1 _]. destruct (abstract_accesses _ _ _ _ _ _ _ AB) as [RA WA].
  destruct (IH l1 OK1 R) as (l' & S & OK' & RA' & WA'). exists l'. cbn [serve]. rewrite E. cbn [mbind option_bind].
  split; [done|]. split; [done|]. rewrite RA', WA', RA, WA. unfold requests. cbn [List.filter snd]. destruct st; cbn [Bool.eqb negb b2z length]; split; apply same_eq; lia.
Qed.

(** The counters of the second level and those of the first agree. *)
Definition first_levels (f : stats_t -> Z) (h : hierarchy) : Z :=
  f (default no_stats (stats <$> ic h)) + f (default no_stats (stats <$> dc h)).
Definition caches (h : hierarchy) : list cache_sim_t := to_list (ic h) ++ to_list (dc h) ++ to_list (l2 h).
Definition traffic (h : hierarchy) : Prop :=
  Forall cache_ok (caches h) /\
  match l2 h with
  | Some l => read_accesses (stats l) ≈ first_levels misses h /\ write_accesses (stats l) ≈ first_levels writebacks h
  | None => True
  end.

Lemma first_access c l addr bytes store : cache_ok c -> Forall cache_ok (to_list l) -> 0 <= addr < 2 ^ 64 ->
  exists c' l', access addr bytes store (c :: to_list l) = Some (c' :: to_list l') /\ cache_ok c' /\ Forall cache_ok (to_list l') /\
  match l, l' with
  | Some l, Some l' => exists m w, misses (stats c') ≈ misses (stats c) + m /\ writebacks (stats c') ≈ writebacks (stats c) + w /\
      read_accesses (stats l') ≈ read_accesses (stats l) + m /\ write_accesses (stats l') ≈ write_accesses (stats l) + w
  | None, None => True
  | _, _ => False
  end.
Proof.
  intros OK OKL A. destruct (access_refines c addr bytes store (to_list l) OK A) as (c' & reqs & E & OK' & SH & AB).
  pose proof (requests_range _ _ _ _ _ _ _ OK (line_of_range c OK addr A) AB) as R. exists c'. rewrite E. destruct l as [l|]; cbn [to_list] in *.
  - apply Forall_cons in OKL as [OKL _]. destruct (serve_counts reqs l OKL R) as (l' & -> & OKL' & RA & WA). exists (Some l').
    split; [done|]. split; [done|]. split; [by constructor|]. destruct (abstract_requests _ _ _ _ _ _ _ AB) as [M W]. by eexists _, _.
  - exists None. assert (serve reqs [] = Some []) as ->; [|by split]. clear. induction reqs as [|[[a b] s] reqs IH]; [done|]. exact IH.
Qed.

Lemma trace_traffic t addr bytes type h : traffic h -> 0 <= addr < 2 ^ 64 ->
  exists h', trace t addr bytes type h = Some h' /\ traffic h' /\ (is_Some (l2 h) -> is_Some (l2 h')).
Proof.
  intros [OK T] A. unfold trace. destruct (interested t type); [|by exists h]. unfold on_tracer, caches in *.
  apply Forall_app in OK as [OKI [OKD OKL]%Forall_app]. unfold traffic, caches, first_levels in *. destruct h as [i d l]. cbn [ic dc l2] in *.
  destruct t.
  - destruct i as [c|]; [|exists (mk_hierarchy None d l); by rewrite !Forall_app]. apply Forall_cons in OKI as [OKC _].
    destruct (first_access c l addr bytes (match type with STORE => true | _ => false end) OKC OKL A) as (c' & l' & -> & OKC' & OKL' & X).
    cbn. eexists; split; [done|]. cbn. split; [split|].
    + apply Forall_cons. split; [done|]. apply Forall_app. split; [done|]. by destruct l'.
    + destruct l as [l|], l' as [l'|]; try done. destruct X as (m & w & X1 & X2 & X3 & X4), T as [T1 T2]. cbn.
      rewrite X3, X4, X1, X2, T1, T2. split; apply same_eq; cbn; lia.
    + destruct l as [l|], l' as [l'|]; try done; by intros [? ?].
  - destruct d as [c|]; [|exists (mk_hierarchy i None l); by rewrite !Forall_app]. apply Forall_cons in OKD as [OKC _].
    destruct (first_access c l addr bytes (match type with STORE => true | _ => false end) OKC OKL A) as (c' & l' & -> & OKC' & OKL' & X).
    cbn. eexists; split; [done|]. cbn. split; [split|].
    + rewrite !Forall_app. split; [done|]. apply Forall_cons. split; [done|]. by destruct l'.
    + destruct l as [l|], l' as [l'|]; try done. destruct X as (m & w & X1 & X2 & X3 & X4), T as [T1 T2]. cbn.
      rewrite X3, X4, X1, X2, T1, T2. split; apply same_eq; cbn; lia.
    + destruct l as [l|], l' as [l'|]; try done; by intros [? ?].
Qed.

Fixpoint run_traces (ts : list (Z * Z * access_type)) (h : hierarchy) : option hierarchy :=
  match ts with [] => Some h | (addr, bytes, type) :: ts => h ← list_trace addr bytes type h; run_traces ts h end.

Lemma list_traffic addr bytes type h : traffic h -> 0 <= addr < 2 ^ 64 ->
  exists h', list_trace addr bytes type h = Some h' /\ traffic h' /\ (is_Some (l2 h) -> is_Some (l2 h')).
Proof.
  unfold list_trace. generalize (hooked h). intros ts. revert h. induction ts as [|t ts IH]; intros h T A; cbn; [by exists h|].
  destruct (trace_traffic t addr bytes type h T A) as (h1 & -> & T1 & L). cbn.
  destruct (IH h1 T1 A) as (h2 & ? & ? & ?). exists h2. auto.
Qed.

(** C38. A second level below the caches of instructions and data.  After any loads,
    stores and fetches from caches whose counters are zero, what it has read is what
    the two have missed, and what it was written is what the two have written back,
    counters wrapping around.  Cleaning breaks the second part, see
    [clean_not_passed]. *)
Theorem l2_traffic i d l ts h :
  h = mk_hierarchy i d (Some l) -> Forall cache_ok (caches h) -> (forall c, c ∈ caches h -> stats c = no_stats) ->
  Forall (fun '(addr, _, _) => 0 <= addr < 2 ^ 64) ts ->
  exists h' l', run_traces ts h = Some h' /\ l2 h' = Some l' /\
    u64 (read_accesses (stats l')) = u64 (first_levels misses h') /\
    u64 (write_accesses (stats l')) = u64 (first_levels writebacks h').
Proof.
  intros E OK Z0 R. assert (T : traffic h).
  { split; [done|]. rewrite E in *. unfold caches in Z0. cbn. rewrite (Z0 l) by set_solver. unfold first_levels. cbn.
    assert (forall o, (forall c, c ∈ to_list o -> stats c = no_stats) -> default no_stats (stats <$> o) = no_stats) as N.
    { intros [c|] C; cbn in *; [apply C; set_solver|done]. }
    rewrite !N by (intros c C; apply Z0; cbn; set_solver). done. }
  assert (L : is_Some (l2 h)) by (rewrite E; by eexists). clear E Z0 OK. revert h T L.
  induction R as [|[[addr bytes] type] ts A R IH]; intros h T [l' L]; cbn [run_traces].
  - exists h, l'. split; [done|]. split; [done|]. destruct T as [_ T]. by rewrite L in T.
  - destruct (list_traffic addr bytes type h T A) as (h1 & -> & T1 & L1). cbn. apply IH; [done|]. by apply L1.
Qed.

(** * Concrete caches *)

(** 4 sets of 2 ways of 8 bytes, one set of 5 ways looked up in the map, and 8 sets
    of 2 ways of 16 bytes. *)
Definition small : cache_sim_t := mk_cache 4 2 8 3 (Array (replicate 8 0)) 1 no_stats.
Definition assoc5 : cache_sim_t := mk_cache 1 5 8 3 (Map []) 1 no_stats.
Definition second : cache_sim_t := mk_cache 8 2 16 4 (Array (replicate 16 0)) 1 no_stats.

Example construct_small : construct "4:2:8" = Some (Some small) /\ construct "1:5:8" = Some (Some assoc5) /\
  construct "8:2:16" = Some (Some second) /\ construct "4:2" = Some None /\ construct "3:2:8" = Some None.
Proof. vm_compute. auto. Qed.

Lemma small_ok : cache_ok small.
Proof. by apply (init_ok false 4 2 8). Qed.
Lemma assoc5_ok : cache_ok assoc5.
Proof. by apply (init_ok true 1 5 8). Qed.
Lemma second_ok : cache_ok second.
Proof. by apply (init_ok false 8 2 16). Qed.

(** In the map, a line that was invalidated still hits: the key alone is looked up.
    In the array, it misses. *)
Example fa_invalidate_hits : forall c, c ∈ [assoc5; small] ->
  (c' ← access 0x40 4 false [c]; access 0x40 4 false (clean_invalidate 0x40 4 false true c')) ≫=
    (fun cs => read_misses ∘ stats <$> head cs) = Some (if is_array c then 2 else 1).
Proof. intros c [->|[->|[]%elem_of_nil]%elem_of_cons]%elem_of_cons; vm_compute; reflexivity. Qed.

(** A line cleaned is counted as written back; the second level is not written. *)
Example clean_not_passed :
  (h ← list_trace 0x40 4 STORE (mk_hierarchy None (Some small) (Some second)); list_clean_invalidate 0x40 4 true false h) ≫=
    (fun h => Some (writebacks ∘ stats <$> dc h, write_accesses ∘ stats <$> l2 h)) = Some (Some 1, Some 0).
Proof. vm_compute. reflexivity. Qed.

Lemma cache_access_witness : exists cs',
  access 0x1238 4 true [assoc5; second] = Some cs' /\ accessed 0x1238 4 true [assoc5; second] cs' /\
  map (fun c => dirty (contents c)) cs' = [{[0x247]}; ∅].
Proof.
  destruct (cache_access [assoc5; second] 0x1238 4 true) as (cs' & E & A).
  - constructor; [exact assoc5_ok|]. constructor; [exact second_ok|constructor].
  - split; [discriminate|reflexivity].
  - exists cs'. split; [exact E|]. split; [exact A|]. vm_compute in E. apply Some_inj in E. subst cs'. vm_compute. reflexivity.
Defined.

Lemma cache_counters_witness :
  exists c' below', run_ops [Access 0 4 true; Access 0x20 4 true; Access 0x40 4 true; Clean 0 4 true true; Access 8 4 false] [small; second] = Some (c' :: below') /\
    read_accesses (stats c') + write_accesses (stats c') = 4 /\
    0 <= read_misses (stats c') <= read_accesses (stats c') /\
    0 <= write_misses (stats c') <= write_accesses (stats c') /\
    0 <= writebacks (stats c') /\ writebacks (stats c') + dirties c' <= write_accesses (stats c').
Proof.
  apply (cache_counters false 4 2 8 small [second]
    [Access 0 4 true; Access 0x20 4 true; Access 0x40 4 true; Clean 0 4 true true; Access 8 4 false]).
  1: reflexivity.
  1-4: lia.
  - discriminate.
  - constructor; [exact second_ok|constructor].
  - repeat constructor; discriminate.
  - reflexivity.
Defined.

Lemma l2_traffic_witness :
  exists h' l', run_traces [(0, 4, FETCH); (0, 4, STORE); (0x20, 4, STORE); (0x40, 4, STORE); (0x60, 8, LOAD)]
      (mk_hierarchy (Some assoc5) (Some small) (Some second)) = Some h' /\ l2 h' = Some l' /\
    u64 (read_accesses (stats l')) = u64 (first_levels misses h') /\
    u64 (write_accesses (stats l')) = u64 (first_levels writebacks h') /\
    read_accesses (stats l') = 5 /\ write_accesses (stats l') = 3.
Proof.
  destruct (l2_traffic (Some assoc5) (Some small) second
    [(0, 4, FETCH); (0, 4, STORE); (0x20, 4, STORE); (0x40, 4, STORE); (0x60, 8, LOAD)] _ eq_refl) as (h' & l' & E & L & R & W).
  - apply Forall_cons; split; [exact assoc5_ok|]. apply Forall_cons; split; [exact small_ok|]. by apply Forall_singleton, second_ok.
  - intros c H. repeat (apply elem_of_cons in H as [->|H]; [reflexivity|]). by apply elem_of_nil in H.
  - repeat constructor; discriminate.
  - exists h', l'. split; [exact E|]. split; [exact L|]. split; [exact R|]. split; [exact W|].
    vm_compute in E. apply Some_inj in E. subst h'. vm_compute in L. apply Some_inj in L. subst l'. split; reflexivity.
Defined.
