(* ===== verification/DebugFacts.v ===== *)
(** Facts on the debug module: no access leaves an array, a module that asks for
    authentication does nothing without it, and the programs it assembles are
    those of the debug specification. *)

From S2P Require Import Prelude IntArith Decode Encoding Assembler DebugDefines JtagDtm Trap Hart DebugModule HartFacts.
Import Assembler Dm.

Section arrays.
Context {A : Type}.
Implicit Types (l : list A) (i : Z).

Lemma at_some l i : 0 <= i < Z.of_nat (length l) -> exists x, at_ l i = Some x.
Proof.
  intros Hi. unfold at_, in_bounds. replace (_ && _) with true by lia.
  apply (lookup_lt_is_Some_2 l (Z.to_nat i)). lia.
Qed.

Lemma put_at_some l i x : 0 <= i < Z.of_nat (length l) -> put_at l i x = Some (<[Z.to_nat i := x]> l).
Proof. intros Hi. unfold put_at, in_bounds. by replace (_ && _) with true by lia. Qed.
End arrays.

Lemma memcpy_some l off bytes : 0 <= off -> off + Z.of_nat (length bytes) <= Z.of_nat (length l) ->
  exists m, memcpy l off bytes = Some m /\ length m = length l.
Proof.
  intros H1 H2. unfold memcpy. replace (_ && _) with true by lia. eexists. split; [reflexivity|].
  rewrite !length_app, length_firstn, length_skipn. lia.
Qed.

Lemma write32_some l i w : 0 <= i -> i * 4 + 4 <= Z.of_nat (length l) ->
  exists m, write32 l i w = Some m /\ length m = length l.
Proof. intros. apply memcpy_some; cbn [le32 length]; lia. Qed.

Lemma read32_some l i : 0 <= i -> i * 4 + 4 <= Z.of_nat (length l) -> exists x, read32 l i = Some x.
Proof.
  intros. unfold read32.
  destruct (at_some l (i * 4)) as [? ->]; [lia|]. destruct (at_some l (i * 4 + 1)) as [? ->]; [lia|].
  destruct (at_some l (i * 4 + 2)) as [? ->]; [lia|]. destruct (at_some l (i * 4 + 3)) as [? ->]; [lia|].
  by eexists.
Qed.

Lemma read32_le32 x : 0 <= x < 2 ^ 32 -> read32 (le32 x) 0 = Some x.
Proof.
  intros Hx. change (Some (u8 x .| Z.shiftl (u8 (Z.shiftr x 8)) 8 .| Z.shiftl (u8 (Z.shiftr x 16)) 16
    .| Z.shiftl (u8 (Z.shiftr x 24)) 24) = Some x). f_equal.
  apply Z.bits_inj'. intros i Hi.
  destruct (Z.lt_ge_cases i 8); [|destruct (Z.lt_ge_cases i 16); [|destruct (Z.lt_ge_cases i 24)]];
    do 3 (autorewrite with zbits; cmp_cases; neg_bits);
    rewrite ?Z.sub_add; cbn [andb orb]; rewrite ?orb_false_r, ?andb_false_r; try done;
    try (by rewrite (tb_high 32 x) by lia).
Qed.

(** * The invariant *)

Section invariant.
Context {B : Type} `{!debug_config, !system_bus B}.
Implicit Types d : debug_module_t B.

(** The command line sorts the numbers of the harts and bounds them. *)
Record config_ok : Prop := {
  co_harts : hartids <> [];
  co_range : Forall (fun id => 0 <= id <= max_hartid) hartids;
  co_max : max_hartid < 1024;
  co_progbuf : 0 <= progbufsize <= 16 }.
Context (Hcfg : config_ok).

Record dm_ok (d : debug_module_t B) : Prop := {
  ok_hartsel : 0 <= hartsel (dmcontrol d) < nprocs;
  ok_hart_state : max_hartid < Z.of_nat (length (hart_state d));
  ok_mask : Z.of_nat (length (hart_array_mask d)) = max_hartid + 1;
  ok_abstract : Z.of_nat (length (debug_abstract d)) = debug_abstract_size * 4;
  ok_progbuf : Z.of_nat (length (program_buffer d)) = program_buffer_bytes;
  ok_data : Z.of_nat (length (dmdata d)) = datasize * 4;
  ok_flags : Z.of_nat (length (debug_rom_flags d)) = 1024;
  ok_datacount : datacount (abstractcs d) = datasize;
  ok_window : 0 <= hawindowsel d }.

(** The operation does not fail, and keeps the invariant. *)
Definition safe (o : option (debug_module_t B)) : Prop := exists d, o = Some d /\ dm_ok d.

Lemma safe_some d : dm_ok d -> safe (Some d).
Proof. by exists d. Qed.

Lemma safe_bind o f : safe o -> (forall d, dm_ok d -> safe (f d)) -> safe (o ≫= f).
Proof. intros (d & -> & Hd) Hf. by apply Hf. Qed.

Lemma safe_if (b : bool) o1 o2 : safe o1 -> safe o2 -> safe (if b then o1 else o2).
Proof. by destruct b. Qed.

Lemma hart_in id : In id hartids -> 0 <= id <= max_hartid.
Proof. intros Hi. destruct Hcfg as [_ Hr _ _]. rewrite List.Forall_forall in Hr. by apply Hr. Qed.

Lemma selected_some d : dm_ok d -> exists id, selected_hart_id d = Some id /\ In id hartids.
Proof.
  intros [Hs _ _ _ _ _ _ _ _]. unfold selected_hart_id, at_, in_bounds.
  replace (_ && _) with true by (unfold nprocs in Hs; lia).
  destruct (lookup_lt_is_Some_2 hartids (Z.to_nat (hartsel (dmcontrol d)))) as [id Hid]; [unfold nprocs in Hs; lia|].
  exists id. split; [done|]. apply list_elem_of_In. by eapply list_elem_of_lookup_2.
Qed.

Lemma hart_state_some id d : dm_ok d -> In id hartids -> exists h, hart_state_at id d = Some h.
Proof. intros [] Hid%hart_in. apply at_some. lia. Qed.

Lemma update_hart_safe id f d : dm_ok d -> In id hartids -> safe (update_hart id f d).
Proof.
  intros Hd Hid. unfold update_hart. destruct (hart_state_some id d Hd Hid) as [h ->]. cbn [mbind option_bind].
  pose proof (hart_in id Hid). destruct Hd. rewrite put_at_some by lia. cbn [mbind option_bind].
  apply safe_some. split; cbn; rewrite ?length_insert; done.
Qed.

Lemma update_flags_safe id f d : dm_ok d -> In id hartids -> safe (update_flags id f d).
Proof.
  intros Hd Hid. unfold update_flags. pose proof (hart_in id Hid). destruct Hd, Hcfg.
  destruct (at_some (debug_rom_flags d) id) as [x ->]; [lia|]. cbn [mbind option_bind].
  rewrite put_at_some by lia. apply safe_some. split; cbn; rewrite ?length_insert; done.
Qed.

Lemma for_harts_safe body l d :
  (forall id d, In id l -> dm_ok d -> safe (body id d)) -> dm_ok d -> safe (for_harts l body d).
Proof.
  revert d. induction l as [|id l IH]; intros d Hb Hd; cbn [for_harts]; [by apply safe_some|].
  apply safe_bind; [apply Hb; [by left|done]|]. intros d1 Hd1. apply IH; [|done]. intros. apply Hb; [by right|done].
Qed.

Lemma hart_selected_some id d : dm_ok d -> In id hartids -> exists b, hart_selected id d = Some b.
Proof.
  intros Hd Hid. unfold hart_selected. destruct (selected_some d Hd) as (sel & -> & _). cbn [mbind option_bind].
  destruct (_ =? _); [by eexists|]. destruct (hasel _); [|by eexists]. pose proof (hart_in id Hid). destruct Hd.
  apply at_some. lia.
Qed.

Lemma act_ok a d : dm_ok d -> dm_ok (act a d).
Proof. intros []. by split. Qed.
Lemma fail_ok e d : dm_ok d -> dm_ok (fail e d).
Proof. intros []. by split. Qed.
Lemma reset_hart_safe id d : dm_ok d -> In id hartids -> safe (reset_hart id d).
Proof. intros Hd Hid. apply update_hart_safe; [by apply act_ok|done]. Qed.

Lemma nprocs_pos : 0 < nprocs.
Proof. unfold nprocs. destruct Hcfg as [Hne _ _ _]. destruct hartids; [done|]. cbn [length]. lia. Qed.

Lemma reset_ok d : dm_ok d -> dm_ok (reset d).
Proof. intros []. pose proof nprocs_pos. by split. Qed.

(** * Abstract commands *)

(** Words are emitted as long as they fit: 12 of them. *)
Lemma emit_safe ws i d : dm_ok d -> 0 <= i -> i + Z.of_nat (length ws) <= debug_abstract_size ->
  exists d', emit i ws d = Some (i + Z.of_nat (length ws), d') /\ dm_ok d'.
Proof.
  revert i d. induction ws as [|w ws IH]; intros i d Hd Hi Hl; cbn [emit length].
  { exists d. split; [|done]. do 2 f_equal. cbn. lia. }
  cbn [length] in Hl. pose proof (ok_abstract d Hd) as Ha.
  destruct (write32_some (debug_abstract d) i w) as (m & -> & Hm); [done|unfold debug_abstract_size in *; lia|].
  cbn [mbind option_bind].
  destruct (IH (i + 1) (set_debug_abstract m d)) as (d' & -> & Hd'); [|lia..|].
  { destruct Hd. split; cbn; congruence. }
  exists d'. split; [|done]. do 2 f_equal. lia.
Qed.

(** The end of a part of a program of at most [n] words. *)
Definition part_safe (n : Z) (o : option (option Z * debug_module_t B)) : Prop :=
  exists r d, o = Some (r, d) /\ dm_ok d /\ forall i, r = Some i -> 0 <= i <= n.

Lemma part_none n d : dm_ok d -> part_safe n (Some (None, d)).
Proof. intros Hd. by exists None, d. Qed.
Lemma part_some n i d : dm_ok d -> 0 <= i <= n -> part_safe n (Some (Some i, d)).
Proof. intros Hd Hi. exists (Some i), d. split_and!; [done..|]. by intros ? [= <-]. Qed.

Lemma part_emit n ws i d k : dm_ok d -> 0 <= i -> i + Z.of_nat (length ws) <= debug_abstract_size ->
  (forall d, dm_ok d -> part_safe n (k (i + Z.of_nat (length ws)) d)) ->
  part_safe n ('(i, d) ← emit i ws d; k i d).
Proof. intros Hd Hi Hl Hk. destruct (emit_safe ws i d Hd Hi Hl) as (d' & -> & Hd'). by apply Hk. Qed.

Lemma part_bind n m o k : part_safe n o ->
  (forall d, dm_ok d -> part_safe m (k None d)) -> (forall i d, 0 <= i <= n -> dm_ok d -> part_safe m (k (Some i) d)) ->
  part_safe m ('(r, d) ← o; k r d).
Proof.
  intros (r & d & -> & Hd & Hi) Hn Hs. cbn. destruct r as [i|]; [apply Hs; [by apply Hi|done]|by apply Hn].
Qed.

Lemma transfer_gpr_safe regno size write i d : dm_ok d -> 0 <= i <= 5 ->
  part_safe (i + 2) (transfer_gpr regno size write i d).
Proof.
  intros Hd Hi. unfold transfer_gpr. destruct (if size =? 2 then _ else _) as [w|];
    [|apply part_none; by apply fail_ok].
  apply part_emit; [done|lia|unfold debug_abstract_size; cbn [length]; lia|]. intros d1 Hd1. cbn [length].
  set (ws := if _ && _ then _ else _).
  assert (Z.of_nat (length ws) <= 1) by (unfold ws; by destruct (_ && _)).
  apply part_emit; [done|lia|unfold debug_abstract_size; lia|]. intros. apply part_some; [done|lia].
Qed.

Lemma transfer_fpr_safe regno size write i d : dm_ok d -> 0 <= i <= 5 ->
  part_safe (i + 1) (transfer_fpr regno size write i d).
Proof.
  intros Hd Hi. unfold transfer_fpr. destruct (if size =? 2 then _ else _) as [w|];
    [|apply part_none; by apply fail_ok].
  apply part_emit; [done|lia|unfold debug_abstract_size; cbn [length]; lia|]. intros. apply part_some; [done|cbn; lia].
Qed.

Lemma transfer_csr_safe regno size write i d : dm_ok d -> 0 <= i -> i <= (if is_fpu_reg regno then 5 else 0) ->
  part_safe (if is_fpu_reg regno then 7 else 4) (transfer_csr regno size write i d).
Proof.
  intros Hd Hi Hf. unfold transfer_csr. set (own := negb (is_fpu_reg regno)).
  set (ws := if own then _ else _). set (ws' := if own then _ else _).
  assert (Z.of_nat (length ws) = (if own then 1 else 0) /\ Z.of_nat (length ws') = (if own then 1 else 0)) as [H1 H2]
    by (by destruct own).
  assert (i + 2 * (if own then 1 else 0) + 2 <= (if is_fpu_reg regno then 7 else 4)) as Hn
    by (unfold own; destruct (is_fpu_reg regno); cbn [negb]; lia).
  assert ((if is_fpu_reg regno then 7 else 4) <= 7) by (destruct (is_fpu_reg regno); lia).
  set (n := if is_fpu_reg regno then 7 else 4) in *. set (o := if own then 1 else 0) in *.
  assert (0 <= o) by (unfold o; destruct own; lia). clearbody n o.
  apply part_emit; [done|done|unfold debug_abstract_size; lia|]. intros d1 Hd1. rewrite ?H1, ?H2.
  apply (part_bind (i + o + 2)).
  - destruct write.
    + destruct (if size =? 2 then _ else _) as [w|]; [|apply part_none; by apply fail_ok].
      apply part_emit; [done|lia|unfold debug_abstract_size; cbn [length]; lia|]. intros. apply part_some; [done|cbn; lia].
    + apply part_emit; [done|lia|unfold debug_abstract_size; cbn [length]; lia|]. intros d2 Hd2. cbn [length].
      destruct (if size =? 2 then _ else _) as [w|]; [|apply part_none; by apply fail_ok].
      apply part_emit; [done|lia|unfold debug_abstract_size; cbn [length]; lia|]. intros. apply part_some; [done|cbn; lia].
  - intros. by apply part_none.
  - intros i1 d2 Hi1 Hd2. apply part_emit; [done|lia|unfold debug_abstract_size; lia|]. intros.
    apply part_some; [done|lia].
Qed.

Lemma transfer_custom_safe n regno write d : dm_ok d -> part_safe n (transfer_custom regno write d).
Proof.
  intros Hd. unfold transfer_custom. pose proof (fail_ok CMDERR_NONE d Hd) as Hf. set (d1 := fail _ d) in *.
  pose proof (ok_data d1 Hf) as Hl. unfold datasize in Hl. destruct write.
  - destruct (read32_some (dmdata d1) 0) as [x ->]; [lia..|]. apply part_none. destruct Hf. by split.
  - destruct (write32_some (dmdata d1) 0 (u32 (regno - 0xc000 + custom_base d1))) as (m & -> & Hm); [lia..|].
    cbn [mbind option_bind]. destruct (write32_some m 1 0) as (m' & -> & Hm'); [lia..|].
    apply part_none. destruct Hf. split; cbn; rewrite ?Hm', ?Hm; done.
Qed.

Lemma transfer_safe regno size write d : dm_ok d -> part_safe 11 (transfer regno size write d).
Proof.
  intros Hd. unfold transfer. set (fpu := is_fpu_reg regno).
  set (ws := if fpu then _ else _). set (ws' := if fpu then _ else _).
  assert (Z.of_nat (length ws) = (if fpu then 3 else 0) /\ Z.of_nat (length ws') = (if fpu then 5 else 0)) as [H1 H2]
    by (by destruct fpu).
  apply part_emit; [done|lia|unfold debug_abstract_size; destruct fpu; lia|]. intros d1 Hd1. rewrite ?H1, ?H2.
  assert (forall n, part_safe n (Some (None, fail CMDERR_NOTSUP d1))) as Hns by (intros; apply part_none; by apply fail_ok).
  apply (part_bind (if fpu then 8 else 4)).
  - pose proof (transfer_csr_safe regno size write (0 + (if fpu then 5 else 0)) d1 Hd1) as Hcsr.
    pose proof (transfer_gpr_safe regno size write (0 + (if fpu then 5 else 0)) d1 Hd1) as Hgpr.
    pose proof (transfer_fpr_safe regno size write (0 + (if fpu then 5 else 0)) d1 Hd1) as Hfpr.
    assert (forall n m o, n <= m -> part_safe n o -> part_safe m o) as Hweak.
    { intros n m o Hnm (r & d2 & -> & Hd2 & Hr). exists r, d2. split_and!; [done..|]. intros i [? ?]%Hr. lia. }
    fold fpu in Hcsr. destruct ((regno <? 0x1000) && support_abstract_csr_access).
    { eapply Hweak; [|apply Hcsr; destruct fpu; lia]. destruct fpu; lia. }
    destruct ((0x1000 <=? regno) && (regno <? 0x1020)) eqn:Eg.
    { assert (fpu = false) as -> by (unfold fpu, is_fpu_reg, CSR_FFLAGS, CSR_FRM, CSR_FCSR; lia).
      eapply Hweak; [|apply Hgpr; lia]. lia. }
    destruct ((0x1020 <=? regno) && (regno <? 0x1040) && support_abstract_fpr_access).
    { eapply Hweak; [|apply Hfpr; destruct fpu; lia]. destruct fpu; lia. }
    destruct ((0xc000 <=? regno) && Z.odd regno); [by apply transfer_custom_safe|apply Hns].
  - intros. by apply part_none.
  - intros i d2 Hi Hd2. apply part_emit; [done|destruct fpu; lia|unfold debug_abstract_size; destruct fpu; lia|].
    intros. rewrite ?H1, ?H2. apply part_some; [done|destruct fpu; lia].
Qed.

Lemma run_program_safe postexec i d : dm_ok d -> 0 <= i <= 11 -> safe (run_program postexec i d).
Proof.
  intros Hd Hi. unfold run_program.
  destruct (emit_safe [if postexec then jal ZERO (u32 (debug_progbuf_start - debug_abstract_start - 4 * i)) else ebreak]
    i d Hd) as (d1 & -> & Hd1); [lia|unfold debug_abstract_size; cbn [length]; lia|]. cbn [mbind option_bind].
  destruct (selected_some d1 Hd1) as (id & -> & Hid). cbn [mbind option_bind].
  apply safe_bind; [by apply update_flags_safe|]. intros d2 []. apply safe_some. by split.
Qed.

Lemma perform_safe d : dm_ok d -> safe (perform_abstract_command d).
Proof.
  intros Hd. unfold perform_abstract_command.
  repeat (apply safe_if; [apply safe_some; try done; by apply fail_ok|]). apply safe_if; [|apply safe_some; by apply fail_ok].
  unfold access_register, selected_hart_state. destruct (selected_some d Hd) as (id & -> & Hid). cbn [mbind option_bind].
  destruct (hart_state_some id d Hd Hid) as [hs ->]. cbn [mbind option_bind].
  apply safe_if; [apply safe_some; by apply fail_ok|].
  assert (part_safe 11 (if z2b (get_field (command d) AC_ACCESS_REGISTER_TRANSFER)
    then transfer (get_field (command d) AC_ACCESS_REGISTER_REGNO) (get_field (command d) AC_ACCESS_REGISTER_AARSIZE)
           (z2b (get_field (command d) AC_ACCESS_REGISTER_WRITE)) d
    else Some (Some 0, d))) as (r & d1 & -> & Hd1 & Hi).
  { destruct (z2b _); [by apply transfer_safe|apply part_some; [done|lia]]. }
  cbn [mbind option_bind]. destruct r as [i|]; [apply run_program_safe; [done|by apply Hi]|by apply safe_some].
Qed.

Lemma autoexec_safe mask i d : dm_ok d -> safe (autoexec mask i d).
Proof. intros Hd. unfold autoexec. apply safe_if; [by apply perform_safe|by apply safe_some]. Qed.
Lemma data_busy_ok d : dm_ok d -> dm_ok (data_busy d).
Proof. intros Hd. unfold data_busy. destruct (_ && _); [by apply fail_ok|done]. Qed.

(** * Every operation *)

Lemma see_harts_some l d s : dm_ok d -> (forall id, In id l -> In id hartids) -> exists s', see_harts l d s = Some s'.
Proof.
  intros Hd. revert s. induction l as [|id l IH]; intros s Hl; cbn [see_harts]; [by eexists|].
  unfold see_hart. destruct (hart_selected_some id d Hd) as [b ->]; [apply Hl; by left|]. cbn [mbind option_bind].
  assert (forall s', exists s'', see_harts l d s' = Some s'') as Hr by (intros; apply IH; intros; apply Hl; by right).
  destruct b; cbn [negb]; [|apply Hr]. destruct (hart_state_some id d Hd) as [hs ->]; [apply Hl; by left|]. apply Hr.
Qed.

Lemma read_dmstatus_some d : dm_ok d -> exists x, read_dmstatus d = Some x.
Proof.
  intros Hd. unfold read_dmstatus, selected_hart_state.
  destruct (see_harts_some harts d (mk_flags true true false true false true false true false) Hd) as [s ->]; [done|].
  destruct (selected_some d Hd) as (id & -> & Hid). cbn [mbind option_bind].
  destruct (hart_state_some id d Hd Hid) as [hs ->]. by eexists.
Qed.

(** A loop over the hart window, that keeps going from [Some]. *)
Lemma window_loop {S} (P : S -> Prop) (f : option S -> Z -> option S) l s :
  P s -> (forall i s, In i l -> P s -> exists s', f (Some s) i = Some s' /\ P s') ->
  exists s', fold_left f l (Some s) = Some s' /\ P s'.
Proof.
  revert s. induction l as [|i l IH]; intros s Hs Hf; cbn [fold_left]; [by exists s|].
  destruct (Hf i s) as (s' & -> & Hs'); [by left|done|]. apply IH; [done|]. intros. apply Hf; [by right|done].
Qed.

Lemma hartid_at n : 0 <= n < nprocs -> exists id, at_ hartids n = Some id /\ In id hartids.
Proof.
  intros Hn. destruct (at_some hartids n Hn) as [id Hid]. exists id. split; [done|].
  unfold at_ in Hid. destruct (in_bounds _ _); [|done]. apply list_elem_of_In. by eapply list_elem_of_lookup_2.
Qed.

Lemma zseq_in n i : In i (zseq n) -> 0 <= i < n.
Proof. unfold zseq. intros (k & <- & Hk%in_seq)%in_map_iff. lia. Qed.

Lemma read_hawindow_some d : dm_ok d -> exists x, read_hawindow d = Some x.
Proof.
  intros Hd. pose proof (ok_window d Hd). unfold read_hawindow.
  destruct (window_loop (fun _ : Z => True) (fun r i =>
    r ← r; let n := hawindowsel d * 32 + i in
    if n <? nprocs then id ← at_ hartids n; b ← at_ (hart_array_mask d) id; Some (if b : bool then r .| Z.shiftl 1 i else r)
    else Some r) (zseq 32) 0) as (x & Hx & _); [done| |by exists x].
  intros i r Hi%zseq_in _. cbn [mbind option_bind]. cbv zeta. destruct (Z.ltb_spec (hawindowsel d * 32 + i) nprocs); [|by eexists].
  destruct (hartid_at (hawindowsel d * 32 + i)) as (id & -> & Hid%hart_in); [lia|].
  cbn [mbind option_bind]. destruct Hd. destruct (at_some (hart_array_mask d) id) as [b ->]; [lia|]. by eexists.
Qed.

Lemma write_hawindow_safe value d : dm_ok d -> safe (write_hawindow value d).
Proof.
  intros Hd. apply (window_loop dm_ok); [done|].
  intros i d1 Hi%zseq_in Hd1. pose proof (ok_window d1 Hd1). cbn [mbind option_bind]. cbv zeta.
  destruct (Z.ltb_spec (hawindowsel d1 * 32 + i) nprocs); [|by exists d1].
  destruct (hartid_at (hawindowsel d1 * 32 + i)) as (id & -> & Hid%hart_in); [lia|].
  cbn [mbind option_bind]. pose proof (ok_mask d1 Hd1). rewrite put_at_some by lia. eexists. split; [reflexivity|].
  destruct Hd1. split; cbn; rewrite ?length_insert; done.
Qed.

(** The setters of fields that the invariant does not mention. *)
Ltac keep := match goal with H : dm_ok ?d |- dm_ok _ => destruct H; split; done end.

Lemma set_command_ok c d : dm_ok d -> dm_ok (set_command c d).
Proof. intros. keep. Qed.
Lemma set_sbcs_ok c d : dm_ok d -> dm_ok (set_sbcs c d).
Proof. intros. keep. Qed.
Lemma sb_fail_busy_ok d : dm_ok d -> dm_ok (sb_fail_busy d).
Proof. intros. keep. Qed.
Lemma sb_read_start_ok d : dm_ok d -> dm_ok (sb_read_start d).
Proof. intros. unfold sb_read_start. destruct (_ || _); keep. Qed.
Lemma sb_write_start_ok d : dm_ok d -> dm_ok (sb_write_start d).
Proof. intros. unfold sb_write_start. destruct (_ || _); keep. Qed.
Lemma sb_autoincrement_ok d : dm_ok d -> dm_ok (sb_autoincrement d).
Proof. intros. unfold sb_autoincrement. destruct (_ || _); [done|keep]. Qed.
Lemma sb_read_ok d : dm_ok d -> dm_ok (sb_read d).
Proof.
  intros. unfold sb_read. destruct (sb_size d) as [n|]; [|keep].
  destruct (sb_load _ _ _) as [[v|] b]; [|keep]. destruct (n =? 8); keep.
Qed.
Lemma sb_write_ok d : dm_ok d -> dm_ok (sb_write d).
Proof. intros. unfold sb_write. destruct (sb_size d) as [n|]; [|keep]. destruct (sb_store _ _ _ _) as [[] b]; keep. Qed.
Lemma sb_done_ok d : dm_ok d -> dm_ok (sb_done d).
Proof. intros. unfold sb_done. destruct (_ =? _); [by apply sb_autoincrement_ok|done]. Qed.

Lemma idle_ok d : dm_ok d -> dm_ok (dm_run_test_idle d).
Proof.
  intros Hd. assert (dm_ok (rti_abstract d)) as H1.
  { unfold rti_abstract. destruct (0 <? _); destruct (_ && _); keep. }
  assert (dm_ok (rti_read (rti_abstract d))) as H2.
  { unfold rti_read. destruct (0 <? _); [|done].
    assert (dm_ok (set_sb_read_wait (sb_read_wait (rti_abstract d) - 1) (rti_abstract d))) by keep.
    cbv zeta. destruct (_ =? 0); [|done]. by apply sb_done_ok, sb_read_ok. }
  unfold dm_run_test_idle, rti_write. destruct (0 <? _); [|done].
  assert (dm_ok (set_sb_write_wait (sb_write_wait (rti_read (rti_abstract d)) - 1) (rti_read (rti_abstract d)))) by keep.
  cbv zeta. destruct (_ =? 0); [|done]. by apply sb_done_ok, sb_write_ok.
Qed.

Lemma read_sbdata_ok i d : dm_ok d -> dm_ok (read_sbdata i d).2.
Proof.
  intros. unfold read_sbdata. cbn [snd]. destruct (sb_busy d); [by apply sb_fail_busy_ok|].
  destruct (_ && _); [by apply sb_read_start_ok|done].
Qed.

(** A read answers, or finds no register, and keeps the invariant. *)
Definition read_safe (o : option (option Z * debug_module_t B)) : Prop := exists r d, o = Some (r, d) /\ dm_ok d.

Lemma read_safe_ret r d : dm_ok d -> read_safe (Some (r, d)).
Proof. intros. by exists r, d. Qed.
Lemma read_safe_bind r o : safe o -> read_safe (d ← o; Some (r, d)).
Proof. intros (d & -> & Hd). by apply read_safe_ret. Qed.
Lemma read_safe_if (b : bool) o1 o2 : read_safe o1 -> read_safe o2 -> read_safe (if b then o1 else o2).
Proof. by destruct b. Qed.
Lemma read_safe_sbdata i d : dm_ok d -> read_safe (let '(r, d) := read_sbdata i d in Some (Some r, d)).
Proof.
  intros Hd%(read_sbdata_ok i). destruct (read_sbdata i d) as [r d1]. by apply read_safe_ret.
Qed.

Lemma program_buffer_read d i : dm_ok d -> 0 <= i < progbufsize -> exists x, read32 (program_buffer d) i = Some x.
Proof.
  intros [] Hi. apply read32_some; [lia|]. unfold program_buffer_bytes in *. destruct support_impebreak; lia.
Qed.

Lemma dm_read_safe address d : 0 <= address -> dm_ok d -> read_safe (dm_read address d).
Proof.
  intros Ha Hd. unfold dm_read. destruct ((DM_DATA0 <=? address) && _) eqn:E1.
  { pose proof (ok_datacount d Hd) as Hc. pose proof (ok_data d Hd) as Hl. unfold datasize in *.
    destruct (read32_some (dmdata d) (address - DM_DATA0)) as [x ->]; [lia..|]. cbn [mbind option_bind]. cbv zeta.
    apply read_safe_bind, autoexec_safe. by apply data_busy_ok. }
  destruct ((DM_PROGBUF0 <=? address) && _) eqn:E2.
  { destruct (program_buffer_read d (address - DM_PROGBUF0) Hd) as [x ->]; [lia|]. cbn [mbind option_bind]. cbv zeta.
    apply read_safe_bind. by apply autoexec_safe. }
  clear E1 E2.
  repeat first [ by apply read_safe_ret | by apply read_safe_sbdata | apply read_safe_if ].
  - destruct (read_dmstatus_some d Hd) as [x ->]. by apply read_safe_ret.
  - destruct (read_hawindow_some d Hd) as [x ->]. by apply read_safe_ret.
  - unfold selected_hart_state. destruct (selected_some d Hd) as (id & -> & Hid). cbn [mbind option_bind].
    destruct (hart_state_some id d Hd Hid) as [hs ->]. by apply read_safe_ret.
Qed.

Lemma get_field_nonneg v mask : 0 <= v -> 0 <= mask -> 0 <= get_field v mask.
Proof.
  intros Hv Hm. unfold get_field. assert (0 <= v .& mask) by (apply Z.land_nonneg; by left).
  assert (0 <= field_lsb mask) by (unfold field_lsb; apply Z.ldiff_nonneg; by left).
  by apply Z_div_nonneg_nonneg.
Qed.

Lemma new_dmcontrol_sel value : 0 <= value -> 0 <= hartsel (new_dmcontrol value) < nprocs.
Proof.
  intros Hv. cbn [hartsel new_dmcontrol]. pose proof nprocs_pos.
  pose proof (get_field_nonneg value DM_DMCONTROL_HARTSELHI Hv ltac:(done)).
  pose proof (get_field_nonneg value DM_DMCONTROL_HARTSELLO Hv ltac:(done)).
  set (a := _ .| _). assert (0 <= a) by (apply Z.lor_nonneg; split; [by apply Z.shiftl_nonneg|done]).
  assert (0 <= u64 (nprocs - 1) < nprocs); [|lia]. unfold wrap. split; [apply Z.mod_pos_bound; lia|].
  pose proof (Z.mod_le (nprocs - 1) (2 ^ 64)). lia.
Qed.

Lemma control_hart_safe value id d : dm_ok d -> In id hartids -> safe (control_hart value id d).
Proof.
  intros Hd Hid. unfold control_hart. destruct (hart_selected_some id d Hd Hid) as [b ->]. cbn [mbind option_bind].
  apply safe_if; [by apply safe_some|]. apply safe_bind.
  { apply safe_if; [by apply update_hart_safe|by apply safe_some]. }
  intros d1 Hd1. apply safe_bind.
  { set (d2 := act _ d1). assert (dm_ok d2) by (by apply act_ok). apply safe_if; [|by apply safe_some].
    apply safe_bind; [by apply update_flags_safe|]. intros. by apply update_hart_safe. }
  intros d3 Hd3. apply safe_if; [by apply reset_hart_safe|by apply safe_some].
Qed.

Lemma write_dmcontrol_safe value d : 0 <= value -> dm_ok d -> safe (write_dmcontrol value d).
Proof.
  intros Hv Hd. unfold write_dmcontrol. cbv zeta.
  assert (dm_ok (if negb (dmactive (dmcontrol d)) && flag value DM_DMCONTROL_DMACTIVE then reset d else d)) as Hr
    by (destruct (_ && _); [by apply reset_ok|done]).
  set (d1 := if negb _ && _ then reset d else d) in *. set (d2 := set_dmactive _ d1).
  assert (dm_ok d2) as Hd2 by (destruct Hr; by split). apply safe_if; [by apply safe_some|].
  assert (dm_ok (set_dmcontrol (new_dmcontrol value) d2)) as Hd3.
  { pose proof (new_dmcontrol_sel value Hv). destruct Hd2. split; done. }
  apply safe_bind; [apply for_harts_safe; [|done]; intros; by apply control_hart_safe|].
  intros d4 Hd4. apply safe_if; [|by apply safe_some]. apply for_harts_safe; [|done]. intros. by apply reset_hart_safe.
Qed.

Lemma write_sbaddress_ok i value d : dm_ok d -> dm_ok (write_sbaddress i value d).
Proof.
  intros Hd. unfold write_sbaddress. destruct (sb_busy d); [by apply sb_fail_busy_ok|].
  assert (dm_ok (set_sbaddress (<[i := value]> (sbaddress d)) d)) by keep. cbv zeta.
  destruct (_ && _); [by apply sb_read_start_ok|done].
Qed.
Lemma write_sbdata_ok i value d : dm_ok d -> dm_ok (write_sbdata i value d).
Proof.
  intros Hd. unfold write_sbdata. destruct (sb_busy d); [by apply sb_fail_busy_ok|].
  assert (dm_ok (set_sbdata (<[i := value]> (sbdata d)) d)) by keep. cbv zeta.
  destruct (_ && _); [by apply sb_write_start_ok|done].
Qed.

Lemma write_dmcs2_safe value d : dm_ok d -> safe (write_dmcs2 value d).
Proof.
  intros Hd. unfold write_dmcs2. apply safe_if; [|by apply safe_some].
  destruct (selected_some d Hd) as (id & -> & Hid). by apply update_hart_safe.
Qed.

Definition register_safe (o : option (option (debug_module_t B))) : Prop := forall r, o = Some r -> safe r.
Lemma register_some r : safe r -> register_safe (Some r).
Proof. by intros ? ? [= <-]. Qed.
Lemma register_none : register_safe None.
Proof. done. Qed.
Lemma register_if (b : bool) o1 o2 : register_safe o1 -> register_safe o2 -> register_safe (if b then o1 else o2).
Proof. by destruct b. Qed.

Lemma write_register_safe address value d : 0 <= value -> dm_ok d -> register_safe (write_register address value d).
Proof.
  intros Hv Hd. unfold write_register.
  repeat lazymatch goal with
  | |- register_safe None => exact register_none
  | |- register_safe (Some _) => apply register_some
  | |- register_safe (if _ then _ else _) => apply register_if
  end.
  - by apply write_dmcontrol_safe.
  - apply perform_safe. keep.
  - apply safe_some. destruct Hd. split; try done. cbn. apply Z.land_nonneg. by left.
  - by apply write_hawindow_safe.
  - apply safe_some. by apply fail_ok.
  - apply safe_some. keep.
  - apply safe_some. keep.
  - apply safe_some. by apply write_sbaddress_ok.
  - apply safe_some. by apply write_sbaddress_ok.
  - apply safe_some. by apply write_sbaddress_ok.
  - apply safe_some. by apply write_sbaddress_ok.
  - apply safe_some. by apply write_sbdata_ok.
  - apply safe_some. by apply write_sbdata_ok.
  - apply safe_some. by apply write_sbdata_ok.
  - apply safe_some. by apply write_sbdata_ok.
  - apply safe_some. unfold write_authdata. destruct (negb _); [done|]. destruct (_ =? _); keep.
  - by apply write_dmcs2_safe.
  - apply safe_some. keep.
Qed.

(** A write answers whether it found a register, and keeps the invariant. *)
Definition write_safe (o : option (bool * debug_module_t B)) : Prop := exists r d, o = Some (r, d) /\ dm_ok d.
Lemma write_safe_bind r o : safe o -> write_safe (d ← o; Some (r, d)).
Proof. intros (d & -> & Hd). by exists r, d. Qed.

Lemma dm_write_safe address value d : 0 <= address -> 0 <= value -> dm_ok d -> write_safe (dm_write address value d).
Proof.
  intros Ha Hv Hd. unfold dm_write. destruct (_ && _ && _); [by exists false, d|].
  destruct ((DM_DATA0 <=? address) && _) eqn:E1.
  { pose proof (ok_datacount d Hd) as Hc. pose proof (ok_data d Hd) as Hl. unfold datasize in *.
    assert (safe (if busy (abstractcs d) then Some d
      else m ← write32 (dmdata d) (address - DM_DATA0) value; Some (set_dmdata m d))) as (d1 & -> & Hd1).
    { apply safe_if; [by apply safe_some|].
      destruct (write32_some (dmdata d) (address - DM_DATA0) value) as (m & -> & Hm); [lia..|].
      apply safe_some. destruct Hd. split; cbn; rewrite ?Hm; done. }
    cbn [mbind option_bind]. apply write_safe_bind, autoexec_safe. by apply data_busy_ok. }
  destruct ((DM_PROGBUF0 <=? address) && _) eqn:E2.
  { assert (safe (if busy (abstractcs d) then Some d
      else m ← write32 (program_buffer d) (address - DM_PROGBUF0) value; Some (set_program_buffer m d))) as (d1 & -> & Hd1).
    { apply safe_if; [by apply safe_some|]. pose proof (ok_progbuf d Hd) as Hl. unfold program_buffer_bytes in Hl.
      destruct (write32_some (program_buffer d) (address - DM_PROGBUF0) value) as (m & -> & Hm);
        [lia|destruct support_impebreak; lia|]. 
      apply safe_some. destruct Hd. split; cbn; rewrite ?Hm; done. }
    cbn [mbind option_bind]. apply write_safe_bind. by apply autoexec_safe. }
  pose proof (write_register_safe address value d Hv Hd) as Hr.
  destruct (write_register address value d) as [r|]; [|by exists false, d]. apply write_safe_bind. by apply Hr.
Qed.

(** The debug module keeps what the transport relies on. *)
#[export] Instance debug_module_safe : dmi_safe (debug_module_t B).
Proof.
  refine {| dmi_inv := dm_ok |}.
  - intros address d Ha Hd. apply dm_read_safe; [lia|done].
  - intros address value d Ha Hv Hd. apply dm_write_safe; [lia|lia|done].
  - intros d Hd. exists (dm_run_test_idle d). split; [done|by apply idle_ok].
Defined.

Lemma halt_group_safe id d : dm_ok d -> In id hartids -> safe (halt_group id d).
Proof.
  intros Hd Hid. unfold halt_group. destruct (hart_state_some id d Hd Hid) as [hs ->]. cbn [mbind option_bind].
  apply safe_if; [by apply safe_some|]. apply safe_bind; [by apply update_hart_safe|]. intros d1 Hd1.
  apply safe_if; [by apply safe_some|]. apply for_harts_safe; [|done]. intros id2 d2 Hid2 Hd2.
  destruct (hart_state_some id2 d2 Hd2 Hid2) as [h ->]. cbn [mbind option_bind]. apply safe_some.
  destruct (_ && _ && _); [by apply act_ok|done].
Qed.

Lemma store_halted_safe id d : dm_ok d -> In id hartids -> safe (store_halted id d).
Proof.
  intros Hd Hid. unfold store_halted. apply safe_bind; [by apply halt_group_safe|]. intros d1 Hd1.
  destruct (selected_some d1 Hd1) as (sel & -> & _). cbn [mbind option_bind].
  apply safe_if; [|by apply safe_some]. pose proof (hart_in id Hid) as Hr. pose proof (ok_flags d1 Hd1) as Hf.
  destruct Hcfg as [_ _ Hmax _].
  destruct (at_some (debug_rom_flags d1) id) as [f ->]; [lia|]. apply safe_some. destruct (Z.testbit f _); [done|keep].
Qed.

Lemma store_resuming_safe id d : dm_ok d -> In id hartids -> safe (store_resuming id d).
Proof.
  intros Hd Hid. unfold store_resuming. apply safe_bind; [by apply update_hart_safe|]. intros. by apply update_flags_safe.
Qed.

Definition is_report (offset : Z) : Prop :=
  offset = DEBUG_ROM_HALTED \/ offset = DEBUG_ROM_GOING \/ offset = DEBUG_ROM_RESUMING.

Lemma store_safe offset bytes d :
  0 <= offset -> (is_report offset -> exists id, In id hartids /\ bytes = le32 id) ->
  offset + Z.of_nat (length bytes) < 2 ^ 64 -> dm_ok d -> write_safe (store offset bytes d).
Proof.
  intros Ho Hrep Hlen Hd. unfold store, DEBUG_START, in_region. rewrite Z.add_0_l.
  cbv zeta. set (len := Z.of_nat (length bytes)) in *. rewrite (wrap_small 64 (offset + len)) by lia.
  destruct ((debug_data_start <=? offset) && _) eqn:E1.
  { pose proof (ok_data d Hd) as Hl.
    destruct (memcpy_some (dmdata d) (offset - debug_data_start) bytes) as (m & -> & Hm); [lia..|].
    exists true, (set_dmdata m d). split; [done|]. destruct Hd. split; cbn; rewrite ?Hm; done. }
  destruct ((debug_progbuf_start <=? offset) && _) eqn:E2.
  { pose proof (ok_progbuf d Hd) as Hl.
    destruct (memcpy_some (program_buffer d) (offset - debug_progbuf_start) bytes) as (m & -> & Hm); [lia..|].
    exists true, (set_program_buffer m d). split; [done|]. destruct Hd. split; cbn; rewrite ?Hm; done. }
  assert (is_report offset -> exists id, In id hartids /\ (len =? 4) = true /\
    (if len =? 4 then default 0 (read32 bytes 0) else 0) = id) as Hid.
  { intros (id & Hid & ->)%Hrep. exists id. split_and!; [done|done|]. unfold len. cbn [le32 length].
    pose proof (hart_in id Hid). destruct Hcfg. by rewrite read32_le32 by lia. }
  destruct (Z.eqb_spec offset DEBUG_ROM_HALTED) as [E|_].
  { destruct Hid as (id & Hid & El & ->); [by left|]. rewrite El. apply write_safe_bind. by apply store_halted_safe. }
  destruct (Z.eqb_spec offset DEBUG_ROM_GOING) as [E|_].
  { destruct Hid as (id & Hid & El & ->); [by right; left|]. rewrite El. apply write_safe_bind. by apply update_flags_safe. }
  destruct (Z.eqb_spec offset DEBUG_ROM_RESUMING) as [E|_].
  { destruct Hid as (id & Hid & El & ->); [by right; right|]. rewrite El. apply write_safe_bind. by apply store_resuming_safe. }
  destruct (offset =? DEBUG_ROM_EXCEPTION); [|by exists false, d]. do 2 eexists. split; [reflexivity|].
  destruct (_ =? CMDERR_NONE); [by apply fail_ok|done].
Qed.

(** * Sequences of operations *)

Inductive dm_op : Type :=
| Dmi_read (address : Z) | Dmi_write (address value : Z) | Idle
| Hart_store (offset : Z) (bytes : list Z).

Definition op_ok (op : dm_op) : Prop :=
  match op with
  | Dmi_read address => 0 <= address < 128
  | Dmi_write address value => 0 <= address < 128 /\ 0 <= value < 2 ^ 32
  | Idle => True
  | Hart_store offset bytes =>
      0 <= offset < 4096 /\ (length bytes <= 16)%nat /\
      (is_report offset -> exists id, In id hartids /\ bytes = le32 id)
  end.

Definition run_op (op : dm_op) (d : debug_module_t B) : option (debug_module_t B) :=
  match op with
  | Dmi_read address => snd <$> dm_read address d
  | Dmi_write address value => snd <$> dm_write address value d
  | Idle => Some (dm_run_test_idle d)
  | Hart_store offset bytes => snd <$> store offset bytes d
  end.
Fixpoint run_ops (ops : list dm_op) (d : debug_module_t B) : option (debug_module_t B) :=
  match ops with [] => Some d | op :: ops => d ← run_op op d; run_ops ops d end.

Lemma run_op_safe op d : op_ok op -> dm_ok d -> safe (run_op op d).
Proof.
  intros Ho Hd. destruct op as [address|address value| |offset bytes]; cbn in Ho |- *.
  - destruct (dm_read_safe address d) as (r & d1 & -> & Hd1); [lia|done|]. by apply safe_some.
  - destruct (dm_write_safe address value d) as (r & d1 & -> & Hd1); [lia..|done|]. by apply safe_some.
  - by apply safe_some, idle_ok.
  - destruct Ho as (H1 & H2 & H3). destruct (store_safe offset bytes d) as (r & d1 & -> & Hd1); [lia|done|lia|done|].
    by apply safe_some.
Qed.

Lemma width_loop_bound fuel i n : 0 <= n < 2 ^ Z.of_nat fuel -> n < 2 ^ (width_loop fuel i n - i) /\ i <= width_loop fuel i n.
Proof.
  revert i n. induction fuel as [|fuel IH]; intros i n Hn; [cbn in *; rewrite Z.sub_diag; cbn; lia|].
  cbn [width_loop]. rewrite Nat2Z.inj_succ, Z.pow_succ_r in Hn by lia.
  destruct (Z.eqb_spec n 0) as [->|Hz]; [rewrite Z.sub_diag; cbn; lia|].
  destruct (IH (i + 1) (Z.shiftr n 1)) as [H1 H2].
  { rewrite Z.shiftr_div_pow2 by lia. split; [apply Z.div_pos; lia|apply Z.div_lt_upper_bound; lia]. }
  split; [|lia]. set (w := width_loop fuel (i + 1) (Z.shiftr n 1)) in *.
  replace (w - i) with (Z.succ (w - (i + 1))) by lia. rewrite Z.pow_succ_r by lia.
  rewrite Z.shiftr_div_pow2 in H1 by lia. pose proof (Z.div_mod n (2 ^ 1) ltac:(lia)).
  pose proof (Z.mod_pos_bound n (2 ^ 1) ltac:(lia)). lia.
Qed.

Lemma max_hartid_nonneg : 0 <= max_hartid.
Proof.
  destruct Hcfg as [Hne Hr _ _]. destruct hartids as [|id l] eqn:E; [done|]. inversion Hr. lia.
Qed.

Lemma reset_abstractcs a d : reset d = reset (set_abstractcs a d).
Proof. done. Qed.

Lemma new_ok command0 hawindowsel0 sbaddress0 sbdata0 completed0 b :
  0 <= hawindowsel0 -> dm_ok (new_debug_module command0 hawindowsel0 sbaddress0 sbdata0 completed0 b).
Proof.
  intros Hw. unfold new_debug_module. rewrite (reset_abstractcs (mk_abstractcs false datasize 0 0)). apply reset_ok.
  pose proof max_hartid_nonneg. pose proof nprocs_pos. destruct Hcfg as [_ _ Hmax Hp].
  assert (max_hartid < Z.shiftl 1 (field_width (max_hartid + 1))).
  { rewrite Z.shiftl_1_l. unfold field_width. rewrite Z.add_simpl_r, wrap_small by lia.
    destruct (width_loop_bound 32 0 max_hartid) as [Hb _]; [cbn; lia|]. by rewrite Z.sub_0_r in Hb. }
  split; cbn [hartsel dmcontrol hart_state hart_array_mask debug_abstract program_buffer dmdata debug_rom_flags
    abstractcs datacount hawindowsel set_abstractcs];
    rewrite ?length_replicate, ?length_app, ?length_replicate; try done; try lia.
  unfold program_buffer_bytes. destruct support_impebreak; cbn [le32 length]; lia.
Qed.

(** C32. The debug module never accesses an array out of bounds, fails an assertion
    or selects a hart that does not exist: whatever registers the debugger reads
    and writes, in whatever order, interleaved with cycles of Run-Test/Idle and
    with stores of the harts to its page, where the harts report their own number.
    The programs it assembles always fit their twelve words. *)
Theorem debug_module_never_fails ops command0 hawindowsel0 sbaddress0 sbdata0 completed0 b :
  0 <= hawindowsel0 -> Forall op_ok ops ->
  exists d, run_ops ops (new_debug_module command0 hawindowsel0 sbaddress0 sbdata0 completed0 b) = Some d /\ dm_ok d.
Proof.
  intros Hw Hops. pose proof (new_ok command0 hawindowsel0 sbaddress0 sbdata0 completed0 b Hw) as Hd.
  revert Hd. generalize (new_debug_module command0 hawindowsel0 sbaddress0 sbdata0 completed0 b). 
  induction Hops as [|op ops Ho Hops IH]; intros d Hd; cbn [run_ops]; [by exists d|].
  destruct (run_op_safe op d Ho Hd) as (d1 & -> & Hd1). by apply IH.
Qed.

(** * Authentication *)

Lemma unauthenticated_write address value d :
  authenticated (dmstatus d) = false -> address <> DM_AUTHDATA -> address <> DM_DMCONTROL ->
  dm_write address value d = Some (false, d).
Proof.
  intros Ha H1 H2. unfold dm_write. rewrite Ha. by replace (_ && _ && _) with true by lia.
Qed.

(** The module and the harts are as they were, but for the registers of the
    debugger that a reset of the module clears: the harts were at most asked not
    to halt. *)
Definition frozen (d d' : debug_module_t B) : Prop :=
  dmdata d' = dmdata d /\ program_buffer d' = program_buffer d /\ debug_abstract d' = debug_abstract d /\
  debug_rom_flags d' = debug_rom_flags d /\ hart_state d' = hart_state d /\
  hart_available_state d' = hart_available_state d /\ custom_base d' = custom_base d /\
  sba d' = sba d /\ sb_read_wait d' = sb_read_wait d /\ sb_write_wait d' = sb_write_wait d /\
  exists l, acts d' = acts d ++ l /\ forall a, In a l -> exists id, a = Halt_request id HR_NONE.

Lemma frozen_refl d : frozen d d.
Proof. repeat split; try done. exists []. by rewrite app_nil_r. Qed.

Lemma frozen_trans d1 d2 d3 : frozen d1 d2 -> frozen d2 d3 -> frozen d1 d3.
Proof.
  intros (E1 & E2 & E3 & E4 & E5 & E6 & E7 & E8 & E9 & E10 & l & E11 & Hl)
         (F1 & F2 & F3 & F4 & F5 & F6 & F7 & F8 & F9 & F10 & m & F11 & Hm).
  unfold frozen. repeat split; try congruence. exists (l ++ m). split; [by rewrite F11, E11, app_assoc|].
  intros a [Ha|Ha]%in_app_or; auto.
Qed.

Lemma frozen_reset d : frozen d (reset d).
Proof.
  repeat split. exists (map (fun id => Halt_request id HR_NONE) harts). split; [done|].
  intros a (id & <- & _)%in_map_iff. by exists id.
Qed.

(** A write to a register outside the data and the program buffer. *)
Lemma dm_write_register address value d : dm_ok d ->
  authenticated (dmstatus d) = true \/ address = DM_AUTHDATA \/ address = DM_DMCONTROL ->
  ~ 4 <= address < 6 -> ~ 32 <= address < 48 ->
  dm_write address value d =
  match write_register address value d with Some r => d ← r; Some (true, d) | None => Some (false, d) end.
Proof.
  intros Hd Ha H1 H2. unfold dm_write. rewrite (ok_datacount d Hd). pose proof (co_progbuf Hcfg).
  replace (negb (authenticated (dmstatus d)) && negb (address =? DM_AUTHDATA) && negb (address =? DM_DMCONTROL)) with false
    by (destruct Ha as [-> |[-> | ->]]; by rewrite ?andb_false_r).
  replace ((DM_DATA0 <=? address) && (address <? DM_DATA0 + datasize)) with false by (unfold DM_DATA0, datasize; lia).
  replace ((DM_PROGBUF0 <=? address) && (address <? DM_PROGBUF0 + progbufsize)) with false by (unfold DM_PROGBUF0; lia).
  done.
Qed.

(** One write without authentication. *)
Lemma unauthenticated_step address value d : require_authentication = true -> dm_ok d -> 0 <= value ->
  authenticated (dmstatus d) = false ->
  exists r d', dm_write address value d = Some (r, d') /\ dm_ok d' /\
    (address = DM_AUTHDATA -> value = u32 (challenge d + 1) -> authenticated (dmstatus d') = true) /\
    (~ (address = DM_AUTHDATA /\ value = u32 (challenge d + 1)) ->
      authenticated (dmstatus d') = false /\ frozen d d').
Proof.
  intros Hr Hd Hv Ha. destruct (Z.eq_dec address DM_AUTHDATA) as [->|H1].
  { rewrite dm_write_register by (done || tauto || (unfold DM_AUTHDATA; lia)). cbn. unfold write_authdata. rewrite Hr. cbn [negb]. destruct (Z.eqb_spec value (u32 (challenge d + 1))) as [E|E].
    - do 2 eexists. split; [reflexivity|]. split; [keep|]. split; [done|]. intros []. done.
    - do 2 eexists. split; [reflexivity|]. split; [keep|]. split; [done|]. intros _. split; [done|].
      repeat split. exists []. by rewrite app_nil_r. }
  destruct (Z.eq_dec address DM_DMCONTROL) as [->|H2].
  2: { rewrite unauthenticated_write by done. do 2 eexists. split; [reflexivity|]. split; [done|]. split; [done|].
       intros _. split; [done|apply frozen_refl]. }
  rewrite dm_write_register by (done || tauto || (unfold DM_DMCONTROL; lia)). cbn -[reset]. unfold write_dmcontrol. set (d1 := if negb _ && _ then reset d else d). cbv zeta.
  assert (dm_ok d1) as Hd1 by (unfold d1; destruct (_ && _); [by apply reset_ok|done]).
  assert (authenticated (dmstatus d1) = false) as Ha1 by (unfold d1; destruct (_ && _); [cbn; by rewrite Hr|done]).
  assert (frozen d d1) as Hf by (unfold d1; destruct (_ && _); [apply frozen_reset|apply frozen_refl]).
  cbn [set_dmactive dmstatus set_dmcontrol]. rewrite Ha1. cbn [negb orb].
  do 2 eexists. split; [reflexivity|]. split; [destruct Hd1; by split|]. split; [done|]. intros _. split; [done|exact Hf].
Qed.

Fixpoint run_writes (ws : list (Z * Z)) (d : debug_module_t B) : option (debug_module_t B) :=
  match ws with [] => Some d | (address, value) :: ws => '(_, d) ← dm_write address value d; run_writes ws d end.

(** C33. Authentication.  Until the debugger writes the challenge plus one to
    [authdata], no sequence of writes authenticates it or has any effect: the data
    and program buffers, the programs, the flags the harts read, the states of the
    harts and the system bus stay as they are, and no hart is asked to halt or
    reset.  That one write authenticates. *)
Theorem debug_authentication ws d :
  require_authentication = true -> dm_ok d -> authenticated (dmstatus d) = false -> Forall (fun w => 0 <= snd w) ws ->
  (exists d', run_writes ws d = Some d' /\ authenticated (dmstatus d') = false /\ frozen d d') \/
  (exists ws1 ws2 d1, ws = ws1 ++ (DM_AUTHDATA, u32 (challenge d1 + 1)) :: ws2 /\
    run_writes ws1 d = Some d1 /\ authenticated (dmstatus d1) = false /\ frozen d d1 /\
    exists r d2, dm_write DM_AUTHDATA (u32 (challenge d1 + 1)) d1 = Some (r, d2) /\ authenticated (dmstatus d2) = true).
Proof.
  intros Hr Hd Ha Hws. revert d Hd Ha. induction Hws as [|[address value] ws Hv Hws IH]; intros d Hd Ha.
  { left. exists d. split_and!; [done..|apply frozen_refl]. }
  cbn [snd] in Hv. destruct (unauthenticated_step address value d Hr Hd Hv Ha) as (r & d1 & E & Hd1 & Hok & Hbad).
  destruct (decide (address = DM_AUTHDATA /\ value = u32 (challenge d + 1))) as [[-> ->]|Hn].
  { right. exists [], ws, d. split_and!; [done..|apply frozen_refl|]. exists r, d1. split; [done|by apply Hok]. }
  destruct (Hbad Hn) as [Ha1 Hf]. destruct (IH d1 Hd1 Ha1) as [(d' & Hrun & Ha' & Hf')|(ws1 & ws2 & d2 & -> & Hrun & Ha2 & Hf2 & Hun)].
  - left. exists d'. cbn [run_writes]. rewrite E. split_and!; [done..|]. by eapply frozen_trans.
  - right. exists ((address, value) :: ws1), ws2, d2. cbn [run_writes]. rewrite E.
    split_and!; try done. by eapply frozen_trans.
Qed.

(** * The programs of abstract commands *)

(** The access of 32 or 64 bits to the first data register. *)
Definition move (size w32 w64 : Z) : option Z :=
  if size =? 2 then Some w32 else if size =? 3 then Some w64 else None.

(** The words of a transfer for each kind of register. *)
Definition csr_words (regno size : Z) (write : bool) : option (list Z) :=
  let own := if is_fpu_reg regno then [] else [csrw S0 CSR_DSCRATCH0] in
  let back := if is_fpu_reg regno then [] else [csrr S0 CSR_DSCRATCH0] in
  x ← (if write then move size (lw S0 ZERO debug_data_start) (ld S0 ZERO debug_data_start)
       else move size (sw S0 ZERO debug_data_start) (sd S0 ZERO debug_data_start));
  Some (own ++ (if write then [x; csrw S0 regno] else [csrr S0 regno; x]) ++ back).
Definition gpr_words (r size : Z) (write : bool) : option (list Z) :=
  x ← (if write then move size (lw r ZERO debug_data_start) (ld r ZERO debug_data_start)
       else move size (sw r ZERO debug_data_start) (sd r ZERO debug_data_start));
  Some ([x] ++ (if (r =? S0) && write then [csrw S0 CSR_DSCRATCH0] else [])).
Definition fpr_words (r size : Z) (write : bool) : option (list Z) :=
  x ← (if write then move size (flw r ZERO debug_data_start) (fld r ZERO debug_data_start)
       else move size (fsw r ZERO debug_data_start) (fsd r ZERO debug_data_start));
  Some [x].

(** The program that moves a register to or from the data registers: a CSR by
    way of [s0], which is kept in [dscratch0]; a floating-point register or
    CSR with [mstatus.FS] on, [mstatus] being kept in [dscratch1]. *)
Definition abstract_program (regno size : Z) (write : bool) : option (list Z) :=
  let fpu := is_fpu_reg regno in
  body ←
    (if (regno <? 0x1000) && support_abstract_csr_access then csr_words regno size write
     else if (0x1000 <=? regno) && (regno <? 0x1020) then gpr_words (regno - 0x1000) size write
     else if (0x1020 <=? regno) && (regno <? 0x1040) && support_abstract_fpr_access
          then fpr_words (regno - 0x1020) size write
     else None);
  Some ((if fpu then [csrw S0 CSR_DSCRATCH0; csrr S0 CSR_MSTATUS; csrw S0 CSR_DSCRATCH1;
                      lui S0 (Z.shiftr MSTATUS_FS 12); csrrs ZERO S0 CSR_MSTATUS] else [])
        ++ body
        ++ (if fpu then [csrr S0 CSR_DSCRATCH1; csrw S0 CSR_MSTATUS; csrr S0 CSR_DSCRATCH0] else [])).

Definition is_custom (regno : Z) : bool := (0xc000 <=? regno) && Z.odd regno.

(** What [emit] writes. *)
Definition splice (i : Z) (ws : list Z) (m : list Z) : list Z :=
  firstn (Z.to_nat (i * 4)) m ++ flat_map le32 ws ++ skipn (Z.to_nat (i * 4) + 4 * length ws) m.

Lemma flat_map_le32 ws : length (flat_map le32 ws) = (4 * length ws)%nat.
Proof. induction ws as [|w ws IH]; [done|]. cbn [flat_map]. rewrite length_app, IH. cbn [le32 length]. lia. Qed.

Lemma splice_cons i w ws m : 0 <= i -> (Z.to_nat (i * 4) + 4 <= length m)%nat ->
  splice (i + 1) ws (splice i [w] m) = splice i (w :: ws) m.
Proof.
  intros Hi Hl. unfold splice. cbn [flat_map length]. rewrite app_nil_r.
  replace (Z.to_nat ((i + 1) * 4)) with (Z.to_nat (i * 4) + 4)%nat by lia. set (k := Z.to_nat (i * 4)) in *.
  assert (length (firstn k m) = k) as Hk by (rewrite length_firstn; lia).
  rewrite firstn_app, Hk, firstn_all2, (Nat.add_comm k 4), Nat.add_sub by lia.
  change (firstn 4 (le32 w ++ skipn (k + 4 * 1) m)) with (le32 w).
  replace (4 + k + 4 * length ws)%nat with (length (firstn k m ++ le32 w) + 4 * length ws)%nat
    by (rewrite length_app, Hk; cbn [le32 length]; lia).
  rewrite (app_assoc (firstn k m) (le32 w)), drop_app_add, skipn_skipn, <- !app_assoc.
  do 4 f_equal. lia.
Qed.

Lemma emit_run ws i d : 0 <= i -> i * 4 + 4 * Z.of_nat (length ws) <= Z.of_nat (length (debug_abstract d)) ->
  emit i ws d = Some (i + Z.of_nat (length ws), set_debug_abstract (splice i ws (debug_abstract d)) d).
Proof.
  revert i d. induction ws as [|w ws IH]; intros i d Hi Hl; cbn [emit length].
  { rewrite Z.add_0_r. unfold splice. cbn [flat_map length app]. rewrite Nat.mul_0_r, Nat.add_0_r, firstn_skipn.
    by destruct d. }
  cbn [length] in Hl. unfold write32, memcpy.
  change (Z.of_nat (length (le32 w))) with 4.
  replace ((0 <=? i * 4) && (i * 4 + 4 <=? Z.of_nat (length (debug_abstract d)))) with true by lia. cbn [mbind option_bind].
  change (firstn (Z.to_nat (i * 4)) (debug_abstract d) ++ le32 w ++
    skipn (Z.to_nat (i * 4) + length (le32 w)) (debug_abstract d)) with
    (splice i [w] (debug_abstract d)).
  rewrite IH; [|lia|].
  - cbn [debug_abstract set_debug_abstract]. rewrite splice_cons by lia. do 2 f_equal. lia.
  - cbn [debug_abstract set_debug_abstract]. unfold splice. cbn [flat_map].
    rewrite !length_app, length_firstn, length_skipn. cbn [le32 length]. lia.
Qed.

(** Programs are emitted part by part. *)
Lemma emit_app i ws1 ws2 d : emit i (ws1 ++ ws2) d = '(j, d1) ← emit i ws1 d; emit j ws2 d1.
Proof.
  revert i d. induction ws1 as [|w ws1 IH]; intros i d; [done|]. cbn [app emit].
  destruct (write32 _ _ _); [|done]. apply IH.
Qed.

(** The part emits the words from [i] on and goes on after them. *)
Definition emits (ws : list Z) (i : Z) (d : debug_module_t B) (o : option (option Z * debug_module_t B)) : Prop :=
  o = '(i, d) ← emit i ws d; Some (Some i, d).

Lemma emits_ret i d : emits [] i d (Some (Some i, d)).
Proof. done. Qed.

Lemma emits_app ws1 ws2 i d k :
  (forall j d1, emits ws2 j d1 (k j d1)) -> emits (ws1 ++ ws2) i d ('(j, d1) ← emit i ws1 d; k j d1).
Proof.
  intros Hk. unfold emits. rewrite emit_app. destruct (emit i ws1 d) as [[j d1]|]; [|done]. cbn. by rewrite Hk.
Qed.

Lemma emits_one ws i d : emits ws i d ('(j, d1) ← emit i ws d; Some (Some j, d1)).
Proof. done. Qed.

Lemma emits_then ws1 ws2 i d o k : emits ws1 i d o -> (forall j d1, emits ws2 j d1 (k j d1)) ->
  emits (ws1 ++ ws2) i d ('(r, d1) ← o; match r with None => Some (None, d1) | Some j => k j d1 end).
Proof.
  intros -> Hk. unfold emits. rewrite emit_app. destruct (emit i ws1 d) as [[j d1]|]; [|done]. cbn. by rewrite Hk.
Qed.

Lemma transfer_csr_emits regno size write i d ws : csr_words regno size write = Some ws ->
  emits ws i d (transfer_csr regno size write i d).
Proof.
  unfold csr_words, transfer_csr, move. intros Hw.
  assert (forall j d1, emits (if is_fpu_reg regno then [] else [csrr S0 CSR_DSCRATCH0]) j d1
    ('(i, d) ← emit j (if negb (is_fpu_reg regno) then [csrr S0 CSR_DSCRATCH0] else []) d1; Some (Some i, d))) as Hback
    by (intros; by destruct (is_fpu_reg regno)).
  replace (if is_fpu_reg regno then [] else [csrw S0 CSR_DSCRATCH0])
    with (if negb (is_fpu_reg regno) then [csrw S0 CSR_DSCRATCH0] else []) in Hw by (by destruct (is_fpu_reg regno)).
  destruct write, (size =? 2), (size =? 3); try discriminate; injection Hw as <-; apply emits_app; intros j d1;
    apply (emits_then [_; _]); try exact Hback; try apply emits_one.
  all: apply (emits_app [csrr S0 regno] [_]); intros; apply emits_one.
Qed.

Lemma transfer_gpr_emits regno size write i d ws : gpr_words (regno - 0x1000) size write = Some ws ->
  emits ws i d (transfer_gpr regno size write i d).
Proof.
  unfold gpr_words, transfer_gpr, move. intros Hw.
  replace (regno =? 0x1000 + S0) with (regno - 0x1000 =? S0) by lia.
  destruct write, (size =? 2), (size =? 3); try discriminate; injection Hw as <-; apply (emits_app [_]);
    intros; apply emits_one.
Qed.

Lemma transfer_fpr_emits regno size write i d ws : fpr_words (regno - 0x1020) size write = Some ws ->
  emits ws i d (transfer_fpr regno size write i d).
Proof.
  unfold fpr_words, transfer_fpr, move. intros Hw.
  destruct write, (size =? 2), (size =? 3); try discriminate; injection Hw as <-; apply emits_one.
Qed.

(** A command with a program emits it as a whole. *)
Lemma transfer_program regno size write d ws :
  abstract_program regno size write = Some ws -> emits ws 0 d (transfer regno size write d).
Proof.
  unfold abstract_program, transfer. intros Hw.
  destruct (if (regno <? 0x1000) && support_abstract_csr_access then csr_words regno size write else _)
    as [body|] eqn:Eb; [|discriminate]. injection Hw as <-.
  apply emits_app. intros i d1. apply emits_then; [|intros; apply emits_one].
  destruct ((regno <? 0x1000) && support_abstract_csr_access); [by apply transfer_csr_emits|].
  destruct ((0x1000 <=? regno) && (regno <? 0x1020)); [by apply transfer_gpr_emits|].
  destruct ((0x1020 <=? regno) && (regno <? 0x1040) && support_abstract_fpr_access); [by apply transfer_fpr_emits|done].
Qed.

(** One without leaves only words in the program area. *)
Definition fails (d : debug_module_t B) (o : option (option Z * debug_module_t B)) : Prop :=
  exists m, o = Some (None, fail CMDERR_NOTSUP (set_debug_abstract m d)).

Lemma fails_ret d : fails d (Some (None, fail CMDERR_NOTSUP d)).
Proof. exists (debug_abstract d). by destruct d. Qed.

Lemma fails_emit i ws d k : dm_ok d -> 0 <= i -> i + Z.of_nat (length ws) <= debug_abstract_size ->
  (forall m, length m = length (debug_abstract d) -> fails (set_debug_abstract m d) (k (i + Z.of_nat (length ws)) (set_debug_abstract m d))) ->
  fails d ('(i, d) ← emit i ws d; k i d).
Proof.
  intros Hd Hi Hl Hk. pose proof (ok_abstract d Hd). unfold debug_abstract_size in *.
  rewrite emit_run by lia. cbn [mbind option_bind]. set (m := splice _ _ _).
  assert (length m = length (debug_abstract d)) as Hm.
  { unfold m, splice. rewrite !length_app, length_firstn, length_skipn, flat_map_le32. lia. }
  destruct (Hk m Hm) as [m' ->]. by exists m'.
Qed.

Lemma fails_bind d o k : fails d o -> (forall d1, k None d1 = Some (None, d1)) ->
  fails d ('(r, d1) ← o; k r d1).
Proof. intros [m ->] Hk. cbn. rewrite Hk. by exists m. Qed.

Lemma transfer_unsupported regno size write d : dm_ok d ->
  abstract_program regno size write = None -> is_custom regno = false -> fails d (transfer regno size write d).
Proof.
  intros Hd Hp Hc. unfold transfer. set (fpu := is_fpu_reg regno) in *.
  apply fails_emit; [done|lia|unfold debug_abstract_size; destruct fpu; cbn [length]; lia|].
  intros m Hm. set (k := 0 + _). assert (0 <= k <= 5) as Hk by (unfold k; destruct fpu; cbn [length]; lia). clearbody k.
  assert (dm_ok (set_debug_abstract m d)) as Hd1 by (destruct Hd; split; cbn; congruence).
  set (d1 := set_debug_abstract m d) in *. clearbody d1. apply fails_bind; [|done].
  unfold abstract_program in Hp. unfold is_custom in Hc. rewrite Hc.
  destruct ((regno <? 0x1000) && support_abstract_csr_access).
  { destruct (csr_words regno size write) eqn:E; [discriminate|]. unfold csr_words, move in E. unfold transfer_csr.
    apply fails_emit; [done|lia|unfold debug_abstract_size; destruct (is_fpu_reg regno); cbn [length negb]; lia|].
    intros m2 Hm2. apply fails_bind; [|done]. set (d2 := set_debug_abstract m2 d1) in *.
    assert (dm_ok d2) as Hd2 by (destruct Hd1; split; cbn; congruence).
    destruct write, (size =? 2), (size =? 3); try discriminate; [apply fails_ret|].
    apply fails_emit; [done|lia|unfold debug_abstract_size; destruct (is_fpu_reg regno); cbn [length negb]; lia|].
    intros. apply fails_ret. }
  destruct ((0x1000 <=? regno) && (regno <? 0x1020)).
  { unfold gpr_words, move in Hp. unfold transfer_gpr. destruct write, (size =? 2), (size =? 3); try discriminate; apply fails_ret. }
  destruct ((0x1020 <=? regno) && (regno <? 0x1040) && support_abstract_fpr_access); [|apply fails_ret].
  unfold fpr_words, move in Hp. unfold transfer_fpr. destruct write, (size =? 2), (size =? 3); try discriminate; apply fails_ret.
Qed.

(** The words of the program area, and what a hart that fetches there gets. *)
Definition program_of (ws : list Z) (postexec : bool) : list Z :=
  ws ++ [if postexec then jal ZERO (u32 (debug_progbuf_start - debug_abstract_start - 4 * Z.of_nat (length ws))) else ebreak].

Lemma slice_le32 ws rest k w : ws !! k = Some w -> slice (flat_map le32 ws ++ rest) (4 * Z.of_nat k) 4 = le32 w.
Proof.
  intros Hk. unfold slice. replace (Z.to_nat (4 * Z.of_nat k)) with (4 * k)%nat by lia.
  revert k Hk. induction ws as [|w' ws IH]; intros [|k] Hk; try discriminate.
  - by injection Hk as ->.
  - cbn [flat_map]. replace (4 * S k)%nat with (length (le32 w') + 4 * k)%nat by (cbn [le32 length]; lia).
    rewrite <- app_assoc, drop_app_add. by apply IH.
Qed.

Lemma fetch_program d ws rest k w : debug_abstract d = flat_map le32 ws ++ rest -> (length ws <= 12)%nat ->
  ws !! k = Some w -> load (debug_abstract_start + 4 * Z.of_nat k) 4 d = Some (le32 w).
Proof.
  intros Hp Hl Hk. pose proof (lookup_lt_Some _ _ _ Hk). pose proof (co_progbuf Hcfg).
  unfold load, DEBUG_START, in_region. rewrite Z.add_0_l. set (addr := debug_abstract_start + 4 * Z.of_nat k).
  assert (0x30c <= debug_abstract_start <= 0x350) as Hs.
  { unfold debug_abstract_start, debug_progbuf_start, program_buffer_bytes, debug_data_start, debug_abstract_size.
    destruct support_impebreak; lia. }
  assert (debug_abstract_start <= addr /\ addr + 4 <= debug_abstract_start + 48) by (unfold addr; lia).
  cbv zeta. rewrite wrap_small by lia. unfold debug_abstract_size. change (12 * 4) with 48.
  replace ((DEBUG_ROM_ENTRY <=? addr) && (addr + 4 <=? DEBUG_ROM_ENTRY + Z.of_nat (length debug_rom_raw))) with false
    by (unfold DEBUG_ROM_ENTRY; lia).
  replace ((DEBUG_ROM_WHERETO <=? addr) && (addr + 4 <=? DEBUG_ROM_WHERETO + 4)) with false by (unfold DEBUG_ROM_WHERETO; lia).
  replace ((DEBUG_ROM_FLAGS <=? addr) && (addr + 4 <=? DEBUG_ROM_FLAGS + 1024)) with false by (unfold DEBUG_ROM_FLAGS; lia).
  replace ((debug_abstract_start <=? addr) && (addr + 4 <=? debug_abstract_start + 48)) with true by lia.
  unfold addr. rewrite Z.add_simpl_l, Hp. f_equal. by apply slice_le32.
Qed.

Lemma abstract_program_length regno size write ws : abstract_program regno size write = Some ws -> (length ws <= 11)%nat.
Proof.
  unfold abstract_program, csr_words, gpr_words, fpr_words, move. intros Hw.
  assert (forall fpu : bool, (length (if fpu then [csrw S0 CSR_DSCRATCH0; csrr S0 CSR_MSTATUS; csrw S0 CSR_DSCRATCH1;
      lui S0 (Z.shiftr MSTATUS_FS 12); csrrs ZERO S0 CSR_MSTATUS] else []) <= 5)%nat) by (intros []; cbn; lia).
  assert (forall fpu : bool, (length (if fpu then [csrr S0 CSR_DSCRATCH1; csrw S0 CSR_MSTATUS; csrr S0 CSR_DSCRATCH0] else []) <= 3)%nat)
    by (intros []; cbn; lia).
  destruct (is_fpu_reg regno) eqn:Ef, ((regno <? 0x1000) && support_abstract_csr_access),
    ((0x1000 <=? regno) && (regno <? 0x1020)) eqn:Eg,
    ((0x1020 <=? regno) && (regno <? 0x1040) && support_abstract_fpr_access), write, (size =? 2), (size =? 3);
    try discriminate; injection Hw as <-; repeat rewrite length_app; cbn; try (destruct (_ =? S0)); cbn; lia.
Qed.

(** C30. Abstract commands refine their programs.  For a halted and available hart,
    when no error is pending and no command runs, a register access writes exactly
    the program of the register into the program area, where the hart fetches it
    word by word, with [ebreak] or a jump to the program buffer at its end; it
    raises the hart's go flag and no other, and is busy until the hart reports.
    An access without a program fails as not supported and starts nothing. *)
Theorem abstract_command_refines d id hs f :
  dm_ok d -> cmderr (abstractcs d) = CMDERR_NONE -> busy (abstractcs d) = false ->
  hart_available (hartsel (dmcontrol d)) d = true -> Z.shiftr (command d) 24 = 0 ->
  selected_hart_id d = Some id -> hart_state_at id d = Some hs -> halted hs = true ->
  z2b (get_field (command d) AC_ACCESS_REGISTER_TRANSFER) = true ->
  let regno := get_field (command d) AC_ACCESS_REGISTER_REGNO in
  is_custom regno = false -> at_ (debug_rom_flags d) id = Some f ->
  match abstract_program regno (get_field (command d) AC_ACCESS_REGISTER_AARSIZE)
          (z2b (get_field (command d) AC_ACCESS_REGISTER_WRITE)) with
  | Some ws =>
      let prog := program_of ws (z2b (get_field (command d) AC_ACCESS_REGISTER_POSTEXEC)) in
      exists d', perform_abstract_command d = Some d' /\
        (forall k w, prog !! k = Some w -> load (debug_abstract_start + 4 * Z.of_nat k) 4 d' = Some (le32 w)) /\
        debug_rom_flags d' = <[Z.to_nat id := f .| 1]> (debug_rom_flags d) /\
        busy (abstractcs d') = true /\ cmderr (abstractcs d') = CMDERR_NONE /\
        abstract_command_completed d' = false /\ rti_remaining d' = abstract_rti /\
        dmdata d' = dmdata d /\ program_buffer d' = program_buffer d /\ hart_state d' = hart_state d /\
        acts d' = acts d
  | None => exists m, perform_abstract_command d = Some (fail CMDERR_NOTSUP (set_debug_abstract m d))
  end.
Proof.
  intros Hd He Hb Ha Hc Hid Hhs Hh Ht regno Hcu Hf. set (size := get_field _ AC_ACCESS_REGISTER_AARSIZE).
  set (write := z2b (get_field _ AC_ACCESS_REGISTER_WRITE)).
  assert (perform_abstract_command d = '(r, d1) ← transfer regno size write d;
    match r with
    | None => Some d1
    | Some i => run_program (z2b (get_field (command d) AC_ACCESS_REGISTER_POSTEXEC)) i d1
    end) as Hp.
  { unfold perform_abstract_command. rewrite He, Hb, Ha, Hc. cbn [negb Z.eqb CMDERR_NONE].
    unfold access_register, selected_hart_state. rewrite Hid. cbn [mbind option_bind]. rewrite Hhs. cbn [mbind option_bind].
    rewrite Hh, Ht. done. }
  rewrite Hp. clear Hp. destruct (abstract_program regno size write) as [ws|] eqn:Ew.
  2: { destruct (transfer_unsupported regno size write d Hd Ew Hcu) as [m ->]. by exists m. }
  pose proof (abstract_program_length _ _ _ _ Ew) as Hl. pose proof (ok_abstract d Hd) as Hab. unfold debug_abstract_size in Hab.
  rewrite (transfer_program _ _ _ d ws Ew), emit_run by lia. cbn [mbind option_bind]. rewrite Z.add_0_l.
  set (postexec := z2b (get_field (command d) AC_ACCESS_REGISTER_POSTEXEC)). set (prog := program_of ws postexec).
  unfold run_program. set (d1 := set_debug_abstract _ d).
  set (w := if postexec then jal _ _ else ebreak).
  assert (debug_abstract d1 = flat_map le32 ws ++ skipn (4 * length ws) (debug_abstract d)) as Hd1 by done.
  assert (length (debug_abstract d1) = 48%nat) as Hl1.
  { rewrite Hd1, length_app, flat_map_le32, length_skipn. lia. }
  rewrite emit_run by (cbn [length]; lia). cbn [mbind option_bind].
  set (d2 := set_debug_abstract _ d1).
  assert (debug_abstract d2 = flat_map le32 prog ++ skipn (4 * length prog) (debug_abstract d)) as Hd2.
  { unfold d2. cbn [debug_abstract set_debug_abstract]. unfold splice. rewrite Hd1.
    replace (Z.to_nat (Z.of_nat (length ws) * 4)) with (length (flat_map le32 ws)) by (rewrite flat_map_le32; lia).
    rewrite take_app_length, drop_app_add, skipn_skipn. unfold prog, program_of. fold w.
    rewrite flat_map_app, <- app_assoc. do 3 f_equal. rewrite length_app. cbn [length]. lia. }
  change (selected_hart_id d2) with (selected_hart_id d). rewrite Hid. cbn [mbind option_bind].
  unfold update_flags. change (debug_rom_flags d2) with (debug_rom_flags d). rewrite Hf. cbn [mbind option_bind].
  unfold at_ in Hf. destruct (in_bounds (debug_rom_flags d) id) eqn:Eb; [|discriminate].
  unfold put_at. rewrite Eb. cbn [mbind option_bind]. eexists. split; [reflexivity|]. split; [|by split_and!].
  intros k x Hk. eapply fetch_program; [exact Hd2| |exact Hk]. unfold prog, program_of. rewrite length_app. cbn [length]. lia.
Qed.

(** * The system bus *)

(** The state of the master, but for the countdown. *)
Definition sb_state (d : debug_module_t B) : B * list Z * list Z * sbcs_t * Z :=
  (sba d, sbaddress d, sbdata d, sbcs d, sb_write_wait d).

Lemma rti_abstract_sb d : sb_state (rti_abstract d) = sb_state d /\ sb_read_wait (rti_abstract d) = sb_read_wait d.
Proof. unfold rti_abstract. destruct (0 <? rti_remaining d); by destruct (_ && _). Qed.

Lemma idle_waiting d w : sb_read_wait d = w -> 1 < w -> sb_write_wait d = 0 ->
  sb_state (dm_run_test_idle d) = sb_state d /\ sb_read_wait (dm_run_test_idle d) = w - 1.
Proof.
  intros Hw H1 H0. destruct (rti_abstract_sb d) as [Hs Hr]. unfold dm_run_test_idle, rti_read, rti_write.
  rewrite Hr, Hw. replace (0 <? w) with true by lia. cbn [sb_read_wait set_sb_read_wait].
  replace (w - 1 =? 0) with false by lia. cbn [sb_write_wait set_sb_read_wait].
  replace (sb_write_wait (rti_abstract d)) with (sb_write_wait d) by (symmetry; exact (f_equal snd Hs)).
  rewrite H0. cbn. split; [exact Hs|done].
Qed.

Lemma idle_many k d : sb_read_wait d = 20 -> sb_write_wait d = 0 -> (k < 20)%nat ->
  sb_state (Nat.iter k dm_run_test_idle d) = sb_state d /\
  sb_read_wait (Nat.iter k dm_run_test_idle d) = 20 - Z.of_nat k.
Proof.
  intros Hr Hw. induction k as [|k IH]; intros Hk; [by cbn; rewrite Hr|]. cbn [Nat.iter nat_rect].
  destruct IH as [Hs H2]; [lia|].
  destruct (idle_waiting (Nat.iter k dm_run_test_idle d) (20 - Z.of_nat k)) as [H3 H4]; [done|lia| |].
  { rewrite <- Hw. exact (f_equal snd Hs). }
  split; [by rewrite <- Hs|]. rewrite Nat2Z.inj_succ. etransitivity; [exact H4|lia].
Qed.

(** The data of an answer of [n] bytes. *)
Definition sb_answer (n v : Z) (data : list Z) : list Z :=
  let data := <[0%nat := u32 v]> data in if n =? 8 then <[1%nat := u32 (Z.shiftr v 32)]> data else data.

(** The address after an access of [n] bytes: only its low word counts. *)
Definition sb_next (n : Z) (address : list Z) : list Z :=
  match address with a0 :: rest => u32 (a0 + n) :: rest | [] => [] end.

Lemma sb_size_bits d n : sb_size d = Some n -> sb_access_bits d / 8 = n /\ 0 < n <= 8.
Proof.
  unfold sb_size, sb_access_bits. intros Hz.
  destruct (Z.eqb_spec (sbaccess (sbcs d)) 0) as [->|]; cbn [andb] in Hz.
  { destruct (8 <=? _); [injection Hz as <-; split; [reflexivity|lia]|discriminate]. }
  destruct (Z.eqb_spec (sbaccess (sbcs d)) 1) as [->|]; cbn [andb] in Hz.
  { destruct (16 <=? _); [injection Hz as <-; split; [reflexivity|lia]|discriminate]. }
  destruct (Z.eqb_spec (sbaccess (sbcs d)) 2) as [->|]; cbn [andb] in Hz.
  { destruct (32 <=? _); [injection Hz as <-; split; [reflexivity|lia]|discriminate]. }
  destruct (Z.eqb_spec (sbaccess (sbcs d)) 3) as [->|]; cbn [andb] in H; [|discriminate].
  destruct (64 <=? _); [injection Hz as <-; split; [reflexivity|lia]|discriminate].
Qed.

Lemma sb_autoincrement_run d n a0 a1 a2 a3 : sb_size d = Some n -> autoincrement (sbcs d) = true ->
  sbaddress d = [a0; a1; a2; a3] -> Forall (fun a => 0 <= a < 2 ^ 32) [a1; a2; a3] ->
  sb_autoincrement d = set_sbaddress [u32 (a0 + n); a1; a2; a3] d.
Proof.
  intros Hs Hi Ha Hr. destruct (sb_size_bits d n Hs) as [Hb Hn]. unfold sb_autoincrement. rewrite Hi, Ha, Hb.
  assert ((max_sba_data_width =? 0) = false) as ->.
  { unfold sb_size in Hs. destruct (Z.eqb_spec max_sba_data_width 0) as [E|]; [|done]. rewrite E in Hs.
    cbn in Hs. by rewrite !andb_false_r in Hs. }
  cbn [negb orb nth]. inversion Hr as [|? ? H1 Hr1]; subst. inversion Hr1 as [|? ? H2 Hr2]; subst. inversion Hr2 as [|? ? H3 _]; subst.
  assert (forall x, Z.shiftr (u32 x) 32 = 0) as Hc.
  { intros x. rewrite Z.shiftr_div_pow2 by lia. apply Z.div_small. apply wrap_range. lia. }
  cbv zeta. rewrite !Hc. change (u32 0) with 0. rewrite !Z.add_0_r.
  rewrite !(wrap_small 32 a1), !(wrap_small 32 a2), (wrap_small 32 a3) by done.
  by rewrite (wrap_small 32 (u32 _)) by (apply wrap_range; lia).
Qed.

Lemma sb_read_run d n : sb_size d = Some n ->
  sb_read d =
  let '(r, b) := sb_load (sb_address d) n (sba d) in
  match r with
  | None => sb_error 2 (set_sba b d)
  | Some v => set_sbdata (sb_answer n v (sbdata d)) (set_sba b d)
  end.
Proof.
  intros Hs. unfold sb_read. rewrite Hs. destruct (sb_load _ _ _) as [[v|] b]; [|done]. unfold sb_answer.
  by destruct (n =? 8).
Qed.

Lemma idle_last d n a0 a1 a2 a3 :
  sb_read_wait d = 1 -> sb_write_wait d = 0 -> sb_size d = Some n -> error (sbcs d) = 0 ->
  sbaddress d = [a0; a1; a2; a3] -> Forall (fun a => 0 <= a < 2 ^ 32) [a1; a2; a3] ->
  let d' := dm_run_test_idle d in
  let '(r, b) := sb_load (sb_address d) n (sba d) in
  sb_busy d' = false /\ sba d' = b /\
  match r with
  | Some v => sbdata d' = sb_answer n v (sbdata d) /\ error (sbcs d') = 0 /\
      sbaddress d' = (if autoincrement (sbcs d) then sb_next n (sbaddress d) else sbaddress d)
  | None => error (sbcs d') = 2 /\ sbaddress d' = sbaddress d /\ sbdata d' = sbdata d
  end.
Proof.
  intros Hw H0 Hs He Ha Hr d'. destruct (rti_abstract_sb d) as [Hs1 Hr1]. unfold sb_state in Hs1.
  set (d1 := rti_abstract d) in *. injection Hs1 as E1 E2 E3 E4 E5.
  set (d2 := set_sb_read_wait 0 d1).
  assert (rti_read d1 = sb_done (sb_read d2)) as Hrr.
  { unfold rti_read. rewrite Hr1, Hw. done. }
  assert (sb_size d2 = Some n) as Hs2 by (rewrite <- Hs; unfold sb_size; cbn [sbcs set_sb_read_wait d2]; by rewrite E4).
  assert (sb_address d2 = sb_address d) as Had by (unfold sb_address, d2; cbn [sbaddress set_sb_read_wait]; by rewrite E2).
  rewrite (sb_read_run d2 n Hs2), Had in Hrr. change (sba d2) with (sba d1) in Hrr. rewrite E1 in Hrr.
  destruct (sb_load (sb_address d) n (sba d)) as [r b].
  assert (forall x, sb_read_wait x = 0 -> sb_write_wait x = 0 -> rti_read d1 = x -> d' = x /\ sb_busy x = false) as Hend.
  { intros x Hx1 Hx2 Hx. unfold d', dm_run_test_idle. fold d1. rewrite Hx. unfold rti_write, sb_busy. rewrite Hx1, Hx2. done. }
  destruct r as [v|].
  2: { destruct (Hend (sb_error 2 (set_sba b d2))) as [-> Hb]; [done|by cbn; rewrite E5|by rewrite Hrr|].
       split; [done|]. split; [done|]. cbn. by rewrite E2, E3. }
  set (x := set_sbdata (sb_answer n v (sbdata d2)) (set_sba b d2)) in *.
  assert (sb_done x = sb_autoincrement x) as Hx
    by (unfold sb_done; by replace (error (sbcs x)) with (error (sbcs d)) by (cbn; by rewrite E4); rewrite He).
  rewrite Hx in Hrr. change (sbdata d2) with (sbdata d1) in x.
  assert (sbdata x = sb_answer n v (sbdata d)) as Hxd by (cbn; by rewrite E3).
  destruct (autoincrement (sbcs d)) eqn:Ei.
  - rewrite (sb_autoincrement_run x n a0 a1 a2 a3) in Hrr;
      [|rewrite <- Hs2; done|cbn; by rewrite E4|cbn; by rewrite E2|done].
    match type of Hrr with _ = ?y => destruct (Hend y) as [-> Hb]; [done|by cbn; rewrite E5|exact Hrr|] end.
    split; [done|]. split; [done|]. cbn. rewrite E3, E4, Ha. done.
  - assert (sb_autoincrement x = x) as Hn by (unfold sb_autoincrement; cbn [sbcs x set_sbdata set_sba d2 set_sb_read_wait]; by rewrite E4, Ei).
    rewrite Hn in Hrr. destruct (Hend x) as [-> Hb]; [done|by cbn; rewrite E5|done|].
    split; [done|]. split; [done|]. cbn. by rewrite E2, E3, E4.
Qed.

Lemma idle_19 d : sb_read_wait d = 20 -> sb_write_wait d = 0 -> 
  let dk := Nat.iter 19 dm_run_test_idle d in
  sb_state dk = sb_state d /\ sb_read_wait dk = 1.
Proof. intros H20 Hw dk. destruct (idle_many 19 d H20 Hw) as [Hsk Hrk]; [lia|]. split; [exact Hsk|exact Hrk].
Qed.
Lemma iter_step {A} n (f : A -> A) x : Nat.iter (S n) f x = f (Nat.iter n f x).
Proof. done. Qed.
Lemma idle_20 d : Nat.iter 20 dm_run_test_idle d = dm_run_test_idle (Nat.iter 19 dm_run_test_idle d).
Proof. exact (iter_step 19 dm_run_test_idle d). Qed.
Lemma idle_done d dk n a0 a1 a2 a3 : 
  sb_state dk = sb_state d -> sb_read_wait dk = 1 -> sb_write_wait d = 0 -> sb_size d = Some n -> error (sbcs d) = 0 ->
  sbaddress d = [a0; a1; a2; a3] -> Forall (fun a => 0 <= a < 2 ^ 32) [a1; a2; a3] ->
  let '(r, b) := sb_load (sb_address d) n (sba d) in
  let d' := dm_run_test_idle dk in
  sb_busy d' = false /\ sba d' = b /\
  match r with
  | Some v => sbdata d' = sb_answer n v (sbdata d) /\ error (sbcs d') = 0 /\
      sbaddress d' = (if autoincrement (sbcs d) then sb_next n (sbaddress d) else sbaddress d)
  | None => error (sbcs d') = 2 /\ sbaddress d' = sbaddress d /\ sbdata d' = sbdata d
  end.
Proof.
  intros Hsk Hrk Hw Hs He Ha Hr.
  injection Hsk as K1 K2 K3 K4 K5.
  assert (sb_size dk = Some n) as Hsz by (rewrite <- Hs; unfold sb_size; by rewrite K4).
  pose proof (idle_last dk n a0 a1 a2 a3 Hrk) as Hl. rewrite K5, K4, K2 in Hl. specialize (Hl Hw Hsz He Ha Hr).
  unfold sb_address in *. by rewrite K1, K2, K3 in Hl.
Qed.
Lemma sb_read_done d n a0 a1 a2 a3 :
  sb_read_wait d = 20 -> sb_write_wait d = 0 -> sb_size d = Some n -> error (sbcs d) = 0 ->
  sbaddress d = [a0; a1; a2; a3] -> Forall (fun a => 0 <= a < 2 ^ 32) [a1; a2; a3] ->
  let '(r, b) := sb_load (sb_address d) n (sba d) in
  let d' := Nat.iter 20 dm_run_test_idle d in
  sb_busy d' = false /\ sba d' = b /\
  match r with
  | Some v => sbdata d' = sb_answer n v (sbdata d) /\ error (sbcs d') = 0 /\
      sbaddress d' = (if autoincrement (sbcs d) then sb_next n (sbaddress d) else sbaddress d)
  | None => error (sbcs d') = 2 /\ sbaddress d' = sbaddress d /\ sbdata d' = sbdata d
  end.
Proof.
  intros H20 Hw Hs He Ha Hr. rewrite idle_20. destruct (idle_19 d H20 Hw) as [Hsk Hrk].
  by apply (idle_done d _ n a0 a1 a2 a3).
Qed.

(** C34. A read of the system bus.  With [sbreadonaddr], a write of the low address
    starts one: for 20 cycles of Run-Test/Idle the module is busy and the bus is
    not touched, and a write of the data in that time only sets [sbbusyerror]; at
    the last cycle the bus is read exactly once, at the address and with the size
    asked for, and the data or the error are there.  An automatic increment adds
    the size to the low word of the address alone: the sum is one of 32 bits, and
    its carry is lost. *)
Theorem system_bus_read d value n a0 a1 a2 a3 :
  dm_ok d -> authenticated (dmstatus d) = true -> sb_read_wait d = 0 -> sb_write_wait d = 0 ->
  sbbusyerror (sbcs d) = false -> error (sbcs d) = 0 -> readonaddr (sbcs d) = true -> sb_size d = Some n ->
  sbaddress d = [a0; a1; a2; a3] -> Forall (fun a => 0 <= a < 2 ^ 32) [value; a1; a2; a3] ->
  exists d1, dm_write DM_SBADDRESS0 value d = Some (true, d1) /\
    (forall k, (k < 20)%nat -> let dk := Nat.iter k dm_run_test_idle d1 in
      sb_busy dk = true /\ sba dk = sba d /\ sbdata dk = sbdata d /\
      forall v, write_sbdata 0 v dk = set_sbcs (set_sbbusyerror true (sbcs dk)) dk) /\
    let d' := Nat.iter 20 dm_run_test_idle d1 in
    let '(r, b) := sb_load (Z.shiftl a1 32 .| value) n (sba d) in
    sb_busy d' = false /\ sba d' = b /\
    match r with
    | Some v => sbdata d' = sb_answer n v (sbdata d) /\ error (sbcs d') = 0 /\
        sbaddress d' = [if autoincrement (sbcs d) then u32 (value + n) else value; a1; a2; a3]
    | None => error (sbcs d') = 2 /\ sbaddress d' = [value; a1; a2; a3] /\ sbdata d' = sbdata d
    end.
Proof.
  intros Hd Hau Hw0 Hw1 Hbe He Hra Hs Ha Hr.
  rewrite dm_write_register by (done || tauto || (unfold DM_SBADDRESS0; lia)).
  set (d1 := set_sb_read_wait 20 (set_sbaddress [value; a1; a2; a3] d)).
  assert (write_register DM_SBADDRESS0 value d = Some (Some d1)) as ->.
  { change (write_register DM_SBADDRESS0 value d) with (Some (Some (write_sbaddress 0 value d))).
    unfold write_sbaddress, sb_busy, sb_read_start. rewrite Hw0, Hw1, Ha. cbn [Z.ltb Z.compare orb].
    cbn [Nat.eqb sbcs set_sbaddress]. rewrite He, Hra. cbn [Z.eqb andb]. unfold sb_busy.
    cbn [sb_read_wait sb_write_wait set_sbaddress sbcs]. rewrite Hw0, Hw1, Hbe. done. }
  cbn [mbind option_bind]. exists d1. split; [done|]. 
  assert (sb_read_wait d1 = 20 /\ sb_write_wait d1 = 0) as [H20 H0] by done. split.
  - intros k Hk. destruct (idle_many k d1 H20 H0 Hk) as [Hsk Hrk]. set (dk := Nat.iter k dm_run_test_idle d1) in *.
    assert (sb_busy dk = true) as Hb by (unfold sb_busy; rewrite Hrk; by replace (0 <? 20 - Z.of_nat k) with true by lia).
    injection Hsk as K1 K2 K3 K4 K5. split_and!; [done..|]. intros v. unfold write_sbdata. by rewrite Hb.
  - inversion Hr as [|? ? Hv Hr3]; subst.
    pose proof (sb_read_done d1 n value a1 a2 a3 H20 H0 Hs He eq_refl Hr3) as Hl.
    change (sb_address d1) with (Z.shiftl a1 32 .| value) in Hl. change (sba d1) with (sba d) in Hl.
    destruct (sb_load (Z.shiftl a1 32 .| value) n (sba d)) as [[v|] b]; [|exact Hl].
    destruct Hl as (L1 & L2 & L3 & L4 & L5). split_and!; try done.
    change (autoincrement (sbcs d1)) with (autoincrement (sbcs d)) in L5. rewrite L5. by destruct (autoincrement (sbcs d)).
Qed.

End invariant.

(** * A concrete module

    Two harts, authentication, and a bus of bytes that takes aligned accesses. *)
Section demo.

#[local] Instance demo_debug : debug_config := {|
  progbufsize := 2; max_sba_data_width := 64; require_authentication := true; abstract_rti := 0; support_hasel := true;
  support_abstract_csr_access := true; support_abstract_fpr_access := true; support_haltgroups := true;
  support_impebreak := true; hartids := [0; 1]; random := fun n => 1000 + Z.of_nat n |}.
#[local] Instance flat_bus : system_bus (gmap Z Z) := {|
  sb_load a n m := (if a mod n =? 0 then Some (foldr (fun i x => default 0 (m !! (a + i)) + 256 * x) 0 (zseq n)) else None, m);
  sb_store a n x m :=
    if a mod n =? 0 then (true, foldr (fun i m => <[a + i := u8 (Z.shiftr x (8 * i))]> m) m (zseq n)) else (false, m) |}.

Definition demo_new : debug_module_t (gmap Z Z) :=
  new_debug_module 0 0 [0; 0; 0; 0] [0; 0; 0; 0] false (<[0x1000 := 7]> (<[0x1001 := 1]> ∅)).

Lemma demo_config_ok : config_ok.
Proof. split; try done. repeat constructor; cbn; lia. Qed.

(** After authentication: active, hart 0 halted. *)
Definition demo_ops : list dm_op := [
  Dmi_write DM_AUTHDATA 1001; Dmi_write DM_DMCONTROL 1; Dmi_write DM_AUTHDATA 1002; Dmi_write DM_DMCONTROL 1;
  Hart_store DEBUG_ROM_HALTED (le32 0)].
Definition demo_dm : debug_module_t (gmap Z Z) := default demo_new (run_ops demo_ops demo_new).

Lemma demo_ops_ok : Forall op_ok demo_ops.
Proof.
  repeat constructor; cbn; try (unfold DM_AUTHDATA, DM_DMCONTROL, DEBUG_ROM_HALTED; lia).
  intros _. exists 0. split; [by left|done].
Qed.

Lemma debug_module_never_fails_witness :
  exists d, run_ops demo_ops demo_new = Some d /\ dm_ok d /\ authenticated (dmstatus d) = true.
Proof.
  destruct (debug_module_never_fails demo_config_ok demo_ops 0 0 [0; 0; 0; 0] [0; 0; 0; 0] false
    (<[0x1000 := 7]> (<[0x1001 := 1]> ∅)) ltac:(done) demo_ops_ok) as (d & Hr & Hd).
  exists d. split; [exact Hr|]. split; [exact Hd|]. revert Hr. vm_compute. intros [= <-]. reflexivity.
Defined.

Lemma demo_new_ok : dm_ok demo_new.
Proof. by apply new_ok; [apply demo_config_ok|]. Qed.

Lemma demo_dm_ok : dm_ok demo_dm.
Proof.
  unfold demo_dm. generalize demo_new_ok. generalize demo_new. intros d0 Hd.
  assert (forall ops d, Forall op_ok ops -> dm_ok d -> safe (run_ops ops d)) as Hs.
  { induction ops as [|op ops IH]; intros d Ho Hk; [by apply safe_some|]. inversion Ho; subst. cbn [run_ops].
    apply safe_bind; [by apply run_op_safe; [apply demo_config_ok|..]|]. by intros; apply IH. }
  destruct (Hs demo_ops d0 demo_ops_ok Hd) as (d & -> & Hk). exact Hk.
Qed.

Lemma debug_authentication_witness :
  exists d, run_writes [(DM_DMCONTROL, 1); (DM_COMMAND, 0x221008); (DM_AUTHDATA, 5); (DM_DMCONTROL, 0x80000001)] demo_new = Some d /\
    authenticated (dmstatus d) = false /\ hart_state d = hart_state demo_new.
Proof.
  destruct (debug_authentication demo_config_ok
    [(DM_DMCONTROL, 1); (DM_COMMAND, 0x221008); (DM_AUTHDATA, 5); (DM_DMCONTROL, 0x80000001)] demo_new
    ltac:(done) demo_new_ok ltac:(done) ltac:(repeat constructor; cbn; lia)) as [(d & Hr & Ha & Hf)|(ws1 & ws2 & d1 & _ & Hr & _ & _ & r & d2 & _)].
  - exists d. split; [exact Hr|]. split; [exact Ha|]. apply Hf.
  - eexists. split; [vm_compute; reflexivity|]. split; vm_compute; reflexivity.
Defined.

(** [lw s0, 0x380(zero); csrw s0, dscratch0; ebreak]. *)
Lemma abstract_command_refines_witness :
  exists d', perform_abstract_command (set_command 0x231008 demo_dm) = Some d' /\ busy (abstractcs d') = true /\
    load (debug_abstract_start + 4 * Z.of_nat 0) 4 d' = Some (le32 0x38002403).
Proof.
  pose proof (abstract_command_refines demo_config_ok (set_command 0x231008 demo_dm) 0 (mk_hart_state true false false 0) 0) as H.
  pose proof (set_command_ok 0x231008 demo_dm demo_dm_ok) as Hd.
  specialize (H Hd ltac:(vm_compute; reflexivity) ltac:(vm_compute; reflexivity) ltac:(vm_compute; reflexivity)
    ltac:(vm_compute; reflexivity) ltac:(vm_compute; reflexivity) ltac:(vm_compute; reflexivity) ltac:(vm_compute; reflexivity)
    ltac:(vm_compute; reflexivity) ltac:(vm_compute; reflexivity) ltac:(vm_compute; reflexivity)).
  replace (abstract_program _ _ _) with (Some [0x38002403; 0x7b241073]) in H by (vm_compute; reflexivity).
  destruct H as (d' & Hp & Hl & _ & Hb & _). exists d'. split; [exact Hp|]. split; [exact Hb|].
  apply (Hl 0%nat). reflexivity.
Defined.

(** A read of two bytes at [0x1000], with [sbreadonaddr] and an increment. *)
Definition demo_sba : debug_module_t (gmap Z Z) :=
  set_sbcs (mk_sbcs 1 true 1 true false 0 64 false true true true true false) demo_dm.

Lemma system_bus_read_witness :
  exists d1, dm_write DM_SBADDRESS0 0x1000 demo_sba = Some (true, d1) /\
    sbdata (Nat.iter 20 dm_run_test_idle d1) = [0x107; 0; 0; 0] /\
    sbaddress (Nat.iter 20 dm_run_test_idle d1) = [0x1002; 0; 0; 0].
Proof.
  pose proof (set_sbcs_ok (mk_sbcs 1 true 1 true false 0 64 false true true true true false) demo_dm demo_dm_ok) as Hd.
  destruct (system_bus_read demo_config_ok demo_sba 0x1000 2 0 0 0 0 Hd
    ltac:(vm_compute; reflexivity) ltac:(vm_compute; reflexivity) ltac:(vm_compute; reflexivity)
    ltac:(vm_compute; reflexivity) ltac:(vm_compute; reflexivity) ltac:(vm_compute; reflexivity)
    ltac:(vm_compute; reflexivity) ltac:(vm_compute; reflexivity) ltac:(repeat constructor; lia))
    as (d1 & Hw & _ & H).
  replace (sb_load (Z.shiftl 0 32 .| 0x1000) 2 (sba demo_sba)) with (Some 0x107, sba demo_sba) in H by (vm_compute; reflexivity).
  exists d1. split; [exact Hw|]. destruct H as (_ & _ & Hs & _ & Ha).
  replace (sb_answer 2 0x107 (sbdata demo_sba)) with [0x107; 0; 0; 0] in Hs by (vm_compute; reflexivity).
  replace (autoincrement (sbcs demo_sba)) with true in Ha by (vm_compute; reflexivity).
  split; [exact Hs|exact Ha].
Defined.

End demo.
