(* ===== verification/JtagFacts.v ===== *)
(** Facts on the JTAG transport: five clocks reset the TAP from anywhere, a scan
    exchanges the data register with the bits of the debugger, and a scan of
    [IR_DBUS] makes exactly one access to the debug module, or none while the
    last one is not complete. *)

From S2P Require Import Prelude IntArith Decode DebugDefines JtagDtm Trap Hart DebugModule HartFacts DebugFacts.

Section jtag.
Context {D : Type} `{!dmi_target D} (required_rti_cycles : Z).
Implicit Types (j : jtag_dtm_t D) (b : bool).

(** * Clocks

    The debugger sets the pins with the clock low, samples [tdo], and raises the
    clock. *)

Definition clock (m i : bool) (j : jtag_dtm_t D) : option (bool * jtag_dtm_t D) :=
  j1 ← set_pins required_rti_cycles false m i j;
  j2 ← set_pins required_rti_cycles true m i j1;
  Some (tdo j1, j2).

Definition set_pin_values (c m i o : bool) (j : jtag_dtm_t D) : jtag_dtm_t D :=
  mk_jtag c m i o (ir j) (dr j) (dr_length j) (dtmcontrol j) (dmi j) (bypass j)
    (rti_remaining j) (busy_stuck j) (state j) (dm j).
(** The transport but for its pins. *)
Definition pinless (j : jtag_dtm_t D) : jtag_dtm_t D := set_pin_values false false false false j.

Lemma clock_run m i j :
  clock m i j =
  j1 ← negative_edge required_rti_cycles j;
  Some (tdo j1, set_pin_values true m i (tdo j1)
    (positive_edge (set_pin_values false m i (tdo j1) j1))).
Proof.
  unfold clock, set_pins. rewrite andb_false_r. destruct (negative_edge _ j) as [j1|]; [|done].
  cbn. unfold positive_edge, set_pin_values. cbn. destruct (state j1); reflexivity.
Qed.

(** A clock in a state without an action. *)
Lemma clock_quiet m i j :
  negative_edge required_rti_cycles j = Some j -> state j <> SHIFT_DR -> state j <> SHIFT_IR ->
  clock m i j = Some (tdo j, set_pin_values true m i (tdo j) (set_state (next (state j) m) j)).
Proof.
  intros He H1 H2. rewrite clock_run, He. cbn. unfold positive_edge. cbn [state set_pin_values tms].
  by destruct (state j).
Qed.

(** * Reset *)

Fixpoint clocks (l : list (bool * bool)) (j : jtag_dtm_t D) : option (jtag_dtm_t D) :=
  match l with [] => Some j | (m, i) :: l => '(_, j) ← clock m i j; clocks l j end.

Lemma dmi_op_field : is_field DMI_OP 2 0.
Proof. by split; [|lia]. Qed.
Lemma dmi_data_field : is_field DMI_DATA 32 2.
Proof. by split; [|lia]. Qed.
Lemma dmi_address_field : is_field DMI_ADDRESS 7 34.
Proof. by split; [|lia]. Qed.

Definition dmi_address_range v : 0 <= get_field v DMI_ADDRESS < 128 := get_field_range v _ _ _ dmi_address_field.
Definition dmi_data_range v : 0 <= get_field v DMI_DATA < 2 ^ 32 := get_field_range v _ _ _ dmi_data_field.

Section safe.
Context `{!dmi_safe D}.

Lemma update_dr_safe j : dmi_inv (dm j) ->
  exists j1, update_dr required_rti_cycles j = Some j1 /\
    (state j1 = state j \/ state j1 = TEST_LOGIC_RESET) /\ dmi_inv (dm j1).
Proof.
  intros Hi. unfold update_dr. destruct (ir j =? IR_DTMCONTROL).
  { eexists. split; [reflexivity|]. destruct (negb _), (negb _); cbn; tauto. }
  destruct (ir j =? IR_BYPASS); [by eexists; cbn; eauto|].
  destruct (_ && _); [|eauto].
  pose proof (dmi_address_range (dr j)) as Ha. pose proof (dmi_data_range (dr j)) as Hd.
  unfold dbus_access. destruct (_ =? DMI_OP_READ).
  { destruct (safe_read _ _ Ha Hi) as (r & d & -> & Hi'). destruct r; cbn; eauto. }
  destruct (_ =? DMI_OP_WRITE); [|cbn; eauto].
  destruct (safe_write _ _ _ Ha Hd Hi) as (r & d & -> & Hi'). cbn; eauto.
Qed.

Lemma negative_edge_safe j : dmi_inv (dm j) ->
  exists j1, negative_edge required_rti_cycles j = Some j1 /\
    (state j1 = state j \/ state j1 = TEST_LOGIC_RESET) /\ dmi_inv (dm j1).
Proof.
  intros Hi. unfold negative_edge.
  destruct (state j) eqn:E; try (eexists; split; [reflexivity|]; cbn; by eauto).
  - set (j1 := if 0 <? rti_remaining j then set_rti_remaining (rti_remaining j - 1) j else j).
    assert (dm j1 = dm j /\ state j1 = state j) as [Ed Es] by (unfold j1; by destruct (0 <? _)).
    rewrite Ed. destruct (safe_idle _ Hi) as (d & -> & Hi'). eexists. split; [reflexivity|].
    cbn [state dm set_dm]. rewrite Es. eauto.
  - eexists. split; [reflexivity|]. unfold capture_dr. rewrite <- E. repeat case_match; cbn; eauto.
  - rewrite <- E. by apply update_dr_safe.
Qed.

Lemma clock_safe m i j : dmi_inv (dm j) ->
  exists o j', clock m i j = Some (o, j') /\ dmi_inv (dm j') /\
    (state j' = next (state j) m \/ state j' = next TEST_LOGIC_RESET m).
Proof.
  intros Hi. destruct (negative_edge_safe j Hi) as (j1 & He & Hs & Hi1).
  rewrite clock_run, He. cbn. do 2 eexists. split; [reflexivity|].
  unfold positive_edge. cbn [state set_pin_values tms set_state dm].
  split; [by destruct (state j1)|]. destruct Hs as [-> | ->]; [left|right]; done.
Qed.

(** Wherever the TAP is, and whatever the debugger was doing, five clocks with
    [TMS] high bring it to Test-Logic-Reset, where the next clock selects
    [IR_IDCODE]; the debug module keeps its invariant. *)
Theorem tap_reset i j :
  dmi_inv (dm j) ->
  exists j', clocks (replicate 5 (true, i)) j = Some j' /\ state j' = TEST_LOGIC_RESET /\ dmi_inv (dm j') /\
    exists o j'', clock false i j' = Some (o, j'') /\ ir j'' = IR_IDCODE /\ state j'' = RUN_TEST_IDLE.
Proof.
  intros Hi. cbn [replicate clocks].
  destruct (clock_safe true i j Hi) as (o1 & j1 & -> & Hi1 & Hs1). cbn [mbind option_bind].
  destruct (clock_safe true i j1 Hi1) as (o2 & j2 & -> & Hi2 & Hs2). cbn [mbind option_bind].
  destruct (clock_safe true i j2 Hi2) as (o3 & j3 & -> & Hi3 & Hs3). cbn [mbind option_bind].
  destruct (clock_safe true i j3 Hi3) as (o4 & j4 & -> & Hi4 & Hs4). cbn [mbind option_bind].
  destruct (clock_safe true i j4 Hi4) as (o5 & j5 & -> & Hi5 & Hs5). cbn [mbind option_bind].
  assert (state j5 = TEST_LOGIC_RESET) as E.
  { destruct (state j), Hs1 as [H1|H1]; rewrite H1 in Hs2; destruct Hs2 as [H2|H2]; rewrite H2 in Hs3;
      destruct Hs3 as [H3|H3]; rewrite H3 in Hs4; destruct Hs4 as [H4|H4]; rewrite H4 in Hs5; by destruct Hs5. }
  exists j5. split_and!; [done..|]. rewrite clock_run. unfold negative_edge. rewrite E. cbn.
  do 2 eexists. split; [reflexivity|]. unfold positive_edge. cbn. rewrite E. done.
Qed.

End safe.

(** * Scans *)

(** The bits on [TDI], the last one with [TMS] high: what [TDO] answers. *)
Fixpoint shift (bits : list bool) (j : jtag_dtm_t D) : option (list bool * jtag_dtm_t D) :=
  match bits with
  | [] => Some ([], j)
  | b :: bits =>
      '(o, j) ← clock (bool_decide (bits = [])) b j;
      '(os, j) ← shift bits j; Some (o :: os, j)
  end.

(** A scan of the data register, from Run-Test/Idle and back to it. *)
Definition scan_dr (bits : list bool) (j : jtag_dtm_t D) : option (list bool * jtag_dtm_t D) :=
  j ← clocks [(true, false); (false, false); (false, false)] j;
  '(os, j) ← shift bits j;
  j ← clocks [(true, false); (false, false)] j;
  Some (os, j).

Fixpoint bits_value (bits : list bool) : Z :=
  match bits with [] => 0 | b :: bits => b2z b + 2 * bits_value bits end.
Definition bits_of (n : nat) (x : Z) : list bool := map (fun i => Z.testbit x (Z.of_nat i)) (seq 0 n).

Lemma bits_value_range bits : 0 <= bits_value bits < 2 ^ Z.of_nat (length bits).
Proof.
  induction bits as [|b bits IH]; cbn [bits_value length]; [done|].
  rewrite Nat2Z.inj_succ, Z.pow_succ_r by lia. destruct b; cbn [b2z]; lia.
Qed.

Lemma bits_value_of n x : 0 <= x < 2 ^ Z.of_nat n -> bits_value (bits_of n x) = x.
Proof.
  revert x. induction n as [|n IH]; intros x Hx; [cbn in *; lia|].
  unfold bits_of. cbn [seq map bits_value]. rewrite <- seq_shift, map_map.
  rewrite (map_ext _ (fun i => Z.testbit (x / 2) (Z.of_nat i))).
  - fold (bits_of n (x / 2)). rewrite Nat2Z.inj_succ, Z.pow_succ_r in Hx by lia.
    rewrite IH by (split; [apply Z.div_pos; lia|apply Z.div_lt_upper_bound; lia]).
    rewrite Z.bit0_odd. pose proof (Z.div_mod x 2 ltac:(lia)) as E.
    rewrite Zmod_odd in E. destruct (Z.odd x); cbn [b2z]; lia.
  - intros i. rewrite Nat2Z.inj_succ.
    replace (x / 2) with (Z.shiftr x 1) by (by rewrite Z.shiftr_div_pow2). by rewrite Z.shiftr_spec by lia.
Qed.

(** What one clock of a shift does to the data register of [n] bits. *)
Lemma shift_step n b x :
  0 < n <= 64 -> 0 <= x < 2 ^ n ->
  Z.lor (Z.shiftr x 1) (u64 (Z.shiftl (Z.b2z b) (n - 1))) = x / 2 + b2z b * 2 ^ (n - 1) /\
  0 <= x / 2 + b2z b * 2 ^ (n - 1) < 2 ^ n.
Proof.
  intros Hn Hx. assert (2 ^ n = 2 * 2 ^ (n - 1)) as E by (rewrite <- Z.pow_succ_r by lia; f_equal; lia).
  assert (0 <= x / 2 < 2 ^ (n - 1)) as Hd
    by (split; [apply Z.div_pos; lia|apply Z.div_lt_upper_bound; lia]).
  assert (u64 (Z.shiftl (Z.b2z b) (n - 1)) = b2z b * 2 ^ (n - 1)) as ->.
  { rewrite Z.shiftl_mul_pow2 by lia. unfold wrap. rewrite Z.mod_small; [by destruct b|].
    pose proof (Z.pow_le_mono_r 2 n 64 ltac:(lia) ltac:(lia)). destruct b; cbn [Z.b2z]; lia. }
  rewrite Z.shiftr_div_pow2, Z.pow_1_r by lia. split; [|destruct b; cbn [b2z]; lia].
  rewrite <- Z.lxor_lor, <- Z.add_nocarry_lxor; try done; apply Z.bits_inj'; intros k Hk;
    rewrite Z.land_spec, Z.bits_0; destruct (Z.lt_ge_cases k (n - 1)) as [Hlt|Hge].
  all: try (rewrite Z.mul_pow2_bits_low by lia; apply andb_false_r).
  all: rewrite <- (Z.mod_small (x / 2) (2 ^ (n - 1))) by lia.
  all: by rewrite Z.mod_pow2_bits_high by lia.
Qed.

Lemma bits_of_S n x : bits_of (S n) x = Z.odd x :: map (fun i => Z.testbit x (Z.of_nat i + 1)) (seq 0 n).
Proof.
  unfold bits_of. cbn [seq map]. rewrite <- seq_shift, map_map, <- Z.bit0_odd. f_equal.
  apply map_ext. intros i. by rewrite Nat2Z.inj_succ.
Qed.

(** A bit of the register after a clock is the one above it before. *)
Lemma shift_bit n b x i :
  0 < n <= 64 -> 0 <= x < 2 ^ n -> 0 <= i < n - 1 ->
  Z.testbit (x / 2 + b2z b * 2 ^ (n - 1)) i = Z.testbit x (i + 1).
Proof.
  intros Hn Hx Hi. rewrite <- (proj1 (shift_step n b x Hn Hx)), Z.lor_spec, Z.shiftr_spec by lia.
  unfold wrap. rewrite Z.mod_pow2_bits_low, Z.shiftl_spec by lia.
  rewrite (Z.testbit_neg_r _ (i - (n - 1))) by lia. apply orb_false_r.
Qed.

(** The transport in [SHIFT_DR] with the register [x]. *)
Definition shifting (x : Z) (j0 j : jtag_dtm_t D) : Prop :=
  pinless j = pinless (set_state SHIFT_DR (set_dr x j0)).

Lemma clock_shift m b x j0 j :
  0 < dr_length j0 <= 64 -> 0 <= x < 2 ^ dr_length j0 -> shifting x j0 j ->
  exists j', clock m b j = Some (Z.odd x, j') /\
    pinless j' = pinless (set_state (next SHIFT_DR m) (set_dr (x / 2 + b2z b * 2 ^ (dr_length j0 - 1)) j0)).
Proof.
  intros Hn Hx Hj. unfold shifting in Hj. rewrite clock_run. unfold negative_edge.
  assert (state j = SHIFT_DR /\ dr j = x /\ dr_length j = dr_length j0) as (Es & Ex & El)
    by (split_and!; [exact (f_equal state Hj)|exact (f_equal dr Hj)|exact (f_equal dr_length Hj)]).
  rewrite Es. cbn. rewrite Ex. eexists. split; [reflexivity|].
  unfold positive_edge. cbn. rewrite Es. cbn. rewrite Ex, El, (proj1 (shift_step _ b _ Hn Hx)).
  destruct j, j0. unfold pinless, set_pin_values, set_state, set_dr in *. cbn in *. congruence.
Qed.

Lemma shift_run bits x j0 j :
  0 < dr_length j0 <= 64 -> 0 <= x < 2 ^ dr_length j0 -> bits <> [] ->
  Z.of_nat (length bits) <= dr_length j0 -> shifting x j0 j ->
  exists j', shift bits j = Some (bits_of (length bits) x, j') /\
    pinless j' = pinless (set_state EXIT1_DR
      (set_dr (x / 2 ^ Z.of_nat (length bits) +
               bits_value bits * 2 ^ (dr_length j0 - Z.of_nat (length bits))) j0)).
Proof.
  revert x j. induction bits as [|b bits IH]; [done|]; intros x j Hn Hx _ Hl Hj.
  cbn [length] in Hl. rewrite Nat2Z.inj_succ in Hl. cbn [shift].
  destruct (clock_shift (bool_decide (bits = [])) b x j0 j Hn Hx Hj) as (j1 & -> & Hj1). cbn [mbind option_bind].
  destruct (shift_step (dr_length j0) b x Hn Hx) as [_ Hx1].
  set (x1 := x / 2 + b2z b * 2 ^ (dr_length j0 - 1)) in *.
  destruct bits as [|b' bits].
  { cbn. exists j1. split; [by rewrite Z.bit0_odd|]. cbn in Hj1. rewrite Hj1. do 3 f_equal.
    unfold x1. cbn. rewrite Z.pow_1_r. lia. }
  assert (shifting x1 j0 j1) as Hs by exact Hj1.
  destruct (IH x1 j1 Hn Hx1 ltac:(done) ltac:(lia) Hs) as (j2 & -> & Hj2). cbn [mbind option_bind].
  exists j2. split.
  - change (length (b :: b' :: bits)) with (S (length (b' :: bits))). rewrite bits_of_S.
    do 3 f_equal. apply map_ext_in. intros i Hi%in_seq.
    apply (shift_bit (dr_length j0)); [lia..|]. cbn [length] in *. lia.
  - rewrite Hj2. do 3 f_equal. change (bits_value (b :: b' :: bits)) with (b2z b + 2 * bits_value (b' :: bits)).
    set (v := bits_value (b' :: bits)). set (k := Z.of_nat (length (b' :: bits))) in *.
    replace (Z.of_nat (length (b :: b' :: bits))) with (k + 1) by (unfold k; cbn [length]; lia).
    assert (0 < k < dr_length j0) by (unfold k; cbn [length] in *; lia).
    unfold x1. replace (dr_length j0 - 1) with ((dr_length j0 - (k + 1)) + k) by lia.
    rewrite Z.pow_add_r, Z.mul_assoc, Z.div_add by lia.
    rewrite Z.div_div by lia. replace (2 * 2 ^ k) with (2 ^ (k + 1)) by (rewrite Z.pow_add_r by lia; lia).
    replace (2 ^ (dr_length j0 - k)) with (2 * 2 ^ (dr_length j0 - (k + 1))); [ring|].
    rewrite <- Z.pow_succ_r by lia. f_equal. lia.
Qed.

(** The actions do not look at the pins. *)
Lemma capture_pinless j : capture_dr (pinless j) = pinless (capture_dr j).
Proof.
  unfold capture_dr. change (ir (pinless j)) with (ir j).
  change (rti_remaining (pinless j)) with (rti_remaining j). change (busy_stuck (pinless j)) with (busy_stuck j).
  by repeat case_match.
Qed.
Lemma update_pinless j : update_dr required_rti_cycles (pinless j) = pinless <$> update_dr required_rti_cycles j.
Proof.
  unfold update_dr. cbn [ir dr busy_stuck dm pinless set_pin_values].
  destruct (ir j =? IR_DTMCONTROL); [by destruct (negb _), (negb _)|].
  destruct (ir j =? IR_BYPASS); [done|]. destruct (_ && _); [|done].
  by destruct (dbus_access _ _ _ _ _) as [[[]]|].
Qed.
Lemma update_same_pins j j' : pinless j = pinless j' ->
  pinless <$> update_dr required_rti_cycles j = pinless <$> update_dr required_rti_cycles j'.
Proof. intros E. by rewrite <- !update_pinless, E. Qed.

Lemma clock_no_shift m i j j1 :
  negative_edge required_rti_cycles j = Some j1 -> state j1 <> SHIFT_DR -> state j1 <> SHIFT_IR ->
  exists j', clock m i j = Some (tdo j1, j') /\ pinless j' = pinless (set_state (next (state j1) m) j1).
Proof.
  intros He H1 H2. rewrite clock_run, He. cbn. eexists. split; [reflexivity|].
  unfold positive_edge. cbn [state set_pin_values tms]. by destruct (state j1).
Qed.

(** The length of the data register an instruction selects. *)
Definition register_length (ir : Z) : option Z :=
  if ir =? IR_IDCODE then Some 32 else if ir =? IR_DTMCONTROL then Some 32
  else if ir =? IR_DBUS then Some 41 else if ir =? IR_BYPASS then Some 1 else None.

Record jtag_ok (j : jtag_dtm_t D) : Prop := {
  jo_dtmcontrol : 0 <= dtmcontrol j < 2 ^ 32;
  jo_dmi : 0 <= dmi j < 2 ^ 41;
  jo_bypass : 0 <= bypass j < 2 }.

Lemma capture_range n j : register_length (ir j) = Some n -> jtag_ok j ->
  dr_length (capture_dr j) = n /\ 0 <= dr (capture_dr j) < 2 ^ n /\ 0 < n <= 64.
Proof.
  unfold register_length, capture_dr. intros Hn [H1 H2 H3].
  destruct (_ =? IR_IDCODE); [injection Hn as <-; cbn; unfold idcode; lia|].
  destruct (_ =? IR_DTMCONTROL); [injection Hn as <-; cbn [dr dr_length set_dr set_dr_length]; lia|].
  destruct (_ =? IR_DBUS).
  - injection Hn as <-. destruct (_ || _); cbn [dr dr_length set_dr set_dr_length set_busy_stuck];
      unfold DMI_OP_STATUS_BUSY, abits; lia.
  - destruct (_ =? IR_BYPASS); [|done]. injection Hn as <-. cbn [dr dr_length set_dr set_dr_length]. lia.
Qed.

(** The scan without its clocks: a cycle of Run-Test/Idle, the capture, the
    exchange of the register with the bits, and the update. *)
Definition scan_spec (bits : list bool) (j : jtag_dtm_t D) : option (list bool * jtag_dtm_t D) :=
  j1 ← negative_edge required_rti_cycles j;
  j2 ← update_dr required_rti_cycles (set_dr (bits_value bits) (capture_dr j1));
  Some (bits_of (length bits) (dr (capture_dr j1)), pinless (set_state RUN_TEST_IDLE j2)).

Lemma idle_edge j j1 : state j = RUN_TEST_IDLE -> negative_edge required_rti_cycles j = Some j1 ->
  exists d, run_test_idle (dm j) = Some d /\
    j1 = set_dm d (if 0 <? rti_remaining j then set_rti_remaining (rti_remaining j - 1) j else j).
Proof.
  intros Es. unfold negative_edge. rewrite Es.
  assert (dm (if 0 <? rti_remaining j then set_rti_remaining (rti_remaining j - 1) j else j) = dm j) as ->
    by (by destruct (0 <? _)).
  destruct (run_test_idle (dm j)) as [d|]; [|done]. cbn. intros [= <-]. eauto.
Qed.

Lemma update_state j j1 : update_dr required_rti_cycles j = Some j1 ->
  state j1 = state j \/ state j1 = TEST_LOGIC_RESET.
Proof.
  unfold update_dr. intros E. repeat case_match; try discriminate; try (injection E as <-; first [by left|by right]).
  destruct (dbus_access _ _ _ _ _) as [[[]]|]; [|discriminate]. injection E as <-. by left.
Qed.

Lemma clocks_in j j1 :
  state j = RUN_TEST_IDLE -> negative_edge required_rti_cycles j = Some j1 -> state j1 = RUN_TEST_IDLE ->
  exists j2, clocks [(true, false); (false, false); (false, false)] j = Some j2 /\
    pinless j2 = pinless (set_state SHIFT_DR (capture_dr j1)).
Proof.
  intros Es He Es1. cbn [clocks].
  destruct (clock_no_shift true false j j1 He) as (a & -> & Ha); [by rewrite Es1..|]. cbn [mbind option_bind].
  rewrite Es1 in Ha. cbn [next] in Ha.
  assert (state a = SELECT_DR_SCAN) as Sa by exact (f_equal state Ha).
  destruct (clock_no_shift false false a a) as (b & -> & Hb); [unfold negative_edge; by rewrite Sa|by rewrite Sa..|].
  cbn [mbind option_bind]. rewrite Sa in Hb. cbn [next] in Hb.
  assert (state b = CAPTURE_DR) as Sb by exact (f_equal state Hb).
  destruct (clock_no_shift false false b (capture_dr b)) as (c & -> & Hc);
    [unfold negative_edge; by rewrite Sb|..].
  1,2: assert (state (capture_dr b) = state b) as -> by (unfold capture_dr; by repeat case_match); by rewrite Sb.
  cbn [mbind option_bind]. exists c. split; [done|]. rewrite Hc.
  assert (state (capture_dr b) = CAPTURE_DR) as -> by (rewrite <- Sb; unfold capture_dr; by repeat case_match).
  cbn [next].
  assert (pinless (capture_dr b) = pinless (set_state CAPTURE_DR (capture_dr j1))) as Hcap.
  { rewrite <- capture_pinless, Hb.
    change (pinless (set_state CAPTURE_DR a)) with (set_state CAPTURE_DR (pinless a)). rewrite Ha.
    unfold capture_dr. by repeat (case_match; cbn in *; try done). }
  change (pinless (set_state SHIFT_DR (capture_dr b))) with (set_state SHIFT_DR (pinless (capture_dr b))).
  by rewrite Hcap.
Qed.

Lemma update_set_state s j :
  set_state RUN_TEST_IDLE <$> update_dr required_rti_cycles (set_state s j) =
  set_state RUN_TEST_IDLE <$> update_dr required_rti_cycles j.
Proof.
  unfold update_dr. cbn [ir dr busy_stuck dm set_state].
  destruct (ir j =? IR_DTMCONTROL); [by destruct (negb _), (negb _)|].
  destruct (ir j =? IR_BYPASS); [done|]. destruct (_ && _); [|done].
  by destruct (dbus_access _ _ _ _ _) as [[[]]|].
Qed.

Lemma clocks_out j : state j = EXIT1_DR ->
  pinless <$> clocks [(true, false); (false, false)] j =
  pinless <$> (set_state RUN_TEST_IDLE <$> update_dr required_rti_cycles j).
Proof.
  intros Es. cbn [clocks].
  destruct (clock_no_shift true false j j) as (a & -> & Ha); [unfold negative_edge; by rewrite Es|by rewrite Es..|].
  cbn [mbind option_bind]. rewrite Es in Ha. cbn [next] in Ha.
  assert (state a = UPDATE_DR) as Sa by exact (f_equal state Ha).
  pose proof (update_same_pins _ _ Ha) as Hu. rewrite <- (update_set_state UPDATE_DR j).
  assert (negative_edge required_rti_cycles a = update_dr required_rti_cycles a) as En
    by (unfold negative_edge; by rewrite Sa).
  destruct (update_dr required_rti_cycles a) as [b|] eqn:Eb.
  2: { rewrite clock_run, En. cbn. by destruct (update_dr _ (set_state UPDATE_DR j)). }
  pose proof (update_state _ _ Eb) as Sb. rewrite Sa in Sb.
  destruct (clock_no_shift false false a b En) as (c & -> & Hc); [by destruct Sb as [-> | ->]..|].
  cbn [mbind option_bind]. destruct (update_dr _ (set_state UPDATE_DR j)) as [u|]; [|done].
  pose proof (inj Some (pinless b) (pinless u) Hu) as Hb. cbn. f_equal. rewrite Hc.
  replace (next (state b) false) with RUN_TEST_IDLE by (by destruct Sb as [-> | ->]).
  exact (f_equal (set_state RUN_TEST_IDLE) Hb).
Qed.

Lemma scan_run n bits j :
  state j = RUN_TEST_IDLE -> register_length (ir j) = Some n -> jtag_ok j -> Z.of_nat (length bits) = n ->
  (fun '(o, j') => (o, pinless j')) <$> scan_dr bits j = scan_spec bits j.
Proof.
  intros Es Hr Hok Hl. unfold scan_dr, scan_spec.
  destruct (negative_edge required_rti_cycles j) as [j1|] eqn:He.
  2: { cbn [clocks]. by rewrite clock_run, He. }
  destruct (idle_edge j j1 Es He) as (d & _ & Ej1).
  assert (state j1 = RUN_TEST_IDLE /\ ir j1 = ir j /\ jtag_ok j1) as (Es1 & Er1 & Hok1).
  { rewrite Ej1. destruct Hok. by destruct (0 <? _). }
  destruct (clocks_in j j1 Es He Es1) as (j2 & -> & Hj2). cbn [mbind option_bind].
  rewrite <- Er1 in Hr. destruct (capture_range n j1 Hr Hok1) as (Hd & Hx & Hn).
  set (c := capture_dr j1) in *.
  assert (shifting (dr c) c j2) as Hs by (unfold shifting; rewrite Hj2; by destruct c).
  destruct (shift_run bits (dr c) c j2) as (j3 & -> & Hj3); [by rewrite Hd..| |lia|done|].
  { intros ->. cbn in Hl. lia. }
  cbn [mbind option_bind]. rewrite Hl, Hd, Z.sub_diag, Z.div_small, Z.add_0_l, Z.mul_1_r in Hj3 by done.
  assert (state j3 = EXIT1_DR) as S3 by exact (f_equal state Hj3).
  pose proof (clocks_out j3 S3) as Ho.
  pose proof (update_same_pins _ _ Hj3) as Hu.
  pose proof (update_set_state EXIT1_DR (set_dr (bits_value bits) c)) as Hu2.
  destruct (clocks _ j3) as [j4|], (update_dr required_rti_cycles j3) as [u3|]; try discriminate;
    destruct (update_dr _ (set_state EXIT1_DR _)) as [u2|]; try discriminate;
    destruct (update_dr _ (set_dr _ c)) as [u|]; try discriminate; cbn; [|done].
  pose proof (inj Some (pinless j4) (pinless (set_state RUN_TEST_IDLE u3)) Ho) as ->.
  pose proof (inj Some (pinless u3) (pinless u2) Hu) as Hu'.
  pose proof (inj Some (set_state RUN_TEST_IDLE u2) (set_state RUN_TEST_IDLE u) Hu2) as Hu2'.
  do 2 f_equal. rewrite <- Hu2'. exact (f_equal (set_state RUN_TEST_IDLE) Hu').
Qed.

(** * Accesses to the debug module *)

(** The word of the data register for an access. *)
Definition dmi_word (address data op : Z) : Z :=
  set_field (set_field (set_field 0 DMI_ADDRESS address) DMI_DATA data) DMI_OP op.

Lemma set_field_below x mask w l v n :
  is_field mask w l -> l + w <= n -> 0 <= x < 2 ^ n -> 0 <= set_field x mask v < 2 ^ n.
Proof.
  intros Hf Hn Hx. pose proof Hf as (_ & Hl & Hw & _).
  assert (set_field x mask v = wrap n (set_field x mask v)) as ->; [|apply wrap_range; lia].
  apply Z.bits_inj'. intros i Hi. rewrite tb_wrap, (set_field_spec _ mask w l) by (done || lia).
  destruct (Z.ltb_spec i n); [done|]. cbn [andb].
  replace ((l <=? i) && (i <? l + w)) with false by lia. by rewrite (tb_high n x) by lia.
Qed.

Lemma dmi_word_fields address data op :
  0 <= address < 128 -> 0 <= data < 2 ^ 32 -> 0 <= op < 4 ->
  let x := dmi_word address data op in
  get_field x DMI_ADDRESS = address /\ get_field x DMI_DATA = data /\ get_field x DMI_OP = op /\ 0 <= x < 2 ^ 41.
Proof.
  intros Ha Hd Ho x. unfold x, dmi_word. split; [|split; [|split]].
  - rewrite !get_set_other by reflexivity. by apply (get_set_field _ _ 7 34).
  - rewrite get_set_other by reflexivity. by apply (get_set_field _ _ 32 2).
  - by apply (get_set_field _ _ 2 0).
  - apply (set_field_below _ _ 2 0); [done|lia|]. apply (set_field_below _ _ 32 2); [done|lia|].
    apply (set_field_below _ _ 7 34); [done|lia..].
Qed.

(** What the debug module answers to an access: success, the data that come back,
    and its state after. *)
Definition dmi_answer (op address data : Z) (d : D) : option (bool * Z * D) :=
  if op =? DMI_OP_READ then
    '(r, d) ← dmi_read address d; Some (match r with Some v => (true, v, d) | None => (false, data, d) end)
  else if op =? DMI_OP_WRITE then '(ok, d) ← dmi_write address data d; Some (ok, data, d)
  else Some (true, data, d).

Lemma dbus_access_run op address data x d ok v d' :
  dmi_answer op address data d = Some (ok, v, d') -> get_field x DMI_DATA = data -> 0 <= v < 2 ^ 32 ->
  exists x', dbus_access op address data x d = Some (x', ok, d') /\
    get_field x' DMI_DATA = v /\ get_field x' DMI_ADDRESS = get_field x DMI_ADDRESS /\
    (0 <= x < 2 ^ 41 -> 0 <= x' < 2 ^ 41).
Proof.
  intros H Hx Hv. unfold dmi_answer in H. unfold dbus_access. destruct (op =? DMI_OP_READ).
  { destruct (dmi_read address d) as [[[r|] d1]|]; [..|discriminate]; injection H as <- <- <-; cbn.
    - eexists. split; [reflexivity|]. split; [|split].
      + by apply (get_set_field _ _ 32 2).
      + by rewrite get_set_other by reflexivity.
      + intros. by apply (set_field_below _ _ 32 2); [|lia|].
    - by eexists. }
  destruct (op =? DMI_OP_WRITE); [|injection H as <- <- <-; by eexists].
  destruct (dmi_write address data d) as [[ok1 d1]|]; [|discriminate]. injection H as <- <- <-. by eexists.
Qed.

(** Between two scans, with the data bus selected. *)
Record at_rest (j : jtag_dtm_t D) : Prop := {
  ar_state : state j = RUN_TEST_IDLE;
  ar_ir : ir j = IR_DBUS;
  ar_ok : jtag_ok j }.

Lemma capture_dbus j : ir j = IR_DBUS ->
  capture_dr j = set_dr_length 41
    (if (0 <? rti_remaining j) || busy_stuck j then set_busy_stuck true (set_dr DMI_OP_STATUS_BUSY j)
     else set_dr (dmi j) j).
Proof. intros E. unfold capture_dr. by rewrite E. Qed.

Lemma update_dbus j : ir j = IR_DBUS ->
  update_dr required_rti_cycles j =
  if busy_stuck j then Some j else
  '(x, ok, d) ← dbus_access (get_field (dr j) DMI_OP) (get_field (dr j) DMI_ADDRESS) (get_field (dr j) DMI_DATA) (dr j) (dm j);
  Some (set_rti_remaining required_rti_cycles
    (set_dmi (set_field x DMI_OP (if ok : bool then DMI_OP_STATUS_SUCCESS else DMI_OP_STATUS_FAILED)) (set_dm d j))).
Proof. intros E. unfold update_dr. rewrite E. by destruct (busy_stuck j). Qed.

Lemma rest_pins j j' : at_rest j -> pinless j' = pinless j -> at_rest j'.
Proof.
  intros [H1 H2 [H3 H4 H5]] Hj. split; [by rewrite <- H1; exact (f_equal state Hj)|by rewrite <- H2; exact (f_equal ir Hj)|].
  split; [rewrite (f_equal dtmcontrol Hj : dtmcontrol j' = dtmcontrol j)|rewrite (f_equal dmi Hj : dmi j' = dmi j)|
    rewrite (f_equal bypass Hj : bypass j' = bypass j)]; done.
Qed.

(** A scan from its description. *)
Lemma scan_from_spec n bits j o j1 :
  at_rest j -> Z.of_nat (length bits) = n -> n = 41 -> scan_spec bits j = Some (o, j1) -> 
  exists j', scan_dr bits j = Some (o, j') /\ pinless j' = j1.
Proof.
  intros [Es Ei Hok] Hl Hn Hspec.
  assert (register_length (ir j) = Some n) as Hr by (by rewrite Ei, Hn).
  pose proof (scan_run n bits j Es Hr Hok Hl) as H. rewrite Hspec in H.
  destruct (scan_dr bits j) as [[o' j']|]; [|discriminate]. injection H as <- H. exists j'. split; [done|].
  rewrite <- H. by destruct j'.
Qed.

(** C31. A scan of the data bus, 41 bits from Run-Test/Idle, with an operation, an
    address and data.  When the last access is complete, its result comes out
    bit by bit, and the debug module makes exactly the one access that the bits
    ask for, after its cycle of Run-Test/Idle; its answer waits, with the status,
    for the next scan, which must not begin for the cycles required.  While the
    last access is not complete, or after a scan that came too early, the bits
    say busy, the debug module makes no access, and busy sticks. *)
Theorem jtag_dmi address data op j d :
  at_rest j -> 0 <= address < 128 -> 0 <= data < 2 ^ 32 -> 0 <= op < 4 -> run_test_idle (dm j) = Some d ->
  let scan := scan_dr (bits_of 41 (dmi_word address data op)) j in
  (rti_remaining j <= 1 -> busy_stuck j = false ->
    forall ok v d', dmi_answer op address data d = Some (ok, v, d') -> 0 <= v < 2 ^ 32 ->
    exists j', scan = Some (bits_of 41 (dmi j), j') /\ at_rest j' /\ dm j' = d' /\
      rti_remaining j' = required_rti_cycles /\ busy_stuck j' = false /\
      get_field (dmi j') DMI_OP = (if ok then DMI_OP_STATUS_SUCCESS else DMI_OP_STATUS_FAILED) /\
      get_field (dmi j') DMI_DATA = v /\ get_field (dmi j') DMI_ADDRESS = address) /\
  (1 < rti_remaining j \/ busy_stuck j = true ->
    exists j', scan = Some (bits_of 41 DMI_OP_STATUS_BUSY, j') /\ at_rest j' /\ dm j' = d /\
      busy_stuck j' = true /\ dmi j' = dmi j).
Proof.
  intros Hrest Ha Hd Ho Hidle scan. pose proof Hrest as [Es Ei Hok].
  destruct (dmi_word_fields address data op Ha Hd Ho) as (Fa & Fd & Fo & Fx).
  set (x := dmi_word address data op) in *.
  assert (Z.of_nat (length (bits_of 41 x)) = 41) as Hl by (unfold bits_of; by rewrite length_map, length_seq).
  set (r := if 0 <? rti_remaining j then rti_remaining j - 1 else rti_remaining j).
  set (j1 := set_dm d (set_rti_remaining r j)).
  assert (negative_edge required_rti_cycles j = Some j1) as He.
  { unfold negative_edge. rewrite Es. unfold j1, r. destruct (0 <? rti_remaining j); cbn [dm set_rti_remaining];
      rewrite Hidle; [done|]. cbn. by destruct j. }
  assert (forall c j2, capture_dr j1 = c -> update_dr required_rti_cycles (set_dr x c) = Some j2 ->
    exists j', scan = Some (bits_of 41 (dr c), j') /\ pinless j' = pinless (set_state RUN_TEST_IDLE j2)) as Hscan.
  { intros c j2 <- Hu. apply (scan_from_spec 41); [done..|]. unfold scan_spec. rewrite He. cbn [mbind option_bind].
    rewrite bits_value_of by done. rewrite Hu. cbn [mbind option_bind].
    by replace (length (bits_of 41 x)) with 41%nat by lia. }
  assert (forall y b rr dd, 0 <= y < 2 ^ 41 -> at_rest (set_rti_remaining rr (set_busy_stuck b (set_dmi y (set_dm dd
    (set_dr_length 41 (set_dr x (set_state RUN_TEST_IDLE j)))))))) as Hafter by (by intros; split; [..|destruct Hok; split]).
  rewrite (capture_dbus j1) in Hscan by done. cbn [rti_remaining busy_stuck dmi j1 set_dm set_rti_remaining] in Hscan.
  split.
  - intros Hrti Hbusy ok v d' Hans Hv.
    destruct (dbus_access_run op address data x d ok v d' Hans Fd Hv) as (x' & Hacc & Gd & Ga & Gx).
    edestruct Hscan as (j' & Hj & Hp).
    { replace (0 <? r) with false by (unfold r; destruct (Z.ltb_spec 0 (rti_remaining j)); lia). rewrite Hbusy. cbn [orb]. reflexivity. }
    { rewrite update_dbus by done. cbn [busy_stuck dr dm j1 set_dm set_rti_remaining set_dr set_dr_length].
      rewrite Hbusy, Fo, Fa, Fd, Hacc. reflexivity. }
    specialize (Gx Fx). set (y := set_field x' DMI_OP _) in Hp.
    assert (0 <= y < 2 ^ 41) as Hy by (apply (set_field_below _ _ 2 0); [done|lia|done]).
    exists j'. split; [exact Hj|]. split; [apply (rest_pins _ _ (Hafter y (busy_stuck j) required_rti_cycles d' Hy)); exact Hp|].
    rewrite (f_equal dmi Hp : dmi j' = y). split_and!;
      [exact (f_equal dm Hp)|exact (f_equal rti_remaining Hp)|rewrite <- Hbusy; exact (f_equal busy_stuck Hp)|..].
    + apply (get_set_field _ _ 2 0); [done|]. by destruct ok.
    + unfold y. by rewrite get_set_other by reflexivity.
    + unfold y. by rewrite get_set_other, Ga by reflexivity.
  - intros Hb. edestruct Hscan as (j' & Hj & Hp).
    { replace ((0 <? r) || busy_stuck j) with true
        by (unfold r; destruct Hb as [Hb| ->]; [destruct (Z.ltb_spec 0 (rti_remaining j)); lia|by rewrite orb_true_r]).
      reflexivity. }
    { by rewrite update_dbus. }
    exists j'. split; [exact Hj|]. split; [apply (rest_pins _ _ (Hafter (dmi j) true r d (jo_dmi j Hok))); exact Hp|].
    split_and!; [exact (f_equal dm Hp)|exact (f_equal busy_stuck Hp)|exact (f_equal dmi Hp)].
Qed.

End jtag.

(** * The debug module behind its transport *)

Section demo.
#[local] Existing Instance demo_debug.
#[local] Existing Instance flat_bus.
#[local] Existing Instance Dm.debug_module_target.

(** In the middle of a shift. *)
Definition demo_jtag : jtag_dtm_t (Dm.debug_module_t (gmap Z Z)) :=
  set_state SHIFT_DR (set_busy_stuck true (new_jtag 17 5 41 0 false demo_dm)).
(** At rest, with the data bus selected; the first access is complete. *)
Definition demo_dbus : jtag_dtm_t (Dm.debug_module_t (gmap Z Z)) :=
  set_state RUN_TEST_IDLE (new_jtag IR_DBUS 0 41 0 false demo_dm).

Lemma tap_reset_witness :
  exists j, clocks 5 (replicate 5 (true, false)) demo_jtag = Some j /\ state j = TEST_LOGIC_RESET.
Proof.
  destruct (@tap_reset _ _ 5 (debug_module_safe demo_config_ok) false demo_jtag demo_dm_ok) as (j & Hj & Hs & _).
  exists j. split; [exact Hj|exact Hs].
Defined.

Lemma idle_target (d : Dm.debug_module_t (gmap Z Z)) : run_test_idle d = Some (Dm.dm_run_test_idle d).
Proof. done. Qed.

(** A write of 6 to the first data register. *)
Lemma jtag_dmi_witness :
  exists j, scan_dr 5 (bits_of 41 (dmi_word DM_DATA0 6 DMI_OP_WRITE)) demo_dbus = Some (bits_of 41 0, j) /\
    Dm.dmdata (dm j) = [6; 0; 0; 0; 0; 0; 0; 0] /\ get_field (dmi j) DMI_OP = DMI_OP_STATUS_SUCCESS.
Proof.
  assert (at_rest demo_dbus) as Hr by (split; [done|done|split; split; vm_compute; (reflexivity || discriminate)]).
  pose proof (jtag_dmi 5 DM_DATA0 6 DMI_OP_WRITE demo_dbus _ Hr
    ltac:(unfold DM_DATA0; lia) ltac:(lia) ltac:(unfold DMI_OP_WRITE; lia) (idle_target (dm demo_dbus))) as H.
  set (d0 := Dm.dm_run_test_idle (dm demo_dbus)) in H.
  set (d := Dm.set_dmdata [6; 0; 0; 0; 0; 0; 0; 0] d0).
  assert (dmi_answer DMI_OP_WRITE DM_DATA0 6 d0 = Some (true, 6, d)) as Ha by (vm_compute; reflexivity).
  destruct (proj1 H ltac:(vm_compute; discriminate) eq_refl true 6 d Ha ltac:(split; [discriminate|reflexivity]))
    as (j & Hj & _ & Hd & _ & _ & Hok & _).
  exists j. split; [exact Hj|]. split; [|exact Hok]. rewrite Hd. reflexivity.
Defined.

End demo.
